(* ===== verification/_CoqProject ===== *)
-Q . S2P
Prelude.v
Layout.v
Structs.v
Crypt.v
ImportTable.v
Imports.v
Lists.v
Queue.v
Irp.v
IrpQueue.v
Session.v
Apc.v
Smbios.v
Kernel.v
Modules.v
Nmi.v
Drivers.v
SharedMapping.v
Handles.v
Callbacks.v
Hashing.v
ModuleHash.v
DriverList.v
ProcessModule.v
Verification.v
PageWalk.v
PoolScan.v
Pci.v
Hypervisor.v
Disk.v
Timer.v
ApcStackwalk.v
Config.v
Driver.v
Dispatch.v
DriverEntry.v
Client.v
ClientProtocol.v
ClientDispatch.v
