(* ===== verification/Prelude.v ===== *)
(** * A verification library for the ac kernel driver

    [ac] is an anti-cheat driver for Windows (src/driver) with a user-mode
    client (src/module) and a server.  The driver resolves its imports at run
    time, opens a session with the client, keeps track of processes, threads
    and drivers, runs integrity checks on demand, and hands what it finds to
    the client through pending I/O requests.  This library models the C code of
    the driver, and the part of the client that talks to it, as Rocq functions
    and proves what makes it correct, and, where it is not, what goes wrong.

    ** How code is modelled

    - C integers are [Z]; conversions that can lose bits are written out
      ([u8], [u16], [u32], [u64], [s32]).  Addresses are [Z], 0 is [NULL].
    - Code with state runs in [KM S], a state monad over the component's state
      [S] whose failures are faults: a null dereference, an access outside
      mapped memory or an array, a bad free, a deadlock.  A theorem that says a
      run is [Ok] says the code does not bug-check.
    - Statuses are the 32-bit values, and [NT_SUCCESS] is the macro: a signed
      comparison, so that STATUS_ABANDONED counts as success as it does in C.
    - Locks are flags; acquiring a held lock is [Deadlock].
    - Parsers read a byte memory ([memory]); structure offsets are computed
      from the declarations ([offsetof]).
    - Windows is a parameter: a type class of operations (and, where a theorem
      relies on their documented behaviour, a class of laws with an instance
      that satisfies them).  Loops that are not structural take fuel, and the
      theorems give an amount that suffices.

    ** Files

    - Prelude.v: integers, statuses, faults, the monad, arrays, automation.
    - Layout.v, Structs.v: memory, C strings, and the structures of
      types/types.h, common.h, session.c, io.h and modules.h.
    - Crypt.v (crypt.c): the cipher of the import table on 256-bit blocks, the
      search for an entry's block, the cookie cipher.
    - ImportTable.v, Imports.v (imports.c, imports.h): the table of names and
      the 78 thunks; the walk of the loader list and of the PE export
      directory, and the resolution of all imports.
    - Lists.v (list.c): singly linked lists on a heap of [Next] fields.
    - Queue.v (queue.c): the report queue.
    - Irp.v, IrpQueue.v (io.c): validation of request buffers; the cancel-safe
      queue of pending requests and the deferred reports.
    - Session.v (session.c): the client session.
    - Apc.v (apc.c, part of modules.c): the APC contexts and the interleaving
      of the stackwalk with completion queries.
    - Smbios.v (integrity.c): the SMBIOS table parser.
    - Kernel.v: the resources and reports the integrity checks share.
    - Modules.v (modules.c): the module list, region checks and the HAL
      dispatch tables.
    - Nmi.v (modules.c, thread.c, driver.c): stack checks by non-maskable
      interrupt and by deferred procedure call.
    - Drivers.v (modules.c): validation of driver objects.
    - SharedMapping.v (io.c): the page shared with the client, its timer, work
      item and teardown as concurrent steps.
    - Handles.v (callbacks.c): access rights to the protected process, for new
      handles (object-manager callback) and existing ones (handle-table scan).
    - Callbacks.v (callbacks.c, thread.c, the list part of driver.c's unload):
      the lists of processes and threads on the heap of Lists.v, their notify
      routines, and the scans that walk them; the state contains that of
      Handles.v, which contains those of Session.v and Kernel.v.
    - Hashing.v, ModuleHash.v (integrity.c): the executable sections of an image
      and their SHA-256 hashes; the hash of a loaded module, 32-bit images
      through winlogon.
    - DriverList.v (callbacks.c, integrity.c): the list of drivers, image-load
      notifications, the deferred hashing and the verdict on a module.
    - ProcessModule.v (integrity.c): a module of the protected process against
      its file.
    - Verification.v (integrity.c): the concurrent validation of all modules as a
      transition system of a dispatcher and its workers.
    - PageWalk.v, PoolScan.v (pool.c): the walk of the page tables and the search
      of the pool for process objects that are on no list.
    - Pci.v (hw.c): the configuration spaces of the PCI devices.
    - Hypervisor.v (hv.c, part of integrity.c): checks by timing and by
      instructions that exit to a hypervisor, and the use of the cores.
    - Disk.v (integrity.c): the serial number of the disk, the signature scan.
    - Timer.v (callbacks.c, integrity.c): the timer that checks the driver itself,
      with its DPC, its work item and its teardown as concurrent steps.
    - ApcStackwalk.v (modules.c, io.c): the queueing of the APCs of Apc.v over the
      thread list of Callbacks.v, and the routine that runs in the thread.
    - Config.v (driver.c): the name, the path and what the driver gathers about
      the machine when it is loaded.
    - Driver.v (driver.c, callbacks.c): DRIVER_CONFIG as the states of the other
      files side by side; the registration of the object callbacks.
    - Dispatch.v (io.c): opening, closing and the control requests, which run the
      handlers of the other files on the state of Driver.v.
    - DriverEntry.v (driver.c): load and unload on the same state.
    - Client.v (src/module: kernel_interface.cpp and .h, helper.cpp): the client's
      pool of requests, its control requests, and the printing of reports.
    - ClientProtocol.v (kernel_interface.cpp): the threads of the client's
      completion port, the I/O manager and the request queue of IrpQueue.v as
      one transition system; the destructor.
    - ClientDispatch.v (dispatcher/timer.cpp, dispatcher/threadpool.cpp): the
      client's timers and its thread pool.

    The states nest: Kernel.v in Handles.v, in Callbacks.v, in DriverList.v, in
    Timer.v; the state of Driver.v holds that of Timer.v beside those of Apc.v,
    SharedMapping.v, IrpQueue.v, Verification.v, Hypervisor.v and Config.v.  The
    resources of Kernel.v are shared: SharedMapping.v and Config.v get them
    for the length of an operation.

    ** What the theorems show

    - Delivery: whatever the interleaving of reports and client requests, every
      report reaches the client exactly once and in order (IrpQueue.v); the
      output check never returns stale memory (Irp.v); the report queue is a
      FIFO queue (Queue.v).  Two theorems describe the cases where a buffer is
      lost and where the report count goes wrong.
    - Imports: after a successful resolution each thunk calls the routine it is
      named after, through the encrypted table (Imports.v, on top of the
      round trip of Crypt.v); an import that is missing stops the resolution.
    - Lists: any sequence of operations refines the same operations on
      mathematical lists, and cleanup frees each entry once (Lists.v).
    - Session: an invariant over any sequence of operations, and the three
      outcomes of starting a session (Session.v).
    - APCs: the completion query frees exactly the finished contexts; an
      inductive invariant over all interleavings shows that no step uses a
      freed context once allocation is marked, and two theorems show the window
      before that and the wrong free on unload (Apc.v).
    - Parsing: the SMBIOS walk reaches the adjacent structure, and the string
      lookup is characterised for every index (Smbios.v).
    - Integrity checks: each request gives back every block, handle, reference,
      lock, registration and flag on every path, and sends exactly the reports
      its specification lists (Modules.v, Nmi.v, Drivers.v).  What is leaked or
      freed wrongly is stated exactly.
    - Tracking: any sequence of process and thread notifications refines an
      abstract history, with every object reference accounted for; unloading
      gives back what the entries hold, and two theorems state what is leaked
      and where process entries are freed wrongly (Callbacks.v).  The scans over
      the lists report exactly the attached threads and strip exactly the
      listed rights from exactly the handles they should (Callbacks.v,
      Handles.v).
    - Shared mapping: an invariant over the interleavings of timer, work item,
      teardown and client requests shows that none faults while the teardown
      finds no waiting work item; another theorem shows that it does not check
      for one (SharedMapping.v).

    - Hashing and drivers: the reply lists exactly the executable sections within
      the buffer (Hashing.v); the driver list follows the loaded images, its
      hashes are those of the images' first executable section, and the verdict
      compares them (DriverList.v); the check of a process module gives back what
      it maps (ProcessModule.v).
    - Validation: under all interleavings no module is validated twice, the
      workers terminate, and enough requests complete it; further theorems show
      the schedules that fault (Verification.v).
    - Memory: the walk computes the translation of the page tables (PageWalk.v),
      and the search reports exactly the process objects it found that are not
      listed (PoolScan.v).
    - Machine: the hooks flagged are those slower than the threshold, the timing
      checks report what they measured (Hypervisor.v); the flagged PCI devices
      are those with a listed vendor and device (Pci.v); the serial number of the
      disk on every branch (Disk.v); the environment and the serial number of the
      board (Config.v).
    - Timer: no step uses the timer's objects after they are freed, when the timer
      does not expire in a window that another theorem shows to be real (Timer.v).
    - Requests: without a session every request is refused and changes nothing;
      every other request is completed exactly once; a launch starts a session;
      closing the device ends it (Dispatch.v).  Two theorems describe a
      registration that is lost and a request completed too early.
    - Load and unload: a load registers everything or nothing, whatever fails; an
      unload with nothing outstanding returns and gives back everything; one
      theorem describes the failure that leaves the timer armed (DriverEntry.v).
    - Client: the structures the client declares have the layout of the driver's,
      so that a report is shown with the values the driver wrote (Client.v); every
      report the driver makes is printed exactly once, and a schedule that prints
      them all always exists; a refused request leaks its event, and the
      destructor frees buffers that the driver still holds (ClientProtocol.v).
      The timer and pool theorems state when a callback runs and in which order
      jobs start, and where a removal is counted twice, a lock is released twice
      and a relative time is taken for an absolute one (ClientDispatch.v).

    ** Bounds and fuel

    The search of Crypt.v needs [BlockSize] rounds.  The walks of Imports.v and
    Smbios.v take fuel at least as large as the list or the table they walk.
    Lists.v needs one round per entry, and the walks of Callbacks.v and
    DriverList.v take as many as there are blocks on the heap; the deferred list
    needs its length and one round more.  The wait for a running work item needs
    one round once it has finished.  The wait for deferred procedure calls
    needs one round, that for a core one more than the yields until the thread
    runs on it.  [patience] of Dispatch.v is the fuel of the first two.  The waits
    of DriverEntry.v take the steps of the other threads as a list and need none
    when nothing is outstanding.  The schedule of ClientProtocol.v that prints
    all reports is bounded by the measure [work]; reading a string in Client.v
    takes the length of the buffer and one round more.  Counters are kept at their C width; theorems
    that rely on a counter not wrapping say so.

    ** What is not modelled

    Debug output, paging pragmas and the timing of delays have no counterpart.
    The declarations of ia32.h are the processor's; the bit fields of page-table
    entries that pool.c reads are in PageWalk.v.  The request dispatch runs one
    request at a time on the state of the whole driver, while the components that
    race (APCs, timer, validation, shared mapping, request queue) have their own
    transition systems.  A load that succeeds is described by what it registers;
    that its lists then satisfy what the unload assumes is not proved.  Of the
    client, the named pipe, the entry point and the start-up are not modelled:
    they only call the system.  The server, the service and the tests are other
    programs. *)

From stdpp Require Export prelude gmap strings list.
From Stdlib Require Export ZArith Lia.

#[global] Open Scope Z_scope.

(** ** Machine integers

    Every C integer is a [Z]; arithmetic that can leave the width of its type
    goes through one of these truncations, as the conversion to the declared
    type does in C. *)

Definition u8 (x : Z) : Z := x mod 2 ^ 8.
Definition u16 (x : Z) : Z := x mod 2 ^ 16.
Definition u32 (x : Z) : Z := x mod 2 ^ 32.
Definition u64 (x : Z) : Z := x mod 2 ^ 64.
Definition s32 (x : Z) : Z := (x + 2 ^ 31) mod 2 ^ 32 - 2 ^ 31.

Definition is_u32 (x : Z) : Prop := 0 <= x < 2 ^ 32.
Definition is_u64 (x : Z) : Prop := 0 <= x < 2 ^ 64.

Lemma u8_small x : 0 <= x < 2 ^ 8 -> u8 x = x.
Proof. apply Z.mod_small. Qed.

Lemma u16_small x : 0 <= x < 2 ^ 16 -> u16 x = x.
Proof. apply Z.mod_small. Qed.

Lemma u32_small x : 0 <= x < 2 ^ 32 -> u32 x = x.
Proof. apply Z.mod_small. Qed.

Lemma u64_small x : 0 <= x < 2 ^ 64 -> u64 x = x.
Proof. apply Z.mod_small. Qed.

Lemma s32_small x : - 2 ^ 31 <= x < 2 ^ 31 -> s32 x = x.
Proof. intros. unfold s32. rewrite Z.mod_small; lia. Qed.

Lemma u32_range x : 0 <= u32 x < 2 ^ 32.
Proof. apply Z.mod_pos_bound. lia. Qed.

Lemma u64_range x : 0 <= u64 x < 2 ^ 64.
Proof. apply Z.mod_pos_bound. lia. Qed.

Lemma u8_range x : 0 <= u8 x < 2 ^ 8.
Proof. apply Z.mod_pos_bound. lia. Qed.

Lemma u32_idemp x : u32 (u32 x) = u32 x.
Proof. apply u32_small, u32_range. Qed.

Lemma u64_idemp x : u64 (u64 x) = u64 x.
Proof. apply u64_small, u64_range. Qed.

Lemma s32_range x : - 2 ^ 31 <= s32 x < 2 ^ 31.
Proof.
  unfold s32. pose proof (Z.mod_pos_bound (x + 2 ^ 31) (2 ^ 32)). lia.
Qed.

(** Exclusive or keeps its operands' width. *)
Lemma lxor_range w a b :
  0 <= w -> 0 <= a < 2 ^ w -> 0 <= b < 2 ^ w -> 0 <= Z.lxor a b < 2 ^ w.
Proof.
  intros Hw Ha Hb.
  rewrite <- (Z.mod_small a (2 ^ w)), <- (Z.mod_small b (2 ^ w)) by lia.
  rewrite <- !Z.land_ones by lia.
  assert (Z.lxor (Z.land a (Z.ones w)) (Z.land b (Z.ones w))
          = Z.land (Z.lxor a b) (Z.ones w)) as ->.
  { apply Z.bits_inj'; intros n Hn.
    rewrite ?Z.lxor_spec, ?Z.land_spec, ?Z.lxor_spec.
    by destruct (Z.testbit a n), (Z.testbit b n), (Z.testbit (Z.ones w) n). }
  rewrite Z.land_ones by lia. apply Z.mod_pos_bound. lia.
Qed.

Lemma lxor_cancel a k : Z.lxor (Z.lxor a k) k = a.
Proof. by rewrite Z.lxor_assoc, Z.lxor_nilpotent, Z.lxor_0_r. Qed.

(** ** NTSTATUS

    A status is the 32 bits the kernel returns; [NT_SUCCESS] is the macro of
    the kernel headers, a signed comparison with zero. *)

Definition NTSTATUS := Z.

Definition NT_SUCCESS (status : NTSTATUS) : bool := 0 <=? s32 status.

Definition STATUS_SUCCESS : NTSTATUS := 0x00000000.
Definition STATUS_ABANDONED : NTSTATUS := 0x00000080.
Definition STATUS_PENDING : NTSTATUS := 0x00000103.
Definition STATUS_UNSUCCESSFUL : NTSTATUS := 0xC0000001.
Definition STATUS_INFO_LENGTH_MISMATCH : NTSTATUS := 0xC0000004.
Definition STATUS_INVALID_PARAMETER : NTSTATUS := 0xC000000D.
Definition STATUS_ALREADY_COMMITTED : NTSTATUS := 0xC0000021.
Definition STATUS_ACCESS_DENIED : NTSTATUS := 0xC0000022.
Definition STATUS_BUFFER_TOO_SMALL : NTSTATUS := 0xC0000023.
Definition STATUS_INSUFFICIENT_RESOURCES : NTSTATUS := 0xC000009A.
Definition STATUS_MEMORY_NOT_ALLOCATED : NTSTATUS := 0xC00000A0.
Definition STATUS_NOT_SUPPORTED : NTSTATUS := 0xC00000BB.
Definition STATUS_CANCELLED : NTSTATUS := 0xC0000120.
Definition STATUS_INVALID_ADDRESS : NTSTATUS := 0xC0000141.
Definition STATUS_INVALID_MEMBER : NTSTATUS := 0xC000017B.
Definition STATUS_INVALID_BUFFER_SIZE : NTSTATUS := 0xC0000206.
Definition STATUS_NOT_FOUND : NTSTATUS := 0xC0000225.
Definition STATUS_INVALID_IMAGE_WIN_32 : NTSTATUS := 0xC0000359.
Definition STATUS_FAILED_DRIVER_ENTRY : NTSTATUS := 0xC0000365.
Definition STATUS_HASH_NOT_PRESENT : NTSTATUS := 0xC000A101.
Definition STATUS_SYSTEM_INTEGRITY_POLICY_VIOLATION : NTSTATUS := 0xC0E90002.

(** ** Faults and the kernel monad

    Code that dereferences pointers, frees memory or takes locks runs in a
    state monad whose failures are the ways the machine stops: they are values
    here, so that "this call never crashes" and "this call always crashes" are
    both statements the kernel can check. *)

Inductive fault :=
  | NullDereference
  | UnmappedRead
  | OutOfBounds
  | BadFree
  | Deadlock
  | DivideByZero
  | MissingReturn
  | OutOfFuel.

#[export] Instance fault_eq_dec : EqDecision fault.
Proof. solve_decision. Defined.

Inductive res (A : Type) :=
  | Ok (a : A)
  | Crash (f : fault).
Arguments Ok {A} a.
Arguments Crash {A} f.

#[export] Instance res_ret : MRet res := fun A a => Ok a.
#[export] Instance res_bind : MBind res :=
  fun A B k m => match m with Ok a => k a | Crash f => Crash f end.

Definition KM (S A : Type) : Type := S -> res (A * S).

#[export] Instance KM_ret {S} : MRet (KM S) := fun A a s => Ok (a, s).
#[export] Instance KM_bind {S} : MBind (KM S) :=
  fun A B k m s => match m s with Ok (a, s') => k a s' | Crash f => Crash f end.

Definition get {S} : KM S S := fun s => Ok (s, s).
Definition put {S} (s : S) : KM S unit := fun _ => Ok (tt, s).
Definition modify {S} (f : S -> S) : KM S unit := fun s => Ok (tt, f s).
Definition gets {S A} (f : S -> A) : KM S A := fun s => Ok (f s, s).
Definition crash {S A} (f : fault) : KM S A := fun _ => Crash f.
Definition when {S} (b : bool) (m : KM S unit) : KM S unit :=
  if b then m else mret tt.
Definition of_option {S A} (f : fault) (o : option A) : KM S A :=
  match o with Some a => mret a | None => crash f end.

(** One step of a computation whose first action is known. *)
Lemma KM_step {S A B} (m : KM S A) (k : A -> KM S B) s a s' :
  m s = Ok (a, s') -> (m ≫= k) s = k a s'.
Proof. intros H. unfold mbind, KM_bind. by rewrite H. Qed.

(** One loop iteration per list element, in order. *)
Fixpoint mforeach {S A} (body : A -> KM S unit) (l : list A) : KM S unit :=
  match l with
  | [] => mret tt
  | x :: l => body x ≫= fun _ => mforeach body l
  end.

(** The indices of [for (i = lo; i < lo + n; i++)]. *)
Definition iota (lo : Z) (n : nat) : list Z :=
  (fun i : nat => lo + Z.of_nat i) <$> seq 0 n.

Lemma elem_of_iota lo n i : i ∈ iota lo n <-> lo <= i < lo + Z.of_nat n.
Proof.
  unfold iota. rewrite list_elem_of_fmap. split.
  - intros (k & -> & Hk). apply elem_of_seq in Hk. lia.
  - intros Hi. exists (Z.to_nat (i - lo)). split; [lia|].
    apply elem_of_seq. lia.
Qed.

Lemma length_iota lo n : length (iota lo n) = n.
Proof. unfold iota. by rewrite length_fmap, length_seq. Qed.

Lemma iota_S lo n : iota lo (S n) = lo :: iota (lo + 1) n.
Proof.
  unfold iota. cbn [seq fmap list_fmap]. f_equal; [lia|].
  rewrite <- fmap_S_seq, <- list_fmap_compose.
  apply list_fmap_ext. intros i k _. cbn. lia.
Qed.

(** ** Lists as C arrays

    [arr[i]] with [i] a [Z]; a read outside the array is [None]. *)

Definition znth {A} (l : list A) (i : Z) : option A :=
  if i <? 0 then None else l !! Z.to_nat i.

Definition zset {A} (l : list A) (i : Z) (x : A) : list A :=
  if i <? 0 then l else <[Z.to_nat i := x]> l.

Definition zlen {A} (l : list A) : Z := Z.of_nat (length l).

Lemma zlen_nonneg {A} (l : list A) : 0 <= zlen l.
Proof. unfold zlen. lia. Qed.

Lemma to_nat_zlen {A} (l : list A) : Z.to_nat (zlen l) = length l.
Proof. unfold zlen. lia. Qed.

Lemma zlen_nil {A} : zlen (@nil A) = 0.
Proof. done. Qed.

Lemma zlen_cons {A} (x : A) l : zlen (x :: l) = zlen l + 1.
Proof. unfold zlen. cbn [length]. lia. Qed.

Lemma zlen_app {A} (k l : list A) : zlen (k ++ l) = zlen k + zlen l.
Proof. unfold zlen. rewrite length_app. lia. Qed.

Lemma znth_Some {A} (l : list A) i :
  0 <= i < zlen l <-> is_Some (znth l i).
Proof.
  unfold znth, zlen. destruct (Z.ltb_spec i 0).
  - split; [lia | intros [? [=]]].
  - rewrite lookup_lt_is_Some. lia.
Qed.

Lemma znth_of_nat {A} (l : list A) (n : nat) : znth l (Z.of_nat n) = l !! n.
Proof. unfold znth. destruct (Z.ltb_spec (Z.of_nat n) 0); [lia|]. by rewrite Nat2Z.id. Qed.

Lemma zset_of_nat {A} (l : list A) (n : nat) x : zset l (Z.of_nat n) x = <[n := x]> l.
Proof. unfold zset. destruct (Z.ltb_spec (Z.of_nat n) 0); [lia|]. by rewrite Nat2Z.id. Qed.

Lemma zlen_zset {A} (l : list A) i x : zlen (zset l i x) = zlen l.
Proof. unfold zset, zlen. case_match; [done|]. by rewrite length_insert. Qed.

Lemma znth_zset_eq {A} (l : list A) i x :
  0 <= i < zlen l -> znth (zset l i x) i = Some x.
Proof.
  unfold znth, zset, zlen. intros. destruct (Z.ltb_spec i 0); [lia|].
  apply list_lookup_insert_eq. lia.
Qed.

Lemma znth_zset_ne {A} (l : list A) i j x :
  i <> j -> znth (zset l i x) j = znth l j.
Proof.
  unfold znth, zset. intros.
  destruct (Z.ltb_spec j 0), (Z.ltb_spec i 0); [done..|].
  apply list_lookup_insert_ne. lia.
Qed.

Lemma zset_middle {A} (d r : list A) x y : zset (d ++ x :: r) (zlen d) y = d ++ y :: r.
Proof.
  unfold zset, zlen. destruct (Z.ltb_spec (Z.of_nat (length d)) 0); [lia|].
  rewrite Nat2Z.id. by rewrite insert_app_r_alt, Nat.sub_diag by lia.
Qed.

(** ** Automation *)

Create HintDb driver.
#[export] Hint Resolve zlen_nonneg u32_range u64_range u8_range s32_range : driver.
Create Rewrite HintDb driver_len.
#[export] Hint Rewrite @length_insert @length_app @length_fmap @length_replicate
  @zlen_zset length_iota : driver_len.

(** Case analysis on the boolean tests of the code. *)
Ltac bool_cases :=
  repeat match goal with
  | H : context [Z.eqb ?a ?b] |- _ => destruct (Z.eqb_spec a b)
  | |- context [Z.eqb ?a ?b] => destruct (Z.eqb_spec a b)
  | H : context [Z.ltb ?a ?b] |- _ => destruct (Z.ltb_spec a b)
  | |- context [Z.ltb ?a ?b] => destruct (Z.ltb_spec a b)
  | H : context [Z.leb ?a ?b] |- _ => destruct (Z.leb_spec a b)
  | |- context [Z.leb ?a ?b] => destruct (Z.leb_spec a b)
  end.

(** Expose the plumbing of [KM] computations. *)
Ltac munfold :=
  cbv [mret mbind KM_ret KM_bind res_ret res_bind get put modify gets crash
       when of_option] in *.
