(* ===== verification/Layout.v ===== *)
(** * Memory, C structures and C strings

    The parts of the driver that parse foreign memory (PE images, SMBIOS
    tables, pool pages, page tables) read a byte-addressed memory.  A memory
    is a partial function from addresses to bytes: reading an address that is
    not mapped is a bug check.  Structure offsets are computed from the
    declarations of the headers, with the natural alignment of the x64 ABI,
    instead of being written down as numbers. *)

From S2P Require Import Prelude.

(** ** Types and layout *)

Inductive cty :=
  | Int (bytes : Z)
  | Arr (n : Z) (t : cty)
  | St (fields : list (string * cty)).

Abbreviation UCHAR := (Int 1).
Abbreviation USHORT := (Int 2).
Abbreviation ULONG := (Int 4).
Abbreviation UINT64 := (Int 8).
Abbreviation PVOID := (Int 8).

Definition align_up (a x : Z) : Z := (x + a - 1) / a * a.

(** Alignment and size of a type; a structure is as aligned as its most
    aligned field and padded to a multiple of that alignment. *)
Fixpoint ty_align (t : cty) : Z :=
  match t with
  | Int b => b
  | Arr _ t => ty_align t
  | St fs =>
      (fix go (fs : list (string * cty)) : Z :=
         match fs with [] => 1 | (_, t) :: fs => Z.max (ty_align t) (go fs) end) fs
  end.

Fixpoint sizeof (t : cty) : Z :=
  match t with
  | Int b => b
  | Arr n t => n * sizeof t
  | St fs =>
      align_up (ty_align (St fs))
        ((fix go (fs : list (string * cty)) (off : Z) : Z :=
            match fs with
            | [] => off
            | (_, t) :: fs => go fs (align_up (ty_align t) off + sizeof t)
            end) fs 0)
  end.

(** [FIELD_OFFSET], -1 when there is no such field. *)
Fixpoint offset_in (fs : list (string * cty)) (off : Z) (f : string) : Z :=
  match fs with
  | [] => -1
  | (g, t) :: fs =>
      if decide (f = g) then align_up (ty_align t) off
      else offset_in fs (align_up (ty_align t) off + sizeof t) f
  end.

Definition offsetof (t : cty) (f : string) : Z :=
  match t with St fs => offset_in fs 0 f | _ => -1 end.

(** ** Memory *)

Definition memory := Z -> option Z.

(** A little-endian load of [n] bytes. *)
Fixpoint load (m : memory) (a : Z) (n : nat) : res Z :=
  match n with
  | O => Ok 0
  | S n =>
      match m a with
      | None => Crash UnmappedRead
      | Some b => hi ← load m (a + 1) n; Ok (b + 256 * hi)
      end
  end.

Definition load8 (m : memory) (a : Z) : res Z := load m a 1.
Definition load16 (m : memory) (a : Z) : res Z := load m a 2.
Definition load32 (m : memory) (a : Z) : res Z := load m a 4.
Definition load64 (m : memory) (a : Z) : res Z := load m a 8.

(** [p->f], for a structure [t] at address [p] and an integer field. *)
Definition load_field (m : memory) (t : cty) (p : Z) (f : string) (n : nat) : res Z :=
  load m (p + offsetof t f) n.

(** The memory that holds [bytes] from address [base] on and nothing else. *)
Definition mem_of (base : Z) (bytes : list Z) : memory :=
  fun a => znth bytes (a - base).

Fixpoint le_bytes (n : nat) (x : Z) : list Z :=
  match n with O => [] | S n => x mod 256 :: le_bytes n (x / 256) end.

Lemma load_le_bytes m a n x :
  0 <= x < 256 ^ Z.of_nat n ->
  (forall i b, le_bytes n x !! i = Some b -> m (a + Z.of_nat i) = Some b) ->
  load m a n = Ok x.
Proof.
  revert a x. induction n as [|n IH]; intros a x Hx Hm; cbn [load].
  - cbn in Hx. f_equal. lia.
  - pose proof (Hm 0%nat _ eq_refl) as H0. rewrite Z.add_0_r in H0. rewrite H0.
    rewrite (IH (a + 1) (x / 256)).
    + munfold. f_equal. pose proof (Z.div_mod x 256). lia.
    + rewrite Nat2Z.inj_succ, Z.pow_succ_r in Hx by lia. split.
      * apply Z.div_pos; lia.
      * apply Z.div_lt_upper_bound; lia.
    + intros i b Hi. replace (a + 1 + Z.of_nat i) with (a + Z.of_nat (S i)) by lia.
      by apply Hm.
Qed.

Lemma length_le_bytes n x : length (le_bytes n x) = n.
Proof. revert x. induction n; intros; cbn; [done|]. by rewrite IHn. Qed.

(** Loading a little-endian integer out of the middle of a buffer. *)
Lemma load_middle pre n x post :
  0 <= x < 256 ^ Z.of_nat n ->
  load (mem_of 0 (pre ++ le_bytes n x ++ post)) (zlen pre) n = Ok x.
Proof.
  intros Hx. apply load_le_bytes; [done|]. intros i b Hi. unfold mem_of.
  rewrite Z.sub_0_r. unfold zlen. rewrite <- Nat2Z.inj_add, znth_of_nat.
  rewrite lookup_app_r by lia. replace (length pre + i - length pre)%nat with i by lia.
  by apply lookup_app_l_Some.
Qed.

(** ** C strings *)

Definition bytes_of_string (s : string) : list Z :=
  (fun c => Z.of_N (Ascii.N_of_ascii c)) <$> String.list_ascii_of_string s.

(** [!strcmp(p, s)] and [!wcscmp(p, s)]: [rd] reads one character and [w] is
    its width in bytes. *)
Fixpoint str_eq (rd : Z -> res Z) (w p : Z) (s : list Z) : res bool :=
  c ← rd p;
  match s with
  | [] => Ok (c =? 0)
  | x :: s => if c =? x then str_eq rd w (p + w) s else Ok false
  end.

Definition strcmp_eq (m : memory) : Z -> list Z -> res bool := str_eq (load8 m) 1.
Definition wcscmp_eq (m : memory) : Z -> list Z -> res bool := str_eq (load16 m) 2.

(** The zero-terminated string [s] is at [p]. *)
Definition str_at (rd : Z -> res Z) (w p : Z) (s : list Z) : Prop :=
  (forall i b, s !! i = Some b -> rd (p + w * Z.of_nat i) = Ok b /\ b <> 0) /\
  rd (p + w * zlen s) = Ok 0.

Definition cstring_at (m : memory) : Z -> list Z -> Prop := str_at (load8 m) 1.
Definition wstring_at (m : memory) : Z -> list Z -> Prop := str_at (load16 m) 2.

Lemma str_at_nil rd w p : str_at rd w p [] <-> rd p = Ok 0.
Proof.
  unfold str_at, zlen. cbn [length]. replace (p + w * Z.of_nat 0) with p by lia.
  split; [intros [_ H]; exact H | intros H; split; [|exact H]]. intros ?? [=].
Qed.

Lemma str_at_cons rd w p b s :
  str_at rd w p (b :: s) <-> rd p = Ok b /\ b <> 0 /\ str_at rd w (p + w) s.
Proof.
  unfold str_at, zlen. cbn [length]. split.
  - intros [H Hz]. destruct (H 0%nat b eq_refl) as [H0 Hb].
    replace (p + w * Z.of_nat 0) with p in H0 by lia.
    split; [done|]. split; [done|]. split.
    + intros i c Hi. destruct (H (S i) c Hi) as [Hm Hc].
      replace (p + w + w * Z.of_nat i) with (p + w * Z.of_nat (S i)) by lia. done.
    + replace (p + w + w * Z.of_nat (length s)) with (p + w * Z.of_nat (S (length s)))
        by lia. done.
  - intros (H0 & Hb & H & Hz). split.
    + intros [|i] c Hi; cbn in Hi.
      * injection Hi as <-. by replace (p + w * Z.of_nat 0) with p by lia.
      * replace (p + w * Z.of_nat (S i)) with (p + w + w * Z.of_nat i) by lia. eauto.
    + by replace (p + w * Z.of_nat (S (length s))) with (p + w + w * Z.of_nat (length s))
        by lia.
Qed.

Lemma str_eq_spec rd w s : forall p t,
  str_at rd w p t -> Forall (fun b => b <> 0) s ->
  str_eq rd w p s = Ok (bool_decide (t = s)).
Proof.
  induction s as [|x s IH]; intros p t Ht Hs; cbn [str_eq];
    [|apply Forall_cons in Hs as [Hx Hs]];
    (destruct t as [|b t];
      [apply str_at_nil in Ht as -> | apply str_at_cons in Ht as (-> & Hb & Ht)]);
    cbn [mbind res_bind].
  - done.
  - destruct (Z.eqb_spec b 0); [lia|done].
  - destruct (Z.eqb_spec 0 x); [lia|done].
  - destruct (Z.eqb_spec b x) as [->|Hne].
    + rewrite (IH _ _ Ht Hs). f_equal. apply bool_decide_ext. naive_solver.
    + f_equal. symmetry. apply bool_decide_eq_false. naive_solver.
Qed.

(** Whether a string is in memory can be computed. *)
Fixpoint str_at_b (rd : Z -> res Z) (w p : Z) (s : list Z) : bool :=
  match rd p, s with
  | Ok c, [] => c =? 0
  | Ok c, b :: s => (c =? b) && negb (b =? 0) && str_at_b rd w (p + w) s
  | Crash _, _ => false
  end.

Lemma str_at_b_sound rd w s : forall p, str_at_b rd w p s = true -> str_at rd w p s.
Proof.
  induction s as [|b s IH]; intros p H; cbn in H; destruct (rd p) eqn:E; try done.
  - apply str_at_nil. rewrite E. f_equal. lia.
  - apply andb_prop in H as [[H1 H2]%andb_prop H3].
    apply str_at_cons. rewrite E. split; [f_equal; lia|]. split; [lia|]. by apply IH.
Qed.

Lemma bytes_of_string_inj s t : bytes_of_string s = bytes_of_string t -> s = t.
Proof.
  unfold bytes_of_string. intros H.
  assert (String.list_ascii_of_string s = String.list_ascii_of_string t) as E.
  { eapply (list_fmap_eq_inj (fun c => Z.of_N (Ascii.N_of_ascii c))); [|exact H].
    intros a b Hab. apply N2Z.inj in Hab.
    by rewrite <- (Ascii.ascii_N_embedding a), Hab, Ascii.ascii_N_embedding. }
  by rewrite <- (String.string_of_list_ascii_of_string s), E,
    String.string_of_list_ascii_of_string.
Qed.

(** [strstr(haystack, needle) != NULL] on whole strings. *)
Fixpoint strstr (haystack needle : string) : bool :=
  String.prefix needle haystack ||
  match haystack with
  | EmptyString => false
  | String _ rest => strstr rest needle
  end.
