(* ===== verification/Structs.v ===== *)
(** * The structures of the headers

    Layouts of the structures the driver exchanges with its client
    (types/types.h, session.c, io.h, modules.h) and of the foreign structures
    it parses (common.h), field by field.  [sizeof] and [offsetof] of Layout.v
    compute sizes and offsets from them. *)

From S2P Require Import Prelude Layout.

(** ** Reports, types/types.h *)

Definition REPORT_NMI_CALLBACK_FAILURE : Z := 50.
Definition REPORT_MODULE_VALIDATION_FAILURE : Z := 60.
Definition REPORT_ILLEGAL_HANDLE_OPERATION : Z := 70.
Definition REPORT_INVALID_PROCESS_ALLOCATION : Z := 80.
Definition REPORT_HIDDEN_SYSTEM_THREAD : Z := 90.
Definition REPORT_ILLEGAL_ATTACH_PROCESS : Z := 100.
Definition REPORT_APC_STACKWALK : Z := 110.
Definition REPORT_DPC_STACKWALK : Z := 120.
Definition REPORT_DATA_TABLE_ROUTINE : Z := 130.
Definition REPORT_INVALID_PROCESS_MODULE : Z := 140.

Definition HYPERVISOR_DETECTION_REPORT : cty := St
  [("aperf_msr_timing_check", Int 4); ("invd_emulation_check", Int 4)].

Definition APC_STACKWALK_BUFFER_SIZE : Z := 500.

Definition APC_STACKWALK_REPORT : cty := St
  [("report_code", Int 4); ("kthread_address", UINT64); ("invalid_rip", UINT64);
   ("driver", Arr APC_STACKWALK_BUFFER_SIZE UCHAR)].

Definition DPC_STACKWALK_REPORT : cty := St
  [("report_code", Int 4); ("kthread_address", UINT64); ("invalid_rip", UINT64);
   ("driver", Arr APC_STACKWALK_BUFFER_SIZE UCHAR)].

Definition MODULE_VALIDATION_FAILURE : cty := St
  [("report_code", Int 4); ("report_type", Int 4); ("driver_base_address", UINT64);
   ("driver_size", UINT64); ("driver_name", Arr 128 UCHAR)].

Definition DATA_TABLE_ROUTINE_BUF_SIZE : Z := 256.

Definition DATA_TABLE_ROUTINE_REPORT : cty := St
  [("report_code", Int 4); ("id", Int 4); ("address", UINT64);
   ("routine", Arr DATA_TABLE_ROUTINE_BUF_SIZE UCHAR)].

Definition NMI_CALLBACK_FAILURE : cty := St
  [("report_code", Int 4); ("were_nmis_disabled", Int 4);
   ("kthread_address", UINT64); ("invalid_rip", UINT64)].

Definition REPORT_INVALID_PROCESS_BUFFER_SIZE : Z := 500.

Definition INVALID_PROCESS_ALLOCATION_REPORT : cty := St
  [("report_code", Int 4); ("process", Arr REPORT_INVALID_PROCESS_BUFFER_SIZE UCHAR)].

Definition HIDDEN_SYSTEM_THREAD_REPORT : cty := St
  [("report_code", Int 4); ("found_in_kthreadlist", Int 4);
   ("found_in_pspcidtable", Int 4); ("thread_address", UINT64);
   ("thread_id", Int 4); ("thread", Arr 500 UCHAR)].

Definition ATTACH_PROCESS_REPORT : cty := St
  [("report_code", Int 4); ("thread_id", ULONG); ("thread_address", UINT64)].

Definition HANDLE_REPORT_PROCESS_NAME_MAX_LENGTH : Z := 64.

Definition OPEN_HANDLE_FAILURE_REPORT : cty := St
  [("report_code", Int 4); ("is_kernel_handle", Int 4); ("process_id", Int 4);
   ("thread_id", Int 4); ("access", Int 4);
   ("process_name", Arr HANDLE_REPORT_PROCESS_NAME_MAX_LENGTH UCHAR)].

Definition MODULE_PATH_LEN : Z := 256.

Definition PROCESS_MODULE_VALIDATION_REPORT : cty := St
  [("report_code", Int 4); ("image_base", UINT64); ("image_size", ULONG);
   ("module_path", Arr MODULE_PATH_LEN USHORT)].

(** ** Packets of the client *)

Definition AES_128_KEY_SIZE : Z := 16.

Definition SESSION_INITIATION_PACKET : cty := St
  [("session_cookie", ULONG); ("session_aes_key", Arr AES_128_KEY_SIZE UCHAR);
   ("protected_process_id", PVOID)].

Definition MAX_MODULE_PATH : Z := 256.

Definition PROCESS_MODULE_INFORMATION : cty := St
  [("module_base", PVOID); ("module_size", Int 8);
   ("module_path", Arr MAX_MODULE_PATH USHORT)].

Definition SHARED_MAPPING_INIT : cty := St [("buffer", PVOID); ("size", Int 8)].

(** ** Foreign structures, common.h *)

Definition LIST_ENTRY : cty := St [("Flink", PVOID); ("Blink", PVOID)].

Definition UNICODE_STRING : cty := St
  [("Length", USHORT); ("MaximumLength", USHORT); ("Buffer", PVOID)].

Definition KLDR_DATA_TABLE_ENTRY : cty := St
  [("InLoadOrderLinks", LIST_ENTRY); ("ExceptionTable", PVOID);
   ("ExceptionTableSize", ULONG); ("GpValue", PVOID); ("NonPagedDebugInfo", PVOID);
   ("DllBase", PVOID); ("EntryPoint", PVOID); ("SizeOfImage", ULONG);
   ("FullDllName", UNICODE_STRING); ("BaseDllName", UNICODE_STRING);
   ("Flags", ULONG); ("LoadCount", USHORT); ("__Unused5", USHORT);
   ("SectionPointer", PVOID); ("CheckSum", ULONG); ("LoadedImports", PVOID);
   ("PatchInformation", PVOID)].

Definition IMAGE_DOS_HEADER : cty := St
  [("e_magic", USHORT); ("e_cblp", USHORT); ("e_cp", USHORT); ("e_crlc", USHORT);
   ("e_cparhdr", USHORT); ("e_minalloc", USHORT); ("e_maxalloc", USHORT);
   ("e_ss", USHORT); ("e_sp", USHORT); ("e_csum", USHORT); ("e_ip", USHORT);
   ("e_cs", USHORT); ("e_lfarlc", USHORT); ("e_ovno", USHORT);
   ("e_res", Arr 4 USHORT); ("e_oemid", USHORT); ("e_oeminfo", USHORT);
   ("e_res2", Arr 10 USHORT); ("e_lfanew", Int 4)].

Definition IMAGE_FILE_HEADER : cty := St
  [("Machine", USHORT); ("NumberOfSections", USHORT); ("TimeDateStamp", ULONG);
   ("PointerToSymbolTable", ULONG); ("NumberOfSymbols", ULONG);
   ("SizeOfOptionalHeader", USHORT); ("Characteristics", USHORT)].

Definition IMAGE_DATA_DIRECTORY : cty := St
  [("VirtualAddress", ULONG); ("Size", ULONG)].

Definition IMAGE_OPTIONAL_HEADER64 : cty := St
  [("Magic", USHORT); ("MajorLinkerVersion", UCHAR); ("MinorLinkerVersion", UCHAR);
   ("SizeOfCode", ULONG); ("SizeOfInitializedData", ULONG);
   ("SizeOfUninitializedData", ULONG); ("AddressOfEntryPoint", ULONG);
   ("BaseOfCode", ULONG); ("ImageBase", UINT64); ("SectionAlignment", ULONG);
   ("FileAlignment", ULONG); ("MajorOperatingSystemVersion", USHORT);
   ("MinorOperatingSystemVersion", USHORT); ("MajorImageVersion", USHORT);
   ("MinorImageVersion", USHORT); ("MajorSubsystemVersion", USHORT);
   ("MinorSubsystemVersion", USHORT); ("Win32VersionValue", ULONG);
   ("SizeOfImage", ULONG); ("SizeOfHeaders", ULONG); ("CheckSum", ULONG);
   ("Subsystem", USHORT); ("DllCharacteristics", USHORT);
   ("SizeOfStackReserve", UINT64); ("SizeOfStackCommit", UINT64);
   ("SizeOfHeapReserve", UINT64); ("SizeOfHeapCommit", UINT64);
   ("LoaderFlags", ULONG); ("NumberOfRvaAndSizes", ULONG);
   ("DataDirectory", Arr 16 IMAGE_DATA_DIRECTORY)].

Definition IMAGE_OPTIONAL_HEADER32 : cty := St
  [("Magic", USHORT); ("MajorLinkerVersion", UCHAR); ("MinorLinkerVersion", UCHAR);
   ("SizeOfCode", ULONG); ("SizeOfInitializedData", ULONG);
   ("SizeOfUninitializedData", ULONG); ("AddressOfEntryPoint", ULONG);
   ("BaseOfCode", ULONG); ("BaseOfData", ULONG); ("ImageBase", ULONG);
   ("SectionAlignment", ULONG); ("FileAlignment", ULONG);
   ("MajorOperatingSystemVersion", USHORT); ("MinorOperatingSystemVersion", USHORT);
   ("MajorImageVersion", USHORT); ("MinorImageVersion", USHORT);
   ("MajorSubsystemVersion", USHORT); ("MinorSubsystemVersion", USHORT);
   ("Win32VersionValue", ULONG); ("SizeOfImage", ULONG); ("SizeOfHeaders", ULONG);
   ("CheckSum", ULONG); ("Subsystem", USHORT); ("DllCharacteristics", USHORT);
   ("SizeOfStackReserve", ULONG); ("SizeOfStackCommit", ULONG);
   ("SizeOfHeapReserve", ULONG); ("SizeOfHeapCommit", ULONG);
   ("LoaderFlags", ULONG); ("NumberOfRvaAndSizes", ULONG);
   ("DataDirectory", Arr 16 IMAGE_DATA_DIRECTORY)].

Definition LOCAL_NT_HEADER : cty := St
  [("Signature", ULONG); ("FileHeader", IMAGE_FILE_HEADER);
   ("OptionalHeader", IMAGE_OPTIONAL_HEADER32)].

Definition IMAGE_EXPORT_DIRECTORY : cty := St
  [("Characteristics", ULONG); ("TimeDateStamp", ULONG); ("MajorVersion", USHORT);
   ("MinorVersion", USHORT); ("Name", ULONG); ("Base", ULONG);
   ("NumberOfFunctions", ULONG); ("NumberOfNames", ULONG);
   ("AddressOfFunctions", ULONG); ("AddressOfNames", ULONG);
   ("AddressOfNameOrdinals", ULONG)].

Definition IMAGE_SECTION_HEADER : cty := St
  [("Name", Arr 8 UCHAR); ("Misc", ULONG); ("VirtualAddress", ULONG);
   ("SizeOfRawData", ULONG); ("PointerToRawData", ULONG);
   ("PointerToRelocations", ULONG); ("PointerToLinenumbers", ULONG);
   ("NumberOfRelocations", USHORT); ("NumberOfLinenumbers", USHORT);
   ("Characteristics", ULONG)].

Definition RTL_MODULE_EXTENDED_INFO : cty := St
  [("ImageBase", PVOID); ("ImageSize", ULONG); ("FileNameOffset", USHORT);
   ("FullPathName", Arr 0x100 UCHAR)].

Definition RAW_SMBIOS_DATA : cty := St
  [("Used20CallingMethod", UCHAR); ("SMBIOSMajorVersion", UCHAR);
   ("SMBIOSMinorVersion", UCHAR); ("DmiRevision", UCHAR); ("Length", ULONG);
   ("SMBIOSTableData", Arr 1 UCHAR)].

Definition SMBIOS_TABLE_HEADER : cty := St
  [("Type", UCHAR); ("Length", UCHAR); ("Handle", USHORT); ("TableData", PVOID)].

Definition MACHINE_FRAME : cty := St
  [("rip", UINT64); ("cs", UINT64); ("eflags", UINT64); ("rsp", UINT64); ("ss", UINT64)].

(** ** The debugger's data, common.h *)

Definition DBGKD_DEBUG_DATA_HEADER64 : cty := St
  [("List", Arr 2 UINT64); ("OwnerTag", ULONG); ("Size", ULONG)].

Definition KDDEBUGGER_DATA64 : cty := St
  [("Header", DBGKD_DEBUG_DATA_HEADER64); ("KernBase", UINT64);
   ("BreakpointWithStatus", UINT64); ("SavedContext", UINT64); ("ThCallbackStack", USHORT);
   ("NextCallback", USHORT); ("FramePointer", USHORT); ("PaeEnabled", USHORT);
   ("KiCallUserMode", UINT64); ("KeUserCallbackDispatcher", UINT64);
   ("PsLoadedModuleList", UINT64); ("PsActiveProcessHead", UINT64); ("PspCidTable", UINT64);
   ("ExpSystemResourcesList", UINT64); ("ExpPagedPoolDescriptor", UINT64);
   ("ExpNumberOfPagedPools", UINT64); ("KeTimeIncrement", UINT64);
   ("KeBugCheckCallbackListHead", UINT64); ("KiBugcheckData", UINT64);
   ("IopErrorLogListHead", UINT64); ("ObpRootDirectoryObject", UINT64);
   ("ObpTypeObjectType", UINT64); ("MmSystemCacheStart", UINT64);
   ("MmSystemCacheEnd", UINT64); ("MmSystemCacheWs", UINT64); ("MmPfnDatabase", UINT64);
   ("MmSystemPtesStart", UINT64); ("MmSystemPtesEnd", UINT64); ("MmSubsectionBase", UINT64);
   ("MmNumberOfPagingFiles", UINT64); ("MmLowestPhysicalPage", UINT64);
   ("MmHighestPhysicalPage", UINT64); ("MmNumberOfPhysicalPages", UINT64);
   ("MmMaximumNonPagedPoolInBytes", UINT64); ("MmNonPagedSystemStart", UINT64);
   ("MmNonPagedPoolStart", UINT64); ("MmNonPagedPoolEnd", UINT64);
   ("MmPagedPoolStart", UINT64); ("MmPagedPoolEnd", UINT64);
   ("MmPagedPoolInformation", UINT64); ("MmPageSize", UINT64);
   ("MmSizeOfPagedPoolInBytes", UINT64); ("MmTotalCommitLimit", UINT64);
   ("MmTotalCommittedPages", UINT64); ("MmSharedCommit", UINT64);
   ("MmDriverCommit", UINT64); ("MmProcessCommit", UINT64); ("MmPagedPoolCommit", UINT64);
   ("MmExtendedCommit", UINT64); ("MmZeroedPageListHead", UINT64);
   ("MmFreePageListHead", UINT64); ("MmStandbyPageListHead", UINT64);
   ("MmModifiedPageListHead", UINT64); ("MmModifiedNoWritePageListHead", UINT64);
   ("MmAvailablePages", UINT64); ("MmResidentAvailablePages", UINT64);
   ("PoolTrackTable", UINT64); ("NonPagedPoolDescriptor", UINT64);
   ("MmHighestUserAddress", UINT64); ("MmSystemRangeStart", UINT64);
   ("MmUserProbeAddress", UINT64); ("KdPrintCircularBuffer", UINT64);
   ("KdPrintCircularBufferEnd", UINT64); ("KdPrintWritePointer", UINT64);
   ("KdPrintRolloverCount", UINT64); ("MmLoadedUserImageList", UINT64);
   ("NtBuildLab", UINT64); ("KiNormalSystemCall", UINT64); ("KiProcessorBlock", UINT64);
   ("MmUnloadedDrivers", UINT64); ("MmLastUnloadedDriver", UINT64);
   ("MmTriageActionTaken", UINT64); ("MmSpecialPoolTag", UINT64);
   ("KernelVerifier", UINT64); ("MmVerifierData", UINT64);
   ("MmAllocatedNonPagedPool", UINT64); ("MmPeakCommitment", UINT64);
   ("MmTotalCommitLimitMaximum", UINT64); ("CmNtCSDVersion", UINT64);
   ("MmPhysicalMemoryBlock", UINT64); ("MmSessionBase", UINT64); ("MmSessionSize", UINT64);
   ("MmSystemParentTablePage", UINT64); ("MmVirtualTranslationBase", UINT64);
   ("OffsetKThreadNextProcessor", USHORT); ("OffsetKThreadTeb", USHORT);
   ("OffsetKThreadKernelStack", USHORT); ("OffsetKThreadInitialStack", USHORT);
   ("OffsetKThreadApcProcess", USHORT); ("OffsetKThreadState", USHORT);
   ("OffsetKThreadBStore", USHORT); ("OffsetKThreadBStoreLimit", USHORT);
   ("SizeEProcess", USHORT); ("OffsetEprocessPeb", USHORT);
   ("OffsetEprocessParentCID", USHORT); ("OffsetEprocessDirectoryTableBase", USHORT);
   ("SizePrcb", USHORT); ("OffsetPrcbDpcRoutine", USHORT);
   ("OffsetPrcbCurrentThread", USHORT); ("OffsetPrcbMhz", USHORT);
   ("OffsetPrcbCpuType", USHORT); ("OffsetPrcbVendorString", USHORT);
   ("OffsetPrcbProcStateContext", USHORT); ("OffsetPrcbNumber", USHORT);
   ("SizeEThread", USHORT); ("KdPrintCircularBufferPtr", UINT64);
   ("KdPrintBufferSize", UINT64); ("KeLoaderBlock", UINT64); ("SizePcr", USHORT);
   ("OffsetPcrSelfPcr", USHORT); ("OffsetPcrCurrentPrcb", USHORT);
   ("OffsetPcrContainedPrcb", USHORT); ("OffsetPcrInitialBStore", USHORT);
   ("OffsetPcrBStoreLimit", USHORT); ("OffsetPcrInitialStack", USHORT);
   ("OffsetPcrStackLimit", USHORT); ("OffsetPrcbPcrPage", USHORT);
   ("OffsetPrcbProcStateSpecialReg", USHORT); ("GdtR0Code", USHORT); ("GdtR0Data", USHORT);
   ("GdtR0Pcr", USHORT); ("GdtR3Code", USHORT); ("GdtR3Data", USHORT); ("GdtR3Teb", USHORT);
   ("GdtLdt", USHORT); ("GdtTss", USHORT); ("Gdt64R3CmCode", USHORT);
   ("Gdt64R3CmTeb", USHORT); ("IopNumTriageDumpDataBlocks", UINT64);
   ("IopTriageDumpDataBlocks", UINT64)].

Definition DUMP_HEADER : cty := St
  [("Signature", ULONG); ("ValidDump", ULONG); ("MajorVersion", ULONG);
   ("MinorVersion", ULONG); ("DirectoryTableBase", UINT64); ("PfnDataBase", UINT64);
   ("PsLoadedModuleList", PVOID); ("PsActiveProcessHead", PVOID);
   ("MachineImageType", ULONG); ("NumberProcessors", ULONG); ("BugCheckCode", ULONG);
   ("BugCheckParameter1", UINT64); ("BugCheckParameter2", UINT64);
   ("BugCheckParameter3", UINT64); ("BugCheckParameter4", UINT64);
   ("VersionUser", Arr 32 UCHAR); ("KdDebuggerDataBlock", PVOID)].

(** The offsets the parsers below rely on, computed from the declarations. *)
Lemma pe_offsets :
  offsetof IMAGE_DOS_HEADER "e_lfanew" = 0x3c /\
  offsetof LOCAL_NT_HEADER "OptionalHeader" = 24 /\
  offsetof IMAGE_OPTIONAL_HEADER64 "DataDirectory" = 112 /\
  offsetof IMAGE_EXPORT_DIRECTORY "NumberOfNames" = 24 /\
  sizeof IMAGE_SECTION_HEADER = 40.
Proof. vm_compute. done. Qed.
