(* ===== verification/Crypt.v ===== *)
(** * crypt.c: the encrypted import table and the cookie cipher

    The driver keeps the addresses of the kernel routines it calls in an array
    that it xors, one 256-bit block at a time, with a fixed key; each call
    decrypts the one block that holds the entry.  A [__m256i] is its four
    64-bit lanes, lane 0 first, so that a block is four consecutive array
    entries. *)

From S2P Require Import Prelude.

Definition XOR_KEY_1 : Z := 0x1122334455667788.
Definition XOR_KEY_2 : Z := 0x0011223344556677.
Definition XOR_KEY_3 : Z := 0x5566778899AABBCC.
Definition XOR_KEY_4 : Z := 0x66778899AABBCCDD.

Record m256i := M256 { lane0 : Z; lane1 : Z; lane2 : Z; lane3 : Z }.

(** [_mm256_set_epi64x] takes its lanes from the highest to the lowest. *)
Definition mm256_set_epi64x (e3 e2 e1 e0 : Z) : m256i := M256 e0 e1 e2 e3.

Definition mm256_xor_si256 (a b : m256i) : m256i :=
  M256 (Z.lxor (lane0 a) (lane0 b)) (Z.lxor (lane1 a) (lane1 b))
       (Z.lxor (lane2 a) (lane2 b)) (Z.lxor (lane3 a) (lane3 b)).

(** [RtlCopyMemory] of 32 bytes between the array and a vector register. *)
Definition load_block (Array : list Z) (first : Z) : option m256i :=
  a ← znth Array first; b ← znth Array (first + 1);
  c ← znth Array (first + 2); d ← znth Array (first + 3);
  Some (M256 a b c d).

Definition store_block (Array : list Z) (first : Z) (v : m256i) : list Z :=
  zset (zset (zset (zset Array first (lane0 v)) (first + 1) (lane1 v))
             (first + 2) (lane2 v)) (first + 3) (lane3 v).

Definition block_size : Z := 4.

Definition CryptGenerateSseXorKey : m256i :=
  mm256_set_epi64x XOR_KEY_1 XOR_KEY_2 XOR_KEY_3 XOR_KEY_4.

(** The body of the loop of [CryptEncryptImportsArray]. *)
Definition CryptEncryptBlock (Array : list Z) (block_index : Z) : option (list Z) :=
  current_block ← load_block Array (block_index * block_size);
  Some (store_block Array (block_index * block_size)
          (mm256_xor_si256 current_block CryptGenerateSseXorKey)).

Fixpoint CryptEncryptBlocks (Array : list Z) (block_index : Z) (n : nat)
  : option (list Z) :=
  match n with
  | O => Some Array
  | S n => Array' ← CryptEncryptBlock Array block_index;
           CryptEncryptBlocks Array' (block_index + 1) n
  end.

Definition CryptEncryptImportsArray (Array : list Z) (Entries : Z)
  : option (list Z) :=
  CryptEncryptBlocks Array 0 (Z.to_nat (Entries / block_size)).

Definition CryptDecryptImportBlock (Array : list Z) (BlockIndex : Z)
  : option m256i :=
  b ← load_block Array (BlockIndex * block_size);
  Some (mm256_xor_si256 b CryptGenerateSseXorKey).

(** The [while] loop of [CryptFindContainingBlockForArrayIndex]; its state is
    ([containing_block], [block_index]). *)
Fixpoint find_block_loop (fuel : nat) (BlockSize containing_block block_index : Z)
  : option (Z * Z) :=
  match fuel with
  | O => None
  | S fuel =>
      if containing_block mod BlockSize =? 0
      then Some (containing_block / BlockSize, block_index)
      else find_block_loop fuel BlockSize (u32 (containing_block - 1))
             (u32 (block_index + 1))
  end.

(** Result: ([ContainingBlockIndex], [BlockSubIndex]).  [BlockSize] iterations
    are enough, see [CryptFindContainingBlock_spec]. *)
Definition CryptFindContainingBlockForArrayIndex (EntryIndex BlockSize : Z)
  : option (Z * Z) :=
  if EntryIndex <? BlockSize then Some (0, EntryIndex)
  else if EntryIndex =? BlockSize then Some (1, 0)
  else find_block_loop (Z.to_nat BlockSize) BlockSize EntryIndex 0.

(** [_mm256_extracti128_si256] picks two lanes, [_mm_extract_epi64] one of
    them. *)
Definition mm256_extracti128 (v : m256i) (half : Z) : Z * Z :=
  if half =? 0 then (lane0 v, lane1 v) else (lane2 v, lane3 v).

Definition mm_extract_epi64 (h : Z * Z) (i : Z) : Z :=
  if i =? 0 then h.1 else h.2.

Definition CryptDecryptImportsArrayEntry (Array : list Z) (Entries EntryIndex : Z)
  : option Z :=
  '(containing_block_index, block_sub_index) ←
      CryptFindContainingBlockForArrayIndex EntryIndex block_size;
  original_block ← CryptDecryptImportBlock Array containing_block_index;
  Some (if block_sub_index <? 2 then
          let original_half := mm256_extracti128 original_block 0 in
          if block_sub_index <? 1 then mm_extract_epi64 original_half 0
          else mm_extract_epi64 original_half 1
        else
          let original_half := mm256_extracti128 original_block 1 in
          if block_sub_index =? 2 then mm_extract_epi64 original_half 0
          else mm_extract_epi64 original_half 1).

(** [buffer[index] ^= Cookie] on a [CHAR] keeps the low byte of the cookie; an
    index past the buffer is [None]. *)
Fixpoint cookie_xor (buffer : list Z) (n : nat) (Cookie : Z) : option (list Z) :=
  match n, buffer with
  | O, _ => Some buffer
  | S n, b :: buffer =>
      rest ← cookie_xor buffer n Cookie; Some (u8 (Z.lxor b Cookie) :: rest)
  | S _, [] => None
  end.

Definition CryptDecryptBufferWithCookie (Buffer : list Z) (BufferSize Cookie : Z)
  : option (list Z) :=
  cookie_xor Buffer (Z.to_nat BufferSize) Cookie.

(** ** Lemmas on blocks *)

Lemma load_block_Some Array first :
  0 <= first -> first + 3 < zlen Array ->
  exists a b c d,
    znth Array first = Some a /\ znth Array (first + 1) = Some b /\
    znth Array (first + 2) = Some c /\ znth Array (first + 3) = Some d /\
    load_block Array first = Some (M256 a b c d).
Proof.
  intros H0 H3. unfold load_block.
  destruct (proj1 (znth_Some Array first) ltac:(lia)) as [a ->].
  destruct (proj1 (znth_Some Array (first + 1)) ltac:(lia)) as [b ->].
  destruct (proj1 (znth_Some Array (first + 2)) ltac:(lia)) as [c ->].
  destruct (proj1 (znth_Some Array (first + 3)) ltac:(lia)) as [d ->].
  cbn. eauto 10.
Qed.

(** The lane of the key that entry [i] of the array is xored with. *)
Definition key_lane (i : Z) : Z :=
  if i mod 4 =? 0 then lane0 CryptGenerateSseXorKey
  else if i mod 4 =? 1 then lane1 CryptGenerateSseXorKey
  else if i mod 4 =? 2 then lane2 CryptGenerateSseXorKey
  else lane3 CryptGenerateSseXorKey.

Lemma znth_store_block Array first v i :
  0 <= first -> first + 3 < zlen Array ->
  znth (store_block Array first v) i =
    if i =? first then Some (lane0 v)
    else if i =? first + 1 then Some (lane1 v)
    else if i =? first + 2 then Some (lane2 v)
    else if i =? first + 3 then Some (lane3 v)
    else znth Array i.
Proof.
  intros H0 H3. unfold store_block. bool_cases; subst;
    repeat first [ rewrite znth_zset_eq by (rewrite ?zlen_zset; lia)
                 | rewrite znth_zset_ne by lia ]; done.
Qed.

Lemma zlen_store_block Array first v : zlen (store_block Array first v) = zlen Array.
Proof. unfold store_block. by rewrite !zlen_zset. Qed.

Lemma CryptEncryptBlock_spec Array bi :
  0 <= bi -> 4 * bi + 3 < zlen Array ->
  exists Array',
    CryptEncryptBlock Array bi = Some Array' /\ zlen Array' = zlen Array /\
    forall i, znth Array' i =
      if (4 * bi <=? i) && (i <? 4 * bi + 4)
      then (fun x => Z.lxor x (key_lane i)) <$> znth Array i
      else znth Array i.
Proof.
  intros H0 H3. unfold CryptEncryptBlock, block_size.
  destruct (load_block_Some Array (bi * 4)) as (a & b & c & d & Ha & Hb & Hc & Hd & ->);
    [lia..|].
  eexists. cbn [mbind option_bind]. split; [done|]. split; [apply zlen_store_block|].
  intros i. rewrite znth_store_block by lia.
  assert (forall k, 0 <= k < 4 -> (bi * 4 + k) mod 4 = k) as Hmod.
  { intros. rewrite Z.add_comm, Z_mod_plus_full, Z.mod_small; lia. }
  unfold key_lane.
  destruct (Z.eqb_spec i (bi * 4)) as [->|].
  { specialize (Hmod 0). rewrite Z.add_0_r in Hmod. rewrite Hmod, Ha by lia.
    destruct (Z.leb_spec (4 * bi) (bi * 4)), (Z.ltb_spec (bi * 4) (4 * bi + 4)); try lia. done. }
  destruct (Z.eqb_spec i (bi * 4 + 1)) as [->|]; [|
  destruct (Z.eqb_spec i (bi * 4 + 2)) as [->|]; [|
  destruct (Z.eqb_spec i (bi * 4 + 3)) as [->|]]]; rewrite ?Hmod, ?Hb, ?Hc, ?Hd by lia;
  bool_cases; try lia; done.
Qed.

Lemma CryptEncryptBlocks_spec n : forall Array bi,
  0 <= bi -> 4 * (bi + Z.of_nat n) <= zlen Array ->
  exists Array',
    CryptEncryptBlocks Array bi n = Some Array' /\ zlen Array' = zlen Array /\
    forall i, znth Array' i =
      if (4 * bi <=? i) && (i <? 4 * (bi + Z.of_nat n))
      then (fun x => Z.lxor x (key_lane i)) <$> znth Array i
      else znth Array i.
Proof.
  induction n as [|n IH]; intros Array bi H0 Hlen; cbn [CryptEncryptBlocks].
  - exists Array. split; [done|]. split; [done|]. intros i. bool_cases; (done || lia).
  - destruct (CryptEncryptBlock_spec Array bi) as (A1 & -> & Hl1 & H1); [lia..|].
    cbn [mbind option_bind].
    destruct (IH A1 (bi + 1)) as (A2 & -> & Hl2 & H2); [lia..|].
    exists A2. split; [done|]. split; [lia|]. intros i. rewrite H2, H1.
    bool_cases; cbn; try done; lia.
Qed.

Lemma find_block_loop_spec BlockSize fuel : forall cb bi,
  0 < BlockSize -> 0 <= cb < 2 ^ 32 -> 0 <= bi -> bi + cb < 2 ^ 32 ->
  cb mod BlockSize < Z.of_nat fuel ->
  find_block_loop fuel BlockSize cb bi =
    Some (cb / BlockSize, bi + cb mod BlockSize).
Proof.
  induction fuel as [|fuel IH]; intros cb bi HB Hcb Hbi Hs Hf; cbn [find_block_loop].
  - pose proof (Z.mod_pos_bound cb BlockSize). lia.
  - destruct (Z.eqb_spec (cb mod BlockSize) 0) as [E|E].
    { rewrite E, Z.add_0_r. done. }
    pose proof (Z.mod_pos_bound cb BlockSize HB).
    pose proof (Z.div_mod cb BlockSize ltac:(lia)).
    assert (0 < cb) by (assert (0 <= cb / BlockSize) by (apply Z.div_pos; lia); nia).
    rewrite !u32_small by lia.
    assert (cb - 1 = BlockSize * (cb / BlockSize) + (cb mod BlockSize - 1)) as Hd by lia.
    assert ((cb - 1) / BlockSize = cb / BlockSize) as Hq.
    { symmetry. apply (Z.div_unique _ _ _ (cb mod BlockSize - 1)); lia. }
    assert ((cb - 1) mod BlockSize = cb mod BlockSize - 1) as Hm.
    { symmetry. apply (Z.mod_unique _ _ (cb / BlockSize)); lia. }
    rewrite IH by lia. rewrite Hq, Hm. do 2 f_equal. lia.
Qed.

Lemma CryptFindContainingBlock_spec EntryIndex BlockSize :
  0 <= EntryIndex < 2 ^ 32 -> 0 < BlockSize < 2 ^ 32 ->
  CryptFindContainingBlockForArrayIndex EntryIndex BlockSize =
    Some (EntryIndex / BlockSize, EntryIndex mod BlockSize).
Proof.
  intros HE HB. unfold CryptFindContainingBlockForArrayIndex.
  destruct (Z.ltb_spec EntryIndex BlockSize).
  { rewrite Z.div_small, Z.mod_small by lia. done. }
  destruct (Z.eqb_spec EntryIndex BlockSize) as [->|].
  { rewrite Z.div_same, Z.mod_same by lia. done. }
  pose proof (Z.mod_pos_bound EntryIndex BlockSize).
  rewrite find_block_loop_spec by lia. done.
Qed.

(** Decryption reads the entry's own cell and the entry's own key lane. *)
Lemma CryptDecryptImportsArrayEntry_spec Array n i :
  0 <= i < 2 ^ 32 -> 4 * (i / 4) + 3 < zlen Array ->
  CryptDecryptImportsArrayEntry Array n i =
    (fun x => Z.lxor x (key_lane i)) <$> znth Array i.
Proof.
  intros Hi Hlen. unfold CryptDecryptImportsArrayEntry.
  rewrite CryptFindContainingBlock_spec by (unfold block_size; lia).
  cbn [mbind option_bind]. unfold CryptDecryptImportBlock, block_size.
  pose proof (Z.div_mod i 4 ltac:(lia)). pose proof (Z.mod_pos_bound i 4 ltac:(lia)).
  assert (0 <= i / 4) by (apply Z.div_pos; lia).
  destruct (load_block_Some Array (i / 4 * 4)) as (a & b & c & d & Ha & Hb & Hc & Hd & ->);
    [lia..|].
  cbn [mbind option_bind]. unfold key_lane.
  assert (i mod 4 = 0 \/ i mod 4 = 1 \/ i mod 4 = 2 \/ i mod 4 = 3)
    as [E|[E|[E|E]]] by lia; rewrite E in *; cbn.
  - replace (i / 4 * 4) with i in Ha by lia. by rewrite Ha.
  - replace (i / 4 * 4 + 1) with i in Hb by lia. by rewrite Hb.
  - replace (i / 4 * 4 + 2) with i in Hc by lia. by rewrite Hc.
  - replace (i / 4 * 4 + 3) with i in Hd by lia. by rewrite Hd.
Qed.

Lemma cookie_xor_spec n : forall buffer Cookie,
  (n <= length buffer)%nat ->
  cookie_xor buffer n Cookie =
    Some (((fun b => u8 (Z.lxor b Cookie)) <$> take n buffer) ++ drop n buffer).
Proof.
  induction n as [|n IH]; intros [|b buffer] Cookie Hn; cbn in *; try done; [lia|].
  rewrite IH by lia. done.
Qed.

Lemma u8_lxor_cancel b c : 0 <= b < 2 ^ 8 -> u8 (Z.lxor (u8 (Z.lxor b c)) c) = b.
Proof.
  intros Hb. rewrite <- (u8_small b Hb) at 2. unfold u8.
  rewrite <- !Z.land_ones by lia. apply Z.bits_inj'. intros n Hn.
  rewrite !Z.land_spec, !Z.lxor_spec, !Z.land_spec, !Z.lxor_spec.
  by destruct (Z.testbit b n), (Z.testbit c n), (Z.testbit (Z.ones 8) n).
Qed.

(** ** Properties *)

(** C27: the import table round trip.  Encrypting an array of [Entries]
    pointers succeeds, leaves its length alone, and decrypting any entry of a
    whole 32-byte block gives back the pointer that was stored there, while
    the entries after the last whole block are left as they were. *)
Theorem imports_array_roundtrip Array Entries :
  0 <= Entries < 2 ^ 32 -> Entries <= zlen Array ->
  exists Encrypted,
    CryptEncryptImportsArray Array Entries = Some Encrypted /\
    zlen Encrypted = zlen Array /\
    (forall i, 0 <= i < 4 * (Entries / 4) ->
       CryptDecryptImportsArrayEntry Encrypted Entries i = znth Array i /\
       is_Some (znth Array i)) /\
    (forall i, 4 * (Entries / 4) <= i -> znth Encrypted i = znth Array i).
Proof.
  intros HE Hlen. unfold CryptEncryptImportsArray, block_size.
  pose proof (Z.div_mod Entries 4 ltac:(lia)).
  pose proof (Z.mod_pos_bound Entries 4 ltac:(lia)).
  assert (0 <= Entries / 4) by (apply Z.div_pos; lia).
  destruct (CryptEncryptBlocks_spec (Z.to_nat (Entries / 4)) Array 0)
    as (E & -> & HlenE & HE'); [lia..|].
  rewrite Z2Nat.id, Z.add_0_l in HE' by lia.
  exists E. split; [done|]. split; [done|]. split.
  - intros i Hi.
    pose proof (Z.div_mod i 4 ltac:(lia)). pose proof (Z.mod_pos_bound i 4 ltac:(lia)).
    assert (i / 4 < Entries / 4) by nia.
    split; [|apply znth_Some; lia].
    rewrite CryptDecryptImportsArrayEntry_spec by lia. rewrite HE'.
    destruct (Z.leb_spec (4 * 0) i), (Z.ltb_spec i (4 * (Entries / 4))); try lia. cbn.
    destruct (znth Array i); cbn; [|done]. by rewrite lxor_cancel.
  - intros i Hi. rewrite HE'. bool_cases; (done || lia).
Qed.

(** The cookie cipher is an involution on byte buffers, touches only the
    first [BufferSize] bytes, and never depends on more than the low byte of
    the cookie. *)
Theorem cookie_cipher_involutive Buffer BufferSize Cookie :
  Forall (fun b => 0 <= b < 2 ^ 8) Buffer -> 0 <= BufferSize <= zlen Buffer ->
  exists Encrypted,
    CryptDecryptBufferWithCookie Buffer BufferSize Cookie = Some Encrypted /\
    CryptDecryptBufferWithCookie Encrypted BufferSize Cookie = Some Buffer /\
    drop (Z.to_nat BufferSize) Encrypted = drop (Z.to_nat BufferSize) Buffer /\
    CryptDecryptBufferWithCookie Buffer BufferSize (u8 Cookie) = Some Encrypted.
Proof.
  intros Hb Hs. unfold CryptDecryptBufferWithCookie, zlen in *.
  rewrite !cookie_xor_spec by lia. eexists. split; [done|].
  rewrite cookie_xor_spec by (rewrite length_app, length_fmap, length_take, length_drop; lia).
  assert (length ((fun b => u8 (Z.lxor b Cookie)) <$> take (Z.to_nat BufferSize) Buffer)
          = Z.to_nat BufferSize) as Hl by (rewrite length_fmap, length_take; lia).
  rewrite take_app_length' , drop_app_length' by done.
  split; [|split; [done|]].
  - rewrite <- list_fmap_compose. rewrite <- (take_drop (Z.to_nat BufferSize) Buffer) at 3.
    do 2 f_equal. rewrite <- (list_fmap_id (take _ Buffer)) at 2.
    apply list_fmap_ext. intros k b Hk. apply u8_lxor_cancel.
    eapply Forall_lookup_1 in Hb; [exact Hb|]. eapply lookup_take_Some in Hk. apply Hk.
  - do 2 f_equal. apply list_fmap_ext. intros k b Hk. cbn.
    unfold u8. rewrite <- !Z.land_ones by lia. apply Z.bits_inj'. intros n Hn.
    rewrite !Z.land_spec, !Z.lxor_spec, !Z.land_spec.
    by destruct (Z.testbit b n), (Z.testbit Cookie n), (Z.testbit (Z.ones 8) n).
Qed.

(** ** Witnesses *)

Lemma imports_array_roundtrip_witness :
  exists Encrypted,
    CryptEncryptImportsArray [11; 22; 33; 44; 55] 5 = Some Encrypted /\
    CryptDecryptImportsArrayEntry Encrypted 5 2 = Some 33 /\
    znth Encrypted 4 = Some 55 /\ Encrypted <> [11; 22; 33; 44; 55].
Proof.
  destruct (imports_array_roundtrip [11; 22; 33; 44; 55] 5)
    as (E & HE & _ & Hin & Hout); [lia | vm_compute; discriminate |].
  exists E. split; [exact HE|]. split; [|split].
  - exact (proj1 (Hin 2 ltac:(vm_compute; split; congruence))).
  - exact (Hout 4 ltac:(vm_compute; discriminate)).
  - intros ->. vm_compute in HE. discriminate.
Defined.

Lemma cookie_cipher_involutive_witness :
  exists Encrypted,
    CryptDecryptBufferWithCookie [1; 2; 255; 7] 3 0x1234 = Some Encrypted /\
    CryptDecryptBufferWithCookie Encrypted 3 0x1234 = Some [1; 2; 255; 7].
Proof.
  destruct (cookie_cipher_involutive [1; 2; 255; 7] 3 0x1234) as (E & H1 & H2 & _).
  - repeat constructor; lia.
  - vm_compute. split; discriminate.
  - exists E. split; assumption.
Defined.
