(* ===== verification/ImportTable.v ===== *)
(** * imports.h, imports.c: the table of kernel routines and its thunks

    The driver reaches every kernel routine through a thunk [Imp<Routine>]
    that decrypts one cell of the global [driver_imports] and calls the
    address it finds there with the thunk's own arguments.  The tables of this
    file are those of imports.h (the indices and the structure) and imports.c
    (the names); a thunk is modelled by the call it makes. *)

From S2P Require Import Prelude Layout Crypt.

(** ** imports.h: indices *)

Definition OB_DEREFERENCE_OBJECT_INDEX : Z := 0.
Definition PS_LOOKUP_THREAD_BY_THREAD_ID_INDEX : Z := 1.
Definition MM_IS_ADDRESS_VALID_INDEX : Z := 2.
Definition PS_SET_CREATE_PROCESS_NOTIFY_ROUTINE_INDEX : Z := 3.
Definition PS_REMOVE_CREATE_THREAD_NOTIFY_ROUTINE_INDEX : Z := 4.
Definition PS_GET_CURRENT_THREAD_ID_INDEX : Z := 5.
Definition PS_GET_PROCESS_ID_INDEX : Z := 6.
Definition PS_LOOKUP_PROCESS_BY_PROCESS_ID_INDEX : Z := 7.
Definition EX_ENUM_HANDLE_TABLE_INDEX : Z := 8.
Definition OB_GET_OBJECT_TYPE_INDEX : Z := 9.
Definition EXF_UNBLOCK_PUSH_LOCK_INDEX : Z := 10.
Definition PS_GET_PROCESS_IMAGE_FILE_NAME_INDEX : Z := 78.
Definition STRSTR_INDEX : Z := 12.
Definition RTL_INIT_UNICODE_STRING_INDEX : Z := 13.
Definition RTL_QUERY_REGISTRY_VALUES_INDEX : Z := 14.
Definition MM_GET_SYSTEM_ROUTINE_ADDRESS_INDEX : Z := 15.
Definition RTL_UNICODE_STRING_TO_ANSI_STRING_INDEX : Z := 16.
Definition RTL_COPY_UNICODE_STRING_INDEX : Z := 17.
Definition RTL_FREE_ANSI_STRING_INDEX : Z := 18.
Definition KE_INITIALIZE_GUARDED_MUTEX_INDEX : Z := 19.
Definition IO_CREATE_DEVICE_INDEX : Z := 20.
Definition IO_CREATE_SYMBOLIC_LINK_INDEX : Z := 21.
Definition IO_DELETE_DEVICE_INDEX : Z := 22.
Definition IO_DELETE_SYMBOLIC_LINK_INDEX : Z := 23.
Definition OB_REGISTER_CALLBACKS_INDEX : Z := 24.
Definition OB_UNREGISTER_CALLBACKS_INDEX : Z := 25.
Definition PS_SET_CREATE_THREAD_NOTIFY_ROUTINE_INDEX : Z := 26.
Definition KE_REVERT_TO_USER_AFFINITY_THREAD_EX_INDEX : Z := 27.
Definition KE_SET_SYSTEM_AFFINITY_THREAD_EX_INDEX : Z := 28.
Definition STRNLEN_INDEX : Z := 29.
Definition RTL_INIT_ANSI_STRING_INDEX : Z := 30.
Definition RTL_ANSI_STRING_TO_UNICODE_STRING_INDEX : Z := 31.
Definition IO_GET_CURRENT_PROCESS_INDEX : Z := 32.
Definition RTL_GET_VERSION_INDEX : Z := 33.
Definition RTL_COMPARE_MEMORY_INDEX : Z := 34.
Definition EX_GET_SYSTEM_FIRMWARE_TABLE_INDEX : Z := 35.
Definition IO_ALLOCATE_WORK_ITEM_INDEX : Z := 36.
Definition IO_FREE_WORK_ITEM_INDEX : Z := 37.
Definition IO_QUEUE_WORK_ITEM_INDEX : Z := 38.
Definition ZW_OPEN_FILE_INDEX : Z := 39.
Definition ZW_CLOSE_INDEX : Z := 40.
Definition ZW_CREATE_SECTION_INDEX : Z := 41.
Definition ZW_MAP_VIEW_OF_SECTION_INDEX : Z := 42.
Definition ZW_UNMAP_VIEW_OF_SECTION_INDEX : Z := 43.
Definition MM_COPY_MEMORY_INDEX : Z := 44.
Definition ZW_DEVICE_IO_CONTROL_FILE_INDEX : Z := 45.
Definition KE_STACK_ATTACH_PROCESS_INDEX : Z := 46.
Definition KE_UNSTACK_DETACH_PROCESS_INDEX : Z := 47.
Definition KE_WAIT_FOR_SINGLE_OBJECT_INDEX : Z := 48.
Definition PS_CREATE_SYSTEM_THREAD_INDEX : Z := 49.
Definition IOF_COMPLETE_REQUEST_INDEX : Z := 50.
Definition OB_REFERENCE_OBJECT_BY_HANDLE_INDEX : Z := 51.
Definition KE_DELAY_EXECUTION_THREAD_INDEX : Z := 52.
Definition KE_REGISTER_NMI_CALLBACK_INDEX : Z := 53.
Definition KE_DEREGISTER_NMI_CALLBACK_INDEX : Z := 54.
Definition KE_QUERY_ACTIVE_PROCESSOR_COUNT_INDEX : Z := 55.
Definition EX_ACQUIRE_PUSH_LOCK_EXCLUSIVE_EX_INDEX : Z := 56.
Definition EX_RELEASE_PUSH_LOCK_EXCLUSIVE_EX_INDEX : Z := 57.
Definition PS_GET_THREAD_ID_INDEX : Z := 58.
Definition RTL_CAPTURE_STACK_BACK_TRACE_INDEX : Z := 59.
Definition ZW_OPEN_DIRECTORY_OBJECT_INDEX : Z := 60.
Definition KE_INITIALIZE_AFFINITY_EX_INDEX : Z := 61.
Definition KE_ADD_PROCESSOR_AFFINITY_EX_INDEX : Z := 62.
Definition RTL_QUERY_MODULE_INFORMATION_INDEX : Z := 63.
Definition KE_INITIALIZE_APC_INDEX : Z := 64.
Definition KE_INSERT_QUEUE_APC_INDEX : Z := 65.
Definition KE_GENERIC_CALL_DPC_INDEX : Z := 66.
Definition KE_SIGNAL_CALL_DPC_DONE_INDEX : Z := 67.
Definition MM_GET_PHYSICAL_MEMORY_RANGES_EX2_INDEX : Z := 68.
Definition MM_GET_VIRTUAL_FOR_PHYSICAL_INDEX : Z := 69.
Definition OBF_REFERENCE_OBJECT_INDEX : Z := 70.
Definition EX_FREE_POOL_WITH_TAG_INDEX : Z := 71.
Definition EX_ALLOCATE_POOL2_INDEX : Z := 72.
Definition KE_RELEASE_GUARDED_MUTEX_INDEX : Z := 73.
Definition KE_ACQUIRE_GUARDED_MUTEX_INDEX : Z := 74.
Definition DBG_PRINT_EX_INDEX : Z := 75.
Definition RTL_COMPARE_UNICODE_STRING_INDEX : Z := 76.
Definition RTL_FREE_UNICODE_STRING_INDEX : Z := 77.

(** ** imports.h: the structure; every member is a pointer *)

Definition DRIVER_IMPORTS : cty := St
  [("DrvImpObDereferenceObject", PVOID);
   ("DrvImpPsLookupThreadByThreadId", PVOID);
   ("DrvImpMmIsAddressValid", PVOID);
   ("DrvImpPsSetCreateProcessNotifyRoutine", PVOID);
   ("DrvImpPsRemoveCreateThreadNotifyRoutine", PVOID);
   ("DrvImpPsGetCurrentThreadId", PVOID); ("DrvImpPsGetProcessId", PVOID);
   ("DrvImpPsLookupProcessByProcessId", PVOID);
   ("DrvImpExEnumHandleTable", PVOID); ("DrvImpObGetObjectType", PVOID);
   ("DrvImpExfUnblockPushLock", PVOID); ("DrvImpPsGetProcessImage", PVOID);
   ("DrvImpstrstr", PVOID); ("DrvImpRtlInitUnicodeString", PVOID);
   ("DrvImpRtlQueryRegistryValues", PVOID);
   ("DrvImpMmGetSystemRoutineAddress", PVOID);
   ("DrvImpRtlUnicodeStringToAnsiString", PVOID);
   ("DrvImpRtlCopyUnicodeString", PVOID); ("DrvImpRtlFreeAnsiString", PVOID);
   ("DrvImpKeInitializeGuardedMutex", PVOID); ("DrvImpIoCreateDevice", PVOID);
   ("DrvImpIoCreateSymbolicLink", PVOID); ("DrvImpIoDeleteDevice", PVOID);
   ("DrvImpIoDeleteSymbolicLink", PVOID);
   ("DrvImpObRegisterCallbacks", PVOID);
   ("DrvImpObUnRegisterCallbacks", PVOID);
   ("DrvImpPsSetCreateThreadNotifyRoutine", PVOID);
   ("DrvImpKeRevertToUserAffinityThreadEx", PVOID);
   ("DrvImpKeSetSystemAffinityThreadEx", PVOID); ("DrvImpstrnlen", PVOID);
   ("DrvImpRtlInitAnsiString", PVOID);
   ("DrvImpRtlAnsiStringToUnicodeString", PVOID);
   ("DrvImpIoGetCurrentProcess", PVOID); ("DrvImpRtlGetVersion", PVOID);
   ("DrvImpRtlCompareMemory", PVOID);
   ("DrvImpExGetSystemFirmwareTable", PVOID);
   ("DrvImpIoAllocateWorkItem", PVOID); ("DrvImpIoFreeWorkItem", PVOID);
   ("DrvImpIoQueueWorkItem", PVOID); ("DrvImpZwOpenFile", PVOID);
   ("DrvImpZwClose", PVOID); ("DrvImpZwCreateSection", PVOID);
   ("DrvImpZwMapViewOfSection", PVOID); ("DrvImpZwUnmapViewOfSection", PVOID);
   ("DrvImpMmCopyMemory", PVOID); ("DrvImpZwDeviceIoControlFile", PVOID);
   ("DrvImpKeStackAttachProcess", PVOID);
   ("DrvImpKeUnstackDetachProcess", PVOID);
   ("DrvImpKeWaitForSingleObject", PVOID);
   ("DrvImpPsCreateSystemThread", PVOID); ("DrvImpIofCompleteRequest", PVOID);
   ("DrvImpObReferenceObjectByHandle", PVOID);
   ("DrvImpKeDelayExecutionThread", PVOID);
   ("DrvImpKeRegisterNmiCallback", PVOID);
   ("DrvImpKeDeregisterNmiCallback", PVOID);
   ("DrvImpKeQueryActiveProcessorCount", PVOID);
   ("DrvImpExAcquirePushLockExclusiveEx", PVOID);
   ("DrvImpExReleasePushLockExclusiveEx", PVOID);
   ("DrvImpPsGetThreadId", PVOID); ("DrvImpRtlCaptureStackBackTrace", PVOID);
   ("DrvImpZwOpenDirectoryObject", PVOID);
   ("DrvImpKeInitializeAffinityEx", PVOID);
   ("DrvImpKeAddProcessorAffinityEx", PVOID);
   ("DrvImpRtlQueryModuleInformation", PVOID);
   ("DrvImpKeInitializeApc", PVOID); ("DrvImpKeInsertQueueApc", PVOID);
   ("DrvImpKeGenericCallDpc", PVOID); ("DrvImpKeSignalCallDpcDone", PVOID);
   ("DrvImpMmGetPhysicalMemoryRangesEx2", PVOID);
   ("DrvImpMmGetVirtualForPhysical", PVOID);
   ("DrvImpObfReferenceObject", PVOID); ("DrvImpExFreePoolWithTag", PVOID);
   ("DrvImpExAllocatePool2", PVOID); ("DrvImpKeReleaseGuardedMutex", PVOID);
   ("DrvImpKeAcquireGuardedMutex", PVOID); ("DrvImpDbgPrintEx", PVOID);
   ("DrvImpRtlCompareUnicodeString", PVOID);
   ("DrvImpRtlFreeUnicodeString", PVOID);
   ("DrvImpPsGetProcessImageFileName", PVOID); ("dummy", PVOID)].

Definition IMPORTS_LENGTH : Z := Eval vm_compute in sizeof DRIVER_IMPORTS / 8.

(** ** imports.c: the names, in the order of the indices *)

Definition NT_IMPORT_MAX_LENGTH : Z := 128.
Definition NT_IMPORT_COUNT : Z := 79.

Definition NT_IMPORTS : list string :=
  ["ObDereferenceObject"%string; "PsLookupThreadByThreadId"%string;
   "MmIsAddressValid"%string; "PsSetCreateProcessNotifyRoutine"%string;
   "PsRemoveCreateThreadNotifyRoutine"%string; "PsGetCurrentThreadId"%string;
   "PsGetProcessId"%string; "PsLookupProcessByProcessId"%string;
   "ExEnumHandleTable"%string; "ObGetObjectType"%string;
   "ExfUnblockPushLock"%string; "PsGetProcessImageFileName"%string;
   "strstr"%string; "RtlInitUnicodeString"%string;
   "RtlQueryRegistryValues"%string; "MmGetSystemRoutineAddress"%string;
   "RtlUnicodeStringToAnsiString"%string; "RtlCopyUnicodeString"%string;
   "RtlFreeAnsiString"%string; "KeInitializeGuardedMutex"%string;
   "IoCreateDevice"%string; "IoCreateSymbolicLink"%string;
   "IoDeleteDevice"%string; "IoDeleteSymbolicLink"%string;
   "ObRegisterCallbacks"%string; "ObUnRegisterCallbacks"%string;
   "PsSetCreateThreadNotifyRoutine"%string;
   "KeRevertToUserAffinityThreadEx"%string;
   "KeSetSystemAffinityThreadEx"%string; "strnlen"%string;
   "RtlInitAnsiString"%string; "RtlAnsiStringToUnicodeString"%string;
   "IoGetCurrentProcess"%string; "RtlGetVersion"%string;
   "RtlCompareMemory"%string; "ExGetSystemFirmwareTable"%string;
   "IoAllocateWorkItem"%string; "IoFreeWorkItem"%string;
   "IoQueueWorkItem"%string; "ZwOpenFile"%string; "ZwClose"%string;
   "ZwCreateSection"%string; "ZwMapViewOfSection"%string;
   "ZwUnmapViewOfSection"%string; "MmCopyMemory"%string;
   "ZwDeviceIoControlFile"%string; "KeStackAttachProcess"%string;
   "KeUnstackDetachProcess"%string; "KeWaitForSingleObject"%string;
   "PsCreateSystemThread"%string; "IofCompleteRequest"%string;
   "ObReferenceObjectByHandle"%string; "KeDelayExecutionThread"%string;
   "KeRegisterNmiCallback"%string; "KeDeregisterNmiCallback"%string;
   "KeQueryActiveProcessorCount"%string;
   "ExAcquirePushLockExclusiveEx"%string;
   "ExReleasePushLockExclusiveEx"%string; "PsGetThreadId"%string;
   "RtlCaptureStackBackTrace"%string; "ZwOpenDirectoryObject"%string;
   "KeInitializeAffinityEx"%string; "KeAddProcessorAffinityEx"%string;
   "RtlQueryModuleInformation"%string; "KeInitializeApc"%string;
   "KeInsertQueueApc"%string; "KeGenericCallDpc"%string;
   "KeSignalCallDpcDone"%string; "MmGetPhysicalMemoryRangesEx2"%string;
   "MmGetVirtualForPhysical"%string; "ObfReferenceObject"%string;
   "ExFreePoolWithTag"%string; "ExAllocatePool2"%string;
   "KeReleaseGuardedMutex"%string; "KeAcquireGuardedMutex"%string;
   "DbgPrintEx"%string; "RtlCompareUnicodeString"%string;
   "RtlFreeUnicodeString"%string; "PsGetProcessImageFileName"%string].

(** ** imports.c: the thunks *)

Record imp_call := ImpCall { callee : Z; arguments : list Z }.

(** The common shape: decrypt the cell, call what it holds. *)
Definition call_import (driver_imports : list Z) (index : Z) (args : list Z)
  : option imp_call :=
  routine ← CryptDecryptImportsArrayEntry driver_imports IMPORTS_LENGTH index;
  Some (ImpCall routine args).

Section thunks.
Context (driver_imports : list Z).

Definition ImpObDereferenceObject (Object : Z) : option imp_call :=
  call_import driver_imports OB_DEREFERENCE_OBJECT_INDEX [Object].

Definition ImpPsLookupThreadByThreadId (ThreadId Thread : Z) : option imp_call :=
  call_import driver_imports PS_LOOKUP_THREAD_BY_THREAD_ID_INDEX [ThreadId; Thread].

Definition ImpMmIsAddressValid (VirtualAddress : Z) : option imp_call :=
  call_import driver_imports MM_IS_ADDRESS_VALID_INDEX [VirtualAddress].

Definition ImpPsSetCreateProcessNotifyRoutine (NotifyRoutine Remove : Z) : option imp_call :=
  call_import driver_imports PS_SET_CREATE_PROCESS_NOTIFY_ROUTINE_INDEX [NotifyRoutine; Remove].

Definition ImpPsRemoveCreateThreadNotifyRoutine (NotifyRoutine : Z) : option imp_call :=
  call_import driver_imports PS_REMOVE_CREATE_THREAD_NOTIFY_ROUTINE_INDEX [NotifyRoutine].

Definition ImpPsGetCurrentThreadId : option imp_call :=
  call_import driver_imports PS_GET_CURRENT_THREAD_ID_INDEX [].

Definition ImpPsGetProcessId (Process : Z) : option imp_call :=
  call_import driver_imports PS_GET_PROCESS_ID_INDEX [Process].

Definition ImpPsLookupProcessByProcessId (ProcessId Process : Z) : option imp_call :=
  call_import driver_imports PS_LOOKUP_PROCESS_BY_PROCESS_ID_INDEX [ProcessId; Process].

Definition ImpExEnumHandleTable (HandleTable Callback Context Handle : Z) : option imp_call :=
  call_import driver_imports EX_ENUM_HANDLE_TABLE_INDEX [HandleTable; Callback; Context; Handle].

Definition ImpObGetObjectType (Object : Z) : option imp_call :=
  call_import driver_imports OB_GET_OBJECT_TYPE_INDEX [Object].

Definition ImpExfUnblockPushLock (PushLock WaitBlock : Z) : option imp_call :=
  call_import driver_imports EXF_UNBLOCK_PUSH_LOCK_INDEX [PushLock; WaitBlock].

Definition ImpPsGetProcessImageFileName (Process : Z) : option imp_call :=
  call_import driver_imports PS_GET_PROCESS_IMAGE_FILE_NAME_INDEX [Process].

Definition ImpStrStr (haystack needle : Z) : option imp_call :=
  call_import driver_imports STRSTR_INDEX [haystack; needle].

Definition ImpRtlInitUnicodeString (DestinationString SourceString : Z) : option imp_call :=
  call_import driver_imports RTL_INIT_UNICODE_STRING_INDEX [DestinationString; SourceString].

Definition ImpRtlQueryRegistryValues (RelativeTo Path QueryTable Context Environment : Z) : option imp_call :=
  call_import driver_imports RTL_QUERY_REGISTRY_VALUES_INDEX [RelativeTo; Path; QueryTable; Context; Environment].

Definition ImpMmGetSystemRoutineAddress (SystemRoutineName : Z) : option imp_call :=
  call_import driver_imports MM_GET_SYSTEM_ROUTINE_ADDRESS_INDEX [SystemRoutineName].

Definition ImpRtlUnicodeStringToAnsiString (DestinationString SourceString AllocateDestinationString : Z) : option imp_call :=
  call_import driver_imports RTL_UNICODE_STRING_TO_ANSI_STRING_INDEX [DestinationString; SourceString; AllocateDestinationString].

Definition ImpRtlCopyUnicodeString (DestinationString SourceString : Z) : option imp_call :=
  call_import driver_imports RTL_COPY_UNICODE_STRING_INDEX [DestinationString; SourceString].

Definition ImpRtlFreeAnsiString (AnsiString : Z) : option imp_call :=
  call_import driver_imports RTL_FREE_ANSI_STRING_INDEX [AnsiString].

Definition ImpKeInitializeGuardedMutex (GuardedMutex : Z) : option imp_call :=
  call_import driver_imports KE_INITIALIZE_GUARDED_MUTEX_INDEX [GuardedMutex].

Definition ImpIoCreateDevice (DriverObject DeviceExtensionSize DeviceName DeviceType DeviceCharacteristics Exclusive DeviceObject : Z) : option imp_call :=
  call_import driver_imports IO_CREATE_DEVICE_INDEX [DriverObject; DeviceExtensionSize; DeviceName; DeviceType; DeviceCharacteristics; Exclusive; DeviceObject].

Definition ImpIoCreateSymbolicLink (SymbolicLinkName DeviceName : Z) : option imp_call :=
  call_import driver_imports IO_CREATE_SYMBOLIC_LINK_INDEX [SymbolicLinkName; DeviceName].

Definition ImpIoDeleteDevice (DeviceObject : Z) : option imp_call :=
  call_import driver_imports IO_DELETE_DEVICE_INDEX [DeviceObject].

Definition ImpIoDeleteSymbolicLink (SymbolicLinkName : Z) : option imp_call :=
  call_import driver_imports IO_DELETE_SYMBOLIC_LINK_INDEX [SymbolicLinkName].

Definition ImpObRegisterCallbacks (CallbackRegistration RegistrationHandle : Z) : option imp_call :=
  call_import driver_imports OB_REGISTER_CALLBACKS_INDEX [CallbackRegistration; RegistrationHandle].

Definition ImpObUnRegisterCallbacks (RegistrationHandle : Z) : option imp_call :=
  call_import driver_imports OB_UNREGISTER_CALLBACKS_INDEX [RegistrationHandle].

Definition ImpPsSetCreateThreadNotifyRoutine (NotifyRoutine : Z) : option imp_call :=
  call_import driver_imports PS_SET_CREATE_THREAD_NOTIFY_ROUTINE_INDEX [NotifyRoutine].

Definition ImpKeRevertToUserAffinityThreadEx (Affinity : Z) : option imp_call :=
  call_import driver_imports KE_REVERT_TO_USER_AFFINITY_THREAD_EX_INDEX [Affinity].

Definition ImpKeSetSystemAffinityThreadEx (Affinity : Z) : option imp_call :=
  call_import driver_imports KE_SET_SYSTEM_AFFINITY_THREAD_EX_INDEX [Affinity].

Definition ImpStrnlen (str maxCount : Z) : option imp_call :=
  call_import driver_imports STRNLEN_INDEX [str; maxCount].

Definition ImpRtlInitAnsiString (DestinationString SourceString : Z) : option imp_call :=
  call_import driver_imports RTL_INIT_ANSI_STRING_INDEX [DestinationString; SourceString].

Definition ImpRtlAnsiStringToUnicodeString (DestinationString SourceString AllocateDestinationString : Z) : option imp_call :=
  call_import driver_imports RTL_ANSI_STRING_TO_UNICODE_STRING_INDEX [DestinationString; SourceString; AllocateDestinationString].

Definition ImpIoGetCurrentProcess : option imp_call :=
  call_import driver_imports IO_GET_CURRENT_PROCESS_INDEX [].

Definition ImpRtlGetVersion (lpVersionInformation : Z) : option imp_call :=
  call_import driver_imports RTL_GET_VERSION_INDEX [lpVersionInformation].

Definition ImpRtlCompareMemory (Source1 Source2 Length : Z) : option imp_call :=
  call_import driver_imports RTL_COMPARE_MEMORY_INDEX [Source1; Source2; Length].

Definition ImpExGetSystemFirmwareTable (FirmwareTableProviderSignature FirmwareTableID pFirmwareTableBuffer BufferLength ReturnLength : Z) : option imp_call :=
  call_import driver_imports EX_GET_SYSTEM_FIRMWARE_TABLE_INDEX [FirmwareTableProviderSignature; FirmwareTableID; pFirmwareTableBuffer; BufferLength; ReturnLength].

Definition ImpIoAllocateWorkItem (DeviceObject : Z) : option imp_call :=
  call_import driver_imports IO_ALLOCATE_WORK_ITEM_INDEX [DeviceObject].

Definition ImpIoFreeWorkItem (WorkItem : Z) : option imp_call :=
  call_import driver_imports IO_FREE_WORK_ITEM_INDEX [WorkItem].

Definition ImpIoQueueWorkItem (IoWorkItem WorkerRoutine QueueType Context : Z) : option imp_call :=
  call_import driver_imports IO_QUEUE_WORK_ITEM_INDEX [IoWorkItem; WorkerRoutine; QueueType; Context].

Definition ImpZwOpenFile (FileHandle DesiredAccess ObjectAttributes IoStatusBlock ShareAccess OpenOptions : Z) : option imp_call :=
  call_import driver_imports ZW_OPEN_FILE_INDEX [FileHandle; DesiredAccess; ObjectAttributes; IoStatusBlock; ShareAccess; OpenOptions].

Definition ImpZwClose (Handle : Z) : option imp_call :=
  call_import driver_imports ZW_CLOSE_INDEX [Handle].

Definition ImpZwCreateSection (SectionHandle DesiredAccess ObjectAttributes MaximumSize SectionPageProtection AllocationAttributes FileHandle : Z) : option imp_call :=
  call_import driver_imports ZW_CREATE_SECTION_INDEX [SectionHandle; DesiredAccess; ObjectAttributes; MaximumSize; SectionPageProtection; AllocationAttributes; FileHandle].

Definition ImpZwMapViewOfSection (SectionHandle ProcessHandle BaseAddress ZeroBits CommitSize SectionOffset ViewSize InheritDisposition AllocationType Win32Protect : Z) : option imp_call :=
  call_import driver_imports ZW_MAP_VIEW_OF_SECTION_INDEX [SectionHandle; ProcessHandle; BaseAddress; ZeroBits; CommitSize; SectionOffset; ViewSize; InheritDisposition; AllocationType; Win32Protect].

Definition ImpZwUnmapViewOfSection (ProcessHandle BaseAddress : Z) : option imp_call :=
  call_import driver_imports ZW_UNMAP_VIEW_OF_SECTION_INDEX [ProcessHandle; BaseAddress].

Definition ImpMmCopyMemory (TargetAddress SourceAddress NumberOfBytes Flags NumberOfBytesTransferred : Z) : option imp_call :=
  call_import driver_imports MM_COPY_MEMORY_INDEX [TargetAddress; SourceAddress; NumberOfBytes; Flags; NumberOfBytesTransferred].

Definition ImpZwDeviceIoControlFile (FileHandle Event ApcRoutine ApcContext IoStatusBlock IoControlCode InputBuffer InputBufferLength OutputBuffer OutputBufferLength : Z) : option imp_call :=
  call_import driver_imports ZW_DEVICE_IO_CONTROL_FILE_INDEX [FileHandle; Event; ApcRoutine; ApcContext; IoStatusBlock; IoControlCode; InputBuffer; InputBufferLength; OutputBuffer; OutputBufferLength].

Definition ImpKeStackAttachProcess (Process ApcState : Z) : option imp_call :=
  call_import driver_imports KE_STACK_ATTACH_PROCESS_INDEX [Process; ApcState].

Definition ImpKeUnstackDetachProcess (ApcState : Z) : option imp_call :=
  call_import driver_imports KE_UNSTACK_DETACH_PROCESS_INDEX [ApcState].

Definition ImpKeWaitForSingleObject (Object WaitReason WaitMode Alertable Timeout : Z) : option imp_call :=
  call_import driver_imports KE_WAIT_FOR_SINGLE_OBJECT_INDEX [Object; WaitReason; WaitMode; Alertable; Timeout].

Definition ImpPsCreateSystemThread (ThreadHandle DesiredAccess ObjectAttributes ProcessHandle ClientId StartRoutine StartContext : Z) : option imp_call :=
  call_import driver_imports PS_CREATE_SYSTEM_THREAD_INDEX [ThreadHandle; DesiredAccess; ObjectAttributes; ProcessHandle; ClientId; StartRoutine; StartContext].

Definition ImpIofCompleteRequest (Irp PriorityBoost : Z) : option imp_call :=
  call_import driver_imports IOF_COMPLETE_REQUEST_INDEX [Irp; PriorityBoost].

Definition ImpObReferenceObjectByHandle (Handle DesiredAccess ObjectType AccessMode Object HandleInformation : Z) : option imp_call :=
  call_import driver_imports OB_REFERENCE_OBJECT_BY_HANDLE_INDEX [Handle; DesiredAccess; ObjectType; AccessMode; Object; HandleInformation].

Definition ImpKeDelayExecutionThread (WaitMode Alertable Interval : Z) : option imp_call :=
  call_import driver_imports KE_DELAY_EXECUTION_THREAD_INDEX [WaitMode; Alertable; Interval].

Definition ImpKeRegisterNmiCallback (CallbackRoutine Context : Z) : option imp_call :=
  call_import driver_imports KE_REGISTER_NMI_CALLBACK_INDEX [CallbackRoutine; Context].

Definition ImpKeDeregisterNmiCallback (Handle : Z) : option imp_call :=
  call_import driver_imports KE_DEREGISTER_NMI_CALLBACK_INDEX [Handle].

Definition ImpKeQueryActiveProcessorCount (ActiveProcessors : Z) : option imp_call :=
  call_import driver_imports KE_QUERY_ACTIVE_PROCESSOR_COUNT_INDEX [ActiveProcessors].

Definition ImpExAcquirePushLockExclusiveEx (PushLock Flags : Z) : option imp_call :=
  call_import driver_imports EX_ACQUIRE_PUSH_LOCK_EXCLUSIVE_EX_INDEX [PushLock; Flags].

Definition ImpExReleasePushLockExclusiveEx (PushLock Flags : Z) : option imp_call :=
  call_import driver_imports EX_RELEASE_PUSH_LOCK_EXCLUSIVE_EX_INDEX [PushLock; Flags].

Definition ImpPsGetThreadId (Thread : Z) : option imp_call :=
  call_import driver_imports PS_GET_THREAD_ID_INDEX [Thread].

Definition ImpRtlCaptureStackBackTrace (FramesToSkip FramesToCapture BackTrace BackTraceHash : Z) : option imp_call :=
  call_import driver_imports RTL_CAPTURE_STACK_BACK_TRACE_INDEX [FramesToSkip; FramesToCapture; BackTrace; BackTraceHash].

Definition ImpZwOpenDirectoryObject (DirectoryHandle DesiredAccess ObjectAttributes : Z) : option imp_call :=
  call_import driver_imports ZW_OPEN_DIRECTORY_OBJECT_INDEX [DirectoryHandle; DesiredAccess; ObjectAttributes].

Definition ImpKeInitializeAffinityEx (AffinityMask : Z) : option imp_call :=
  call_import driver_imports KE_INITIALIZE_AFFINITY_EX_INDEX [AffinityMask].

Definition ImpKeAddProcessorAffinityEx (Affinity CoreNumber : Z) : option imp_call :=
  call_import driver_imports KE_ADD_PROCESSOR_AFFINITY_EX_INDEX [Affinity; CoreNumber].

Definition ImpRtlQueryModuleInformation (InformationLength SizePerModule InformationBuffer : Z) : option imp_call :=
  call_import driver_imports RTL_QUERY_MODULE_INFORMATION_INDEX [InformationLength; SizePerModule; InformationBuffer].

Definition ImpKeInitializeApc (Apc Thread Environment KernelRoutine RundownRoutine NormalRoutine ApcMode NormalContext : Z) : option imp_call :=
  call_import driver_imports KE_INITIALIZE_APC_INDEX [Apc; Thread; Environment; KernelRoutine; RundownRoutine; NormalRoutine; ApcMode; NormalContext].

Definition ImpKeInsertQueueApc (Apc SystemArgument1 SystemArgument2 Increment : Z) : option imp_call :=
  call_import driver_imports KE_INSERT_QUEUE_APC_INDEX [Apc; SystemArgument1; SystemArgument2; Increment].

Definition ImpKeGenericCallDpc (DpcRoutine Context : Z) : option imp_call :=
  call_import driver_imports KE_GENERIC_CALL_DPC_INDEX [DpcRoutine; Context].

Definition ImpKeSignalCallDpcDone (SystemArgument1 : Z) : option imp_call :=
  call_import driver_imports KE_SIGNAL_CALL_DPC_DONE_INDEX [SystemArgument1].

Definition ImpMmGetPhysicalMemoryRangesEx2 (PartitionObject Flags : Z) : option imp_call :=
  call_import driver_imports MM_GET_PHYSICAL_MEMORY_RANGES_EX2_INDEX [PartitionObject; Flags].

Definition ImpMmGetVirtualForPhysical (PhysicalAddress : Z) : option imp_call :=
  call_import driver_imports MM_GET_VIRTUAL_FOR_PHYSICAL_INDEX [PhysicalAddress].

Definition ImpObfReferenceObject (Object : Z) : option imp_call :=
  call_import driver_imports OBF_REFERENCE_OBJECT_INDEX [Object].

Definition ImpExFreePoolWithTag (P Tag : Z) : option imp_call :=
  call_import driver_imports EX_FREE_POOL_WITH_TAG_INDEX [P; Tag].

Definition ImpExAllocatePool2 (Flags NumberOfBytes Tag : Z) : option imp_call :=
  call_import driver_imports EX_ALLOCATE_POOL2_INDEX [Flags; NumberOfBytes; Tag].

Definition ImpKeReleaseGuardedMutex (GuardedMutex : Z) : option imp_call :=
  call_import driver_imports KE_RELEASE_GUARDED_MUTEX_INDEX [GuardedMutex].

Definition ImpKeAcquireGuardedMutex (GuardedMutex : Z) : option imp_call :=
  call_import driver_imports KE_ACQUIRE_GUARDED_MUTEX_INDEX [GuardedMutex].

(** The variadic arguments reach the routine as one argument, the [va_list]. *)
Definition ImpDbgPrintEx (ComponentId Level Format args : Z) : option imp_call :=
  call_import driver_imports DBG_PRINT_EX_INDEX [ComponentId; Level; Format; args].

Definition ImpRtlCompareUnicodeString (String1 String2 CaseInSensitive : Z) : option imp_call :=
  call_import driver_imports RTL_COMPARE_UNICODE_STRING_INDEX [String1; String2; CaseInSensitive].

Definition ImpRtlFreeUnicodeString (UnicodeString : Z) : option imp_call :=
  call_import driver_imports RTL_FREE_UNICODE_STRING_INDEX [UnicodeString].

(** Every thunk, with the routine its function pointer type names, its number
    of arguments, and the call it makes on the arguments [a 0], [a 1], ... *)
Definition import_thunks (a : nat -> Z) : list (string * nat * option imp_call) :=
  [("ObDereferenceObject"%string, 1%nat, ImpObDereferenceObject (a 0%nat));
   ("PsLookupThreadByThreadId"%string, 2%nat, ImpPsLookupThreadByThreadId (a 0%nat) (a 1%nat));
   ("MmIsAddressValid"%string, 1%nat, ImpMmIsAddressValid (a 0%nat));
   ("PsSetCreateProcessNotifyRoutine"%string, 2%nat, ImpPsSetCreateProcessNotifyRoutine (a 0%nat) (a 1%nat));
   ("PsRemoveCreateThreadNotifyRoutine"%string, 1%nat, ImpPsRemoveCreateThreadNotifyRoutine (a 0%nat));
   ("PsGetCurrentThreadId"%string, 0%nat, ImpPsGetCurrentThreadId);
   ("PsGetProcessId"%string, 1%nat, ImpPsGetProcessId (a 0%nat));
   ("PsLookupProcessByProcessId"%string, 2%nat, ImpPsLookupProcessByProcessId (a 0%nat) (a 1%nat));
   ("ExEnumHandleTable"%string, 4%nat, ImpExEnumHandleTable (a 0%nat) (a 1%nat) (a 2%nat) (a 3%nat));
   ("ObGetObjectType"%string, 1%nat, ImpObGetObjectType (a 0%nat));
   ("ExfUnblockPushLock"%string, 2%nat, ImpExfUnblockPushLock (a 0%nat) (a 1%nat));
   ("PsGetProcessImageFileName"%string, 1%nat, ImpPsGetProcessImageFileName (a 0%nat));
   ("strstr"%string, 2%nat, ImpStrStr (a 0%nat) (a 1%nat));
   ("RtlInitUnicodeString"%string, 2%nat, ImpRtlInitUnicodeString (a 0%nat) (a 1%nat));
   ("RtlQueryRegistryValues"%string, 5%nat, ImpRtlQueryRegistryValues (a 0%nat) (a 1%nat) (a 2%nat) (a 3%nat) (a 4%nat));
   ("MmGetSystemRoutineAddress"%string, 1%nat, ImpMmGetSystemRoutineAddress (a 0%nat));
   ("RtlUnicodeStringToAnsiString"%string, 3%nat, ImpRtlUnicodeStringToAnsiString (a 0%nat) (a 1%nat) (a 2%nat));
   ("RtlCopyUnicodeString"%string, 2%nat, ImpRtlCopyUnicodeString (a 0%nat) (a 1%nat));
   ("RtlFreeAnsiString"%string, 1%nat, ImpRtlFreeAnsiString (a 0%nat));
   ("KeInitializeGuardedMutex"%string, 1%nat, ImpKeInitializeGuardedMutex (a 0%nat));
   ("IoCreateDevice"%string, 7%nat, ImpIoCreateDevice (a 0%nat) (a 1%nat) (a 2%nat) (a 3%nat) (a 4%nat) (a 5%nat) (a 6%nat));
   ("IoCreateSymbolicLink"%string, 2%nat, ImpIoCreateSymbolicLink (a 0%nat) (a 1%nat));
   ("IoDeleteDevice"%string, 1%nat, ImpIoDeleteDevice (a 0%nat));
   ("IoDeleteSymbolicLink"%string, 1%nat, ImpIoDeleteSymbolicLink (a 0%nat));
   ("ObRegisterCallbacks"%string, 2%nat, ImpObRegisterCallbacks (a 0%nat) (a 1%nat));
   ("ObUnRegisterCallbacks"%string, 1%nat, ImpObUnRegisterCallbacks (a 0%nat));
   ("PsSetCreateThreadNotifyRoutine"%string, 1%nat, ImpPsSetCreateThreadNotifyRoutine (a 0%nat));
   ("KeRevertToUserAffinityThreadEx"%string, 1%nat, ImpKeRevertToUserAffinityThreadEx (a 0%nat));
   ("KeSetSystemAffinityThreadEx"%string, 1%nat, ImpKeSetSystemAffinityThreadEx (a 0%nat));
   ("strnlen"%string, 2%nat, ImpStrnlen (a 0%nat) (a 1%nat));
   ("RtlInitAnsiString"%string, 2%nat, ImpRtlInitAnsiString (a 0%nat) (a 1%nat));
   ("RtlAnsiStringToUnicodeString"%string, 3%nat, ImpRtlAnsiStringToUnicodeString (a 0%nat) (a 1%nat) (a 2%nat));
   ("IoGetCurrentProcess"%string, 0%nat, ImpIoGetCurrentProcess);
   ("RtlGetVersion"%string, 1%nat, ImpRtlGetVersion (a 0%nat));
   ("RtlCompareMemory"%string, 3%nat, ImpRtlCompareMemory (a 0%nat) (a 1%nat) (a 2%nat));
   ("ExGetSystemFirmwareTable"%string, 5%nat, ImpExGetSystemFirmwareTable (a 0%nat) (a 1%nat) (a 2%nat) (a 3%nat) (a 4%nat));
   ("IoAllocateWorkItem"%string, 1%nat, ImpIoAllocateWorkItem (a 0%nat));
   ("IoFreeWorkItem"%string, 1%nat, ImpIoFreeWorkItem (a 0%nat));
   ("IoQueueWorkItem"%string, 4%nat, ImpIoQueueWorkItem (a 0%nat) (a 1%nat) (a 2%nat) (a 3%nat));
   ("ZwOpenFile"%string, 6%nat, ImpZwOpenFile (a 0%nat) (a 1%nat) (a 2%nat) (a 3%nat) (a 4%nat) (a 5%nat));
   ("ZwClose"%string, 1%nat, ImpZwClose (a 0%nat));
   ("ZwCreateSection"%string, 7%nat, ImpZwCreateSection (a 0%nat) (a 1%nat) (a 2%nat) (a 3%nat) (a 4%nat) (a 5%nat) (a 6%nat));
   ("ZwMapViewOfSection"%string, 10%nat, ImpZwMapViewOfSection (a 0%nat) (a 1%nat) (a 2%nat) (a 3%nat) (a 4%nat) (a 5%nat) (a 6%nat) (a 7%nat) (a 8%nat) (a 9%nat));
   ("ZwUnmapViewOfSection"%string, 2%nat, ImpZwUnmapViewOfSection (a 0%nat) (a 1%nat));
   ("MmCopyMemory"%string, 5%nat, ImpMmCopyMemory (a 0%nat) (a 1%nat) (a 2%nat) (a 3%nat) (a 4%nat));
   ("ZwDeviceIoControlFile"%string, 10%nat, ImpZwDeviceIoControlFile (a 0%nat) (a 1%nat) (a 2%nat) (a 3%nat) (a 4%nat) (a 5%nat) (a 6%nat) (a 7%nat) (a 8%nat) (a 9%nat));
   ("KeStackAttachProcess"%string, 2%nat, ImpKeStackAttachProcess (a 0%nat) (a 1%nat));
   ("KeUnstackDetachProcess"%string, 1%nat, ImpKeUnstackDetachProcess (a 0%nat));
   ("KeWaitForSingleObject"%string, 5%nat, ImpKeWaitForSingleObject (a 0%nat) (a 1%nat) (a 2%nat) (a 3%nat) (a 4%nat));
   ("PsCreateSystemThread"%string, 7%nat, ImpPsCreateSystemThread (a 0%nat) (a 1%nat) (a 2%nat) (a 3%nat) (a 4%nat) (a 5%nat) (a 6%nat));
   ("IofCompleteRequest"%string, 2%nat, ImpIofCompleteRequest (a 0%nat) (a 1%nat));
   ("ObReferenceObjectByHandle"%string, 6%nat, ImpObReferenceObjectByHandle (a 0%nat) (a 1%nat) (a 2%nat) (a 3%nat) (a 4%nat) (a 5%nat));
   ("KeDelayExecutionThread"%string, 3%nat, ImpKeDelayExecutionThread (a 0%nat) (a 1%nat) (a 2%nat));
   ("KeRegisterNmiCallback"%string, 2%nat, ImpKeRegisterNmiCallback (a 0%nat) (a 1%nat));
   ("KeDeregisterNmiCallback"%string, 1%nat, ImpKeDeregisterNmiCallback (a 0%nat));
   ("KeQueryActiveProcessorCount"%string, 1%nat, ImpKeQueryActiveProcessorCount (a 0%nat));
   ("ExAcquirePushLockExclusiveEx"%string, 2%nat, ImpExAcquirePushLockExclusiveEx (a 0%nat) (a 1%nat));
   ("ExReleasePushLockExclusiveEx"%string, 2%nat, ImpExReleasePushLockExclusiveEx (a 0%nat) (a 1%nat));
   ("PsGetThreadId"%string, 1%nat, ImpPsGetThreadId (a 0%nat));
   ("RtlCaptureStackBackTrace"%string, 4%nat, ImpRtlCaptureStackBackTrace (a 0%nat) (a 1%nat) (a 2%nat) (a 3%nat));
   ("ZwOpenDirectoryObject"%string, 3%nat, ImpZwOpenDirectoryObject (a 0%nat) (a 1%nat) (a 2%nat));
   ("KeInitializeAffinityEx"%string, 1%nat, ImpKeInitializeAffinityEx (a 0%nat));
   ("KeAddProcessorAffinityEx"%string, 2%nat, ImpKeAddProcessorAffinityEx (a 0%nat) (a 1%nat));
   ("RtlQueryModuleInformation"%string, 3%nat, ImpRtlQueryModuleInformation (a 0%nat) (a 1%nat) (a 2%nat));
   ("KeInitializeApc"%string, 8%nat, ImpKeInitializeApc (a 0%nat) (a 1%nat) (a 2%nat) (a 3%nat) (a 4%nat) (a 5%nat) (a 6%nat) (a 7%nat));
   ("KeInsertQueueApc"%string, 4%nat, ImpKeInsertQueueApc (a 0%nat) (a 1%nat) (a 2%nat) (a 3%nat));
   ("KeGenericCallDpc"%string, 2%nat, ImpKeGenericCallDpc (a 0%nat) (a 1%nat));
   ("KeSignalCallDpcDone"%string, 1%nat, ImpKeSignalCallDpcDone (a 0%nat));
   ("MmGetPhysicalMemoryRangesEx2"%string, 2%nat, ImpMmGetPhysicalMemoryRangesEx2 (a 0%nat) (a 1%nat));
   ("MmGetVirtualForPhysical"%string, 1%nat, ImpMmGetVirtualForPhysical (a 0%nat));
   ("ObfReferenceObject"%string, 1%nat, ImpObfReferenceObject (a 0%nat));
   ("ExFreePoolWithTag"%string, 2%nat, ImpExFreePoolWithTag (a 0%nat) (a 1%nat));
   ("ExAllocatePool2"%string, 3%nat, ImpExAllocatePool2 (a 0%nat) (a 1%nat) (a 2%nat));
   ("KeReleaseGuardedMutex"%string, 1%nat, ImpKeReleaseGuardedMutex (a 0%nat));
   ("KeAcquireGuardedMutex"%string, 1%nat, ImpKeAcquireGuardedMutex (a 0%nat));
   ("DbgPrintEx"%string, 4%nat, ImpDbgPrintEx (a 0%nat) (a 1%nat) (a 2%nat) (a 3%nat));
   ("RtlCompareUnicodeString"%string, 3%nat, ImpRtlCompareUnicodeString (a 0%nat) (a 1%nat) (a 2%nat));
   ("RtlFreeUnicodeString"%string, 1%nat, ImpRtlFreeUnicodeString (a 0%nat))].

End thunks.
