(* ===== verification/Imports.v ===== *)
(** * imports.c: resolving the kernel routines

    At load time the driver finds the kernel image in the loader's circular
    list, walks the image's export directory once per name of [NT_IMPORTS],
    stores the addresses in [driver_imports] and encrypts the table.  The
    walk reads raw memory, so it is modelled on a byte-addressed memory; the
    abstract specification is a list of exported names with their offsets. *)

From S2P Require Import Prelude Layout Structs Crypt ImportTable.

(** ** Operations *)

Definition flink_of (m : memory) (entry : Z) : res Z :=
  load_field m KLDR_DATA_TABLE_ENTRY entry "InLoadOrderLinks" 8.

Definition base_dll_name_buffer (m : memory) (entry : Z) : res Z :=
  load64 m (entry + offsetof KLDR_DATA_TABLE_ENTRY "BaseDllName"
                  + offsetof UNICODE_STRING "Buffer").

(** The [while] loop: the entry whose successor is [first] is not examined. *)
Fixpoint find_driver_loop (fuel : nat) (m : memory) (first entry : Z) (Name : list Z)
  : res Z :=
  match fuel with
  | O => Crash OutOfFuel
  | S fuel =>
      flink ← flink_of m entry;
      if flink =? first then Ok 0
      else
        buffer ← base_dll_name_buffer m entry;
        eq ← wcscmp_eq m buffer Name;
        if eq : bool then load_field m KLDR_DATA_TABLE_ENTRY entry "DllBase" 8
        else find_driver_loop fuel m first flink Name
  end.

Definition FindDriverBaseNoApi (fuel : nat) (m : memory) (DriverSection : Z)
  (Name : list Z) : res Z :=
  let first := DriverSection in
  head ← flink_of m DriverSection;
  entry ← flink_of m head;
  find_driver_loop fuel m first entry Name.

Definition IMAGE_DIRECTORY_ENTRY_EXPORT : Z := 0.

(** The [for] loop over the names; [n] names are left, from [index] on. *)
Fixpoint export_loop (m : memory) (image_base names ordinals functions : Z)
  (ExportName : list Z) (n : nat) (index : Z) : res Z :=
  match n with
  | O => Ok 0
  | S n =>
      name_rva ← load32 m (names + 4 * index);
      eq ← strcmp_eq m (u64 (image_base + name_rva)) ExportName;
      if eq : bool then
        ordinal ← load16 m (ordinals + 2 * index);
        export_offset ← load32 m (functions + 4 * ordinal);
        Ok (u64 (image_base + export_offset))
      else export_loop m image_base names ordinals functions ExportName n (index + 1)
  end.

(** From the image base to the export directory. *)
Definition export_directory (m : memory) (image_base : Z) : res Z :=
  e_lfanew ← load_field m IMAGE_DOS_HEADER image_base "e_lfanew" 4;
  let nt_header := u64 (image_base + s32 e_lfanew) in
  let optional_header := nt_header + offsetof LOCAL_NT_HEADER "OptionalHeader" in
  let data_dir := optional_header + offsetof IMAGE_OPTIONAL_HEADER64 "DataDirectory"
                  + IMAGE_DIRECTORY_ENTRY_EXPORT * sizeof IMAGE_DATA_DIRECTORY in
  VirtualAddress ← load_field m IMAGE_DATA_DIRECTORY data_dir "VirtualAddress" 4;
  Ok (u64 (image_base + VirtualAddress)).

Definition ntoskrnl : list Z := bytes_of_string "ntoskrnl.exe".

Definition ImpResolveNtImport (fuel : nat) (m : memory) (DriverSection : Z)
  (ExportName : string) : res Z :=
  image_base ← FindDriverBaseNoApi fuel m DriverSection ntoskrnl;
  if image_base =? 0 then Ok 0
  else
    export_dir ← export_directory m image_base;
    names ← load_field m IMAGE_EXPORT_DIRECTORY export_dir "AddressOfNames" 4;
    ordinals ← load_field m IMAGE_EXPORT_DIRECTORY export_dir "AddressOfNameOrdinals" 4;
    functions ← load_field m IMAGE_EXPORT_DIRECTORY export_dir "AddressOfFunctions" 4;
    number ← load_field m IMAGE_EXPORT_DIRECTORY export_dir "NumberOfNames" 4;
    export_loop m image_base (u64 (image_base + names)) (u64 (image_base + ordinals))
      (u64 (image_base + functions)) (bytes_of_string ExportName) (Z.to_nat number) 0.

(** The loop of [ImpResolveDynamicImports]: the cell is written before it is
    tested. *)
Fixpoint resolve_loop (fuel : nat) (m : memory) (DriverSection : Z)
  (names : list string) (index : Z) (imports_array : list Z)
  : res (NTSTATUS * list Z) :=
  match names with
  | [] => Ok (STATUS_SUCCESS, imports_array)
  | name :: names =>
      address ← ImpResolveNtImport fuel m DriverSection name;
      let imports_array := zset imports_array index address in
      if address =? 0 then Ok (STATUS_UNSUCCESSFUL, imports_array)
      else resolve_loop fuel m DriverSection names (index + 1) imports_array
  end.

(** [DRIVER_IMPORTS driver_imports = {0}]. *)
Definition driver_imports_init : list Z := replicate (Z.to_nat IMPORTS_LENGTH) 0.

Definition ImpResolveDynamicImports (fuel : nat) (m : memory) (DriverSection : Z)
  : res (NTSTATUS * list Z) :=
  '(status, imports_array) ←
     resolve_loop fuel m DriverSection NT_IMPORTS 0 driver_imports_init;
  if negb (status =? STATUS_SUCCESS) then Ok (status, imports_array)
  else match CryptEncryptImportsArray imports_array IMPORTS_LENGTH with
       | Some imports_array => Ok (STATUS_SUCCESS, imports_array)
       | None => Crash OutOfBounds
       end.

(** ** Specification *)

(** The loader entries from [entry] on that the search examines, with their
    bases and names; the entry that links back to [first] ends the list. *)
Inductive ldr_entries (m : memory) (first : Z) : Z -> list (Z * list Z) -> Prop :=
  | ldr_last entry : flink_of m entry = Ok first -> ldr_entries m first entry []
  | ldr_next entry flink buffer base name rest :
      flink_of m entry = Ok flink -> flink <> first ->
      base_dll_name_buffer m entry = Ok buffer -> wstring_at m buffer name ->
      load_field m KLDR_DATA_TABLE_ENTRY entry "DllBase" 8 = Ok base ->
      ldr_entries m first flink rest ->
      ldr_entries m first entry ((base, name) :: rest).

(** The loader list as seen from the driver's own entry. *)
Definition ldr_list (m : memory) (DriverSection : Z) (l : list (Z * list Z)) : Prop :=
  exists head entry, flink_of m DriverSection = Ok head /\
    flink_of m head = Ok entry /\ ldr_entries m DriverSection entry l.

Fixpoint ldr_base (Name : list Z) (l : list (Z * list Z)) : Z :=
  match l with
  | [] => 0
  | (base, name) :: l => if decide (name = Name) then base else ldr_base Name l
  end.

(** Row [i] of the three export tables. *)
Definition export_row (m : memory) (image_base names ordinals functions i : Z)
  (row : list Z * Z) : Prop :=
  exists name_rva ordinal,
    load32 m (names + 4 * i) = Ok name_rva /\
    cstring_at m (u64 (image_base + name_rva)) row.1 /\
    load16 m (ordinals + 2 * i) = Ok ordinal /\
    load32 m (functions + 4 * ordinal) = Ok row.2.

(** The image at [image_base] exports, in this order, these names at these
    offsets. *)
Definition image_exports (m : memory) (image_base : Z) (exports : list (list Z * Z))
  : Prop :=
  exists export_dir names ordinals functions,
    export_directory m image_base = Ok export_dir /\
    load_field m IMAGE_EXPORT_DIRECTORY export_dir "AddressOfNames" 4 = Ok names /\
    load_field m IMAGE_EXPORT_DIRECTORY export_dir "AddressOfNameOrdinals" 4
      = Ok ordinals /\
    load_field m IMAGE_EXPORT_DIRECTORY export_dir "AddressOfFunctions" 4
      = Ok functions /\
    load_field m IMAGE_EXPORT_DIRECTORY export_dir "NumberOfNames" 4
      = Ok (zlen exports) /\
    Forall (fun '(i, row) => export_row m image_base (u64 (image_base + names))
        (u64 (image_base + ordinals)) (u64 (image_base + functions)) (Z.of_nat i) row)
      (imap pair exports).

Fixpoint export_offset (name : list Z) (exports : list (list Z * Z)) : option Z :=
  match exports with
  | [] => None
  | (n, offset) :: exports =>
      if decide (n = name) then Some offset else export_offset name exports
  end.

(** The address an export name stands for, 0 when it is not exported. *)
Definition export_address (image_base : Z) (exports : list (list Z * Z))
  (name : string) : Z :=
  match export_offset (bytes_of_string name) exports with
  | Some offset => u64 (image_base + offset)
  | None => 0
  end.

(** ** Lemmas *)

Lemma find_driver_loop_spec m first Name : forall fuel entry l,
  ldr_entries m first entry l -> Forall (fun b => b <> 0) Name ->
  (length l < fuel)%nat ->
  find_driver_loop fuel m first entry Name = Ok (ldr_base Name l).
Proof.
  intros fuel entry l H HN. revert fuel.
  induction H as [entry Hf | entry flink buffer base name rest Hf Hne Hb Hs Hd _ IH];
    intros [|fuel] Hlen; cbn [length] in Hlen; try lia; cbn [find_driver_loop];
    rewrite Hf; cbn [mbind res_bind].
  - by rewrite Z.eqb_refl.
  - destruct (Z.eqb_spec flink first); [done|]. rewrite Hb. cbn [mbind res_bind].
    unfold wcscmp_eq. rewrite (str_eq_spec _ _ _ _ _ Hs HN). cbn [mbind res_bind ldr_base].
    case_bool_decide; case_decide; try done. apply IH. lia.
Qed.

Lemma FindDriverBaseNoApi_spec fuel m DriverSection Name l :
  ldr_list m DriverSection l -> Forall (fun b => b <> 0) Name ->
  (length l < fuel)%nat ->
  FindDriverBaseNoApi fuel m DriverSection Name = Ok (ldr_base Name l).
Proof.
  intros (head & entry & H1 & H2 & H3) HN Hl. unfold FindDriverBaseNoApi.
  rewrite H1. cbn [mbind res_bind]. rewrite H2. cbn [mbind res_bind].
  by apply find_driver_loop_spec.
Qed.

Lemma export_loop_spec m image_base names ordinals functions name : forall l index,
  Forall (fun b => b <> 0) name ->
  (forall i row, l !! i = Some row ->
     export_row m image_base names ordinals functions (index + Z.of_nat i) row) ->
  export_loop m image_base names ordinals functions name (length l) index =
    Ok (match export_offset name l with
        | Some offset => u64 (image_base + offset) | None => 0 end).
Proof.
  intros l index Hn. revert index.
  induction l as [|[n offset] l IH]; intros index Hrow; [done|].
  destruct (Hrow 0%nat _ eq_refl) as (nrva & ord & H1 & H2 & H3 & H4).
  rewrite Z.add_0_r in H1, H3.
  cbn [length export_loop]. rewrite H1. cbn [mbind res_bind].
  unfold strcmp_eq. rewrite (str_eq_spec _ _ _ _ _ H2 Hn). cbn [mbind res_bind fst export_offset].
  case_bool_decide; case_decide; try done.
  - rewrite H3. cbn [mbind res_bind]. rewrite H4. done.
  - apply IH. intros i row Hi.
    replace (index + 1 + Z.of_nat i) with (index + Z.of_nat (S i)) by lia. by apply Hrow.
Qed.

(** What the loader and the kernel image provide, shared by the results
    below. *)
Record kernel_image (m : memory) (DriverSection : Z) (l : list (Z * list Z))
  (image_base : Z) (exports : list (list Z * Z)) : Prop := {
  kernel_listed : ldr_list m DriverSection l;
  kernel_base : ldr_base ntoskrnl l = image_base;
  kernel_base_pos : 0 < image_base < 2 ^ 64;
  kernel_exports : image_exports m image_base exports;
}.

Lemma bytes_of_string_nonzero s :
  forallb (fun c => negb (c =? 0)) (bytes_of_string s) = true ->
  Forall (fun b => b <> 0) (bytes_of_string s).
Proof.
  intros H. apply Forall_forall. intros b Hb. apply list_elem_of_In in Hb.
  rewrite forallb_forall in H. specialize (H b Hb). lia.
Qed.

Lemma NT_IMPORTS_nonzero :
  Forall (fun n => Forall (fun b => b <> 0) (bytes_of_string n)) NT_IMPORTS.
Proof.
  apply Forall_forall. intros n Hn. apply bytes_of_string_nonzero.
  assert (forallb (fun n => forallb (fun c => negb (c =? 0)) (bytes_of_string n))
            NT_IMPORTS = true) as H by reflexivity.
  rewrite forallb_forall in H. by apply H, list_elem_of_In.
Qed.

Lemma ImpResolveNtImport_spec fuel m DriverSection l image_base exports name :
  kernel_image m DriverSection l image_base exports -> (length l < fuel)%nat ->
  Forall (fun b => b <> 0) (bytes_of_string name) ->
  ImpResolveNtImport fuel m DriverSection name =
    Ok (export_address image_base exports name).
Proof.
  intros [Hl Hb Hp (dir & names & ords & funs & E1 & E2 & E3 & E4 & E5 & Hrows)] Hf Hn.
  unfold ImpResolveNtImport.
  rewrite (FindDriverBaseNoApi_spec _ _ _ _ l Hl) by
    first [lia | apply bytes_of_string_nonzero; reflexivity].
  cbn [mbind res_bind]. rewrite Hb. destruct (Z.eqb_spec image_base 0); [lia|].
  rewrite E1. cbn [mbind res_bind]. rewrite E2. cbn [mbind res_bind].
  rewrite E3. cbn [mbind res_bind]. rewrite E4. cbn [mbind res_bind].
  rewrite E5. cbn [mbind res_bind]. unfold zlen. rewrite Nat2Z.id.
  apply export_loop_spec; [done|]. intros i row Hi.
  rewrite Forall_lookup in Hrows. rewrite Z.add_0_l.
  specialize (Hrows i (i, row)). rewrite list_lookup_imap, Hi in Hrows. by apply Hrows.
Qed.

(** The loop on names that are all exported, and on a first name that is
    not: [d] is the part of the array already written. *)
Section resolve.
Context (fuel : nat) (m : memory) (DriverSection : Z) (l : list (Z * list Z))
  (image_base : Z) (exports : list (list Z * Z)).
Hypothesis (HK : kernel_image m DriverSection l image_base exports).
Hypothesis (Hfuel : (length l < fuel)%nat).

Let address := export_address image_base exports.
Let no_nul (n : string) := Forall (fun b => b <> 0) (bytes_of_string n).

Lemma resolve_loop_step name names d x r :
  no_nul name ->
  resolve_loop fuel m DriverSection (name :: names) (zlen d) (d ++ x :: r) =
    if address name =? 0 then Ok (STATUS_UNSUCCESSFUL, d ++ address name :: r)
    else resolve_loop fuel m DriverSection names (zlen (d ++ [address name]))
           ((d ++ [address name]) ++ r).
Proof.
  intros Hn. cbn [resolve_loop].
  rewrite (ImpResolveNtImport_spec _ _ _ _ _ _ _ HK Hfuel Hn). cbn [mbind res_bind].
  rewrite zset_middle. unfold zlen. rewrite length_app, <- app_assoc. cbn [length app].
  by rewrite Nat2Z.inj_add.
Qed.

Lemma resolve_loop_success names : forall d r,
  Forall no_nul names -> Forall (fun n => address n <> 0) names ->
  (length names <= length r)%nat ->
  resolve_loop fuel m DriverSection names (zlen d) (d ++ r) =
    Ok (STATUS_SUCCESS, d ++ (address <$> names) ++ drop (length names) r).
Proof.
  induction names as [|name names IH]; intros d r Hn Ha Hlen; [done|].
  apply Forall_cons in Hn as [Hn Hns]. apply Forall_cons in Ha as [Ha Has].
  destruct r as [|x r]; cbn [length] in Hlen; [lia|].
  rewrite resolve_loop_step by done. destruct (Z.eqb_spec (address name) 0); [done|].
  rewrite IH by (done || lia). by rewrite <- app_assoc.
Qed.

Lemma resolve_loop_failure pre bad post : forall d r,
  Forall no_nul (pre ++ bad :: post) -> Forall (fun n => address n <> 0) pre ->
  address bad = 0 -> (length pre < length r)%nat ->
  resolve_loop fuel m DriverSection (pre ++ bad :: post) (zlen d) (d ++ r) =
    Ok (STATUS_UNSUCCESSFUL, d ++ (address <$> pre) ++ 0 :: drop (S (length pre)) r).
Proof.
  induction pre as [|name pre IH]; intros d r Hn Ha Hb Hlen; cbn [app length] in *;
    apply Forall_cons in Hn as [Hn Hns]; (destruct r as [|x r]; cbn [length] in *; [lia|]);
    rewrite resolve_loop_step by done.
  - rewrite Hb. done.
  - apply Forall_cons in Ha as [Ha Has]. destruct (Z.eqb_spec (address name) 0); [done|].
    rewrite IH by (done || lia). by rewrite <- app_assoc.
Qed.

End resolve.

(** A thunk at index [i] of an encrypted table calls entry [i] of the plain
    table. *)
Lemma call_import_encrypted plain encrypted i address args :
  CryptEncryptImportsArray plain IMPORTS_LENGTH = Some encrypted ->
  zlen plain = IMPORTS_LENGTH -> 0 <= i < IMPORTS_LENGTH ->
  znth plain i = Some address ->
  call_import encrypted i args = Some (ImpCall address args).
Proof.
  intros HE Hl Hi Hz. unfold call_import.
  unfold CryptEncryptImportsArray, block_size, IMPORTS_LENGTH in *.
  destruct (CryptEncryptBlocks_spec (Z.to_nat (80 / 4)) plain 0) as (E & HE2 & Hl2 & Hn);
    [lia | rewrite Hl; vm_compute; discriminate |].
  rewrite HE in HE2. injection HE2 as <-.
  pose proof (Z.div_mod i 4 ltac:(lia)). pose proof (Z.mod_pos_bound i 4 ltac:(lia)).
  rewrite CryptDecryptImportsArrayEntry_spec by lia.
  rewrite Hn, Hz. change (4 * (0 + Z.of_nat (Z.to_nat (80 / 4)))) with 80.
  destruct (Z.leb_spec (4 * 0) i), (Z.ltb_spec i 80); try lia. cbn.
  by rewrite lxor_cancel.
Qed.

Lemma resolved_table_lookup (f : string -> Z) i routine :
  NT_IMPORTS !! i = Some routine ->
  0 <= Z.of_nat i < IMPORTS_LENGTH /\
  znth ((f <$> NT_IMPORTS) ++ [0]) (Z.of_nat i) = Some (f routine).
Proof.
  intros Hi. pose proof (lookup_lt_Some _ _ _ Hi) as Hlt.
  assert (length NT_IMPORTS = 79%nat) as Hl by reflexivity.
  split; [unfold IMPORTS_LENGTH; lia|].
  rewrite znth_of_nat, lookup_app_l by (rewrite length_fmap; lia).
  by rewrite list_lookup_fmap, Hi.
Qed.

(** ** Properties *)

(** C4: resolving the imports end to end.  If the loader list contains the
    kernel image and the image exports every name of the table at a non-zero
    address, then resolution succeeds and, through the encrypted table, every
    one of the 78 thunks calls the address that the image exports under the
    thunk's own routine name, with the thunk's arguments in order. *)
Theorem thunks_call_the_resolved_exports fuel m DriverSection l image_base exports :
  kernel_image m DriverSection l image_base exports -> (length l < fuel)%nat ->
  Forall (fun n => export_address image_base exports n <> 0) NT_IMPORTS ->
  exists driver_imports,
    ImpResolveDynamicImports fuel m DriverSection = Ok (STATUS_SUCCESS, driver_imports) /\
    forall a, length (import_thunks driver_imports a) = 78%nat /\
      Forall (fun '(routine, arity, call) =>
        call = Some (ImpCall (export_address image_base exports routine)
                             (a <$> seq 0 arity)))
      (import_thunks driver_imports a).
Proof.
  intros HK Hf Ha. unfold ImpResolveDynamicImports.
  assert (resolve_loop fuel m DriverSection NT_IMPORTS 0 driver_imports_init =
    Ok (STATUS_SUCCESS, (export_address image_base exports <$> NT_IMPORTS) ++ [0])) as ->.
  { apply (resolve_loop_success _ _ _ _ _ _ HK Hf NT_IMPORTS [] driver_imports_init);
      [apply NT_IMPORTS_nonzero | done | vm_compute; lia]. }
  cbn [mbind res_bind]. set (plain := _ ++ [0]).
  assert (zlen plain = IMPORTS_LENGTH) as Hl by reflexivity.
  destruct (CryptEncryptImportsArray plain IMPORTS_LENGTH) as [E|] eqn:HE; cycle 1.
  { destruct (CryptEncryptBlocks_spec 20 plain 0) as (E & HE' & _);
      [lia | rewrite Hl; vm_compute; discriminate |].
    unfold CryptEncryptImportsArray in HE. change (Z.to_nat _) with 20%nat in HE.
    by rewrite HE in HE'. }
  change (negb _) with false. cbn [fst snd]. exists E. split; [done|].
  intros a. split; [done|].
  assert (forall i routine args, NT_IMPORTS !! i = Some routine ->
    call_import E (Z.of_nat i) args
      = Some (ImpCall (export_address image_base exports routine) args)) as Hcall.
  { intros i routine args Hi.
    destruct (resolved_table_lookup (export_address image_base exports) i routine Hi).
    by eapply call_import_encrypted. }
  unfold import_thunks. repeat (apply List.Forall_cons);
    [match goal with |- _ = Some (ImpCall (export_address _ _ ?r) _) =>
       let i := eval vm_compute in
         (match list_find (fun x => x = r) (rev NT_IMPORTS) with
          | Some (i, _) => (78 - i)%nat | None => O end) in
       exact (Hcall i r _ eq_refl) end ..|].
  constructor.
Qed.

(** A name that the image does not export stops the resolution with
    [STATUS_UNSUCCESSFUL] at the first such name: the table then holds the
    plain, unencrypted addresses of the names before it and zeroes from it
    on. *)
Theorem unresolved_import_fails_early fuel m DriverSection l image_base exports
  pre bad post :
  kernel_image m DriverSection l image_base exports -> (length l < fuel)%nat ->
  NT_IMPORTS = pre ++ bad :: post ->
  Forall (fun n => export_address image_base exports n <> 0) pre ->
  export_address image_base exports bad = 0 ->
  ImpResolveDynamicImports fuel m DriverSection =
    Ok (STATUS_UNSUCCESSFUL,
        (export_address image_base exports <$> pre) ++
        replicate (Z.to_nat IMPORTS_LENGTH - length pre) 0).
Proof.
  intros HK Hf Hs Hp Hb. unfold ImpResolveDynamicImports. rewrite Hs.
  assert (length pre < 80)%nat.
  { assert (length NT_IMPORTS = 79%nat) as Hl by reflexivity.
    rewrite Hs, length_app in Hl. cbn in Hl. lia. }
  pose proof (resolve_loop_failure _ _ _ _ _ _ HK Hf pre bad post [] driver_imports_init)
    as HR.
  rewrite app_nil_l in HR. change (zlen []) with 0 in HR. rewrite HR.
  - cbn [mbind res_bind fst snd app]. unfold driver_imports_init.
    rewrite drop_replicate. change (Z.to_nat IMPORTS_LENGTH) with 80%nat.
    change (negb _) with true. do 3 f_equal.
    replace (80 - length pre)%nat with (S (80 - S (length pre))) by lia. done.
  - rewrite <- Hs. apply NT_IMPORTS_nonzero.
  - done.
  - done.
  - change (length driver_imports_init) with 80%nat. lia.
Qed.

(** ** Witnesses

    A memory with a loader list of three entries (the driver, the list head
    and the kernel, followed by one more) and a kernel image that exports
    [names]. *)

Definition zeros (n : Z) : list Z := replicate (Z.to_nat n) 0.

Definition wide (s : string) : list Z := flat_map (fun c => [c; 0]) (bytes_of_string s).

Fixpoint name_rvas (rva : Z) (names : list string) : list Z :=
  match names with
  | [] => []
  | n :: names => rva :: name_rvas (rva + zlen (bytes_of_string n) + 1) names
  end.

Definition sample_image (names : list string) : list Z :=
  let n := zlen names in
  let ords := 296 + 4 * n in
  let funs := ords + 2 * n in
  let strs := funs + 4 * n in
  zeros 0x3c ++ le_bytes 4 0x40 ++ zeros (200 - 0x40) ++ le_bytes 4 256 ++
  zeros (256 - 204) ++ zeros 24 ++ le_bytes 4 n ++ le_bytes 4 funs ++
  le_bytes 4 296 ++ le_bytes 4 ords ++
  flat_map (le_bytes 4) (name_rvas strs names) ++
  flat_map (le_bytes 2) (iota 0 (length names)) ++
  flat_map (fun i => le_bytes 4 (0x5000 + 16 * i)) (iota 0 (length names)) ++
  flat_map (fun s => bytes_of_string s ++ [0]) names.

Definition sample_entry (flink base name : Z) : list Z :=
  le_bytes 8 flink ++ zeros (48 - 8) ++ le_bytes 8 base ++ zeros (96 - 56) ++
  le_bytes 8 name ++ zeros (128 - 104).

Definition sample_ldr : list Z :=
  sample_entry 0x1080 0 0 ++ sample_entry 0x1100 0 0 ++
  sample_entry 0x1180 0x100000 0x1200 ++ sample_entry 0x1000 0x900000 0x1200 ++
  wide "ntoskrnl.exe" ++ [0; 0].

Definition sample_memory (names : list string) : memory :=
  let image := sample_image names in
  fun a => if a <? 0x100000 then znth sample_ldr (a - 0x1000)
           else znth image (a - 0x100000).

Definition sample_exports (names : list string) : list (list Z * Z) :=
  imap (fun i s => (bytes_of_string s, 0x5000 + 16 * Z.of_nat i)) names.

(** [export_row] can be computed. *)
Definition export_row_b (m : memory) (image_base names ordinals functions i : Z)
  (row : list Z * Z) : bool :=
  match load32 m (names + 4 * i), load16 m (ordinals + 2 * i) with
  | Ok name_rva, Ok ordinal =>
      str_at_b (load8 m) 1 (u64 (image_base + name_rva)) row.1 &&
      match load32 m (functions + 4 * ordinal) with
      | Ok offset => offset =? row.2 | Crash _ => false end
  | _, _ => false
  end.

Lemma export_row_b_sound m b ns os fs i row :
  export_row_b m b ns os fs i row = true -> export_row m b ns os fs i row.
Proof.
  unfold export_row_b, export_row. intros H.
  destruct (load32 m (ns + 4 * i)) as [name_rva|], (load16 m (os + 2 * i)) as [ordinal|];
    try done.
  apply andb_prop in H as [Hs Ho]. exists name_rva, ordinal. split; [done|].
  split; [by apply str_at_b_sound|]. split; [done|].
  destruct (load32 m (fs + 4 * ordinal)); [|done]. f_equal. lia.
Qed.

Lemma export_rows_sound m b ns os fs exports :
  forallb (fun '(i, row) => export_row_b m b ns os fs (Z.of_nat i) row)
    (imap pair exports) = true ->
  Forall (fun '(i, row) => export_row m b ns os fs (Z.of_nat i) row) (imap pair exports).
Proof.
  intros H. apply Forall_forall. intros [i row] Hi. apply list_elem_of_In in Hi.
  rewrite forallb_forall in H. apply export_row_b_sound, (H _ Hi).
Qed.

Ltac sample_kernel :=
  constructor;
  [ exists 0x1080, 0x1100; split; [vm_compute; done|]; split; [vm_compute; done|];
    eapply ldr_next; [vm_compute; done | done | vm_compute; done |
      apply str_at_b_sound; vm_compute; done | vm_compute; done |];
    apply ldr_last; vm_compute; done
  | vm_compute; done
  | lia
  | eexists _, _, _, _; split; [vm_compute; done|]; split; [vm_compute; done|];
    split; [vm_compute; done|]; split; [vm_compute; done|]; split; [vm_compute; done|];
    apply export_rows_sound; vm_compute; done ].

Lemma sample_kernel_full :
  kernel_image (sample_memory NT_IMPORTS) 0x1000
    [(0x100000, ntoskrnl)] 0x100000 (sample_exports NT_IMPORTS).
Proof. sample_kernel. Qed.

Lemma sample_kernel_partial :
  kernel_image (sample_memory (take 2 NT_IMPORTS)) 0x1000
    [(0x100000, ntoskrnl)] 0x100000 (sample_exports (take 2 NT_IMPORTS)).
Proof. sample_kernel. Qed.

Lemma thunks_call_the_resolved_exports_witness :
  exists driver_imports,
    ImpResolveDynamicImports 2 (sample_memory NT_IMPORTS) 0x1000
      = Ok (STATUS_SUCCESS, driver_imports) /\
    length (import_thunks driver_imports (fun _ => 7)) = 78%nat /\
    export_address 0x100000 (sample_exports NT_IMPORTS) "ZwClose" = 0x105280.
Proof.
  destruct (thunks_call_the_resolved_exports 2 (sample_memory NT_IMPORTS) 0x1000
    [(0x100000, ntoskrnl)] 0x100000 (sample_exports NT_IMPORTS)) as (di & H & Ht).
  - exact sample_kernel_full.
  - cbn. lia.
  - apply Forall_forall. intros n Hn. apply list_elem_of_In in Hn.
    assert (forallb (fun n => negb (export_address 0x100000 (sample_exports NT_IMPORTS) n =? 0))
              NT_IMPORTS = true) as Hb by (vm_compute; reflexivity).
    rewrite forallb_forall in Hb. specialize (Hb n Hn). lia.
  - exists di. split; [exact H|]. split; [exact (proj1 (Ht (fun _ => 7)))|].
    vm_compute. reflexivity.
Defined.

Lemma unresolved_import_fails_early_witness :
  ImpResolveDynamicImports 2 (sample_memory (take 2 NT_IMPORTS)) 0x1000
    = Ok (STATUS_UNSUCCESSFUL, [0x105000; 0x105010] ++ replicate 78 0).
Proof.
  apply (unresolved_import_fails_early 2 (sample_memory (take 2 NT_IMPORTS)) 0x1000
    [(0x100000, ntoskrnl)] 0x100000 (sample_exports (take 2 NT_IMPORTS))
    (take 2 NT_IMPORTS) "MmIsAddressValid" (drop 3 NT_IMPORTS)).
  - exact sample_kernel_partial.
  - cbn. lia.
  - reflexivity.
  - repeat constructor; vm_compute; discriminate.
  - vm_compute. reflexivity.
Defined.
