(* ===== verification/Lists.v ===== *)
(** * list.c: singly linked lists under a guarded mutex

    The intrusive lists of list.c live in a heap that maps the address of a
    [SINGLE_LIST_ENTRY] to its [Next] field.  A freed block leaves the heap, so
    a later access to it is a fault; a guarded mutex may not be acquired
    recursively.  [X] is the state the caller's callback works on.

    The abstract specification is a list of entry addresses, newest first;
    every operation refines the operation on that list. *)

From S2P Require Import Prelude.

(** ** State *)

(** Where a block was returned to. *)
Inductive lookaside := ThreadLookaside | ProcessLookaside.

#[export] Instance lookaside_eq_dec : EqDecision lookaside.
Proof. solve_decision. Defined.

Inductive pool := ByTag (tag : Z) | ToLookaside (list : lookaside).

#[export] Instance pool_eq_dec : EqDecision pool.
Proof. solve_decision. Defined.

Record lstate (X : Type) := LState {
  next : gmap Z Z;
  held : gset Z;
  frees : list (Z * pool);
  ext : X;
}.
Arguments LState {X} _ _ _ _.
Arguments next {X} _.
Arguments held {X} _.
Arguments frees {X} _.
Arguments ext {X} _.

(** The tag 'list' as a multi-character constant. *)
Definition POOL_TAG_THREAD_LIST : Z := 0x6c697374.

(** ** Operations *)

Section operations.
Context {X : Type}.
Implicit Types st : lstate X.

Definition set_next_map (f : gmap Z Z -> gmap Z Z) : KM (lstate X) unit :=
  modify (fun st => LState (f (next st)) (held st) (frees st) (ext st)).

Definition mutex_acquire (Lock : Z) : KM (lstate X) unit := fun st =>
  if decide (Lock ∈ held st) then Crash Deadlock
  else Ok (tt, LState (next st) ({[Lock]} ∪ held st) (frees st) (ext st)).

Definition mutex_release (Lock : Z) : KM (lstate X) unit :=
  modify (fun st => LState (next st) (held st ∖ {[Lock]}) (frees st) (ext st)).

(** [p->Next]. *)
Definition read_next (p : Z) : KM (lstate X) Z := fun st =>
  if p =? 0 then Crash NullDereference
  else match next st !! p with
       | Some q => Ok (q, st)
       | None => Crash UnmappedRead
       end.

Definition write_next (p q : Z) : KM (lstate X) unit := fun st =>
  if p =? 0 then Crash NullDereference
  else match next st !! p with
       | Some _ => set_next_map (<[p := q]>) st
       | None => Crash UnmappedRead
       end.

(** The block at [p] goes back to [to]. *)
Definition free_to (to : pool) (p : Z) : KM (lstate X) unit := fun st =>
  match next st !! p with
  | Some _ => Ok (tt, LState (delete p (next st)) (held st) (frees st ++ [(p, to)]) (ext st))
  | None => Crash BadFree
  end.

Definition ListInit (Head Lock : Z) : KM (lstate X) unit := write_next Head 0.

Definition ListInsert (Head NewEntry Lock : Z) : KM (lstate X) unit :=
  mutex_acquire Lock ≫= fun _ =>
  old_entry ← read_next Head;
  write_next Head NewEntry ≫= fun _ =>
  write_next NewEntry old_entry ≫= fun _ =>
  mutex_release Lock.

(** The common body of [ListFreeFirstEntry] and
    [LookasideListFreeFirstEntry], which differ in where the block goes. *)
Definition free_first_entry (to : pool) (Head Lock : Z)
  (CallbackRoutine : option (Z -> X -> X)) : KM (lstate X) bool :=
  mutex_acquire Lock ≫= fun _ =>
  entry ← read_next Head;
  result ← (if entry =? 0 then mret false
            else
              match CallbackRoutine with
              | Some callback =>
                  modify (fun st => LState (next st) (held st) (frees st)
                                           (callback entry (ext st)))
              | None => mret tt
              end ≫= fun _ =>
              first ← read_next Head;
              second ← read_next first;
              write_next Head second ≫= fun _ =>
              free_to to entry ≫= fun _ =>
              mret true);
  mutex_release Lock ≫= fun _ =>
  mret result.

(** The [while] loop of the two remove operations. *)
Fixpoint remove_loop (fuel : nat) (to : pool) (entry Entry : Z) : KM (lstate X) unit :=
  match fuel with
  | O => crash OutOfFuel
  | S fuel =>
      succ ← read_next entry;
      if succ =? 0 then mret tt
      else if succ =? Entry then
        after ← read_next Entry;
        write_next entry after ≫= fun _ =>
        free_to to Entry
      else remove_loop fuel to succ Entry
  end.

Definition remove_entry (to : pool) (Head Entry Lock : Z) : KM (lstate X) unit :=
  mutex_acquire Lock ≫= fun _ =>
  entry ← read_next Head;
  fuel ← gets (fun st => size (next st));
  (if entry =? 0 then mret tt
   else if entry =? Entry then
     after ← read_next entry;
     write_next Head after ≫= fun _ =>
     free_to to Entry
   else remove_loop fuel to entry Entry) ≫= fun _ =>
  mutex_release Lock.

Definition ListFreeFirstEntry := free_first_entry (ByTag POOL_TAG_THREAD_LIST).
Definition ListRemoveEntry := remove_entry (ByTag POOL_TAG_THREAD_LIST).

(** The lookaside variants return every block to the thread list's lookaside
    list, whichever list the entry was on. *)
Definition LookasideListFreeFirstEntry := free_first_entry (ToLookaside ThreadLookaside).
Definition LookasideListRemoveEntry := remove_entry (ToLookaside ThreadLookaside).

(** [while (ListFreeFirstEntry(...));], the idiom of every cleanup routine. *)
Fixpoint free_all (fuel : nat) (to : pool) (Head Lock : Z)
  (CallbackRoutine : option (Z -> X -> X)) : KM (lstate X) unit :=
  match fuel with
  | O => crash OutOfFuel
  | S fuel =>
      more ← free_first_entry to Head Lock CallbackRoutine;
      if more : bool then free_all fuel to Head Lock CallbackRoutine else mret tt
  end.

End operations.

(** ** Specification *)

(** From [p] the [Next] fields lead through [l] to [NULL]. *)
Fixpoint chain (nx : gmap Z Z) (p : Z) (l : list Z) : Prop :=
  match l with
  | [] => nx !! p = Some 0
  | x :: l => nx !! p = Some x /\ x <> 0 /\ chain nx x l
  end.

Record slist (nx : gmap Z Z) (Head : Z) (l : list Z) : Prop := SList {
  slist_chain : chain nx Head l;
  slist_nodup : NoDup (Head :: l);
  slist_head : Head <> 0;
}.

(** ** Lemmas on chains *)

Lemma chain_dom nx p l x : chain nx p l -> x ∈ p :: l -> is_Some (nx !! x).
Proof.
  revert p. induction l as [|y l IH]; cbn; intros p H Hx.
  - apply list_elem_of_singleton in Hx as ->. eauto.
  - destruct H as (Hp & _ & H). apply elem_of_cons in Hx as [->|Hx]; eauto.
Qed.

Lemma chain_nonnull nx p l x : chain nx p l -> x ∈ l -> x <> 0.
Proof.
  revert p. induction l as [|y l IH]; cbn; intros p H Hx; [by apply elem_of_nil in Hx|].
  destruct H as (_ & Hy & H). apply elem_of_cons in Hx as [->|Hx]; eauto.
Qed.

(** Changes outside the chain do not matter. *)
Lemma chain_agree nx nx' p l :
  chain nx p l -> (forall x, x ∈ p :: l -> nx' !! x = nx !! x) -> chain nx' p l.
Proof.
  revert p. induction l as [|y l IH]; cbn; intros p H Ha.
  - rewrite Ha; [done | by left].
  - destruct H as (Hp & Hy & H). split; [rewrite Ha; [done | by left]|].
    split; [done|]. apply (IH _ H). intros x Hx. apply Ha. by right.
Qed.

Lemma chain_insert nx p l q v :
  chain nx p l -> q ∉ p :: l -> chain (<[q := v]> nx) p l.
Proof.
  intros H Hq. apply (chain_agree _ _ _ _ H). intros x Hx.
  apply lookup_insert_ne. intros ->. done.
Qed.

Lemma chain_delete nx p l q : chain nx p l -> q ∉ p :: l -> chain (delete q nx) p l.
Proof.
  intros H Hq. apply (chain_agree _ _ _ _ H). intros x Hx.
  apply lookup_delete_ne. intros ->. done.
Qed.

Lemma chain_length nx p l : chain nx p l -> NoDup (p :: l) -> (length l < size nx)%nat.
Proof.
  intros H Hn.
  assert (list_to_set (p :: l) ⊆ dom nx) as Hsub.
  { intros x Hx. apply elem_of_list_to_set in Hx. apply elem_of_dom. by eapply chain_dom. }
  apply subseteq_size in Hsub. rewrite size_list_to_set in Hsub by done.
  rewrite size_dom in Hsub. cbn in Hsub. lia.
Qed.

Lemma slist_insert nx Head l n first :
  slist nx Head l -> nx !! Head = Some first -> n <> 0 -> n ∉ Head :: l ->
  slist (<[n := first]> (<[Head := n]> nx)) Head (n :: l).
Proof.
  intros [Hc Hd Hh] Hf Hn Hni. apply not_elem_of_cons in Hni as [HnH Hnl].
  apply NoDup_cons in Hd as [HHl Hdl].
  assert (chain (<[n := first]> (<[Head := n]> nx)) n l) as Hcn.
  { destruct l as [|x l]; cbn in *.
    - rewrite lookup_insert_eq. congruence.
    - destruct Hc as (Hx & Hx0 & Hc). assert (first = x) as -> by congruence.
      rewrite lookup_insert_eq. split; [done|]. split; [done|].
      by apply chain_insert; [apply chain_insert|]. }
  split; [|repeat constructor; set_solver|done]. cbn [chain].
  rewrite lookup_insert_ne, lookup_insert_eq by done. done.
Qed.

(** Taking [Entry], the successor of [p], out of a chain. *)
Lemma chain_unlink nx p x l q :
  chain nx p (x :: l) -> NoDup (p :: x :: l) -> nx !! x = Some q ->
  chain (delete x (<[p := q]> nx)) p l.
Proof.
  cbn. intros (Hp & Hx & Hc) Hd Hq.
  apply NoDup_cons in Hd as [Hpl [Hxl Hdl]%NoDup_cons].
  apply not_elem_of_cons in Hpl as [Hpx Hpl].
  destruct l as [|y l]; cbn in *.
  - rewrite lookup_delete_ne, lookup_insert_eq by done. congruence.
  - destruct Hc as (Hxy & Hy & Hc). assert (q = y) as -> by congruence.
    rewrite lookup_delete_ne, lookup_insert_eq by done. split; [done|]. split; [done|].
    apply chain_delete; [|done]. by apply chain_insert.
Qed.

(** The blocks a removal of [Entry] from [l] frees. *)
Definition freed_by (to : pool) (Entry : Z) (l : list Z) : list (Z * pool) :=
  if decide (Entry ∈ l) then [(Entry, to)] else [].

Definition without (Entry : Z) (l : list Z) : list Z := filter (fun x => x <> Entry) l.

Lemma without_notin Entry l : Entry ∉ l -> without Entry l = l.
Proof.
  unfold without. induction l as [|x l IH]; intros H; [done|].
  apply not_elem_of_cons in H as [Hx Hl].
  rewrite filter_cons_True by congruence. by rewrite IH.
Qed.

Lemma without_head Entry l : Entry ∉ l -> without Entry (Entry :: l) = l.
Proof.
  intros H. unfold without. rewrite filter_cons_False by (intros Hn; by apply Hn).
  by apply without_notin.
Qed.

Lemma without_tail Entry x l : x <> Entry -> without Entry (x :: l) = x :: without Entry l.
Proof. intros H. unfold without. by rewrite filter_cons_True. Qed.

Lemma elem_of_without Entry x l : x ∈ without Entry l <-> x <> Entry /\ x ∈ l.
Proof. unfold without. by rewrite list_elem_of_filter. Qed.

Section lemmas.
Context {X : Type}.
Implicit Types st : lstate X.

Lemma read_next_ok st p q :
  p <> 0 -> next st !! p = Some q -> read_next p st = Ok (q, st).
Proof. intros Hp Hq. unfold read_next. destruct (Z.eqb_spec p 0); [done|]. by rewrite Hq. Qed.

Lemma write_next_ok st p q :
  p <> 0 -> is_Some (next st !! p) ->
  write_next p q st
    = Ok (tt, LState (<[p := q]> (next st)) (held st) (frees st) (ext st)).
Proof.
  intros Hp [r Hr]. unfold write_next. destruct (Z.eqb_spec p 0); [done|]. by rewrite Hr.
Qed.

Lemma free_to_ok st to p :
  is_Some (next st !! p) ->
  free_to to p st
    = Ok (tt, LState (delete p (next st)) (held st) (frees st ++ [(p, to)]) (ext st)).
Proof. intros [r Hr]. unfold free_to. by rewrite Hr. Qed.

Lemma acquire_ok st Lock :
  Lock ∉ held st ->
  mutex_acquire Lock st
    = Ok (tt, LState (next st) ({[Lock]} ∪ held st) (frees st) (ext st)).
Proof. intros H. unfold mutex_acquire. by rewrite decide_False. Qed.

Lemma held_restored (Lock : Z) (h : gset Z) : Lock ∉ h -> ({[Lock]} ∪ h) ∖ {[Lock]} = h.
Proof. set_solver. Qed.

Lemma ListInit_spec st Head Lock :
  Head <> 0 -> is_Some (next st !! Head) ->
  exists nx', ListInit Head Lock st = Ok (tt, LState nx' (held st) (frees st) (ext st)) /\
    slist nx' Head [] /\ (forall x, x <> Head -> nx' !! x = next st !! x).
Proof.
  intros Hh Hs. exists (<[Head := 0]> (next st)).
  unfold ListInit. rewrite write_next_ok by done. split; [done|]. split.
  - split; [cbn; by rewrite lookup_insert_eq | by repeat constructor; set_solver | done].
  - intros x Hx. by rewrite lookup_insert_ne.
Qed.

Lemma ListInsert_spec st Head Lock l n :
  slist (next st) Head l -> Lock ∉ held st -> n <> 0 -> n ∉ Head :: l ->
  is_Some (next st !! n) ->
  exists nx', ListInsert Head n Lock st
      = Ok (tt, LState nx' (held st) (frees st) (ext st)) /\
    slist nx' Head (n :: l) /\ (forall x, x <> Head -> x <> n -> nx' !! x = next st !! x).
Proof.
  intros Hs HL Hn Hni HnS. destruct (chain_dom _ _ _ Head (slist_chain _ _ _ Hs)) as [first Hf];
    [by left|].
  pose proof (slist_head _ _ _ Hs) as Hh.
  exists (<[n := first]> (<[Head := n]> (next st))). split; [|split].
  - unfold ListInsert. erewrite KM_step by (by apply acquire_ok).
    erewrite KM_step by (by apply read_next_ok).
    erewrite KM_step by (apply write_next_ok; [done | by eexists]). cbn [next].
    erewrite KM_step by (apply write_next_ok; [done|]; cbn [next];
      rewrite lookup_insert_ne by set_solver; done).
    unfold mutex_release, modify. cbn [next held frees ext]. by rewrite held_restored.
  - by apply slist_insert.
  - intros x Hx Hxn. by rewrite !lookup_insert_ne by done.
Qed.

Lemma free_first_entry_empty st to Head Lock cb :
  slist (next st) Head [] -> Lock ∉ held st ->
  free_first_entry to Head Lock cb st = Ok (false, st).
Proof.
  intros [Hc _ Hh] HL. unfold free_first_entry.
  erewrite KM_step by (by apply acquire_ok).
  erewrite KM_step by (by apply read_next_ok). cbn.
  unfold mbind, KM_bind, mret, KM_ret, mutex_release, modify. cbn.
  rewrite held_restored by done. by destruct st.
Qed.

Lemma free_first_entry_cons st to Head Lock (cb : option (Z -> X -> X)) x l :
  slist (next st) Head (x :: l) -> Lock ∉ held st ->
  exists nx', free_first_entry to Head Lock cb st
      = Ok (true, LState nx' (held st) (frees st ++ [(x, to)])
                    (match cb with Some f => f x (ext st) | None => ext st end)) /\
    slist nx' Head l /\ nx' !! x = None /\
    (forall y, y <> Head -> y <> x -> nx' !! y = next st !! y).
Proof.
  intros [Hc Hd Hh] HL. pose proof Hc as (Hx & Hx0 & Hcx).
  destruct (chain_dom _ _ _ x Hcx) as [q Hq]; [by left|].
  assert (Head <> x) as Hne by (apply NoDup_cons in Hd; set_solver).
  exists (delete x (<[Head := q]> (next st))). split; [|split; [|split]].
  - unfold free_first_entry. erewrite KM_step by (by apply acquire_ok).
    erewrite KM_step by (by apply read_next_ok).
    destruct (Z.eqb_spec x 0); [done|].
    set (st1 := LState (next st) ({[Lock]} ∪ held st) (frees st)
                  (match cb with Some f => f x (ext st) | None => ext st end)).
    assert (forall (k : KM (lstate X) bool),
      (match cb with
       | Some callback => modify (fun st => LState (next st) (held st) (frees st)
                                              (callback x (ext st)))
       | None => mret tt
       end ≫= fun _ => k) (LState (next st) ({[Lock]} ∪ held st) (frees st) (ext st))
      = k st1) as Hcb by (intros k; by destruct cb).
    erewrite KM_step; cycle 1.
    { rewrite Hcb. subst st1. erewrite KM_step by (by apply read_next_ok).
      erewrite KM_step by (by apply read_next_ok).
      erewrite KM_step by (apply write_next_ok; [done | by eexists]). cbn [next].
      erewrite KM_step by (apply free_to_ok; cbn [next];
        rewrite lookup_insert_ne by done; by eexists).
      reflexivity. }
    unfold mbind, KM_bind, mret, KM_ret, mutex_release, modify. cbn.
    by rewrite held_restored.
  - split; [by apply chain_unlink | apply NoDup_cons in Hd as [? [? ?]%NoDup_cons];
      apply NoDup_cons; set_solver | done].
  - by rewrite lookup_delete_eq.
  - intros y Hy Hyx. by rewrite lookup_delete_ne, lookup_insert_ne by done.
Qed.

(** The loop below the head: [p] precedes [l]. *)
Lemma remove_loop_spec to Entry : forall fuel l p st,
  chain (next st) p l -> NoDup (p :: l) -> p <> 0 -> (length l < fuel)%nat ->
  exists nx', remove_loop fuel to p Entry st
      = Ok (tt, LState nx' (held st) (frees st ++ freed_by to Entry l) (ext st)) /\
    chain nx' p (without Entry l) /\ (Entry ∈ l -> nx' !! Entry = None) /\
    (forall y, y ∉ p :: l -> nx' !! y = next st !! y).
Proof.
  induction fuel as [|fuel IH]; intros l p st Hc Hd Hp Hf; [lia|]. cbn [remove_loop].
  destruct l as [|x l].
  - exists (next st). erewrite KM_step by (by apply read_next_ok). unfold freed_by. cbn.
    rewrite app_nil_r. split; [by destruct st|]. split; [done|]. split; [set_solver | done].
  - pose proof Hc as (Hx & Hx0 & Hcx). pose proof Hd as [Hpl Hdx]%NoDup_cons.
    erewrite KM_step by (by apply read_next_ok). cbn in Hf.
    destruct (Z.eqb_spec x 0); [done|]. destruct (Z.eqb_spec x Entry) as [<-|Hne].
    + destruct (chain_dom _ _ _ x Hcx) as [q Hq]; [by left|].
      exists (delete x (<[p := q]> (next st))).
      erewrite KM_step by (by apply read_next_ok).
      erewrite KM_step by (apply write_next_ok; [done | by eexists]).
      rewrite free_to_ok by (cbn [next]; rewrite lookup_insert_ne by set_solver; by eexists).
      unfold freed_by. rewrite decide_True by (by left). cbn [next held frees ext].
      split; [done|]. apply NoDup_cons in Hdx as [Hxl _]. rewrite without_head by done.
      split; [by apply chain_unlink|]. split; [intros _; by rewrite lookup_delete_eq|].
      intros y Hy. rewrite lookup_delete_ne, lookup_insert_ne; set_solver.
    + destruct (IH l x st Hcx Hdx Hx0 ltac:(lia)) as (nx' & -> & Hc' & HE & Hag).
      exists nx'. split.
      { do 3 f_equal. f_equal. unfold freed_by. repeat case_decide; set_solver. }
      rewrite without_tail by done. split; [|split].
      * cbn [chain]. rewrite Hag by done. done.
      * intros HE'. apply HE. set_solver.
      * intros y Hy. apply Hag. set_solver.
Qed.

(** The operation's body is the loop started one element earlier. *)
Lemma remove_entry_body fuel to Head Entry st :
  (entry ← read_next Head;
   if entry =? 0 then mret tt
   else if entry =? Entry then
     after ← read_next entry;
     write_next Head after ≫= fun _ =>
     free_to to Entry
   else remove_loop fuel to entry Entry) st = remove_loop (S fuel) to Head Entry st.
Proof.
  cbn [remove_loop]. unfold mbind, KM_bind. destruct (read_next Head st) as [[e st']|]; [|done].
  destruct (Z.eqb_spec e 0); [done|]. by destruct (Z.eqb_spec e Entry) as [->|].
Qed.

Lemma remove_entry_spec st to Head Entry Lock l :
  slist (next st) Head l -> Lock ∉ held st ->
  exists nx', remove_entry to Head Entry Lock st
      = Ok (tt, LState nx' (held st) (frees st ++ freed_by to Entry l) (ext st)) /\
    slist nx' Head (without Entry l) /\ (Entry ∈ l -> nx' !! Entry = None) /\
    (forall y, y ∉ Head :: l -> nx' !! y = next st !! y).
Proof.
  intros [Hc Hd Hh] HL. set (st1 := LState (next st) ({[Lock]} ∪ held st) (frees st) (ext st)).
  destruct (remove_loop_spec to Entry (S (size (next st))) l Head st1) as (nx' & Hr & Hc' & HE & Ha);
    [done.. | pose proof (chain_length _ _ _ Hc Hd); lia |].
  exists nx'. split; [|split; [split; [done| |done]|done]].
  - unfold remove_entry. erewrite KM_step by (by apply acquire_ok). fold st1.
    rewrite <- remove_entry_body in Hr. unfold mbind, KM_bind, gets in *.
    destruct (read_next Head st1) as [[e st2]|] eqn:Hrd; [|done].
    assert (st2 = st1) as ->.
    { unfold read_next in Hrd. repeat case_match; congruence. }
    change (next st1) with (next st). rewrite Hr. unfold mutex_release, modify.
    cbn [next held frees ext st1]. by rewrite held_restored.
  - apply NoDup_cons in Hd as [Hn Hd]. apply NoDup_cons. split.
    + rewrite elem_of_without. by intros [_ ?].
    + by apply NoDup_filter.
Qed.

Lemma free_all_spec to Head Lock (cb : option (Z -> X -> X)) : forall l fuel st,
  slist (next st) Head l -> Lock ∉ held st -> (length l < fuel)%nat ->
  exists nx', free_all fuel to Head Lock cb st
      = Ok (tt, LState nx' (held st) (frees st ++ ((fun x => (x, to)) <$> l))
                  (match cb with Some f => foldl (fun e x => f x e) (ext st) l
                   | None => ext st end)) /\
    slist nx' Head [] /\ (forall x, x ∈ l -> nx' !! x = None) /\
    (forall y, y ∉ Head :: l -> nx' !! y = next st !! y).
Proof.
  induction l as [|x l IH]; intros [|fuel] st Hs HL Hf; cbn [length] in Hf; try lia.
  - exists (next st). cbn [free_all].
    erewrite KM_step by (by apply free_first_entry_empty). cbn. rewrite app_nil_r.
    split; [destruct st, cb; done|]. split; [done|]. set_solver.
  - destruct (free_first_entry_cons st to Head Lock cb x l Hs HL)
      as (nx1 & H1 & Hs1 & Hx1 & Ha1).
    cbn [free_all]. erewrite KM_step by exact H1. cbn iota beta.
    match type of H1 with _ = Ok (_, ?s1) =>
      destruct (IH fuel s1 Hs1 HL ltac:(lia)) as (nx2 & H2 & Hs2 & Hl2 & Ha2) end.
    pose proof (slist_nodup _ _ _ Hs) as [HHn [Hxn _]%NoDup_cons]%NoDup_cons.
    exists nx2. rewrite H2.
    cbn [next held frees ext fmap list_fmap] in *. rewrite <- app_assoc.
    split; [by destruct cb|]. split; [done|]. split.
    + intros y [->|Hy]%elem_of_cons; [|by apply Hl2].
      rewrite Ha2; [done|]. set_solver.
    + intros y Hy. rewrite Ha2, Ha1; set_solver.
Qed.

End lemmas.

(** ** The abstract list and the refinement *)

Inductive list_op :=
  | OpInsert (NewEntry : Z)
  | OpFreeFirst
  | OpRemove (Entry : Z).

(** The abstract state: the entries, newest first, and the blocks freed. *)
Definition abs_step (to : pool) (a : list Z * list (Z * pool)) (op : list_op)
  : list Z * list (Z * pool) :=
  match op, a with
  | OpInsert n, (l, f) => (n :: l, f)
  | OpFreeFirst, ([], f) => ([], f)
  | OpFreeFirst, (x :: l, f) => (l, f ++ [(x, to)])
  | OpRemove e, (l, f) => (without e l, f ++ freed_by to e l)
  end.

Section refinement.
Context {X : Type} (to : pool) (Head Lock : Z) (cb : option (Z -> X -> X)).
Implicit Types st : lstate X.

Definition run_op (op : list_op) : KM (lstate X) unit :=
  match op with
  | OpInsert n => ListInsert Head n Lock
  | OpFreeFirst => free_first_entry to Head Lock cb ≫= fun _ => mret tt
  | OpRemove e => remove_entry to Head e Lock
  end.

(** The entries that a sequence of operations inserts. *)
Definition inserted (ops : list list_op) : list Z :=
  omap (fun op => match op with OpInsert n => Some n | _ => None end) ops.

(** The concrete state represents the abstract one, and the entries still to
    be inserted are allocated and on no list. *)
Record refines st (a : list Z * list (Z * pool)) (fresh : list Z) : Prop := {
  ref_list : slist (next st) Head a.1;
  ref_frees : frees st = a.2;
  ref_lock : Lock ∉ held st;
  ref_fresh : NoDup fresh;
  ref_alloc : forall n, n ∈ fresh -> n <> 0 /\ n ∉ Head :: a.1 /\ is_Some (next st !! n);
}.

Lemma run_op_refines st a op ops :
  refines st a (inserted (op :: ops)) ->
  exists st', run_op op st = Ok (tt, st') /\
    refines st' (abs_step to a op) (inserted ops) /\ held st' = held st.
Proof.
  intros [Hs Hf HL HN Ha]. destruct a as [l f]. cbn [fst snd] in *.
  destruct op as [n| |e]; cbn in *.
  - apply NoDup_cons in HN as [Hni HN].
    destruct (Ha n) as (Hn0 & Hnl & Hal); [by left|].
    destruct (ListInsert_spec st Head Lock l n) as (nx' & -> & Hs' & Hag); [done..|].
    eexists. split; [done|]. split; [split; cbn; try done|done].
    intros m Hm. destruct (Ha m) as (Hm0 & Hml & Hma); [by right|].
    rewrite Hag by set_solver. set_solver.
  - destruct l as [|x l].
    + erewrite KM_step by (by apply free_first_entry_empty).
      eexists. split; [done|]. by split; [split|].
    + destruct (free_first_entry_cons st to Head Lock cb x l) as (nx' & E & Hs' & _ & Hag);
        [done..|].
      erewrite KM_step by exact E. eexists. split; [done|].
      split; [split; cbn; try done; [by f_equal|]|done].
      intros m Hm. destruct (Ha m) as (Hm0 & Hml & Hma); [done|].
      rewrite Hag by set_solver. set_solver.
  - destruct (remove_entry_spec st to Head e Lock l) as (nx' & -> & Hs' & _ & Hag); [done..|].
    eexists. split; [done|]. split; [split; cbn; try done; [by f_equal|]|done].
    intros m Hm. destruct (Ha m) as (Hm0 & Hml & Hma); [done|].
    rewrite Hag by done. split; [done|]. split; [|done].
    apply not_elem_of_cons in Hml as [? Hml]. apply not_elem_of_cons. split; [done|].
    rewrite elem_of_without. by intros [_ ?].
Qed.

(** C5: the linked lists of list.c refine mathematical lists.  Any sequence of
    insertions, first-entry frees and removals on an initialised list runs to
    completion without a fault, leaves exactly the entries that the abstract
    operations leave, frees exactly the blocks they free, in that order, and
    gives the mutex back after every operation. *)
Theorem list_operations_refine_lists ops st a :
  refines st a (inserted ops) ->
  exists st', mforeach run_op ops st = Ok (tt, st') /\
    slist (next st') Head (foldl (abs_step to) a ops).1 /\
    frees st' = (foldl (abs_step to) a ops).2 /\ held st' = held st.
Proof.
  revert st a. induction ops as [|op ops IH]; intros st a HR.
  - exists st. split; [done|]. destruct HR. done.
  - destruct (run_op_refines _ _ _ _ HR) as (st1 & H1 & HR1 & Hh1).
    destruct (IH _ _ HR1) as (st2 & H2 & Hs2 & Hf2 & Hh2).
    exists st2. cbn [mforeach foldl]. erewrite KM_step by exact H1.
    split; [exact H2|]. split; [done|]. split; [done|]. congruence.
Qed.

(** The cleanup loop terminates.  On a list of [n] entries the loop that
    frees the first entry until there is none stops after [n + 1] rounds with
    an empty list, having passed every entry to the callback and freed it, each
    exactly once and in list order. *)
Theorem cleanup_frees_every_entry l st :
  slist (next st) Head l -> Lock ∉ held st ->
  exists nx', free_all (S (length l)) to Head Lock cb st
      = Ok (tt, LState nx' (held st) (frees st ++ ((fun x => (x, to)) <$> l))
                  (match cb with Some f => foldl (fun e x => f x e) (ext st) l
                   | None => ext st end)) /\
    slist nx' Head [] /\ (forall x, x ∈ l -> nx' !! x = None).
Proof.
  intros Hs HL. destruct (free_all_spec to Head Lock cb l (S (length l)) st Hs HL ltac:(lia))
    as (nx' & H & Hs' & Hl & _). eauto.
Qed.

End refinement.

(** ** Witnesses *)

Definition sample_heap : lstate (list Z) :=
  LState (<[100 := 0]> (<[8 := 77]> (<[16 := 77]> (<[24 := 77]> ∅)))) ∅ [] [].

Lemma sample_refines :
  refines (X := list Z) 100 200 sample_heap ([], []) [8; 16; 24].
Proof.
  split; cbn.
  - split; cbn; [by vm_compute | apply NoDup_singleton | done].
  - done.
  - set_solver.
  - repeat constructor; set_solver.
  - intros n Hn. repeat (apply elem_of_cons in Hn as [->|Hn]);
      [split; [done|]; split; [set_solver|]; vm_compute; eauto ..|].
    by apply elem_of_nil in Hn.
Qed.

Lemma list_operations_refine_lists_witness :
  exists st', mforeach (run_op (X := list Z) (ByTag POOL_TAG_THREAD_LIST) 100 200 None)
      [OpInsert 8; OpInsert 16; OpInsert 24; OpRemove 16; OpFreeFirst] sample_heap
    = Ok (tt, st') /\ slist (next st') 100 [8] /\
    frees st' = [(16, ByTag POOL_TAG_THREAD_LIST); (24, ByTag POOL_TAG_THREAD_LIST)].
Proof.
  destruct (list_operations_refine_lists (X := list Z) (ByTag POOL_TAG_THREAD_LIST) 100 200
    None [OpInsert 8; OpInsert 16; OpInsert 24; OpRemove 16; OpFreeFirst] sample_heap ([], []))
    as (st' & H & Hs & Hf & _); [exact sample_refines|].
  exists st'. split; [exact H|]. split; [exact Hs | exact Hf].
Defined.

Definition sample_heap2 : lstate (list Z) :=
  LState (<[100 := 8]> (<[8 := 16]> (<[16 := 0]> ∅))) ∅ [] [].

Lemma cleanup_frees_every_entry_witness :
  exists nx', free_all 3 (ToLookaside ThreadLookaside) 100 200 (Some (fun x e => e ++ [x]))
      sample_heap2
    = Ok (tt, LState nx' ∅ [(8, ToLookaside ThreadLookaside); (16, ToLookaside ThreadLookaside)]
                [8; 16]) /\ slist nx' 100 [].
Proof.
  destruct (cleanup_frees_every_entry (ToLookaside ThreadLookaside) 100 200
    (Some (fun x (e : list Z) => e ++ [x])) [8; 16] sample_heap2) as (nx' & H & Hs & _).
  - split; cbn; [vm_compute; split; [done|]; split; [done|]; split; [done|]; done
      | repeat constructor; set_solver | done].
  - set_solver.
  - exists nx'. split; [exact H | exact Hs].
Defined.
