(* ===== verification/Queue.v ===== *)
(** * queue.c: the report queue

    A singly linked queue with a pointer to each end, an entry counter and a
    guarded mutex.  Nodes come from [ExAllocatePool2], which is not part of
    the driver: it is a parameter here, with its documented contract (a block
    it returns is not in use and is zeroed) as a class of laws.  [QueuePush]
    relies on the zeroing: it never writes the [next] field of a new node.

    The specification is a first-in first-out sequence of data pointers. *)

From S2P Require Import Prelude.

Record QUEUE_NODE := Node { node_next : Z; node_data : Z }.

(** [nodes] is the part of pool memory that holds queue nodes. *)
Record QUEUE_HEAD := Queue {
  start : Z;
  endp : Z;
  lock_held : bool;
  entries : Z;
  nodes : gmap Z QUEUE_NODE;
}.

(** The pool: given the blocks in use, a pointer (or [NULL]) and the contents
    of the new block. *)
Class NodePool := ExAllocatePool2 : gmap Z QUEUE_NODE -> Z * QUEUE_NODE.

Class NodePoolLaws (P : NodePool) : Prop := {
  pool_fresh h p n : ExAllocatePool2 h = (p, n) -> p <> 0 -> h !! p = None;
  pool_zeroed h p n : ExAllocatePool2 h = (p, n) -> p <> 0 -> n = Node 0 0;
}.

(** ** Operations *)

Section operations.
Context {P : NodePool}.

Definition set_lock (b : bool) : KM QUEUE_HEAD unit :=
  modify (fun q => Queue (start q) (endp q) b (entries q) (nodes q)).
Definition set_start (p : Z) : KM QUEUE_HEAD unit :=
  modify (fun q => Queue p (endp q) (lock_held q) (entries q) (nodes q)).
Definition set_end (p : Z) : KM QUEUE_HEAD unit :=
  modify (fun q => Queue (start q) p (lock_held q) (entries q) (nodes q)).
Definition set_entries (f : Z -> Z) : KM QUEUE_HEAD unit :=
  modify (fun q => Queue (start q) (endp q) (lock_held q) (s32 (f (entries q))) (nodes q)).
Definition set_nodes (f : gmap Z QUEUE_NODE -> gmap Z QUEUE_NODE) : KM QUEUE_HEAD unit :=
  modify (fun q => Queue (start q) (endp q) (lock_held q) (entries q) (f (nodes q))).

Definition lock_queue : KM QUEUE_HEAD unit := fun q =>
  if lock_held q then Crash Deadlock else set_lock true q.

Definition load_node (p : Z) : KM QUEUE_HEAD QUEUE_NODE := fun q =>
  if p =? 0 then Crash NullDereference
  else match nodes q !! p with Some n => Ok (n, q) | None => Crash UnmappedRead end.

Definition store_node (p : Z) (f : QUEUE_NODE -> QUEUE_NODE) : KM QUEUE_HEAD unit :=
  n ← load_node p; set_nodes (<[p := f n]>).

Definition alloc_node : KM QUEUE_HEAD Z := fun q =>
  let '(p, n) := ExAllocatePool2 (nodes q) in
  if p =? 0 then Ok (0, q) else
  Ok (p, Queue (start q) (endp q) (lock_held q) (entries q) (<[p := n]> (nodes q))).

Definition free_node (p : Z) : KM QUEUE_HEAD unit := fun q =>
  match nodes q !! p with
  | Some _ => set_nodes (delete p) q
  | None => Crash BadFree
  end.

Definition QueuePush (Data : Z) : KM QUEUE_HEAD unit :=
  lock_queue ≫= fun _ =>
  temp ← alloc_node;
  (if temp =? 0 then mret tt
   else
     set_entries (fun e => e + 1) ≫= fun _ =>
     store_node temp (fun n => Node (node_next n) Data) ≫= fun _ =>
     tail ← gets endp;
     (if negb (tail =? 0)
      then store_node tail (fun n => Node temp (node_data n)) else mret tt) ≫= fun _ =>
     set_end temp ≫= fun _ =>
     first ← gets start;
     when (first =? 0) (set_start temp)) ≫= fun _ =>
  set_lock false.

Definition QueuePop : KM QUEUE_HEAD Z :=
  lock_queue ≫= fun _ =>
  temp ← gets start;
  data ← (if temp =? 0 then mret 0
          else
            set_entries (fun e => e - 1) ≫= fun _ =>
            n ← load_node temp;
            set_start (node_next n) ≫= fun _ =>
            tail ← gets endp;
            when (tail =? temp) (set_end 0) ≫= fun _ =>
            free_node temp ≫= fun _ =>
            mret (node_data n));
  set_lock false ≫= fun _ =>
  mret data.

End operations.

(** ** Specification *)

(** From [p] the nodes lead through the addresses and data of [l] to
    [NULL]. *)
Fixpoint qchain (h : gmap Z QUEUE_NODE) (p : Z) (l : list (Z * Z)) : Prop :=
  match l with
  | [] => p = 0
  | (a, d) :: l =>
      p = a /\ a <> 0 /\ exists nx, h !! a = Some (Node nx d) /\ qchain h nx l
  end.

Definition last_addr (l : list (Z * Z)) : Z := default 0 (fst <$> last l).

Record queue_rep (q : QUEUE_HEAD) (l : list (Z * Z)) : Prop := {
  rep_chain : qchain (nodes q) (start q) l;
  rep_end : endp q = last_addr l;
  rep_nodup : NoDup l.*1;
  rep_entries : entries q = s32 (zlen l);
  rep_lock : lock_held q = false;
}.

Inductive queue_op := Push (Data : Z) | Pop.

(** The abstract queue; a push is dropped only when the pool is exhausted. *)
Inductive fifo_step (oom : Prop) : list Z -> queue_op -> option Z -> list Z -> Prop :=
  | fifo_push l d : fifo_step oom l (Push d) None (l ++ [d])
  | fifo_drop l d : oom -> fifo_step oom l (Push d) None l
  | fifo_pop d l : fifo_step oom (d :: l) Pop (Some d) l
  | fifo_empty : fifo_step oom [] Pop (Some 0) [].

Inductive fifo_run (oom : Prop) : list Z -> list queue_op -> list (option Z) -> list Z -> Prop :=
  | fifo_nil l : fifo_run oom l [] [] l
  | fifo_cons l op o l1 ops os l2 :
      fifo_step oom l op o l1 -> fifo_run oom l1 ops os l2 ->
      fifo_run oom l (op :: ops) (o :: os) l2.

Definition run_queue_op {P : NodePool} (op : queue_op) : KM QUEUE_HEAD (option Z) :=
  match op with
  | Push d => QueuePush d ≫= fun _ => mret None
  | Pop => d ← QueuePop; mret (Some d)
  end.

Fixpoint run_queue_ops {P : NodePool} (ops : list queue_op) : KM QUEUE_HEAD (list (option Z)) :=
  match ops with
  | [] => mret []
  | op :: ops => o ← run_queue_op op; os ← run_queue_ops ops; mret (o :: os)
  end.

Definition pool_can_fail (P : NodePool) : Prop := exists h, (ExAllocatePool2 h).1 = 0.

(** ** Lemmas *)

Lemma s32_add x d : s32 (s32 x + d) = s32 (x + d).
Proof.
  unfold s32. rewrite <- Z.add_assoc, <- Z.add_sub_swap.
  replace ((x + 2 ^ 31) mod 2 ^ 32 + (d + 2 ^ 31) - 2 ^ 31)
    with ((x + 2 ^ 31) mod 2 ^ 32 + d) by lia.
  rewrite Zplus_mod_idemp_l. do 2 f_equal. lia.
Qed.

Lemma qchain_agree h h' p l :
  qchain h p l -> (forall a, a ∈ l.*1 -> h' !! a = h !! a) -> qchain h' p l.
Proof.
  revert p. induction l as [|[a d] l IH]; cbn; intros p H Ha; [done|].
  destruct H as (-> & Ha0 & nx & Hn & H). split; [done|]. split; [done|].
  exists nx. rewrite Ha by (by left). split; [done|]. apply IH; [done|].
  intros b Hb. apply Ha. by right.
Qed.

Lemma qchain_in h p l a : qchain h p l -> a ∈ l.*1 -> a <> 0 /\ is_Some (h !! a).
Proof.
  revert p. induction l as [|[b d] l IH]; cbn; intros p H Ha; [by apply elem_of_nil in Ha|].
  destruct H as (-> & Hb0 & nx & Hn & H). apply elem_of_cons in Ha as [->|Ha]; eauto.
Qed.

(** Appending a node at the end: the last node's [next] is set. *)
Lemma qchain_snoc h p l t d n d0 :
  qchain h p (l ++ [(t, d0)]) -> NoDup ((l ++ [(t, d0)]).*1) ->
  n <> 0 -> h !! n = Some (Node 0 d) -> n ∉ (l ++ [(t, d0)]).*1 ->
  qchain (<[t := Node n d0]> h) p ((l ++ [(t, d0)]) ++ [(n, d)]).
Proof.
  revert p. induction l as [|[a e] l IH]; cbn; intros p H Hd Hn0 Hn Hni.
  - destruct H as (-> & Ht0 & nx & Ht & ->). split; [done|]. split; [done|].
    exists n. rewrite lookup_insert_eq. split; [done|]. split; [done|]. split; [done|].
    exists 0. rewrite lookup_insert_ne by (intros ->; apply Hni; by left). done.
  - destruct H as (-> & Ha0 & nx & Ha & H). apply NoDup_cons in Hd as [Han Hd].
    split; [done|]. split; [done|]. exists nx. rewrite lookup_insert_ne.
    + split; [done|]. apply IH; try done. intros Hin. apply Hni. by right.
    + intros ->. apply Han. rewrite fmap_app. apply elem_of_app. right. by left.
Qed.

Lemma qchain_last h p l t d : qchain h p (l ++ [(t, d)]) -> h !! t = Some (Node 0 d).
Proof.
  revert p. induction l as [|[a e] l IH]; cbn; intros p H.
  - destruct H as (_ & _ & nx & Ht & ->). done.
  - destruct H as (_ & _ & nx & _ & H). eauto.
Qed.

Lemma last_addr_snoc l a d : last_addr (l ++ [(a, d)]) = a.
Proof. unfold last_addr. by rewrite last_snoc. Qed.

Section lemmas.
Context {P : NodePool} {L : NodePoolLaws P}.

Lemma store_node_ok q p n f :
  p <> 0 -> nodes q !! p = Some n ->
  store_node p f q
    = Ok (tt, Queue (start q) (endp q) (lock_held q) (entries q) (<[p := f n]> (nodes q))).
Proof.
  intros Hp Hn. unfold store_node, load_node. munfold.
  destruct (Z.eqb_spec p 0); [done|]. by rewrite Hn.
Qed.

Lemma alloc_node_ok q p n :
  ExAllocatePool2 (nodes q) = (p, n) -> p <> 0 ->
  alloc_node q
    = Ok (p, Queue (start q) (endp q) (lock_held q) (entries q) (<[p := n]> (nodes q))).
Proof. intros Ha Hp. unfold alloc_node. rewrite Ha. by destruct (Z.eqb_spec p 0). Qed.

(** The effect of a push whose allocation succeeds, on an empty queue and
    behind a last node [t]. *)
Lemma QueuePush_alloc s e en h d p :
  ExAllocatePool2 h = (p, Node 0 0) -> p <> 0 ->
  (e <> 0 -> e <> p /\ is_Some (h !! e)) ->
  QueuePush d (Queue s e false en h) = Ok (tt,
    Queue (if s =? 0 then p else s) p false (s32 (en + 1))
      (let h' := <[p := Node 0 d]> (<[p := Node 0 0]> h) in
       if e =? 0 then h'
       else <[e := Node p (default 0 (node_data <$> h !! e))]> h')).
Proof.
  intros Ha Hp He. unfold QueuePush. erewrite KM_step by reflexivity.
  erewrite KM_step by (by apply alloc_node_ok).
  destruct (Z.eqb_spec p 0); [done|].
  unfold set_entries, modify, set_end, set_start, gets, set_lock.
  munfold. cbn [start endp lock_held entries nodes].
  rewrite (store_node_ok _ _ (Node 0 0)) by (done || apply lookup_insert_eq).
  cbn [start endp lock_held entries nodes node_next].
  destruct (Z.eqb_spec e 0) as [->|Hne]; cbn [negb].
  - cbn. by destruct (s =? 0).
  - destruct (He Hne) as [Hep [t Hn]].
    rewrite (store_node_ok _ _ t) by (try done; cbn [nodes]; by rewrite !lookup_insert_ne by done).
    rewrite Hn. cbn. by destruct (s =? 0).
Qed.

Lemma QueuePush_spec q l d :
  queue_rep q l ->
  exists q' l', QueuePush d q = Ok (tt, q') /\ queue_rep q' l' /\
    ((ExAllocatePool2 (nodes q)).1 = 0 /\ l' = l \/ exists p, l' = l ++ [(p, d)]).
Proof.
  intros [Hc He Hd Hn Hl]. destruct q as [s e lk en h]. cbn in *. subst.
  destruct (ExAllocatePool2 h) as [p n] eqn:Ha. destruct (decide (p = 0)) as [->|Hp].
  { eexists _, l. split; [|split; [|by left]].
    - unfold QueuePush, alloc_node. munfold. cbn. rewrite Ha. reflexivity.
    - done. }
  pose proof (pool_fresh _ _ _ Ha Hp) as Hfr. pose proof (pool_zeroed _ _ _ Ha Hp) as ->.
  assert (p ∉ l.*1) as Hpl.
  { intros Hin. destruct (qchain_in _ _ _ _ Hc Hin) as [_ [? ?]]. congruence. }
  assert (zlen (l ++ [(p, d)]) = zlen l + 1) as Hz
    by (unfold zlen; rewrite length_app; cbn; lia).
  assert (NoDup (l ++ [(p, d)]).*1) as Hnd.
  { rewrite fmap_app. apply NoDup_app. split; [done|]. split; [set_solver|].
    apply NoDup_singleton. }
  eexists _, (l ++ [(p, d)]). split; [|split; [|right; by exists p]].
  { apply QueuePush_alloc; [done|done|]. intros Hne.
    destruct l as [|[t d0] l _] using rev_ind; [done|]. rewrite last_addr_snoc in *.
    assert (t ∈ (l ++ [(t, d0)]).*1) as Ht by (rewrite fmap_app; set_solver).
    split; [intros ->; done | by eapply qchain_in]. }
  split; cbn [start endp lock_held entries nodes]; try done.
  - destruct l as [|[t d0] l _] using rev_ind.
    + cbn in Hc |- *. subst s. split; [done|]. split; [done|]. exists 0.
      by rewrite lookup_insert_eq.
    + rewrite last_addr_snoc.
      assert (t ∈ (l ++ [(t, d0)]).*1) as Ht by (rewrite fmap_app; set_solver).
      destruct (qchain_in _ _ _ _ Hc Ht) as [Ht0 _].
      assert (s <> 0) as Hs0 by (destruct l as [|[? ?] ?]; cbn in Hc; naive_solver).
      destruct (Z.eqb_spec s 0), (Z.eqb_spec t 0); try done.
      rewrite (qchain_last _ _ _ _ _ Hc). cbn.
      apply qchain_snoc; try done; [|by rewrite lookup_insert_eq].
      apply (qchain_agree _ _ _ _ Hc). intros a Hin.
      rewrite !lookup_insert_ne by (intros ->; done). done.
  - by rewrite last_addr_snoc.
  - by rewrite Hz, s32_add.
Qed.

Lemma QueuePop_spec q l :
  queue_rep q l ->
  exists q', QueuePop q = Ok (default 0 (snd <$> head l), q') /\ queue_rep q' (tail l).
Proof.
  intros [Hc He Hd Hn Hl]. destruct q as [s e lk en h]. cbn in *. subst.
  unfold QueuePop. erewrite KM_step by reflexivity. erewrite KM_step by reflexivity.
  cbn [start]. destruct l as [|[a d] l]; cbn in Hc.
  - subst s. eexists. split; [reflexivity|]. by split.
  - destruct Hc as (-> & Ha0 & nx & Ha & Hc). apply NoDup_cons in Hd as [Han Hd].
    exists (Queue nx (if last_addr ((a, d) :: l) =? a then 0 else last_addr ((a, d) :: l))
              false (s32 (s32 (zlen ((a, d) :: l)) - 1)) (delete a h)).
    split.
    + destruct (Z.eqb_spec a 0); [done|]. unfold load_node, free_node. munfold. cbn.
      destruct (Z.eqb_spec a 0); [done|]. rewrite Ha. cbn.
      destruct (last_addr _ =? a); cbn; by rewrite Ha.
    + split; cbn [start endp lock_held entries nodes tail]; try done.
      * apply (qchain_agree _ _ _ _ Hc). intros b Hb. apply lookup_delete_ne. by intros ->.
      * destruct l as [|[t d0] l _] using rev_ind.
        { unfold last_addr. cbn. by rewrite Z.eqb_refl. }
        rewrite app_comm_cons, !last_addr_snoc. destruct (Z.eqb_spec t a) as [->|]; [|done].
        exfalso. apply Han. apply list_elem_of_fmap. exists (a, d0). set_solver.
      * rewrite <- Z.add_opp_r, s32_add. unfold zlen. cbn. f_equal. lia.
Qed.

Lemma run_queue_op_spec q l op :
  queue_rep q l ->
  exists q' l' o, run_queue_op op q = Ok (o, q') /\ queue_rep q' l' /\
    fifo_step (pool_can_fail P) l.*2 op o l'.*2.
Proof.
  intros HR. destruct op as [d|]; unfold run_queue_op.
  - destruct (QueuePush_spec q l d HR) as (q' & l' & H & HR' & Hcase).
    erewrite KM_step by exact H. exists q', l', None. split; [done|]. split; [done|].
    destruct Hcase as [[Hf ->] | [p ->]].
    + apply fifo_drop. by exists (nodes q).
    + rewrite fmap_app. apply fifo_push.
  - destruct (QueuePop_spec q l HR) as (q' & H & HR').
    erewrite KM_step by exact H. eexists q', (tail l), _. split; [done|]. split; [done|].
    destruct l as [|[a d] l]; [apply fifo_empty | apply fifo_pop].
Qed.

(** C28: the report queue is a first-in first-out queue.  From any state that
    represents a sequence, any sequence of pushes and pops completes without a
    fault, returns what an abstract FIFO queue returns (a push is lost only if
    the pool can fail), and ends in a state whose two end pointers, counter
    and nodes again represent the abstract contents, with the mutex
    released. *)
Theorem report_queue_is_fifo q l ops :
  queue_rep q l ->
  exists os q' l', run_queue_ops ops q = Ok (os, q') /\ queue_rep q' l' /\
    fifo_run (pool_can_fail P) l.*2 ops os l'.*2.
Proof.
  revert q l. induction ops as [|op ops IH]; intros q l HR.
  - exists [], q, l. split; [done|]. split; [done|]. constructor.
  - destruct (run_queue_op_spec q l op HR) as (q1 & l1 & o & H1 & HR1 & Hs1).
    destruct (IH q1 l1 HR1) as (os & q2 & l2 & H2 & HR2 & Hs2).
    exists (o :: os), q2, l2. cbn [run_queue_ops].
    erewrite KM_step by exact H1. erewrite KM_step by exact H2.
    split; [done|]. split; [done|]. by econstructor.
Qed.

End lemmas.

(** ** Witness: a pool that never fails *)

Definition bump_pool : NodePool := fun h =>
  (1 + map_fold (fun p _ m => Z.max p m) 0 h, Node 0 0).

Lemma map_fold_max_bound (h : gmap Z QUEUE_NODE) p :
  p ∈ dom h -> p <= map_fold (fun p _ m => Z.max p m) 0 h.
Proof.
  apply (map_fold_weak_ind (fun r (h : gmap Z QUEUE_NODE) => p ∈ dom h -> p <= r)).
  - rewrite dom_empty_L. set_solver.
  - intros i x m r _ IH Hp. rewrite dom_insert_L in Hp.
    apply elem_of_union in Hp as [Hp%elem_of_singleton|Hp]; [lia|]. specialize (IH Hp). lia.
Qed.

#[export] Instance bump_pool_laws : NodePoolLaws bump_pool.
Proof.
  split; unfold ExAllocatePool2, bump_pool; intros h p n [= <- <-] Hp; [|done].
  apply not_elem_of_dom. intros Hin. apply map_fold_max_bound in Hin. lia.
Qed.

Lemma empty_queue_rep : queue_rep (Queue 0 0 false 0 ∅) [].
Proof. by split; try constructor. Qed.

Lemma report_queue_is_fifo_witness :
  exists os q' l',
    run_queue_ops (P := bump_pool) [Push 5; Push 6; Pop; Push 7; Pop; Pop; Pop]
      (Queue 0 0 false 0 ∅) = Ok (os, q') /\
    queue_rep q' l' /\ os = [None; None; Some 5; None; Some 6; Some 7; Some 0].
Proof.
  destruct (report_queue_is_fifo (P := bump_pool) (Queue 0 0 false 0 ∅) []
    [Push 5; Push 6; Pop; Push 7; Pop; Pop; Pop] empty_queue_rep) as (os & q' & l' & H & HR & _).
  exists os, q', l'. split; [exact H|]. split; [exact HR|].
  vm_compute in H. congruence.
Defined.
