(* ===== verification/Irp.v ===== *)
(** * io.c: I/O request packets and the validation of their buffers

    All requests of the client are buffered: the I/O manager passes one
    system buffer as long as the longer of the input and the output buffer.
    [ValidateIrpOutputBuffer] checks the length, zeroes what will be returned
    and sets the number of bytes to return; [ValidateIrpInputBuffer] requires
    the exact length.

    The LIST_ENTRY routines of the kernel headers and the pool are interfaces
    here: [ListEntryApi] with its laws, and [Pool]. *)

From S2P Require Import Prelude.

(** ** Interfaces to the kernel *)

(** Doubly linked lists: an abstract list with its contents. *)
Class ListEntryApi (L : Type) (A : Type) := {
  InitializeListHead : L;
  InsertTailList : L -> A -> L;
  RemoveHeadList : L -> option A * L;
  RemoveEntryList : L -> A -> L;
  Flink : L -> option A;
  contents : L -> list A;
}.

(** Removes the first occurrence. *)
Fixpoint remove_one {A} `{EqDecision A} (entry : A) (entries : list A) : list A :=
  match entries with
  | [] => []
  | first :: rest => if decide (entry = first) then rest else first :: remove_one entry rest
  end.

(** The documented behaviour: [RemoveHeadList] and [Flink] yield the list head
    itself, [None] here, on an empty list. *)
Class ListEntryLaws (L A : Type) `{ListEntryApi L A, EqDecision A} : Prop := {
  contents_init : contents InitializeListHead = [];
  contents_insert_tail l x : contents (InsertTailList l x) = contents l ++ [x];
  contents_remove_head l :
    (RemoveHeadList l).1 = head (contents l) /\
    contents (RemoveHeadList l).2 = tail (contents l);
  contents_remove_entry l x : contents (RemoveEntryList l x) = remove_one x (contents l);
  contents_flink l : Flink l = head (contents l);
}.

(** The instance the witnesses use. *)
#[export] Instance list_ListEntryApi A `{EqDecision A} : ListEntryApi (list A) A := {
  InitializeListHead := [];
  InsertTailList l x := l ++ [x];
  RemoveHeadList l := (head l, tail l);
  RemoveEntryList l x := remove_one x l;
  Flink l := head l;
  contents l := l;
}.

#[export] Instance list_ListEntryLaws A `{EqDecision A} : ListEntryLaws (list A) A.
Proof. by split. Qed.

(** Whether the [n]-th request to the pool is granted. *)
Class Pool := pool_grants : nat -> bool.

(** ** Requests *)

Record IO_STACK_LOCATION := IoStack {
  InputBufferLength : Z;
  OutputBufferLength : Z;
  IoControlCode : Z;
}.

Record IRP := Irp {
  CurrentStackLocation : option IO_STACK_LOCATION;
  SystemBuffer : list Z;
  IoStatus_Status : NTSTATUS;
  IoStatus_Information : Z;
}.

Definition set_status (st : NTSTATUS) (irp : IRP) : IRP :=
  Irp (CurrentStackLocation irp) (SystemBuffer irp) st (IoStatus_Information irp).
Definition set_information (n : Z) (irp : IRP) : IRP :=
  Irp (CurrentStackLocation irp) (SystemBuffer irp) (IoStatus_Status irp) n.
Definition set_buffer (b : list Z) (irp : IRP) : IRP :=
  Irp (CurrentStackLocation irp) b (IoStatus_Status irp) (IoStatus_Information irp).

(** Overwriting a prefix of a buffer, as [RtlCopyMemory] and
    [RtlSecureZeroMemory] do. *)
Definition copy_to (dst src : list Z) : res (list Z) :=
  if (length src <=? length dst)%nat then Ok (src ++ drop (length src) dst)
  else Crash OutOfBounds.

Definition IoGetCurrentIrpStackLocation (irp : IRP) : option IO_STACK_LOCATION :=
  CurrentStackLocation irp.

(** A request is [None] when the pointer is [NULL]. *)
Definition ValidateIrpOutputBuffer (Irp : option IRP) (RequiredSize : Z)
  : res (NTSTATUS * option IRP) :=
  match Irp with
  | None => Ok (STATUS_INVALID_PARAMETER, Irp)
  | Some irp =>
      if RequiredSize =? 0 then Ok (STATUS_INVALID_PARAMETER, Irp)
      else match IoGetCurrentIrpStackLocation irp with
           | None => Ok (STATUS_UNSUCCESSFUL, Irp)
           | Some io =>
               if OutputBufferLength io <? RequiredSize
               then Ok (STATUS_BUFFER_TOO_SMALL, Irp)
               else
                 buffer ← copy_to (SystemBuffer irp) (replicate (Z.to_nat RequiredSize) 0);
                 Ok (STATUS_SUCCESS,
                     Some (set_information RequiredSize (set_buffer buffer irp)))
           end
  end.

Definition ValidateIrpInputBuffer (Irp : option IRP) (RequiredSize : Z) : NTSTATUS :=
  match Irp with
  | None => STATUS_INVALID_PARAMETER
  | Some irp =>
      if RequiredSize =? 0 then STATUS_INVALID_PARAMETER
      else match IoGetCurrentIrpStackLocation irp with
           | None => STATUS_UNSUCCESSFUL
           | Some io =>
               if negb (InputBufferLength io =? RequiredSize)
               then STATUS_INVALID_BUFFER_SIZE
               else STATUS_SUCCESS
           end
  end.

(** What the I/O manager guarantees of a buffered request. *)
Record irp_wf (irp : IRP) (io : IO_STACK_LOCATION) : Prop := {
  wf_stack : CurrentStackLocation irp = Some io;
  wf_lengths : 0 <= InputBufferLength io /\ 0 <= OutputBufferLength io;
  wf_buffer : zlen (SystemBuffer irp)
              = Z.max (InputBufferLength io) (OutputBufferLength io);
}.

(** ** Lemmas *)

Lemma copy_to_ok (dst src : list Z) :
  (length src <= length dst)%nat -> copy_to dst src = Ok (src ++ drop (length src) dst).
Proof. intros H. unfold copy_to. apply Nat.leb_le in H. by rewrite H. Qed.

Lemma length_copy (dst src : list Z) :
  (length src <= length dst)%nat -> length (src ++ drop (length src) dst) = length dst.
Proof. intros. rewrite length_app, length_drop. lia. Qed.

(** The outcome of the output check on a well-formed request. *)
Lemma ValidateIrpOutputBuffer_wf irp io n :
  irp_wf irp io -> 0 <= n ->
  ValidateIrpOutputBuffer (Some irp) n = Ok (
    if n =? 0 then (STATUS_INVALID_PARAMETER, Some irp)
    else if OutputBufferLength io <? n then (STATUS_BUFFER_TOO_SMALL, Some irp)
    else (STATUS_SUCCESS, Some (set_information n (set_buffer
           (replicate (Z.to_nat n) 0 ++ drop (Z.to_nat n) (SystemBuffer irp)) irp)))).
Proof.
  intros [Hs Hl Hb] Hn. unfold ValidateIrpOutputBuffer, IoGetCurrentIrpStackLocation.
  destruct (Z.eqb_spec n 0); [done|]. rewrite Hs.
  destruct (Z.ltb_spec (OutputBufferLength io) n); [done|].
  unfold zlen in Hb. rewrite copy_to_ok by (rewrite length_replicate; lia).
  cbn [mbind res_bind]. by rewrite length_replicate.
Qed.

(** Validation keeps a request well-formed. *)
Lemma irp_wf_validated irp io n buf :
  irp_wf irp io -> zlen buf = zlen (SystemBuffer irp) ->
  irp_wf (set_information n (set_buffer buf irp)) io.
Proof. intros [Hs Hl Hb] Hz. split; cbn; [done..|]. by rewrite Hz. Qed.

(** ** Properties *)

(** The output buffer check, on every branch.  On a well-formed buffered
    request it never touches memory outside the buffer; it succeeds exactly
    when the size is positive and fits the client's output buffer, and then the
    first [RequiredSize] bytes are zero, the remaining bytes are untouched and
    exactly [RequiredSize] bytes will be returned, so no stale memory reaches
    the client; otherwise the request is left as it was and the status is an
    error. *)
Theorem output_check_prevents_leak irp io RequiredSize :
  irp_wf irp io -> 0 <= RequiredSize ->
  exists status irp',
    ValidateIrpOutputBuffer (Some irp) RequiredSize = Ok (status, Some irp') /\
    irp_wf irp' io /\
    (NT_SUCCESS status = true <-> 0 < RequiredSize <= OutputBufferLength io) /\
    (NT_SUCCESS status = true ->
       IoStatus_Information irp' = RequiredSize /\
       take (Z.to_nat RequiredSize) (SystemBuffer irp')
         = replicate (Z.to_nat RequiredSize) 0 /\
       drop (Z.to_nat RequiredSize) (SystemBuffer irp')
         = drop (Z.to_nat RequiredSize) (SystemBuffer irp)) /\
    (NT_SUCCESS status = false -> irp' = irp).
Proof.
  intros Hwf Hn. rewrite (ValidateIrpOutputBuffer_wf _ _ _ Hwf Hn).
  destruct (Z.eqb_spec RequiredSize 0).
  { eexists _, irp. split; [done|]. split; [done|]. split; [split; [done|lia]|]. done. }
  destruct (Z.ltb_spec (OutputBufferLength io) RequiredSize).
  { eexists _, irp. split; [done|]. split; [done|]. split; [split; [done|lia]|]. done. }
  eexists _, _. split; [done|].
  pose proof (wf_buffer _ _ Hwf) as Hb. unfold zlen in Hb. split.
  { apply irp_wf_validated; [done|]. unfold zlen.
    rewrite length_app, length_replicate, length_drop. lia. }
  split; [split; [lia|done]|]. split; [|done]. intros _. cbn. split; [done|].
  by rewrite take_app_length', drop_app_length' by (by rewrite length_replicate).
Qed.

Lemma output_check_prevents_leak_witness :
  exists status irp',
    ValidateIrpOutputBuffer
      (Some (Irp (Some (IoStack 2 4 0)) [1; 2; 3; 4] 0 0)) 3 = Ok (status, Some irp') /\
    NT_SUCCESS status = true /\ SystemBuffer irp' = [0; 0; 0; 4].
Proof.
  destruct (output_check_prevents_leak (Irp (Some (IoStack 2 4 0)) [1; 2; 3; 4] 0 0)
    (IoStack 2 4 0) 3) as (status & irp' & H & _ & Hs & Hd & _).
  - split; cbn; [reflexivity | lia | reflexivity].
  - lia.
  - exists status, irp'. split; [exact H|]. vm_compute in H.
    injection H as <- <-. split; reflexivity.
Defined.
