(* ===== verification/IrpQueue.v ===== *)
(** * io.c: the cancel-safe request queue and the deferred reports

    The client keeps requests pending in a queue; the driver completes the
    oldest one whenever it has a report, or defers the report (a copy of its
    pointer, in a list) until the next request arrives.  The state owns three
    kinds of things: pending requests, report buffers in the pool, and
    deferred report structures.  Completing a request gives it back to the
    I/O manager: completing it again is a bug check.

    [IoCsqRemoveNextIrp] and [IoCsqInsertIrp] belong to the I/O manager: they
    are parameters whose laws say that they work through the callbacks the
    driver registers, which is what [IoCsqInitialize] is for.  The laws leave
    cancellation out: a cancelled request takes the path of
    [IrpQueueCompleteCancelledIrp]. *)

From S2P Require Import Prelude Irp.

(** ** State *)

Record DEFERRED_REPORT := DeferredReport { buffer : Z; buffer_size : Z }.

#[export] Instance DEFERRED_REPORT_eq_dec : EqDecision DEFERRED_REPORT.
Proof. solve_decision. Defined.

Record irp_state (LI LR : Type) := IrpState {
  queue : LI;
  count : Z;
  deferred : LR;
  deferred_count : Z;
  deferred_lock : bool;
  irps : gmap Z IRP;
  completed : list (Z * IRP);
  buffers : gmap Z (list Z);
  live_reports : Z;
  pool_requests : nat;
}.
Arguments IrpState {LI LR}.
Arguments queue {LI LR}.
Arguments count {LI LR}.
Arguments deferred {LI LR}.
Arguments deferred_count {LI LR}.
Arguments deferred_lock {LI LR}.
Arguments irps {LI LR}.
Arguments completed {LI LR}.
Arguments buffers {LI LR}.
Arguments live_reports {LI LR}.
Arguments pool_requests {LI LR}.

Section operations.
Context {LI LR : Type} `{!ListEntryApi LI Z} `{!ListEntryApi LR DEFERRED_REPORT}.
Context {P : Pool}.
Abbreviation S := (irp_state LI LR).
Abbreviation M := (KM (irp_state LI LR)).

Definition set_queue (q : LI) (c : Z) (s : S) : S :=
  IrpState q c (deferred s) (deferred_count s) (deferred_lock s) (irps s) (completed s)
    (buffers s) (live_reports s) (pool_requests s).
Definition set_deferred (d : LR) (c : Z) (s : S) : S :=
  IrpState (queue s) (count s) d c (deferred_lock s) (irps s) (completed s)
    (buffers s) (live_reports s) (pool_requests s).
Definition set_deferred_lock (b : bool) (s : S) : S :=
  IrpState (queue s) (count s) (deferred s) (deferred_count s) b (irps s) (completed s)
    (buffers s) (live_reports s) (pool_requests s).
Definition set_irps (m : gmap Z IRP) (c : list (Z * IRP)) (s : S) : S :=
  IrpState (queue s) (count s) (deferred s) (deferred_count s) (deferred_lock s) m c
    (buffers s) (live_reports s) (pool_requests s).
Definition set_pool (b : gmap Z (list Z)) (n : Z) (k : nat) (s : S) : S :=
  IrpState (queue s) (count s) (deferred s) (deferred_count s) (deferred_lock s) (irps s)
    (completed s) b n k.

(** ** Driver callbacks of the cancel-safe queue *)

(** With a count that agrees with the list, [Flink] is the first request. *)
Definition IrpQueuePeekNextEntry (s : S) : option Z :=
  if count s =? 0 then None else Flink (queue s).

Definition IrpQueueRemove (Irp : Z) (s : S) : S :=
  set_queue (RemoveEntryList (queue s) Irp) (u32 (count s - 1)) s.

Definition IrpQueueInsert (Irp : Z) (s : S) : S :=
  set_queue (InsertTailList (queue s) Irp) (u32 (count s + 1)) s.

(** ** Requests and pool blocks *)

Definition load_irp (p : Z) : M IRP := fun s =>
  match irps s !! p with Some irp => Ok (irp, s) | None => Crash UnmappedRead end.

Definition store_irp (p : Z) (irp : IRP) : M unit :=
  modify (fun s => set_irps (<[p := irp]> (irps s)) (completed s) s).

(** [IofCompleteRequest]: the request goes back to the I/O manager. *)
Definition complete_request (p : Z) : M unit := fun s =>
  match irps s !! p with
  | Some irp => Ok (tt, set_irps (delete p (irps s)) (completed s ++ [(p, irp)]) s)
  | None => Crash BadFree
  end.

Definition free_buffer (p : Z) : M unit := fun s =>
  match buffers s !! p with
  | Some _ => Ok (tt, set_pool (delete p (buffers s)) (live_reports s) (pool_requests s) s)
  | None => Crash BadFree
  end.

Definition validate_output (p : Z) (n : Z) : M NTSTATUS := fun s =>
  match irps s !! p with
  | None => Crash UnmappedRead
  | Some irp =>
      '(status, irp') ← ValidateIrpOutputBuffer (Some irp) n;
      store_irp p (default irp irp') s ≫= fun '(_, s) => Ok (status, s)
  end.

(** [RtlCopyMemory(irp->AssociatedIrp.SystemBuffer, Buffer, BufferSize)]. *)
Definition copy_report (p Buffer BufferSize : Z) : M unit := fun s =>
  match irps s !! p, buffers s !! Buffer with
  | Some irp, Some bytes =>
      if (Z.to_nat BufferSize <=? length bytes)%nat then
        dst ← copy_to (SystemBuffer irp) (take (Z.to_nat BufferSize) bytes);
        store_irp p (set_buffer dst irp) s
      else Crash OutOfBounds
  | _, _ => Crash UnmappedRead
  end.

Definition KeAcquireDeferredLock : M unit := fun s =>
  if deferred_lock s then Crash Deadlock else Ok (tt, set_deferred_lock true s).
Definition KeReleaseDeferredLock : M unit := modify (set_deferred_lock false).

(** ** Deferred reports *)

Definition IrpQueueIsThereDeferredReport (s : S) : bool := 0 <? deferred_count s.

(** On an empty list the head itself is taken for a report. *)
Definition IrpQueueRemoveDeferredReport : M (option DEFERRED_REPORT) := fun s =>
  let '(r, d) := RemoveHeadList (deferred s) in
  Ok (r, set_deferred d (deferred_count s) s).

Definition IrpQueueFreeDeferredReport (Report : DEFERRED_REPORT) : M unit :=
  free_buffer (buffer Report) ≫= fun _ =>
  modify (fun s => set_pool (buffers s) (live_reports s - 1) (pool_requests s) s).

Definition IrpQueueCompleteDeferredReport (Report : DEFERRED_REPORT) (Irp : Z)
  : M NTSTATUS :=
  status ← validate_output Irp (buffer_size Report);
  if negb (NT_SUCCESS status) then mret status
  else
    copy_report Irp (buffer Report) (buffer_size Report) ≫= fun _ =>
    irp ← load_irp Irp;
    store_irp Irp (set_information (buffer_size Report) (set_status STATUS_SUCCESS irp))
      ≫= fun _ =>
    complete_request Irp ≫= fun _ =>
    IrpQueueFreeDeferredReport Report ≫= fun _ =>
    mret STATUS_SUCCESS.

Definition IrpQueueQueryPendingReports (Irp : Z) : M NTSTATUS :=
  KeAcquireDeferredLock ≫= fun _ =>
  there ← gets IrpQueueIsThereDeferredReport;
  status ← (if there : bool then
              report ← IrpQueueRemoveDeferredReport;
              match report with
              | None => crash UnmappedRead
              | Some report =>
                  status ← IrpQueueCompleteDeferredReport report Irp;
                  (if negb (NT_SUCCESS status)
                   then IrpQueueFreeDeferredReport report
                   else modify (fun s => set_deferred (deferred s)
                                           (u32 (deferred_count s - 1)) s)) ≫= fun _ =>
                  mret status
              end
            else mret STATUS_UNSUCCESSFUL);
  KeReleaseDeferredLock ≫= fun _ =>
  mret status.

Definition IrpQueueCompleteCancelledIrp (Irp : Z) : M unit :=
  irp ← load_irp Irp;
  store_irp Irp (set_information 0 (set_status STATUS_CANCELLED irp)) ≫= fun _ =>
  complete_request Irp.

Definition IrpQueueAllocateDeferredReport (Buffer BufferSize : Z)
  : M (option DEFERRED_REPORT) := fun s =>
  if pool_grants (pool_requests s)
  then Ok (Some (DeferredReport Buffer BufferSize),
           set_pool (buffers s) (live_reports s + 1) (pool_requests s + 1) s)
  else Ok (None, set_pool (buffers s) (live_reports s) (pool_requests s + 1) s).

Definition MAX_DEFERRED_REPORTS_COUNT : Z := 100.

Definition IrpQueueDeferReport (Buffer BufferSize : Z) : M unit :=
  c ← gets deferred_count;
  if MAX_DEFERRED_REPORTS_COUNT <? c then free_buffer Buffer
  else
    report ← IrpQueueAllocateDeferredReport Buffer BufferSize;
    match report with
    | None => mret tt
    | Some report =>
        KeAcquireDeferredLock ≫= fun _ =>
        modify (fun s => set_deferred (InsertTailList (deferred s) report)
                           (u32 (deferred_count s + 1)) s) ≫= fun _ =>
        KeReleaseDeferredLock
    end.

(** The [while] loop of [IrpQueueFreeDeferredReports]. *)
Fixpoint free_deferred_loop (fuel : nat) : M unit :=
  match fuel with
  | O => crash OutOfFuel
  | Datatypes.S fuel =>
      there ← gets IrpQueueIsThereDeferredReport;
      if there : bool then
        report ← IrpQueueRemoveDeferredReport;
        match report with
        | None => crash UnmappedRead
        | Some report => IrpQueueFreeDeferredReport report ≫= fun _ =>
                         free_deferred_loop fuel
        end
      else mret tt
  end.

Definition IrpQueueFreeDeferredReports (fuel : nat) : M unit :=
  KeAcquireDeferredLock ≫= fun _ =>
  free_deferred_loop fuel ≫= fun _ =>
  KeReleaseDeferredLock.

(** [GetIrpQueueHead()->...] as [IrpQueueInitialise] leaves it; [csq] is the
    status of [IoCsqInitialize]. *)
Definition IrpQueueInitialise (csq : NTSTATUS) : M NTSTATUS :=
  modify (set_deferred_lock false) ≫= fun _ =>
  modify (fun s => set_queue InitializeListHead (count s) s) ≫= fun _ =>
  modify (fun s => set_deferred InitializeListHead (deferred_count s) s) ≫= fun _ =>
  mret csq.

(** ** The interface of the I/O manager's queue *)

Class CsqApi := {
  IoCsqRemoveNextIrp : M (option Z);
  IoCsqInsertIrp : Z -> M unit;
}.

Class CsqLaws (C : CsqApi) : Prop := {
  csq_remove_next s : IoCsqRemoveNextIrp s =
    match IrpQueuePeekNextEntry s with
    | Some irp => Ok (Some irp, IrpQueueRemove irp s)
    | None => Ok (None, s)
    end;
  csq_insert irp s : IoCsqInsertIrp irp s = Ok (tt, IrpQueueInsert irp s);
}.

Context {C : CsqApi}.

Definition IrpQueueCompleteIrp (Buffer BufferSize : Z) : M NTSTATUS :=
  irp ← IoCsqRemoveNextIrp;
  match irp with
  | None => IrpQueueDeferReport Buffer BufferSize ≫= fun _ => mret STATUS_SUCCESS
  | Some p =>
      status ← validate_output p BufferSize;
      if negb (NT_SUCCESS status) then
        free_buffer Buffer ≫= fun _ =>
        irp ← load_irp p;
        store_irp p (set_information 0 (set_status STATUS_INSUFFICIENT_RESOURCES irp))
          ≫= fun _ =>
        complete_request p ≫= fun _ =>
        mret status
      else
        irp ← load_irp p;
        store_irp p (set_information BufferSize (set_status STATUS_SUCCESS irp)) ≫= fun _ =>
        copy_report p Buffer BufferSize ≫= fun _ =>
        free_buffer Buffer ≫= fun _ =>
        complete_request p ≫= fun _ =>
        mret status
  end.

(** The branch of [DeviceControl] for [IOCTL_INSERT_IRP_INTO_QUEUE]. *)
Definition InsertIrpIntoQueue (Irp : Z) : M NTSTATUS :=
  status ← IrpQueueQueryPendingReports Irp;
  if negb (NT_SUCCESS status) then
    IoCsqInsertIrp Irp ≫= fun _ => mret STATUS_PENDING
  else mret STATUS_SUCCESS.

End operations.

(** The callbacks called directly: a queue with no cancellation in flight. *)
#[export] Instance direct_csq {LI LR} `{!ListEntryApi LI Z} `{!ListEntryApi LR DEFERRED_REPORT}
  : CsqApi (LI := LI) (LR := LR) := {
  IoCsqRemoveNextIrp := fun s =>
    match IrpQueuePeekNextEntry s with
    | Some irp => Ok (Some irp, IrpQueueRemove irp s)
    | None => Ok (None, s)
    end;
  IoCsqInsertIrp := fun irp s => Ok (tt, IrpQueueInsert irp s);
}.

#[export] Instance direct_csq_laws {LI LR} `{!ListEntryApi LI Z}
  `{!ListEntryApi LR DEFERRED_REPORT} : CsqLaws (LI := LI) (LR := LR) direct_csq.
Proof. by split. Qed.

(** ** Specification *)

(** The request [irp] as the client gets it back with a report. *)
Definition delivered (bytes : list Z) (irp : IRP) : IRP :=
  Irp (CurrentStackLocation irp) (bytes ++ drop (length bytes) (SystemBuffer irp))
    STATUS_SUCCESS (zlen bytes).

(** The request as the client gets it back when the report does not fit. *)
Definition rejected (irp : IRP) : IRP :=
  set_information 0 (set_status STATUS_INSUFFICIENT_RESOURCES irp).

Section lemmas.
Context {LI LR : Type} `{!ListEntryApi LI Z} `{!ListEntryApi LR DEFERRED_REPORT}.
Context {P : Pool} {C : CsqApi (LI := LI) (LR := LR)}.
Implicit Types s : irp_state LI LR.

Lemma validate_output_fits s p irp io n :
  irps s !! p = Some irp -> irp_wf irp io -> 0 < n <= OutputBufferLength io ->
  validate_output p n s = Ok (STATUS_SUCCESS,
    set_irps (<[p := set_information n (set_buffer
       (replicate (Z.to_nat n) 0 ++ drop (Z.to_nat n) (SystemBuffer irp)) irp)]> (irps s))
      (completed s) s).
Proof.
  intros Hp Hwf Hn. unfold validate_output. rewrite Hp.
  rewrite (ValidateIrpOutputBuffer_wf _ _ _ Hwf) by lia.
  destruct (Z.eqb_spec n 0), (Z.ltb_spec (OutputBufferLength io) n); try lia. done.
Qed.

Lemma validate_output_too_small s p irp io n :
  irps s !! p = Some irp -> irp_wf irp io -> 0 < n -> OutputBufferLength io < n ->
  validate_output p n s = Ok (STATUS_BUFFER_TOO_SMALL, s).
Proof.
  intros Hp Hwf Hn Ho. unfold validate_output. rewrite Hp.
  rewrite (ValidateIrpOutputBuffer_wf _ _ _ Hwf) by lia.
  destruct (Z.eqb_spec n 0), (Z.ltb_spec (OutputBufferLength io) n); try lia.
  munfold. unfold store_irp, modify, set_irps. cbn. rewrite insert_id by done. by destruct s.
Qed.

Lemma copy_report_ok s p irp B bytes :
  irps s !! p = Some irp -> buffers s !! B = Some bytes ->
  (length bytes <= length (SystemBuffer irp))%nat ->
  copy_report p B (zlen bytes) s = Ok (tt,
    set_irps (<[p := set_buffer (bytes ++ drop (length bytes) (SystemBuffer irp)) irp]> (irps s))
      (completed s) s).
Proof.
  intros Hp HB Hl. unfold copy_report. rewrite Hp, HB. unfold zlen. rewrite Nat2Z.id.
  rewrite Nat.leb_refl, take_ge by lia. by rewrite copy_to_ok by done.
Qed.

Lemma drop_overwritten n (sb : list Z) :
  drop n (replicate n 0 ++ drop n sb) = drop n sb.
Proof. by rewrite drop_app_length' by (by rewrite length_replicate). Qed.

(** The state after [p] was completed as [irp'] and the buffer [B] freed. *)
Definition completed_with (p : Z) (irp' : IRP) (B : Z) s : irp_state LI LR :=
  IrpState (queue s) (count s) (deferred s) (deferred_count s) (deferred_lock s)
    (delete p (irps s)) (completed s ++ [(p, irp')]) (delete B (buffers s))
    (live_reports s) (pool_requests s).

Lemma IrpQueueCompleteIrp_fits s p s1 irp io B bytes :
  IoCsqRemoveNextIrp s = Ok (Some p, s1) ->
  irps s1 !! p = Some irp -> irp_wf irp io -> buffers s1 !! B = Some bytes ->
  0 < zlen bytes <= OutputBufferLength io ->
  IrpQueueCompleteIrp B (zlen bytes) s
    = Ok (STATUS_SUCCESS, completed_with p (delivered bytes irp) B s1).
Proof.
  intros Hrm Hp Hwf HB Hn. unfold IrpQueueCompleteIrp.
  erewrite KM_step by exact Hrm. cbn iota beta. erewrite KM_step by (by eapply validate_output_fits).
  cbn [negb]. change (negb (NT_SUCCESS STATUS_SUCCESS)) with false. cbn iota.
  pose proof (wf_buffer _ _ Hwf) as Hb. unfold zlen in Hb, Hn.
  erewrite KM_step by (unfold load_irp, set_irps; cbn; rewrite lookup_insert_eq; done).
  erewrite KM_step by reflexivity.
  erewrite KM_step; cycle 1.
  { apply copy_report_ok; [cbn; apply lookup_insert_eq | exact HB |].
    cbn. rewrite length_app, length_replicate, length_drop. lia. }
  erewrite KM_step by (unfold free_buffer; cbn; rewrite HB; done).
  erewrite KM_step by (unfold complete_request; cbn; rewrite lookup_insert_eq; done).
  unfold mret, KM_ret, completed_with, delivered, set_pool, set_irps. cbn.
  unfold zlen. rewrite Nat2Z.id, drop_overwritten.
  by rewrite !delete_insert_eq.
Qed.

Lemma IrpQueueCompleteIrp_small s p s1 irp io B bytes :
  IoCsqRemoveNextIrp s = Ok (Some p, s1) ->
  irps s1 !! p = Some irp -> irp_wf irp io -> buffers s1 !! B = Some bytes ->
  0 < zlen bytes -> OutputBufferLength io < zlen bytes ->
  IrpQueueCompleteIrp B (zlen bytes) s
    = Ok (STATUS_BUFFER_TOO_SMALL, completed_with p (rejected irp) B s1).
Proof.
  intros Hrm Hp Hwf HB Hn Ho. unfold IrpQueueCompleteIrp.
  erewrite KM_step by exact Hrm. cbn iota beta. erewrite KM_step by (by eapply validate_output_too_small).
  change (negb (NT_SUCCESS STATUS_BUFFER_TOO_SMALL)) with true. cbn iota.
  erewrite KM_step by (unfold free_buffer; rewrite HB; done).
  erewrite KM_step by (unfold load_irp; cbn; rewrite Hp; done).
  erewrite KM_step by reflexivity.
  erewrite KM_step by (unfold complete_request; cbn; rewrite lookup_insert_eq; done).
  unfold mret, KM_ret, completed_with, rejected, set_pool, set_irps. cbn.
  by rewrite delete_insert_eq.
Qed.

(** The effect of taking the report [B] off the deferred list with a request
    that is large enough. *)
Lemma IrpQueueCompleteDeferredReport_fits s p irp io B bytes :
  irps s !! p = Some irp -> irp_wf irp io -> buffers s !! B = Some bytes ->
  0 < zlen bytes <= OutputBufferLength io ->
  IrpQueueCompleteDeferredReport (DeferredReport B (zlen bytes)) p s
    = Ok (STATUS_SUCCESS,
          let s' := completed_with p (delivered bytes irp) B s in
          set_pool (buffers s') (live_reports s' - 1) (pool_requests s') s').
Proof.
  intros Hp Hwf HB Hn. unfold IrpQueueCompleteDeferredReport. cbn [buffer buffer_size].
  erewrite KM_step by (by eapply validate_output_fits).
  change (negb (NT_SUCCESS STATUS_SUCCESS)) with false. cbn iota.
  pose proof (wf_buffer _ _ Hwf) as Hb. unfold zlen in Hb, Hn.
  erewrite KM_step; cycle 1.
  { apply copy_report_ok; [cbn; apply lookup_insert_eq | exact HB |].
    cbn. rewrite length_app, length_replicate, length_drop. lia. }
  erewrite KM_step by (unfold load_irp, set_irps; cbn; rewrite lookup_insert_eq; done).
  erewrite KM_step by reflexivity.
  erewrite KM_step by (unfold complete_request; cbn; rewrite lookup_insert_eq; done).
  unfold IrpQueueFreeDeferredReport. cbn [buffer].
  erewrite KM_step; cycle 1.
  { erewrite KM_step by (unfold free_buffer; cbn; rewrite HB; done). reflexivity. }
  unfold mret, KM_ret, completed_with, delivered, set_pool, set_irps. cbn.
  unfold zlen. rewrite Nat2Z.id, drop_overwritten.
  by rewrite !delete_insert_eq.
Qed.

End lemmas.

(** ** The system of requests and reports *)

Section delivery.
Context {LI LR : Type} `{!ListEntryApi LI Z} `{!ListEntryApi LR DEFERRED_REPORT}.
Context {HLI : ListEntryLaws LI Z} {HLR : ListEntryLaws LR DEFERRED_REPORT}.
Context {P : Pool} {C : CsqApi (LI := LI) (LR := LR)} {HC : CsqLaws C}.
Implicit Types s : irp_state LI LR.

(** What the client and the driver do. *)
Inductive io_event := Report (Buffer BufferSize : Z) | Request (Irp : Z).

Definition run_event (e : io_event) : KM (irp_state LI LR) unit :=
  match e with
  | Report B n => IrpQueueCompleteIrp B n ≫= fun _ => mret tt
  | Request p => InsertIrpIntoQueue p ≫= fun _ => mret tt
  end.

(** The bytes a completed request returns to the client. *)
Definition payload (c : Z * IRP) : list Z :=
  take (Z.to_nat (IoStatus_Information c.2)) (SystemBuffer c.2).

Definition report_bytes (m : gmap Z (list Z)) (B : Z) : list Z := default [] (m !! B).

Definition reported (evs : list io_event) : list (Z * Z) :=
  omap (fun e => match e with Report B n => Some (B, n) | _ => None end) evs.
Definition requested (evs : list io_event) : list Z :=
  omap (fun e => match e with Request p => Some p | _ => None end) evs.

(** Reports awaiting delivery. *)
Definition pending_reports s : list (list Z) :=
  (fun r => report_bytes (buffers s) (buffer r)) <$> contents (deferred s).

(** A report of at most [max] bytes, and a request that can take it. *)
Definition report_ok (max : Z) (m : gmap Z (list Z)) (B n : Z) : Prop :=
  exists bytes, m !! B = Some bytes /\ n = zlen bytes /\ 0 < n <= max.
Definition request_ok (max : Z) (m : gmap Z IRP) (p : Z) : Prop :=
  exists irp io, m !! p = Some irp /\ irp_wf irp io /\ max <= OutputBufferLength io.

(** The invariant, with the reports [Bs] and the requests [ps] to come. *)
Record delivery_inv (max : Z) s (Bs : list (Z * Z)) (ps : list Z) : Prop := {
  di_count : count s = zlen (contents (queue s));
  di_deferred : deferred_count s = zlen (contents (deferred s));
  di_live : live_reports s = zlen (contents (deferred s));
  di_lock : deferred_lock s = false;
  di_excl : contents (queue s) = [] \/ contents (deferred s) = [];
  di_requests : NoDup (contents (queue s) ++ ps);
  di_request_ok p : p ∈ contents (queue s) ++ ps -> request_ok max (irps s) p;
  di_reports : NoDup ((buffer <$> contents (deferred s)) ++ Bs.*1);
  di_report_ok B n :
    (B, n) ∈ ((fun r => (buffer r, buffer_size r)) <$> contents (deferred s)) ++ Bs ->
    report_ok max (buffers s) B n;
  di_bound : zlen (contents (queue s)) + zlen ps < 2 ^ 32;
  di_limit : zlen (contents (deferred s)) + zlen Bs <= MAX_DEFERRED_REPORTS_COUNT + 1;
}.

(** Nothing is lost, duplicated or reordered: what was delivered, followed by
    what waits, grows by exactly what was submitted. *)
Definition conserved s s' (news : list (list Z)) (reqs : list Z) : Prop :=
  (payload <$> completed s') ++ pending_reports s'
    = (payload <$> completed s) ++ pending_reports s ++ news /\
  (completed s').*1 ++ contents (queue s')
    = (completed s).*1 ++ contents (queue s) ++ reqs.

(** What is completed was delivered with a report, and the other requests and buffers
    are only given back. *)
Definition progress (max : Z) s s' : Prop :=
  (exists done, completed s' = completed s ++ done /\
     Forall (fun c => exists bytes irp, c.2 = delivered bytes irp /\ 0 < zlen bytes <= max) done) /\
  dom (irps s') ⊆ dom (irps s) /\ dom (buffers s') ⊆ dom (buffers s).

Lemma progress_unchanged max s s' :
  completed s' = completed s -> irps s' = irps s -> buffers s' = buffers s -> progress max s s'.
Proof. intros E Hi Hb. unfold progress. rewrite Hi, Hb. split; [|done]. exists []. by rewrite app_nil_r. Qed.

Lemma progress_completed max s s' p bytes irp B :
  completed s' = completed s ++ [(p, delivered bytes irp)] -> 0 < zlen bytes <= max ->
  irps s' = delete p (irps s) -> buffers s' = delete B (buffers s) -> progress max s s'.
Proof.
  intros E Hn Hi Hb. unfold progress. rewrite Hi, Hb, !dom_delete_L. split; [|set_solver]. exists [(p, delivered bytes irp)].
  split; [done|]. constructor; [|done]. by exists bytes, irp.
Qed.

Lemma payload_delivered p bytes irp : payload (p, delivered bytes irp) = bytes.
Proof.
  unfold payload, delivered. cbn. unfold zlen. rewrite Nat2Z.id.
  by rewrite take_app_length.
Qed.

Lemma request_ok_delete max m p q : p <> q -> request_ok max m p -> request_ok max (delete q m) p.
Proof.
  intros Hne (irp & io & H & Hw). exists irp, io. by rewrite lookup_delete_ne.
Qed.

Lemma report_ok_delete max m B B' n : B <> B' -> report_ok max m B n -> report_ok max (delete B' m) B n.
Proof.
  intros Hne (bytes & H & Hw). exists bytes. by rewrite lookup_delete_ne.
Qed.

Lemma pending_delete m B (l : list DEFERRED_REPORT) :
  B ∉ buffer <$> l ->
  (fun r => report_bytes (delete B m) (buffer r)) <$> l
    = (fun r => report_bytes m (buffer r)) <$> l.
Proof.
  intros HB. apply list_fmap_ext. intros i r Hr. unfold report_bytes.
  rewrite lookup_delete_ne; [done|]. intros ->. apply HB.
  apply list_elem_of_fmap. exists r. split; [done|]. by eapply list_elem_of_lookup_2.
Qed.

(** A report with a request waiting goes to the oldest request. *)
Lemma report_delivered max s B n Bs ps :
  delivery_inv max s ((B, n) :: Bs) ps -> contents (queue s) <> [] ->
  exists s', IrpQueueCompleteIrp B n s = Ok (STATUS_SUCCESS, s') /\
    delivery_inv max s' Bs ps /\ conserved s s' [report_bytes (buffers s) B] [] /\
    (forall B', B' ∈ Bs.*1 -> buffers s' !! B' = buffers s !! B') /\ progress max s s'.
Proof.
  intros [Hc Hd Hlv Hl Hx Hr Hro HR HRo Hb Hlim] Hne.
  destruct Hx as [?|Hx]; [done|]. rewrite Hx in *.
  destruct (contents (queue s)) as [|p qs] eqn:Hq; [done|]. clear Hne.
  destruct (HRo B n) as (bytes & HB & -> & Hn); [set_solver|].
  destruct (Hro p) as (irp & io & Hp & Hwf & Hmax); [set_solver|].
  assert (IoCsqRemoveNextIrp s = Ok (Some p, IrpQueueRemove p s)) as Hrm.
  { rewrite csq_remove_next. unfold IrpQueuePeekNextEntry.
    rewrite Hc, contents_flink, Hq. unfold zlen. cbn. done. }
  exists (completed_with p (delivered bytes irp) B (IrpQueueRemove p s)).
  assert (contents (queue (IrpQueueRemove p s)) = qs) as Hq'.
  { cbn. rewrite contents_remove_entry, Hq. cbn. by rewrite decide_True. }
  split; [eapply IrpQueueCompleteIrp_fits; try done; lia|].
  rewrite app_nil_l in *. cbn in Hr, HR. apply NoDup_cons in Hr as [Hpn Hr].
  apply NoDup_cons in HR as [HBn HR].
  split; [|split; [split|]]; cbn in *; rewrite ?Hq', ?Hx, ?Hq, ?app_nil_l in *.
  - split; cbn; rewrite ?Hq', ?Hx, ?app_nil_l; try done.
    + rewrite Hc. unfold zlen in *. cbn in *. apply u32_small || rewrite u32_small; lia.
    + by right.
    + intros q Hqin. apply request_ok_delete; [|apply Hro; set_solver]. by intros ->.
    + intros B' n' Hin. apply report_ok_delete.
      * intros ->. apply HBn. apply list_elem_of_fmap. by exists (B, n').
      * apply HRo. set_solver.
    + unfold zlen in *. cbn in *. lia.
    + unfold zlen in *. cbn in *. lia.
  - unfold pending_reports. cbn. rewrite Hx. cbn. rewrite fmap_app, app_nil_r. cbn.
    rewrite payload_delivered. unfold report_bytes. by rewrite HB.
  - rewrite fmap_app, app_nil_r, <- app_assoc. done.
  - split; [intros B' HB'; apply lookup_delete_ne; by intros ->|].
    by eapply (progress_completed _ _ _ p bytes irp B).
Qed.

(** A report with no request waiting joins the deferred reports. *)
Lemma report_deferred max s B n Bs ps :
  delivery_inv max s ((B, n) :: Bs) ps -> contents (queue s) = [] ->
  pool_grants (pool_requests s) = true ->
  exists s', IrpQueueCompleteIrp B n s = Ok (STATUS_SUCCESS, s') /\
    delivery_inv max s' Bs ps /\ conserved s s' [report_bytes (buffers s) B] [] /\
    (forall B', B' ∈ Bs.*1 -> buffers s' !! B' = buffers s !! B') /\ progress max s s'.
Proof.
  intros [Hc Hd Hlv Hl Hx Hr Hro HR HRo Hb Hlim] Hq Hpool.
  assert (IoCsqRemoveNextIrp s = Ok (None, s)) as Hrm.
  { rewrite csq_remove_next. unfold IrpQueuePeekNextEntry. by rewrite Hc, Hq. }
  assert (zlen ((B, n) :: Bs) = zlen Bs + 1) as HzB by (unfold zlen; cbn; lia).
  pose proof (zlen_nonneg Bs). pose proof (zlen_nonneg (contents (deferred s))).
  eexists. split.
  { unfold IrpQueueCompleteIrp. erewrite KM_step by exact Hrm. cbn iota beta.
    erewrite KM_step; [reflexivity|]. unfold IrpQueueDeferReport.
    erewrite KM_step by reflexivity.
    destruct (Z.ltb_spec MAX_DEFERRED_REPORTS_COUNT (deferred_count s)); [exfalso; lia|].
    erewrite KM_step by (unfold IrpQueueAllocateDeferredReport; rewrite Hpool; reflexivity).
    cbn iota beta. erewrite KM_step by (unfold KeAcquireDeferredLock; cbn; rewrite Hl; done).
    erewrite KM_step by reflexivity. reflexivity. }
  rewrite Hq in Hc, Hr, Hro, Hb. unfold conserved, pending_reports. cbn.
  rewrite ?Hq, ?contents_insert_tail.
  assert (zlen (contents (deferred s) ++ [DeferredReport B n])
          = zlen (contents (deferred s)) + 1) as Hz
    by (unfold zlen; rewrite length_app; cbn; lia).
  split; [|split; [split|]].
  - split; cbn; rewrite ?Hq, ?contents_insert_tail, ?fmap_app, ?Hz; cbn; try done.
    + unfold MAX_DEFERRED_REPORTS_COUNT in *. rewrite u32_small; lia.
    + lia.
    + by left.
    + by rewrite <- app_assoc.
    + intros B' n'. rewrite <- app_assoc. apply HRo.
    + lia.
  - rewrite fmap_app. cbn. done.
  - by rewrite !app_nil_r.
  - split; [done|]. by apply progress_unchanged.
Qed.

Lemma query_empty s p :
  contents (deferred s) = [] -> deferred_count s = 0 -> deferred_lock s = false ->
  IrpQueueQueryPendingReports p s = Ok (STATUS_UNSUCCESSFUL, s).
Proof.
  intros He Hc Hl. unfold IrpQueueQueryPendingReports.
  erewrite KM_step by (unfold KeAcquireDeferredLock; rewrite Hl; done).
  erewrite KM_step by reflexivity. unfold IrpQueueIsThereDeferredReport. cbn. rewrite Hc.
  unfold set_deferred_lock. cbn. unfold KeReleaseDeferredLock.
  munfold. cbn. f_equal. f_equal. unfold set_deferred_lock. destruct s. cbn in *. by subst.
Qed.

(** A request with no report waiting joins the queue. *)
Lemma request_queued max s Bs p ps :
  delivery_inv max s Bs (p :: ps) -> contents (deferred s) = [] ->
  exists s', InsertIrpIntoQueue p s = Ok (STATUS_PENDING, s') /\
    delivery_inv max s' Bs ps /\ conserved s s' [] [p] /\ buffers s' = buffers s /\ progress max s s'.
Proof.
  intros [Hc Hd Hlv Hl Hx Hr Hro HR HRo Hb Hlim] He.
  exists (IrpQueueInsert p s).
  assert (zlen (p :: ps) = zlen ps + 1) as Hzp by (unfold zlen; cbn; lia).
  assert (zlen (contents (queue s) ++ [p]) = zlen (contents (queue s)) + 1) as Hz
    by (unfold zlen; rewrite length_app; cbn; lia).
  pose proof (zlen_nonneg ps). pose proof (zlen_nonneg (contents (queue s))).
  split; [|split; [|split; [|split; [done|by apply progress_unchanged]]]].
  - unfold InsertIrpIntoQueue. erewrite KM_step; cycle 1.
    { apply query_empty; [done | by rewrite Hd, He | done]. }
    change (negb (NT_SUCCESS STATUS_UNSUCCESSFUL)) with true. cbn iota.
    erewrite KM_step by apply csq_insert. done.
  - split; cbn; rewrite ?contents_insert_tail, ?He, ?Hz; try done.
    + rewrite u32_small; lia.
    + by rewrite Hd, He.
    + by rewrite Hlv, He.
    + by right.
    + by rewrite <- app_assoc.
    + intros q. rewrite <- app_assoc. apply Hro.
    + rewrite He in HR. done.
    + intros B n. rewrite He in HRo. apply HRo.
    + lia.
    + rewrite He in Hlim. done.
  - unfold conserved, pending_reports. cbn.
    rewrite contents_insert_tail, He, !app_nil_r, <- ?app_assoc. done.
Qed.

(** A request with reports waiting takes the oldest one. *)
Lemma request_delivered max s Bs p ps :
  delivery_inv max s Bs (p :: ps) -> contents (deferred s) <> [] ->
  exists s', InsertIrpIntoQueue p s = Ok (STATUS_SUCCESS, s') /\
    delivery_inv max s' Bs ps /\ conserved s s' [] [p] /\
    (forall B', B' ∈ Bs.*1 -> buffers s' !! B' = buffers s !! B') /\ progress max s s'.
Proof.
  intros [Hc Hd Hlv Hl Hx Hr Hro HR HRo Hb Hlim] Hne.
  destruct Hx as [Hq|?]; [|done]. rewrite Hq in *. rewrite app_nil_l in *.
  destruct (contents (deferred s)) as [|[B n] ds] eqn:He; [done|]. clear Hne.
  destruct (HRo B n) as (bytes & HB & -> & Hn); [set_solver|].
  destruct (Hro p) as (irp & io & Hp & Hwf & Hmax); [set_solver|].
  destruct (contents_remove_head (deferred s)) as [Hh Ht]. rewrite He in Hh, Ht.
  destruct (RemoveHeadList (deferred s)) as [r d'] eqn:Erm. cbn in Hh, Ht. subst r.
  eexists. split.
  { unfold InsertIrpIntoQueue, IrpQueueQueryPendingReports.
    erewrite KM_step; cycle 1.
    { erewrite KM_step by (unfold KeAcquireDeferredLock; rewrite Hl; done).
      erewrite KM_step by reflexivity.
      unfold IrpQueueIsThereDeferredReport. cbn [set_deferred_lock deferred_count].
      rewrite Hd. destruct (Z.ltb_spec 0 (zlen (DeferredReport B (zlen bytes) :: ds)));
        [|unfold zlen in *; cbn in *; lia].
      erewrite KM_step; [reflexivity|].
      erewrite KM_step by (unfold IrpQueueRemoveDeferredReport; cbn; rewrite Erm; done).
      cbn iota beta.
      erewrite KM_step by (eapply IrpQueueCompleteDeferredReport_fits; try done; lia).
      change (negb (NT_SUCCESS STATUS_SUCCESS)) with false. cbn iota.
      erewrite KM_step by reflexivity. reflexivity. }
    reflexivity. }
  cbn in HR. apply NoDup_cons in HR as [HBn HR]. apply NoDup_cons in Hr as [Hpn Hr].
  assert (zlen (DeferredReport B (zlen bytes) :: ds) = zlen ds + 1) as Hz
    by (unfold zlen; cbn; lia).
  assert (zlen (p :: ps) = zlen ps + 1) as Hzp by (unfold zlen; cbn; lia).
  pose proof (zlen_nonneg ds). pose proof (zlen_nonneg Bs).
  split; [|split].
  - split; cbn; rewrite ?Hq, ?Ht; try done.
    + unfold MAX_DEFERRED_REPORTS_COUNT in *. rewrite u32_small; lia.
    + lia.
    + by left.
    + intros q Hqin. apply request_ok_delete; [|apply Hro; set_solver]. by intros ->.
    + intros B' n' Hin. apply report_ok_delete; [|apply HRo; set_solver].
      intros ->. apply HBn. apply elem_of_app in Hin as [Hin|Hin].
      * apply elem_of_app. left. apply list_elem_of_fmap in Hin as (r & E & Hin).
        apply list_elem_of_fmap. exists r. split; [congruence|done].
      * apply elem_of_app. right. apply list_elem_of_fmap. by exists (B, n').
    + unfold zlen in *. cbn in *. lia.
    + lia.
  - unfold conserved, pending_reports. cbn. rewrite Ht, Hq, He, !fmap_app. cbn.
    rewrite payload_delivered, pending_delete by set_solver.
    rewrite ?app_nil_r, <- ?app_assoc. unfold report_bytes at 2. by rewrite HB.
  - split; [intros B' HB'; cbn; apply lookup_delete_ne; intros ->; apply HBn; set_solver|].
    by eapply (progress_completed _ _ _ p bytes irp B).
Qed.

Lemma conserved_trans s s1 s2 n1 n2 r1 r2 :
  conserved s s1 n1 r1 -> conserved s1 s2 n2 r2 -> conserved s s2 (n1 ++ n2) (r1 ++ r2).
Proof.
  intros [H1 H2] [H3 H4]. split.
  - rewrite H3, app_assoc, H1. by rewrite <- !app_assoc.
  - rewrite H4, app_assoc, H2. by rewrite <- !app_assoc.
Qed.

(** One event. *)
Lemma run_event_conserves max s e evs :
  (forall n, pool_grants n = true) ->
  delivery_inv max s (reported (e :: evs)) (requested (e :: evs)) ->
  exists s', run_event e s = Ok (tt, s') /\
    delivery_inv max s' (reported evs) (requested evs) /\
    conserved s s' ((fun '(B, _) => report_bytes (buffers s) B) <$> reported [e]) (requested [e]) /\
    (forall B, B ∈ (reported evs).*1 -> buffers s' !! B = buffers s !! B).
Proof.
  intros Hpool Hinv. destruct e as [B n|p]; cbn in *.
  - destruct (decide (contents (queue s) = [])) as [Hq|Hq].
    + destruct (report_deferred max s B n _ _ Hinv Hq (Hpool _)) as (s' & H & ? & ? & ? & _).
      exists s'. erewrite KM_step by exact H. done.
    + destruct (report_delivered max s B n _ _ Hinv Hq) as (s' & H & ? & ? & ? & _).
      exists s'. erewrite KM_step by exact H. done.
  - destruct (decide (contents (deferred s) = [])) as [Hd|Hd].
    + destruct (request_queued max s _ p _ Hinv Hd) as (s' & H & Hi & Hc & Hb & _).
      exists s'. erewrite KM_step by exact H. rewrite Hb. done.
    + destruct (request_delivered max s _ p _ Hinv Hd) as (s' & H & ? & ? & ? & _).
      exists s'. erewrite KM_step by exact H. done.
Qed.


(** Ownership of a report buffer.  [IrpQueueCompleteIrp] on a
    well-formed state never faults, and its effect on the buffer is one of:
    delivered to the oldest request and freed; freed, with that request failed,
    because the request is too small; appended to the deferred reports; freed
    because more than 100 reports wait; or, when the pool refuses the deferred
    report structure, neither freed nor recorded anywhere, although the comment
    on the function promises that the buffer is freed regardless of the
    outcome. *)
Theorem complete_irp_buffer_ownership s B bytes :
  count s = zlen (contents (queue s)) -> deferred_lock s = false ->
  buffers s !! B = Some bytes -> 0 < zlen bytes ->
  (forall p, p ∈ contents (queue s) -> exists irp io, irps s !! p = Some irp /\ irp_wf irp io) ->
  exists status s', IrpQueueCompleteIrp B (zlen bytes) s = Ok (status, s') /\
    ((exists p irp, head (contents (queue s)) = Some p /\ irps s !! p = Some irp /\
        buffers s' = delete B (buffers s) /\
        contents (queue s') = tail (contents (queue s)) /\
        (status = STATUS_SUCCESS /\ completed s' = completed s ++ [(p, delivered bytes irp)] \/
         status = STATUS_BUFFER_TOO_SMALL /\ completed s' = completed s ++ [(p, rejected irp)])) \/
     (contents (queue s) = [] /\ status = STATUS_SUCCESS /\ completed s' = completed s /\
      (MAX_DEFERRED_REPORTS_COUNT < deferred_count s /\
         buffers s' = delete B (buffers s) /\ deferred s' = deferred s \/
       deferred_count s <= MAX_DEFERRED_REPORTS_COUNT /\ buffers s' = buffers s /\
         (if pool_grants (pool_requests s)
          then contents (deferred s')
                 = contents (deferred s) ++ [DeferredReport B (zlen bytes)]
          else deferred s' = deferred s)))).
Proof.
  intros Hc Hl HB Hn Hirps. destruct (contents (queue s)) as [|p qs] eqn:Hq.
  - assert (IoCsqRemoveNextIrp s = Ok (None, s)) as Hrm.
    { rewrite csq_remove_next. unfold IrpQueuePeekNextEntry. by rewrite Hc. }
    unfold IrpQueueCompleteIrp. setoid_rewrite (KM_step _ _ _ _ _ Hrm). cbn iota beta.
    unfold IrpQueueDeferReport, IrpQueueAllocateDeferredReport, KeAcquireDeferredLock.
    unfold free_buffer. munfold.
    destruct (Z.ltb_spec MAX_DEFERRED_REPORTS_COUNT (deferred_count s)).
    + rewrite HB. eexists _, _. split; [done|]. right. repeat (split; [done|]). by left.
    + destruct (pool_grants (pool_requests s)); cbn; rewrite ?Hl; eexists _, _;
        (split; [done|]); right; repeat (split; [done|]); right; cbn;
        rewrite ?contents_insert_tail; done.
  - assert (IoCsqRemoveNextIrp s = Ok (Some p, IrpQueueRemove p s)) as Hrm.
    { rewrite csq_remove_next. unfold IrpQueuePeekNextEntry.
      by rewrite Hc, contents_flink, Hq. }
    destruct (Hirps p) as (irp & io & Hp & Hwf); [by left|].
    assert (contents (queue (IrpQueueRemove p s)) = qs) as Hq'.
    { cbn. rewrite contents_remove_entry, Hq. cbn. by rewrite decide_True. }
    destruct (Z_le_gt_dec (zlen bytes) (OutputBufferLength io)).
    + eexists _, _. split; [by eapply (IrpQueueCompleteIrp_fits s p _ irp io)|].
      left. exists p, irp. cbn in *. rewrite Hq'. repeat (split; [done|]). by left.
    + eexists _, _. split; [eapply (IrpQueueCompleteIrp_small s p _ irp io); try done; lia|].
      left. exists p, irp. cbn in *. rewrite Hq'. repeat (split; [done|]). by right.
Qed.

(** A request that is too small for the waiting report brings the system
    down.  The report is dropped and freed but the count of deferred reports is
    not decremented, so the list is empty while the count says 1: the request
    is queued, and the next request of the client, whatever it is, takes the
    list head for a report. *)
Theorem small_request_desynchronises_count s p irp io B bytes :
  contents (deferred s) = [DeferredReport B (zlen bytes)] -> deferred_count s = 1 ->
  deferred_lock s = false -> buffers s !! B = Some bytes -> 0 < zlen bytes ->
  irps s !! p = Some irp -> irp_wf irp io -> OutputBufferLength io < zlen bytes ->
  exists s', InsertIrpIntoQueue p s = Ok (STATUS_PENDING, s') /\
    contents (deferred s') = [] /\ deferred_count s' = 1 /\
    buffers s' = delete B (buffers s) /\
    forall q, InsertIrpIntoQueue q s' = Crash UnmappedRead.
Proof.
  intros He Hd Hl HB Hn Hp Hwf Ho.
  destruct (contents_remove_head (deferred s)) as [Hh Ht]. rewrite He in Hh, Ht.
  destruct (RemoveHeadList (deferred s)) as [r d'] eqn:Erm. cbn in Hh, Ht. subst r.
  eexists. split.
  { unfold InsertIrpIntoQueue, IrpQueueQueryPendingReports. erewrite KM_step; cycle 1.
    { erewrite KM_step by (unfold KeAcquireDeferredLock; rewrite Hl; done).
      erewrite KM_step by reflexivity.
      unfold IrpQueueIsThereDeferredReport. cbn [set_deferred_lock deferred_count].
      rewrite Hd. change (0 <? 1) with true. cbn iota.
      erewrite KM_step; [reflexivity|].
      erewrite KM_step by (unfold IrpQueueRemoveDeferredReport; cbn; rewrite Erm; done).
      cbn iota beta. unfold IrpQueueCompleteDeferredReport.
      erewrite KM_step; cycle 1.
      { erewrite KM_step by (by eapply validate_output_too_small). reflexivity. }
      change (negb (NT_SUCCESS STATUS_BUFFER_TOO_SMALL)) with true. cbn iota.
      unfold IrpQueueFreeDeferredReport. erewrite KM_step; [reflexivity|].
      erewrite KM_step by (unfold free_buffer; cbn; rewrite HB; done). reflexivity. }
    change (negb (NT_SUCCESS STATUS_BUFFER_TOO_SMALL)) with true. cbn iota.
    erewrite KM_step by apply csq_insert. reflexivity. }
  cbn. rewrite Ht, Hd. repeat (split; [done|]). intros q.
  destruct (contents_remove_head d') as [Hh' _]. rewrite Ht in Hh'.
  destruct (RemoveHeadList d') as [r d''] eqn:Erm'. cbn in Hh'. subst r.
  unfold InsertIrpIntoQueue, IrpQueueQueryPendingReports, IrpQueueIsThereDeferredReport,
    IrpQueueRemoveDeferredReport, KeAcquireDeferredLock. munfold. cbn.
  rewrite ?Hd; cbn; rewrite Erm'. done.
Qed.

(** The clean-up loop never decrements the count it tests: with reports
    waiting it always runs past the end of the list. *)
Lemma free_deferred_loop_overruns : forall n s,
  zlen (contents (deferred s)) = Z.of_nat n -> 0 < deferred_count s ->
  NoDup (buffer <$> contents (deferred s)) ->
  (forall r, r ∈ contents (deferred s) -> is_Some (buffers s !! buffer r)) ->
  free_deferred_loop (S n) s = Crash UnmappedRead.
Proof.
  induction n as [|n IH]; intros s Hz Hd HN Hb;
    destruct (contents_remove_head (deferred s)) as [Hh Ht];
    destruct (RemoveHeadList (deferred s)) as [r d'] eqn:Erm; cbn in Hh, Ht;
    destruct (contents (deferred s)) as [|r0 rs] eqn:He; cbn in Hz;
    try (unfold zlen in Hz; cbn in Hz; lia); cbn in Hh, Ht; subst r.
  - cbn [free_deferred_loop]. unfold IrpQueueIsThereDeferredReport,
      IrpQueueRemoveDeferredReport. munfold.
    destruct (Z.ltb_spec 0 (deferred_count s)); [|lia]. by rewrite Erm.
  - remember (S n) as k. cbn [free_deferred_loop]. subst k.
    erewrite KM_step by reflexivity. unfold IrpQueueIsThereDeferredReport at 1.
    destruct (Z.ltb_spec 0 (deferred_count s)); [|lia].
    erewrite KM_step by (unfold IrpQueueRemoveDeferredReport; rewrite Erm; done).
    cbn iota beta. destruct (Hb r0) as [bytes Hr0]; [by left|].
    apply NoDup_cons in HN as [HN0 HN].
    unfold IrpQueueFreeDeferredReport. erewrite KM_step; cycle 1.
    { erewrite KM_step by (unfold free_buffer; cbn; rewrite Hr0; done). reflexivity. }
    apply IH; cbn; rewrite ?Ht; try done.
    + unfold zlen in *. cbn in Hz. lia.
    + intros r Hr. rewrite lookup_delete_ne; [apply Hb; by right|]. intros E.
      apply HN0. rewrite E. apply list_elem_of_fmap. by exists r.
Qed.
End delivery.

(** ** Witnesses *)

Abbreviation sample_state := (irp_state (list Z) (list DEFERRED_REPORT)).

Definition roomy : IRP := Irp (Some (IoStack 0 8 0)) [9; 9; 9; 9; 9; 9; 9; 9] 0 0.
Definition cramped : IRP := Irp (Some (IoStack 0 1 0)) [9] 0 0.

#[local] Instance generous : Pool := fun _ => true.

Definition sample_irps : gmap Z IRP := <[1 := roomy]> (<[2 := roomy]> (<[3 := cramped]> ∅)).
Definition sample_buffers : gmap Z (list Z) := <[100 := [5; 6; 7]]> (<[200 := [8; 8]]> ∅).

Definition idle_state : sample_state :=
  IrpState [] 0 [] 0 false sample_irps [] sample_buffers 0 0.

Lemma roomy_wf : irp_wf roomy (IoStack 0 8 0).
Proof. split; cbn; [done | lia | done]. Qed.
Lemma cramped_wf : irp_wf cramped (IoStack 0 1 0).
Proof. split; cbn; [done | lia | done]. Qed.

Definition sample_events : list io_event :=
  [Report 100 3; Request 1; Request 2; Report 200 2].

Lemma idle_state_inv :
  delivery_inv 8 idle_state (reported sample_events) (requested sample_events).
Proof.
  split; cbn; try done.
  - by left.
  - repeat constructor; set_solver.
  - intros p Hp. assert (p = 1 \/ p = 2) as [->| ->] by set_solver;
      exists roomy, (IoStack 0 8 0); (split; [done|]); (split; [apply roomy_wf | cbn; lia]).
  - repeat constructor; set_solver.
  - intros B n Hin. apply elem_of_cons in Hin as [[= -> ->]|Hin];
      [|apply elem_of_cons in Hin as [[= -> ->]|Hin]].
    + exists [5; 6; 7]. split; [done|]. vm_compute. split; [done|]. split; [done|discriminate].
    + exists [8; 8]. split; [done|]. vm_compute. split; [done|]. split; [done|discriminate].
    + by apply elem_of_nil in Hin.
Qed.


Lemma complete_irp_buffer_ownership_witness :
  exists status s', IrpQueueCompleteIrp 100 3 idle_state = Ok (status, s') /\
    status = STATUS_SUCCESS /\ contents (deferred s') = [DeferredReport 100 3].
Proof.
  destruct (complete_irp_buffer_ownership idle_state 100 [5; 6; 7])
    as (status & s' & H & Hcase).
  - reflexivity.
  - reflexivity.
  - reflexivity.
  - reflexivity.
  - intros p Hp. by apply elem_of_nil in Hp.
  - exists status, s'. split; [exact H|]. vm_compute in H. injection H as <- <-.
    split; reflexivity.
Defined.

Lemma small_request_desynchronises_count_witness :
  exists s', InsertIrpIntoQueue 3
      (IrpState [] 0 [DeferredReport 100 3] 1 false sample_irps [] sample_buffers 1 1
        : sample_state) = Ok (STATUS_PENDING, s') /\
    InsertIrpIntoQueue 1 s' = Crash UnmappedRead.
Proof.
  destruct (small_request_desynchronises_count
    (IrpState [] 0 [DeferredReport 100 3] 1 false sample_irps [] sample_buffers 1 1
        : sample_state) 3 cramped (IoStack 0 1 0) 100 [5; 6; 7])
    as (s' & H & _ & _ & _ & Hq); try reflexivity.
  - exact cramped_wf.
  - exists s'. split; [exact H | exact (Hq 1)].
Defined.
