(* ===== verification/Session.v ===== *)
(** * session.c: the protected session

    One global [ACTIVE_SESSION] under a guarded mutex: the client starts a
    session with a packet that names the process to protect, and the session
    gates every other request.  The process manager's routines
    are parameters: [PsLookupProcessByProcessId] returns a status and a process
    and takes a reference on it, [PsGetProcessId] is the identifier of a
    process, [ZwTerminateProcess] a status. *)

From S2P Require Import Prelude Layout Structs Irp.

(** ** State *)

Record ACTIVE_SESSION := Session {
  is_session_active : bool;
  um_handle : Z;
  km_handle : Z;
  process : Z;
  registration_handle : Z;
  session_cookie : Z;
  session_aes_key : list Z;
  irps_processed : Z;
  report_count : Z;
  heartbeat_count : Z;
}.

(** The global with its mutex; [references] are the processes on which a
    successful lookup took a reference, [terminated] the handles passed to
    [ZwTerminateProcess]. *)
Record session_state := SessionState {
  session : ACTIVE_SESSION;
  session_lock : bool;
  references : list Z;
  terminated : list Z;
}.

Class ProcessApi := {
  PsLookupProcessByProcessId : Z -> NTSTATUS * Z;
  PsGetProcessId : Z -> Z;
  ZwTerminateProcess : Z -> NTSTATUS -> NTSTATUS;
}.

Class ProcessLaws (A : ProcessApi) : Prop := {
  lookup_process pid st p :
    PsLookupProcessByProcessId pid = (st, p) -> NT_SUCCESS st = true -> p <> 0;
  lookup_id pid st p :
    PsLookupProcessByProcessId pid = (st, p) -> NT_SUCCESS st = true ->
    PsGetProcessId p = pid;
}.

(** ** Operations *)

Abbreviation M := (KM session_state).

Definition acquire_session : M unit := fun s =>
  if session_lock s then Crash Deadlock
  else Ok (tt, SessionState (session s) true (references s) (terminated s)).
Definition release_session : M unit :=
  modify (fun s => SessionState (session s) false (references s) (terminated s)).
Definition update_session (f : ACTIVE_SESSION -> ACTIVE_SESSION) : M unit :=
  modify (fun s => SessionState (f (session s)) (session_lock s) (references s) (terminated s)).

(** A critical section that reads the session. *)
Definition locked_read {A} (f : ACTIVE_SESSION -> A) : M A :=
  acquire_session ≫= fun _ =>
  r ← gets (fun s => f (session s));
  release_session ≫= fun _ =>
  mret r.

Definition locked_update (f : ACTIVE_SESSION -> ACTIVE_SESSION) : M unit :=
  acquire_session ≫= fun _ =>
  update_session f ≫= fun _ =>
  release_session.

Definition SessionInitialiseStructure : M unit := release_session.

Definition SessionIsActive : M bool := locked_read is_session_active.
Definition SessionGetProcess : M Z := locked_read process.
(** The result is a [LONG]. *)
Definition SessionGetProcessId : M Z := locked_read (fun s => s32 (km_handle s)).

Definition SessionTerminate : M unit :=
  locked_update (fun s =>
    Session false 0 0 0 (registration_handle s) (session_cookie s) (session_aes_key s)
      (irps_processed s) (report_count s) (heartbeat_count s)).

Definition set_um_handle (h : Z) (s : ACTIVE_SESSION) : ACTIVE_SESSION :=
  Session (is_session_active s) h (km_handle s) (process s) (registration_handle s)
    (session_cookie s) (session_aes_key s) (irps_processed s) (report_count s)
    (heartbeat_count s).

Section operations.
Context {A : ProcessApi}.

Definition lookup_by_id (pid : Z) : M (NTSTATUS * Z) := fun s =>
  let '(st, p) := PsLookupProcessByProcessId pid in
  if NT_SUCCESS st
  then Ok ((st, p), SessionState (session s) (session_lock s) (references s ++ [p]) (terminated s))
  else Ok ((st, 0), s).

(** The packet in the system buffer of the request: the cookie, the key and
    the process identifier. *)
Definition read_packet (buf : list Z) : res (Z * list Z * Z) :=
  let m := mem_of 0 buf in
  cookie ← load_field m SESSION_INITIATION_PACKET 0 "session_cookie" 4;
  pid ← load_field m SESSION_INITIATION_PACKET 0 "protected_process_id" 8;
  let key := offsetof SESSION_INITIATION_PACKET "session_aes_key" in
  if zlen buf <? key + AES_128_KEY_SIZE then Crash OutOfBounds
  else Ok (cookie, take (Z.to_nat AES_128_KEY_SIZE) (drop (Z.to_nat key) buf), pid).

Definition SessionInitialise (Irp : IRP) : M NTSTATUS :=
  let status := ValidateIrpInputBuffer (Some Irp) (sizeof SESSION_INITIATION_PACKET) in
  if negb (NT_SUCCESS status) then mret status
  else
    acquire_session ≫= fun _ =>
    status ← (fun s => read_packet (SystemBuffer Irp) ≫= fun '(cookie, key, pid) =>
      (update_session (set_um_handle pid) ≫= fun _ =>
       handle ← gets (fun s => um_handle (session s));
       '(status, p) ← lookup_by_id handle;
       if negb (NT_SUCCESS status) then mret STATUS_INVALID_PARAMETER
       else
         update_session (fun s =>
           Session true (um_handle s) (PsGetProcessId p) p (registration_handle s)
             cookie key (irps_processed s) (report_count s) (heartbeat_count s)) ≫= fun _ =>
         mret status) s);
    release_session ≫= fun _ =>
    mret status.

Definition SessionTerminateProcess : M unit :=
  id ← SessionGetProcessId;
  let process_id := u32 id in
  if process_id =? 0 then mret tt
  else
    let status := ZwTerminateProcess process_id STATUS_SYSTEM_INTEGRITY_POLICY_VIOLATION in
    modify (fun s => SessionState (session s) (session_lock s) (references s)
                       (terminated s ++ [process_id])) ≫= fun _ =>
    if negb (NT_SUCCESS status) then mret tt else SessionTerminate.

End operations.

Definition SessionIncrementIrpsProcessedCount : M unit :=
  locked_update (fun s =>
    Session (is_session_active s) (um_handle s) (km_handle s) (process s)
      (registration_handle s) (session_cookie s) (session_aes_key s)
      (u32 (irps_processed s + 1)) (report_count s) (heartbeat_count s)).
Definition SessionIncrementReportCount : M unit :=
  locked_update (fun s =>
    Session (is_session_active s) (um_handle s) (km_handle s) (process s)
      (registration_handle s) (session_cookie s) (session_aes_key s)
      (irps_processed s) (u32 (report_count s + 1)) (heartbeat_count s)).
Definition SessionIncrementHeartbeatCount : M unit :=
  locked_update (fun s =>
    Session (is_session_active s) (um_handle s) (km_handle s) (process s)
      (registration_handle s) (session_cookie s) (session_aes_key s)
      (irps_processed s) (report_count s) (u32 (heartbeat_count s + 1))).

(** ** Lemmas *)

Lemma locked_read_ok {B} (f : ACTIVE_SESSION -> B) s :
  session_lock s = false -> locked_read f s = Ok (f (session s), s).
Proof.
  intros Hl. unfold locked_read, acquire_session, release_session. munfold. rewrite Hl.
  destruct s. cbn in *. by subst.
Qed.

Lemma locked_update_ok f s :
  session_lock s = false ->
  locked_update f s = Ok (tt, SessionState (f (session s)) false (references s) (terminated s)).
Proof.
  intros Hl. unfold locked_update, acquire_session, release_session, update_session.
  munfold. by rewrite Hl.
Qed.

#[export] Hint Resolve locked_read_ok locked_update_ok : driver.

Section properties.
Context {A : ProcessApi}.

(** A packet as the client lays it out: the cookie, the key, padding to the
    alignment of the identifier, the identifier. *)
Definition packet_bytes (cookie : Z) (key : list Z) (pid : Z) : list Z :=
  le_bytes 4 cookie ++ key ++ replicate 4 0 ++ le_bytes 8 pid.

Lemma read_packet_ok cookie key pid rest :
  is_u32 cookie -> is_u64 pid -> zlen key = AES_128_KEY_SIZE ->
  read_packet (packet_bytes cookie key pid ++ rest) = Ok (cookie, key, pid).
Proof.
  intros Hc Hp Hk. unfold read_packet, load_field.
  change (0 + offsetof SESSION_INITIATION_PACKET "session_cookie") with 0.
  change (0 + offsetof SESSION_INITIATION_PACKET "protected_process_id") with 24.
  change (offsetof SESSION_INITIATION_PACKET "session_aes_key") with 4.
  assert (length key = 16%nat) as Hkl by (unfold zlen, AES_128_KEY_SIZE in Hk; lia).
  unfold packet_bytes. set (buf := (_ ++ _) ++ rest).
  assert (load (mem_of 0 buf) 0 4 = Ok cookie) as ->.
  { subst buf. rewrite <- app_assoc. apply (load_middle [] 4 cookie).
    unfold is_u32 in Hc. lia. }
  assert (load (mem_of 0 buf) 24 8 = Ok pid) as ->.
  { assert (buf = (le_bytes 4 cookie ++ key ++ replicate 4 0) ++ le_bytes 8 pid ++ rest) as ->
      by (subst buf; by rewrite <- !app_assoc).
    assert (zlen (le_bytes 4 cookie ++ key ++ replicate 4 0) = 24) as <-
      by (unfold zlen; by rewrite !length_app, length_le_bytes, Hkl).
    apply load_middle. unfold is_u64 in Hp. lia. }
  cbn [mbind res_bind].
  destruct (Z.ltb_spec (zlen buf) (4 + AES_128_KEY_SIZE)) as [Hlt|_].
  { subst buf. unfold zlen, AES_128_KEY_SIZE in Hlt.
    rewrite !length_app, !length_le_bytes, Hkl in Hlt. lia. }
  do 3 f_equal. subst buf. rewrite <- app_assoc.
  rewrite drop_app_length' by (by rewrite length_le_bytes).
  rewrite <- app_assoc. by rewrite take_app_length' by (by rewrite Hkl).
Qed.

Definition start_session (cookie : Z) (key : list Z) (pid p : Z) (s : ACTIVE_SESSION)
  : ACTIVE_SESSION :=
  Session true pid (PsGetProcessId p) p (registration_handle s) cookie key
    (irps_processed s) (report_count s) (heartbeat_count s).

(** The whole of [SessionInitialise] on a request whose buffer holds a
    packet. *)
Lemma SessionInitialise_packet s irp io cookie key pid rest :
  session_lock s = false -> irp_wf irp io ->
  SystemBuffer irp = packet_bytes cookie key pid ++ rest ->
  is_u32 cookie -> is_u64 pid -> zlen key = AES_128_KEY_SIZE ->
  SessionInitialise irp s =
    if negb (InputBufferLength io =? sizeof SESSION_INITIATION_PACKET)
    then Ok (STATUS_INVALID_BUFFER_SIZE, s)
    else let '(st, p) := PsLookupProcessByProcessId pid in
      if NT_SUCCESS st
      then Ok (st, SessionState (start_session cookie key pid p (session s)) false
                     (references s ++ [p]) (terminated s))
      else Ok (STATUS_INVALID_PARAMETER,
               SessionState (set_um_handle pid (session s)) false (references s) (terminated s)).
Proof.
  intros Hl Hwf Hb Hc Hp Hk. unfold SessionInitialise, ValidateIrpInputBuffer,
    IoGetCurrentIrpStackLocation. rewrite (wf_stack _ _ Hwf).
  change (sizeof SESSION_INITIATION_PACKET =? 0) with false. cbn iota.
  destruct (InputBufferLength io =? sizeof SESSION_INITIATION_PACKET); [|done].
  cbn [negb]. change (negb (NT_SUCCESS STATUS_SUCCESS)) with false. cbn iota.
  erewrite KM_step by (unfold acquire_session; rewrite Hl; done).
  unfold lookup_by_id, update_session, release_session. munfold.
  rewrite Hb, read_packet_ok by done. cbn.
  destruct (PsLookupProcessByProcessId pid) as [st p] eqn:E.
  by destruct (NT_SUCCESS st) eqn:Es; cbn; rewrite ?Es.
Qed.

(** Starting a session, on every branch.  A packet of the wrong length is
    refused and changes nothing; a process identifier that does not resolve is
    answered with [STATUS_INVALID_PARAMETER] and changes nothing but the
    user-mode handle, so a session that was active stays active with its old
    process; otherwise the session becomes active with exactly the cookie, key
    and process of the packet.  The mutex is free afterwards on every
    branch. *)
Theorem session_initialise_branches s irp io cookie key pid rest :
  session_lock s = false -> irp_wf irp io ->
  SystemBuffer irp = packet_bytes cookie key pid ++ rest ->
  is_u32 cookie -> is_u64 pid -> zlen key = AES_128_KEY_SIZE ->
  exists status s', SessionInitialise irp s = Ok (status, s') /\ session_lock s' = false /\
    (InputBufferLength io <> 32 -> status = STATUS_INVALID_BUFFER_SIZE /\ s' = s) /\
    (InputBufferLength io = 32 -> NT_SUCCESS (PsLookupProcessByProcessId pid).1 = false ->
       status = STATUS_INVALID_PARAMETER /\ session s' = set_um_handle pid (session s)) /\
    (InputBufferLength io = 32 -> NT_SUCCESS (PsLookupProcessByProcessId pid).1 = true ->
       NT_SUCCESS status = true /\
       session s' = start_session cookie key pid (PsLookupProcessByProcessId pid).2 (session s)).
Proof.
  intros Hl Hwf Hb Hc Hp Hk. erewrite SessionInitialise_packet by done.
  change (sizeof SESSION_INITIATION_PACKET) with 32.
  destruct (PsLookupProcessByProcessId pid) as [st p]. cbn [fst snd].
  destruct (Z.eqb_spec (InputBufferLength io) 32); cbn [negb].
  - destruct (NT_SUCCESS st) eqn:Es; eexists _, _; (split; [done|]); cbn; naive_solver.
  - eexists _, _. split; [done|]. naive_solver.
Qed.

(** ** Lifecycle *)

Inductive session_op :=
  | OpInitialise (Irp : IRP)
  | OpTerminate
  | OpTerminateProcess
  | OpIrpProcessed
  | OpReport
  | OpHeartbeat.

Definition run_session_op (op : session_op) : M unit :=
  match op with
  | OpInitialise irp => SessionInitialise irp ≫= fun _ => mret tt
  | OpTerminate => SessionTerminate
  | OpTerminateProcess => SessionTerminateProcess
  | OpIrpProcessed => SessionIncrementIrpsProcessedCount
  | OpReport => SessionIncrementReportCount
  | OpHeartbeat => SessionIncrementHeartbeatCount
  end.

(** A request to start a session comes from the I/O manager and holds a
    packet, whatever length the client claimed. *)
Definition session_op_ok (op : session_op) : Prop :=
  match op with
  | OpInitialise irp => exists io cookie key pid rest, irp_wf irp io /\
      SystemBuffer irp = packet_bytes cookie key pid ++ rest /\
      is_u32 cookie /\ is_u64 pid /\ zlen key = AES_128_KEY_SIZE
  | _ => True
  end.

(** An active session has a process, and the identifier it stores is that
    process's; an inactive one has neither. *)
Record session_inv (s : session_state) : Prop := {
  inv_unlocked : session_lock s = false;
  inv_active : is_session_active (session s) = true ->
    process (session s) <> 0 /\
    km_handle (session s) = PsGetProcessId (process (session s)) /\
    process (session s) ∈ references s;
  inv_inactive : is_session_active (session s) = false ->
    process (session s) = 0 /\ km_handle (session s) = 0;
}.

Lemma session_op_preserves {W : ProcessLaws A} s op :
  session_inv s -> session_op_ok op ->
  exists s', run_session_op op s = Ok (tt, s') /\ session_inv s'.
Proof.
  intros [Hl Ha Hi] Hok. destruct op as [irp| | | | |]; cbn [run_session_op].
  - destruct Hok as (io & cookie & key & pid & rest & Hwf & Hb & Hc & Hp & Hk).
    pose proof (SessionInitialise_packet s irp io cookie key pid rest Hl Hwf Hb Hc Hp Hk) as E.
    destruct (negb _); [by exists s; erewrite KM_step by exact E|].
    destruct (PsLookupProcessByProcessId pid) as [st p] eqn:El.
    destruct (NT_SUCCESS st) eqn:Es; (eexists; split; [by erewrite KM_step by exact E|]).
    + split; cbn; [done| |done]. intros _. split; [by eapply lookup_process|].
      split; [done|]. set_solver.
    + by split.
  - eexists. split; [by apply locked_update_ok|]. by split.
  - unfold SessionTerminateProcess. erewrite KM_step by (by apply locked_read_ok).
    destruct (u32 _ =? 0); [by exists s|]. erewrite KM_step by reflexivity.
    destruct (negb _).
    + eexists. split; [done|]. by split.
    + eexists. split; [by apply locked_update_ok|]. by split.
  - eexists. split; [by apply locked_update_ok|]. by split.
  - eexists. split; [by apply locked_update_ok|]. by split.
  - eexists. split; [by apply locked_update_ok|]. by split.
Qed.

(** C30: the session lifecycle.  From a consistent session, any sequence of
    starts (successful or not), terminations and counter updates runs to
    completion without deadlock, and leaves the session consistent: an active
    session has a process, its stored identifier is that process's, and the
    driver still holds the reference that keeps the process alive; an inactive
    session has neither process nor identifier. *)
Theorem session_lifecycle_invariant {W : ProcessLaws A} ops : forall s,
  session_inv s -> Forall session_op_ok ops ->
  exists s', mforeach run_session_op ops s = Ok (tt, s') /\ session_inv s'.
Proof.
  induction ops as [|op ops IH]; intros s Hs Hok; [by exists s|].
  apply Forall_cons in Hok as [Hop Hok].
  destruct (session_op_preserves s op Hs Hop) as (s1 & H1 & Hs1).
  destruct (IH s1 Hs1 Hok) as (s2 & H2 & Hs2).
  exists s2. cbn [mforeach]. by erewrite KM_step by exact H1.
Qed.

End properties.

(** ** Witnesses *)

#[local] Instance sample_processes : ProcessApi := {
  PsLookupProcessByProcessId pid :=
    if pid =? 44 then (STATUS_SUCCESS, 0xffff800000044000) else (STATUS_INVALID_PARAMETER, 0);
  PsGetProcessId p := if p =? 0xffff800000044000 then 44 else 0;
  ZwTerminateProcess _ _ := STATUS_SUCCESS;
}.

#[local] Instance sample_processes_laws : ProcessLaws sample_processes.
Proof.
  split; intros pid st p; cbn; destruct (Z.eqb_spec pid 44) as [->|]; intros [= <- <-];
    cbn; intros H; by vm_compute in H || done.
Qed.

Definition sample_packet : IRP :=
  Irp (Some (IoStack 32 0 0)) (packet_bytes 0xabcd (replicate 16 7) 44) 0 0.

Definition no_session : session_state :=
  SessionState (Session false 0 0 0 0 0 [] 0 0 0) false [] [].

Lemma session_initialise_branches_witness :
  exists status s', SessionInitialise sample_packet no_session = Ok (status, s') /\
    NT_SUCCESS status = true /\ is_session_active (session s') = true /\
    km_handle (session s') = 44.
Proof.
  destruct (session_initialise_branches no_session sample_packet (IoStack 32 0 0)
    0xabcd (replicate 16 7) 44 []) as (status & s' & H & _ & _ & _ & Hs).
  - reflexivity.
  - split; cbn; [reflexivity | lia | reflexivity].
  - reflexivity.
  - unfold is_u32. lia.
  - unfold is_u64. lia.
  - reflexivity.
  - exists status, s'. split; [exact H|]. destruct (Hs eq_refl eq_refl) as [Hst ->].
    split; [exact Hst|]. split; reflexivity.
Defined.

Lemma session_lifecycle_invariant_witness :
  exists s', mforeach run_session_op [OpInitialise sample_packet; OpReport; OpTerminateProcess]
      no_session = Ok (tt, s') /\ session_inv s' /\ terminated s' = [44].
Proof.
  destruct (session_lifecycle_invariant
    [OpInitialise sample_packet; OpReport; OpTerminateProcess] no_session) as (s' & H & Hs).
  - split; cbn; [reflexivity | discriminate | split; reflexivity].
  - repeat constructor. exists (IoStack 32 0 0), 0xabcd, (replicate 16 7), 44, [].
    split; [split; cbn; [reflexivity | lia | reflexivity]|].
    split; [reflexivity|]. unfold is_u32, is_u64. split; [lia|]. split; [lia|]. reflexivity.
  - exists s'. split; [exact H|]. split; [exact Hs|]. vm_compute in H. injection H as <-.
    reflexivity.
Defined.
