(* ===== verification/Apc.v ===== *)
(** * apc.c: the contexts of asynchronous procedure calls

    The driver keeps at most ten APC contexts in an array of pointers inside
    its configuration, under the configuration lock.  A context counts the
    APCs queued for it and says whether more are being allocated; a periodic
    query frees the contexts that have finished.  Contexts, module lists and
    APC objects are pool blocks: an access to a freed block is a fault. *)

From S2P Require Import Prelude.

(** ** State *)

(** [APC_STACKWALK_CONTEXT] with its header. *)
Record APC_STACKWALK_CONTEXT := ApcContext {
  context_id : Z;
  apc_count : Z;
  allocation_in_progress : Z;
  modules : Z;
}.

(** [apc_contexts] is the array, at address [array_address]; [contexts] and
    [system_modules] are the live context and [SYSTEM_MODULES] structures (the
    latter by their [address] field); [pool] are the other live pool
    blocks. *)
Record apc_state := ApcState {
  array_address : Z;
  apc_contexts : list Z;
  contexts : gmap Z APC_STACKWALK_CONTEXT;
  system_modules : gmap Z Z;
  pool : gset Z;
  config_lock : bool;
  unload_in_progress : bool;
}.

Definition MAXIMUM_APC_CONTEXTS : Z := 10.
Definition APC_CONTEXT_ID_STACKWALK : Z := 1.

Abbreviation M := (KM apc_state).

(** ** Primitives *)

Definition AcquireDriverConfigLock : M unit := fun s =>
  if config_lock s then Crash Deadlock
  else Ok (tt, ApcState (array_address s) (apc_contexts s) (contexts s) (system_modules s)
                 (pool s) true (unload_in_progress s)).
Definition ReleaseDriverConfigLock : M unit :=
  modify (fun s => ApcState (array_address s) (apc_contexts s) (contexts s)
                     (system_modules s) (pool s) false (unload_in_progress s)).

Definition set_array (f : list Z -> list Z) (s : apc_state) : apc_state :=
  ApcState (array_address s) (f (apc_contexts s)) (contexts s) (system_modules s)
    (pool s) (config_lock s) (unload_in_progress s).
Definition set_contexts (f : gmap Z APC_STACKWALK_CONTEXT -> gmap Z APC_STACKWALK_CONTEXT)
  (s : apc_state) : apc_state :=
  ApcState (array_address s) (apc_contexts s) (f (contexts s)) (system_modules s)
    (pool s) (config_lock s) (unload_in_progress s).
Definition set_system_modules (f : gmap Z Z -> gmap Z Z) (s : apc_state) : apc_state :=
  ApcState (array_address s) (apc_contexts s) (contexts s) (f (system_modules s))
    (pool s) (config_lock s) (unload_in_progress s).
Definition set_pool (f : gset Z -> gset Z) (s : apc_state) : apc_state :=
  ApcState (array_address s) (apc_contexts s) (contexts s) (system_modules s)
    (f (pool s)) (config_lock s) (unload_in_progress s).

Definition load_context (p : Z) : M APC_STACKWALK_CONTEXT := fun s =>
  match contexts s !! p with Some c => Ok (c, s) | None => Crash UnmappedRead end.
Definition store_context (p : Z) (f : APC_STACKWALK_CONTEXT -> APC_STACKWALK_CONTEXT)
  : M unit := fun s =>
  match contexts s !! p with
  | Some c => Ok (tt, set_contexts (<[p := f c]>) s)
  | None => Crash UnmappedRead
  end.

(** [ExFreePoolWithTag] for each kind of block. *)
Definition free_context (p : Z) : M unit := fun s =>
  match contexts s !! p with
  | Some _ => Ok (tt, set_contexts (delete p) s)
  | None => Crash BadFree
  end.
Definition free_modules (p : Z) : M unit := fun s =>
  match system_modules s !! p with
  | Some _ => Ok (tt, set_system_modules (delete p) s)
  | None => Crash BadFree
  end.
Definition free_block (p : Z) : M unit := fun s =>
  if decide (p ∈ pool s) then Ok (tt, set_pool (fun b => b ∖ {[p]}) s) else Crash BadFree.

Definition add_count (d : Z) (c : APC_STACKWALK_CONTEXT) : APC_STACKWALK_CONTEXT :=
  ApcContext (context_id c) (s32 (apc_count c + d)) (allocation_in_progress c) (modules c).
Definition set_progress (b : Z) (c : APC_STACKWALK_CONTEXT) : APC_STACKWALK_CONTEXT :=
  ApcContext (context_id c) (apc_count c) b (modules c).

(** ** Operations *)

Definition GetApcContextByIndex (Index : Z) : M Z :=
  AcquireDriverConfigLock ≫= fun _ =>
  p ← (fun s => of_option OutOfBounds (znth (apc_contexts s) Index) s);
  ReleaseDriverConfigLock ≫= fun _ =>
  mret p.

(** The search of [GetApcContext] over the pointers of the array; 0 leaves the
    caller's pointer [NULL]. *)
Fixpoint find_context (ptrs : list Z) (ContextIdentifier : Z) : M Z :=
  match ptrs with
  | [] => mret 0
  | header :: ptrs =>
      if header =? 0 then find_context ptrs ContextIdentifier
      else
        c ← load_context header;
        if negb (context_id c =? ContextIdentifier) then find_context ptrs ContextIdentifier
        else mret header
  end.

Definition GetApcContext (ContextIdentifier : Z) : M Z :=
  AcquireDriverConfigLock ≫= fun _ =>
  ptrs ← gets apc_contexts;
  header ← find_context ptrs ContextIdentifier;
  ReleaseDriverConfigLock ≫= fun _ =>
  mret header.

(** The loop of [FreeApcContextStructure] from [index] on. *)
Fixpoint free_context_loop (ptrs : list Z) (index : Z) (Context : Z) : M bool :=
  match ptrs with
  | [] => mret false
  | p :: ptrs =>
      if negb (p =? Context) then free_context_loop ptrs (index + 1) Context
      else
        c ← load_context Context;
        if 0 <? apc_count c then mret false
        else
          free_context Context ≫= fun _ =>
          modify (set_array (fun a => zset a index 0)) ≫= fun _ =>
          mret true
  end.

Definition FreeApcContextStructure (Context : Z) : M bool :=
  ptrs ← gets apc_contexts;
  free_context_loop ptrs 0 Context.

Definition IncrementApcCount (ContextId : Z) : M unit :=
  header ← GetApcContext ContextId;
  if header =? 0 then mret tt
  else
    AcquireDriverConfigLock ≫= fun _ =>
    store_context header (add_count 1) ≫= fun _ =>
    ReleaseDriverConfigLock.

Definition FreeApcAndDecrementApcCount (Apc ContextId : Z) : M unit :=
  free_block Apc ≫= fun _ =>
  context ← GetApcContext ContextId;
  if context =? 0 then mret tt
  else
    AcquireDriverConfigLock ≫= fun _ =>
    store_context context (add_count (-1)) ≫= fun _ =>
    ReleaseDriverConfigLock.

(** modules.c: the module list of a context; the [modules] pointer is
    dereferenced before it is tested. *)
Definition FreeApcStackwalkApcContextInformation (Context : Z) : M unit :=
  c ← load_context Context;
  address ← (fun s => of_option (if modules c =? 0 then NullDereference else UnmappedRead)
                        (system_modules s !! modules c) s);
  when (negb (address =? 0)) (free_block address) ≫= fun _ =>
  when (negb (modules c =? 0)) (free_modules (modules c)).

(** One iteration of the query. *)
Definition query_index (index : Z) : M unit :=
  entry ← GetApcContextByIndex index;
  AcquireDriverConfigLock ≫= fun _ =>
  (if entry =? 0 then mret tt
   else
     c ← load_context entry;
     if (0 <? apc_count c) || (allocation_in_progress c =? 1) then mret tt
     else if context_id c =? APC_CONTEXT_ID_STACKWALK then
       FreeApcStackwalkApcContextInformation entry ≫= fun _ =>
       FreeApcContextStructure entry ≫= fun _ => mret tt
     else mret tt) ≫= fun _ =>
  ReleaseDriverConfigLock.

Definition QueryActiveApcContextsForCompletion : M NTSTATUS :=
  mforeach query_index (iota 0 (Z.to_nat MAXIMUM_APC_CONTEXTS)) ≫= fun _ =>
  mret STATUS_SUCCESS.

(** The first free slot, if there is one. *)
Fixpoint insert_loop (ptrs : list Z) (index : Z) (Context : Z) : M unit :=
  match ptrs with
  | [] => mret tt
  | p :: ptrs =>
      if p =? 0 then modify (set_array (fun a => zset a index Context))
      else insert_loop ptrs (index + 1) Context
  end.

Definition InsertApcContext (Context : Z) : M unit :=
  unloading ← gets unload_in_progress;
  if unloading : bool then mret tt
  else
    AcquireDriverConfigLock ≫= fun _ =>
    ptrs ← gets apc_contexts;
    insert_loop ptrs 0 Context ≫= fun _ =>
    ReleaseDriverConfigLock.

(** The block freed is [entry], the array itself. *)
Fixpoint unload_loop (ptrs : list Z) : M bool :=
  match ptrs with
  | [] => ReleaseDriverConfigLock ≫= fun _ => mret true
  | p :: ptrs =>
      if p =? 0 then unload_loop ptrs
      else
        c ← load_context p;
        if 0 <? apc_count c then ReleaseDriverConfigLock ≫= fun _ => mret false
        else
          entry ← gets array_address;
          free_block entry ≫= fun _ =>
          unload_loop ptrs
  end.

Definition DrvUnloadFreeAllApcContextStructures : M bool :=
  AcquireDriverConfigLock ≫= fun _ =>
  ptrs ← gets apc_contexts;
  unload_loop ptrs.

(** ** Invariant *)

Record apc_wf (s : apc_state) : Prop := {
  wf_length : length (apc_contexts s) = 10%nat;
  wf_unlocked : config_lock s = false;
  wf_context i p : apc_contexts s !! i = Some p -> p <> 0 ->
    exists c a, contexts s !! p = Some c /\ modules c <> 0 /\
      system_modules s !! modules c = Some a /\ (a <> 0 -> a ∈ pool s);
  wf_pointers i j p : apc_contexts s !! i = Some p -> apc_contexts s !! j = Some p ->
    p <> 0 -> i = j;
  wf_modules i j p q c d :
    apc_contexts s !! i = Some p -> apc_contexts s !! j = Some q -> p <> 0 -> q <> 0 ->
    contexts s !! p = Some c -> contexts s !! q = Some d -> modules c = modules d -> p = q;
  wf_addresses i j p q c d a :
    apc_contexts s !! i = Some p -> apc_contexts s !! j = Some q -> p <> 0 -> q <> 0 ->
    contexts s !! p = Some c -> contexts s !! q = Some d ->
    system_modules s !! modules c = Some a -> system_modules s !! modules d = Some a ->
    a <> 0 -> p = q;
}.

(** A context the query may free. *)
Definition finished (c : APC_STACKWALK_CONTEXT) : bool :=
  (apc_count c <=? 0) && negb (allocation_in_progress c =? 1) &&
  (context_id c =? APC_CONTEXT_ID_STACKWALK).

Definition finished_at (s : apc_state) (p : Z) : bool :=
  negb (p =? 0) && match contexts s !! p with Some c => finished c | None => false end.

(** The state after slot [i] with context [p] was freed. *)
Definition freed (i : nat) (p : Z) (c : APC_STACKWALK_CONTEXT) (a : Z) (s : apc_state)
  : apc_state :=
  ApcState (array_address s) (<[i := 0]> (apc_contexts s)) (delete p (contexts s))
    (delete (modules c) (system_modules s))
    (if a =? 0 then pool s else pool s ∖ {[a]}) (config_lock s) (unload_in_progress s).

(** ** Lemmas *)

Lemma state_eta s b :
  config_lock s = b ->
  ApcState (array_address s) (apc_contexts s) (contexts s) (system_modules s) (pool s) b
    (unload_in_progress s) = s.
Proof. destruct s. cbn. by intros ->. Qed.

Lemma GetApcContextByIndex_ok s i p :
  config_lock s = false -> apc_contexts s !! i = Some p ->
  GetApcContextByIndex (Z.of_nat i) s = Ok (p, s).
Proof.
  intros Hl Hp. unfold GetApcContextByIndex, AcquireDriverConfigLock, ReleaseDriverConfigLock.
  munfold. rewrite Hl. cbn. rewrite znth_of_nat, Hp. cbn. rewrite state_eta; done.
Qed.

(** The search for the slot of [Context] stops at index [base + i]. *)
Lemma free_context_loop_ok Context c s : forall ptrs i base,
  (forall j, ptrs !! j = Some Context -> j = i) -> ptrs !! i = Some Context ->
  contexts s !! Context = Some c -> apc_count c <= 0 ->
  free_context_loop ptrs base Context s
    = Ok (true, set_array (fun a => zset a (base + Z.of_nat i) 0)
                  (set_contexts (delete Context) s)).
Proof.
  induction ptrs as [|p ptrs IH]; intros i base Hu Hi Hc Hn; [done|]. cbn [free_context_loop].
  destruct (Z.eqb_spec p Context) as [->|Hne]; cbn [negb].
  - assert (i = 0%nat) as -> by (symmetry; by apply Hu).
    unfold load_context, free_context. munfold. rewrite Hc.
    destruct (Z.ltb_spec 0 (apc_count c)); [lia|]. rewrite Hc.
    by replace (base + Z.of_nat 0) with base by lia.
  - destruct i as [|i]; [cbn in Hi; congruence|].
    rewrite (IH i); [|intros j Hj; specialize (Hu (S j) Hj); lia|done..].
    by replace (base + 1 + Z.of_nat i) with (base + Z.of_nat (S i)) by lia.
Qed.

Lemma FreeApcContextStructure_ok s i p c :
  (forall j, apc_contexts s !! j = Some p -> j = i) -> apc_contexts s !! i = Some p ->
  contexts s !! p = Some c -> apc_count c <= 0 ->
  FreeApcContextStructure p s
    = Ok (true, set_array (fun a => <[i := 0]> a) (set_contexts (delete p) s)).
Proof.
  intros Hu Hi Hc Hn. unfold FreeApcContextStructure. erewrite KM_step by reflexivity.
  rewrite (free_context_loop_ok _ c _ _ i) by done.
  unfold set_array. by rewrite Z.add_0_l, zset_of_nat.
Qed.

Lemma query_index_spec s i p :
  apc_wf s -> apc_contexts s !! i = Some p ->
  exists s', query_index (Z.of_nat i) s = Ok (tt, s') /\
    ((finished_at s p = false /\ s' = s) \/
     (finished_at s p = true /\ exists c a, contexts s !! p = Some c /\
        system_modules s !! modules c = Some a /\ s' = freed i p c a s)).
Proof.
  intros [Hlen Hl Hctx Hinj _ _] Hp. unfold query_index, finished_at.
  erewrite KM_step by (by apply GetApcContextByIndex_ok).
  erewrite KM_step by (unfold AcquireDriverConfigLock; rewrite Hl; done).
  destruct (Z.eqb_spec p 0) as [->|Hp0].
  { exists s. split; [|by left]. munfold. unfold ReleaseDriverConfigLock, modify. cbn.
    by rewrite state_eta. }
  destruct (Hctx i p Hp Hp0) as (c & a & Hc & Hm & Ha & Hpool). rewrite Hc. cbn [negb andb].
  unfold load_context. munfold. cbn [contexts]. rewrite Hc. unfold finished.
  destruct (Z.ltb_spec 0 (apc_count c)), (Z.leb_spec (apc_count c) 0); try lia; cbn [orb andb].
  { exists s. split; [|by left]. unfold ReleaseDriverConfigLock, modify. cbn. by rewrite state_eta. }
  destruct (allocation_in_progress c =? 1); cbn [negb andb].
  { exists s. split; [|by left]. unfold ReleaseDriverConfigLock, modify. cbn. by rewrite state_eta. }
  destruct (context_id c =? APC_CONTEXT_ID_STACKWALK).
  - exists (freed i p c a s). split; [|right; split; [done|]; by exists c, a].
    unfold FreeApcStackwalkApcContextInformation, load_context, free_modules, free_block.
    munfold. cbn [contexts]. rewrite Hc. cbn [system_modules].
    rewrite Ha. destruct (Z.eqb_spec (modules c) 0); [done|]. cbn [negb]. unfold freed.
    destruct (Z.eqb_spec a 0) as [->|Ha0]; cbn [negb]; cbn;
      [|rewrite decide_True by auto; cbn]; rewrite Ha; cbn;
      rewrite (FreeApcContextStructure_ok _ i p c) by (cbn; eauto);
      unfold ReleaseDriverConfigLock, modify, set_array, set_contexts; cbn; by rewrite Hl.
  - exists s. split; [|by left]. unfold ReleaseDriverConfigLock, modify. cbn. by rewrite state_eta.
Qed.

Lemma lookup_array_cleared (l : list Z) i j p :
  p <> 0 -> <[i := 0]> l !! j = Some p -> i <> j /\ l !! j = Some p.
Proof.
  intros Hp Hj. destruct (decide (i = j)) as [->|Hne].
  - destruct (decide (j < length l)%nat).
    + rewrite list_lookup_insert_eq in Hj by done. congruence.
    + rewrite list_insert_ge in Hj by lia. apply lookup_lt_Some in Hj. lia.
  - by rewrite list_lookup_insert_ne in Hj.
Qed.

Lemma freed_wf s i p c a :
  apc_wf s -> apc_contexts s !! i = Some p -> p <> 0 -> contexts s !! p = Some c ->
  system_modules s !! modules c = Some a -> apc_wf (freed i p c a s).
Proof.
  intros [Hlen Hl Hctx Hinj Hmod Haddr] Hp Hp0 Hc Ha. split; cbn.
  - by rewrite length_insert.
  - done.
  - intros j q Hq Hq0. apply lookup_array_cleared in Hq as [Hij Hq]; [|done].
    assert (q <> p) as Hqp by (intros ->; apply Hij; by eapply Hinj).
    destruct (Hctx j q Hq Hq0) as (d & b & Hd & Hdm & Hb & Hbp).
    exists d, b. rewrite lookup_delete_ne by done. split; [done|]. split; [done|].
    rewrite lookup_delete_ne by (intros E; apply Hqp; symmetry; eapply (Hmod i j); eauto).
    split; [done|]. intros Hb0. specialize (Hbp Hb0).
    destruct (Z.eqb_spec a 0); [done|]. apply elem_of_difference. split; [done|].
    rewrite elem_of_singleton. intros ->. apply Hqp. symmetry. eapply (Haddr i j); eauto.
  - intros j k q Hj Hk Hq0. apply lookup_array_cleared in Hj as [? ?], Hk as [? ?]; eauto.
  - intros j k q r d e Hj Hk Hq0 Hr0.
    apply lookup_array_cleared in Hj as [? ?], Hk as [? ?]; try done.
    rewrite !lookup_delete_Some. intros [? ?] [? ?]. eauto.
  - intros j k q r d e b Hj Hk Hq0 Hr0.
    apply lookup_array_cleared in Hj as [? ?], Hk as [? ?]; try done.
    rewrite !lookup_delete_Some. intros [? ?] [? ?] [? ?] [? ?]. eauto.
Qed.

(** Whether the query over the slots from [k] on frees slot [i], context
    [p]. *)
Definition gone (k i : nat) (s : apc_state) (p : Z) : bool :=
  (k <=? i)%nat && finished_at s p.

Lemma query_loop_spec n : forall k s,
  apc_wf s -> (k + n)%nat = 10%nat ->
  exists s', mforeach query_index (iota (Z.of_nat k) n) s = Ok (tt, s') /\ apc_wf s' /\
    (forall p, contexts s !! p = None -> contexts s' !! p = None) /\
    forall i p, apc_contexts s !! i = Some p ->
      apc_contexts s' !! i = Some (if gone k i s p then 0 else p) /\
      (p <> 0 -> contexts s' !! p = if gone k i s p then None else contexts s !! p).
Proof.
  induction n as [|n IH]; intros k s Hwf Hk.
  - exists s. split; [done|]. split; [done|]. split; [done|]. intros i p Hp. unfold gone.
    apply lookup_lt_Some in Hp as Hlt. rewrite (wf_length _ Hwf) in Hlt.
    destruct (Nat.leb_spec k i); [lia|]. done.
  - rewrite iota_S. cbn [mforeach].
    destruct (lookup_lt_is_Some_2 (apc_contexts s) k) as [q Hq];
      [rewrite (wf_length _ Hwf); lia|].
    destruct (query_index_spec s k q Hwf Hq) as (s1 & H1 & Hcase).
    assert (apc_wf s1) as Hwf1.
    { destruct Hcase as [[_ ->]|(Hf & c & a & Hc & Ha & ->)]; [done|].
      apply freed_wf; try done. unfold finished_at in Hf. intros ->. done. }
    destruct (IH (S k) s1 Hwf1 ltac:(lia)) as (s2 & H2 & Hwf2 & Hnone & Hall).
    exists s2. erewrite KM_step by exact H1.
    replace (Z.of_nat k + 1) with (Z.of_nat (S k)) by lia.
    split; [done|]. split; [done|].
    destruct Hcase as [[Hf ->]|(Hf & c & a & Hc & Ha & ->)]; [split; [done|]|split].
    + intros i p Hp. destruct (Hall i p Hp) as [Hs2 Hc2]. rewrite Hs2. unfold gone in *.
      destruct (Nat.leb_spec k i), (Nat.leb_spec (S k) i); try lia; try done.
      assert (i = k) as -> by lia. assert (p = q) as -> by congruence. by rewrite Hf in *.
    + intros p Hp. apply Hnone. cbn. by apply lookup_delete_None; right.
    + intros i p Hp. destruct (decide (i = k)) as [->|Hne].
      * assert (p = q) as -> by congruence. unfold gone. rewrite Hf, Nat.leb_refl. cbn [andb].
        destruct (Hall k 0) as [Hs2 _].
        { cbn. apply list_lookup_insert_eq. by eapply lookup_lt_Some. }
        split; [by rewrite Hs2; case_match|]. intros _. apply Hnone. cbn.
        by rewrite lookup_delete_eq.
      * destruct (Hall i p) as [Hs2 Hc2]; [cbn; by rewrite list_lookup_insert_ne|].
        assert (p <> 0 -> q <> p) as Hpq.
        { intros Hp0 ->. apply Hne. by eapply (wf_pointers _ Hwf). }
        assert (gone (S k) i (freed k q c a s) p = gone k i s p) as Hg.
        { unfold gone, finished_at. replace (k <=? i)%nat with (S k <=? i)%nat
            by (destruct (Nat.leb_spec (S k) i), (Nat.leb_spec k i); lia || done).
          destruct (Z.eqb_spec p 0); [done|]. cbn. by rewrite lookup_delete_ne by auto. }
        rewrite Hg in *. split; [done|]. intros Hp0. rewrite Hc2 by done. cbn.
        by rewrite lookup_delete_ne by auto.
Qed.

Lemma QueryActiveApcContexts_spec s :
  apc_wf s ->
  exists s', QueryActiveApcContextsForCompletion s = Ok (STATUS_SUCCESS, s') /\ apc_wf s' /\
    forall i p, apc_contexts s !! i = Some p ->
      apc_contexts s' !! i = Some (if finished_at s p then 0 else p) /\
      (p <> 0 -> contexts s' !! p = if finished_at s p then None else contexts s !! p).
Proof.
  intros Hwf. destruct (query_loop_spec 10 0 s Hwf eq_refl) as (s' & H & Hwf' & _ & Hall).
  exists s'. unfold QueryActiveApcContextsForCompletion.
  change (Z.to_nat MAXIMUM_APC_CONTEXTS) with 10%nat.
  erewrite KM_step by exact H. split; [done|]. split; [done|].
  intros i p Hp. apply (Hall i p Hp).
Qed.

(** ** Properties *)

(** The completion query frees exactly the finished contexts.  On a
    well-formed array the query over all ten slots never faults and keeps the
    array well-formed; a slot is cleared and its context freed exactly when
    the context has no queued APC, is not being filled and is of the stackwalk
    kind; every other context and slot is untouched. *)
Theorem query_frees_exactly_finished_contexts s :
  apc_wf s ->
  exists s', QueryActiveApcContextsForCompletion s = Ok (STATUS_SUCCESS, s') /\ apc_wf s' /\
    forall i p, apc_contexts s !! i = Some p ->
      apc_contexts s' !! i = Some (if finished_at s p then 0 else p) /\
      (p <> 0 -> contexts s' !! p = if finished_at s p then None else contexts s !! p).
Proof. apply QueryActiveApcContexts_spec. Qed.

Lemma unload_loop_bad_free s : forall ptrs,
  array_address s ∉ pool s ->
  (forall p, p ∈ ptrs -> p <> 0 -> exists c, contexts s !! p = Some c /\ apc_count c <= 0) ->
  (exists p, p ∈ ptrs /\ p <> 0) ->
  unload_loop ptrs s = Crash BadFree.
Proof.
  induction ptrs as [|p ptrs IH]; intros Hn Hall (q & Hq & Hq0);
    [by apply elem_of_nil in Hq|]. cbn [unload_loop].
  destruct (Z.eqb_spec p 0) as [->|Hp0].
  - apply IH; [done | intros r Hr; apply Hall; by right |].
    exists q. split; [|done]. by apply elem_of_cons in Hq as [->|].
  - destruct (Hall p) as (c & Hc & Hcnt); [by left|done|].
    unfold load_context, free_block. munfold. rewrite Hc.
    destruct (Z.ltb_spec 0 (apc_count c)); [lia|]. by rewrite decide_False.
Qed.

(** Unloading with a finished context bug-checks.  The unload path frees
    the array instead of the context it has just examined; the array is part
    of the driver's configuration and not a pool block, so as soon as one
    context is registered and all of them have finished, the free is of an
    address that was never allocated. *)
Theorem unload_frees_the_array_not_the_context s :
  config_lock s = false -> array_address s ∉ pool s ->
  (forall p, p ∈ apc_contexts s -> p <> 0 ->
     exists c, contexts s !! p = Some c /\ apc_count c <= 0) ->
  (exists p, p ∈ apc_contexts s /\ p <> 0) ->
  DrvUnloadFreeAllApcContextStructures s = Crash BadFree.
Proof.
  intros Hl Hn Hall Hex. unfold DrvUnloadFreeAllApcContextStructures.
  erewrite KM_step by (unfold AcquireDriverConfigLock; rewrite Hl; done).
  erewrite KM_step by reflexivity. by apply unload_loop_bad_free.
Qed.

(** ** The stackwalk operation and its interleavings

    Three kinds of threads touch a context: the thread that queues the APCs
    (ValidateThreadsViaKernelApc in modules.c), the threads that execute them
    (ApcKernelRoutine), and the query.  Every access is a critical section of
    the configuration lock, so an interleaving is a sequence of these steps. *)

Section stackwalk.
Context (ctx : Z).

(** Where the queueing thread is: the context is in the array; it has set
    [allocation_in_progress]; it has queued an APC and not yet counted it; it
    has cleared the flag. *)
Inductive phase := Inserted | Filling | Queued | Filled.

Record stackwalk := Stackwalk {
  machine : apc_state;
  at_phase : phase;
  outstanding : list Z;
}.

(** [context->header.allocation_in_progress = b]. *)
Definition mark_allocation (b : Z) : M unit := store_context ctx (set_progress b).

(** The part of [ApcKernelRoutine] that touches the context and the APC. *)
Definition run_apc (apc : Z) : M unit :=
  _ ← load_context ctx;
  FreeApcAndDecrementApcCount apc APC_CONTEXT_ID_STACKWALK.

Inductive sw_step : stackwalk -> stackwalk -> Prop :=
  | step_begin s s' o :
      mark_allocation 1 s = Ok (tt, s') ->
      sw_step (Stackwalk s Inserted o) (Stackwalk s' Filling o)
  | step_queue s apc o :
      apc <> 0 -> apc ∉ pool s -> zlen o < 2 ^ 31 - 1 ->
      sw_step (Stackwalk s Filling o)
        (Stackwalk (set_pool (fun b => {[apc]} ∪ b) s) Queued (apc :: o))
  | step_count s s' o :
      IncrementApcCount APC_CONTEXT_ID_STACKWALK s = Ok (tt, s') ->
      sw_step (Stackwalk s Queued o) (Stackwalk s' Filling o)
  | step_end s s' o :
      mark_allocation 0 s = Ok (tt, s') ->
      sw_step (Stackwalk s Filling o) (Stackwalk s' Filled o)
  | step_apc s s' ph apc o :
      apc ∈ o -> run_apc apc s = Ok (tt, s') ->
      sw_step (Stackwalk s ph o) (Stackwalk s' ph (filter (fun x => x <> apc) o))
  | step_query s s' st ph o :
      ph <> Inserted -> QueryActiveApcContextsForCompletion s = Ok (st, s') ->
      sw_step (Stackwalk s ph o) (Stackwalk s' ph o).

(** No thread's next action faults. *)
Definition no_fault {A} (r : res A) : Prop := exists a, r = Ok a.

Record sw_safe (w : stackwalk) : Prop := {
  safe_begin : at_phase w = Inserted -> no_fault (mark_allocation 1 (machine w));
  safe_count : at_phase w = Queued ->
    no_fault (IncrementApcCount APC_CONTEXT_ID_STACKWALK (machine w));
  safe_end : at_phase w = Filling -> no_fault (mark_allocation 0 (machine w));
  safe_apc apc : apc ∈ outstanding w -> no_fault (run_apc apc (machine w));
  safe_query : no_fault (QueryActiveApcContextsForCompletion (machine w));
}.

(** The APCs counted so far. *)
Definition counted (w : stackwalk) : Z :=
  zlen (outstanding w) - match at_phase w with Queued => 1 | _ => 0 end.

Definition in_progress (ph : phase) : Z :=
  match ph with Filling | Queued => 1 | _ => 0 end.

Record sw_alive (w : stackwalk) : Prop := {
  alive_wf : apc_wf (machine w);
  alive_array : apc_contexts (machine w) = ctx :: replicate 9 0;
  alive_ctx : ctx <> 0;
  alive_context : exists c a, contexts (machine w) !! ctx = Some c /\
    context_id c = APC_CONTEXT_ID_STACKWALK /\ apc_count c = counted w /\
    allocation_in_progress c = in_progress (at_phase w) /\
    system_modules (machine w) !! modules c = Some a /\ a ∉ outstanding w;
  alive_nodup : NoDup (outstanding w);
  alive_pool apc : apc ∈ outstanding w -> apc ∈ pool (machine w);
  alive_bound : zlen (outstanding w) < 2 ^ 31;
}.

Definition sw_inv (w : stackwalk) : Prop :=
  sw_alive w \/ (at_phase w = Filled /\ outstanding w = [] /\ apc_wf (machine w)).

Lemma GetApcContext_alive s c :
  config_lock s = false -> apc_contexts s = ctx :: replicate 9 0 -> ctx <> 0 ->
  contexts s !! ctx = Some c -> context_id c = APC_CONTEXT_ID_STACKWALK ->
  GetApcContext APC_CONTEXT_ID_STACKWALK s = Ok (ctx, s).
Proof.
  destruct s as [addr arr cs ms pl lk ul]. cbn. intros -> -> H0 Hc Hid.
  unfold GetApcContext, AcquireDriverConfigLock, ReleaseDriverConfigLock, gets. munfold.
  cbn [find_context config_lock apc_contexts]. destruct (Z.eqb_spec ctx 0); [done|].
  unfold load_context. munfold. cbn. rewrite Hc. by rewrite Hid.
Qed.

Lemma wf_store s p c c' :
  apc_wf s -> contexts s !! p = Some c -> modules c' = modules c ->
  apc_wf (set_contexts (<[p := c']>) s).
Proof.
  intros [Hlen Hl Hctx Hinj Hmod Haddr] Hc Hm.
  assert (forall q d, <[p := c']> (contexts s) !! q = Some d ->
    exists d0, contexts s !! q = Some d0 /\ modules d = modules d0) as Hback.
  { intros q d [[<- <-]|[Hne Hd]]%lookup_insert_Some; eauto. }
  split; cbn; try done.
  - intros i q Hq Hq0. destruct (Hctx i q Hq Hq0) as (d & a & Hd & Hrest).
    destruct (decide (p = q)) as [<-|Hne].
    + exists c', a. rewrite lookup_insert_eq, Hm. assert (d = c) as -> by congruence. done.
    + exists d, a. by rewrite lookup_insert_ne.
  - intros i j q r d e Hi Hj Hq0 Hr0 (d0 & Hd & ->)%Hback (e0 & He & ->)%Hback. eauto.
  - intros i j q r d e a Hi Hj Hq0 Hr0 (d0 & Hd & ->)%Hback (e0 & He & ->)%Hback. eauto.
Qed.

Lemma wf_pool_change s P' :
  apc_wf s ->
  (forall i p c a, apc_contexts s !! i = Some p -> p <> 0 -> contexts s !! p = Some c ->
     system_modules s !! modules c = Some a -> a <> 0 -> a ∈ pool s -> a ∈ P') ->
  apc_wf (set_pool (fun _ => P') s).
Proof.
  intros [Hlen Hl Hctx Hinj Hmod Haddr] HP. split; cbn; try done.
  intros i p Hp Hp0. destruct (Hctx i p Hp Hp0) as (c & a & Hc & Hm & Ha & Hin).
  exists c, a. repeat (split; [done|]). eauto.
Qed.

Lemma query_loop_idle s n : forall k,
  apc_wf s -> (k + n)%nat = 10%nat ->
  (forall i p, apc_contexts s !! i = Some p -> finished_at s p = false) ->
  mforeach query_index (iota (Z.of_nat k) n) s = Ok (tt, s).
Proof.
  induction n as [|n IH]; intros k Hwf Hk Hf; [done|]. rewrite iota_S. cbn [mforeach].
  destruct (lookup_lt_is_Some_2 (apc_contexts s) k) as [q Hq];
    [rewrite (wf_length _ Hwf); lia|].
  destruct (query_index_spec s k q Hwf Hq) as (s1 & H1 & [[_ ->]|[Ht _]]).
  - erewrite KM_step by exact H1. replace (Z.of_nat k + 1) with (Z.of_nat (S k)) by lia.
    apply IH; [done | lia | done].
  - rewrite (Hf k q Hq) in Ht. done.
Qed.

Lemma query_alive_idle w :
  sw_alive w -> (in_progress (at_phase w) = 1 \/ 0 < counted w) ->
  QueryActiveApcContextsForCompletion (machine w) = Ok (STATUS_SUCCESS, machine w).
Proof.
  intros [Hwf Harr H0 (c & a & Hc & Hid & Hcnt & Hfl & _) _ _ _] Hbusy.
  unfold QueryActiveApcContextsForCompletion. erewrite KM_step; [reflexivity|].
  apply (query_loop_idle _ 10 0); [done|done|]. intros i p Hp. unfold finished_at.
  destruct (Z.eqb_spec p 0); [done|]. rewrite Harr in Hp.
  destruct i as [|i]; cbn in Hp; [injection Hp as <-|].
  - rewrite Hc. cbn. unfold finished. rewrite Hcnt, Hfl.
    destruct Hbusy as [->|]; [by rewrite andb_false_r|].
    destruct (Z.leb_spec (counted w) 0); [lia|done].
  - change [0; 0; 0; 0; 0; 0; 0; 0; 0] with (replicate 9 0) in Hp.
    apply lookup_replicate in Hp as [-> _]. done.
Qed.

Lemma mark_allocation_ok s c b :
  contexts s !! ctx = Some c ->
  mark_allocation b s = Ok (tt, set_contexts (<[ctx := set_progress b c]>) s).
Proof. intros Hc. unfold mark_allocation, store_context. by rewrite Hc. Qed.

Lemma IncrementApcCount_ok s c :
  config_lock s = false -> apc_contexts s = ctx :: replicate 9 0 -> ctx <> 0 ->
  contexts s !! ctx = Some c -> context_id c = APC_CONTEXT_ID_STACKWALK ->
  IncrementApcCount APC_CONTEXT_ID_STACKWALK s
    = Ok (tt, set_contexts (<[ctx := add_count 1 c]>) s).
Proof.
  intros Hl Ha H0 Hc Hid. unfold IncrementApcCount.
  erewrite KM_step by (by eapply GetApcContext_alive). destruct (Z.eqb_spec ctx 0); [done|].
  unfold AcquireDriverConfigLock, ReleaseDriverConfigLock, store_context. munfold.
  rewrite Hl. cbn. rewrite Hc. unfold set_contexts. cbn. by rewrite Hl.
Qed.

Lemma run_apc_ok s c apc :
  config_lock s = false -> apc_contexts s = ctx :: replicate 9 0 -> ctx <> 0 ->
  contexts s !! ctx = Some c -> context_id c = APC_CONTEXT_ID_STACKWALK -> apc ∈ pool s ->
  run_apc apc s = Ok (tt, set_contexts (<[ctx := add_count (-1) c]>)
                        (set_pool (fun _ => pool s ∖ {[apc]}) s)).
Proof.
  intros Hl Ha H0 Hc Hid Hp. unfold run_apc, FreeApcAndDecrementApcCount.
  erewrite KM_step by (unfold load_context; rewrite Hc; done).
  erewrite KM_step by (unfold free_block; rewrite decide_True by done; done).
  erewrite KM_step by (by eapply (GetApcContext_alive _ c)). destruct (Z.eqb_spec ctx 0); [done|].
  unfold AcquireDriverConfigLock, ReleaseDriverConfigLock, store_context. munfold.
  cbn. rewrite Hl. cbn. rewrite Hc. unfold set_contexts, set_pool. cbn. by rewrite Hl.
Qed.

Lemma sw_inv_safe w : sw_inv w -> sw_safe w.
Proof.
  intros [Hal|(Hph & Ho & Hwf)].
  - pose proof Hal as [Hwf Harr H0 (c & a & Hc & Hid & _) _ Hpool _].
    pose proof (wf_unlocked _ Hwf) as Hl. split.
    + intros _. eexists. by apply mark_allocation_ok.
    + intros _. eexists. by apply IncrementApcCount_ok.
    + intros _. eexists. by apply mark_allocation_ok.
    + intros apc Hin. eexists. apply run_apc_ok; eauto.
    + destruct (QueryActiveApcContexts_spec (machine w) Hwf) as (s' & H & _).
      by eexists.
  - split; rewrite ?Hph, ?Ho; try done.
    + intros apc Hin. by apply elem_of_nil in Hin.
    + destruct (QueryActiveApcContexts_spec (machine w) Hwf) as (s' & H & _).
      by eexists.
Qed.

(** Each step keeps the invariant. *)
Lemma alive_mark s o ph ph' b :
  sw_alive (Stackwalk s ph o) -> ph <> Queued -> ph' <> Queued -> in_progress ph' = b ->
  forall s', mark_allocation b s = Ok (tt, s') -> sw_alive (Stackwalk s' ph' o).
Proof.
  intros [Hwf Harr H0 (c & a & Hc & Hid & Hcnt & Hfl & Hm & Ha) Hnd Hpl Hbd] Hph Hph' Hb s' Hs.
  cbn in *. rewrite (mark_allocation_ok _ c) in Hs by done. injection Hs as <-.
  split; cbn; try done; [by eapply wf_store|].
  exists (set_progress b c), a. rewrite lookup_insert_eq. cbn. unfold counted in *. cbn in *.
  repeat (split; [done|]). split; [by destruct ph, ph'|]. by rewrite Hb.
Qed.

Lemma alive_count s o s' :
  sw_alive (Stackwalk s Queued o) ->
  IncrementApcCount APC_CONTEXT_ID_STACKWALK s = Ok (tt, s') ->
  sw_alive (Stackwalk s' Filling o).
Proof.
  intros [Hwf Harr H0 (c & a & Hc & Hid & Hcnt & Hfl & Hm & Ha) Hnd Hpl Hbd] Hs. cbn in *.
  rewrite (IncrementApcCount_ok _ c) in Hs by (done || apply wf_unlocked; done).
  injection Hs as <-. split; cbn; try done; [by eapply wf_store|].
  exists (add_count 1 c), a. rewrite lookup_insert_eq. cbn. unfold counted in *. cbn in *.
  repeat (split; [done|]). split; [|done]. pose proof (zlen_nonneg o).
  rewrite s32_small; lia.
Qed.

Lemma zlen_filter_out apc (o : list Z) :
  NoDup o -> apc ∈ o -> zlen (filter (fun x => x <> apc) o) = zlen o - 1.
Proof.
  unfold zlen. induction o as [|x o IH]; intros Hn Hin; [by apply elem_of_nil in Hin|].
  apply NoDup_cons in Hn as [Hx Hn]. apply elem_of_cons in Hin as [<-|Hin].
  - rewrite filter_cons_False by (intros H; by apply H).
    assert (filter (fun x => x <> apc) o = o) as ->.
    { clear IH Hn. induction o as [|y o IHo]; [done|].
      apply not_elem_of_cons in Hx as [Hy Hx]. rewrite filter_cons_True by congruence.
      by rewrite IHo. }
    cbn. lia.
  - rewrite filter_cons_True by (intros ->; done). cbn [length]. specialize (IH Hn Hin). lia.
Qed.

Lemma alive_apc s o ph apc s' :
  sw_alive (Stackwalk s ph o) -> apc ∈ o -> run_apc apc s = Ok (tt, s') ->
  sw_alive (Stackwalk s' ph (filter (fun x => x <> apc) o)).
Proof.
  intros [Hwf Harr H0 (c & a & Hc & Hid & Hcnt & Hfl & Hm & Ha) Hnd Hpl Hbd] Hin Hs. cbn in *.
  rewrite (run_apc_ok _ c) in Hs by (done || (apply wf_unlocked; done) || auto).
  injection Hs as <-. pose proof (zlen_filter_out apc o Hnd Hin) as Hz.
  split; cbn; try done.
  - eapply wf_store; [apply (wf_pool_change _ _ Hwf) | done | done].
    intros i p d b Hp Hp0 Hd Hb Hb0 Hbp. apply elem_of_difference. split; [done|].
    rewrite elem_of_singleton. intros ->. rewrite Harr in Hp.
    destruct i as [|i]; cbn in Hp; [injection Hp as <-; congruence|].
    change [0; 0; 0; 0; 0; 0; 0; 0; 0] with (replicate 9 0) in Hp.
    apply lookup_replicate in Hp as [-> _]. done.
  - exists (add_count (-1) c), a. rewrite lookup_insert_eq. cbn. unfold counted in *. cbn in *.
    split; [done|]. split; [done|]. split; [|split; [done|]; split; [done|]].
    + rewrite Hz, Hcnt. pose proof (zlen_nonneg o).
      destruct ph; rewrite s32_small; lia.
    + rewrite list_elem_of_filter. by intros [_ ?].
  - by apply NoDup_filter.
  - intros x [Hx Hxo]%list_elem_of_filter. apply elem_of_difference.
    split; [by apply Hpl|]. by rewrite elem_of_singleton.
  - lia.
Qed.

Lemma sw_step_inv w w' : sw_inv w -> sw_step w w' -> sw_inv w'.
Proof.
  intros [Hal|(Hph & Ho & Hwf)] Hstep.
  - destruct Hstep as [s s' o Hs|s apc o Ha0 Hap Hb|s s' o Hs|s s' o Hs|s s' ph apc o Hin Hs
                      |s s' st ph o Hph Hs].
    + left. by eapply alive_mark.
    + left. destruct Hal as [Hwf Harr H0 (c & a & Hc & Hid & Hcnt & Hfl & Hm & Ha) Hnd Hpl Hbd].
      cbn in *. split; cbn; try done.
      * apply (wf_pool_change _ _ Hwf). set_solver.
      * exists c, a. unfold counted in *. cbn in *. repeat (split; [done|]).
        split; [unfold zlen in *; cbn; lia|]. split; [done|]. split; [done|].
        apply not_elem_of_cons. split; [|done]. intros ->.
        destruct (wf_context _ Hwf 0%nat ctx) as (c2 & a2 & Hc2 & _ & Ha2 & Hin2);
          [by rewrite Harr | done |]. simplify_eq. auto.
      * apply NoDup_cons. split; [|done]. intros Hin. apply Hap, Hpl, Hin.
      * intros x [->|Hx]%elem_of_cons; set_solver.
      * unfold zlen in *. cbn. lia.
    + left. by eapply alive_count.
    + left. by eapply alive_mark.
    + left. by eapply alive_apc.
    + destruct (Z_lt_le_dec 0 (counted (Stackwalk s ph o))) as [Hc|Hc].
      { left. pose proof (query_alive_idle _ Hal (or_intror Hc)) as E. cbn in E.
        rewrite E in Hs. by injection Hs as _ <-. }
      destruct ph; try done.
      1, 2: left; pose proof (query_alive_idle _ Hal (or_introl eq_refl)) as E; cbn in E;
            rewrite E in Hs; by injection Hs as _ <-.
      right. destruct (QueryActiveApcContexts_spec s (alive_wf _ Hal)) as (s2 & E & Hwf2 & _).
      rewrite E in Hs. injection Hs as _ <-. split; [done|]. split; [|done]. cbn.
      unfold counted, zlen in Hc. cbn in Hc. destruct o; [done|]. cbn in Hc. lia.
  - destruct w as [s ph o]. cbn in *. subst. right.
    inversion Hstep as [| | | |? ? ? apc ? Hin|? s' st ? ? _ Hs]; subst.
    + by apply elem_of_nil in Hin.
    + destruct (QueryActiveApcContexts_spec s Hwf) as (s2 & E & Hwf2 & _).
      rewrite E in Hs. injection Hs as _ <-. done.
Qed.


(** The protocol is not safe before the flag is set.  The context is
    inserted into the array first and marked afterwards; a query between the
    two finds a context with no APCs and no allocation in progress, frees it,
    and the queueing thread then writes to freed memory. *)
Theorem query_between_insert_and_mark_frees_context s o :
  sw_alive (Stackwalk s Inserted o) -> o = [] ->
  exists s', QueryActiveApcContextsForCompletion s = Ok (STATUS_SUCCESS, s') /\
    mark_allocation 1 s' = Crash UnmappedRead.
Proof.
  intros [Hwf Harr H0 (c & a & Hc & Hid & Hcnt & Hfl & Hm & Ha) Hnd Hpl Hbd] ->. cbn in *.
  destruct (QueryActiveApcContexts_spec s Hwf) as (s' & E & _ & Hall).
  exists s'. split; [done|]. destruct (Hall 0%nat ctx) as [_ Hcx]; [by rewrite Harr|].
  unfold mark_allocation, store_context. rewrite Hcx by done.
  unfold finished_at. rewrite Hc. destruct (Z.eqb_spec ctx 0); [done|].
  unfold finished. by rewrite Hid, Hcnt, Hfl.
Qed.
End stackwalk.

(** ** Witnesses *)

Definition sample_apc_state : apc_state :=
  ApcState 0x5000 (0x100 :: replicate 9 0) {[ 0x100 := ApcContext 1 0 0 0x200 ]}
    {[ 0x200 := 0x300 ]} {[ 0x300 ]} false false.

Lemma sample_array_lookup i p :
  apc_contexts sample_apc_state !! i = Some p -> p <> 0 -> i = 0%nat /\ p = 0x100.
Proof.
  destruct i as [|i]; cbn; [by intros [= <-]|].
  change [0; 0; 0; 0; 0; 0; 0; 0; 0] with (replicate 9 0).
  intros [-> _]%lookup_replicate. done.
Qed.

Lemma sample_apc_wf : apc_wf sample_apc_state.
Proof.
  split; try done.
  - intros i p Hp Hp0. destruct (sample_array_lookup i p Hp Hp0) as [_ ->].
    exists (ApcContext 1 0 0 0x200), 0x300. cbn.
    split; [by rewrite lookup_singleton_eq|]. split; [done|].
    split; [by rewrite lookup_singleton_eq|]. set_solver.
  - intros i j p Hi Hj Hp. destruct (sample_array_lookup i p Hi Hp) as [-> _],
      (sample_array_lookup j p Hj Hp) as [-> _]. done.
  - intros i j p q c d Hi Hj Hp Hq _ _ _. destruct (sample_array_lookup i p Hi Hp) as [_ ->],
      (sample_array_lookup j q Hj Hq) as [_ ->]. done.
  - intros i j p q c d a Hi Hj Hp Hq _ _ _ _ _.
    destruct (sample_array_lookup i p Hi Hp) as [_ ->],
      (sample_array_lookup j q Hj Hq) as [_ ->]. done.
Qed.

Lemma sample_alive : sw_alive 0x100 (Stackwalk sample_apc_state Inserted []).
Proof.
  split; cbn; try done.
  - apply sample_apc_wf.
  - exists (ApcContext 1 0 0 0x200), 0x300. split; [by rewrite lookup_singleton_eq|].
    split; [done|]. split; [done|]. split; [done|].
    split; [by rewrite lookup_singleton_eq|]. set_solver.
  - constructor.
  - set_solver.
Qed.

Lemma query_frees_exactly_finished_contexts_witness :
  exists s', QueryActiveApcContextsForCompletion sample_apc_state = Ok (STATUS_SUCCESS, s') /\
    apc_contexts s' !! 0%nat = Some 0 /\ contexts s' !! 0x100 = None.
Proof.
  destruct (query_frees_exactly_finished_contexts sample_apc_state sample_apc_wf)
    as (s' & H & _ & Hall).
  exists s'. split; [exact H|]. destruct (Hall 0%nat 0x100 eq_refl) as [Hs Hc].
  split; [exact Hs | apply Hc; discriminate].
Defined.

Lemma unload_frees_the_array_not_the_context_witness :
  DrvUnloadFreeAllApcContextStructures sample_apc_state = Crash BadFree.
Proof.
  apply (unload_frees_the_array_not_the_context sample_apc_state).
  - reflexivity.
  - cbn. set_solver.
  - intros p [i Hi]%list_elem_of_lookup Hp.
    destruct (sample_array_lookup i p Hi Hp) as [_ ->].
    exists (ApcContext 1 0 0 0x200). split; [reflexivity | cbn; lia].
  - exists 0x100. split; [by left | lia].
Defined.


Lemma query_between_insert_and_mark_frees_context_witness :
  exists s', QueryActiveApcContextsForCompletion sample_apc_state = Ok (STATUS_SUCCESS, s') /\
    mark_allocation 0x100 1 s' = Crash UnmappedRead.
Proof.
  exact (query_between_insert_and_mark_frees_context 0x100 sample_apc_state []
           sample_alive eq_refl).
Defined.
