(* ===== verification/Smbios.v ===== *)
(** * integrity.c: reading strings out of the SMBIOS tables

    The firmware table is a sequence of structures, each a formatted area whose
    first two bytes are its type and length, followed by its strings: each
    terminated by a NUL and the whole by one more NUL (two NULs if there is no
    string).  The code walks raw memory with no bound; the theorems say what it
    returns on well-formed tables. *)

From S2P Require Import Prelude Layout Structs.

Definition NULL_TERMINATOR : Z := 0.

(** [SMBIOS_TABLE_INDEX]. *)
Inductive SMBIOS_TABLE_INDEX :=
  | SmbiosInformation
  | SystemInformation
  | VendorSpecificInformation
  | ChassisInformation.

Definition table_type (t : SMBIOS_TABLE_INDEX) : Z :=
  match t with
  | SmbiosInformation => 0
  | SystemInformation => 1
  | VendorSpecificInformation => 2
  | ChassisInformation => 3
  end.

(** [*current == NUL && *next == NUL]; the second character is read only if
    the first is NUL. *)
Definition double_null (m : memory) (p : Z) : res bool :=
  c ← load8 m p;
  if c =? NULL_TERMINATOR then n ← load8 m (p + 1); Ok (n =? NULL_TERMINATOR)
  else Ok false.

(** ** GetNextSMBIOSStructureInTable *)

Fixpoint next_loop (fuel : nat) (m : memory) (p : Z) : res Z :=
  match fuel with
  | O => Crash OutOfFuel
  | S fuel =>
      d ← double_null m p;
      if d : bool then Ok (p + 1 + 1) else next_loop fuel m (p + 1)
  end.

Definition GetNextSMBIOSStructureInTable (fuel : nat) (m : memory) (CurrentStructure : Z)
  : res Z :=
  len ← load_field m SMBIOS_TABLE_HEADER CurrentStructure "Length" 1;
  next_loop fuel m (u64 (CurrentStructure + len)).

(** ** GetStringAtIndexFromSMBIOSTable *)

Fixpoint string_loop (fuel : nat) (m : memory) (Index BufferSize : Z)
  (p char_index string_count : Z) (Buffer : list Z) : res (NTSTATUS * list Z) :=
  match fuel with
  | O => Crash OutOfFuel
  | S fuel =>
      d ← double_null m p;
      if d : bool then Ok (STATUS_NOT_FOUND, Buffer)
      else if BufferSize <=? char_index then Ok (STATUS_BUFFER_TOO_SMALL, Buffer)
      else
        c ← load8 m p;
        if string_count + 1 =? Index then
          if c =? NULL_TERMINATOR then Ok (STATUS_SUCCESS, Buffer)
          else string_loop fuel m Index BufferSize (p + 1) (char_index + 1) string_count
                 (zset Buffer char_index c)
        else if c =? NULL_TERMINATOR
        then string_loop fuel m Index BufferSize (p + 1) 0 (string_count + 1) Buffer
        else string_loop fuel m Index BufferSize (p + 1) char_index string_count Buffer
  end.

Definition GetStringAtIndexFromSMBIOSTable (fuel : nat) (m : memory)
  (Table Index : Z) (Buffer : list Z) (BufferSize : Z) : res (NTSTATUS * list Z) :=
  len ← load_field m SMBIOS_TABLE_HEADER Table "Length" 1;
  string_loop fuel m Index BufferSize (u64 (Table + len)) 0 0 Buffer.

(** ** ParseSMBIOSTable *)

(** [ExGetSystemFirmwareTable] and the pool: the size the first call reports,
    the block the pool returns (0 when it refuses), and the status and memory
    after the second call. *)
Class Firmware := {
  required_size : Z;
  firmware_buffer : Z;
  second_call : NTSTATUS;
  firmware_memory : memory;
}.

(** The search for the structure of the wanted type. *)
Fixpoint find_table (fuel : nat) (inner : nat) (m : memory) (TableIndex header : Z) : res Z :=
  match fuel with
  | O => Crash OutOfFuel
  | S fuel =>
      ty ← load_field m SMBIOS_TABLE_HEADER header "Type" 1;
      if negb (ty =? TableIndex) then
        header ← GetNextSMBIOSStructureInTable inner m header;
        find_table fuel inner m TableIndex header
      else Ok header
  end.

(** Result: the status, the caller's buffer, and the pool blocks freed. *)
Definition ParseSMBIOSTable {F : Firmware} (fuel : nat) (Buffer : list Z) (BufferSize : Z)
  (TableIndex : SMBIOS_TABLE_INDEX) (TableSubIndex : Z) : res (NTSTATUS * list Z * list Z) :=
  if required_size =? 0 then Ok (STATUS_BUFFER_TOO_SMALL, Buffer, [])
  else if firmware_buffer =? 0 then Ok (STATUS_MEMORY_NOT_ALLOCATED, Buffer, [])
  else
    '(status, Buffer) ←
      (if negb (NT_SUCCESS second_call) then Ok (second_call, Buffer)
       else
         let smbios_table_header :=
           firmware_buffer + offsetof RAW_SMBIOS_DATA "SMBIOSTableData" in
         header ← find_table fuel fuel firmware_memory (table_type TableIndex)
                    smbios_table_header;
         GetStringAtIndexFromSMBIOSTable fuel firmware_memory header TableSubIndex Buffer
           BufferSize);
    Ok (status, Buffer, if firmware_buffer =? 0 then [] else [firmware_buffer]).

(** ** Specification *)

(** The bytes [bs] are at [p]. *)
Definition bytes_at (m : memory) (p : Z) (bs : list Z) : Prop :=
  forall i b, bs !! i = Some b -> m (p + Z.of_nat i) = Some b.

Definition smbios_string (s : list Z) : Prop := s <> [] /\ Forall (fun b => b <> 0) s.

Fixpoint terminated (strs : list (list Z)) : list Z :=
  match strs with [] => [] | s :: strs => s ++ [0] ++ terminated strs end.

Definition string_section (strs : list (list Z)) : list Z :=
  match strs with
  | [] => [0; 0]
  | _ => terminated strs ++ [0]
  end.

(** A structure: its type, the rest of its formatted area after the length
    byte, and its strings. *)
Record structure := Structure { ty : Z; body : list Z; strings : list (list Z) }.

Definition structure_length (x : structure) : Z := zlen (body x) + 2.

Definition structure_bytes (x : structure) : list Z :=
  ty x :: structure_length x :: body x ++ string_section (strings x).

Record structure_ok (x : structure) : Prop := {
  ok_type : 0 <= ty x < 256;
  ok_length : structure_length x < 256;
  ok_strings : Forall smbios_string (strings x);
}.

(** What a caller gets for string [Index] (counted from 1): the characters
    that fit are copied; the last string of a structure is reported as not
    found, because its NUL is followed by the terminating NUL. *)
Definition overwrite (Buffer s : list Z) : list Z :=
  take (length Buffer) s ++ drop (length s) Buffer.

Definition string_result (strs : list (list Z)) (Index : Z) (Buffer : list Z)
  : NTSTATUS * list Z :=
  match znth strs (Index - 1) with
  | None => (STATUS_NOT_FOUND, Buffer)
  | Some s =>
      (if Index =? zlen strs then
         if zlen s <=? zlen Buffer then STATUS_NOT_FOUND else STATUS_BUFFER_TOO_SMALL
       else
         if zlen s <? zlen Buffer then STATUS_SUCCESS else STATUS_BUFFER_TOO_SMALL,
       overwrite Buffer s)
  end.

(** ** Lemmas *)

Lemma bytes_at_app m p xs ys :
  bytes_at m p (xs ++ ys) <-> bytes_at m p xs /\ bytes_at m (p + zlen xs) ys.
Proof.
  unfold bytes_at, zlen. split.
  - intros H. split; intros i b Hi.
    + apply H. by apply lookup_app_l_Some.
    + rewrite <- Z.add_assoc, <- Nat2Z.inj_add. apply H.
      rewrite lookup_app_r by lia. by replace (length xs + i - length xs)%nat with i by lia.
  - intros [H1 H2] i b Hi. apply lookup_app_Some in Hi as [Hi|[Hl Hi]]; [by apply H1|].
    specialize (H2 _ _ Hi). rewrite <- H2. f_equal. lia.
Qed.

Lemma bytes_at_cons m p b bs :
  bytes_at m p (b :: bs) <-> m p = Some b /\ bytes_at m (p + 1) bs.
Proof.
  change (b :: bs) with ([b] ++ bs). rewrite bytes_at_app. unfold zlen. cbn [length].
  split; intros [H1 H2]; (split; [|done]).
  - specialize (H1 0%nat b eq_refl). by rewrite Z.add_0_r in H1.
  - intros [|i] c Hi; [|done]. injection Hi as <-. by rewrite Z.add_0_r.
Qed.

Lemma load8_ok m p b : m p = Some b -> load8 m p = Ok b.
Proof. intros H. unfold load8. cbn. rewrite H. munfold. f_equal. lia. Qed.

Lemma double_null_no m p b : m p = Some b -> b <> 0 -> double_null m p = Ok false.
Proof.
  intros H Hb. unfold double_null. rewrite (load8_ok _ _ _ H). munfold.
  unfold NULL_TERMINATOR. destruct (Z.eqb_spec b 0); [done|]. done.
Qed.

Lemma double_null_at m p n :
  m p = Some 0 -> m (p + 1) = Some n -> double_null m p = Ok (n =? 0).
Proof.
  intros H Hn. unfold double_null, NULL_TERMINATOR. rewrite (load8_ok _ _ _ H). munfold.
  change (0 =? 0) with true. by rewrite (load8_ok _ _ _ Hn).
Qed.

Lemma next_loop_skip m s : forall p fuel,
  bytes_at m p s -> Forall (fun b => b <> 0) s ->
  next_loop (length s + fuel) m p = next_loop fuel m (p + zlen s).
Proof.
  induction s as [|b s IH]; intros p fuel Hs Hn.
  - unfold zlen. cbn. by rewrite Z.add_0_r.
  - apply bytes_at_cons in Hs as [Hb Hs]. apply Forall_cons in Hn as [Hb0 Hn].
    cbn [length Nat.add next_loop]. rewrite (double_null_no _ _ _ Hb Hb0). munfold.
    rewrite IH by done. f_equal. unfold zlen. cbn. lia.
Qed.

(** What follows a string's NUL: the next string or the terminator. *)
Lemma after_string m p strs :
  Forall smbios_string strs -> bytes_at m p (terminated strs ++ [0]) ->
  exists n, m p = Some n /\ (n =? 0) = bool_decide (strs = []).
Proof.
  intros Hs Hm. destruct strs as [|s strs].
  - exists 0. apply bytes_at_cons in Hm as [Hm _]. done.
  - apply Forall_cons in Hs as [[Hne Hnz] _]. destruct s as [|b s]; [done|].
    apply bytes_at_cons in Hm as [Hm _]. exists b. split; [done|].
    apply Forall_cons in Hnz as [Hb _]. rewrite bool_decide_false by done.
    by apply Z.eqb_neq.
Qed.

Lemma next_loop_strings m strs : forall p fuel,
  strs <> [] -> Forall smbios_string strs ->
  bytes_at m p (terminated strs ++ [0]) ->
  (length (terminated strs) <= fuel)%nat ->
  next_loop fuel m p = Ok (p + zlen (terminated strs ++ [0])).
Proof.
  induction strs as [|s strs IH]; intros p fuel Hne Hs Hm Hf; [done|].
  apply Forall_cons in Hs as [[Hs0 Hs] Hss]. cbn [terminated] in *.
  rewrite <- !app_assoc in Hm. apply bytes_at_app in Hm as [Hm1 Hm2].
  cbn [app] in Hm2. apply bytes_at_cons in Hm2 as [Hz Hm2].
  rewrite !length_app in Hf. cbn [length] in Hf.
  replace fuel with (length s + S (fuel - length s - 1))%nat by lia.
  rewrite next_loop_skip by done. cbn [next_loop].
  destruct (after_string _ _ _ Hss Hm2) as (n & Hn & Hd).
  rewrite (double_null_at _ _ _ Hz Hn), Hd. munfold.
  rewrite !zlen_app, zlen_cons, zlen_nil. case_bool_decide as Hstr.
  - subst. f_equal. cbn. unfold zlen. cbn. lia.
  - rewrite IH by (done || lia). rewrite zlen_app, zlen_cons, zlen_nil. f_equal. lia.
Qed.

Lemma next_loop_section m strs p fuel :
  Forall smbios_string strs -> bytes_at m p (string_section strs) ->
  (length (string_section strs) <= fuel)%nat ->
  next_loop fuel m p = Ok (p + zlen (string_section strs)).
Proof.
  intros Hs Hm Hf. destruct strs as [|s strs].
  - apply bytes_at_cons in Hm as [H0 [H1 _]%bytes_at_cons].
    destruct fuel as [|fuel]; cbn in Hf; [lia|]. cbn [next_loop].
    rewrite (double_null_at _ _ _ H0 H1). munfold. cbn. f_equal. unfold zlen. cbn. lia.
  - apply next_loop_strings; [done..|]. unfold string_section in Hf.
    rewrite length_app in Hf. lia.
Qed.

(** Skipping a string while looking for a later one. *)
Lemma string_loop_skip m Index n sc s : forall p ci fuel Buffer,
  bytes_at m p s -> Forall (fun b => b <> 0) s -> sc + 1 <> Index -> ci < n ->
  string_loop (length s + fuel) m Index n p ci sc Buffer
    = string_loop fuel m Index n (p + zlen s) ci sc Buffer.
Proof.
  induction s as [|b s IH]; intros p ci fuel Buffer Hs Hn Hi Hc.
  - rewrite zlen_nil, Z.add_0_r. done.
  - apply bytes_at_cons in Hs as [Hb Hs]. apply Forall_cons in Hn as [Hb0 Hn].
    cbn [length Nat.add string_loop]. rewrite (double_null_no _ _ _ Hb Hb0). munfold.
    destruct (Z.leb_spec n ci); [lia|]. rewrite (load8_ok _ _ _ Hb).
    destruct (Z.eqb_spec (sc + 1) Index); [done|]. unfold NULL_TERMINATOR.
    destruct (Z.eqb_spec b 0); [done|]. rewrite IH by done.
    rewrite zlen_cons. f_equal. lia.
Qed.

(** Writing [s] into the buffer from index [ci] on. *)
Definition write_at (ci : nat) (Buffer s : list Z) : list Z :=
  take ci Buffer ++ take (length Buffer - ci) s ++ drop (ci + length s) Buffer.

Lemma write_at_cons ci Buffer b s :
  (ci < length Buffer)%nat ->
  write_at (S ci) (<[ci := b]> Buffer) s = write_at ci Buffer (b :: s).
Proof.
  intros Hci. unfold write_at. rewrite length_insert.
  replace (length Buffer - ci)%nat with (S (length Buffer - S ci)) by lia. cbn [take app].
  rewrite (take_S_r _ ci b) by (by apply list_lookup_insert_eq).
  rewrite take_insert_ge, drop_insert_lt by lia. cbn [length].
  rewrite <- app_assoc. cbn. do 3 f_equal. f_equal. lia.
Qed.

(** The status when the wanted string ends at index [ci] and is followed by
    [next]. *)
Definition end_status (ci n next : Z) : NTSTATUS :=
  if n <? ci then STATUS_BUFFER_TOO_SMALL
  else if next =? 0 then STATUS_NOT_FOUND
  else if ci <? n then STATUS_SUCCESS else STATUS_BUFFER_TOO_SMALL.

Lemma string_loop_copy m Index n sc next s : forall p ci fuel Buffer,
  bytes_at m p (s ++ [0; next]) -> Forall (fun b => b <> 0) s -> sc + 1 = Index ->
  (ci <= length Buffer)%nat -> n = zlen Buffer -> (length s < fuel)%nat ->
  string_loop fuel m Index n p (Z.of_nat ci) sc Buffer
    = Ok (end_status (Z.of_nat ci + zlen s) n next, write_at ci Buffer s).
Proof.
  induction s as [|b s IH]; intros p ci fuel Buffer Hs Hn Hi Hc Hz Hf;
    (destruct fuel as [|fuel]; cbn [length] in Hf; [lia|]); cbn [string_loop app] in *;
    apply bytes_at_cons in Hs as [Hb Hs].
  - apply bytes_at_cons in Hs as [Hnx _]. rewrite (double_null_at _ _ _ Hb Hnx). munfold.
    assert (write_at ci Buffer [] = Buffer) as ->.
    { unfold write_at. rewrite take_nil, Nat.add_0_r. cbn. apply take_drop. }
    unfold end_status, zlen in *. cbn [length]. rewrite Z.add_0_r.
    destruct (Z.ltb_spec n (Z.of_nat ci)); [lia|].
    destruct (Z.eqb_spec next 0); [done|].
    destruct (Z.leb_spec n (Z.of_nat ci)), (Z.ltb_spec (Z.of_nat ci) n); try lia; [done|].
    rewrite (load8_ok _ _ _ Hb). destruct (Z.eqb_spec (sc + 1) Index); done.
  - apply Forall_cons in Hn as [Hb0 Hn]. rewrite (double_null_no _ _ _ Hb Hb0). munfold.
    rewrite zlen_cons. destruct (Z.leb_spec n (Z.of_nat ci)).
    + assert (ci = length Buffer) as -> by (unfold zlen in *; lia).
      unfold end_status. destruct (Z.ltb_spec n (Z.of_nat (length Buffer) + (zlen s + 1)));
        [|pose proof (zlen_nonneg s); unfold zlen in *; lia].
      unfold write_at. rewrite Nat.sub_diag. cbn [take app].
      rewrite firstn_all, drop_ge by lia. by rewrite app_nil_r.
    + rewrite (load8_ok _ _ _ Hb). destruct (Z.eqb_spec (sc + 1) Index); [|done].
      unfold NULL_TERMINATOR. destruct (Z.eqb_spec b 0); [done|].
      rewrite zset_of_nat. replace (Z.of_nat ci + 1) with (Z.of_nat (S ci)) by lia.
      rewrite IH; [|done..| rewrite length_insert; unfold zlen in *; lia
                   | by unfold zlen; rewrite length_insert | lia].
      rewrite write_at_cons by (unfold zlen in *; lia).
      do 3 f_equal. lia.
Qed.

Lemma znth_cons_ne {A} (x : A) l i : i <> 0 -> znth (x :: l) i = znth l (i - 1).
Proof.
  intros Hi. unfold znth. destruct (Z.ltb_spec i 0), (Z.ltb_spec (i - 1) 0); try done; try lia.
  by replace (Z.to_nat i) with (S (Z.to_nat (i - 1))) by lia.
Qed.

Lemma string_loop_strings m Index strs : forall p fuel sc Buffer,
  strs <> [] -> Forall smbios_string strs -> bytes_at m p (terminated strs ++ [0]) ->
  0 < zlen Buffer -> (length (terminated strs) < fuel)%nat ->
  string_loop fuel m Index (zlen Buffer) p 0 sc Buffer
    = Ok (string_result strs (Index - sc) Buffer).
Proof.
  induction strs as [|s strs IH]; intros p fuel sc Buffer Hne Hs Hm Hn Hf; [done|].
  apply Forall_cons in Hs as [[Hs0 Hs] Hss]. cbn [terminated] in *.
  rewrite <- !app_assoc in Hm. cbn [app] in Hm. pose proof Hm as Hm'.
  apply bytes_at_app in Hm as [Hm1 [Hz Hm2]%bytes_at_cons].
  rewrite !length_app in Hf. cbn [length app] in Hf.
  destruct (after_string _ _ _ Hss Hm2) as (next & Hnx & Hd).
  pose proof (zlen_nonneg strs).
  destruct (Z.eq_dec (sc + 1) Index) as [He|He].
  - assert (bytes_at m p (s ++ [0; next])) as Hc.
    { apply bytes_at_app. split; [done|]. apply bytes_at_cons. split; [done|].
      apply bytes_at_cons. split; [done|]. intros i b Hi. by rewrite lookup_nil in Hi. }
    rewrite (string_loop_copy m Index _ sc next s p 0%nat) by (done || lia).
    replace (Index - sc) with 1 by lia. unfold string_result, end_status.
    change (znth (s :: strs) (1 - 1)) with (Some s). rewrite Hd, zlen_cons, Z.add_0_l.
    unfold write_at, overwrite. rewrite Nat.sub_0_r. cbn [take app Nat.add].
    case_bool_decide as Hstr; [subst; change (1 =? zlen [] + 1) with true|
      destruct (Z.eqb_spec 1 (zlen strs + 1)); [destruct strs; [done|];
        rewrite zlen_cons in *; pose proof (zlen_nonneg strs); lia|]]; cbn iota;
      do 2 f_equal; bool_cases; (done || lia).
  - replace fuel with (length s + S (fuel - length s - 1))%nat by lia.
    rewrite string_loop_skip by (done || lia). cbn [string_loop].
    rewrite (double_null_at _ _ _ Hz Hnx), Hd. munfold.
    unfold string_result at 1. rewrite znth_cons_ne by lia. fold (string_result).
    case_bool_decide as Hstr.
    + subst. unfold znth. destruct (_ <? 0); [done|]. by rewrite lookup_nil.
    + destruct (Z.leb_spec (zlen Buffer) 0); [lia|]. rewrite (load8_ok _ _ _ Hz).
      destruct (Z.eqb_spec (sc + 1) Index); [done|]. change (0 =? NULL_TERMINATOR) with true.
      rewrite IH by (done || lia). unfold string_result.
      replace (Index - (sc + 1) - 1) with (Index - sc - 1 - 1) by lia.
      destruct (znth strs (Index - sc - 1 - 1)); [|done]. rewrite zlen_cons.
      do 2 f_equal. bool_cases; (done || lia).
Qed.

Lemma load_header m p x :
  bytes_at m p (structure_bytes x) ->
  load_field m SMBIOS_TABLE_HEADER p "Type" 1 = Ok (ty x) /\
  load_field m SMBIOS_TABLE_HEADER p "Length" 1 = Ok (structure_length x) /\
  bytes_at m (p + structure_length x) (string_section (strings x)).
Proof.
  intros Hm. unfold structure_bytes in Hm. apply bytes_at_cons in Hm as [H0 Hm].
  apply bytes_at_cons in Hm as [H1 Hm]. apply bytes_at_app in Hm as [_ Hm].
  unfold load_field. change (offsetof SMBIOS_TABLE_HEADER "Type") with 0.
  change (offsetof SMBIOS_TABLE_HEADER "Length") with 1. rewrite Z.add_0_r.
  split; [by apply load8_ok|]. split; [by apply load8_ok|].
  unfold structure_length. replace (p + (zlen (body x) + 2)) with (p + 1 + 1 + zlen (body x)) by lia.
  done.
Qed.

Lemma zlen_structure x :
  zlen (structure_bytes x) = structure_length x + zlen (string_section (strings x)).
Proof. unfold structure_bytes, structure_length. rewrite !zlen_cons, zlen_app. lia. Qed.

Lemma structure_length_pos x : 0 < structure_length x.
Proof. unfold structure_length. pose proof (zlen_nonneg (body x)). lia. Qed.

Lemma GetNext_spec m p x fuel :
  structure_ok x -> bytes_at m p (structure_bytes x) ->
  0 <= p -> p + zlen (structure_bytes x) < 2 ^ 64 ->
  (length (structure_bytes x) <= fuel)%nat ->
  GetNextSMBIOSStructureInTable fuel m p = Ok (p + zlen (structure_bytes x)).
Proof.
  intros [_ _ Hs] Hm Hp Hb Hf. destruct (load_header m p x Hm) as (_ & Hl & Hsec).
  unfold GetNextSMBIOSStructureInTable. rewrite Hl. munfold.
  pose proof (structure_length_pos x). pose proof (zlen_structure x) as Hz.
  pose proof (zlen_nonneg (string_section (strings x))).
  rewrite u64_small by lia. rewrite (next_loop_section m (strings x)); [f_equal; lia | done | done |].
  unfold zlen in *. lia.
Qed.

Lemma GetString_spec m p x Index Buffer fuel :
  structure_ok x -> bytes_at m p (structure_bytes x) ->
  0 <= p -> p + zlen (structure_bytes x) < 2 ^ 64 ->
  0 < zlen Buffer -> (length (structure_bytes x) <= fuel)%nat ->
  GetStringAtIndexFromSMBIOSTable fuel m p Index Buffer (zlen Buffer)
    = Ok (string_result (strings x) Index Buffer).
Proof.
  intros [_ _ Hs] Hm Hp Hb Hn Hf. destruct (load_header m p x Hm) as (_ & Hl & Hsec).
  unfold GetStringAtIndexFromSMBIOSTable. rewrite Hl. munfold.
  pose proof (structure_length_pos x). pose proof (zlen_structure x) as Hz.
  pose proof (zlen_nonneg (string_section (strings x))).
  rewrite u64_small by lia. destruct (strings x) as [|s strs] eqn:E.
  - apply bytes_at_cons in Hsec as [Hn0 [Hn1 _]%bytes_at_cons].
    destruct fuel as [|fuel]; [unfold zlen in *; lia|]. cbn [string_loop].
    rewrite (double_null_at _ _ _ Hn0 Hn1). munfold. unfold string_result, znth.
    destruct (_ <? 0); [done|]. by rewrite lookup_nil.
  - rewrite (string_loop_strings m Index (s :: strs)); [by rewrite Z.sub_0_r | done.. |].
    unfold string_section in Hz. rewrite zlen_app, zlen_cons, zlen_nil in Hz.
    unfold zlen in *. lia.
Qed.

(** ** The whole table *)

Definition table_bytes (xs : list structure) : list Z := xs ≫= structure_bytes.

Fixpoint first_of_type (t : Z) (xs : list structure) : option structure :=
  match xs with
  | [] => None
  | x :: xs => if ty x =? t then Some x else first_of_type t xs
  end.

Lemma find_table_spec m t inner xs : forall p fuel x,
  Forall structure_ok xs -> bytes_at m p (table_bytes xs) ->
  0 <= p -> p + zlen (table_bytes xs) < 2 ^ 64 ->
  (length (table_bytes xs) <= inner)%nat -> (length xs <= fuel)%nat ->
  first_of_type t xs = Some x ->
  exists q, find_table fuel inner m t p = Ok q /\ bytes_at m q (structure_bytes x) /\
    p <= q /\ q + zlen (structure_bytes x) <= p + zlen (table_bytes xs) /\
    structure_ok x /\ (length (structure_bytes x) <= inner)%nat.
Proof.
  induction xs as [|y xs IH]; intros p fuel x Hok Hm Hp Hb Hi Hf Hx; [done|].
  apply Forall_cons in Hok as [Hy Hok]. unfold table_bytes in *. cbn [mbind list_bind] in *.
  apply bytes_at_app in Hm as [Hmy Hm]. rewrite zlen_app in Hb |- *. rewrite length_app in Hi.
  pose proof (zlen_nonneg (structure_bytes y)).
  pose proof (zlen_nonneg (xs ≫= structure_bytes)).
  destruct fuel as [|fuel]; cbn [length] in Hf; [lia|]. cbn [find_table].
  destruct (load_header m p y Hmy) as (-> & _ & _). cbn [first_of_type] in Hx.
  cbn [mbind res_bind]. destruct (Z.eqb_spec (ty y) t) as [Ht|Ht]; cbn [negb].
  - injection Hx as <-. exists p. repeat (split; [done || lia|]). lia.
  - rewrite (GetNext_spec m p y) by (done || lia). cbn [mbind res_bind].
    destruct (IH (p + zlen (structure_bytes y)) fuel x) as (q & Hq & Hrest);
      [done | done | lia | lia | lia | lia | done |].
    exists q. split; [exact Hq|]. destruct Hrest as (? & ? & ? & ? & ?).
    repeat (split; [done || lia|]). done.
Qed.

(** ** Properties *)

(** Walking the table.  On a well-formed structure the walk to the next
    one terminates and lands exactly on the first byte after the structure's
    string section, with or without strings. *)
Theorem next_structure_is_adjacent m p x fuel :
  structure_ok x -> bytes_at m p (structure_bytes x) ->
  0 <= p -> p + zlen (structure_bytes x) < 2 ^ 64 ->
  (length (structure_bytes x) <= fuel)%nat ->
  GetNextSMBIOSStructureInTable fuel m p = Ok (p + zlen (structure_bytes x)).
Proof. apply GetNext_spec. Qed.

(** Reading a string of a structure, on every branch.  The characters of
    string [Index] are copied as far as the buffer goes, never beyond it; an
    index with no string yields [STATUS_NOT_FOUND] and leaves the buffer alone;
    a string shorter than the buffer yields success, unless it is the last
    string of the structure: that one is always reported as not found. *)
Theorem smbios_string_lookup m p x Index Buffer fuel :
  structure_ok x -> bytes_at m p (structure_bytes x) ->
  0 <= p -> p + zlen (structure_bytes x) < 2 ^ 64 ->
  0 < zlen Buffer -> (length (structure_bytes x) <= fuel)%nat ->
  exists status Buffer',
    GetStringAtIndexFromSMBIOSTable fuel m p Index Buffer (zlen Buffer)
      = Ok (status, Buffer') /\
    length Buffer' = length Buffer /\
    (znth (strings x) (Index - 1) = None ->
       status = STATUS_NOT_FOUND /\ Buffer' = Buffer) /\
    (forall s, znth (strings x) (Index - 1) = Some s ->
       Buffer' = overwrite Buffer s /\
       (NT_SUCCESS status = true <-> zlen s < zlen Buffer /\ Index <> zlen (strings x))).
Proof.
  intros Hok Hm Hp Hb Hn Hf. rewrite (GetString_spec m p x) by done. unfold string_result.
  destruct (znth (strings x) (Index - 1)) as [s|].
  - eexists _, _. split; [done|]. split; [|split; [done|]].
    + unfold overwrite. rewrite length_app, length_take, length_drop. lia.
    + intros s' [= <-]. split; [done|].
      destruct (Z.eqb_spec Index (zlen (strings x))),
        (Z.leb_spec (zlen s) (zlen Buffer)), (Z.ltb_spec (zlen s) (zlen Buffer));
        cbn; split; intros; try done; lia.
  - eexists _, _. split; [done|]. done.
Qed.

(** The table found through its first structure of a type. *)
Lemma ParseSMBIOSTable_spec {F : Firmware} xs x TableIndex Index Buffer fuel :
  required_size <> 0 -> 0 < firmware_buffer -> NT_SUCCESS second_call = true ->
  Forall structure_ok xs ->
  bytes_at firmware_memory (firmware_buffer + 8) (table_bytes xs) ->
  firmware_buffer + 8 + zlen (table_bytes xs) < 2 ^ 64 -> 0 < zlen Buffer ->
  first_of_type (table_type TableIndex) xs = Some x ->
  (length (table_bytes xs) <= fuel)%nat -> (length xs <= fuel)%nat ->
  ParseSMBIOSTable fuel Buffer (zlen Buffer) TableIndex Index
    = Ok (string_result (strings x) Index Buffer, [firmware_buffer]).
Proof.
  intros Hr Hfb Hsc Hok Hm Hb Hn Hx Hf Hf2. unfold ParseSMBIOSTable.
  destruct (Z.eqb_spec required_size 0); [done|].
  destruct (Z.eqb_spec firmware_buffer 0); [lia|]. rewrite Hsc. cbn [negb].
  change (offsetof RAW_SMBIOS_DATA "SMBIOSTableData") with 8.
  destruct (find_table_spec firmware_memory (table_type TableIndex) fuel xs
    (firmware_buffer + 8) fuel x) as (q & -> & Hmq & Hpq & Hqb & Hxo & Hlx); [done || lia..|].
  cbn [mbind res_bind]. rewrite (GetString_spec _ q x) by (done || lia).
  cbn [mbind res_bind]. by destruct (string_result _ _ _).
Qed.

(** Reading a serial number end to end.  If the firmware returns a
    well-formed table that contains a structure of the wanted type, parsing it
    terminates without leaving the table, answers for the first structure of
    that type, and frees the firmware buffer. *)
Theorem parse_smbios_reads_first_structure {F : Firmware} xs x TableIndex Index Buffer fuel :
  required_size <> 0 -> 0 < firmware_buffer -> NT_SUCCESS second_call = true ->
  Forall structure_ok xs ->
  bytes_at firmware_memory (firmware_buffer + 8) (table_bytes xs) ->
  firmware_buffer + 8 + zlen (table_bytes xs) < 2 ^ 64 -> 0 < zlen Buffer ->
  first_of_type (table_type TableIndex) xs = Some x ->
  (length (table_bytes xs) <= fuel)%nat -> (length xs <= fuel)%nat ->
  ParseSMBIOSTable fuel Buffer (zlen Buffer) TableIndex Index
    = Ok (string_result (strings x) Index Buffer, [firmware_buffer]).
Proof. exact (ParseSMBIOSTable_spec xs x TableIndex Index Buffer fuel). Qed.

(** The walk has no end-of-table test: without a structure of the wanted type
    it leaves the table. *)
Lemma find_table_overruns m t inner : forall xs p fuel,
  Forall structure_ok xs -> bytes_at m p (table_bytes xs) ->
  0 <= p -> p + zlen (table_bytes xs) < 2 ^ 64 ->
  (length (table_bytes xs) <= inner)%nat -> (length xs < fuel)%nat ->
  first_of_type t xs = None -> m (p + zlen (table_bytes xs)) = None ->
  find_table fuel inner m t p = Crash UnmappedRead.
Proof.
  induction xs as [|y xs IH]; intros p fuel Hok Hm Hp Hb Hi Hf Hx Hend;
    (destruct fuel as [|fuel]; cbn [length] in Hf; [lia|]); cbn [find_table].
  - unfold load_field. change (offsetof SMBIOS_TABLE_HEADER "Type") with 0.
    change (zlen (table_bytes [])) with 0 in Hend. cbn [load]. by rewrite Hend.
  - apply Forall_cons in Hok as [Hy Hok]. unfold table_bytes in *. cbn [mbind list_bind] in *.
    apply bytes_at_app in Hm as [Hmy Hm]. rewrite zlen_app in Hb, Hend. rewrite length_app in Hi.
    pose proof (zlen_nonneg (structure_bytes y)).
    pose proof (zlen_nonneg (xs ≫= structure_bytes)).
    destruct (load_header m p y Hmy) as (-> & _ & _). cbn [first_of_type] in Hx.
    cbn [mbind res_bind]. destruct (Z.eqb_spec (ty y) t) as [Ht|Ht]; [done|]. cbn [negb].
    rewrite (GetNext_spec m p y) by (done || lia). cbn [mbind res_bind].
    apply IH; try done; try lia. by rewrite <- Z.add_assoc.
Qed.

(** ** Witnesses *)

Definition sample_baseboard : structure := Structure 2 [0; 0; 1; 2; 3] [[65; 66]; [67]; [68; 69; 70]].
Definition sample_bios : structure := Structure 0 [0; 0] [].

Lemma bytes_at_mem_of base bs : bytes_at (mem_of base bs) base bs.
Proof.
  intros i b Hi. unfold mem_of. replace (base + Z.of_nat i - base) with (Z.of_nat i) by lia.
  by rewrite znth_of_nat.
Qed.

Lemma sample_structures_ok : structure_ok sample_baseboard /\ structure_ok sample_bios.
Proof.
  split; split; cbn; try lia; try done.
  repeat constructor; done.
Qed.

Lemma next_structure_is_adjacent_witness :
  GetNextSMBIOSStructureInTable 20 (mem_of 4096 (structure_bytes sample_baseboard)) 4096
    = Ok (4096 + zlen (structure_bytes sample_baseboard)).
Proof.
  apply (next_structure_is_adjacent _ 4096 sample_baseboard 20).
  - exact (proj1 sample_structures_ok).
  - exact (bytes_at_mem_of 4096 (structure_bytes sample_baseboard)).
  - lia.
  - vm_compute. reflexivity.
  - vm_compute. lia.
Defined.

Lemma smbios_string_lookup_witness :
  exists status Buffer', GetStringAtIndexFromSMBIOSTable 20
      (mem_of 4096 (structure_bytes sample_baseboard)) 4096 2 [9; 9; 9] 3
    = Ok (status, Buffer') /\ NT_SUCCESS status = true /\ Buffer' = [67; 9; 9].
Proof.
  destruct (smbios_string_lookup (mem_of 4096 (structure_bytes sample_baseboard)) 4096
    sample_baseboard 2 [9; 9; 9] 20) as (status & B & H & _ & _ & Hs).
  - exact (proj1 sample_structures_ok).
  - exact (bytes_at_mem_of 4096 (structure_bytes sample_baseboard)).
  - lia.
  - vm_compute. reflexivity.
  - vm_compute. reflexivity.
  - vm_compute. lia.
  - exists status, B. split; [exact H|]. destruct (Hs [67] eq_refl) as [HB Hst].
    split; [apply Hst; vm_compute; split; [reflexivity | discriminate] | exact HB].
Defined.

#[local] Instance sample_firmware : Firmware := {
  required_size := 64;
  firmware_buffer := 4096;
  second_call := STATUS_SUCCESS;
  firmware_memory := mem_of 4104 (table_bytes [sample_bios; sample_baseboard]);
}.

Lemma parse_smbios_reads_first_structure_witness :
  ParseSMBIOSTable 40 [9; 9; 9] 3 VendorSpecificInformation 1
    = Ok (STATUS_SUCCESS, [65; 66; 9], [4096]).
Proof.
  change 3 with (zlen [9; 9; 9]).
  rewrite (parse_smbios_reads_first_structure [sample_bios; sample_baseboard] sample_baseboard
    VendorSpecificInformation 1 [9; 9; 9] 40).
  - vm_compute. reflexivity.
  - discriminate.
  - reflexivity.
  - reflexivity.
  - apply List.Forall_cons; [apply sample_structures_ok|].
    apply List.Forall_cons; [apply sample_structures_ok | constructor].
  - exact (bytes_at_mem_of 4104 (table_bytes [sample_bios; sample_baseboard])).
  - vm_compute. reflexivity.
  - vm_compute. reflexivity.
  - reflexivity.
  - vm_compute. lia.
  - cbn. lia.
Defined.
