(* ===== verification/Kernel.v ===== *)
(** * The services the integrity checks share

    The checks of modules.c, thread.c and integrity.c acquire kernel resources
    (pool blocks, handles, object references, push locks, callback
    registrations, memory descriptor lists, work items, timers, cryptographic
    objects, strings, views, attachments to processes), give them back, and hand
    reports to [IrpQueueCompleteIrp].  A state records which resources are held, as a
    multiset, and which reports have been sent; giving back what is not held
    is a bug check.  "Every path gives back what it took" is then the equality
    of two multisets, and "what is reported" is the equality of two lists. *)

From stdpp Require Import gmultiset.
From S2P Require Import Prelude Layout Irp Structs.

(** ** Resources *)

Inductive resource :=
  | Block (address tag : Z)
  | OpenHandle (handle : Z)
  | Reference (object : Z)
  | PushLock (object : Z)
  | NmiRegistration (handle : Z)
  | Mdl (address : Z)
  | WorkItem (address : Z)
  | UserMapping (address : Z)
  | ActiveTimer (timer : Z)
  | AlgorithmProvider (handle : Z)
  | HashHandle (handle : Z)
  | StringBuffer (address : Z)
  | SectionView (address : Z)
  | AttachedProcess (process : Z).

#[export] Instance resource_eq_dec : EqDecision resource.
Proof. solve_decision. Defined.

#[export] Instance resource_countable : Countable resource.
Proof.
  refine (inj_countable'
    (fun r => match r with
              | Block a t => (0, a, t)
              | OpenHandle h => (1, h, 0)
              | Reference o => (2, o, 0)
              | PushLock o => (3, o, 0)
              | NmiRegistration h => (4, h, 0)
              | Mdl a => (5, a, 0)
              | WorkItem a => (6, a, 0)
              | UserMapping a => (7, a, 0)
              | ActiveTimer t => (8, t, 0)
              | AlgorithmProvider h => (9, h, 0)
              | HashHandle h => (10, h, 0)
              | StringBuffer a => (11, a, 0)
              | SectionView a => (12, a, 0)
              | AttachedProcess p => (13, p, 0)
              end)
    (fun '(k, a, t) => match k with
                       | 0 => Block a t
                       | 1 => OpenHandle a
                       | 2 => Reference a
                       | 3 => PushLock a
                       | 4 => NmiRegistration a
                       | 5 => Mdl a
                       | 6 => WorkItem a
                       | 7 => UserMapping a
                       | 8 => ActiveTimer a
                       | 9 => AlgorithmProvider a
                       | 10 => HashHandle a
                       | 11 => StringBuffer a
                       | 12 => SectionView a
                       | _ => AttachedProcess a
                       end) _).
  by intros [].
Defined.

(** ** Reports

    One constructor per report structure of types/types.h the checks fill in,
    with the fields they set; a field the code leaves alone keeps the zero
    [ExAllocatePool2] fills the block with. *)
Inductive report :=
  | NmiCallbackFailure (report_code were_nmis_disabled kthread_address invalid_rip : Z)
  | HiddenSystemThread (report_code found_in_kthreadlist found_in_pspcidtable
                        thread_address thread_id : Z) (thread : list Z)
  | DpcStackwalk (report_code kthread_address invalid_rip : Z)
  | ApcStackwalk (report_code kthread_address invalid_rip : Z)
  | DataTableRoutine (report_code id address : Z) (routine : list Z)
  | OpenHandleFailure (report_code is_kernel_handle process_id thread_id access : Z)
                      (process_name : list Z)
  | AttachProcess (report_code thread_id thread_address : Z)
  | ModuleValidationFailure (report_code report_type driver_base_address driver_size : Z)
                            (driver_name : list Z)
  | InvalidProcessModule (report_code image_base image_size : Z) (module_path : list Z)
  | InvalidProcessAllocation (report_code : Z) (process : list Z).

#[export] Instance report_eq_dec : EqDecision report.
Proof. solve_decision. Defined.

(** ** State

    [nmi_status] is the field of the driver configuration; [sent] holds the
    reports given to [IrpQueueCompleteIrp] with the size passed, oldest
    first. *)
Record kernel := Kernel {
  held : gmultiset resource;
  next_block : Z;
  pool_requests : nat;
  sent : list (report * Z);
  nmi_status : Z;
}.

Definition set_held (h : gmultiset resource) (s : kernel) : kernel :=
  Kernel h (next_block s) (pool_requests s) (sent s) (nmi_status s).
Definition set_sent (l : list (report * Z)) (s : kernel) : kernel :=
  Kernel (held s) (next_block s) (pool_requests s) l (nmi_status s).
Definition set_nmi_status (n : Z) (s : kernel) : kernel :=
  Kernel (held s) (next_block s) (pool_requests s) (sent s) n.

(** The status [IrpQueueCompleteIrp] returns for the [n]-th report. *)
Class ReportSink := sink_status : nat -> NTSTATUS.

Definition POOL_TAG_INTEGRITY : Z := 0x696e7467.

(** ** Primitives *)

Definition acquire (r : resource) : KM kernel unit :=
  modify (fun s => set_held (held s ⊎ {[+ r +]}) s).

Definition release (r : resource) : KM kernel unit := fun s =>
  if decide (r ∈ held s) then Ok (tt, set_held (held s ∖ {[+ r +]}) s) else Crash BadFree.

(** [ExAllocatePool2]: the address of a new zeroed block, or 0. *)
Definition ExAllocatePool2 {P : Pool} (NumberOfBytes Tag : Z) : KM kernel Z := fun s =>
  if pool_grants (pool_requests s) then
    Ok (next_block s,
        Kernel (held s ⊎ {[+ Block (next_block s) Tag +]})
          (next_block s + Z.max 16 NumberOfBytes) (S (pool_requests s)) (sent s)
          (nmi_status s))
  else Ok (0, Kernel (held s) (next_block s) (S (pool_requests s)) (sent s) (nmi_status s)).

Definition ExFreePoolWithTag (p Tag : Z) : KM kernel unit := release (Block p Tag).

(** A store through a pointer [ExAllocatePool2] returned. *)
Definition deref_block (p : Z) : KM kernel unit :=
  if p =? 0 then crash NullDereference else mret tt.

(** [IrpQueueCompleteIrp] owns the buffer from the call on, whatever it
    returns (see [complete_irp_buffer_ownership] of IrpQueue.v). *)
Definition send_report {K : ReportSink} (p Tag : Z) (r : report) (size : Z)
  : KM kernel NTSTATUS :=
  release (Block p Tag) ≫= fun _ =>
  n ← gets (fun s => length (sent s));
  modify (fun s => set_sent (sent s ++ [(r, size)]) s) ≫= fun _ =>
  mret (sink_status n).

(** [RtlCopyMemory] out of foreign memory. *)
Fixpoint read_bytes (m : memory) (a : Z) (n : nat) : res (list Z) :=
  match n with
  | O => Ok []
  | S n =>
      match m a with
      | None => Crash UnmappedRead
      | Some b => bs ← read_bytes m (a + 1) n; Ok (b :: bs)
      end
  end.

Definition lift {S A} (r : res A) : KM S A := fun s =>
  match r with Ok a => Ok (a, s) | Crash f => Crash f end.

(** The shape of the reporting routines: allocate, give up without a block,
    fill in the report, send it.  [r] is what the stores compute. *)
Definition complete_report {P : Pool} {K : ReportSink} (size Tag : Z) (r : res report)
  : KM kernel unit :=
  p ← ExAllocatePool2 size Tag;
  if p =? 0 then mret tt
  else
    r ← lift r;
    _ ← send_report p Tag r size;
    mret tt.

(** The addresses [a] to [a + n - 1] can be read. *)
Definition readable (m : memory) (a : Z) (n : nat) : Prop :=
  forall i, 0 <= i < Z.of_nat n -> is_Some (m (a + i)).

(** ** Lemmas *)

(** The pool gives out addresses that are not zero. *)
Definition kernel_wf (s : kernel) : Prop := 0 < next_block s.

Lemma read_bytes_readable m a n :
  readable m a n -> exists bs, read_bytes m a n = Ok bs /\ length bs = n.
Proof.
  revert a. induction n as [|n IH]; intros a H; cbn; [by exists []|].
  destruct (H 0) as [b Hb]; [lia|]. rewrite Z.add_0_r in Hb. rewrite Hb.
  destruct (IH (a + 1)) as (bs & -> & Hl).
  { intros i Hi. replace (a + 1 + i) with (a + (1 + i)) by lia. apply H. lia. }
  exists (b :: bs). cbn. by rewrite Hl.
Qed.

Lemma release_spec s r :
  r ∈ held s -> release r s = Ok (tt, set_held (held s ∖ {[+ r +]}) s).
Proof. intros. unfold release. by rewrite decide_True. Qed.

Lemma lift_step {S A B} (a : A) (k : A -> KM S B) s : (lift (Ok a) ≫= k) s = k a s.
Proof. done. Qed.

(** Freeing the block just added. *)
Lemma release_last s h r :
  held s = h ⊎ {[+ r +]} -> release r s = Ok (tt, set_held h s).
Proof.
  intros H. rewrite release_spec by (rewrite H; multiset_solver).
  repeat f_equal. rewrite H. multiset_solver.
Qed.

(** Whether a report is sent depends only on the pool. *)
Definition reported {P : Pool} (s : kernel) (size : Z) (r : report) : kernel :=
  if pool_grants (pool_requests s) then
    Kernel (held s) (next_block s + Z.max 16 size) (S (pool_requests s))
      (sent s ++ [(r, size)]) (nmi_status s)
  else Kernel (held s) (next_block s) (S (pool_requests s)) (sent s) (nmi_status s).

Lemma reported_wf {P : Pool} s size r :
  kernel_wf s -> 0 <= size -> kernel_wf (reported s size r).
Proof. unfold kernel_wf, reported. intros. case_match; cbn; lia. Qed.

Lemma reported_held {P : Pool} s size r : held (reported s size r) = held s.
Proof. unfold reported. by case_match. Qed.

Lemma reported_nmi {P : Pool} s size r :
  nmi_status (reported s size r) = nmi_status s.
Proof. unfold reported. by case_match. Qed.

Lemma reported_sent {P : Pool} s size r :
  pool_grants (pool_requests s) = true ->
  sent (reported s size r) = sent s ++ [(r, size)].
Proof. unfold reported. by intros ->. Qed.

Lemma complete_report_spec {P : Pool} {K : ReportSink} s size Tag r :
  kernel_wf s -> complete_report size Tag (Ok r) s = Ok (tt, reported s size r).
Proof.
  intros Hwf. unfold complete_report, ExAllocatePool2, reported. munfold.
  destruct (pool_grants (pool_requests s)); [|done].
  destruct (Z.eqb_spec (next_block s) 0); [unfold kernel_wf in Hwf; lia|].
  unfold lift, send_report. munfold.
  by rewrite (release_last _ (held s)).
Qed.

(** The same with the status kept. *)
Lemma alloc_and_send {P : Pool} {K : ReportSink} s size Tag r :
  kernel_wf s -> pool_grants (pool_requests s) = true ->
  exists p s1, ExAllocatePool2 size Tag s = Ok (p, s1) /\ p <> 0 /\
    send_report p Tag r size s1 = Ok (sink_status (length (sent s)), reported s size r).
Proof.
  intros Hwf Hg. unfold ExAllocatePool2, reported. rewrite Hg. eexists _, _. split; [done|].
  split; [unfold kernel_wf in Hwf; lia|]. unfold send_report. munfold.
  by rewrite (release_last _ (held s)).
Qed.

(** What an allocation does to the state. *)
Lemma alloc_spec {P : Pool} s size Tag :
  kernel_wf s ->
  exists p s', ExAllocatePool2 size Tag s = Ok (p, s') /\ kernel_wf s' /\
    sent s' = sent s /\ nmi_status s' = nmi_status s /\
    pool_requests s' = S (pool_requests s) /\
    if pool_grants (pool_requests s)
    then 0 < p /\ held s' = held s ⊎ {[+ Block p Tag +]}
    else p = 0 /\ held s' = held s.
Proof.
  unfold kernel_wf, ExAllocatePool2. intros Hwf.
  destruct (pool_grants (pool_requests s)); eexists _, _; cbn; split_and!; try done; cbn; lia.
Qed.

#[export] Hint Resolve reported_wf : driver.
Create Rewrite HintDb kernel.
#[export] Hint Rewrite @reported_held @reported_nmi : kernel.
