(* ===== verification/Modules.v ===== *)
(** * modules.c: the module list, region checks and the HAL dispatch tables

    The integrity checks ask one question of addresses they find in dispatch
    tables, stacks and interrupt frames: does the address lie inside a loaded
    module?  This file models the module list, that question, and the check of
    the two HAL dispatch tables. *)

From stdpp Require Import gmultiset.
From S2P Require Import Prelude Layout Irp Structs Kernel.

(** ** Data *)

(** The fields of [RTL_MODULE_EXTENDED_INFO] the driver reads; the path is the
    zero-terminated string in the array. *)
Record RTL_MODULE_EXTENDED_INFO := ModuleInfo {
  ImageBase : Z;
  ImageSize : Z;
  FullPathName : string;
}.

(** [modules] are the [module_count] entries at [address]. *)
Record SYSTEM_MODULES := SystemModules {
  address : Z;
  modules : list RTL_MODULE_EXTENDED_INFO;
}.

Definition no_modules : SYSTEM_MODULES := SystemModules 0 [].

Definition SYSTEM_MODULES_POOL : Z := 0x68616c62.
Definition REPORT_POOL_TAG : Z := 0x7265706f.

(** What the checks ask of Windows: the two calls of
    [RtlQueryModuleInformation] (the size, then size and entries), exported
    routines by name, the version, and readable memory. *)
Class SystemApi := {
  query_module_size : NTSTATUS * Z;
  query_modules : NTSTATUS * Z * list RTL_MODULE_EXTENDED_INFO;
  MmGetSystemRoutineAddress : string -> Z;
  RtlGetVersion : NTSTATUS * Z;
  hal_routine : string -> Z;
  system_memory : memory;
}.

(** ** Region checks *)

Definition FindSystemModuleByName (ModuleName : option string)
  (SystemModules : option SYSTEM_MODULES) : option RTL_MODULE_EXTENDED_INFO :=
  match ModuleName, SystemModules with
  | Some name, Some m =>
      (fix go (l : list RTL_MODULE_EXTENDED_INFO) :=
         match l with
         | [] => None
         | info :: l => if strstr (FullPathName info) name then Some info else go l
         end) (modules m)
  | _, _ => None
  end.

Definition IsInstructionPointerInsideModule (Rip : Z) (Module : RTL_MODULE_EXTENDED_INFO)
  : NTSTATUS * bool :=
  let base := ImageBase Module in
  let end_ := u64 (base + ImageSize Module) in
  if (base <=? Rip) && (Rip <=? end_) then (STATUS_SUCCESS, true)
  else (STATUS_SUCCESS, false).

(** [Result] is [None] for a null pointer, otherwise the pointed-to flag. *)
Definition IsInstructionPointerInInvalidRegion (RIP : Z)
  (SystemModules : option SYSTEM_MODULES) (Result : option bool) : NTSTATUS * option bool :=
  match SystemModules, Result with
  | Some m, Some _ =>
      if RIP =? 0 then (STATUS_INVALID_PARAMETER, Result)
      else
        (fix go (l : list RTL_MODULE_EXTENDED_INFO) :=
           match l with
           | [] => (STATUS_SUCCESS, Some false)
           | info :: l =>
               let base := ImageBase info in
               let end_ := u64 (base + ImageSize info) in
               if (base <=? RIP) && (RIP <=? end_) then (STATUS_SUCCESS, Some true)
               else go l
           end) (modules m)
  | _, _ => (STATUS_INVALID_PARAMETER, Result)
  end.

(** The call all checks make: [&flag] with a local [flag]. *)
Definition region_check (rip : Z) (m : SYSTEM_MODULES) (flag : bool) : NTSTATUS * bool :=
  let '(status, result) := IsInstructionPointerInInvalidRegion rip (Some m) (Some flag) in
  (status, default flag result).

(** ** The module list *)

Section operations.
Context {P : Pool} {K : ReportSink} {A : SystemApi}.
Abbreviation M := (KM kernel).

Definition GetSystemModuleInformation (ModuleInformation : option SYSTEM_MODULES)
  : M (NTSTATUS * option SYSTEM_MODULES) :=
  match ModuleInformation with
  | None => mret (STATUS_INVALID_PARAMETER, None)
  | Some _ =>
      let '(status, size) := query_module_size in
      if negb (NT_SUCCESS status) then mret (status, ModuleInformation)
      else
        driver_information ← ExAllocatePool2 size SYSTEM_MODULES_POOL;
        if driver_information =? 0 then mret (STATUS_MEMORY_NOT_ALLOCATED, ModuleInformation)
        else
          let '(status, size, entries) := query_modules in
          if negb (NT_SUCCESS status) then
            ExFreePoolWithTag driver_information SYSTEM_MODULES_POOL ≫= fun _ =>
            mret (STATUS_ABANDONED, ModuleInformation)
          else
            let module_count := size / sizeof Structs.RTL_MODULE_EXTENDED_INFO in
            mret (status, Some (SystemModules driver_information
                                  (take (Z.to_nat module_count) entries)))
  end.

(** ** The HAL dispatch tables *)

Definition TABLE_ID_HalDispatch : Z := 0.
Definition TABLE_ID_HalPrivateDispatch : Z := 1.

(** The loop over the entries of a table at [Base]; [Routine] is the pointer
    written through. *)
Fixpoint table_loop (Base : Z) (indices : list Z) (Modules : SYSTEM_MODULES)
  (status : NTSTATUS) (flag : bool) (Routine : Z) : res (NTSTATUS * Z) :=
  match indices with
  | [] => Ok (status, Routine)
  | index :: indices =>
      entry ← load64 system_memory (Base + 8 * index);
      if entry =? 0 then table_loop Base indices Modules status flag Routine
      else
        let '(status, flag) := region_check entry Modules flag in
        if negb (NT_SUCCESS status) then table_loop Base indices Modules status flag Routine
        else table_loop Base indices Modules status flag (if negb flag then entry else Routine)
  end.

Definition ValidateTableDispatchRoutines (Base Entries : Z) (Modules : SYSTEM_MODULES)
  (Routine : Z) : res (NTSTATUS * Z) :=
  table_loop Base (iota 0 (Z.to_nat Entries)) Modules STATUS_UNSUCCESSFUL false Routine.

Definition HAL_PRIVATE_DISPATCH_W11_22H2_SIZE : Z := 0x4f0.
Definition HAL_PRIVATE_DISPATCH_W10_22H2_SIZE : Z := 0x4b0.
Definition WINDOWS_10_MAX_BUILD_NUMBER : Z := 19045.

Definition GetHalPrivateDispatchTableRoutineCount (dwBuildNumber : Z) : Z :=
  if dwBuildNumber <=? WINDOWS_10_MAX_BUILD_NUMBER
  then HAL_PRIVATE_DISPATCH_W10_22H2_SIZE / 8 - 1
  else HAL_PRIVATE_DISPATCH_W11_22H2_SIZE / 8 - 1.

(** [GetOsVersionInformation], reduced to the build number its callers use. *)
Definition GetOsVersionInformation : NTSTATUS * Z :=
  let '(status, build) := RtlGetVersion in
  if negb (NT_SUCCESS status) then (status, 0) else (status, build).

Definition ValidateHalPrivateDispatchTable (Routine : Z) (Modules : SYSTEM_MODULES)
  : res (NTSTATUS * Z) :=
  let table := MmGetSystemRoutineAddress "HalPrivateDispatchTable" in
  if table =? 0 then Ok (STATUS_UNSUCCESSFUL, Routine)
  else
    let '(status, build) := GetOsVersionInformation in
    if negb (NT_SUCCESS status) then Ok (status, Routine)
    else
      let base := u64 (table + 8) in
      let count := GetHalPrivateDispatchTableRoutineCount build in
      ValidateTableDispatchRoutines base count Modules Routine.

(** The routines of the table, in the order the code tests them. *)
Definition HalDispatchTable : list string :=
  ["HalQuerySystemInformation"; "HalSetSystemInformation"; "HalQueryBusSlots";
   "HalReferenceHandlerForBus"; "HalReferenceBusHandler"; "HalDereferenceBusHandler";
   "HalInitPnpDriver"; "HalInitPowerManagement"; "HalGetDmaAdapter";
   "HalGetInterruptTranslator"; "HalStartMirroring"; "HalEndMirroring";
   "HalMirrorPhysicalMemory"; "HalEndOfBoot"; "HalMirrorVerify";
   "HalGetCachedAcpiTable"; "HalSetPciErrorHandlerCallback"; "HalGetPrmCache"]%string.

(** One block per routine: go on only while routines are outside modules. *)
Fixpoint hal_blocks (routines : list string) (Modules : SYSTEM_MODULES)
  (status : NTSTATUS) (flag : bool) (Routine : Z) : NTSTATUS * Z :=
  match routines with
  | [] => (status, Routine)
  | routine :: routines =>
      let '(status, flag) := region_check (hal_routine routine) Modules flag in
      if negb flag && NT_SUCCESS status
      then hal_blocks routines Modules status flag (hal_routine routine)
      else (status, Routine)
  end.

Definition ValidateHalDispatchTable (Modules : SYSTEM_MODULES) : NTSTATUS * Z :=
  hal_blocks HalDispatchTable Modules STATUS_UNSUCCESSFUL false 0.

(** The second store to [id] replaces the table's identifier and
    [report_code] is never set. *)
Definition ReportDataTableInvalidRoutine (TableId Address : Z) : M unit :=
  complete_report (sizeof DATA_TABLE_ROUTINE_REPORT) REPORT_POOL_TAG
    (routine ← read_bytes system_memory Address (Z.to_nat DATA_TABLE_ROUTINE_BUF_SIZE);
     Ok (DataTableRoutine 0 REPORT_DATA_TABLE_ROUTINE Address routine)).

Definition free_module_list (m : SYSTEM_MODULES) : M unit :=
  if address m =? 0 then mret tt else ExFreePoolWithTag (address m) SYSTEM_MODULES_POOL.

(** The two checks, up to the label [end]. *)
Definition hal_checks (modules : SYSTEM_MODULES) : M NTSTATUS :=
  let '(status, routine1) := ValidateHalDispatchTable modules in
  if negb (NT_SUCCESS status) then mret status
  else
    when (negb (routine1 =? 0))
      (ReportDataTableInvalidRoutine TABLE_ID_HalDispatch routine1) ≫= fun _ =>
    '(status, routine2) ← lift (ValidateHalPrivateDispatchTable 0 modules);
    if negb (NT_SUCCESS status) then mret status
    else
      when (negb (routine2 =? 0))
        (ReportDataTableInvalidRoutine TABLE_ID_HalPrivateDispatch routine2) ≫= fun _ =>
      mret status.

Definition ValidateHalDispatchTables : M NTSTATUS :=
  '(status, m) ← GetSystemModuleInformation (Some no_modules);
  let modules := default no_modules m in
  if negb (NT_SUCCESS status) then mret status
  else
    status ← hal_checks modules;
    free_module_list modules ≫= fun _ =>
    mret status.

End operations.

(** ** Specification *)

(** The image lies in the address space. *)
Definition module_wf (info : RTL_MODULE_EXTENDED_INFO) : Prop :=
  0 <= ImageBase info /\ 0 <= ImageSize info /\ ImageBase info + ImageSize info < 2 ^ 64.

Definition modules_wf (m : SYSTEM_MODULES) : Prop := Forall module_wf (modules m).

(** [a] is an address of the image or the one just past it. *)
Definition covers (info : RTL_MODULE_EXTENDED_INFO) (a : Z) : bool :=
  (ImageBase info <=? a) && (a <=? ImageBase info + ImageSize info).

Definition inside (m : SYSTEM_MODULES) (a : Z) : bool := existsb (fun i => covers i a) (modules m).

(** The longest prefix outside all modules. *)
Fixpoint leading_outside (m : SYSTEM_MODULES) (l : list Z) : list Z :=
  match l with
  | [] => []
  | a :: l => if inside m a then [] else a :: leading_outside m l
  end.

(** The entries of a table no module accounts for. *)
Definition hooked (m : SYSTEM_MODULES) (entries : list Z) : list Z :=
  filter (fun e => e <> 0 /\ inside m e = false) entries.

Definition table_at (mem : memory) (base : Z) (entries : list Z) : Prop :=
  forall i e, entries !! i = Some e -> load64 mem (base + 8 * Z.of_nat i) = Ok e.

(** ** Lemmas *)

Lemma inside_spec m a :
  inside m a = true <->
  exists info, info ∈ modules m /\ ImageBase info <= a <= ImageBase info + ImageSize info.
Proof.
  unfold inside, covers. rewrite existsb_exists. split.
  - intros (i & Hi & H). apply andb_prop in H as [H1 H2]. exists i.
    apply list_elem_of_In in Hi. split; [done|lia].
  - intros (i & Hi & H). exists i. split; [by apply list_elem_of_In|].
    apply andb_true_intro. lia.
Qed.

Lemma covers_u64 info rip :
  module_wf info ->
  (ImageBase info <=? rip) && (rip <=? u64 (ImageBase info + ImageSize info)) = covers info rip.
Proof. intros (? & ? & ?). unfold covers. by rewrite u64_small by lia. Qed.

Lemma region_check_spec m rip flag :
  modules_wf m ->
  region_check rip m flag =
  if rip =? 0 then (STATUS_INVALID_PARAMETER, flag) else (STATUS_SUCCESS, inside m rip).
Proof.
  intros Hwf. unfold region_check, IsInstructionPointerInInvalidRegion, inside.
  destruct (Z.eqb_spec rip 0); [done|]. unfold modules_wf in Hwf.
  induction Hwf as [|info l Hi Hl IH]; [done|]. cbn [existsb].
  rewrite covers_u64 by done. by destruct (covers info rip).
Qed.

Lemma FindSystemModuleByName_spec name m :
  FindSystemModuleByName (Some name) (Some m)
  = head (filter (fun i => strstr (FullPathName i) name = true) (modules m)).
Proof.
  unfold FindSystemModuleByName.
  induction (modules m) as [|i l IH]; [done|]. rewrite filter_cons.
  destruct (strstr (FullPathName i) name) eqn:E.
  - by rewrite decide_True.
  - rewrite decide_False by congruence. exact IH.
Qed.

Section lemmas.
Context {P : Pool} {K : ReportSink} {A : SystemApi}.

Lemma table_at_cons base e l :
  table_at system_memory base (e :: l) ->
  load64 system_memory base = Ok e /\ table_at system_memory (base + 8) l.
Proof.
  intros H. split.
  - specialize (H 0%nat e eq_refl). by replace (base + 8 * Z.of_nat 0) with base in H by lia.
  - intros i x Hi. specialize (H (S i) x Hi).
    by replace (base + 8 + 8 * Z.of_nat i) with (base + 8 * Z.of_nat (S i)) by lia.
Qed.

Lemma table_loop_spec m entries : forall base lo status flag r,
  modules_wf m -> table_at system_memory (base + 8 * lo) entries ->
  table_loop base (iota lo (length entries)) m status flag r
  = Ok (if forallb (fun e => e =? 0) entries then status else STATUS_SUCCESS,
        default r (last (hooked m entries))).
Proof.
  induction entries as [|e l IH]; intros base lo status flag r Hwf Ht; [done|].
  cbn [length]. rewrite iota_S. cbn [table_loop forallb].
  apply table_at_cons in Ht as [-> Ht]. cbn [mbind res_bind].
  replace (base + 8 * lo + 8) with (base + 8 * (lo + 1)) in Ht by lia.
  unfold hooked. rewrite filter_cons. fold (hooked m l).
  destruct (Z.eqb_spec e 0) as [->|He].
  { rewrite decide_False by tauto. cbn [andb]. by rewrite IH. }
  rewrite region_check_spec by done. destruct (Z.eqb_spec e 0); [done|].
  change (NT_SUCCESS STATUS_SUCCESS) with true. cbn [andb negb]. rewrite IH by done.
  replace (if forallb (fun e0 => e0 =? 0) l then STATUS_SUCCESS else STATUS_SUCCESS)
    with STATUS_SUCCESS by (by destruct (forallb _ l)).
  destruct (inside m e) eqn:Ei.
  - rewrite decide_False by (intros [_ [=]]). done.
  - rewrite decide_True by done. rewrite last_cons. cbn [negb].
    by destruct (last (hooked m l)).
Qed.

Lemma hal_blocks_spec m names : forall status flag r,
  modules_wf m -> Forall (fun n => hal_routine n <> 0) names ->
  hal_blocks names m status flag r
  = (match names with [] => status | _ => STATUS_SUCCESS end,
     default r (last (leading_outside m (hal_routine <$> names)))).
Proof.
  induction names as [|n names IH]; intros status flag r Hwf Hn; [done|].
  apply Forall_cons in Hn as [Hz Hn]. cbn [hal_blocks fmap list_fmap leading_outside].
  rewrite region_check_spec by done. destruct (Z.eqb_spec (hal_routine n) 0); [done|].
  destruct (inside m (hal_routine n)); cbn [negb andb]; [done|].
  change (NT_SUCCESS STATUS_SUCCESS) with true. cbn iota. rewrite IH by done.
  rewrite last_cons. destruct (last _); destruct names; done.
Qed.

(** The module list the query returns, at any address. *)
Definition loaded_modules : SYSTEM_MODULES :=
  SystemModules 0
    (take (Z.to_nat (query_modules.1.2 / sizeof Structs.RTL_MODULE_EXTENDED_INFO))
       query_modules.2).

(** The outcomes of [GetSystemModuleInformation]. *)
Definition module_query_outcome (s s' : kernel) (status : NTSTATUS) (m : SYSTEM_MODULES)
  : Prop :=
  (NT_SUCCESS status = false /\ m = no_modules /\ held s' = held s) \/
  (status = STATUS_ABANDONED /\ NT_SUCCESS query_modules.1.1 = false /\
   m = no_modules /\ held s' = held s) \/
  (NT_SUCCESS status = true /\ status = query_modules.1.1 /\ 0 < address m /\
   modules m = modules loaded_modules /\
   held s' = held s ⊎ {[+ Block (address m) SYSTEM_MODULES_POOL +]}).

Lemma GetSystemModuleInformation_spec s :
  kernel_wf s ->
  exists status m s',
    GetSystemModuleInformation (Some no_modules) s = Ok ((status, Some m), s') /\
    kernel_wf s' /\ sent s' = sent s /\ nmi_status s' = nmi_status s /\
    module_query_outcome s s' status m /\
    ((forall n, pool_grants n = true) -> NT_SUCCESS query_module_size.1 = true ->
     NT_SUCCESS query_modules.1.1 = true -> 0 < address m).
Proof.
  intros Hwf. unfold GetSystemModuleInformation, module_query_outcome, loaded_modules.
  destruct query_module_size as [st size].
  destruct (NT_SUCCESS st) eqn:Est; cbn [negb fst].
  2: { eexists _, _, _. split; [done|]. split_and!; [done..|by left|congruence]. }
  destruct (alloc_spec s size SYSTEM_MODULES_POOL Hwf)
    as (p & s1 & Ha & Hwf1 & Hs1 & Hn1 & _ & Hp).
  setoid_rewrite (KM_step _ _ _ _ _ Ha).
  destruct (pool_grants (pool_requests s)) eqn:Eg; destruct Hp as [Hp Hh].
  2: { subst p. cbn [Z.eqb]. eexists _, _, _. split; [done|]. split_and!; [done..|by left|].
       intros Hg. congruence. }
  destruct (Z.eqb_spec p 0); [lia|].
  destruct query_modules as [[st2 size2] entries]. cbn [fst snd].
  destruct (NT_SUCCESS st2) eqn:Est2; cbn [negb].
  - eexists _, _, _. split; [done|]. split_and!; [done..| |by intros _ _ _].
    right; right. cbn. done.
  - unfold ExFreePoolWithTag. setoid_rewrite KM_step; [|by apply release_last].
    eexists _, _, _. split; [done|]. split_and!; [done..|by right; left|congruence].
Qed.

(** A failing second query is reported as STATUS_ABANDONED. *)
Lemma query_abandoned s status m s' :
  kernel_wf s -> pool_grants (pool_requests s) = true ->
  NT_SUCCESS query_module_size.1 = true -> NT_SUCCESS query_modules.1.1 = false ->
  GetSystemModuleInformation (Some no_modules) s = Ok ((status, Some m), s') ->
  status = STATUS_ABANDONED /\ m = no_modules /\ held s' = held s.
Proof.
  intros Hwf Hg Hq1 Hq2. unfold GetSystemModuleInformation.
  destruct query_module_size as [st size]. cbn in Hq1. rewrite Hq1. cbn [negb].
  destruct (alloc_spec s size SYSTEM_MODULES_POOL Hwf) as (p & s1 & Ha & _ & _ & _ & _ & Hp).
  rewrite Hg in Hp. destruct Hp as [Hp Hh]. rewrite (KM_step _ _ _ _ _ Ha).
  destruct (Z.eqb_spec p 0); [lia|]. destruct query_modules as [[st2 size2] entries].
  cbn in Hq2. rewrite Hq2. cbn [negb]. unfold ExFreePoolWithTag.
  rewrite (KM_step _ _ _ _ _ (release_last s1 _ _ Hh)). by intros [= <- <- <-].
Qed.

(** The report of a routine, nothing for 0. *)
Definition hook_report (a : Z) : list (report * Z) :=
  if a =? 0 then []
  else match read_bytes system_memory a (Z.to_nat DATA_TABLE_ROUTINE_BUF_SIZE) with
       | Ok routine => [(DataTableRoutine 0 REPORT_DATA_TABLE_ROUTINE a routine,
                         sizeof DATA_TABLE_ROUTINE_REPORT)]
       | Crash _ => []
       end.

(** [s'] differs from [s] in pool bookkeeping and by the reports [rs], all of
    them if the pool grants every request. *)
Record sends (s s' : kernel) (rs : list (report * Z)) : Prop := {
  sends_wf : kernel_wf s';
  sends_held : held s' = held s;
  sends_nmi : nmi_status s' = nmi_status s;
  sends_sent : (forall n, pool_grants n = true) -> sent s' = sent s ++ rs;
}.

Lemma sends_refl s : kernel_wf s -> sends s s [].
Proof. intros. split; [done..|]. intros _. by rewrite app_nil_r. Qed.

Lemma sends_trans s1 s2 s3 rs1 rs2 :
  sends s1 s2 rs1 -> sends s2 s3 rs2 -> sends s1 s3 (rs1 ++ rs2).
Proof.
  intros [W1 H1 N1 S1] [W2 H2 N2 S2]. split; [done|congruence..|].
  intros Hg. by rewrite S2, S1, app_assoc.
Qed.

Lemma sends_reported s size r :
  kernel_wf s -> 0 <= size -> sends s (reported s size r) [(r, size)].
Proof.
  intros. split; autorewrite with kernel; auto with driver.
  intros Hg. by apply reported_sent.
Qed.

Lemma report_hook_spec s id a :
  kernel_wf s -> a = 0 \/ readable system_memory a (Z.to_nat DATA_TABLE_ROUTINE_BUF_SIZE) ->
  exists s', when (negb (a =? 0)) (ReportDataTableInvalidRoutine id a) s = Ok (tt, s') /\
    sends s s' (hook_report a).
Proof.
  intros Hwf Ha. unfold hook_report. destruct (Z.eqb_spec a 0); cbn [negb when].
  { exists s. split; [done|]. by apply sends_refl. }
  destruct Ha as [->|Hr]; [done|].
  destruct (read_bytes_readable _ _ _ Hr) as (bs & E & _).
  unfold ReportDataTableInvalidRoutine. rewrite E. cbn [mbind res_bind].
  rewrite complete_report_spec by done. eexists. split; [done|].
  by apply sends_reported.
Qed.

(** What the check finds on a system whose tables can be read. *)
Record hal_env (entries : list Z) : Prop := {
  hal_routines_set : Forall (fun n => hal_routine n <> 0) HalDispatchTable;
  hal_private_table :
    table_at system_memory (u64 (MmGetSystemRoutineAddress "HalPrivateDispatchTable" + 8))
      entries;
  hal_private_length :
    zlen entries = GetHalPrivateDispatchTableRoutineCount GetOsVersionInformation.2;
  hal_readable a :
    a ∈ (hal_routine <$> HalDispatchTable) ++ entries -> a <> 0 ->
    readable system_memory a (Z.to_nat DATA_TABLE_ROUTINE_BUF_SIZE);
}.

Lemma last_elem {X} (l : list X) x : last l = Some x -> x ∈ l.
Proof. rewrite last_lookup. apply list_elem_of_lookup_2. Qed.

Lemma leading_outside_sub m l a : a ∈ leading_outside m l -> a ∈ l.
Proof.
  induction l as [|b l IH]; cbn; [done|]. destruct (inside m b).
  { intros H. by apply not_elem_of_nil in H. }
   rewrite !elem_of_cons. intros [->|H]; [by left|right; auto].
Qed.

Lemma private_table_spec m entries :
  modules_wf m -> hal_env entries ->
  MmGetSystemRoutineAddress "HalPrivateDispatchTable" <> 0 ->
  NT_SUCCESS RtlGetVersion.1 = true ->
  ValidateHalPrivateDispatchTable 0 m
  = Ok (if forallb (fun e => e =? 0) entries then STATUS_UNSUCCESSFUL else STATUS_SUCCESS,
        default 0 (last (hooked m entries))).
Proof.
  intros Hm [_ Ht Hl _] Ha Hv. unfold ValidateHalPrivateDispatchTable.
  destruct (Z.eqb_spec (MmGetSystemRoutineAddress "HalPrivateDispatchTable") 0); [done|].
  unfold GetOsVersionInformation in *. destruct RtlGetVersion as [st build].
  cbn in Hv. rewrite Hv in *. cbn [negb fst snd] in *. unfold ValidateTableDispatchRoutines.
  cbn [negb]. rewrite Hv. cbn [negb]. rewrite <- Hl. unfold zlen. rewrite Nat2Z.id. rewrite table_loop_spec; [done..|].
  by rewrite Z.mul_0_r, Z.add_0_r.
Qed.

Lemma private_table_cases m entries :
  modules_wf m -> hal_env entries ->
  exists status routine, ValidateHalPrivateDispatchTable 0 m = Ok (status, routine) /\
    (routine = 0 \/ routine ∈ hooked m entries).
Proof.
  intros Hm He. destruct (decide (MmGetSystemRoutineAddress "HalPrivateDispatchTable" = 0)) as [E|E].
  { unfold ValidateHalPrivateDispatchTable. rewrite E. eexists _, _. split; [done|]. by left. }
  destruct (NT_SUCCESS RtlGetVersion.1) eqn:Hv.
  - rewrite (private_table_spec m entries) by done. eexists _, _. split; [done|].
    destruct (last (hooked m entries)) eqn:El; [right|by left]. by apply last_elem.
  - unfold ValidateHalPrivateDispatchTable, GetOsVersionInformation.
    destruct (Z.eqb_spec (MmGetSystemRoutineAddress "HalPrivateDispatchTable") 0); [done|].
    destruct RtlGetVersion as [st build]. cbn in Hv. rewrite Hv. cbn [negb].
    rewrite Hv. eexists _, _. split; [done|]. by left.
Qed.

(** The hooks the two checks settle on. *)
Definition hal_hook (m : SYSTEM_MODULES) : Z :=
  default 0 (last (leading_outside m (hal_routine <$> HalDispatchTable))).
Definition private_hook (m : SYSTEM_MODULES) (entries : list Z) : Z :=
  default 0 (last (hooked m entries)).

Lemma hal_hook_readable m entries :
  hal_env entries ->
  hal_hook m = 0 \/
  readable system_memory (hal_hook m) (Z.to_nat DATA_TABLE_ROUTINE_BUF_SIZE).
Proof.
  intros He. unfold hal_hook. destruct (last _) as [a|] eqn:E; cbn [default from_option]; [|by left].
  destruct (decide (a = 0)) as [->|]; [by left|]. right. apply (hal_readable entries He); [|done].
  apply elem_of_app. left. by eapply leading_outside_sub, last_elem.
Qed.

Lemma hal_checks_spec m entries s :
  kernel_wf s -> modules_wf m -> hal_env entries ->
  exists status s' rs, hal_checks m s = Ok (status, s') /\ sends s s' rs /\
    (MmGetSystemRoutineAddress "HalPrivateDispatchTable" <> 0 ->
     NT_SUCCESS RtlGetVersion.1 = true -> Exists (fun e => e <> 0) entries ->
     status = STATUS_SUCCESS /\
     rs = hook_report (hal_hook m) ++ hook_report (private_hook m entries)).
Proof.
  intros Hwf Hm He. unfold hal_checks, ValidateHalDispatchTable.
  rewrite hal_blocks_spec by (done || apply He). cbn [HalDispatchTable].
  change (NT_SUCCESS STATUS_SUCCESS) with true. cbn [negb]. fold HalDispatchTable (hal_hook m).
  destruct (report_hook_spec s TABLE_ID_HalDispatch (hal_hook m) Hwf) as (s1 & H1 & S1).
  { by eapply hal_hook_readable. }
  setoid_rewrite (KM_step _ _ _ _ _ H1).
  destruct (private_table_cases m entries Hm He) as (st & r & Hp & Hr).
  unfold lift. setoid_rewrite KM_step; [|by rewrite Hp]. cbn beta iota.
  destruct (NT_SUCCESS st) eqn:Est; cbn [negb].
  2: { eexists _, _, _. split; [done|]. split; [done|]. intros Ha Hv Hx. exfalso.
       rewrite (private_table_spec m entries) in Hp by done. injection Hp as <- _.
       destruct (forallb _ entries) eqn:E; [|done]. rewrite forallb_forall in E.
       apply Exists_exists in Hx as (e & Hin & Hne). apply list_elem_of_In, E in Hin. lia. }
  destruct (report_hook_spec s1 TABLE_ID_HalPrivateDispatch r) as (s2 & H2 & S2).
  { apply S1. }
  { destruct Hr as [->|Hr]; [by left|right]. apply list_elem_of_filter in Hr as [[? _] ?].
    apply (hal_readable entries He); [|done]. apply elem_of_app. by right. }
  setoid_rewrite (KM_step _ _ _ _ _ H2). eexists _, _, _. split; [done|].
  split; [exact (sends_trans _ _ _ _ _ S1 S2)|]. intros Ha Hv Hx.
  rewrite (private_table_spec m entries) in Hp by done. injection Hp as <- <-.
  destruct (forallb _ entries) eqn:E; [by vm_compute in Est|]. done.
Qed.

Lemma module_query_wf s s' status m :
  Forall module_wf query_modules.2 -> module_query_outcome s s' status m -> modules_wf m.
Proof.
  intros Hq [(_ & -> & _)|[(_ & _ & -> & _)|(_ & _ & _ & Hm & _)]]; [by constructor..|].
  unfold modules_wf. rewrite Hm. cbn. by apply Forall_take.
Qed.

(** Freeing the list after work that keeps the resources. *)
Lemma free_module_list_spec s s1 s2 status m rs :
  module_query_outcome s s1 status m -> sends s1 s2 rs ->
  exists s3, free_module_list m s2 = Ok (tt, s3) /\ kernel_wf s3 /\ held s3 = held s /\
    nmi_status s3 = nmi_status s2 /\ sent s3 = sent s2.
Proof.
  intros Ho [W H N _]. unfold free_module_list.
  destruct Ho as [(_ & -> & Hh)|[(_ & _ & -> & Hh)|(_ & _ & Ha & _ & Hh)]].
  1, 2: exists s2; cbn; split_and!; [done..|congruence|done|done].
  - destruct (Z.eqb_spec (address m) 0); [lia|]. unfold ExFreePoolWithTag.
    rewrite (release_last _ (held s)) by congruence. eexists. split; [done|]. by split_and!.
Qed.

(** The whole check. *)
Lemma hal_tables_spec s entries :
  kernel_wf s -> Forall module_wf query_modules.2 -> hal_env entries ->
  exists status s' m,
    ValidateHalDispatchTables s = Ok (status, s') /\
    kernel_wf s' /\ held s' = held s /\ nmi_status s' = nmi_status s /\
    ((forall n, pool_grants n = true) ->
     NT_SUCCESS query_module_size.1 = true -> NT_SUCCESS query_modules.1.1 = true ->
     MmGetSystemRoutineAddress "HalPrivateDispatchTable" <> 0 ->
     NT_SUCCESS RtlGetVersion.1 = true -> Exists (fun e => e <> 0) entries ->
     status = STATUS_SUCCESS /\
     modules m = take (Z.to_nat (query_modules.1.2 / sizeof Structs.RTL_MODULE_EXTENDED_INFO))
                   query_modules.2 /\
     sent s' = sent s ++ hook_report (hal_hook m) ++ hook_report (private_hook m entries)).
Proof.
  intros Hwf Hq He.
  destruct (GetSystemModuleInformation_spec s Hwf) as (st & m & s1 & Hg & W1 & S1 & N1 & Ho & Hok).
  unfold ValidateHalDispatchTables. setoid_rewrite (KM_step _ _ _ _ _ Hg).
  cbn [default from_option id]. destruct (NT_SUCCESS st) eqn:Est; cbn [negb].
  2: { destruct Ho as [(_ & -> & Hh)|[(-> & _)|(E & _)]]; [|done|congruence].
       eexists _, _, no_modules. split; [done|]. split_and!; [done..|].
       intros Hp Hq1 Hq2 _ _ _. specialize (Hok Hp Hq1 Hq2). cbn in Hok. lia. }
  destruct (hal_checks_spec m entries s1 W1) as (st2 & s2 & rs & Hc & Sd & Hr);
    [by eapply module_query_wf|done|].
  destruct (free_module_list_spec s s1 s2 st m rs Ho Sd) as (s3 & Hf & W3 & H3 & N3 & S3).
  setoid_rewrite (KM_step _ _ _ _ _ Hc). setoid_rewrite (KM_step _ _ _ _ _ Hf).
  exists st2, s3, m. split; [done|]. split_and!; [done|done|rewrite N3, (sends_nmi _ _ _ Sd); done|].
  intros Hp Hq1 Hq2 Ha Hv Hx. destruct (Hr Ha Hv Hx) as [-> ->].
  specialize (Hok Hp Hq1 Hq2).
  split; [done|]. split; [|by rewrite S3, (sends_sent _ _ _ Sd) by done; rewrite S1].
  by destruct Ho as [(_ & -> & _)|[(_ & _ & -> & _)|(_ & _ & _ & Hm & _)]]; [cbn in Hok; lia..|].
Qed.

End lemmas.

Lemma forallb_zero (l : list Z) :
  forallb (fun e => e =? 0) l = bool_decide (Forall (fun e => ~ e <> 0) l).
Proof.
  induction l as [|e l IH]; [done|]. cbn [forallb]. rewrite IH.
  destruct (Z.eqb_spec e 0) as [->|He]; cbn [andb].
  - apply bool_decide_ext. rewrite Forall_cons. tauto.
  - symmetry. apply bool_decide_eq_false. rewrite Forall_cons. tauto.
Qed.

(** ** Properties *)

Section properties.
Context {P : Pool} {K : ReportSink} {A : SystemApi}.

(** The check of the HAL dispatch tables on a system whose tables can be
    read.  It never faults and, whatever the pool, the module query and the
    version query answer, gives back every resource it took and leaves the NMI
    flag alone.  When the queries succeed and memory suffices, it sends one
    report for the last routine of the leading run of HalDispatchTable routines
    outside all modules and one for the last entry of HalPrivateDispatchTable
    outside all modules, in that order and nothing else. *)
Theorem hal_tables_reported_and_released s entries :
  kernel_wf s -> Forall module_wf query_modules.2 -> hal_env entries ->
  exists status s' m,
    ValidateHalDispatchTables s = Ok (status, s') /\
    kernel_wf s' /\ held s' = held s /\ nmi_status s' = nmi_status s /\
    ((forall n, pool_grants n = true) ->
     NT_SUCCESS query_module_size.1 = true -> NT_SUCCESS query_modules.1.1 = true ->
     MmGetSystemRoutineAddress "HalPrivateDispatchTable" <> 0 ->
     NT_SUCCESS RtlGetVersion.1 = true -> Exists (fun e => e <> 0) entries ->
     status = STATUS_SUCCESS /\
     modules m = take (Z.to_nat (query_modules.1.2 / sizeof Structs.RTL_MODULE_EXTENDED_INFO))
                   query_modules.2 /\
     sent s' = sent s ++ hook_report (hal_hook m) ++ hook_report (private_hook m entries)).
Proof. exact (hal_tables_spec s entries). Qed.

(** The scan of a function table.  For a table of readable entries it
    succeeds exactly when some entry is not null; every null entry is skipped,
    an entry counts as genuine exactly when it lies between the base and the end
    (inclusive) of some loaded module, and the routine handed back is the last
    entry that is not genuine, the caller's old value if there is none. *)
Theorem table_scan_finds_last_hook m base entries r :
  modules_wf m -> table_at system_memory base entries ->
  exists status routine,
    ValidateTableDispatchRoutines base (zlen entries) m r = Ok (status, routine) /\
    (NT_SUCCESS status = true <-> Exists (fun e => e <> 0) entries) /\
    (forall e, e ∈ hooked m entries <->
       e ∈ entries /\ e <> 0 /\
       ~ exists info, info ∈ modules m /\
           ImageBase info <= e <= ImageBase info + ImageSize info) /\
    routine = default r (last (hooked m entries)).
Proof.
  intros Hm Ht. unfold ValidateTableDispatchRoutines, zlen. rewrite Nat2Z.id.
  rewrite (table_loop_spec m entries) by (done || by rewrite Z.mul_0_r, Z.add_0_r).
  eexists _, _. split; [done|]. split; [|split; [|done]].
  - rewrite forallb_zero. case_bool_decide as E; [split; [done|]|split; [|done]].
    + intros Hx. exfalso. apply Exists_exists in Hx as (e & Hin & He).
      by apply (proj1 (Forall_forall _ _) E e Hin).
    + intros _. apply not_Forall_Exists in E; [|intros; apply _].
      eapply Exists_impl; [exact E|]. cbn. tauto.
  - intros e. unfold hooked. rewrite list_elem_of_filter, <- inside_spec.
    rewrite not_true_iff_false. tauto.
Qed.

(** A hook behind a genuine routine is not seen.  As soon as the first
    routine of HalDispatchTable is genuine the check succeeds and reports no
    routine, whatever the other seventeen point to: the early return meant for
    errors is taken for genuine routines too. *)
Theorem genuine_first_routine_hides_hooks m :
  modules_wf m -> hal_routine "HalQuerySystemInformation" <> 0 ->
  inside m (hal_routine "HalQuerySystemInformation") = true ->
  ValidateHalDispatchTable m = (STATUS_SUCCESS, 0).
Proof.
  intros Hm Hz Hi. unfold ValidateHalDispatchTable. cbn [HalDispatchTable hal_blocks].
  rewrite region_check_spec by done.
  destruct (Z.eqb_spec (hal_routine "HalQuerySystemInformation") 0); [done|]. by rewrite Hi.
Qed.

End properties.

(** ** Witnesses *)

(** A machine with the module query [q], HAL routines at [hal] and memory full
    of 0x90; one with a module at 0x1000. *)
Definition machine (q : NTSTATUS * Z * list RTL_MODULE_EXTENDED_INFO) (hal : string -> Z)
  : SystemApi := {|
  query_module_size := (STATUS_SUCCESS, sizeof Structs.RTL_MODULE_EXTENDED_INFO);
  query_modules := q;
  MmGetSystemRoutineAddress := fun _ => 0x100;
  RtlGetVersion := (STATUS_SUCCESS, 19045);
  hal_routine := hal;
  system_memory := fun _ => Some 0x90;
|}.

Definition sample_api : (string -> Z) -> SystemApi :=
  machine (STATUS_SUCCESS, sizeof Structs.RTL_MODULE_EXTENDED_INFO,
           [ModuleInfo 0x1000 0x1000 "ntoskrnl.exe"]).

Definition always_grants : Pool := fun _ => true.
Definition always_succeeds : ReportSink := fun _ => STATUS_SUCCESS.
Definition idle_kernel : kernel := Kernel ∅ 0x10000 0 [] 0.
Definition sample_modules : SYSTEM_MODULES :=
  SystemModules 0x10000 [ModuleInfo 0x1000 0x1000 "ntoskrnl.exe"].

Lemma sample_modules_wf : modules_wf sample_modules.
Proof. constructor; [|constructor]. unfold module_wf. cbn. lia. Qed.

Lemma sample_hal_env q hal :
  (forall n, hal n <> 0) ->
  hal_env (A := machine q hal) (replicate 149 0x9090909090909090).
Proof.
  intros Hh. split.
  - apply Forall_true. intros. apply Hh.
  - intros i e [-> _]%lookup_replicate. done.
  - done.
  - intros a _ _ i _. by eexists.
Qed.

Lemma hal_tables_reported_and_released_witness :
  exists status s',
    ValidateHalDispatchTables (P := always_grants) (K := always_succeeds)
      (A := sample_api (fun _ => 0x5000)) idle_kernel = Ok (status, s') /\
    held s' = ∅ /\ length (sent s') = 2%nat.
Proof.
  destruct (hal_tables_reported_and_released (P := always_grants) (K := always_succeeds)
    (A := sample_api (fun _ => 0x5000)) idle_kernel (replicate 149 0x9090909090909090))
    as (status & s' & m & H & _ & Hh & _ & Hs).
  - unfold kernel_wf. cbn. lia.
  - constructor; [|constructor]. unfold module_wf. cbn. lia.
  - apply sample_hal_env. done.
  - exists status, s'. split; [exact H|]. split; [exact Hh|].
    destruct Hs as (_ & Hm & ->); [done..|by constructor|].
    vm_compute in Hm. destruct m as [ad ms]. cbn in Hm. subst ms. vm_compute. reflexivity.
Defined.

Lemma table_scan_finds_last_hook_witness :
  exists status routine,
    ValidateTableDispatchRoutines (A := sample_api (fun _ => 0)) 0 2 sample_modules 7
      = Ok (status, routine) /\ routine = 0x9090909090909090.
Proof.
  destruct (table_scan_finds_last_hook (A := sample_api (fun _ => 0)) sample_modules 0
    [0x9090909090909090; 0x9090909090909090] 7) as (status & routine & H & _ & _ & ->).
  - exact sample_modules_wf.
  - intros [|[|i]] e [=<-]; reflexivity.
  - eexists _, _. split; [exact H|reflexivity].
Defined.

Lemma genuine_first_routine_hides_hooks_witness :
  let hal n := if decide (n = "HalQuerySystemInformation"%string) then 0x1800 else 0x5000 in
  ValidateHalDispatchTable (A := sample_api hal) sample_modules = (STATUS_SUCCESS, 0).
Proof.
  intros hal. apply (genuine_first_routine_hides_hooks (A := sample_api hal)).
  - exact sample_modules_wf.
  - done.
  - reflexivity.
Defined.
