(* ===== verification/Nmi.v ===== *)
(** * modules.c, thread.c: stack checks by interrupt and by DPC

    [HandleNmiIOCTL] sends a non-maskable interrupt to every core; the
    callback stores what each core was executing, and the analysis reports
    cores that did not answer, threads missing from the client-identifier
    table, and kernel instruction pointers outside all modules.
    [DispatchStackwalkToEachCpuViaDpc] captures the stack of each core in a
    deferred procedure call and reports return addresses outside all modules. *)

From stdpp Require Import gmultiset.
From S2P Require Import Prelude Layout Irp Structs Kernel Modules.

(** ** Data *)

Record NMI_CONTEXT := NmiContext {
  interrupted_rip : Z;
  interrupted_rsp : Z;
  kthread : Z;
  callback_count : Z;
  user_thread : bool;
}.

Definition NMI_CONTEXT_layout : cty := St
  [("interrupted_rip", UINT64); ("interrupted_rsp", UINT64); ("kthread", UINT64);
   ("callback_count", ULONG); ("user_thread", UCHAR)].

(** [TASK_STATE_SEGMENT_64] is packed: [Reserved0] (4 bytes), [Rsp0] to [Rsp2],
    [Reserved1], [Ist1] and [Ist2] precede [Ist3]. *)
Definition TSS_Ist3 : Z := 4 + 3 * 8 + 8 + 2 * 8.

Definition DPC_STACKWALK_STACKFRAME_COUNT : Z := 10.

Record DPC_CONTEXT := DpcContext {
  stack_frame : list Z;
  frames_captured : Z;
  executed : bool;
}.

Definition DPC_CONTEXT_layout : cty := St
  [("stack_frame", Arr DPC_STACKWALK_STACKFRAME_COUNT UINT64);
   ("frames_captured", USHORT); ("executed", UCHAR)].

Definition KPCR_TSS_BASE_OFFSET : Z := 0x008.
Definition WINDOWS_USERMODE_MAX_ADDRESS : Z := 0x00007FFFFFFFFFFF.
Definition NMI_CONTEXT_POOL : Z := 0x37333331.
Definition PROC_AFFINITY_POOL : Z := 0x65656565.
Definition POOL_TAG_DPC : Z := 0x61706363.
Definition sizeof_KAFFINITY_EX : Z := 2 + 2 + 4 + 20 * 8.

(** A loop over cores that updates one array of contexts. *)
Fixpoint each_core {X} (f : Z -> list X -> res (list X)) (cores : list Z) (contexts : list X)
  : res (list X) :=
  match cores with
  | [] => Ok contexts
  | core :: cores => contexts ← f core contexts; each_core f cores contexts
  end.

(** What the two checks ask of Windows and of the processor.  [nmi_delivered]
    says whether an interrupt sent to a core reaches the registered callback;
    [gs_base] and [current_thread] are the values on a core at that time. *)
Class CpuApi := {
  active_processors : Z;
  gs_base : Z -> Z;
  current_thread : Z -> Z;
  nmi_delivered : Z -> bool;
  KeRegisterNmiCallback : Z;
  PsGetThreadId : Z -> Z;
  PsLookupThreadByThreadId : Z -> NTSTATUS * Z;
  calling_thread : Z;
  RtlCaptureStackBackTrace : Z -> list Z;
}.

Section operations.
Context {P : Pool} {K : ReportSink} {A : SystemApi} {U : CpuApi}.
Abbreviation M := (KM kernel).

(** ** The flag of the driver configuration, driver.c *)

Definition UnsetNmiInProgressFlag : M unit :=
  modify (fun s => set_nmi_status (s32 (nmi_status s - 1)) s).

Definition IsNmiInProgress : M bool := fun s =>
  if nmi_status s =? 0 then Ok (false, set_nmi_status 1 s) else Ok (true, s).

(** ** Reports *)

Definition ReportNmiBlocking : M unit :=
  complete_report (sizeof NMI_CALLBACK_FAILURE) REPORT_POOL_TAG
    (Ok (NmiCallbackFailure REPORT_NMI_CALLBACK_FAILURE 1 0 0)).

Definition ReportMissingCidTableEntry (Context : NMI_CONTEXT) : M unit :=
  complete_report (sizeof HIDDEN_SYSTEM_THREAD_REPORT) REPORT_POOL_TAG
    (thread ← read_bytes system_memory (kthread Context) 500;
     Ok (HiddenSystemThread REPORT_HIDDEN_SYSTEM_THREAD 0 0 (kthread Context)
           (s32 (PsGetThreadId (kthread Context))) thread)).

(** The block is as large as another report and is used unchecked. *)
Definition ReportInvalidRipFoundDuringNmi (Context : NMI_CONTEXT) : M unit :=
  report ← ExAllocatePool2 (sizeof HIDDEN_SYSTEM_THREAD_REPORT) REPORT_POOL_TAG;
  deref_block report ≫= fun _ =>
  _ ← send_report report REPORT_POOL_TAG
        (NmiCallbackFailure REPORT_NMI_CALLBACK_FAILURE 0 (kthread Context)
           (interrupted_rip Context))
        (sizeof HIDDEN_SYSTEM_THREAD_REPORT);
  mret tt.

Definition ReportDpcStackwalkViolation (Frame : Z) : M unit :=
  complete_report (sizeof DPC_STACKWALK_REPORT) REPORT_POOL_TAG
    (Ok (DpcStackwalk REPORT_DPC_STACKWALK calling_thread Frame)).

(** ** thread.c *)

(** A successful lookup returns a reference, which nothing gives back. *)
Definition ValidateThreadsPspCidTableEntry (Thread : Z) : M bool :=
  let thread_id := PsGetThreadId Thread in
  if u64 thread_id <? u64 active_processors then mret true
  else
    let '(status, thread) := PsLookupThreadByThreadId thread_id in
    if negb (NT_SUCCESS status) then mret false
    else
      acquire (Reference thread) ≫= fun _ =>
      mret true.

(** ** Interrupts *)

(** The frame the interrupt pushed on core [core]: its [rip] and [rsp]. *)
Definition machine_frame (core : Z) : res (Z * Z) :=
  let kpcr := gs_base core in
  tss ← load64 system_memory (kpcr + KPCR_TSS_BASE_OFFSET);
  ist3 ← load64 system_memory (tss + TSS_Ist3);
  let frame := u64 (ist3 - sizeof MACHINE_FRAME) in
  rip ← load_field system_memory MACHINE_FRAME frame "rip" 8;
  rsp ← load_field system_memory MACHINE_FRAME frame "rsp" 8;
  Ok (rip, rsp).

Definition NmiCallback (core : Z) (context : list NMI_CONTEXT) : res (list NMI_CONTEXT) :=
  '(rip, rsp) ← machine_frame core;
  match znth context core with
  | None => Crash OutOfBounds
  | Some c =>
      let user := if rip <=? WINDOWS_USERMODE_MAX_ADDRESS then true else user_thread c in
      Ok (zset context core
            (NmiContext rip rsp (current_thread core) (u32 (callback_count c + 1)) user))
  end.

(** An interrupt that is delivered runs the callback. *)
Definition send_nmis : list Z -> list NMI_CONTEXT -> res (list NMI_CONTEXT) :=
  each_core (fun core context =>
    if nmi_delivered core then NmiCallback core context else Ok context).

Definition LaunchNonMaskableInterrupt (context : list NMI_CONTEXT)
  : M (NTSTATUS * list NMI_CONTEXT) :=
  ProcAffinityPool ← ExAllocatePool2 sizeof_KAFFINITY_EX PROC_AFFINITY_POOL;
  if ProcAffinityPool =? 0 then mret (STATUS_MEMORY_NOT_ALLOCATED, context)
  else
    context ← lift (send_nmis (iota 0 (Z.to_nat active_processors)) context);
    ExFreePoolWithTag ProcAffinityPool PROC_AFFINITY_POOL ≫= fun _ =>
    mret (STATUS_SUCCESS, context).

(** The loop over the cores; the result is the status returned. *)
Fixpoint analyse_cores (cores : list Z) (NmiContext : list NMI_CONTEXT)
  (SystemModules : SYSTEM_MODULES) (flag : bool) : M NTSTATUS :=
  match cores with
  | [] => mret STATUS_SUCCESS
  | core :: cores =>
      context ← of_option OutOfBounds (znth NmiContext core);
      if callback_count context =? 0 then
        ReportNmiBlocking ≫= fun _ =>
        mret STATUS_SUCCESS
      else
        found ← ValidateThreadsPspCidTableEntry (kthread context);
        when (negb found) (ReportMissingCidTableEntry context) ≫= fun _ =>
        if user_thread context then analyse_cores cores NmiContext SystemModules flag
        else
          let '(status, flag) := region_check (interrupted_rip context) SystemModules flag in
          if negb (NT_SUCCESS status) then analyse_cores cores NmiContext SystemModules flag
          else if negb flag then
            ReportInvalidRipFoundDuringNmi context ≫= fun _ =>
            mret STATUS_SUCCESS
          else analyse_cores cores NmiContext SystemModules flag
  end.

Definition AnalyseNmiData (NmiContext : option (list NMI_CONTEXT))
  (SystemModules : option SYSTEM_MODULES) : M NTSTATUS :=
  match NmiContext, SystemModules with
  | Some contexts, Some modules =>
      analyse_cores (iota 0 (Z.to_nat active_processors)) contexts modules false
  | _, _ => mret STATUS_INVALID_PARAMETER
  end.

Definition zero_context : NMI_CONTEXT := NmiContext 0 0 0 0 false.

(** [HandleNmiIOCTL] from the registration of the callback on. *)
Definition nmi_scan (nmi_context callback_handle : Z) : M NTSTATUS :=
  let contexts := replicate (Z.to_nat active_processors) zero_context in
  '(status, m) ← GetSystemModuleInformation (Some no_modules);
  let system_modules := default no_modules m in
  if negb (NT_SUCCESS status) then
    release (NmiRegistration callback_handle) ≫= fun _ =>
    ExFreePoolWithTag nmi_context NMI_CONTEXT_POOL ≫= fun _ =>
    UnsetNmiInProgressFlag ≫= fun _ =>
    mret status
  else
    '(status, contexts) ← LaunchNonMaskableInterrupt contexts;
    if negb (NT_SUCCESS status) then
      release (NmiRegistration callback_handle) ≫= fun _ =>
      ExFreePoolWithTag (address system_modules) SYSTEM_MODULES_POOL ≫= fun _ =>
      ExFreePoolWithTag nmi_context NMI_CONTEXT_POOL ≫= fun _ =>
      UnsetNmiInProgressFlag ≫= fun _ =>
      mret status
    else
      status ← AnalyseNmiData (Some contexts) (Some system_modules);
      ExFreePoolWithTag (address system_modules) SYSTEM_MODULES_POOL ≫= fun _ =>
      ExFreePoolWithTag nmi_context NMI_CONTEXT_POOL ≫= fun _ =>
      release (NmiRegistration callback_handle) ≫= fun _ =>
      UnsetNmiInProgressFlag ≫= fun _ =>
      mret status.

Definition HandleNmiIOCTL : M NTSTATUS :=
  let size := u32 (active_processors * sizeof NMI_CONTEXT_layout) in
  busy ← IsNmiInProgress;
  if (busy : bool) then mret STATUS_ALREADY_COMMITTED
  else
    _ ← ValidateHalDispatchTables;
    nmi_context ← ExAllocatePool2 size NMI_CONTEXT_POOL;
    if nmi_context =? 0 then
      UnsetNmiInProgressFlag ≫= fun _ =>
      mret STATUS_MEMORY_NOT_ALLOCATED
    else
      let callback_handle := KeRegisterNmiCallback in
      if callback_handle =? 0 then
        ExFreePoolWithTag nmi_context NMI_CONTEXT_POOL ≫= fun _ =>
        UnsetNmiInProgressFlag ≫= fun _ =>
        mret STATUS_UNSUCCESSFUL
      else
        acquire (NmiRegistration callback_handle) ≫= fun _ =>
        nmi_scan nmi_context callback_handle.

(** ** Deferred procedure calls *)

(** Runs on core [core]; at most [DPC_STACKWALK_STACKFRAME_COUNT] frames are
    captured, the rest of the array keeps its zeros. *)
Definition DpcStackwalkCallbackRoutine (core : Z) (contexts : list DPC_CONTEXT)
  : res (list DPC_CONTEXT) :=
  match znth contexts core with
  | None => Crash OutOfBounds
  | Some c =>
      let frames := take (Z.to_nat DPC_STACKWALK_STACKFRAME_COUNT)
                      (RtlCaptureStackBackTrace core) in
      let stack := frames ++ drop (length frames) (stack_frame c) in
      Ok (zset contexts core (DpcContext stack (u16 (zlen frames)) true))
  end.

(** [KeGenericCallDpc] runs the routine on every active core. *)
Definition KeGenericCallDpc : list Z -> list DPC_CONTEXT -> res (list DPC_CONTEXT) :=
  each_core DpcStackwalkCallbackRoutine.

Fixpoint completion_loop (cores : list Z) (Context : list DPC_CONTEXT) : res bool :=
  match cores with
  | [] => Ok true
  | index :: cores =>
      match znth Context index with
      | None => Crash OutOfBounds
      | Some c => if negb (executed c) then Ok false else completion_loop cores Context
      end
  end.

Definition CheckForDpcCompletion (Context : list DPC_CONTEXT) : res bool :=
  completion_loop (iota 0 (Z.to_nat active_processors)) Context.

(** The loop that waits, for at most [fuel] rounds. *)
Fixpoint wait_for_dpcs (fuel : nat) (Context : list DPC_CONTEXT) : res unit :=
  match fuel with
  | O => Crash OutOfFuel
  | S fuel =>
      done_ ← CheckForDpcCompletion Context;
      if negb done_ then wait_for_dpcs fuel Context else Ok tt
  end.

Fixpoint frame_loop (frames : list Z) (Modules : SYSTEM_MODULES) (flag : bool) : M unit :=
  match frames with
  | [] => mret tt
  | rip :: frames =>
      let '(status, flag) := region_check rip Modules flag in
      if negb (NT_SUCCESS status) then mret tt
      else
        when (negb flag) (ReportDpcStackwalkViolation rip) ≫= fun _ =>
        frame_loop frames Modules flag
  end.

Definition ValidateDpcStackFrame (Context : DPC_CONTEXT) (Modules : SYSTEM_MODULES) : M unit :=
  if zlen (stack_frame Context) <? frames_captured Context then crash OutOfBounds
  else frame_loop (take (Z.to_nat (frames_captured Context)) (stack_frame Context)) Modules false.

Definition ValidateDpcCapturedStack (Modules : SYSTEM_MODULES) (Context : list DPC_CONTEXT)
  : M unit :=
  mforeach (fun core =>
    c ← of_option OutOfBounds (znth Context core);
    ValidateDpcStackFrame c Modules) (iota 0 (Z.to_nat active_processors)).

Definition zero_dpc_context : DPC_CONTEXT :=
  DpcContext (replicate (Z.to_nat DPC_STACKWALK_STACKFRAME_COUNT) 0) 0 false.

Definition free_if_set (p Tag : Z) : M unit :=
  if p =? 0 then mret tt else ExFreePoolWithTag p Tag.

Definition DispatchStackwalkToEachCpuViaDpc (fuel : nat) : M NTSTATUS :=
  let size := u32 (active_processors * sizeof DPC_CONTEXT_layout) in
  context ← ExAllocatePool2 size POOL_TAG_DPC;
  if context =? 0 then mret STATUS_MEMORY_NOT_ALLOCATED
  else
    '(status, m) ← GetSystemModuleInformation (Some no_modules);
    let modules := default no_modules m in
    (if negb (NT_SUCCESS status) then mret tt
     else
       contexts ← lift (KeGenericCallDpc (iota 0 (Z.to_nat active_processors))
                          (replicate (Z.to_nat active_processors) zero_dpc_context));
       lift (wait_for_dpcs fuel contexts) ≫= fun _ =>
       ValidateDpcCapturedStack modules contexts) ≫= fun _ =>
    free_module_list modules ≫= fun _ =>
    free_if_set context POOL_TAG_DPC ≫= fun _ =>
    mret status.

End operations.

(** ** Specification *)

Section specification.
Context {P : Pool} {A : SystemApi} {U : CpuApi}.

(** What core [core] leaves in its context. *)
Definition answer (core : Z) : NMI_CONTEXT :=
  if nmi_delivered core then
    match machine_frame core with
    | Ok (rip, rsp) =>
        NmiContext rip rsp (current_thread core) 1 (rip <=? WINDOWS_USERMODE_MAX_ADDRESS)
    | Crash _ => zero_context
    end
  else zero_context.

Definition answers : list NMI_CONTEXT := answer <$> iota 0 (Z.to_nat active_processors).

Definition idle_thread (thread : Z) : bool := u64 (PsGetThreadId thread) <? u64 active_processors.

(** The report of a thread that cannot be looked up by its identifier. *)
Definition cid_report (c : NMI_CONTEXT) : list (report * Z) :=
  if idle_thread (kthread c) then []
  else if NT_SUCCESS (PsLookupThreadByThreadId (PsGetThreadId (kthread c))).1 then []
  else match read_bytes system_memory (kthread c) 500 with
       | Ok bytes => [(HiddenSystemThread REPORT_HIDDEN_SYSTEM_THREAD 0 0 (kthread c)
                         (s32 (PsGetThreadId (kthread c))) bytes,
                       sizeof HIDDEN_SYSTEM_THREAD_REPORT)]
       | Crash _ => []
       end.

(** The reference the lookup of a thread leaves behind. *)
Definition cid_reference (c : NMI_CONTEXT) : gmultiset resource :=
  if idle_thread (kthread c) then ∅
  else let '(status, thread) := PsLookupThreadByThreadId (PsGetThreadId (kthread c)) in
       if NT_SUCCESS status then {[+ Reference thread +]} else ∅.

(** A core that was running kernel code outside all modules. *)
Definition invalid_rip (m : SYSTEM_MODULES) (c : NMI_CONTEXT) : bool :=
  negb (user_thread c) && negb (interrupted_rip c =? 0) && negb (inside m (interrupted_rip c)).

(** The reports and the references of an analysis: it ends at the first core
    that did not answer or ran invalid code. *)
Fixpoint nmi_reports (m : SYSTEM_MODULES) (l : list NMI_CONTEXT) : list (report * Z) :=
  match l with
  | [] => []
  | c :: l =>
      if callback_count c =? 0 then
        [(NmiCallbackFailure REPORT_NMI_CALLBACK_FAILURE 1 0 0, sizeof NMI_CALLBACK_FAILURE)]
      else
        cid_report c ++
        if invalid_rip m c then
          [(NmiCallbackFailure REPORT_NMI_CALLBACK_FAILURE 0 (kthread c) (interrupted_rip c),
            sizeof HIDDEN_SYSTEM_THREAD_REPORT)]
        else nmi_reports m l
  end.

Fixpoint nmi_references (m : SYSTEM_MODULES) (l : list NMI_CONTEXT) : gmultiset resource :=
  match l with
  | [] => ∅
  | c :: l =>
      if callback_count c =? 0 then ∅
      else cid_reference c ⊎ if invalid_rip m c then ∅ else nmi_references m l
  end.

(** What the interrupted cores look like: their interrupt frames and threads
    can be read. *)
Record nmi_env : Prop := {
  nmi_cores : 0 <= active_processors < 2 ^ 16;
  nmi_frames core : 0 <= core < active_processors -> nmi_delivered core = true ->
    exists frame, machine_frame core = Ok frame;
  nmi_threads core : 0 <= core < active_processors ->
    readable system_memory (current_thread core) 500;
}.

(** The frames captured on a core, and the reports of a stack: return
    addresses outside all modules, up to the first null one. *)
Definition captured (core : Z) : list Z :=
  take (Z.to_nat DPC_STACKWALK_STACKFRAME_COUNT) (RtlCaptureStackBackTrace core).

Fixpoint stack_reports (m : SYSTEM_MODULES) (frames : list Z) : list (report * Z) :=
  match frames with
  | [] => []
  | rip :: frames =>
      if rip =? 0 then []
      else (if inside m rip then []
            else [(DpcStackwalk REPORT_DPC_STACKWALK calling_thread rip,
                   sizeof DPC_STACKWALK_REPORT)]) ++ stack_reports m frames
  end.

Definition dpc_answer (core : Z) : DPC_CONTEXT :=
  DpcContext (captured core ++ drop (length (captured core)) (stack_frame zero_dpc_context))
    (zlen (captured core)) true.

(** [s'] holds the references [refs] more than [s] and has sent [rs]. *)
Record leaks (s s' : kernel) (refs : gmultiset resource) (rs : list (report * Z)) : Prop := {
  leaks_wf : kernel_wf s';
  leaks_held : held s' = held s ⊎ refs;
  leaks_nmi : nmi_status s' = nmi_status s;
  leaks_sent : (forall n, pool_grants n = true) -> sent s' = sent s ++ rs;
}.

Lemma leaks_of_sends s s' rs : sends s s' rs -> leaks s s' ∅ rs.
Proof. intros [W H N S]. split; [done| |done|done]. rewrite H. multiset_solver. Qed.

Lemma leaks_trans s1 s2 s3 refs1 refs2 rs1 rs2 :
  leaks s1 s2 refs1 rs1 -> leaks s2 s3 refs2 rs2 ->
  leaks s1 s3 (refs1 ⊎ refs2) (rs1 ++ rs2).
Proof.
  intros [W1 H1 N1 S1] [W2 H2 N2 S2]. split; [done|rewrite H2, H1; multiset_solver|congruence|].
  intros Hg. by rewrite S2, S1, app_assoc.
Qed.

End specification.

(** ** Lemmas *)

Section lemmas.
Context {P : Pool} {K : ReportSink} {A : SystemApi} {U : CpuApi}.

(** Each core writes its own context. *)
Lemma each_core_spec {X} (f : Z -> list X -> res (list X)) (g : Z -> X) (z : X) n :
  (forall core l r, zlen l = core -> core < Z.of_nat n ->
     f core (l ++ z :: r) = Ok (l ++ g core :: r)) ->
  each_core f (iota 0 n) (replicate n z) = Ok (g <$> iota 0 n).
Proof.
  intros Hf. enough (forall k l lo, zlen l = lo -> (Z.to_nat lo + k = n)%nat ->
    each_core f (iota lo k) (l ++ replicate k z) = Ok (l ++ (g <$> iota lo k))) as H
    by exact (H n [] 0 eq_refl eq_refl).
  induction k as [|k IH]; intros l lo Hl Hk; [done|].
  rewrite iota_S. cbn [each_core replicate fmap list_fmap].
  pose proof (zlen_nonneg l). rewrite Hf by lia. cbn [mbind res_bind].
  rewrite cons_middle, app_assoc, (IH (l ++ [g lo]) (lo + 1)) by
    (rewrite ?zlen_app, ?zlen_cons, ?zlen_nil; lia).
  by rewrite <- app_assoc.
Qed.

Lemma znth_middle {X} (l r : list X) x core :
  zlen l = core -> znth (l ++ x :: r) core = Some x.
Proof.
  intros <-. unfold zlen. by rewrite znth_of_nat, list_lookup_middle.
Qed.

Lemma send_nmis_spec :
  nmi_env ->
  send_nmis (iota 0 (Z.to_nat active_processors))
    (replicate (Z.to_nat active_processors) zero_context) = Ok answers.
Proof.
  intros He. apply each_core_spec. intros core l r Hl Hc. unfold answer.
  destruct (nmi_delivered core) eqn:Ed; [|done]. unfold NmiCallback.
  pose proof (zlen_nonneg l). pose proof (nmi_cores He).
  destruct (nmi_frames He core) as [[rip rsp] ->]; [lia|done|]. cbn [mbind res_bind].
  rewrite (znth_middle l r zero_context core Hl). rewrite <- Hl at 1. rewrite zset_middle.
  cbn. by destruct (rip <=? _).
Qed.

(** The check of a thread's identifier, in front of any continuation. *)
Lemma cid_check_spec s c :
  kernel_wf s -> readable system_memory (kthread c) 500 ->
  exists s', leaks s s' (cid_reference c) (cid_report c) /\
    forall B (k : KM kernel B),
      (found ← ValidateThreadsPspCidTableEntry (kthread c);
       when (negb found) (ReportMissingCidTableEntry c) ≫= fun _ => k) s = k s'.
Proof.
  intros Hwf Hr. unfold ValidateThreadsPspCidTableEntry, cid_reference, cid_report, idle_thread.
  destruct (u64 (PsGetThreadId (kthread c)) <? u64 active_processors).
  { exists s. split; [|done]. by apply leaks_of_sends, sends_refl. }
  destruct (PsLookupThreadByThreadId (PsGetThreadId (kthread c))) as [st t]. cbn [fst].
  destruct (NT_SUCCESS st); cbn [negb].
  - eexists. split; [|done]. split; [done..|]. intros _. cbn. by rewrite app_nil_r.
  - destruct (read_bytes_readable _ _ _ Hr) as (bs & E & _). rewrite E.
    eexists. split; [by apply leaks_of_sends, sends_reported|]. intros B k.
    setoid_rewrite KM_step; [|done]. cbn [negb when].
    unfold ReportMissingCidTableEntry. rewrite E. cbn [mbind res_bind].
    by setoid_rewrite KM_step; [|by apply complete_report_spec].
Qed.

Lemma report_invalid_rip_spec s c :
  kernel_wf s -> (forall n, pool_grants n = true) ->
  exists s', ReportInvalidRipFoundDuringNmi c s = Ok (tt, s') /\
    leaks s s' ∅ [(NmiCallbackFailure REPORT_NMI_CALLBACK_FAILURE 0 (kthread c)
                     (interrupted_rip c), sizeof HIDDEN_SYSTEM_THREAD_REPORT)].
Proof.
  intros Hwf Hg. pose proof (complete_report_spec s (sizeof HIDDEN_SYSTEM_THREAD_REPORT)
    REPORT_POOL_TAG (NmiCallbackFailure REPORT_NMI_CALLBACK_FAILURE 0 (kthread c)
      (interrupted_rip c)) Hwf) as H.
  eexists. split; [|by apply leaks_of_sends, sends_reported].
  rewrite <- H. unfold ReportInvalidRipFoundDuringNmi, complete_report, ExAllocatePool2,
    deref_block, lift. munfold. rewrite Hg.
  destruct (Z.eqb_spec (next_block s) 0); [unfold kernel_wf in Hwf; lia|]. done.
Qed.

(** The analysis from core [lo] on; without the memory for the one report
    that is not checked, no core may have run invalid code. *)
Lemma analyse_cores_spec m todo : forall done_ lo flag s,
  kernel_wf s -> modules_wf m -> zlen done_ = lo ->
  Forall (fun c => callback_count c <> 0 -> readable system_memory (kthread c) 500) todo ->
  (forall n, pool_grants n = true) \/ Forall (fun c => invalid_rip m c = false) todo ->
  exists s', analyse_cores (iota lo (length todo)) (done_ ++ todo) m flag s
             = Ok (STATUS_SUCCESS, s') /\
    leaks s s' (nmi_references m todo) (nmi_reports m todo).
Proof.
  induction todo as [|c l IH]; intros done_ lo flag s Hwf Hm Hlo Hr Hg.
  { eexists. split; [done|]. by apply leaks_of_sends, sends_refl. }
  cbn [length]. rewrite iota_S. cbn [analyse_cores nmi_reports nmi_references].
  apply Forall_cons in Hr as [Hc Hr].
  setoid_rewrite KM_step; [|rewrite <- Hlo; unfold zlen;
    rewrite znth_of_nat, list_lookup_middle by done; done].
  destruct (Z.eqb_spec (callback_count c) 0).
  { unfold ReportNmiBlocking. setoid_rewrite KM_step; [|by apply complete_report_spec].
    eexists. split; [done|]. apply leaks_of_sends. by apply sends_reported. }
  destruct (cid_check_spec s c Hwf) as (s1 & L1 & Hk); [auto|]. rewrite Hk.
  rewrite Forall_cons in Hg.
  assert (invalid_rip m c = false -> forall flag', exists s',
    analyse_cores (iota (lo + 1) (length l)) (done_ ++ c :: l) m flag' s1
      = Ok (STATUS_SUCCESS, s') /\
    leaks s s' (cid_reference c ⊎ nmi_references m l) (cid_report c ++ nmi_reports m l))
    as Hgo.
  { intros _ flag'. destruct (IH (done_ ++ [c]) (lo + 1) flag' s1) as (s' & Hs' & L2);
      [apply L1|done|rewrite zlen_app, zlen_cons, zlen_nil; lia|done|tauto|].
    rewrite <- app_assoc in Hs'. exists s'. split; [done|]. by eapply leaks_trans. }
  assert ((forall n, pool_grants n = true) \/ invalid_rip m c = false) as Hg1 by tauto.
  clear Hg. unfold invalid_rip in *.
  destruct (user_thread c); cbn [negb andb] in *; [by apply Hgo|].
  rewrite region_check_spec by done.
  destruct (Z.eqb_spec (interrupted_rip c) 0); cbn [negb andb] in *; [by apply Hgo|].
  change (NT_SUCCESS STATUS_SUCCESS) with true. cbn [negb].
  destruct (inside m (interrupted_rip c)) eqn:Ei; cbn [negb] in *; [by apply Hgo|].
  destruct Hg1 as [Hg|]; [|done].
  destruct (report_invalid_rip_spec s1 c) as (s2 & H2 & L2); [apply L1|done|].
  setoid_rewrite (KM_step _ _ _ _ _ H2). eexists. split; [done|]. by eapply leaks_trans.
Qed.

Lemma LaunchNonMaskableInterrupt_spec s :
  kernel_wf s -> nmi_env ->
  exists status l s',
    LaunchNonMaskableInterrupt (replicate (Z.to_nat active_processors) zero_context) s
      = Ok ((status, l), s') /\
    kernel_wf s' /\ held s' = held s /\ nmi_status s' = nmi_status s /\ sent s' = sent s /\
    (NT_SUCCESS status = true -> status = STATUS_SUCCESS /\ l = answers) /\
    ((forall n, pool_grants n = true) -> NT_SUCCESS status = true).
Proof.
  intros Hwf He. unfold LaunchNonMaskableInterrupt.
  destruct (alloc_spec s sizeof_KAFFINITY_EX PROC_AFFINITY_POOL Hwf)
    as (p & s1 & Ha & W1 & S1 & N1 & _ & Hp).
  setoid_rewrite (KM_step _ _ _ _ _ Ha).
  destruct (pool_grants (pool_requests s)) eqn:Eg; destruct Hp as [Hp Hh].
  2: { subst p. eexists _, _, _. split; [done|]. split_and!; try done. intros Hg. congruence. }
  destruct (Z.eqb_spec p 0); [lia|].
  unfold lift. setoid_rewrite KM_step; [|by rewrite send_nmis_spec].
  unfold ExFreePoolWithTag. setoid_rewrite KM_step; [|by apply release_last].
  eexists _, _, _. split; [done|]. by split_and!.
Qed.

Lemma answers_readable :
  nmi_env ->
  Forall (fun c => callback_count c <> 0 -> readable system_memory (kthread c) 500) answers.
Proof.
  intros He. apply Forall_fmap, Forall_forall. intros core Hc. cbn. unfold answer.
  apply elem_of_iota in Hc. destruct (nmi_delivered core); [|done].
  destruct (machine_frame core) as [[rip rsp]|]; [|done]. cbn. intros _.
  apply (nmi_threads He). pose proof (nmi_cores He). lia.
Qed.

Lemma length_answers : length answers = Z.to_nat active_processors.
Proof. unfold answers. by rewrite length_fmap, length_iota. Qed.

Lemma nmi_spec_loaded m l :
  modules m = modules loaded_modules ->
  (forall c, invalid_rip m c = invalid_rip loaded_modules c) /\
  nmi_reports m l = nmi_reports loaded_modules l /\
  nmi_references m l = nmi_references loaded_modules l.
Proof.
  destruct m as [p ms]. cbn [modules]. intros ->. split; [done|].
  induction l as [|c l [IH1 IH2]]; [done|]. cbn [nmi_reports nmi_references].
  by rewrite IH1, IH2.
Qed.

Lemma AnalyseNmiData_spec m s :
  kernel_wf s -> modules_wf m -> nmi_env ->
  (forall n, pool_grants n = true) \/ Forall (fun c => invalid_rip m c = false) answers ->
  exists s', AnalyseNmiData (Some answers) (Some m) s = Ok (STATUS_SUCCESS, s') /\
    leaks s s' (nmi_references m answers) (nmi_reports m answers).
Proof.
  intros Hwf Hm He Hg. unfold AnalyseNmiData. rewrite <- length_answers.
  apply (analyse_cores_spec m answers [] 0 false s); [done..| |done].
  by apply answers_readable.
Qed.

Lemma IsNmiInProgress_spec s :
  IsNmiInProgress s = Ok (negb (nmi_status s =? 0),
                          if nmi_status s =? 0 then set_nmi_status 1 s else s).
Proof. unfold IsNmiInProgress. by destruct (nmi_status s =? 0). Qed.

(** Giving back three resources and clearing the flag, in any order: [h] is
    what is held without them. *)
Lemma nmi_cleanup s (r1 r2 r3 : resource) h (status : NTSTATUS) :
  held s = h ⊎ {[+ r1 +]} ⊎ {[+ r2 +]} ⊎ {[+ r3 +]} -> kernel_wf s -> nmi_status s = 1 ->
  exists s',
    (release r1 ≫= fun _ => release r2 ≫= fun _ => release r3 ≫= fun _ =>
     UnsetNmiInProgressFlag ≫= fun _ => mret status) s = Ok (status, s') /\
    held s' = h /\ nmi_status s' = 0 /\ sent s' = sent s /\ kernel_wf s'.
Proof.
  intros Hh Hwf Hn.
  setoid_rewrite KM_step; [|apply (release_last _ (h ⊎ {[+ r2 +]} ⊎ {[+ r3 +]}));
    rewrite Hh; multiset_solver].
  setoid_rewrite KM_step; [|apply (release_last _ (h ⊎ {[+ r3 +]})); cbn; multiset_solver].
  setoid_rewrite KM_step; [|by apply (release_last _ h)].
  eexists. split; [done|]. cbn. by rewrite Hn.
Qed.

(** Two resources. *)
Lemma nmi_cleanup2 s (r1 r2 : resource) h (status : NTSTATUS) :
  held s = h ⊎ {[+ r1 +]} ⊎ {[+ r2 +]} -> kernel_wf s -> nmi_status s = 1 ->
  exists s',
    (release r1 ≫= fun _ => release r2 ≫= fun _ =>
     UnsetNmiInProgressFlag ≫= fun _ => mret status) s = Ok (status, s') /\
    held s' = h /\ nmi_status s' = 0 /\ kernel_wf s'.
Proof.
  intros Hh Hwf Hn.
  setoid_rewrite KM_step; [|apply (release_last _ (h ⊎ {[+ r2 +]})); rewrite Hh; multiset_solver].
  setoid_rewrite KM_step; [|by apply (release_last _ h)].
  eexists. split; [done|]. cbn. by rewrite Hn.
Qed.

Lemma nmi_scan_spec s p h base :
  kernel_wf s -> nmi_status s = 1 ->
  held s = base ⊎ {[+ Block p NMI_CONTEXT_POOL +]} ⊎ {[+ NmiRegistration h +]} ->
  nmi_env -> Forall module_wf query_modules.2 -> NT_SUCCESS query_modules.1.1 = true ->
  (forall n, pool_grants n = true) \/
    Forall (fun c => invalid_rip loaded_modules c = false) answers ->
  exists status s', nmi_scan p h s = Ok (status, s') /\
    nmi_status s' = 0 /\ kernel_wf s' /\
    (held s' = base \/ held s' = base ⊎ nmi_references loaded_modules answers) /\
    ((forall n, pool_grants n = true) -> NT_SUCCESS query_module_size.1 = true ->
     status = STATUS_SUCCESS /\ held s' = base ⊎ nmi_references loaded_modules answers /\
     sent s' = sent s ++ nmi_reports loaded_modules answers).
Proof.
  intros Hwf Hn Hh He Hmods Hq Hg. unfold nmi_scan, ExFreePoolWithTag.
  destruct (GetSystemModuleInformation_spec s Hwf) as (st & m & s1 & H1 & W1 & S1 & N1 & Ho & Hok).
  setoid_rewrite (KM_step _ _ _ _ _ H1). cbn [default from_option id].
  destruct Ho as [(Ef & -> & Hh1)|[(_ & E & _)|(Es & _ & Ha & Hm & Hh1)]].
  - rewrite Ef. cbn [negb].
    destruct (nmi_cleanup2 s1 (NmiRegistration h) (Block p NMI_CONTEXT_POOL) base st)
      as (s' & Hs' & Hh' & Hn' & W'); [rewrite Hh1, Hh; clear; multiset_solver|done|congruence|].
    eexists _, _. split; [exact Hs'|]. split_and!; [done..|by left|].
    intros Hp Hq1. specialize (Hok Hp Hq1 Hq). cbn in Hok. lia.
  - congruence.
  - rewrite Es. cbn [negb].
    destruct (LaunchNonMaskableInterrupt_spec s1 W1 He)
      as (st2 & l & s2 & H2 & W2 & Hh2 & N2 & S2 & Hl & Hp2).
    setoid_rewrite (KM_step _ _ _ _ _ H2).
    assert (modules_wf m) as Hmw by (unfold modules_wf; rewrite Hm; cbn; by apply Forall_take).
    destruct (nmi_spec_loaded m answers Hm) as (Ei & Er & Ef).
    destruct (NT_SUCCESS st2) eqn:E2; cbn [negb].
    + destruct (Hl eq_refl) as [-> ->].
      destruct (AnalyseNmiData_spec m s2 W2 Hmw He) as (s3 & H3 & L3).
      { destruct Hg as [?|Hg]; [by left|right]. eapply Forall_impl; [exact Hg|].
        intros c Hc. cbn in *. by rewrite Ei. }
      setoid_rewrite (KM_step _ _ _ _ _ H3). destruct L3 as [W3 Hh3 N3 S3].
      destruct (nmi_cleanup s3 (Block (address m) SYSTEM_MODULES_POOL) (Block p NMI_CONTEXT_POOL)
        (NmiRegistration h) (base ⊎ nmi_references loaded_modules answers) STATUS_SUCCESS)
        as (s' & Hs' & Hh' & Hn' & Ss' & W');
        [rewrite Hh3, Hh2, Hh1, Hh, Ef; clear; multiset_solver|done|congruence|].
      eexists _, _. split; [exact Hs'|]. split_and!; [done..|by right|].
      intros Hp _. split_and!; [done..|]. by rewrite Ss', S3, S2, S1, Er.
    + destruct (nmi_cleanup s2 (NmiRegistration h) (Block (address m) SYSTEM_MODULES_POOL)
        (Block p NMI_CONTEXT_POOL) base st2)
        as (s' & Hs' & Hh' & Hn' & Ss' & W');
        [rewrite Hh2, Hh1, Hh; clear; multiset_solver|done|congruence|].
      eexists _, _. split; [exact Hs'|]. split_and!; [done..|by left|].
      intros Hp _. specialize (Hp2 Hp). congruence.
Qed.

(** ** Deferred procedure calls *)

Lemma length_captured core : (length (captured core) <= 10)%nat.
Proof. unfold captured, DPC_STACKWALK_STACKFRAME_COUNT. rewrite length_take. lia. Qed.

Lemma KeGenericCallDpc_spec :
  KeGenericCallDpc (iota 0 (Z.to_nat active_processors))
    (replicate (Z.to_nat active_processors) zero_dpc_context)
  = Ok (dpc_answer <$> iota 0 (Z.to_nat active_processors)).
Proof.
  apply each_core_spec. intros core l r Hl Hc. unfold DpcStackwalkCallbackRoutine.
  rewrite (znth_middle l r zero_dpc_context core Hl). fold (captured core).
  rewrite <- Hl at 1. rewrite zset_middle. unfold dpc_answer.
  pose proof (length_captured core). by rewrite u16_small by (unfold zlen; lia).
Qed.

Lemma znth_fmap_iota {X} (g : Z -> X) n core :
  0 <= core < Z.of_nat n -> znth (g <$> iota 0 n) core = Some (g core).
Proof.
  intros Hc. replace core with (Z.of_nat (Z.to_nat core)) at 1 by lia.
  rewrite znth_of_nat, list_lookup_fmap. unfold iota. rewrite list_lookup_fmap.
  rewrite lookup_seq_lt by lia. cbn [fmap option_fmap option_map].
  do 2 f_equal. lia.
Qed.

Lemma CheckForDpcCompletion_spec :
  CheckForDpcCompletion (dpc_answer <$> iota 0 (Z.to_nat active_processors)) = Ok true.
Proof.
  unfold CheckForDpcCompletion.
  assert (forall cores, (forall c, c ∈ cores -> 0 <= c < Z.of_nat (Z.to_nat active_processors)) ->
    completion_loop cores (dpc_answer <$> iota 0 (Z.to_nat active_processors)) = Ok true) as H.
  { induction cores as [|c cores IH]; intros Hc; [done|]. cbn [completion_loop].
    rewrite znth_fmap_iota by (apply Hc, elem_of_cons; by left). cbn [dpc_answer executed negb].
    apply IH. intros c' H'. apply Hc, elem_of_cons. by right. }
  apply H. intros c Hc%elem_of_iota. lia.
Qed.

Lemma frame_loop_spec m frames : forall flag s,
  kernel_wf s -> modules_wf m ->
  exists s', frame_loop frames m flag s = Ok (tt, s') /\ sends s s' (stack_reports m frames).
Proof.
  induction frames as [|rip frames IH]; intros flag s Hwf Hm.
  { eexists. split; [done|]. by apply sends_refl. }
  cbn [frame_loop stack_reports]. rewrite region_check_spec by done.
  destruct (Z.eqb_spec rip 0).
  { eexists. split; [done|]. by apply sends_refl. }
  change (NT_SUCCESS STATUS_SUCCESS) with true. cbn [negb].
  destruct (inside m rip) eqn:Ei; cbn [negb when app].
  { setoid_rewrite KM_step; [|done]. by apply IH. }
  unfold ReportDpcStackwalkViolation. setoid_rewrite KM_step; [|by apply complete_report_spec].
  destruct (IH false (reported s (sizeof DPC_STACKWALK_REPORT)
    (DpcStackwalk REPORT_DPC_STACKWALK calling_thread rip))) as (s' & Hs' & Sd);
    [by apply reported_wf|done|].
  exists s'. split; [done|]. eapply (sends_trans _ _ _ [_]); [|exact Sd]. by apply sends_reported.
Qed.

Lemma ValidateDpcStackFrame_spec m core s :
  kernel_wf s -> modules_wf m ->
  exists s', ValidateDpcStackFrame (dpc_answer core) m s = Ok (tt, s') /\
    sends s s' (stack_reports m (captured core)).
Proof.
  intros Hwf Hm. unfold ValidateDpcStackFrame, dpc_answer. cbn [stack_frame frames_captured].
  rewrite zlen_app. pose proof (zlen_nonneg (drop (length (captured core)) (stack_frame zero_dpc_context))).
  destruct (Z.ltb_spec (zlen (captured core) + zlen (drop (length (captured core))
    (stack_frame zero_dpc_context))) (zlen (captured core))); [lia|].
  unfold zlen. rewrite Nat2Z.id, take_app_length. by apply frame_loop_spec.
Qed.

Lemma ValidateDpcCapturedStack_spec m s :
  kernel_wf s -> modules_wf m ->
  exists s', ValidateDpcCapturedStack m (dpc_answer <$> iota 0 (Z.to_nat active_processors)) s
             = Ok (tt, s') /\
    sends s s' (concat ((fun core => stack_reports m (captured core)) <$>
                          iota 0 (Z.to_nat active_processors))).
Proof.
  intros Hwf Hm. unfold ValidateDpcCapturedStack.
  assert (forall cores s, kernel_wf s ->
    (forall c, c ∈ cores -> 0 <= c < Z.of_nat (Z.to_nat active_processors)) ->
    exists s', mforeach (fun core =>
      c ← of_option OutOfBounds (znth (dpc_answer <$> iota 0 (Z.to_nat active_processors)) core);
      ValidateDpcStackFrame c m) cores s = Ok (tt, s') /\
      sends s s' (concat ((fun core => stack_reports m (captured core)) <$> cores))) as H.
  { clear s Hwf. induction cores as [|core cores IH]; intros s Hwf Hc.
    { eexists. split; [done|]. by apply sends_refl. }
    destruct (ValidateDpcStackFrame_spec m core s Hwf Hm) as (s1 & H1 & S1).
    destruct (IH s1) as (s2 & H2 & S2);
      [apply S1|intros c' H'; apply Hc, elem_of_cons; by right|].
    exists s2. split; [|by eapply sends_trans].
    cbn [mforeach]. setoid_rewrite KM_step; [exact H2|].
    rewrite znth_fmap_iota by (apply Hc, elem_of_cons; by left). by setoid_rewrite KM_step. }
  apply H; [done|]. intros c Hc%elem_of_iota. lia.
Qed.

Lemma stack_reports_loaded m frames :
  modules m = modules loaded_modules -> stack_reports m frames = stack_reports loaded_modules frames.
Proof.
  destruct m as [p ms]. cbn [modules]. intros ->.
  induction frames as [|rip frames IH]; [done|]. cbn [stack_reports]. by rewrite IH.
Qed.

(** The work of the scan between the query and the label [end]. *)
Lemma dpc_body_spec fuel (st : NTSTATUS) m s :
  kernel_wf s -> modules_wf m ->
  exists s',
    (if negb (NT_SUCCESS st) then mret tt
     else
       contexts ← lift (KeGenericCallDpc (iota 0 (Z.to_nat active_processors))
                          (replicate (Z.to_nat active_processors) zero_dpc_context));
       lift (wait_for_dpcs (S fuel) contexts) ≫= fun _ =>
       ValidateDpcCapturedStack m contexts) s = Ok (tt, s') /\
    sends s s' (if NT_SUCCESS st
                then concat ((fun core => stack_reports m (captured core)) <$>
                               iota 0 (Z.to_nat active_processors)) else []).
Proof.
  intros Hwf Hm. destruct (NT_SUCCESS st); cbn [negb].
  2: { eexists. split; [done|]. by apply sends_refl. }
  unfold lift. rewrite KeGenericCallDpc_spec. setoid_rewrite KM_step; [|done].
  cbn [wait_for_dpcs]. rewrite CheckForDpcCompletion_spec. cbn [mbind res_bind negb].
  setoid_rewrite KM_step; [|done]. by apply ValidateDpcCapturedStack_spec.
Qed.

Lemma references_are_not_blocks m l a t : Block a t ∉ nmi_references m l.
Proof.
  induction l as [|c l IH]; cbn [nmi_references]; [multiset_solver|].
  destruct (callback_count c =? 0); [multiset_solver|]. unfold cid_reference.
  rewrite gmultiset_elem_of_disj_union. intros [H|H]; revert H.
  - destruct (idle_thread (kthread c)); [multiset_solver|].
    destruct (PsLookupThreadByThreadId _) as [st t']. destruct (NT_SUCCESS st); multiset_solver.
  - destruct (invalid_rip m c); [multiset_solver|done].
Qed.

Lemma nmi_scan_abandoned s p h :
  kernel_wf s -> nmi_env -> (forall n, pool_grants n = true) ->
  NT_SUCCESS query_module_size.1 = true -> NT_SUCCESS query_modules.1.1 = false ->
  Block 0 SYSTEM_MODULES_POOL ∉ held s -> nmi_scan p h s = Crash BadFree.
Proof.
  intros Hwf He Hg Hq1 Hq2 H0. unfold nmi_scan.
  destruct (GetSystemModuleInformation_spec s Hwf) as (st & m & s1 & H1 & W1 & _ & _ & Ho & _).
  rewrite (KM_step _ _ _ _ _ H1). cbn [default from_option id].
  destruct (query_abandoned s st m s1) as (-> & -> & Hh1); [done..|].
  change (NT_SUCCESS STATUS_ABANDONED) with true. cbn [negb].
  destruct (LaunchNonMaskableInterrupt_spec s1 W1 He)
    as (st2 & l & s2 & H2 & W2 & Hh2 & _ & _ & Hl & Hp2).
  rewrite (KM_step _ _ _ _ _ H2). destruct (Hl (Hp2 Hg)) as [-> ->].
  change (NT_SUCCESS STATUS_SUCCESS) with true. cbn [negb].
  destruct (AnalyseNmiData_spec no_modules s2 W2) as (s3 & H3 & L3); [by constructor|done|by left|].
  rewrite (KM_step _ _ _ _ _ H3). unfold ExFreePoolWithTag, release, mbind, KM_bind.
  rewrite decide_False; [done|]. rewrite (leaks_held _ _ _ _ L3), Hh2, Hh1.
  rewrite gmultiset_elem_of_disj_union. intros [?|?]; [done|].
  by eapply references_are_not_blocks.
Qed.

End lemmas.

(** ** Properties *)

Section properties.
Context {P : Pool} {K : ReportSink} {A : SystemApi} {U : CpuApi}.


(** The module query's failure code passes for success.  If the second
    [RtlQueryModuleInformation] fails, [GetSystemModuleInformation] frees the list
    and returns STATUS_ABANDONED, which [NT_SUCCESS] accepts; the interrupt scan
    goes on with an empty list and finally frees a null pointer. *)
Theorem abandoned_module_query_frees_null s entries :
  kernel_wf s -> hal_env entries -> nmi_env -> Forall module_wf query_modules.2 ->
  (forall n, pool_grants n = true) -> (forall tag, Block 0 tag ∉ held s) ->
  NT_SUCCESS query_module_size.1 = true -> NT_SUCCESS query_modules.1.1 = false ->
  KeRegisterNmiCallback <> 0 -> nmi_status s = 0 ->
  HandleNmiIOCTL s = Crash BadFree.
Proof.
  intros Hwf Hhal He Hmods Hg H0 Hq1 Hq2 Hreg Hz. unfold HandleNmiIOCTL.
  rewrite (KM_step _ _ _ _ _ (IsNmiInProgress_spec s)), Hz. cbn [negb Z.eqb].
  destruct (hal_tables_spec (set_nmi_status 1 s) entries) as (st1 & s1 & _ & H1 & W1 & Hh1 & _);
    [done..|]. rewrite (KM_step _ _ _ _ _ H1).
  destruct (alloc_spec s1 (u32 (active_processors * sizeof NMI_CONTEXT_layout)) NMI_CONTEXT_POOL W1)
    as (p & s2 & H2 & W2 & _ & _ & _ & Hp). rewrite Hg in Hp. destruct Hp as [Hp Hh2].
  rewrite (KM_step _ _ _ _ _ H2). destruct (Z.eqb_spec p 0); [lia|].
  destruct (Z.eqb_spec KeRegisterNmiCallback 0); [done|].
  erewrite KM_step by done. apply nmi_scan_abandoned; [done..|].
  cbn [held set_held]. rewrite Hh2, Hh1. cbn [held set_nmi_status].
  rewrite !gmultiset_elem_of_disj_union, !gmultiset_elem_of_singleton.
  intros [[Hin|E]|E]; [by apply (H0 SYSTEM_MODULES_POOL)| |done]. injection E as E _. lia.
Qed.

(** The stack scan by deferred procedure calls.  One round of waiting is
    enough: the calls have run on every core when the loop starts.  The scan
    gives back all memory on every path; when nothing fails it sends one report
    for each captured return address (at most ten per core, in order, up to the
    first null one) that lies outside all modules, and no other. *)
Theorem dpc_scan_reports_foreign_frames s fuel :
  kernel_wf s -> Forall module_wf query_modules.2 ->
  exists status s',
    DispatchStackwalkToEachCpuViaDpc (S fuel) s = Ok (status, s') /\
    held s' = held s /\ nmi_status s' = nmi_status s /\
    ((forall n, pool_grants n = true) -> NT_SUCCESS query_module_size.1 = true ->
     NT_SUCCESS query_modules.1.1 = true ->
     NT_SUCCESS status = true /\
     sent s' = sent s ++ concat ((fun core => stack_reports loaded_modules (captured core)) <$>
                                   iota 0 (Z.to_nat active_processors))).
Proof.
  intros Hwf Hmods. unfold DispatchStackwalkToEachCpuViaDpc.
  destruct (alloc_spec s (u32 (active_processors * sizeof DPC_CONTEXT_layout)) POOL_TAG_DPC Hwf)
    as (p & s1 & H1 & W1 & S1 & N1 & _ & Hp). setoid_rewrite (KM_step _ _ _ _ _ H1).
  destruct (pool_grants (pool_requests s)) eqn:Eg; destruct Hp as [Hp Hh1].
  2: { subst p. cbn [Z.eqb]. eexists _, _. split; [done|]. split_and!; [done..|].
       intros Hall. congruence. }
  destruct (Z.eqb_spec p 0); [lia|].
  destruct (GetSystemModuleInformation_spec s1 W1) as (st & m & s2 & H2 & W2 & S2 & N2 & Ho & Hok).
  setoid_rewrite (KM_step _ _ _ _ _ H2). cbn [default from_option id].
  pose proof (module_query_wf _ _ _ _ Hmods Ho) as Hm.
  destruct (dpc_body_spec fuel st m s2 W2 Hm) as (s3 & H3 & Sd).
  setoid_rewrite (KM_step _ _ _ _ _ H3).
  destruct (free_module_list_spec _ _ _ _ _ _ Ho Sd) as (s4 & H4 & W4 & Hh4 & N4 & S4).
  setoid_rewrite (KM_step _ _ _ _ _ H4). unfold free_if_set, ExFreePoolWithTag.
  destruct (Z.eqb_spec p 0); [lia|]. rewrite Hh1 in Hh4.
  setoid_rewrite (KM_step _ _ _ _ _ (release_last s4 _ _ Hh4)).
  eexists _, _. split; [done|]. cbn. split_and!; [done| |].
  - rewrite N4, (sends_nmi _ _ _ Sd). congruence.
  - intros Hall Hq1 Hq2. specialize (Hok Hall Hq1 Hq2).
    destruct Ho as [(_ & -> & _)|[(_ & _ & -> & _)|(Es & _ & _ & Hml & _)]]; [cbn in Hok; lia..|].
    split; [done|]. rewrite S4, (sends_sent _ _ _ Sd) by done. rewrite Es, S2, S1. do 2 f_equal.
    apply list_fmap_ext. intros _ core _. by apply stack_reports_loaded.
Qed.

End properties.

(** ** Witnesses *)

(** Two cores: core 0 runs a known thread, core 1 an unknown one; both are
    interrupted in code outside the module at 0x1000. *)
Definition sample_cpus : CpuApi := {|
  active_processors := 2;
  gs_base := fun _ => 0x100;
  current_thread := fun core => 0x700 + core;
  nmi_delivered := fun _ => true;
  KeRegisterNmiCallback := 0x33;
  PsGetThreadId := fun thread => thread;
  PsLookupThreadByThreadId := fun id =>
    if id =? 0x700 then (STATUS_SUCCESS, 0x700) else (STATUS_INVALID_PARAMETER, 0);
  calling_thread := 0x800;
  RtlCaptureStackBackTrace := fun core => if core =? 0 then [0x1800; 0x5000] else [0; 0x5000];
|}.

Definition abandoning_api : (string -> Z) -> SystemApi :=
  machine (STATUS_INFO_LENGTH_MISMATCH, 544, []).

Lemma sample_nmi_env q : nmi_env (A := machine q (fun _ => 0x5000)) (U := sample_cpus).
Proof.
  split; cbn.
  - lia.
  - intros core _ _. by eexists.
  - intros core _ i _. by eexists.
Qed.


Lemma abandoned_module_query_frees_null_witness :
  HandleNmiIOCTL (P := always_grants) (K := always_succeeds)
    (A := abandoning_api (fun _ => 0x5000)) (U := sample_cpus) idle_kernel = Crash BadFree.
Proof.
  apply (abandoned_module_query_frees_null (P := always_grants) (K := always_succeeds)
    (A := abandoning_api (fun _ => 0x5000)) (U := sample_cpus) idle_kernel
    (replicate 149 0x9090909090909090)).
  - unfold kernel_wf. cbn. lia.
  - apply sample_hal_env. done.
  - apply sample_nmi_env.
  - constructor.
  - reflexivity.
  - intros tag. apply gmultiset_not_elem_of_empty.
  - reflexivity.
  - reflexivity.
  - done.
  - reflexivity.
Defined.

Lemma dpc_scan_reports_foreign_frames_witness :
  exists status s', DispatchStackwalkToEachCpuViaDpc (P := always_grants) (K := always_succeeds)
      (A := sample_api (fun _ => 0x5000)) (U := sample_cpus) 1 idle_kernel = Ok (status, s') /\
    sent s' = [(DpcStackwalk REPORT_DPC_STACKWALK 0x800 0x5000, sizeof DPC_STACKWALK_REPORT)].
Proof.
  destruct (dpc_scan_reports_foreign_frames (P := always_grants) (K := always_succeeds)
    (A := sample_api (fun _ => 0x5000)) (U := sample_cpus) idle_kernel 0)
    as (status & s' & H & _ & _ & Hok).
  - unfold kernel_wf. cbn. lia.
  - constructor; [|constructor]. unfold module_wf. cbn. lia.
  - exists status, s'. split; [exact H|]. destruct Hok as [_ ->]; [reflexivity..|].
    vm_compute. reflexivity.
Defined.
