(* ===== verification/Drivers.v ===== *)
(** * modules.c: validation of driver objects

    The driver walks the object directory of loaded drivers, collects in a
    singly linked list those without a backing module and those whose
    device-control routine lies neither in their own module nor in a
    whitelisted one, and reports up to twenty of them. *)

From stdpp Require Import gmultiset.
From S2P Require Import Prelude Layout Irp Structs Kernel Modules.

(** ** Data *)

(** The fields of [DRIVER_OBJECT] the checks read; [MajorFunction] is the entry
    for IRP_MJ_DEVICE_CONTROL. *)
Record DRIVER_OBJECT := DriverObject {
  DriverStart : Z;
  DriverSize : Z;
  DriverName : string;
  DeviceObject : Z;
  MajorFunction : Z;
}.

Record WHITELISTED_REGIONS := Region { base : Z; end_ : Z }.

(** A list entry at address [entry]. *)
Record INVALID_DRIVER := InvalidDriver {
  entry : Z;
  reason : Z;
  driver : DRIVER_OBJECT;
}.

(** [first_entry] holds the chain of entries, the first one first. *)
Record INVALID_DRIVERS_HEAD := DriversHead {
  first_entry : list INVALID_DRIVER;
  count : Z;
}.

Definition REASON_NO_BACKING_MODULE : Z := 1.
Definition REASON_INVALID_IOCTL_DISPATCH : Z := 2.
Definition WHITELISTED_MODULE_COUNT : Z := 11.
Definition MODULE_MAX_STRING_SIZE : Z := 256.
Definition NUMBER_HASH_BUCKETS : Z := 37.
Definition MODULE_VALIDATION_FAILURE_MAX_REPORT_COUNT : Z := 20.
Definition MODULE_REPORT_DRIVER_NAME_BUFFER_SIZE : Z := 128.
Definition WHITELISTED_MODULE_TAG : Z := 0x77687465.
Definition INVALID_DRIVER_LIST_HEAD_POOL : Z := 0x72776172.
Definition INVALID_DRIVER_LIST_ENTRY_POOL : Z := 0x67616168.
Definition INVALID_DRIVER_layout : cty := St [("next", PVOID); ("reason", Int 4); ("driver", PVOID)].
Definition INVALID_DRIVERS_HEAD_layout : cty := St [("first_entry", PVOID); ("count", Int 4)].

Definition WHITELISTED_MODULES : list string :=
  ["ntoskrnl.exe"; "CLASSPNP.SYS"; "Wdf01000.sys"; "HIDCLASS.SYS"; "storport.sys";
   "dxgkrnl.sys"; "ndis.sys"; "ks.sys"; "portcls.sys"; "rdbss.sys"; "LXCORE.SYS"]%string.

(** The object manager: the \Driver directory with its hash buckets, each a
    chain of driver objects, and the conversion of a driver's name to at most
    127 ANSI characters. *)
Class ObjectApi := {
  ZwOpenDirectoryObject : NTSTATUS * Z;
  ObReferenceObjectByHandle : NTSTATUS * Z;
  HashBuckets : list (list DRIVER_OBJECT);
  RtlUnicodeStringToAnsiString : string -> list Z;
}.

(** ** The checks of one driver *)

(** The loop over the whitelisted names. *)
Fixpoint whitelist_loop (names : list string) (index : Z) (Buffer : list WHITELISTED_REGIONS)
  (SystemModules : SYSTEM_MODULES) : list WHITELISTED_REGIONS :=
  match names with
  | [] => Buffer
  | name :: names =>
      let Buffer :=
        match FindSystemModuleByName (Some name) (Some SystemModules) with
        | None => Buffer
        | Some module =>
            zset Buffer index
              (Region (ImageBase module) (u64 (ImageBase module + ImageSize module)))
        end in
      whitelist_loop names (index + 1) Buffer SystemModules
  end.

Definition PopulateWhitelistedModuleBuffer (Buffer : option (list WHITELISTED_REGIONS))
  (SystemModules : option SYSTEM_MODULES) : NTSTATUS * option (list WHITELISTED_REGIONS) :=
  match Buffer, SystemModules with
  | Some buffer, Some m => (STATUS_SUCCESS, Some (whitelist_loop WHITELISTED_MODULES 0 buffer m))
  | _, _ => (STATUS_INVALID_PARAMETER, Buffer)
  end.

Definition in_whitelist (dispatch : Z) (regions : list WHITELISTED_REGIONS) : bool :=
  existsb (fun r => (base r <=? dispatch) && (dispatch <=? end_ r)) regions.

(** The result flag, [None] when nothing is stored through the pointer. *)
Definition ValidateDriverIOCTLDispatchRegion (Driver : option DRIVER_OBJECT)
  (Modules : option SYSTEM_MODULES) (WhitelistedRegions : option (list WHITELISTED_REGIONS))
  : NTSTATUS * option bool :=
  match Driver, Modules, WhitelistedRegions with
  | Some Driver, Some Modules, Some regions =>
      let dispatch_function := MajorFunction Driver in
      if dispatch_function =? 0 then (STATUS_SUCCESS, Some true)
      else
        (fix go (l : list RTL_MODULE_EXTENDED_INFO) :=
           match l with
           | [] => (STATUS_SUCCESS, Some true)
           | module :: l =>
               if negb (ImageBase module =? DriverStart Driver) then go l
               else if DeviceObject Driver =? 0 then (STATUS_SUCCESS, Some true)
               else
                 let module_base := ImageBase module in
                 let module_end := u64 (module_base + ImageSize module) in
                 if (module_base <=? dispatch_function) && (dispatch_function <=? module_end)
                 then (STATUS_SUCCESS, Some true)
                 else if in_whitelist dispatch_function
                           (take (Z.to_nat WHITELISTED_MODULE_COUNT) regions)
                 then (STATUS_SUCCESS, Some true)
                 else (STATUS_SUCCESS, Some false)
           end) (modules Modules)
  | _, _, _ => (STATUS_INVALID_PARAMETER, None)
  end.

Definition ValidateDriverObjectHasBackingModule (ModuleInformation : option SYSTEM_MODULES)
  (DriverObject : option DRIVER_OBJECT) : NTSTATUS * option bool :=
  match ModuleInformation, DriverObject with
  | Some m, Some driver =>
      (fix go (l : list RTL_MODULE_EXTENDED_INFO) :=
         match l with
         | [] => (STATUS_SUCCESS, Some false)
         | module :: l =>
             if (ImageSize module =? 0) || (ImageBase module =? 0)
             then (STATUS_INVALID_MEMBER, None)
             else if ImageBase module =? DriverStart driver then (STATUS_SUCCESS, Some true)
             else go l
         end) (modules m)
  | _, _ => (STATUS_INVALID_PARAMETER, None)
  end.

(** ** The list of invalid drivers *)

Section operations.
Context {P : Pool} {K : ReportSink} {A : SystemApi} {Ob : ObjectApi}.
Abbreviation M := (KM kernel).

Definition InitDriverList : INVALID_DRIVERS_HEAD := DriversHead [] 0.

Definition AddDriverToList (InvalidDriversHead : INVALID_DRIVERS_HEAD) (Driver : DRIVER_OBJECT)
  (Reason : Z) : M (NTSTATUS * INVALID_DRIVERS_HEAD) :=
  new_entry ← ExAllocatePool2 (sizeof INVALID_DRIVER_layout) INVALID_DRIVER_LIST_ENTRY_POOL;
  if new_entry =? 0 then mret (STATUS_MEMORY_NOT_ALLOCATED, InvalidDriversHead)
  else mret (STATUS_SUCCESS,
             DriversHead (InvalidDriver new_entry Reason Driver
                          :: first_entry InvalidDriversHead) (count InvalidDriversHead)).

Definition RemoveInvalidDriverFromList (InvalidDriversHead : INVALID_DRIVERS_HEAD)
  : M INVALID_DRIVERS_HEAD :=
  match first_entry InvalidDriversHead with
  | [] => mret InvalidDriversHead
  | e :: rest =>
      ExFreePoolWithTag (entry e) INVALID_DRIVER_LIST_ENTRY_POOL ≫= fun _ =>
      mret (DriversHead rest (count InvalidDriversHead))
  end.

(** Adding an entry and counting it when that succeeds. *)
Definition add_and_count (flag : bool) (Head : INVALID_DRIVERS_HEAD) (Driver : DRIVER_OBJECT)
  (Reason : Z) : M INVALID_DRIVERS_HEAD :=
  if flag then mret Head
  else
    '(status, Head) ← AddDriverToList Head Driver Reason;
    if NT_SUCCESS status then mret (DriversHead (first_entry Head) (s32 (count Head + 1)))
    else mret Head.

(** One chain of the directory. *)
Fixpoint ValidateDriverObjects (SystemModules : SYSTEM_MODULES) (Entry : list DRIVER_OBJECT)
  (Head : INVALID_DRIVERS_HEAD) (Whitelist : list WHITELISTED_REGIONS)
  : M INVALID_DRIVERS_HEAD :=
  match Entry with
  | [] => mret Head
  | current_driver :: Entry =>
      let '(status, flag) :=
        ValidateDriverObjectHasBackingModule (Some SystemModules) (Some current_driver) in
      if negb (NT_SUCCESS status) then mret Head
      else
        Head ← add_and_count (default false flag) Head current_driver REASON_NO_BACKING_MODULE;
        let '(status, flag) :=
          ValidateDriverIOCTLDispatchRegion (Some current_driver) (Some SystemModules)
            (Some Whitelist) in
        if negb (NT_SUCCESS status) then mret Head
        else
          Head ← add_and_count (default false flag) Head current_driver
                   REASON_INVALID_IOCTL_DISPATCH;
          ValidateDriverObjects SystemModules Entry Head Whitelist
  end.

(** All chains of the directory. *)
Fixpoint bucket_loop (buckets : list (list DRIVER_OBJECT)) (SystemModules : SYSTEM_MODULES)
  (Head : INVALID_DRIVERS_HEAD) (Whitelist : list WHITELISTED_REGIONS)
  : M INVALID_DRIVERS_HEAD :=
  match buckets with
  | [] => mret Head
  | entry :: buckets =>
      Head ← ValidateDriverObjects SystemModules entry Head Whitelist;
      bucket_loop buckets SystemModules Head Whitelist
  end.

(** The buffer has room for all regions and starts out zeroed. *)
Definition zero_regions : list WHITELISTED_REGIONS :=
  replicate (Z.to_nat (WHITELISTED_MODULE_COUNT * MODULE_MAX_STRING_SIZE / 16)) (Region 0 0).

(** The walk under the directory's lock: the whitelist, the chains, and
    freeing the whitelist. *)
Definition locked_walk (modules : SYSTEM_MODULES) (head : INVALID_DRIVERS_HEAD)
  : M INVALID_DRIVERS_HEAD :=
  whitelisted_regions_buffer ←
    ExAllocatePool2 (WHITELISTED_MODULE_COUNT * MODULE_MAX_STRING_SIZE) WHITELISTED_MODULE_TAG;
  if whitelisted_regions_buffer =? 0 then mret head
  else
    let '(status, whitelist) :=
      PopulateWhitelistedModuleBuffer (Some zero_regions) (Some modules) in
    head ← (if negb (NT_SUCCESS status) then mret head
            else bucket_loop (take (Z.to_nat NUMBER_HASH_BUCKETS) HashBuckets) modules
                   head (default zero_regions whitelist));
    ExFreePoolWithTag whitelisted_regions_buffer WHITELISTED_MODULE_TAG ≫= fun _ =>
    mret head.

Definition ValidateDriverObjectsWrapper (SystemModules : option SYSTEM_MODULES)
  (Head : option INVALID_DRIVERS_HEAD) : M (NTSTATUS * option INVALID_DRIVERS_HEAD) :=
  match SystemModules, Head with
  | Some modules, Some head =>
      let '(status, handle) := ZwOpenDirectoryObject in
      if negb (NT_SUCCESS status) then mret (status, Head)
      else
        acquire (OpenHandle handle) ≫= fun _ =>
        let '(status, directory) := ObReferenceObjectByHandle in
        if negb (NT_SUCCESS status) then
          release (OpenHandle handle) ≫= fun _ =>
          mret (status, Head)
        else
          acquire (Reference directory) ≫= fun _ =>
          acquire (PushLock directory) ≫= fun _ =>
          head ← locked_walk modules head;
          release (PushLock directory) ≫= fun _ =>
          release (Reference directory) ≫= fun _ =>
          release (OpenHandle handle) ≫= fun _ =>
          mret (STATUS_SUCCESS, Some head)
  | _, _ => mret (STATUS_INVALID_PARAMETER, Head)
  end.

(** ** The request *)

Definition driver_report (e : INVALID_DRIVER) : report :=
  ModuleValidationFailure REPORT_MODULE_VALIDATION_FAILURE (reason e)
    (DriverStart (driver e)) (DriverSize (driver e))
    (RtlUnicodeStringToAnsiString (DriverName (driver e))).

(** The reporting loop: [n] rounds are left and [index] is the next one; the
    result is the status of the last step that set it. *)
Fixpoint report_loop (n : nat) (index : Z) (head : INVALID_DRIVERS_HEAD) (status : NTSTATUS)
  : M (NTSTATUS * INVALID_DRIVERS_HEAD) :=
  match n with
  | O => mret (status, head)
  | S n =>
      if MODULE_VALIDATION_FAILURE_MAX_REPORT_COUNT <=? index then
        head ← RemoveInvalidDriverFromList head;
        report_loop n (index + 1) head status
      else
        report ← ExAllocatePool2 (sizeof MODULE_VALIDATION_FAILURE) POOL_TAG_INTEGRITY;
        if report =? 0 then report_loop n (index + 1) head status
        else
          e ← of_option NullDereference (list.head (first_entry head));
          status ← send_report report POOL_TAG_INTEGRITY (driver_report e)
                     (sizeof MODULE_VALIDATION_FAILURE);
          if negb (NT_SUCCESS status) then report_loop n (index + 1) head status
          else
            head ← RemoveInvalidDriverFromList head;
            report_loop n (index + 1) head status
  end.

Definition HandleValidateDriversIOCTL : M NTSTATUS :=
  '(status, m) ← GetSystemModuleInformation (Some no_modules);
  let system_modules := default no_modules m in
  if negb (NT_SUCCESS status) then mret status
  else
    head ← ExAllocatePool2 (sizeof INVALID_DRIVERS_HEAD_layout) INVALID_DRIVER_LIST_HEAD_POOL;
    if head =? 0 then
      ExFreePoolWithTag (address system_modules) SYSTEM_MODULES_POOL ≫= fun _ =>
      mret STATUS_MEMORY_NOT_ALLOCATED
    else
      '(status, list) ← ValidateDriverObjectsWrapper (Some system_modules) (Some InitDriverList);
      let list := default InitDriverList list in
      status ←
        (if negb (NT_SUCCESS status) then mret status
         else if count list =? 0 then mret status
         else
           '(status, _) ← report_loop (Z.to_nat (count list)) 0 list status;
           mret status);
      ExFreePoolWithTag head INVALID_DRIVER_LIST_HEAD_POOL ≫= fun _ =>
      ExFreePoolWithTag (address system_modules) SYSTEM_MODULES_POOL ≫= fun _ =>
      mret status.

(** ** Looking up a driver by name *)

Fixpoint search_chain (name : string) (chain : list DRIVER_OBJECT) : option DRIVER_OBJECT :=
  match chain with
  | [] => None
  | current_driver :: chain =>
      if String.eqb name (DriverName current_driver) then Some current_driver
      else search_chain name chain
  end.

Fixpoint search_buckets (name : string) (buckets : list (list DRIVER_OBJECT))
  : option DRIVER_OBJECT :=
  match buckets with
  | [] => None
  | chain :: buckets =>
      match search_chain name chain with
      | Some driver => Some driver
      | None => search_buckets name buckets
      end
  end.

Definition GetDriverObjectByDriverName (Name : string) : M (NTSTATUS * option DRIVER_OBJECT) :=
  let '(status, handle) := ZwOpenDirectoryObject in
  if negb (NT_SUCCESS status) then mret (status, None)
  else
    acquire (OpenHandle handle) ≫= fun _ =>
    let '(status, directory) := ObReferenceObjectByHandle in
    if negb (NT_SUCCESS status) then
      release (OpenHandle handle) ≫= fun _ =>
      mret (status, None)
    else
      acquire (Reference directory) ≫= fun _ =>
      acquire (PushLock directory) ≫= fun _ =>
      let found := search_buckets Name (take (Z.to_nat NUMBER_HASH_BUCKETS) HashBuckets) in
      release (PushLock directory) ≫= fun _ =>
      release (Reference directory) ≫= fun _ =>
      release (OpenHandle handle) ≫= fun _ =>
      mret (STATUS_SUCCESS, found).

End operations.

(** ** Specification *)

Definition backed (m : SYSTEM_MODULES) (d : DRIVER_OBJECT) : bool :=
  existsb (fun i => ImageBase i =? DriverStart d) (modules m).

(** The module a driver was loaded from. *)
Definition home (m : SYSTEM_MODULES) (d : DRIVER_OBJECT) : option RTL_MODULE_EXTENDED_INFO :=
  head (filter (fun i => ImageBase i = DriverStart d) (modules m)).

Definition whitelisted (m : SYSTEM_MODULES) (a : Z) : bool :=
  existsb (fun name => match FindSystemModuleByName (Some name) (Some m) with
                       | Some module => covers module a
                       | None => false
                       end) WHITELISTED_MODULES.

(** A device-control routine is acceptable if there is none, if the driver has
    no module or no device, or if it lies in the driver's module or in a
    whitelisted one. *)
Definition dispatch_valid (m : SYSTEM_MODULES) (d : DRIVER_OBJECT) : bool :=
  (MajorFunction d =? 0) ||
  match home m d with
  | None => true
  | Some module =>
      (DeviceObject d =? 0) || covers module (MajorFunction d) || whitelisted m (MajorFunction d)
  end.

Definition violations (m : SYSTEM_MODULES) (d : DRIVER_OBJECT) : list (Z * DRIVER_OBJECT) :=
  (if backed m d then [] else [(REASON_NO_BACKING_MODULE, d)]) ++
  (if dispatch_valid m d then [] else [(REASON_INVALID_IOCTL_DISPATCH, d)]).

Definition all_violations (m : SYSTEM_MODULES) (ds : list DRIVER_OBJECT) : list (Z * DRIVER_OBJECT) :=
  concat (violations m <$> ds).

Definition modules_set (m : SYSTEM_MODULES) : Prop :=
  Forall (fun i => ImageSize i <> 0 /\ ImageBase i <> 0) (modules m).

Definition what (e : INVALID_DRIVER) : Z * DRIVER_OBJECT := (reason e, driver e).

Definition entry_blocks (l : list INVALID_DRIVER) : gmultiset resource :=
  list_to_set_disj ((fun e => Block (entry e) INVALID_DRIVER_LIST_ENTRY_POOL) <$> l).

(** [h'] is [h] with entries for (some of) the violations [vs] in front, the
    latest first; the pool blocks of the new entries are held. *)
Record collects {P : Pool} (s : kernel) (h : INVALID_DRIVERS_HEAD) (s' : kernel)
  (h' : INVALID_DRIVERS_HEAD) (new : list INVALID_DRIVER) (vs : list (Z * DRIVER_OBJECT))
  : Prop := {
  co_wf : kernel_wf s';
  co_list : first_entry h' = new ++ first_entry h;
  co_count : count h' = count h + zlen new;
  co_what : what <$> new `sublist_of` reverse vs;
  co_held : held s' = held s ⊎ entry_blocks new;
  co_sent : sent s' = sent s;
  co_nmi : nmi_status s' = nmi_status s;
  co_all : (forall n, pool_grants n = true) -> what <$> new = reverse vs;
}.

(** ** Lemmas *)

Lemma backing_spec m d :
  modules_set m ->
  ValidateDriverObjectHasBackingModule (Some m) (Some d) = (STATUS_SUCCESS, Some (backed m d)).
Proof.
  unfold ValidateDriverObjectHasBackingModule, backed, modules_set.
  induction (modules m) as [|i l IH]; intros Hm; [done|].
  apply Forall_cons in Hm as [[H1 H2] Hm]. cbn [existsb].
  destruct (Z.eqb_spec (ImageSize i) 0), (Z.eqb_spec (ImageBase i) 0); try done. cbn [orb].
  destruct (ImageBase i =? DriverStart d); [done|]. by apply IH.
Qed.

Definition region_of (m : SYSTEM_MODULES) (name : string) : WHITELISTED_REGIONS :=
  match FindSystemModuleByName (Some name) (Some m) with
  | None => Region 0 0
  | Some module => Region (ImageBase module) (u64 (ImageBase module + ImageSize module))
  end.

Lemma whitelist_loop_spec m names : forall l rest,
  whitelist_loop names (zlen l) (l ++ replicate (length names) (Region 0 0) ++ rest) m
  = l ++ (region_of m <$> names) ++ rest.
Proof.
  induction names as [|name names IH]; intros l rest; [done|].
  cbn [whitelist_loop length replicate fmap list_fmap app].
  assert ((match FindSystemModuleByName (Some name) (Some m) with
           | Some module =>
               zset (l ++ Region 0 0 :: replicate (length names) (Region 0 0) ++ rest) (zlen l)
                 (Region (ImageBase module) (u64 (ImageBase module + ImageSize module)))
           | None => l ++ Region 0 0 :: replicate (length names) (Region 0 0) ++ rest
           end) = l ++ region_of m name :: replicate (length names) (Region 0 0) ++ rest) as ->.
  { unfold region_of. destruct (FindSystemModuleByName (Some name) (Some m)); [|done].
    by rewrite zset_middle. }
  rewrite !(cons_middle (region_of m name)), !app_assoc.
  replace (zlen l + 1) with (zlen (l ++ [region_of m name]))
    by (rewrite zlen_app, zlen_cons, zlen_nil; lia).
  rewrite <- (app_assoc _ (replicate _ _)), IH. by rewrite <- !app_assoc.
Qed.

Lemma populate_spec m :
  exists buffer,
    PopulateWhitelistedModuleBuffer (Some zero_regions) (Some m) = (STATUS_SUCCESS, Some buffer) /\
    take (Z.to_nat WHITELISTED_MODULE_COUNT) buffer = region_of m <$> WHITELISTED_MODULES.
Proof.
  exists ((region_of m <$> WHITELISTED_MODULES) ++ replicate 165 (Region 0 0)). split; [|done].
  unfold PopulateWhitelistedModuleBuffer. do 2 f_equal.
  exact (whitelist_loop_spec m WHITELISTED_MODULES [] (replicate 165 (Region 0 0))).
Qed.

Lemma find_elem name m module :
  FindSystemModuleByName (Some name) (Some m) = Some module -> module ∈ modules m.
Proof.
  rewrite FindSystemModuleByName_spec. intros H. apply head_Some_elem_of in H.
  by apply list_elem_of_filter in H as [_ ?].
Qed.

Lemma in_whitelist_spec m a :
  modules_wf m -> a <> 0 ->
  in_whitelist a (region_of m <$> WHITELISTED_MODULES) = whitelisted m a.
Proof.
  intros Hm Ha. unfold in_whitelist, whitelisted.
  induction WHITELISTED_MODULES as [|name names IH]; [done|]. cbn [fmap list_fmap existsb].
  rewrite IH. f_equal. unfold region_of.
  destruct (FindSystemModuleByName (Some name) (Some m)) as [i|] eqn:E; cbn [base end_].
  - apply covers_u64. eapply (proj1 (Forall_forall _ _) Hm). by eapply find_elem.
  - destruct (Z.leb_spec 0 a), (Z.leb_spec a 0); try done. lia.
Qed.

Lemma dispatch_spec m d buffer :
  modules_wf m ->
  take (Z.to_nat WHITELISTED_MODULE_COUNT) buffer = region_of m <$> WHITELISTED_MODULES ->
  ValidateDriverIOCTLDispatchRegion (Some d) (Some m) (Some buffer)
  = (STATUS_SUCCESS, Some (dispatch_valid m d)).
Proof.
  intros Hm Hb. unfold ValidateDriverIOCTLDispatchRegion, dispatch_valid, home.
  destruct (Z.eqb_spec (MajorFunction d) 0) as [|Hd]; [done|]. cbn [orb].
  rewrite Hb, in_whitelist_spec by done. unfold modules_wf in Hm. revert Hm.
  generalize (whitelisted m (MajorFunction d)). intros w.
  induction (modules m) as [|i l IH]; intros Hm; [done|].
  apply Forall_cons in Hm as [Hi Hm]. rewrite filter_cons.
  destruct (Z.eqb_spec (ImageBase i) (DriverStart d)) as [E|E]; cbn [negb].
  - rewrite decide_True by done. cbn [head]. destruct (DeviceObject d =? 0); [done|].
    rewrite covers_u64 by done. cbn [orb]. by destruct (covers i (MajorFunction d)), w.
  - rewrite decide_False by done. by apply IH.
Qed.

Lemma entry_blocks_app k l : entry_blocks (k ++ l) = entry_blocks k ⊎ entry_blocks l.
Proof. unfold entry_blocks. by rewrite fmap_app, list_to_set_disj_app. Qed.

Lemma entry_blocks_cons e l :
  entry_blocks (e :: l)
  = entry_blocks l ⊎ {[+ Block (entry e) INVALID_DRIVER_LIST_ENTRY_POOL +]}.
Proof.
  unfold entry_blocks. cbn [fmap list_fmap]. rewrite list_to_set_disj_cons. multiset_solver.
Qed.

Lemma entry_blocks_nil : entry_blocks [] = ∅.
Proof. done. Qed.

Lemma collects_refl {P : Pool} s h : kernel_wf s -> collects s h s h [] [].
Proof.
  intros. split; try done.
  - rewrite zlen_nil. lia.
  - rewrite entry_blocks_nil. multiset_solver.
Qed.

Lemma collects_trans {P : Pool} s1 h1 s2 h2 s3 h3 n1 n2 v1 v2 :
  collects s1 h1 s2 h2 n1 v1 -> collects s2 h2 s3 h3 n2 v2 ->
  collects s1 h1 s3 h3 (n2 ++ n1) (v1 ++ v2).
Proof.
  intros [W1 L1 C1 S1 H1 E1 N1 A1] [W2 L2 C2 S2 H2 E2 N2 A2]. split; [done|..].
  - by rewrite L2, L1, app_assoc.
  - rewrite C2, C1, zlen_app. lia.
  - rewrite fmap_app, reverse_app. by apply sublist_app.
  - rewrite H2, H1, entry_blocks_app. multiset_solver.
  - congruence.
  - congruence.
  - intros Hg. by rewrite fmap_app, reverse_app, A1, A2.
Qed.

Section lemmas.
Context {P : Pool} {K : ReportSink} {A : SystemApi} {Ob : ObjectApi}.

Lemma add_and_count_spec s h d r (flag : bool) :
  kernel_wf s -> 0 <= count h < 2 ^ 31 - 1 ->
  exists h' s' new, add_and_count flag h d r s = Ok (h', s') /\
    collects s h s' h' new (if flag then [] else [(r, d)]) /\ (zlen new <= 1).
Proof.
  intros Hwf Hc. unfold add_and_count, AddDriverToList. destruct flag.
  { eexists _, _, []. split; [done|]. split; [by apply collects_refl|done]. }
  destruct (alloc_spec s (sizeof INVALID_DRIVER_layout) INVALID_DRIVER_LIST_ENTRY_POOL Hwf)
    as (p & s1 & H1 & W1 & S1 & N1 & _ & Hp).
  destruct (pool_grants (pool_requests s)) eqn:Eg; destruct Hp as [Hp Hh].
  - eexists _, s1, [InvalidDriver p r d]. split.
    { erewrite KM_step; [|erewrite KM_step by exact H1; destruct (Z.eqb_spec p 0); [lia|done]].
      done. }
    split; [|done]. split; cbn [first_entry count]; try done.
    + rewrite s32_small by lia. done.
    + rewrite Hh, entry_blocks_cons, entry_blocks_nil. cbn [entry]. clear. multiset_solver.
  - subst p. eexists h, s1, []. split.
    { erewrite KM_step; [|by erewrite KM_step by exact H1]. done. }
    split; [|done]. split; cbn [first_entry count]; try done.
    + rewrite zlen_nil. lia.
    + apply sublist_nil_l.
    + rewrite Hh, entry_blocks_nil. clear. multiset_solver.
    + intros Hg. congruence.
Qed.

(** Room for two entries per driver in the counter. *)
Definition room (h : INVALID_DRIVERS_HEAD) (ds : list DRIVER_OBJECT) : Prop :=
  0 <= count h /\ count h + 2 * zlen ds < 2 ^ 31.

Lemma chain_spec m wl ds : forall s h,
  kernel_wf s -> room h ds -> modules_wf m -> modules_set m ->
  take (Z.to_nat WHITELISTED_MODULE_COUNT) wl = region_of m <$> WHITELISTED_MODULES ->
  exists h' s' new, ValidateDriverObjects m ds h wl s = Ok (h', s') /\
    collects s h s' h' new (all_violations m ds) /\ zlen new <= 2 * zlen ds.
Proof.
  induction ds as [|d ds IH]; intros s h Hwf [Hc0 Hc] Hm Hs Hwl.
  { eexists _, _, []. split; [done|]. split; [by apply collects_refl|done]. }
  pose proof (zlen_nonneg ds). rewrite zlen_cons in Hc.
  cbn [ValidateDriverObjects]. rewrite backing_spec by done.
  change (NT_SUCCESS STATUS_SUCCESS) with true. cbn [negb default from_option id].
  destruct (add_and_count_spec s h d REASON_NO_BACKING_MODULE (backed m d) Hwf)
    as (h1 & s1 & n1 & H1 & C1 & L1); [lia|].
  setoid_rewrite (KM_step _ _ _ _ _ H1). rewrite (dispatch_spec m d wl Hm Hwl).
  change (NT_SUCCESS STATUS_SUCCESS) with true. cbn [negb default from_option id].
  pose proof (co_count _ _ _ _ _ _ C1) as E1. pose proof (zlen_nonneg n1).
  destruct (add_and_count_spec s1 h1 d REASON_INVALID_IOCTL_DISPATCH (dispatch_valid m d)
    (co_wf _ _ _ _ _ _ C1)) as (h2 & s2 & n2 & H2 & C2 & L2); [lia|].
  setoid_rewrite (KM_step _ _ _ _ _ H2).
  pose proof (co_count _ _ _ _ _ _ C2) as E2. pose proof (zlen_nonneg n2).
  destruct (IH s2 h2 (co_wf _ _ _ _ _ _ C2)) as (h3 & s3 & n3 & Hrec & C3 & L3); [|done..|].
  { unfold room. lia. }
  eexists _, _, (n3 ++ n2 ++ n1). split; [exact Hrec|]. split.
  - unfold all_violations. cbn [fmap list_fmap concat]. unfold violations at 1.
    eapply collects_trans; [|exact C3]. by eapply collects_trans.
  - rewrite !zlen_app, zlen_cons. lia.
Qed.

Lemma bucket_loop_spec m wl buckets : forall s h,
  kernel_wf s -> room h (concat buckets) -> modules_wf m -> modules_set m ->
  take (Z.to_nat WHITELISTED_MODULE_COUNT) wl = region_of m <$> WHITELISTED_MODULES ->
  exists h' s' new, bucket_loop buckets m h wl s = Ok (h', s') /\
    collects s h s' h' new (all_violations m (concat buckets)).
Proof.
  induction buckets as [|ds buckets IH]; intros s h Hwf [Hc0 Hc] Hm Hs Hwl.
  { eexists _, _, []. split; [done|]. by apply collects_refl. }
  cbn [concat bucket_loop] in *. rewrite zlen_app in Hc. pose proof (zlen_nonneg (concat buckets)).
  destruct (chain_spec m wl ds s h Hwf) as (h1 & s1 & n1 & H1 & C1 & L1); [|done..|].
  { unfold room. lia. }
  setoid_rewrite (KM_step _ _ _ _ _ H1).
  pose proof (co_count _ _ _ _ _ _ C1). pose proof (zlen_nonneg n1).
  destruct (IH s1 h1 (co_wf _ _ _ _ _ _ C1)) as (h2 & s2 & n2 & Hrec & C2); [|done..|].
  { unfold room. lia. }
  eexists _, _, _. split; [exact Hrec|].
  unfold all_violations. rewrite fmap_app, concat_app. by eapply collects_trans.
Qed.

(** The drivers of the directory, in the order the loops visit them. *)
Definition directory_drivers : list DRIVER_OBJECT :=
  concat (take (Z.to_nat NUMBER_HASH_BUCKETS) HashBuckets).

Lemma search_chain_spec name chain :
  search_chain name chain = head (filter (fun d => DriverName d = name) chain).
Proof.
  induction chain as [|d chain IH]; [done|]. cbn [search_chain]. rewrite filter_cons.
  destruct (String.eqb_spec name (DriverName d)) as [->|E].
  - by rewrite decide_True.
  - by rewrite decide_False.
Qed.

Lemma search_buckets_spec name buckets :
  search_buckets name buckets = head (filter (fun d => DriverName d = name) (concat buckets)).
Proof.
  induction buckets as [|chain buckets IH]; [done|]. cbn [search_buckets concat].
  rewrite search_chain_spec, filter_app, IH.
  by destruct (filter (fun d => DriverName d = name) chain).
Qed.

(** The work under the directory's lock. *)
Lemma locked_walk_spec m s :
  kernel_wf s -> room InitDriverList directory_drivers -> modules_wf m -> modules_set m ->
  exists h' s' new vs,
    locked_walk m InitDriverList s = Ok (h', s') /\
    collects s InitDriverList s' h' new vs /\
    (vs = [] \/ vs = all_violations m directory_drivers) /\
    ((forall n, pool_grants n = true) -> vs = all_violations m directory_drivers).
Proof.
  intros Hwf Hr Hm Hs. unfold locked_walk.
  destruct (alloc_spec s (WHITELISTED_MODULE_COUNT * MODULE_MAX_STRING_SIZE)
    WHITELISTED_MODULE_TAG Hwf) as (p & s1 & H1 & W1 & S1 & N1 & _ & Hp).
  setoid_rewrite (KM_step _ _ _ _ _ H1).
  destruct (pool_grants (pool_requests s)) eqn:Eg; destruct Hp as [Hp Hh].
  2: { subst p. eexists _, _, [], []. split; [done|]. split; [|split; [by left|]].
       - destruct (collects_refl s1 InitDriverList W1). split; congruence.
       - intros Hg. congruence. }
  destruct (Z.eqb_spec p 0); [lia|]. destruct (populate_spec m) as (wl & -> & Hwl).
  change (NT_SUCCESS STATUS_SUCCESS) with true. cbn [negb default from_option id].
  destruct (bucket_loop_spec m wl (take (Z.to_nat NUMBER_HASH_BUCKETS) HashBuckets) s1
    InitDriverList W1 Hr Hm Hs Hwl) as (h2 & s2 & new & H2 & [W2 L2 C2 Q2 Hh2 S2 N2 A2]).
  setoid_rewrite (KM_step _ _ _ _ _ H2). unfold ExFreePoolWithTag.
  assert (held s2 = (held s ⊎ entry_blocks new) ⊎ {[+ Block p WHITELISTED_MODULE_TAG +]}) as Hf
    by (rewrite Hh2, Hh; clear; multiset_solver).
  setoid_rewrite (KM_step _ _ _ _ _ (release_last s2 _ _ Hf)).
  eexists _, _, new, _. split; [done|]. split; [|by split; [right|]].
  split; try done; cbn; congruence.
Qed.

(** Giving back the three resources the walk holds. *)
Lemma close_directory {X} s h (r1 r2 r3 : resource) (x : X) :
  held s = h ⊎ {[+ r1 +]} ⊎ {[+ r2 +]} ⊎ {[+ r3 +]} ->
  (release r3 ≫= fun _ => release r2 ≫= fun _ => release r1 ≫= fun _ => mret x) s
  = Ok (x, set_held h s).
Proof.
  intros Hh. erewrite KM_step by (by apply release_last).
  erewrite KM_step by (by apply release_last). by erewrite KM_step by (by apply release_last).
Qed.

Lemma wrapper_spec m s :
  kernel_wf s -> room InitDriverList directory_drivers -> modules_wf m -> modules_set m ->
  exists status h' s' new vs,
    ValidateDriverObjectsWrapper (Some m) (Some InitDriverList) s = Ok ((status, Some h'), s') /\
    collects s InitDriverList s' h' new vs /\
    (vs = [] \/ vs = all_violations m directory_drivers) /\
    ((forall n, pool_grants n = true) -> NT_SUCCESS ZwOpenDirectoryObject.1 = true ->
     NT_SUCCESS ObReferenceObjectByHandle.1 = true ->
     status = STATUS_SUCCESS /\ vs = all_violations m directory_drivers).
Proof.
  intros Hwf Hr Hm Hs. unfold ValidateDriverObjectsWrapper.
  destruct ZwOpenDirectoryObject as [st1 handle]. cbn [fst].
  destruct (NT_SUCCESS st1); cbn [negb].
  2: { eexists _, _, _, [], []. split; [done|]. split; [by apply collects_refl|].
       by split; [left|]. }
  set (sA := set_held (held s ⊎ {[+ OpenHandle handle +]}) s).
  setoid_rewrite (KM_step _ _ s tt sA); [|done].
  destruct ObReferenceObjectByHandle as [st2 directory]. cbn [fst].
  destruct (NT_SUCCESS st2); cbn [negb].
  2: { setoid_rewrite (KM_step _ _ _ _ _ (release_last sA (held s) _ eq_refl)).
       eexists _, _, _, [], []. split; [done|]. split; [|by split; [left|]].
       destruct (collects_refl s InitDriverList Hwf). by split. }
  set (sB := set_held (held sA ⊎ {[+ Reference directory +]}) sA).
  setoid_rewrite (KM_step _ _ sA tt sB); [|done].
  set (sC := set_held (held sB ⊎ {[+ PushLock directory +]}) sB).
  setoid_rewrite (KM_step _ _ sB tt sC); [|done].
  destruct (locked_walk_spec m sC Hwf Hr Hm Hs)
    as (h' & s' & new & vs & H1 & [W1 L1 C1 Q1 Hh1 S1 N1 A1] & Hv & Hg).
  setoid_rewrite (KM_step _ _ _ _ _ H1).
  rewrite (close_directory s' (held s ⊎ entry_blocks new))
    by (rewrite Hh1; cbn; clear; multiset_solver).
  eexists _, _, _, new, vs. split; [done|]. split; [by split|]. split; [done|]. auto.
Qed.

Definition driver_reports (l : list INVALID_DRIVER) : list (report * Z) :=
  (fun e => (driver_report e, sizeof MODULE_VALIDATION_FAILURE)) <$> l.

Lemma remove_first_spec s e l c h :
  held s = h ⊎ entry_blocks (e :: l) ->
  RemoveInvalidDriverFromList (DriversHead (e :: l) c) s
  = Ok (DriversHead l c, set_held (h ⊎ entry_blocks l) s).
Proof.
  intros Hh. unfold RemoveInvalidDriverFromList, ExFreePoolWithTag. cbn [first_entry count].
  erewrite KM_step; [done|]. apply release_last. rewrite Hh, entry_blocks_cons.
  clear. multiset_solver.
Qed.

(** The reporting loop when every report goes through. *)
Lemma report_loop_spec h c l : forall s index status,
  (forall n, pool_grants n = true) -> (forall n, NT_SUCCESS (sink_status n) = true) ->
  kernel_wf s -> 0 <= index -> NT_SUCCESS status = true -> held s = h ⊎ entry_blocks l ->
  exists status' s',
    report_loop (length l) index (DriversHead l c) status s
      = Ok ((status', DriversHead [] c), s') /\
    NT_SUCCESS status' = true /\ held s' = h /\ nmi_status s' = nmi_status s /\
    sent s' = sent s ++ driver_reports (take (Z.to_nat (20 - index)) l).
Proof.
  induction l as [|e l IH]; intros s index status Hg Hk Hwf Hi Hst Hh.
  { eexists _, _. split; [done|]. rewrite take_nil, app_nil_r. split_and!; try done.
    rewrite Hh, entry_blocks_nil. clear. multiset_solver. }
  cbn [length report_loop]. unfold MODULE_VALIDATION_FAILURE_MAX_REPORT_COUNT.
  destruct (Z.leb_spec 20 index).
  - setoid_rewrite (KM_step _ _ _ _ _ (remove_first_spec s e l c h Hh)).
    edestruct (IH (set_held (h ⊎ entry_blocks l) s) (index + 1) status)
      as (st' & s' & Hr & Hs & Hh' & Hn & Hsent); [done..|lia|done|done|].
    eexists _, _. split; [exact Hr|]. split_and!; try done. rewrite Hsent.
    by replace (Z.to_nat (20 - index)) with 0%nat by lia;
      replace (Z.to_nat (20 - (index + 1))) with 0%nat by lia.
  - destruct (alloc_and_send s (sizeof MODULE_VALIDATION_FAILURE) POOL_TAG_INTEGRITY
      (driver_report e) Hwf (Hg _)) as (p & s1 & H1 & Hp & H2).
    setoid_rewrite (KM_step _ _ _ _ _ H1). destruct (Z.eqb_spec p 0); [done|].
    cbn [first_entry list.head of_option]. setoid_rewrite KM_step; [|done].
    setoid_rewrite (KM_step _ _ _ _ _ H2). rewrite Hk. cbn [negb].
    set (s2 := reported s (sizeof MODULE_VALIDATION_FAILURE) (driver_report e)).
    assert (held s2 = h ⊎ entry_blocks (e :: l)) as Hh2
      by (unfold s2; by rewrite reported_held).
    setoid_rewrite (KM_step _ _ _ _ _ (remove_first_spec s2 e l c h Hh2)).
    edestruct (IH (set_held (h ⊎ entry_blocks l) s2) (index + 1) (sink_status (length (sent s))))
      as (st' & s' & Hr & Hs & Hh' & Hn & Hsent); [done..| |lia|done|done|].
    { by apply (reported_wf s (sizeof MODULE_VALIDATION_FAILURE) (driver_report e)). }
    eexists _, _. split; [exact Hr|]. split_and!; try done.
    + rewrite Hn. apply reported_nmi.
    + rewrite Hsent. cbn [sent set_held]. unfold s2. rewrite reported_sent by done.
      replace (Z.to_nat (20 - index)) with (S (Z.to_nat (20 - (index + 1)))) by lia.
      cbn [take]. by rewrite <- app_assoc.
Qed.

(** The loop when no report goes through: the first entry is reported again
    and again and nothing is freed. *)
Lemma report_loop_failing e l c n : forall s index status,
  (forall n, pool_grants n = true) -> (forall n, NT_SUCCESS (sink_status n) = false) ->
  kernel_wf s -> index + Z.of_nat n <= 20 ->
  exists status' s',
    report_loop n index (DriversHead (e :: l) c) status s
      = Ok ((status', DriversHead (e :: l) c), s') /\
    (n <> 0%nat -> NT_SUCCESS status' = false) /\ held s' = held s /\ kernel_wf s' /\
    sent s' = sent s ++ driver_reports (replicate n e).
Proof.
  induction n as [|n IH]; intros s index status Hg Hk Hwf Hi.
  { eexists _, _. split; [done|]. by rewrite app_nil_r. }
  cbn [report_loop]. unfold MODULE_VALIDATION_FAILURE_MAX_REPORT_COUNT.
  destruct (Z.leb_spec 20 index); [lia|].
  destruct (alloc_and_send s (sizeof MODULE_VALIDATION_FAILURE) POOL_TAG_INTEGRITY
    (driver_report e) Hwf (Hg _)) as (p & s1 & H1 & Hp & H2).
  setoid_rewrite (KM_step _ _ _ _ _ H1). destruct (Z.eqb_spec p 0); [done|].
  cbn [first_entry list.head of_option]. setoid_rewrite KM_step; [|done].
  setoid_rewrite (KM_step _ _ _ _ _ H2). rewrite Hk. cbn [negb].
  destruct (IH (reported s (sizeof MODULE_VALIDATION_FAILURE) (driver_report e)) (index + 1)
    (sink_status (length (sent s)))) as (st' & s' & Hr & Hs & Hh' & W' & Hsent);
    [done..|by apply reported_wf|lia|].
  eexists _, _. split; [exact Hr|]. split_and!; try done.
  - intros _. destruct n; [|by apply Hs]. cbn in Hr. injection Hr as <- _. apply Hk.
  - rewrite Hh'. apply reported_held.
  - rewrite Hsent, reported_sent by done. cbn. by rewrite <- app_assoc.
Qed.

(** The reports of a list of violations. *)
Definition violation_reports (vs : list (Z * DRIVER_OBJECT)) : list (report * Z) :=
  (fun '(r, d) =>
     (ModuleValidationFailure REPORT_MODULE_VALIDATION_FAILURE r (DriverStart d) (DriverSize d)
        (RtlUnicodeStringToAnsiString (DriverName d)), sizeof MODULE_VALIDATION_FAILURE)) <$> vs.

Lemma driver_reports_what l : driver_reports l = violation_reports (what <$> l).
Proof. unfold driver_reports, violation_reports. by rewrite <- list_fmap_compose. Qed.

(** A system on which the queries succeed and the pool grants every request. *)
Record scan_env : Prop := {
  scan_pool n : pool_grants n = true;
  scan_query : NT_SUCCESS query_module_size.1 = true /\ NT_SUCCESS query_modules.1.1 = true;
  scan_open : NT_SUCCESS ZwOpenDirectoryObject.1 = true /\
              NT_SUCCESS ObReferenceObjectByHandle.1 = true;
  scan_modules : Forall module_wf query_modules.2;
  scan_modules_set : Forall (fun i => ImageSize i <> 0 /\ ImageBase i <> 0) query_modules.2;
  scan_room : 2 * zlen directory_drivers < 2 ^ 31;
}.

(** The violations on that system, latest first. *)
Definition found_violations : list (Z * DRIVER_OBJECT) :=
  reverse (all_violations loaded_modules directory_drivers).

Lemma all_violations_loaded m ds :
  modules m = modules loaded_modules -> all_violations m ds = all_violations loaded_modules ds.
Proof. destruct m as [p l]. cbn [modules]. by intros ->. Qed.

(** The request up to the reporting loop, and its end for any outcome of the
    loop that keeps the list head and the module list. *)
Lemma request_spec s :
  kernel_wf s -> scan_env ->
  exists m p new s2,
    what <$> new = found_violations /\ kernel_wf s2 /\ sent s2 = sent s /\
    nmi_status s2 = nmi_status s /\
    held s2 = held s ⊎ {[+ Block (address m) SYSTEM_MODULES_POOL +]} ⊎
              {[+ Block p INVALID_DRIVER_LIST_HEAD_POOL +]} ⊎ entry_blocks new /\
    forall st h' s3 base,
      report_loop (length new) 0 (DriversHead new (zlen new)) STATUS_SUCCESS s2
        = Ok ((st, h'), s3) ->
      held s3 = base ⊎ {[+ Block (address m) SYSTEM_MODULES_POOL +]} ⊎
                {[+ Block p INVALID_DRIVER_LIST_HEAD_POOL +]} ->
      HandleValidateDriversIOCTL s = Ok (st, set_held base s3).
Proof.
  intros Hwf [Hp [Hq1 Hq2] [Ho1 Ho2] Hmods Hset Hroom].
  destruct (GetSystemModuleInformation_spec s Hwf) as (st1 & m & s1 & H1 & W1 & S1 & N1 & Ho & Hok).
  pose proof (module_query_wf _ _ _ _ Hmods Ho) as Hm. specialize (Hok Hp Hq1 Hq2).
  destruct Ho as [(_ & -> & _)|[(_ & _ & -> & _)|(Es & _ & _ & Hml & Hh1)]]; [cbn in Hok; lia..|].
  destruct (alloc_spec s1 (sizeof INVALID_DRIVERS_HEAD_layout) INVALID_DRIVER_LIST_HEAD_POOL W1)
    as (p & s1' & H2 & W2 & S2 & N2 & _ & Ha). rewrite Hp in Ha. destruct Ha as [Ha Hh2].
  destruct (wrapper_spec m s1' W2) as (st2 & h2 & s2 & new & vs & H3 & C3 & _ & Hall).
  { split; cbn; lia. }
  { done. }
  { unfold modules_set. rewrite Hml. cbn. by apply Forall_take. }
  destruct (Hall Hp Ho1 Ho2) as [-> ->].
  destruct C3 as [W3 L3 Cn3 Q3 Hh3 S3 N3 A3]. exists m, p, new, s2. split_and!.
  - rewrite A3 by done. unfold found_violations. by rewrite (all_violations_loaded m).
  - done.
  - congruence.
  - congruence.
  - by rewrite Hh3, Hh2, Hh1.
  - intros st h' s3 base Hl Hh. unfold HandleValidateDriversIOCTL, ExFreePoolWithTag.
    erewrite KM_step by exact H1. cbn [default from_option id]. rewrite Es. cbn [negb].
    erewrite KM_step by exact H2. destruct (Z.eqb_spec p 0); [lia|].
    erewrite KM_step by exact H3. cbn [default from_option id].
    change (NT_SUCCESS STATUS_SUCCESS) with true. cbn [negb].
    destruct h2 as [l c]. cbn [first_entry count InitDriverList] in *. rewrite app_nil_r in L3.
    rewrite Z.add_0_l in Cn3. subst l c. rewrite to_nat_zlen.
    erewrite (KM_step _ _ s2 st s3).
    2: { destruct (Z.eqb_spec (zlen new) 0) as [E|E].
         - destruct new; [|rewrite zlen_cons in E; pose proof (zlen_nonneg new); lia].
           cbn in Hl. by injection Hl as <- _ <-.
         - by erewrite KM_step by exact Hl. }
    erewrite KM_step by (by apply release_last). by erewrite KM_step by (by apply release_last).
Qed.

End lemmas.

(** ** Properties *)

Section properties.
Context {P : Pool} {K : ReportSink} {A : SystemApi} {Ob : ObjectApi}.


(** The list of invalid drivers for any pool.  Whatever allocations fail,
    the walk never faults, releases the directory's lock, reference and handle,
    counts exactly the entries in the list, and every entry stands for a
    violation of a driver in the directory, in the reverse of the order they are
    met; what is held afterwards is what was held before and one block per
    entry. *)
Theorem driver_list_counts_its_entries m s :
  kernel_wf s -> 2 * zlen directory_drivers < 2 ^ 31 -> modules_wf m -> modules_set m ->
  exists status list s',
    ValidateDriverObjectsWrapper (Some m) (Some InitDriverList) s = Ok ((status, Some list), s') /\
    count list = zlen (first_entry list) /\
    what <$> first_entry list `sublist_of` reverse (all_violations m directory_drivers) /\
    held s' = held s ⊎ entry_blocks (first_entry list) /\ sent s' = sent s.
Proof.
  intros Hwf Hr Hm Hs. destruct (wrapper_spec m s Hwf) as (st & h & s' & new & vs & H & C & Hv & _);
    [split; cbn; lia|done..|].
  destruct C as [W L Cn Q Hh S N _]. rewrite app_nil_r in L.
  eexists _, _, _. split; [exact H|]. rewrite L. split_and!; [|  |done|done].
  - rewrite Cn. cbn. lia.
  - destruct Hv as [-> | ->]; [|done]. rewrite reverse_nil in Q.
    apply sublist_nil_r in Q. rewrite Q. apply sublist_nil_l.
Qed.

(** Rejected reports leak the list.  If [IrpQueueCompleteIrp] refuses the
    reports, an entry is neither removed nor freed: with at most twenty
    violations, all of them are lost, and every round reports the entry found
    last again. *)
Theorem rejected_reports_leak_the_list s v vs :
  kernel_wf s -> scan_env -> (forall n, NT_SUCCESS (sink_status n) = false) ->
  found_violations = v :: vs -> zlen (v :: vs) <= 20 ->
  exists status s' leaked,
    HandleValidateDriversIOCTL s = Ok (status, s') /\
    NT_SUCCESS status = false /\
    what <$> leaked = v :: vs /\ held s' = held s ⊎ entry_blocks leaked /\
    sent s' = sent s ++ violation_reports (replicate (length (v :: vs)) v).
Proof.
  intros Hwf He Hk Hv Hn. destruct (request_spec s Hwf He)
    as (m & p & new & s2 & Hw & W2 & S2 & N2 & Hh2 & Hrun). rewrite Hv in Hw.
  destruct new as [|e l]; [done|].
  assert (length (e :: l) = length (v :: vs)) as El by (by rewrite <- Hw, length_fmap).
  destruct (report_loop_failing e l (zlen (e :: l)) (length (e :: l)) s2 0 STATUS_SUCCESS)
    as (st & s3 & Hl & Hst & Hh3 & W3 & S3); [apply He|done..| |].
  { rewrite El. exact Hn. }
  eexists _, _, (e :: l). split.
  { eapply (Hrun _ _ _ (held s ⊎ entry_blocks (e :: l)) Hl). rewrite Hh3, Hh2. clear.
    multiset_solver. }
  cbn [held set_held sent]. split_and!; [by apply Hst|done|done|].
  rewrite S3, S2, driver_reports_what, El, fmap_replicate. by injection Hw as -> _.
Qed.

(** Looking up a driver by name.  Every path gives back the handle, the
    reference and the lock.  When the directory can be opened the status is
    success whether or not the driver exists, and the object handed back is the
    first driver of that name in directory order, none if there is none. *)
Theorem driver_lookup_by_name s name :
  exists status found,
    GetDriverObjectByDriverName name s = Ok ((status, found), s) /\
    (NT_SUCCESS ZwOpenDirectoryObject.1 = true -> NT_SUCCESS ObReferenceObjectByHandle.1 = true ->
     status = STATUS_SUCCESS /\
     found = head (filter (fun d => DriverName d = name) directory_drivers)) /\
    (NT_SUCCESS status = false -> found = None).
Proof.
  unfold GetDriverObjectByDriverName. destruct ZwOpenDirectoryObject as [st1 handle]. cbn [fst].
  destruct (NT_SUCCESS st1); cbn [negb].
  2: { by eexists _, _. }
  set (sA := set_held (held s ⊎ {[+ OpenHandle handle +]}) s).
  setoid_rewrite (KM_step _ _ s tt sA); [|done].
  destruct ObReferenceObjectByHandle as [st2 directory]. cbn [fst].
  destruct (NT_SUCCESS st2); cbn [negb].
  2: { setoid_rewrite (KM_step _ _ _ _ _ (release_last sA (held s) _ eq_refl)).
       eexists _, _. split; [by destruct s|]. by split. }
  set (sB := set_held (held sA ⊎ {[+ Reference directory +]}) sA).
  setoid_rewrite (KM_step _ _ sA tt sB); [|done].
  set (sC := set_held (held sB ⊎ {[+ PushLock directory +]}) sB).
  setoid_rewrite (KM_step _ _ sB tt sC); [|done].
  rewrite (close_directory sC (held s)) by done.
  eexists _, _. split; [by destruct s|]. split; [|done]. intros _ _. split; [done|].
  apply search_buckets_spec.
Qed.

End properties.

(** ** Witnesses *)

(** A directory with a driver loaded from the module at 0x1000 whose
    device-control routine points to 0x5000, and a driver at 0x9000 without a
    module. *)
Definition sample_directory : ObjectApi := {|
  ZwOpenDirectoryObject := (STATUS_SUCCESS, 0x40);
  ObReferenceObjectByHandle := (STATUS_SUCCESS, 0x44);
  HashBuckets := [[DriverObject 0x1000 0x1000 "\Driver\a" 0x60 0x5000];
                  [DriverObject 0x9000 0x2000 "\Driver\b" 0 0]];
  RtlUnicodeStringToAnsiString := bytes_of_string;
|}.

Definition always_fails : ReportSink := fun _ => STATUS_BUFFER_TOO_SMALL.

Lemma sample_scan_env :
  scan_env (P := always_grants) (A := sample_api (fun _ => 0)) (Ob := sample_directory).
Proof.
  split; try done.
  - constructor; [|constructor]. unfold module_wf. cbn. lia.
  - by constructor.
Qed.


Lemma driver_list_counts_its_entries_witness :
  exists status list s',
    ValidateDriverObjectsWrapper (P := fun _ => false) (Ob := sample_directory)
      (Some sample_modules) (Some InitDriverList) idle_kernel = Ok ((status, Some list), s') /\
    count list = zlen (first_entry list) /\ first_entry list = [].
Proof.
  destruct (driver_list_counts_its_entries (P := fun _ => false) (Ob := sample_directory)
    sample_modules idle_kernel) as (status & list & s' & H & Hc & _).
  - unfold kernel_wf. cbn. lia.
  - vm_compute. reflexivity.
  - exact sample_modules_wf.
  - by constructor.
  - exists status, list, s'. split; [exact H|]. split; [exact Hc|].
    vm_compute in H. by injection H as _ <- _.
Defined.

Lemma rejected_reports_leak_the_list_witness :
  exists status s' leaked,
    HandleValidateDriversIOCTL (P := always_grants) (K := always_fails)
      (A := sample_api (fun _ => 0)) (Ob := sample_directory) idle_kernel = Ok (status, s') /\
    held s' = ∅ ⊎ entry_blocks leaked /\ length leaked = 2%nat.
Proof.
  destruct (rejected_reports_leak_the_list (P := always_grants) (K := always_fails)
    (A := sample_api (fun _ => 0)) (Ob := sample_directory) idle_kernel
    (REASON_NO_BACKING_MODULE, DriverObject 0x9000 0x2000 "\Driver\b" 0 0)
    [(REASON_INVALID_IOCTL_DISPATCH, DriverObject 0x1000 0x1000 "\Driver\a" 0x60 0x5000)])
    as (status & s' & leaked & H & _ & Hw & Hh & _).
  - unfold kernel_wf. cbn. lia.
  - exact sample_scan_env.
  - reflexivity.
  - vm_compute. reflexivity.
  - vm_compute. discriminate.
  - exists status, s', leaked. split; [exact H|]. split; [exact Hh|].
    by rewrite <- (length_fmap what), Hw.
Defined.
