(* ===== verification/SharedMapping.v ===== *)
(** * io.c: the page shared with the client

    One page of pool memory is mapped into the client; a periodic timer queues
    a work item that reads an operation code from the page and runs it.  The
    timer's DPC, the work item and the routine that tears the mapping down run
    concurrently. *)

From stdpp Require Import gmultiset.
From S2P Require Import Prelude Layout Irp Structs Kernel.

(** ** Data *)

(** [timer] is the address of the embedded timer. *)
Record SHARED_MAPPING := SharedMap {
  work_item_status : Z;
  user_buffer : Z;
  kernel_buffer : Z;
  mdl : Z;
  size : Z;
  active : bool;
  work_item : Z;
}.

Definition zero_mapping : SHARED_MAPPING := SharedMap 0 0 0 0 0 false 0.

Inductive SHARED_STATE_OPERATION_ID :=
  | ssRunNmiCallbacks
  | ssValidateDriverObjects
  | ssEnumerateHandleTables
  | ssScanForUnlinkedProcesses
  | ssPerformModuleIntegrityCheck
  | ssScanForAttachedThreads
  | ssScanForEptHooks
  | ssInitiateDpcStackwalk
  | ssValidateSystemModules.

(** The enumerator of a code, if there is one. *)
Definition operation_of (operation_id : Z) : option SHARED_STATE_OPERATION_ID :=
  match operation_id with
  | 0 => Some ssRunNmiCallbacks
  | 1 => Some ssValidateDriverObjects
  | 2 => Some ssEnumerateHandleTables
  | 3 => Some ssScanForUnlinkedProcesses
  | 4 => Some ssPerformModuleIntegrityCheck
  | 5 => Some ssScanForAttachedThreads
  | 6 => Some ssScanForEptHooks
  | 7 => Some ssInitiateDpcStackwalk
  | 8 => Some ssValidateSystemModules
  | _ => None
  end.

Definition PAGE_SIZE : Z := 0x1000.

(** The mapping of the driver configuration, the resources held, the work
    items queued and not yet started, and the operations run ([None] for an
    invalid code). *)
Record sm_state := SmState {
  mapping : SHARED_MAPPING;
  kern : kernel;
  queued : nat;
  operations : list (option SHARED_STATE_OPERATION_ID);
}.

Definition set_mapping (m : SHARED_MAPPING) (s : sm_state) : sm_state :=
  SmState m (kern s) (queued s) (operations s).
Definition set_kern (k : kernel) (s : sm_state) : sm_state :=
  SmState (mapping s) k (queued s) (operations s).
Definition set_queued (n : nat) (s : sm_state) : sm_state :=
  SmState (mapping s) (kern s) n (operations s).

Abbreviation M := (KM sm_state).

Definition on_kern {X} (m : KM kernel X) : M X := fun s =>
  match m (kern s) with Ok (x, k) => Ok (x, set_kern k s) | Crash f => Crash f end.

Definition update_mapping (f : SHARED_MAPPING -> SHARED_MAPPING) : M unit :=
  modify (fun s => set_mapping (f (mapping s)) s).

(** A use of memory or of an object that must still be there. *)
Definition check_held (r : resource) : M unit := fun s =>
  if decide (r ∈ held (kern s)) then Ok (tt, s) else Crash UnmappedRead.

(** Windows: addresses of new objects (0 on failure), the outcome of mapping
    the page (an exception code or an address), the address of the timer in
    the driver configuration, the operation code the client has stored when the
    [n]-th work item reads it. *)
Class MappingApi := {
  IoAllocateMdl : Z -> Z;
  MmMapLockedPagesSpecifyCache : Z -> NTSTATUS + Z;
  IoAllocateWorkItem : Z;
  timer : Z;
  operation_id : nat -> Z;
}.

Section operations.
Context {P : Pool} {W : MappingApi}.

(** ** Operations *)

Definition add_status (d : Z) (m : SHARED_MAPPING) : SHARED_MAPPING :=
  SharedMap (s32 (work_item_status m + d)) (user_buffer m) (kernel_buffer m) (mdl m) (size m)
    (active m) (work_item m).

Definition set_work_item (w : Z) (m : SHARED_MAPPING) : SHARED_MAPPING :=
  SharedMap (work_item_status m) (user_buffer m) (kernel_buffer m) (mdl m) (size m)
    (active m) w.

(** Up to the [switch]: the routine runs from the queue, counts itself and
    reads the code from the shared page. *)
Definition work_routine_begin : M (option SHARED_STATE_OPERATION_ID) :=
  update_mapping (add_status 1) ≫= fun _ =>
  m ← gets mapping;
  check_held (Block (kernel_buffer m) POOL_TAG_INTEGRITY) ≫= fun _ =>
  n ← gets (fun s => length (operations s));
  mret (operation_of (operation_id n)).

(** From the [switch] on: one operation of the driver, then the counter. *)
Definition work_routine_end (op : option SHARED_STATE_OPERATION_ID) : M unit :=
  modify (fun s => SmState (mapping s) (kern s) (queued s)
                     (operations s ++ [op])) ≫= fun _ =>
  update_mapping (add_status (-1)).

Definition SharedMappingWorkRoutine : M unit :=
  op ← work_routine_begin;
  work_routine_end op.

(** [IoQueueWorkItem] needs a live work item. *)
Definition SharedMappingDpcRoutine : M unit :=
  m ← gets mapping;
  if negb (active m) || negb (work_item_status m =? 0) then mret tt
  else
    check_held (WorkItem (work_item m)) ≫= fun _ =>
    modify (fun s => set_queued (S (queued s)) s).

(** The wait of [SharedMappingTerminate], as long as it takes. *)
Fixpoint wait_for_work (fuel : nat) : M unit :=
  match fuel with
  | O => crash OutOfFuel
  | S fuel =>
      m ← gets mapping;
      if negb (work_item_status m =? 0) then wait_for_work fuel else mret tt
  end.

Definition SharedMappingTerminate (fuel : nat) : M unit :=
  m ← gets mapping;
  if negb (active m) then mret tt
  else
    wait_for_work fuel ≫= fun _ =>
    update_mapping (fun m => SharedMap (work_item_status m) 0 (kernel_buffer m) (mdl m) 0 false
                               (work_item m)) ≫= fun _ =>
    m ← gets mapping;
    on_kern (modify (fun k => set_held (held k ∖ {[+ ActiveTimer timer +]}) k)) ≫= fun _ =>
    on_kern (release (WorkItem (work_item m))) ≫= fun _ =>
    on_kern (release (Mdl (mdl m))) ≫= fun _ =>
    on_kern (ExFreePoolWithTag (kernel_buffer m) POOL_TAG_INTEGRITY) ≫= fun _ =>
    update_mapping (fun _ => zero_mapping).

Definition SharedMappingInitialiseTimer : M NTSTATUS :=
  update_mapping (set_work_item IoAllocateWorkItem) ≫= fun _ =>
  if IoAllocateWorkItem =? 0 then mret STATUS_INSUFFICIENT_RESOURCES
  else
    on_kern (acquire (WorkItem IoAllocateWorkItem)) ≫= fun _ =>
    on_kern (acquire (ActiveTimer timer)) ≫= fun _ =>
    mret STATUS_SUCCESS.

(** The result is the status and the request with what is returned to the
    client. *)
Definition SharedMappingInitialise (irp : IRP) : M (NTSTATUS * IRP) :=
  '(status, checked) ← lift (ValidateIrpOutputBuffer (Some irp) (sizeof SHARED_MAPPING_INIT));
  let irp := default irp checked in
  if negb (NT_SUCCESS status) then mret (status, irp)
  else
    buffer ← on_kern (ExAllocatePool2 PAGE_SIZE POOL_TAG_INTEGRITY);
    if buffer =? 0 then mret (STATUS_INSUFFICIENT_RESOURCES, irp)
    else
      let mdl := IoAllocateMdl buffer in
      if mdl =? 0 then
        on_kern (ExFreePoolWithTag buffer POOL_TAG_INTEGRITY) ≫= fun _ =>
        mret (STATUS_INSUFFICIENT_RESOURCES, irp)
      else
        on_kern (acquire (Mdl mdl)) ≫= fun _ =>
        match MmMapLockedPagesSpecifyCache mdl with
        | inl code =>
            on_kern (release (Mdl mdl)) ≫= fun _ =>
            on_kern (ExFreePoolWithTag buffer POOL_TAG_INTEGRITY) ≫= fun _ =>
            mret (code, irp)
        | inr user =>
            on_kern (acquire (UserMapping user)) ≫= fun _ =>
            update_mapping (fun m => SharedMap 0 user buffer mdl PAGE_SIZE true (work_item m))
              ≫= fun _ =>
            _ ← SharedMappingInitialiseTimer;
            bytes ← lift (copy_to (SystemBuffer irp) (le_bytes 8 user ++ le_bytes 8 PAGE_SIZE));
            mret (status, set_buffer bytes irp)
        end.

End operations.

(** ** Specification *)

Section specification.
Context {P : Pool} {W : MappingApi}.

(** What an active mapping holds. *)
Definition mapping_resources (m : SHARED_MAPPING) : gmultiset resource :=
  {[+ Block (kernel_buffer m) POOL_TAG_INTEGRITY; Mdl (mdl m); WorkItem (work_item m);
      ActiveTimer timer; UserMapping (user_buffer m) +]}.

(** Mappings of pages into the client, which nothing ever removes. *)
Definition user_mappings (l : list Z) : gmultiset resource :=
  list_to_set_disj (UserMapping <$> l).

(** The threads: work items that are running have read their operation. *)
Record conc := Conc { st : sm_state; running : list (option SHARED_STATE_OPERATION_ID) }.

(** One step of a thread.  The timer fires only when its last work item has
    started; the mapping is torn down when no work item is waiting; a client
    starts a mapping only when there is none. *)
Inductive sm_step : conc -> conc -> Prop :=
  | step_timer c s' :
      queued (st c) = 0%nat ->
      SharedMappingDpcRoutine (st c) = Ok (tt, s') -> sm_step c (Conc s' (running c))
  | step_start c n op s' :
      queued (st c) = S n ->
      work_routine_begin (set_queued n (st c)) = Ok (op, s') ->
      sm_step c (Conc s' (op :: running c))
  | step_finish c op rest s' :
      running c = op :: rest ->
      work_routine_end op (st c) = Ok (tt, s') -> sm_step c (Conc s' rest)
  | step_terminate c s' :
      queued (st c) = 0%nat -> work_item_status (mapping (st c)) = 0 ->
      SharedMappingTerminate 1 (st c) = Ok (tt, s') -> sm_step c (Conc s' (running c))
  | step_initialise c irp io r s' :
      irp_wf irp io -> active (mapping (st c)) = false -> IoAllocateWorkItem <> 0 ->
      SharedMappingInitialise irp (st c) = Ok (r, s') -> sm_step c (Conc s' (running c)).

(** None of the steps that can be taken faults. *)
Record sm_safe (c : conc) : Prop := {
  safe_timer : queued (st c) = 0%nat -> exists s', SharedMappingDpcRoutine (st c) = Ok (tt, s');
  safe_start n : queued (st c) = S n ->
    exists op s', work_routine_begin (set_queued n (st c)) = Ok (op, s');
  safe_finish op rest : running c = op :: rest ->
    exists s', work_routine_end op (st c) = Ok (tt, s');
  safe_terminate : queued (st c) = 0%nat -> work_item_status (mapping (st c)) = 0 ->
    exists s', SharedMappingTerminate 1 (st c) = Ok (tt, s');
  safe_initialise irp io : irp_wf irp io -> active (mapping (st c)) = false ->
    exists r s', SharedMappingInitialise irp (st c) = Ok (r, s');
}.

(** [base] is held by the rest of the driver, [old] are the user mappings of
    earlier sessions. *)
Record sm_inv (base : gmultiset resource) (c : conc) (old : list Z) : Prop := {
  inv_kernel : kernel_wf (kern (st c));
  inv_count : work_item_status (mapping (st c)) = zlen (running c);
  inv_one : (queued (st c) + length (running c) <= 1)%nat;
  inv_held : held (kern (st c)) = base ⊎ user_mappings old ⊎
    (if active (mapping (st c)) then mapping_resources (mapping (st c)) else ∅);
  inv_idle : active (mapping (st c)) = false -> queued (st c) = 0%nat /\ running c = [];
}.

(** The three outcomes of starting a mapping: nothing is kept; a complete
    mapping; a mapping without a work item and a timer, reported as a
    success. *)
Inductive init_outcome (s : sm_state) (irp : IRP) (io : IO_STACK_LOCATION)
  : NTSTATUS * IRP -> sm_state -> Prop :=
  | init_nothing status irp' s' :
      mapping s' = mapping s -> held (kern s') = held (kern s) ->
      init_outcome s irp io (status, irp') s'
  | init_mapped buffer user s' :
      0 < buffer -> MmMapLockedPagesSpecifyCache (IoAllocateMdl buffer) = inr user ->
      IoAllocateWorkItem <> 0 -> 16 <= OutputBufferLength io ->
      mapping s' = SharedMap 0 user buffer (IoAllocateMdl buffer) PAGE_SIZE true
                     IoAllocateWorkItem ->
      held (kern s') = held (kern s) ⊎ mapping_resources (mapping s') ->
      init_outcome s irp io
        (STATUS_SUCCESS, set_information 16 (set_buffer
           ((le_bytes 8 user ++ le_bytes 8 PAGE_SIZE) ++ drop 16 (SystemBuffer irp)) irp)) s'
  | init_without_timer buffer user s' :
      0 < buffer -> MmMapLockedPagesSpecifyCache (IoAllocateMdl buffer) = inr user ->
      IoAllocateWorkItem = 0 -> 16 <= OutputBufferLength io ->
      mapping s' = SharedMap 0 user buffer (IoAllocateMdl buffer) PAGE_SIZE true 0 ->
      held (kern s') = held (kern s) ⊎ {[+ Block buffer POOL_TAG_INTEGRITY;
        Mdl (IoAllocateMdl buffer); UserMapping user +]} ->
      init_outcome s irp io
        (STATUS_SUCCESS, set_information 16 (set_buffer
           ((le_bytes 8 user ++ le_bytes 8 PAGE_SIZE) ++ drop 16 (SystemBuffer irp)) irp)) s'.

End specification.

(** ** Lemmas *)

Section lemmas.
Context {P : Pool} {W : MappingApi}.

Lemma user_mappings_cons u l : user_mappings (u :: l) = {[+ UserMapping u +]} ⊎ user_mappings l.
Proof. done. Qed.

Lemma on_kern_ok {X} (m : KM kernel X) s x k :
  m (kern s) = Ok (x, k) -> on_kern m s = Ok (x, set_kern k s).
Proof. intros H. unfold on_kern. by rewrite H. Qed.

Lemma check_held_ok r s : r ∈ held (kern s) -> check_held r s = Ok (tt, s).
Proof. intros H. unfold check_held. by rewrite decide_True. Qed.

Lemma dpc_spec base c old :
  sm_inv base c old -> queued (st c) = 0%nat ->
  exists s', SharedMappingDpcRoutine (st c) = Ok (tt, s') /\ sm_inv base (Conc s' (running c)) old.
Proof.
  intros [Hk Hc H1 Hh Hi] Hq. unfold SharedMappingDpcRoutine.
  setoid_rewrite KM_step; [|done].
  destruct (active (mapping (st c))) eqn:Ea; cbn [negb orb].
  2: { eexists. split; [done|]. by split; cbn; rewrite ?Ea. }
  destruct (Z.eqb_spec (work_item_status (mapping (st c))) 0) as [E|E]; cbn [negb].
  2: { eexists. split; [done|]. by split; cbn; rewrite ?Ea. }
  setoid_rewrite KM_step; [|apply check_held_ok; rewrite Hh; unfold mapping_resources;
    clear; multiset_solver].
  eexists. split; [done|]. split; cbn; rewrite ?Ea; try done.
  rewrite Hq. destruct (running c); [cbn; lia|]. rewrite zlen_cons in Hc.
  pose proof (zlen_nonneg l). lia.
Qed.

Lemma start_spec base c old n :
  sm_inv base c old -> queued (st c) = S n ->
  exists op s', work_routine_begin (set_queued n (st c)) = Ok (op, s') /\
    sm_inv base (Conc s' (op :: running c)) old.
Proof.
  intros [Hk Hc H1 Hh Hi] Hq.
  destruct (active (mapping (st c))) eqn:Ea; [|by destruct (Hi eq_refl) as [? _]; congruence].
  assert (running c = []) as Er by (destruct (running c); [done|cbn in H1; lia]).
  rewrite Er in *. unfold work_routine_begin.
  setoid_rewrite KM_step; [|done]. setoid_rewrite KM_step; [|done].
  setoid_rewrite KM_step; [|apply check_held_ok; cbn; rewrite Hh; unfold mapping_resources;
    clear; multiset_solver].
  setoid_rewrite KM_step; [|done]. eexists _, _. split; [done|]. split; cbn; rewrite ?Ea; try done.
  - rewrite Hc. done.
  - lia.
Qed.

Lemma finish_spec base c old op rest :
  sm_inv base c old -> running c = op :: rest ->
  exists s', work_routine_end op (st c) = Ok (tt, s') /\ sm_inv base (Conc s' rest) old.
Proof.
  intros [Hk Hc H1 Hh Hi] Hr. rewrite Hr in *. cbn in H1.
  destruct rest; [|cbn in H1; lia].
  destruct (active (mapping (st c))) eqn:Ea; [|by destruct (Hi eq_refl)].
  eexists. split; [done|]. split; cbn; rewrite ?Ea; try done.
  - by rewrite Hc.
  - lia.
Qed.

(** Tearing down an active mapping with no work item running. *)
Lemma terminate_run n s h :
  active (mapping s) = true -> work_item_status (mapping s) = 0 ->
  held (kern s) = h ⊎ mapping_resources (mapping s) ->
  exists k, SharedMappingTerminate (S n) s = Ok (tt, SmState zero_mapping k (queued s) (operations s)) /\
    held k = h ⊎ {[+ UserMapping (user_buffer (mapping s)) +]} /\
    next_block k = next_block (kern s).
Proof.
  intros Ha Hs Hh. unfold SharedMappingTerminate. setoid_rewrite KM_step; [|done].
  rewrite Ha. cbn [negb wait_for_work]. setoid_rewrite KM_step.
  2: { erewrite KM_step by done. by rewrite Hs. }
  setoid_rewrite KM_step; [|done]. setoid_rewrite KM_step; [|done].
  setoid_rewrite KM_step; [|by apply on_kern_ok].
  cbn [work_item mdl kernel_buffer mapping set_mapping set_kern].
  set (m := mapping s) in *.
  set (h' := h ⊎ {[+ UserMapping (user_buffer m) +]}).
  setoid_rewrite KM_step; [|apply on_kern_ok, (release_last _ (h' ⊎
    {[+ Block (kernel_buffer m) POOL_TAG_INTEGRITY +]} ⊎ {[+ Mdl (mdl m) +]})); cbn; rewrite Hh;
    unfold mapping_resources, h'; clear; multiset_solver].
  setoid_rewrite KM_step; [|by apply on_kern_ok, release_last].
  setoid_rewrite KM_step; [|by apply on_kern_ok, release_last].
  eexists. split; [done|]. done.
Qed.

Lemma terminate_spec base c old :
  sm_inv base c old -> queued (st c) = 0%nat -> work_item_status (mapping (st c)) = 0 ->
  exists s' old', SharedMappingTerminate 1 (st c) = Ok (tt, s') /\
    sm_inv base (Conc s' (running c)) old'.
Proof.
  intros [Hk Hc H1 Hh Hi] Hq Hs.
  assert (running c = []) as Er.
  { destruct (running c) as [|o l]; [done|]. rewrite zlen_cons in Hc. pose proof (zlen_nonneg l). lia. }
  destruct (active (mapping (st c))) eqn:Ea.
  - destruct (terminate_run 0 (st c) (base ⊎ user_mappings old) Ea Hs Hh) as (k & H & Hh' & Hn).
    exists (SmState zero_mapping k (queued (st c)) (operations (st c))),
      (user_buffer (mapping (st c)) :: old).
    split; [exact H|].
    split; cbn [st running mapping kern queued active zero_mapping]; try done.
    + unfold kernel_wf in *. by rewrite Hn.
    + by rewrite Er.
    + rewrite Hh', user_mappings_cons. clear. multiset_solver.
  - exists (st c), old. split; [unfold SharedMappingTerminate; by erewrite KM_step by done;
      rewrite Ea|]. by split; cbn; rewrite ?Ea.
Qed.

(** The buffer that goes back to the client. *)
Lemma init_buffer irp io user :
  irp_wf irp io -> 16 <= OutputBufferLength io ->
  copy_to (SystemBuffer (set_information 16 (set_buffer
    (replicate (Z.to_nat 16) 0 ++ drop (Z.to_nat 16) (SystemBuffer irp)) irp))) (le_bytes 8 user ++ le_bytes 8 PAGE_SIZE)
  = Ok ((le_bytes 8 user ++ le_bytes 8 PAGE_SIZE) ++ drop 16 (SystemBuffer irp)).
Proof.
  intros [_ _ Hb] Ho. unfold zlen in Hb. cbn [SystemBuffer set_information set_buffer].
  assert (length (le_bytes 8 user ++ le_bytes 8 PAGE_SIZE) = 16%nat) as El
    by (by rewrite length_app, !length_le_bytes).
  rewrite copy_to_ok by (rewrite El, length_app, length_replicate; lia).
  by rewrite El.
Qed.

Lemma initialise_spec s irp io :
  kernel_wf (kern s) -> irp_wf irp io ->
  exists r s', SharedMappingInitialise irp s = Ok (r, s') /\ init_outcome s irp io r s' /\
    kernel_wf (kern s') /\ queued s' = queued s.
Proof.
  intros Hk Hirp. unfold SharedMappingInitialise, lift.
  change (sizeof SHARED_MAPPING_INIT) with 16.
  rewrite (ValidateIrpOutputBuffer_wf irp io 16 Hirp) by lia. cbn [Z.eqb].
  destruct (Z.ltb_spec (OutputBufferLength io) 16) as [Hl|Hl].
  { setoid_rewrite KM_step; [|done]. eexists _, _. split; [done|]. split_and!; [|done..].
    by apply init_nothing. }
  setoid_rewrite KM_step; [|done].
  change (NT_SUCCESS STATUS_SUCCESS) with true. cbn [negb default from_option id].
  destruct (alloc_spec (kern s) PAGE_SIZE POOL_TAG_INTEGRITY Hk)
    as (p & k1 & H1 & W1 & _ & _ & _ & Hp).
  setoid_rewrite KM_step; [|by apply on_kern_ok].
  destruct (pool_grants (pool_requests (kern s))); destruct Hp as [Hp Hh1].
  2: { subst p. eexists _, _. split; [done|]. split_and!; [|done..]. by apply init_nothing. }
  destruct (Z.eqb_spec p 0); [lia|].
  destruct (Z.eqb_spec (IoAllocateMdl p) 0).
  { setoid_rewrite KM_step; [|by apply on_kern_ok, release_last].
    eexists _, _. split; [done|]. split_and!; [|done..]. by apply init_nothing. }
  setoid_rewrite KM_step; [|by apply on_kern_ok].
  destruct (MmMapLockedPagesSpecifyCache (IoAllocateMdl p)) as [code|user] eqn:Em.
  { setoid_rewrite KM_step; [|by apply on_kern_ok, release_last].
    setoid_rewrite KM_step; [|by apply on_kern_ok, release_last].
    eexists _, _. split; [done|]. split_and!; [|done..]. by apply init_nothing. }
  setoid_rewrite KM_step; [|by apply on_kern_ok]. setoid_rewrite KM_step; [|done].
  unfold SharedMappingInitialiseTimer.
  destruct (Z.eqb_spec IoAllocateWorkItem 0) as [Ew|Ew].
  - setoid_rewrite KM_step; [|by erewrite KM_step by done].
    setoid_rewrite KM_step; [|by rewrite (init_buffer irp io user Hirp Hl)].
    eexists _, _. split; [done|]. split_and!; [|done..].
    apply (init_without_timer s irp io p user); try done; [cbn; by rewrite Ew|].
    cbn [held set_held kern set_kern set_mapping]. rewrite Hh1. clear. multiset_solver.
  - setoid_rewrite KM_step.
    2: { erewrite KM_step by done. erewrite KM_step by (by apply on_kern_ok).
         erewrite KM_step by (by apply on_kern_ok). done. }
    setoid_rewrite KM_step; [|by rewrite (init_buffer irp io user Hirp Hl)].
    eexists _, _. split; [done|]. split_and!; [|done..].
    apply (init_mapped s irp io p user); try done.
    cbn [held set_held kern set_kern set_mapping mapping]. rewrite Hh1. unfold mapping_resources.
    cbn [kernel_buffer mdl work_item user_buffer set_work_item]. clear. multiset_solver.
Qed.

Lemma inv_initialise base c old irp io r s' :
  sm_inv base c old -> active (mapping (st c)) = false -> IoAllocateWorkItem <> 0 ->
  init_outcome (st c) irp io r s' -> kernel_wf (kern s') -> queued s' = queued (st c) ->
  sm_inv base (Conc s' (running c)) old.
Proof.
  intros [Hk Hc H1 Hh Hi] Ha Hw Ho Hk' Hq. destruct (Hi Ha) as [Eq Er]. rewrite Ha in Hh.
  destruct Ho as [status irp' s' Hm Hheld|buffer user s' _ _ _ _ Hm Hheld|]; [| |done].
  - split; cbn; rewrite ?Hm, ?Hheld, ?Hq; try done. by rewrite Ha.
  - rewrite Hm in Hheld. split; cbn [st running]; rewrite ?Hq, ?Eq, ?Er, ?Hm; try done.
    { cbn. lia. }
    rewrite Hheld, Hh. cbn [active]. clear. multiset_solver.
Qed.

Lemma inv_step base c c' old :
  sm_inv base c old -> sm_step c c' -> exists old', sm_inv base c' old'.
Proof.
  intros HI Hs. destruct Hs as [c s' Hq H|c n op s' Hq H|c op rest s' Hr H|c s' Hq Hz H
    |c irp io r s' Hirp Ha Hw H].
  - destruct (dpc_spec base c old HI Hq) as (s1 & E & ?). exists old. rewrite H in E. by simplify_eq.
  - destruct (start_spec base c old n HI Hq) as (op1 & s1 & E & ?). exists old. rewrite H in E. by simplify_eq.
  - destruct (finish_spec base c old op rest HI Hr) as (s1 & E & ?). exists old. rewrite H in E. by simplify_eq.
  - destruct (terminate_spec base c old HI Hq Hz) as (s1 & old1 & E & ?). exists old1.
    rewrite H in E. by simplify_eq.
  - destruct (initialise_spec (st c) irp io (inv_kernel _ _ _ HI) Hirp)
      as (r1 & s1 & E & Ho & Hk & Hq). exists old. rewrite H in E. simplify_eq. by eapply inv_initialise.
Qed.

Lemma inv_safe base c old : sm_inv base c old -> sm_safe c.
Proof.
  intros HI. split.
  - intros Hq. destruct (dpc_spec base c old HI Hq) as (s' & ? & _). eauto.
  - intros n Hq. destruct (start_spec base c old n HI Hq) as (op & s' & ? & _). eauto.
  - intros op rest Hr. destruct (finish_spec base c old op rest HI Hr) as (s' & ? & _). eauto.
  - intros Hq Hz. destruct (terminate_spec base c old HI Hq Hz) as (s' & ? & ? & _). eauto.
  - intros irp io Hirp _.
    destruct (initialise_spec (st c) irp io (inv_kernel _ _ _ HI) Hirp) as (r & s' & ? & _). eauto.
Qed.

End lemmas.

(** ** Properties *)

Section properties.
Context {P : Pool} {W : MappingApi}.

(** Starting a shared mapping, on every branch.  On a well-formed request
    it never faults.  Either nothing is kept and the mapping is as before, or the
    page is mapped, the client gets its address and size and nothing else, and
    page, descriptor list, work item, timer and user mapping are held.  The third
    case is the failure of the work item's allocation, which is not noticed: the
    request succeeds with a mapping that has neither a work item nor a timer. *)
Theorem shared_mapping_initialise_outcomes s irp io :
  kernel_wf (kern s) -> irp_wf irp io ->
  exists r s', SharedMappingInitialise irp s = Ok (r, s') /\ init_outcome s irp io r s'.
Proof.
  intros Hk Hirp. destruct (initialise_spec s irp io Hk Hirp) as (r & s' & H & Ho & _). eauto.
Qed.


(** Tearing the mapping down does not wait for queued work.  The counter
    [SharedMappingTerminate] waits for is incremented only when a work item
    starts: if the timer has queued one that has not started, everything is
    freed, and when the work item starts it reads the freed page. *)
Theorem terminate_ignores_queued_work base c old :
  sm_inv base c old -> active (mapping (st c)) = true ->
  queued (st c) = 0%nat -> work_item_status (mapping (st c)) = 0 ->
  (forall tag, Block 0 tag ∉ base) ->
  exists s1 s2,
    SharedMappingDpcRoutine (st c) = Ok (tt, s1) /\ queued s1 = 1%nat /\
    SharedMappingTerminate 1 s1 = Ok (tt, s2) /\
    work_routine_begin (set_queued 0 s2) = Crash UnmappedRead.
Proof.
  intros HI Ha Hq Hz H0. pose proof (inv_held _ _ _ HI) as Hh. rewrite Ha in Hh.
  destruct (terminate_run 0 (set_queued 1 (st c)) (base ⊎ user_mappings old) Ha Hz Hh)
    as (k & H2 & Hk & _).
  eexists (set_queued 1 (st c)), _. split_and!; [|done|exact H2|].
  - unfold SharedMappingDpcRoutine. erewrite KM_step by done. rewrite Ha, Hz. cbn [negb orb Z.eqb].
    erewrite KM_step; [by cbv [modify]; rewrite Hq|]. apply check_held_ok. rewrite Hh.
    unfold mapping_resources. clear. multiset_solver.
  - unfold work_routine_begin. erewrite KM_step by done. erewrite KM_step by done.
    unfold check_held, mbind, KM_bind. rewrite decide_False; [done|].
    cbn [kern set_mapping set_queued mapping kernel_buffer add_status zero_mapping]. rewrite Hk.
    rewrite !gmultiset_elem_of_disj_union, gmultiset_elem_of_singleton.
    intros [[H|H]|H]; [by apply (H0 POOL_TAG_INTEGRITY)| |done].
    unfold user_mappings in H. rewrite elem_of_list_to_set_disj in H.
    by apply list_elem_of_fmap in H as (? & ? & _).
Qed.

End properties.

(** ** Witnesses *)

Definition sample_mapping_api : MappingApi := {|
  IoAllocateMdl := fun _ => 0x20;
  MmMapLockedPagesSpecifyCache := fun _ => inr 0x7000;
  IoAllocateWorkItem := 0x30;
  timer := 0x40;
  operation_id := fun _ => 7;
|}.

Definition plenty : Pool := fun _ => true.
Definition no_mapping : sm_state := SmState zero_mapping (Kernel ∅ 0x10000 0 [] 0) 0 [].
Definition mapping_request : IRP := Irp (Some (IoStack 0 16 0)) (replicate 16 9) 0 0.

Lemma mapping_request_wf : irp_wf mapping_request (IoStack 0 16 0).
Proof. split; cbn; [reflexivity|lia|reflexivity]. Qed.

Lemma no_mapping_inv : sm_inv (W := sample_mapping_api) ∅ (Conc no_mapping []) [].
Proof. split; try done. cbn. lia. Qed.

(** The state after a mapping has been started. *)
Definition mapped : sm_state :=
  SmState (SharedMap 0 0x7000 0x10000 0x20 PAGE_SIZE true 0x30)
    (Kernel {[+ Block 0x10000 POOL_TAG_INTEGRITY; Mdl 0x20; UserMapping 0x7000; WorkItem 0x30;
                ActiveTimer 0x40 +]} 0x11000 1 [] 0) 0 [].

Lemma mapped_inv : sm_inv (W := sample_mapping_api) ∅ (Conc mapped []) [].
Proof. split; try done. cbn. lia. Qed.

Lemma shared_mapping_initialise_outcomes_witness :
  exists r s', SharedMappingInitialise (P := plenty) (W := sample_mapping_api) mapping_request
      no_mapping = Ok (r, s') /\
    init_outcome (W := sample_mapping_api) no_mapping mapping_request (IoStack 0 16 0) r s'.
Proof.
  apply (shared_mapping_initialise_outcomes (P := plenty) (W := sample_mapping_api) no_mapping
    mapping_request (IoStack 0 16 0)).
  - unfold kernel_wf. cbn. lia.
  - exact mapping_request_wf.
Defined.

(** The timer fires, then the work item starts. *)
Lemma mapped_steps :
  exists c' op, rtc (sm_step (P := plenty) (W := sample_mapping_api)) (Conc mapped []) c' /\
    running c' = [op].
Proof.
  destruct (dpc_spec (W := sample_mapping_api) ∅ (Conc mapped []) [] mapped_inv eq_refl)
    as (s1 & H1 & I1).
  assert (queued s1 = 1%nat) as Hq.
  { unfold SharedMappingDpcRoutine in H1. erewrite KM_step in H1 by done. cbn [st mapping mapped
      active work_item_status negb orb Z.eqb] in H1.
    rewrite (KM_step _ _ mapped tt mapped) in H1.
    - injection H1 as <-. reflexivity.
    - apply check_held_ok. cbn [kern mapped held work_item]. clear. multiset_solver. }
  destruct (start_spec ∅ (Conc s1 []) [] 0 I1 Hq) as (op & s2 & H2 & _).
  exists (Conc s2 [op]), op. split; [|done].
  eapply rtc_l; [by eapply (step_timer (Conc mapped []))|].
  eapply rtc_l; [by eapply (step_start (Conc s1 []))|]. constructor.
Qed.


Lemma terminate_ignores_queued_work_witness :
  exists s1 s2,
    SharedMappingDpcRoutine (st (Conc mapped [])) = Ok (tt, s1) /\ queued s1 = 1%nat /\
    SharedMappingTerminate (W := sample_mapping_api) 1 s1 = Ok (tt, s2) /\
    work_routine_begin (W := sample_mapping_api) (set_queued 0 s2) = Crash UnmappedRead.
Proof.
  apply (terminate_ignores_queued_work (W := sample_mapping_api) ∅ (Conc mapped []) []).
  - exact mapped_inv.
  - reflexivity.
  - reflexivity.
  - reflexivity.
  - intros tag. apply gmultiset_not_elem_of_empty.
Defined.
