(* ===== verification/Handles.v ===== *)
(** * callbacks.c: access rights to the protected process

    Two mechanisms keep other processes from using handles to the protected
    process: a callback of the object manager that reduces the access of new
    handles, and a scan over the handle tables of all processes that strips
    rights from existing ones. *)

From Stdlib Require Import Ascii.
From S2P Require Import Prelude Layout Irp Structs Kernel Modules Session.

(** ** Data *)

Definition PROCESS_TERMINATE : Z := 0x0001.
Definition PROCESS_CREATE_THREAD : Z := 0x0002.
Definition PROCESS_VM_OPERATION : Z := 0x0008.
Definition PROCESS_VM_READ : Z := 0x0010.
Definition PROCESS_VM_WRITE : Z := 0x0020.
Definition PROCESS_DUP_HANDLE : Z := 0x0040.
Definition PROCESS_CREATE_PROCESS : Z := 0x0080.
Definition PROCESS_SET_QUOTA : Z := 0x0100.
Definition PROCESS_SET_INFORMATION : Z := 0x0200.
Definition PROCESS_QUERY_INFORMATION : Z := 0x0400.
Definition PROCESS_SUSPEND_RESUME : Z := 0x0800.
Definition PROCESS_QUERY_LIMITED_INFORMATION : Z := 0x1000.
Definition SYNCHRONIZE : Z := 0x100000.

(** The bit fields of a [HANDLE_TABLE_ENTRY]. *)
Record HANDLE_TABLE_ENTRY := HandleEntry {
  Unlocked : Z;
  RefCnt : Z;
  Attributes : Z;
  ObjectPointerBits : Z;
  GrantedAccessBits : Z;
  NoRightsUpgrade : Z;
  TypeInfo : Z;
}.

Definition OBJECT_HEADER_SIZE : Z := 0x30.

Definition GET_OBJECT_HEADER_FROM_HANDLE (x : Z) : Z :=
  Z.lor (u64 (Z.shiftl x 4)) 0xffff000000000000.

(** A store to the 25-bit field. *)
Definition set_granted (v : Z) (e : HANDLE_TABLE_ENTRY) : HANDLE_TABLE_ENTRY :=
  HandleEntry (Unlocked e) (RefCnt e) (Attributes e) (ObjectPointerBits e)
    (v mod 2 ^ 25) (NoRightsUpgrade e) (TypeInfo e).

(** [RtlCompareUnicodeString] with [CaseInSensitive] set: whether two names are
    equal up to case. *)
Definition upcase (c : ascii) : ascii :=
  let n := nat_of_ascii c in
  if (97 <=? n)%nat && (n <=? 122)%nat then ascii_of_nat (n - 32) else c.

Fixpoint RtlUpcaseUnicodeString (s : string) : string :=
  match s with
  | EmptyString => EmptyString
  | String c s => String (upcase c) (RtlUpcaseUnicodeString s)
  end.

Definition same_name (a b : string) : bool :=
  String.eqb (RtlUpcaseUnicodeString a) (RtlUpcaseUnicodeString b).

(** The object manager and the process manager: types and image names of
    objects, the 64 bytes at a process's image name, its handle table, valid
    addresses, the system process and the calling process. *)
Class HandleApi := {
  ObGetObjectType : Z -> string;
  PsGetProcessImageFileName : Z -> string;
  image_name_bytes : Z -> list Z;
  handle_table_of : Z -> Z;
  MmIsAddressValid : Z -> bool;
  PsInitialSystemProcess : Z;
  PsGetCurrentProcess : Z;
}.

(** The session, the reports, the handle tables by address, and the mutex of
    the callback configuration. *)
Record h_state := HState {
  hsession : session_state;
  hkern : kernel;
  tables : gmap Z (list HANDLE_TABLE_ENTRY);
  config_mutex : bool;
}.

Abbreviation M := (KM h_state).

Definition on_session {X} (m : KM session_state X) : M X := fun s =>
  match m (hsession s) with
  | Ok (x, t) => Ok (x, HState t (hkern s) (tables s) (config_mutex s))
  | Crash f => Crash f
  end.
Definition on_kernel {X} (m : KM kernel X) : M X := fun s =>
  match m (hkern s) with
  | Ok (x, k) => Ok (x, HState (hsession s) k (tables s) (config_mutex s))
  | Crash f => Crash f
  end.

Definition config_acquire : M unit := fun s =>
  if config_mutex s then Crash Deadlock
  else Ok (tt, HState (hsession s) (hkern s) (tables s) true).
Definition config_release : M unit :=
  modify (fun s => HState (hsession s) (hkern s) (tables s) false).

Section operations.
Context {P : Pool} {K : ReportSink} {A : ProcessApi} {H : HandleApi}.

(** [PsGetProcessImageFileName] of a null process. *)
Definition image_name (process : Z) : M string :=
  if process =? 0 then crash NullDereference else mret (PsGetProcessImageFileName process).

(** ** New handles *)

Definition deny_access : Z := Z.lor SYNCHRONIZE PROCESS_TERMINATE.

Definition allowed_creator (creator target : string) : bool :=
  String.eqb creator "lsass.exe" || String.eqb creator "csrss.exe" ||
  String.eqb creator "WerFault.exe" || String.eqb creator "MsMpEng.exe" ||
  String.eqb creator target.

(** The result is the access the new handle gets.  The configuration is part
    of the session, so the pointer to it is never null. *)
Definition ObPreOpCallbackRoutine (target_process DesiredAccess : Z) : M Z :=
  let process_creator := PsGetCurrentProcess in
  on_session (locked_read (fun _ => tt)) ≫= fun _ =>
  config_acquire ≫= fun _ =>
  protected_process_id ← on_session SessionGetProcessId;
  protected_process ← on_session SessionGetProcess;
  access ←
    (if (protected_process_id =? 0) || (protected_process =? 0) then mret DesiredAccess
     else
       process_creator_name ← image_name process_creator;
       target_process_name ← image_name target_process;
       protected_process_name ← image_name protected_process;
       if negb (String.eqb protected_process_name target_process_name) then mret DesiredAccess
       else if allowed_creator process_creator_name target_process_name then mret DesiredAccess
       else if target_process =? process_creator then mret DesiredAccess
       else mret deny_access);
  config_release ≫= fun _ =>
  mret access.

(** ** Existing handles *)

Definition ExUnlockHandleTableEntry (e : HANDLE_TABLE_ENTRY) : HANDLE_TABLE_ENTRY :=
  HandleEntry (Z.lor (Unlocked e) 1) (RefCnt e) (Attributes e) (ObjectPointerBits e)
    (GrantedAccessBits e) (NoRightsUpgrade e) (TypeInfo e).

(** [if (mask & right) Entry->GrantedAccessBits &= ~right] for each right. *)
Fixpoint strip_rights (rights : list Z) (handle_access_mask : Z) (e : HANDLE_TABLE_ENTRY)
  : HANDLE_TABLE_ENTRY :=
  match rights with
  | [] => e
  | r :: rights =>
      let e := if negb (Z.land handle_access_mask r =? 0)
               then set_granted (Z.land (GrantedAccessBits e) (Z.lnot r)) e else e in
      strip_rights rights handle_access_mask e
  end.

(** Rights stripped from every process, and those left to critical ones. *)
Definition common_rights : list Z :=
  [PROCESS_CREATE_PROCESS; PROCESS_CREATE_THREAD; PROCESS_DUP_HANDLE;
   PROCESS_QUERY_INFORMATION; PROCESS_QUERY_LIMITED_INFORMATION; PROCESS_VM_READ].
Definition further_rights : list Z :=
  [PROCESS_SET_INFORMATION; PROCESS_SET_QUOTA; PROCESS_SUSPEND_RESUME; PROCESS_TERMINATE;
   PROCESS_VM_OPERATION; PROCESS_VM_WRITE].

Definition report_handle (process handle_access_mask : Z) : KM kernel unit :=
  complete_report (sizeof OPEN_HANDLE_FAILURE_REPORT) REPORT_POOL_TAG
    (Ok (OpenHandleFailure REPORT_ILLEGAL_HANDLE_OPERATION 0 (s32 (PsGetProcessId process)) 0
           handle_access_mask (image_name_bytes process))).

Definition EnumHandleCallback (Entry : HANDLE_TABLE_ENTRY) : M (bool * HANDLE_TABLE_ENTRY) :=
  let object_header := GET_OBJECT_HEADER_FROM_HANDLE (ObjectPointerBits Entry) in
  let object := u64 (object_header + OBJECT_HEADER_SIZE) in
  if negb (same_name (ObGetObjectType object) "Process")
  then mret (false, ExUnlockHandleTableEntry Entry)
  else
    process_name ← image_name object;
    protected_process ← on_session SessionGetProcess;
    protected_process_name ← image_name protected_process;
    if negb (String.eqb process_name protected_process_name)
    then mret (false, ExUnlockHandleTableEntry Entry)
    else
      let handle_access_mask := GrantedAccessBits Entry in
      let Entry := strip_rights common_rights handle_access_mask Entry in
      if String.eqb process_name "csrss.exe" || String.eqb process_name "lsass.exe"
      then mret (false, ExUnlockHandleTableEntry Entry)
      else
        let Entry := strip_rights further_rights handle_access_mask Entry in
        on_kernel (report_handle object handle_access_mask) ≫= fun _ =>
        mret (false, ExUnlockHandleTableEntry Entry).

(** [ExEnumHandleTable]: the callback on each entry until it returns [TRUE]. *)
Fixpoint enum_loop (entries : list HANDLE_TABLE_ENTRY) : M (list HANDLE_TABLE_ENTRY) :=
  match entries with
  | [] => mret []
  | e :: entries =>
      '(stop, e) ← EnumHandleCallback e;
      if stop : bool then mret (e :: entries)
      else
        rest ← enum_loop entries;
        mret (e :: rest)
  end.

(** The entry's process, [None] for a null entry. *)
Definition EnumerateProcessHandles (ProcessListEntry : option Z) : M NTSTATUS :=
  match ProcessListEntry with
  | None => mret STATUS_INVALID_PARAMETER
  | Some process =>
      if process =? PsInitialSystemProcess then mret STATUS_SUCCESS
      else
        let handle_table := handle_table_of process in
        if handle_table =? 0 then mret STATUS_INVALID_ADDRESS
        else if negb (MmIsAddressValid handle_table) then mret STATUS_INVALID_ADDRESS
        else
          ts ← gets tables;
          entries ← of_option UnmappedRead (ts !! handle_table);
          entries ← enum_loop entries;
          modify (fun s => HState (hsession s) (hkern s) (<[handle_table := entries]> (tables s))
                             (config_mutex s)) ≫= fun _ =>
          mret STATUS_SUCCESS
  end.

End operations.

(** ** Specification *)

(** All bits of a list of rights. *)
Definition mask_of (rights : list Z) : Z := foldr Z.lor 0 rights.

Section specification.
Context {A : ProcessApi} {H : HandleApi}.

Definition object_of (e : HANDLE_TABLE_ENTRY) : Z :=
  u64 (GET_OBJECT_HEADER_FROM_HANDLE (ObjectPointerBits e) + OBJECT_HEADER_SIZE).

(** The handle is to a process with the protected process's image name. *)
Definition protects (protected : Z) (e : HANDLE_TABLE_ENTRY) : bool :=
  same_name (ObGetObjectType (object_of e)) "Process" &&
  String.eqb (PsGetProcessImageFileName (object_of e)) (PsGetProcessImageFileName protected).

Definition critical (process : Z) : bool :=
  String.eqb (PsGetProcessImageFileName process) "csrss.exe" ||
  String.eqb (PsGetProcessImageFileName process) "lsass.exe".

(** The rights a handle loses: to create processes and threads in the process,
    to duplicate, query and read it, and, unless the process is critical, also
    to change its information and quota, to suspend, terminate or write it and
    to change its memory. *)
Definition lost_rights (protected : Z) (e : HANDLE_TABLE_ENTRY) : Z :=
  if protects protected e then
    if critical (object_of e) then 0x14d2 else 0x1ffb
  else 0.

Definition stripped (protected : Z) (e : HANDLE_TABLE_ENTRY) : HANDLE_TABLE_ENTRY :=
  HandleEntry (Z.lor (Unlocked e) 1) (RefCnt e) (Attributes e) (ObjectPointerBits e)
    (Z.land (GrantedAccessBits e) (Z.lnot (lost_rights protected e)))
    (NoRightsUpgrade e) (TypeInfo e).

Definition handle_reports (protected : Z) (e : HANDLE_TABLE_ENTRY) : list (report * Z) :=
  if protects protected e && negb (critical (object_of e)) then
    [(OpenHandleFailure REPORT_ILLEGAL_HANDLE_OPERATION 0 (s32 (PsGetProcessId (object_of e))) 0
        (GrantedAccessBits e) (image_name_bytes (object_of e)),
      sizeof OPEN_HANDLE_FAILURE_REPORT)]
  else [].

Definition entry_ok (e : HANDLE_TABLE_ENTRY) : Prop :=
  0 <= GrantedAccessBits e < 2 ^ 25 /\ object_of e <> 0.

End specification.

(** ** Lemmas *)

Lemma land_lnot_range g r w : 0 <= g < 2 ^ w -> 0 <= Z.land g (Z.lnot r) < 2 ^ w.
Proof.
  intros Hg. assert (0 <= w) as Hw.
  { destruct (Z.neg_nonneg_cases w) as [Hn|]; [|done]. rewrite Z.pow_neg_r in Hg by done. lia. }
  rewrite <- (Z.mod_small g (2 ^ w)) by done. rewrite <- Z.land_ones by done.
  rewrite <- Z.land_assoc, (Z.land_comm (Z.ones w)), Z.land_assoc, Z.land_ones by done.
  apply Z.mod_pos_bound. lia.
Qed.

(** Clearing bits one right at a time. *)
Lemma strip_rights_spec m rights : forall e,
  0 <= GrantedAccessBits e < 2 ^ 25 -> Z.land (GrantedAccessBits e) m = GrantedAccessBits e ->
  strip_rights rights m e
  = HandleEntry (Unlocked e) (RefCnt e) (Attributes e) (ObjectPointerBits e)
      (Z.land (GrantedAccessBits e) (Z.lnot (mask_of rights))) (NoRightsUpgrade e) (TypeInfo e).
Proof.
  induction rights as [|r rights IH]; intros e Hg Hm.
  { cbn. rewrite Z.land_m1_r. by destruct e. }
  cbn [strip_rights mask_of foldr]. fold (mask_of rights).
  assert ((if negb (Z.land m r =? 0) then set_granted (Z.land (GrantedAccessBits e) (Z.lnot r)) e
           else e) = HandleEntry (Unlocked e) (RefCnt e) (Attributes e) (ObjectPointerBits e)
             (Z.land (GrantedAccessBits e) (Z.lnot r)) (NoRightsUpgrade e) (TypeInfo e)) as ->.
  { destruct (Z.eqb_spec (Z.land m r) 0) as [E|E]; cbn [negb].
    - assert (Z.land (GrantedAccessBits e) (Z.lnot r) = GrantedAccessBits e) as ->.
      { rewrite <- Z.ldiff_land. apply Z.bits_inj'. intros n Hn. rewrite Z.ldiff_spec.
        rewrite <- Hm, Z.land_spec. pose proof (f_equal (fun x => Z.testbit x n) E) as En.
        cbn beta in En. rewrite Z.land_spec, Z.bits_0 in En.
        by destruct (Z.testbit (GrantedAccessBits e) n), (Z.testbit m n), (Z.testbit r n). }
      by destruct e.
    - unfold set_granted. by rewrite Z.mod_small by (by apply land_lnot_range). }
  rewrite IH; cbn [Unlocked RefCnt Attributes ObjectPointerBits GrantedAccessBits NoRightsUpgrade
    TypeInfo].
  - f_equal. by rewrite Z.lnot_lor, Z.land_assoc.
  - by apply land_lnot_range.
  - rewrite <- Z.land_assoc, (Z.land_comm (Z.lnot r)), Z.land_assoc. by rewrite Hm.
Qed.

Section lemmas.
Context {P : Pool} {K : ReportSink} {A : ProcessApi} {H : HandleApi}.

(** Reading the session when its mutex is free leaves the state alone. *)
Lemma read_session {X} (f : ACTIVE_SESSION -> X) s :
  session_lock (hsession s) = false ->
  on_session (locked_read f) s = Ok (f (session (hsession s)), s).
Proof.
  intros Hl. unfold on_session, locked_read, acquire_session, release_session. munfold.
  rewrite Hl. cbn. destruct s as [[ses lock refs term] k ts mu]. cbn in *. by rewrite Hl.
Qed.

Lemma image_name_ok p s : p <> 0 -> image_name p s = Ok (PsGetProcessImageFileName p, s).
Proof. intros Hp. unfold image_name. by destruct (Z.eqb_spec p 0). Qed.

Lemma strip_spec e l :
  0 <= GrantedAccessBits e < 2 ^ 25 ->
  strip_rights l (GrantedAccessBits e) e
  = HandleEntry (Unlocked e) (RefCnt e) (Attributes e) (ObjectPointerBits e)
      (Z.land (GrantedAccessBits e) (Z.lnot (mask_of l))) (NoRightsUpgrade e) (TypeInfo e).
Proof. intros. apply strip_rights_spec; [done|]. apply Z.land_diag. Qed.

Lemma strip_rights_app m k l e : strip_rights (k ++ l) m e = strip_rights l m (strip_rights k m e).
Proof. revert e. induction k as [|r k IH]; intros e; [done|]. cbn. apply IH. Qed.

(** The callback on one entry. *)
Lemma EnumHandleCallback_spec s e :
  session_lock (hsession s) = false -> kernel_wf (hkern s) ->
  process (session (hsession s)) <> 0 -> entry_ok e ->
  exists k, EnumHandleCallback e s
      = Ok ((false, stripped (process (session (hsession s))) e),
            HState (hsession s) k (tables s) (config_mutex s)) /\
    sends (hkern s) k (handle_reports (process (session (hsession s))) e).
Proof.
  intros Hl Hwf Hp [Hg Ho]. unfold EnumHandleCallback, stripped, handle_reports, lost_rights, protects.
  fold (object_of e). set (pp := process (session (hsession s))) in *.
  assert (forall v, HState (hsession s) (hkern s) (tables s) (config_mutex s) = s) as Es by (by destruct s).
  destruct (same_name (ObGetObjectType (object_of e)) "Process"); cbn [negb andb].
  2: { exists (hkern s). rewrite Z.land_m1_r, Es by done. split; [by destruct e|]. by apply sends_refl. }
  setoid_rewrite KM_step; [|by apply image_name_ok].
  setoid_rewrite KM_step; [|by apply read_session].
  setoid_rewrite KM_step; [|by apply image_name_ok]. fold pp.
  destruct (String.eqb (PsGetProcessImageFileName (object_of e)) (PsGetProcessImageFileName pp));
    cbn [negb andb].
  2: { exists (hkern s). rewrite Z.land_m1_r, Es by done. split; [by destruct e|]. by apply sends_refl. }
  fold (critical (object_of e)). destruct (critical (object_of e)); cbn [negb].
  - exists (hkern s). rewrite Es by done. split; [|by apply sends_refl].
    by rewrite strip_spec.
  - rewrite <- strip_rights_app, strip_spec by done.
    exists (reported (hkern s) (sizeof OPEN_HANDLE_FAILURE_REPORT)
      (OpenHandleFailure REPORT_ILLEGAL_HANDLE_OPERATION 0 (s32 (PsGetProcessId (object_of e))) 0
        (GrantedAccessBits e) (image_name_bytes (object_of e)))).
    split; [|by apply sends_reported].
    erewrite KM_step; [done|]. unfold on_kernel, report_handle.
    by rewrite complete_report_spec.
Qed.

Lemma enum_loop_spec entries : forall s,
  session_lock (hsession s) = false -> kernel_wf (hkern s) ->
  process (session (hsession s)) <> 0 -> Forall entry_ok entries ->
  exists k, enum_loop entries s
      = Ok (stripped (process (session (hsession s))) <$> entries,
            HState (hsession s) k (tables s) (config_mutex s)) /\
    sends (hkern s) k (concat (handle_reports (process (session (hsession s))) <$> entries)).
Proof.
  induction entries as [|e entries IH]; intros s Hl Hwf Hp He.
  { exists (hkern s). split; [by destruct s|]. by apply sends_refl. }
  apply Forall_cons in He as [He1 He].
  destruct (EnumHandleCallback_spec s e Hl Hwf Hp He1) as (k1 & H1 & S1).
  destruct (IH (HState (hsession s) k1 (tables s) (config_mutex s))) as (k2 & H2 & S2);
    [done|apply S1|done..|].
  exists k2. split; [|by eapply sends_trans].
  cbn [enum_loop]. erewrite KM_step by exact H1. cbn beta iota.
  by erewrite KM_step by exact H2.
Qed.

(** A second scan finds nothing left to strip. *)
Lemma stripped_idemp protected e : stripped protected (stripped protected e) = stripped protected e.
Proof.
  unfold stripped. change (lost_rights protected (HandleEntry _ _ _ _ _ _ _))
    with (lost_rights protected e). cbn [Unlocked RefCnt Attributes ObjectPointerBits
    GrantedAccessBits NoRightsUpgrade TypeInfo]. f_equal.
  - by rewrite <- Z.lor_assoc, Z.lor_diag.
  - by rewrite <- Z.land_assoc, Z.land_diag.
Qed.

Lemma entry_ok_stripped protected e : entry_ok e -> entry_ok (stripped protected e).
Proof. intros [Hg Ho]. split; [by apply land_lnot_range|done]. Qed.

(** The table of [p] is one the scan reads. *)
Definition scanned (p : Z) : bool :=
  negb (p =? PsInitialSystemProcess) && negb (handle_table_of p =? 0) &&
  MmIsAddressValid (handle_table_of p).

Lemma EnumerateProcessHandles_skip p s :
  scanned p = false -> exists status, EnumerateProcessHandles (Some p) s = Ok (status, s).
Proof.
  unfold scanned, EnumerateProcessHandles. intros Hs.
  destruct (p =? PsInitialSystemProcess); [by eexists|].
  destruct (handle_table_of p =? 0); [by eexists|].
  destruct (MmIsAddressValid (handle_table_of p)); [done|by eexists].
Qed.

Lemma EnumerateProcessHandles_scan p s entries :
  session_lock (hsession s) = false -> kernel_wf (hkern s) ->
  process (session (hsession s)) <> 0 -> scanned p = true ->
  tables s !! handle_table_of p = Some entries -> Forall entry_ok entries ->
  exists k, EnumerateProcessHandles (Some p) s
      = Ok (STATUS_SUCCESS, HState (hsession s) k
              (<[handle_table_of p := stripped (process (session (hsession s))) <$> entries]>
                 (tables s)) (config_mutex s)) /\
    sends (hkern s) k (concat (handle_reports (process (session (hsession s))) <$> entries)).
Proof.
  intros Hl Hwf Hp Hsc Htab He. unfold scanned in Hsc. unfold EnumerateProcessHandles.
  destruct (p =? PsInitialSystemProcess); [done|]. destruct (handle_table_of p =? 0); [done|].
  cbn [negb andb] in Hsc. rewrite Hsc. cbn [negb].
  destruct (enum_loop_spec entries s Hl Hwf Hp He) as (k & H1 & S1).
  setoid_rewrite KM_step; [|done]. rewrite Htab. setoid_rewrite KM_step; [|done].
  setoid_rewrite (KM_step _ _ _ _ _ H1). by exists k.
Qed.

(** The access a new handle to [target] gets while [p] is protected. *)
Definition access_for (p target access : Z) : Z :=
  if String.eqb (PsGetProcessImageFileName p) (PsGetProcessImageFileName target) &&
     negb (allowed_creator (PsGetProcessImageFileName PsGetCurrentProcess)
             (PsGetProcessImageFileName target)) &&
     negb (target =? PsGetCurrentProcess)
  then deny_access else access.

Lemma allowed_creator_spec creator target :
  allowed_creator creator target
  = bool_decide (creator ∈ ["lsass.exe"; "csrss.exe"; "WerFault.exe"; "MsMpEng.exe"; target]%string).
Proof.
  symmetry. unfold allowed_creator.
  destruct (String.eqb_spec creator "lsass.exe") as [->|]; [by apply bool_decide_eq_true; set_solver|].
  destruct (String.eqb_spec creator "csrss.exe") as [->|]; [by apply bool_decide_eq_true; set_solver|].
  destruct (String.eqb_spec creator "WerFault.exe") as [->|]; [by apply bool_decide_eq_true; set_solver|].
  destruct (String.eqb_spec creator "MsMpEng.exe") as [->|]; [by apply bool_decide_eq_true; set_solver|].
  destruct (String.eqb_spec creator target) as [->|]; [by apply bool_decide_eq_true; set_solver|].
  apply bool_decide_eq_false. rewrite !elem_of_cons, elem_of_nil. tauto.
Qed.

End lemmas.

(** ** Properties *)

Section properties.
Context {P : Pool} {K : ReportSink} {A : ProcessApi} {H : HandleApi}.

(** C22: the scan of a handle table.  While a session protects a process, the
    scan of any other process with a readable table never faults, unlocks every
    entry, and removes exactly the listed rights, and no others, from exactly the
    handles to a process with the protected process's image name; it changes no
    other entry or table and, when memory suffices, sends one report per such
    handle with the access it had, in table order. *)
Theorem handle_scan_strips_rights s p entries :
  session_lock (hsession s) = false -> kernel_wf (hkern s) ->
  process (session (hsession s)) <> 0 -> p <> PsInitialSystemProcess ->
  handle_table_of p <> 0 -> MmIsAddressValid (handle_table_of p) = true ->
  tables s !! handle_table_of p = Some entries -> Forall entry_ok entries ->
  exists s', EnumerateProcessHandles (Some p) s = Ok (STATUS_SUCCESS, s') /\
    hsession s' = hsession s /\ held (hkern s') = held (hkern s) /\
    tables s' = <[handle_table_of p := stripped (process (session (hsession s))) <$> entries]>
                  (tables s) /\
    ((forall n, pool_grants n = true) ->
     sent (hkern s') = sent (hkern s) ++
       concat (handle_reports (process (session (hsession s))) <$> entries)).
Proof.
  intros Hl Hwf Hp Hsys Ht Hv Htab He.
  destruct (EnumerateProcessHandles_scan p s entries) as (k & H1 & S1); [done..| |done|done|].
  { unfold scanned. rewrite Hv. by bool_cases. }
  eexists. split; [exact H1|]. split_and!; [done|apply S1|done|apply S1].
Qed.

(** The object-manager callback.  With both mutexes free it never faults
    and leaves the state as it was.  While a process is protected, a handle to a
    process with its image name gets SYNCHRONIZE and PROCESS_TERMINATE only,
    unless the creator is one of the four system programs, has that image name
    itself, or is the target; every other handle keeps the access asked for. *)
Theorem pre_operation_limits_access s target access :
  session_lock (hsession s) = false -> config_mutex s = false ->
  PsGetCurrentProcess <> 0 -> target <> 0 ->
  ObPreOpCallbackRoutine target access s =
  Ok (let p := process (session (hsession s)) in
      let creator := PsGetProcessImageFileName PsGetCurrentProcess in
      if negb (s32 (km_handle (session (hsession s))) =? 0) && negb (p =? 0) &&
         String.eqb (PsGetProcessImageFileName p) (PsGetProcessImageFileName target) &&
         negb (bool_decide (creator ∈ ["lsass.exe"; "csrss.exe"; "WerFault.exe"; "MsMpEng.exe";
                                        PsGetProcessImageFileName target]%string)) &&
         negb (target =? PsGetCurrentProcess)
      then 0x100001 else access, s).
Proof.
  intros Hl Hc Hcur Ht. unfold ObPreOpCallbackRoutine.
  erewrite KM_step by (by apply read_session).
  set (s1 := HState (hsession s) (hkern s) (tables s) true).
  assert (config_acquire s = Ok (tt, s1)) as Ha by (unfold config_acquire; by rewrite Hc).
  assert (config_release s1 = Ok (tt, s)) as Hr by (destruct s; cbn in *; by subst).
  rewrite (KM_step _ _ _ _ _ Ha).
  unfold SessionGetProcessId, SessionGetProcess.
  erewrite KM_step by (by apply read_session). erewrite KM_step by (by apply read_session).
  cbn [hsession s1]. set (id := s32 (km_handle (session (hsession s)))).
  set (p := process (session (hsession s))). cbv zeta.
  destruct (Z.eqb_spec id 0); cbn [negb andb orb].
  { erewrite KM_step by done. by rewrite (KM_step _ _ _ _ _ Hr). }
  destruct (Z.eqb_spec p 0); cbn [negb andb].
  { erewrite KM_step by done. by rewrite (KM_step _ _ _ _ _ Hr). }
  rewrite (KM_step _ _ s1 (access_for p target access) s1).
  - rewrite (KM_step _ _ _ _ _ Hr). unfold access_for. by rewrite allowed_creator_spec.
  - erewrite KM_step by (by apply image_name_ok). erewrite KM_step by (by apply image_name_ok).
    erewrite KM_step by (by apply image_name_ok). unfold access_for.
    destruct (String.eqb (PsGetProcessImageFileName p) (PsGetProcessImageFileName target));
      cbn [negb andb]; [|done].
    destruct (allowed_creator _ _); cbn [negb andb]; [done|].
    by destruct (target =? PsGetCurrentProcess).
Qed.

End properties.

(** ** Witnesses *)

(** The protected process 0x500 runs game.exe, as does the object of the one
    handle in the table; the calling process is another program. *)
Definition sample_handles : HandleApi := {|
  ObGetObjectType := fun _ => "Process"%string;
  PsGetProcessImageFileName := fun p => if p =? 0x900 then "cheat.exe"%string else "game.exe"%string;
  image_name_bytes := fun _ => bytes_of_string "game.exe";
  handle_table_of := fun _ => 0x10;
  MmIsAddressValid := fun _ => true;
  PsInitialSystemProcess := 4;
  PsGetCurrentProcess := 0x900;
|}.

Definition sample_processes : ProcessApi := {|
  PsLookupProcessByProcessId := fun pid => (STATUS_SUCCESS, pid);
  PsGetProcessId := fun p => p;
  ZwTerminateProcess := fun _ _ => STATUS_SUCCESS;
|}.

Definition sample_entry : HANDLE_TABLE_ENTRY := HandleEntry 0 0 0 1 0x1fffff 0 0.

Definition protected_state : h_state :=
  HState (SessionState (Session.Session true 0x500 0x500 0x500 0 0 [] 0 0 0) false [] [])
    idle_kernel {[0x10 := [sample_entry]]} false.

Lemma handle_scan_strips_rights_witness :
  exists s', EnumerateProcessHandles (P := always_grants) (K := always_succeeds)
      (A := sample_processes) (H := sample_handles) (Some 8) protected_state
      = Ok (STATUS_SUCCESS, s') /\
    tables s' = {[0x10 := [HandleEntry 1 0 0 1 0x1fe004 0 0]]} /\ length (sent (hkern s')) = 1%nat.
Proof.
  destruct (handle_scan_strips_rights (P := always_grants) (K := always_succeeds)
    (A := sample_processes) (H := sample_handles) protected_state 8 [sample_entry])
    as (s' & Hr & _ & _ & Ht & Hs).
  - reflexivity.
  - unfold kernel_wf. cbn. lia.
  - done.
  - done.
  - done.
  - reflexivity.
  - reflexivity.
  - constructor; [|constructor]. split; [cbn; lia|]. vm_compute. discriminate.
  - exists s'. split; [exact Hr|]. rewrite Ht, Hs by done. split; reflexivity.
Defined.

Lemma pre_operation_limits_access_witness :
  ObPreOpCallbackRoutine (H := sample_handles) 0x600 0x1fffff protected_state
  = Ok (0x100001, protected_state).
Proof.
  rewrite (pre_operation_limits_access (H := sample_handles) protected_state 0x600 0x1fffff).
  - reflexivity.
  - reflexivity.
  - reflexivity.
  - done.
  - done.
Defined.
