(* ===== verification/Callbacks.v ===== *)
(** * callbacks.c, thread.c: the lists of processes and threads

    Notify routines of the process manager keep a list of the processes and a
    list of the threads of the system.  The lists are those of Lists.v, on one
    heap; the other fields of an entry are kept beside it, and an access to an
    entry whose block has been freed is a fault.  The scans of thread.c and of
    Handles.v walk the lists. *)

From stdpp Require Import gmultiset.
From S2P Require Import Prelude Layout Irp Structs Kernel Modules Session Nmi Handles Lists.

(** ** Data *)

Record PROCESS_LIST_ENTRY := ProcessEntry {
  process : Z;
  parent : Z;
}.

Record THREAD_LIST_ENTRY := ThreadEntry {
  thread : Z;
  owning_process : Z;
  apc_queued : bool;
  apc : Z;
}.

Definition KTHREAD_APC_STATE_OFFSET : Z := 0x098.
(** [Process] of a [KAPC_STATE] follows its two list heads. *)
Definition KAPC_STATE_Process : Z := 2 * 16.

(** The session, handle tables and resources of the driver; the entries' fields
    by address; the [active] flags; the flag that 32-bit modules can be hashed
    and how often the work item for them was queued; the number of blocks asked
    of the lookaside lists, and the lookaside lists deleted with the number of
    blocks freed before. *)
Record cb_ext := CbExt {
  sys : h_state;
  process_entries : gmap Z PROCESS_LIST_ENTRY;
  thread_entries : gmap Z THREAD_LIST_ENTRY;
  process_active : bool;
  thread_active : bool;
  can_hash_x86 : bool;
  hashing_queued : nat;
  lookaside_requests : nat;
  deleted : list (lookaside * nat);
}.

Abbreviation M := (KM (lstate cb_ext)).

Definition set_ext {E} (x : E) (st : lstate E) : lstate E :=
  LState (next st) (Lists.held st) (frees st) x.
Definition update_ext (f : cb_ext -> cb_ext) : M unit :=
  modify (fun st => set_ext (f (ext st)) st).

Definition set_sys (s : h_state) (x : cb_ext) : cb_ext :=
  CbExt s (process_entries x) (thread_entries x) (process_active x) (thread_active x)
    (can_hash_x86 x) (hashing_queued x) (lookaside_requests x) (deleted x).
Definition set_process_entries (m : gmap Z PROCESS_LIST_ENTRY) (x : cb_ext) : cb_ext :=
  CbExt (sys x) m (thread_entries x) (process_active x) (thread_active x)
    (can_hash_x86 x) (hashing_queued x) (lookaside_requests x) (deleted x).
Definition set_thread_entries (m : gmap Z THREAD_LIST_ENTRY) (x : cb_ext) : cb_ext :=
  CbExt (sys x) (process_entries x) m (process_active x) (thread_active x)
    (can_hash_x86 x) (hashing_queued x) (lookaside_requests x) (deleted x).
Definition set_active (p t : bool) (x : cb_ext) : cb_ext :=
  CbExt (sys x) (process_entries x) (thread_entries x) p t
    (can_hash_x86 x) (hashing_queued x) (lookaside_requests x) (deleted x).
Definition queue_hashing (x : cb_ext) : cb_ext :=
  CbExt (sys x) (process_entries x) (thread_entries x) (process_active x) (thread_active x)
    true (S (hashing_queued x)) (lookaside_requests x) (deleted x).
Definition count_request (x : cb_ext) : cb_ext :=
  CbExt (sys x) (process_entries x) (thread_entries x) (process_active x) (thread_active x)
    (can_hash_x86 x) (hashing_queued x) (S (lookaside_requests x)) (deleted x).
Definition set_deleted (l : list (lookaside * nat)) (x : cb_ext) : cb_ext :=
  CbExt (sys x) (process_entries x) (thread_entries x) (process_active x) (thread_active x)
    (can_hash_x86 x) (hashing_queued x) (lookaside_requests x) l.

(** [GetProcessList()] and [GetThreadList()]: the heads (the first field) and
    the mutexes. *)
Class ListHeads := {
  process_head : Z;
  process_lock : Z;
  thread_head : Z;
  thread_lock : Z;
}.

(** The lookaside lists: the block for the [n]-th request, when the given
    blocks are in use, and the status of their initialisation. *)
Class Lookaside := {
  lookaside_block : nat -> gset Z -> option Z;
  ExInitializeLookasideListEx : lookaside -> NTSTATUS;
}.

Class LookasideLaws (L : Lookaside) : Prop :=
  lookaside_fresh n used a : lookaside_block n used = Some a -> a <> 0 /\ a ∉ used.

(** ** Walks

    [E] is the state beside the heap; an entry's other fields are found in it. *)

Section walks.
Context {E : Type}.

(** The fields of the entry at [p]. *)
Definition read_entry {T} (fields : E -> gmap Z T) (p : Z) : KM (lstate E) T := fun st =>
  if p =? 0 then Crash NullDereference
  else match next st !! p, fields (ext st) !! p with
       | Some _, Some e => Ok (e, st)
       | _, _ => Crash UnmappedRead
       end.

(** A critical section. *)
Definition locked {X} (Lock : Z) (body : KM (lstate E) X) : KM (lstate E) X :=
  mutex_acquire Lock ≫= fun _ =>
  r ← body;
  mutex_release Lock ≫= fun _ =>
  mret r.

(** [while (entry)]: the first entry that matches, or 0. *)
Fixpoint find_loop (fuel : nat) (matches : Z -> KM (lstate E) bool) (entry : Z) : KM (lstate E) Z :=
  match fuel with
  | O => crash OutOfFuel
  | S fuel =>
      if entry =? 0 then mret 0
      else
        found ← matches entry;
        if found : bool then mret entry
        else
          entry ← read_next entry;
          find_loop fuel matches entry
  end.

(** [while (entry)]: the callback on each entry; it may change what [Context]
    points to, of type [C]. *)
Fixpoint enumerate_loop {C} (fuel : nat) (CallbackRoutine : Z -> C -> KM (lstate E) C)
  (entry : Z) (Context_ : C) : KM (lstate E) C :=
  match fuel with
  | O => crash OutOfFuel
  | S fuel =>
      if entry =? 0 then mret Context_
      else
        Context_ ← CallbackRoutine entry Context_;
        entry ← read_next entry;
        enumerate_loop fuel CallbackRoutine entry Context_
  end.

(** The common body of the three [Enumerate...WithCallbackRoutine]. *)
Definition enumerate_list {C} (head lock : Z)
  (CallbackRoutine : option (Z -> C -> KM (lstate E) C)) (Context_ : C) : KM (lstate E) C :=
  locked lock (
    match CallbackRoutine with
    | None => mret Context_
    | Some callback =>
        entry ← read_next head;
        fuel ← gets (fun st => size (next st));
        enumerate_loop fuel callback entry Context_
    end).

(** The common body of the searches. *)
Definition find_entry (head lock : Z) (matches : Z -> KM (lstate E) bool) : KM (lstate E) Z :=
  locked lock (
    entry ← read_next head;
    fuel ← gets (fun st => size (next st));
    find_loop fuel matches entry).

End walks.

Section operations.
Context {P : Pool} {K : ReportSink} {A : SystemApi} {Pr : ProcessApi} {U : CpuApi}.
Context {H : HandleApi} {G : ListHeads} {L : Lookaside}.

(** ** Services *)

Definition on_sys {X} (m : KM h_state X) : M X := fun st =>
  match m (sys (ext st)) with
  | Ok (x, s) => Ok (x, set_ext (set_sys s (ext st)) st)
  | Crash f => Crash f
  end.

Definition ObfReferenceObject (object : Z) : M unit :=
  on_sys (on_kernel (acquire (Reference object))).
Definition ObDereferenceObject (object : Z) : M unit :=
  on_sys (on_kernel (release (Reference object))).

(** A lookup takes a reference when it succeeds, and leaves the caller's null
    pointer alone when it does not. *)
Definition lookup_object (r : NTSTATUS * Z) : M Z :=
  if NT_SUCCESS r.1 then ObfReferenceObject r.2 ≫= fun _ => mret r.2 else mret 0.

Definition ExAllocateFromLookasideListEx : M Z := fun st =>
  let x := count_request (ext st) in
  match lookaside_block (lookaside_requests (ext st)) (dom (next st)) with
  | Some a => Ok (a, LState (<[a := 0]> (next st)) (Lists.held st) (frees st) x)
  | None => Ok (0, set_ext x st)
  end.

Definition ExDeleteLookasideListEx (l : lookaside) : M unit :=
  modify (fun st => set_ext (set_deleted (deleted (ext st) ++ [(l, length (frees st))]) (ext st)) st).

Definition FindProcessListEntryByProcess (Process : Z) : M Z :=
  find_entry process_head process_lock
    (fun p => e ← read_entry process_entries p; mret (process e =? Process)).

Definition FindThreadListEntryByThreadAddress (Thread : Z) : M Z :=
  find_entry thread_head thread_lock
    (fun p => e ← read_entry thread_entries p; mret (thread e =? Thread)).

Definition EnumerateThreadListWithCallbackRoutine {C}
  (CallbackRoutine : option (Z -> C -> M C)) (Context_ : C) : M C :=
  enumerate_list thread_head thread_lock CallbackRoutine Context_.

Definition EnumerateProcessListWithCallbackRoutine {C}
  (CallbackRoutine : option (Z -> C -> M C)) (Context_ : C) : M C :=
  enumerate_list process_head process_lock CallbackRoutine Context_.

(** ** Start *)

Definition InitialiseProcessList : M NTSTATUS :=
  let status := ExInitializeLookasideListEx ProcessLookaside in
  if negb (NT_SUCCESS status) then mret status
  else
    update_ext (fun x => set_active true (thread_active x) x) ≫= fun _ =>
    ListInit process_head process_lock ≫= fun _ =>
    mret status.

Definition InitialiseThreadList : M NTSTATUS :=
  let status := ExInitializeLookasideListEx ThreadLookaside in
  if negb (NT_SUCCESS status) then mret status
  else
    update_ext (fun x => set_active (process_active x) true x) ≫= fun _ =>
    ListInit thread_head thread_lock ≫= fun _ =>
    mret status.

(** ** Notifications *)

(** The branch of [ProcessCreateNotifyRoutine] for a new process. *)
Definition track_process (parent_ process_ : Z) (process_name : string) : M unit :=
  entry ← ExAllocateFromLookasideListEx;
  if entry =? 0 then mret tt
  else
    ObfReferenceObject parent_ ≫= fun _ =>
    ObfReferenceObject process_ ≫= fun _ =>
    (update_ext (fun x => set_process_entries
       (<[entry := ProcessEntry process_ parent_]> (process_entries x)) x) ≫= fun _ =>
     ListInsert process_head entry process_lock) ≫= fun _ =>
    when (String.eqb process_name "winlogon.exe") (update_ext queue_hashing).

(** The branch for a process that ends. *)
Definition untrack_process (process_ : Z) : M unit :=
  entry ← FindProcessListEntryByProcess process_;
  if entry =? 0 then mret tt
  else
    e ← read_entry process_entries entry;
    ObDereferenceObject (parent e) ≫= fun _ =>
    ObDereferenceObject (process e) ≫= fun _ =>
    LookasideListRemoveEntry process_head entry process_lock.

Definition ProcessCreateNotifyRoutine (ParentId ProcessId : Z) (Create : bool) : M unit :=
  active ← gets (fun st => process_active (ext st));
  if negb active then mret tt
  else
    parent_ ← lookup_object (PsLookupProcessByProcessId ParentId);
    process_ ← lookup_object (PsLookupProcessByProcessId ProcessId);
    if (parent_ =? 0) || (process_ =? 0) then mret tt
    else
      process_name ← on_sys (image_name process_);
      if Create then track_process parent_ process_ process_name else untrack_process process_.

(** The two branches of [ThreadCreateNotifyRoutine]. *)
Definition track_thread (thread_ process_ : Z) : M unit :=
  entry ← ExAllocateFromLookasideListEx;
  if entry =? 0 then mret tt
  else
    ObfReferenceObject thread_ ≫= fun _ =>
    ObfReferenceObject process_ ≫= fun _ =>
    update_ext (fun x => set_thread_entries
      (<[entry := ThreadEntry thread_ process_ false 0]> (thread_entries x)) x) ≫= fun _ =>
    ListInsert thread_head entry thread_lock.

Definition untrack_thread (thread_ : Z) : M unit :=
  entry ← FindThreadListEntryByThreadAddress thread_;
  if entry =? 0 then mret tt
  else
    e ← read_entry thread_entries entry;
    ObDereferenceObject (thread e) ≫= fun _ =>
    ObDereferenceObject (owning_process e) ≫= fun _ =>
    LookasideListRemoveEntry thread_head entry thread_lock.

Definition ThreadCreateNotifyRoutine (ProcessId ThreadId : Z) (Create : bool) : M unit :=
  active ← gets (fun st => thread_active (ext st));
  if negb active then mret tt
  else
    thread_ ← lookup_object (PsLookupThreadByThreadId ThreadId);
    process_ ← lookup_object (PsLookupProcessByProcessId ProcessId);
    if (thread_ =? 0) || (process_ =? 0) then mret tt
    else if Create then track_thread thread_ process_ else untrack_thread thread_.

(** ** Unload *)

(** The references of an object list dropped. *)
Definition drop_references (objects : list Z) (x : cb_ext) : cb_ext :=
  let s := sys x in
  let k := set_held (Kernel.held (hkern s) ∖ list_to_set_disj (Reference <$> objects)) (hkern s) in
  set_sys (HState (hsession s) k (tables s) (config_mutex s)) x.

Definition CleanupProcessListFreeCallback (ProcessListEntry : Z) (x : cb_ext) : cb_ext :=
  match process_entries x !! ProcessListEntry with
  | Some e => drop_references [parent e; process e] x
  | None => x
  end.

Definition CleanupThreadListFreeCallback (ThreadListEntry : Z) (x : cb_ext) : cb_ext :=
  match thread_entries x !! ThreadListEntry with
  | Some e => drop_references [thread e; owning_process e] x
  | None => x
  end.

Definition UnregisterProcessCreateNotifyRoutine : M unit :=
  update_ext (fun x => set_active false (thread_active x) x).

Definition UnregisterThreadCreateNotifyRoutine : M unit :=
  update_ext (fun x => set_active (process_active x) false x).

(** [for (;;)] until the list is empty. *)
Definition CleanupProcessListOnDriverUnload : M unit :=
  fuel ← gets (fun st => size (next st));
  free_all fuel (ToLookaside ThreadLookaside) process_head process_lock
    (Some CleanupProcessListFreeCallback) ≫= fun _ =>
  ExDeleteLookasideListEx ProcessLookaside.

Definition CleanupThreadListOnDriverUnload : M unit :=
  fuel ← gets (fun st => size (next st));
  free_all fuel (ToLookaside ThreadLookaside) thread_head thread_lock
    (Some CleanupThreadListFreeCallback) ≫= fun _ =>
  ExDeleteLookasideListEx ThreadLookaside.

(** The part of [DriverUnload] that concerns the two lists. *)
Definition unload_lists : M unit :=
  UnregisterThreadCreateNotifyRoutine ≫= fun _ =>
  UnregisterProcessCreateNotifyRoutine ≫= fun _ =>
  CleanupThreadListOnDriverUnload ≫= fun _ =>
  CleanupProcessListOnDriverUnload.

(** ** Scans *)

Definition DetectAttachedThreadsProcessCallback (ThreadListEntry : Z) (_ : unit) : M unit :=
  protected_process ← on_sys (on_session SessionGetProcess);
  if protected_process =? 0 then mret tt
  else
    e ← read_entry thread_entries ThreadListEntry;
    let apc_state := thread e + KTHREAD_APC_STATE_OFFSET in
    attached ← lift (load64 system_memory (apc_state + KAPC_STATE_Process));
    if negb ((attached =? protected_process) && negb (owning_process e =? protected_process))
    then mret tt
    else
      on_sys (on_kernel (complete_report (sizeof ATTACH_PROCESS_REPORT) REPORT_POOL_TAG
        (Ok (AttachProcess REPORT_ILLEGAL_ATTACH_PROCESS (u32 (PsGetThreadId (thread e)))
               (u64 (thread e)))))).

Definition DetectThreadsAttachedToProtectedProcess : M unit :=
  EnumerateThreadListWithCallbackRoutine (Some DetectAttachedThreadsProcessCallback) tt.

(** The handle scan of the shared mapping and of the client's request. *)
Definition handle_callback (ProcessListEntry : Z) (_ : unit) : M unit :=
  e ← read_entry process_entries ProcessListEntry;
  _ ← on_sys (EnumerateProcessHandles (Some (process e)));
  mret tt.

Definition scan_handle_tables : M unit :=
  EnumerateProcessListWithCallbackRoutine (Some handle_callback) tt.

End operations.

(** ** Specification *)

(** What is tracked, newest first, the references that no entry accounts for,
    and how often hashing was queued. *)
Record tracked := Tracked {
  procs : list PROCESS_LIST_ENTRY;
  thrds : list THREAD_LIST_ENTRY;
  leaked : gmultiset resource;
  hashings : nat;
}.

Definition process_refs (e : PROCESS_LIST_ENTRY) : gmultiset resource :=
  {[+ Reference (parent e); Reference (process e) +]}.
Definition thread_refs (e : THREAD_LIST_ENTRY) : gmultiset resource :=
  {[+ Reference (thread e); Reference (owning_process e) +]}.
Definition sum_refs {T} (f : T -> gmultiset resource) (l : list T) : gmultiset resource :=
  foldr (fun e m => f e ⊎ m) ∅ l.
Definition entry_refs (a : tracked) : gmultiset resource :=
  sum_refs process_refs (procs a) ⊎ sum_refs thread_refs (thrds a).

Definition leak (m : gmultiset resource) (a : tracked) : tracked :=
  Tracked (procs a) (thrds a) (leaked a ⊎ m) (hashings a).

(** The result of a lookup and the reference it takes. *)
Definition found (r : NTSTATUS * Z) : Z := if NT_SUCCESS r.1 then r.2 else 0.
Definition found_refs (r : NTSTATUS * Z) : gmultiset resource :=
  if NT_SUCCESS r.1 then {[+ Reference r.2 +]} else ∅.

Fixpoint remove_first {T} (test : T -> bool) (l : list T) : list T :=
  match l with
  | [] => []
  | x :: l => if test x then l else x :: remove_first test l
  end.

Inductive notification :=
  | ProcessEvent (ParentId ProcessId : Z) (Create : bool)
  | ThreadEvent (ProcessId ThreadId : Z) (Create : bool).

Section specification.
Context {Pr : ProcessApi} {U : CpuApi} {H : HandleApi}.

(** The references the lookups of a notification take. *)
Definition lookup_refs (e : notification) : gmultiset resource :=
  match e with
  | ProcessEvent ParentId ProcessId _ =>
      found_refs (PsLookupProcessByProcessId ParentId) ⊎
      found_refs (PsLookupProcessByProcessId ProcessId)
  | ThreadEvent ProcessId ThreadId _ =>
      found_refs (PsLookupThreadByThreadId ThreadId) ⊎
      found_refs (PsLookupProcessByProcessId ProcessId)
  end.

(** What a notification does when the lookaside list grants a block or not. *)
Definition note (granted : bool) (e : notification) (a : tracked) : tracked :=
  let a := leak (lookup_refs e) a in
  match e with
  | ProcessEvent ParentId ProcessId Create =>
      let parent := found (PsLookupProcessByProcessId ParentId) in
      let p := found (PsLookupProcessByProcessId ProcessId) in
      if (parent =? 0) || (p =? 0) then a
      else if negb Create then
        Tracked (remove_first (fun x => process x =? p) (procs a)) (thrds a) (leaked a) (hashings a)
      else if granted then
        Tracked (ProcessEntry p parent :: procs a) (thrds a) (leaked a)
          (hashings a + if String.eqb (PsGetProcessImageFileName p) "winlogon.exe" then 1 else 0)
      else a
  | ThreadEvent ProcessId ThreadId Create =>
      let t := found (PsLookupThreadByThreadId ThreadId) in
      let p := found (PsLookupProcessByProcessId ProcessId) in
      if (t =? 0) || (p =? 0) then a
      else if negb Create then
        Tracked (procs a) (remove_first (fun x => thread x =? t) (thrds a)) (leaked a) (hashings a)
      else if granted then
        Tracked (procs a) (ThreadEntry t p false 0 :: thrds a) (leaked a) (hashings a)
      else a
  end.

Definition notes (granted : list bool) (events : list notification) (a : tracked) : tracked :=
  foldl (fun a ge => note ge.1 ge.2 a) a (zip granted events).

End specification.

(** The fields of the entries at [l] are [xs]. *)
Definition entries_at {T} (m : gmap Z T) (l : list Z) (xs : list T) : Prop :=
  Forall2 (fun p e => m !! p = Some e) l xs.

(** The address of the first entry that passes the test. *)
Fixpoint first_address {T} (test : T -> bool) (l : list Z) (xs : list T) : Z :=
  match l, xs with
  | p :: l, x :: xs => if test x then p else first_address test l xs
  | _, _ => 0
  end.

(** The entry found. *)
Lemma first_address_entry {T} (nx : gmap Z Z) (m : gmap Z T) test : forall l xs p,
  chain nx p l -> entries_at m l xs -> first_address test l xs <> 0 ->
  exists e : T, m !! first_address test l xs = Some e /\ e ∈ xs /\
    is_Some (nx !! first_address test l xs) /\ test e = true.
Proof.
  induction l as [|q l IH]; intros xs p Hc Hm Hne.
  - by apply Forall2_nil_inv_l in Hm as ->.
  - apply Forall2_cons_inv_l in Hm as (e & xs' & He & Hm & ->). destruct Hc as (_ & Hq & Hc).
    cbn [first_address] in *. destruct (test e) eqn:Et.
    + exists e. split_and!; [done|by left| |done]. eapply chain_dom; [exact Hc|by left].
    + destruct (IH xs' q Hc Hm Hne) as (e' & ? & ? & ? & ?). exists e'. split_and!; [done|by right|done..].
Qed.

Lemma entries_insert {T} (m : gmap Z T) l xs p e :
  entries_at m l xs -> p ∉ l -> entries_at (<[p := e]> m) (p :: l) (e :: xs).
Proof.
  intros Hm Hp. constructor; [by rewrite lookup_insert_eq|].
  induction Hm as [|q x l xs Hq _ IH]; [constructor|].
  apply not_elem_of_cons in Hp as [? ?]. constructor; [by rewrite lookup_insert_ne|auto].
Qed.

Lemma sum_refs_cons {T} (f : T -> gmultiset resource) x l :
  sum_refs f (x :: l) = f x ⊎ sum_refs f l.
Proof. done. Qed.

(** Finding an entry by a test and removing it by its address. *)
Lemma entries_remove {T} (m : gmap Z T) test l xs :
  entries_at m l xs -> NoDup l -> (forall p, p ∈ l -> p <> 0) ->
  let p := first_address test l xs in
  (p = 0 /\ remove_first test xs = xs) \/
  (p ∈ l /\ exists e, m !! p = Some e /\ e ∈ xs /\
     entries_at m (without p l) (remove_first test xs) /\
     forall f : T -> gmultiset resource, sum_refs f xs = f e ⊎ sum_refs f (remove_first test xs)).
Proof.
  cbv zeta. induction 1 as [|q x l xs Hq Hl IH]; intros Hn H0; [by left|].
  cbn [first_address remove_first].
  apply NoDup_cons in Hn as [Hql Hn]. destruct (test x).
  - right. split; [by left|]. exists x. rewrite without_head by done.
    split_and!; [done|by left|done|done].
  - destruct IH as [[-> ->]|(Hin & e & He & Hx & Ha & Hf)]; [done|set_solver|by left|].
    right. split; [by right|]. exists e.
    rewrite without_tail by congruence.
    split_and!; [done|by right|by constructor|]. intros f.
    rewrite !sum_refs_cons, (Hf f). clear; multiset_solver.
Qed.

Section representation.
Context {Pr : ProcessApi} {U : CpuApi} {H : HandleApi} {G : ListHeads} {L : Lookaside}.

Definition run_notification (e : notification) : M unit :=
  match e with
  | ProcessEvent ParentId ProcessId Create => ProcessCreateNotifyRoutine ParentId ProcessId Create
  | ThreadEvent ProcessId ThreadId Create => ThreadCreateNotifyRoutine ProcessId ThreadId Create
  end.

(** The system state [s] with the references [m] taken. *)
Definition with_refs (m : gmultiset resource) (s : h_state) : h_state :=
  HState (hsession s) (set_held (Kernel.held (hkern s) ⊎ m) (hkern s)) (tables s) (config_mutex s).

(** The heap represents [a], with the entries at [pl] and [tl], on top of the
    system state [s0]. *)
Record represents (s0 : h_state) (st : lstate cb_ext) (a : tracked) (pl tl : list Z) : Prop := {
  rep_plist : slist (next st) process_head pl;
  rep_tlist : slist (next st) thread_head tl;
  rep_disjoint : (process_head :: pl) ## (thread_head :: tl);
  rep_pentries : entries_at (process_entries (ext st)) pl (procs a);
  rep_tentries : entries_at (thread_entries (ext st)) tl (thrds a);
  rep_plock : process_lock ∉ Lists.held st;
  rep_tlock : thread_lock ∉ Lists.held st;
  rep_pactive : process_active (ext st) = true;
  rep_tactive : thread_active (ext st) = true;
  rep_sys : sys (ext st) = with_refs (entry_refs a ⊎ leaked a) s0;
  rep_hashing : hashing_queued (ext st) = hashings a;
}.

(** ** Lemmas *)

Lemma with_refs_acquire m s o :
  on_kernel (acquire (Reference o)) (with_refs m s)
  = Ok (tt, with_refs (m ⊎ {[+ Reference o +]}) s).
Proof.
  unfold on_kernel, acquire, modify, with_refs, set_held. cbn. do 4 f_equal.
  by rewrite (assoc_L (⊎)).
Qed.

Lemma with_refs_release m s o :
  on_kernel (release (Reference o)) (with_refs ({[+ Reference o +]} ⊎ m) s)
  = Ok (tt, with_refs m s).
Proof.
  unfold on_kernel. erewrite (release_last _ (Kernel.held (hkern s) ⊎ m)); [done|].
  unfold with_refs, set_held. cbn [hkern Kernel.held].
  by rewrite (comm_L (⊎) {[+ _ +]}), (assoc_L (⊎)).
Qed.

Lemma reference_represents s0 st a pl tl o :
  represents s0 st a pl tl ->
  exists st', ObfReferenceObject o st = Ok (tt, st') /\ next st' = next st /\
    represents s0 st' (leak {[+ Reference o +]} a) pl tl.
Proof.
  intros [? ? ? ? ? ? ? ? ? Hs ?]. unfold ObfReferenceObject, on_sys.
  rewrite Hs, with_refs_acquire. eexists. split; [done|]. split; [done|].
  split; try done. cbn. by rewrite (assoc_L (⊎)).
Qed.

Lemma represents_leak_nil s0 st a pl tl :
  represents s0 st a pl tl -> represents s0 st (leak ∅ a) pl tl.
Proof.
  intros [? ? ? ? ? ? ? ? ? Hs ?]. split; try done. cbn. by rewrite (right_id_L ∅ (⊎)).
Qed.

Lemma lookup_represents s0 st a pl tl r :
  represents s0 st a pl tl ->
  exists st', lookup_object r st = Ok (found r, st') /\ next st' = next st /\
    represents s0 st' (leak (found_refs r) a) pl tl.
Proof.
  intros Hr. unfold lookup_object, found, found_refs. destruct (NT_SUCCESS r.1).
  - destruct (reference_represents s0 st a pl tl r.2 Hr) as (st' & H1 & Hn & Hr').
    exists st'. by setoid_rewrite (KM_step _ _ _ _ _ H1).
  - exists st. split; [done|]. split; [done|]. by apply represents_leak_nil.
Qed.

Lemma leak_leak m n a : leak n (leak m a) = leak (m ⊎ n) a.
Proof. unfold leak. cbn. by rewrite (assoc_L (⊎)). Qed.

Lemma allocate_represents {La : LookasideLaws L} s0 st a pl tl :
  represents s0 st a pl tl ->
  exists p st', ExAllocateFromLookasideListEx st = Ok (p, st') /\ represents s0 st' a pl tl /\
    ((forall n used, is_Some (lookaside_block n used)) -> p <> 0) /\
    (p <> 0 -> p ∉ process_head :: pl /\ p ∉ thread_head :: tl /\ is_Some (next st' !! p)).
Proof.
  intros [Hp Ht ? ? ? ? ? ? ? ? ?]. unfold ExAllocateFromLookasideListEx.
  destruct (lookaside_block _ _) as [p|] eqn:E.
  - destruct (lookaside_fresh _ _ _ E) as [Hp0 Hd].
    assert (forall h l, slist (next st) h l -> p ∉ h :: l) as Hni.
    { intros h l [Hc _ _] Hin. apply Hd, elem_of_dom. by eapply chain_dom. }
    eexists _, _. split; [done|]. split.
    + split; try done; cbn.
      * destruct Hp; split; try done. apply chain_insert; [done|]. by apply Hni.
      * destruct Ht; split; try done. apply chain_insert; [done|]. by apply Hni.
    + split; [done|]. intros _. split; [by apply Hni|]. split; [by apply Hni|].
      cbn. rewrite lookup_insert_eq. by eexists.
  - eexists 0, _. split; [done|]. split; [by split|]. split; [|done].
    intros Hg. destruct (Hg (lookaside_requests (ext st)) (dom (next st))). congruence.
Qed.

(** A store of an entry's fields followed by the insertion of the entry. *)
Lemma insert_process_represents s0 st a pl tl p e :
  represents s0 st (leak (process_refs e) a) pl tl ->
  p <> 0 -> p ∉ process_head :: pl -> p ∉ thread_head :: tl -> is_Some (next st !! p) ->
  exists st', (update_ext (fun x => set_process_entries (<[p := e]> (process_entries x)) x)
      ≫= fun _ => ListInsert process_head p process_lock) st = Ok (tt, st') /\
    represents s0 st' (Tracked (e :: procs a) (thrds a) (leaked a) (hashings a)) (p :: pl) tl.
Proof.
  intros [Hp Ht Hd Hpe Hte Hpl Htl Hpa Hta Hs Hh] Hp0 Hpp Hpt Hal.
  erewrite KM_step by done.
  destruct (ListInsert_spec (set_ext (set_process_entries
    (<[p := e]> (process_entries (ext st))) (ext st)) st) process_head process_lock pl p)
    as (nx' & H1 & Hs' & Ha); [done..|].
  eexists. split; [exact H1|]. split; cbn; try done.
  - destruct Ht; split; try done. eapply chain_agree; [done|]. intros x Hx.
    apply Ha; intros ->; [|done]. apply (Hd process_head); [by left|done].
  - intros x. rewrite !elem_of_cons in *. specialize (Hd x). rewrite !elem_of_cons in Hd.
    intros [->|[->|Hx]]; naive_solver.
  - apply entries_insert; [done|]. set_solver.
  - rewrite Hs. f_equal. unfold entry_refs, leak. cbn [procs thrds leaked].
    rewrite sum_refs_cons. clear. multiset_solver.
Qed.

Lemma insert_thread_represents s0 st a pl tl p e :
  represents s0 st (leak (thread_refs e) a) pl tl ->
  p <> 0 -> p ∉ process_head :: pl -> p ∉ thread_head :: tl -> is_Some (next st !! p) ->
  exists st', (update_ext (fun x => set_thread_entries (<[p := e]> (thread_entries x)) x)
      ≫= fun _ => ListInsert thread_head p thread_lock) st = Ok (tt, st') /\
    represents s0 st' (Tracked (procs a) (e :: thrds a) (leaked a) (hashings a)) pl (p :: tl).
Proof.
  intros [Hp Ht Hd Hpe Hte Hpl Htl Hpa Hta Hs Hh] Hp0 Hpp Hpt Hal.
  erewrite KM_step by done.
  destruct (ListInsert_spec (set_ext (set_thread_entries
    (<[p := e]> (thread_entries (ext st))) (ext st)) st) thread_head thread_lock tl p)
    as (nx' & H1 & Hs' & Ha); [done..|].
  eexists. split; [exact H1|]. split; cbn; try done.
  - destruct Hp; split; try done. eapply chain_agree; [done|]. intros x Hx.
    apply Ha; intros ->; [|done]. apply (Hd thread_head); [done|by left].
  - intros x. rewrite !elem_of_cons in *. specialize (Hd x). rewrite !elem_of_cons in Hd.
    intros Hx [->|[->|Hx2]]; naive_solver.
  - apply entries_insert; [done|]. set_solver.
  - rewrite Hs. f_equal. unfold entry_refs, leak. cbn [procs thrds leaked].
    rewrite sum_refs_cons. clear. multiset_solver.
Qed.

(** The walk below [p] finds what the test finds. *)
Lemma find_loop_spec {E T} (st : lstate E) matches test (m : gmap Z T) : forall l xs p fuel,
  chain (next st) p l -> entries_at m l xs -> (length l < fuel)%nat ->
  (forall q e, q <> 0 -> is_Some (next st !! q) -> m !! q = Some e ->
     matches q st = Ok (test e, st)) ->
  exists first, next st !! p = Some first /\
    find_loop fuel matches first st = Ok (first_address test l xs, st).
Proof.
  induction l as [|q l IH]; intros xs p [|fuel] Hc Hm Hf Ht; cbn [length] in Hf; try lia.
  - apply Forall2_nil_inv_l in Hm as ->. exists 0. by split.
  - apply Forall2_cons_inv_l in Hm as (x & xs' & Hx & Hm & ->).
    destruct Hc as (Hp & Hq0 & Hc). exists q. split; [done|]. cbn [find_loop first_address].
    destruct (Z.eqb_spec q 0); [done|].
    assert (is_Some (next st !! q)) as Hal by (eapply chain_dom; [done|by left]).
    erewrite KM_step by (by apply Ht). destruct (test x); [done|].
    destruct (IH xs' q fuel Hc Hm ltac:(lia) Ht) as (first & Hfi & Hr).
    by erewrite KM_step by (by apply read_next_ok).
Qed.

Lemma read_entry_ok {E T} (st : lstate E) (fields : E -> gmap Z T) p e :
  p <> 0 -> is_Some (next st !! p) -> fields (ext st) !! p = Some e ->
  read_entry fields p st = Ok (e, st).
Proof.
  intros Hp [q Hq] He. unfold read_entry. destruct (Z.eqb_spec p 0); [done|]. by rewrite Hq, He.
Qed.

(** A critical section whose body changes at most the other state. *)
Lemma locked_spec {E X} Lock (body : KM (lstate E) X) (st : lstate E) r x :
  Lock ∉ Lists.held st ->
  body (LState (next st) ({[Lock]} ∪ Lists.held st) (frees st) (ext st))
    = Ok (r, LState (next st) ({[Lock]} ∪ Lists.held st) (frees st) x) ->
  locked Lock body st = Ok (r, set_ext x st).
Proof.
  intros HL Hb. unfold locked. erewrite KM_step by (by apply acquire_ok).
  erewrite KM_step by exact Hb. unfold mutex_release.
  erewrite KM_step by done. cbn. by rewrite held_restored.
Qed.

(** Both search functions. *)
Lemma find_entry_spec {E T} (st : lstate E) head lock (fields : E -> gmap Z T) test l xs :
  slist (next st) head l -> entries_at (fields (ext st)) l xs -> lock ∉ Lists.held st ->
  find_entry head lock (fun p => e ← read_entry fields p; mret (test e)) st
  = Ok (first_address test l xs, st).
Proof.
  intros [Hc Hn Hh] Hm HL. unfold find_entry. rewrite (locked_spec _ _ _ (first_address test l xs) (ext st));
    [by destruct st|done|].
  set (st1 := LState _ _ _ _).
  destruct (find_loop_spec st1 (fun p => e ← read_entry fields p; mret (test e)) test
    (fields (ext st)) l xs head (size (next st))) as (first & Hf & Hr); [done|done| | |].
  - by eapply chain_length.
  - intros q e Hq Hal He. by erewrite KM_step by (by apply read_entry_ok).
  - erewrite KM_step by (by apply read_next_ok). by erewrite KM_step by done.
Qed.

(** An enumeration whose callback changes only what its context points to, and
    keeps [I] of it. *)
Lemma enumerate_pure_inv {E T C} (I : C -> Prop) (st : lstate E) head lock (fields : E -> gmap Z T)
  (callback : Z -> C -> KM (lstate E) C) (f : C -> T -> C) (ok : T -> Prop) l es c :
  slist (next st) head l -> entries_at (fields (ext st)) l es -> lock ∉ Lists.held st ->
  Forall ok es -> I c ->
  (forall q e c st, q <> 0 -> is_Some (next st !! q) -> fields (ext st) !! q = Some e -> ok e -> I c ->
     callback q c st = Ok (f c e, st) /\ I (f c e)) ->
  enumerate_list head lock (Some callback) c st = Ok (foldl f c es, st).
Proof.
  intros [Hc Hn Hh] Hm HL Hok HI Hcb. unfold enumerate_list.
  rewrite (locked_spec _ _ _ (foldl f c es) (ext st)); [by destruct st|done|].
  set (st1 := LState _ _ _ _).
  assert (forall l es p fuel c, chain (next st1) p l -> entries_at (fields (ext st1)) l es ->
    (length l < fuel)%nat -> Forall ok es -> I c -> exists first, next st1 !! p = Some first /\
    enumerate_loop fuel callback first c st1 = Ok (foldl f c es, st1)) as Hloop.
  { clear - Hcb. induction l as [|q l IH]; intros es p [|fuel] c Hc Hm Hf Hok HI;
      cbn [length] in Hf; try lia.
    - apply Forall2_nil_inv_l in Hm as ->. exists 0. by split.
    - apply Forall2_cons_inv_l in Hm as (e & es' & He & Hm & ->). apply Forall_cons in Hok as [Hoe Hok].
      destruct Hc as (Hp & Hq0 & Hc). exists q. split; [done|]. cbn [enumerate_loop foldl].
      destruct (Z.eqb_spec q 0); [done|].
      destruct (Hcb q e c st1) as [Hs HI']; try done; [eapply chain_dom; [done|by left]|].
      erewrite KM_step by exact Hs.
      destruct (IH es' q fuel (f c e) Hc Hm ltac:(lia) Hok HI') as (first & Hfi & Hr).
      by erewrite KM_step by (by apply read_next_ok). }
  destruct (Hloop l es head (size (next st)) c Hc Hm) as (first & Hf & Hr); [|done|done|].
  - by eapply chain_length.
  - erewrite KM_step by (by apply read_next_ok). by erewrite KM_step by done.
Qed.

(** An enumeration whose callback changes the other state, with an invariant that
    speaks of the entries still to come. *)
Lemma enumerate_inv {E C} (I : list Z -> C -> E -> Prop) (st : lstate E) head lock
  (callback : Z -> C -> KM (lstate E) C) l c :
  slist (next st) head l -> lock ∉ Lists.held st -> I l c (ext st) ->
  (forall q l' c st', next st' = next st -> q <> 0 -> is_Some (next st !! q) -> I (q :: l') c (ext st') ->
     exists c' x, callback q c st' = Ok (c', set_ext x st') /\ I l' c' x) ->
  exists c' x, enumerate_list head lock (Some callback) c st = Ok (c', set_ext x st) /\ I [] c' x.
Proof.
  intros [Hc Hn Hh] HL HI Hcb. unfold enumerate_list.
  set (st1 := LState (next st) ({[lock]} ∪ Lists.held st) (frees st) (ext st)).
  assert (forall l p fuel c x, chain (next st) p l -> (length l < fuel)%nat -> I l c x ->
    exists first c' x', next st !! p = Some first /\
      enumerate_loop fuel callback first c (set_ext x st1) = Ok (c', set_ext x' st1) /\ I [] c' x') as Hloop.
  { clear - Hcb. induction l as [|q l IH]; intros p [|fuel] c x Hc Hf HI; cbn [length] in Hf; try lia.
    - exists 0, c, x. by split_and!.
    - destruct Hc as (Hp & Hq0 & Hc). exists q. cbn [enumerate_loop]. destruct (Z.eqb_spec q 0); [done|].
      destruct (Hcb q l c (set_ext x st1)) as (c1 & x1 & H1 & I1); [done|done| |done|].
      { eapply chain_dom; [done|by left]. }
      destruct (IH q fuel c1 x1 Hc ltac:(lia) I1) as (first & c2 & x2 & Hfi & H2 & I2).
      exists c2, x2. split; [done|]. split; [|done]. rewrite (KM_step _ _ _ _ _ H1).
      change (set_ext x1 (set_ext x st1)) with (set_ext x1 st1).
      by erewrite KM_step by (by apply read_next_ok). }
  destruct (Hloop l head (size (next st)) c (ext st) Hc) as (first & c' & x' & Hf & Hr & HI'); [|done|].
  { by eapply chain_length. }
  exists c', x'. split; [|done]. apply locked_spec; [done|].
  erewrite KM_step by (by apply read_next_ok). erewrite KM_step by done. exact Hr.
Qed.

Lemma enumerate_pure {E T C} (st : lstate E) head lock (fields : E -> gmap Z T)
  (callback : Z -> C -> KM (lstate E) C) (f : C -> T -> C) (ok : T -> Prop) l es c :
  slist (next st) head l -> entries_at (fields (ext st)) l es -> lock ∉ Lists.held st ->
  Forall ok es ->
  (forall q e c st, q <> 0 -> is_Some (next st !! q) -> fields (ext st) !! q = Some e -> ok e ->
     callback q c st = Ok (f c e, st)) ->
  enumerate_list head lock (Some callback) c st = Ok (foldl f c es, st).
Proof. intros. eapply (enumerate_pure_inv (fun _ => True)); eauto. Qed.

(** Dropping a reference that is held on top of [s0]. *)
Lemma dereference_ok (st : lstate cb_ext) s0 m o :
  sys (ext st) = with_refs ({[+ Reference o +]} ⊎ m) s0 ->
  ObDereferenceObject o st = Ok (tt, set_ext (set_sys (with_refs m s0) (ext st)) st).
Proof. intros Hs. unfold ObDereferenceObject, on_sys. by rewrite Hs, with_refs_release. Qed.

(** The exit of a process: search, references, removal. *)
Lemma exit_process_represents s0 st a pl tl p :
  represents s0 st a pl tl ->
  exists st' pl', untrack_process p st = Ok (tt, st') /\
    represents s0 st' (Tracked (remove_first (fun x => process x =? p) (procs a)) (thrds a)
                         (leaked a) (hashings a)) pl' tl.
Proof.
  intros [Hp Ht Hd Hpe Hte Hpl Htl Hpa Hta Hs Hh]. pose proof Hp as [Hc Hn Hh0].
  set (test := fun x => process x =? p). unfold untrack_process.
  setoid_rewrite KM_step; [|by apply (find_entry_spec _ _ _ process_entries test)].
  destruct (entries_remove _ test pl (procs a) Hpe) as [[-> ->]|(Hin & e & He & _ & Ha & Hf)].
  { by apply NoDup_cons in Hn as [_ ?]. }
  { intros q Hq. by eapply chain_nonnull. }
  { exists st, pl. split; [done|]. by split. }
  set (entry := first_address test pl (procs a)) in *.
  assert (entry <> 0) as He0 by (by eapply chain_nonnull).
  destruct (Z.eqb_spec entry 0); [done|].
  setoid_rewrite KM_step; [|apply read_entry_ok; [done| |done]; eapply chain_dom; [done|by right]].
  set (rest := {[+ Reference (process e) +]} ⊎ (sum_refs process_refs (remove_first test (procs a)) ⊎
    sum_refs thread_refs (thrds a) ⊎ leaked a)).
  setoid_rewrite KM_step; [|apply (dereference_ok st s0 rest)].
  2: { rewrite Hs. f_equal. unfold entry_refs, rest. rewrite (Hf process_refs).
       unfold process_refs at 1. clear; multiset_solver. }
  setoid_rewrite KM_step; [|by apply dereference_ok].
  destruct (remove_entry_spec (set_ext (set_sys (with_refs (sum_refs process_refs
    (remove_first test (procs a)) ⊎ sum_refs thread_refs (thrds a) ⊎ leaked a) s0) (ext st)) st)
    (ToLookaside ThreadLookaside) process_head entry process_lock pl) as (nx' & H1 & Hs' & _ & Hag);
    [done..|].
  eexists _, _. split; [exact H1|]. split; cbn; try done.
  - destruct Ht; split; try done. eapply chain_agree; [done|]. intros x Hx. apply Hag.
    intros Hx2. by apply (Hd x).
  - intros x Hx. apply Hd. rewrite elem_of_cons in *. destruct Hx as [->|Hx]; [by left|].
    apply elem_of_without in Hx as [_ ?]. by right.
Qed.

Lemma exit_thread_represents s0 st a pl tl t :
  represents s0 st a pl tl ->
  exists st' tl', untrack_thread t st = Ok (tt, st') /\
    represents s0 st' (Tracked (procs a) (remove_first (fun x => thread x =? t) (thrds a))
                         (leaked a) (hashings a)) pl tl'.
Proof.
  intros [Hp Ht Hd Hpe Hte Hpl Htl Hpa Hta Hs Hh]. pose proof Ht as [Hc Hn Hh0].
  set (test := fun x => thread x =? t). unfold untrack_thread.
  setoid_rewrite KM_step; [|by apply (find_entry_spec _ _ _ thread_entries test)].
  destruct (entries_remove _ test tl (thrds a) Hte) as [[-> ->]|(Hin & e & He & _ & Ha & Hf)].
  { by apply NoDup_cons in Hn as [_ ?]. }
  { intros q Hq. by eapply chain_nonnull. }
  { exists st, tl. split; [done|]. by split. }
  set (entry := first_address test tl (thrds a)) in *.
  assert (entry <> 0) as He0 by (by eapply chain_nonnull).
  destruct (Z.eqb_spec entry 0); [done|].
  setoid_rewrite KM_step; [|apply read_entry_ok; [done| |done]; eapply chain_dom; [done|by right]].
  set (left_ := sum_refs process_refs (procs a) ⊎
    sum_refs thread_refs (remove_first test (thrds a)) ⊎ leaked a).
  setoid_rewrite KM_step;
    [|apply (dereference_ok st s0 ({[+ Reference (owning_process e) +]} ⊎ left_))].
  2: { rewrite Hs. f_equal. unfold entry_refs, left_. rewrite (Hf thread_refs).
       unfold thread_refs at 1. clear; multiset_solver. }
  setoid_rewrite KM_step; [|by apply dereference_ok].
  destruct (remove_entry_spec (set_ext (set_sys (with_refs left_ s0) (ext st)) st)
    (ToLookaside ThreadLookaside) thread_head entry thread_lock tl) as (nx' & H1 & Hs' & _ & Hag);
    [done..|].
  eexists _, _. split; [exact H1|]. split; cbn; try done.
  - destruct Hp; split; try done. eapply chain_agree; [done|]. intros x Hx. apply Hag.
    intros Hx2. by apply (Hd x).
  - intros x Hx Hx2. apply (Hd x Hx). rewrite elem_of_cons in *.
    destruct Hx2 as [->|Hx2]; [by left|]. apply elem_of_without in Hx2 as [_ ?]. by right.
Qed.

(** Two references in turn. *)
Lemma references_represent s0 st a pl tl o1 o2 :
  represents s0 st a pl tl ->
  exists st', (forall X (k : M X), (ObfReferenceObject o1 ≫= fun _ => ObfReferenceObject o2 ≫=
      fun _ => k) st = k st') /\ next st' = next st /\
    represents s0 st' (leak {[+ Reference o1; Reference o2 +]} a) pl tl.
Proof.
  intros Hr. destruct (reference_represents s0 st a pl tl o1 Hr) as (s1 & H1 & N1 & R1).
  destruct (reference_represents s0 s1 _ pl tl o2 R1) as (s2 & H2 & N2 & R2).
  exists s2. split; [intros X k; by rewrite (KM_step _ _ _ _ _ H1), (KM_step _ _ _ _ _ H2)|].
  split; [by rewrite N2|]. by rewrite leak_leak in R2.
Qed.

Lemma track_process_represents {La : LookasideLaws L} s0 st a pl tl q p name :
  represents s0 st a pl tl ->
  exists st' granted pl', track_process q p name st = Ok (tt, st') /\
    represents s0 st' (if granted : bool then
      Tracked (ProcessEntry p q :: procs a) (thrds a) (leaked a)
        (hashings a + if String.eqb name "winlogon.exe" then 1 else 0) else a) pl' tl /\
    ((forall n used, is_Some (lookaside_block n used)) -> granted = true).
Proof.
  intros Hr. unfold track_process.
  destruct (allocate_represents s0 st a pl tl Hr) as (e & s1 & H1 & R1 & Hg & Hf).
  setoid_rewrite (KM_step _ _ _ _ _ H1). destruct (Z.eqb_spec e 0) as [->|He].
  { exists s1, false, pl. split; [done|]. split; [done|]. intros HG. by destruct (Hg HG). }
  destruct (Hf He) as (F1 & F2 & F3).
  destruct (references_represent s0 s1 a pl tl q p R1) as (s2 & H2 & N2 & R2).
  setoid_rewrite H2. rewrite <- N2 in F3.
  destruct (insert_process_represents s0 s2 a pl tl e (ProcessEntry p q)) as (s3 & H3 & R3);
    [done..|].
  setoid_rewrite (KM_step _ _ _ _ _ H3).
  destruct (String.eqb name "winlogon.exe").
  - eexists _, true, _. split; [done|]. split; [|done]. destruct R3. split; try done. cbn in *. lia.
  - exists s3, true, (e :: pl). split; [done|]. split; [|done]. by rewrite Nat.add_0_r.
Qed.

Lemma track_thread_represents {La : LookasideLaws L} s0 st a pl tl t p :
  represents s0 st a pl tl ->
  exists st' granted tl', track_thread t p st = Ok (tt, st') /\
    represents s0 st' (if granted : bool then
      Tracked (procs a) (ThreadEntry t p false 0 :: thrds a) (leaked a) (hashings a) else a) pl tl' /\
    ((forall n used, is_Some (lookaside_block n used)) -> granted = true).
Proof.
  intros Hr. unfold track_thread.
  destruct (allocate_represents s0 st a pl tl Hr) as (e & s1 & H1 & R1 & Hg & Hf).
  setoid_rewrite (KM_step _ _ _ _ _ H1). destruct (Z.eqb_spec e 0) as [->|He].
  { exists s1, false, tl. split; [done|]. split; [done|]. intros HG. by destruct (Hg HG). }
  destruct (Hf He) as (F1 & F2 & F3).
  destruct (references_represent s0 s1 a pl tl t p R1) as (s2 & H2 & N2 & R2).
  setoid_rewrite H2. rewrite <- N2 in F3.
  destruct (insert_thread_represents s0 s2 a pl tl e (ThreadEntry t p false 0)) as (s3 & H3 & R3);
    [done..|].
  exists s3, true, (e :: tl). split; [done|]. by split.
Qed.

(** One notification. *)
Lemma process_notification_represents {La : LookasideLaws L} s0 st a pl tl ParentId ProcessId Create :
  represents s0 st a pl tl ->
  exists st' granted pl', ProcessCreateNotifyRoutine ParentId ProcessId Create st = Ok (tt, st') /\
    represents s0 st' (note granted (ProcessEvent ParentId ProcessId Create) a) pl' tl /\
    ((forall n used, is_Some (lookaside_block n used)) -> granted = true).
Proof.
  intros Hr. unfold ProcessCreateNotifyRoutine, note. setoid_rewrite KM_step; [|done].
  rewrite (rep_pactive _ _ _ _ _ Hr). cbn [negb lookup_refs].
  set (q := PsLookupProcessByProcessId ParentId). set (p := PsLookupProcessByProcessId ProcessId).
  destruct (lookup_represents s0 st a pl tl q Hr) as (s1 & H1 & _ & R1).
  destruct (lookup_represents s0 s1 _ pl tl p R1) as (s2 & H2 & _ & R2).
  setoid_rewrite (KM_step _ _ _ _ _ H1). setoid_rewrite (KM_step _ _ _ _ _ H2).
  rewrite leak_leak in R2. destruct (Z.eqb_spec (found q) 0); [by exists s2, true, pl|].
  destruct (Z.eqb_spec (found p) 0) as [|Hp]; [by exists s2, true, pl|]. cbn [orb].
  setoid_rewrite KM_step; [|unfold on_sys; by rewrite image_name_ok].
  replace (set_ext (set_sys (sys (ext s2)) (ext s2)) s2) with s2 by (by destruct s2 as [? ? ? []]).
  destruct Create; cbn [negb].
  - by eapply track_process_represents.
  - destruct (exit_process_represents s0 s2 _ pl tl (found p) R2) as (s3 & pl' & H3 & R3).
    by exists s3, true, pl'.
Qed.

Lemma thread_notification_represents {La : LookasideLaws L} s0 st a pl tl ProcessId ThreadId Create :
  represents s0 st a pl tl ->
  exists st' granted tl', ThreadCreateNotifyRoutine ProcessId ThreadId Create st = Ok (tt, st') /\
    represents s0 st' (note granted (ThreadEvent ProcessId ThreadId Create) a) pl tl' /\
    ((forall n used, is_Some (lookaside_block n used)) -> granted = true).
Proof.
  intros Hr. unfold ThreadCreateNotifyRoutine, note. setoid_rewrite KM_step; [|done].
  rewrite (rep_tactive _ _ _ _ _ Hr). cbn [negb lookup_refs].
  set (t := PsLookupThreadByThreadId ThreadId). set (p := PsLookupProcessByProcessId ProcessId).
  destruct (lookup_represents s0 st a pl tl t Hr) as (s1 & H1 & _ & R1).
  destruct (lookup_represents s0 s1 _ pl tl p R1) as (s2 & H2 & _ & R2).
  setoid_rewrite (KM_step _ _ _ _ _ H1). setoid_rewrite (KM_step _ _ _ _ _ H2).
  rewrite leak_leak in R2. destruct (Z.eqb_spec (found t) 0); [by exists s2, true, tl|].
  destruct (Z.eqb_spec (found p) 0) as [|Hp]; [by exists s2, true, tl|]. cbn [orb].
  destruct Create; cbn [negb].
  - by eapply track_thread_represents.
  - destruct (exit_thread_represents s0 s2 _ pl tl (found t) R2) as (s3 & tl' & H3 & R3).
    by exists s3, true, tl'.
Qed.

(** Any sequence of notifications. *)
Lemma notifications_represent {La : LookasideLaws L} s0 events : forall st a pl tl,
  represents s0 st a pl tl ->
  exists st' granted pl' tl', mforeach run_notification events st = Ok (tt, st') /\
    length granted = length events /\ represents s0 st' (notes granted events a) pl' tl' /\
    ((forall n used, is_Some (lookaside_block n used)) -> granted = replicate (length events) true).
Proof.
  induction events as [|e events IH]; intros st a pl tl Hr.
  { by exists st, [], pl, tl. }
  assert (exists st' g pl' tl', run_notification e st = Ok (tt, st') /\
    represents s0 st' (note g e a) pl' tl' /\
    ((forall n used, is_Some (lookaside_block n used)) -> g = true)) as (s1 & g & pl1 & tl1 & H1 & R1 & G1).
  { destruct e; [edestruct process_notification_represents as (? & ? & ? & ? & ? & ?)
                |edestruct thread_notification_represents as (? & ? & ? & ? & ? & ?)]; eauto 10. }
  destruct (IH s1 _ _ _ R1) as (s2 & gs & pl2 & tl2 & H2 & Hl & R2 & G2).
  exists s2, (g :: gs), pl2, tl2. cbn [mforeach length replicate].
  erewrite KM_step by exact H1. split; [done|]. split; [by rewrite Hl|]. split; [done|].
  intros HG. by rewrite (G1 HG), (G2 HG).
Qed.

(** All references that notifications leak. *)
Lemma note_leaked granted e a : leaked (note granted e a) = leaked a ⊎ lookup_refs e.
Proof. unfold note. destruct e; repeat case_match; done. Qed.

Lemma notes_leaked events : forall granted a,
  length granted = length events ->
  leaked (notes granted events a) = leaked a ⊎ sum_refs lookup_refs events.
Proof.
  induction events as [|e events IH]; intros [|g granted] a Hl; cbn [length] in Hl; try done.
  - cbn. by rewrite (right_id_L ∅ (⊎)).
  - change (notes (g :: granted) (e :: events) a) with (notes granted events (note g e a)).
    rewrite IH, note_leaked, sum_refs_cons by lia. by rewrite (assoc_L (⊎)).
Qed.

(** Dropping the references of an entry. *)
Lemma drop_references_spec s0 x o1 o2 m :
  sys x = with_refs ({[+ Reference o1; Reference o2 +]} ⊎ m) s0 ->
  drop_references [o1; o2] x = set_sys (with_refs m s0) x.
Proof.
  intros Hs. unfold drop_references. rewrite Hs. unfold with_refs, set_held.
  cbn [hkern hsession tables config_mutex Kernel.held next_block pool_requests sent nmi_status].
  do 3 f_equal. cbn [fmap list_fmap]. rewrite !list_to_set_disj_cons, list_to_set_disj_nil.
  clear; multiset_solver.
Qed.

(** The callbacks of a cleanup, over all entries. *)
Lemma cleanup_processes s0 pl : forall es x m,
  entries_at (process_entries x) pl es -> sys x = with_refs (sum_refs process_refs es ⊎ m) s0 ->
  foldl (fun x p => CleanupProcessListFreeCallback p x) x pl = set_sys (with_refs m s0) x.
Proof.
  induction pl as [|p pl IH]; intros es x m He Hs; cbn [foldl].
  - apply Forall2_nil_inv_l in He as ->. cbn [sum_refs foldr] in Hs.
    rewrite (left_id_L ∅ (⊎)) in Hs. rewrite <- Hs. by destruct x.
  - apply Forall2_cons_inv_l in He as (e & es' & He & Hes & ->).
    unfold CleanupProcessListFreeCallback at 2. rewrite He.
    rewrite (drop_references_spec s0 x _ _ (sum_refs process_refs es' ⊎ m)).
    2: { rewrite Hs, sum_refs_cons. unfold process_refs at 1. by rewrite <- (assoc_L (⊎)). }
    by erewrite (IH es' _ m) by done.
Qed.

Lemma cleanup_threads s0 tl : forall es x m,
  entries_at (thread_entries x) tl es -> sys x = with_refs (sum_refs thread_refs es ⊎ m) s0 ->
  foldl (fun x p => CleanupThreadListFreeCallback p x) x tl = set_sys (with_refs m s0) x.
Proof.
  induction tl as [|p tl IH]; intros es x m He Hs; cbn [foldl].
  - apply Forall2_nil_inv_l in He as ->. cbn [sum_refs foldr] in Hs.
    rewrite (left_id_L ∅ (⊎)) in Hs. rewrite <- Hs. by destruct x.
  - apply Forall2_cons_inv_l in He as (e & es' & He & Hes & ->).
    unfold CleanupThreadListFreeCallback at 2. rewrite He.
    rewrite (drop_references_spec s0 x _ _ (sum_refs thread_refs es' ⊎ m)).
    2: { rewrite Hs, sum_refs_cons. unfold thread_refs at 1. by rewrite <- (assoc_L (⊎)). }
    by erewrite (IH es' _ m) by done.
Qed.

(** Where the blocks of the entries go. *)
Definition freed_entries (l : list Z) : list (Z * pool) :=
  (fun p => (p, ToLookaside ThreadLookaside)) <$> l.

(** The unload sequence. *)
(** Nothing else of the heap changes. *)
Lemma unload_frame_spec s0 st a pl tl :
  represents s0 st a pl tl ->
  exists nx, unload_lists st = Ok (tt, LState nx (Lists.held st)
      (frees st ++ freed_entries tl ++ freed_entries pl)
      (set_deleted (deleted (ext st) ++
          [(ThreadLookaside, (length (frees st) + length tl)%nat);
           (ProcessLookaside, (length (frees st) + length tl + length pl)%nat)])
        (set_active false false (set_sys (with_refs (leaked a) s0) (ext st))))) /\
    slist nx process_head [] /\ slist nx thread_head [] /\
    (forall y, y ∉ process_head :: pl -> y ∉ thread_head :: tl -> nx !! y = next st !! y).
Proof.
  intros [Hp Ht Hd Hpe Hte Hpl Htl Hpa Hta Hs Hh]. unfold unload_lists.
  setoid_rewrite KM_step; [|done]. setoid_rewrite KM_step; [|done].
  set (s1 := set_ext _ _). unfold CleanupThreadListOnDriverUnload.
  destruct (free_all_spec (ToLookaside ThreadLookaside) thread_head thread_lock
    (Some CleanupThreadListFreeCallback) tl (size (next s1)) s1)
    as (nx1 & H1 & Hs1 & _ & Ha1); [done|done|destruct Ht; by eapply chain_length|].
  setoid_rewrite KM_step.
  2: { erewrite KM_step by done. by erewrite KM_step by exact H1. }
  rewrite (cleanup_threads s0 tl (thrds a) _ (sum_refs process_refs (procs a) ⊎ leaked a)); [|done|].
  2: { cbn. rewrite Hs. unfold entry_refs. f_equal. clear; multiset_solver. }
  cbn [Lists.held next frees ext set_ext s1].
  match goal with |- context [CleanupProcessListOnDriverUnload ?s] => set (s2 := s) end.
  assert (slist nx1 process_head pl) as Hp1.
  { destruct Hp; split; try done. eapply chain_agree; [done|]. intros x Hx. apply Ha1.
    intros Hx2. by apply (Hd x). }
  destruct (free_all_spec (ToLookaside ThreadLookaside) process_head process_lock
    (Some CleanupProcessListFreeCallback) pl (size (next s2)) s2)
    as (nx2 & H2 & Hs2 & _ & Ha2); [done|done|destruct Hp1; by eapply chain_length|].
  unfold CleanupProcessListOnDriverUnload.
  setoid_rewrite KM_step; [|done]. setoid_rewrite (KM_step _ _ _ _ _ H2).
  rewrite (cleanup_processes s0 pl (procs a) _ (leaked a)); [|done|done].
  exists nx2. split; [|split; [done|split]].
  - unfold ExDeleteLookasideListEx, modify, set_ext. cbn. do 2 f_equal.
    unfold freed_entries, set_deleted, set_active, set_sys. cbn.
    rewrite <- !(assoc_L (++)), !length_app, !length_fmap. cbn.
    by rewrite Nat.add_assoc.
  - destruct Hs1 as [Hc1 Hn1 Hh1]. split; try done. cbn in *. rewrite Ha2; [done|].
    intros Hx. apply (Hd thread_head); [done|by left].
  - intros y Hy1 Hy2. cbn in Ha2. rewrite Ha2 by done. by apply Ha1.
Qed.

Lemma unload_spec s0 st a pl tl :
  represents s0 st a pl tl ->
  exists nx, unload_lists st = Ok (tt, LState nx (Lists.held st)
      (frees st ++ freed_entries tl ++ freed_entries pl)
      (set_deleted (deleted (ext st) ++
          [(ThreadLookaside, (length (frees st) + length tl)%nat);
           (ProcessLookaside, (length (frees st) + length tl + length pl)%nat)])
        (set_active false false (set_sys (with_refs (leaked a) s0) (ext st))))) /\
    slist nx process_head [] /\ slist nx thread_head [].
Proof. intros Hr. destruct (unload_frame_spec s0 st a pl tl Hr) as (nx & H1 & H2 & H3 & _). eauto. Qed.

End representation.

(** *** Scans *)

(** [Step] for each element, in order. *)
Fixpoint steps {T} (Step : T -> h_state -> h_state -> Prop) (es : list T) (s s' : h_state) : Prop :=
  match es with
  | [] => s' = s
  | e :: es => exists s1, Step e s s1 /\ steps Step es s1 s'
  end.

Section scans.
Context {P : Pool} {K : ReportSink} {A : SystemApi} {Pr : ProcessApi} {U : CpuApi}.
Context {H : HandleApi} {G : ListHeads} {L : Lookaside}.

(** An enumeration whose callback works on the system state only. *)
Section enumeration.
Context {T : Type} (fields : cb_ext -> gmap Z T) (callback : Z -> unit -> M unit).
Context (Step : T -> h_state -> h_state -> Prop) (Inv : h_state -> Prop) (ok : T -> Prop).
Hypothesis fields_sys : forall s x, fields (set_sys s x) = fields x.
Hypothesis callback_step : forall p e st,
  p <> 0 -> is_Some (next st !! p) -> fields (ext st) !! p = Some e -> ok e ->
  Inv (sys (ext st)) ->
  exists s', callback p tt st = Ok (tt, set_ext (set_sys s' (ext st)) st) /\
    Step e (sys (ext st)) s' /\ Inv s'.

Lemma enumerate_loop_spec : forall l es p fuel st,
  chain (next st) p l -> entries_at (fields (ext st)) l es -> (length l < fuel)%nat ->
  Forall ok es -> Inv (sys (ext st)) ->
  exists first s', next st !! p = Some first /\
    enumerate_loop fuel callback first tt st = Ok (tt, set_ext (set_sys s' (ext st)) st) /\
    steps Step es (sys (ext st)) s' /\ Inv s'.
Proof.
  induction l as [|q l IH]; intros es p [|fuel] st Hc Hm Hf Hok Hi; cbn [length] in Hf; try lia.
  - apply Forall2_nil_inv_l in Hm as ->. exists 0, (sys (ext st)). split; [done|].
    split; [|done]. by destruct st as [? ? ? []].
  - apply Forall2_cons_inv_l in Hm as (e & es' & He & Hm & ->). apply Forall_cons in Hok as [Hoe Hok].
    destruct Hc as (Hp & Hq0 & Hc).
    destruct (callback_step q e st) as (s1 & H1 & S1 & I1); [done| |done..|].
    { eapply chain_dom; [done|by left]. }
    destruct (IH es' q fuel (set_ext (set_sys s1 (ext st)) st)) as (first & s2 & Hfi & H2 & S2 & I2);
      [done|by cbn; rewrite fields_sys|lia|done|done|].
    exists q, s2. split; [done|]. split; [|split; [by exists s1|done]].
    cbn [enumerate_loop]. destruct (Z.eqb_spec q 0); [done|].
    erewrite KM_step by exact H1. by erewrite KM_step by (by apply read_next_ok).
Qed.

Lemma enumerate_spec st head lock l es :
  slist (next st) head l -> entries_at (fields (ext st)) l es -> lock ∉ Lists.held st ->
  Forall ok es -> Inv (sys (ext st)) ->
  exists s', enumerate_list head lock (Some callback) tt st = Ok (tt, set_ext (set_sys s' (ext st)) st) /\
    steps Step es (sys (ext st)) s' /\ Inv s'.
Proof.
  intros [Hc Hn Hh] Hm HL Hok Hi.
  set (st1 := LState (next st) ({[lock]} ∪ Lists.held st) (frees st) (ext st)).
  destruct (enumerate_loop_spec l es head (size (next st)) st1) as (first & s' & Hf & H1 & S1 & I1);
    [done|done|by eapply chain_length|done|done|].
  exists s'. split; [|done]. apply locked_spec; [done|].
  erewrite KM_step by (by apply read_next_ok). erewrite KM_step by done. exact H1.
Qed.

End enumeration.

(** The scan for attached threads: what a thread is reported for. *)
Definition attached_process (t : Z) : res Z :=
  load64 system_memory (t + KTHREAD_APC_STATE_OFFSET + KAPC_STATE_Process).

Definition attach_reports (protected : Z) (e : THREAD_LIST_ENTRY) : list (report * Z) :=
  match attached_process (thread e) with
  | Ok p =>
      if (p =? protected) && negb (owning_process e =? protected) then
        [(AttachProcess REPORT_ILLEGAL_ATTACH_PROCESS (u32 (PsGetThreadId (thread e)))
            (u64 (thread e)), sizeof ATTACH_PROCESS_REPORT)]
      else []
  | Crash _ => []
  end.

(** A session protects [p], and its mutex is free. *)
Record protecting (p : Z) (s : h_state) : Prop := {
  prot_lock : session_lock (hsession s) = false;
  prot_wf : kernel_wf (hkern s);
  prot_process : Session.process (session (hsession s)) = p;
  prot_active : p <> 0;
}.

(** Reports are sent and nothing else changes. *)
Definition only_sends (rs : list (report * Z)) (s s' : h_state) : Prop :=
  exists k, s' = HState (hsession s) k (tables s) (config_mutex s) /\ sends (hkern s) k rs.

Lemma steps_send {T} (f : T -> list (report * Z)) es : forall s s',
  kernel_wf (hkern s) -> steps (fun e => only_sends (f e)) es s s' ->
  only_sends (concat (f <$> es)) s s'.
Proof.
  induction es as [|e es IH]; intros s s' Hwf; cbn [steps].
  - intros ->. exists (hkern s). split; [by destruct s|]. by apply sends_refl.
  - intros (s1 & (k1 & -> & S1) & Hs). apply IH in Hs as (k2 & -> & S2); [|apply S1].
    exists k2. split; [done|]. by eapply sends_trans.
Qed.

Lemma attach_callback_step p t e st :
  t <> 0 -> is_Some (next st !! t) -> thread_entries (ext st) !! t = Some e ->
  (exists q, attached_process (thread e) = Ok q) -> protecting p (sys (ext st)) ->
  exists s', DetectAttachedThreadsProcessCallback t tt st = Ok (tt, set_ext (set_sys s' (ext st)) st) /\
    only_sends (attach_reports p e) (sys (ext st)) s' /\ protecting p s'.
Proof.
  intros Ht Hal He [q Hq] [Hl Hwf Hp H0]. unfold DetectAttachedThreadsProcessCallback.
  setoid_rewrite KM_step; [|unfold on_sys, SessionGetProcess; by rewrite read_session].
  replace (set_ext (set_sys (sys (ext st)) (ext st)) st) with st by (by destruct st as [? ? ? []]).
  rewrite Hp. destruct (Z.eqb_spec p 0); [done|].
  setoid_rewrite KM_step; [|by apply read_entry_ok].
  unfold attach_reports. rewrite Hq. unfold attached_process in Hq.
  setoid_rewrite KM_step; [|unfold lift; by rewrite Hq].
  destruct ((q =? p) && negb (owning_process e =? p)); cbn [negb].
  - set (r := AttachProcess _ _ _).
    exists (HState (hsession (sys (ext st))) (reported (hkern (sys (ext st)))
      (sizeof ATTACH_PROCESS_REPORT) r) (tables (sys (ext st))) (config_mutex (sys (ext st)))).
    split; [unfold on_sys, on_kernel; by rewrite complete_report_spec|].
    split; [eexists; split; [done|]; by apply sends_reported|]. split; try done.
    by apply reported_wf.
  - exists (sys (ext st)). split; [by destruct st as [? ? ? []]|]. split; [|done].
    exists (hkern (sys (ext st))). split; [by destruct (sys (ext st))|]. by apply sends_refl.
Qed.

(** The handle scan on one process. *)
Definition scan_step (p : Z) (e : PROCESS_LIST_ENTRY) (s s' : h_state) : Prop :=
  hsession s' = hsession s /\ Kernel.held (hkern s') = Kernel.held (hkern s) /\
  forall t, tables s' !! t =
    (if scanned (process e) && (t =? handle_table_of (process e))
     then fmap (stripped p) <$> tables s !! t else tables s !! t).

Definition tables_ok (s : h_state) : Prop :=
  forall p, scanned p = true -> exists entries, tables s !! handle_table_of p = Some entries /\
    Forall entry_ok entries.

Lemma scan_callback_step p q e st :
  q <> 0 -> is_Some (next st !! q) -> process_entries (ext st) !! q = Some e -> True ->
  protecting p (sys (ext st)) /\ tables_ok (sys (ext st)) ->
  exists s', handle_callback q tt st = Ok (tt, set_ext (set_sys s' (ext st)) st) /\
    scan_step p e (sys (ext st)) s' /\ (protecting p s' /\ tables_ok s').
Proof.
  intros Hq Hal He _ [[Hl Hwf Hp H0] Ht]. unfold handle_callback.
  setoid_rewrite KM_step; [|by apply read_entry_ok].
  unfold scan_step. destruct (scanned (process e)) eqn:Hs; cbn [andb].
  2: { destruct (EnumerateProcessHandles_skip (process e) (sys (ext st)) Hs) as [status H1].
       exists (sys (ext st)). split; [unfold on_sys|done].
       by erewrite KM_step by (by rewrite H1). }
  destruct (Ht _ Hs) as (entries & Hent & Hok).
  destruct (EnumerateProcessHandles_scan (process e) (sys (ext st)) entries)
    as (k & H1 & S1); [done|done|by rewrite Hp|done|done|done|].
  rewrite Hp in *. eexists. split; [unfold on_sys; by erewrite KM_step by (by rewrite H1)|]. cbn.
  split; [|split; [split; try done; apply S1|]].
  - split; [done|]. split; [apply S1|]. intros t. destruct (Z.eqb_spec t (handle_table_of (process e))) as [->|Hne].
    + by rewrite lookup_insert_eq, Hent.
    + by rewrite lookup_insert_ne.
  - intros p' Hp'. destruct (decide (handle_table_of p' = handle_table_of (process e))) as [E|E].
    + exists (stripped p <$> entries). cbn. rewrite E, lookup_insert_eq. split; [done|].
      apply Forall_fmap. eapply Forall_impl; [done|]. intros x. apply entry_ok_stripped.
    + cbn. rewrite lookup_insert_ne by done. by apply Ht.
Qed.

(** The tables that a scan of [es] reads. *)
Definition scans_table (es : list PROCESS_LIST_ENTRY) (t : Z) : bool :=
  existsb (fun e => scanned (process e) && (t =? handle_table_of (process e))) es.

Lemma scan_steps p es : forall s s',
  steps (scan_step p) es s s' ->
  hsession s' = hsession s /\ Kernel.held (hkern s') = Kernel.held (hkern s) /\
  forall t, tables s' !! t =
    (if scans_table es t then fmap (stripped p) <$> tables s !! t else tables s !! t).
Proof.
  induction es as [|e es IH]; intros s s'; cbn [steps].
  - by intros ->.
  - intros (s1 & (E1 & H1 & T1) & Hs). destruct (IH _ _ Hs) as (E2 & H2 & T2).
    split; [congruence|]. split; [congruence|]. intros t. rewrite T2, T1. cbn [scans_table existsb].
    fold (scans_table es t).
    destruct (scanned (process e) && (t =? handle_table_of (process e))), (scans_table es t);
      cbn [orb]; try done.
    destruct (tables s !! t) as [l|]; [|done]. cbn. f_equal. rewrite <- list_fmap_compose.
    apply list_fmap_ext. intros i x _. apply stripped_idemp.
Qed.

End scans.

(** ** Properties *)

Section properties.
Context {P : Pool} {K : ReportSink} {A : SystemApi} {Pr : ProcessApi} {U : CpuApi}.
Context {H : HandleApi} {G : ListHeads} {L : Lookaside}.

(** Nothing is tracked. *)
Definition nothing : tracked := Tracked [] [] ∅ 0.

(** Before the lists are initialised. *)
Record uninitialised (st : lstate cb_ext) : Prop := {
  un_phead : process_head <> 0 /\ is_Some (next st !! process_head);
  un_thead : thread_head <> 0 /\ is_Some (next st !! thread_head);
  un_heads : process_head <> thread_head;
  un_plock : process_lock ∉ Lists.held st;
  un_tlock : thread_lock ∉ Lists.held st;
  un_hashing : hashing_queued (ext st) = 0%nat;
  un_lookasides l : ExInitializeLookasideListEx l = STATUS_SUCCESS;
}.

Lemma initialise_represents st :
  uninitialised st ->
  exists st', (_ ← InitialiseThreadList; InitialiseProcessList) st = Ok (STATUS_SUCCESS, st') /\
    represents (sys (ext st)) st' nothing [] [].
Proof.
  intros [[Hp0 Hp] [Ht0 Ht] Hne Hpl Htl Hh Hl].
  unfold InitialiseThreadList, InitialiseProcessList. rewrite !Hl.
  change (negb (NT_SUCCESS STATUS_SUCCESS)) with false. cbn iota.
  set (s1 := set_ext (set_active (process_active (ext st)) true (ext st)) st).
  destruct (ListInit_spec s1 thread_head thread_lock) as (nx1 & H1 & S1 & A1); [done..|].
  set (s2 := LState nx1 (Lists.held st) (frees st) (set_active true true (ext st))).
  destruct (ListInit_spec s2 process_head process_lock) as (nx2 & H2 & S2 & A2); [done| |].
  { cbn. by rewrite A1. }
  eexists. split.
  - erewrite KM_step; [|erewrite KM_step by done; by erewrite KM_step by exact H1].
    erewrite KM_step by done. by erewrite KM_step by exact H2.
  - assert (sys (ext st) = with_refs (entry_refs nothing ⊎ leaked nothing) (sys (ext st))) as Hs.
    { unfold with_refs, entry_refs, set_held, nothing. cbn [procs thrds leaked sum_refs foldr].
      rewrite !(right_id_L ∅ (⊎)). by destruct (sys (ext st)) as [? [] ? ?]. }
    split; try done; cbn.
    + destruct S1 as [Hc Hn ?]. split; try done. cbn in *. by rewrite A2.
    + intros x. rewrite !elem_of_cons, !elem_of_nil. intros [->|[]] [E|[]]. done.
    + constructor.
    + constructor.
Qed.


(** What the lists leave behind.  Whatever notifications arrive, unloading
    terminates, empties both lists and gives back every reference the entries
    hold; but each successful lookup of a process or thread by a notification has
    taken a reference that nothing gives back. *)
Theorem unload_keeps_lookup_references {La : LookasideLaws L} s0 st a pl tl events :
  represents s0 st a pl tl ->
  exists st', (mforeach run_notification events ≫= fun _ => unload_lists) st = Ok (tt, st') /\
    slist (next st') process_head [] /\ slist (next st') thread_head [] /\
    sys (ext st') = with_refs (leaked a ⊎ sum_refs lookup_refs events) s0.
Proof.
  intros Hr. destruct (notifications_represent s0 events st a pl tl Hr)
    as (st1 & granted & pl1 & tl1 & H1 & Hl & R1 & _).
  destruct (unload_spec s0 st1 _ pl1 tl1 R1) as (nx & H2 & Hp & Ht).
  eexists. erewrite KM_step by exact H1. split; [exact H2|]. split; [done|]. split; [done|].
  cbn. by rewrite notes_leaked.
Qed.

(** The process entries at unload.  Unloading deletes the lookaside list
    of the threads before it frees the process entries, and frees every process
    entry into that deleted list. *)
Theorem process_entries_freed_into_deleted_list s0 st a pl tl :
  represents s0 st a pl tl ->
  exists st' n, unload_lists st = Ok (tt, st') /\ (ThreadLookaside, n) ∈ deleted (ext st') /\
    drop n (frees st') = freed_entries pl /\ length pl = length (procs a).
Proof.
  intros Hr. destruct (unload_spec s0 st a pl tl Hr) as (nx & H1 & _).
  eexists _, _. split; [exact H1|]. cbn. split_and!.
  - apply elem_of_app. right. by left.
  - rewrite (assoc_L (++)). apply drop_app_length'. rewrite length_app. unfold freed_entries.
    by rewrite length_fmap.
  - by eapply Forall2_length, (rep_pentries _ _ _ _ _ Hr).
Qed.

(** The scan for attached threads.  While a process is protected and the
    tracked threads' objects can be read, the scan never faults, changes nothing
    but the reports, and, when memory suffices, reports exactly the tracked
    threads of other processes that are attached to the protected process. *)
Theorem attached_threads_reported s0 st a pl tl p :
  represents s0 st a pl tl -> protecting p (sys (ext st)) ->
  Forall (fun e => exists q, attached_process (thread e) = Ok q) (thrds a) ->
  exists k, DetectThreadsAttachedToProtectedProcess st
      = Ok (tt, set_ext (set_sys (HState (hsession (sys (ext st))) k (tables (sys (ext st)))
                                    (config_mutex (sys (ext st)))) (ext st)) st) /\
    Kernel.held k = Kernel.held (hkern (sys (ext st))) /\
    ((forall n, pool_grants n = true) ->
     sent k = sent (hkern (sys (ext st))) ++ concat (attach_reports p <$> thrds a)).
Proof.
  intros Hr Hp Hq.
  destruct (enumerate_spec thread_entries DetectAttachedThreadsProcessCallback
    (fun e => only_sends (attach_reports p e)) (protecting p)
    (fun e => exists q, attached_process (thread e) = Ok q)
    ltac:(done) (attach_callback_step p) st thread_head thread_lock tl (thrds a))
    as (s' & H1 & S1 & _); [apply Hr..|done|done|].
  apply steps_send in S1 as (k & -> & S1); [|apply Hp].
  exists k. split; [exact H1|]. split; apply S1.
Qed.

(** The scan of all handle tables.  While a process is protected, the scan
    of every tracked process never faults and keeps the session and the resources;
    afterwards the handles in the tables of the tracked processes have lost
    exactly the rights the specification takes from them, and all other tables
    are as before. *)
Theorem handle_tables_scanned s0 st a pl tl p :
  represents s0 st a pl tl -> protecting p (sys (ext st)) -> tables_ok (sys (ext st)) ->
  exists s', scan_handle_tables st = Ok (tt, set_ext (set_sys s' (ext st)) st) /\
    hsession s' = hsession (sys (ext st)) /\
    Kernel.held (hkern s') = Kernel.held (hkern (sys (ext st))) /\
    forall t, tables s' !! t =
      (if scans_table (procs a) t then fmap (stripped p) <$> tables (sys (ext st)) !! t
       else tables (sys (ext st)) !! t).
Proof.
  intros Hr Hp Ht. 
  destruct (enumerate_spec process_entries handle_callback (scan_step p)
    (fun s => protecting p s /\ tables_ok s) (fun _ => True)
    ltac:(done) (scan_callback_step p) st process_head process_lock pl (procs a))
    as (s' & H1 & S1 & _); [apply Hr..| |done|].
  { by apply Forall_true. }
  exists s'. split; [exact H1|]. by apply scan_steps.
Qed.

End properties.

(** ** Witnesses *)

(** A block above all blocks in use. *)
Definition above (used : gset Z) : Z := 1 + foldr Z.max 0 (elements used).

Lemma above_fresh used : above used <> 0 /\ above used ∉ used.
Proof.
  unfold above. assert (forall l : list Z, 0 <= foldr Z.max 0 l /\
    forall x, x ∈ l -> x <= foldr Z.max 0 l) as Hm.
  { induction l as [|y l [IH1 IH2]]; cbn; [split; [lia|set_solver]|]. split; [lia|].
    intros x [->|Hx]%elem_of_cons; [lia|]. specialize (IH2 x Hx). lia. }
  destruct (Hm (elements used)) as [H1 H2]. split; [lia|].
  intros Hin%elem_of_elements. apply H2 in Hin. lia.
Qed.

Definition sample_lookaside : Lookaside := {|
  lookaside_block := fun _ used => Some (above used);
  ExInitializeLookasideListEx := fun _ => STATUS_SUCCESS;
|}.

Lemma sample_lookaside_laws : LookasideLaws sample_lookaside.
Proof. intros n used a [= <-]. apply above_fresh. Qed.

Definition sample_heads : ListHeads := {|
  process_head := 0x100; process_lock := 0x110; thread_head := 0x200; thread_lock := 0x210;
|}.

(** A session protects the process that every thread is attached to. *)
Definition guarded_state : h_state :=
  HState (SessionState (Session.Session true 0x500 0x500 0x9090909090909090 0 0 [] 0 0 0) false [] [])
    idle_kernel {[0x10 := [sample_entry]]} false.

Definition before_start : lstate cb_ext :=
  LState {[0x100 := 7; 0x200 := 7]} ∅ []
    (CbExt guarded_state ∅ ∅ false false false 0 0 []).

(** One process and one of its threads are tracked. *)
Definition sample_tracked : tracked :=
  Tracked [ProcessEntry 8 4] [ThreadEntry 0x700 8 false 0] ∅ 0.

Definition tracking : lstate cb_ext :=
  LState {[0x100 := 0x300; 0x300 := 0; 0x200 := 0x400; 0x400 := 0]} ∅ []
    (CbExt (with_refs (entry_refs sample_tracked ⊎ leaked sample_tracked) guarded_state)
       {[0x300 := ProcessEntry 8 4]} {[0x400 := ThreadEntry 0x700 8 false 0]}
       true true false 0 2 []).

Lemma before_start_uninitialised :
  uninitialised (G := sample_heads) (L := sample_lookaside) before_start.
Proof. split; try done; try (split; [done|by eexists]); set_solver. Qed.

Lemma tracking_represents :
  represents (G := sample_heads) guarded_state tracking sample_tracked [0x300] [0x400].
Proof.
  split; try done.
  - split; [by vm_compute|repeat constructor; set_solver|done].
  - split; [by vm_compute|repeat constructor; set_solver|done].
  - intros x. cbn. rewrite !elem_of_cons, !elem_of_nil. intros [->|[->|[]]]; intuition congruence.
  - by repeat constructor.
  - by repeat constructor.
Qed.

Lemma guarded_protecting : protecting 0x9090909090909090 (sys (ext tracking)).
Proof. split; try done. Qed.

Definition sample_events : list notification :=
  [ProcessEvent 4 8 true; ThreadEvent 8 0x700 true; ProcessEvent 4 8 false].


Lemma unload_keeps_lookup_references_witness :
  exists st', (mforeach (run_notification (Pr := sample_processes) (U := sample_cpus)
        (H := sample_handles) (G := sample_heads) (L := sample_lookaside)) sample_events
      ≫= fun _ => unload_lists (G := sample_heads)) tracking = Ok (tt, st') /\
    sys (ext st') = with_refs (∅ ⊎ sum_refs (lookup_refs (Pr := sample_processes)
      (U := sample_cpus)) sample_events) guarded_state.
Proof.
  destruct (unload_keeps_lookup_references (Pr := sample_processes) (U := sample_cpus)
    (H := sample_handles) (G := sample_heads) (L := sample_lookaside)
    (La := sample_lookaside_laws) guarded_state tracking sample_tracked [0x300] [0x400]
    sample_events tracking_represents) as (st' & H1 & _ & _ & Hs).
  exists st'. split; [exact H1 | exact Hs].
Defined.

Lemma process_entries_freed_into_deleted_list_witness :
  exists st' n, unload_lists (G := sample_heads) tracking = Ok (tt, st') /\
    (ThreadLookaside, n) ∈ deleted (ext st') /\
    drop n (frees st') = [(0x300, ToLookaside ThreadLookaside)].
Proof.
  destruct (process_entries_freed_into_deleted_list (G := sample_heads) guarded_state tracking
    sample_tracked [0x300] [0x400] tracking_represents) as (st' & n & H1 & Hd & Hf & _).
  exists st', n. split; [exact H1|]. split; [exact Hd | exact Hf].
Defined.

Lemma attached_threads_reported_witness :
  exists k, DetectThreadsAttachedToProtectedProcess (P := always_grants) (K := always_succeeds)
      (A := sample_api (fun _ => 0)) (U := sample_cpus) (G := sample_heads) tracking
      = Ok (tt, set_ext (set_sys (HState (hsession guarded_state) k (tables guarded_state) false)
                           (ext tracking)) tracking) /\
    sent k = [(AttachProcess 100 0x700 0x700, 16)].
Proof.
  destruct (attached_threads_reported (P := always_grants) (K := always_succeeds)
    (A := sample_api (fun _ => 0)) (U := sample_cpus) (G := sample_heads)
    guarded_state tracking sample_tracked [0x300] [0x400] 0x9090909090909090
    tracking_represents guarded_protecting) as (k & H1 & _ & Hs).
  { constructor; [|constructor]. by eexists. }
  exists k. split; [exact H1|]. rewrite Hs by done. reflexivity.
Defined.

Lemma handle_tables_scanned_witness :
  exists s', scan_handle_tables (P := always_grants) (K := always_succeeds)
      (Pr := sample_processes) (H := sample_handles) (G := sample_heads) tracking
      = Ok (tt, set_ext (set_sys s' (ext tracking)) tracking) /\
    tables s' !! 0x10 = Some [HandleEntry 1 0 0 1 0x1fe004 0 0].
Proof.
  destruct (handle_tables_scanned (P := always_grants) (K := always_succeeds)
    (Pr := sample_processes) (H := sample_handles) (G := sample_heads)
    guarded_state tracking sample_tracked [0x300] [0x400] 0x9090909090909090
    tracking_represents guarded_protecting) as (s' & H1 & _ & _ & Ht).
  { intros p _. exists [sample_entry]. split; [reflexivity|].
    constructor; [|constructor]. split; [cbn; lia|]. vm_compute. discriminate. }
  exists s'. split; [exact H1|]. rewrite Ht. reflexivity.
Defined.
