(* ===== verification/Hashing.v ===== *)
(** * integrity.c: the executable sections of an image and their hash

    [StoreModuleExecutableRegionsInBuffer] copies the executable sections of a
    PE image, each preceded by its section header, into a pool buffer;
    [ComputeHashOfBuffer] runs SHA-256 over a buffer.  The image is read from a
    byte memory; the cryptographic provider is a parameter. *)

From stdpp Require Import gmultiset.
From S2P Require Import Prelude Layout Irp Structs Kernel Modules Session Handles.

(** ** Data *)

Definition IMAGE_SCN_MEM_EXECUTE : Z := 0x20000000.
Definition SHA_256_HASH_LENGTH : Z := 32.

Definition INTEGRITY_CHECK_HEADER : cty := St
  [("executable_section_count", Int 4); ("total_packet_size", Int 4)].

(** A pool buffer: its address and contents. *)
Record buffer := Buffer { buf_address : Z; contents : list Z }.

(** What [MmCopyMemory] returns when the source cannot be read, and the
    cryptographic provider: the results of its calls and the hash function. *)
Class HashApi := {
  copy_failure : NTSTATUS;
  BCryptOpenAlgorithmProvider : NTSTATUS * Z;
  BCRYPT_OBJECT_LENGTH : NTSTATUS * Z;
  BCRYPT_HASH_LENGTH : NTSTATUS * Z;
  BCryptCreateHash : NTSTATUS * Z;
  BCryptHashData : NTSTATUS;
  BCryptFinishHash : NTSTATUS;
  sha256 : list Z -> list Z;
}.

Class HashLaws (H : HashApi) : Prop := {
  copy_failure_fails : NT_SUCCESS copy_failure = false;
  open_handle : NT_SUCCESS BCryptOpenAlgorithmProvider.1 = true ->
    BCryptOpenAlgorithmProvider.2 <> 0;
  hash_handle : NT_SUCCESS BCryptCreateHash.1 = true -> BCryptCreateHash.2 <> 0;
  hash_length : NT_SUCCESS BCRYPT_HASH_LENGTH.1 = true ->
    BCRYPT_HASH_LENGTH.2 = SHA_256_HASH_LENGTH;
  sha256_length data : zlen (sha256 data) = SHA_256_HASH_LENGTH;
}.

Section operations.
Context {P : Pool} {V : HandleApi} {H : HashApi}.
Abbreviation M := (KM kernel).

(** ** Copying the sections *)

(** [MmCopyMemory]: the bytes, or a failure. *)
Definition MmCopyMemory (m : memory) (SourceAddress : Z) (NumberOfBytes : Z) : NTSTATUS * list Z :=
  match read_bytes m SourceAddress (Z.to_nat NumberOfBytes) with
  | Ok bytes => (STATUS_SUCCESS, bytes)
  | Crash _ => (copy_failure, [])
  end.

(** A copy into a pool buffer at an offset. *)
Definition write_at (buf : list Z) (offset : Z) (bytes : list Z) : res (list Z) :=
  if (offset <? 0) || (zlen buf <? offset + zlen bytes) then Crash OutOfBounds
  else Ok (take (Z.to_nat offset) buf ++ bytes ++
           drop (Z.to_nat offset + length bytes) buf).

(** The local variables of the loop. *)
Record copy_state := CopyState {
  target : list Z;
  total_packet_size : Z;
  num_executable_sections : Z;
}.

(** The loop over the section headers: [inr] when a copy fails. *)
Fixpoint region_loop (n : nat) (m : memory) (ModuleBase section : Z) (status : NTSTATUS)
  (c : copy_state) : res (NTSTATUS * copy_state + NTSTATUS) :=
  match n with
  | O => Ok (inl (status, c))
  | S n =>
      characteristics ← load_field m IMAGE_SECTION_HEADER section "Characteristics" 4;
      if Z.land characteristics IMAGE_SCN_MEM_EXECUTE =? 0
      then region_loop n m ModuleBase (section + sizeof IMAGE_SECTION_HEADER) status c
      else
        let buffer_base := sizeof INTEGRITY_CHECK_HEADER in
        let '(status, header) := MmCopyMemory m section (sizeof IMAGE_SECTION_HEADER) in
        if negb (NT_SUCCESS status) then Ok (inr status)
        else
          target1 ← write_at (target c) (buffer_base + total_packet_size c) header;
          pointer ← load_field m IMAGE_SECTION_HEADER section "PointerToRawData" 4;
          raw_size ← load_field m IMAGE_SECTION_HEADER section "SizeOfRawData" 4;
          let '(status, data) := MmCopyMemory m (u64 (ModuleBase + pointer)) raw_size in
          if negb (NT_SUCCESS status) then Ok (inr status)
          else
            target2 ← write_at target1
              (buffer_base + total_packet_size c + sizeof IMAGE_SECTION_HEADER) data;
            region_loop n m ModuleBase (section + sizeof IMAGE_SECTION_HEADER) status
              (CopyState target2
                 (u32 (total_packet_size c + (raw_size + sizeof IMAGE_SECTION_HEADER)))
                 (u32 (num_executable_sections c + 1)))
  end.

(** [IMAGE_FIRST_SECTION]. *)
Definition IMAGE_FIRST_SECTION (m : memory) (nt_header : Z) : res Z :=
  let file_header := nt_header + offsetof LOCAL_NT_HEADER "FileHeader" in
  optional ← load_field m IMAGE_FILE_HEADER file_header "SizeOfOptionalHeader" 2;
  Ok (nt_header + offsetof LOCAL_NT_HEADER "OptionalHeader" + optional).

(** The walk over the image, once the buffer is allocated. *)
Definition copy_regions (m : memory) (ModuleBase : Z) (buf : list Z)
  : res (NTSTATUS * copy_state + NTSTATUS) :=
  e_lfanew ← load_field m IMAGE_DOS_HEADER ModuleBase "e_lfanew" 4;
  let nt_header := u64 (ModuleBase + s32 e_lfanew) in
  let file_header := nt_header + offsetof LOCAL_NT_HEADER "FileHeader" in
  num_sections ← load_field m IMAGE_FILE_HEADER file_header "NumberOfSections" 2;
  section ← IMAGE_FIRST_SECTION m nt_header;
  region_loop (Z.to_nat (u32 (num_sections - 1))) m ModuleBase section STATUS_UNSUCCESSFUL
    (CopyState buf 0 0).

(** The result is the status, the buffer ([None] for a null pointer) and the
    number of bytes written. *)
Definition StoreModuleExecutableRegionsInBuffer (m : memory) (ModuleBase ModuleSize : Z)
  (IsModulex86 : bool) : M (NTSTATUS * option buffer * Z) :=
  if (ModuleBase =? 0) || (ModuleSize =? 0) then mret (STATUS_INVALID_PARAMETER, None, 0)
  else
    let buffer_size := u32 (ModuleSize + sizeof INTEGRITY_CHECK_HEADER) in
    p ← ExAllocatePool2 buffer_size POOL_TAG_INTEGRITY;
    if p =? 0 then mret (STATUS_MEMORY_NOT_ALLOCATED, None, 0)
    else if negb (MmIsAddressValid ModuleBase) && negb IsModulex86 then
      ExFreePoolWithTag p POOL_TAG_INTEGRITY ≫= fun _ =>
      mret (STATUS_INVALID_ADDRESS, None, 0)
    else
      r ← lift (copy_regions m ModuleBase (replicate (Z.to_nat buffer_size) 0));
      match r with
      | inr status =>
          ExFreePoolWithTag p POOL_TAG_INTEGRITY ≫= fun _ =>
          mret (status, None, 0)
      | inl (status, c) =>
          let size := total_packet_size c + sizeof INTEGRITY_CHECK_HEADER in
          target ← lift (write_at (target c) 0
            (le_bytes 4 (num_executable_sections c) ++ le_bytes 4 (u32 size)));
          mret (status, Some (Buffer p target), size)
      end.

(** ** Hashing *)

(** The label [end] of [ComputeHashOfBuffer]. *)
Definition hash_cleanup (algo_handle hash_handle hash_object : Z) : M unit :=
  when (negb (algo_handle =? 0)) (release (AlgorithmProvider algo_handle)) ≫= fun _ =>
  when (negb (hash_handle =? 0)) (release (HashHandle hash_handle)) ≫= fun _ =>
  when (negb (hash_object =? 0)) (ExFreePoolWithTag hash_object POOL_TAG_INTEGRITY).

(** The result is the status and, on success, the hash and its size. *)
Definition ComputeHashOfBuffer (data : list Z) : M (NTSTATUS * option buffer * Z) :=
  let '(status, algo_handle) := BCryptOpenAlgorithmProvider in
  if negb (NT_SUCCESS status) then
    hash_cleanup 0 0 0 ≫= fun _ => mret (status, None, 0)
  else
    acquire (AlgorithmProvider algo_handle) ≫= fun _ =>
    let '(status, hash_object_size) := BCRYPT_OBJECT_LENGTH in
    if negb (NT_SUCCESS status) then
      hash_cleanup algo_handle 0 0 ≫= fun _ => mret (status, None, 0)
    else
      hash_object ← ExAllocatePool2 hash_object_size POOL_TAG_INTEGRITY;
      if hash_object =? 0 then
        hash_cleanup algo_handle 0 0 ≫= fun _ => mret (STATUS_MEMORY_NOT_ALLOCATED, None, 0)
      else
        let '(status, resulting_hash_size) := BCRYPT_HASH_LENGTH in
        if negb (NT_SUCCESS status) then
          hash_cleanup algo_handle 0 hash_object ≫= fun _ => mret (status, None, 0)
        else
          resulting_hash ← ExAllocatePool2 resulting_hash_size POOL_TAG_INTEGRITY;
          if resulting_hash =? 0 then
            hash_cleanup algo_handle 0 hash_object ≫= fun _ =>
            mret (STATUS_MEMORY_NOT_ALLOCATED, None, 0)
          else
            let '(status, hash_handle) := BCryptCreateHash in
            if negb (NT_SUCCESS status) then
              hash_cleanup algo_handle 0 hash_object ≫= fun _ => mret (status, None, 0)
            else
              acquire (HashHandle hash_handle) ≫= fun _ =>
              let status := BCryptHashData in
              if negb (NT_SUCCESS status) then
                hash_cleanup algo_handle hash_handle hash_object ≫= fun _ => mret (status, None, 0)
              else
                let status := BCryptFinishHash in
                if negb (NT_SUCCESS status) then
                  hash_cleanup algo_handle hash_handle hash_object ≫= fun _ =>
                  mret (status, None, 0)
                else
                  hash_cleanup algo_handle hash_handle hash_object ≫= fun _ =>
                  mret (status, Some (Buffer resulting_hash (sha256 data)), resulting_hash_size).

(** [RtlCompareMemory(...) == Length]; it reads both buffers. *)
Definition CompareHashes (Hash1 Hash2 : list Z) (Length : Z) : res bool :=
  if (zlen Hash1 <? Length) || (zlen Hash2 <? Length) then Crash OutOfBounds
  else Ok (bool_decide (take (Z.to_nat Length) Hash1 = take (Z.to_nat Length) Hash2)).

(** ** Requests about the driver's own image *)

Context {A : SystemApi}.

(** [GetDriverName()] is [driver_name], [None] for a null pointer. *)
Definition GetDriverImageSize (driver_name : option string) (Irp : option IRP)
  : M (NTSTATUS * option IRP) :=
  '(status, m) ← GetSystemModuleInformation (Some no_modules);
  if negb (NT_SUCCESS status) then mret (status, Irp)
  else
    let modules := default no_modules m in
    match FindSystemModuleByName driver_name (Some modules) with
    | None =>
        ExFreePoolWithTag (address modules) SYSTEM_MODULES_POOL ≫= fun _ =>
        mret (STATUS_NOT_FOUND, Irp)
    | Some driver_info =>
        '(status, Irp) ← lift (ValidateIrpOutputBuffer Irp 4);
        Irp ← (if negb (NT_SUCCESS status) then mret Irp
               else match Irp with
                    | None => crash NullDereference
                    | Some irp =>
                        buf ← lift (copy_to (SystemBuffer irp) (le_bytes 4 (ImageSize driver_info)));
                        mret (Some (set_buffer buf (set_information 4 irp)))
                    end);
        free_module_list modules ≫= fun _ =>
        mret (status, Irp)
    end.

(** The result is the status and the structure filled in. *)
Definition GetModuleInformationByName (driver_name ModuleName : option string)
  : M (NTSTATUS * option RTL_MODULE_EXTENDED_INFO) :=
  '(status, m) ← GetSystemModuleInformation (Some no_modules);
  if negb (NT_SUCCESS status) then mret (status, None)
  else
    let modules := default no_modules m in
    match FindSystemModuleByName driver_name (Some modules) with
    | None =>
        ExFreePoolWithTag (address modules) SYSTEM_MODULES_POOL ≫= fun _ =>
        mret (STATUS_NOT_FOUND, None)
    | Some driver_info =>
        free_module_list modules ≫= fun _ =>
        mret (status, Some driver_info)
    end.

Definition RetrieveInMemoryModuleExecutableSections (driver_name : option string)
  (Irp : option IRP) : M (NTSTATUS * option IRP) :=
  '(status, info) ← GetModuleInformationByName driver_name driver_name;
  if negb (NT_SUCCESS status) then mret (status, Irp)
  else
    let module_info := default (ModuleInfo 0 0 "") info in
    '(status, buffer, bytes_written) ← StoreModuleExecutableRegionsInBuffer system_memory
      (ImageBase module_info) (ImageSize module_info) false;
    if negb (NT_SUCCESS status) then mret (status, Irp)
    else
      '(status, Irp) ← lift (ValidateIrpOutputBuffer Irp bytes_written);
      Irp ← (if negb (NT_SUCCESS status) then mret Irp
             else match Irp, buffer with
                  | Some irp, Some b =>
                      buf ← lift (copy_to (SystemBuffer irp)
                        (take (Z.to_nat bytes_written) (contents b)));
                      mret (Some (set_buffer buf (set_information bytes_written irp)))
                  | _, _ => crash NullDereference
                  end);
      match buffer with
      | Some b => ExFreePoolWithTag (buf_address b) POOL_TAG_INTEGRITY
      | None => mret tt
      end ≫= fun _ =>
      mret (status, Irp).

End operations.

(** ** Specification *)

(** A section: its header and the fields the code uses, and its raw data. *)
Record section := Section_ {
  header : list Z;
  characteristics : Z;
  pointer_to_raw_data : Z;
  raw_data : list Z;
}.

Definition executable (s : section) : bool :=
  negb (Z.land (characteristics s) IMAGE_SCN_MEM_EXECUTE =? 0).

(** The section header at [a] describes [s], whose raw data is readable. *)
Record section_at (m : memory) (ModuleBase a : Z) (s : section) : Prop := {
  at_header : read_bytes m a 40 = Ok (header s);
  at_characteristics : load_field m IMAGE_SECTION_HEADER a "Characteristics" 4
    = Ok (characteristics s);
  at_pointer : load_field m IMAGE_SECTION_HEADER a "PointerToRawData" 4
    = Ok (pointer_to_raw_data s);
  at_size : load_field m IMAGE_SECTION_HEADER a "SizeOfRawData" 4 = Ok (zlen (raw_data s));
  at_data : read_bytes m (u64 (ModuleBase + pointer_to_raw_data s)) (length (raw_data s))
    = Ok (raw_data s);
}.

(** The image at [ModuleBase]: its first header and the size of its optional
    header, and the sections a walk visits, all but the last. *)
Record image_at (m : memory) (ModuleBase lfanew optional_header : Z) (visited : list section)
  : Prop := {
  im_lfanew : load_field m IMAGE_DOS_HEADER ModuleBase "e_lfanew" 4 = Ok lfanew;
  im_sections : load_field m IMAGE_FILE_HEADER
      (u64 (ModuleBase + s32 lfanew) + offsetof LOCAL_NT_HEADER "FileHeader") "NumberOfSections" 2
    = Ok (zlen visited + 1);
  im_count : zlen visited + 1 < 2 ^ 16;
  im_optional : load_field m IMAGE_FILE_HEADER
      (u64 (ModuleBase + s32 lfanew) + offsetof LOCAL_NT_HEADER "FileHeader")
      "SizeOfOptionalHeader" 2 = Ok optional_header;
  im_at : forall i s, visited !! i = Some s ->
    section_at m ModuleBase
      (u64 (ModuleBase + s32 lfanew) + offsetof LOCAL_NT_HEADER "OptionalHeader" + optional_header
       + 40 * Z.of_nat i) s;
}.

Definition packet (s : section) : list Z := header s ++ raw_data s.
Definition executables (l : list section) : list section := filter (fun s => executable s = true) l.
Definition packets (l : list section) : list Z := concat (packet <$> executables l).

(** ** Lemmas *)

Lemma write_at_append pre rest bytes :
  write_at (pre ++ rest) (zlen pre) bytes
  = if zlen bytes <=? zlen rest then Ok (pre ++ bytes ++ drop (length bytes) rest)
    else Crash OutOfBounds.
Proof.
  unfold write_at. pose proof (zlen_nonneg pre). rewrite zlen_app.
  destruct (Z.ltb_spec (zlen pre) 0); [lia|]. cbn [orb].
  destruct (Z.ltb_spec (zlen pre + zlen rest) (zlen pre + zlen bytes)),
    (Z.leb_spec (zlen bytes) (zlen rest)); try lia; [done|].
  unfold zlen. rewrite Nat2Z.id, take_app_length, drop_app_ge by lia.
  do 4 f_equal. lia.
Qed.

Lemma write_at_front buf bytes :
  write_at buf 0 bytes
  = if zlen bytes <=? zlen buf then Ok (bytes ++ drop (length bytes) buf) else Crash OutOfBounds.
Proof. exact (write_at_append [] buf bytes). Qed.

Lemma executables_cons s l :
  executables (s :: l) = if executable s then s :: executables l else executables l.
Proof.
  unfold executables. destruct (executable s) eqn:E.
  - by rewrite filter_cons_True.
  - by rewrite filter_cons_False by congruence.
Qed.

Lemma packets_cons s l :
  packets (s :: l) = if executable s then packet s ++ packets l else packets l.
Proof.
  unfold packets. rewrite executables_cons. by destruct (executable s).
Qed.

Lemma read_bytes_length m a n bs : read_bytes m a n = Ok bs -> length bs = n.
Proof.
  revert a bs. induction n as [|n IH]; intros a bs; cbn; [by intros [= <-]|].
  destruct (m a); [|done]. destruct (read_bytes m (a + 1) n) as [l|] eqn:E; [|done].
  intros [= <-]. cbn. f_equal. eauto.
Qed.

Section lemmas.
Context {P : Pool} {V : HandleApi} {H : HashApi}.

Lemma MmCopyMemory_ok m a n bytes :
  read_bytes m a n = Ok bytes -> MmCopyMemory m a (Z.of_nat n) = (STATUS_SUCCESS, bytes).
Proof. intros E. unfold MmCopyMemory. by rewrite Nat2Z.id, E. Qed.

(** One round of the loop on an executable section. *)
Lemma region_step m ModuleBase n a s status pre rest execs :
  section_at m ModuleBase a s -> executable s = true ->
  8 <= zlen pre -> zlen (pre ++ rest) < 2 ^ 32 -> 0 <= execs < 2 ^ 32 - 1 ->
  region_loop (S n) m ModuleBase a status (CopyState (pre ++ rest) (zlen pre - 8) execs)
  = if zlen (packet s) <=? zlen rest then
      region_loop n m ModuleBase (a + 40) STATUS_SUCCESS
        (CopyState ((pre ++ packet s) ++ drop (length (packet s)) rest)
           (zlen (pre ++ packet s) - 8) (execs + 1))
    else Crash OutOfBounds.
Proof.
  intros [Ah Ac Ap As_ Ad] X Hpre Hlen He. cbn [region_loop]. rewrite Ac. cbn [mbind res_bind].
  change (sizeof IMAGE_SECTION_HEADER) with 40. change (sizeof INTEGRITY_CHECK_HEADER) with 8.
  unfold executable in X. apply negb_true_iff in X. rewrite X.
  change (MmCopyMemory m a 40) with (MmCopyMemory m a (Z.of_nat 40)).
  rewrite (MmCopyMemory_ok _ _ _ _ Ah). cbn beta iota.
  change (negb (NT_SUCCESS STATUS_SUCCESS)) with false.
  cbn [target total_packet_size num_executable_sections].
  assert (zlen (header s) = 40) as Hh by (unfold zlen; by rewrite (read_bytes_length _ _ _ _ Ah)).
  replace (8 + (zlen pre - 8)) with (zlen pre) by lia. rewrite write_at_append, Hh.
  unfold packet. rewrite !zlen_app, Hh in *. pose proof (zlen_nonneg (raw_data s)).
  destruct (Z.leb_spec 40 (zlen rest)) as [L|L]; cbn [mbind res_bind];
    [|destruct (Z.leb_spec (40 + zlen (raw_data s)) (zlen rest)); [lia|done]].
  rewrite Ap, As_. cbn [mbind res_bind]. unfold zlen at 1 2. rewrite (MmCopyMemory_ok _ _ _ _ Ad).
  cbn beta iota. change (negb (NT_SUCCESS STATUS_SUCCESS)) with false. cbn iota.
  assert (zlen pre + 40 = zlen (pre ++ header s)) as Hp by (rewrite zlen_app; lia).
  rewrite Hp, (assoc_L (++)), write_at_append.
  assert (zlen (drop (length (header s)) rest) = zlen rest - 40) as Hd.
  { unfold zlen in *. rewrite length_drop. lia. }
  rewrite Hd. destruct (Z.leb_spec (zlen (raw_data s)) (zlen rest - 40)),
    (Z.leb_spec (40 + zlen (raw_data s)) (zlen rest)); try lia; [|done].
  cbn [mbind res_bind]. fold (zlen pre). rewrite drop_drop, !u32_small by lia.
  rewrite length_app, !(assoc_L (++)). do 2 f_equal. lia.
Qed.

(** The loop, from a state in which [pre] has been written. *)
Lemma region_loop_spec m ModuleBase : forall l a status pre rest execs,
  (forall i s, l !! i = Some s -> section_at m ModuleBase (a + 40 * Z.of_nat i) s) ->
  8 <= zlen pre -> zlen (pre ++ rest) < 2 ^ 32 -> 0 <= execs -> execs + zlen l < 2 ^ 32 ->
  region_loop (length l) m ModuleBase a status (CopyState (pre ++ rest) (zlen pre - 8) execs)
  = if zlen (packets l) <=? zlen rest then
      Ok (inl (if existsb executable l then STATUS_SUCCESS else status,
               CopyState (pre ++ packets l ++ drop (length (packets l)) rest)
                 (zlen pre - 8 + zlen (packets l)) (execs + zlen (executables l))))
    else Crash OutOfBounds.
Proof.
  induction l as [|s l IH]; intros a status pre rest execs Hl Hpre Hlen He Hel.
  { change (packets []) with (@nil Z). change (executables []) with (@nil section).
    rewrite !zlen_nil, !Z.add_0_r, (proj2 (Z.leb_le _ _)) by apply zlen_nonneg.
    cbn [length]. by rewrite drop_0. }
  pose proof (Hl 0%nat s eq_refl) as Hs. rewrite Z.mul_0_r, Z.add_0_r in Hs.
  assert (forall i s, l !! i = Some s -> section_at m ModuleBase (a + 40 + 40 * Z.of_nat i) s) as Hl'.
  { intros i s' Hi. replace (a + 40 + 40 * Z.of_nat i) with (a + 40 * Z.of_nat (S i)) by lia.
    by apply Hl. }
  rewrite zlen_cons in Hel. pose proof (zlen_nonneg l). pose proof (zlen_nonneg (packets l)).
  rewrite packets_cons, executables_cons. cbn [length existsb].
  destruct (executable s) eqn:X; cbn [orb].
  - rewrite (region_step _ _ _ _ s) by (done || lia). rewrite !zlen_app in *.
    destruct (Z.leb_spec (zlen (packet s)) (zlen rest));
      [|destruct (Z.leb_spec (zlen (packet s) + zlen (packets l)) (zlen rest)); [lia|done]].
    assert (zlen (drop (length (packet s)) rest) = zlen rest - zlen (packet s)) as Hd.
    { unfold zlen in *. rewrite length_drop. lia. }
    rewrite <- (zlen_app pre (packet s)).
    pose proof (zlen_nonneg (packet s)).
    rewrite IH by (rewrite ?zlen_app, ?Hd; done || lia). rewrite Hd.
    destruct (Z.leb_spec (zlen (packets l)) (zlen rest - zlen (packet s))),
      (Z.leb_spec (zlen (packet s) + zlen (packets l)) (zlen rest)); try lia; [|done].
    rewrite drop_drop, length_app, zlen_cons, zlen_app, !(assoc_L (++)).
    destruct (existsb executable l); do 4 f_equal; lia.
  - cbn [region_loop]. rewrite (at_characteristics _ _ _ _ Hs). cbn [mbind res_bind].
    unfold executable in X. apply negb_false_iff in X. rewrite X. apply IH; try done. lia.
Qed.

(** The buffer for the image with the sections [l], of a module of [n] bytes. *)
Definition region_buffer (l : list section) (n : Z) : list Z :=
  le_bytes 4 (zlen (executables l)) ++ le_bytes 4 (zlen (packets l) + 8) ++ packets l ++
  replicate (Z.to_nat (n - zlen (packets l))) 0.

Lemma executables_length l : 0 <= zlen (executables l) <= zlen l.
Proof.
  unfold zlen, executables. pose proof (length_filter (fun s => executable s = true) l). lia.
Qed.

Lemma copy_regions_spec m ModuleBase lfanew opt visited n :
  image_at m ModuleBase lfanew opt visited -> 0 < n -> n + 8 < 2 ^ 32 ->
  copy_regions m ModuleBase (replicate (Z.to_nat (n + 8)) 0)
  = if zlen (packets visited) <=? n then
      Ok (inl (if existsb executable visited then STATUS_SUCCESS else STATUS_UNSUCCESSFUL,
               CopyState (replicate 8 0 ++ packets visited ++
                          replicate (Z.to_nat (n - zlen (packets visited))) 0)
                 (zlen (packets visited)) (zlen (executables visited))))
    else Crash OutOfBounds.
Proof.
  intros [E1 E2 Ec E3 E4] Hn Hb. unfold copy_regions, IMAGE_FIRST_SECTION.
  rewrite E1. cbn [mbind res_bind]. rewrite E2. cbn [mbind res_bind]. rewrite E3.
  cbn [mbind res_bind]. pose proof (zlen_nonneg visited).
  replace (zlen visited + 1 - 1) with (zlen visited) by lia.
  rewrite u32_small, to_nat_zlen by lia.
  replace (Z.to_nat (n + 8)) with (8 + Z.to_nat n)%nat by lia. rewrite replicate_add.
  pose proof (region_loop_spec m ModuleBase visited
    (u64 (ModuleBase + s32 lfanew) + offsetof LOCAL_NT_HEADER "OptionalHeader" + opt)
    STATUS_UNSUCCESSFUL (replicate 8 0) (replicate (Z.to_nat n) 0) 0 E4) as R.
  change (zlen (replicate 8 0)) with 8 in R. rewrite zlen_app in R.
  assert (zlen (replicate (Z.to_nat n) 0) = n) as Hz by (unfold zlen; rewrite length_replicate; lia).
  rewrite Hz in R. change (zlen (replicate 8 0)) with 8 in R. change (8 - 8) with 0 in R.
  rewrite R by lia. rewrite !Z.add_0_l. destruct (Z.leb_spec (zlen (packets visited)) n); [|done].
  rewrite drop_replicate. unfold zlen. do 7 f_equal. lia.
Qed.

(** The state after a granted allocation. *)
Definition allocated (n tag : Z) (s : kernel) : kernel :=
  Kernel (held s ⊎ {[+ Block (next_block s) tag +]}) (next_block s + Z.max 16 n)
    (S (pool_requests s)) (sent s) (nmi_status s).

Lemma alloc_granted s n tag :
  pool_grants (pool_requests s) = true ->
  ExAllocatePool2 n tag s = Ok (next_block s, allocated n tag s).
Proof. intros Hg. unfold ExAllocatePool2. by rewrite Hg. Qed.

(** What the client can rely on when the module is described by [image_at] and
    the buffer can be allocated. *)
Lemma StoreModule_spec m ModuleBase n x86 lfanew opt visited s :
  kernel_wf s -> image_at m ModuleBase lfanew opt visited ->
  ModuleBase <> 0 -> 0 < n -> n + 8 < 2 ^ 32 ->
  pool_grants (pool_requests s) = true -> MmIsAddressValid ModuleBase || x86 = true ->
  StoreModuleExecutableRegionsInBuffer m ModuleBase n x86 s
  = if zlen (packets visited) <=? n then
      Ok ((if existsb executable visited then STATUS_SUCCESS else STATUS_UNSUCCESSFUL,
           Some (Buffer (next_block s) (region_buffer visited n)), zlen (packets visited) + 8),
          allocated (n + 8) POOL_TAG_INTEGRITY s)
    else Crash OutOfBounds.
Proof.
  intros Hwf Him Hb Hn Hn8 Hg Hv. unfold StoreModuleExecutableRegionsInBuffer.
  destruct (Z.eqb_spec ModuleBase 0), (Z.eqb_spec n 0); try lia. cbn [orb].
  change (sizeof INTEGRITY_CHECK_HEADER) with 8. rewrite (u32_small (n + 8)) by lia.
  rewrite (KM_step _ _ _ _ _ (alloc_granted _ _ _ Hg)).
  destruct (Z.eqb_spec (next_block s) 0); [unfold kernel_wf in Hwf; lia|].
  rewrite <- negb_orb, Hv. cbn [negb]. rewrite (copy_regions_spec _ _ _ _ _ _ Him) by done.
  destruct (Z.leb_spec (zlen (packets visited)) n); [|done]. rewrite lift_step.
  cbn [total_packet_size target num_executable_sections].
  rewrite u32_small by (pose proof (zlen_nonneg (packets visited)); lia).
  rewrite write_at_front.
  assert (zlen (le_bytes 4 (zlen (executables visited)) ++ le_bytes 4 (zlen (packets visited) + 8))
    = 8) as H8 by (unfold zlen; by rewrite length_app, !length_le_bytes).
  rewrite H8, (proj2 (Z.leb_le _ _)).
  2: { rewrite zlen_app. change (zlen (replicate 8 0)) with 8.
       pose proof (zlen_nonneg (packets visited ++ replicate (Z.to_nat (n - zlen (packets visited))) 0)).
       lia. }
  rewrite lift_step, drop_app_length' by (by rewrite length_app, !length_le_bytes, length_replicate).
  unfold region_buffer. by rewrite <- !(assoc_L (++)).
Qed.

(** ** Hashing *)

(** What [ComputeHashOfBuffer] holds when it reaches its label [end]. *)
Definition hash_resources (algo_handle hash_handle hash_object : Z) : gmultiset resource :=
  (if algo_handle =? 0 then ∅ else {[+ AlgorithmProvider algo_handle +]}) ⊎
  (if hash_handle =? 0 then ∅ else {[+ HashHandle hash_handle +]}) ⊎
  (if hash_object =? 0 then ∅ else {[+ Block hash_object POOL_TAG_INTEGRITY +]}).

Lemma hash_cleanup_spec s h a k o :
  held s = h ⊎ hash_resources a k o -> hash_cleanup a k o s = Ok (tt, set_held h s).
Proof.
  unfold hash_cleanup, hash_resources, ExFreePoolWithTag. intros Hh.
  set (s1 := set_held (h ⊎ (if k =? 0 then ∅ else {[+ HashHandle k +]}) ⊎
    (if o =? 0 then ∅ else {[+ Block o POOL_TAG_INTEGRITY +]})) s).
  set (s2 := set_held (h ⊎ (if o =? 0 then ∅ else {[+ Block o POOL_TAG_INTEGRITY +]})) s).
  rewrite (KM_step _ _ s tt s1), (KM_step _ _ s1 tt s2); unfold s1, s2, set_held.
  - destruct (o =? 0); cbn [negb when].
    + by rewrite (right_id_L ∅ (⊎)).
    + by rewrite (release_last _ h).
  - destruct (k =? 0); cbn [negb when].
    + by rewrite (right_id_L ∅ (⊎)).
    + erewrite release_last; [done|]. cbn [Kernel.held]. clear. multiset_solver.
  - destruct (a =? 0); cbn [negb when].
    + unfold mret, KM_ret. repeat f_equal. destruct s. cbn [Kernel.held] in *. rewrite Hh. f_equal.
      clear. multiset_solver.
    + erewrite release_last; [done|]. rewrite Hh. clear. multiset_solver.
Qed.

(** Memory suffices and the provider can be opened and queried. *)
Definition can_start_hash : Prop :=
  (forall n, pool_grants n = true) /\ NT_SUCCESS BCryptOpenAlgorithmProvider.1 = true /\
  NT_SUCCESS BCRYPT_OBJECT_LENGTH.1 = true /\ NT_SUCCESS BCRYPT_HASH_LENGTH.1 = true.

(** The hash object can be created and used. *)
Definition finishes_hash : bool :=
  NT_SUCCESS BCryptCreateHash.1 && NT_SUCCESS BCryptHashData && NT_SUCCESS BCryptFinishHash.

(** The outcomes of [ComputeHashOfBuffer]: the hash, owned by the caller, or a
    failure, early or late; a late one loses the block for the result. *)
Inductive hash_outcome (s s' : kernel) (data : list Z) : NTSTATUS * option buffer * Z -> Prop :=
  | Hashed status p :
      NT_SUCCESS status = true -> 0 < p -> finishes_hash = true ->
      held s' = held s ⊎ {[+ Block p POOL_TAG_INTEGRITY +]} ->
      hash_outcome s s' data (status, Some (Buffer p (sha256 data)), SHA_256_HASH_LENGTH)
  | NotHashed status :
      NT_SUCCESS status = false -> held s' = held s -> ~ can_start_hash ->
      hash_outcome s s' data (status, None, 0)
  | HashLeaked status p :
      NT_SUCCESS status = false ->
      held s' = held s ⊎ {[+ Block p POOL_TAG_INTEGRITY +]} ->
      finishes_hash = false ->
      hash_outcome s s' data (status, None, 0).

(** Leaving through [end]. *)
Lemma hash_end {X} s h a k o (x : X) :
  held s = h ⊎ hash_resources a k o ->
  (hash_cleanup a k o ≫= fun _ => mret x) s = Ok (x, set_held h s).
Proof. intros Hh. by rewrite (KM_step _ _ _ _ _ (hash_cleanup_spec _ _ _ _ _ Hh)). Qed.

(** Leaving without a hash. *)
Lemma hash_fails s s1 data a k o status :
  kernel_wf s1 -> sent s1 = sent s -> NT_SUCCESS status = false -> ~ can_start_hash ->
  held s1 = held s ⊎ hash_resources a k o ->
  exists r s', (hash_cleanup a k o ≫= fun _ => mret (status, None, 0)) s1 = Ok (r, s') /\
    kernel_wf s' /\ sent s' = sent s /\ hash_outcome s s' data r.
Proof.
  intros W S F Hc Hh. rewrite (hash_end _ _ _ _ _ _ Hh). eexists _, _. split; [done|].
  split; [done|]. split; [done|]. by constructor.
Qed.

Lemma hash_leaks s s1 data a k o p status :
  kernel_wf s1 -> sent s1 = sent s -> NT_SUCCESS status = false ->
  finishes_hash = false ->
  held s1 = held s ⊎ {[+ Block p POOL_TAG_INTEGRITY +]} ⊎ hash_resources a k o ->
  exists r s', (hash_cleanup a k o ≫= fun _ => mret (status, None, 0)) s1 = Ok (r, s') /\
    kernel_wf s' /\ sent s' = sent s /\ hash_outcome s s' data r.
Proof.
  intros W S F L Hh. rewrite (hash_end _ _ _ _ _ _ Hh). eexists _, _. split; [done|].
  split; [done|]. split; [done|]. by eapply HashLeaked.
Qed.

(** Accounts for the resources held at [end]. *)
Ltac solve_resources :=
  unfold hash_resources; cbn [Kernel.held set_held];
  repeat match goal with Hx : held ?x = _ |- context [held ?x] => rewrite Hx; cbn [Kernel.held set_held] end;
  bool_cases; try lia; clear; multiset_solver.
Ltac leave_with L :=
  eapply L; try done; try (cbn; congruence);
  try (intros (?Hpool & ?H1 & ?H2 & ?H3); cbn in *; congruence); solve_resources.

(** The part of [ComputeHashOfBuffer] after both allocations. *)
Lemma hash_tail {HL : HashLaws H} s s3 data a o p :
  kernel_wf s3 -> sent s3 = sent s -> a <> 0 -> o <> 0 -> 0 < p ->
  held s3 = held s ⊎ {[+ Block p POOL_TAG_INTEGRITY +]} ⊎ hash_resources a 0 o ->
  exists r s',
    (let '(status, k) := BCryptCreateHash in
     if negb (NT_SUCCESS status) then
       hash_cleanup a 0 o ≫= fun _ => mret (status, None, 0)
     else
       acquire (HashHandle k) ≫= fun _ =>
       if negb (NT_SUCCESS BCryptHashData) then
         hash_cleanup a k o ≫= fun _ => mret (BCryptHashData, None, 0)
       else if negb (NT_SUCCESS BCryptFinishHash) then
         hash_cleanup a k o ≫= fun _ => mret (BCryptFinishHash, None, 0)
       else hash_cleanup a k o ≫= fun _ =>
         mret (BCryptFinishHash, Some (Buffer p (sha256 data)), SHA_256_HASH_LENGTH)) s3 = Ok (r, s') /\
    kernel_wf s' /\ sent s' = sent s /\ hash_outcome s s' data r.
Proof.
  intros W3 S3 Ha Ho Hp H3. unfold hash_resources in H3. change (0 =? 0) with true in H3.
  pose proof (fun s1 data a k o => hash_leaks s s1 data a k o p) as Leak.
  pose proof (Hashed s) as Done. pose proof hash_handle as Hk. unfold finishes_hash in Leak, Done.
  destruct BCryptCreateHash as [st4 k]. cbn [fst snd] in *.
  destruct (NT_SUCCESS st4) eqn:E4; cbn [negb andb] in *; [|leave_with Leak].
  specialize (Hk eq_refl). erewrite KM_step by done.
  destruct (NT_SUCCESS BCryptHashData) eqn:E5; cbn [negb andb] in *; [|leave_with Leak].
  destruct (NT_SUCCESS BCryptFinishHash) eqn:E6; cbn [negb]; [|leave_with Leak].
  rewrite (hash_end _ (held s ⊎ {[+ Block p POOL_TAG_INTEGRITY +]})) by solve_resources.
  eexists _, _. split; [done|]. split; [done|]. split; [done|]. by apply Done.
Qed.

Lemma ComputeHashOfBuffer_spec {HL : HashLaws H} s data :
  kernel_wf s ->
  exists r s', ComputeHashOfBuffer data s = Ok (r, s') /\ kernel_wf s' /\ sent s' = sent s /\
    hash_outcome s s' data r.
Proof.
  intros Hwf. unfold ComputeHashOfBuffer, can_start_hash. pose proof open_handle as Ho. pose proof hash_length as Hl.
  pose proof (hash_fails s) as Fail. unfold can_start_hash in Fail.
  destruct BCryptOpenAlgorithmProvider as [st a]. cbn [fst snd] in Ho.
  destruct (NT_SUCCESS st) eqn:E1; cbn [negb]; [|leave_with Fail]. specialize (Ho eq_refl).
  erewrite KM_step by done. destruct BCRYPT_OBJECT_LENGTH as [st2 osize].
  destruct (NT_SUCCESS st2) eqn:E2; cbn [negb]; [|leave_with Fail].
  set (s1 := set_held (held s ⊎ {[+ AlgorithmProvider a +]}) s).
  assert (held s1 = held s ⊎ {[+ AlgorithmProvider a +]}) as H1 by done.
  destruct (alloc_spec s1 osize POOL_TAG_INTEGRITY Hwf) as (o & s2 & A2 & W2 & S2 & _ & _ & H2).
  setoid_rewrite (KM_step _ _ _ _ _ A2). change (sent s1) with (sent s) in S2.
  destruct (pool_grants (pool_requests s1)) eqn:G2; destruct H2 as [Ho2 H2]; [|subst o; leave_with Fail].
  destruct (Z.eqb_spec o 0); [lia|]. destruct BCRYPT_HASH_LENGTH as [st3 hsize].
  destruct (NT_SUCCESS st3) eqn:E3; cbn [negb fst snd] in *; [|leave_with Fail].
  rewrite (Hl E3).
  destruct (alloc_spec s2 SHA_256_HASH_LENGTH POOL_TAG_INTEGRITY W2)
    as (p & s3 & A3 & W3 & S3 & _ & _ & H3).
  setoid_rewrite (KM_step _ _ _ _ _ A3).
  destruct (pool_grants (pool_requests s2)) eqn:G3; destruct H3 as [Hp3 H3]; [|subst p; leave_with Fail].
  destruct (Z.eqb_spec p 0); [lia|].
  apply hash_tail; try done; [by rewrite S3, S2|solve_resources].
Qed.

(** ** The driver's own module *)

Context {A : SystemApi}.

(** The module queries succeed. *)
Record queries_succeed : Prop := {
  qs_pool n : pool_grants n = true;
  qs_size : NT_SUCCESS query_module_size.1 = true;
  qs_modules : NT_SUCCESS query_modules.1.1 = true;
}.

Lemma FindSystemModuleByName_modules name m m' :
  modules m = modules m' ->
  FindSystemModuleByName name (Some m) = FindSystemModuleByName name (Some m').
Proof. unfold FindSystemModuleByName. by intros ->. Qed.

Lemma module_query_succeeds s :
  kernel_wf s -> queries_succeed ->
  exists m s', GetSystemModuleInformation (Some no_modules) s = Ok ((query_modules.1.1, Some m), s') /\
    module_query_outcome s s' query_modules.1.1 m /\ kernel_wf s' /\
    modules m = modules loaded_modules /\ sends s' s' [] /\ 0 < address m /\ sent s' = sent s.
Proof.
  intros Hwf [Hp Hq1 Hq2].
  destruct (GetSystemModuleInformation_spec s Hwf) as (st & m & s1 & Hg & W1 & S1 & N1 & Ho & Hok).
  specialize (Hok Hp Hq1 Hq2). assert (st = query_modules.1.1 /\ modules m = modules loaded_modules)
    as [-> Hm].
  { by destruct Ho as [(_ & -> & _)|[(_ & _ & -> & _)|(_ & -> & _ & Hm & _)]]; cbn in Hok; try lia. }
  exists m, s1. split_and!; try done. by apply sends_refl.
Qed.

Lemma GetModuleInformationByName_found s driver_name name info :
  kernel_wf s -> queries_succeed ->
  FindSystemModuleByName driver_name (Some loaded_modules) = Some info ->
  exists s', GetModuleInformationByName driver_name name s
      = Ok ((query_modules.1.1, Some info), s') /\ kernel_wf s' /\ held s' = held s.
Proof.
  intros Hwf Hq Hf. destruct (module_query_succeeds s Hwf Hq) as (m & s1 & Hg & Ho & W1 & Hm & Hs & _).
  destruct (free_module_list_spec s s1 s1 _ m [] Ho Hs) as (s2 & Hfr & W2 & H2 & _).
  exists s2. split; [|done]. unfold GetModuleInformationByName.
  rewrite (KM_step _ _ _ _ _ Hg). cbn [default from_option id]. rewrite (qs_modules Hq). cbn [negb].
  rewrite (FindSystemModuleByName_modules _ _ _ Hm), Hf. by rewrite (KM_step _ _ _ _ _ Hfr).
Qed.

(** Copying the reply into a request that has been validated. *)
Lemma copy_reply irp io n bytes :
  irp_wf irp io -> zlen bytes = n -> 0 < n <= OutputBufferLength io ->
  let irp' := set_information n (set_buffer
    (replicate (Z.to_nat n) 0 ++ drop (Z.to_nat n) (SystemBuffer irp)) irp) in
  copy_to (SystemBuffer irp') bytes = Ok (bytes ++ drop (Z.to_nat n) (SystemBuffer irp)).
Proof.
  intros [Hs Hl Hb] Hn Ho. cbn. unfold zlen in *. rewrite copy_to_ok.
  - rewrite drop_app_length' by (rewrite length_replicate; lia). done.
  - rewrite length_app, length_replicate, length_drop. lia.
Qed.

Lemma take_region_buffer l n :
  take (Z.to_nat (zlen (packets l) + 8)) (region_buffer l n)
  = le_bytes 4 (zlen (executables l)) ++ le_bytes 4 (zlen (packets l) + 8) ++ packets l.
Proof.
  unfold region_buffer. rewrite !(assoc_L (++)). apply take_app_length'.
  rewrite !length_app, !length_le_bytes. unfold zlen. lia.
Qed.

End lemmas.

(** ** Properties *)

Section properties.
Context {P : Pool} {V : HandleApi} {H : HashApi} {A : SystemApi}.

(** What the request for the driver's sections finds: the queries succeed, the
    module is in the list, and its image has the sections [visited] before its
    last. *)
Record driver_image (driver_name : option string) (info : RTL_MODULE_EXTENDED_INFO)
  (visited : list section) : Prop := {
  di_queries : queries_succeed;
  di_info : FindSystemModuleByName driver_name (Some loaded_modules) = Some info;
  di_valid : ImageBase info <> 0 /\ MmIsAddressValid (ImageBase info) = true;
  di_size : 0 < ImageSize info /\ ImageSize info + 8 < 2 ^ 32;
  di_image : exists lfanew opt, image_at system_memory (ImageBase info) lfanew opt visited;
}.

(** C21: retrieving the driver's executable sections.  The reply to the client is
    a header with the number of executable sections among all sections but the
    last and the size of the reply, followed by the header and the raw data of
    each of those sections in order; it is given exactly when it fits the
    client's buffer, and then no resource is kept.  When none of these sections
    is executable the request fails and the pool block is lost, and when the
    sections with their headers are longer than the module they are written past
    the end of the block. *)
Theorem executable_sections_retrieved s driver_name irp io info visited :
  kernel_wf s -> driver_image driver_name info visited -> irp_wf irp io ->
  let size := zlen (packets visited) + 8 in
  if ImageSize info <? zlen (packets visited) then
    RetrieveInMemoryModuleExecutableSections driver_name (Some irp) s = Crash OutOfBounds
  else exists status irp' s',
    RetrieveInMemoryModuleExecutableSections driver_name (Some irp) s
      = Ok ((status, Some irp'), s') /\
    if negb (existsb executable visited) then
      status = STATUS_UNSUCCESSFUL /\ irp' = irp /\
      exists p, held s' = held s ⊎ {[+ Block p POOL_TAG_INTEGRITY +]}
    else held s' = held s /\
      if OutputBufferLength io <? size then status = STATUS_BUFFER_TOO_SMALL /\ irp' = irp
      else status = STATUS_SUCCESS /\ IoStatus_Information irp' = size /\
        SystemBuffer irp' = le_bytes 4 (zlen (executables visited)) ++ le_bytes 4 size ++
                            packets visited ++ drop (Z.to_nat size) (SystemBuffer irp).
Proof.
  intros Hwf [Hq Hf [Hb Hv] [Hn Hn8] (lf & opt & Him)] Hi size.
  destruct (GetModuleInformationByName_found s driver_name driver_name info Hwf Hq Hf)
    as (s1 & Hg & W1 & H1).
  unfold RetrieveInMemoryModuleExecutableSections. rewrite (KM_step _ _ _ _ _ Hg).
  rewrite (qs_modules Hq). cbn [negb default from_option id].
  pose proof (StoreModule_spec system_memory (ImageBase info) (ImageSize info) false lf opt visited
    s1 W1 Him Hb Hn Hn8 (qs_pool Hq _) ltac:(by rewrite Hv)) as Hst.
  destruct (Z.leb_spec (zlen (packets visited)) (ImageSize info)),
    (Z.ltb_spec (ImageSize info) (zlen (packets visited))); try lia.
  2: { unfold mbind, KM_bind. by rewrite Hst. }
  rewrite (KM_step _ _ _ _ _ Hst). destruct (existsb executable visited); cbn [negb].
  2: { change (NT_SUCCESS STATUS_UNSUCCESSFUL) with false. cbn [negb].
       eexists _, _, _. split; [done|]. split; [done|]. split; [done|]. eexists. cbn. by rewrite H1. }
  change (NT_SUCCESS STATUS_SUCCESS) with true. cbn [negb]. fold size.
  pose proof (zlen_nonneg (packets visited)).
  rewrite (ValidateIrpOutputBuffer_wf irp io size Hi) by lia. rewrite lift_step.
  destruct (Z.eqb_spec size 0); [lia|].
  destruct (Z.ltb_spec (OutputBufferLength io) size).
  - change (negb (NT_SUCCESS STATUS_BUFFER_TOO_SMALL)) with true. cbn iota.
    erewrite KM_step by done. unfold ExFreePoolWithTag. cbn [buf_address].
    erewrite KM_step by by eapply (release_last _ (held s1)).
    eexists _, _, _. split; [done|]. cbn. by split.
  - change (negb (NT_SUCCESS STATUS_SUCCESS)) with false. cbn iota. cbn [contents].
    erewrite KM_step.
    2: { unfold size. rewrite take_region_buffer, (copy_reply irp io size).
         - rewrite lift_step. done.
         - done.
         - unfold size. rewrite !zlen_app. unfold zlen at 1 3. rewrite !length_le_bytes. lia.
         - lia. }
    unfold ExFreePoolWithTag. cbn [buf_address].
    erewrite KM_step by by eapply (release_last _ (held s1)).
    eexists _, _, _. do 4 (split; [done|]).
    cbn [SystemBuffer set_buffer set_information]. by rewrite <- !(assoc_L (++)).
Qed.

(** Hashing a buffer.  The call never faults and succeeds exactly when it
    returns a hash, which is then the SHA-256 of the buffer in a block that
    belongs to the caller; everything else it acquired is given back.  It returns
    a hash whenever memory suffices and the provider's calls succeed.  When the
    hash object cannot be created or used, the block meant for the result is
    lost. *)
Theorem hash_block_ownership {HL : HashLaws H} s data :
  kernel_wf s ->
  exists status r n s', ComputeHashOfBuffer data s = Ok ((status, r, n), s') /\
    sent s' = sent s /\ NT_SUCCESS status = bool_decide (is_Some r) /\
    (can_start_hash -> finishes_hash = true -> is_Some r) /\
    match r with
    | Some b => contents b = sha256 data /\ n = SHA_256_HASH_LENGTH /\
        held s' = held s ⊎ {[+ Block (buf_address b) POOL_TAG_INTEGRITY +]}
    | None => (~ can_start_hash /\ held s' = held s) \/
        (finishes_hash = false /\
         exists p, held s' = held s ⊎ {[+ Block p POOL_TAG_INTEGRITY +]})
    end.
Proof.
  intros Hwf. destruct (ComputeHashOfBuffer_spec s data Hwf) as ([[st r] n] & s' & Hc & _ & Hs & Ho).
  exists st, r, n, s'. split; [done|]. split; [done|].
  inversion Ho as [? p F Hp Hf Hh|? F Hh Hc'|? p F Hh Hf]; subst; rewrite F.
  - split; [done|]. split; [done|]. done.
  - split; [done|]. split; [by intros ?%Hc'|]. by left.
  - split; [done|]. split; [congruence|]. right. split; [done|]. by exists p.
Qed.

(** A failing module query.  When the second query for the module list
    fails, the list routine reports STATUS_ABANDONED, which counts as success,
    and leaves the list empty; both requests then free the null pointer. *)
Theorem failed_query_frees_null s driver_name irp :
  kernel_wf s -> pool_grants (pool_requests s) = true ->
  NT_SUCCESS query_module_size.1 = true -> NT_SUCCESS query_modules.1.1 = false ->
  Block 0 SYSTEM_MODULES_POOL ∉ held s ->
  GetDriverImageSize driver_name irp s = Crash BadFree /\
  RetrieveInMemoryModuleExecutableSections driver_name irp s = Crash BadFree.
Proof.
  intros Hwf Hg Hq1 Hq2 Hb.
  destruct (GetSystemModuleInformation_spec s Hwf) as (st & m & s1 & Hq & _).
  destruct (query_abandoned s st m s1 Hwf Hg Hq1 Hq2 Hq) as (-> & -> & Hh).
  assert (FindSystemModuleByName driver_name (Some no_modules) = None) as Hf by by destruct driver_name.
  assert (ExFreePoolWithTag (address no_modules) SYSTEM_MODULES_POOL s1 = Crash BadFree) as Hc.
  { unfold ExFreePoolWithTag, release. rewrite decide_False; [done|]. by rewrite Hh. }
  unfold RetrieveInMemoryModuleExecutableSections, GetModuleInformationByName, GetDriverImageSize.
  unfold mbind, KM_bind. rewrite Hq. cbn [default from_option id].
  change (negb (NT_SUCCESS STATUS_ABANDONED)) with false. cbn iota. rewrite Hf, Hc. done.
Qed.

End properties.

(** ** Witnesses *)

(** A provider whose calls succeed; its hash is a checksum. *)
Definition sample_hash : HashApi := {|
  copy_failure := STATUS_INVALID_ADDRESS;
  BCryptOpenAlgorithmProvider := (STATUS_SUCCESS, 1);
  BCRYPT_OBJECT_LENGTH := (STATUS_SUCCESS, 0x100);
  BCRYPT_HASH_LENGTH := (STATUS_SUCCESS, 32);
  BCryptCreateHash := (STATUS_SUCCESS, 2);
  BCryptHashData := STATUS_SUCCESS;
  BCryptFinishHash := STATUS_SUCCESS;
  sha256 := fun data => replicate 32 (foldr Z.add 0 data mod 256);
|}.

Lemma sample_hash_laws : HashLaws sample_hash.
Proof. by split. Qed.

(** An image at 0x1000 with two sections, the first executable with four bytes
    of code. *)
Definition section_header (characteristics : Z) : list Z :=
  replicate 16 0 ++ le_bytes 4 4 ++ le_bytes 4 0xa8 ++ replicate 12 0 ++ le_bytes 4 characteristics.
Definition sample_image : list Z :=
  replicate 0x3c 0 ++ le_bytes 4 0x40 ++ replicate 6 0 ++ le_bytes 2 2 ++ replicate 16 0 ++
  section_header 0x60000020 ++ section_header 0x40000040 ++ [0x90; 0x90; 0x90; 0xc3].
Definition sample_section : section :=
  Section_ (section_header 0x60000020) 0x60000020 0xa8 [0x90; 0x90; 0x90; 0xc3].

Definition image_api (q : NTSTATUS) : SystemApi := {|
  query_module_size := (STATUS_SUCCESS, sizeof Structs.RTL_MODULE_EXTENDED_INFO);
  query_modules := (q, sizeof Structs.RTL_MODULE_EXTENDED_INFO, [ModuleInfo 0x1000 0x100 "ac.sys"]);
  MmGetSystemRoutineAddress := fun _ => 0;
  RtlGetVersion := (STATUS_SUCCESS, 19045);
  hal_routine := fun _ => 0;
  system_memory := mem_of 0x1000 sample_image;
|}.

Definition sample_request : IRP := Irp (Some (IoStack 0 64 0)) (replicate 64 7) 0 0.

Lemma sample_image_at :
  image_at (mem_of 0x1000 sample_image) 0x1000 0x40 0 [sample_section].
Proof.
  split; try reflexivity. intros [|i] s Hi; [|done]. injection Hi as <-. by split.
Qed.

Lemma sample_driver_image :
  driver_image (P := always_grants) (V := sample_handles) (A := image_api STATUS_SUCCESS)
    (Some "ac.sys"%string) (ModuleInfo 0x1000 0x100 "ac.sys") [sample_section].
Proof. split; try done. exists 0x40, 0. apply sample_image_at. Qed.

Lemma executable_sections_retrieved_witness :
  exists irp' s', RetrieveInMemoryModuleExecutableSections (P := always_grants)
      (V := sample_handles) (H := sample_hash) (A := image_api STATUS_SUCCESS)
      (Some "ac.sys"%string) (Some sample_request) idle_kernel = Ok ((STATUS_SUCCESS, Some irp'), s') /\
    SystemBuffer irp' = [1; 0; 0; 0; 52; 0; 0; 0] ++ section_header 0x60000020 ++
      [0x90; 0x90; 0x90; 0xc3] ++ replicate 12 7.
Proof.
  pose proof (executable_sections_retrieved (P := always_grants) (V := sample_handles)
    (H := sample_hash) (A := image_api STATUS_SUCCESS) idle_kernel (Some "ac.sys"%string)
    sample_request (IoStack 0 64 0) (ModuleInfo 0x1000 0x100 "ac.sys") [sample_section]) as T.
  destruct T as (st & irp' & s' & H1 & _ & -> & _ & Hb).
  - unfold kernel_wf. reflexivity.
  - exact sample_driver_image.
  - split; cbn; [reflexivity|lia|reflexivity].
  - exists irp', s'. split; [exact H1|exact Hb].
Defined.

Lemma hash_block_ownership_witness :
  exists status r n s', ComputeHashOfBuffer (P := always_grants) (H := sample_hash) [1; 2; 3]
      idle_kernel = Ok ((status, r, n), s') /\ contents <$> r = Some (replicate 32 6).
Proof.
  destruct (hash_block_ownership (P := always_grants) (H := sample_hash) (HL := sample_hash_laws)
    idle_kernel [1; 2; 3]) as (st & r & n & s' & H1 & _ & _ & Hr & Hm).
  - unfold kernel_wf. reflexivity.
  - exists st, r, n, s'. split; [exact H1|].
    destruct r as [b|]; [|destruct Hr as [? [=]]; [by split_and!|done]].
    cbn [fmap option_fmap option_map]. destruct Hm as [-> _]. reflexivity.
Defined.

Lemma failed_query_frees_null_witness :
  GetDriverImageSize (P := always_grants) (A := image_api STATUS_ACCESS_DENIED)
    (Some "ac.sys"%string) (Some sample_request) idle_kernel = Crash BadFree.
Proof.
  apply (failed_query_frees_null (P := always_grants) (V := sample_handles) (H := sample_hash)
    (A := image_api STATUS_ACCESS_DENIED)); try reflexivity.
  vm_compute. intros Hx. inversion Hx.
Defined.
