(* ===== verification/ModuleHash.v ===== *)
(** * integrity.c, callbacks.c: hashing a system module

    The hash of a module is the SHA-256 of its first executable section.  Images
    that can only be read in a process of the window system are read while
    attached to winlogon, found in the process list, and only once it has been
    started.  The state contains that of Callbacks.v, since the search walks the
    process list, and the driver list's own fields. *)

From stdpp Require Import gmultiset.
From S2P Require Import Prelude Layout Irp Structs Kernel Modules Session Handles Lists.
From S2P Require Import Callbacks Hashing.

(** ** Data *)

Definition POOL_TAG_DRIVER_LIST : Z := 0x6472766c.

Record DRIVER_LIST_ENTRY := DriverEntry {
  entry_base : Z;
  entry_size : Z;
  hashed : bool;
  x86 : bool;
  path : string;
  text_hash : list Z;
}.

(** The state of Callbacks.v, the entries' fields by address, the [active]
    flag, the deferred list (its entries' addresses, first to last), the work
    item, and the number of entries asked of the pool. *)
Record drv_ext := DrvExt {
  cb : cb_ext;
  driver_entries : gmap Z DRIVER_LIST_ENTRY;
  driver_active : bool;
  deferred_list : list Z;
  deferred_work_item : Z;
  driver_requests : nat;
}.

Abbreviation M := (KM (lstate drv_ext)).

Definition update (f : drv_ext -> drv_ext) : M unit :=
  modify (fun st => set_ext (f (ext st)) st).

Definition set_cb (c : cb_ext) (x : drv_ext) : drv_ext :=
  DrvExt c (driver_entries x) (driver_active x) (deferred_list x) (deferred_work_item x)
    (driver_requests x).
Definition set_driver_entries (m : gmap Z DRIVER_LIST_ENTRY) (x : drv_ext) : drv_ext :=
  DrvExt (cb x) m (driver_active x) (deferred_list x) (deferred_work_item x) (driver_requests x).
Definition set_driver_active (b : bool) (x : drv_ext) : drv_ext :=
  DrvExt (cb x) (driver_entries x) b (deferred_list x) (deferred_work_item x) (driver_requests x).
Definition set_deferred (l : list Z) (x : drv_ext) : drv_ext :=
  DrvExt (cb x) (driver_entries x) (driver_active x) l (deferred_work_item x) (driver_requests x).
Definition set_work_item (w : Z) (x : drv_ext) : drv_ext :=
  DrvExt (cb x) (driver_entries x) (driver_active x) (deferred_list x) w (driver_requests x).
Definition count_driver (x : drv_ext) : drv_ext :=
  DrvExt (cb x) (driver_entries x) (driver_active x) (deferred_list x) (deferred_work_item x)
    (S (driver_requests x)).
Definition set_can_hash (b : bool) (c : cb_ext) : cb_ext :=
  CbExt (sys c) (process_entries c) (thread_entries c) (process_active c) (thread_active c)
    b (hashing_queued c) (lookaside_requests c) (deleted c).

(** [GetDriverList()], the pool as the source of list entries, work items,
    strings, and the memory a process sees. *)
Class DriverApi := {
  driver_head : Z;
  driver_lock : Z;
  entry_block : nat -> gset Z -> option Z;
  deferred_item : Z;
  RtlAnsiStringToUnicodeString : string -> NTSTATUS * Z;
  RtlUnicodeStringToAnsiString : string -> NTSTATUS * Z;
  process_memory : Z -> memory;
}.

Class DriverLaws (D : DriverApi) : Prop := {
  entry_fresh n used a : entry_block n used = Some a -> a <> 0 /\ a ∉ used;
  unicode_buffer s : NT_SUCCESS (RtlAnsiStringToUnicodeString s).1 = true ->
    (RtlAnsiStringToUnicodeString s).2 <> 0;
}.

Section operations.
Context {P : Pool} {A : SystemApi} {V : HandleApi} {H : HashApi} {G : ListHeads} {D : DriverApi}.

(** ** Services *)

Definition on_cb {X} (m : KM (lstate cb_ext) X) : M X := fun st =>
  match m (LState (next st) (Lists.held st) (frees st) (cb (ext st))) with
  | Ok (x, s) => Ok (x, LState (next s) (Lists.held s) (frees s) (set_cb (ext s) (ext st)))
  | Crash f => Crash f
  end.

Definition in_kernel {X} (m : KM kernel X) : M X := on_cb (on_sys (on_kernel m)).

(** ** Hashing a module *)

(** The callback of the search for winlogon; [*Context] is the process found. *)
Definition FindWinLogonProcess (Entry : Z) (process_ : Z) : KM (lstate cb_ext) Z :=
  e ← read_entry process_entries Entry;
  process_name ← on_sys (image_name (process e));
  mret (if String.eqb process_name "winlogon.exe" then process e else process_).

Definition StoreModuleExecutableRegionsx86 (Module : RTL_MODULE_EXTENDED_INFO)
  : M (NTSTATUS * option buffer * Z) :=
  process_ ← on_cb (EnumerateProcessListWithCallbackRoutine (Some FindWinLogonProcess) 0);
  if process_ =? 0 then mret (STATUS_NOT_FOUND, None, 0)
  else
    in_kernel (acquire (AttachedProcess process_)) ≫= fun _ =>
    r ← in_kernel (StoreModuleExecutableRegionsInBuffer (process_memory process_)
          (ImageBase Module) (ImageSize Module) true);
    in_kernel (release (AttachedProcess process_)) ≫= fun _ =>
    mret r.

(** [RtlInitAnsiString] looks for the terminator of the path. *)
Definition RtlInitAnsiString (s : string) : res unit :=
  if Z.of_nat (String.length s) <? MAX_MODULE_PATH then Ok tt else Crash OutOfBounds.

Definition VAL_INTEGRITY_HEADER : cty := St
  [("integrity_check_header", INTEGRITY_CHECK_HEADER); ("section_header", IMAGE_SECTION_HEADER)].

(** [section_header.SizeOfRawData] of the buffer. *)
Definition raw_size (b : option buffer) : res Z :=
  match b with
  | None => Crash NullDereference
  | Some b => load_field (mem_of 0 (contents b)) IMAGE_SECTION_HEADER
      (offsetof VAL_INTEGRITY_HEADER "section_header") "SizeOfRawData" 4
  end.

(** [section_base] of the buffer, as long as [SizeOfRawData] says: the bytes that
    are hashed. *)
Definition first_section (b : option buffer) : res (list Z) :=
  n ← raw_size b;
  match b with
  | None => Crash NullDereference
  | Some b => read_bytes (mem_of 0 (contents b)) (sizeof VAL_INTEGRITY_HEADER) (Z.to_nat n)
  end.

(** The label [end] of [HashModule]. *)
Definition hash_module_end (memory_buffer memory_hash : option buffer) (path : Z) : KM kernel unit :=
  match memory_buffer with
  | Some b => ExFreePoolWithTag (buf_address b) POOL_TAG_INTEGRITY
  | None => mret tt
  end ≫= fun _ =>
  match memory_hash with
  | Some b => ExFreePoolWithTag (buf_address b) POOL_TAG_INTEGRITY
  | None => mret tt
  end ≫= fun _ =>
  when (negb (path =? 0)) (release (StringBuffer path)).

(** The part of [HashModule] after the sections have been copied. *)
Definition hash_sections (memory_buffer : option buffer) (path : Z) (Hash : list Z)
  : M (NTSTATUS * list Z) :=
  data ← lift (first_section memory_buffer);
  '(status, memory_hash, memory_hash_size) ← in_kernel (ComputeHashOfBuffer data);
  if negb (NT_SUCCESS status) then
    in_kernel (hash_module_end memory_buffer memory_hash path) ≫= fun _ => mret (status, Hash)
  else
    match memory_hash with
    | None => crash NullDereference
    | Some h =>
        Hash ← lift (copy_to Hash (take (Z.to_nat memory_hash_size) (contents h)));
        in_kernel (hash_module_end memory_buffer memory_hash path) ≫= fun _ =>
        mret (status, Hash)
    end.

(** The status and the contents of [Hash]. *)
Definition HashModule (Module : RTL_MODULE_EXTENDED_INFO) (Hash : list Z) : M (NTSTATUS * list Z) :=
  _ ← lift (RtlInitAnsiString (FullPathName Module));
  let '(status, path) := RtlAnsiStringToUnicodeString (FullPathName Module) in
  if negb (NT_SUCCESS status) then
    in_kernel (hash_module_end None None 0) ≫= fun _ => mret (status, Hash)
  else
    in_kernel (acquire (StringBuffer path)) ≫= fun _ =>
    can_hash ← gets (fun st => can_hash_x86 (cb (ext st)));
    if negb (MmIsAddressValid (ImageBase Module)) && negb can_hash then
      in_kernel (hash_module_end None None path) ≫= fun _ =>
      mret (STATUS_INVALID_IMAGE_WIN_32, Hash)
    else
      '(status, memory_buffer, _) ←
        (if negb (MmIsAddressValid (ImageBase Module)) && can_hash
         then StoreModuleExecutableRegionsx86 Module
         else in_kernel (StoreModuleExecutableRegionsInBuffer system_memory
                (ImageBase Module) (ImageSize Module) false));
      if negb (NT_SUCCESS status) then
        in_kernel (hash_module_end memory_buffer None path) ≫= fun _ => mret (status, Hash)
      else
        hash_sections memory_buffer path Hash.

End operations.

(** ** Specification *)

Definition x86_ok (st : lstate drv_ext) : bool := can_hash_x86 (cb (ext st)).
Definition kern (st : lstate drv_ext) : kernel := hkern (sys (cb (ext st))).
Definition set_kern (k : kernel) (st : lstate drv_ext) : lstate drv_ext :=
  let s := sys (cb (ext st)) in
  LState (next st) (Lists.held st) (frees st)
    (set_cb (set_sys (HState (hsession s) k (tables s) (config_mutex s)) (cb (ext st))) (ext st)).

Section specification.
Context {P : Pool} {A : SystemApi} {V : HandleApi} {H : HashApi} {G : ListHeads} {D : DriverApi}.

(** The process the search for winlogon finds: the last one of the list. *)
Definition winlogon (es : list PROCESS_LIST_ENTRY) : Z :=
  foldl (fun c e => if String.eqb (PsGetProcessImageFileName (Callbacks.process e)) "winlogon.exe"
                    then Callbacks.process e else c) 0 es.

(** The memory a module is read from. *)
Definition module_memory (info : RTL_MODULE_EXTENDED_INFO) (es : list PROCESS_LIST_ENTRY) : memory :=
  if MmIsAddressValid (ImageBase info) then system_memory else process_memory (winlogon es).

(** The module's image has the sections [visited] before its last, and they fit
    the buffer. *)
Record module_image (m : memory) (info : RTL_MODULE_EXTENDED_INFO) (visited : list section) : Prop := {
  mi_image : exists lfanew opt, image_at m (ImageBase info) lfanew opt visited;
  mi_base : ImageBase info <> 0;
  mi_size : 0 < ImageSize info /\ ImageSize info + 8 < 2 ^ 32;
  mi_fits : zlen (packets visited) <= ImageSize info;
}.

(** The module can be read now. *)
Definition reachable_image (can_hash_x86 : bool) (info : RTL_MODULE_EXTENDED_INFO)
  (es : list PROCESS_LIST_ENTRY) : Prop :=
  MmIsAddressValid (ImageBase info) = true \/ can_hash_x86 = true /\ winlogon es <> 0.

(** A module that can be read has the sections [visited]. *)
Definition module_ok (can_hash_x86 : bool) (info : RTL_MODULE_EXTENDED_INFO)
  (es : list PROCESS_LIST_ENTRY) (visited : list section) : Prop :=
  Z.of_nat (String.length (FullPathName info)) < MAX_MODULE_PATH /\
  (reachable_image can_hash_x86 info es -> module_image (module_memory info es) info visited).

(** The process list is intact and its mutex free. *)
Record hash_ready (st : lstate drv_ext) (es : list PROCESS_LIST_ENTRY) : Prop := {
  hr_list : exists pl, slist (next st) process_head pl /\
    entries_at (process_entries (cb (ext st))) pl es;
  hr_lock : process_lock ∉ Lists.held st;
  hr_processes : Forall (fun e => Callbacks.process e <> 0) es;
  hr_kernel : kernel_wf (kern st);
}.

(** No resource is given away, and none is kept, provided that hashes can be
    finished. *)
Record keeps (k k' : kernel) : Prop := {
  keeps_wf : kernel_wf k';
  keeps_sent : sent k' = sent k;
  keeps_held : exists extra, Kernel.held k' = Kernel.held k ⊎ extra /\
    (finishes_hash = true -> extra = ∅);
}.

(** The module can be hashed now. *)
Definition hashable (can_hash_x86 : bool) (info : RTL_MODULE_EXTENDED_INFO)
  (es : list PROCESS_LIST_ENTRY) (visited : list section) : Prop :=
  can_start_hash /\ finishes_hash = true /\
  NT_SUCCESS (RtlAnsiStringToUnicodeString (FullPathName info)).1 = true /\
  existsb executable visited = true /\ reachable_image can_hash_x86 info es.

(** ** Lemmas *)

Lemma in_kernel_ok {X} (m : KM kernel X) st x k :
  m (kern st) = Ok (x, k) -> in_kernel m st = Ok (x, set_kern k st).
Proof. intros E. unfold in_kernel, on_cb, on_sys, on_kernel. cbn. fold (kern st). by rewrite E. Qed.

Lemma in_kernel_step {X Y} (m : KM kernel X) (f : X -> M Y) st x k :
  m (kern st) = Ok (x, k) -> (in_kernel m ≫= f) st = f x (set_kern k st).
Proof. intros E. by erewrite KM_step by by apply in_kernel_ok. Qed.

Lemma kern_set_kern k st : kern (set_kern k st) = k.
Proof. done. Qed.
Lemma set_kern_idem k k' st : set_kern k (set_kern k' st) = set_kern k st.
Proof. done. Qed.

(** Reading back what was read. *)
Lemma load_read_bytes m : forall n a bs k j,
  read_bytes m a n = Ok bs -> (k + j <= n)%nat ->
  load (mem_of 0 bs) (Z.of_nat k) j = load m (a + Z.of_nat k) j.
Proof.
  intros n a bs k j Hr. revert k. induction j as [|j IH]; intros k Hk; [done|].
  cbn [load]. assert (mem_of 0 bs (Z.of_nat k) = m (a + Z.of_nat k)) as ->.
  { unfold mem_of. rewrite Z.sub_0_r, znth_of_nat. clear IH. revert a bs k Hr Hk.
    induction n as [|n IH]; intros a bs k Hr Hk; [lia|]. cbn in Hr.
    destruct (m a) as [b|] eqn:E; [|done]. destruct (read_bytes m (a + 1) n) as [l|] eqn:El; [|done].
    injection Hr as <-. destruct k as [|k]; [by rewrite Z.add_0_r, E|]. change ((b :: l) !! S k) with (l !! k).
    rewrite (IH (a + 1) l k El) by lia. f_equal. lia. }
  destruct (m (a + Z.of_nat k)); [|done].
  replace (Z.of_nat k + 1) with (Z.of_nat (S k)) by lia. rewrite IH by lia.
  by replace (a + Z.of_nat (S k)) with (a + Z.of_nat k + 1) by lia.
Qed.

(** Loading from the middle of a buffer. *)
Lemma load_app pre l post : forall j k,
  (k + j <= length l)%nat ->
  load (mem_of 0 (pre ++ l ++ post)) (zlen pre + Z.of_nat k) j = load (mem_of 0 l) (Z.of_nat k) j.
Proof.
  induction j as [|j IH]; intros k Hk; [done|]. cbn [load].
  assert (mem_of 0 (pre ++ l ++ post) (zlen pre + Z.of_nat k) = mem_of 0 l (Z.of_nat k)) as ->.
  { unfold mem_of, zlen. rewrite !Z.sub_0_r, <- Nat2Z.inj_add, !znth_of_nat.
    rewrite lookup_app_r by lia. replace (length pre + k - length pre)%nat with k by lia.
    apply lookup_app_l. lia. }
  destruct (mem_of 0 l (Z.of_nat k)); [|done].
  replace (zlen pre + Z.of_nat k + 1) with (zlen pre + Z.of_nat (S k)) by lia.
  rewrite IH by lia. by replace (Z.of_nat k + 1) with (Z.of_nat (S k)) by lia.
Qed.

Lemma read_bytes_app pre post : forall l,
  read_bytes (mem_of 0 (pre ++ l ++ post)) (zlen pre) (length l) = Ok l.
Proof.
  intros l. revert pre. induction l as [|x l IH]; intros pre; [done|]. cbn [length read_bytes].
  assert (mem_of 0 (pre ++ (x :: l) ++ post) (zlen pre) = Some x) as ->.
  { unfold mem_of, zlen. rewrite Z.sub_0_r, znth_of_nat. by apply list_lookup_middle. }
  specialize (IH (pre ++ [x])). rewrite zlen_app, <- (assoc_L (++)) in IH.
  change (zlen pre + zlen [x]) with (zlen pre + 1) in IH.
  change ([x] ++ l ++ post) with ((x :: l) ++ post) in IH. by rewrite IH.
Qed.

Lemma first_section_spec m info visited s rest p :
  module_image m info visited -> executables visited = s :: rest ->
  raw_size (Some (Buffer p (region_buffer visited (ImageSize info)))) = Ok (zlen (raw_data s)) /\
  first_section (Some (Buffer p (region_buffer visited (ImageSize info)))) = Ok (raw_data s).
Proof.
  intros [(lf & opt & Him) _ _ _] Hx.
  assert (s ∈ visited) as [i Hi]%list_elem_of_lookup.
  { assert (s ∈ executables visited) as Hs by (rewrite Hx; by left).
    unfold executables in Hs. by apply list_elem_of_filter in Hs as [_ ?]. }
  destruct (im_at _ _ _ _ _ Him i s Hi) as [Ah _ _ As_ _].
  set (a := _ + 40 * Z.of_nat i) in *.
  set (pre := le_bytes 4 (zlen (executables visited)) ++ le_bytes 4 (zlen (packets visited) + 8)).
  set (post := concat (packet <$> rest) ++
    replicate (Z.to_nat (ImageSize info - zlen (packets visited))) 0).
  assert (region_buffer visited (ImageSize info) = pre ++ header s ++ raw_data s ++ post) as ->.
  { unfold region_buffer, pre, post. unfold packets at 2. rewrite Hx. cbn [fmap list_fmap concat].
    unfold packet at 1. by rewrite <- !(assoc_L (++)). }
  assert (zlen pre = 8) as Hpre by (unfold pre, zlen; by rewrite length_app, !length_le_bytes).
  assert (zlen (header s) = 40) as Hh by (unfold zlen; by rewrite (read_bytes_length _ _ _ _ Ah)).
  unfold first_section, raw_size, load_field. cbn [contents].
  change (offsetof VAL_INTEGRITY_HEADER "section_header" + offsetof IMAGE_SECTION_HEADER "SizeOfRawData")
    with 24. change (sizeof VAL_INTEGRITY_HEADER) with 48.
  replace 24 with (zlen pre + Z.of_nat 16) by lia. rewrite load_app by (unfold zlen in Hh; lia).
  rewrite (load_read_bytes m 40 a) by (done || lia). unfold load_field in As_.
  change (offsetof IMAGE_SECTION_HEADER "SizeOfRawData") with (Z.of_nat 16) in As_. rewrite As_.
  cbn [mbind res_bind]. rewrite to_nat_zlen.
  replace 48 with (zlen (pre ++ header s)) by (rewrite zlen_app; lia).
  rewrite (assoc_L (++) pre). split; [done|]. apply read_bytes_app.
Qed.

(** The search for winlogon. *)
Lemma find_winlogon st es :
  hash_ready st es ->
  on_cb (EnumerateProcessListWithCallbackRoutine (Some FindWinLogonProcess) 0) st
  = Ok (winlogon es, st).
Proof.
  intros [(pl & Hs & He) HL Hp _]. unfold on_cb, EnumerateProcessListWithCallbackRoutine.
  rewrite (enumerate_pure _ process_head process_lock process_entries FindWinLogonProcess
    (fun c e => if String.eqb (PsGetProcessImageFileName (Callbacks.process e)) "winlogon.exe"
                then Callbacks.process e else c) (fun e => Callbacks.process e <> 0) pl es);
    [by destruct st as [? ? ? []]|done..|].
  intros q e c s Hq Hal Hf Hn. unfold FindWinLogonProcess.
  erewrite KM_step by by apply read_entry_ok. unfold on_sys.
  erewrite KM_step by by rewrite image_name_ok. by destruct s as [? ? ? []].
Qed.

(** What is returned by either way of copying the sections. *)
Definition store_outcome (k k' : kernel) (visited : list section) (n : Z)
  (r : NTSTATUS * option buffer * Z) : Prop :=
  (exists status, r = (status, None, 0) /\ NT_SUCCESS status = false /\
     Kernel.held k' = Kernel.held k) \/
  (exists p, r = (if existsb executable visited then STATUS_SUCCESS else STATUS_UNSUCCESSFUL,
                  Some (Buffer p (region_buffer visited n)), zlen (packets visited) + 8) /\
     Kernel.held k' = Kernel.held k ⊎ {[+ Block p POOL_TAG_INTEGRITY +]}).

Lemma store_cases m info visited b k :
  kernel_wf k -> module_image m info visited -> MmIsAddressValid (ImageBase info) || b = true ->
  exists r k', StoreModuleExecutableRegionsInBuffer m (ImageBase info) (ImageSize info) b k
      = Ok (r, k') /\ kernel_wf k' /\ sent k' = sent k /\
    store_outcome k k' visited (ImageSize info) r /\
    ((forall n, pool_grants n = true) -> exists p, r.1.2 = Some p).
Proof.
  intros Hwf [(lf & opt & Him) Hb [Hn Hn8] Hf] Hv.
  destruct (pool_grants (pool_requests k)) eqn:Hg.
  - rewrite (StoreModule_spec _ _ _ _ _ _ _ _ Hwf Him Hb Hn Hn8 Hg Hv).
    destruct (Z.leb_spec (zlen (packets visited)) (ImageSize info)); [|lia].
    eexists _, _. split; [done|]. split; [unfold kernel_wf in *; cbn; lia|]. split; [done|].
    split; [right; by eexists|]. intros _. by eexists.
  - unfold StoreModuleExecutableRegionsInBuffer.
    destruct (Z.eqb_spec (ImageBase info) 0), (Z.eqb_spec (ImageSize info) 0); try lia. cbn [orb].
    erewrite KM_step by (unfold ExAllocatePool2; by rewrite Hg). cbn [Z.eqb].
    eexists _, _. split; [done|]. split; [done|]. split; [done|]. split; [|congruence].
    left. by eexists.
Qed.

Lemma hash_ready_kern k st es : hash_ready st es -> kernel_wf k -> hash_ready (set_kern k st) es.
Proof. intros [? ? ? ?] Hk. by split. Qed.

Lemma store_module_spec st es info visited :
  hash_ready st es ->
  MmIsAddressValid (ImageBase info) || can_hash_x86 (cb (ext st)) = true ->
  (reachable_image (x86_ok st) info es -> module_image (module_memory info es) info visited) ->
  exists r k', (if negb (MmIsAddressValid (ImageBase info)) && can_hash_x86 (cb (ext st))
         then StoreModuleExecutableRegionsx86 info
         else in_kernel (StoreModuleExecutableRegionsInBuffer system_memory
                (ImageBase info) (ImageSize info) false)) st = Ok (r, set_kern k' st) /\
    kernel_wf k' /\ sent k' = sent (kern st) /\
    store_outcome (kern st) k' visited (ImageSize info) r /\
    (is_Some r.1.2 -> reachable_image (x86_ok st) info es) /\
    ((forall n, pool_grants n = true) -> reachable_image (x86_ok st) info es -> exists p, r.1.2 = Some p).
Proof.
  intros Hr Hv Hm. pose proof (hr_kernel _ _ Hr) as Hwf. unfold reachable_image, module_memory in *.
  destruct (MmIsAddressValid (ImageBase info)) eqn:Ev; cbn [negb andb orb] in *.
  { destruct (store_cases system_memory info visited false (kern st)) as (r & k & H1 & W & S & O & F);
      [done|by apply Hm; left|by rewrite Ev|].
    exists r, k. rewrite (in_kernel_ok _ _ _ _ H1). split_and!; try done; [by left|by intros; apply F]. }
  rewrite Hv. unfold StoreModuleExecutableRegionsx86.
  setoid_rewrite (KM_step _ _ _ _ _ (find_winlogon st es Hr)).
  destruct (Z.eqb_spec (winlogon es) 0).
  { eexists _, (kern st). split; [by destruct st as [? ? ? [[[] ? ? ? ? ? ? ? ?] ? ? ? ? ?]]|].
    split; [done|]. split; [done|]. split; [left; by eexists|]. split; [by intros []|]. by intros _ [|[]]. }
  set (k1 := set_held (Kernel.held (kern st) ⊎ {[+ AttachedProcess (winlogon es) +]}) (kern st)).
  destruct (store_cases (process_memory (winlogon es)) info visited true k1)
    as (r & k & H1 & W & S & O & F); [done|apply Hm; by right|by rewrite orb_true_r|].
  set (h := match r.1.2 with None => Kernel.held (kern st)
            | Some b => Kernel.held (kern st) ⊎ {[+ Block (buf_address b) POOL_TAG_INTEGRITY +]} end).
  exists r, (set_held h k). setoid_rewrite (in_kernel_step _ _ st tt k1); [|done].
  setoid_rewrite in_kernel_step; [|exact H1].
  assert (Kernel.held k = h ⊎ {[+ AttachedProcess (winlogon es) +]}) as Hh.
  { unfold h. destruct O as [(? & -> & _ & ->)|(? & -> & ->)]; unfold k1; cbn; clear; multiset_solver. }
  setoid_rewrite in_kernel_step; [|by apply release_last].
  split; [done|]. split; [done|]. split; [done|]. split; [|split; [by right|by intros; apply F]].
  unfold h. destruct O as [(? & -> & ? & _)|(? & -> & _)]; [left|right]; by eexists.
Qed.

(** The blocks and strings [HashModule] holds when it reaches [end]. *)
Definition opt_block (b : option buffer) : gmultiset resource :=
  match b with Some b => {[+ Block (buf_address b) POOL_TAG_INTEGRITY +]} | None => ∅ end.

Lemma opt_free_spec b h k :
  Kernel.held k = h ⊎ opt_block b ->
  match b with
  | Some b => ExFreePoolWithTag (buf_address b) POOL_TAG_INTEGRITY
  | None => mret tt
  end k = Ok (tt, set_held h k).
Proof.
  intros Hh. destruct b as [b|]; cbn in Hh; [by apply release_last|].
  rewrite (right_id_L ∅ (⊎)) in Hh. rewrite <- Hh. by destruct k.
Qed.

Lemma hash_module_end_spec mb mh path h k :
  path <> 0 -> Kernel.held k = h ⊎ {[+ StringBuffer path +]} ⊎ opt_block mb ⊎ opt_block mh ->
  hash_module_end mb mh path k = Ok (tt, set_held h k).
Proof.
  intros Hp Hh. unfold hash_module_end.
  assert (Kernel.held k = h ⊎ {[+ StringBuffer path +]} ⊎ opt_block mh ⊎ opt_block mb) as Hh'
    by (rewrite Hh; clear; multiset_solver).
  rewrite (KM_step _ _ _ _ _ (opt_free_spec mb _ k Hh')).
  erewrite KM_step by by apply (opt_free_spec mh (h ⊎ {[+ StringBuffer path +]})).
  destruct (Z.eqb_spec path 0); [done|]. cbn [negb when]. by rewrite (release_last _ h).
Qed.

Lemma keeps_refl k : kernel_wf k -> keeps k k.
Proof. split; [done..|]. exists ∅. by rewrite (right_id_L ∅ (⊎)). Qed.

Lemma keeps_trans k1 k2 k3 : keeps k1 k2 -> keeps k2 k3 -> keeps k1 k3.
Proof.
  intros [? S1 (x & Hx & Fx)] [? S2 (y & Hy & Fy)]. split; [done|congruence|].
  exists (x ⊎ y). rewrite Hy, Hx, (assoc_L (⊎)). split; [done|]. intros F. by rewrite Fx, Fy.
Qed.

Lemma keeps_all k k' : keeps k k' -> finishes_hash = true -> Kernel.held k' = Kernel.held k.
Proof. intros [_ _ (x & -> & Fx)] F. rewrite (Fx F). apply (right_id_L ∅ (⊎)). Qed.

(** Leaving [HashModule], with [extra] lost. *)
Lemma hash_module_leave {Y} st mb mh path k0 extra (r : Y) :
  path <> 0 -> kernel_wf (kern st) -> sent (kern st) = sent k0 ->
  Kernel.held (kern st)
    = Kernel.held k0 ⊎ extra ⊎ {[+ StringBuffer path +]} ⊎ opt_block mb ⊎ opt_block mh ->
  (finishes_hash = true -> extra = ∅) ->
  exists k, (in_kernel (hash_module_end mb mh path) ≫= fun _ => mret r) st = Ok (r, set_kern k st) /\
    keeps k0 k.
Proof.
  intros Hp W S Hh F. exists (set_held (Kernel.held k0 ⊎ extra) (kern st)).
  rewrite (in_kernel_step _ _ _ _ _ (hash_module_end_spec _ _ _ _ _ Hp Hh)). split; [done|].
  split; [done|done|]. by exists extra.
Qed.

(** The last part of [HashModule], once the sections have been copied. *)
Lemma hash_module_tail {HL : HashLaws H} st k0 p bytes path Hash data :
  path <> 0 -> kernel_wf (kern st) -> sent (kern st) = sent k0 ->
  Kernel.held (kern st) = Kernel.held k0 ⊎ {[+ StringBuffer path +]} ⊎ {[+ Block p POOL_TAG_INTEGRITY +]} ->
  zlen Hash = SHA_256_HASH_LENGTH -> first_section (Some (Buffer p bytes)) = Ok data ->
  exists status Hash' k,
    hash_sections (Some (Buffer p bytes)) path Hash st = Ok ((status, Hash'), set_kern k st) /\
    keeps k0 k /\
    (if NT_SUCCESS status then Hash' = sha256 data else Hash' = Hash) /\
    (can_start_hash -> finishes_hash = true -> NT_SUCCESS status = true).
Proof.
  intros Hp W S Hh Hz Hd. unfold hash_sections. rewrite Hd. setoid_rewrite lift_step.
  destruct (ComputeHashOfBuffer_spec (kern st) data W) as (r & k1 & H1 & W1 & S1 & O).
  setoid_rewrite (in_kernel_step _ _ _ _ _ H1).
  assert (length (sha256 data) = length Hash) as Hlen.
  { pose proof (sha256_length data) as E. unfold zlen in *. lia. }
  inversion O as [st1 q F Hq Hf Hk|st1 F Hk Hc|st1 q F Hk Hf]; subst r; cbn beta iota; rewrite F; cbn [negb].
  - cbn [contents]. rewrite take_ge by (pose proof (sha256_length data) as E; unfold zlen in E; lia).
    rewrite copy_to_ok by lia. rewrite Hlen, drop_all, app_nil_r. setoid_rewrite lift_step.
    destruct (hash_module_leave (set_kern k1 st) (Some (Buffer p bytes)) (Some (Buffer q (sha256 data)))
      path k0 ∅ (st1, sha256 data)) as (k & H2 & K2); try done.
    + cbn. congruence.
    + rewrite kern_set_kern, Hk, Hh. by rewrite (right_id_L ∅ (⊎)).
    + exists st1, (sha256 data), k. rewrite F. done.
  - destruct (hash_module_leave (set_kern k1 st) (Some (Buffer p bytes)) None path k0 ∅ (st1, Hash))
      as (k & H2 & K2); try done.
    + cbn. congruence.
    + rewrite kern_set_kern, Hk, Hh. cbn. clear. multiset_solver.
    + exists st1, Hash, k. rewrite F. split; [done|]. split; [done|]. split; [done|]. by intros ?%Hc.
  - destruct (hash_module_leave (set_kern k1 st) (Some (Buffer p bytes)) None path k0
      {[+ Block q POOL_TAG_INTEGRITY +]} (st1, Hash)) as (k & H2 & K2); try done.
    + cbn. congruence.
    + rewrite kern_set_kern, Hk, Hh. cbn. clear. multiset_solver.
    + congruence.
    + exists st1, Hash, k. rewrite F. split; [done|]. split; [done|]. split; [done|]. congruence.
Qed.

Lemma existsb_executables l :
  existsb executable l = true <-> exists s rest, executables l = s :: rest.
Proof.
  induction l as [|x l IH]; [split; [done|by intros (? & ? & ?)]|].
  rewrite executables_cons. cbn [existsb]. destruct (executable x); cbn [orb]; [|done].
  split; [eauto|done].
Qed.

(** The hash of the first executable section, unless there is none. *)
Definition section_hash (visited : list section) (h : list Z) : Prop :=
  exists s rest, executables visited = s :: rest /\ h = sha256 (raw_data s).

(** The part of [HashModule] from the copy of the sections on. *)
Lemma hash_module_body {HL : HashLaws H} st k0 es info visited path Hash :
  hash_ready st es ->
  MmIsAddressValid (ImageBase info) || can_hash_x86 (cb (ext st)) = true ->
  (reachable_image (x86_ok st) info es -> module_image (module_memory info es) info visited) ->
  path <> 0 -> sent (kern st) = sent k0 ->
  Kernel.held (kern st) = Kernel.held k0 ⊎ {[+ StringBuffer path +]} ->
  zlen Hash = SHA_256_HASH_LENGTH ->
  exists status Hash' k,
    ('(status, memory_buffer, _) ←
        (if negb (MmIsAddressValid (ImageBase info)) && can_hash_x86 (cb (ext st))
         then StoreModuleExecutableRegionsx86 info
         else in_kernel (StoreModuleExecutableRegionsInBuffer system_memory
                (ImageBase info) (ImageSize info) false));
      if negb (NT_SUCCESS status) then
        in_kernel (hash_module_end memory_buffer None path) ≫= fun _ => mret (status, Hash)
      else hash_sections memory_buffer path Hash) st = Ok ((status, Hash'), set_kern k st) /\
    keeps k0 k /\
    (if NT_SUCCESS status then section_hash visited Hash' /\ reachable_image (x86_ok st) info es
     else Hash' = Hash) /\
    (can_start_hash -> finishes_hash = true -> existsb executable visited = true ->
     reachable_image (x86_ok st) info es -> NT_SUCCESS status = true).
Proof.
  intros Hr Hv Hm Hp S Hh Hz.
  destruct (store_module_spec st es info visited Hr Hv Hm) as (r & k2 & H2 & W2 & S2 & O2 & R2 & F2).
  setoid_rewrite KM_step; [|exact H2]. destruct O2 as [(st2 & -> & E3 & H3)|(p & -> & H3)]; cbn beta iota.
  { rewrite E3. cbn [negb]. destruct (hash_module_leave (set_kern k2 st) None None path k0 ∅ (st2, Hash))
      as (k & H4 & K4); try done.
    - cbn. congruence.
    - rewrite kern_set_kern, H3, Hh. cbn. clear. multiset_solver.
    - exists st2, Hash, k. rewrite E3. split; [done|]. split; [done|]. split; [done|].
      intros (Hg & _) _ _ Hre. by destruct (F2 Hg Hre) as [b [=]]. }
  specialize (R2 ltac:(by eexists)). specialize (Hm R2).
  destruct (existsb executable visited) eqn:E4.
  2: { change (negb (NT_SUCCESS STATUS_UNSUCCESSFUL)) with true. cbn iota.
    destruct (hash_module_leave (set_kern k2 st) (Some (Buffer p (region_buffer visited (ImageSize info))))
      None path k0 ∅ (STATUS_UNSUCCESSFUL, Hash)) as (k & H4 & K4); try done.
    - cbn. congruence.
    - rewrite kern_set_kern, H3, Hh. cbn. clear. multiset_solver.
    - exists STATUS_UNSUCCESSFUL, Hash, k. split; [done|]. split; [done|]. by split. }
  change (negb (NT_SUCCESS STATUS_SUCCESS)) with false. cbn iota.
  apply existsb_executables in E4 as (s & rest & Ex).
  destruct (hash_module_tail (set_kern k2 st) k0 p (region_buffer visited (ImageSize info)) path Hash
    (raw_data s)) as (status & Hash' & k & H4 & K4 & R4 & F4); try done.
  - cbn. congruence.
  - by rewrite kern_set_kern, H3, Hh.
  - by eapply first_section_spec, Ex.
  - exists status, Hash', k. split; [exact H4|]. split; [done|]. split; [|auto].
    destruct (NT_SUCCESS status); [|done]. split; [|done]. by exists s, rest.
Qed.

Lemma HashModule_spec {HL : HashLaws H} {DL : DriverLaws D} st es info visited Hash :
  hash_ready st es -> module_ok (x86_ok st) info es visited -> zlen Hash = SHA_256_HASH_LENGTH ->
  exists status Hash' k, HashModule info Hash st = Ok ((status, Hash'), set_kern k st) /\
    keeps (kern st) k /\
    (if NT_SUCCESS status then section_hash visited Hash' /\ reachable_image (x86_ok st) info es
     else Hash' = Hash) /\
    (hashable (x86_ok st) info es visited -> NT_SUCCESS status = true).
Proof.
  intros Hr [Hlen Hm] Hz. unfold HashModule, RtlInitAnsiString, hashable.
  rewrite (proj2 (Z.ltb_lt _ _)) by done. setoid_rewrite lift_step.
  pose proof (unicode_buffer (FullPathName info)) as Hb.
  destruct (RtlAnsiStringToUnicodeString (FullPathName info)) as [st1 path].
  cbn [fst snd] in *. pose proof (hr_kernel _ _ Hr) as W.
  destruct (NT_SUCCESS st1) eqn:E1; cbn [negb].
  2: { setoid_rewrite in_kernel_step; [|done]. exists st1, Hash, (kern st). rewrite E1.
       split; [done|]. split; [by apply keeps_refl|]. split; [done|]. by intros (_ & _ & [=] & _). }
  specialize (Hb eq_refl). setoid_rewrite in_kernel_step; [|done].
  set (k1 := set_held (Kernel.held (kern st) ⊎ {[+ StringBuffer path +]}) (kern st)).
  setoid_rewrite KM_step; [|done].
  change (can_hash_x86 (cb (ext (set_kern k1 st)))) with (can_hash_x86 (cb (ext st))).
  destruct (negb (MmIsAddressValid (ImageBase info)) && negb (can_hash_x86 (cb (ext st)))) eqn:E2.
  { destruct (hash_module_leave (set_kern k1 st) None None path (kern st) ∅
      (STATUS_INVALID_IMAGE_WIN_32, Hash)) as (k & H2 & K2); try done.
    - cbn. clear. multiset_solver.
    - exists STATUS_INVALID_IMAGE_WIN_32, Hash, k. split; [done|]. split; [done|]. split; [done|].
      unfold reachable_image, x86_ok. apply andb_prop in E2 as [?%negb_true_iff ?%negb_true_iff].
      intuition congruence. }
  destruct (hash_module_body (set_kern k1 st) (kern st) es info visited path Hash)
    as (status & Hash' & k & H2 & K2 & R2 & F2); try done.
  - by apply hash_ready_kern.
  - cbn. by destruct (MmIsAddressValid _), (can_hash_x86 _).
  - exists status, Hash', k. split; [exact H2|]. split; [done|]. split; [done|].
    intros (? & ? & _ & ? & ?). by apply F2.
Qed.

End specification.
