(* ===== verification/DriverList.v ===== *)
(** * callbacks.c, integrity.c: the driver list and the hashes of its modules

    The driver keeps an entry for each loaded system module with the SHA-256 of
    its first executable section, taken when the list is built or when the module
    is loaded.  Images that can only be read in a process of the window system
    are hashed later, by a work item.  Verification hashes a module again and
    compares.  The list lives on the heap of Lists.v; the state contains that of
    Callbacks.v. *)

From stdpp Require Import gmultiset.
From S2P Require Import Prelude Layout Irp Structs Kernel Modules Session Handles Lists.
From S2P Require Import Callbacks Hashing ModuleHash.

Section operations.
Context {P : Pool} {A : SystemApi} {V : HandleApi} {H : HashApi} {G : ListHeads} {D : DriverApi}.

(** [ExAllocatePool2] of a list entry. *)
Definition allocate_entry : M Z := fun st =>
  let x := count_driver (ext st) in
  match entry_block (driver_requests (ext st)) (dom (next st)) with
  | Some a => Ok (a, LState (<[a := 0]> (next st)) (Lists.held st) (frees st) x)
  | None => Ok (0, set_ext x st)
  end.

Definition update_entry (p : Z) (f : DRIVER_LIST_ENTRY -> DRIVER_LIST_ENTRY) : M unit :=
  e ← read_entry driver_entries p;
  update (fun x => set_driver_entries (<[p := f e]> (driver_entries x)) x).

(** ** The list *)

Definition EnumerateDriverListWithCallbackRoutine {C}
  (CallbackRoutine : option (Z -> C -> M C)) (Context_ : C) : M C :=
  enumerate_list driver_head driver_lock CallbackRoutine Context_.

Definition FindDriverEntryByBaseAddress (ImageBase_ : Z) : M Z :=
  find_entry driver_head driver_lock
    (fun p => e ← read_entry driver_entries p; mret (entry_base e =? ImageBase_)).

Definition DriverListEntryToExtendedModuleInfo (e : DRIVER_LIST_ENTRY) : RTL_MODULE_EXTENDED_INFO :=
  ModuleInfo (entry_base e) (entry_size e) (path e).

(** What both producers of entries do with the status of [HashModule]. *)
Definition record_hash (entry : Z) (status : NTSTATUS) (hash : list Z) (defer : bool) : M unit :=
  update_entry entry (fun e =>
    DriverEntry (entry_base e) (entry_size e)
      (if (status =? STATUS_INVALID_IMAGE_WIN_32) || negb (NT_SUCCESS status) then false else hashed e)
      (if status =? STATUS_INVALID_IMAGE_WIN_32 then true else x86 e) (path e) hash) ≫= fun _ =>
  when ((status =? STATUS_INVALID_IMAGE_WIN_32) && defer)
    (update (fun x => set_deferred (entry :: deferred_list x) x)).

(** What both producers do with a new entry: fill it in, hash the module, link
    it. *)
Definition fill_entry (entry : Z) (module_ : RTL_MODULE_EXTENDED_INFO) (defer : bool) : M unit :=
  update (fun x => set_driver_entries (<[entry := DriverEntry (ImageBase module_)
    (ImageSize module_) true false (FullPathName module_)
    (replicate (Z.to_nat SHA_256_HASH_LENGTH) 0)]> (driver_entries x)) x) ≫= fun _ =>
  '(status, hash) ← HashModule module_ (replicate (Z.to_nat SHA_256_HASH_LENGTH) 0);
  record_hash entry status hash defer ≫= fun _ =>
  ListInsert driver_head entry driver_lock.

(** The body of the loop of [InitialiseDriverList]. *)
Definition add_module (module_entry : RTL_MODULE_EXTENDED_INFO) : M unit :=
  entry ← allocate_entry;
  if entry =? 0 then mret tt else fill_entry entry module_entry true.

Definition InitialiseDriverList : M NTSTATUS :=
  update (set_driver_active true) ≫= fun _ =>
  ListInit driver_head driver_lock ≫= fun _ =>
  update (set_deferred []) ≫= fun _ =>
  update (fun x => set_work_item deferred_item (set_cb (set_can_hash false (cb x)) x)) ≫= fun _ =>
  if deferred_item =? 0 then mret STATUS_INSUFFICIENT_RESOURCES
  else
    in_kernel (acquire (WorkItem deferred_item)) ≫= fun _ =>
    '(status, m) ← in_kernel (GetSystemModuleInformation (Some no_modules));
    if negb (NT_SUCCESS status) then mret status
    else
      let m := default no_modules m in
      mforeach add_module (drop 2 (modules m)) ≫= fun _ =>
      update (set_driver_active true) ≫= fun _ =>
      in_kernel (free_module_list m) ≫= fun _ =>
      mret STATUS_SUCCESS.

Record IMAGE_INFO := ImageInfo { SystemModeImage : bool; ImageInfo_Base : Z; ImageInfo_Size : Z }.

(** The path of a new image, empty when it is unknown or does not fit. *)
Definition image_path (FullImageName : option string) : M string :=
  match FullImageName with
  | None => mret ""%string
  | Some name =>
      let '(status, buf) := RtlUnicodeStringToAnsiString name in
      if negb (NT_SUCCESS status) then mret ""%string
      else
        in_kernel (acquire (StringBuffer buf)) ≫= fun _ =>
        in_kernel (release (StringBuffer buf)) ≫= fun _ =>
        mret (if MAX_MODULE_PATH <? Z.of_nat (String.length name) then ""%string else name)
  end.

Definition ImageLoadNotifyRoutineCallback (FullImageName : option string) (Info : IMAGE_INFO)
  : M unit :=
  active ← gets (fun st => driver_active (ext st));
  if negb active then mret tt
  else if negb (SystemModeImage Info) then mret tt
  else
    entry ← FindDriverEntryByBaseAddress (ImageInfo_Base Info);
    if negb (entry =? 0) then mret tt
    else
      entry ← allocate_entry;
      if entry =? 0 then mret tt
      else
        name ← image_path FullImageName;
        fill_entry entry (ModuleInfo (ImageInfo_Base Info) (ImageInfo_Size Info) name) false.

(** ** Deferred hashing *)

Definition RemoveHeadDeferred : M (option Z) := fun st =>
  match deferred_list (ext st) with
  | [] => Ok (None, st)
  | p :: l => Ok (Some p, set_ext (set_deferred l (ext st)) st)
  end.

Fixpoint deferred_loop (fuel : nat) (list_entry : option Z) : M unit :=
  match fuel with
  | O => crash OutOfFuel
  | S fuel =>
      match list_entry with
      | None => mret tt
      | Some entry =>
          e ← read_entry driver_entries entry;
          '(status, hash) ← HashModule (DriverListEntryToExtendedModuleInfo e) (text_hash e);
          update_entry entry (fun e => DriverEntry (entry_base e) (entry_size e)
            (NT_SUCCESS status) (x86 e) (path e) hash) ≫= fun _ =>
          list_entry ← RemoveHeadDeferred;
          deferred_loop fuel list_entry
      end
  end.

Definition DeferredModuleHashingCallback : M unit :=
  fuel ← gets (fun st => S (length (deferred_list (ext st))));
  list_entry ← RemoveHeadDeferred;
  deferred_loop fuel list_entry ≫= fun _ =>
  w ← gets (fun st => deferred_work_item (ext st));
  in_kernel (release (WorkItem w)).

(** ** Verification *)

(** The result is the verdict logged: valid or not, [None] when nothing was
    compared. *)
Definition ValidateSystemModule (Module : RTL_MODULE_EXTENDED_INFO) : M (option bool) :=
  hash ← in_kernel (ExAllocatePool2 SHA_256_HASH_LENGTH POOL_TAG_INTEGRITY);
  if hash =? 0 then mret None
  else
    entry ← FindDriverEntryByBaseAddress (ImageBase Module);
    verdict ← (if entry =? 0 then mret None
               else
                 '(status, h) ← HashModule Module (replicate (Z.to_nat SHA_256_HASH_LENGTH) 0);
                 if negb (NT_SUCCESS status) then mret None
                 else
                   e ← read_entry driver_entries entry;
                   v ← lift (CompareHashes h (text_hash e) SHA_256_HASH_LENGTH);
                   mret (Some v));
    in_kernel (ExFreePoolWithTag hash POOL_TAG_INTEGRITY) ≫= fun _ =>
    mret verdict.

(** The part of [ValidateOurDriverImage] between the module list and its
    release: the status so far, and the verdict logged. *)
Definition validate_driver_module (driver_name : option string) (m : SYSTEM_MODULES)
  (status : NTSTATUS) : M (NTSTATUS * option bool * Z) :=
  match FindSystemModuleByName driver_name (Some m) with
  | None => mret (status, None, 0)
  | Some module_info =>
      memory_hash ← in_kernel (ExAllocatePool2 SHA_256_HASH_LENGTH POOL_TAG_INTEGRITY);
      if memory_hash =? 0 then mret (status, None, 0)
      else
        entry ← FindDriverEntryByBaseAddress (ImageBase module_info);
        if entry =? 0 then mret (status, None, memory_hash)
        else
          e ← read_entry driver_entries entry;
          if negb (hashed e) then mret (STATUS_HASH_NOT_PRESENT, None, memory_hash)
          else
            '(status, h) ← HashModule module_info (replicate (Z.to_nat SHA_256_HASH_LENGTH) 0);
            if negb (NT_SUCCESS status) then mret (status, None, memory_hash)
            else
              e ← read_entry driver_entries entry;
              v ← lift (CompareHashes h (text_hash e) SHA_256_HASH_LENGTH);
              mret (status, Some v, memory_hash)
  end.

Definition ValidateOurDriverImage (driver_name : option string) : M (NTSTATUS * option bool) :=
  '(status, m) ← in_kernel (GetSystemModuleInformation (Some no_modules));
  if negb (NT_SUCCESS status) then mret (status, None)
  else
    let m := default no_modules m in
    '(status, verdict, memory_hash) ← validate_driver_module driver_name m status;
    in_kernel (when (negb (memory_hash =? 0)) (ExFreePoolWithTag memory_hash POOL_TAG_INTEGRITY))
      ≫= fun _ =>
    in_kernel (free_module_list m) ≫= fun _ =>
    mret (status, verdict).

(** ** Unload *)

Definition UnregisterImageLoadNotifyRoutine : M unit := update (set_driver_active false).

Definition CleanupDriverListOnDriverUnload : M unit :=
  fuel ← gets (fun st => size (next st));
  free_all fuel (ByTag POOL_TAG_THREAD_LIST) driver_head driver_lock None.

End operations.

(** ** Invariant *)

Section invariant.
Context {P : Pool} {A : SystemApi} {V : HandleApi} {H : HashApi} {G : ListHeads} {D : DriverApi}.

(** The driver list links the entries [dl] with the fields [es]; the process
    list is intact and apart from it. *)
Record drivers (st : lstate drv_ext) (dl : list Z) (es : list DRIVER_LIST_ENTRY)
  (pl : list Z) (pes : list PROCESS_LIST_ENTRY) : Prop := {
  dr_list : slist (next st) driver_head dl;
  dr_entries : entries_at (driver_entries (ext st)) dl es;
  dr_lock : driver_lock ∉ Lists.held st;
  dr_plist : slist (next st) process_head pl;
  dr_pentries : entries_at (process_entries (cb (ext st))) pl pes;
  dr_plock : process_lock ∉ Lists.held st;
  dr_processes : Forall (fun e => Callbacks.process e <> 0) pes;
  dr_apart : forall x, x ∈ driver_head :: dl -> x ∉ process_head :: pl;
  dr_kernel : kernel_wf (kern st);
}.

(** The entry for a module with the sections [visited]. *)
Record entry_for (info : RTL_MODULE_EXTENDED_INFO) (visited : list section) (e : DRIVER_LIST_ENTRY)
  : Prop := {
  ef_base : entry_base e = ImageBase info;
  ef_size : entry_size e = ImageSize info;
  ef_path : path e = FullPathName info;
  ef_hash : if hashed e then section_hash visited (text_hash e)
            else text_hash e = replicate (Z.to_nat SHA_256_HASH_LENGTH) 0;
  ef_x86 : x86 e = true -> hashed e = false;
}.

(** What a run leaves alone besides the list. *)
Record same_config (st st' : lstate drv_ext) : Prop := {
  sc_active : driver_active (ext st') = driver_active (ext st);
  sc_x86 : x86_ok st' = x86_ok st;
  sc_item : deferred_work_item (ext st') = deferred_work_item (ext st);
  sc_kernel : keeps (kern st) (kern st');
}.

Lemma same_config_trans s1 s2 s3 : same_config s1 s2 -> same_config s2 s3 -> same_config s1 s3.
Proof.
  intros [A1 B1 C1 D1] [A2 B2 C2 D2]. split; [congruence..|]. by eapply keeps_trans.
Qed.

Lemma drivers_ready st dl es pl pes : drivers st dl es pl pes -> hash_ready st pes.
Proof. intros [? ? ? ? ? ? ? ? ?]. split; [by exists pl|done..]. Qed.

Lemma drivers_kern k st dl es pl pes :
  drivers st dl es pl pes -> kernel_wf k -> drivers (set_kern k st) dl es pl pes.
Proof. intros [? ? ? ? ? ? ? ? ?] Hk. by split. Qed.

Lemma entries_insert_other {T} (m : gmap Z T) l xs p e :
  entries_at m l xs -> p ∉ l -> entries_at (<[p := e]> m) l xs.
Proof. intros Hm Hp. by apply (entries_insert m l xs p e Hm), Forall2_cons in Hp as [_ ?]. Qed.

Lemma allocate_drivers {DL : DriverLaws D} st dl es pl pes :
  drivers st dl es pl pes ->
  exists p st', allocate_entry st = Ok (p, st') /\ drivers st' dl es pl pes /\
    same_config st st' /\ deferred_list (ext st') = deferred_list (ext st) /\
    ((forall n used, is_Some (entry_block n used)) -> p <> 0) /\
    (p <> 0 -> p ∉ driver_head :: dl /\ p ∉ process_head :: pl /\ is_Some (next st' !! p)).
Proof.
  intros [Hd ? ? Hp ? ? ? ? Hk]. unfold allocate_entry.
  assert (forall st', driver_active (ext st') = driver_active (ext st) -> x86_ok st' = x86_ok st ->
    deferred_work_item (ext st') = deferred_work_item (ext st) -> kern st' = kern st ->
    same_config st st') as Hsame.
  { intros st' ? ? ? E. split; try done. rewrite E. by apply keeps_refl. }
  destruct (entry_block _ _) as [p|] eqn:E.
  - destruct (entry_fresh _ _ _ E) as [Hp0 Hf].
    assert (forall h l, slist (next st) h l -> p ∉ h :: l) as Hni.
    { intros h l [Hc _ _] Hin. apply Hf, elem_of_dom. by eapply chain_dom. }
    eexists _, _. split; [done|]. split.
    { split; try done; cbn.
      - pose proof (Hni _ _ Hd). destruct Hd; split; try done. by apply chain_insert.
      - pose proof (Hni _ _ Hp). destruct Hp; split; try done. by apply chain_insert. }
    split; [by apply Hsame|]. split; [done|]. split; [done|]. intros _.
    split; [by apply Hni|]. split; [by apply Hni|]. cbn. rewrite lookup_insert_eq. by eexists.
  - eexists 0, _. split; [done|]. split; [by split|]. split; [by apply Hsame|]. split; [done|].
    split; [|done]. intros Hg. destruct (Hg (driver_requests (ext st)) (dom (next st))). congruence.
Qed.

Lemma search_driver st dl es pl pes base :
  drivers st dl es pl pes ->
  FindDriverEntryByBaseAddress base st
  = Ok (first_address (fun e => entry_base e =? base) dl es, st).
Proof. intros Hd. apply find_entry_spec; apply Hd. Qed.

Lemma update_entry_ok st p e f :
  p <> 0 -> is_Some (next st !! p) -> driver_entries (ext st) !! p = Some e ->
  update_entry p f st
  = Ok (tt, set_ext (set_driver_entries (<[p := f e]> (driver_entries (ext st))) (ext st)) st).
Proof. intros ? ? ?. unfold update_entry. by erewrite KM_step by by apply read_entry_ok. Qed.

(** The fields after hashing. *)
Definition recorded (status : NTSTATUS) (hash : list Z) (e : DRIVER_LIST_ENTRY) : DRIVER_LIST_ENTRY :=
  DriverEntry (entry_base e) (entry_size e)
    (if (status =? STATUS_INVALID_IMAGE_WIN_32) || negb (NT_SUCCESS status) then false else hashed e)
    (if status =? STATUS_INVALID_IMAGE_WIN_32 then true else x86 e) (path e) hash.

Lemma record_hash_ok st p e status hash defer :
  p <> 0 -> is_Some (next st !! p) -> driver_entries (ext st) !! p = Some e ->
  record_hash p status hash defer st
  = Ok (tt, set_ext (set_deferred
        ((if (status =? STATUS_INVALID_IMAGE_WIN_32) && defer then [p] else []) ++ deferred_list (ext st))
        (set_driver_entries (<[p := recorded status hash e]> (driver_entries (ext st))) (ext st))) st).
Proof.
  intros ? ? ?. unfold record_hash. erewrite KM_step by by apply update_entry_ok.
  destruct ((status =? STATUS_INVALID_IMAGE_WIN_32) && defer); [done|].
  by destruct st as [? ? ? []].
Qed.

Lemma fill_entry_spec {HL : HashLaws H} {DL : DriverLaws D} st dl es pl pes p info visited defer :
  drivers st dl es pl pes -> module_ok (x86_ok st) info pes visited ->
  p <> 0 -> p ∉ driver_head :: dl -> p ∉ process_head :: pl -> is_Some (next st !! p) ->
  exists e st', fill_entry p info defer st = Ok (tt, st') /\
    drivers st' (p :: dl) (e :: es) pl pes /\ same_config st st' /\ entry_for info visited e /\
    deferred_list (ext st') = (if x86 e && defer then [p] else []) ++ deferred_list (ext st) /\
    (hashable (x86_ok st) info pes visited -> hashed e = true).
Proof.
  intros Hd Hm Hp Hpd Hpp Hal. unfold fill_entry.
  set (e0 := DriverEntry (ImageBase info) (ImageSize info) true false (FullPathName info)
    (replicate (Z.to_nat SHA_256_HASH_LENGTH) 0)).
  set (st1 := set_ext (set_driver_entries (<[p := e0]> (driver_entries (ext st))) (ext st)) st).
  setoid_rewrite (KM_step _ _ st tt st1); [|done].
  assert (hash_ready st1 pes) as Hr by (destruct (drivers_ready _ _ _ _ _ Hd); by split).
  destruct (HashModule_spec st1 pes info visited (replicate (Z.to_nat SHA_256_HASH_LENGTH) 0) Hr Hm)
    as (status & h & k & H1 & K1 & R1 & F1); [done|].
  setoid_rewrite (KM_step _ _ _ _ _ H1). cbn beta iota.
  setoid_rewrite KM_step; [|by apply (record_hash_ok _ p e0); [..|cbn; rewrite lookup_insert_eq]].
  set (st2 := set_ext _ _). destruct Hd as [Hdl Hde Hdk Hpl Hpe Hpk Hps Hap Hk].
  destruct (ListInsert_spec st2 driver_head driver_lock dl p) as (nx & H2 & S2 & A2); [done..|].
  exists (recorded status h e0). eexists. split; [exact H2|]. split; [|split_and!].
  - split; try done.
    + cbn. rewrite insert_insert_eq. apply entries_insert; [done|]. set_solver.
    + destruct Hpl as [Hc ? ?]. split; try done. apply (chain_agree _ _ _ _ Hc). intros x Hx.
      apply A2; intros ->; [apply (Hap driver_head); [by left|done]|done].
    + intros x [->|[->|Hx]%elem_of_cons]%elem_of_cons; [apply Hap; by left|done|].
      apply Hap. by right.
    + apply K1.
  - by split.
  - split; try done; cbn.
    + destruct (Z.eqb_spec status STATUS_INVALID_IMAGE_WIN_32) as [->|]; [done|].
      destruct (NT_SUCCESS status); cbn; [apply R1|done].
    + by destruct (status =? STATUS_INVALID_IMAGE_WIN_32).
  - cbn. by destruct (status =? STATUS_INVALID_IMAGE_WIN_32).
  - intros Hh. cbn. specialize (F1 Hh). rewrite F1.
    by destruct (Z.eqb_spec status STATUS_INVALID_IMAGE_WIN_32) as [->|].
Qed.

Lemma first_address_zero {T} (nx : gmap Z Z) (m : gmap Z T) test : forall l es p,
  chain nx p l -> entries_at m l es ->
  first_address test l es = 0 <-> Forall (fun e => test e = false) es.
Proof.
  induction l as [|q l IH]; intros es p Hc Hm.
  - by apply Forall2_nil_inv_l in Hm as ->.
  - apply Forall2_cons_inv_l in Hm as (e & es' & He & Hm & ->). destruct Hc as (_ & Hq & Hc).
    cbn [first_address]. rewrite Forall_cons. destruct (test e); [naive_solver|].
    rewrite (IH es' q Hc Hm). naive_solver.
Qed.

Lemma base_listed es base :
  Forall (fun e => (entry_base e =? base) = false) es <-> base ∉ entry_base <$> es.
Proof.
  rewrite list_elem_of_fmap, Forall_forall. setoid_rewrite Z.eqb_neq. naive_solver.
Qed.

(** ** Building the list *)

Context (world : Z -> list section).

(** The entry was made for one of the modules. *)
Definition made_for (can : bool) (pes : list PROCESS_LIST_ENTRY) (ms : list RTL_MODULE_EXTENDED_INFO)
  (e : DRIVER_LIST_ENTRY) : Prop :=
  exists info, info ∈ ms /\ entry_for info (world (ImageBase info)) e /\
    (hashable can info pes (world (ImageBase info)) -> hashed e = true).

(** The entries on the deferred list. *)
Definition x86_addresses (dl : list Z) (es : list DRIVER_LIST_ENTRY) : list Z :=
  (filter (fun x => x86 x.2 = true) (zip dl es)).*1.

Lemma x86_addresses_cons p dl e es :
  x86_addresses (p :: dl) (e :: es) = (if x86 e then [p] else []) ++ x86_addresses dl es.
Proof.
  unfold x86_addresses. cbn [zip zip_with]. rewrite filter_cons. cbn [snd].
  by destruct (x86 e); [rewrite decide_True|rewrite decide_False].
Qed.

Definition entries_granted : Prop := forall n used, is_Some (entry_block n used).

Lemma made_for_weaken can pes ms ms' e : ms ⊆ ms' -> made_for can pes ms e -> made_for can pes ms' e.
Proof. intros Hs (info & Hi & ? & ?). exists info. split; [by apply Hs|done]. Qed.

Lemma add_module_spec {HL : HashLaws H} {DL : DriverLaws D} st dl es pl pes info :
  drivers st dl es pl pes -> module_ok (x86_ok st) info pes (world (ImageBase info)) ->
  exists ps new st', add_module info st = Ok (tt, st') /\
    drivers st' (ps ++ dl) (new ++ es) pl pes /\ same_config st st' /\
    length ps = length new /\ deferred_list (ext st') = x86_addresses ps new ++ deferred_list (ext st) /\
    Forall (made_for (x86_ok st) pes [info]) new /\
    (entry_base <$> new) `sublist_of` [ImageBase info] /\
    (entries_granted -> entry_base <$> new = [ImageBase info]).
Proof.
  intros Hd Hm. unfold add_module.
  destruct (allocate_drivers st dl es pl pes Hd) as (p & st1 & H1 & D1 & C1 & Q1 & G1 & F1).
  setoid_rewrite (KM_step _ _ _ _ _ H1). destruct (Z.eqb_spec p 0) as [->|Hp].
  - exists [], [], st1. split; [done|]. split; [done|]. split; [done|]. split; [done|]. split; [done|].
    split; [constructor|]. split; [apply sublist_nil_l|]. by intros ?%G1.
  - destruct (F1 Hp) as (F2 & F3 & F4). rewrite <- (sc_x86 _ _ C1) in Hm.
    destruct (fill_entry_spec st1 dl es pl pes p info _ true D1 Hm Hp F2 F3 F4)
      as (e & st2 & H2 & D2 & C2 & E2 & Q2 & Hh).
    exists [p], [e], st2. split; [exact H2|]. split; [done|]. split; [by eapply same_config_trans|].
    split; [done|]. rewrite x86_addresses_cons, Q2, Q1, andb_true_r. change (x86_addresses [] []) with (@nil Z).
    rewrite app_nil_r. split; [done|]. rewrite (sc_x86 _ _ C1) in Hh. split.
    { constructor; [|constructor]. exists info. split; [by left|done]. }
    cbn. rewrite (ef_base _ _ _ E2). done.
Qed.

Lemma add_modules_spec {HL : HashLaws H} {DL : DriverLaws D} pl pes ms : forall st dl es,
  drivers st dl es pl pes ->
  Forall (fun info => module_ok (x86_ok st) info pes (world (ImageBase info))) ms ->
  exists ps new st', mforeach add_module ms st = Ok (tt, st') /\
    drivers st' (ps ++ dl) (new ++ es) pl pes /\ same_config st st' /\
    length ps = length new /\ deferred_list (ext st') = x86_addresses ps new ++ deferred_list (ext st) /\
    Forall (made_for (x86_ok st) pes ms) new /\
    (entry_base <$> new) `sublist_of` reverse (ImageBase <$> ms) /\
    (entries_granted -> entry_base <$> new = reverse (ImageBase <$> ms)).
Proof.
  induction ms as [|info ms IH]; intros st dl es Hd Hm.
  { exists [], [], st. split; [done|]. split; [done|].
    split; [split; try done; by apply keeps_refl, Hd|]. done. }
  apply Forall_cons in Hm as [Hi Hm].
  destruct (add_module_spec st dl es pl pes info Hd Hi)
    as (ps1 & new1 & st1 & H1 & D1 & C1 & L1 & Q1 & M1 & B1 & G1).
  destruct (IH st1 _ _ D1) as (ps2 & new2 & st2 & H2 & D2 & C2 & L2 & Q2 & M2 & B2 & G2).
  { by rewrite (sc_x86 _ _ C1). }
  exists (ps2 ++ ps1), (new2 ++ new1), st2. cbn [mforeach]. rewrite (KM_step _ _ _ _ _ H1).
  rewrite !(assoc_L (++)) in *. split; [done|]. rewrite <- !(assoc_L (++)) in *. split; [done|].
  split; [by eapply same_config_trans|]. split; [rewrite !length_app; lia|]. split.
  { rewrite Q2, Q1. unfold x86_addresses. rewrite zip_with_app by done.
    by rewrite filter_app, fmap_app, <- (assoc_L (++)). }
  cbn [fmap list_fmap]. rewrite reverse_cons, fmap_app. split_and!.
  - apply Forall_app. rewrite (sc_x86 _ _ C1) in M2. split.
    + eapply Forall_impl; [exact M2|]. intros e. apply made_for_weaken. set_solver.
    + eapply Forall_impl; [exact M1|]. intros e. apply made_for_weaken. set_solver.
  - by apply sublist_app.
  - intros Hg. by rewrite (G1 Hg), (G2 Hg).
Qed.

(** Before the list is initialised. *)
Record no_drivers (st : lstate drv_ext) (pl : list Z) (pes : list PROCESS_LIST_ENTRY) : Prop := {
  nd_head : driver_head <> 0 /\ is_Some (next st !! driver_head);
  nd_lock : driver_lock ∉ Lists.held st;
  nd_plist : slist (next st) process_head pl;
  nd_pentries : entries_at (process_entries (cb (ext st))) pl pes;
  nd_plock : process_lock ∉ Lists.held st;
  nd_processes : Forall (fun e => Callbacks.process e <> 0) pes;
  nd_apart : driver_head ∉ process_head :: pl;
  nd_kernel : kernel_wf (kern st);
  nd_item : deferred_item <> 0;
}.

(** Giving back a resource after work that keeps the resources. *)
Lemma release_kept r k0 k1 k2 :
  Kernel.held k1 = Kernel.held k0 ⊎ {[+ r +]} -> sent k1 = sent k0 -> keeps k1 k2 ->
  exists k3, release r k2 = Ok (tt, k3) /\ keeps k0 k3.
Proof.
  intros Hh Hs [W S (x & Hx & Fx)]. exists (set_held (Kernel.held k0 ⊎ x) k2).
  rewrite (release_last _ (Kernel.held k0 ⊎ x)) by (rewrite Hx, Hh; clear; multiset_solver).
  split; [done|]. split; [done|cbn; congruence|]. by exists x.
Qed.

Lemma free_modules_kept k0 k1 k2 status m :
  module_query_outcome k0 k1 status m -> sent k1 = sent k0 -> 0 < address m -> keeps k1 k2 ->
  exists k3, free_module_list m k2 = Ok (tt, k3) /\ keeps k0 k3.
Proof.
  intros Ho Hs Ha K.
  destruct Ho as [(_ & -> & Hh)|[(_ & _ & -> & Hh)|(_ & _ & _ & _ & Hh)]]; [cbn in Ha; lia..|].
  unfold free_module_list. destruct (Z.eqb_spec (address m) 0); [lia|]. by eapply release_kept.
Qed.

Lemma initialise_list_spec {HL : HashLaws H} {DL : DriverLaws D} st pl pes :
  no_drivers st pl pes -> queries_succeed ->
  Forall (fun info => module_ok false info pes (world (ImageBase info))) (drop 2 (modules loaded_modules)) ->
  exists dl es st', InitialiseDriverList st = Ok (STATUS_SUCCESS, st') /\
    drivers st' dl es pl pes /\ driver_active (ext st') = true /\ x86_ok st' = false /\
    deferred_work_item (ext st') = deferred_item /\
    deferred_list (ext st') = x86_addresses dl es /\
    Forall (made_for false pes (drop 2 (modules loaded_modules))) es /\
    (entry_base <$> es) `sublist_of` reverse (ImageBase <$> drop 2 (modules loaded_modules)) /\
    (entries_granted -> entry_base <$> es = reverse (ImageBase <$> drop 2 (modules loaded_modules))) /\
    keeps (set_held (Kernel.held (kern st) ⊎ {[+ WorkItem deferred_item +]}) (kern st)) (kern st').
Proof.
  intros [[Hh0 Hh] HL1 Hpl Hpe Hpk Hps Hap Hk Hi] Hq Hm. unfold InitialiseDriverList.
  destruct (ListInit_spec (set_ext (set_driver_active true (ext st)) st) driver_head driver_lock Hh0 Hh)
    as (nx & H1 & S1 & A1).
  setoid_rewrite KM_step; [|done]. setoid_rewrite (KM_step _ _ _ _ _ H1).
  do 2 (setoid_rewrite KM_step; [|done]). destruct (Z.eqb_spec deferred_item 0); [done|].
  set (st1 := set_ext _ _).
  set (k1 := set_held (Kernel.held (kern st) ⊎ {[+ WorkItem deferred_item +]}) (kern st)).
  setoid_rewrite (in_kernel_step _ _ st1 tt k1); [|done].
  destruct (module_query_succeeds k1 Hk Hq) as (m & k2 & H2 & O2 & W2 & M2 & _ & P2 & S2).
  setoid_rewrite in_kernel_step; [|exact H2]. cbn beta iota. rewrite (qs_modules Hq). cbn [negb default from_option id].
  rewrite M2. change (set_kern k2 (set_kern k1 st1)) with (set_kern k2 st1).
  assert (drivers (set_kern k2 st1) [] [] pl pes) as D2.
  { split; try done; [constructor| |].
    - destruct Hpl as [Hc ? ?]. split; try done. apply (chain_agree _ _ _ _ Hc). intros x Hx.
      apply A1. by intros ->.
    - by intros x ->%list_elem_of_singleton. }
  destruct (add_modules_spec pl pes (drop 2 (modules loaded_modules)) _ _ _ D2 Hm)
    as (ps & new & st3 & H3 & D3 & [C3 X3 I3 K3] & L3 & Q3 & M3 & B3 & G3).
  setoid_rewrite (KM_step _ _ _ _ _ H3). setoid_rewrite KM_step; [|done].
  destruct (free_modules_kept k1 k2 (kern st3) _ m O2 S2 P2 K3) as (k4 & H4 & K4).
  setoid_rewrite in_kernel_step; [|exact H4]. rewrite !app_nil_r in *.
  exists ps, new. eexists. split; [done|]. destruct D3. split_and!; try done. split; try done.
  apply K4.
Qed.

(** ** Images loaded later *)

Record image_load := Load { load_name : option string; load_info : IMAGE_INFO }.

Definition run_load (l : image_load) : M unit :=
  ImageLoadNotifyRoutineCallback (load_name l) (load_info l).

(** The module an image is recorded as. *)
Definition path_of (name : option string) : string :=
  match name with
  | Some n => if NT_SUCCESS (RtlUnicodeStringToAnsiString n).1 &&
                 negb (MAX_MODULE_PATH <? Z.of_nat (String.length n)) then n else ""
  | None => ""
  end.
Definition loaded_as (l : image_load) : RTL_MODULE_EXTENDED_INFO :=
  ModuleInfo (ImageInfo_Base (load_info l)) (ImageInfo_Size (load_info l)) (path_of (load_name l)).

(** The bases on the list, newest first, after an image has been loaded. *)
Definition note_load (bases : list Z) (l : image_load) : list Z :=
  if SystemModeImage (load_info l) && bool_decide (ImageInfo_Base (load_info l) ∉ bases)
  then ImageInfo_Base (load_info l) :: bases else bases.

Lemma image_path_spec name st :
  kernel_wf (kern st) ->
  exists k, image_path name st = Ok (path_of name, set_kern k st) /\ keeps (kern st) k.
Proof.
  intros W. assert (Ok (@pair string _ "" st) = Ok (""%string, set_kern (kern st) st)) as Hid
    by by destruct st as [? ? ? [[[] ? ? ? ? ? ? ? ?] ? ? ? ? ?]].
  unfold image_path, path_of. destruct name as [n|].
  2: { exists (kern st). split; [exact Hid|]. by apply keeps_refl. }
  destruct (RtlUnicodeStringToAnsiString n) as [status buf]. cbn [fst].
  destruct (NT_SUCCESS status); cbn [negb andb].
  2: { exists (kern st). split; [exact Hid|]. by apply keeps_refl. }
  setoid_rewrite in_kernel_step; [|done]. setoid_rewrite in_kernel_step; [|by apply release_last].
  eexists. split; [by destruct (MAX_MODULE_PATH <? Z.of_nat (String.length n))|].
  split; [done|done|]. exists ∅. cbn. by rewrite (right_id_L ∅ (⊎)).
Qed.

Lemma image_load_spec {HL : HashLaws H} {DL : DriverLaws D} st dl es pl pes l :
  drivers st dl es pl pes -> driver_active (ext st) = true ->
  (SystemModeImage (load_info l) = true ->
   module_ok (x86_ok st) (loaded_as l) pes (world (ImageBase (loaded_as l)))) ->
  exists ps new st', run_load l st = Ok (tt, st') /\
    drivers st' (ps ++ dl) (new ++ es) pl pes /\ same_config st st' /\
    deferred_list (ext st') = deferred_list (ext st) /\
    Forall (made_for (x86_ok st) pes [loaded_as l]) new /\
    (entry_base <$> new ++ es) `sublist_of` note_load (entry_base <$> es) l /\
    (entries_granted -> entry_base <$> new ++ es = note_load (entry_base <$> es) l).
Proof.
  intros Hd Ha Hm. unfold run_load, ImageLoadNotifyRoutineCallback, note_load.
  assert (same_config st st) as Cst by (split; try done; by apply keeps_refl, Hd).
  setoid_rewrite KM_step; [|done]. rewrite Ha. cbn [negb].
  destruct (SystemModeImage (load_info l)); cbn [negb andb].
  2: { exists [], [], st. by split_and!. }
  setoid_rewrite (KM_step _ _ _ _ _ (search_driver _ _ _ _ _ (ImageInfo_Base (load_info l)) Hd)).
  pose proof (first_address_zero _ _ (fun e => entry_base e =? ImageInfo_Base (load_info l)) dl es
    driver_head (slist_chain _ _ _ (dr_list _ _ _ _ _ Hd)) (dr_entries _ _ _ _ _ Hd)) as Hz.
  rewrite base_listed in Hz.
  destruct (Z.eqb_spec (first_address (fun e => entry_base e =? ImageInfo_Base (load_info l)) dl es) 0)
    as [E|E]; cbn [negb]; rewrite Hz in E.
  2: { rewrite bool_decide_eq_false_2 by done. exists [], [], st. by split_and!. }
  rewrite bool_decide_eq_true_2 by done.
  destruct (allocate_drivers st dl es pl pes Hd) as (p & st1 & H1 & D1 & C1 & Q1 & G1 & F1).
  setoid_rewrite (KM_step _ _ _ _ _ H1). destruct (Z.eqb_spec p 0) as [->|Hp].
  { exists [], [], st1. split_and!; try done; [by apply sublist_cons|by intros ?%G1]. }
  destruct (image_path_spec (load_name l) st1 (dr_kernel _ _ _ _ _ D1)) as (k & H2 & K2).
  setoid_rewrite (KM_step _ _ _ _ _ H2).
  destruct (F1 Hp) as (F2 & F3 & F4). specialize (Hm eq_refl). rewrite <- (sc_x86 _ _ C1) in Hm.
  destruct (fill_entry_spec (set_kern k st1) dl es pl pes p (loaded_as l) _ false
    ltac:(by apply drivers_kern, K2) Hm Hp F2 F3 F4) as (e & st2 & H3 & D3 & C3 & E3 & Q3 & Hh).
  exists [p], [e], st2. split; [exact H3|]. split; [done|].
  split; [eapply same_config_trans; [exact C1|]; eapply same_config_trans; [|exact C3]; by split|].
  split; [by rewrite Q3, andb_false_r, <- Q1|]. split.
  { constructor; [|constructor]. exists (loaded_as l). split; [by left|]. split; [done|].
    rewrite <- (sc_x86 _ _ C1). exact Hh. }
  cbn. rewrite (ef_base _ _ _ E3). done.
Qed.

Lemma note_load_nodup bases l : NoDup bases -> NoDup (note_load bases l).
Proof.
  intros Hn. unfold note_load. destruct (SystemModeImage _); [|done]. cbn [andb].
  case_bool_decide; [by constructor|done].
Qed.

Lemma image_loads_spec {HL : HashLaws H} {DL : DriverLaws D} pl pes loads : forall st dl es,
  drivers st dl es pl pes -> driver_active (ext st) = true ->
  Forall (fun l => SystemModeImage (load_info l) = true ->
    module_ok (x86_ok st) (loaded_as l) pes (world (ImageBase (loaded_as l)))) loads ->
  exists ps new st', mforeach run_load loads st = Ok (tt, st') /\
    drivers st' (ps ++ dl) (new ++ es) pl pes /\ same_config st st' /\
    deferred_list (ext st') = deferred_list (ext st) /\
    Forall (made_for (x86_ok st) pes (loaded_as <$> loads)) new /\
    (NoDup (entry_base <$> es) -> NoDup (entry_base <$> new ++ es)) /\
    (entries_granted -> entry_base <$> new ++ es = foldl note_load (entry_base <$> es) loads).
Proof.
  induction loads as [|l loads IH]; intros st dl es Hd Ha Hm.
  { exists [], [], st. split_and!; try done. split; try done. by apply keeps_refl, Hd. }
  apply Forall_cons in Hm as [Hi Hm].
  destruct (image_load_spec st dl es pl pes l Hd Ha Hi)
    as (ps1 & new1 & st1 & H1 & D1 & C1 & Q1 & M1 & B1 & G1).
  destruct (IH st1 _ _ D1) as (ps2 & new2 & st2 & H2 & D2 & C2 & Q2 & M2 & B2 & G2).
  { by rewrite (sc_active _ _ C1). }
  { by rewrite (sc_x86 _ _ C1). }
  rewrite (sc_x86 _ _ C1) in M2. exists (ps2 ++ ps1), (new2 ++ new1), st2.
  cbn [mforeach]. rewrite (KM_step _ _ _ _ _ H1), <- !(assoc_L (++)).
  split; [done|]. split; [done|]. split; [by eapply same_config_trans|]. split; [congruence|].
  split_and!.
  - apply Forall_app. split.
    + eapply Forall_impl; [exact M2|]. intros e. apply made_for_weaken. set_solver.
    + eapply Forall_impl; [exact M1|]. intros e. apply made_for_weaken. set_solver.
  - intros Hn. apply B2. eapply sublist_NoDup; [|exact B1]. by apply note_load_nodup.
  - intros Hg. cbn [foldl]. by rewrite (G2 Hg), (G1 Hg).
Qed.

(** ** Verification *)

Lemma find_by_base st dl es pl pes e :
  drivers st dl es pl pes -> NoDup (entry_base <$> es) -> e ∈ es ->
  exists p, FindDriverEntryByBaseAddress (entry_base e) st = Ok (p, st) /\ p <> 0 /\
    is_Some (next st !! p) /\ driver_entries (ext st) !! p = Some e /\ p ∈ dl.
Proof.
  intros Hd Hn He. rewrite (search_driver _ _ _ _ _ _ Hd).
  destruct Hd as [[Hc _ _] Hm _ _ _ _ _ _ _].
  assert (forall p l es, chain (next st) p l -> entries_at (driver_entries (ext st)) l es ->
    NoDup (entry_base <$> es) -> e ∈ es -> exists q,
    first_address (fun e' => entry_base e' =? entry_base e) l es = q /\ q <> 0 /\
    is_Some (next st !! q) /\ driver_entries (ext st) !! q = Some e /\ q ∈ l) as Hf.
  { clear. intros p l. revert p. induction l as [|q l IH]; intros p es Hc Hm Hn He.
    - apply Forall2_nil_inv_l in Hm as ->. by apply elem_of_nil in He.
    - apply Forall2_cons_inv_l in Hm as (x & xs & Hx & Hm & ->). destruct Hc as (_ & Hq & Hc).
      cbn in Hn. apply NoDup_cons in Hn as [Hx1 Hn]. cbn [first_address].
      apply elem_of_cons in He as [<-|He].
      + rewrite Z.eqb_refl. exists q. split; [done|]. split; [done|].
        split; [eapply chain_dom; [exact Hc|by left]|]. split; [done|by left].
      + destruct (Z.eqb_spec (entry_base x) (entry_base e)) as [E|_].
        * exfalso. apply Hx1. rewrite E. by apply list_elem_of_fmap_2.
        * destruct (IH q xs Hc Hm Hn He) as (q' & ? & ? & ? & ? & ?). exists q'.
          split_and!; try done. by right. }
  destruct (Hf _ _ _ Hc Hm Hn He) as (q & -> & ? & ? & ? & ?). by exists q.
Qed.

(** The verdict on a module whose entry holds a hash. *)
Definition verdict_of (visited : list section) (e : DRIVER_LIST_ENTRY) (v : bool) : Prop :=
  exists h, section_hash visited h /\ v = bool_decide (h = text_hash e).

(** Hashing a module and comparing with its entry. *)
Lemma hash_and_compare {HL : HashLaws H} {DL : DriverLaws D} {Y} st dl es pl pes info visited e p
  (none some : NTSTATUS -> option bool -> Y) :
  drivers st dl es pl pes -> module_ok (x86_ok st) info pes visited ->
  p <> 0 -> is_Some (next st !! p) -> driver_entries (ext st) !! p = Some e ->
  zlen (text_hash e) = SHA_256_HASH_LENGTH ->
  exists status v k1,
    ('(status, h) ← HashModule info (replicate (Z.to_nat SHA_256_HASH_LENGTH) 0);
     if negb (NT_SUCCESS status) then mret (none status None)
     else
       e ← read_entry driver_entries p;
       v ← lift (CompareHashes h (text_hash e) SHA_256_HASH_LENGTH);
       mret (some status (Some v))) st
    = Ok (match v with Some b => some status (Some b) | None => none status None end, set_kern k1 st) /\
    keeps (kern st) k1 /\ NT_SUCCESS status = bool_decide (is_Some v) /\
    match v with
    | Some b => verdict_of visited e b /\ reachable_image (x86_ok st) info pes
    | None => ~ hashable (x86_ok st) info pes visited
    end.
Proof.
  intros Hd Hm Hp Hal He Hz.
  destruct (HashModule_spec st pes info visited (replicate (Z.to_nat SHA_256_HASH_LENGTH) 0)
    (drivers_ready _ _ _ _ _ Hd) Hm) as (status & h & k1 & H1 & K1 & R1 & F1); [done|].
  setoid_rewrite (KM_step _ _ _ _ _ H1). cbn beta iota.
  destruct (NT_SUCCESS status) eqn:E; cbn [negb].
  2: { exists status, None, k1. rewrite E. split_and!; try done. by intros ?%F1. }
  setoid_rewrite KM_step; [|by apply read_entry_ok].
  destruct R1 as [Hs Hr]. assert (zlen h = SHA_256_HASH_LENGTH) as Hl
    by (destruct Hs as (s & rest & _ & ->); apply sha256_length).
  unfold CompareHashes. rewrite Hl, Hz, Z.ltb_irrefl. cbn [orb].
  rewrite !take_ge by (unfold zlen in *; lia). setoid_rewrite lift_step.
  exists status, (Some (bool_decide (h = text_hash e))), k1. rewrite E. split_and!; try done.
  by exists h.
Qed.

(** ** Deferred hashing *)

(** What becomes of a deferred entry. *)
Record rehashed (can : bool) (pes : list PROCESS_LIST_ENTRY) (e e' : DRIVER_LIST_ENTRY) : Prop := {
  rh_module : DriverListEntryToExtendedModuleInfo e' = DriverListEntryToExtendedModuleInfo e;
  rh_x86 : x86 e' = x86 e;
  rh_hash : if hashed e' then section_hash (world (entry_base e)) (text_hash e')
            else text_hash e' = text_hash e;
  rh_complete : hashable can (DriverListEntryToExtendedModuleInfo e) pes (world (entry_base e)) ->
    hashed e' = true;
}.

(** The entry at [p] can be hashed again. *)
Definition deferrable (st : lstate drv_ext) (pes : list PROCESS_LIST_ENTRY) (p : Z) : Prop :=
  exists e, driver_entries (ext st) !! p = Some e /\ zlen (text_hash e) = SHA_256_HASH_LENGTH /\
    module_ok (x86_ok st) (DriverListEntryToExtendedModuleInfo e) pes (world (entry_base e)).

Lemma entries_update {T} (m : gmap Z T) e l : forall es p,
  entries_at m l es -> exists es', entries_at (<[p := e]> m) l es'.
Proof.
  induction l as [|q l IH]; intros es p Hm.
  - exists []. constructor.
  - apply Forall2_cons_inv_l in Hm as (x & xs & Hx & Hm & ->). destruct (IH xs p Hm) as [es' Hes].
    destruct (decide (p = q)) as [->|Hne].
    + exists (e :: es'). constructor; [by rewrite lookup_insert_eq|done].
    + exists (x :: es'). constructor; [by rewrite lookup_insert_ne|done].
Qed.

Lemma deferred_loop_spec {HL : HashLaws H} {DL : DriverLaws D} dl pl pes l : forall st es fuel,
  drivers st dl es pl pes -> (length l < fuel)%nat -> deferred_list (ext st) = tail l ->
  NoDup l -> Forall (fun p => p ∈ dl /\ deferrable st pes p) l ->
  exists es' st', deferred_loop fuel (head l) st = Ok (tt, st') /\ drivers st' dl es' pl pes /\
    same_config st st' /\ deferred_list (ext st') = [] /\
    forall p, if decide (p ∈ l)
      then exists e e', driver_entries (ext st) !! p = Some e /\
             driver_entries (ext st') !! p = Some e' /\ rehashed (x86_ok st) pes e e'
      else driver_entries (ext st') !! p = driver_entries (ext st) !! p.
Proof.
  induction l as [|p l IH]; intros st es [|fuel] Hd Hf Hq Hn Hl; cbn [length] in Hf; try lia.
  { exists es, st. split; [done|]. split; [done|].
    split; [split; try done; by apply keeps_refl, Hd|]. split; [done|].
    intros p. rewrite decide_False by set_solver. done. }
  apply NoDup_cons in Hn as [Hpl Hn]. apply Forall_cons in Hl as [[Hpd (e & He & Hz & Hm)] Hl].
  assert (p <> 0 /\ is_Some (next st !! p)) as [Hp0 Hal].
  { destruct (dr_list _ _ _ _ _ Hd) as [Hc _ _].
    split; [by eapply chain_nonnull|eapply chain_dom; [done|by right]]. }
  cbn [head deferred_loop]. setoid_rewrite KM_step; [|by apply read_entry_ok].
  destruct (HashModule_spec st pes (DriverListEntryToExtendedModuleInfo e) (world (entry_base e))
    (text_hash e) (drivers_ready _ _ _ _ _ Hd) Hm Hz) as (status & h & k & H1 & K1 & R1 & F1).
  setoid_rewrite (KM_step _ _ _ _ _ H1). cbn beta iota.
  setoid_rewrite KM_step; [|by apply (update_entry_ok _ p e)].
  set (e' := DriverEntry (entry_base e) (entry_size e) (NT_SUCCESS status) (x86 e) (path e) h).
  cbn [tail] in Hq. set (st1 := set_ext _ _).
  assert (RemoveHeadDeferred st1 = Ok (head l, set_ext (set_deferred (tail l) (ext st1)) st1)) as H2.
  { unfold RemoveHeadDeferred. change (deferred_list (ext st1)) with (deferred_list (ext st)).
    rewrite Hq. by destruct l; [destruct st as [? ? ? []]; cbn in *; subst|]. }
  setoid_rewrite (KM_step _ _ _ _ _ H2). set (st2 := set_ext _ st1).
  destruct (entries_update (driver_entries (ext st)) e' dl es p (dr_entries _ _ _ _ _ Hd)) as [es2 E2].
  destruct (IH st2 es2 fuel) as (es' & st' & H3 & D3 & C3 & Q3 & R3); [|lia|done|done| |].
  { destruct Hd. split; try done. apply K1. }
  { rewrite Forall_forall in Hl |- *. intros q Hql. destruct (Hl q Hql) as [Hq1 (eq & Heq & Hq2)].
    split; [done|]. exists eq. split; [|done]. cbn. rewrite lookup_insert_ne; [done|]. congruence. }
  exists es', st'. split; [exact H3|]. split; [done|]. split; [|split; [done|]].
  { eapply same_config_trans; [|exact C3]. by split. }
  intros q. specialize (R3 q). destruct (decide (q = p)) as [->|Hqp].
  - rewrite (decide_False (P := p ∈ l)) in R3 by done. rewrite decide_True by by left.
    exists e, e'. rewrite R3. cbn. rewrite lookup_insert_eq. split_and!; try done. split; try done; cbn.
    by destruct (NT_SUCCESS status); [apply R1|].
  - change (driver_entries (ext st2)) with (<[p := e']> (driver_entries (ext st))) in R3.
    rewrite lookup_insert_ne in R3 by done.
    destruct (decide (q ∈ l)); [rewrite decide_True by by right|rewrite decide_False by set_solver]; done.
Qed.

End invariant.

(** ** Properties *)

Section properties.
Context {P : Pool} {A : SystemApi} {V : HandleApi} {H : HashApi} {G : ListHeads} {D : DriverApi}.
Context {HL : HashLaws H} {DL : DriverLaws D}.

(** C7: the driver list.  Building the list from the loaded modules and then
    handling any sequence of image loads never faults; no base address is listed
    twice; each entry belongs to a module of the list (without the first two) or to
    an image loaded later, and where it is marked as hashed it holds the SHA-256 of
    that module's first executable section; a module that can be hashed is.
    The deferred list holds exactly the entries of the initial modules that could
    not be read.  When memory suffices, exactly the system images are listed,
    newest first.  Nothing is kept but the list and the work item. *)
Theorem driver_list_tracks_modules (world : Z -> list section) st pl pes loads :
  no_drivers st pl pes -> queries_succeed ->
  Forall (fun info => module_ok false info pes (world (ImageBase info))) (drop 2 (modules loaded_modules)) ->
  Forall (fun l => SystemModeImage (load_info l) = true ->
    module_ok false (loaded_as l) pes (world (ImageBase (loaded_as l)))) loads ->
  NoDup (ImageBase <$> drop 2 (modules loaded_modules)) ->
  exists dl es dl0 es0 st',
    (InitialiseDriverList ≫= fun _ => mforeach run_load loads) st = Ok (tt, st') /\
    drivers st' dl es pl pes /\ NoDup (entry_base <$> es) /\
    Forall (made_for world false pes (drop 2 (modules loaded_modules) ++ (loaded_as <$> loads))) es /\
    dl0 `suffix_of` dl /\ es0 `suffix_of` es /\ deferred_list (ext st') = x86_addresses dl0 es0 /\
    (entries_granted ->
     entry_base <$> es0 = reverse (ImageBase <$> drop 2 (modules loaded_modules)) /\
     entry_base <$> es = foldl note_load (entry_base <$> es0) loads) /\
    (finishes_hash = true ->
     Kernel.held (kern st') = Kernel.held (kern st) ⊎ {[+ WorkItem deferred_item +]}).
Proof.
  intros Hn Hq Hm Hl Hb.
  destruct (initialise_list_spec world st pl pes Hn Hq Hm)
    as (dl0 & es0 & st1 & H1 & D1 & A1 & X1 & I1 & Q1 & M1 & B1 & G1 & K1).
  rewrite <- X1 in Hl.
  destruct (image_loads_spec world pl pes loads st1 dl0 es0 D1 A1 Hl)
    as (ps & new & st2 & H2 & D2 & C2 & Q2 & M2 & B2 & G2).
  exists (ps ++ dl0), (new ++ es0), dl0, es0, st2. rewrite (KM_step _ _ _ _ _ H1).
  split; [done|]. split; [done|]. split.
  { apply B2. eapply sublist_NoDup; [|exact B1]. by rewrite reverse_Permutation. }
  split.
  { apply Forall_app. split.
    - rewrite X1 in M2. eapply Forall_impl; [exact M2|]. intros e. apply made_for_weaken. set_solver.
    - eapply Forall_impl; [exact M1|]. intros e. apply made_for_weaken. set_solver. }
  split; [by exists ps|]. split; [by exists new|]. split; [congruence|].
  split; [by intros Hg; rewrite (G1 Hg), (G2 Hg), (G1 Hg)|].
  intros Hf. by rewrite (keeps_all _ _ (sc_kernel _ _ C2) Hf), (keeps_all _ _ K1 Hf).
Qed.

(** C25: the verdict on a module.  Validating a module with an entry never faults,
    leaves the list as it is and gives back what it took.  A verdict is given
    whenever memory suffices and the module can be hashed, and it says whether
    the hash of the module's first executable section, as it is in memory now,
    equals the hash recorded in the entry.  (The verdict is only printed.) *)
Theorem module_verdict st dl es pl pes info visited e :
  drivers st dl es pl pes -> NoDup (entry_base <$> es) -> e ∈ es -> entry_base e = ImageBase info ->
  zlen (text_hash e) = SHA_256_HASH_LENGTH -> module_ok (x86_ok st) info pes visited ->
  exists v st', ValidateSystemModule info st = Ok (v, st') /\ drivers st' dl es pl pes /\
    keeps (kern st) (kern st') /\
    match v with
    | Some b => verdict_of visited e b
    | None => ~ ((forall n, pool_grants n = true) /\ hashable (x86_ok st) info pes visited)
    end.
Proof.
  intros Hd Hn He Hb Hz Hm. unfold ValidateSystemModule. pose proof (dr_kernel _ _ _ _ _ Hd) as W.
  destruct (alloc_spec (kern st) SHA_256_HASH_LENGTH POOL_TAG_INTEGRITY W)
    as (a & k1 & H1 & W1 & S1 & _ & _ & H1h).
  setoid_rewrite in_kernel_step; [|exact H1].
  destruct (pool_grants (pool_requests (kern st))) eqn:Eg; destruct H1h as [Ha H1h].
  2: { subst a. exists None, (set_kern k1 st). split; [done|]. split; [by apply drivers_kern|].
       split; [|by intros [Hg _]; rewrite Hg in Eg]. split; [done|done|].
       exists ∅. by rewrite (right_id_L ∅ (⊎)). }
  destruct (Z.eqb_spec a 0); [lia|]. pose proof (drivers_kern k1 _ _ _ _ _ Hd W1) as D1.
  destruct (find_by_base _ _ _ _ _ e D1 Hn He) as (p & H2 & Hp & Hal & He2 & _). rewrite Hb in H2.
  setoid_rewrite (KM_step _ _ _ _ _ H2). destruct (Z.eqb_spec p 0); [done|].
  destruct (hash_and_compare _ dl es pl pes info visited e p (fun _ _ => None) (fun _ v => v)
    D1 Hm Hp Hal He2 Hz) as (status & v & k2 & H3 & K3 & _ & Hv).
  setoid_rewrite (KM_step _ _ _ _ _ H3).
  destruct (release_kept _ (kern st) k1 k2 H1h S1 K3) as (k3 & H4 & K4).
  setoid_rewrite in_kernel_step; [|exact H4].
  eexists _, (set_kern k3 st). split; [done|]. split; [by apply drivers_kern, K4|]. split; [exact K4|].
  destruct v; [apply Hv|]. by intros [_ ?].
Qed.

(** An image path of exactly 256 bytes.  The notify routine accepts it and
    copies it without a terminator; hashing the module then reads past the end of
    the array. *)
Theorem unterminated_path_read st dl es pl pes name info :
  drivers st dl es pl pes -> driver_active (ext st) = true -> SystemModeImage info = true ->
  ImageInfo_Base info ∉ entry_base <$> es -> entries_granted ->
  NT_SUCCESS (RtlUnicodeStringToAnsiString name).1 = true ->
  Z.of_nat (String.length name) = MAX_MODULE_PATH ->
  ImageLoadNotifyRoutineCallback (Some name) info st = Crash OutOfBounds.
Proof.
  intros Hd Ha Hs Hb Hg Hc Hlen. unfold ImageLoadNotifyRoutineCallback.
  setoid_rewrite KM_step; [|done]. rewrite Ha, Hs. cbn [negb].
  setoid_rewrite (KM_step _ _ _ _ _ (search_driver _ _ _ _ _ (ImageInfo_Base info) Hd)).
  rewrite (proj2 (first_address_zero _ _ (fun e => entry_base e =? ImageInfo_Base info) dl es driver_head
    (slist_chain _ _ _ (dr_list _ _ _ _ _ Hd)) (dr_entries _ _ _ _ _ Hd))) by by apply base_listed.
  cbn [Z.eqb negb]. destruct (allocate_drivers st dl es pl pes Hd) as (p & st1 & H1 & D1 & _ & _ & G1 & _).
  setoid_rewrite (KM_step _ _ _ _ _ H1). destruct (Z.eqb_spec p 0); [by apply G1 in Hg|].
  destruct (image_path_spec (Some name) st1 (dr_kernel _ _ _ _ _ D1)) as (k & H2 & _).
  setoid_rewrite (KM_step _ _ _ _ _ H2). unfold path_of. rewrite Hc, Hlen. cbn [andb].
  change (negb (MAX_MODULE_PATH <? MAX_MODULE_PATH)) with true. cbn iota.
  unfold fill_entry. setoid_rewrite KM_step; [|done]. unfold HashModule, RtlInitAnsiString.
  cbn [FullPathName]. rewrite Hlen. done.
Qed.

(** C26: deferred hashing.  The work item empties the deferred list; each entry
    on it keeps its module, is hashed if the module can be, and keeps its old hash
    otherwise; all other entries are as before.  The work item then frees itself,
    so that a second run, which another start of winlogon queues, is a bug
    check. *)
Theorem deferred_modules_hashed_once (world : Z -> list section) st dl es pl pes h :
  drivers st dl es pl pes -> NoDup (deferred_list (ext st)) ->
  Forall (fun p => p ∈ dl /\ deferrable world st pes p) (deferred_list (ext st)) ->
  Kernel.held (kern st) = h ⊎ {[+ WorkItem (deferred_work_item (ext st)) +]} ->
  exists es' st', DeferredModuleHashingCallback st = Ok (tt, st') /\ drivers st' dl es' pl pes /\
    deferred_list (ext st') = [] /\
    (forall p, if decide (p ∈ deferred_list (ext st))
      then exists e e', driver_entries (ext st) !! p = Some e /\
             driver_entries (ext st') !! p = Some e' /\ rehashed world (x86_ok st) pes e e'
      else driver_entries (ext st') !! p = driver_entries (ext st) !! p) /\
    (finishes_hash = true -> Kernel.held (kern st') = h /\
     (WorkItem (deferred_work_item (ext st)) ∉ h ->
      DeferredModuleHashingCallback st' = Crash BadFree)).
Proof.
  intros Hd Hn Hl Hh. unfold DeferredModuleHashingCallback.
  set (st1 := set_ext (set_deferred (tail (deferred_list (ext st))) (ext st)) st).
  assert (RemoveHeadDeferred st = Ok (head (deferred_list (ext st)), st1)) as H1.
  { unfold RemoveHeadDeferred, st1.
    destruct (deferred_list (ext st)) eqn:E; [|done]. by destruct st as [? ? ? []]; cbn in *; subst. }
  destruct (deferred_loop_spec world dl pl pes (deferred_list (ext st)) st1 es
    (S (length (deferred_list (ext st))))) as (es' & st2 & H2 & D2 & [A2 X2 I2 K2] & Q2 & R2);
    [by destruct Hd; split|lia|done|done|done|].
  destruct (release_kept (WorkItem (deferred_work_item (ext st))) (set_held h (kern st)) (kern st)
    (kern st2) Hh eq_refl K2) as (k3 & H3 & K3).
  exists es', (set_kern k3 st2). split; [|split; [by apply drivers_kern, K3|split; [done|split; [done|]]]].
  - setoid_rewrite KM_step; [|done]. setoid_rewrite (KM_step _ _ _ _ _ H1).
    setoid_rewrite (KM_step _ _ _ _ _ H2). setoid_rewrite KM_step; [|done].
    apply in_kernel_ok. by rewrite I2.
  - intros Hf. assert (Kernel.held k3 = h) as H4 by apply (keeps_all _ _ K3 Hf). split; [done|].
    intros Hw. assert (RemoveHeadDeferred (set_kern k3 st2) = Ok (None, set_kern k3 st2)) as H5.
    { unfold RemoveHeadDeferred. cbn. by rewrite Q2. }
    setoid_rewrite KM_step; [|done]. setoid_rewrite (KM_step _ _ _ _ _ H5).
    setoid_rewrite KM_step; [|done]. setoid_rewrite KM_step; [|done].
    unfold in_kernel, on_cb, on_sys, on_kernel. cbn. unfold release. cbn. rewrite decide_False; [done|].
    by rewrite H4, I2.
Qed.

End properties.

(** ** Witnesses *)

(** The modules hal.dll, ntoskrnl.exe and ac.sys are loaded; the image of ac.sys
    is that of Hashing.v, in the system's memory and in that of winlogon. *)
Definition sample_driver_api : DriverApi := {|
  driver_head := 0x600;
  driver_lock := 0x610;
  entry_block := fun _ used => Some (above used);
  deferred_item := 0x77;
  RtlAnsiStringToUnicodeString := fun _ => (STATUS_SUCCESS, 0x88);
  RtlUnicodeStringToAnsiString := fun _ => (STATUS_SUCCESS, 0x99);
  process_memory := fun _ => mem_of 0x1000 sample_image;
|}.

Lemma sample_driver_laws : DriverLaws sample_driver_api.
Proof. split; [|done]. intros n used a [= <-]. apply above_fresh. Qed.

Definition three_modules : SystemApi := {|
  query_module_size := (STATUS_SUCCESS, 3 * sizeof Structs.RTL_MODULE_EXTENDED_INFO);
  query_modules := (STATUS_SUCCESS, 3 * sizeof Structs.RTL_MODULE_EXTENDED_INFO,
    [ModuleInfo 0x8000 0x100 "ntoskrnl.exe"; ModuleInfo 0x9000 0x100 "hal.dll";
     ModuleInfo 0x1000 0x100 "ac.sys"]);
  MmGetSystemRoutineAddress := fun _ => 0;
  RtlGetVersion := (STATUS_SUCCESS, 19045);
  hal_routine := fun _ => 0;
  system_memory := mem_of 0x1000 sample_image;
|}.

(** Every process is winlogon; addresses are valid as [v] says. *)
Definition winlogon_api (v : bool) : HandleApi := {|
  ObGetObjectType := fun _ => "Process"%string;
  PsGetProcessImageFileName := fun _ => "winlogon.exe"%string;
  image_name_bytes := fun _ => [];
  handle_table_of := fun _ => 0;
  MmIsAddressValid := fun _ => v;
  PsInitialSystemProcess := 4;
  PsGetCurrentProcess := 4;
|}.

Definition sample_world (base : Z) : list section := [sample_section].

(** A heap with the process 0x500 on the process list; [can] is [can_hash_x86],
    [k] the kernel state and [es] the driver entries at 0x700. *)
Definition driver_state (can : bool) (k : kernel) (es : list DRIVER_LIST_ENTRY) (deferred : list Z)
  : lstate drv_ext :=
  LState (match es with
          | [] => {[0x100 := 0x300; 0x300 := 0; 0x600 := 7]}
          | _ => {[0x100 := 0x300; 0x300 := 0; 0x600 := 0x700; 0x700 := 0]}
          end) ∅ []
    (DrvExt (CbExt (HState (hsession guarded_state) k ∅ false) {[0x300 := ProcessEntry 0x500 4]} ∅
               true true can 0 0 [])
       (match es with [] => ∅ | e :: _ => {[0x700 := e]} end) true deferred 0x77 0).

Definition sample_driver_entry (h : Z) : DRIVER_LIST_ENTRY :=
  DriverEntry 0x1000 0x100 true false "ac.sys" (replicate 32 h).

Lemma sample_module_ok v can name :
  Z.of_nat (String.length name) < 256 ->
  module_ok (V := winlogon_api v) (A := three_modules) (D := sample_driver_api) can
    (ModuleInfo 0x1000 0x100 name) [ProcessEntry 0x500 4] [sample_section].
Proof.
  intros Hl. split; [done|]. intros _. split; [|done|cbn; lia|vm_compute; discriminate].
  exists 0x40, 0. destruct v; apply sample_image_at.
Qed.

Lemma sample_drivers can k e d :
  kernel_wf k ->
  drivers (G := sample_heads) (D := sample_driver_api) (driver_state can k [e] d) [0x700] [e]
    [0x300] [ProcessEntry 0x500 4].
Proof.
  intros Hk. split; try done.
  - split; [by vm_compute|repeat constructor; set_solver|done].
  - by repeat constructor.
  - split; [by vm_compute|repeat constructor; set_solver|done].
  - by repeat constructor.
  - by repeat constructor.
  - intros x. cbn. rewrite !elem_of_cons, !elem_of_nil. intros [->|[->|[]]]; intuition congruence.
Qed.

Lemma sample_no_drivers :
  no_drivers (G := sample_heads) (D := sample_driver_api) (driver_state false idle_kernel [] [])
    [0x300] [ProcessEntry 0x500 4].
Proof.
  split; try done.
  - split; [by vm_compute|repeat constructor; set_solver|done].
  - by repeat constructor.
  - by repeat constructor.
  - cbn. rewrite !elem_of_cons, elem_of_nil. intuition congruence.
Qed.

Definition sample_loads : list image_load :=
  [Load (Some "ac.sys"%string) (ImageInfo true 0x1000 0x100);
   Load None (ImageInfo false 0x2000 0x100)].

Lemma driver_list_tracks_modules_witness :
  exists st' dl es, (InitialiseDriverList (P := always_grants) (A := three_modules)
      (V := winlogon_api true) (H := sample_hash) (G := sample_heads) (D := sample_driver_api)
      ≫= fun _ => mforeach (run_load (P := always_grants) (A := three_modules)
      (V := winlogon_api true) (H := sample_hash) (G := sample_heads) (D := sample_driver_api))
      sample_loads) (driver_state false idle_kernel [] []) = Ok (tt, st') /\
    drivers (G := sample_heads) (D := sample_driver_api) st' dl es [0x300] [ProcessEntry 0x500 4] /\
    entry_base <$> es = [0x1000].
Proof.
  destruct (driver_list_tracks_modules (P := always_grants) (A := three_modules)
    (V := winlogon_api true) (H := sample_hash) (G := sample_heads) (D := sample_driver_api)
    (HL := sample_hash_laws) (DL := sample_driver_laws) sample_world
    (driver_state false idle_kernel [] []) [0x300] [ProcessEntry 0x500 4] sample_loads
    sample_no_drivers) as (dl & es & dl0 & es0 & st' & H1 & D1 & _ & _ & _ & _ & _ & Hg & _).
  - by split.
  - constructor; [|constructor]. by apply sample_module_ok.
  - constructor; [|constructor; [done|constructor]]. intros _. by apply sample_module_ok.
  - vm_compute. repeat constructor; set_solver.
  - exists st', dl, es. split; [exact H1|]. split; [exact D1|].
    destruct Hg as [E0 E]; [by intros n used; eexists|]. rewrite E, E0. reflexivity.
Defined.

Lemma module_verdict_witness :
  exists st', ValidateSystemModule (P := always_grants) (A := three_modules)
      (V := winlogon_api true) (H := sample_hash) (G := sample_heads) (D := sample_driver_api)
      (ModuleInfo 0x1000 0x100 "ac.sys")
      (driver_state false idle_kernel [sample_driver_entry 115] []) = Ok (Some true, st').
Proof.
  destruct (module_verdict (P := always_grants) (A := three_modules)
    (V := winlogon_api true) (H := sample_hash) (G := sample_heads) (D := sample_driver_api)
    (HL := sample_hash_laws) (DL := sample_driver_laws)
    (driver_state false idle_kernel [sample_driver_entry 115] []) [0x700] [sample_driver_entry 115]
    [0x300] [ProcessEntry 0x500 4] (ModuleInfo 0x1000 0x100 "ac.sys") [sample_section]
    (sample_driver_entry 115)) as (v & st' & H1 & _ & _ & Hv).
  - by apply sample_drivers.
  - repeat constructor; set_solver.
  - by left.
  - reflexivity.
  - reflexivity.
  - by apply sample_module_ok.
  - exists st'. rewrite H1. destruct v as [b|].
    + destruct Hv as (h & (s & rest & [= <- <-] & ->) & ->). reflexivity.
    + destruct Hv. split; [intros; reflexivity|].
      split; [split_and!; [intros|..]; reflexivity|].
      split; [reflexivity|]. split; [reflexivity|]. split; [reflexivity|]. left. reflexivity.
Defined.

Definition long_name : string := String.concat "" (replicate 256 "a"%string).

Lemma unterminated_path_read_witness :
  ImageLoadNotifyRoutineCallback (P := always_grants) (A := three_modules)
    (V := winlogon_api true) (H := sample_hash) (G := sample_heads) (D := sample_driver_api)
    (Some long_name) (ImageInfo true 0x5000 0x100)
    (driver_state false idle_kernel [sample_driver_entry 115] []) = Crash OutOfBounds.
Proof.
  apply (unterminated_path_read (DL := sample_driver_laws)
    _ [0x700] [sample_driver_entry 115] [0x300] [ProcessEntry 0x500 4]); try reflexivity.
  - by apply sample_drivers.
  - cbn. rewrite elem_of_cons, elem_of_nil. intuition congruence.
  - intros n used. by eexists.
Defined.

Definition item_kernel : kernel := set_held {[+ WorkItem 0x77 +]} idle_kernel.

Lemma deferred_modules_hashed_once_witness :
  exists st', DeferredModuleHashingCallback (P := always_grants) (A := three_modules)
      (V := winlogon_api false) (H := sample_hash) (G := sample_heads) (D := sample_driver_api)
      (driver_state true item_kernel [sample_driver_entry 0] [0x700]) = Ok (tt, st') /\
    DeferredModuleHashingCallback (P := always_grants) (A := three_modules)
      (V := winlogon_api false) (H := sample_hash) (G := sample_heads) (D := sample_driver_api) st'
      = Crash BadFree.
Proof.
  destruct (deferred_modules_hashed_once (P := always_grants) (A := three_modules)
    (V := winlogon_api false) (H := sample_hash) (G := sample_heads) (D := sample_driver_api)
    (HL := sample_hash_laws) (DL := sample_driver_laws) sample_world
    (driver_state true item_kernel [sample_driver_entry 0] [0x700]) [0x700] [sample_driver_entry 0]
    [0x300] [ProcessEntry 0x500 4] ∅) as (es' & st' & H1 & _ & _ & _ & Hf).
  - by apply sample_drivers.
  - repeat constructor; set_solver.
  - constructor; [|constructor]. split; [by left|]. exists (sample_driver_entry 0).
    split; [reflexivity|]. split; [reflexivity|]. by apply sample_module_ok.
  - symmetry. apply (left_id_L ∅ (⊎)).
  - exists st'. split; [exact H1|]. apply Hf; [reflexivity|].
    vm_compute. intros Hx. inversion Hx.
Defined.
