(* ===== verification/ProcessModule.v ===== *)
(** * integrity.c: validation of a module of the protected process

    The client names a module of the protected process; the driver copies its
    executable sections out of the process, maps the file the module was loaded
    from, copies the sections of that image, hashes the first section of both and
    reports a difference. *)

From stdpp Require Import gmultiset.
From S2P Require Import Prelude Layout Irp Structs Kernel Modules Session Handles Lists.
From S2P Require Import Callbacks Hashing ModuleHash.

(** ** Data *)

(** The client's request: the fields of [PROCESS_MODULE_INFORMATION]. *)
Record module_request := ModuleRequest {
  module_base : Z;
  module_size : Z;
  module_path : list Z;
}.

Definition read_request (buf : list Z) : res module_request :=
  let m := mem_of 0 buf in
  base ← load_field m PROCESS_MODULE_INFORMATION 0 "module_base" 8;
  size ← load_field m PROCESS_MODULE_INFORMATION 0 "module_size" 8;
  path ← read_bytes m (offsetof PROCESS_MODULE_INFORMATION "module_path")
           (Z.to_nat (MAX_MODULE_PATH * 2));
  Ok (ModuleRequest base size path).

(** [RtlInitUnicodeString] looks for the terminator of the path. *)
Fixpoint wide_terminated (path : list Z) : bool :=
  match path with
  | lo :: hi :: path => (lo =? 0) && (hi =? 0) || wide_terminated path
  | _ => false
  end.

Definition RtlInitUnicodeString (path : list Z) : res unit :=
  if wide_terminated path then Ok tt else Crash OutOfBounds.

(** Files and sections: the handle of a file, the handle of its image section,
    the address and size of a view of it; the memory seen while attached to a
    process and the memory of the view. *)
Class DiskApi := {
  ZwOpenFile : list Z -> NTSTATUS * Z;
  ZwCreateSection : Z -> NTSTATUS * Z;
  ZwMapViewOfSection : Z -> NTSTATUS * Z * Z;
  attached_memory : Z -> memory;
  view_memory : memory;
}.

Class DiskLaws (F : DiskApi) : Prop := {
  section_handle h : NT_SUCCESS (ZwCreateSection h).1 = true -> (ZwCreateSection h).2 <> 0;
  view_address h : NT_SUCCESS (ZwMapViewOfSection h).1.1 = true -> (ZwMapViewOfSection h).1.2 <> 0;
  no_view h : NT_SUCCESS (ZwMapViewOfSection h).1.1 = false -> (ZwMapViewOfSection h).1.2 = 0;
}.

Section operations.
Context {P : Pool} {K : ReportSink} {V : HandleApi} {H : HashApi} {F : DiskApi}.

Abbreviation M := (KM kernel).

Definition ZwClose (handle : Z) : M unit := release (OpenHandle handle).

(** The status, the section handle, the view and its size. *)
Definition MapDiskImageIntoVirtualAddressSpace (Path : list Z) : M (NTSTATUS * Z * Z * Z) :=
  _ ← lift (RtlInitUnicodeString Path);
  let '(status, file_handle) := ZwOpenFile Path in
  if negb (NT_SUCCESS status) then mret (status, 0, 0, 0)
  else
    acquire (OpenHandle file_handle) ≫= fun _ =>
    let '(status, SectionHandle) := ZwCreateSection file_handle in
    if negb (NT_SUCCESS status) then
      ZwClose file_handle ≫= fun _ => mret (status, 0, 0, 0)
    else
      acquire (OpenHandle SectionHandle) ≫= fun _ =>
      let '(status, view, Size) := ZwMapViewOfSection SectionHandle in
      if negb (NT_SUCCESS status) then
        ZwClose file_handle ≫= fun _ =>
        ZwClose SectionHandle ≫= fun _ =>
        mret (status, 0, view, Size)
      else
        acquire (SectionView view) ≫= fun _ =>
        ZwClose file_handle ≫= fun _ =>
        mret (status, SectionHandle, view, Size).

(** The status and both hashes with their sizes. *)
Definition ComputeHashOfSections (DiskSection MemorySection : option buffer)
  : M (NTSTATUS * option buffer * Z * option buffer * Z) :=
  disk_size ← lift (raw_size DiskSection);
  memory_size ← lift (raw_size MemorySection);
  if negb (disk_size =? memory_size) then mret (STATUS_INVALID_BUFFER_SIZE, None, 0, None, 0)
  else
    disk_data ← lift (first_section DiskSection);
    '(status, DiskHash, DiskHashSize) ← ComputeHashOfBuffer disk_data;
    if negb (NT_SUCCESS status) then mret (status, DiskHash, DiskHashSize, None, 0)
    else
      memory_data ← lift (first_section MemorySection);
      '(status, MemoryHash, MemoryHashSize) ← ComputeHashOfBuffer memory_data;
      mret (status, DiskHash, DiskHashSize, MemoryHash, MemoryHashSize).

Definition ReportInvalidProcessModule (Module : module_request) : M unit :=
  complete_report (sizeof PROCESS_MODULE_VALIDATION_REPORT) REPORT_POOL_TAG
    (Ok (InvalidProcessModule REPORT_INVALID_PROCESS_MODULE (module_base Module)
           (u32 (module_size Module)) (module_path Module))).

Definition free_buffer (b : option buffer) : M unit :=
  match b with
  | Some b => ExFreePoolWithTag (buf_address b) POOL_TAG_INTEGRITY
  | None => mret tt
  end.

(** The label [end]. *)
Definition module_cleanup (section_handle section : Z)
  (memory_buffer memory_hash disk_buffer disk_hash : option buffer) : M unit :=
  when (negb (section_handle =? 0)) (ZwClose section_handle) ≫= fun _ =>
  when (negb (section =? 0)) (release (SectionView section)) ≫= fun _ =>
  free_buffer memory_buffer ≫= fun _ =>
  free_buffer memory_hash ≫= fun _ =>
  free_buffer disk_buffer ≫= fun _ =>
  free_buffer disk_hash.

(** The part of [ValidateProcessLoadedModule] after the file has been mapped. *)
Definition compare_with_disk (module_info : module_request) (section_handle section section_size : Z)
  (memory_buffer : option buffer) : M NTSTATUS :=
  '(status, disk_buffer, _) ← StoreModuleExecutableRegionsInBuffer view_memory section
    (u32 section_size) false;
  if negb (NT_SUCCESS status) then
    module_cleanup section_handle section memory_buffer None disk_buffer None ≫= fun _ =>
    mret status
  else
    '(status, disk_hash, _, memory_hash, memory_hash_size) ←
      ComputeHashOfSections memory_buffer disk_buffer;
    (if negb (NT_SUCCESS status) then mret tt
     else
       match disk_hash, memory_hash with
       | Some d, Some h =>
           same ← lift (CompareHashes (contents d) (contents h) memory_hash_size);
           when (negb same) (ReportInvalidProcessModule module_info)
       | _, _ => crash NullDereference
       end) ≫= fun _ =>
    module_cleanup section_handle section memory_buffer memory_hash disk_buffer disk_hash
      ≫= fun _ =>
    mret status.

(** The part after the session was asked for the protected process. *)
Definition validate_module (process_ : Z) (module_info : module_request) : M NTSTATUS :=
  if process_ =? 0 then crash NullDereference
  else
    acquire (AttachedProcess process_) ≫= fun _ =>
    '(status, memory_buffer, _) ← StoreModuleExecutableRegionsInBuffer (attached_memory process_)
      (module_base module_info) (module_size module_info) false;
    release (AttachedProcess process_) ≫= fun _ =>
    if negb (NT_SUCCESS status) then
      module_cleanup 0 0 memory_buffer None None None ≫= fun _ => mret status
    else
      '(status, section_handle, section, section_size) ←
        MapDiskImageIntoVirtualAddressSpace (module_path module_info);
      if negb (NT_SUCCESS status) then
        module_cleanup section_handle section memory_buffer None None None ≫= fun _ => mret status
      else
        compare_with_disk module_info section_handle section section_size memory_buffer.

Definition ValidateProcessLoadedModule (Irp : option IRP) : KM h_state NTSTATUS :=
  let status := ValidateIrpInputBuffer Irp (sizeof PROCESS_MODULE_INFORMATION) in
  if negb (NT_SUCCESS status) then mret status
  else
    match Irp with
    | None => crash NullDereference
    | Some irp =>
        module_info ← lift (read_request (SystemBuffer irp));
        process_ ← on_session SessionGetProcess;
        _ ← lift (RtlInitUnicodeString (module_path module_info));
        on_kernel (validate_module process_ module_info)
    end.

End operations.

(** ** Specification *)

Section specification.
Context {P : Pool} {K : ReportSink} {V : HandleApi} {H : HashApi} {F : DiskApi}.

(** What is found: the module's image in the process with the sections [vm]
    before its last, and, when the file can be mapped, its image with the sections
    [vd]. *)
Record module_world (process_ : Z) (req : module_request) (vm vd : list section) : Prop := {
  mw_process : process_ <> 0;
  mw_path : wide_terminated (module_path req) = true;
  mw_memory : module_image (attached_memory process_)
    (ModuleInfo (module_base req) (module_size req) "") vm;
  mw_valid : MmIsAddressValid (module_base req) = true;
  mw_disk h : NT_SUCCESS (ZwMapViewOfSection h).1.1 = true ->
    MmIsAddressValid (ZwMapViewOfSection h).1.2 = true /\
    module_image view_memory
      (ModuleInfo (ZwMapViewOfSection h).1.2 (u32 (ZwMapViewOfSection h).2) "") vd;
}.

(** The file can be opened and mapped. *)
Definition can_map (path : list Z) : bool :=
  NT_SUCCESS (ZwOpenFile path).1 && NT_SUCCESS (ZwCreateSection (ZwOpenFile path).2).1 &&
  NT_SUCCESS (ZwMapViewOfSection (ZwCreateSection (ZwOpenFile path).2).2).1.1.

(** The report for a module. *)
Definition module_report (req : module_request) : report * Z :=
  (InvalidProcessModule REPORT_INVALID_PROCESS_MODULE (module_base req) (u32 (module_size req))
     (module_path req), sizeof PROCESS_MODULE_VALIDATION_REPORT).

(** What is reported for the first executable sections of the module in memory
    and on disk: a difference between sections of the same length. *)
Definition section_reports (req : module_request) (m d : section) : list (report * Z) :=
  if (zlen (raw_data m) =? zlen (raw_data d)) &&
     negb (bool_decide (sha256 (raw_data m) = sha256 (raw_data d)))
  then [module_report req] else [].

(** ** Lemmas *)

Definition opt_resource (h : Z) (r : resource) : gmultiset resource :=
  if h =? 0 then ∅ else {[+ r +]}.

Lemma when_release h r k m :
  Kernel.held k = m ⊎ opt_resource h r ->
  when (negb (h =? 0)) (release r) k = Ok (tt, set_held m k).
Proof.
  unfold opt_resource. intros Hk. destruct (h =? 0); cbn [negb when].
  - rewrite (right_id_L ∅ (⊎)) in Hk. rewrite <- Hk. by destruct k.
  - by apply release_last.
Qed.

Definition cleanup_resources (sh view : Z) (mb mh db dh : option buffer) : gmultiset resource :=
  opt_resource sh (OpenHandle sh) ⊎ opt_resource view (SectionView view) ⊎ opt_block mb ⊎
  opt_block mh ⊎ opt_block db ⊎ opt_block dh.

Lemma module_leave {Y} sh view mb mh db dh m k (r : Y) :
  Kernel.held k = m ⊎ cleanup_resources sh view mb mh db dh ->
  (module_cleanup sh view mb mh db dh ≫= fun _ => mret r) k = Ok (r, set_held m k).
Proof.
  unfold cleanup_resources. intros Hk.
  erewrite KM_step; [done|]. unfold module_cleanup, free_buffer.
  erewrite KM_step. 2: {
    apply (when_release _ _ _ (m ⊎ opt_resource view (SectionView view) ⊎ opt_block mb ⊎
      opt_block mh ⊎ opt_block db ⊎ opt_block dh)). rewrite Hk. clear. multiset_solver. }
  erewrite KM_step. 2: {
    apply (when_release _ _ _ (m ⊎ opt_block mb ⊎ opt_block mh ⊎ opt_block db ⊎ opt_block dh)).
    cbn. clear. multiset_solver. }
  erewrite KM_step. 2: {
    apply (opt_free_spec mb (m ⊎ opt_block mh ⊎ opt_block db ⊎ opt_block dh)).
    cbn. clear. multiset_solver. }
  erewrite KM_step. 2: {
    apply (opt_free_spec mh (m ⊎ opt_block db ⊎ opt_block dh)). cbn. clear. multiset_solver. }
  erewrite KM_step. 2: { apply (opt_free_spec db (m ⊎ opt_block dh)). cbn. clear. multiset_solver. }
  by rewrite (opt_free_spec dh m).
Qed.

(** The outcome of mapping the file. *)
Lemma map_image_spec {FL : DiskLaws F} path k :
  wide_terminated path = true -> kernel_wf k ->
  exists status sh view size k', MapDiskImageIntoVirtualAddressSpace path k
      = Ok ((status, sh, view, size), k') /\ kernel_wf k' /\ sent k' = sent k /\
    NT_SUCCESS status = can_map path /\
    Kernel.held k' = Kernel.held k ⊎ opt_resource sh (OpenHandle sh) ⊎
                     opt_resource view (SectionView view) /\
    (NT_SUCCESS status = true ->
     (NT_SUCCESS (ZwMapViewOfSection sh).1.1 = true /\ view = (ZwMapViewOfSection sh).1.2 /\
      size = (ZwMapViewOfSection sh).2)).
Proof.
  intros Hp W. unfold MapDiskImageIntoVirtualAddressSpace, RtlInitUnicodeString, can_map, ZwClose.
  rewrite Hp. setoid_rewrite lift_step. destruct (ZwOpenFile path) as [st1 file]. cbn [fst snd].
  destruct (NT_SUCCESS st1) eqn:E1; cbn [negb andb].
  2: { eexists _, _, _, _, _. split; [done|]. split_and!; try done; try congruence.
       unfold opt_resource. cbn. clear. multiset_solver. }
  setoid_rewrite KM_step; [|done]. pose proof (section_handle file) as Hs.
  destruct (ZwCreateSection file) as [st2 sh]. cbn [fst snd] in *.
  destruct (NT_SUCCESS st2) eqn:E2; cbn [negb andb].
  2: { setoid_rewrite KM_step; [|by apply (release_last _ (Kernel.held k))].
       eexists _, _, _, _, _. split; [done|]. split_and!; try done; try congruence.
       unfold opt_resource. cbn. clear. multiset_solver. }
  specialize (Hs eq_refl). setoid_rewrite KM_step; [|done].
  pose proof (view_address sh) as Hv. pose proof (no_view sh) as Hv0.
  destruct (ZwMapViewOfSection sh) as [[st3 view] size] eqn:Em. cbn [fst snd] in *.
  destruct (NT_SUCCESS st3) eqn:E3; cbn [negb].
  - specialize (Hv eq_refl). setoid_rewrite KM_step; [|done].
    setoid_rewrite KM_step; [|apply (release_last _ (Kernel.held k ⊎ {[+ OpenHandle sh +]} ⊎
      {[+ SectionView view +]})); cbn; clear; multiset_solver].
    eexists _, _, _, _, _. split; [done|]. rewrite Em. split_and!; try done.
    unfold opt_resource. destruct (Z.eqb_spec sh 0), (Z.eqb_spec view 0); done.
  - setoid_rewrite KM_step; [|apply (release_last _ (Kernel.held k ⊎ {[+ OpenHandle sh +]}));
      cbn; clear; multiset_solver].
    setoid_rewrite KM_step; [|by apply (release_last _ (Kernel.held k))].
    eexists _, _, _, _, _. split; [done|]. split_and!; try done; try congruence.
    rewrite (Hv0 eq_refl). cbn. clear. multiset_solver.
Qed.

(** The hashes of two sections. *)
Lemma hash_both_spec {HL : HashLaws H} mb db (m d : list Z) k :
  kernel_wf k -> raw_size mb = Ok (zlen m) -> raw_size db = Ok (zlen d) ->
  first_section mb = Ok m -> first_section db = Ok d ->
  exists status dh dn mh mn k' extra, ComputeHashOfSections mb db k
      = Ok ((status, dh, dn, mh, mn), k') /\ kernel_wf k' /\ sent k' = sent k /\
    Kernel.held k' = Kernel.held k ⊎ extra ⊎ opt_block dh ⊎ opt_block mh /\
    (finishes_hash = true -> extra = ∅) /\
    (NT_SUCCESS status = true -> zlen m = zlen d /\
       (contents <$> dh) = Some (sha256 m) /\ (contents <$> mh) = Some (sha256 d) /\
       mn = SHA_256_HASH_LENGTH) /\
    (can_start_hash -> finishes_hash = true -> zlen m = zlen d -> NT_SUCCESS status = true).
Proof.
  intros W Rm Rd Fm Fd. unfold ComputeHashOfSections. rewrite Rm, Rd. do 2 setoid_rewrite lift_step.
  destruct (Z.eqb_spec (zlen m) (zlen d)) as [E|E]; cbn [negb].
  2: { eexists _, _, _, _, _, _, ∅. split; [done|]. split_and!; try done. cbn. clear. multiset_solver. }
  rewrite Fm, Fd. setoid_rewrite lift_step.
  destruct (ComputeHashOfBuffer_spec k m W) as (r1 & k1 & H1 & W1 & S1 & O1).
  setoid_rewrite (KM_step _ _ _ _ _ H1).
  inversion O1 as [st1 p F1 Hp Hf1 Hh1|st1 F1 Hh1 Hc1|st1 p F1 Hh1 Hf1]; subst r1; cbn beta iota;
    rewrite F1; cbn [negb].
  2: { eexists _, _, _, _, _, _, ∅. split; [done|]. split_and!; try done; try congruence.
       rewrite Hh1. cbn. clear. multiset_solver. }
  2: { eexists _, _, _, _, _, _, {[+ Block p POOL_TAG_INTEGRITY +]}. split; [done|].
       split_and!; try done; try congruence. rewrite Hh1. cbn. clear. multiset_solver. }
  setoid_rewrite lift_step.
  destruct (ComputeHashOfBuffer_spec k1 d W1) as (r2 & k2 & H2 & W2 & S2 & O2).
  setoid_rewrite (KM_step _ _ _ _ _ H2).
  inversion O2 as [st2 q F2 Hq Hf2 Hh2|st2 F2 Hh2 Hc2|st2 q F2 Hh2 Hf2]; subst r2; cbn beta iota.
  - eexists _, _, _, _, _, _, ∅. split; [done|]. split_and!; try done; try congruence.
    rewrite Hh2, Hh1. cbn. clear. multiset_solver.
  - eexists _, _, _, _, _, _, ∅. split; [done|]. split_and!; try done; try congruence.
    rewrite Hh2, Hh1. cbn. clear. multiset_solver.
  - congruence.
Qed.

(** What a run of the check does: reports [rs] if memory suffices, loses
    [extra]. *)
Record checked (k k' : kernel) (rs : list (report * Z)) : Prop := {
  ck_wf : kernel_wf k';
  ck_held : exists extra, Kernel.held k' = Kernel.held k ⊎ extra /\ (finishes_hash = true -> extra = ∅);
  ck_sent : sent k' = sent k \/ sent k' = sent k ++ rs;
  ck_reported : (forall n, pool_grants n = true) -> sent k' = sent k ++ rs;
}.

(** Leaving without a report. *)
Lemma leave_checked k0 k sh view mb mh db dh extra (status : NTSTATUS) :
  kernel_wf k -> sent k = sent k0 ->
  Kernel.held k = Kernel.held k0 ⊎ extra ⊎ cleanup_resources sh view mb mh db dh ->
  (finishes_hash = true -> extra = ∅) ->
  exists k', (module_cleanup sh view mb mh db dh ≫= fun _ => mret status) k = Ok (status, k') /\
    checked k0 k' [].
Proof.
  intros W S Hh Fe. rewrite (module_leave _ _ _ _ _ _ _ _ status Hh). eexists. split; [done|].
  split; [done|by exists extra|by left|]. intros _. by rewrite app_nil_r.
Qed.

(** The comparison and the report. *)
Lemma compare_and_report req k m d p q mn :
  kernel_wf k -> zlen m = mn -> zlen d = mn ->
  exists k', (same ← lift (CompareHashes (contents (Buffer p m)) (contents (Buffer q d)) mn);
    when (negb same) (ReportInvalidProcessModule req)) k = Ok (tt, k') /\
    kernel_wf k' /\ Kernel.held k' = Kernel.held k /\
    let rs := if bool_decide (m = d) then [] else [module_report req] in
    (sent k' = sent k \/ sent k' = sent k ++ rs) /\
    ((forall n, pool_grants n = true) -> sent k' = sent k ++ rs).
Proof.
  intros W Hm Hd. unfold CompareHashes. cbn [contents]. rewrite Hm, Hd, Z.ltb_irrefl. cbn [orb].
  rewrite !take_ge by (unfold zlen in *; lia). rewrite lift_step.
  case_bool_decide; cbn [negb when].
  - exists k. split; [done|]. split; [done|]. split; [done|]. rewrite app_nil_r. by split; [left|].
  - unfold ReportInvalidProcessModule. rewrite complete_report_spec by done. eexists. split; [done|].
    split; [by apply reported_wf|]. split; [apply reported_held|]. unfold reported. split.
    + case_match; cbn; [by right|by left].
    + intros Hg. by rewrite Hg.
Qed.

(** The part after the file has been mapped, for a module whose first executable
    section in memory is [sm]. *)
Lemma compare_with_disk_spec {HL : HashLaws H} req sh view size mb k0 k vd (sm : section) :
  kernel_wf k -> sent k = sent k0 ->
  Kernel.held k = Kernel.held k0 ⊎ cleanup_resources sh view mb None None None ->
  MmIsAddressValid view = true ->
  module_image view_memory (ModuleInfo view (u32 size) "") vd ->
  raw_size mb = Ok (zlen (raw_data sm)) -> first_section mb = Ok (raw_data sm) ->
  exists status k' rs, compare_with_disk req sh view size mb k = Ok (status, k') /\ checked k0 k' rs /\
    (rs = [] \/ exists sd rd, executables vd = sd :: rd /\ rs = section_reports req sm sd) /\
    (can_start_hash -> finishes_hash = true -> forall sd rd, executables vd = sd :: rd ->
     rs = section_reports req sm sd /\
     NT_SUCCESS status = (zlen (raw_data sm) =? zlen (raw_data sd))).
Proof.
  intros W S Hh Hv Hd Rm Fm. unfold compare_with_disk.
  destruct (store_cases view_memory _ vd false k W Hd) as (r & k1 & H1 & W1 & S1 & O1 & G1);
    [cbn; by rewrite Hv|]. cbn [ImageBase ImageSize] in *.
  setoid_rewrite (KM_step _ _ _ _ _ H1).
  destruct O1 as [(st1 & -> & F1 & H1h)|(p & -> & H1h)]; cbn beta iota.
  { rewrite F1. cbn [negb]. destruct (leave_checked k0 k1 sh view mb None None None ∅ st1)
      as (k' & H2 & C2); [done|congruence| |done|].
    { rewrite H1h, Hh. by rewrite (right_id_L ∅ (⊎)). }
    exists st1, k', []. split; [done|]. split; [done|]. split; [by left|].
    intros (Hg & _). by destruct (G1 Hg) as [? [=]]. }
  set (db := Some (Buffer p _)).
  assert (Kernel.held k1 = Kernel.held k0 ⊎ ∅ ⊎ cleanup_resources sh view mb None db None) as H1h'.
  { rewrite H1h, Hh. unfold cleanup_resources, db. cbn. clear. multiset_solver. }
  destruct (existsb executable vd) eqn:Ex.
  2: { change (negb (NT_SUCCESS STATUS_UNSUCCESSFUL)) with true. cbn iota.
       destruct (leave_checked k0 k1 sh view mb None db None ∅ STATUS_UNSUCCESSFUL)
         as (k' & H2 & C2); [done|congruence|done|done|].
       eexists _, k', []. split; [done|]. split; [done|]. split; [by left|].
       intros _ _ sd rd E. assert (existsb executable vd = true) as E'
         by (apply existsb_executables; eauto). congruence. }
  change (negb (NT_SUCCESS STATUS_SUCCESS)) with false. cbn iota.
  apply existsb_executables in Ex as (sd & rd & Ex).
  destruct (first_section_spec view_memory _ vd sd rd p Hd Ex) as [Rd Fd]. cbn [ImageSize] in Rd, Fd.
  destruct (hash_both_spec mb db (raw_data sm) (raw_data sd) k1 W1 Rm Rd Fm Fd)
    as (st2 & dh & dn & mh & mn & k2 & extra & H2 & W2 & S2 & H2h & E2 & R2 & C2).
  setoid_rewrite (KM_step _ _ _ _ _ H2). cbn beta iota.
  assert (Kernel.held k2 = Kernel.held k0 ⊎ extra ⊎ cleanup_resources sh view mb mh db dh) as H2h'.
  { rewrite H2h, H1h'. unfold cleanup_resources. cbn. clear. multiset_solver. }
  destruct (NT_SUCCESS st2) eqn:F2; cbn [negb].
  - destruct (R2 eq_refl) as (Hz & Hdh & Hmh & ->). destruct dh as [[pd hm]|], mh as [[pm hd]|]; try done.
    cbn in Hdh, Hmh. injection Hdh as ->. injection Hmh as ->.
    destruct (compare_and_report req k2 (sha256 (raw_data sm)) (sha256 (raw_data sd)) pd pm
      SHA_256_HASH_LENGTH W2 (sha256_length _) (sha256_length _)) as (k3 & H3 & W3 & H3h & S3 & G3).
    setoid_rewrite (KM_step _ _ _ _ _ H3). rewrite <- H3h in H2h'.
    setoid_rewrite (module_leave _ _ _ _ _ _ _ _ st2 H2h').
    assert ((if bool_decide (sha256 (raw_data sm) = sha256 (raw_data sd)) then [] else [module_report req])
      = section_reports req sm sd) as Hrs.
    { unfold section_reports. rewrite Hz, Z.eqb_refl. by case_bool_decide. }
    rewrite Hrs in *. exists st2, (set_held (Kernel.held k0 ⊎ extra) k3), (section_reports req sm sd).
    split; [done|]. split.
    { assert (sent k2 = sent k0) as S20 by congruence. rewrite S20 in *. split; try done. by exists extra. }
    split; [right; by eexists _, _|]. intros _ _ sd' rd' E'. rewrite E' in Ex. injection Ex as -> ->.
    by rewrite F2, Hz, Z.eqb_refl.
  - erewrite KM_step by done.
    destruct (leave_checked k0 k2 sh view mb mh db dh extra st2) as (k' & H3 & C3);
      [done|congruence|done|done|].
    exists st2, k', []. split; [done|]. split; [done|]. split; [by left|].
    intros Hc Hf sd' rd' E'. rewrite E' in Ex. injection Ex as -> ->. rewrite F2.
    unfold section_reports. destruct (Z.eqb_spec (zlen (raw_data sm)) (zlen (raw_data sd))) as [E|E]; [|done].
    by specialize (C2 Hc Hf E).
Qed.

(** The outcome of a check in a given world. *)
Definition check_outcome (req : module_request) (vm vd : list section) (status : NTSTATUS)
  (rs : list (report * Z)) : Prop :=
  (rs = [] \/ exists sm rm sd rd, executables vm = sm :: rm /\ executables vd = sd :: rd /\
                rs = section_reports req sm sd) /\
  (can_start_hash -> finishes_hash = true -> can_map (module_path req) = true ->
   forall sm rm sd rd, executables vm = sm :: rm -> executables vd = sd :: rd ->
   rs = section_reports req sm sd /\
   NT_SUCCESS status = (zlen (raw_data sm) =? zlen (raw_data sd))).

Lemma validate_module_spec {HL : HashLaws H} {FL : DiskLaws F} p req vm vd k :
  module_world p req vm vd -> kernel_wf k ->
  exists status k' rs, validate_module p req k = Ok (status, k') /\ checked k k' rs /\
    check_outcome req vm vd status rs.
Proof.
  intros [Hp Hpath Hmem Hval Hdisk] W. unfold validate_module.
  destruct (Z.eqb_spec p 0); [done|]. setoid_rewrite KM_step; [|done].
  set (k1 := set_held (Kernel.held k ⊎ {[+ AttachedProcess p +]}) k).
  destruct (store_cases _ _ vm false k1 W Hmem) as (r & k2 & H2 & W2 & S2 & O2 & G2);
    [cbn; by rewrite Hval|]. cbn [ImageBase ImageSize] in *. setoid_rewrite (KM_step _ _ _ _ _ H2).
  assert (Kernel.held k2 = Kernel.held k ⊎ opt_block r.1.2 ⊎ {[+ AttachedProcess p +]}) as H2h.
  { destruct O2 as [(? & -> & _ & ->)|(? & -> & ->)]; cbn; clear; multiset_solver. }
  set (k3 := set_held (Kernel.held k ⊎ opt_block r.1.2) k2).
  assert (release (AttachedProcess p) k2 = Ok (tt, k3)) as H3 by by apply release_last.
  destruct O2 as [(st1 & -> & F1 & _)|(a & -> & _)]; cbn beta iota; setoid_rewrite (KM_step _ _ _ _ _ H3).
  { rewrite F1. cbn [negb]. destruct (leave_checked k k3 0 0 None None None None ∅ st1)
      as (k' & H4 & C4); [done|done| |done|].
    { unfold k3, cleanup_resources, opt_resource. cbn [Kernel.held set_held opt_block fst snd Z.eqb buf_address]. clear. multiset_solver. }
    exists st1, k', []. split; [done|]. split; [done|]. split; [by left|].
    intros (Hg & _). by destruct (G2 Hg) as [? [=]]. }
  set (mb := Some (Buffer a _)) in *. cbn [fst snd] in k3.
  destruct (existsb executable vm) eqn:Ex.
  2: { change (negb (NT_SUCCESS STATUS_UNSUCCESSFUL)) with true. cbn iota.
       destruct (leave_checked k k3 0 0 mb None None None ∅ STATUS_UNSUCCESSFUL)
         as (k' & H4 & C4); [done|done| |done|].
       { unfold k3, mb, cleanup_resources, opt_resource. cbn [Kernel.held set_held opt_block fst snd Z.eqb buf_address]. clear. multiset_solver. }
       eexists _, k', []. split; [done|]. split; [done|]. split; [by left|].
       intros _ _ _ sm rm sd rd E. assert (existsb executable vm = true) as E'
         by (apply existsb_executables; eauto). congruence. }
  change (negb (NT_SUCCESS STATUS_SUCCESS)) with false. cbn iota.
  apply existsb_executables in Ex as (sm & rm & Ex).
  destruct (first_section_spec _ _ vm sm rm a Hmem Ex) as [Rm Fm]. cbn [ImageSize] in Rm, Fm.
  destruct (map_image_spec (module_path req) k3 Hpath W2)
    as (st2 & sh & view & size & k4 & H4 & W4 & S4 & F4 & H4h & R4).
  setoid_rewrite (KM_step _ _ _ _ _ H4). cbn beta iota.
  assert (Kernel.held k4 = Kernel.held k ⊎ cleanup_resources sh view mb None None None) as H4h'.
  { rewrite H4h. unfold k3, mb, cleanup_resources, opt_resource. cbn [Kernel.held set_held opt_block fst snd Z.eqb buf_address]. clear. multiset_solver. }
  destruct (NT_SUCCESS st2) eqn:E2; cbn [negb].
  - destruct (R4 eq_refl) as (Em & -> & ->). destruct (Hdisk sh Em) as [Hv Hd].
    destruct (compare_with_disk_spec req sh _ _ mb k k4 vd sm W4 (eq_trans S4 S2) H4h' Hv Hd Rm Fm)
      as (st3 & k5 & rs & H5 & C5 & R5 & G5).
    exists st3, k5, rs. split; [exact H5|]. split; [done|]. split.
    + destruct R5 as [->|(sd & rd & Ed & ->)]; [by left|]. right. by exists sm, rm, sd, rd.
    + intros Hc Hf _ sm' rm' sd rd Em' Ed. rewrite Em' in Ex. injection Ex as -> ->. by eapply G5.
  - destruct (leave_checked k k4 sh view mb None None None ∅ st2) as (k' & H5 & C5);
      [done|exact (eq_trans S4 S2)|by rewrite (right_id_L ∅ (⊎))|done|].
    exists st2, k', []. split; [exact H5|]. split; [done|]. split; [by left|].
    intros _ _ Hc. congruence.
Qed.

End specification.

(** ** Properties *)

Section properties.
Context {P : Pool} {K : ReportSink} {V : HandleApi} {H : HashApi} {F : DiskApi}.

(** The bytes of a request. *)
Definition request_bytes (req : module_request) : list Z :=
  le_bytes 8 (module_base req) ++ le_bytes 8 (module_size req) ++ module_path req.

Lemma read_request_ok req rest :
  0 <= module_base req < 2 ^ 64 -> 0 <= module_size req < 2 ^ 64 -> zlen (module_path req) = 512 ->
  read_request (request_bytes req ++ rest) = Ok req.
Proof.
  intros Hb Hs Hp. unfold read_request, request_bytes, load_field.
  change (0 + offsetof PROCESS_MODULE_INFORMATION "module_base") with (zlen (@nil Z)).
  rewrite <- !(assoc_L (++)).
  pose proof (load_middle [] 8 (module_base req)
    (le_bytes 8 (module_size req) ++ module_path req ++ rest)) as E.
  rewrite app_nil_l in E. rewrite E by (cbn in *; lia). cbn [mbind res_bind].
  assert (0 + offsetof PROCESS_MODULE_INFORMATION "module_size" = zlen (le_bytes 8 (module_base req)))
    as -> by (unfold zlen; by rewrite length_le_bytes).
  rewrite load_middle by (cbn in *; lia). cbn [mbind res_bind].
  assert (offsetof PROCESS_MODULE_INFORMATION "module_path"
    = zlen (le_bytes 8 (module_base req) ++ le_bytes 8 (module_size req))) as ->
    by (unfold zlen; by rewrite length_app, !length_le_bytes).
  replace (Z.to_nat (MAX_MODULE_PATH * 2)) with (length (module_path req))
    by (unfold zlen in Hp; change (MAX_MODULE_PATH * 2) with 512; lia).
  rewrite (assoc_L (++)), read_bytes_app. cbn [mbind res_bind]. by destruct req.
Qed.


End properties.

(** ** Witnesses *)

(** In memory the first instruction of the module has been replaced by a
    breakpoint. *)
Definition patched_image : list Z :=
  take 0xa8 sample_image ++ [0xcc; 0x90; 0x90; 0xc3].
Definition patched_section : section :=
  Section_ (section_header 0x60000020) 0x60000020 0xa8 [0xcc; 0x90; 0x90; 0xc3].

Definition sample_disk : DiskApi := {|
  ZwOpenFile := fun _ => (STATUS_SUCCESS, 0x20);
  ZwCreateSection := fun _ => (STATUS_SUCCESS, 0x24);
  ZwMapViewOfSection := fun _ => (STATUS_SUCCESS, 0x1000, 0x100);
  attached_memory := fun _ => mem_of 0x1000 patched_image;
  view_memory := mem_of 0x1000 sample_image;
|}.

Lemma sample_disk_laws : DiskLaws sample_disk.
Proof. by split. Qed.

Definition sample_module_request : module_request := ModuleRequest 0x1000 0x100 (replicate 512 0).
Definition module_irp : IRP :=
  Irp (Some (IoStack 528 0 0)) (request_bytes sample_module_request) 0 0.

Lemma sample_module_world :
  module_world (V := sample_handles) (F := sample_disk) 0x9090909090909090 sample_module_request
    [patched_section] [sample_section].
Proof.
  split; try done.
  - split; [|done|split; reflexivity|vm_compute; discriminate]. exists 0x40, 0. split; try reflexivity.
    intros [|i] s Hi; [|done]. injection Hi as <-. by split.
  - intros h _. split; [done|]. split; [|done|split; reflexivity|vm_compute; discriminate].
    exists 0x40, 0. apply sample_image_at.
Qed.

