(* ===== verification/Verification.v ===== *)
(** * integrity.c: the concurrent verification of all system modules

    A request starts up to four work items that validate the modules in blocks of
    25; further requests start new work items until a worker has reached the end
    of the list, and the request after that frees everything.  The workers and the
    requests share one context.  Each worker is a program counter with its local
    variables and takes one access to the context per step, so that every
    interleaving of the C code's accesses is an interleaving of steps here.
    [ValidateSystemModule] itself is modelled in DriverList.v; here a call to it is
    an entry in a log. *)

From S2P Require Import Prelude.

(** ** Data *)

Definition VERIFICATION_THREAD_COUNT : nat := 4.
Definition VALIDATION_BLOCK_SIZE : Z := 25.

(** [validated] of each [MODULE_DISPATCHER_HEADER]; [module_info] is whether the
    module list is allocated, and [dispatcher_info] is [None] for a null
    pointer. *)
Record SYS_MODULE_VAL_CONTEXT := ValContext {
  active_thread_count : Z;
  active : bool;
  complete : bool;
  current_count : Z;
  total_count : Z;
  block_size : Z;
  module_info : bool;
  dispatcher_info : option (list bool);
  work_items : list Z;
}.

Definition set_threads (n : Z) (c : SYS_MODULE_VAL_CONTEXT) : SYS_MODULE_VAL_CONTEXT :=
  ValContext n (active c) (complete c) (current_count c) (total_count c) (block_size c)
    (module_info c) (dispatcher_info c) (work_items c).
Definition set_flags (a b : bool) (c : SYS_MODULE_VAL_CONTEXT) : SYS_MODULE_VAL_CONTEXT :=
  ValContext (active_thread_count c) a b (current_count c) (total_count c) (block_size c)
    (module_info c) (dispatcher_info c) (work_items c).
Definition set_current (n : Z) (c : SYS_MODULE_VAL_CONTEXT) : SYS_MODULE_VAL_CONTEXT :=
  ValContext (active_thread_count c) (active c) (complete c) n (total_count c) (block_size c)
    (module_info c) (dispatcher_info c) (work_items c).
Definition set_info (m : bool) (d : option (list bool)) (c : SYS_MODULE_VAL_CONTEXT)
  : SYS_MODULE_VAL_CONTEXT :=
  ValContext (active_thread_count c) (active c) (complete c) (current_count c) (total_count c)
    (block_size c) m d (work_items c).
Definition set_items (l : list Z) (c : SYS_MODULE_VAL_CONTEXT) : SYS_MODULE_VAL_CONTEXT :=
  ValContext (active_thread_count c) (active c) (complete c) (current_count c) (total_count c)
    (block_size c) (module_info c) (dispatcher_info c) l.

(** Where a worker is, with its local variables. *)
Inductive wpc :=
  | WStart
  | WRead
  | WExchange (value : Z)
  | WLoop (count max : Z)
  | WValidate (count max : Z)
  | WComplete (count : Z)
  | WStore (count : Z)
  | WLeave
  | WDone.

(** Where the dispatcher is: between requests, or waiting for the workers before
    it frees the context; in the second case whether it frees the work items
    afterwards. *)
Inductive dpc := DIdle | DWait (items : bool).

(** The context; the work items that are queued and those that exist; the
    workers; the dispatcher; and the modules validated since the context was
    initialised, last first. *)
Record vstate := VState {
  ctx : SYS_MODULE_VAL_CONTEXT;
  queued : list Z;
  next_item : Z;
  workers : list wpc;
  dispatcher : dpc;
  log : list Z;
}.

Definition set_ctx (c : SYS_MODULE_VAL_CONTEXT) (s : vstate) : vstate :=
  VState c (queued s) (next_item s) (workers s) (dispatcher s) (log s).

(** The outcome of the module query (how many modules, [None] on failure) for the
    [n]-th item asked for, whether the array of flags and the [n]-th work item
    can be allocated. *)
Class VerifyApi := {
  module_query : option Z;
  grants_flags : bool;
  grants_item : Z -> bool;
}.

(** ** The worker *)

(** One access to the context: the next program counter, the context and what is
    validated. *)
Definition worker_step (p : wpc) (c : SYS_MODULE_VAL_CONTEXT)
  : res (wpc * SYS_MODULE_VAL_CONTEXT * list Z) :=
  match p with
  | WStart => Ok (WRead, set_threads (active_thread_count c + 1) c, [])
  | WRead => Ok (WExchange (current_count c), c, [])
  | WExchange value =>
      let count := current_count c in
      Ok (WLoop count (count + block_size c), set_current value c, [])
  | WLoop count max =>
      if (count <? max) && (count <? total_count c) then
        match dispatcher_info c with
        | None => Crash NullDereference
        | Some flags =>
            match znth flags count with
            | None => Crash OutOfBounds
            | Some true => Ok (WLoop (count + 1) max, c, [])
            | Some false =>
                Ok (WValidate count max, set_info (module_info c) (Some (zset flags count true)) c, [])
            end
        end
      else Ok (WComplete count, c, [])
  | WValidate count max =>
      if module_info c then Ok (WLoop (count + 1) max, c, [count]) else Crash NullDereference
  | WComplete count =>
      Ok (WStore count, if count =? total_count c then set_flags (active c) true c else c, [])
  | WStore count => Ok (WLeave, set_current count c, [])
  | WLeave => Ok (WDone, set_threads (active_thread_count c - 1) c, [])
  | WDone => Ok (WDone, c, [])
  end.

(** ** The dispatcher *)

(** [IoFreeWorkItem] of a queued item is a bug check. *)
Definition FreeWorkItems (s : vstate) : res vstate :=
  if existsb (fun i => negb (i =? 0) && bool_decide (i ∈ queued s)) (work_items (ctx s))
  then Crash BadFree
  else Ok (set_ctx (set_items (replicate VERIFICATION_THREAD_COUNT 0) (ctx s)) s).

(** [FreeModuleVerificationItems] after its loop. *)
Definition free_module_items (s : vstate) : vstate := set_ctx (set_info false None (ctx s)) s.

Definition InitialiseSystemModuleVerificationContext {A : VerifyApi} (s : vstate)
  : NTSTATUS * vstate :=
  match module_query with
  | None => (STATUS_UNSUCCESSFUL, s)
  | Some module_count =>
      if negb grants_flags then (STATUS_MEMORY_NOT_ALLOCATED, s)
      else
        (STATUS_SUCCESS,
         VState (ValContext 0 true false 2 module_count VALIDATION_BLOCK_SIZE true
                   (Some (replicate (Z.to_nat module_count) false)) (work_items (ctx s)))
           (queued s) (next_item s) (workers s) (dispatcher s) [])
  end.

(** The loop that starts the work items. *)
Fixpoint start_items {A : VerifyApi} (n : nat) (index : Z) (s : vstate) : vstate :=
  match n with
  | O => s
  | S n =>
      if grants_item (next_item s) then
        let item := next_item s in
        start_items n (index + 1)
          (VState (set_items (zset (work_items (ctx s)) index item) (ctx s)) (queued s ++ [item])
             (item + 1) (workers s) (dispatcher s) (log s))
      else
        start_items n (index + 1)
          (VState (ctx s) (queued s) (next_item s + 1) (workers s) (dispatcher s) (log s))
  end.

(** A request, up to its return or up to the loop that waits for the workers. *)
Definition SystemModuleVerificationDispatcher {A : VerifyApi} (s : vstate) : res vstate :=
  if complete (ctx s) then
    let s := set_ctx (set_flags false false (ctx s)) s in
    Ok (VState (ctx s) (queued s) (next_item s) (workers s) (DWait true) (log s))
  else if negb (active (ctx s)) then
    let '(status, s) := InitialiseSystemModuleVerificationContext s in
    if negb (NT_SUCCESS status) then Ok s else Ok (start_items VERIFICATION_THREAD_COUNT 0 s)
  else
    s ← FreeWorkItems s;
    Ok (start_items VERIFICATION_THREAD_COUNT 0 s).

(** The rest of a request or of the cleanup, once no worker is active. *)
Definition dispatcher_resume (items : bool) (s : vstate) : res vstate :=
  let s := free_module_items s in
  s ← (if items then FreeWorkItems s else Ok s);
  Ok (VState (ctx s) (queued s) (next_item s) (workers s) DIdle (log s)).

(** [CleanupValidationContextOnUnload] up to the loop. *)
Definition CleanupValidationContextOnUnload (s : vstate) : res vstate :=
  s ← FreeWorkItems (set_ctx (set_flags false true (ctx s)) s);
  Ok (VState (ctx s) (queued s) (next_item s) (workers s) (DWait false) (log s)).

(** ** Steps *)

Inductive vaction :=
  | Request
  | Unload
  | Resume
  | Dequeue
  | Work (i : nat).

(** [None] when the action cannot be taken. *)
Definition vstep {A : VerifyApi} (a : vaction) (s : vstate) : option (res vstate) :=
  match a with
  | Request =>
      match dispatcher s with DIdle => Some (SystemModuleVerificationDispatcher s) | _ => None end
  | Unload =>
      match dispatcher s with DIdle => Some (CleanupValidationContextOnUnload s) | _ => None end
  | Resume =>
      match dispatcher s with
      | DWait items =>
          if active_thread_count (ctx s) =? 0 then Some (dispatcher_resume items s) else None
      | DIdle => None
      end
  | Dequeue =>
      match queued s with
      | [] => None
      | _ :: q => Some (Ok (VState (ctx s) q (next_item s) (workers s ++ [WStart]) (dispatcher s) (log s)))
      end
  | Work i =>
      match workers s !! i with
      | None | Some WDone => None
      | Some p =>
          Some ('(p', c', l) ← worker_step p (ctx s);
                Ok (VState c' (queued s) (next_item s) (<[i := p']> (workers s)) (dispatcher s)
                      (l ++ log s)))
      end
  end.

Fixpoint vrun {A : VerifyApi} (l : list vaction) (s : vstate) : option (res vstate) :=
  match l with
  | [] => Some (Ok s)
  | a :: l =>
      match vstep a s with
      | Some (Ok s') => vrun l s'
      | r => r
      end
  end.

(** Before the first request. *)
Definition idle : vstate :=
  VState (ValContext 0 false false 0 0 0 false None (replicate VERIFICATION_THREAD_COUNT 0)) [] 1 []
    DIdle [].

Inductive reachable {A : VerifyApi} : vstate -> Prop :=
  | reach_idle : reachable idle
  | reach_step a s s' : reachable s -> vstep a s = Some (Ok s') -> reachable s'.

(** ** Invariant of a run *)

(** A second run begins. *)
Definition restarts (a : vaction) (s : vstate) : bool :=
  match a with
  | Request => negb (complete (ctx s)) && negb (active (ctx s)) && negb (block_size (ctx s) =? 0)
  | _ => false
  end.

(** The states of the first run. *)
Inductive first_run {A : VerifyApi} : vstate -> Prop :=
  | first_idle : first_run idle
  | first_step a s s' :
      first_run s -> restarts a s = false -> vstep a s = Some (Ok s') -> first_run s'.

(** Between the increment and the decrement of [active_thread_count]. *)
Definition active_pc (p : wpc) : bool :=
  match p with WStart | WDone => false | _ => true end.
Definition active_workers (l : list wpc) : Z :=
  foldr (fun p n => (if active_pc p then 1 else 0) + n) 0 l.

(** The module a worker is validating. *)
Definition validating (p : wpc) : list Z :=
  match p with WValidate n _ => [n] | _ => [] end.
Definition claims (s : vstate) : list Z := log s ++ concat (validating <$> workers s).

Definition pc_ok (p : wpc) : Prop :=
  match p with
  | WExchange n | WLoop n _ | WComplete n | WStore n => 2 <= n
  | WValidate n m => 2 <= n < m
  | _ => True
  end.

Record vinv (s : vstate) : Prop := {
  vi_threads : active_thread_count (ctx s) = active_workers (workers s);
  vi_live : forall flags, dispatcher_info (ctx s) = Some flags ->
    module_info (ctx s) = true /\ zlen flags = Z.max 0 (total_count (ctx s));
  vi_claims : NoDup (claims s);
  vi_flags : forall flags, dispatcher_info (ctx s) = Some flags ->
    forall i, i ∈ claims s -> 2 <= i /\ znth flags i = Some true;
  vi_dead : dispatcher_info (ctx s) = None -> concat (validating <$> workers s) = [];
  vi_counts : block_size (ctx s) <> 0 -> 2 <= current_count (ctx s) /\ Forall pc_ok (workers s);
  vi_active : active (ctx s) = true -> block_size (ctx s) <> 0;
  vi_fresh : block_size (ctx s) = 0 ->
    workers s = [] /\ queued s = [] /\ dispatcher_info (ctx s) = None /\ log s = [];
}.

Lemma active_workers_app k l : active_workers (k ++ l) = active_workers k + active_workers l.
Proof. unfold active_workers. induction k as [|p k IH]; [done|]. cbn. rewrite IH. lia. Qed.

Lemma active_workers_pos l : 0 <= active_workers l.
Proof. unfold active_workers. induction l as [|p l IH]; cbn; [done|]. destruct (active_pc p); lia. Qed.

(** A worker's step, seen in the list of workers. *)
Lemma worker_split ws i (p p' : wpc) :
  ws !! i = Some p -> exists l1 l2, ws = l1 ++ p :: l2 /\ <[i := p']> ws = l1 ++ p' :: l2.
Proof.
  intros Hi. exists (take i ws), (drop (S i) ws). split.
  - symmetry. by apply take_drop_middle.
  - apply insert_take_drop. by eapply lookup_lt_Some.
Qed.

(** Without active workers nothing is being validated. *)
Lemma no_active_no_validating l : active_workers l = 0 -> concat (validating <$> l) = [].
Proof.
  induction l as [|p l IH]; [done|]. cbn. fold (active_workers l). intros Hz.
  pose proof (active_workers_pos l). destruct p; cbn in *; try (apply IH; lia); lia.
Qed.

Section invariant.
Context {A : VerifyApi}.

(** What starting work items leaves alone. *)
Lemma start_items_spec n : forall index s,
  let s' := start_items n index s in
  workers s' = workers s /\ log s' = log s /\ dispatcher s' = dispatcher s /\
  exists l, ctx s' = set_items l (ctx s).
Proof.
  induction n as [|n IH]; intros index s; cbn [start_items].
  { split_and!; try done. exists (work_items (ctx s)). by destruct (ctx s). }
  destruct (grants_item (next_item s)).
  - destruct (IH (index + 1) (VState (set_items (zset (work_items (ctx s)) index (next_item s)) (ctx s))
      (queued s ++ [next_item s]) (next_item s + 1) (workers s) (dispatcher s) (log s)))
      as (-> & -> & -> & l & ->). split_and!; try done. by exists l.
  - destruct (IH (index + 1) (VState (ctx s) (queued s) (next_item s + 1) (workers s) (dispatcher s)
      (log s))) as (-> & -> & -> & l & ->). split_and!; try done. by exists l.
Qed.

(** The context apart from flags and work items, the workers and the log decide
    the invariant. *)
Lemma vinv_agree s s' :
  vinv s -> queued s' = queued s \/ block_size (ctx s) <> 0 ->
  (active (ctx s') = true -> active (ctx s) = true) ->
  active_thread_count (ctx s') = active_thread_count (ctx s) ->
  dispatcher_info (ctx s') = dispatcher_info (ctx s) -> module_info (ctx s') = module_info (ctx s) ->
  total_count (ctx s') = total_count (ctx s) -> current_count (ctx s') = current_count (ctx s) ->
  block_size (ctx s') = block_size (ctx s) -> workers s' = workers s -> log s' = log s -> vinv s'.
Proof.
  intros [T L C F D N B R] Hq Ha E1 E2 E3 E4 E5 E6 E7 E8. unfold claims in *.
  split; unfold claims; rewrite ?E1, ?E2, ?E3, ?E4, ?E5, ?E6, ?E7, ?E8; try done.
  - intros Ht. by apply B, Ha.
  - intros Hb. destruct Hq as [->|]; [by apply R|done].
Qed.

(** A step that neither takes nor finishes a module. *)
Lemma quiet_preserves s i p p' c' :
  vinv s -> workers s !! i = Some p -> validating p = [] -> validating p' = [] -> pc_ok p' ->
  block_size (ctx s) <> 0 -> 2 <= current_count c' ->
  active_thread_count c' = active_thread_count (ctx s) - (if active_pc p then 1 else 0)
                           + (if active_pc p' then 1 else 0) ->
  dispatcher_info c' = dispatcher_info (ctx s) -> module_info c' = module_info (ctx s) ->
  total_count c' = total_count (ctx s) -> block_size c' = block_size (ctx s) ->
  active c' = active (ctx s) ->
  vinv (VState c' (queued s) (next_item s) (<[i := p']> (workers s)) (dispatcher s) (log s)).
Proof.
  intros [T L C F D N B R] Hi Hv Hv' Hp' Hb Hc Ht Ed Em Et Eb Ea.
  destruct (worker_split (workers s) i p p' Hi) as (l1 & l2 & E & E').
  assert (concat (validating <$> <[i := p']> (workers s)) = concat (validating <$> workers s)) as Hcl.
  { rewrite E', E, !fmap_app, !concat_app. cbn. by rewrite Hv, Hv'. }
  split; unfold claims in *; cbn [ctx workers log queued]; rewrite ?Ed, ?Em, ?Et, ?Eb, ?Ea, ?Hcl; try done.
  - rewrite Ht, T, E', E, !active_workers_app. cbn. fold (active_workers l2). lia.
  - intros _. split; [done|]. apply Forall_insert; [by apply N|done].
Qed.

(** A worker takes a module. *)
Lemma take_preserves s i n m flags :
  vinv s -> workers s !! i = Some (WLoop n m) -> dispatcher_info (ctx s) = Some flags ->
  znth flags n = Some false -> n < m ->
  vinv (VState (set_info (module_info (ctx s)) (Some (zset flags n true)) (ctx s)) (queued s)
          (next_item s) (<[i := WValidate n m]> (workers s)) (dispatcher s) (log s)).
Proof.
  intros [T L C F D N B R] Hi Hd Hf Hnm.
  destruct (worker_split (workers s) i _ (WValidate n m) Hi) as (l1 & l2 & E & E').
  assert (block_size (ctx s) <> 0) as Hb.
  { intros Hb. destruct (R Hb) as [Hw _]. rewrite Hw in Hi. done. }
  destruct (N Hb) as [Nc Nw]. assert (2 <= n) as Hn by apply (Forall_lookup_1 _ _ _ _ Nw Hi).
  destruct (L flags Hd) as [Lm Ll]. unfold claims in *.
  assert (0 <= n < zlen flags) as Hr by (apply znth_Some; rewrite Hf; by eexists).
  assert (log s ++ concat (validating <$> <[i := WValidate n m]> (workers s))
    ≡ₚ n :: log s ++ concat (validating <$> workers s)) as Hcl.
  { rewrite E', E, !fmap_app, !concat_app. cbn. rewrite !(assoc_L (++)).
    symmetry. apply Permutation_middle. }
  assert (n ∉ log s ++ concat (validating <$> workers s)) as Hnew.
  { intros Hin. destruct (F flags Hd n Hin) as [_ Hn']. congruence. }
  split; unfold claims; cbn [ctx workers log queued set_info active_thread_count dispatcher_info
    module_info total_count block_size current_count]; try done.
  - rewrite T, E', E, !active_workers_app. done.
  - intros fl [= <-]. rewrite zlen_zset. done.
  - rewrite Hcl. by constructor.
  - intros fl [= <-] j Hj. rewrite Hcl in Hj. apply elem_of_cons in Hj as [->|Hj].
    + split; [done|]. by apply znth_zset_eq.
    + destruct (F flags Hd j Hj) as [? Hj']. split; [done|].
      rewrite znth_zset_ne; [done|]. by intros ->.
  - intros _. split; [done|]. by apply Forall_insert.
Qed.

(** A worker has validated its module. *)
Lemma finish_preserves s i n m :
  vinv s -> workers s !! i = Some (WValidate n m) ->
  vinv (VState (ctx s) (queued s) (next_item s) (<[i := WLoop (n + 1) m]> (workers s)) (dispatcher s)
          ([n] ++ log s)).
Proof.
  intros [T L C F D N B R] Hi.
  destruct (worker_split (workers s) i _ (WLoop (n + 1) m) Hi) as (l1 & l2 & E & E').
  assert (block_size (ctx s) <> 0) as Hb.
  { intros Hb. destruct (R Hb) as [Hw _]. rewrite Hw in Hi. done. }
  destruct (N Hb) as [Nc Nw]. assert (2 <= n < m) as Hn by apply (Forall_lookup_1 _ _ _ _ Nw Hi).
  unfold claims in *.
  assert (([n] ++ log s) ++ concat (validating <$> <[i := WLoop (n + 1) m]> (workers s))
    ≡ₚ log s ++ concat (validating <$> workers s)) as Hcl.
  { rewrite E', E, !fmap_app, !concat_app. cbn. rewrite !(assoc_L (++)). apply Permutation_middle. }
  split; unfold claims; cbn [ctx workers log queued]; try done.
  - rewrite T, E', E, !active_workers_app. done.
  - by rewrite Hcl.
  - intros fl Hfl j Hj. rewrite Hcl in Hj. by apply F.
  - intros Hdd. specialize (D Hdd). rewrite E', E, !fmap_app, !concat_app in *. cbn in *.
    by apply app_eq_nil in D as [_ [=]].
  - intros _. split; [done|]. apply Forall_insert; [done|]. cbn. lia.
Qed.

Lemma worker_preserves s i p p' c' l :
  vinv s -> workers s !! i = Some p -> p <> WDone -> worker_step p (ctx s) = Ok (p', c', l) ->
  vinv (VState c' (queued s) (next_item s) (<[i := p']> (workers s)) (dispatcher s) (l ++ log s)).
Proof.
  intros Hinv Hi Hd Hs. pose proof Hinv as [T L C F D N B R].
  assert (block_size (ctx s) <> 0) as Hb.
  { intros Hb. destruct (R Hb) as [Hw _]. rewrite Hw in Hi. done. }
  destruct (N Hb) as [Nc Nw]. assert (pc_ok p) as Hp by by eapply Forall_lookup_1.
  destruct p as [| |v|n m|n m|n|n| |]; cbn in Hs, Hp; try done.
  - injection Hs as <- <- <-. by apply (quiet_preserves s i WStart); cbn; try lia.
  - injection Hs as <- <- <-. by apply (quiet_preserves s i WRead); cbn; try lia.
  - injection Hs as <- <- <-. by apply (quiet_preserves s i (WExchange v)); cbn; try lia.
  - destruct ((n <? m) && (n <? total_count (ctx s))) eqn:En.
    2: { injection Hs as <- <- <-. by apply (quiet_preserves s i (WLoop n m)); cbn; try lia. }
    destruct (dispatcher_info (ctx s)) as [flags|] eqn:Ed; [|done].
    destruct (znth flags n) as [[]|] eqn:Ef; [| |done]; injection Hs as <- <- <-.
    + apply (quiet_preserves s i (WLoop n m)); cbn; try done; try lia; congruence.
    + apply take_preserves; try done. lia.
  - destruct (module_info (ctx s)); [|done]. injection Hs as <- <- <-. by apply finish_preserves.
  - injection Hs as <- <- <-.
    apply (quiet_preserves s i (WComplete n)); try done; destruct (n =? total_count (ctx s)); cbn; try lia; done.
  - injection Hs as <- <- <-. by apply (quiet_preserves s i (WStore n)); cbn; try lia.
  - injection Hs as <- <- <-. by apply (quiet_preserves s i WLeave); cbn; try lia.
Qed.

Lemma free_items_preserves s s' : vinv s -> FreeWorkItems s = Ok s' -> vinv s'.
Proof.
  intros Hv. unfold FreeWorkItems. destruct (existsb _ _); [done|]. intros [= <-].
  eapply vinv_agree; [exact Hv|by left|done..].
Qed.

Lemma start_preserves n index s : vinv s -> block_size (ctx s) <> 0 -> vinv (start_items n index s).
Proof.
  intros Hv Hb. destruct (start_items_spec n index s) as (Hw & Hl & _ & items & Hc).
  eapply vinv_agree; [exact Hv|by right|rewrite ?Hc; done..].
Qed.

(** The initialisation of the first run. *)
Lemma initialise_preserves s status s' :
  vinv s -> block_size (ctx s) = 0 ->
  InitialiseSystemModuleVerificationContext s = (status, s') ->
  if NT_SUCCESS status then vinv s' /\ block_size (ctx s') <> 0 else s' = s.
Proof.
  intros [T L C F D N B R] Hb. destruct (R Hb) as (Hw & Hq & Hd & Hl).
  unfold InitialiseSystemModuleVerificationContext. destruct module_query as [n|]; [|by intros [= <- <-]].
  destruct grants_flags; cbn [negb]; intros [= <- <-]; [|done]. cbn. split; [|done].
  split; unfold claims; cbn; rewrite ?Hw; cbn; try done.
  - intros flags [= <-]. split; [done|]. unfold zlen. rewrite length_replicate. lia.
  - constructor.
  - intros flags _ i Hi%elem_of_nil. done.
Qed.

Lemma Ok_inj {X} (a b : X) : Ok a = Ok b -> a = b.
Proof. by intros [= ->]. Qed.

(** The effect of a worker's step. *)
Lemma work_step s i p s' :
  workers s !! i = Some p -> vstep (Work i) s = Some (Ok s') ->
  p <> WDone /\ exists p' c' l, worker_step p (ctx s) = Ok (p', c', l) /\
    s' = VState c' (queued s) (next_item s) (<[i := p']> (workers s)) (dispatcher s) (l ++ log s).
Proof.
  intros Hi Hs. cbn [vstep] in Hs. rewrite Hi in Hs.
  destruct p; try done; (split; [done|]); apply (inj Some) in Hs;
    destruct (worker_step _ (ctx s)) as [[[p' c'] l]|] eqn:Ew; try done;
    apply Ok_inj in Hs as <-; by exists p', c', l.
Qed.

Lemma step_preserves a s s' :
  vinv s -> restarts a s = false -> vstep a s = Some (Ok s') -> vinv s'.
Proof.
  intros Hv Hr Hs. destruct a as [| | | |i]; [cbn [vstep restarts] in *..|].
  - destruct (dispatcher s); [|done]. injection Hs as Hs. unfold SystemModuleVerificationDispatcher in Hs.
    destruct (complete (ctx s)); [injection Hs as <-; eapply vinv_agree; [exact Hv|by left|done..]|].
    destruct (active (ctx s)) eqn:Ea; cbn [negb andb] in *.
    + destruct (FreeWorkItems s) as [s1|] eqn:Ef; [|done]. apply Ok_inj in Hs as <-.
      apply start_preserves; [by eapply free_items_preserves|].
      unfold FreeWorkItems in Ef. destruct (existsb _ _); [done|]. injection Ef as <-.
      by apply (vi_active _ Hv).
    + apply negb_false_iff, Z.eqb_eq in Hr.
      destruct (InitialiseSystemModuleVerificationContext s) as [st s1] eqn:Ei.
      pose proof (initialise_preserves s st s1 Hv Hr Ei) as H1.
      destruct (NT_SUCCESS st); cbn [negb] in Hs; apply Ok_inj in Hs as <-.
      * apply start_preserves; apply H1.
      * by subst s1.
  - destruct (dispatcher s); [|done]. injection Hs as Hs. unfold CleanupValidationContextOnUnload in Hs.
    destruct (FreeWorkItems _) as [s1|] eqn:Ef; [|done]. injection Hs as <-.
    assert (vinv s1) as H1.
    { eapply free_items_preserves; [|exact Ef]. eapply vinv_agree; [exact Hv|by left|done..]. }
    eapply vinv_agree; [exact H1|by left|done..].
  - destruct (dispatcher s) as [|items]; [done|].
    destruct (Z.eqb_spec (active_thread_count (ctx s)) 0) as [Hz|]; [|done]. injection Hs as Hs.
    unfold dispatcher_resume in Hs. assert (vinv (free_module_items s)) as H1.
    { destruct Hv as [T L C F D N B R]. split; unfold claims in *; cbn; try done.
      - intros _. apply no_active_no_validating. by rewrite <- T.
      - intros Hb. by destruct (R Hb) as (? & ? & _ & ?). }
    destruct items.
    + destruct (FreeWorkItems _) as [s1|] eqn:Ef; [|done]. injection Hs as <-.
      pose proof (free_items_preserves _ _ H1 Ef) as H2.
      eapply vinv_agree; [exact H2|by left|done..].
    + injection Hs as <-. eapply vinv_agree; [exact H1|by left|done..].
  - destruct (queued s) as [|x q] eqn:Eq; [done|]. injection Hs as <-.
    destruct Hv as [T L C F D N B R].
    assert (concat (validating <$> workers s ++ [WStart]) = concat (validating <$> workers s)) as Hcl.
    { rewrite fmap_app, concat_app. cbn. by rewrite app_nil_r. }
    split; unfold claims in *; cbn; rewrite ?Hcl; try done.
    + rewrite active_workers_app, T. cbn. lia.
    + intros Hb. split; [by apply N|]. apply Forall_app. split; [by apply N|]. by constructor.
    + intros Hb. destruct (R Hb) as (_ & E & _). by rewrite E in Eq.
  - destruct (workers s !! i) as [p|] eqn:Ei; [|by cbn in Hs; rewrite Ei in Hs].
    destruct (work_step s i p s' Ei Hs) as (Hd & p' & c' & l & Hw & ->).
    by eapply worker_preserves.
Qed.

Lemma first_run_inv s : first_run s -> vinv s.
Proof.
  induction 1 as [|a s s' _ IH Hr Hs]; [|by eapply step_preserves].
  split; unfold claims; cbn; try done. constructor.
Qed.

(** No step of a worker faults while the context is allocated. *)
Lemma live_worker_ok s flags i p :
  vinv s -> dispatcher_info (ctx s) = Some flags -> workers s !! i = Some p ->
  exists r, worker_step p (ctx s) = Ok r.
Proof.
  intros [T L C F D N B R] Hd Hi. destruct (L flags Hd) as [Hm Hl].
  assert (block_size (ctx s) <> 0) as Hb.
  { intros Hb. destruct (R Hb) as [Hw _]. rewrite Hw in Hi. done. }
  destruct (N Hb) as [_ Nw]. assert (pc_ok p) as Hp by by eapply Forall_lookup_1.
  destruct p as [| |v|n m|n m|n|n| |]; cbn in *; eauto.
  - destruct (Z.ltb_spec n m); [|eauto]. destruct (Z.ltb_spec n (total_count (ctx s))); [|eauto].
    cbn [andb]. rewrite Hd. assert (is_Some (znth flags n)) as [b ->] by (apply znth_Some; lia).
    destruct b; eauto.
  - rewrite Hm. eauto.
Qed.

(** *** Coverage *)

(** All modules from 2 up to [n] have been taken. *)
Definition covered (flags : list bool) (n : Z) : Prop :=
  forall j, 2 <= j < n -> znth flags j = Some true.

Definition pc_count (p : wpc) : Z :=
  match p with
  | WExchange n | WLoop n _ | WValidate n _ | WComplete n | WStore n => n
  | _ => 2
  end.

Record vcover (s : vstate) (flags : list bool) : Prop := {
  vc_current : covered flags (current_count (ctx s));
  vc_workers : Forall (fun p => covered flags (pc_count p)) (workers s);
  vc_complete : complete (ctx s) = true -> active (ctx s) = true -> covered flags (total_count (ctx s));
  vc_claimed : forall j, znth flags j = Some true -> j ∈ claims s;
}.

Definition vcov (s : vstate) : Prop :=
  forall flags, dispatcher_info (ctx s) = Some flags -> vcover s flags.

Lemma covered_two flags n : n <= 2 -> covered flags n.
Proof. intros ? j ?. lia. Qed.

Lemma covered_next flags n : covered flags n -> znth flags n = Some true -> covered flags (n + 1).
Proof. intros Hc Hn j Hj. destruct (decide (j = n)) as [->|]; [done|]. apply Hc. lia. Qed.

Lemma covered_set flags n k : covered flags n -> covered (zset flags k true) n.
Proof.
  intros Hc j Hj. specialize (Hc j Hj). destruct (decide (k = j)) as [->|].
  - apply znth_zset_eq. apply znth_Some. by eexists.
  - by rewrite znth_zset_ne.
Qed.

(** A step that neither takes nor finishes a module. *)
Lemma quiet_covers s i p p' c' flags :
  vcover s flags -> workers s !! i = Some p -> validating p = [] -> validating p' = [] ->
  covered flags (pc_count p') -> covered flags (current_count c') ->
  (complete c' = true -> active c' = true -> covered flags (total_count c')) ->
  vcover (VState c' (queued s) (next_item s) (<[i := p']> (workers s)) (dispatcher s) (log s)) flags.
Proof.
  intros [Cc Cw Cf Cl] Hi Hv Hv' Hp Hc Hf. split; cbn; try done.
  - by apply Forall_insert.
  - intros j Hj. specialize (Cl j Hj). unfold claims in *. cbn.
    destruct (worker_split (workers s) i p p' Hi) as (l1 & l2 & E & E').
    rewrite E', E, !fmap_app, !concat_app in *. cbn in *. by rewrite Hv, Hv' in *.
Qed.

Lemma worker_covers s i p p' c' l :
  vinv s -> vcov s -> workers s !! i = Some p -> p <> WDone ->
  worker_step p (ctx s) = Ok (p', c', l) ->
  vcov (VState c' (queued s) (next_item s) (<[i := p']> (workers s)) (dispatcher s) (l ++ log s)).
Proof.
  intros Hinv Hv Hi Hd Hs flags Hfl. unfold vcov in Hv. cbn [ctx] in Hfl.
  destruct p as [| |v|n m|n m|n|n| |]; cbn in Hs; try done.
  - injection Hs as <- <- <-. specialize (Hv flags Hfl).
    by apply (quiet_covers s i WStart); try apply Hv; try (apply covered_two; cbn; lia).
  - injection Hs as <- <- <-. specialize (Hv flags Hfl). by apply (quiet_covers s i WRead); try apply Hv; try (apply covered_two; cbn; lia).
  - injection Hs as <- <- <-. specialize (Hv flags Hfl).
    pose proof (Forall_lookup_1 _ _ _ _ (vc_workers _ _ Hv) Hi).
    by apply (quiet_covers s i (WExchange v)); try apply Hv; try (apply covered_two; cbn; lia).
  - destruct ((n <? m) && (n <? total_count (ctx s))).
    2: { injection Hs as <- <- <-. specialize (Hv flags Hfl).
         pose proof (Forall_lookup_1 _ _ _ _ (vc_workers _ _ Hv) Hi).
         by apply (quiet_covers s i (WLoop n m)); try apply Hv; try (apply covered_two; cbn; lia). }
    destruct (dispatcher_info (ctx s)) as [fl|] eqn:Ed; [|done]. specialize (Hv fl eq_refl).
    pose proof (Forall_lookup_1 _ _ _ _ (vc_workers _ _ Hv) Hi) as Hn. cbn in Hn.
    destruct (znth fl n) as [[]|] eqn:Ef; [| |done]; injection Hs as <- <- <-.
    + assert (flags = fl) as -> by congruence.
      apply (quiet_covers s i (WLoop n m)); try apply Hv; try done. by apply covered_next.
    + cbn in Hfl. injection Hfl as <-. destruct Hv as [Cc Cw Cf Cl]. split; cbn.
      * by apply covered_set.
      * apply Forall_insert; [|by apply covered_set]. eapply Forall_impl; [exact Cw|]. intros q.
        apply covered_set.
      * intros H1 H2. by apply covered_set, Cf.
      * intros j Hj. unfold claims. cbn.
        destruct (worker_split (workers s) i _ (WValidate n m) Hi) as (l1 & l2 & E & E').
        rewrite E', !fmap_app, !concat_app. cbn. destruct (decide (j = n)) as [->|Hne]; [set_solver|].
        rewrite znth_zset_ne in Hj by done. specialize (Cl j Hj). unfold claims in Cl.
        rewrite E, !fmap_app, !concat_app in Cl. cbn in Cl. revert Cl.
        rewrite !elem_of_app, !elem_of_cons. tauto.
  - destruct (module_info (ctx s)); [|done]. injection Hs as <- <- <-. specialize (Hv flags Hfl).
    destruct Hv as [Cc Cw Cf Cl]. pose proof (Forall_lookup_1 _ _ _ _ Cw Hi) as Hn. cbn in Hn.
    destruct (worker_split (workers s) i _ (WLoop (n + 1) m) Hi) as (l1 & l2 & E & E').
    assert (n ∈ claims s) as Hin.
    { unfold claims. rewrite E, fmap_app, concat_app. cbn. set_solver. }
    split; cbn; try done.
    + apply Forall_insert; [done|]. cbn. apply covered_next; [done|].
      by apply (vi_flags _ Hinv flags Hfl n Hin).
    + intros j Hj. specialize (Cl j Hj). unfold claims in *. cbn.
      rewrite E', fmap_app, concat_app. rewrite E, fmap_app, concat_app in Cl. cbn in *. revert Cl.
      rewrite !elem_of_app, !elem_of_cons, !elem_of_app. tauto.
  - injection Hs as <- <- <-. assert (dispatcher_info (ctx s) = Some flags) as Hfl'
      by by destruct (n =? total_count (ctx s)). specialize (Hv flags Hfl').
    pose proof (Forall_lookup_1 _ _ _ _ (vc_workers _ _ Hv) Hi) as Hn. cbn in Hn.
    apply (quiet_covers s i (WComplete n)); try done;
      destruct (Z.eqb_spec n (total_count (ctx s))) as [->|]; cbn; try apply Hv; done.
  - injection Hs as <- <- <-. specialize (Hv flags Hfl).
    pose proof (Forall_lookup_1 _ _ _ _ (vc_workers _ _ Hv) Hi).
    by apply (quiet_covers s i (WStore n)); try apply Hv; try (apply covered_two; cbn; lia).
  - injection Hs as <- <- <-. specialize (Hv flags Hfl).
    by apply (quiet_covers s i WLeave); try apply Hv; try (apply covered_two; cbn; lia).
Qed.

Lemma vcov_agree s s' :
  vcov s -> (complete (ctx s') = true -> active (ctx s') = true ->
             complete (ctx s) = true /\ active (ctx s) = true) ->
  dispatcher_info (ctx s') = dispatcher_info (ctx s) -> total_count (ctx s') = total_count (ctx s) ->
  current_count (ctx s') = current_count (ctx s) -> workers s' = workers s -> log s' = log s -> vcov s'.
Proof.
  intros Hv Hf E1 E2 E3 E4 E5 flags Hfl. rewrite E1 in Hfl. destruct (Hv flags Hfl) as [Cc Cw Cf Cl].
  split; unfold claims in *; rewrite ?E2, ?E3, ?E4, ?E5; try done.
  intros H1 H2. by apply Cf; apply Hf.
Qed.

Lemma free_items_covers s s' : vcov s -> FreeWorkItems s = Ok s' -> vcov s'.
Proof.
  intros Hv. unfold FreeWorkItems. destruct (existsb _ _); [done|]. intros [= <-].
  by eapply vcov_agree.
Qed.

Lemma start_covers n index s : vcov s -> vcov (start_items n index s).
Proof.
  intros Hv. destruct (start_items_spec n index s) as (Hw & Hl & _ & items & Hc).
  apply (vcov_agree s); rewrite ?Hc; done.
Qed.

Lemma request_covers s s' :
  vinv s -> vcov s -> restarts Request s = false ->
  SystemModuleVerificationDispatcher s = Ok s' -> vcov s'.
Proof.
  intros Hi Hv Hr. unfold SystemModuleVerificationDispatcher, restarts in *.
  destruct (complete (ctx s)) eqn:Ec; [intros <-%Ok_inj; by eapply vcov_agree|].
  destruct (active (ctx s)) eqn:Ea; cbn [negb andb] in *.
  { destruct (FreeWorkItems s) as [s1|] eqn:Ef; [|done]. intros <-%Ok_inj.
    by eapply start_covers, free_items_covers. }
  apply negb_false_iff, Z.eqb_eq in Hr. destruct (vi_fresh _ Hi Hr) as (Hw & _ & _ & Hl).
  unfold InitialiseSystemModuleVerificationContext. destruct module_query as [n|]; [|by intros <-%Ok_inj].
  destruct grants_flags; cbn [negb]; [|by intros <-%Ok_inj].
  change (negb (NT_SUCCESS STATUS_SUCCESS)) with false. cbn iota. intros <-%Ok_inj.
  apply start_covers. intros flags [= <-]. split; cbn; rewrite ?Hw; try done.
  - by apply covered_two.
  - intros j Hj. unfold znth in Hj. destruct (j <? 0); [done|].
    by apply lookup_replicate in Hj as [[=] _].
Qed.

Lemma step_covers a s s' :
  vinv s -> vcov s -> restarts a s = false -> vstep a s = Some (Ok s') -> vcov s'.
Proof.
  intros Hi Hv Hr Hs. destruct a as [| | | |i]; [cbn [vstep] in Hs..|].
  - destruct (dispatcher s); [|done]. apply (inj Some) in Hs. by eapply request_covers.
  - destruct (dispatcher s); [|done]. apply (inj Some) in Hs. unfold CleanupValidationContextOnUnload in Hs.
    destruct (FreeWorkItems _) as [s1|] eqn:Ef; [|done]. apply Ok_inj in Hs as <-.
    assert (vcov s1) as H1 by (eapply free_items_covers; [|exact Ef]; by eapply vcov_agree).
    by eapply vcov_agree.
  - destruct (dispatcher s) as [|items]; [done|]. destruct (_ =? 0); [|done]. apply (inj Some) in Hs.
    unfold dispatcher_resume in Hs. destruct items; [|apply Ok_inj in Hs as <-; by intros ? [=]].
    unfold FreeWorkItems in Hs. destruct (existsb _ _); [done|]. apply Ok_inj in Hs as <-. by intros ? [=].
  - destruct (queued s) as [|x q] eqn:Eq; [done|]. injection Hs as <-. intros flags Hfl.
    destruct (Hv flags Hfl) as [Cc Cw Cf Cl]. split; cbn; try done.
    + apply Forall_app. split; [done|]. constructor; [|done]. by apply covered_two.
    + intros j Hj. specialize (Cl j Hj). unfold claims in *. cbn. rewrite fmap_app, concat_app. cbn.
      by rewrite app_nil_r.
  - destruct (workers s !! i) as [p|] eqn:Ei; [|by cbn in Hs; rewrite Ei in Hs].
    destruct (work_step s i p s' Ei Hs) as (Hd & p' & c' & l & Hw & ->). by eapply worker_covers.
Qed.

Lemma first_run_cov s : first_run s -> vcov s.
Proof.
  induction 1 as [|a s s' Hf IH Hr Hs]; [by intros ? [=]|].
  eapply step_covers; eauto using first_run_inv.
Qed.

(** ** Rounds *)

(** The steps a worker has left. *)
Definition steps_left (p : wpc) : Z :=
  match p with
  | WStart => 57 | WRead => 56 | WExchange _ => 55
  | WLoop n m => 2 * Z.max 0 (m - n) + 4
  | WValidate n m => 2 * Z.max 0 (m - n) + 3
  | WComplete _ => 3 | WStore _ => 2 | WLeave => 1 | WDone => 0
  end.

(** The steps the queued items and the workers have left. *)
Definition remaining (l : list wpc) : Z := foldr (fun p n => steps_left p + n) 0 l.
Definition potential (s : vstate) : Z := 58 * zlen (queued s) + remaining (workers s).

(** A step of a work item. *)
Definition worker_action (a : vaction) : bool :=
  match a with Dequeue | Work _ => true | _ => false end.

Lemma worker_step_decreases p c p' c' l :
  pc_ok p -> block_size c = 25 -> p <> WDone -> worker_step p c = Ok (p', c', l) ->
  0 <= steps_left p' < steps_left p /\ block_size c' = 25.
Proof.
  intros Hp Hb Hd Hs. destruct p as [| |v|n m|n m|n|n| |]; cbn in *; try done.
  - injection Hs as <- <- <-. cbn. lia.
  - injection Hs as <- <- <-. cbn. lia.
  - injection Hs as <- <- <-. cbn. lia.
  - destruct (Z.ltb_spec n m); cbn [andb] in Hs; [|injection Hs as <- <- <-; cbn; lia].
    destruct (Z.ltb_spec n (total_count c)); [|injection Hs as <- <- <-; cbn; lia].
    destruct (dispatcher_info c) as [flags|]; [|done].
    destruct (znth flags n) as [[]|]; [| |done]; injection Hs as <- <- <-; cbn; lia.
  - destruct (module_info c); [|done]. injection Hs as <- <- <-. cbn. lia.
  - injection Hs as <- <- <-. cbn. split; [lia|]. by destruct (n =? total_count c).
  - injection Hs as <- <- <-. cbn. lia.
  - injection Hs as <- <- <-. cbn. lia.
Qed.

Lemma remaining_app k l : remaining (k ++ l) = remaining k + remaining l.
Proof. unfold remaining. induction k as [|p k IH]; [done|]. cbn. rewrite IH. lia. Qed.

Lemma remaining_pos l : 0 <= remaining l.
Proof. unfold remaining. induction l as [|p l IH]; cbn; [done|]. destruct p; cbn; lia. Qed.

Lemma worker_action_decreases a s s' :
  vinv s -> block_size (ctx s) = 25 -> worker_action a = true -> vstep a s = Some (Ok s') ->
  potential s' < potential s /\ block_size (ctx s') = 25.
Proof.
  intros Hv Hb Ha Hs. unfold potential. destruct a as [| | | |i]; try done.
  - cbn [vstep] in Hs. destruct (queued s) as [|x q] eqn:Eq; [done|]. injection Hs as <-.
    split; [|done]. cbn [queued workers]. rewrite remaining_app, zlen_cons. cbn. lia.
  - destruct (workers s !! i) as [p|] eqn:Ei; [|by cbn in Hs; rewrite Ei in Hs].
    destruct (work_step s i p s' Ei Hs) as (Hd & p' & c' & l & Hw & ->). cbn [queued workers ctx].
    assert (pc_ok p) as Hp. { eapply Forall_lookup_1; [apply (vi_counts _ Hv); lia|done]. }
    destruct (worker_step_decreases _ _ _ _ _ Hp Hb Hd Hw) as [Hl Hb']. split; [|done].
    destruct (worker_split (workers s) i p p' Ei) as (l1 & l2 & E & E'). rewrite E', E.
    rewrite !remaining_app. cbn. fold (remaining l2). lia.
Qed.

(** Where a worker can be in a round that began at [c]. *)
Definition pc_round (c : Z) (ct : SYS_MODULE_VAL_CONTEXT) (p : wpc) : Prop :=
  match p with
  | WExchange v => c <= v <= total_count ct /\ (v = total_count ct -> complete ct = true)
  | WLoop n m => c <= n <= total_count ct /\ c + 25 <= m
  | WValidate n m => c <= n < total_count ct /\ c + 25 <= m
  | WComplete n => Z.min (c + 25) (total_count ct) <= n <= total_count ct
  | WStore n => Z.min (c + 25) (total_count ct) <= n <= total_count ct /\
      (n = total_count ct -> complete ct = true)
  | _ => True
  end.

(** The worker has not stored its count yet. *)
Definition unfinished (p : wpc) : bool := match p with WLeave | WDone => false | _ => true end.

Record in_round (c : Z) (s : vstate) : Prop := {
  ir_bounds : 2 <= c < total_count (ctx s);
  ir_block : block_size (ctx s) = 25;
  ir_current : c <= current_count (ctx s) <= total_count (ctx s);
  ir_workers : Forall (pc_round c (ctx s)) (workers s);
  ir_progress : Z.min (c + 25) (total_count (ctx s)) <= current_count (ctx s) \/
    Exists (fun p => unfinished p = true) (workers s) \/ queued s <> [];
  ir_complete : current_count (ctx s) = total_count (ctx s) -> complete (ctx s) = true;
}.

(** One step of a worker in a round. *)
Lemma worker_in_round c ct p p' ct' l :
  2 <= c < total_count ct -> block_size ct = 25 -> c <= current_count ct <= total_count ct ->
  (current_count ct = total_count ct -> complete ct = true) -> pc_round c ct p -> p <> WDone ->
  worker_step p ct = Ok (p', ct', l) ->
  total_count ct' = total_count ct /\ block_size ct' = 25 /\ (complete ct = true -> complete ct' = true) /\
  c <= current_count ct' <= total_count ct' /\
  (current_count ct' = total_count ct' -> complete ct' = true) /\ pc_round c ct' p' /\
  (unfinished p' = true \/ Z.min (c + 25) (total_count ct) <= current_count ct' \/
   p = WLeave /\ current_count ct' = current_count ct).
Proof.
  intros Hc Hb Hcur Hcc Hp Hd Hs. destruct p as [| |v|n m|n m|n|n| |]; cbn in *; try done.
  - injection Hs as <- <- <-. cbn. split_and!; try lia; try done; by left.
  - injection Hs as <- <- <-. cbn. split_and!; try lia; try done; by left.
  - injection Hs as <- <- <-. cbn. destruct Hp. split_and!; try lia; try done; by left.
  - destruct (Z.ltb_spec n m), (Z.ltb_spec n (total_count ct)); cbn [andb] in Hs;
      try (injection Hs as <- <- <-; cbn; split_and!; try lia; try done; by left).
    destruct (dispatcher_info ct) as [flags|]; [|done].
    destruct (znth flags n) as [[]|]; [| |done]; injection Hs as <- <- <-; cbn;
      split_and!; try lia; try done; by left.
  - destruct (module_info ct); [|done]. injection Hs as <- <- <-. cbn. split_and!; try lia; try done; by left.
  - injection Hs as <- <- <-. destruct (Z.eqb_spec n (total_count ct)); cbn; split_and!; try lia; try done; by left.
  - injection Hs as <- <- <-. cbn. destruct Hp. split_and!; try done; lia.
  - injection Hs as <- <- <-. cbn. split_and!; try done; try lia. right. right. done.
Qed.

Lemma action_in_round c a s s' :
  in_round c s -> worker_action a = true -> vstep a s = Some (Ok s') -> in_round c s'.
Proof.
  intros [Ib Ik Ic Iw Ip Im] Ha Hs. destruct a as [| | | |i]; try done.
  - cbn [vstep] in Hs. destruct (queued s) as [|x q]; [done|]. injection Hs as <-. split; cbn; try done.
    + apply Forall_app. split; [done|]. by constructor.
    + right. left. apply Exists_app. right. by constructor.
  - destruct (workers s !! i) as [p|] eqn:Ei; [|by cbn in Hs; rewrite Ei in Hs].
    destruct (work_step s i p s' Ei Hs) as (Hd & p' & c' & l & Hw & ->).
    pose proof (Forall_lookup_1 _ _ _ _ Iw Ei) as Hp.
    destruct (worker_in_round c (ctx s) p p' c' l Ib Ik Ic Im Hp Hd Hw)
      as (Et & Eb & Em & Hcur & Hcc & Hp' & Hpr).
    split; cbn; try done.
    + by rewrite Et.
    + apply Forall_insert; [|done]. eapply Forall_impl; [exact Iw|].
      intros q. destruct q; cbn; rewrite ?Et; try done; intros [? ?]; (split; [done|]); auto.
    + rewrite Et. assert (unfinished p' = true -> Exists (fun p => unfinished p = true) (<[i := p']> (workers s)))
        as Hex.
      { intros Hu. apply Exists_exists. exists p'. split; [|done]. apply list_elem_of_lookup. exists i.
        apply list_lookup_insert_eq. by eapply lookup_lt_Some. }
      destruct Hpr as [Hu|[Hu|[-> Hu]]]; [by right; left; apply Hex|by left|].
      rewrite Hu. destruct Ip as [?|[Hx|?]]; [by left| |by right; right]. right. left.
      apply Exists_exists in Hx as (q & Hq & Hqu). apply list_elem_of_lookup in Hq as [j Hj].
      apply Exists_exists. exists q. split; [|done]. apply list_elem_of_lookup. exists j.
      rewrite list_lookup_insert_ne; [done|]. intros ->. rewrite Ei in Hj. by injection Hj as <-.
Qed.

(** What the workers leave alone. *)
Record same_run (s s' : vstate) : Prop := {
  sr_dispatcher : dispatcher s' = dispatcher s;
  sr_active : active (ctx s') = active (ctx s);
  sr_total : total_count (ctx s') = total_count (ctx s);
  sr_live : is_Some (dispatcher_info (ctx s)) -> is_Some (dispatcher_info (ctx s'));
}.

Lemma worker_action_same a s s' :
  worker_action a = true -> vstep a s = Some (Ok s') -> same_run s s'.
Proof.
  intros Ha Hs. destruct a as [| | | |i]; try done.
  - cbn [vstep] in Hs. destruct (queued s); [done|]. injection Hs as <-. by split.
  - destruct (workers s !! i) as [p|] eqn:Ei; [|by cbn in Hs; rewrite Ei in Hs].
    destruct (work_step s i p s' Ei Hs) as (Hd & p' & c' & l & Hw & ->).
    destruct p as [| |v|n m|n m|n|n| |]; cbn in Hw; try done; try (injection Hw as <- <- <-; by split).
    + destruct ((n <? m) && (n <? total_count (ctx s))); [|by injection Hw as <- <- <-; split].
      destruct (dispatcher_info (ctx s)) as [flags|] eqn:Ed; [|done].
      destruct (znth flags n) as [[]|]; [| |done]; injection Hw as <- <- <-; split; cbn; try done;
        by rewrite Ed.
    + destruct (module_info (ctx s)); [|done]. by injection Hw as <- <- <-; split.
    + injection Hw as <- <- <-. by destruct (n =? total_count (ctx s)); split.
Qed.

Definition all_workers (l : list vaction) : Prop := Forall (fun a => worker_action a = true) l.

(** A run of workers. *)
Lemma workers_run l : forall s s' c,
  all_workers l -> vrun l s = Some (Ok s') -> first_run s -> in_round c s ->
  first_run s' /\ in_round c s' /\ same_run s s'.
Proof.
  induction l as [|a l IH]; intros s s' c Hl Hr Hf Hi.
  { cbn in Hr. injection Hr as <-. by split_and!. }
  apply Forall_cons in Hl as [Ha Hl]. cbn in Hr. destruct (vstep a s) as [[s1|]|] eqn:Es; try done.
  assert (first_run s1) as Hf1 by (eapply first_step; [done| |exact Es]; by destruct a).
  destruct (IH s1 s' c Hl Hr Hf1 ltac:(by eapply action_in_round)) as (F & I & [D1 A1 T1 L1]).
  destruct (worker_action_same a s s1 Ha Es) as [D2 A2 T2 L2]. split; [done|]. split; [done|].
  split; [congruence..|]. auto.
Qed.

(** Nothing is queued and no worker runs. *)
Definition quiescent (s : vstate) : Prop :=
  queued s = [] /\ Forall (fun p => p = WDone) (workers s).

(** A request whose work items all finish. *)
Definition one_round (s s' : vstate) : Prop :=
  exists s1 l, vstep Request s = Some (Ok s1) /\ all_workers l /\ vrun l s1 = Some (Ok s') /\
    quiescent s'.

(** [k] requests, each once the work items of the previous one have finished, until
    the verification is complete. *)
Inductive rounds : nat -> vstate -> vstate -> Prop :=
  | rounds_O s : rounds 0 s s
  | rounds_stop k s s' : rounds k s s' -> complete (ctx s') = true -> rounds (S k) s s'
  | rounds_S k s s1 s2 :
      rounds k s s1 -> complete (ctx s1) = false -> one_round s1 s2 -> rounds (S k) s s2.

Lemma start_items_queue n : (forall i, grants_item i = true) -> forall index s,
  (0 < n)%nat -> queued (start_items n index s) <> [].
Proof.
  intros Hg. assert (forall n index s, queued s <> [] -> queued (start_items n index s) <> []) as Hk.
  { clear n. induction n as [|n IH]; intros index s Hs; [done|]. cbn [start_items]. rewrite Hg.
    apply IH. cbn. by destruct (queued s). }
  intros index s Hn. destruct n as [|n]; [lia|]. cbn [start_items]. rewrite Hg. apply Hk. cbn.
  by destruct (queued s).
Qed.

(** Between two rounds of a verification of [n] modules, [k] rounds into it. *)
Record between (n : Z) (k : nat) (s : vstate) : Prop := {
  bt_run : first_run s;
  bt_quiet : quiescent s;
  bt_idle : dispatcher s = DIdle;
  bt_active : active (ctx s) = true;
  bt_total : total_count (ctx s) = n;
  bt_block : block_size (ctx s) = 25;
  bt_live : is_Some (dispatcher_info (ctx s));
  bt_current : 2 <= current_count (ctx s) <= n;
  bt_progress : complete (ctx s) = true \/ 2 + 25 * Z.of_nat k <= current_count (ctx s);
  bt_complete : current_count (ctx s) = n -> complete (ctx s) = true;
}.

(** A round that starts at [c]. *)
Lemma finish_round n k c s1 l s' :
  first_run s1 -> in_round c s1 -> total_count (ctx s1) = n -> dispatcher s1 = DIdle ->
  active (ctx s1) = true -> is_Some (dispatcher_info (ctx s1)) -> 2 + 25 * Z.of_nat k <= c ->
  all_workers l -> vrun l s1 = Some (Ok s') -> quiescent s' -> between n (S k) s'.
Proof.
  intros Hf Hi Ht Hd Ha Hl Hk Hw Hr Hq.
  destruct (workers_run l s1 s' c Hw Hr Hf Hi) as (F & [Ib Ik Ic Iw Ip Im] & [D1 A1 T1 L1]).
  assert (Z.min (c + 25) (total_count (ctx s')) <= current_count (ctx s')) as Hp.
  { destruct Ip as [?|[Hx|Hx]]; [done| |by destruct Hq].
    apply Exists_exists in Hx as (p & Hp & Hu). destruct Hq as [_ Hq].
    rewrite Forall_forall in Hq. by rewrite (Hq p Hp) in Hu. }
  split; try done; try congruence; try lia; auto.
  - destruct (decide (current_count (ctx s') = total_count (ctx s'))); [left; auto|]. right. lia.
  - intros Hn. apply Im. congruence.
Qed.

(** The modules can be listed and the allocations succeed. *)
Record can_verify (n : Z) : Prop := {
  cv_query : module_query = Some n;
  cv_count : 2 < n;
  cv_flags : grants_flags = true;
  cv_items : forall i, grants_item i = true;
}.

Lemma started_round c s items index :
  can_verify (total_count (ctx s)) -> workers (start_items (S items) index s) = workers s ->
  2 <= c < total_count (ctx s) -> block_size (ctx s) = 25 -> current_count (ctx s) = c ->
  Forall (fun p => p = WDone) (workers s) -> in_round c (start_items (S items) index s).
Proof.
  intros Hg Hw Hc Hb Hcur Hd. destruct (start_items_spec (S items) index s) as (_ & _ & _ & l & Hctx).
  split; rewrite ?Hctx, ?Hw; cbn; try done; try lia.
  - eapply Forall_impl; [exact Hd|]. by intros p ->.
  - right. right. exact (start_items_queue (S items) (cv_items _ Hg) index s ltac:(lia)).
Qed.

Lemma first_round n s' : can_verify n -> one_round idle s' -> between n 1 s'.
Proof.
  intros Hg (s1 & l & Hs & Hw & Hr & Hq).
  pose proof (first_step Request idle s1 first_idle eq_refl Hs) as Hf.
  cbn [vstep dispatcher idle] in Hs. apply (inj Some) in Hs.
  unfold SystemModuleVerificationDispatcher, InitialiseSystemModuleVerificationContext in Hs.
  rewrite (cv_query _ Hg), (cv_flags _ Hg) in Hs.
  change (negb (NT_SUCCESS STATUS_SUCCESS)) with false in Hs. apply Ok_inj in Hs. cbn iota beta in Hs.
  set (s0 := VState _ _ _ _ _ _) in Hs.
  destruct (start_items_spec VERIFICATION_THREAD_COUNT 0 s0) as (Hwk & Hlog & Hdp & items & Hctx).
  pose proof (cv_count _ Hg). subst s1.
  eapply (finish_round n 0 2 _ l); try done; rewrite ?Hctx; try done; try lia.
  by apply started_round.
Qed.

Lemma next_round n k s s' :
  can_verify n -> between n k s -> complete (ctx s) = false -> one_round s s' -> between n (S k) s'.
Proof.
  intros Hg [Bf [Bq Bw] Bi Ba Bt Bb Bl Bc Bp Bm] Hc (s1 & l & Hs & Hw & Hr & Hq).
  assert (first_run s1) as Hf.
  { eapply first_step; [exact Bf| |exact Hs]. cbn. by rewrite Hc, Ba. }
  cbn [vstep] in Hs. rewrite Bi in Hs. apply (inj Some) in Hs.
  unfold SystemModuleVerificationDispatcher in Hs. rewrite Hc, Ba in Hs. cbn [negb] in Hs.
  destruct (FreeWorkItems s) as [s0|] eqn:Ef; [|done]. apply Ok_inj in Hs.
  unfold FreeWorkItems in Ef. destruct (existsb _ _); [done|]. apply Ok_inj in Ef. subst s0.
  set (s0 := set_ctx _ s) in Hs.
  destruct (start_items_spec VERIFICATION_THREAD_COUNT 0 s0) as (Hwk & Hlog & Hdp & items & Hctx).
  assert (current_count (ctx s) <> n) as Hne by (intros E; rewrite (Bm E) in Hc; done).
  destruct Bp as [Bp|Bp]; [congruence|]. subst s1.
  eapply (finish_round n k (current_count (ctx s)) _ l); try done; rewrite ?Hctx; try done; try lia.
  - apply started_round; try done; cbn; try lia. by rewrite Bt.
  - by rewrite Hdp.
Qed.

Lemma rounds_between n k s :
  can_verify n -> rounds (S k) idle s -> exists j, (complete (ctx s) = true \/ j = S k) /\ between n j s.
Proof.
  intros Hg. revert s. induction k as [|k IH]; intros s Hr.
  - inversion Hr as [|? ? ? H0 Hc|? ? s1 ? H0 Hc H1]; subst; inversion H0; subst; [done|].
    exists 1%nat. split; [by right|]. by apply first_round.
  - inversion Hr as [|? ? ? H0 Hc|? ? s1 ? H0 Hc H1]; subst.
    + destruct (IH s H0) as (j & _ & Hb). exists j. split; [by left|done].
    + destruct (IH s1 H0) as (j & [Hj| ->] & Hb); [congruence|]. exists (S (S k)).
      split; [by right|]. by eapply next_round.
Qed.

(** What has been validated once a run is complete and its workers have left. *)
Lemma complete_log n k s :
  between n k s -> complete (ctx s) = true -> log s ≡ₚ iota 2 (Z.to_nat (n - 2)).
Proof.
  intros [Bf [Bq Bw] Bi Ba Bt Bb [flags Bl] Bc Bp Bm] Hc.
  pose proof (first_run_inv s Bf) as Hi. destruct (first_run_cov s Bf flags Bl) as [_ _ Cf Cl].
  assert (concat (validating <$> workers s) = []) as Hw.
  { clear - Bw. induction Bw as [|p l -> _ IH]; [done|]. exact IH. }
  assert (claims s = log s) as E by (unfold claims; by rewrite Hw, app_nil_r).
  apply NoDup_Permutation.
  - rewrite <- E. apply Hi.
  - unfold iota. apply NoDup_fmap_2; [intros ? ? ?; lia|apply NoDup_seq].
  - intros j. rewrite elem_of_iota, <- E. split.
    + intros Hj. destruct (vi_flags _ Hi flags Bl j Hj) as [H2 Hz].
      assert (0 <= j < zlen flags) as Hr by (apply znth_Some; by eexists).
      rewrite (proj2 (vi_live _ Hi flags Bl)) in Hr. lia.
    + intros Hj. apply Cl, Cf; try done. lia.
Qed.

End invariant.

(** ** Properties *)

Section properties.
Context {A : VerifyApi}.

(** C12: the workers of a run, under every interleaving of requests, unload and
    workers up to the next initialisation of the context.  No module is validated
    twice; while the context is allocated, every module validated is one of the
    modules from the third on, and no step of a worker faults, in particular none
    reads outside the array of flags. *)
Theorem modules_validated_at_most_once s :
  first_run s ->
  NoDup (log s) /\
  forall flags, dispatcher_info (ctx s) = Some flags ->
    (forall i, i ∈ log s -> 2 <= i < total_count (ctx s)) /\
    (forall i r, vstep (Work i) s = Some r -> exists s', r = Ok s').
Proof.
  intros Hf. pose proof (first_run_inv s Hf) as Hi. split.
  { pose proof (vi_claims _ Hi) as Hc. unfold claims in Hc. by apply NoDup_app in Hc as (? & _ & _). }
  intros flags Hd. split.
  - intros i Hil. destruct (vi_flags _ Hi flags Hd i) as [H2 Hz].
    { unfold claims. apply elem_of_app. by left. }
    assert (0 <= i < zlen flags) as Hr by (apply znth_Some; by eexists).
    rewrite (proj2 (vi_live _ Hi flags Hd)) in Hr. lia.
  - intros i r Hs. cbn [vstep] in Hs. destruct (workers s !! i) as [p|] eqn:Ei; [|done].
    destruct (live_worker_ok s flags i p Hi Hd Ei) as [[[p' c'] l] Hw].
    rewrite Hw in Hs. by destruct p; [..|done]; injection Hs as <-; eexists.
Qed.

(** C6: verification completes.  When each request is made after the work items
    of the previous one have finished, in whatever order their steps interleave,
    [k] requests with [25 * k] at least the number of modules to check end with
    the verification complete, and by then each module from the third on has been
    validated exactly once. *)
Theorem verification_completes n k s :
  can_verify n -> rounds k idle s -> n - 2 <= 25 * Z.of_nat k ->
  complete (ctx s) = true /\ log s ≡ₚ iota 2 (Z.to_nat (n - 2)).
Proof.
  intros Hg Hr Hk. pose proof (cv_count _ Hg). destruct k as [|k]; [lia|].
  destruct (rounds_between n k s Hg Hr) as (j & Hj & Hb).
  assert (complete (ctx s) = true) as Hc.
  { destruct Hj as [?|Hj]; [done|]. subst j. destruct Hb as [_ _ _ _ _ _ _ Bc [?|Bp] Bm]; [done|].
    apply Bm. lia. }
  split; [done|]. by eapply complete_log.
Qed.

(** C29: the workers terminate.  In a run, every sequence of steps of work items
    is at most as long as the potential of its first state, at most 58 steps for
    each queued item. *)
Theorem workers_terminate l : forall s r,
  first_run s -> block_size (ctx s) = 25 -> all_workers l -> vrun l s = Some (Ok r) ->
  zlen l <= potential s - potential r.
Proof.
  induction l as [|a l IH]; intros s r Hf Hb Hl Hr.
  { injection Hr as <-. unfold zlen. cbn. lia. }
  apply Forall_cons in Hl as [Ha Hl]. cbn in Hr. destruct (vstep a s) as [[s1|]|] eqn:Es; try done.
  destruct (worker_action_decreases a s s1 (first_run_inv s Hf) Hb Ha Es) as [Hp Hb1].
  assert (first_run s1) as Hf1 by (eapply first_step; [done| |exact Es]; by destruct a).
  specialize (IH s1 r Hf1 Hb1 Hl Hr). rewrite zlen_cons. lia.
Qed.

(** A request while a work item waits.  As long as the verification is not
    complete, a request frees the work items of the previous one without asking
    whether they have run; if one is still queued this is a bug check. *)
Theorem early_request_frees_queued_item s i :
  dispatcher s = DIdle -> active (ctx s) = true -> complete (ctx s) = false ->
  i ∈ work_items (ctx s) -> i <> 0 -> i ∈ queued s ->
  vstep Request s = Some (Crash BadFree).
Proof.
  intros Hd Ha Hc Hi H0 Hq. cbn [vstep]. rewrite Hd. unfold SystemModuleVerificationDispatcher.
  rewrite Hc, Ha. cbn [negb]. unfold FreeWorkItems.
  assert (existsb (fun i => negb (i =? 0) && bool_decide (i ∈ queued s)) (work_items (ctx s)) = true) as ->.
  { apply existsb_exists. exists i. split; [by apply list_elem_of_In|].
    rewrite bool_decide_eq_true_2 by done. destruct (Z.eqb_spec i 0); done. }
  done.
Qed.

(** Too few modules.  The count starts at 2, past the kernel and the HAL, and
    completion is detected by equality; a verification of fewer than two modules
    (none are listed when the module query is abandoned) never completes. *)
Theorem too_few_modules_never_complete s :
  first_run s -> active (ctx s) = true -> total_count (ctx s) < 2 -> complete (ctx s) = false.
Proof.
  intros Hf. assert (active (ctx s) = true -> total_count (ctx s) < 2 -> complete (ctx s) = false) as Hg;
    [|done]. induction Hf as [|a s s' Hf IH Hr Hs]; [done|].
  destruct a as [| | | |i].
  - cbn [vstep] in Hs. destruct (dispatcher s); [|done]. apply (inj Some) in Hs.
    unfold SystemModuleVerificationDispatcher in Hs.
    destruct (complete (ctx s)) eqn:Ec; [apply Ok_inj in Hs as <-; done|].
    destruct (active (ctx s)); cbn [negb] in Hs.
    + unfold FreeWorkItems in Hs. destruct (existsb _ _); [done|]. apply Ok_inj in Hs as <-.
      destruct (start_items_spec VERIFICATION_THREAD_COUNT 0
        (set_ctx (set_items (replicate VERIFICATION_THREAD_COUNT 0) (ctx s)) s)) as (_ & _ & _ & l & ->).
      by cbn.
    + unfold InitialiseSystemModuleVerificationContext in Hs.
      destruct module_query as [n|]; [|by apply Ok_inj in Hs as <-].
      destruct grants_flags; cbn [negb] in Hs; [|by apply Ok_inj in Hs as <-].
      change (negb (NT_SUCCESS STATUS_SUCCESS)) with false in Hs. cbn iota in Hs.
      apply Ok_inj in Hs as <-. set (s0 := VState _ _ _ _ _ _).
      destruct (start_items_spec VERIFICATION_THREAD_COUNT 0 s0) as (_ & _ & _ & l & ->). done.
  - cbn [vstep] in Hs. destruct (dispatcher s); [|done]. apply (inj Some) in Hs.
    unfold CleanupValidationContextOnUnload, FreeWorkItems in Hs.
    destruct (existsb _ _); [done|]. by apply Ok_inj in Hs as <-.
  - cbn [vstep] in Hs. destruct (dispatcher s) as [|[]]; [done|..]; destruct (_ =? 0); try done;
      apply (inj Some) in Hs; unfold dispatcher_resume, FreeWorkItems in Hs;
      [destruct (existsb _ _); [done|]|]; by apply Ok_inj in Hs as <-.
  - cbn [vstep] in Hs. destruct (queued s); [done|]. by injection Hs as <-.
  - destruct (workers s !! i) as [p|] eqn:Ei; [|by cbn in Hs; rewrite Ei in Hs].
    destruct (work_step s i p s' Ei Hs) as (Hd & p' & c' & l & Hw & ->).
    assert (pc_ok p) as Hp.
    { pose proof (first_run_inv s Hf) as Hi. eapply Forall_lookup_1; [|exact Ei].
      apply (vi_counts _ Hi). intros Hb. destruct (vi_fresh _ Hi Hb) as [E _]. by rewrite E in Ei. }
    destruct (worker_action_same (Work i) s _ eq_refl Hs) as [_ Ea Et _]. cbn [ctx] in *.
    rewrite Ea, Et. intros H1 H2. specialize (IH H1 H2).
    destruct p as [| |v|n m|n m|n|n| |]; cbn in Hw, Hp; try done; try (by injection Hw as <- <- <-).
    + destruct ((n <? m) && (n <? total_count (ctx s))); [|by injection Hw as <- <- <-].
      destruct (dispatcher_info (ctx s)) as [flags|]; [|done].
      destruct (znth flags n) as [[]|]; [| |done]; by injection Hw as <- <- <-.
    + destruct (module_info (ctx s)); [|done]. by injection Hw as <- <- <-.
    + injection Hw as <- <- <-. destruct (Z.eqb_spec n (total_count (ctx s))); [lia|done].
Qed.

End properties.

(** ** A late worker *)

(** A system with 30 modules. *)
Definition thirty : VerifyApi :=
  {| module_query := Some 30; grants_flags := true; grants_item := fun _ => true |}.

(** Four workers start.  The first is stopped before it stores its count; the
    second and third reach the end; the first then stores its old count.  The next
    request finds no active worker and frees the context; then the fourth worker
    runs. *)
Definition late_worker : list vaction :=
  Request :: replicate 4 Dequeue ++ replicate 55 (Work 0) ++ replicate 32 (Work 1) ++
  replicate 13 (Work 2) ++ replicate 2 (Work 0) ++ [Request; Resume] ++ replicate 4 (Work 3).

(** A late worker.  A work item that has left the queue but has not been
    counted yet when the context is freed dereferences the null pointer left
    there, when another worker has stored an old count. *)
Theorem late_worker_faults : vrun (A := thirty) late_worker idle = Some (Crash NullDereference).
Proof. vm_compute. reflexivity. Qed.

(** ** Witnesses *)

(** One module to check, and a run of one request in which the first two workers
    interleave. *)
Definition three : VerifyApi :=
  {| module_query := Some 3; grants_flags := true; grants_item := fun _ => true |}.

Definition one_module : list vaction :=
  replicate 4 Dequeue ++ concat (replicate 8 [Work 0; Work 1]) ++ replicate 1 (Work 0) ++
  replicate 7 (Work 2) ++ replicate 7 (Work 3).

Definition after_trace {A : VerifyApi} (l : list vaction) (s : vstate) : vstate :=
  match vrun l s with Some (Ok s') => s' | _ => s end.

Lemma vrun_first_run {A : VerifyApi} l : forall s s',
  first_run s -> Forall (fun a => worker_action a = true) l -> vrun l s = Some (Ok s') -> first_run s'.
Proof.
  induction l as [|a l IH]; intros s s' Hf Hl Hr; [by injection Hr as <-|].
  apply Forall_cons in Hl as [Ha Hl]. cbn in Hr. destruct (vstep a s) as [[s1|]|] eqn:E; try done.
  eapply IH; [|done|exact Hr]. eapply first_step; [exact Hf| |exact E]. by destruct a.
Qed.


(** The states after the request and at the end of that run. *)
Definition requested {A : VerifyApi} : vstate := after_trace [Request] idle.
Definition finished : vstate := after_trace (A := three) (Request :: one_module) idle.

Lemma requested_first_run {A : VerifyApi} :
  vstep Request idle = Some (Ok requested) -> first_run requested.
Proof. intros Hs. exact (first_step Request idle _ first_idle eq_refl Hs). Qed.

Lemma one_module_workers : Forall (fun a => worker_action a = true) one_module.
Proof. apply (bool_decide_unpack _). vm_compute. exact I. Qed.

Lemma finished_run : vrun (A := three) one_module (requested (A := three)) = Some (Ok finished).
Proof. vm_compute. reflexivity. Qed.

Lemma finished_first_run : first_run (A := three) finished.
Proof.
  eapply (vrun_first_run (A := three)); [|apply one_module_workers|apply finished_run].
  apply (requested_first_run (A := three)). vm_compute. reflexivity.
Qed.

Lemma three_can_verify : can_verify (A := three) 3.
Proof. by split. Qed.

Lemma modules_validated_at_most_once_witness :
  NoDup (log finished) /\
  forall flags, dispatcher_info (ctx finished) = Some flags ->
    (forall i, i ∈ log finished -> 2 <= i < total_count (ctx finished)) /\
    (forall i r, vstep (A := three) (Work i) finished = Some r -> exists s', r = Ok s').
Proof. exact (modules_validated_at_most_once (A := three) finished finished_first_run). Defined.

Lemma verification_completes_witness :
  complete (ctx finished) = true /\ log finished ≡ₚ iota 2 (Z.to_nat (3 - 2)).
Proof.
  apply (verification_completes (A := three) 3 1 finished three_can_verify).
  - eapply rounds_S; [apply rounds_O|reflexivity|].
    exists (requested (A := three)), one_module. split_and!.
    + vm_compute. reflexivity.
    + apply one_module_workers.
    + apply finished_run.
    + split; [vm_compute; reflexivity|]. vm_compute. repeat constructor.
  - vm_compute. intros Hx. inversion Hx.
Defined.

Lemma workers_terminate_witness :
  zlen one_module <= potential (requested (A := three)) - potential finished.
Proof.
  apply (workers_terminate (A := three) one_module (requested (A := three)) finished).
  - apply (requested_first_run (A := three)). vm_compute. reflexivity.
  - vm_compute. reflexivity.
  - apply one_module_workers.
  - apply finished_run.
Defined.

Lemma early_request_frees_queued_item_witness :
  vstep (A := three) Request (requested (A := three)) = Some (Crash BadFree).
Proof.
  apply (early_request_frees_queued_item (A := three) (requested (A := three)) 1);
    try (vm_compute; reflexivity); try lia; vm_compute; constructor.
Defined.

(** A system that lists one module. *)
Definition one : VerifyApi :=
  {| module_query := Some 1; grants_flags := true; grants_item := fun _ => true |}.

Lemma too_few_modules_never_complete_witness : complete (ctx (requested (A := one))) = false.
Proof.
  apply (too_few_modules_never_complete (A := one)).
  - apply (requested_first_run (A := one)). vm_compute. reflexivity.
  - vm_compute. reflexivity.
  - vm_compute. reflexivity.
Defined.
