(* ===== verification/PageWalk.v ===== *)
(** * pool.c: the walk over the page tables

    The scan for unlinked processes visits every page that the current page
    tables map.  The walk is modelled loop by loop, with a function for the page
    scan as parameter, and related to a reference: the processor's translation of
    a virtual address, level by level. *)

From S2P Require Import Prelude Layout Modules Handles.

(** ** Entries of the paging structures

    The bit fields of common.h and ia32.h: [n] bits from bit [lo] on. *)

Definition bits (lo n x : Z) : Z := Z.land (Z.shiftr x lo) (Z.ones n).

Definition PAGE_4KB_SHIFT : Z := 12.
Definition PAGE_2MB_SHIFT : Z := 21.
Definition PAGE_1GB_SHIFT : Z := 30.

Definition IS_LARGE_PAGE (x : Z) : bool := negb (bits 7 1 x =? 0).

Definition CR3_AddressOfPageDirectory (cr3 : Z) : Z := bits 12 36 cr3.
Definition PML4E_Present (e : Z) : Z := bits 0 1 e.
Definition PML4E_PhysicalAddress (e : Z) : Z := bits 12 40 e.
Definition PDPTE_Present (e : Z) : Z := bits 0 1 e.
Definition PDPTE_PhysicalAddress (e : Z) : Z := bits 12 40 e.
Definition PDPTE_LARGE_PhysicalAddress (e : Z) : Z := bits 30 22 e.
Definition PDE_Present (e : Z) : Z := bits 0 1 e.
Definition PDE_PhysicalAddress (e : Z) : Z := bits 12 38 e.
Definition PDE_LARGE_PhysicalAddress (e : Z) : Z := bits 21 29 e.
Definition PTE_Present (e : Z) : Z := bits 0 1 e.
Definition PTE_PhysicalAddress (e : Z) : Z := bits 12 38 e.

Definition PML4_ENTRY_COUNT : Z := 512.
Definition PDPT_ENTRY_COUNT : Z := 512.
Definition PD_ENTRY_COUNT : Z := 512.
Definition PT_ENTRY_COUNT : Z := 512.
Definition LARGE_PAGE_2MB_ENTRIES : Z := 512.
Definition LARGE_PAGE_1GB_ENTRIES : Z := 0x40000.
Definition PAGE_BASE_SIZE : Z := 0x1000.
Definition PAGE_SIZE : Z := 0x1000.

Record PHYSICAL_MEMORY_RANGE := MemoryRange { BaseAddress : Z; NumberOfBytes : Z }.

(** The control register, the memory manager's list of physical ranges ([None]
    for a null pointer) and its map from physical to virtual addresses. *)
Class PagingApi := {
  readcr3 : Z;
  MmGetPhysicalMemoryRangesEx2 : option (list PHYSICAL_MEMORY_RANGE);
  MmGetVirtualForPhysical : Z -> Z;
}.

(** [for (i = 0; i < n; i++)], as a fold over what the body changes. *)
Fixpoint for_each {X C} (body : X -> C -> res C) (l : list X) (c : C) : res C :=
  match l with
  | [] => Ok c
  | x :: l => c ← body x c; for_each body l c
  end.

Section operations.
Context {A : SystemApi} {V : HandleApi} {G : PagingApi} {C : Type}.
(** [ScanPageForKernelObjectAllocation] with the object index fixed: base and
    size of a page. *)
Context (ScanPage : Z -> Z -> C -> res C).

Fixpoint IsPhysicalAddressInPhysicalMemoryRange (PhysicalAddress : Z)
  (PhysicalMemoryRanges : list PHYSICAL_MEMORY_RANGE) : res bool :=
  match PhysicalMemoryRanges with
  | [] => Crash OutOfBounds
  | range :: ranges =>
      if NumberOfBytes range =? 0 then Ok false
      else
        let start_address := BaseAddress range in
        let end_address := u64 (start_address + NumberOfBytes range) in
        if (start_address <=? PhysicalAddress) && (PhysicalAddress <=? end_address) then Ok true
        else IsPhysicalAddressInPhysicalMemoryRange PhysicalAddress ranges
  end.

Definition EnumerateKernelLargePages (PageBase PageSize : Z) (Context_ : C) : res C :=
  for_each (fun page_index => ScanPage (u64 (PageBase + page_index * PAGE_SIZE)) PAGE_SIZE)
    (iota 0 (Z.to_nat PageSize)) Context_.

(** The body of the loop over a page table. *)
Definition walk_pt (ranges : list PHYSICAL_MEMORY_RANGE) (pt_base pt_index : Z) (c : C) : res C :=
  if negb (MmIsAddressValid (u64 (pt_base + pt_index * 8))) then Ok c
  else
    pt_entry ← load64 system_memory (u64 (pt_base + pt_index * 8));
    if PTE_Present pt_entry =? 0 then Ok c
    else
      let physical := u64 (Z.shiftl (PTE_PhysicalAddress pt_entry) PAGE_4KB_SHIFT) in
      inside ← IsPhysicalAddressInPhysicalMemoryRange physical ranges;
      if negb inside then Ok c
      else
        let base_virtual_page := MmGetVirtualForPhysical physical in
        if (base_virtual_page =? 0) || negb (MmIsAddressValid base_virtual_page) then Ok c
        else ScanPage base_virtual_page PAGE_BASE_SIZE c.

(** A large page, as the loops over page directories and page directory pointer
    tables treat it. *)
Definition walk_large (ranges : list PHYSICAL_MEMORY_RANGE) (physical entries : Z) (c : C) : res C :=
  inside ← IsPhysicalAddressInPhysicalMemoryRange physical ranges;
  if negb inside then Ok c
  else
    let base := MmGetVirtualForPhysical physical in
    if (base =? 0) || negb (MmIsAddressValid base) then Ok c
    else EnumerateKernelLargePages base entries c.

(** The body of the loop over a page directory. *)
Definition walk_pd (ranges : list PHYSICAL_MEMORY_RANGE) (pd_base pd_index : Z) (c : C) : res C :=
  if negb (MmIsAddressValid (u64 (pd_base + pd_index * 8))) then Ok c
  else
    pd_entry ← load64 system_memory (u64 (pd_base + pd_index * 8));
    if PDE_Present pd_entry =? 0 then Ok c
    else if IS_LARGE_PAGE pd_entry then
      walk_large ranges (u64 (Z.shiftl (PDE_LARGE_PhysicalAddress pd_entry) PAGE_2MB_SHIFT))
        LARGE_PAGE_2MB_ENTRIES c
    else
      let physical := u64 (Z.shiftl (PDE_PhysicalAddress pd_entry) PAGE_4KB_SHIFT) in
      if negb (MmIsAddressValid (u64 (pd_base + pd_index * 8))) then Ok c
      else
        let pt_base := MmGetVirtualForPhysical physical in
        if (pt_base =? 0) || negb (MmIsAddressValid pt_base) then Ok c
        else for_each (walk_pt ranges pt_base) (iota 0 (Z.to_nat PT_ENTRY_COUNT)) c.

(** The body of the loop over a page directory pointer table. *)
Definition walk_pdpt (ranges : list PHYSICAL_MEMORY_RANGE) (pdpt_base pdpt_index : Z) (c : C) : res C :=
  if negb (MmIsAddressValid (u64 (pdpt_base + pdpt_index * 8))) then Ok c
  else
    pdpt_entry ← load64 system_memory (u64 (pdpt_base + pdpt_index * 8));
    if PDPTE_Present pdpt_entry =? 0 then Ok c
    else if IS_LARGE_PAGE pdpt_entry then
      walk_large ranges (u64 (Z.shiftl (PDPTE_LARGE_PhysicalAddress pdpt_entry) PAGE_1GB_SHIFT))
        LARGE_PAGE_1GB_ENTRIES c
    else
      let physical := u64 (Z.shiftl (PDPTE_PhysicalAddress pdpt_entry) PAGE_4KB_SHIFT) in
      let pd_base := MmGetVirtualForPhysical physical in
      if (pd_base =? 0) || negb (MmIsAddressValid pd_base) then Ok c
      else for_each (walk_pd ranges pd_base) (iota 0 (Z.to_nat PD_ENTRY_COUNT)) c.

(** The body of the outermost loop. *)
Definition walk_pml4 (ranges : list PHYSICAL_MEMORY_RANGE) (pml4_base pml4_index : Z) (c : C) : res C :=
  if negb (MmIsAddressValid (u64 (pml4_base + pml4_index * 8))) then Ok c
  else
    pml4_entry ← load64 system_memory (u64 (pml4_base + pml4_index * 8));
    if PML4E_Present pml4_entry =? 0 then Ok c
    else
      let physical := u64 (Z.shiftl (PML4E_PhysicalAddress pml4_entry) PAGE_4KB_SHIFT) in
      let pdpt_base := MmGetVirtualForPhysical physical in
      if (pdpt_base =? 0) || negb (MmIsAddressValid pdpt_base) then Ok c
      else for_each (walk_pdpt ranges pdpt_base) (iota 0 (Z.to_nat PDPT_ENTRY_COUNT)) c.

Definition WalkKernelPageTables (Context_ : C) : res C :=
  match MmGetPhysicalMemoryRangesEx2 with
  | None => Ok Context_
  | Some physical_memory_ranges =>
      let physical := u64 (Z.shiftl (CR3_AddressOfPageDirectory readcr3) PAGE_4KB_SHIFT) in
      let pml4_base := MmGetVirtualForPhysical physical in
      if negb (MmIsAddressValid pml4_base) || (pml4_base =? 0) then Ok Context_
      else for_each (walk_pml4 physical_memory_ranges pml4_base) (iota 0 (Z.to_nat PML4_ENTRY_COUNT))
             Context_
  end.

End operations.

(** ** Reference: address translation *)

Section translation.
Context {V : HandleApi} {G : PagingApi}.

(** The 8-byte words of physical memory. *)
Context (word : Z -> Z).

(** The table or frame at [pa] can be read by the driver. *)
Definition visible (pa : Z) : bool :=
  negb (MmGetVirtualForPhysical pa =? 0) && MmIsAddressValid (MmGetVirtualForPhysical pa).

(** The lowest address bit that selects an entry of a table of [level]: 0 for
    page tables, 3 for the PML4. *)
Definition level_shift (level : nat) : Z := 12 + 9 * Z.of_nat level.

(** Bits [n] to 51 of an entry, in place. *)
Definition frame (n e : Z) : Z := Z.shiftl (bits n (52 - n) e) n.

(** The translation of [va] from a table on, through tables the driver can
    read: the frame and the level it was found at. *)
Fixpoint translate (level : nat) (table va : Z) : option (Z * nat) :=
  let e := word (table + 8 * bits (level_shift level) 9 va) in
  if negb (visible table) then None
  else if negb (Z.testbit e 0) then None
  else match level with
       | O => Some (frame (level_shift O) e, O)
       | S below =>
           if Z.testbit e 7 && (level <=? 2)%nat then Some (frame (level_shift level) e, level)
           else translate below (frame 12 e) va
       end.

(** The physical address is in one of the ranges before the empty one (whose
    ends count as inside). *)
Fixpoint in_memory (pa : Z) (ranges : list PHYSICAL_MEMORY_RANGE) : bool :=
  match ranges with
  | [] => false
  | r :: ranges =>
      negb (NumberOfBytes r =? 0) &&
      ((BaseAddress r <=? pa) && (pa <=? BaseAddress r + NumberOfBytes r) || in_memory pa ranges)
  end.

(** Where the driver sees the page that [va] lies in. *)
Definition page_of (ranges : list PHYSICAL_MEMORY_RANGE) (level : nat) (table va : Z) : option Z :=
  '(base, l) ← translate level table va;
  if in_memory base ranges && visible base
  then Some (MmGetVirtualForPhysical base + PAGE_SIZE * bits 12 (9 * Z.of_nat l) va)
  else None.

(** The [n] pages from [va] on. *)
Definition pages_from (va n : Z) : list Z :=
  (fun i => va + PAGE_SIZE * i) <$> iota 0 (Z.to_nat n).

(** The pages of the 2^36 virtual pages, in increasing order. *)
Definition mapped_pages (ranges : list PHYSICAL_MEMORY_RANGE) : list Z :=
  omap (M:=list) (page_of ranges 3 (frame 12 readcr3)) (pages_from 0 (2 ^ 36)).

(** The paging structures in use, by level. *)
Inductive is_table : nat -> Z -> Prop :=
  | root_table : is_table 3 (frame 12 readcr3)
  | lower_table l t i :
      is_table (S l) t -> 0 <= i < 512 -> Z.testbit (word (t + 8 * i)) 0 = true ->
      is_table l (frame 12 (word (t + 8 * i))).

(** What the memory manager and the processor guarantee: the virtual address of
    a physical page is the base of a valid page that holds its contents; the list
    of ranges ends; physical addresses have at most 50 bits (48 in the control
    register), so that the reserved bits of present entries are zero. *)
Record paging_laws {A : SystemApi} (ranges : list PHYSICAL_MEMORY_RANGE) : Prop := {
  pg_page : forall pa, visible pa = true -> pa mod 4096 = 0 ->
    0 <= MmGetVirtualForPhysical pa < 2 ^ 64 - 2 ^ 30 /\
    MmGetVirtualForPhysical pa mod 4096 = 0 /\
    forall i, 0 <= i < 512 -> MmIsAddressValid (MmGetVirtualForPhysical pa + i * 8) = true /\
      load64 system_memory (MmGetVirtualForPhysical pa + i * 8) = Ok (word (pa + 8 * i));
  pg_cr3 : bits 48 4 readcr3 = 0;
  pg_reserved : forall l t i, is_table l t -> 0 <= i < 512 ->
    Z.testbit (word (t + 8 * i)) 0 = true -> bits 50 2 (word (t + 8 * i)) = 0;
  pg_ranges : Forall (fun r => 0 <= BaseAddress r /\ 0 <= NumberOfBytes r /\
    BaseAddress r + NumberOfBytes r < 2 ^ 64) ranges /\ Exists (fun r => NumberOfBytes r = 0) ranges;
}.

End translation.

(** ** Lemmas *)

Lemma bits_spec lo n x : 0 <= lo -> 0 <= n -> bits lo n x = (x / 2 ^ lo) mod 2 ^ n.
Proof. intros. unfold bits. by rewrite Z.land_ones, Z.shiftr_div_pow2. Qed.

Lemma bits_range lo n x : 0 <= n -> 0 <= bits lo n x < 2 ^ n.
Proof. intros. unfold bits. rewrite Z.land_ones by done. apply Z.mod_pos_bound. lia. Qed.

(** The bits above the field are zero. *)
Lemma bits_narrow lo a b x :
  0 <= lo -> 0 <= a -> 0 <= b -> bits (lo + a) b x = 0 -> bits lo (a + b) x = bits lo a x.
Proof.
  intros. rewrite !bits_spec in * by lia.
  rewrite !Z.pow_add_r in * by lia. rewrite <- Z.div_div in * by lia.
  rewrite Z.rem_mul_r by lia. rewrite H2. lia.
Qed.

Lemma present_bit e : (bits 0 1 e =? 0) = negb (Z.testbit e 0).
Proof.
  rewrite bits_spec by lia. change (2 ^ 0) with 1. change (2 ^ 1) with 2.
  rewrite Z.div_1_r, <- Z.bit0_mod. by destruct (Z.testbit e 0).
Qed.

Lemma large_bit e : IS_LARGE_PAGE e = Z.testbit e 7.
Proof.
  unfold IS_LARGE_PAGE. rewrite bits_spec by lia. change (2 ^ 1) with 2.
  rewrite <- Z.testbit_spec' by lia. by destruct (Z.testbit e 7).
Qed.

Lemma for_each_app {X C} (f : X -> C -> res C) k l : forall c,
  for_each f (k ++ l) c = (c ← for_each f k c; for_each f l c).
Proof.
  induction k as [|x k IH]; intros c; [done|]. cbn. destruct (f x c) as [c'|]; [|done]. cbn. apply IH.
Qed.

(** A loop whose body is a loop. *)
Lemma for_each_nested {X Y C} (f : X -> C -> res C) (g : Y -> C -> res C) (h : X -> list Y) l :
  (forall x c, x ∈ l -> f x c = for_each g (h x) c) ->
  forall c, for_each f l c = for_each g (concat (h <$> l)) c.
Proof.
  intros Hf. induction l as [|x l IH]; intros c; [done|]. cbn. rewrite for_each_app.
  rewrite Hf by left. destruct (for_each g (h x) c); [|done]. cbn. apply IH.
  intros. apply Hf. by right.
Qed.

Lemma for_each_fmap {X Y C} (f : Y -> C -> res C) (h : X -> Y) l : forall c,
  for_each (fun x => f (h x)) l c = for_each f (h <$> l) c.
Proof. induction l as [|x l IH]; intros c; [done|]. cbn. by destruct (f (h x) c); cbn. Qed.

Lemma for_each_ext {X C} (f g : X -> C -> res C) l :
  (forall x c, x ∈ l -> f x c = g x c) -> forall c, for_each f l c = for_each g l c.
Proof.
  intros Hf. induction l as [|x l IH]; intros c; [done|]. cbn. rewrite Hf by left.
  destruct (g x c); [|done]. cbn. apply IH. intros. apply Hf. by right.
Qed.

Lemma omap_concat {X Y} (f : X -> option Y) (ls : list (list X)) :
  omap (M:=list) f (concat ls) = concat (omap (M:=list) f <$> ls).
Proof. induction ls as [|l ls IH]; [done|]. cbn. by rewrite omap_app, IH. Qed.

Lemma iota_app lo m n : iota lo (m + n) = iota lo m ++ iota (lo + Z.of_nat m) n.
Proof.
  unfold iota. rewrite seq_app, fmap_app. f_equal. rewrite Nat.add_0_l, <- (Nat.add_0_r m) at 1. rewrite <- fmap_add_seq, <- list_fmap_compose.
  apply list_fmap_ext. intros i k _. cbn. lia.
Qed.

(** The pages of 512 equal parts. *)
Lemma pages_split va n : 0 <= n ->
  pages_from va (512 * n) = concat ((fun i => pages_from (va + PAGE_SIZE * n * i) n) <$> iota 0 (Z.to_nat 512)).
Proof.
  intros Hn. unfold pages_from. rewrite Z2Nat.inj_mul by lia. generalize (Z.to_nat 512) as m.
  intros m. set (k := Z.to_nat n). replace n with (Z.of_nat k) by (unfold k; lia).
  clearbody k. clear Hn n.
  induction m as [|m IH]; [done|].
  replace (S m) with (m + 1)%nat by lia. rewrite Nat.mul_add_distr_r, Nat.mul_1_l, !iota_app.
  rewrite !fmap_app, concat_app, IH. f_equal. cbn. rewrite app_nil_r.
  unfold iota. rewrite <- !list_fmap_compose. apply list_fmap_ext. intros i j _. cbn. lia.
Qed.

Lemma omap_ext_in {X Y} (f g : X -> option Y) (l : list X) :
  (forall x, x ∈ l -> f x = g x) -> omap (M:=list) f l = omap (M:=list) g l.
Proof.
  intros H. induction l as [|x l IH]; [done|]. cbn. rewrite H by left.
  rewrite IH; [done|]. intros y Hy. apply H. by right.
Qed.

Lemma omap_map {X Y W} (g : X -> Y) (f : Y -> option W) (l : list X) :
  omap (M:=list) f (g <$> l) = omap (M:=list) (fun x => f (g x)) l.
Proof. induction l as [|x l IH]; [done|]. cbn. by rewrite IH. Qed.

Lemma omap_all_some {X Y} (f : X -> option Y) (g : X -> Y) (l : list X) :
  (forall x, x ∈ l -> f x = Some (g x)) -> omap (M:=list) f l = g <$> l.
Proof. intros H. rewrite (omap_ext_in f (Some ∘ g) l) by done. clear. by induction l; cbn; f_equal. Qed.

Lemma omap_all_none {X Y} (f : X -> option Y) (l : list X) :
  (forall x, x ∈ l -> f x = None) -> omap (M:=list) f l = [].
Proof. intros H. rewrite (omap_ext_in f (fun _ => None) l) by done. clear. by induction l. Qed.

Lemma elem_of_pages_from va b n :
  va ∈ pages_from b n <-> exists k, 0 <= k < n /\ va = b + PAGE_SIZE * k.
Proof.
  unfold pages_from. rewrite list_elem_of_fmap. setoid_rewrite elem_of_iota. split.
  - intros (k & -> & Hk). exists k. split; [lia|done].
  - intros (k & Hk & ->). exists k. split; [done|lia].
Qed.

(** The number of pages an entry of a table of [level] spans. *)
Definition span (level : nat) : Z := 2 ^ (9 * Z.of_nat level).

Lemma span_S l : span (S l) = 512 * span l.
Proof. unfold span. rewrite Nat2Z.inj_succ, Z.mul_succ_r, Z.pow_add_r by lia. lia. Qed.

Lemma span_pos l : 0 < span l.
Proof. unfold span. lia. Qed.

Lemma level_shift_span l : 2 ^ level_shift l = PAGE_SIZE * span l.
Proof. unfold level_shift, span. by rewrite Z.pow_add_r by lia. Qed.

(** The virtual pages an entry is responsible for: the base of its table's part
    of the address space is [512 * span] pages times [q]. *)
Definition entry_pages (level : nat) (q i : Z) : list Z :=
  pages_from (PAGE_SIZE * span level * (512 * q + i)) (span level).

Lemma entry_index l q i va :
  0 <= i < 512 -> va ∈ entry_pages l q i -> bits (level_shift l) 9 va = i.
Proof.
  intros Hi (k & Hk & ->)%elem_of_pages_from. rewrite bits_spec by (unfold level_shift; lia).
  rewrite level_shift_span. pose proof (span_pos l). unfold PAGE_SIZE.
  replace (_ + _) with (0x1000 * k + (512 * q + i) * (0x1000 * span l)) by lia.
  rewrite Z.div_add, (Z.div_small (0x1000 * k)) by lia.
  change (2 ^ 9) with 512. rewrite Z.add_0_l, (Z.mul_comm 512), Z.add_comm, Z.mod_add by lia.
  by apply Z.mod_small.
Qed.

(** The number of a page within a large page. *)
Lemma entry_offset l q i k :
  0 <= k < span l -> bits 12 (9 * Z.of_nat l) (PAGE_SIZE * span l * (512 * q + i) + PAGE_SIZE * k) = k.
Proof.
  intros Hk. rewrite bits_spec by lia. fold (span l). unfold PAGE_SIZE. change (2 ^ 12) with 0x1000.
  replace (_ + _) with ((k + (512 * q + i) * span l) * 0x1000) by lia.
  rewrite Z.div_mul, Z.mod_add by lia. by apply Z.mod_small.
Qed.

Lemma table_pages l q :
  pages_from (PAGE_SIZE * span (S l) * q) (span (S l))
  = concat (entry_pages l q <$> iota 0 (Z.to_nat 512)).
Proof.
  rewrite span_S. pose proof (span_pos l). rewrite pages_split by lia. f_equal.
  apply list_fmap_ext. intros j i _. unfold entry_pages. f_equal. lia.
Qed.

Lemma entry_pages_lower l q i : entry_pages (S l) q i = pages_from (PAGE_SIZE * span (S l) * (512 * q + i)) (span (S l)).
Proof. done. Qed.

Section walk.
Context {A : SystemApi} {V : HandleApi} {G : PagingApi}.
Context (word : Z -> Z) (ranges : list PHYSICAL_MEMORY_RANGE).

(** The pages found through the [i]-th entry of a table. *)
Definition found_by (l : nat) (t q i : Z) : list Z :=
  omap (M:=list) (page_of word ranges l t) (entry_pages l q i).

Lemma found_absent l t q i :
  0 <= i < 512 -> Z.testbit (word (t + 8 * i)) 0 = false -> found_by l t q i = [].
Proof.
  intros Hi He. apply omap_all_none. intros va Hva. unfold page_of.
  destruct l; cbn [translate]; rewrite (entry_index _ q i) by done; rewrite He;
    by destruct (negb (visible t)).
Qed.

Lemma found_small t q i :
  0 <= i < 512 -> visible t = true -> Z.testbit (word (t + 8 * i)) 0 = true ->
  found_by 0 t q i =
    let f := frame 12 (word (t + 8 * i)) in
    if in_memory f ranges && visible f then [MmGetVirtualForPhysical f] else [].
Proof.
  intros Hi Ht He. unfold found_by. set (f := frame 12 _). cbn zeta.
  rewrite (omap_ext_in _ (fun _ => if in_memory f ranges && visible f
    then Some (MmGetVirtualForPhysical f) else None)).
  - unfold entry_pages, pages_from. change (span 0) with 1. change (Z.to_nat 1) with 1%nat. cbn.
    by destruct (in_memory f ranges && visible f).
  - intros va Hva. unfold page_of. cbn [translate]. rewrite (entry_index 0 q i) by done.
    rewrite Ht, He. cbn [negb mbind option_bind]. change (level_shift 0) with 12. fold f.
    change (9 * Z.of_nat 0) with 0. rewrite bits_spec by lia. rewrite Z.pow_0_r, Z.mod_1_r.
    case_match; [f_equal; lia|done].
Qed.

Lemma found_large l t q i :
  (S l <= 2)%nat -> 0 <= i < 512 -> visible t = true -> Z.testbit (word (t + 8 * i)) 0 = true ->
  Z.testbit (word (t + 8 * i)) 7 = true ->
  found_by (S l) t q i =
    let f := frame (level_shift (S l)) (word (t + 8 * i)) in
    if in_memory f ranges && visible f
    then pages_from (MmGetVirtualForPhysical f) (span (S l)) else [].
Proof.
  intros Hl Hi Ht He H7. unfold found_by. set (f := frame (level_shift (S l)) _). cbn zeta.
  assert (forall k, 0 <= k < span (S l) -> let va := PAGE_SIZE * span (S l) * (512 * q + i) + PAGE_SIZE * k in
    page_of word ranges (S l) t va = if in_memory f ranges && visible f
      then Some (MmGetVirtualForPhysical f + PAGE_SIZE * k) else None) as Hp.
  { intros k Hk va. unfold page_of. cbn [translate]. rewrite (entry_index (S l) q i va); [|done|].
    2: { apply elem_of_pages_from. by exists k. }
    rewrite Ht, He, H7. rewrite (proj2 (Nat.leb_le _ _) Hl). cbn [negb andb mbind option_bind].
    fold f. unfold va. by rewrite entry_offset. }
  unfold entry_pages, pages_from. rewrite omap_map.
  destruct (in_memory f ranges && visible f).
  - apply omap_all_some. intros k Hk%elem_of_iota. cbn. apply Hp. pose proof (span_pos (S l)). lia.
  - apply omap_all_none. intros k Hk%elem_of_iota. cbn. apply Hp. pose proof (span_pos (S l)). lia.
Qed.

Lemma found_lower l t q i :
  0 <= i < 512 -> visible t = true -> Z.testbit (word (t + 8 * i)) 0 = true ->
  Z.testbit (word (t + 8 * i)) 7 && (S l <=? 2)%nat = false ->
  found_by (S l) t q i = concat (found_by l (frame 12 (word (t + 8 * i))) (512 * q + i)
                                   <$> iota 0 (Z.to_nat 512)).
Proof.
  intros Hi Ht He H7. unfold found_by at 1.
  rewrite (omap_ext_in _ (page_of word ranges l (frame 12 (word (t + 8 * i))))).
  - rewrite entry_pages_lower, table_pages, omap_concat. by rewrite <- list_fmap_compose.
  - intros va Hva. unfold page_of. cbn [translate]. rewrite (entry_index (S l) q i) by done.
    rewrite Ht, He. cbn [negb]. by rewrite H7.
Qed.

End walk.

Lemma frame_aligned n e : 12 <= n -> frame n e mod 4096 = 0.
Proof.
  intros. unfold frame. rewrite Z.shiftl_mul_pow2 by lia.
  assert (2 ^ n = 2 ^ (n - 12) * 4096) as ->.
  { change 4096 with (2 ^ 12). rewrite <- Z.pow_add_r by lia. f_equal. lia. }
  rewrite Z.mul_assoc. apply Z.mod_mul. lia.
Qed.

Lemma frame_range n e : 0 <= n <= 52 -> 0 <= frame n e < 2 ^ 52.
Proof.
  intros. unfold frame. rewrite Z.shiftl_mul_pow2 by lia. pose proof (bits_range n (52 - n) e ltac:(lia)).
  assert (2 ^ 52 = 2 ^ (52 - n) * 2 ^ n) as -> by (rewrite <- Z.pow_add_r by lia; f_equal; lia).
  assert (0 < 2 ^ n) by lia. nia.
Qed.

(** The fields of common.h give the frame when the reserved bits are zero. *)
Lemma full_field n e : 0 <= n <= 52 -> u64 (Z.shiftl (bits n (52 - n) e) n) = frame n e.
Proof. intros. apply u64_small. pose proof (frame_range n e). unfold frame in *. lia. Qed.

Lemma narrow_field n e :
  0 <= n <= 50 -> bits 50 2 e = 0 -> u64 (Z.shiftl (bits n (50 - n) e) n) = frame n e.
Proof.
  intros Hn Hr. rewrite <- (bits_narrow n (50 - n) 2 e), <- (full_field n e); try lia.
  - do 2 f_equal. f_equal. lia.
  - by replace (n + (50 - n)) with 50 by lia.
Qed.

Section walk.
Context {A : SystemApi} {V : HandleApi} {G : PagingApi} {C : Type}.
Context (ScanPage : Z -> Z -> C -> res C).
Context (word : Z -> Z) (ranges : list PHYSICAL_MEMORY_RANGE) (Hlaws : paging_laws word ranges).

Abbreviation scan := (fun p => ScanPage p PAGE_SIZE).

Lemma in_range_spec pa :
  IsPhysicalAddressInPhysicalMemoryRange pa ranges = Ok (in_memory pa ranges).
Proof.
  destruct (pg_ranges _ _ Hlaws) as [Hf He]. clear Hlaws.
  induction ranges as [|r rs IH]; [by inversion He|]. apply Forall_cons in Hf as [(? & ? & ?) Hf].
  cbn. destruct (Z.eqb_spec (NumberOfBytes r) 0) as [|Hn]; [done|]. cbn [negb andb].
  rewrite u64_small by lia. destruct (_ && _); [done|].
  apply IH; [done|]. by inversion He.
Qed.

Lemma read_table_entry t i :
  visible t = true -> t mod 4096 = 0 -> 0 <= i < 512 ->
  MmIsAddressValid (u64 (MmGetVirtualForPhysical t + i * 8)) = true /\
  load64 system_memory (u64 (MmGetVirtualForPhysical t + i * 8)) = Ok (word (t + 8 * i)).
Proof.
  intros Ht Ha Hi. destruct (pg_page _ _ Hlaws t Ht Ha) as (Hr & _ & Hw).
  rewrite u64_small by lia. by apply Hw.
Qed.

Lemma walk_large_spec f entries c :
  f mod 4096 = 0 -> 0 <= entries <= 2 ^ 18 ->
  walk_large ScanPage ranges f entries c
  = for_each scan (if in_memory f ranges && visible f
                   then pages_from (MmGetVirtualForPhysical f) entries else []) c.
Proof.
  intros Ha He. unfold walk_large. rewrite in_range_spec. cbn [mbind res_bind].
  destruct (in_memory f ranges); [|done]. cbn [negb andb].
  replace ((MmGetVirtualForPhysical f =? 0) || negb (MmIsAddressValid (MmGetVirtualForPhysical f)))
    with (negb (visible f))
    by (unfold visible; by destruct (_ =? 0), (MmIsAddressValid _)).
  destruct (visible f) eqn:Hv; [|done]. cbn [negb]. destruct (pg_page _ _ Hlaws f Hv Ha) as [Hr _].
  unfold EnumerateKernelLargePages, pages_from. rewrite <- for_each_fmap. apply for_each_ext.
  intros k c' Hk%elem_of_iota. rewrite u64_small; [f_equal; lia|]. unfold PAGE_SIZE. lia.
Qed.

(** What the body of each loop does with a table: visit what its entries find. *)
Lemma loop_found (body : Z -> C -> res C) l t q c :
  (forall i c, 0 <= i < 512 -> body i c = for_each scan (found_by word ranges l t q i) c) ->
  for_each body (iota 0 (Z.to_nat 512)) c
  = for_each scan (concat (found_by word ranges l t q <$> iota 0 (Z.to_nat 512))) c.
Proof.
  intros Hb. apply for_each_nested. intros i c' Hi%elem_of_iota. apply Hb. lia.
Qed.

Lemma hidden_test t :
  (MmGetVirtualForPhysical t =? 0) || negb (MmIsAddressValid (MmGetVirtualForPhysical t)) = negb (visible t).
Proof. unfold visible. by destruct (_ =? 0), (MmIsAddressValid _). Qed.

Lemma found_hidden l t q i : visible t = false -> found_by word ranges l t q i = [].
Proof.
  intros Ht. apply omap_all_none. intros va _. unfold page_of. by destruct l; cbn [translate]; rewrite Ht.
Qed.

Lemma walk_pt_spec t q i c :
  is_table word 0 t -> t mod 4096 = 0 -> visible t = true -> 0 <= i < 512 ->
  walk_pt ScanPage ranges (MmGetVirtualForPhysical t) i c
  = for_each scan (found_by word ranges 0 t q i) c.
Proof.
  intros Htb Ha Ht Hi. unfold walk_pt. destruct (read_table_entry t i Ht Ha Hi) as [-> ->].
  cbn [negb mbind res_bind]. unfold PTE_Present. rewrite present_bit.
  destruct (Z.testbit (word (t + 8 * i)) 0) eqn:He; cbn [negb].
  - unfold PTE_PhysicalAddress, PAGE_4KB_SHIFT.
    rewrite (narrow_field 12) by (lia || by eapply (pg_reserved _ _ Hlaws)).
    rewrite in_range_spec. cbn [mbind res_bind]. rewrite hidden_test, (found_small _ _ t q i) by done.
    cbn zeta. destruct (in_memory _ ranges); [|done]. destruct (visible (frame 12 _)); [|done]. cbn.
    change PAGE_BASE_SIZE with PAGE_SIZE. by destruct (ScanPage _ _ c).
  - by rewrite found_absent.
Qed.

(** The entry refers to the table [f]: the inner loop visits what [f] finds. *)
Lemma inner_loop (body : Z -> Z -> C -> res C) l f q c :
  is_table word l f -> f mod 4096 = 0 ->
  (forall i c, visible f = true -> 0 <= i < 512 ->
     body (MmGetVirtualForPhysical f) i c = for_each scan (found_by word ranges l f q i) c) ->
  (if negb (visible f) then Ok c
   else for_each (body (MmGetVirtualForPhysical f)) (iota 0 (Z.to_nat 512)) c)
  = for_each scan (concat (found_by word ranges l f q <$> iota 0 (Z.to_nat 512))) c.
Proof.
  intros Htb Ha Hb. destruct (visible f) eqn:Hv; cbn [negb].
  - apply loop_found. intros j c' Hj. by apply Hb.
  - rewrite (list_fmap_ext _ (fun _ => [])) by (intros; by apply found_hidden).
    clear. by induction (iota _ _).
Qed.

Lemma walk_pd_spec t q i c :
  is_table word 1 t -> t mod 4096 = 0 -> visible t = true -> 0 <= i < 512 ->
  walk_pd ScanPage ranges (MmGetVirtualForPhysical t) i c
  = for_each scan (found_by word ranges 1 t q i) c.
Proof.
  intros Htb Ha Ht Hi. unfold walk_pd. destruct (read_table_entry t i Ht Ha Hi) as [-> ->].
  cbn [negb mbind res_bind]. unfold PDE_Present. rewrite present_bit, large_bit.
  destruct (Z.testbit (word (t + 8 * i)) 0) eqn:He; cbn [negb]; [|by rewrite found_absent].
  pose proof (pg_reserved _ _ Hlaws 1 t i Htb Hi He) as Hr.
  destruct (Z.testbit (word (t + 8 * i)) 7) eqn:H7.
  - unfold PDE_LARGE_PhysicalAddress, PAGE_2MB_SHIFT. rewrite (narrow_field 21), found_large by (done || lia).
    rewrite walk_large_spec; [done|apply frame_aligned; lia|vm_compute; by split].
  - unfold PDE_PhysicalAddress, PAGE_4KB_SHIFT. rewrite (narrow_field 12), hidden_test by (done || lia).
    rewrite found_lower by (done || by rewrite H7).
    apply inner_loop; [by apply lower_table|apply frame_aligned; lia|].
    intros j c' Hv Hj. apply walk_pt_spec; [by apply lower_table|apply frame_aligned; lia|done..].
Qed.

Lemma walk_pdpt_spec t q i c :
  is_table word 2 t -> t mod 4096 = 0 -> visible t = true -> 0 <= i < 512 ->
  walk_pdpt ScanPage ranges (MmGetVirtualForPhysical t) i c
  = for_each scan (found_by word ranges 2 t q i) c.
Proof.
  intros Htb Ha Ht Hi. unfold walk_pdpt. destruct (read_table_entry t i Ht Ha Hi) as [-> ->].
  cbn [negb mbind res_bind]. unfold PDPTE_Present. rewrite present_bit, large_bit.
  destruct (Z.testbit (word (t + 8 * i)) 0) eqn:He; cbn [negb]; [|by rewrite found_absent].
  destruct (Z.testbit (word (t + 8 * i)) 7) eqn:H7.
  - unfold PDPTE_LARGE_PhysicalAddress, PAGE_1GB_SHIFT.
    rewrite (full_field 30), found_large by (done || lia).
    rewrite walk_large_spec; [done|apply frame_aligned; lia|vm_compute; by split].
  - unfold PDPTE_PhysicalAddress, PAGE_4KB_SHIFT. rewrite (full_field 12), hidden_test by lia.
    rewrite found_lower by (done || by rewrite H7).
    apply inner_loop; [by apply lower_table|apply frame_aligned; lia|].
    intros j c' Hv Hj. apply walk_pd_spec; [by apply lower_table|apply frame_aligned; lia|done..].
Qed.

Lemma walk_pml4_spec t q i c :
  is_table word 3 t -> t mod 4096 = 0 -> visible t = true -> 0 <= i < 512 ->
  walk_pml4 ScanPage ranges (MmGetVirtualForPhysical t) i c
  = for_each scan (found_by word ranges 3 t q i) c.
Proof.
  intros Htb Ha Ht Hi. unfold walk_pml4. destruct (read_table_entry t i Ht Ha Hi) as [-> ->].
  cbn [negb mbind res_bind]. unfold PML4E_Present. rewrite present_bit.
  destruct (Z.testbit (word (t + 8 * i)) 0) eqn:He; cbn [negb]; [|by rewrite found_absent].
  unfold PML4E_PhysicalAddress, PAGE_4KB_SHIFT. rewrite (full_field 12), hidden_test by lia.
  rewrite found_lower by (done || by rewrite andb_false_r).
  apply inner_loop; [by apply lower_table|apply frame_aligned; lia|].
  intros j c' Hv Hj. apply walk_pdpt_spec; [by apply lower_table|apply frame_aligned; lia|done..].
Qed.

End walk.

(** Each of them is the base of a page. *)
Lemma translate_frame {V : HandleApi} {G : PagingApi} word level t va f l :
  translate word level t va = Some (f, l) -> (level <= 3)%nat -> f mod 4096 = 0 /\ (l <= 2)%nat.
Proof.
  revert t. induction level as [|level IH]; intros t; cbn [translate];
    set (e := word _); destruct (negb (visible t)), (negb (Z.testbit e 0)); try done; intros Ht Hl.
  - injection Ht as <- <-. split; [by apply frame_aligned|lia].
  - destruct (Z.testbit e 7 && (S level <=? 2)%nat) eqn:E.
    + injection Ht as <- <-. apply andb_prop in E as [_ E%Nat.leb_le]. split; [|done].
      apply frame_aligned. unfold level_shift. lia.
    + eapply IH; [exact Ht|lia].
Qed.

Lemma page_of_range {A : SystemApi} {V : HandleApi} {G : PagingApi} word ranges t va p :
  paging_laws word ranges -> page_of word ranges 3 t va = Some p ->
  p mod 4096 = 0 /\ 4096 <= p < 2 ^ 64 - 4096.
Proof.
  intros HL Hp. unfold page_of in Hp. destruct (translate word 3 t va) as [[f l]|] eqn:Ht; [|done].
  apply translate_frame in Ht as [Hf Hl]; [|lia]. cbn [mbind option_bind] in Hp.
  destruct (in_memory f ranges); [|done]. destruct (visible f) eqn:Hv; [|done]. injection Hp as <-.
  destruct (pg_page _ _ HL f Hv Hf) as (Hr & Ha & _).
  assert (MmGetVirtualForPhysical f <> 0).
  { intros E. unfold visible in Hv. by rewrite E in Hv. }
  pose proof (bits_range 12 (9 * Z.of_nat l) va ltac:(lia)) as Hb.
  assert (2 ^ (9 * Z.of_nat l) <= 2 ^ 18) by (apply Z.pow_le_mono_r; lia).
  unfold PAGE_SIZE. split; [|Z.div_mod_to_equations; lia].
  rewrite Z.add_mod, Ha, (Z.mul_comm 0x1000), Z.mod_mul by lia. done.
Qed.

Lemma mapped_pages_range {A : SystemApi} {V : HandleApi} {G : PagingApi} word ranges :
  paging_laws word ranges ->
  Forall (fun p => p mod 4096 = 0 /\ 4096 <= p < 2 ^ 64 - 4096) (mapped_pages word ranges).
Proof.
  intros HL. unfold mapped_pages. generalize (pages_from 0 (2 ^ 36)). intros l.
  apply Forall_forall. intros p (va & _ & Hva)%list_elem_of_omap. by eapply page_of_range.
Qed.

(** The walk as a whole. *)
Lemma walk_pages {A : SystemApi} {V : HandleApi} {G : PagingApi} {C}
  (ScanPage : Z -> Z -> C -> res C) word ranges c :
  MmGetPhysicalMemoryRangesEx2 = Some ranges -> paging_laws word ranges ->
  WalkKernelPageTables ScanPage c
  = for_each (fun page => ScanPage page PAGE_SIZE)
      (mapped_pages word ranges) c.
Proof.
  intros Hm Hl. unfold WalkKernelPageTables, mapped_pages. rewrite Hm. set (root := frame 12 readcr3).
  assert (u64 (Z.shiftl (CR3_AddressOfPageDirectory readcr3) PAGE_4KB_SHIFT) = root) as ->.
  { unfold CR3_AddressOfPageDirectory, PAGE_4KB_SHIFT, root. rewrite <- full_field by lia.
    do 2 f_equal. symmetry. apply (bits_narrow 12 36 4); try lia. apply (pg_cr3 _ _ Hl). }
  rewrite orb_comm, hidden_test.
  rewrite (inner_loop ScanPage word ranges (walk_pml4 ScanPage ranges) 3 root 0).
  - change (pages_from 0 (2 ^ 36)) with (pages_from (PAGE_SIZE * span 4 * 0) (span 4)).
    rewrite table_pages, omap_concat, <- list_fmap_compose. unfold compose. reflexivity.
  - apply root_table.
  - apply frame_aligned. lia.
  - intros i c' Hv Hi. apply (walk_pml4_spec _ _ _ Hl); [apply root_table|apply frame_aligned; lia|done..].
Qed.

#[global] Opaque mapped_pages.

(** ** Properties *)


(** ** Sample machine

    Four tables at the physical pages 1 to 4, each with one entry, map the page
    5, which holds a pool block with a process object. *)

Definition sample_words : list (Z * Z) :=
  [(0x1000, 0x2003); (0x2000, 0x3003); (0x3000, 0x4003); (0x4000, 0x5003);
   (0x5010, 0x636f725002b00000); (0x5078, 0x1ad000); (0x54e0, 0x10000);
   (0x55a0, 0x7ffd0000); (0x55c0, 0xe0000008)].

Definition sample_word (pa : Z) : Z :=
  foldr (fun '(a, w) r => if pa =? a then w else r) 0 sample_words.

Definition sample_base : Z := 0xffff800000000000.

Definition sample_memory : memory := fun a =>
  let pa := a - sample_base in
  if (0x1000 <=? pa) && (pa <? 0x6000)
  then Some (sample_word (pa / 8 * 8) / 256 ^ (pa mod 8) mod 256) else None.

Definition sample_system : SystemApi := {|
  query_module_size := (STATUS_SUCCESS, 0);
  query_modules := (STATUS_SUCCESS, 0, []);
  MmGetSystemRoutineAddress := fun _ => 0;
  RtlGetVersion := (STATUS_SUCCESS, 0);
  hal_routine := fun _ => 0;
  system_memory := sample_memory |}.

Definition sample_objects : HandleApi := {|
  ObGetObjectType := fun _ => "Process"%string;
  PsGetProcessImageFileName := fun _ => "game.exe"%string;
  image_name_bytes := fun _ => [];
  handle_table_of := fun _ => 0;
  MmIsAddressValid := fun a => (0x1000 <=? a - sample_base) && (a - sample_base <? 0x6000);
  PsInitialSystemProcess := 4;
  PsGetCurrentProcess := 4 |}.

Definition sample_ranges : list PHYSICAL_MEMORY_RANGE := [MemoryRange 0x1000 0x9000; MemoryRange 0 0].

Definition sample_paging : PagingApi := {|
  readcr3 := 0x1000;
  MmGetPhysicalMemoryRangesEx2 := Some sample_ranges;
  MmGetVirtualForPhysical := fun pa =>
    if (0x1000 <=? pa) && (pa <? 0x6000) then sample_base + pa else 0 |}.

Lemma le_bytes_lookup n x : forall j b, le_bytes n x !! j = Some b -> b = x / 256 ^ Z.of_nat j mod 256.
Proof.
  revert x. induction n as [|n IH]; intros x [|j] b H; cbn [le_bytes lookup list_lookup] in H; try done.
  - injection H as <-. by rewrite Z.pow_0_r, Z.div_1_r.
  - apply IH in H. rewrite H, Nat2Z.inj_succ, Z.pow_succ_r by lia. by rewrite Z.div_div by lia.
Qed.

Lemma sample_word_range pa : 0 <= sample_word pa < 2 ^ 64.
Proof.
  unfold sample_word, sample_words. cbn [foldr].
  repeat case_match; vm_compute; split; congruence.
Qed.

Lemma sample_load pa :
  0x1000 <= pa < 0x6000 -> pa mod 8 = 0 -> load64 sample_memory (sample_base + pa) = Ok (sample_word pa).
Proof.
  intros Hr Ha. apply load_le_bytes.
  - pose proof (sample_word_range pa). change (256 ^ Z.of_nat 8) with (2 ^ 64). lia.
  - intros j b Hj. pose proof (lookup_lt_Some _ _ _ Hj) as Hlt. rewrite length_le_bytes in Hlt.
    apply le_bytes_lookup in Hj as ->. unfold sample_memory.
    replace (sample_base + pa + Z.of_nat j - sample_base) with (pa + Z.of_nat j) by lia.
    assert ((pa + Z.of_nat j) / 8 * 8 = pa /\ (pa + Z.of_nat j) mod 8 = Z.of_nat j) as [-> ->]
      by (Z.div_mod_to_equations; lia).
    destruct (Z.leb_spec 0x1000 (pa + Z.of_nat j)); [|lia].
    destruct (Z.ltb_spec (pa + Z.of_nat j) 0x6000); [done|Z.div_mod_to_equations; lia].
Qed.

Lemma sample_entry pa :
  0x1000 <= pa < 0x5000 -> sample_word pa = 0 \/ pa mod 0x1000 = 0 /\ sample_word pa = pa + 0x1003.
Proof.
  intros Hr. unfold sample_word, sample_words. cbn [foldr].
  repeat match goal with |- context [pa =? ?a] => destruct (Z.eqb_spec pa a) as [->|] end;
    first [by left | right; done | lia].
Qed.

Lemma sample_tables l t :
  is_table (G := sample_paging) sample_word l t -> (l <= 3)%nat /\ t = 0x1000 * (4 - Z.of_nat l).
Proof.
  induction 1 as [|l t i _ [Hl ->] Hi Hp]; [split; [lia|vm_compute; reflexivity]|]. split; [lia|].
  destruct (sample_entry (0x1000 * (4 - Z.of_nat (S l)) + 8 * i)) as [E|[Ha E]]; [lia| |].
  - by rewrite E in Hp.
  - rewrite E. assert (i = 0) as -> by (Z.div_mod_to_equations; lia).
    destruct l as [|[|[|l]]]; [vm_compute; reflexivity..|lia].
Qed.

Lemma sample_visible pa :
  visible (V := sample_objects) (G := sample_paging) pa = true -> 0x1000 <= pa < 0x6000.
Proof.
  unfold visible. cbn [MmGetVirtualForPhysical sample_paging].
  destruct (Z.leb_spec 0x1000 pa), (Z.ltb_spec pa 0x6000); cbn; try done; lia.
Qed.

Lemma sample_paging_laws :
  paging_laws (V := sample_objects) (A := sample_system) (G := sample_paging) sample_word sample_ranges.
Proof.
  split.
  - intros pa Hv%sample_visible Ha. cbn [MmGetVirtualForPhysical sample_paging].
    destruct (Z.leb_spec 0x1000 pa); [|lia]. destruct (Z.ltb_spec pa 0x6000); [|lia]. cbn [andb].
    split; [unfold sample_base; lia|]. split; [unfold sample_base; Z.div_mod_to_equations; lia|].
    intros i Hi. split.
    + cbn [MmIsAddressValid sample_objects].
      replace (sample_base + pa + i * 8 - sample_base) with (pa + i * 8) by lia.
      destruct (Z.leb_spec 0x1000 (pa + i * 8)); [|lia].
      by destruct (Z.ltb_spec (pa + i * 8) 0x6000); [|Z.div_mod_to_equations; lia].
    + cbn [system_memory sample_system]. replace (sample_base + pa + i * 8) with (sample_base + (pa + 8 * i)) by lia.
      apply sample_load; Z.div_mod_to_equations; lia.
  - vm_compute. reflexivity.
  - intros l t i [Hl ->]%sample_tables Hi _.
    destruct (sample_entry (0x1000 * (4 - Z.of_nat l) + 8 * i)) as [->|[_ ->]]; [lia|done|].
    rewrite bits_spec by lia. rewrite Z.div_small by lia. done.
  - split; [by repeat constructor|]. apply Exists_cons. right. by constructor.
Qed.


(** The walk of the sample machine finds its one page. *)
Example sample_walk :
  WalkKernelPageTables (A := sample_system) (V := sample_objects) (G := sample_paging)
    (fun page _ c => Ok (page :: c)) [] = Ok [sample_base + 0x5000].
Proof. vm_compute. reflexivity. Qed.
