(* ===== verification/PoolScan.v ===== *)
(** * pool.c: the scan for unlinked processes

    Every mapped page is searched for pool blocks with the tag of a process
    object; what has the signature of a process object and is not on the process
    list is reported. *)

From stdpp Require Import gmultiset.
From S2P Require Import Prelude Layout Irp Structs Kernel Modules Session Handles Lists.
From S2P Require Import Callbacks Hashing PageWalk.

(** ** Data *)

Definition POOL_TAG_LENGTH : Z := 4.
Definition CHUNK_SIZE : Z := 16.
Definition PROCESS_OBJECT_ALLOCATION_MARGIN : Z := 0x90.
Definition INDEX_PROCESS_POOL_TAG : Z := 0.
Definition EPROCESS_PEAK_VIRTUAL_SIZE_OFFSET : Z := 0x490.
Definition EPROCESS_OBJECT_TABLE_OFFSET : Z := 0x570.
Definition EPROCESS_PEB_OFFSET : Z := 0x550.
Definition KPROCESS_DIRECTORY_TABLE_BASE_OFFSET : Z := 0x028.
Definition POOL_HEADER_BLOCK_SIZE_OFFSET : Z := 0x02.
Definition POOL_HEADER_TAG_OFFSET : Z := 0x04.
Definition EPROCESS_SIZE : Z := 0xa40.
Definition PROCESS_ADDRESS_LIST_TAG : Z := 0x61646472.
Definition POOL_DUMP_BLOCK_TAG : Z := 0x64756d70.
Definition POOL_DEBUGGER_DATA_TAG : Z := 0x64617461.

(** The rows of the array, one after the other. *)
Definition EXECUTIVE_OBJECT_POOL_TAGS : list Z :=
  [0x50; 0x72; 0x6f; 0x63; 0x54; 0x68; 0x72; 0x64; 0x44; 0x65; 0x73; 0x6B; 0x57; 0x69; 0x6E; 0x64;
   0x4D; 0x75; 0x74; 0x65; 0x46; 0x69; 0x6C; 0x65; 0x44; 0x72; 0x69; 0x76; 0x4C; 0x69; 0x6E; 0x6B].

(** [Ulong1] holds the bit fields of eight bits each. *)
Definition POOL_HEADER : cty := St
  [("Ulong1", ULONG); ("PoolTag", ULONG); ("ProcessBilled", PVOID)].
Definition POOL_HEADER_BlockSize (ulong1 : Z) : Z := bits 16 8 ulong1.
Definition POOL_HEADER_PoolType (ulong1 : Z) : Z := bits 24 8 ulong1.

Record PROCESS_SCAN_CONTEXT := ScanContext { process_count : Z; process_buffer : list Z }.

(** ** Scanning a page *)

Section scan.
Context {A : SystemApi} {V : HandleApi}.

(** The 64-bit word at [a] when [a] is valid, the initial 0 otherwise. *)
Definition read_if_valid (a : Z) : res Z :=
  if MmIsAddressValid (u64 a) then load64 system_memory (u64 a) else Ok 0.

Definition ValidateIfAddressIsProcessStructure (Address PoolHeader : Z) : res bool :=
  dir_table_base ← read_if_valid (Address + KPROCESS_DIRECTORY_TABLE_BASE_OFFSET);
  peak_virtual_size ← read_if_valid (Address + EPROCESS_PEAK_VIRTUAL_SIZE_OFFSET);
  allocation_size ←
    (if MmIsAddressValid (u64 (PoolHeader + POOL_HEADER_BLOCK_SIZE_OFFSET)) then
       ulong1 ← load_field system_memory POOL_HEADER PoolHeader "Ulong1" 4;
       Ok (u64 (POOL_HEADER_BlockSize ulong1 * CHUNK_SIZE - sizeof POOL_HEADER))
     else Ok 0);
  peb ← read_if_valid (Address + EPROCESS_PEB_OFFSET);
  object_table ← read_if_valid (Address + EPROCESS_OBJECT_TABLE_OFFSET);
  (* [==] binds tighter than [&] *)
  let peb_test := (peb =? 0) ||
    (negb (Z.land peb (Z.b2z (0x7ffd0000 =? 0x7ffd0000)) =? 0) && (peb mod 0x1000 =? 0)) in
  let object_table_test := (object_table =? 0) ||
    (negb (Z.land object_table (Z.b2z (0xe0000000 =? 0xe0000000)) =? 0) && (object_table mod 0x8 =? 0)) in
  let allocation_size_test := Z.land allocation_size 0xfff0 in
  if (0 <? peak_virtual_size) && (Z.land dir_table_base 0x20 =? 0) &&
     (EPROCESS_SIZE + OBJECT_HEADER_SIZE + sizeof POOL_HEADER <? allocation_size)
  then
    ulong1 ← load_field system_memory POOL_HEADER PoolHeader "Ulong1" 4;
    Ok (negb (POOL_HEADER_PoolType ulong1 =? 0) && negb (allocation_size_test =? 0xfff0) &&
        negb peb_test && negb object_table_test)
  else Ok false.

(** The loop over the sizes of the object's headers: the first object with the
    signature. *)
Fixpoint header_loop (pool_header : Z) (sizes : list Z) : res (option Z) :=
  match sizes with
  | [] => Ok None
  | header_size :: sizes =>
      let test_process := u64 (pool_header + sizeof POOL_HEADER + header_size) in
      is_process ← ValidateIfAddressIsProcessStructure test_process pool_header;
      if is_process : bool then Ok (Some test_process) else header_loop pool_header sizes
  end.

Definition header_sizes : list Z := (fun i => OBJECT_HEADER_SIZE + 0x10 * i) <$> iota 0 8.

(** Storing an address in the first free slot. *)
Fixpoint store_loop (process_ : Z) (slots : list Z) (c : PROCESS_SCAN_CONTEXT)
  : res PROCESS_SCAN_CONTEXT :=
  match slots with
  | [] => Ok c
  | i :: slots =>
      match znth (process_buffer c) i with
      | None => Crash OutOfBounds
      | Some a =>
          if a =? 0 then Ok (ScanContext (process_count c) (zset (process_buffer c) i process_))
          else store_loop process_ slots c
      end
  end.

(** A tag has been found: the part under [sig_index == POOL_TAG_LENGTH], with the
    local variable [process], which is never reset. *)
Definition check_block (PageBase offset : Z) (st : Z * PROCESS_SCAN_CONTEXT)
  : res (Z * PROCESS_SCAN_CONTEXT) :=
  let '(process_, c) := st in
  let pool_header := u64 (PageBase + offset - POOL_HEADER_TAG_OFFSET) in
  if negb (MmIsAddressValid pool_header) then Ok (process_, c)
  else
    found ← header_loop pool_header header_sizes;
    let process_ := default process_ found in
    if process_ =? 0 then Ok (process_, c)
    else
      c ← store_loop process_ (iota 0 (Z.to_nat (process_count c))) c;
      Ok (process_, c).

(** The loop over the tag, one character past its end. *)
Fixpoint sig_loop (PageBase offset ObjectIndex : Z) (sigs : list Z) (st : Z * PROCESS_SCAN_CONTEXT)
  : res (Z * PROCESS_SCAN_CONTEXT) :=
  match sigs with
  | [] => Ok st
  | sig_index :: sigs =>
      if negb (MmIsAddressValid (u64 (PageBase + offset + sig_index))) then Ok st
      else
        current_char ← load8 system_memory (u64 (PageBase + offset + sig_index));
        match znth EXECUTIVE_OBJECT_POOL_TAGS (POOL_TAG_LENGTH * ObjectIndex + sig_index) with
        | None => Crash OutOfBounds
        | Some current_sig_byte =>
            if sig_index =? POOL_TAG_LENGTH then check_block PageBase offset st
            else if negb (current_char =? current_sig_byte) then Ok st
            else sig_loop PageBase offset ObjectIndex sigs st
        end
  end.

Definition ScanPageForKernelObjectAllocation (PageBase PageSize ObjectIndex : Z)
  (Context_ : PROCESS_SCAN_CONTEXT) : res PROCESS_SCAN_CONTEXT :=
  let minimum_process_allocation_size := EPROCESS_SIZE - sizeof POOL_HEADER - OBJECT_HEADER_SIZE in
  if (PageBase =? 0) || (PageSize =? 0) then Ok Context_
  else
    '(_, c) ← for_each (fun offset => sig_loop PageBase offset ObjectIndex (iota 0 5))
      (iota 0 (Z.to_nat (u32 (PageSize - POOL_TAG_LENGTH - minimum_process_allocation_size) + 1)))
      (0, Context_);
    Ok c.

End scan.

(** ** Finding unlinked processes *)

(** The pool block the list of physical ranges is returned in (its address and
    tag). *)
Class RangesBlock := ranges_block : Z * Z.

Section operations.
Context {P : Pool} {K : ReportSink} {A : SystemApi} {V : HandleApi} {H : ListHeads}.
Context {G : PagingApi} {R : RangesBlock}.

Definition in_driver {X} (m : KM kernel X) : M X := on_sys (on_kernel m).

Definition IncrementProcessCounter (ProcessListEntry : Z) (c : PROCESS_SCAN_CONTEXT)
  : M PROCESS_SCAN_CONTEXT :=
  mret (ScanContext (u32 (process_count c + 1)) (process_buffer c)).

(** The process lies within the margin of an allocation. *)
Definition near (process_ allocation : Z) : bool :=
  (u64 (allocation - PROCESS_OBJECT_ALLOCATION_MARGIN) <=? process_) &&
  (process_ <=? u64 (allocation + PROCESS_OBJECT_ALLOCATION_MARGIN)).

Definition check_slot (process_ i : Z) (c : PROCESS_SCAN_CONTEXT) : res PROCESS_SCAN_CONTEXT :=
  match znth (process_buffer c) i with
  | None => Crash OutOfBounds
  | Some a =>
      Ok (if near process_ a
          then ScanContext (process_count c) (zset (process_buffer c) i 0) else c)
  end.

Definition CheckIfProcessAllocationIsInProcessList (ProcessListEntry : Z) (c : PROCESS_SCAN_CONTEXT)
  : M PROCESS_SCAN_CONTEXT :=
  e ← read_entry process_entries ProcessListEntry;
  lift (for_each (check_slot (Callbacks.process e)) (iota 0 (Z.to_nat (process_count c))) c).

(** The body of the loop that reports what is left. *)
Definition report_slot (buffer : list Z) (index : Z) : KM kernel unit :=
  match znth buffer index with
  | None => crash OutOfBounds
  | Some a =>
      if a =? 0 then mret tt
      else
        let allocation := u64 (a - OBJECT_HEADER_SIZE) in
        complete_report (sizeof INVALID_PROCESS_ALLOCATION_REPORT) REPORT_POOL_TAG
          (process_ ← read_bytes system_memory allocation
                        (Z.to_nat REPORT_INVALID_PROCESS_BUFFER_SIZE);
           Ok (InvalidProcessAllocation REPORT_INVALID_PROCESS_ALLOCATION process_))
  end.

(** The walk, with the memory manager's block for the list of ranges. *)
Definition walk_and_scan (c : PROCESS_SCAN_CONTEXT) : KM kernel PROCESS_SCAN_CONTEXT :=
  when (bool_decide (is_Some MmGetPhysicalMemoryRangesEx2))
    (acquire (Block ranges_block.1 ranges_block.2)) ≫= fun _ =>
  lift (WalkKernelPageTables
          (fun page size => ScanPageForKernelObjectAllocation page size INDEX_PROCESS_POOL_TAG) c).

Definition FindUnlinkedProcesses : M NTSTATUS :=
  context ← EnumerateProcessListWithCallbackRoutine (Some IncrementProcessCounter) (ScanContext 0 []);
  if process_count context =? 0 then mret STATUS_ABANDONED
  else
    let slots := u32 (process_count context * 2) in
    p ← in_driver (ExAllocatePool2 (slots * 8) PROCESS_ADDRESS_LIST_TAG);
    if p =? 0 then mret STATUS_MEMORY_NOT_ALLOCATED
    else
      context ← in_driver (walk_and_scan
        (ScanContext (process_count context) (replicate (Z.to_nat slots) 0)));
      context ← EnumerateProcessListWithCallbackRoutine
        (Some CheckIfProcessAllocationIsInProcessList) context;
      in_driver (mforeach (report_slot (process_buffer context))
        (iota 0 (Z.to_nat (process_count context)))) ≫= fun _ =>
      in_driver (ExFreePoolWithTag p PROCESS_ADDRESS_LIST_TAG) ≫= fun _ =>
      mret STATUS_SUCCESS.

End operations.

(** ** Specification of the page scan *)

(** Valid addresses come in whole pages of bytes. *)
Record memory_laws {A : SystemApi} {V : HandleApi} : Prop := {
  vm_page : forall a b, MmIsAddressValid a = true -> a / 4096 = b / 4096 -> MmIsAddressValid b = true;
  vm_read : forall a, MmIsAddressValid a = true -> is_Some (system_memory a);
}.
Arguments memory_laws : clear implicits.

Section specification.
Context {A : SystemApi} {V : HandleApi}.

Definition result_or_0 (r : res Z) : Z := match r with Ok v => v | Crash _ => 0 end.

(** The words of an object and of a pool header, 0 where they are not mapped. *)
Definition object_word (a : Z) : Z := result_or_0 (read_if_valid a).
Definition header_word (h : Z) : Z := result_or_0 (load_field system_memory POOL_HEADER h "Ulong1" 4).
Definition block_bytes (h : Z) : Z :=
  if MmIsAddressValid (u64 (h + POOL_HEADER_BLOCK_SIZE_OFFSET))
  then u64 (16 * bits 16 8 (header_word h) - 16) else 0.

(** What the object at [a], in the pool block with the header [h], is recognised
    by. *)
Definition process_signature (a h : Z) : bool :=
  (0 <? object_word (a + EPROCESS_PEAK_VIRTUAL_SIZE_OFFSET)) &&
  negb (Z.testbit (object_word (a + KPROCESS_DIRECTORY_TABLE_BASE_OFFSET)) 5) &&
  (0xa80 <? block_bytes h) && negb (bits 24 8 (header_word h) =? 0) &&
  negb (Z.land (block_bytes h) 0xfff0 =? 0xfff0) &&
  negb (object_word (a + EPROCESS_PEB_OFFSET) =? 0) &&
  negb (object_word (a + EPROCESS_OBJECT_TABLE_OFFSET) =? 0).

(** The fields the signature looks at can be read where their addresses are
    valid. *)
Definition object_readable (a h : Z) : Prop :=
  (forall f, f ∈ [KPROCESS_DIRECTORY_TABLE_BASE_OFFSET; EPROCESS_PEAK_VIRTUAL_SIZE_OFFSET;
                  EPROCESS_PEB_OFFSET; EPROCESS_OBJECT_TABLE_OFFSET] ->
     exists v, read_if_valid (a + f) = Ok v) /\
  (MmIsAddressValid (u64 (h + POOL_HEADER_BLOCK_SIZE_OFFSET)) = true ->
     exists v, load_field system_memory POOL_HEADER h "Ulong1" 4 = Ok v).

(** The four characters of the tag are at [offset] of the page. *)
Definition tagged (page offset : Z) : bool :=
  match read_bytes system_memory (page + offset) 4 with
  | Ok tag => bool_decide (tag = [0x50; 0x72; 0x6f; 0x63])
  | Crash _ => false
  end.

(** The header of the pool block with its tag there, and the objects in it. *)
Definition block_at (page offset : Z) : Z := page + offset - 4.
Definition candidate (page offset : Z) : option Z :=
  List.find (fun a => process_signature a (block_at page offset))
    ((fun size => block_at page offset + 16 + size) <$> header_sizes).

Definition scan_offsets : list Z := iota 0 (Z.to_nat 1533).

Definition is_block (page offset : Z) : bool :=
  tagged page offset && MmIsAddressValid (block_at page offset).

(** What is recorded for the blocks at [offsets]; a block without a recognised
    object records the last object again. *)
Fixpoint finds (page : Z) (offsets : list Z) (last_ : Z) : list Z :=
  match offsets with
  | [] => []
  | o :: offsets =>
      if is_block page o then
        let p := default last_ (candidate page o) in
        if p =? 0 then finds page offsets p else p :: finds page offsets p
      else finds page offsets last_
  end.

Definition page_finds (page : Z) : list Z :=
  if MmIsAddressValid page then finds page scan_offsets 0 else [].

(** The context with [n] slots after the addresses [l] have been recorded. *)
Definition recorded (n : nat) (l : list Z) : PROCESS_SCAN_CONTEXT :=
  ScanContext (Z.of_nat n) (take n l ++ replicate (2 * n - length (take n l)) 0).

(** ** Lemmas *)

Lemma load_ok (m : memory) a n :
  (forall i, 0 <= i < Z.of_nat n -> is_Some (m (a + i))) -> exists v, load m a n = Ok v.
Proof.
  revert a. induction n as [|n IH]; intros a H; cbn; [by eexists|].
  destruct (H 0) as [b Hb]; [lia|]. rewrite Z.add_0_r in Hb. rewrite Hb.
  destruct (IH (a + 1)) as [v ->]; [|by eexists].
  intros i Hi. rewrite <- Z.add_assoc. apply H. lia.
Qed.

(** What the tests amount to, [==] binding tighter than [&]. *)
Lemma masked_test x m :
  m mod 2 = 0 -> 0 < m ->
  (x =? 0) || (negb (Z.land x (Z.b2z true) =? 0) && (x mod m =? 0)) = (x =? 0).
Proof.
  intros He Hm. destruct (Z.eqb_spec x 0); [done|]. cbn [orb Z.b2z].
  change 1 with (Z.ones 1). rewrite Z.land_ones by lia. change (2 ^ 1) with 2.
  destruct (Z.eqb_spec (x mod m) 0) as [Hx|]; [|by rewrite andb_false_r].
  assert (x mod 2 = 0) as ->; [|done].
  apply Z.mod_divide in Hx; [|lia]. apply Z.mod_divide in He; [|lia]. apply Z.mod_divide; [lia|].
  by eapply Z.divide_trans.
Qed.

Lemma bit_5 x : (Z.land x 0x20 =? 0) = negb (Z.testbit x 5).
Proof.
  destruct (Z.testbit x 5) eqn:E; cbn [negb].
  - apply Z.eqb_neq. intros H. apply (f_equal (fun y => Z.testbit y 5)) in H.
    rewrite Z.land_spec, E in H. done.
  - apply Z.eqb_eq. apply Z.bits_inj'. intros n Hn. rewrite Z.land_spec, Z.bits_0.
    change 0x20 with (2 ^ 5). rewrite Z.pow2_bits_eqb by lia.
    destruct (Z.eqb_spec 5 n) as [<-|]; [by rewrite E|by rewrite andb_false_r].
Qed.

Lemma signature_spec a h :
  object_readable a h -> ValidateIfAddressIsProcessStructure a h = Ok (process_signature a h).
Proof.
  intros [Hf Hh]. unfold ValidateIfAddressIsProcessStructure, process_signature.
  destruct (Hf KPROCESS_DIRECTORY_TABLE_BASE_OFFSET) as [dtb E1]; [set_solver|].
  destruct (Hf EPROCESS_PEAK_VIRTUAL_SIZE_OFFSET) as [peak E2]; [set_solver|].
  destruct (Hf EPROCESS_PEB_OFFSET) as [peb E3]; [set_solver|].
  destruct (Hf EPROCESS_OBJECT_TABLE_OFFSET) as [obj E4]; [set_solver|].
  unfold object_word. rewrite E1, E2, E3, E4. cbn [result_or_0 mbind res_bind].
  change (0x7ffd0000 =? 0x7ffd0000) with true. change (0xe0000000 =? 0xe0000000) with true.
  rewrite !masked_test by (done || lia). rewrite bit_5.
  change (EPROCESS_SIZE + OBJECT_HEADER_SIZE + sizeof POOL_HEADER) with 0xa80.
  unfold block_bytes. destruct (MmIsAddressValid _) eqn:Hv.
  - destruct (Hh eq_refl) as [w Ew]. unfold header_word. rewrite Ew. cbn [result_or_0 mbind res_bind].
    unfold POOL_HEADER_BlockSize, POOL_HEADER_PoolType. change (sizeof POOL_HEADER) with 16.
    rewrite (Z.mul_comm _ CHUNK_SIZE). change CHUNK_SIZE with 16.
    destruct (0 <? peak), (negb (Z.testbit dtb 5)), (0xa80 <? _); cbn; try done.
  - cbn [mbind res_bind]. by rewrite andb_false_r.
Qed.

(** *** Recording *)

Lemma store_loop_spec p n : forall i l z,
  (i <= length l <= n)%nat -> (n <= length l + length z)%nat ->
  Forall (fun a => a <> 0) l -> Forall (fun a => a = 0) z ->
  store_loop p (iota (Z.of_nat i) (n - i)) (ScanContext (Z.of_nat n) (l ++ z))
  = Ok (ScanContext (Z.of_nat n)
          (if (length l <? n)%nat then l ++ p :: drop 1 z else l ++ z)).
Proof.
  intros i l z. remember (n - i)%nat as m eqn:Hm. revert i Hm.
  induction m as [|m IH]; intros i Hm Hi Hn Hl Hz.
  - destruct (Nat.ltb_spec (length l) n); [lia|done].
  - rewrite iota_S. cbn [store_loop process_buffer process_count]. rewrite znth_of_nat.
    destruct (decide (i < length l)%nat) as [Hlt|Hge].
    + rewrite lookup_app_l by done. destruct (lookup_lt_is_Some_2 l i Hlt) as [a Ha]. rewrite Ha.
      pose proof (Forall_lookup_1 _ _ _ _ Hl Ha) as Hne. cbn in Hne.
      destruct (Z.eqb_spec a 0); [done|].
      replace (Z.of_nat i + 1) with (Z.of_nat (S i)) by lia. apply IH; (done || lia).
    + assert (i = length l) as -> by lia. rewrite lookup_app_r, Nat.sub_diag by lia.
      destruct z as [|a z]; [cbn in Hn; lia|]. apply Forall_cons in Hz as [-> Hz]. cbn [lookup list_lookup].
      destruct (Z.eqb_spec 0 0); [|done]. destruct (Nat.ltb_spec (length l) n); [|lia].
      do 2 f_equal. apply (zset_middle l z 0 p).
Qed.

Lemma store_recorded p n l :
  Forall (fun a => a <> 0) l ->
  store_loop p (iota 0 n) (recorded n l) = Ok (recorded n (l ++ [p])).
Proof.
  intros Hl. unfold recorded. pose proof (length_take l n) as Ht.
  pose proof (store_loop_spec p n 0 (take n l) (replicate (2 * n - length (take n l)) 0)) as Hs.
  rewrite Nat.sub_0_r in Hs. change (Z.of_nat 0) with 0 in Hs. rewrite Hs; [|lia| |by apply Forall_take|by apply Forall_replicate].
  2: { rewrite length_replicate. lia. }
  do 2 f_equal. destruct (Nat.ltb_spec (length (take n l)) n).
  - rewrite drop_replicate. rewrite (take_ge l) in * by lia. rewrite (take_ge (l ++ [p])).
    + rewrite length_app. cbn. rewrite <- (assoc_L (++)). cbn. do 3 f_equal. lia.
    + rewrite length_app. cbn. lia.
  - by rewrite (take_app_le l [p]) by lia.
Qed.

(** *** A page *)

Section page.
Context (L : memory_laws A V) (page : Z).
Context (Hal : page mod 4096 = 0) (Hlo : 4096 <= page) (Hhi : page < 2 ^ 64 - 4096).

Lemma same_page x : page <= x < page + 4096 -> page / 4096 = x / 4096.
Proof. Z.div_mod_to_equations. lia. Qed.

Section valid.
Context (Hv : MmIsAddressValid page = true).

Lemma in_page x : page <= x < page + 4096 -> MmIsAddressValid x = true /\ is_Some (system_memory x).
Proof.
  intros Hx. assert (MmIsAddressValid x = true) as E.
  { eapply (vm_page L); [exact Hv|by apply same_page]. }
  split; [done|by apply (vm_read L)].
Qed.

Lemma page_u64 x : page - 4096 <= x < page + 4096 -> u64 x = x.
Proof. intros. apply u64_small. lia. Qed.

Lemma candidate_readable o size :
  0 <= o <= 1532 -> 0x30 <= size <= 0xa0 -> MmIsAddressValid (block_at page o) = true ->
  object_readable (block_at page o + 16 + size) (block_at page o).
Proof.
  unfold block_at. intros Ho Hs Hb. split.
  - intros f Hf. assert (0 <= f <= 0x570) as Hr.
    { repeat (apply elem_of_cons in Hf as [->|Hf]; [vm_compute; split; congruence|]). by apply not_elem_of_nil in Hf. }
    unfold read_if_valid. rewrite page_u64 by lia. destruct (in_page (page + o - 4 + 16 + size + f)) as [-> _]; [lia|].
    apply load_ok. intros i Hi. apply in_page. lia.
  - intros _. unfold load_field. change (offsetof POOL_HEADER "Ulong1") with 0. rewrite Z.add_0_r.
    apply load_ok. intros i Hi. destruct (Z.le_gt_cases page (page + o - 4 + i)).
    + apply in_page. lia.
    + apply (vm_read L). eapply (vm_page L); [exact Hb|]. Z.div_mod_to_equations. lia.
Qed.

Lemma header_loop_spec o sizes :
  0 <= o <= 1532 -> MmIsAddressValid (block_at page o) = true ->
  Forall (fun size => 0x30 <= size <= 0xa0) sizes ->
  header_loop (block_at page o) sizes
  = Ok (List.find (fun a => process_signature a (block_at page o))
          ((fun size => block_at page o + 16 + size) <$> sizes)).
Proof.
  intros Ho Hb. induction sizes as [|size sizes IH]; intros Hs; [done|].
  apply Forall_cons in Hs as [Hsz Hs]. cbn [header_loop fmap list_fmap List.find].
  change (sizeof POOL_HEADER) with 16. rewrite page_u64 by (unfold block_at; lia).
  rewrite signature_spec by by apply candidate_readable. cbn [mbind res_bind].
  destruct (process_signature _ _); [done|]. by apply IH.
Qed.

Lemma header_sizes_range : Forall (fun size => 0x30 <= size <= 0xa0) header_sizes.
Proof. apply (bool_decide_unpack _). vm_compute. exact I. Qed.

(** A block at [o]. *)
Lemma check_block_spec o last_ n l :
  0 <= o <= 1532 -> Forall (fun a => a <> 0) l ->
  check_block page o (last_, recorded n l) =
    Ok (if MmIsAddressValid (block_at page o) then
          let p := default last_ (candidate page o) in
          (p, if p =? 0 then recorded n l else recorded n (l ++ [p]))
        else (last_, recorded n l)).
Proof.
  intros Ho Hl. unfold check_block. change POOL_HEADER_TAG_OFFSET with 4.
  rewrite page_u64 by lia. fold (block_at page o).
  destruct (MmIsAddressValid (block_at page o)) eqn:Hb; cbn [negb]; [|done].
  rewrite header_loop_spec by (done || apply header_sizes_range). cbn [mbind res_bind].
  fold (candidate page o). set (p := default last_ (candidate page o)). cbn zeta.
  destruct (Z.eqb_spec p 0); [done|]. change (Z.to_nat (process_count (recorded n l))) with (Z.to_nat (Z.of_nat n)).
  rewrite Nat2Z.id, store_recorded by done. done.
Qed.

Lemma sig_loop_spec o st :
  0 <= o <= 1532 ->
  sig_loop page o INDEX_PROCESS_POOL_TAG (iota 0 5) st
  = if tagged page o then check_block page o st else Ok st.
Proof.
  intros Ho. unfold tagged. change (iota 0 5) with [0; 1; 2; 3; 4]. change INDEX_PROCESS_POOL_TAG with 0.
  assert (forall i, 0 <= i < 5 -> exists b, MmIsAddressValid (u64 (page + o + i)) = true /\
    system_memory (page + o + i) = Some b /\ load8 system_memory (u64 (page + o + i)) = Ok b) as Hb.
  { intros i Hi. rewrite page_u64 by lia. destruct (in_page (page + o + i) ltac:(lia)) as [E [b Eb]].
    exists b. split; [done|]. split; [done|]. unfold load8. cbn. rewrite Eb. f_equal. lia. }
  destruct (Hb 0 ltac:(lia)) as (b0 & V0 & M0 & L0), (Hb 1 ltac:(lia)) as (b1 & V1 & M1 & L1),
    (Hb 2 ltac:(lia)) as (b2 & V2 & M2 & L2), (Hb 3 ltac:(lia)) as (b3 & V3 & M3 & L3),
    (Hb 4 ltac:(lia)) as (b4 & V4 & M4 & L4).
  rewrite Z.add_0_r in M0. cbn [read_bytes]. replace (page + o + 1 + 1) with (page + o + 2) by lia.
  replace (page + o + 2 + 1) with (page + o + 3) by lia. rewrite M0, M1, M2, M3.
  cbn [mbind res_bind sig_loop]. rewrite V0, V1, V2, V3, V4, L0, L1, L2, L3, L4.
  cbn [negb mbind res_bind].
  change (znth EXECUTIVE_OBJECT_POOL_TAGS (POOL_TAG_LENGTH * 0 + 0)) with (Some 0x50).
  change (znth EXECUTIVE_OBJECT_POOL_TAGS (POOL_TAG_LENGTH * 0 + 1)) with (Some 0x72).
  change (znth EXECUTIVE_OBJECT_POOL_TAGS (POOL_TAG_LENGTH * 0 + 2)) with (Some 0x6f).
  change (znth EXECUTIVE_OBJECT_POOL_TAGS (POOL_TAG_LENGTH * 0 + 3)) with (Some 0x63).
  change (znth EXECUTIVE_OBJECT_POOL_TAGS (POOL_TAG_LENGTH * 0 + 4)) with (Some 0x54).
  cbn iota beta. change POOL_TAG_LENGTH with 4. cbn [Z.eqb Pos.eqb].
  destruct (Z.eqb_spec b0 0x50) as [->|]; cbn [negb]; [|by rewrite bool_decide_false by congruence].
  destruct (Z.eqb_spec b1 0x72) as [->|]; cbn [negb]; [|by rewrite bool_decide_false by congruence].
  destruct (Z.eqb_spec b2 0x6f) as [->|]; cbn [negb]; [|by rewrite bool_decide_false by congruence].
  destruct (Z.eqb_spec b3 0x63) as [->|]; cbn [negb]; [|by rewrite bool_decide_false by congruence].
  by rewrite bool_decide_true.
Qed.

Lemma offsets_spec n offsets : forall last_ l,
  Forall (fun o => 0 <= o <= 1532) offsets -> Forall (fun a => a <> 0) l ->
  exists last', for_each (fun o => sig_loop page o INDEX_PROCESS_POOL_TAG (iota 0 5)) offsets
      (last_, recorded n l)
    = Ok (last', recorded n (l ++ finds page offsets last_)).
Proof.
  induction offsets as [|o offsets IH]; intros last_ l Ho Hl.
  { exists last_. cbn. by rewrite app_nil_r. }
  apply Forall_cons in Ho as [Ho Hos]. cbn [for_each finds]. rewrite sig_loop_spec by done.
  unfold is_block. destruct (tagged page o); cbn [andb]; [|by apply IH].
  rewrite check_block_spec by done. destruct (MmIsAddressValid (block_at page o)); [|by apply IH].
  cbn [mbind res_bind]. set (p := default last_ (candidate page o)). cbn zeta.
  destruct (Z.eqb_spec p 0); [by apply IH|].
  destruct (IH p (l ++ [p]) Hos) as [last' ->]; [by apply Forall_app_2; [|constructor]|].
  exists last'. by rewrite <- (assoc_L (++)).
Qed.

Lemma candidate_pos o a : 0 <= o <= 1532 -> candidate page o = Some a ->
  block_at page o + 16 + 0x30 <= a <= block_at page o + 16 + 0xa0.
Proof.
  intros Ho Ha. apply List.find_some in Ha as [Hin _].
  apply list_elem_of_In, list_elem_of_fmap in Hin as (size & -> & Hs).
  pose proof header_sizes_range as Hr. rewrite Forall_forall in Hr. apply Hr in Hs. lia.
Qed.

End valid.

Lemma scan_range : Forall (fun o => 0 <= o <= 1532) scan_offsets.
Proof. apply Forall_forall. intros o Ho%elem_of_iota. lia. Qed.

Lemma scan_page_spec n l :
  Forall (fun a => a <> 0) l ->
  ScanPageForKernelObjectAllocation page PAGE_SIZE INDEX_PROCESS_POOL_TAG (recorded n l)
  = Ok (recorded n (l ++ page_finds page)).
Proof.
  intros Hl. unfold ScanPageForKernelObjectAllocation, page_finds.
  destruct (Z.eqb_spec page 0); [lia|]. cbn [orb]. change (PAGE_SIZE =? 0) with false. cbn iota.
  cbn zeta. change (Z.to_nat (u32 (PAGE_SIZE - POOL_TAG_LENGTH -
    (EPROCESS_SIZE - sizeof POOL_HEADER - OBJECT_HEADER_SIZE)) + 1)) with (Z.to_nat 1533).
  fold scan_offsets.
  destruct (MmIsAddressValid page) eqn:Hv.
  - destruct (offsets_spec Hv n scan_offsets 0 l scan_range Hl) as [last' ->]. done.
  - rewrite app_nil_r. pose proof scan_range as Hr. induction scan_offsets as [|o os IH]; [done|].
    apply Forall_cons in Hr as [Ho Hr]. cbn [for_each]. change (iota 0 5) with [0; 1; 2; 3; 4].
    cbn [sig_loop]. destruct (MmIsAddressValid (u64 (page + o + 0))) eqn:E.
    + rewrite u64_small in E by lia. exfalso.
      assert (MmIsAddressValid page = true); [|congruence].
      eapply (vm_page L); [exact E|]. symmetry. apply same_page. lia.
    + cbn [negb mbind res_bind]. apply IH, Hr.
Qed.

End page.

(** What is recorded is never zero. *)
Lemma finds_nonzero page offsets : forall last_, Forall (fun a => a <> 0) (finds page offsets last_).
Proof.
  induction offsets as [|o os IH]; intros last_; cbn [finds]; [done|].
  destruct (is_block page o); [|done]. set (p := default last_ (candidate page o)).
  cbn zeta. destruct (Z.eqb_spec p 0); [done|]. by constructor.
Qed.

Lemma page_finds_nonzero page : Forall (fun a => a <> 0) (page_finds page).
Proof. unfold page_finds. destruct (MmIsAddressValid page); [apply finds_nonzero|done]. Qed.

Lemma finds_elem page offsets a : a <> 0 ->
  a ∈ finds page offsets 0 <->
  exists o, o ∈ offsets /\ is_block page o = true /\ candidate page o = Some a.
Proof.
  intros Ha. assert (forall last_, (a ∈ finds page offsets last_ -> a = last_ \/
    exists o, o ∈ offsets /\ is_block page o = true /\ candidate page o = Some a) /\
    ((exists o, o ∈ offsets /\ is_block page o = true /\ candidate page o = Some a) ->
     a ∈ finds page offsets last_)) as Hf.
  2: { destruct (Hf 0) as [H1 H2]. split; [|done]. intros [->|?]%H1; done. }
  induction offsets as [|o os IH]; intros last_; cbn [finds].
  { split; [by intros ?%not_elem_of_nil|]. by intros (o & ?%not_elem_of_nil & _). }
  assert (forall q, a ∈ finds page os q -> a = q \/ exists o', o' ∈ o :: os /\ is_block page o' = true /\
    candidate page o' = Some a) as Hs.
  { intros q [?|(o' & ? & ?)]%(proj1 (IH q)); [by left|]. right. exists o'. split; [by right|done]. }
  destruct (is_block page o) eqn:Hb.
  - set (p := default last_ (candidate page o)). assert (a = p -> a = last_ \/ exists o', o' ∈ o :: os /\
      is_block page o' = true /\ candidate page o' = Some a) as Hp.
    { intros ->. subst p. destruct (candidate page o) as [q|] eqn:Hc; cbn; [|by left].
      right. exists o. split; [by left|done]. }
    assert ((exists o', o' ∈ o :: os /\ is_block page o' = true /\ candidate page o' = Some a) ->
      a = p \/ a ∈ finds page os p) as Hc.
    { intros (o' & [->|Ho']%elem_of_cons & Hb' & Hc'); [left; unfold p; by rewrite Hc'|].
      right. apply IH. by exists o'. }
    cbn zeta. destruct (Z.eqb_spec p 0) as [E|].
    + split; [intros [?|?]%Hs; [lia|by right]|]. intros [?|?]%Hc; [lia|done].
    + rewrite elem_of_cons. split; [|done].
      intros [?|[->|?]%Hs]; [by apply Hp|by apply Hp|by right].
  - split; [apply Hs|]. intros (o' & [->|Ho']%elem_of_cons & Hb' & Hc'); [congruence|].
    apply IH. by exists o'.
Qed.

End specification.

(** ** Specification of the search *)

Section search.
Context {P : Pool} {K : ReportSink} {A : SystemApi} {V : HandleApi} {H : ListHeads}.
Context {G : PagingApi} {R : RangesBlock}.

(** No process of the list lies within the margin of the allocation. *)
Definition unlisted (es : list PROCESS_LIST_ENTRY) (a : Z) : bool :=
  forallb (fun e => negb (near (Callbacks.process e) a)) es.

(** The report for an allocation: the 500 bytes from its object header on. *)
Definition allocation_report (a : Z) : report * Z :=
  (InvalidProcessAllocation REPORT_INVALID_PROCESS_ALLOCATION
     (match read_bytes system_memory (u64 (a - OBJECT_HEADER_SIZE))
              (Z.to_nat REPORT_INVALID_PROCESS_BUFFER_SIZE)
      with Ok bs => bs | Crash _ => [] end),
   sizeof INVALID_PROCESS_ALLOCATION_REPORT).

(** ** Lemmas *)

Lemma in_driver_step {X Y} (m : KM kernel X) (f : X -> M Y) st x k :
  m (hkern (sys (ext st))) = Ok (x, k) ->
  (in_driver m ≫= f) st = f x (set_ext (set_sys (HState (hsession (sys (ext st))) k
    (tables (sys (ext st))) (config_mutex (sys (ext st)))) (ext st)) st).
Proof. intros E. apply KM_step. unfold in_driver, on_sys, on_kernel. by rewrite E. Qed.

(** Scanning pages one after the other. *)
Lemma scan_pages (ML : memory_laws A V) n pages : forall l,
  Forall (fun p => p mod 4096 = 0 /\ 4096 <= p < 2 ^ 64 - 4096) pages -> Forall (fun a => a <> 0) l ->
  for_each (fun page => ScanPageForKernelObjectAllocation page PAGE_SIZE INDEX_PROCESS_POOL_TAG) pages
    (recorded n l) = Ok (recorded n (l ++ concat (page_finds <$> pages))).
Proof.
  induction pages as [|p pages IH]; intros l Hp Hl; [cbn; by rewrite app_nil_r|].
  apply Forall_cons in Hp as [(Ha & Hlo & Hhi) Hp]. cbn [for_each].
  rewrite scan_page_spec by done. cbn [mbind res_bind]. rewrite IH; [by cbn; rewrite <- (assoc_L (++))|done|].
  apply Forall_app_2; [done|apply page_finds_nonzero].
Qed.

(** *** The comparison with the process list *)

Definition clear (p a : Z) : Z := if near p a then 0 else a.

Definition slots_ok (n : nat) (c : PROCESS_SCAN_CONTEXT) : Prop :=
  process_count c = Z.of_nat n /\ (n <= length (process_buffer c))%nat /\
  Forall (fun a => a = 0) (drop n (process_buffer c)).

Lemma check_slot_at p n k a l :
  check_slot p (zlen k) (ScanContext n (k ++ a :: l)) = Ok (ScanContext n (k ++ clear p a :: l)).
Proof.
  unfold check_slot, clear, zlen. cbn [process_buffer process_count].
  rewrite znth_of_nat, lookup_app_r, Nat.sub_diag by lia. cbn [lookup list_lookup].
  destruct (near p a); [|done]. do 2 f_equal. apply (zset_middle k l a 0).
Qed.

Lemma check_slots_spec p n : forall i b,
  (i <= n <= length b)%nat ->
  for_each (check_slot p) (iota (Z.of_nat i) (n - i))
    (ScanContext (Z.of_nat n) ((clear p <$> take i b) ++ drop i b))
  = Ok (ScanContext (Z.of_nat n) ((clear p <$> take n b) ++ drop n b)).
Proof.
  intros i b. remember (n - i)%nat as m eqn:Hm. revert i Hm.
  induction m as [|m IH]; intros i Hm Hi; [by assert (i = n) as -> by lia|].
  rewrite iota_S. cbn [for_each].
  destruct (lookup_lt_is_Some_2 b i) as [a Ha]; [lia|].
  specialize (IH (S i) ltac:(lia) ltac:(lia)).
  rewrite (take_S_r b i a Ha), fmap_app, <- (assoc_L (++)) in IH. cbn [fmap list_fmap app] in IH.
  rewrite (drop_S b a i Ha). set (k := clear p <$> take i b) in *.
  assert (zlen k = Z.of_nat i) as Hz by (unfold zlen, k; rewrite length_fmap, length_take; lia).
  rewrite Nat2Z.inj_succ, <- Hz in IH. rewrite <- Hz.
  rewrite check_slot_at. exact IH.
Qed.

Lemma check_callback_spec n q e c st :
  q <> 0 -> is_Some (next st !! q) -> process_entries (ext st) !! q = Some e -> slots_ok n c ->
  let c' := ScanContext (process_count c) (clear (Callbacks.process e) <$> process_buffer c) in
  CheckIfProcessAllocationIsInProcessList q c st = Ok (c', st) /\ slots_ok n c'.
Proof.
  intros Hq Hal He (Hn & Hlen & Hz). cbn zeta. split.
  - unfold CheckIfProcessAllocationIsInProcessList. erewrite KM_step by by apply read_entry_ok.
    unfold lift. rewrite Hn, Nat2Z.id. destruct c as [cn b]. cbn [process_count process_buffer] in *. subst cn.
    pose proof (check_slots_spec (Callbacks.process e) n 0 b ltac:(lia)) as Hc.
    rewrite Nat.sub_0_r in Hc. change (Z.of_nat 0) with 0 in Hc.
    change ((clear (Callbacks.process e) <$> take 0 b) ++ drop 0 b) with b in Hc. rewrite Hc. do 3 f_equal.
    rewrite <- (take_drop n b) at 3. rewrite fmap_app. f_equal.
    clear - Hz. induction (drop n b) as [|a l IH]; [done|]. apply Forall_cons in Hz as [-> Hz].
    cbn. f_equal; [unfold clear; by destruct (near _ 0)|by apply IH].
  - split; [done|]. cbn [process_buffer]. rewrite length_fmap. split; [done|].
    rewrite <- fmap_drop. clear - Hz. induction (drop n _) as [|a l IH]; [constructor|].
    apply Forall_cons in Hz as [-> Hz]. constructor; [unfold clear; by destruct (near _ 0)|by apply IH].
Qed.

Lemma foldl_clear es : forall c,
  foldl (fun c e => ScanContext (process_count c) (clear (Callbacks.process e) <$> process_buffer c)) c es
  = ScanContext (process_count c) ((fun a => if unlisted es a then a else 0) <$> process_buffer c).
Proof.
  induction es as [|e es IH]; intros [n b]; cbn [foldl process_count process_buffer].
  { f_equal. cbn. by rewrite list_fmap_id. }
  rewrite IH. cbn [process_count process_buffer]. f_equal. rewrite <- list_fmap_compose.
  apply list_fmap_ext. intros _ a _. cbn. unfold clear.
  destruct (near (Callbacks.process e) a); cbn; [|done]. by destruct (unlisted es 0).
Qed.

(** *** The reports *)

Lemma report_slots_spec k l2 : forall l1 l0,
  kernel_wf k ->
  Forall (fun a => a <> 0 -> readable system_memory (u64 (a - OBJECT_HEADER_SIZE))
    (Z.to_nat REPORT_INVALID_PROCESS_BUFFER_SIZE)) l1 ->
  mforeach (report_slot (l0 ++ l1 ++ l2)) (iota (zlen l0) (length l1)) k
  = Ok (tt, foldl (fun k a => reported k (sizeof INVALID_PROCESS_ALLOCATION_REPORT)
                                (allocation_report a).1) k (filter (fun a => a <> 0) l1)).
Proof.
  intros l1. revert k. induction l1 as [|a l1 IH]; intros k l0 Hwf Hr; [done|].
  apply Forall_cons in Hr as [Ha Hr]. cbn [length]. rewrite iota_S. cbn [mforeach].
  assert (report_slot (l0 ++ (a :: l1) ++ l2) (zlen l0) k = Ok (tt,
    if decide (a = 0) then k else reported k (sizeof INVALID_PROCESS_ALLOCATION_REPORT) (allocation_report a).1))
    as Hs.
  { unfold report_slot. unfold zlen at 1. rewrite znth_of_nat, lookup_app_r, Nat.sub_diag by lia. cbn [app lookup list_lookup].
    destruct (decide (a = 0)) as [->|Hne]; [done|]. destruct (Z.eqb_spec a 0); [done|].
    destruct (read_bytes_readable _ _ _ (Ha Hne)) as (bs & Hbs & _).
    unfold allocation_report. rewrite Hbs. cbn [mbind res_bind fst]. by apply complete_report_spec. }
  erewrite KM_step by exact Hs.
  specialize (IH (if decide (a = 0) then k
    else reported k (sizeof INVALID_PROCESS_ALLOCATION_REPORT) (allocation_report a).1) (l0 ++ [a])).
  rewrite zlen_app, <- (assoc_L (++)) in IH. change (zlen [a]) with 1 in IH. cbn [app] in IH.
  change (l0 ++ (a :: l1) ++ l2) with (l0 ++ a :: l1 ++ l2). rewrite IH; [|by case_decide; [|apply reported_wf]|done].
  rewrite filter_cons. by destruct (decide (a = 0)), (decide (a <> 0)).
Qed.

Lemma foldl_reported (size : Z) (r : Z -> report) l : forall k,
  0 <= size -> kernel_wf k ->
  let k' := foldl (fun k a => reported k size (r a)) k l in
  kernel_wf k' /\ Kernel.held k' = Kernel.held k /\
  ((forall n, pool_grants n = true) -> sent k' = sent k ++ ((fun a => (r a, size)) <$> l)).
Proof.
  induction l as [|a l IH]; intros k Hs Hwf; cbn; [by rewrite app_nil_r|].
  destruct (IH (reported k size (r a)) Hs) as (H1 & H2 & H3); [by apply reported_wf|].
  split_and!; [done|by rewrite H2, reported_held|].
  intros Hg. rewrite H3, reported_sent by done. by rewrite <- (assoc_L (++)).
Qed.

Lemma count_processes es : forall c,
  process_count c + zlen es < 2 ^ 32 -> 0 <= process_count c ->
  foldl (fun c (_ : PROCESS_LIST_ENTRY) => ScanContext (u32 (process_count c + 1)) (process_buffer c)) c es
  = ScanContext (process_count c + zlen es) (process_buffer c).
Proof.
  induction es as [|e es IH]; intros [n b] Hn H0; cbn [foldl process_count process_buffer] in *.
  { by rewrite zlen_nil, Z.add_0_r. }
  rewrite zlen_cons in *. pose proof (zlen_nonneg es). rewrite IH; cbn [process_count process_buffer];
    rewrite ?u32_small by lia; try lia. f_equal. lia.
Qed.

(** The slots after the comparison: the first [n] and the rest. *)
Lemma final_slots n es found :
  Forall (fun a => a <> 0) found ->
  exists l1 l2, (fun a => if unlisted es a then a else 0) <$> process_buffer (recorded n found) = l1 ++ l2 /\
    length l1 = n /\ filter (fun a => a <> 0) l1 = filter (fun a => unlisted es a = true) (take n found) /\
    forall a, a ∈ l1 -> a <> 0 -> a ∈ found.
Proof.
  intros Hf. set (f := fun a => if unlisted es a then a else 0).
  assert (f 0 = 0) as H0 by (unfold f; by destruct (unlisted es 0)).
  set (k := take n found). assert (length k <= n)%nat by (unfold k; rewrite length_take; lia).
  exists (f <$> (k ++ replicate (n - length k) 0)), (f <$> replicate n 0). split_and!.
  - rewrite <- fmap_app. f_equal. unfold recorded. cbn [process_buffer]. fold k.
    rewrite <- (assoc_L (++)), <- replicate_add. do 2 f_equal. lia.
  - rewrite length_fmap, length_app, length_replicate. lia.
  - rewrite fmap_app, filter_app. replace (filter _ (f <$> replicate (n - length k) 0)) with (@nil Z).
    2: { induction (n - length k)%nat as [|m IHm]; [done|]. cbn [replicate fmap list_fmap].
         rewrite H0, filter_cons_False by congruence. exact IHm. }
    rewrite app_nil_r. assert (Forall (fun a => a <> 0) k) as Hk by by apply Forall_take.
    clear - Hk. induction k as [|a k IH]; [done|]. apply Forall_cons in Hk as [Ha Hk].
    cbn [fmap list_fmap]. rewrite !filter_cons, IH by done. subst f. cbn.
    destruct (unlisted es a); repeat case_decide; done.
  - intros a (x & -> & Hx)%list_elem_of_fmap Ha. apply elem_of_app in Hx as [Hx|Hx].
    + apply (subseteq_take n found). unfold f in *. fold k. by destruct (unlisted es x).
    + apply elem_of_replicate in Hx as [-> _]. by rewrite H0 in Ha.
Qed.

(** The allocation of an object that has been found can be read. *)
Lemma found_readable (ML : memory_laws A V) page a :
  page mod 4096 = 0 -> 4096 <= page < 2 ^ 64 - 4096 -> a ∈ page_finds page ->
  readable system_memory (u64 (a - OBJECT_HEADER_SIZE)) (Z.to_nat REPORT_INVALID_PROCESS_BUFFER_SIZE).
Proof.
  intros Hal [Hlo Hhi] Ha. unfold page_finds in Ha. destruct (MmIsAddressValid page) eqn:Hv; [|by apply not_elem_of_nil in Ha].
  assert (a <> 0) as H0.
  { pose proof (finds_nonzero page scan_offsets 0) as Hf. rewrite Forall_forall in Hf. by apply Hf. }
  apply finds_elem in Ha as (o & Ho%elem_of_iota & _ & Hc); [|done].
  apply candidate_pos in Hc; [|done..|lia]. unfold block_at in Hc. change OBJECT_HEADER_SIZE with 0x30.
  change (Z.to_nat REPORT_INVALID_PROCESS_BUFFER_SIZE) with 500%nat.
  intros i Hi. rewrite u64_small by lia. apply (in_page ML page Hal Hv). lia.
Qed.

(** The process list is intact and its mutex free. *)
Record process_list (st : lstate cb_ext) (es : list PROCESS_LIST_ENTRY) : Prop := {
  pls_entries : exists pl, slist (next st) process_head pl /\ entries_at (process_entries (ext st)) pl es;
  pls_lock : process_lock ∉ Lists.held st;
}.

Definition with_kern (k : kernel) (st : lstate cb_ext) : lstate cb_ext :=
  set_ext (set_sys (HState (hsession (sys (ext st))) k (tables (sys (ext st)))
    (config_mutex (sys (ext st)))) (ext st)) st.

Lemma process_list_kern k st es : process_list st es -> process_list (with_kern k st) es.
Proof. by intros [? ?]. Qed.

Lemma with_kern_kern k k' st : with_kern k (with_kern k' st) = with_kern k st.
Proof. done. Qed.

Lemma count_spec st es :
  process_list st es -> zlen es < 2 ^ 32 ->
  EnumerateProcessListWithCallbackRoutine (Some IncrementProcessCounter) (ScanContext 0 []) st
  = Ok (ScanContext (zlen es) [], st).
Proof.
  intros [(pl & Hs & He) HL] Hn. unfold EnumerateProcessListWithCallbackRoutine.
  rewrite (enumerate_pure st process_head process_lock process_entries IncrementProcessCounter
    (fun c _ => ScanContext (u32 (process_count c + 1)) (process_buffer c)) (fun _ => True) pl es);
    [|done..|by apply Forall_true|done].
  by rewrite count_processes by (cbn; lia).
Qed.

Lemma compare_spec st es n c :
  process_list st es -> slots_ok n c ->
  EnumerateProcessListWithCallbackRoutine (Some CheckIfProcessAllocationIsInProcessList) c st
  = Ok (ScanContext (process_count c) ((fun a => if unlisted es a then a else 0) <$> process_buffer c), st).
Proof.
  intros [(pl & Hs & He) HL] Hc. unfold EnumerateProcessListWithCallbackRoutine.
  rewrite (enumerate_pure_inv (slots_ok n) st process_head process_lock process_entries
    CheckIfProcessAllocationIsInProcessList
    (fun c e => ScanContext (process_count c) (clear (Callbacks.process e) <$> process_buffer c))
    (fun _ => True) pl es); [by rewrite foldl_clear|done..|by apply Forall_true|done|].
  intros. by apply check_callback_spec.
Qed.

Lemma recorded_slots n l : slots_ok n (recorded n l).
Proof.
  unfold slots_ok, recorded. cbn [process_count process_buffer].
  assert (length (take n l) <= n)%nat by (rewrite length_take; lia).
  split; [done|]. split; [rewrite length_app, length_replicate; lia|].
  rewrite drop_app_ge, drop_replicate by lia. by apply Forall_replicate.
Qed.

(** What is found in the pages the walk visits. *)
Definition found (word : Z -> Z) (ranges : list PHYSICAL_MEMORY_RANGE) : list Z :=
  concat (page_finds <$> mapped_pages word ranges).

Lemma found_nonzero word ranges : Forall (fun a => a <> 0) (found word ranges).
Proof.
  unfold found. generalize (mapped_pages word ranges). intros l.
  apply Forall_concat, Forall_fmap, Forall_true. intros p. apply page_finds_nonzero.
Qed.

Lemma in_driver_kern {X Y} (m : KM kernel X) (f : X -> M Y) st k k' x :
  m k = Ok (x, k') -> (in_driver m ≫= f) (with_kern k st) = f x (with_kern k' st).
Proof. intros E. by rewrite (in_driver_step _ _ _ x k'). Qed.

Lemma walk_and_scan_spec word ranges n k :
  MmGetPhysicalMemoryRangesEx2 = Some ranges -> paging_laws word ranges -> memory_laws A V ->
  walk_and_scan (recorded n []) k
  = Ok (recorded n (found word ranges), set_held (Kernel.held k ⊎ {[+ Block ranges_block.1 ranges_block.2 +]}) k).
Proof.
  intros Hm HL ML. unfold walk_and_scan. rewrite Hm. rewrite bool_decide_true by by eexists.
  cbn [when]. erewrite KM_step by done.
  rewrite (walk_pages _ word ranges _ Hm HL). cbn beta.
  rewrite (scan_pages ML); [done|by apply mapped_pages_range|constructor].
Qed.

Lemma found_all_readable word ranges a :
  paging_laws word ranges -> memory_laws A V -> a ∈ found word ranges ->
  readable system_memory (u64 (a - OBJECT_HEADER_SIZE)) (Z.to_nat REPORT_INVALID_PROCESS_BUFFER_SIZE).
Proof.
  intros HL ML. unfold found. pose proof (mapped_pages_range word ranges HL) as Hp. revert Hp.
  generalize (mapped_pages word ranges). intros l Hp Ha.
  apply list_elem_of_In, List.in_concat in Ha as (fs & Hfs%list_elem_of_In & Ha%list_elem_of_In). apply list_elem_of_fmap in Hfs as (page & -> & Hpg).
  rewrite Forall_forall in Hp. destruct (Hp page Hpg) as [Hal Hr]. by eapply found_readable.
Qed.

(** The search after the slots have been allocated. *)
Lemma search_spec word ranges st es k p :
  process_list st es -> kernel_wf k -> 0 < zlen es < 2 ^ 31 ->
  MmGetPhysicalMemoryRangesEx2 = Some ranges -> paging_laws word ranges -> memory_laws A V ->
  let n := length es in
  let suspects := filter (fun a => unlisted es a = true) (take n (found word ranges)) in
  Block p PROCESS_ADDRESS_LIST_TAG ∈ Kernel.held k ->
  exists k', (context ← in_driver (walk_and_scan (recorded n []));
     context ← EnumerateProcessListWithCallbackRoutine
       (Some CheckIfProcessAllocationIsInProcessList) context;
     in_driver (mforeach (report_slot (process_buffer context))
       (iota 0 (Z.to_nat (process_count context)))) ≫= fun _ =>
     in_driver (ExFreePoolWithTag p PROCESS_ADDRESS_LIST_TAG) ≫= fun _ =>
     mret STATUS_SUCCESS) (with_kern k st) = Ok (STATUS_SUCCESS, with_kern k' st) /\
    Kernel.held k' = (Kernel.held k ⊎ {[+ Block ranges_block.1 ranges_block.2 +]})
                       ∖ {[+ Block p PROCESS_ADDRESS_LIST_TAG +]} /\
    ((forall n, pool_grants n = true) -> sent k' = sent k ++ (allocation_report <$> suspects)).
Proof.
  intros Hpl Hwf Hn Hm HL ML n suspects Hb.
  rewrite (in_driver_kern _ _ _ _ _ _ (walk_and_scan_spec word ranges n k Hm HL ML)).
  set (k1 := set_held _ k).
  rewrite (KM_step _ _ _ _ _ (compare_spec (with_kern k1 st) es n _ (process_list_kern k1 st es Hpl)
    (recorded_slots n (found word ranges)))).
  destruct (final_slots n es (found word ranges) (found_nonzero word ranges))
    as (l1 & l2 & Hl & Hl1 & Hfil & Hin).
  cbn [process_count process_buffer]. rewrite Hl.
  change (process_count (recorded n (found word ranges))) with (Z.of_nat n).
  rewrite Nat2Z.id, <- Hl1.
  pose proof (report_slots_spec k1 l2 l1 [] Hwf) as Hrep. cbn [app] in Hrep.
  change (zlen []) with 0 in Hrep.
  erewrite in_driver_kern.
  2: { apply Hrep. apply Forall_forall. intros a Ha H0. eapply found_all_readable; [done..|]. by apply Hin. }
  rewrite Hfil. fold suspects.
  destruct (foldl_reported (sizeof INVALID_PROCESS_ALLOCATION_REPORT) (fun a => (allocation_report a).1)
    suspects k1 ltac:(done) Hwf) as (Hwf2 & Hh & Hs). cbn zeta in *. set (k2 := foldl _ _ _) in *.
  erewrite in_driver_kern.
  2: { apply release_spec. rewrite Hh. cbn [Kernel.held k1 set_held]. by apply gmultiset_elem_of_disj_union; left. }
  eexists. split; [done|]. cbn [Kernel.held sent set_held]. rewrite Hh. split; [done|].
  intros Hg. rewrite Hs by done. done.
Qed.

End search.

(** ** The debugger's data and big pool allocations

    The other requests of pool.c take pool blocks for the duration of a query. *)

Definition DUMP_BLOCK_SIZE : Z := 0x40000.
Definition SYSTEM_BIGPOOL_INFORMATION_ID : Z := 0x42.

Definition SYSTEM_BIGPOOL_ENTRY : cty := St
  [("VirtualAddress", PVOID); ("SizeInBytes", UINT64); ("TagUlong", ULONG)].
Definition SYSTEM_BIGPOOL_INFORMATION : cty := St
  [("Count", ULONG); ("AllocatedInfo", Arr 1 SYSTEM_BIGPOOL_ENTRY)].

(** The block [KeCapturePersistentThreadState] fills in, and the two queries for
    the big pool table: status and length, status and table. *)
Class DebugApi := {
  captured_state : list Z;
  ZwQuerySystemInformation_routine : Z;
  query_bigpool_size : NTSTATUS * Z;
  query_bigpool : NTSTATUS * list Z;
}.

Section debugger.
Context {P : Pool} {A : SystemApi} {D : DebugApi}.

(** The block and its contents, [None] for a null pointer. *)
Definition GetGlobalDebuggerData : KM kernel (option buffer) :=
  dump_header ← ExAllocatePool2 DUMP_BLOCK_SIZE POOL_DUMP_BLOCK_TAG;
  if dump_header =? 0 then mret None
  else
    debugger_data ← ExAllocatePool2 (sizeof KDDEBUGGER_DATA64) POOL_DEBUGGER_DATA_TAG;
    r ← (if debugger_data =? 0 then mret None
         else
           block ← lift (load_field (mem_of 0 captured_state) DUMP_HEADER 0 "KdDebuggerDataBlock" 8);
           bs ← lift (read_bytes system_memory block (Z.to_nat (sizeof KDDEBUGGER_DATA64)));
           mret (Some (Buffer debugger_data bs)));
    ExFreePoolWithTag dump_header POOL_DUMP_BLOCK_TAG ≫= fun _ =>
    mret r.

Definition GetPsActiveProcessHead : KM kernel Z :=
  debugger_data ← GetGlobalDebuggerData;
  match debugger_data with
  | None => mret 0
  | Some b =>
      head ← lift (load_field (mem_of 0 (contents b)) KDDEBUGGER_DATA64 0 "PsActiveProcessHead" 8);
      Address ← lift (load64 system_memory head);
      ExFreePoolWithTag (buf_address b) POOL_DEBUGGER_DATA_TAG ≫= fun _ =>
      mret Address
  end.

(** The loop reads the count and then only steps a pointer. *)
Definition EnumerateBigPoolAllocations : KM kernel NTSTATUS :=
  if ZwQuerySystemInformation_routine =? 0 then mret STATUS_UNSUCCESSFUL
  else
    let '(status, return_length) := query_bigpool_size in
    if negb (status =? STATUS_INFO_LENGTH_MISMATCH) then mret status
    else
      let return_length := u32 (return_length + sizeof SYSTEM_BIGPOOL_INFORMATION) in
      pool_entries ← ExAllocatePool2 return_length POOL_TAG_INTEGRITY;
      if pool_entries =? 0 then mret STATUS_MEMORY_NOT_ALLOCATED
      else
        let '(status, table) := query_bigpool in
        when (NT_SUCCESS status)
          (lift (load_field (mem_of 0 table) SYSTEM_BIGPOOL_INFORMATION 0 "Count" 4) ≫= fun _ => mret tt)
          ≫= fun _ =>
        ExFreePoolWithTag pool_entries POOL_TAG_INTEGRITY ≫= fun _ =>
        mret status.

Lemma debugger_data_spec k block bs :
  kernel_wf k ->
  load_field (mem_of 0 captured_state) DUMP_HEADER 0 "KdDebuggerDataBlock" 8 = Ok block ->
  read_bytes system_memory block (Z.to_nat (sizeof KDDEBUGGER_DATA64)) = Ok bs ->
  exists r k', GetGlobalDebuggerData k = Ok (r, k') /\ sent k' = sent k /\
    match r with
    | Some b => contents b = bs /\
        Kernel.held k' = Kernel.held k ⊎ {[+ Block (buf_address b) POOL_DEBUGGER_DATA_TAG +]}
    | None => Kernel.held k' = Kernel.held k
    end.
Proof.
  intros Hwf Hb Hbs. unfold GetGlobalDebuggerData. revert Hbs.
  generalize (sizeof KDDEBUGGER_DATA64) as size. intros size Hbs.
  destruct (alloc_spec k DUMP_BLOCK_SIZE POOL_DUMP_BLOCK_TAG Hwf) as (p & k1 & H1 & Hwf1 & S1 & _ & _ & Hp).
  rewrite (KM_step _ _ _ _ _ H1). destruct (pool_grants (pool_requests k)).
  2: { destruct Hp as [-> Hh]. by exists None, k1. }
  destruct Hp as [Hp Hh]. destruct (Z.eqb_spec p 0); [lia|].
  destruct (alloc_spec k1 size POOL_DEBUGGER_DATA_TAG Hwf1) as (q & k2 & H2 & Hwf2 & S2 & _ & _ & Hq).
  rewrite (KM_step _ _ _ _ _ H2). destruct (pool_grants (pool_requests k1)).
  - destruct Hq as [Hq Hh2]. destruct (Z.eqb_spec q 0); [lia|].
    erewrite KM_step by (rewrite Hb, lift_step, Hbs, lift_step; done).
    erewrite KM_step by (apply (release_last _ (Kernel.held k ⊎ {[+ Block q POOL_DEBUGGER_DATA_TAG +]}));
      rewrite Hh2, Hh; clear; multiset_solver).
    eexists (Some _), _. split; [done|]. cbn [sent set_held]. split; [congruence|done].
  - destruct Hq as [-> Hh2]. cbn [Z.eqb]. erewrite KM_step by done.
    erewrite KM_step by (apply (release_last _ (Kernel.held k)); by rewrite Hh2, Hh).
    eexists None, _. split; [done|]. cbn [sent set_held]. split; [congruence|done].
Qed.

(** The head of the process list, or 0 when memory does not suffice; both blocks
    are given back. *)
Lemma active_process_head k block bs head v :
  kernel_wf k ->
  load_field (mem_of 0 captured_state) DUMP_HEADER 0 "KdDebuggerDataBlock" 8 = Ok block ->
  read_bytes system_memory block (Z.to_nat (sizeof KDDEBUGGER_DATA64)) = Ok bs ->
  load_field (mem_of 0 bs) KDDEBUGGER_DATA64 0 "PsActiveProcessHead" 8 = Ok head ->
  load64 system_memory head = Ok v ->
  exists a k', GetPsActiveProcessHead k = Ok (a, k') /\ a ∈ [0; v] /\
    Kernel.held k' = Kernel.held k /\ sent k' = sent k.
Proof.
  intros Hwf Hb Hbs Hh Hv. unfold GetPsActiveProcessHead.
  destruct (debugger_data_spec k block bs Hwf Hb Hbs) as (r & k1 & H1 & S1 & Hr).
  rewrite (KM_step _ _ _ _ _ H1). destruct r as [b|].
  - destruct Hr as [-> Hk]. rewrite Hh, lift_step, Hv, lift_step.
    rewrite (KM_step _ _ _ _ _ (release_last _ _ _ Hk)). exists v, (set_held (Kernel.held k) k1).
    split; [reflexivity|]. split; [right; left|]. split; [reflexivity|exact S1].
  - exists 0, k1. split; [reflexivity|]. split; [left|]. split; [exact Hr|exact S1].
Qed.

Lemma big_pool_released k count :
  kernel_wf k -> load_field (mem_of 0 query_bigpool.2) SYSTEM_BIGPOOL_INFORMATION 0 "Count" 4 = Ok count ->
  exists status k', EnumerateBigPoolAllocations k = Ok (status, k') /\ Kernel.held k' = Kernel.held k.
Proof.
  intros Hwf Hc. unfold EnumerateBigPoolAllocations. destruct (_ =? 0); [by eexists _, k|].
  destruct query_bigpool_size as [status n]. destruct (negb _); [by eexists _, k|].
  destruct (alloc_spec k (u32 (n + sizeof SYSTEM_BIGPOOL_INFORMATION)) POOL_TAG_INTEGRITY Hwf)
    as (p & k1 & H1 & _ & _ & _ & _ & Hp).
  rewrite (KM_step _ _ _ _ _ H1). destruct (pool_grants (pool_requests k)).
  2: { destruct Hp as [-> Hh]. by eexists _, k1. }
  destruct Hp as [Hp Hh]. destruct (Z.eqb_spec p 0); [lia|]. destruct query_bigpool as [st table].
  cbn [snd] in Hc. erewrite KM_step by (rewrite Hc; by destruct (NT_SUCCESS st)).
  rewrite (KM_step _ _ _ _ _ (release_last _ _ _ Hh)). by eexists _, (set_held (Kernel.held k) k1).
Qed.

End debugger.

(** ** Properties *)

(** The signature of a process object.  Because [==] binds tighter than [&],
    and because the two address tests are negated, the tests of the environment
    block and of the handle table come down to these pointers not being null: the
    documented masks and alignments are not checked.  The remaining tests are as
    written: a positive peak size, bit 5 of the directory base clear, a pool block
    of more than 0xa80 bytes with a pool type. *)
Theorem process_signature_as_coded {A : SystemApi} {V : HandleApi} a h :
  object_readable a h -> ValidateIfAddressIsProcessStructure a h = Ok (process_signature a h).
Proof. apply signature_spec. Qed.

(** The scan of a page.  Scanning a page never faults and appends to the
    recorded addresses exactly the objects with the signature that follow a
    process tag in the first 0x5fd bytes of the page (each at least once), as long
    as slots are free. *)
Theorem page_scan_records_processes {A : SystemApi} {V : HandleApi} page n l :
  memory_laws A V -> page mod 4096 = 0 -> 4096 <= page < 2 ^ 64 - 4096 -> Forall (fun a => a <> 0) l ->
  ScanPageForKernelObjectAllocation page PAGE_SIZE INDEX_PROCESS_POOL_TAG (recorded n l)
  = Ok (recorded n (l ++ page_finds page)) /\
  forall a, a ∈ page_finds page <-> MmIsAddressValid page = true /\ a <> 0 /\
    exists o, 0 <= o <= 1532 /\ is_block page o = true /\ candidate page o = Some a.
Proof.
  intros ML Hal [Hlo Hhi] Hl. split; [by apply scan_page_spec|]. intros a. unfold page_finds.
  destruct (MmIsAddressValid page) eqn:Hv; [|split; [by intros ?%not_elem_of_nil|by intros [? _]]].
  assert (forall o, o ∈ scan_offsets <-> 0 <= o <= 1532) as Ho.
  { intros o. unfold scan_offsets. rewrite elem_of_iota. lia. }
  pose proof (finds_nonzero page scan_offsets 0) as Hf. rewrite Forall_forall in Hf. split.
  - intros Ha. pose proof (Hf a Ha) as H0. apply finds_elem in Ha as (o & ?%Ho & ?); [|done].
    split; [done|]. split; [done|]. by exists o.
  - intros (_ & H0 & o & ?%Ho & ?). apply finds_elem; [done|]. by exists o.
Qed.


(** ** Witnesses *)

Lemma sample_memory_laws : memory_laws sample_system sample_objects.
Proof.
  split; cbn [MmIsAddressValid sample_objects system_memory sample_system].
  - intros a b Ha Hab. unfold sample_base in *.
    apply andb_prop in Ha as [H1%Z.leb_le H2%Z.ltb_lt].
    apply andb_true_intro. split; [apply Z.leb_le|apply Z.ltb_lt]; Z.div_mod_to_equations; lia.
  - intros a Ha. unfold sample_memory. rewrite Ha. by eexists.
Qed.

Lemma process_signature_as_coded_witness :
  ValidateIfAddressIsProcessStructure (A := sample_system) (V := sample_objects)
    (sample_base + 0x5050) (sample_base + 0x5010)
  = Ok (process_signature (A := sample_system) (V := sample_objects)
          (sample_base + 0x5050) (sample_base + 0x5010)).
Proof.
  apply process_signature_as_coded. split.
  - intros f Hf. repeat (apply elem_of_cons in Hf as [->|Hf]; [eexists; vm_compute; reflexivity|]).
    by apply not_elem_of_nil in Hf.
  - intros _. eexists. vm_compute. reflexivity.
Defined.

Lemma page_scan_records_processes_witness :
  ScanPageForKernelObjectAllocation (A := sample_system) (V := sample_objects)
    (sample_base + 0x5000) PAGE_SIZE INDEX_PROCESS_POOL_TAG
    (recorded 1 [])
  = Ok (recorded 1 ([] ++ page_finds (A := sample_system) (V := sample_objects) (sample_base + 0x5000))).
Proof.
  apply (page_scan_records_processes (A := sample_system) (V := sample_objects) (sample_base + 0x5000) 1 []
    sample_memory_laws); [vm_compute; reflexivity|vm_compute; split; congruence|constructor].
Defined.

(** The sample machine with one listed process; the object in its memory is not
    that process and is reported. *)
Lemma tracking_process_list : process_list (H := sample_heads) tracking [ProcessEntry 8 4].
Proof.
  destruct tracking_represents as [? _ _ ? _ ? _ _ _ _ _]. split; [by exists [0x300]|done].
Qed.

