(* ===== verification/Pci.v ===== *)
(** * hw.c: the scan of PCI configuration spaces

    The devices of the PCI bus driver are enumerated; for each physical device
    object a request reads the configuration space, and the device id is compared
    with those of known attack hardware. *)

From stdpp Require Import gmultiset.
From S2P Require Import Prelude Layout Irp Structs Kernel Modules Drivers.

(** ** Data *)

Definition PCI_VENDOR_ID_OFFSET : Z := 0x00.
Definition PCI_DEVICE_ID_OFFSET : Z := 0x02.
Definition FLAGGED_DEVICE_ID_COUNT : Z := 2.
Definition FLAGGED_DEVICE_IDS : list Z := [0x0666; 0xffff].
Definition POOL_TAG_HW : Z := 0x68776877.
(** [DO_BUS_ENUMERATED_DEVICE] of the kernel's headers. *)
Definition DO_BUS_ENUMERATED_DEVICE : Z := 0x1000.
(** [sizeof(PCI_COMMON_HEADER)] and its first two fields. *)
Definition PCI_COMMON_HEADER_SIZE : Z := 64.
Definition PCI_COMMON_HEADER_ids : cty := St [("VendorID", USHORT); ("DeviceID", USHORT)].

(** What the I/O manager and the bus driver do.  [enumerate_count] and
    [enumerate_devices] are the two calls of [IoEnumerateDeviceObjectList]: status
    and count, status and the objects stored, which are referenced.
    [build_request] is whether a request can be allocated.  [config_read] is what
    becomes of a request to read [n] bytes at an offset: [None] when the event is
    never signalled, otherwise the final status and the bytes stored. *)
Class PciApi := {
  enumerate_count : DRIVER_OBJECT -> NTSTATUS * Z;
  enumerate_devices : DRIVER_OBJECT -> NTSTATUS * list Z;
  device_flags : Z -> Z;
  build_request : Z -> bool;
  config_read : Z -> Z -> Z -> option (NTSTATUS * list Z);
}.

Abbreviation M := (KM kernel).

Section operations.
Context {P : Pool} {A : SystemApi} {Ob : ObjectApi} {D : PciApi}.

(** *** One device *)

(** The status and the contents of the buffer.  The assignment in the condition
    makes the code wait in every case. *)
Definition QueryPciDeviceConfigurationSpace (DeviceObject Offset : Z) (Buffer : list Z)
  (BufferLength : Z) : M (NTSTATUS * list Z) :=
  if BufferLength =? 0 then mret (STATUS_BUFFER_TOO_SMALL, Buffer)
  else if negb (build_request DeviceObject) then mret (STATUS_INSUFFICIENT_RESOURCES, Buffer)
  else
    match config_read DeviceObject Offset BufferLength with
    | None => crash Deadlock
    | Some (status, bytes) =>
        Buffer ← lift (copy_to Buffer bytes);
        mret (status, Buffer)
    end.

Definition IsDeviceObjectValidPdo (DeviceObject : Z) : bool :=
  negb (Z.land (device_flags DeviceObject) DO_BUS_ENUMERATED_DEVICE =? 0).

(** [DeviceID] of a header. *)
Definition DeviceID (Configuration : list Z) : res Z :=
  load_field (mem_of 0 Configuration) PCI_COMMON_HEADER_ids 0 "DeviceID" 2.

Fixpoint flagged_loop (ids : list Z) (device_id : Z) : bool :=
  match ids with
  | [] => false
  | id :: ids => if device_id =? id then true else flagged_loop ids device_id
  end.

Definition IsPciConfigurationSpaceFlagged (Configuration : list Z) : res bool :=
  id ← DeviceID Configuration;
  Ok (flagged_loop (take (Z.to_nat FLAGGED_DEVICE_ID_COUNT) FLAGGED_DEVICE_IDS) id).

(** The status, and whether the device is logged as flagged. *)
Definition PciDeviceQueryCallback (DeviceObject : Z) : M (NTSTATUS * bool) :=
  '(status, header) ← QueryPciDeviceConfigurationSpace DeviceObject PCI_VENDOR_ID_OFFSET
    (replicate (Z.to_nat PCI_COMMON_HEADER_SIZE) 0) PCI_COMMON_HEADER_SIZE;
  if negb (NT_SUCCESS status) then mret (status, false)
  else
    flagged ← lift (IsPciConfigurationSpaceFlagged header);
    mret (status, flagged).

(** *** All devices *)

(** The references taken by [IoEnumerateDeviceObjectList]. *)
Definition reference_all (objects : list Z) : M unit :=
  mforeach (fun o => acquire (Reference o)) objects.

(** The status, the array's address and the objects in it. *)
Definition EnumerateDriverObjectDeviceObjects (DriverObject : option DRIVER_OBJECT)
  : M (NTSTATUS * Z * list Z) :=
  match DriverObject with
  | None => crash NullDereference
  | Some driver =>
      let '(status, object_count) := enumerate_count driver in
      if negb (status =? STATUS_BUFFER_TOO_SMALL) then mret (status, 0, [])
      else
        let buffer_size := u32 (object_count * 8) in
        buffer ← ExAllocatePool2 buffer_size POOL_TAG_HW;
        if buffer =? 0 then mret (STATUS_INSUFFICIENT_RESOURCES, 0, [])
        else
          let '(status, objects) := enumerate_devices driver in
          reference_all objects ≫= fun _ =>
          if negb (NT_SUCCESS status) then
            ExFreePoolWithTag buffer POOL_TAG_HW ≫= fun _ => mret (status, 0, [])
          else mret (status, buffer, objects)
  end.

(** The loop: the status so far and the devices flagged so far. *)
Fixpoint device_loop (devices : list Z) (status : NTSTATUS) (flagged : list Z)
  : M (NTSTATUS * list Z) :=
  match devices with
  | [] => mret (status, flagged)
  | current_device :: devices =>
      if negb (IsDeviceObjectValidPdo current_device) then
        release (Reference current_device) ≫= fun _ =>
        device_loop devices status flagged
      else
        '(status, is_flagged) ← PciDeviceQueryCallback current_device;
        release (Reference current_device) ≫= fun _ =>
        device_loop devices status (if is_flagged : bool then flagged ++ [current_device] else flagged)
  end.

Definition EnumeratePciDeviceObjects : M (NTSTATUS * list Z) :=
  '(status, pci_driver_object) ← GetDriverObjectByDriverName "\Driver\pci";
  if negb (NT_SUCCESS status) then mret (status, [])
  else
    '(status, pci_device_objects, devices) ← EnumerateDriverObjectDeviceObjects pci_driver_object;
    if negb (NT_SUCCESS status) then mret (status, [])
    else
      '(status, flagged) ← device_loop devices status [];
      when (negb (pci_device_objects =? 0)) (ExFreePoolWithTag pci_device_objects POOL_TAG_HW) ≫= fun _ =>
      mret (status, flagged).

Definition ValidatePciDevices : M (NTSTATUS * list Z) := EnumeratePciDeviceObjects.

End operations.

(** ** Specification *)

Definition znth_byte (l : list Z) (i : Z) : Z := default 0 (znth l i).

Section specification.
Context {P : Pool} {A : SystemApi} {Ob : ObjectApi} {D : PciApi}.

(** The request for the device is signalled when it is made. *)
Definition answers (d : Z) : bool :=
  negb (IsDeviceObjectValidPdo d) || negb (build_request d) ||
  bool_decide (is_Some (config_read d PCI_VENDOR_ID_OFFSET PCI_COMMON_HEADER_SIZE)).

(** What the request for a device ends with. *)
Definition query_result (d : Z) : NTSTATUS * list Z :=
  if build_request d
  then default (0, []) (config_read d PCI_VENDOR_ID_OFFSET PCI_COMMON_HEADER_SIZE)
  else (STATUS_INSUFFICIENT_RESOURCES, []).

(** The bus driver stores bytes, no more than asked for, and all of them when it
    succeeds. *)
Definition reads_header (d : Z) : Prop :=
  zlen (query_result d).2 <= PCI_COMMON_HEADER_SIZE /\
  (NT_SUCCESS (query_result d).1 = true -> zlen (query_result d).2 = PCI_COMMON_HEADER_SIZE).

(** A physical device whose id is one of the flagged ones. *)
Definition device_id (d : Z) : Z := znth_byte (query_result d).2 2 + 256 * znth_byte (query_result d).2 3.
Definition flagged_device (d : Z) : bool :=
  IsDeviceObjectValidPdo d && NT_SUCCESS (query_result d).1 &&
  bool_decide (device_id d ∈ [0x0666; 0xffff]).

(** The status after the loop: that of the last physical device. *)
Definition last_status (status : NTSTATUS) (devices : list Z) : NTSTATUS :=
  foldl (fun st d => if IsDeviceObjectValidPdo d then (query_result d).1 else st) status devices.

Definition references (objects : list Z) : gmultiset resource := list_to_set_disj (Reference <$> objects).

(** ** Lemmas *)

Lemma device_id_spec (header : list Z) :
  zlen header = PCI_COMMON_HEADER_SIZE ->
  IsPciConfigurationSpaceFlagged header
  = Ok (bool_decide (znth_byte header 2 + 256 * znth_byte header 3 ∈ [0x0666; 0xffff])).
Proof.
  intros Hl. unfold IsPciConfigurationSpaceFlagged, DeviceID, load_field, znth_byte.
  change (0 + offsetof PCI_COMMON_HEADER_ids "DeviceID") with 2. cbn [load]. unfold mem_of.
  change (2 - 0) with 2. change (2 + 1 - 0) with 3. change PCI_COMMON_HEADER_SIZE with 64 in Hl.
  destruct (proj1 (znth_Some header 2)) as [b2 ->]; [lia|].
  destruct (proj1 (znth_Some header 3)) as [b3 ->]; [lia|].
  change (default 0 (Some b2)) with b2. change (default 0 (Some b3)) with b3.
  cbn [mbind res_bind]. f_equal. rewrite Z.mul_0_r, Z.add_0_r.
  change (take _ FLAGGED_DEVICE_IDS) with [0x0666; 0xffff]. cbn [flagged_loop].
  generalize (b2 + 256 * b3). intros id. case_bool_decide as Hin.
  - apply elem_of_cons in Hin as [->|[->|[]%not_elem_of_nil]%elem_of_cons]; [done|].
    by destruct (_ =? 0x0666).
  - destruct (Z.eqb_spec id 0x0666); [set_solver|]. destruct (Z.eqb_spec id 0xffff); [set_solver|done].
Qed.

Lemma callback_spec d s :
  IsDeviceObjectValidPdo d = true -> reads_header d ->
  PciDeviceQueryCallback d s
  = if answers d then Ok (((query_result d).1, flagged_device d), s) else Crash Deadlock.
Proof.
  intros Hp [Hl Hs]. unfold PciDeviceQueryCallback, QueryPciDeviceConfigurationSpace, answers, flagged_device,
    device_id. rewrite Hp. unfold query_result in *. cbn [negb orb andb].
  change (PCI_COMMON_HEADER_SIZE =? 0) with false. cbn iota.
  destruct (build_request d); cbn [negb orb]; [|done].
  destruct (config_read d PCI_VENDOR_ID_OFFSET PCI_COMMON_HEADER_SIZE) as [[st bytes]|].
  2: { by rewrite bool_decide_false by by intros []. }
  rewrite bool_decide_true by by eexists. cbn [default fst snd id] in *.
  assert (length bytes <= 64)%nat.
  { unfold zlen in Hl. change PCI_COMMON_HEADER_SIZE with 64 in Hl. lia. }
  rewrite copy_to_ok by (rewrite length_replicate; done).
  erewrite KM_step by done. cbn beta iota. destruct (NT_SUCCESS st); cbn [negb andb]; [|done].
  specialize (Hs eq_refl). assert (length bytes = 64%nat) as H64.
  { unfold zlen in Hs. change PCI_COMMON_HEADER_SIZE with 64 in Hs. lia. }
  rewrite drop_ge, app_nil_r by (rewrite length_replicate, H64; done).
  by rewrite device_id_spec.
Qed.

Lemma references_cons d ds : references (d :: ds) = {[+ Reference d +]} ⊎ references ds.
Proof. done. Qed.

Lemma reference_all_spec objects : forall s,
  reference_all objects s = Ok (tt, set_held (held s ⊎ references objects) s).
Proof.
  induction objects as [|o os IH]; intros s.
  - unfold references. cbn. rewrite (right_id_L ∅ (⊎)). by destruct s.
  - unfold reference_all. cbn [mforeach]. erewrite KM_step by done. fold (reference_all os).
    rewrite IH, references_cons. by rewrite (assoc_L (⊎)).
Qed.

Lemma device_loop_spec h devices : forall status flagged s,
  Forall reads_header devices -> held s = h ⊎ references devices ->
  device_loop devices status flagged s
  = if forallb answers devices
    then Ok ((last_status status devices, flagged ++ filter (fun d => flagged_device d = true) devices),
             set_held h s)
    else Crash Deadlock.
Proof.
  induction devices as [|d ds IH]; intros status flagged s Hr Hh; cbn [device_loop forallb].
  - cbn. rewrite app_nil_r. unfold references in Hh. cbn in Hh. rewrite (right_id_L ∅ (⊎)) in Hh.
    rewrite <- Hh. by destruct s.
  - apply Forall_cons in Hr as [Hd Hr]. rewrite references_cons in Hh.
    assert (held s = (h ⊎ references ds) ⊎ {[+ Reference d +]}) as Hh'.
    { rewrite Hh. clear. multiset_solver. }
    destruct (IsDeviceObjectValidPdo d) eqn:Hp; cbn [negb].
    + destruct (answers d) eqn:Ha; cbn [andb].
      * erewrite KM_step by (by rewrite callback_spec, Ha). cbn beta iota.
        rewrite (KM_step _ _ _ _ _ (release_last _ _ _ Hh')).
        rewrite (IH _ _ _ Hr) by done. unfold last_status. cbn [foldl]. rewrite Hp, filter_cons.
        destruct (forallb answers ds); [|done]. cbn [held set_held].
        destruct (flagged_device d); case_decide; try done. by rewrite <- (assoc_L (++)).
      * unfold mbind, KM_bind. by rewrite callback_spec, Ha.
    + assert (answers d = true) as -> by (unfold answers; by rewrite Hp). cbn [andb].
      rewrite (KM_step _ _ _ _ _ (release_last _ _ _ Hh')). rewrite (IH _ _ _ Hr) by done.
      unfold last_status. cbn [foldl]. rewrite Hp, filter_cons, decide_False; [done|].
      unfold flagged_device. by rewrite Hp.
Qed.

End specification.

(** ** Properties *)

(** C38: the scan of PCI devices.  When the bus driver is found and memory
    suffices, the scan flags exactly the physical devices whose configuration
    space can be read and whose device id is one of the flagged ones, and gives
    back the array and the reference on every device object; its status is that
    of the last device read.  It waits forever when a request fails without being
    signalled, because the condition that should test for a pending request
    assigns.  When the second enumeration fails, the references on the objects it
    stored are lost. *)
Theorem pci_devices_checked {P : Pool} {A : SystemApi} {Ob : ObjectApi} {D : PciApi} s driver count st objects :
  kernel_wf s -> NT_SUCCESS ZwOpenDirectoryObject.1 = true -> NT_SUCCESS ObReferenceObjectByHandle.1 = true ->
  head (filter (fun d => DriverName d = "\Driver\pci"%string) directory_drivers) = Some driver ->
  enumerate_count driver = (STATUS_BUFFER_TOO_SMALL, count) ->
  enumerate_devices driver = (st, objects) -> Forall reads_header objects ->
  pool_grants (pool_requests s) = true ->
  if NT_SUCCESS st && negb (forallb answers objects) then ValidatePciDevices s = Crash Deadlock
  else exists s', ValidatePciDevices s =
      Ok ((if NT_SUCCESS st then last_status st objects else st,
           if NT_SUCCESS st then filter (fun d => flagged_device d = true) objects else []), s') /\
    held s' = held s ⊎ (if NT_SUCCESS st then ∅ else references objects) /\ sent s' = sent s.
Proof.
  intros Hwf H1 H2 Hd Hc He Hr Hg. unfold ValidatePciDevices, EnumeratePciDeviceObjects.
  destruct (driver_lookup_by_name s "\Driver\pci") as (status & found & Hl & Hf & _).
  destruct (Hf H1 H2) as [-> ->]. rewrite Hd in Hl. rewrite (KM_step _ _ _ _ _ Hl).
  change (negb (NT_SUCCESS STATUS_SUCCESS)) with false. cbn iota beta.
  unfold EnumerateDriverObjectDeviceObjects. rewrite Hc. cbn [Z.eqb Pos.eqb STATUS_BUFFER_TOO_SMALL negb].
  destruct (alloc_spec s (u32 (count * 8)) POOL_TAG_HW Hwf) as (p & s1 & Ha & _ & Hs1 & _ & _ & Hp).
  rewrite Hg in Hp. destruct Hp as [Hp Hh1].
  assert (exists s2, (reference_all objects ≫= fun _ =>
    if negb (NT_SUCCESS st) then ExFreePoolWithTag p POOL_TAG_HW ≫= fun _ => mret (st, 0, [])
    else mret (st, p, objects)) s1 =
      Ok (if NT_SUCCESS st then (st, p, objects) else (st, 0, []), s2) /\
    held s2 = (if NT_SUCCESS st then (held s ⊎ {[+ Block p POOL_TAG_HW +]}) ⊎ references objects
               else held s ⊎ references objects) /\ sent s2 = sent s) as (s2 & Hs2 & Hh2 & Hsent2).
  { rewrite (KM_step _ _ _ _ _ (reference_all_spec objects s1)).
    destruct (NT_SUCCESS st); cbn [negb].
    - eexists. split; [done|]. cbn [held sent set_held]. rewrite Hh1. by split.
    - erewrite KM_step.
      2: { apply (release_last _ (held s ⊎ references objects)). cbn [held set_held]. rewrite Hh1.
           clear. multiset_solver. }
      eexists. split; [done|]. by split. }
  erewrite (KM_step _ _ s).
  2: { rewrite (KM_step _ _ _ _ _ Ha). destruct (Z.eqb_spec p 0); [lia|]. rewrite He. exact Hs2. }
  destruct (NT_SUCCESS st) eqn:Hst; cbn beta iota; rewrite Hst; cbn [negb andb].
  - pose proof (device_loop_spec (held s ⊎ {[+ Block p POOL_TAG_HW +]}) objects st [] s2 Hr Hh2) as Hloop.
    destruct (forallb answers objects); cbn [negb].
    + rewrite (KM_step _ _ _ _ _ Hloop). cbn beta iota. destruct (Z.eqb_spec p 0); [lia|]. cbn [negb when].
      erewrite KM_step by (by apply (release_last _ (held s))).
      eexists. split; [done|]. cbn [held sent set_held]. by rewrite (right_id_L ∅ (⊎)).
    + unfold mbind at 1, KM_bind at 1. by rewrite Hloop.
  - exists s2. by split.
Qed.

(** ** Witness *)

(** The bus driver with three devices: a flagged physical device, one that is not
    flagged, and a functional one. *)
Definition pci_driver : DRIVER_OBJECT := DriverObject 0x7000 0x1000 "\Driver\pci" 0x60 0.

Definition pci_directory : ObjectApi := {|
  ZwOpenDirectoryObject := (STATUS_SUCCESS, 0x40);
  ObReferenceObjectByHandle := (STATUS_SUCCESS, 0x44);
  HashBuckets := [[]; [pci_driver]];
  RtlUnicodeStringToAnsiString := bytes_of_string |}.

Definition pci_header (id : Z) : list Z := [0x86; 0x80] ++ le_bytes 2 id ++ replicate 60 0.

Definition pci_bus : PciApi := {|
  enumerate_count := fun _ => (STATUS_BUFFER_TOO_SMALL, 3);
  enumerate_devices := fun _ => (STATUS_SUCCESS, [0x10; 0x20; 0x30]);
  device_flags := fun d => if d =? 0x30 then 0 else 0x1000;
  build_request := fun _ => true;
  config_read := fun d _ _ => Some (STATUS_SUCCESS, pci_header (if d =? 0x10 then 0x0666 else 0x1234)) |}.

Definition pci_kernel : kernel := Kernel ∅ 0x1000 0 [] 0.

Lemma pci_devices_checked_witness :
  exists s', ValidatePciDevices (P := fun _ => true) (Ob := pci_directory) (D := pci_bus) pci_kernel
      = Ok ((STATUS_SUCCESS, [0x10]), s') /\ held s' = ∅ ⊎ ∅ /\ sent s' = [].
Proof.
  exact (pci_devices_checked (P := fun _ => true) (A := sample_api (fun _ => 0)) (Ob := pci_directory)
    (D := pci_bus) pci_kernel pci_driver 3 STATUS_SUCCESS [0x10; 0x20; 0x30] eq_refl eq_refl eq_refl eq_refl
    eq_refl eq_refl
    (bool_decide_unpack (Forall (reads_header (D := pci_bus)) [0x10; 0x20; 0x30]) I) eq_refl).
Defined.
