(* ===== verification/Hypervisor.v ===== *)
(** * hv.c, arch.asm, integrity.c: detecting a hypervisor

    The counter APERF is read around an instruction that traps, the caches are
    dropped with INVD, and the time to read the first byte of exported routines is
    compared: a page hooked through the second level of address translation takes
    longer.  The settings of the processor the checks change are part of the
    state. *)

From S2P Require Import Prelude Layout Irp Structs Kernel Modules.

(** ** Data *)

Definition HIGH_LEVEL : Z := 15.
Definition IA32_APERF_MSR : Z := 0x000000E8.
Definition EPT_CHECK_NUM_ITERATIONS : nat := 30.
Definition EPT_CONTROL_FUNCTIONS_COUNT : Z := 4.
Definition EPT_PROTECTED_FUNCTIONS_COUNT : Z := 2.
Definition EPT_EXECUTION_TIME_MULTIPLIER : Z := 10.

Definition CONTROL_FUNCTIONS : list string :=
  ["RtlAssert"; "PsAcquireSiloHardReference"; "PsDereferencePrimaryToken"; "ZwCommitEnlistment"]%string.
Definition PROTECTED_FUNCTIONS : list string := ["ExAllocatePoolWithTag"; "MmCopyMemory"]%string.

Definition KPCR_KPRCB_OFFSET : Z := 0x180.
Definition KPCRB_IDLE_THREAD_OFFSET : Z := 0x018.
Definition KTHREAD_IDLE_TIME_OFFSET : Z := 0x28c.
Definition KPCRB_KERNEL_TIME_OFFSET : Z := 0x7e84.
Definition KPCRB_USER_TIME_OFFSET : Z := 0x7e88.

(** The settings of the processor, how often the counter has been read, and the
    two global arrays. *)
Record processor := Processor {
  irql : Z;
  interrupts : bool;
  affinity : Z;
  readings : nat;
  CONTROL_FUNCTION_ADDRESSES : list Z;
  PROTECTED_FUNCTION_ADDRESSES : list Z;
}.

Definition set_irql (i : Z) (s : processor) : processor :=
  Processor i (interrupts s) (affinity s) (readings s) (CONTROL_FUNCTION_ADDRESSES s) (PROTECTED_FUNCTION_ADDRESSES s).
Definition set_interrupts (b : bool) (s : processor) : processor :=
  Processor (irql s) b (affinity s) (readings s) (CONTROL_FUNCTION_ADDRESSES s) (PROTECTED_FUNCTION_ADDRESSES s).
Definition set_affinity (a : Z) (s : processor) : processor :=
  Processor (irql s) (interrupts s) a (readings s) (CONTROL_FUNCTION_ADDRESSES s) (PROTECTED_FUNCTION_ADDRESSES s).
Definition set_readings (n : nat) (s : processor) : processor :=
  Processor (irql s) (interrupts s) (affinity s) n (CONTROL_FUNCTION_ADDRESSES s) (PROTECTED_FUNCTION_ADDRESSES s).
Definition set_control (l : list Z) (s : processor) : processor :=
  Processor (irql s) (interrupts s) (affinity s) (readings s) l (PROTECTED_FUNCTION_ADDRESSES s).
Definition set_protected (l : list Z) (s : processor) : processor :=
  Processor (irql s) (interrupts s) (affinity s) (readings s) (CONTROL_FUNCTION_ADDRESSES s) l.

(** The processor: the [n]-th reading of APERF; the processor the thread runs on,
    and the one it runs on after yielding [n] times under an affinity; the base of
    the processor's control region; whether INVD drops the caches without writing
    them back. *)
Class ProcessorApi := {
  aperf : nat -> Z;
  current_processor : Z;
  processor_after : Z -> nat -> Z;
  gs_base : Z;
  invd_discards_caches : bool;
}.

Abbreviation M := (KM processor).

(** ** The processor's instructions *)

Definition readcr8 : M Z := gets irql.
Definition writecr8 (i : Z) : M unit := modify (set_irql i).
Definition disable : M unit := modify (set_interrupts false).
Definition enable : M unit := modify (set_interrupts true).
Definition KeSetSystemAffinityThreadEx (a : Z) : M Z :=
  old ← gets affinity;
  modify (set_affinity a) ≫= fun _ => mret old.
Definition KeRevertToUserAffinityThreadEx (a : Z) : M unit := modify (set_affinity a).

Section operations.
Context {A : SystemApi} {C : ProcessorApi}.

(** [__readmsr(IA32_APERF_MSR)]. *)
Definition read_aperf : M Z :=
  n ← gets readings;
  modify (set_readings (S n)) ≫= fun _ => mret (aperf n).

(** *** hv.c *)

Definition APERFMsrTimingCheck : M bool :=
  old_affinity ← KeSetSystemAffinityThreadEx (u64 (Z.shiftl 1 current_processor));
  old_irql ← readcr8;
  writecr8 HIGH_LEVEL ≫= fun _ =>
  disable ≫= fun _ =>
  before ← read_aperf;
  let aperf_before := u64 (Z.shiftl before 32) in
  after ← read_aperf;
  let aperf_after := u64 (Z.shiftl after 32) in
  enable ≫= fun _ =>
  writecr8 old_irql ≫= fun _ =>
  KeRevertToUserAffinityThreadEx old_affinity ≫= fun _ =>
  let aperf_delta := u64 (aperf_after - aperf_before) in
  mret (aperf_delta =? 0).

(** *** arch.asm

    The stack slot as the caches and as memory hold it. *)
Record slot := Slot { cached : option Z; backing : Z }.
Definition slot_value (l : slot) : Z := default (backing l) (cached l).
Definition slot_store (x : Z) (l : slot) : slot := Slot (Some x) (backing l).
(** The low byte replaced. *)
Definition slot_store_byte (x : Z) (l : slot) : slot :=
  slot_store (slot_value l - slot_value l mod 256 + x) l.
Definition wbinvd (l : slot) : slot := Slot None (slot_value l).
Definition invd (l : slot) : slot := if invd_discards_caches then Slot None (backing l) else wbinvd l.

Definition TestINVDEmulation : M Z :=
  flags ← gets interrupts;
  disable ≫= fun _ =>
  let l := slot_store 1 (Slot None 0) in
  let l := wbinvd l in
  let l := slot_store_byte 0 l in
  let l := invd l in
  let rax := Z.lxor (slot_value l) 1 in
  modify (set_interrupts flags) ≫= fun _ =>
  mret rax.

Definition PerformVirtualizationDetection (Irp : option IRP) : M (NTSTATUS * option IRP) :=
  '(status, Irp) ← lift (ValidateIrpOutputBuffer Irp (sizeof HYPERVISOR_DETECTION_REPORT));
  if negb (NT_SUCCESS status) then mret (status, Irp)
  else
    timing ← APERFMsrTimingCheck;
    emulation ← TestINVDEmulation;
    match Irp with
    | None => crash NullDereference
    | Some irp =>
        let irp := set_information (sizeof HYPERVISOR_DETECTION_REPORT) irp in
        buffer ← lift (copy_to (SystemBuffer irp)
                   (le_bytes 4 (if timing : bool then 1 else 0) ++ le_bytes 4 emulation));
        mret (STATUS_SUCCESS, Some (set_buffer buffer irp))
    end.

(** *** integrity.c: read times of routines *)

Definition MeasureInstructionRead (InstructionAddress : Z) : M Z :=
  start ← read_aperf;
  match system_memory InstructionAddress with
  | None => crash UnmappedRead
  | Some _ =>
      after ← read_aperf;
      mret (u64 (u64 (Z.shiftl after 32) - u64 (Z.shiftl start 32)))
  end.

Fixpoint measure_loop (Address : Z) (iterations : nat) (read_average : Z) : M Z :=
  match iterations with
  | O => mret read_average
  | S iterations =>
      t ← MeasureInstructionRead Address;
      measure_loop Address iterations (u64 (read_average + t))
  end.

Definition MeasureReads (Address : Z) (Count : nat) : M Z :=
  _ ← MeasureInstructionRead Address;
  old_irql ← readcr8;
  writecr8 HIGH_LEVEL ≫= fun _ =>
  disable ≫= fun _ =>
  read_average ← measure_loop Address Count 0;
  enable ≫= fun _ =>
  writecr8 old_irql ≫= fun _ =>
  if (Count =? 0)%nat then crash DivideByZero else mret (read_average / Z.of_nat Count).

(** The status and the new value of the variable [AverageTime] points to. *)
Definition GetAverageReadTimeAtRoutine (RoutineAddress AverageTime : Z) : M (NTSTATUS * Z) :=
  if RoutineAddress =? 0 then mret (STATUS_UNSUCCESSFUL, AverageTime)
  else
    t ← MeasureReads RoutineAddress EPT_CHECK_NUM_ITERATIONS;
    mret (if t =? 0 then STATUS_UNSUCCESSFUL else STATUS_SUCCESS, t).

(** One loop of [InitiateEptFunctionAddressArrays]: false when a routine is not
    found, whose address is stored all the same. *)
Fixpoint resolve_routines (names : list string) (index : Z) (addresses : list Z) : bool * list Z :=
  match names with
  | [] => (true, addresses)
  | name :: names =>
      let a := MmGetSystemRoutineAddress name in
      let addresses := zset addresses index a in
      if a =? 0 then (false, addresses) else resolve_routines names (index + 1) addresses
  end.

Definition InitiateEptFunctionAddressArrays : M NTSTATUS :=
  control ← gets CONTROL_FUNCTION_ADDRESSES;
  let '(found, control) := resolve_routines CONTROL_FUNCTIONS 0 control in
  modify (set_control control) ≫= fun _ =>
  if negb found then mret STATUS_UNSUCCESSFUL
  else
    protected ← gets PROTECTED_FUNCTION_ADDRESSES;
    let '(found, protected) := resolve_routines PROTECTED_FUNCTIONS 0 protected in
    modify (set_protected protected) ≫= fun _ =>
    mret (if negb found then STATUS_UNSUCCESSFUL else STATUS_SUCCESS).

(** The loop over the control routines: failures, last time and sum of the times. *)
Fixpoint control_loop (addresses : list Z) (control_fails instruction_time control_time_sum : Z)
  : M (Z * Z * Z) :=
  match addresses with
  | [] => mret (control_fails, instruction_time, control_time_sum)
  | a :: addresses =>
      '(status, instruction_time) ← GetAverageReadTimeAtRoutine a instruction_time;
      if negb (NT_SUCCESS status)
      then control_loop addresses (u32 (control_fails + 1)) instruction_time control_time_sum
      else control_loop addresses control_fails instruction_time (u64 (control_time_sum + instruction_time))
  end.

(** The loop over the protected routines: the status, and the routines logged as
    hooked. *)
Fixpoint protected_loop (addresses : list Z) (control_average instruction_time : Z)
  (status : NTSTATUS) (hooked : list Z) : M (NTSTATUS * list Z) :=
  match addresses with
  | [] => mret (status, hooked)
  | a :: addresses =>
      '(status, instruction_time) ← GetAverageReadTimeAtRoutine a instruction_time;
      if negb (NT_SUCCESS status)
      then protected_loop addresses control_average instruction_time status hooked
      else
        protected_loop addresses control_average instruction_time status
          (if u64 (control_average * EPT_EXECUTION_TIME_MULTIPLIER) <? instruction_time
           then hooked ++ [a] else hooked)
  end.

Definition DetectEptHooksInKeyFunctions : M (NTSTATUS * list Z) :=
  status ← InitiateEptFunctionAddressArrays;
  if negb (NT_SUCCESS status) then mret (status, [])
  else
    control ← gets CONTROL_FUNCTION_ADDRESSES;
    '(control_fails, instruction_time, control_time_sum) ← control_loop control 0 0 0;
    if control_time_sum =? 0 then mret (STATUS_UNSUCCESSFUL, [])
    else
      let counted := u32 (EPT_CONTROL_FUNCTIONS_COUNT - control_fails) in
      if counted =? 0 then crash DivideByZero
      else
        let control_average := control_time_sum / counted in
        if control_average =? 0 then mret (STATUS_UNSUCCESSFUL, [])
        else
          protected ← gets PROTECTED_FUNCTION_ADDRESSES;
          protected_loop protected control_average instruction_time status [].

(** *** integrity.c: usage of a core *)

(** The loop that yields until the thread runs on [Core]. *)
Fixpoint wait_for_core (fuel : nat) (Core : Z) (yields : nat) : M unit :=
  match fuel with
  | O => crash OutOfFuel
  | S fuel =>
      a ← gets affinity;
      if processor_after a yields =? Core then mret tt
      else wait_for_core fuel Core (S yields)
  end.

Definition CalculateCpuCoreUsage (fuel : nat) (Core : Z) : M Z :=
  _ ← KeSetSystemAffinityThreadEx (u64 (Z.shiftl 1 Core));
  wait_for_core fuel Core 0 ≫= fun _ =>
  let kpcr := gs_base in
  let kpcrb := u64 (kpcr + KPCR_KPRCB_OFFSET) in
  idle_thread ← lift (load64 system_memory (u64 (kpcrb + KPCRB_IDLE_THREAD_OFFSET)));
  idle_time ← lift (load32 system_memory (u64 (idle_thread + KTHREAD_IDLE_TIME_OFFSET)));
  kernel_time ← lift (load32 system_memory (u64 (kpcrb + KPCRB_KERNEL_TIME_OFFSET)));
  user_time ← lift (load32 system_memory (u64 (kpcrb + KPCRB_USER_TIME_OFFSET)));
  let total := u32 (kernel_time + user_time) in
  if total =? 0 then crash DivideByZero
  else mret (u32 (100 - u32 (u64 (idle_time * 100) / total))).

End operations.

(** ** Specification *)

Section specification.
Context {A : SystemApi} {C : ProcessorApi}.

(** The cycles between two readings of the counter, of which the code keeps the low
    half. *)
Definition cycles (n : nat) : Z := (aperf (S n) - aperf n) mod 2 ^ 32.

(** The cycles of [k] measured reads, the first at reading [n]. *)
Fixpoint total_cycles (n k : nat) : Z :=
  match k with
  | O => 0
  | S k => cycles n + total_cycles (n + 2) k
  end.

(** A routine whose measurement starts at reading [n]; the first read is not
    counted. *)
Definition routine_cycles (n : nat) : Z := total_cycles (n + 2) EPT_CHECK_NUM_ITERATIONS.

(** The readings the measurement of a routine takes. *)
Definition ROUTINE_READINGS : nat := 62.

(** [k] routines measured one after the other. *)
Fixpoint samples (n k : nat) : list Z :=
  match k with
  | O => []
  | S k => routine_cycles n :: samples (n + ROUTINE_READINGS) k
  end.

(** The time the code computes for a routine. *)
Definition time (c : Z) : Z := 2 ^ 32 * c / 30.

Definition sum (l : list Z) : Z := foldr Z.add 0 l.
(** How many routines could be measured. *)
Definition measured (l : list Z) : Z := zlen (filter (fun c => c <> 0) l).

(** The routines can be read, and no measured read takes [2 ^ 27] cycles. *)
Definition quick (n : nat) : Prop := forall i, cycles (n + 2 * i) < 2 ^ 27.
Definition present (a : Z) : Prop := a <> 0 /\ is_Some (system_memory a).

(** ** Lemmas *)

Lemma shifted_difference a b :
  u64 (u64 (Z.shiftl b 32) - u64 (Z.shiftl a 32)) = 2 ^ 32 * ((b - a) mod 2 ^ 32).
Proof.
  rewrite !Z.shiftl_mul_pow2 by lia. unfold u64. rewrite <- Zminus_mod, <- Z.mul_sub_distr_r.
  change (2 ^ 64) with (2 ^ 32 * 2 ^ 32) at 1. rewrite Z.mul_mod_distr_r by lia. lia.
Qed.

Lemma cycles_range n : 0 <= cycles n < 2 ^ 32.
Proof. unfold cycles. apply Z.mod_pos_bound. lia. Qed.

Lemma total_cycles_range n k : (forall i, (i < k)%nat -> cycles (n + 2 * i) < 2 ^ 27) ->
  0 <= total_cycles n k <= Z.of_nat k * 2 ^ 27.
Proof.
  revert n. induction k as [|k IH]; intros n H; cbn [total_cycles]; [lia|].
  pose proof (H 0%nat ltac:(lia)) as H0. rewrite Nat.add_0_r in H0.
  pose proof (cycles_range n). specialize (IH (n + 2)%nat).
  assert (0 <= total_cycles (n + 2) k <= Z.of_nat k * 2 ^ 27); [|lia].
  apply IH. intros i Hi. replace (n + 2 + 2 * i)%nat with (n + 2 * S i)%nat by lia. apply H. lia.
Qed.

Lemma routine_cycles_range n k : quick n -> 0 <= routine_cycles (n + ROUTINE_READINGS * k) < 2 ^ 32.
Proof.
  intros H. assert (0 <= routine_cycles (n + ROUTINE_READINGS * k) <= 30 * 2 ^ 27); [|lia].
  apply (total_cycles_range _ 30). intros i _. unfold ROUTINE_READINGS.
  replace (n + 62 * k + 2 + 2 * i)%nat with (n + 2 * (31 * k + 1 + i))%nat by lia. apply H.
Qed.

Lemma quick_next n : quick n -> quick (n + ROUTINE_READINGS).
Proof.
  intros H i. unfold ROUTINE_READINGS. replace (n + 62 + 2 * i)%nat with (n + 2 * (31 + i))%nat by lia. apply H.
Qed.

Lemma samples_range k : forall n, quick n -> Forall (fun c => 0 <= c < 2 ^ 32) (samples n k).
Proof.
  induction k as [|k IH]; intros n H; constructor.
  - pose proof (routine_cycles_range n 0 H) as Hr. by rewrite Nat.mul_0_r, Nat.add_0_r in Hr.
  - by apply IH, quick_next.
Qed.

Lemma read_aperf_spec s : read_aperf s = Ok (aperf (readings s), set_readings (S (readings s)) s).
Proof. done. Qed.

Lemma measure_instruction_spec a s :
  is_Some (system_memory a) ->
  MeasureInstructionRead a s = Ok (2 ^ 32 * cycles (readings s), set_readings (readings s + 2) s).
Proof.
  intros [b Hb]. unfold MeasureInstructionRead.
  rewrite (KM_step _ _ _ _ _ (read_aperf_spec s)). rewrite Hb.
  rewrite (KM_step _ _ _ _ _ (read_aperf_spec _)). rewrite shifted_difference.
  replace (readings s + 2)%nat with (S (S (readings s))) by lia. done.
Qed.

Lemma measure_loop_spec a k : forall s acc,
  is_Some (system_memory a) -> is_u64 acc ->
  measure_loop a k acc s
  = Ok (u64 (acc + 2 ^ 32 * total_cycles (readings s) k), set_readings (readings s + 2 * k) s).
Proof.
  induction k as [|k IH]; intros s acc Ha Hacc; cbn [measure_loop total_cycles].
  - rewrite Z.mul_0_r, !Z.add_0_r, Nat.mul_0_r, Nat.add_0_r, u64_small by done. by destruct s.
  - rewrite (KM_step _ _ _ _ _ (measure_instruction_spec a s Ha)), IH by (done || apply u64_range).
    cbn [readings set_readings]. f_equal. f_equal.
    + unfold u64. rewrite Zplus_mod_idemp_l. f_equal. lia.
    + unfold set_readings. cbn. f_equal. lia.
Qed.

(** The state after the measurement of [k] routines. *)
Definition after_measuring (k : nat) (s : processor) : processor :=
  set_readings (readings s + ROUTINE_READINGS * k) (set_interrupts true s).

Lemma average_spec a t s :
  present a -> quick (readings s) ->
  GetAverageReadTimeAtRoutine a t s
  = Ok ((if time (routine_cycles (readings s)) =? 0 then STATUS_UNSUCCESSFUL else STATUS_SUCCESS,
         time (routine_cycles (readings s))), after_measuring 1 s).
Proof.
  intros [Ha Hm] Hq. unfold GetAverageReadTimeAtRoutine. rewrite (proj2 (Z.eqb_neq a 0) Ha).
  assert (MeasureReads a EPT_CHECK_NUM_ITERATIONS s
    = Ok (time (routine_cycles (readings s)), after_measuring 1 s)) as H; [|by rewrite (KM_step _ _ _ _ _ H)].
  unfold MeasureReads. rewrite (KM_step _ _ _ _ _ (measure_instruction_spec a s Hm)).
  unfold readcr8, writecr8, disable, enable. erewrite KM_step by done. erewrite KM_step by done.
  erewrite KM_step by done. erewrite KM_step by (apply measure_loop_spec; [done|unfold is_u64; lia]).
  erewrite KM_step by done. erewrite KM_step by done.
  change (EPT_CHECK_NUM_ITERATIONS =? 0)%nat with false. cbn iota. cbn [readings set_readings set_interrupts set_irql].
  unfold time, routine_cycles, after_measuring, ROUTINE_READINGS.
  pose proof (routine_cycles_range (readings s) 0 Hq) as Hr.
  rewrite Nat.mul_0_r, Nat.add_0_r in Hr. unfold routine_cycles in Hr.
  change (Z.of_nat EPT_CHECK_NUM_ITERATIONS) with 30. rewrite Z.add_0_l.
  generalize dependent (total_cycles (readings s + 2) EPT_CHECK_NUM_ITERATIONS). intros c Hr.
  rewrite u64_small by lia. change EPT_CHECK_NUM_ITERATIONS with 30%nat.
  unfold set_readings, set_interrupts, set_irql. destruct s as [? ? ? n ? ?]; cbn [irql interrupts affinity readings
    CONTROL_FUNCTION_ADDRESSES PROTECTED_FUNCTION_ADDRESSES].
  by replace (n + 2 + 2 * 30)%nat with (n + 62 * 1)%nat by lia.
Qed.

Lemma after_measuring_readings k s : readings (after_measuring k s) = (readings s + ROUTINE_READINGS * k)%nat.
Proof. done. Qed.

Lemma after_measuring_S k s : after_measuring k (after_measuring 1 s) = after_measuring (S k) s.
Proof.
  unfold after_measuring, set_readings, set_interrupts, ROUTINE_READINGS.
  cbn [irql interrupts affinity readings CONTROL_FUNCTION_ADDRESSES PROTECTED_FUNCTION_ADDRESSES].
  by replace (readings s + 62 * 1 + 62 * k)%nat with (readings s + 62 * S k)%nat by lia.
Qed.

Lemma time_nonneg c : 0 <= c -> 0 <= time c.
Proof. unfold time. intros. apply Z.div_pos; lia. Qed.

Lemma time_zero c : 0 <= c -> time c = 0 <-> c = 0.
Proof. unfold time. intros. Z.div_mod_to_equations. lia. Qed.

(** Equality of two results of the loop over the control routines. *)
Ltac triple_lia :=
  match goal with
  | |- Ok ((?a, _, ?b), _) = Ok ((?c, _, ?d), _) => replace a with c by lia; replace b with d by lia; done
  end.

Lemma control_loop_spec addresses : forall s fails t acc,
  Forall present addresses -> quick (readings s) -> addresses <> [] ->
  let l := samples (readings s) (length addresses) in
  0 <= fails -> fails + zlen addresses < 2 ^ 32 -> 0 <= acc -> acc + sum (time <$> l) < 2 ^ 64 ->
  exists t', control_loop addresses fails t acc s
    = Ok ((fails + (zlen l - measured l), t', acc + sum (time <$> l)), after_measuring (length addresses) s).
Proof.
  induction addresses as [|a as_ IH]; intros s fails t acc Hp Hq Hne l Hf Hfb Hacc Hb; [done|]. clear Hne.
  apply Forall_cons in Hp as [Ha Hp]. cbn [control_loop].
  rewrite (KM_step _ _ _ _ _ (average_spec a t s Ha Hq)). cbn beta iota.
  pose proof (routine_cycles_range (readings s) 0 Hq) as Hr. rewrite Nat.mul_0_r, Nat.add_0_r in Hr.
  subst l. cbn [length samples fmap list_fmap] in *. unfold sum in Hb |- *. cbn [foldr] in *. fold (sum (time <$>
    samples (readings s + ROUTINE_READINGS) (length as_))) in Hb |- *.
  set (c := routine_cycles (readings s)) in *. set (l := samples _ _) in *.
  pose proof (quick_next _ Hq) as Hq'. pose proof (samples_range (length as_) _ Hq') as Hl. fold l in Hl.
  assert (0 <= sum (time <$> l)).
  { clear -Hl. induction Hl as [|x xs Hx _ IH]; unfold sum; cbn; [lia|].
    pose proof (time_nonneg x ltac:(lia)). unfold sum in IH. lia. }
  pose proof (time_nonneg c ltac:(lia)) as Ht. pose proof (time_zero c ltac:(lia)) as Hz.
  rewrite zlen_cons in Hfb. pose proof (zlen_nonneg as_).
  assert (forall fails' acc', 0 <= fails' -> fails' + zlen as_ < 2 ^ 32 -> 0 <= acc' ->
    acc' + sum (time <$> l) < 2 ^ 64 -> exists t', control_loop as_ fails' (time c) acc' (after_measuring 1 s)
      = Ok ((fails' + (zlen l - measured l), t', acc' + sum (time <$> l)),
            after_measuring (S (length as_)) s)) as Hrec.
  { intros fails' acc' H1 H2 H3 H4. destruct as_ as [|b bs].
    - exists (time c). cbn. unfold measured, sum, zlen. cbn. unfold after_measuring. by rewrite !Z.add_0_r.
    - destruct (IH (after_measuring 1 s) fails' (time c) acc' Hp) as [t' Ht']; try done.
      exists t'. rewrite Ht', after_measuring_S. done. }
  unfold measured. rewrite filter_cons, zlen_cons.
  destruct (Z.eqb_spec (time c) 0) as [E0|E0].
  - change (negb (NT_SUCCESS STATUS_UNSUCCESSFUL)) with true. cbn iota.
    rewrite decide_False by tauto. rewrite u32_small by lia. rewrite E0 in *.
    destruct (Hrec (fails + 1) acc) as [t' Ht']; [lia..|]. exists t'. rewrite Ht'. unfold measured. triple_lia.
  - change (negb (NT_SUCCESS STATUS_SUCCESS)) with false. cbn iota.
    rewrite decide_True by tauto. rewrite u64_small by lia. rewrite zlen_cons.
    destruct (Hrec fails (acc + time c)) as [t' Ht']; [lia..|]. exists t'. rewrite Ht'. unfold measured. triple_lia.
Qed.

(** What the times of the control routines add up to. *)
Lemma sum_time_bounds l : Forall (fun c => 0 <= c < 2 ^ 32) l ->
  0 <= measured l <= zlen l /\ measured l <= sum l /\
  sum (time <$> l) <= measured l * 2 ^ 60 /\ measured l * 143165576 <= sum (time <$> l) /\
  2 ^ 32 * sum l - 29 * zlen l <= 30 * sum (time <$> l) <= 2 ^ 32 * sum l /\
  (measured l = 0 -> sum l = 0).
Proof.
  induction 1 as [|c l Hc Hl IH]; [by cbn|].
  unfold measured in *. rewrite filter_cons, zlen_cons, fmap_cons.
  change (sum (c :: l)) with (c + sum l). change (sum (time c :: (time <$> l))) with (time c + sum (time <$> l)).
  assert (2 ^ 32 * c - 29 <= 30 * time c <= 2 ^ 32 * c) by (unfold time; Z.div_mod_to_equations; lia).
  case_decide as H0; [rewrite zlen_cons; lia|].
  assert (c = 0) as -> by (destruct (decide (c = 0)); tauto). lia.
Qed.

(** The comparison the code makes is that of the averages, up to equality. *)
Lemma comparison_exact l c :
  Forall (fun c => 0 <= c < 2 ^ 32) l -> zlen l = 4 -> 0 <= c < 2 ^ 32 -> 0 < sum l ->
  let average := sum (time <$> l) / measured l in
  0 < measured l /\ 0 < average /\ average * 10 < 2 ^ 64 /\
  (10 * sum l < c * measured l -> average * 10 < time c) /\
  (c * measured l < 10 * sum l -> time c <= average * 10).
Proof.
  intros Hl H4 Hc Hs average. pose proof (sum_time_bounds l Hl) as (Hm & _ & Hu & Hlo & Ht & H0).
  assert (0 < measured l) as Hpos by lia. rewrite H4 in Hm, Ht.
  assert (2 ^ 32 * c - 29 <= 30 * time c <= 2 ^ 32 * c) as Htc by (unfold time; Z.div_mod_to_equations; lia).
  assert (average * measured l <= sum (time <$> l) < average * measured l + measured l) as Ha.
  { unfold average. pose proof (Z.div_mod (sum (time <$> l)) (measured l) ltac:(lia)).
    pose proof (Z.mod_pos_bound (sum (time <$> l)) (measured l) ltac:(lia)). lia. }
  clearbody average. generalize dependent (measured l). intros m Hm Hu Hlo H0 Hpos Ha.
  assert (m = 1 \/ m = 2 \/ m = 3 \/ m = 4) as [->|[->|[->| ->]]] by lia; repeat split; lia.
Qed.

(** The routines found slower than ten times the average. *)
Definition slow_routines (average : Z) (addresses cs : list Z) : list Z :=
  (filter (fun p => average * 10 < time p.2) (zip addresses cs)).*1.

Lemma protected_loop_spec average addresses : forall s t status hooked,
  0 <= average -> average * 10 < 2 ^ 64 -> Forall present addresses -> quick (readings s) ->
  interrupts s = true ->
  exists status', protected_loop addresses average t status hooked s
    = Ok ((status', hooked ++ slow_routines average addresses (samples (readings s) (length addresses))),
          after_measuring (length addresses) s).
Proof.
  induction addresses as [|a as_ IH]; intros s t status hooked H0 Hov Hp Hq Hi.
  { exists status. cbn. unfold slow_routines, after_measuring. cbn. rewrite app_nil_r.
    unfold set_readings, set_interrupts. destruct s; cbn in *. by rewrite Nat.add_0_r, Hi. }
  apply Forall_cons in Hp as [Ha Hp]. cbn [protected_loop].
  rewrite (KM_step _ _ _ _ _ (average_spec a t s Ha Hq)). cbn beta iota.
  set (c := routine_cycles (readings s)). unfold slow_routines. cbn [length samples zip zip_with]. fold c.
  rewrite filter_cons. cbn [snd].
  unfold EPT_EXECUTION_TIME_MULTIPLIER. rewrite u64_small by lia.
  destruct (IH (after_measuring 1 s) (time c)
    (if time c =? 0 then STATUS_UNSUCCESSFUL else STATUS_SUCCESS)
    (if time c =? 0 then hooked else if average * 10 <? time c then hooked ++ [a] else hooked)
    H0 Hov Hp (quick_next _ Hq) eq_refl) as [status' Hs'].
  exists status'. rewrite after_measuring_S, after_measuring_readings, Nat.mul_1_r in Hs'.
  destruct (Z.eqb_spec (time c) 0) as [Hz|Hz].
  - change (negb (NT_SUCCESS STATUS_UNSUCCESSFUL)) with true. cbn iota. rewrite decide_False by lia. exact Hs'.
  - change (negb (NT_SUCCESS STATUS_SUCCESS)) with false. cbn iota. rewrite Hs'. unfold slow_routines.
    destruct (Z.ltb_spec (average * 10) (time c)).
    + by rewrite decide_True, <- (assoc_L (++)) by done.
    + by rewrite decide_False by lia.
Qed.

Lemma resolve_routines_spec names : forall pre old,
  length old = length names ->
  exists l, resolve_routines names (zlen pre) (pre ++ old)
    = (forallb (fun f => negb (MmGetSystemRoutineAddress f =? 0)) names, l) /\
    (forallb (fun f => negb (MmGetSystemRoutineAddress f =? 0)) names = true ->
     l = pre ++ (MmGetSystemRoutineAddress <$> names)).
Proof.
  induction names as [|f names IH]; intros pre [|x old] Hl; try done; cbn [resolve_routines forallb].
  { exists (pre ++ []). by split. }
  rewrite zset_middle. destruct (Z.eqb_spec (MmGetSystemRoutineAddress f) 0); cbn [negb andb]; [by eexists|].
  destruct (IH (pre ++ [MmGetSystemRoutineAddress f]) old) as (l & Hr & Hf); [by injection Hl|].
  rewrite zlen_app, <- !(assoc_L (++)) in Hr. exists l. split; [exact Hr|].
  intros H. rewrite (Hf H), fmap_cons. by rewrite <- (assoc_L (++)).
Qed.

Lemma quick_next_k k n : quick n -> quick (n + ROUTINE_READINGS * k).
Proof.
  intros H i. unfold ROUTINE_READINGS.
  replace (n + 62 * k + 2 * i)%nat with (n + 2 * (31 * k + i))%nat by lia. apply H.
Qed.

(** The filter over two pairs. *)
Lemma filter_pair (z a b x y : Z) : a <> b ->
  let l := (filter (fun p : Z * Z => z < time p.2) [(a, x); (b, y)]).*1 in
  (a ∈ l <-> z < time x) /\ (b ∈ l <-> z < time y).
Proof.
  intros Hne l. subst l. rewrite !filter_cons, filter_nil. cbn [snd].
  do 2 case_decide; cbn [fmap list_fmap fst]; rewrite ?list_elem_of_cons;
    split; split; try tauto; intuition (try set_solver).
Qed.

(** Whether a protected routine is logged. *)
Lemma slow_routines_member average n j f c :
  NoDup (MmGetSystemRoutineAddress <$> PROTECTED_FUNCTIONS) -> PROTECTED_FUNCTIONS !! j = Some f ->
  c = routine_cycles (n + ROUTINE_READINGS * (4 + j)) ->
  MmGetSystemRoutineAddress f
    ∈ slow_routines average (MmGetSystemRoutineAddress <$> PROTECTED_FUNCTIONS) (samples (n + ROUTINE_READINGS * 4) 2)
  <-> average * 10 < time c.
Proof.
  intros Hnd Hj ->. cbn in Hnd. apply NoDup_cons in Hnd as [Hne _]. rewrite list_elem_of_singleton in Hne.
  destruct (filter_pair (average * 10) (MmGetSystemRoutineAddress "ExAllocatePoolWithTag")
    (MmGetSystemRoutineAddress "MmCopyMemory") (routine_cycles (n + ROUTINE_READINGS * 4))
    (routine_cycles (n + ROUTINE_READINGS * 4 + ROUTINE_READINGS)) Hne) as [H0 H1].
  change PROTECTED_FUNCTIONS with ["ExAllocatePoolWithTag"; "MmCopyMemory"]%string in Hj.
  destruct j as [|[|j]]; [injection Hj as <-|injection Hj as <-|by destruct j].
  - exact H0.
  - replace (n + ROUTINE_READINGS * (4 + 1))%nat with (n + ROUTINE_READINGS * 4 + ROUTINE_READINGS)%nat
      by (unfold ROUTINE_READINGS; lia). exact H1.
Qed.

Definition found (names : list string) : bool :=
  forallb (fun f => negb (MmGetSystemRoutineAddress f =? 0)) names.

Lemma InitiateEptFunctionAddressArrays_spec s :
  length (CONTROL_FUNCTION_ADDRESSES s) = 4%nat -> length (PROTECTED_FUNCTION_ADDRESSES s) = 2%nat ->
  exists control protected,
    InitiateEptFunctionAddressArrays s
      = Ok (if found (CONTROL_FUNCTIONS ++ PROTECTED_FUNCTIONS) then STATUS_SUCCESS else STATUS_UNSUCCESSFUL,
            set_protected protected (set_control control s)) /\
    (found (CONTROL_FUNCTIONS ++ PROTECTED_FUNCTIONS) = true ->
       control = (MmGetSystemRoutineAddress <$> CONTROL_FUNCTIONS) /\
       protected = (MmGetSystemRoutineAddress <$> PROTECTED_FUNCTIONS)).
Proof.
  intros Hc Hp. unfold found. rewrite forallb_app. unfold InitiateEptFunctionAddressArrays.
  destruct (resolve_routines_spec CONTROL_FUNCTIONS [] (CONTROL_FUNCTION_ADDRESSES s) Hc) as (c & Hrc & Hfc).
  destruct (resolve_routines_spec PROTECTED_FUNCTIONS [] (PROTECTED_FUNCTION_ADDRESSES s) Hp) as (p & Hrp & Hfp).
  cbn [app] in *. change (zlen (@nil Z)) with 0 in *.
  erewrite KM_step by done. rewrite Hrc. cbn beta iota. erewrite KM_step by done.
  destruct (forallb _ CONTROL_FUNCTIONS); cbn [negb andb].
  - erewrite KM_step by done. cbn [PROTECTED_FUNCTION_ADDRESSES set_control]. rewrite Hrp. cbn beta iota.
    erewrite KM_step by done. exists c, p. split; [by destruct (forallb _ PROTECTED_FUNCTIONS)|]. auto.
  - exists c, (PROTECTED_FUNCTION_ADDRESSES s). split; [by destruct s|done].
Qed.

End specification.

(** ** Properties *)

(** C39: the detection of hooks in the second level of address translation.  The
    check never faults and in particular never divides by zero; the interrupt
    level and the affinity of the thread are as before and interrupts are enabled.
    When an exported routine is missing it fails without measuring.  When
    no measured read takes [2 ^ 27] cycles, no sum or product wraps, and a protected
    routine is logged when the cycles of its reads exceed ten times the average of
    those of the control routines that could be measured, and is not logged when
    they are below; only at equality does the rounding of the averages decide.
    When no control routine can be measured the check fails and logs nothing. *)
Theorem ept_hooks_flagged {A : SystemApi} {C : ProcessorApi} s :
  length (CONTROL_FUNCTION_ADDRESSES s) = 4%nat -> length (PROTECTED_FUNCTION_ADDRESSES s) = 2%nat ->
  Forall (fun f => is_Some (system_memory (MmGetSystemRoutineAddress f))) (CONTROL_FUNCTIONS ++ PROTECTED_FUNCTIONS) ->
  NoDup (MmGetSystemRoutineAddress <$> PROTECTED_FUNCTIONS) -> quick (readings s) ->
  let control := samples (readings s) 4 in
  exists status hooked s',
    DetectEptHooksInKeyFunctions s = Ok ((status, hooked), s') /\
    irql s' = irql s /\ affinity s' = affinity s /\
    if found (CONTROL_FUNCTIONS ++ PROTECTED_FUNCTIONS) then
      interrupts s' = true /\
      (sum control = 0 -> status = STATUS_UNSUCCESSFUL /\ hooked = []) /\
      forall j f, PROTECTED_FUNCTIONS !! j = Some f ->
        let c := routine_cycles (readings s + ROUTINE_READINGS * (4 + j)) in
        (10 * sum control < c * measured control -> MmGetSystemRoutineAddress f ∈ hooked) /\
        (c * measured control < 10 * sum control -> MmGetSystemRoutineAddress f ∉ hooked)
    else status = STATUS_UNSUCCESSFUL /\ hooked = [] /\ interrupts s' = interrupts s.
Proof.
  intros Hc Hp Hmem Hnd Hq control.
  destruct (InitiateEptFunctionAddressArrays_spec s Hc Hp) as (lc & lp & Hi & Hf).
  unfold DetectEptHooksInKeyFunctions. rewrite (KM_step _ _ _ _ _ Hi). clear Hi.
  destruct (found _) eqn:Hfound.
  2: { change (negb (NT_SUCCESS STATUS_UNSUCCESSFUL)) with true. eexists _, _, _. by split_and!. }
  change (negb (NT_SUCCESS STATUS_SUCCESS)) with false. cbn iota. destruct (Hf eq_refl) as [-> ->]. clear Hf.
  set (s1 := set_protected _ _). change (readings s) with (readings s1) in *.
  assert (Forall present (MmGetSystemRoutineAddress <$> (CONTROL_FUNCTIONS ++ PROTECTED_FUNCTIONS))) as Hpr.
  { apply Forall_fmap, Forall_forall. intros f Hin. split; [|by eapply Forall_forall in Hmem].
    apply forallb_forall with (x := f) in Hfound; [|by apply list_elem_of_In].
    intros H0. unfold compose in H0. by rewrite H0 in Hfound. }
  rewrite fmap_app in Hpr. apply Forall_app in Hpr as [Hprc Hprp].
  pose proof (samples_range 4 _ Hq) as Hrange. fold control in Hrange.
  pose proof (sum_time_bounds _ Hrange) as (Hm & Hms & Hu & Hlo & Ht & H0). change (zlen control) with 4 in Hm, Ht.
  erewrite KM_step by done. change (CONTROL_FUNCTION_ADDRESSES s1) with (MmGetSystemRoutineAddress <$> CONTROL_FUNCTIONS).
  destruct (control_loop_spec (MmGetSystemRoutineAddress <$> CONTROL_FUNCTIONS) s1 0 0 0 Hprc Hq ltac:(done))
    as [t' Hl]; [done|done|done|change (samples (readings s1) (length _)) with control; lia|].
  rewrite (KM_step _ _ _ _ _ Hl). cbn beta iota. clear Hl.
  change (samples (readings s1) (length (MmGetSystemRoutineAddress <$> CONTROL_FUNCTIONS))) with control.
  change (length (MmGetSystemRoutineAddress <$> CONTROL_FUNCTIONS)) with 4%nat. change (zlen control) with 4.
  rewrite !Z.add_0_l. unfold EPT_CONTROL_FUNCTIONS_COUNT.
  destruct (Z.eqb_spec (sum (time <$> control)) 0) as [Hz|Hz].
  { eexists _, _, _. split; [done|]. split; [done|]. split; [done|]. split; [done|]. split; [done|].
    intros j f _. assert (measured control = 0) as -> by lia. rewrite H0 by lia. split; lia. }
  assert (0 < sum control) as Hs by lia.
  rewrite u32_small by lia. replace (4 - (4 - measured control)) with (measured control) by lia.
  destruct (comparison_exact control 0 Hrange eq_refl ltac:(lia) Hs) as (Hmp & Ha & Hao & _).
  rewrite (proj2 (Z.eqb_neq _ _)) by lia. rewrite (proj2 (Z.eqb_neq _ 0)) by lia.
  set (average := sum (time <$> control) / measured control) in *.
  erewrite KM_step by done. change (PROTECTED_FUNCTION_ADDRESSES _) with (MmGetSystemRoutineAddress <$> PROTECTED_FUNCTIONS).
  destruct (protected_loop_spec average (MmGetSystemRoutineAddress <$> PROTECTED_FUNCTIONS)
    (after_measuring 4 s1) t' STATUS_SUCCESS []) as [status Hl]; try done; [lia|by apply (quick_next_k 4)|].
  rewrite Hl. eexists _, _, _. split; [done|]. split; [done|]. split; [done|]. split; [done|]. split; [lia|].
  intros j f Hj. set (c := routine_cycles _). rewrite app_nil_l, after_measuring_readings.
  destruct (comparison_exact control c Hrange eq_refl) as (_ & _ & _ & Hslow & Hfast); [by apply routine_cycles_range|done|].
  fold average in Hslow, Hfast.
  change (length (MmGetSystemRoutineAddress <$> PROTECTED_FUNCTIONS)) with 2%nat.
  pose proof (slow_routines_member average (readings s1) j f c Hnd Hj eq_refl) as Hin.
  split; intros Hx; rewrite Hin; [by apply Hslow|apply Hfast in Hx; lia].
Qed.

(** The timing check compares the low halves of two readings and puts the processor's
    state back, with the interrupts enabled. *)
Lemma aperf_check_spec {C : ProcessorApi} s :
  exists s1, APERFMsrTimingCheck s
      = Ok (aperf (readings s) mod 2 ^ 32 =? aperf (S (readings s)) mod 2 ^ 32, s1) /\
    irql s1 = irql s /\ affinity s1 = affinity s /\ interrupts s1 = true.
Proof.
  set (same := aperf (readings s) mod 2 ^ 32 =? aperf (S (readings s)) mod 2 ^ 32).
  exists (set_readings (S (S (readings s))) (set_interrupts true s)). split; [|by split_and!].
  transitivity (Ok (u64 (u64 (Z.shiftl (aperf (S (readings s))) 32) - u64 (Z.shiftl (aperf (readings s)) 32)) =? 0,
      set_readings (S (S (readings s))) (set_interrupts true s))); [by destruct s|].
  rewrite shifted_difference. f_equal. f_equal. apply eq_true_iff_eq. unfold same. rewrite !Z.eqb_eq.
  rewrite Z.eq_mul_0. split; [intros [H|H]; [lia|]|right]; Z.div_mod_to_equations; lia.
Qed.

(** The detection of a hypervisor.  On a well-formed buffered request whose
    output buffer holds the report, the reply consists of two flags of four bytes:
    the first is set when the two readings of APERF around the trapping instruction
    agree in their low halves, the second when INVD wrote the caches back; the rest
    of the buffer is untouched.  The interrupt level and the affinity are as before
    and interrupts are enabled.  A smaller buffer is refused, and then neither the
    request nor the processor has changed. *)
Theorem hypervisor_flags_reported {C : ProcessorApi} irp io s :
  irp_wf irp io ->
  exists status irp' s',
    PerformVirtualizationDetection (Some irp) s = Ok ((status, Some irp'), s') /\
    irql s' = irql s /\ affinity s' = affinity s /\
    if OutputBufferLength io <? 8
    then status = STATUS_BUFFER_TOO_SMALL /\ irp' = irp /\ s' = s
    else status = STATUS_SUCCESS /\ interrupts s' = true /\ IoStatus_Information irp' = 8 /\
      SystemBuffer irp' =
        (le_bytes 4 (if aperf (readings s) mod 2 ^ 32 =? aperf (S (readings s)) mod 2 ^ 32 then 1 else 0) ++
         le_bytes 4 (if invd_discards_caches then 0 else 1)) ++ drop 8 (SystemBuffer irp).
Proof.
  intros Hwf. unfold PerformVirtualizationDetection.
  rewrite (ValidateIrpOutputBuffer_wf irp io (sizeof HYPERVISOR_DETECTION_REPORT) Hwf) by done.
  change (sizeof HYPERVISOR_DETECTION_REPORT) with 8. cbn [Z.eqb]. rewrite lift_step.
  destruct (Z.ltb_spec (OutputBufferLength io) 8) as [H8|H8].
  { eexists _, _, _. by split_and!. }
  change (negb (NT_SUCCESS STATUS_SUCCESS)) with false. cbn iota beta.
  destruct (aperf_check_spec s) as (s1 & Ht & Hi & Ha & Hint). set (same := aperf (readings s) mod _ =? _) in *.
  rewrite (KM_step _ _ _ _ _ Ht).
  assert (TestINVDEmulation s1 = Ok (if invd_discards_caches then 0 else 1, s1)) as He.
  { unfold TestINVDEmulation, invd. munfold. destruct s1; cbn. by destruct invd_discards_caches. }
  rewrite (KM_step _ _ _ _ _ He).
  pose proof (wf_buffer _ _ Hwf) as Hb. unfold zlen in Hb.
  assert (8 <= length (SystemBuffer irp))%nat as Hlen by lia.
  rewrite copy_to_ok.
  2: { transitivity 8%nat; [done|]. cbn [SystemBuffer set_buffer set_information].
    rewrite length_app, length_replicate, length_drop. change (Z.to_nat 8) with 8%nat. lia. }
  rewrite lift_step. eexists _, _, _. split; [done|]. split_and!; try done.
Qed.

(** The thread runs on [Core] after [n] yields, and not before. *)
Definition arrives {C : ProcessorApi} (Core : Z) (n : nat) : Prop :=
  processor_after (u64 (Z.shiftl 1 Core)) n = Core /\
  forall i, (i < n)%nat -> processor_after (u64 (Z.shiftl 1 Core)) i <> Core.

(** The three times in the processor's control block can be read. *)
Definition core_times {A : SystemApi} {C : ProcessorApi} (idle kernel_ user : Z) : Prop :=
  let kpcrb := u64 (gs_base + 0x180) in
  exists idle_thread, load64 system_memory (u64 (kpcrb + 0x18)) = Ok idle_thread /\
    load32 system_memory (u64 (idle_thread + 0x28c)) = Ok idle /\
    load32 system_memory (u64 (kpcrb + 0x7e84)) = Ok kernel_ /\
    load32 system_memory (u64 (kpcrb + 0x7e88)) = Ok user.

Lemma wait_for_core_spec {C : ProcessorApi} s Core n : forall fuel yields,
  affinity s = u64 (Z.shiftl 1 Core) -> arrives Core n -> (yields <= n)%nat -> (n < yields + fuel)%nat ->
  wait_for_core fuel Core yields s = Ok (tt, s).
Proof.
  intros fuel. induction fuel as [|fuel IH]; intros yields Ha [Hn Hb] Hy Hf; [lia|].
  cbn [wait_for_core]. erewrite KM_step by done. rewrite Ha.
  destruct (decide (yields = n)) as [->|]; [by rewrite Hn, Z.eqb_refl|].
  rewrite (proj2 (Z.eqb_neq _ _)) by (apply Hb; lia). apply IH; [done|by split|lia|lia].
Qed.

(** The usage of a core.  When the scheduler moves the thread to the core, the
    loop ends, with fuel one more than the yields that takes, and the thread stays
    bound to that core.  The result is the share of time the core was not idle,
    in percent and rounded up; it lies between 0 and 100 when the idle time is
    at most the sum of the other two and the sum does not wrap.  A sum that is 0, or
    wraps to 0, divides by zero. *)
Theorem core_usage_in_percent {A : SystemApi} {C : ProcessorApi} s Core n fuel idle kernel_ user :
  arrives Core n -> (n < fuel)%nat -> core_times idle kernel_ user ->
  0 <= idle < 2 ^ 32 -> 0 <= kernel_ < 2 ^ 32 -> 0 <= user < 2 ^ 32 ->
  if (kernel_ + user) mod 2 ^ 32 =? 0 then CalculateCpuCoreUsage fuel Core s = Crash DivideByZero
  else exists usage s', CalculateCpuCoreUsage fuel Core s = Ok (usage, s') /\
    s' = set_affinity (u64 (Z.shiftl 1 Core)) s /\
    (kernel_ + user < 2 ^ 32 -> idle <= kernel_ + user ->
       0 <= usage <= 100 /\
       (usage - 1) * (kernel_ + user) < 100 * (kernel_ + user - idle) <= usage * (kernel_ + user)).
Proof.
  intros Hn Hf (idle_thread & H1 & H2 & H3 & H4) Hi Hk Hu. unfold CalculateCpuCoreUsage.
  unfold KPCR_KPRCB_OFFSET, KPCRB_IDLE_THREAD_OFFSET, KTHREAD_IDLE_TIME_OFFSET, KPCRB_KERNEL_TIME_OFFSET,
    KPCRB_USER_TIME_OFFSET.
  assert (forall X (k : unit -> M X), (KeSetSystemAffinityThreadEx (u64 (Z.shiftl 1 Core)) ≫= fun _ =>
    wait_for_core fuel Core 0 ≫= k) s = k tt (set_affinity (u64 (Z.shiftl 1 Core)) s)) as ->.
  { intros X k. erewrite KM_step by done.
    by rewrite (KM_step _ _ _ _ _ (wait_for_core_spec (set_affinity _ s) Core n fuel 0 eq_refl Hn ltac:(lia) ltac:(lia))). }
  cbn zeta. rewrite H1, lift_step, H2, lift_step, H3, lift_step, H4, lift_step.
  fold (u32 (kernel_ + user)). destruct (Z.eqb_spec (u32 (kernel_ + user)) 0) as [H0|H0]; [done|].
  eexists _, _. split; [done|]. split; [done|]. intros Hs Hle. rewrite (u32_small (kernel_ + user)) in * by lia.
  rewrite (u64_small (idle * 100)) by lia. set (t := kernel_ + user) in *. clearbody t.
  assert (0 <= idle * 100 / t <= 100) as Hq.
  { split; [apply Z.div_pos; lia|]. apply Z.div_le_upper_bound; lia. }
  pose proof (Z.div_mod (idle * 100) t H0). pose proof (Z.mod_pos_bound (idle * 100) t ltac:(lia)).
  rewrite (u32_small (idle * 100 / t)), u32_small by lia. set (q := idle * 100 / t) in *. clearbody q.
  split; [lia|]. nia.
Qed.

(** ** Witnesses *)

(** Every read takes 100 cycles, except those of the first protected routine. *)
Definition slow_allocation : ProcessorApi := {|
  aperf := fun n => 100 * Z.of_nat n + 2000 * Z.min 62 (Z.max 0 (Z.of_nat n - 248));
  current_processor := 3;
  processor_after := fun a n => if (n <? 2)%nat then 0 else Z.log2 a;
  gs_base := 0x1000;
  invd_discards_caches := true |}.

(** Routines at an address of their own, in a memory of zeros but for the times of a
    core. *)
Definition hypervisor_api : SystemApi := {|
  query_module_size := (STATUS_SUCCESS, 0);
  query_modules := (STATUS_SUCCESS, 0, []);
  MmGetSystemRoutineAddress := fun f => 0x1000 * Z.of_nat (String.length f);
  RtlGetVersion := (STATUS_SUCCESS, 19045);
  hal_routine := fun _ => 0;
  system_memory := fun a => Some (if a =? 0x28c then 30 else if a =? 0x9004 then 30 else if a =? 0x9008 then 20 else 0) |}.

Definition idle_processor : processor := Processor 2 true 0 0 [0; 0; 0; 0] [0; 0].

Lemma ept_hooks_flagged_witness :
  exists status hooked s',
    DetectEptHooksInKeyFunctions (A := hypervisor_api) (C := slow_allocation) idle_processor = Ok ((status, hooked), s') /\
    irql s' = 2 /\ 0x15000 ∈ hooked /\ 0xc000 ∉ hooked.
Proof.
  destruct (ept_hooks_flagged (A := hypervisor_api) (C := slow_allocation) idle_processor)
    as (status & hooked & s' & H & Hi & _ & _ & _ & Hj).
  - reflexivity.
  - reflexivity.
  - apply Forall_forall. intros f _. eexists. reflexivity.
  - exact (bool_decide_unpack (NoDup [0x15000; 0xc000]) I).
  - intros i. unfold cycles. cbn [aperf slow_allocation]. Z.div_mod_to_equations. lia.
  - exists status, hooked, s'. split; [exact H|]. split; [exact Hi|]. split.
    + destruct (Hj 0%nat "ExAllocatePoolWithTag"%string eq_refl) as [Hin _]. apply Hin. vm_compute. reflexivity.
    + destruct (Hj 1%nat "MmCopyMemory"%string eq_refl) as [_ Hin]. apply Hin. vm_compute. reflexivity.
Defined.

Lemma hypervisor_flags_reported_witness :
  exists status irp' s',
    PerformVirtualizationDetection (C := slow_allocation)
      (Some (Irp (Some (IoStack 0 9 0)) (replicate 9 7) 0 0)) idle_processor = Ok ((status, Some irp'), s') /\
    SystemBuffer irp' = [0; 0; 0; 0; 0; 0; 0; 0; 7].
Proof.
  destruct (hypervisor_flags_reported (C := slow_allocation)
    (Irp (Some (IoStack 0 9 0)) (replicate 9 7) 0 0) (IoStack 0 9 0) idle_processor)
    as (status & irp' & s' & H & _ & _ & _ & _ & _ & Hb).
  - constructor; [reflexivity|cbn; lia|reflexivity].
  - exists status, irp', s'. split; [exact H|]. rewrite Hb. vm_compute. reflexivity.
Defined.

Lemma core_usage_in_percent_witness :
  exists usage s',
    CalculateCpuCoreUsage (A := hypervisor_api) (C := slow_allocation) 3 5 idle_processor = Ok (usage, s') /\
    affinity s' = 32 /\ 0 <= usage <= 100.
Proof.
  destruct (core_usage_in_percent (A := hypervisor_api) (C := slow_allocation) idle_processor 5 2 3 30 30 20)
    as (usage & s' & H & Hs & Hb).
  - split; [reflexivity|]. intros i Hi. cbn [processor_after slow_allocation].
    rewrite (proj2 (Nat.ltb_lt i 2) Hi). lia.
  - lia.
  - exists 0. repeat split; vm_compute; reflexivity.
  - lia.
  - lia.
  - lia.
  - exists usage, s'. split; [exact H|]. split; [by rewrite Hs|]. apply Hb; lia.
Defined.
