(* ===== verification/Disk.v ===== *)
(** * integrity.c: the serial number of the first disk, and the signature scan

    The descriptor of the disk is asked for twice, first for its size and then as a
    whole, and the serial number is copied out of it.  [ScanForSignature] looks for
    the first occurrence of a byte string. *)

From stdpp Require Import gmultiset.
From S2P Require Import Prelude Layout Irp Structs Kernel.

(** ** Data *)

Definition DEVICE_DRIVE_0_SERIAL_CODE_LENGTH : Z := 64.

(** Offset of [SerialNumberOffset] in [STORAGE_DEVICE_DESCRIPTOR], of the
    system's headers, and the size of its fixed part. *)
Definition SerialNumberOffset : Z := 24.
Definition STORAGE_DEVICE_DESCRIPTOR_SIZE : Z := 40.

(** The system's side: the status and the handle of [ZwOpenFile]; the status and
    the size field of the first request; the status and the bytes the second request
    stores in a buffer of the given size. *)
Class DiskApi := {
  ZwOpenFile : NTSTATUS * Z;
  query_header : NTSTATUS * Z;
  query_descriptor : Z -> NTSTATUS * list Z;
}.

(** A handle is stored when the file is opened, and it is not null. *)
Class DiskLaws (D : DiskApi) : Prop :=
  open_stores_handle : if NT_SUCCESS ZwOpenFile.1 then ZwOpenFile.2 <> 0 else ZwOpenFile.2 = 0.

Abbreviation M := (KM kernel).

Section operations.
Context {P : Pool} {D : DiskApi}.

(** [strnlen_s(p, n)] of a string in a block. *)
Fixpoint strnlen_s (m : memory) (p : Z) (n : nat) : res Z :=
  match n with
  | O => Ok 0
  | S n =>
      match m p with
      | None => Crash OutOfBounds
      | Some c => if c =? 0 then Ok 0 else l ← strnlen_s m (p + 1) n; Ok (l + 1)
      end
  end.

(** [RtlCopyMemory] out of a block. *)
Fixpoint read_block (m : memory) (p : Z) (n : nat) : res (list Z) :=
  match n with
  | O => Ok []
  | S n =>
      match m p with
      | None => Crash OutOfBounds
      | Some c => l ← read_block m (p + 1) n; Ok (c :: l)
      end
  end.

Definition ZwOpenFile_ : M (NTSTATUS * Z) :=
  let '(status, handle) := ZwOpenFile in
  when (NT_SUCCESS status) (acquire (OpenHandle handle)) ≫= fun _ => mret (status, handle).

(** The part that reads the descriptor: the status and the caller's buffer. *)
Definition copy_serial (descriptor : list Z) (status : NTSTATUS) (ConfigDrive0Serial : list Z)
  (ConfigDrive0MaxSize : Z) : res (NTSTATUS * list Z) :=
  let block := mem_of 0 descriptor in
  offset ← load32 block SerialNumberOffset;
  if offset =? 0 then Ok (status, ConfigDrive0Serial)
  else
    length_ ← strnlen_s block offset (Z.to_nat DEVICE_DRIVE_0_SERIAL_CODE_LENGTH);
    let serial_length := length_ + 1 in
    if ConfigDrive0MaxSize <? serial_length then Ok (STATUS_BUFFER_TOO_SMALL, ConfigDrive0Serial)
    else
      serial ← read_block block offset (Z.to_nat serial_length);
      buffer ← copy_to ConfigDrive0Serial serial;
      Ok (status, buffer).

(** The code after [end]. *)
Definition close_disk {X} (handle device_descriptor : Z) (result : X) : M X :=
  when (negb (handle =? 0)) (release (OpenHandle handle)) ≫= fun _ =>
  when (negb (device_descriptor =? 0)) (ExFreePoolWithTag device_descriptor POOL_TAG_INTEGRITY) ≫= fun _ =>
  mret result.

Definition GetHardDiskDriveSerialNumber (ConfigDrive0Serial : list Z) (ConfigDrive0MaxSize : Z)
  : M (NTSTATUS * list Z) :=
  '(status, handle) ← ZwOpenFile_;
  if negb (NT_SUCCESS status) then close_disk handle 0 (status, ConfigDrive0Serial)
  else
    let '(status, size) := query_header in
    if negb (NT_SUCCESS status) then close_disk handle 0 (status, ConfigDrive0Serial)
    else
      device_descriptor ← ExAllocatePool2 size POOL_TAG_INTEGRITY;
      if device_descriptor =? 0
      then close_disk handle device_descriptor (STATUS_MEMORY_NOT_ALLOCATED, ConfigDrive0Serial)
      else
        let '(status, bytes) := query_descriptor size in
        descriptor ← lift (copy_to (replicate (Z.to_nat size) 0) bytes);
        if negb (NT_SUCCESS status) then close_disk handle device_descriptor (status, ConfigDrive0Serial)
        else
          result ← lift (copy_serial descriptor status ConfigDrive0Serial ConfigDrive0MaxSize);
          close_disk handle device_descriptor result.

(** *** ScanForSignature *)

(** The inner loop, from [sig] on: whether it reaches the end of the signature. *)
Fixpoint signature_loop (m : memory) (address : Z) (sig_ : list Z) : res bool :=
  match m address with
  | None => Crash UnmappedRead
  | Some current_char =>
      match sig_ with
      | [] => Ok true
      | current_sig_char :: sig_ =>
          if negb (current_char =? current_sig_char) then Ok false
          else signature_loop m (u64 (address + 1)) sig_
      end
  end.

Fixpoint scan_loop (m : memory) (BaseAddress index : Z) (n : nat) (Signature : list Z) : res Z :=
  match n with
  | O => Ok 0
  | S n =>
      found ← signature_loop m (u64 (BaseAddress + index)) Signature;
      if found : bool then Ok (u64 (BaseAddress + index))
      else scan_loop m BaseAddress (index + 1) n Signature
  end.

(** The signature is passed with its length; its terminator, which the inner loop
    reads and does not use, is left out. *)
Definition ScanForSignature (m : memory) (BaseAddress MaxLength : Z) (Signature : list Z) : res Z :=
  scan_loop m BaseAddress 0 (Z.to_nat MaxLength) Signature.

End operations.

(** ** Specification *)

(** The serial number at [offset]: at most 64 bytes, up to the first zero. *)
Fixpoint c_string (n : nat) (l : list Z) : list Z :=
  match n, l with
  | S n, c :: l => if c =? 0 then [] else c :: c_string n l
  | _, _ => []
  end.

(** The descriptor has its fixed part, and the serial number ends inside it or is
    64 bytes long. *)
Definition descriptor_wf (descriptor : list Z) (offset : Z) : Prop :=
  load32 (mem_of 0 descriptor) SerialNumberOffset = Ok offset /\ 0 <= offset <= zlen descriptor /\
  (offset <> 0 -> zlen (c_string 64 (drop (Z.to_nat offset) descriptor)) < 64 ->
   offset + zlen (c_string 64 (drop (Z.to_nat offset) descriptor)) < zlen descriptor).

Lemma length_c_string n l : zlen (c_string n l) <= Z.of_nat n.
Proof.
  revert l. induction n as [|n IH]; intros [|c l]; cbn [c_string]; try (rewrite zlen_nil; lia).
  destruct (c =? 0); [rewrite zlen_nil; lia|]. rewrite zlen_cons. specialize (IH l). lia.
Qed.

(** The bytes of a string and its terminator are in the block. *)
Lemma strnlen_spec descriptor n : forall off,
  0 <= off -> (zlen (c_string n (drop (Z.to_nat off) descriptor)) < Z.of_nat n ->
   off + zlen (c_string n (drop (Z.to_nat off) descriptor)) < zlen descriptor) ->
  strnlen_s (mem_of 0 descriptor) off n = Ok (zlen (c_string n (drop (Z.to_nat off) descriptor))).
Proof.
  induction n as [|n IH]; intros off Hoff Hb; cbn [strnlen_s c_string]; [done|].
  unfold mem_of. rewrite Z.sub_0_r.
  destruct (znth descriptor off) as [c|] eqn:Hc.
  2: { assert (zlen descriptor <= off).
    { destruct (decide (off < zlen descriptor)) as [Hlt|]; [|lia].
      destruct (proj1 (znth_Some descriptor off)) as [c Hx]; [lia|congruence]. }
    exfalso. rewrite drop_ge in Hb by (unfold zlen in *; lia). cbn [c_string] in Hb. rewrite zlen_nil in Hb. lia. }
  assert (drop (Z.to_nat off) descriptor = c :: drop (Z.to_nat (off + 1)) descriptor) as Hd.
  { replace (Z.to_nat (off + 1)) with (S (Z.to_nat off)) by lia. apply drop_S.
    unfold znth in Hc. by destruct (off <? 0). }
  rewrite Hd in Hb |- *. cbn [c_string] in Hb |- *. destruct (c =? 0); [done|].
  rewrite zlen_cons in Hb |- *. fold (mem_of 0 descriptor). 
  rewrite IH by lia. done.
Qed.

Lemma read_block_spec descriptor n : forall off,
  0 <= off -> off + Z.of_nat n <= zlen descriptor ->
  read_block (mem_of 0 descriptor) off n = Ok (take n (drop (Z.to_nat off) descriptor)).
Proof.
  induction n as [|n IH]; intros off Hoff Hb; cbn [read_block]; [done|].
  unfold mem_of at 1. rewrite Z.sub_0_r. destruct (proj1 (znth_Some descriptor off)) as [c Hc]; [lia|].
  rewrite Hc, IH by lia. replace (Z.to_nat (off + 1)) with (S (Z.to_nat off)) by lia.
  rewrite (drop_S descriptor c (Z.to_nat off)); [done|]. unfold znth in Hc. by destruct (off <? 0).
Qed.

(** A string and its terminator, as read from the block. *)
Lemma take_c_string n l :
  zlen (c_string n l) < Z.of_nat n -> (length (c_string n l) < length l)%nat ->
  take (S (length (c_string n l))) l = c_string n l ++ [0].
Proof.
  revert l. induction n as [|n IH]; intros [|c l] Hn Hl; cbn [c_string] in *; try (cbn in *; lia).
  - rewrite zlen_nil in Hn. lia.
  - destruct (Z.eqb_spec c 0) as [->|]; [by cbn|]. cbn [length take]. rewrite zlen_cons in Hn. cbn in Hl.
    change ((c :: c_string n l) ++ [0]) with (c :: (c_string n l ++ [0])). f_equal. apply (IH l); lia.
Qed.

Section specification.
Context {P : Pool} {D : DiskApi} {L : DiskLaws D}.

(** What is copied to the caller. *)
Definition serial_outcome (descriptor : list Z) (status : NTSTATUS) (offset : Z) (Serial : list Z) (MaxSize : Z)
  : NTSTATUS * list Z :=
  let serial := c_string 64 (drop (Z.to_nat offset) descriptor) in
  if offset =? 0 then (status, Serial)
  else if MaxSize <? zlen serial + 1 then (STATUS_BUFFER_TOO_SMALL, Serial)
  else (status, (serial ++ [0]) ++ drop (S (length serial)) Serial).

Lemma copy_serial_spec descriptor status offset Serial MaxSize :
  descriptor_wf descriptor offset -> MaxSize <= 64 -> MaxSize <= zlen Serial ->
  copy_serial descriptor status Serial MaxSize = Ok (serial_outcome descriptor status offset Serial MaxSize).
Proof.
  intros (Hl & Ho & Hend) H64 Hs. unfold copy_serial, serial_outcome. rewrite Hl. cbn [mbind res_bind].
  destruct (Z.eqb_spec offset 0) as [|Hne]; [done|]. specialize (Hend Hne).
  change (Z.to_nat DEVICE_DRIVE_0_SERIAL_CODE_LENGTH) with 64%nat.
  rewrite strnlen_spec by (done || lia). cbn [mbind res_bind].
  set (str := c_string 64 (drop (Z.to_nat offset) descriptor)) in *.
  destruct (Z.ltb_spec MaxSize (zlen str + 1)) as [|Hfit]; [done|].
  assert (offset + zlen str < zlen descriptor) as Hin by (apply Hend; lia).
  replace (Z.to_nat (zlen str + 1)) with (S (length str)) by (unfold zlen; lia).
  rewrite read_block_spec by (unfold zlen in *; lia). cbn [mbind res_bind].
  assert (take (S (length str)) (drop (Z.to_nat offset) descriptor) = str ++ [0]) as ->.
  { apply (take_c_string 64); fold str; [lia|]. rewrite length_drop. unfold zlen in *. lia. }
  clearbody str. rewrite copy_to_ok by (rewrite length_app; cbn [length]; unfold zlen in *; lia).
  cbn [mbind res_bind]. rewrite length_app. cbn [length]. by rewrite Nat.add_1_r.
Qed.

Lemma close_disk_spec {X} s h handle block (r : X) :
  handle <> 0 -> block <> 0 ->
  held s = (h ⊎ {[+ OpenHandle handle +]}) ⊎ {[+ Block block POOL_TAG_INTEGRITY +]} ->
  close_disk handle block r s = Ok (r, set_held h s).
Proof.
  intros Hh Hb Hs. unfold close_disk. rewrite !(proj2 (Z.eqb_neq _ 0)) by done. cbn [negb when].
  rewrite (KM_step _ _ _ _ _ (release_last _ (h ⊎ {[+ Block block POOL_TAG_INTEGRITY +]}) (OpenHandle handle)
    ltac:(rewrite Hs; clear; multiset_solver))).
  erewrite KM_step by by apply (release_last _ h). done.
Qed.

(** Without a block. *)
Lemma close_handle_spec {X} s h handle (r : X) :
  handle <> 0 -> held s = h ⊎ {[+ OpenHandle handle +]} ->
  close_disk handle 0 r s = Ok (r, set_held h s).
Proof.
  intros Hh Hs. unfold close_disk. rewrite (proj2 (Z.eqb_neq handle 0)) by done. cbn [negb when].
  by rewrite (KM_step _ _ _ _ _ (release_last _ h _ Hs)).
Qed.

(** What the caller receives. *)
Definition disk_outcome (granted : bool) (offset : Z) (Serial : list Z) (MaxSize : Z) : NTSTATUS * list Z :=
  if negb (NT_SUCCESS ZwOpenFile.1) then (ZwOpenFile.1, Serial)
  else if negb (NT_SUCCESS query_header.1) then (query_header.1, Serial)
  else if negb granted then (STATUS_MEMORY_NOT_ALLOCATED, Serial)
  else
    let '(status, bytes) := query_descriptor query_header.2 in
    if negb (NT_SUCCESS status) then (status, Serial)
    else serial_outcome (bytes ++ drop (length bytes) (replicate (Z.to_nat query_header.2) 0))
           status offset Serial MaxSize.

End specification.

(** *** The signature scan *)

(** The byte string occurs at an address. *)
Definition occurs (m : memory) (address : Z) (Signature : list Z) : Prop :=
  forall i b, Signature !! i = Some b -> m (address + Z.of_nat i) = Some b.

Lemma occurs_cons m a c sig_ : occurs m a (c :: sig_) <-> m a = Some c /\ occurs m (a + 1) sig_.
Proof.
  split.
  - intros H. split; [specialize (H 0%nat c eq_refl); by rewrite Z.add_0_r in H|].
    intros i b Hi. specialize (H (S i) b Hi). by replace (a + 1 + Z.of_nat i) with (a + Z.of_nat (S i)) by lia.
  - intros [H0 H] [|i] b Hi; [injection Hi as <-; by rewrite Z.add_0_r|].
    specialize (H i b Hi). by replace (a + Z.of_nat (S i)) with (a + 1 + Z.of_nat i) by lia.
Qed.

Lemma signature_loop_spec m sig_ : forall a,
  0 <= a -> a + zlen sig_ < 2 ^ 64 -> readable m a (S (length sig_)) ->
  exists found : bool, signature_loop m a sig_ = Ok found /\ (found = true <-> occurs m a sig_).
Proof.
  induction sig_ as [|c sig_ IH]; intros a Ha Hb Hr; cbn [signature_loop].
  - destruct (Hr 0) as [x Hx]; [cbn; lia|]. rewrite Z.add_0_r in Hx. rewrite Hx.
    exists true. by split.
  - destruct (Hr 0) as [x Hx]; [cbn; lia|]. rewrite Z.add_0_r in Hx. rewrite Hx. rewrite zlen_cons in Hb.
    pose proof (zlen_nonneg sig_). setoid_rewrite occurs_cons. rewrite Hx.
    destruct (Z.eqb_spec x c) as [->|Hne]; cbn [negb].
    + rewrite u64_small by lia. destruct (IH (a + 1)) as (found & Hf & Ho); [lia..| |].
      { intros i Hi. replace (a + 1 + i) with (a + (1 + i)) by lia. apply Hr. cbn. lia. }
      exists found. split; [done|]. tauto.
    + exists false. split; [done|]. split; [done|]. intros [[=] _]. done.
Qed.

(** The first of [n] positions where the signature occurs. *)
Definition first_occurrence (m : memory) (base : Z) (Signature : list Z) (lo n i : Z) : Prop :=
  lo <= i < lo + n /\ occurs m (base + i) Signature /\
  forall j, lo <= j < i -> ~ occurs m (base + j) Signature.

Lemma scan_loop_spec m base sig_ n : forall lo,
  0 <= base -> 0 <= lo -> base + lo + Z.of_nat n + zlen sig_ < 2 ^ 64 ->
  readable m (base + lo) (n + length sig_) ->
  (exists i, first_occurrence m base sig_ lo (Z.of_nat n) i /\ scan_loop m base lo n sig_ = Ok (base + i)) \/
  ((forall i, lo <= i < lo + Z.of_nat n -> ~ occurs m (base + i) sig_) /\ scan_loop m base lo n sig_ = Ok 0).
Proof.
  pose proof (zlen_nonneg sig_). induction n as [|n IH]; intros lo Hb Hlo Hs Hr; cbn [scan_loop].
  { right. split; [lia|done]. }
  rewrite u64_small by lia.
  destruct (signature_loop_spec m sig_ (base + lo)) as (found & -> & Ho); [lia|lia| |].
  { intros i Hi. apply Hr. lia. }
  cbn [mbind res_bind]. destruct found.
  - left. exists lo. split; [|done]. split; [lia|]. split; [by apply Ho|]. lia.
  - assert (~ occurs m (base + lo) sig_) as Hno by (intros Hx; by apply Ho in Hx).
    destruct (IH (lo + 1)) as [(i & (Hi & Hoi & Hf) & Hsc)|[Hf Hsc]]; [lia..| | |].
    + intros i Hi. replace (base + (lo + 1) + i) with (base + lo + (1 + i)) by lia. apply Hr. lia.
    + left. exists i. split; [|done]. split; [lia|]. split; [done|]. intros j Hj.
      destruct (decide (j = lo)) as [->|]; [done|]. apply Hf. lia.
    + right. split; [|done]. intros i Hi. destruct (decide (i = lo)) as [->|]; [done|]. apply Hf. lia.
Qed.

Lemma drive_serial_spec {P : Pool} {D : DiskApi} {L : DiskLaws D} s Serial MaxSize offset :
  kernel_wf s -> MaxSize <= 64 -> MaxSize <= zlen Serial ->
  zlen (query_descriptor query_header.2).2 <= query_header.2 ->
  (NT_SUCCESS (query_descriptor query_header.2).1 = true ->
   descriptor_wf ((query_descriptor query_header.2).2 ++
     drop (length (query_descriptor query_header.2).2) (replicate (Z.to_nat query_header.2) 0)) offset) ->
  exists s', GetHardDiskDriveSerialNumber Serial MaxSize s
      = Ok (disk_outcome (pool_grants (pool_requests s)) offset Serial MaxSize, s') /\
    held s' = held s /\ sent s' = sent s /\ kernel_wf s'.
Proof.
  intros Hwf H64 HS Hlen Hd. unfold GetHardDiskDriveSerialNumber, ZwOpenFile_, disk_outcome.
  pose proof open_stores_handle as Ho. destruct ZwOpenFile as [st handle]. cbn [fst snd] in *.
  destruct (NT_SUCCESS st) eqn:Hst; cbn [negb].
  2: { subst handle. erewrite KM_step by done. cbn beta iota. rewrite Hst. by exists s. }
  erewrite KM_step by done. cbn beta iota. rewrite Hst. cbn [negb].
  set (s1 := set_held _ s). assert (held s1 = held s ⊎ {[+ OpenHandle handle +]}) as H1 by done.
  destruct query_header as [st1 size]. cbn [fst snd] in *.
  destruct (NT_SUCCESS st1); cbn [negb].
  2: { rewrite (close_handle_spec s1 (held s)) by done. by eexists. }
  destruct (alloc_spec s1 size POOL_TAG_INTEGRITY Hwf) as (p & s2 & Ha & Hwf2 & Hs2 & _ & _ & Hp).
  rewrite (KM_step _ _ _ _ _ Ha). change (pool_requests s1) with (pool_requests s) in Hp.
  destruct (pool_grants (pool_requests s)); cbn [negb]; destruct Hp as [Hp Hh2].
  2: { subst p. rewrite Z.eqb_refl, (close_handle_spec s2 (held s)) by (done || by rewrite Hh2).
    eexists. split; [done|]. by split_and!. }
  rewrite (proj2 (Z.eqb_neq p 0)) by lia. rewrite H1 in Hh2.
  destruct (query_descriptor size) as [st2 bytes]. cbn [fst snd] in *.
  rewrite copy_to_ok by (rewrite length_replicate; unfold zlen in Hlen; lia). rewrite lift_step.
  destruct (NT_SUCCESS st2); cbn [negb].
  - rewrite (copy_serial_spec _ _ offset) by (done || auto). rewrite lift_step.
    rewrite (close_disk_spec s2 (held s)) by (done || lia). eexists. split; [done|]. by split_and!.
  - rewrite (close_disk_spec s2 (held s)) by (done || lia). eexists. split; [done|]. by split_and!.
Qed.

(** ** Properties *)

(** The serial number of the disk, on every branch.  The routine gives back the
    handle and the block, whatever fails, and reports the status of the call that
    failed; the buffer is changed only when the serial number is copied, with its
    terminator, and it is refused with [STATUS_BUFFER_TOO_SMALL] when it does not
    fit.  A descriptor without a serial number leaves the buffer as it was and
    counts as success.  The code takes it from the descriptor unchecked that the
    serial number lies inside the block: it is a hypothesis here. *)
Theorem drive_serial_number {P : Pool} {D : DiskApi} {L : DiskLaws D} s Serial MaxSize offset :
  kernel_wf s -> MaxSize <= 64 -> MaxSize <= zlen Serial ->
  zlen (query_descriptor query_header.2).2 <= query_header.2 ->
  (NT_SUCCESS (query_descriptor query_header.2).1 = true ->
   descriptor_wf ((query_descriptor query_header.2).2 ++
     drop (length (query_descriptor query_header.2).2) (replicate (Z.to_nat query_header.2) 0)) offset) ->
  exists s', GetHardDiskDriveSerialNumber Serial MaxSize s
      = Ok (disk_outcome (pool_grants (pool_requests s)) offset Serial MaxSize, s') /\
    held s' = held s /\ sent s' = sent s /\ kernel_wf s'.
Proof. exact (drive_serial_spec s Serial MaxSize offset). Qed.

(** The signature scan.  When the memory from the base on can be read for the
    length of the scan and of the signature, one byte more than the last comparison
    needs, the scan returns the address of the first of the [MaxLength] positions
    where the signature occurs, and a null pointer when there is none.  The
    position found may be so late that the signature ends past [MaxLength]. *)
Theorem signature_found_first m base MaxLength Signature :
  0 < base -> 0 <= MaxLength -> base + MaxLength + zlen Signature < 2 ^ 64 ->
  readable m base (Z.to_nat MaxLength + length Signature) ->
  (exists i, first_occurrence m base Signature 0 MaxLength i /\
     ScanForSignature m base MaxLength Signature = Ok (base + i)) \/
  ((forall i, 0 <= i < MaxLength -> ~ occurs m (base + i) Signature) /\
     ScanForSignature m base MaxLength Signature = Ok 0).
Proof.
  intros Hb Hm Hs Hr. unfold ScanForSignature. pose proof (scan_loop_spec m base Signature (Z.to_nat MaxLength) 0) as H.
  rewrite Z.add_0_r, Z2Nat.id in H by lia. by destruct H as [H|H]; [lia..|done|left|right].
Qed.

(** ** Witnesses *)

(** A descriptor of 48 bytes with the serial number AB at offset 40. *)
Definition sample_disk : DiskApi := {|
  ZwOpenFile := (STATUS_SUCCESS, 0x44);
  query_header := (STATUS_SUCCESS, 48);
  query_descriptor := fun _ => (STATUS_SUCCESS, replicate 24 0 ++ le_bytes 4 40 ++ replicate 12 0 ++ [65; 66; 0]) |}.

Lemma drive_serial_number_witness :
  exists s', GetHardDiskDriveSerialNumber (P := fun _ => true) (D := sample_disk) (replicate 64 0) 64
      (Kernel ∅ 0x1000 0 [] 0) = Ok ((STATUS_SUCCESS, [65; 66; 0] ++ replicate 61 0), s') /\ held s' = ∅.
Proof.
  destruct (drive_serial_number (P := fun _ => true) (D := sample_disk) (L := ltac:(done))
    (Kernel ∅ 0x1000 0 [] 0) (replicate 64 0) 64 40) as (s' & H & Hh & _).
  - reflexivity.
  - lia.
  - reflexivity || (vm_compute; discriminate).
  - vm_compute. discriminate.
  - intros _. split; [reflexivity|]. vm_compute. split; [split; discriminate|reflexivity].
  - exists s'. split; [exact H|exact Hh].
Defined.

(** The signature ends past the length of the scan. *)
Lemma signature_found_first_witness :
  ScanForSignature (mem_of 0x100 [1; 2; 3; 1; 2; 4; 0; 0; 0]) 0x100 4 [1; 2; 4] = Ok 0x103.
Proof.
  destruct (signature_found_first (mem_of 0x100 [1; 2; 3; 1; 2; 4; 0; 0; 0]) 0x100 4 [1; 2; 4])
    as [(i & (Hi & Ho & _) & H)|[Hn _]].
  - lia.
  - lia.
  - reflexivity.
  - intros i Hi. change (Z.of_nat (Z.to_nat 4 + length [1; 2; 4])) with 7 in Hi. unfold mem_of.
    apply znth_Some. change (zlen [1; 2; 3; 1; 2; 4; 0; 0; 0]) with 9. lia.
  - rewrite H. f_equal. specialize (Ho 2%nat 4 eq_refl). unfold mem_of in Ho.
    assert (i = 0 \/ i = 1 \/ i = 2 \/ i = 3) as [->|[->|[->| ->]]] by lia; by vm_compute in Ho.
  - exfalso. apply (Hn 3); [lia|]. intros i b Hi.
    destruct i as [|[|[|i]]]; try (injection Hi as <-; reflexivity). by destruct i.
Defined.
