(* ===== verification/Timer.v ===== *)
(** * callbacks.c, integrity.c: the periodic check of the driver itself

    A periodic timer's DPC queues a work item that compares the driver's dispatch
    routines and its image in memory with what they should be.  The timer, the DPC,
    the work item and the routine that frees them when the driver is unloaded run
    concurrently; their steps are the actions of a transition system. *)

From stdpp Require Import gmultiset.
From S2P Require Import Prelude Layout Irp Structs Kernel Modules Session Handles Lists.
From S2P Require Import Callbacks Hashing ModuleHash DriverList.

(** ** Data *)

(** The entries of [MajorFunction] of the driver's own driver object. *)
Record DISPATCH := Dispatch {
  IRP_MJ_CREATE : Z;
  IRP_MJ_CLOSE : Z;
  IRP_MJ_DEVICE_CONTROL : Z;
}.

(** The addresses of the dispatch routines in the image, and the work item the I/O
    manager allocates for the timer (0 when it has none). *)
Class TimerApi := {
  DeviceCreate : Z;
  DeviceClose : Z;
  DeviceControl : Z;
  IoAllocateWorkItem : Z;
}.

(** How far [CleanupDriverTimerObjects] has come. *)
Inductive phase := Loaded | Flushed | Waited | Cancelled | Freed.

#[export] Instance phase_eq_dec : EqDecision phase.
Proof. solve_decision. Defined.

(** What a run of the work item found: the dispatch routines are genuine, the status
    and the verdict on the image. *)
Definition check := (bool * NTSTATUS * option bool)%type.

(** [timer_state] and [timer_work_item] are fields of [TIMER_OBJECT]; [armed] and
    [dpc_queued] are the timer and its DPC, of which at most one is queued; [queued]
    and [running] are the work item's; [checks] what its runs found. *)
Record tsys := TSys {
  lists : lstate drv_ext;
  dispatch : DISPATCH;
  has_driver_loaded : bool;
  timer_state : bool;
  timer_work_item : Z;
  armed : bool;
  dpc_queued : bool;
  queued : bool;
  running : bool;
  unload : phase;
  checks : list check;
}.

Definition set_lists l (s : tsys) : tsys :=
  TSys l (dispatch s) (has_driver_loaded s) (timer_state s) (timer_work_item s) (armed s) (dpc_queued s)
    (queued s) (running s) (unload s) (checks s).
Definition set_state b (s : tsys) : tsys :=
  TSys (lists s) (dispatch s) (has_driver_loaded s) b (timer_work_item s) (armed s) (dpc_queued s)
    (queued s) (running s) (unload s) (checks s).
Definition set_timer_item w (s : tsys) : tsys :=
  TSys (lists s) (dispatch s) (has_driver_loaded s) (timer_state s) w (armed s) (dpc_queued s)
    (queued s) (running s) (unload s) (checks s).
Definition set_armed b (s : tsys) : tsys :=
  TSys (lists s) (dispatch s) (has_driver_loaded s) (timer_state s) (timer_work_item s) b (dpc_queued s)
    (queued s) (running s) (unload s) (checks s).
Definition set_dpc b (s : tsys) : tsys :=
  TSys (lists s) (dispatch s) (has_driver_loaded s) (timer_state s) (timer_work_item s) (armed s) b
    (queued s) (running s) (unload s) (checks s).
Definition set_item (q r : bool) (s : tsys) : tsys :=
  TSys (lists s) (dispatch s) (has_driver_loaded s) (timer_state s) (timer_work_item s) (armed s) (dpc_queued s)
    q r (unload s) (checks s).
Definition set_phase p (s : tsys) : tsys :=
  TSys (lists s) (dispatch s) (has_driver_loaded s) (timer_state s) (timer_work_item s) (armed s) (dpc_queued s)
    (queued s) (running s) p (checks s).
Definition add_check c (s : tsys) : tsys :=
  TSys (lists s) (dispatch s) (has_driver_loaded s) (timer_state s) (timer_work_item s) (armed s) (dpc_queued s)
    (queued s) (running s) (unload s) (checks s ++ [c]).

Abbreviation M := (KM tsys).

Definition in_lists {X} (m : KM (lstate drv_ext) X) : M X := fun s =>
  match m (lists s) with Ok (x, l) => Ok (x, set_lists l s) | Crash f => Crash f end.

Section operations.
Context {P : Pool} {A : SystemApi} {V : HandleApi} {H : HashApi} {G : ListHeads} {D : DriverApi}.
Context {T : TimerApi}.

(** ** Operations *)

Definition ValidateOurDriversDispatchRoutines (d : DISPATCH) : bool :=
  if negb (IRP_MJ_CREATE d =? DeviceCreate) || negb (IRP_MJ_CLOSE d =? DeviceClose) ||
     negb (IRP_MJ_DEVICE_CONTROL d =? DeviceControl) then false
  else true.

(** [driver_name] is the ANSI name in the driver configuration. *)
Definition TimerObjectWorkItemRoutine (driver_name : option string) : M unit :=
  active ← gets (fun s => driver_active (ext (lists s)));
  (if negb active then mret tt
   else
     genuine ← gets (fun s => ValidateOurDriversDispatchRoutines (dispatch s));
     '(status, verdict) ← in_lists (ValidateOurDriverImage driver_name);
     modify (add_check (genuine, status, verdict))) ≫= fun _ =>
  modify (set_state false).

(** [IoQueueWorkItem] and [IoFreeWorkItem] use the item's memory; freeing a queued
    item is a bug check. *)
Definition IoQueueWorkItem (item : Z) : M unit := fun s =>
  if decide (WorkItem item ∈ Kernel.held (kern (lists s))) then Ok (tt, set_item true (running s) s)
  else Crash UnmappedRead.
Definition IoFreeWorkItem (item : Z) : M unit := fun s =>
  if queued s then Crash BadFree else in_lists (in_kernel (release (WorkItem item))) s.

Definition TimerObjectCallbackRoutine : M unit :=
  loaded ← gets has_driver_loaded;
  if negb loaded then mret tt
  else
    busy ← gets timer_state;
    if busy : bool then mret tt
    else
      modify (set_state true) ≫= fun _ =>
      item ← gets timer_work_item;
      IoQueueWorkItem item.

Definition InitialiseTimerObject : M NTSTATUS :=
  modify (set_timer_item IoAllocateWorkItem) ≫= fun _ =>
  if IoAllocateWorkItem =? 0 then mret STATUS_MEMORY_NOT_ALLOCATED
  else
    in_lists (in_kernel (acquire (WorkItem IoAllocateWorkItem))) ≫= fun _ =>
    modify (set_armed true) ≫= fun _ =>
    mret STATUS_SUCCESS.

(** The part of [CleanupDriverTimerObjects] that runs next: [None] while it waits,
    for the DPC to be executed or for the work item to finish, and when it is
    done. *)
Definition CleanupDriverTimerObjects (s : tsys) : option (res tsys) :=
  match unload s with
  | Loaded => if dpc_queued s then None else Some (Ok (set_phase Flushed s))
  | Flushed => if timer_state s then None else Some (Ok (set_phase Waited s))
  | Waited => Some (Ok (set_phase Cancelled (set_armed false s)))
  | Cancelled =>
      Some (match IoFreeWorkItem (timer_work_item s) s with
            | Ok (_, s) => Ok (set_phase Freed s)
            | Crash f => Crash f
            end)
  | Freed => None
  end.

(** ** Steps *)

(** The timer expires; the DPC runs; the work item is taken from the queue; its
    routine runs; the unload routine makes progress. *)
Inductive action := Expire | RunDpc | Dequeue | RunItem | Unload.

#[export] Instance action_eq_dec : EqDecision action.
Proof. solve_decision. Defined.

Definition to_step {X} (r : res (X * tsys)) : res tsys :=
  match r with Ok (_, s) => Ok s | Crash f => Crash f end.

Definition tstep (driver_name : option string) (a : action) (s : tsys) : option (res tsys) :=
  match a with
  | Expire => if armed s then Some (Ok (set_dpc true s)) else None
  | RunDpc => if dpc_queued s then Some (to_step (TimerObjectCallbackRoutine (set_dpc false s))) else None
  | Dequeue => if queued s then Some (Ok (set_item false true s)) else None
  | RunItem =>
      if running s then Some (to_step (TimerObjectWorkItemRoutine driver_name (set_item (queued s) false s)))
      else None
  | Unload => CleanupDriverTimerObjects s
  end.

(** A schedule; actions that are not possible are passed over. *)
Fixpoint run (driver_name : option string) (l : list action) (s : tsys) : res tsys :=
  match l with
  | [] => Ok s
  | a :: l =>
      match tstep driver_name a s with
      | None => run driver_name l s
      | Some (Ok s) => run driver_name l s
      | Some (Crash f) => Crash f
      end
  end.

End operations.

(** ** Specification *)

Section specification.
Context {P : Pool} {A : SystemApi} {V : HandleApi} {H : HashApi} {G : ListHeads} {D : DriverApi}.
Context {T : TimerApi} {HL : HashLaws H} {DL : DriverLaws D}.
Context (name : string) (l0 : lstate drv_ext).
Context (dl : list Z) (es : list DRIVER_LIST_ENTRY) (pl : list Z) (pes : list PROCESS_LIST_ENTRY).

(** The modules the driver's name is found in can be hashed, and the entries have
    room for a hash. *)
Record image_ok : Prop := {
  io_drivers : drivers l0 dl es pl pes;
  io_module info : info ∈ modules loaded_modules -> strstr (FullPathName info) name = true ->
    exists visited, module_ok (x86_ok l0) info pes visited;
  io_hash : Forall (fun e => zlen (text_hash e) = SHA_256_HASH_LENGTH) es;
}.

(** The check of the image never faults and keeps the resources. *)
Lemma our_image_spec k :
  image_ok -> kernel_wf k ->
  exists status v k', ValidateOurDriverImage (Some name) (set_kern k l0) = Ok ((status, v), set_kern k' l0) /\
    keeps k k'.
Proof.
  intros [Hd Hmod Hhash] Hk. unfold ValidateOurDriverImage.
  destruct (GetSystemModuleInformation_spec k Hk) as (status & m & k1 & H1 & W1 & S1 & _ & O1 & _).
  erewrite in_kernel_step by exact H1. cbn beta iota. rewrite set_kern_idem.
  destruct (NT_SUCCESS status) eqn:Est; cbn [negb].
  2: { exists status, None, k1. split; [done|]. destruct O1 as [(_ & _ & Hh)|[(-> & _)|(? & _)]]; [|done|congruence].
    split; [done|done|]. exists ∅. by rewrite (right_id_L ∅ (⊎)). }
  cbn [default]. change (default no_modules (Some m)) with m.
  assert (exists status' v a k2, validate_driver_module (Some name) m status (set_kern k1 l0)
      = Ok ((status', v, a), set_kern k2 l0) /\
    exists k3, (when (negb (a =? 0)) (ExFreePoolWithTag a POOL_TAG_INTEGRITY)) k2 = Ok (tt, k3) /\ keeps k1 k3)
    as (status' & v & a & k2 & H2 & k3 & H3 & K3).
  { unfold validate_driver_module. rewrite FindSystemModuleByName_spec.
    destruct (head _) as [info|] eqn:Ehd.
    2: { exists status, None, 0, k1. split; [done|]. exists k1. split; [done|]. by apply keeps_refl. }
    apply head_Some_elem_of, list_elem_of_filter in Ehd as [Hname Hin].
    assert (info ∈ modules loaded_modules) as Hin'.
    { destruct O1 as [(_ & -> & _)|[(_ & _ & -> & _)|(_ & _ & _ & <- & _)]]; [by apply elem_of_nil in Hin..|done]. }
    destruct (Hmod info Hin' Hname) as [visited Hok].
    destruct (alloc_spec k1 SHA_256_HASH_LENGTH POOL_TAG_INTEGRITY W1) as (a & k2 & H2 & W2 & S2 & _ & _ & Hh2).
    erewrite in_kernel_step by exact H2. rewrite set_kern_idem.
    destruct (pool_grants (pool_requests k1)); destruct Hh2 as [Ha Hh2].
    2: { subst a. exists status, None, 0, k2. split; [done|]. exists k2. split; [done|].
      split; [done|done|]. exists ∅. by rewrite (right_id_L ∅ (⊎)). }
    rewrite (proj2 (Z.eqb_neq a 0)) by lia.
    assert (forall k2', keeps k2 k2' -> exists k3, when (negb (a =? 0)) (ExFreePoolWithTag a POOL_TAG_INTEGRITY) k2'
      = Ok (tt, k3) /\ keeps k1 k3) as Hfree.
    { intros k2' K2. rewrite (proj2 (Z.eqb_neq a 0)) by lia. by apply (release_kept _ k1 k2). }
    assert (drivers (set_kern k2 l0) dl es pl pes) as D2 by by apply drivers_kern.
    rewrite (KM_step _ _ _ _ _ (search_driver _ _ _ _ _ _ D2)).
    destruct (Z.eqb_spec (first_address (fun e => entry_base e =? ImageBase info) dl es) 0) as [|Hne].
    { exists status, None, a, k2. split; [done|]. apply Hfree. by apply keeps_refl. }
    destruct (first_address_entry (next l0) (driver_entries (ext l0)) _ dl es driver_head (slist_chain _ _ _ (dr_list _ _ _ _ _ Hd))
      (dr_entries _ _ _ _ _ Hd) Hne) as (e & He & Hine & Hal & _).
    erewrite KM_step by (by apply read_entry_ok).
    destruct (hashed e); cbn [negb].
    2: { exists STATUS_HASH_NOT_PRESENT, None, a, k2. split; [done|]. apply Hfree. by apply keeps_refl. }
    destruct (hash_and_compare (set_kern k2 l0) dl es pl pes info visited e _ (fun st v => (st, v, a))
      (fun st v => (st, v, a)) D2 Hok Hne Hal He) as (st & v & k4 & H4 & K4 & _ & _).
    { eapply Forall_forall in Hhash; [exact Hhash|done]. }
    exists st, v, a, k4. rewrite H4. split; [by destruct v|]. by apply Hfree. }
  rewrite (KM_step _ _ _ _ _ H2). cbn beta iota. erewrite in_kernel_step by exact H3. rewrite set_kern_idem.
  destruct (decide (address m = 0)) as [Hm0|Hm0].
  - exists status', v, k3. assert (Kernel.held k1 = Kernel.held k) as Hh.
    { destruct O1 as [(_ & _ & ?)|[(_ & _ & _ & ?)|(_ & _ & ? & _)]]; [done|done|lia]. }
    assert (free_module_list m k3 = Ok (tt, k3)) as H5.
    { unfold free_module_list. by rewrite (proj2 (Z.eqb_eq _ 0) Hm0). }
    erewrite in_kernel_step by exact H5. split; [done|]. eapply keeps_trans; [|exact K3]. split; [done|done|]. exists ∅. by rewrite (right_id_L ∅ (⊎)).
  - destruct (free_modules_kept k k1 k3 status m O1 S1) as (k5 & H5 & K5); [|done|].
    { destruct O1 as [(_ & -> & _)|[(_ & _ & -> & _)|(_ & _ & ? & _)]]; [done|done|done]. }
    erewrite in_kernel_step by exact H5. by exists status', v, k5.
Qed.

(** *** The transition system *)

Context (w : Z).

(** The work item is queued or running exactly while the state is set, and never
    both; the unload routine's waits have the effect they wait for.  Only the
    kernel state changes in [lists]. *)
Record tinv (s : tsys) : Prop := {
  ti_lists : exists k, lists s = set_kern k l0 /\ kernel_wf k /\
    (unload s <> Freed -> WorkItem w ∈ Kernel.held k);
  ti_item : timer_work_item s = w;
  ti_state : timer_state s = queued s || running s;
  ti_one : queued s && running s = false;
  ti_flushed : unload s <> Loaded -> dpc_queued s = false;
  ti_waited : unload s <> Loaded -> unload s <> Flushed -> timer_state s = false;
}.

(** The timer does not expire between the flush of the DPCs and the cancellation. *)
Fixpoint quiet (l : list action) (s : tsys) : Prop :=
  match l with
  | [] => True
  | a :: l =>
      (a = Expire -> armed s = true -> unload s = Loaded) /\
      match tstep (Some name) a s with
      | None => quiet l s
      | Some (Ok s) => quiet l s
      | Some (Crash _) => True
      end
  end.

(** What the DPC leaves. *)
Definition after_dpc (s : tsys) : tsys :=
  if has_driver_loaded s && negb (timer_state s)
  then set_item true (running s) (set_state true (set_dpc false s)) else set_dpc false s.

Lemma timer_dpc_spec s :
  tinv s -> dpc_queued s = true ->
  TimerObjectCallbackRoutine (set_dpc false s) = Ok (tt, after_dpc s) /\ tinv (after_dpc s).
Proof.
  intros [(k & Hl & Hk & Hin) Hw Hs Ho Hf Hi] Hd. unfold TimerObjectCallbackRoutine, after_dpc.
  assert (unload s = Loaded) as Hu by (destruct (unload s) eqn:E; [done|..]; by rewrite Hf in Hd).
  erewrite KM_step by done. cbn [has_driver_loaded set_dpc].
  destruct (has_driver_loaded s); cbn [negb andb].
  2: { split; [done|]. split; cbn; try done. by exists k. }
  erewrite KM_step by done. cbn [timer_state set_dpc]. destruct (timer_state s) eqn:Ets; cbn [negb].
  - split; [done|]. split; cbn; try done; [by exists k|congruence].
  - split.
    + erewrite KM_step by done. erewrite KM_step by done. unfold IoQueueWorkItem.
      rewrite decide_True; [done|]. cbn. rewrite Hl, Hw. apply Hin. by rewrite Hu.
    + symmetry in Hs. apply orb_false_iff in Hs as [Hq Hr]. split; cbn; try done; try (by exists k); try (by rewrite Hr).
Qed.

Lemma timer_item_spec s :
  image_ok -> tinv s -> running s = true ->
  exists s', TimerObjectWorkItemRoutine (Some name) (set_item (queued s) false s) = Ok (tt, s') /\ tinv s' /\
    timer_state s' = false /\ unload s' = unload s /\ dpc_queued s' = dpc_queued s /\ armed s' = armed s.
Proof.
  intros Hok [(k & Hl & Hk & Hin) Hw Hs Ho Hf Hi] Hr. unfold TimerObjectWorkItemRoutine.
  assert (queued s = false) as Hq by (destruct (queued s); [by rewrite Hr in Ho|done]).
  erewrite KM_step by done. cbn [lists set_item].
  destruct (driver_active (ext (lists s))); cbn [negb].
  - destruct (our_image_spec k Hok Hk) as (status & v & k' & H1 & K1).
    unfold mbind at 1, KM_bind at 1. erewrite KM_step by done.
    erewrite KM_step by (unfold in_lists; cbn [lists set_item]; by rewrite Hl, H1).
    cbn beta iota. eexists. split; [done|]. split_and!; try done.
    split; cbn; try done; [|by rewrite Hq..].
    exists k'. split; [done|]. split; [apply K1|]. intros Hu. destruct K1 as [_ _ (x & -> & _)].
    specialize (Hin Hu). multiset_solver.
  - eexists. split; [done|]. split_and!; try done. split; cbn; try done; [by exists k|by rewrite Hq..].
Qed.

Lemma timer_free_spec s :
  tinv s -> unload s = Cancelled ->
  exists s', CleanupDriverTimerObjects s = Some (Ok s') /\ tinv s' /\ unload s' = Freed.
Proof.
  intros [(k & Hl & Hk & Hin) Hw Hs Ho Hf Hi] Hu. unfold CleanupDriverTimerObjects. rewrite Hu.
  assert (timer_state s = false) as Ht by (apply Hi; by rewrite Hu).
  rewrite Ht in Hs. symmetry in Hs. apply orb_false_iff in Hs as [Hq Hr].
  unfold IoFreeWorkItem. rewrite Hq. unfold in_lists. rewrite Hl, Hw.
  rewrite (in_kernel_ok _ (set_kern k l0) tt (set_held (Kernel.held k ∖ {[+ WorkItem w +]}) k)).
  2: { apply release_spec, Hin. by rewrite Hu. }
  eexists. split; [done|]. split; [|done]. split; cbn; try done.
  - exists (set_held (Kernel.held k ∖ {[+ WorkItem w +]}) k). by rewrite set_kern_idem.
  - by rewrite Ht, Hq, Hr.
  - intros _. apply Hf. by rewrite Hu.
Qed.

(** Every step that is possible keeps the invariant. *)
Lemma timer_step_spec s a r :
  image_ok -> tinv s -> (a = Expire -> armed s = true -> unload s = Loaded) ->
  tstep (Some name) a s = Some r -> exists s', r = Ok s' /\ tinv s'.
Proof.
  intros Hok Hinv Hq. pose proof Hinv as [(k & Hl & Hk & Hin) Hw Hs Ho Hf Hi].
  destruct a; cbn [tstep].
  - destruct (armed s); [|done]. intros [= <-]. specialize (Hq eq_refl eq_refl).
    eexists. split; [done|]. split; cbn; try done; by exists k.
  - destruct (dpc_queued s) eqn:E; [|done]. intros [= <-]. destruct (timer_dpc_spec s Hinv E) as [-> Hn].
    by eexists.
  - destruct (queued s) eqn:E; [|done]. intros [= <-]. eexists. split; [done|].
    cbn in Hs, Ho. split; cbn; try done. by exists k.
  - destruct (running s) eqn:E; [|done]. intros [= <-]. destruct (timer_item_spec s Hok Hinv E) as (s' & -> & Hn & _).
    by exists s'.
  - unfold CleanupDriverTimerObjects. destruct (unload s) eqn:Hu.
    + destruct (dpc_queued s) eqn:E; [done|]. intros [= <-]. eexists. split; [done|].
      split; cbn; try done. exists k. split_and!; auto.
    + destruct (timer_state s) eqn:E; [done|]. intros [= <-]. eexists. split; [done|].
      split; cbn; try done; [exists k; split_and!; auto|congruence|intros _; by apply Hf].
    + intros [= <-]. eexists. split; [done|]. split; cbn; try done; [exists k; split_and!; auto|..].
      * intros _. by apply Hf.
      * intros _ _. by apply Hi.
    + destruct (timer_free_spec s Hinv Hu) as (s' & Hc & Hn & _). unfold CleanupDriverTimerObjects in Hc.
      rewrite Hu in Hc. rewrite Hc. intros [= <-]. by exists s'.
    + done.
Qed.

Lemma timer_run_spec l : forall s,
  image_ok -> tinv s -> quiet l s -> exists s', run (Some name) l s = Ok s' /\ tinv s'.
Proof.
  induction l as [|a l IH]; intros s Hok Hinv Hq; [by exists s|]. cbn [run quiet] in *.
  destruct Hq as [Ha Hq]. destruct (tstep (Some name) a s) as [r|] eqn:E; [|by apply IH].
  destruct (timer_step_spec s a r Hok Hinv Ha E) as (s1 & -> & Hinv1). by apply IH.
Qed.

(** Only the unload routine changes its phase. *)
Lemma tstep_unload a s s1 :
  a <> Unload -> tstep (Some name) a s = Some (Ok s1) -> unload s1 = unload s.
Proof.
  intros Ha. destruct a; cbn [tstep]; try done.
  - destruct (armed s); [|done]. by intros [= <-].
  - destruct (dpc_queued s); [|done]. unfold TimerObjectCallbackRoutine. munfold. cbn.
    destruct (has_driver_loaded s); cbn; [|by intros [= <-]].
    destruct (timer_state s); cbn; [by intros [= <-]|]. unfold IoQueueWorkItem.
    case_decide; [|done]. by intros [= <-].
  - destruct (queued s); [|done]. by intros [= <-].
  - destruct (running s); [|done]. unfold TimerObjectWorkItemRoutine. munfold. cbn.
    destruct (driver_active (ext (lists s))); cbn; [|by intros [= <-]]. unfold in_lists. cbn.
    destruct (ValidateOurDriverImage (Some name) (lists s)) as [[[st v] l]|]; cbn; [|done]. by intros [= <-].
Qed.

(** Before the unload routine starts every schedule is quiet. *)
Lemma quiet_loaded l : forall s, Unload ∉ l -> unload s = Loaded -> quiet l s.
Proof.
  induction l as [|a l IH]; intros s Hl Hu; [done|]. rewrite not_elem_of_cons in Hl. destruct Hl as [Ha Hl].
  cbn [quiet]. split; [done|]. destruct (tstep (Some name) a s) as [[s1|]|] eqn:E; [|done|by apply IH].
  apply IH; [done|]. by rewrite (tstep_unload a s s1).
Qed.

Lemma run_cons a l s s1 :
  tstep (Some name) a s = Some (Ok s1) -> run (Some name) (a :: l) s = run (Some name) l s1.
Proof. intros E. cbn [run]. by rewrite E. Qed.

Lemma run_app l1 l2 s s1 :
  run (Some name) l1 s = Ok s1 -> run (Some name) (l1 ++ l2) s = run (Some name) l2 s1.
Proof.
  revert s. induction l1 as [|a l1 IH]; intros s; cbn [run app]; [by intros [= ->]|].
  destruct (tstep (Some name) a s) as [[s2|]|]; [apply IH|done|apply IH].
Qed.

(** Letting the DPC and the work item run. *)
Lemma settle_spec s :
  image_ok -> tinv s ->
  exists s', run (Some name) [RunDpc; Dequeue; RunItem] s = Ok s' /\ tinv s' /\
    dpc_queued s' = false /\ timer_state s' = false.
Proof.
  intros Hok Hinv.
  assert (exists s1, run (Some name) [RunDpc] s = Ok s1 /\ tinv s1 /\ dpc_queued s1 = false) as (s1 & H1 & I1 & D1).
  { cbn [run tstep]. destruct (dpc_queued s) eqn:E; [|by exists s]. destruct (timer_dpc_spec s Hinv E) as [-> Hn].
    eexists. split; [done|]. split; [done|]. unfold after_dpc. by destruct (_ && _). }
  assert (exists s2, run (Some name) [Dequeue] s1 = Ok s2 /\ tinv s2 /\ dpc_queued s2 = false /\ queued s2 = false)
    as (s2 & H2 & I2 & D2 & Q2).
  { cbn [run]. destruct (tstep (Some name) Dequeue s1) as [r|] eqn:E.
    - destruct (timer_step_spec s1 Dequeue r Hok I1 ltac:(done) E) as (s2 & -> & I2). exists s2. split; [done|].
      split; [done|]. cbn in E. destruct (queued s1); by simplify_eq/=.
    - exists s1. cbn in E. by destruct (queued s1). }
  assert (exists s3, run (Some name) [RunItem] s2 = Ok s3 /\ tinv s3 /\ dpc_queued s3 = false /\ timer_state s3 = false)
    as (s3 & H3 & I3 & D3 & T3).
  { cbn [run tstep]. destruct (running s2) eqn:E.
    - destruct (timer_item_spec s2 Hok I2 E) as (s3 & -> & I3 & T3 & _ & D3 & _). exists s3. split_and!; try done. congruence.
    - exists s2. split_and!; try done. by rewrite (ti_state _ I2), Q2, E. }
  exists s3. split; [|done]. change [RunDpc; Dequeue; RunItem] with ([RunDpc] ++ [Dequeue] ++ [RunItem]).
  by rewrite (run_app _ _ _ _ H1), (run_app _ _ _ _ H2).
Qed.

(** The unload routine, with nothing left to wait for. *)
Lemma timer_cleanup_spec s :
  tinv s -> dpc_queued s = false -> timer_state s = false ->
  exists s', run (Some name) [Unload; Unload; Unload; Unload] s = Ok s' /\ unload s' = Freed /\ tinv s'.
Proof.
  intros Hinv Hd Ht. pose proof Hinv as [(k & Hl & Hk & Hin) Hw Hs Ho Hf Hi].
  assert (forall s, tinv s -> unload s = Cancelled -> forall n, exists s',
    run (Some name) (Unload :: replicate n Unload) s = Ok s' /\ unload s' = Freed /\ tinv s') as Hfree.
  { intros s1 I1 U1 n. destruct (timer_free_spec s1 I1 U1) as (s2 & H2 & I2 & U2).
    cbn [run tstep]. rewrite H2. exists s2. split; [|done]. induction n; [done|]. cbn [replicate run tstep].
    unfold CleanupDriverTimerObjects. by rewrite U2. }
  assert (forall p, p = Cancelled -> unload s <> Freed -> tinv (set_phase p (set_armed false s))) as Hc.
  { intros p -> Hne. split; cbn; try done. exists k. auto. }
  assert (unload s = Loaded -> tstep (Some name) Unload s = Some (Ok (set_phase Flushed s))) as C1.
  { intros Hu. cbn [tstep]. unfold CleanupDriverTimerObjects. by rewrite Hu, Hd. }
  assert (forall s, unload s = Flushed -> timer_state s = false ->
    tstep (Some name) Unload s = Some (Ok (set_phase Waited s))) as C2.
  { intros s1 U T1. cbn [tstep]. unfold CleanupDriverTimerObjects. by rewrite U, T1. }
  assert (forall s, unload s = Waited -> tstep (Some name) Unload s = Some (Ok (set_phase Cancelled (set_armed false s))))
    as C3.
  { intros s1 U. cbn [tstep]. unfold CleanupDriverTimerObjects. by rewrite U. }
  destruct (unload s) eqn:Hu.
  - rewrite (run_cons _ _ _ _ (C1 eq_refl)), (run_cons _ _ _ _ (C2 (set_phase Flushed s) eq_refl Ht)),
      (run_cons _ _ _ _ (C3 (set_phase Waited (set_phase Flushed s)) eq_refl)).
    exact (Hfree _ (Hc Cancelled eq_refl ltac:(done)) eq_refl 0%nat).
  - rewrite (run_cons _ _ _ _ (C2 s Hu Ht)), (run_cons _ _ _ _ (C3 (set_phase Waited s) eq_refl)).
    exact (Hfree _ (Hc Cancelled eq_refl ltac:(done)) eq_refl 1%nat).
  - rewrite (run_cons _ _ _ _ (C3 s Hu)). exact (Hfree _ (Hc Cancelled eq_refl ltac:(done)) eq_refl 2%nat).
  - exact (Hfree s Hinv Hu 3%nat).
  - exists s. cbn [run tstep]. unfold CleanupDriverTimerObjects. by rewrite Hu.
Qed.

End specification.

(** Before the timer is set up. *)
Record fresh_timer (s : tsys) : Prop := {
  ft_state : timer_state s = false;
  ft_dpc : dpc_queued s = false;
  ft_item : queued s = false /\ running s = false;
  ft_unload : unload s = Loaded;
}.

Lemma initialise_timer_spec {D : DriverApi} {T : TimerApi} s :
  fresh_timer s -> kernel_wf (kern (lists s)) -> IoAllocateWorkItem <> 0 ->
  exists s', InitialiseTimerObject s = Ok (STATUS_SUCCESS, s') /\ armed s' = true /\
    tinv (lists s) IoAllocateWorkItem s'.
Proof.
  intros [Hs Hd [Hq Hr] Hu] Hk Hw. unfold InitialiseTimerObject. erewrite KM_step by done.
  rewrite (proj2 (Z.eqb_neq _ 0)) by done.
  set (k := set_held (Kernel.held (kern (lists s)) ⊎ {[+ WorkItem IoAllocateWorkItem +]}) (kern (lists s))).
  set (s1 := set_lists (set_kern k (lists s)) (set_timer_item IoAllocateWorkItem s)).
  rewrite (KM_step _ _ _ tt s1); [|done]. erewrite KM_step by done.
  eexists. split; [done|]. split; [done|]. split; cbn; try done.
  - exists k. split; [done|]. split; [done|]. intros _. cbn. multiset_solver.
  - by rewrite Hs, Hq, Hr.
  - by rewrite Hq.
Qed.

Lemma initialise_keeps_phase {T : TimerApi} s s1 status :
  InitialiseTimerObject s = Ok (status, s1) -> unload s1 = unload s.
Proof.
  unfold InitialiseTimerObject. munfold. cbn. destruct (IoAllocateWorkItem =? 0); cbn; by intros [= _ <-].
Qed.

(** The DPC, when the work item is idle. *)
Lemma idle_dpc {T : TimerApi} s :
  has_driver_loaded s = true -> timer_state s = false ->
  TimerObjectCallbackRoutine s = IoQueueWorkItem (timer_work_item s) (set_state true s).
Proof. intros Hl Ht. destruct s. cbn in *. by subst. Qed.

(** ** Properties *)

(** C24: the timer's objects, as long as the timer does not expire while the unload
    routine is between its flush and its cancellation.  Whatever the order in which
    the timer expires, its DPC and its work item run and the driver is unloaded,
    nothing faults: the work item is queued at most once, is never freed while it is
    queued, and the state of the timer says whether it is queued or running.  From
    every state that is reached the unload routine comes to its end, after the DPC
    and the work item have run. *)
Theorem timer_objects_safe_if_quiet {P : Pool} {A : SystemApi} {V : HandleApi} {H : HashApi} {G : ListHeads}
  {D : DriverApi} {T : TimerApi} {HL : HashLaws H} {DL : DriverLaws D} name s0 dl es pl pes :
  image_ok name (lists s0) dl es pl pes -> fresh_timer s0 -> IoAllocateWorkItem <> 0 ->
  exists s, InitialiseTimerObject s0 = Ok (STATUS_SUCCESS, s) /\
    forall l, quiet name l s -> exists s', run (Some name) l s = Ok s' /\
      queued s' && running s' = false /\ timer_state s' = queued s' || running s' /\
      exists s'', run (Some name) [RunDpc; Dequeue; RunItem; Unload; Unload; Unload; Unload] s' = Ok s'' /\
        unload s'' = Freed.
Proof.
  intros Hok Hf Hw.
  destruct (initialise_timer_spec s0 Hf (dr_kernel _ _ _ _ _ (io_drivers _ _ _ _ _ _ Hok)) Hw) as (s & H1 & _ & I1).
  exists s. split; [exact H1|]. intros l Hl.
  destruct (timer_run_spec name _ dl es pl pes _ l s Hok I1 Hl) as (s' & H2 & I2). exists s'. split; [exact H2|].
  split; [by eapply ti_one|]. split; [by eapply ti_state|].
  destruct (settle_spec name _ dl es pl pes _ s' Hok I2) as (s2 & H3 & I3 & D3 & T3).
  destruct (timer_cleanup_spec name _ _ s2 I3 D3 T3) as (s3 & H4 & U4 & _). exists s3. split; [|exact U4].
  change [RunDpc; Dequeue; RunItem; Unload; Unload; Unload; Unload]
    with ([RunDpc; Dequeue; RunItem] ++ [Unload; Unload; Unload; Unload]).
  by rewrite (run_app name _ _ _ _ H3).
Qed.

(** The race of the unload routine with the timer.  From every state in which the
    driver is loaded and the timer armed and idle, an expiry after the flush of the
    DPCs leads to a fault: the work item is freed while it is queued when the DPC
    runs before the item is freed, and used after it was freed when the DPC runs
    later.  The cancellation of the timer comes after the flush and the wait, where
    it would have to come first. *)
Theorem late_expiry_faults {P : Pool} {A : SystemApi} {V : HandleApi} {H : HashApi} {G : ListHeads}
  {D : DriverApi} {T : TimerApi} name s :
  unload s = Loaded -> armed s = true -> has_driver_loaded s = true -> timer_state s = false ->
  dpc_queued s = false -> queued s = false ->
  multiplicity (WorkItem (timer_work_item s)) (Kernel.held (kern (lists s))) = 1%nat ->
  run name [Unload; Unload; Expire; RunDpc; Unload; Unload] s = Crash BadFree /\
  run name [Unload; Unload; Expire; Unload; Unload; RunDpc] s = Crash UnmappedRead.
Proof.
  intros Hu Ha Hl Ht Hd Hq Hm. set (w := timer_work_item s) in *.
  assert (WorkItem w ∈ Kernel.held (kern (lists s))) as Hin by (apply elem_of_multiplicity; lia).
  destruct s as [ls d loaded st item arm dpc q r u c]. cbn in *. subst.
  split; cbn [run tstep CleanupDriverTimerObjects unload dpc_queued timer_state armed set_phase set_dpc set_armed].
  - rewrite idle_dpc by done. unfold IoQueueWorkItem. rewrite decide_True by done. done.
  - unfold IoFreeWorkItem, in_lists. cbn [queued lists timer_work_item set_phase set_armed set_dpc].
    rewrite (in_kernel_ok _ ls tt _ (release_spec _ _ Hin)). cbn [run tstep dpc_queued set_lists set_phase].
    rewrite idle_dpc by done. unfold IoQueueWorkItem. rewrite decide_False; [done|]. cbn.
    change (WorkItem item ∉ Kernel.held (kern ls) ∖ {[+ WorkItem item +]}).
    rewrite elem_of_multiplicity, multiplicity_difference, multiplicity_singleton, decide_True by done.
    change (multiplicity (WorkItem item) (Kernel.held (kern ls)) = 1%nat) in Hm. lia.
Qed.

(** ** Witnesses *)

Definition timer_api : TimerApi := {|
  DeviceCreate := 0x7001; DeviceClose := 0x7002; DeviceControl := 0x7003; IoAllocateWorkItem := 0x99 |}.

Definition timer_system : tsys :=
  TSys (driver_state true idle_kernel [sample_driver_entry 7] []) (Dispatch 0x7001 0x7002 0x7003) true false 0
    false false false false Loaded [].

Lemma sample_image_ok :
  image_ok (A := three_modules) (V := winlogon_api true) (G := sample_heads) (D := sample_driver_api) "ac.sys"
    (lists timer_system) [0x700] [sample_driver_entry 7] [0x300] [ProcessEntry 0x500 4].
Proof.
  split.
  - by apply sample_drivers.
  - intros info. vm_compute (modules loaded_modules). rewrite !elem_of_cons, elem_of_nil.
    intros [->|[->|[->|[]]]] Hn; try (by vm_compute in Hn). exists [sample_section]. by apply sample_module_ok.
  - by repeat constructor.
Qed.

Lemma timer_objects_safe_if_quiet_witness :
  exists s s', InitialiseTimerObject (T := timer_api) timer_system = Ok (STATUS_SUCCESS, s) /\
    run (P := always_grants) (A := three_modules) (V := winlogon_api true) (H := sample_hash) (G := sample_heads)
      (D := sample_driver_api) (T := timer_api) (Some "ac.sys"%string) [Expire; RunDpc; Dequeue; Expire; RunDpc] s
    = Ok s' /\ queued s' && running s' = false.
Proof.
  destruct (timer_objects_safe_if_quiet (P := always_grants) (A := three_modules) (V := winlogon_api true)
    (H := sample_hash) (G := sample_heads) (D := sample_driver_api) (T := timer_api) (HL := sample_hash_laws)
    (DL := sample_driver_laws) "ac.sys" timer_system _ _ _ _ sample_image_ok) as (s & Hs & Hr).
  - by split.
  - done.
  - destruct (Hr [Expire; RunDpc; Dequeue; Expire; RunDpc]) as (s' & H1 & H2 & _).
    + apply quiet_loaded; [set_solver|]. by apply (initialise_keeps_phase timer_system s) in Hs.
    + exists s, s'. split; [exact Hs|]. split; [exact H1|exact H2].
Defined.

Definition armed_system : tsys :=
  TSys (driver_state true (Kernel {[+ WorkItem 0x99 +]} 0x1000 0 [] 0) [sample_driver_entry 7] [])
    (Dispatch 0x7001 0x7002 0x7003) true false 0x99 true false false false Loaded [].

Lemma late_expiry_faults_witness :
  run (P := always_grants) (A := three_modules) (V := winlogon_api true) (H := sample_hash) (G := sample_heads)
    (D := sample_driver_api) (T := timer_api) (Some "ac.sys"%string)
    [Unload; Unload; Expire; RunDpc; Unload; Unload] armed_system = Crash BadFree.
Proof.
  apply (late_expiry_faults (P := always_grants) (A := three_modules) (V := winlogon_api true)
    (H := sample_hash) (G := sample_heads) (D := sample_driver_api) (T := timer_api)); reflexivity.
Defined.
