(* ===== verification/ApcStackwalk.v ===== *)
(** * modules.c, io.c: stack walks by asynchronous procedure calls

    An APC is queued to each system thread of the thread list; when it runs, the
    stack of the thread is captured and each frame outside the system modules is
    reported.  Contexts and APCs are those of Apc.v, the thread list that of
    Callbacks.v; their interleavings with the periodic query are in Apc.v. *)

From stdpp Require Import gmultiset.
From S2P Require Import Prelude Layout Irp Structs Kernel Modules Session Nmi Handles Lists.
From S2P Require Import Apc Callbacks.

(** ** Data *)

Definition POOL_TAG_APC : Z := 0x61706363.
Definition STACK_FRAME_POOL_SIZE : Z := 0x200.
Definition KTHREAD_MISC_FLAGS_OFFSET : Z := 0x074.
Definition KTHREAD_MISC_FLAGS_APC_QUEUEABLE : Z := 14.
Definition KTHREAD_MISC_FLAGS_ALERTABLE : Z := 4.
Definition APC_OPERATION_STACKWALK : Z := 0x1.

(** An APC in the queue of a thread; its third argument is the context. *)
Record queued_apc := QueuedApc {
  apc_object : Z;
  apc_thread : Z;
  NormalContext : Z;
}.

(** The lists and the system state; the contexts with the module lists their
    [SYSTEM_MODULES] structures hold, by address; the flags of the threads, at their
    offset in the thread object; the APCs queued and not yet run; how many blocks
    have been asked of the pool for contexts and APCs. *)
Record walk_ext := WalkExt {
  cbx : cb_ext;
  apcs : apc_state;
  module_lists : gmap Z SYSTEM_MODULES;
  misc_flags : gmap Z Z;
  apc_queue : list queued_apc;
  block_requests : nat;
}.

Definition set_cbx (x : cb_ext) (w : walk_ext) : walk_ext :=
  WalkExt x (apcs w) (module_lists w) (misc_flags w) (apc_queue w) (block_requests w).
Definition set_apcs (a : apc_state) (w : walk_ext) : walk_ext :=
  WalkExt (cbx w) a (module_lists w) (misc_flags w) (apc_queue w) (block_requests w).
Definition set_module_lists (m : gmap Z SYSTEM_MODULES) (w : walk_ext) : walk_ext :=
  WalkExt (cbx w) (apcs w) m (misc_flags w) (apc_queue w) (block_requests w).
Definition set_misc_flags (m : gmap Z Z) (w : walk_ext) : walk_ext :=
  WalkExt (cbx w) (apcs w) (module_lists w) m (apc_queue w) (block_requests w).
Definition set_queue (q : list queued_apc) (w : walk_ext) : walk_ext :=
  WalkExt (cbx w) (apcs w) (module_lists w) (misc_flags w) q (block_requests w).

Abbreviation M := (KM (lstate walk_ext)).

(** The block for the [n]-th request when the given ones are in use; whether an
    initialised APC can be inserted for a thread with the given flags; the frames on
    a thread's stack. *)
Class ApcApi := {
  apc_block : nat -> gset Z -> option Z;
  KeInsertQueueApc : Z -> Z -> bool;
  stack_frames : Z -> list Z;
}.

Class ApcLaws (B : ApcApi) : Prop :=
  apc_block_fresh n used a : apc_block n used = Some a -> a <> 0 /\ a ∉ used.

Definition update_walk (f : walk_ext -> walk_ext) : M unit :=
  modify (fun st => set_ext (f (ext st)) st).

Definition on_apcs {X} (m : KM apc_state X) : M X := fun st =>
  match m (apcs (ext st)) with
  | Ok (x, a) => Ok (x, set_ext (set_apcs a (ext st)) st)
  | Crash f => Crash f
  end.
Definition on_lists {X} (m : KM (lstate cb_ext) X) : M X := fun st =>
  match m (LState (next st) (Lists.held st) (frees st) (cbx (ext st))) with
  | Ok (x, l) => Ok (x, LState (next l) (Lists.held l) (frees l) (set_cbx (ext l) (ext st)))
  | Crash f => Crash f
  end.
Definition on_kern {X} (m : KM kernel X) : M X := on_lists (on_sys (on_kernel m)).

Section operations.
Context {P : Pool} {K : ReportSink} {A : SystemApi} {Pr : ProcessApi} {U : CpuApi}.
Context {H : HandleApi} {G : ListHeads} {L : Lookaside} {B : ApcApi}.

(** The blocks in use. *)
Definition blocks (a : apc_state) : gset Z := dom (contexts a) ∪ dom (system_modules a) ∪ pool a.

(** [ExAllocatePool2] with [POOL_TAG_APC]: the address, or 0.  What the block becomes
    is up to the caller. *)
Definition allocate_block : M Z := fun st =>
  let x := ext st in
  let x' := WalkExt (cbx x) (apcs x) (module_lists x) (misc_flags x) (apc_queue x) (S (block_requests x)) in
  Ok (default 0 (apc_block (block_requests x) (blocks (apcs x))), set_ext x' st).

Definition update_thread_entry (p : Z) (f : THREAD_LIST_ENTRY -> THREAD_LIST_ENTRY) : M unit :=
  e ← read_entry (fun x => thread_entries (cbx x)) p;
  update_walk (fun x => set_cbx (set_thread_entries (<[p := f e]> (thread_entries (cbx x))) (cbx x)) x).

(** [SetFlag( *flags, bits)] on the flags of a thread. *)
Definition SetFlag (Thread bits : Z) : M unit := fun st =>
  match misc_flags (ext st) !! (Thread + KTHREAD_MISC_FLAGS_OFFSET) with
  | None => Crash UnmappedRead
  | Some f =>
      Ok (tt, set_ext (set_misc_flags (<[Thread + KTHREAD_MISC_FLAGS_OFFSET := Z.lor f bits]>
                (misc_flags (ext st))) (ext st)) st)
  end.

(** [KeInsertQueueApc], of an APC initialised for the thread and the context. *)
Definition insert_apc (apc Thread Context_ : Z) : M bool := fun st =>
  match misc_flags (ext st) !! (Thread + KTHREAD_MISC_FLAGS_OFFSET) with
  | None => Crash UnmappedRead
  | Some f =>
      if KeInsertQueueApc Thread f
      then Ok (true, set_ext (set_queue (apc_queue (ext st) ++ [QueuedApc apc Thread Context_]) (ext st)) st)
      else Ok (false, st)
  end.

(** ** Operations *)

Definition ValidateThreadViaKernelApcCallback (ThreadListEntry Context_ : Z) : M Z :=
  e ← read_entry (fun x => thread_entries (cbx x)) ThreadListEntry;
  _ ← on_lists (on_sys (image_name (owning_process e)));
  if negb (owning_process e =? PsInitialSystemProcess) then mret Context_
  else if (thread e =? calling_thread) || (thread e =? 0) then mret Context_
  else
    SetFlag (thread e) KTHREAD_MISC_FLAGS_ALERTABLE ≫= fun _ =>
    SetFlag (thread e) KTHREAD_MISC_FLAGS_APC_QUEUEABLE ≫= fun _ =>
    apc_ ← allocate_block;
    if apc_ =? 0 then mret Context_
    else
      on_apcs (modify (set_pool (fun b => {[apc_]} ∪ b))) ≫= fun _ =>
      apc_status ← insert_apc apc_ (thread e) Context_;
      if negb apc_status then on_apcs (free_block apc_) ≫= fun _ => mret Context_
      else
        update_thread_entry ThreadListEntry
          (fun e => ThreadEntry (thread e) (owning_process e) true apc_) ≫= fun _ =>
        on_apcs (IncrementApcCount APC_CONTEXT_ID_STACKWALK) ≫= fun _ =>
        mret Context_.

(** The module list the query returned becomes the context's. *)
Definition store_modules (p : Z) (m : SYSTEM_MODULES) : M unit :=
  when (negb (address m =? 0))
    (on_kern (release (Block (address m) SYSTEM_MODULES_POOL)) ≫= fun _ =>
     on_apcs (modify (set_pool (fun b => {[address m]} ∪ b)))) ≫= fun _ =>
  on_apcs (modify (set_system_modules (<[p := address m]>))) ≫= fun _ =>
  update_walk (fun x => set_module_lists (<[p := m]> (module_lists x)) x).

Definition EnumerateThreads {C} (CallbackRoutine : Z -> C -> M C) (Context_ : C) : M C :=
  enumerate_list thread_head thread_lock (Some CallbackRoutine) Context_.

Definition ValidateThreadsViaKernelApc : M NTSTATUS :=
  context ← on_apcs (GetApcContext APC_CONTEXT_ID_STACKWALK);
  if negb (context =? 0) then mret STATUS_SUCCESS
  else
    context ← allocate_block;
    if context =? 0 then mret STATUS_MEMORY_NOT_ALLOCATED
    else
      on_apcs (modify (set_contexts (<[context := ApcContext APC_CONTEXT_ID_STACKWALK 0 0 0]>))) ≫= fun _ =>
      modules_ ← allocate_block;
      on_apcs (store_context context (fun c => ApcContext (context_id c) (apc_count c)
                 (allocation_in_progress c) modules_)) ≫= fun _ =>
      if modules_ =? 0 then on_apcs (free_context context) ≫= fun _ => mret STATUS_MEMORY_NOT_ALLOCATED
      else
        on_apcs (modify (set_system_modules (<[modules_ := 0]>))) ≫= fun _ =>
        '(status, m) ← on_kern (GetSystemModuleInformation (Some no_modules));
        if negb (NT_SUCCESS status) then
          on_apcs (free_modules modules_) ≫= fun _ =>
          on_apcs (free_context context) ≫= fun _ =>
          mret STATUS_MEMORY_NOT_ALLOCATED
        else
          store_modules modules_ (default no_modules m) ≫= fun _ =>
          on_apcs (InsertApcContext context) ≫= fun _ =>
          on_apcs (store_context context (set_progress 1)) ≫= fun _ =>
          _ ← EnumerateThreads ValidateThreadViaKernelApcCallback context;
          on_apcs (store_context context (set_progress 0)) ≫= fun _ =>
          mret status.

Definition DispatchApcOperation (operation_id : Z) : M NTSTATUS :=
  if operation_id =? APC_OPERATION_STACKWALK then ValidateThreadsViaKernelApc
  else mret STATUS_INVALID_PARAMETER.

(** *** When an APC runs *)

Definition ReportApcStackwalkViolation (kthread Rip : Z) : KM kernel unit :=
  complete_report (sizeof APC_STACKWALK_REPORT) REPORT_POOL_TAG
    (Ok (ApcStackwalk REPORT_APC_STACKWALK kthread Rip)).

(** The loop over the frames; the variable [flag] keeps its value. *)
Fixpoint backtrace_loop (kthread : Z) (frames : list Z) (m : SYSTEM_MODULES) (flag : bool) : KM kernel unit :=
  match frames with
  | [] => mret tt
  | frame :: frames =>
      let '(status, flag) := region_check frame m flag in
      if negb (NT_SUCCESS status) then mret tt
      else
        when (negb flag) (ReportApcStackwalkViolation kthread frame) ≫= fun _ =>
        backtrace_loop kthread frames m flag
  end.

(** The module list of the APC's context. *)
Definition context_modules (context : Z) : M SYSTEM_MODULES :=
  c ← on_apcs (load_context context);
  m ← gets (fun st => module_lists (ext st) !! modules c);
  of_option UnmappedRead m.

Definition ApcKernelRoutine (Apc : queued_apc) : M unit :=
  thread_list_entry ← on_lists (FindThreadListEntryByThreadAddress (apc_thread Apc));
  if thread_list_entry =? 0 then mret tt
  else
    buffer ← on_kern (ExAllocatePool2 STACK_FRAME_POOL_SIZE POOL_TAG_APC);
    (if buffer =? 0 then mret tt
     else
       let frames := take (Z.to_nat (STACK_FRAME_POOL_SIZE / 8)) (stack_frames (apc_thread Apc)) in
       (if zlen frames =? 0 then mret tt
        else
          m ← context_modules (NormalContext Apc);
          on_kern (backtrace_loop (apc_thread Apc) frames m false)) ≫= fun _ =>
       on_kern (ExFreePoolWithTag buffer POOL_TAG_APC)) ≫= fun _ =>
    on_apcs (FreeApcAndDecrementApcCount (apc_object Apc) APC_CONTEXT_ID_STACKWALK) ≫= fun _ =>
    update_thread_entry thread_list_entry (fun e => ThreadEntry (thread e) (owning_process e) (apc_queued e) 0) ≫= fun _ =>
    update_thread_entry thread_list_entry (fun e => ThreadEntry (thread e) (owning_process e) false (apc e)).

Definition ApcRundownRoutine (Apc : queued_apc) : M unit :=
  on_apcs (FreeApcAndDecrementApcCount (apc_object Apc) APC_CONTEXT_ID_STACKWALK).

End operations.

(** ** The threads given an APC *)

Section properties.
Context {P : Pool} {K : ReportSink} {A : SystemApi} {Pr : ProcessApi} {U : CpuApi}.
Context {H : HandleApi} {G : ListHeads} {L : Lookaside} {B : ApcApi}.

Definition thread_flags (x : walk_ext) (t : Z) : Z :=
  default 0 (misc_flags x !! (t + KTHREAD_MISC_FLAGS_OFFSET)).

(** A thread of the system process, the calling one apart. *)
Definition candidate (e : THREAD_LIST_ENTRY) : bool :=
  (owning_process e =? PsInitialSystemProcess) &&
  negb ((thread e =? calling_thread) || (thread e =? 0)).

(** The APC is accepted with the flags as [SetFlag] leaves them. *)
Definition accepts (x : walk_ext) (e : THREAD_LIST_ENTRY) : bool :=
  candidate e &&
  KeInsertQueueApc (thread e) (Z.lor (thread_flags x (thread e)) KTHREAD_MISC_FLAGS_APC_QUEUEABLE).

(** What becomes of a visited entry: [e'] at the end of the walk. *)
Definition visited (x : walk_ext) (ctx : Z) (q : list queued_apc) (e e' : THREAD_LIST_ENTRY) : Prop :=
  if accepts x e then
    thread e' = thread e /\ owning_process e' = owning_process e /\ apc_queued e' = true /\
    QueuedApc (apc e') (thread e) ctx ∈ q
  else e' = e.

(** What the walk has done when the entries [done] at [ps] are visited and [todo]
    at [qs] are not; [x0] is the state it started from. *)
Record walking (x0 : walk_ext) (ctx ms : Z) (ps : list Z) (visits : list THREAD_LIST_ENTRY)
  (qs : list Z) (todo : list THREAD_LIST_ENTRY) (q : list queued_apc) (x : walk_ext) : Prop := {
  wk_queue : apc_queue x = apc_queue x0 ++ q;
  wk_threads : map apc_thread q = map thread (filter (accepts x0) visits);
  wk_context a : a ∈ q -> NormalContext a = ctx;
  wk_apcs : apcs x = set_contexts (<[ctx := ApcContext APC_CONTEXT_ID_STACKWALK (zlen q) 1 ms]>)
                       (set_pool (fun b => list_to_set (map apc_object q) ∪ b) (apcs x0));
  wk_objects : NoDup (map apc_object q);
  wk_fresh a : a ∈ q -> apc_object a <> 0 /\ apc_object a ∉ blocks (apcs x0);
  wk_flags a f : misc_flags x0 !! a = Some f ->
    misc_flags x !! a = Some f \/
    misc_flags x !! a = Some (Z.lor f KTHREAD_MISC_FLAGS_APC_QUEUEABLE);
  wk_lists : exists t, cbx x = set_thread_entries t (cbx x0);
  wk_modules : module_lists x = module_lists x0;
  wk_visited : Forall2 (fun p e => exists e', thread_entries (cbx x) !! p = Some e' /\
                                     visited x0 ctx q e e') ps visits;
  wk_todo : entries_at (thread_entries (cbx x)) qs todo;
}.

Lemma both_flags f :
  Z.lor (Z.lor f KTHREAD_MISC_FLAGS_ALERTABLE) KTHREAD_MISC_FLAGS_APC_QUEUEABLE
  = Z.lor f KTHREAD_MISC_FLAGS_APC_QUEUEABLE.
Proof. by rewrite <- Z.lor_assoc. Qed.

Lemma visited_more x ctx q a e e' : visited x ctx q e e' -> visited x ctx (q ++ [a]) e e'.
Proof.
  unfold visited. case_match; [|done]. intros (? & ? & ? & ?). split_and!; try done.
  by apply elem_of_app; left.
Qed.

(** The system image's name can be read. *)
Lemma walk_image_name_ok p (st : lstate walk_ext) :
  p <> 0 -> on_lists (on_sys (image_name p)) st = Ok (PsGetProcessImageFileName p, st).
Proof.
  intros Hp. unfold on_lists, on_sys, image_name. destruct (Z.eqb_spec p 0); [done|].
  destruct st as [nx hd fr [[s pe te pa ta hx hq lr dl] ap ml mf aq br]]. done.
Qed.

Lemma SetFlag_ok t b (st : lstate walk_ext) f :
  misc_flags (ext st) !! (t + KTHREAD_MISC_FLAGS_OFFSET) = Some f ->
  SetFlag t b st = Ok (tt, set_ext (set_misc_flags
    (<[t + KTHREAD_MISC_FLAGS_OFFSET := Z.lor f b]> (misc_flags (ext st))) (ext st)) st).
Proof. unfold SetFlag. by intros ->. Qed.

(** Both flags of a thread. *)
Definition flag_thread (t f : Z) (x : walk_ext) : walk_ext :=
  set_misc_flags (<[t + KTHREAD_MISC_FLAGS_OFFSET := Z.lor f KTHREAD_MISC_FLAGS_APC_QUEUEABLE]>
    (misc_flags x)) x.

Lemma set_flags_ok {X} t f (st : lstate walk_ext) (k : KM (lstate walk_ext) X) :
  misc_flags (ext st) !! (t + KTHREAD_MISC_FLAGS_OFFSET) = Some f ->
  (SetFlag t KTHREAD_MISC_FLAGS_ALERTABLE ≫= fun _ =>
   SetFlag t KTHREAD_MISC_FLAGS_APC_QUEUEABLE ≫= fun _ => k) st
  = k (set_ext (flag_thread t f (ext st)) st).
Proof.
  intros Hf. erewrite KM_step by (by apply SetFlag_ok).
  erewrite KM_step by (apply SetFlag_ok; cbn; apply lookup_insert_eq).
  unfold flag_thread, set_misc_flags, set_ext. cbn. by rewrite insert_insert_eq, both_flags.
Qed.

Lemma Forall2_impl_in {X Y} (R S : X -> Y -> Prop) l k :
  Forall2 R l k -> (forall x y, x ∈ l -> R x y -> S x y) -> Forall2 S l k.
Proof. induction 1; intros HS; constructor; [apply HS|apply IHForall2; intros; apply HS]; set_solver. Qed.

(** The threads of the list can be looked at: each has an owning process, and a
    thread the walk is about has its flags. *)
Definition inspectable (x : walk_ext) (e : THREAD_LIST_ENTRY) : Prop :=
  owning_process e <> 0 /\
  (candidate e = true -> is_Some (misc_flags x !! (thread e + KTHREAD_MISC_FLAGS_OFFSET))).

(** A state before any APC is queued, the context at [ctx] being the only one. *)
Record walk_ready (x : walk_ext) (ctx ms : Z) : Prop := {
  wr_lock : config_lock (apcs x) = false;
  wr_array : apc_contexts (apcs x) = ctx :: replicate 9 0;
  wr_ctx : ctx <> 0;
  wr_context : contexts (apcs x) !! ctx = Some (ApcContext APC_CONTEXT_ID_STACKWALK 0 1 ms);
}.

Lemma walking_skip x0 ctx ms ps es p e qs todo q x :
  walking x0 ctx ms ps es (p :: qs) (e :: todo) q x -> accepts x0 e = false ->
  walking x0 ctx ms (ps ++ [p]) (es ++ [e]) qs todo q x.
Proof.
  intros [Hq Ht Hc Ha Hn Hf Hfl Hcb Hm Hv Htd] He. apply Forall2_cons_1 in Htd as [Hp Htd].
  split; try done.
  - rewrite filter_app, map_app, Ht, filter_cons_False by (rewrite He; by intros []). by rewrite app_nil_r.
  - apply Forall2_app; [done|]. constructor; [|constructor]. exists e. split; [done|].
    unfold visited. by rewrite He.
Qed.

Lemma walking_flags x0 ctx ms ps es qs todo q x t f :
  walking x0 ctx ms ps es qs todo q x ->
  misc_flags x !! (t + KTHREAD_MISC_FLAGS_OFFSET) = Some f ->
  walking x0 ctx ms ps es qs todo q (flag_thread t f x).
Proof.
  intros [] Hf. split; try done. cbn. intros a f0 Hf0.
  destruct (decide (t + KTHREAD_MISC_FLAGS_OFFSET = a)) as [<-|Hne].
  - right. rewrite lookup_insert_eq. destruct (wk_flags0 _ _ Hf0) as [E|E];
      rewrite Hf in E; injection E as ->; [done|].
    by rewrite <- Z.lor_assoc, Z.lor_diag.
  - rewrite lookup_insert_ne by done. by apply wk_flags0.
Qed.

Lemma walking_count x0 ctx ms ps es qs todo q x n :
  walking x0 ctx ms ps es qs todo q x ->
  walking x0 ctx ms ps es qs todo q (WalkExt (cbx x) (apcs x) (module_lists x) (misc_flags x) (apc_queue x) n).
Proof. by intros []. Qed.

(** The state after an APC at [a] was queued to the thread of the entry at [p]. *)
Definition with_apc (ctx ms p a : Z) (e : THREAD_LIST_ENTRY) (n : Z) (x : walk_ext) : walk_ext :=
  WalkExt
    (set_thread_entries (<[p := ThreadEntry (thread e) (owning_process e) true a]>
       (thread_entries (cbx x))) (cbx x))
    (set_contexts (<[ctx := ApcContext APC_CONTEXT_ID_STACKWALK n 1 ms]>)
       (set_pool (fun b => {[a]} ∪ b) (apcs x)))
    (module_lists x) (misc_flags x) (apc_queue x ++ [QueuedApc a (thread e) ctx]) (block_requests x).

Lemma walking_queue x0 ctx ms ps es p e qs todo q x a :
  walking x0 ctx ms ps es (p :: qs) (e :: todo) q x -> NoDup (ps ++ p :: qs) ->
  accepts x0 e = true -> a <> 0 -> a ∉ blocks (apcs x) ->
  walking x0 ctx ms (ps ++ [p]) (es ++ [e]) qs todo (q ++ [QueuedApc a (thread e) ctx])
    (with_apc ctx ms p a e (zlen q + 1) x).
Proof.
  intros [Hq Ht Hc Ha Hn Hf Hfl [t Hcb] Hm Hv Htd] Hnd He Ha0 Hfr.
  apply Forall2_cons_1 in Htd as [Hp Htd].
  rewrite Ha in Hfr. unfold blocks in Hfr. cbn in Hfr. rewrite dom_insert in Hfr.
  assert (a ∉ map apc_object q) as Hnew.
  { intros Hin. apply Hfr. rewrite !elem_of_union, elem_of_list_to_set. right; by left. }
  split; cbn.
  - by rewrite Hq, (assoc_L (++)).
  - by rewrite !map_app, filter_app, map_app, Ht, filter_cons_True by (by rewrite He).
  - intros b [Hb| ->%list_elem_of_singleton]%elem_of_app; [by apply Hc|done].
  - rewrite Ha. unfold set_contexts, set_pool. cbn. rewrite insert_insert_eq, map_app. f_equal.
    + do 2 f_equal. unfold zlen. rewrite length_app. cbn. lia.
    + rewrite list_to_set_app_L. cbn. set_solver.
  - rewrite map_app. apply NoDup_app. split_and!; [done| |apply NoDup_singleton].
    intros b Hb ->%list_elem_of_singleton. done.
  - intros b [Hb| ->%list_elem_of_singleton]%elem_of_app; [by apply Hf|]. split; [done|].
    cbn. unfold blocks. set_solver.
  - done.
  - rewrite Hcb. by eexists.
  - done.
  - apply NoDup_app in Hnd as (_ & Hd & _). apply Forall2_app.
    + eapply (Forall2_impl_in (fun p e => exists e', thread_entries (cbx x) !! p = Some e' /\
        visited x0 ctx q e e')); [exact Hv|]. intros p' e' Hp' (e1 & H1 & H2). exists e1.
      rewrite lookup_insert_ne; [split; [done|by apply visited_more]|].
      intros ->. apply (Hd _ Hp'). by left.
    + constructor; [|constructor]. eexists. rewrite lookup_insert_eq. split; [done|].
      unfold visited. rewrite He. cbn. split_and!; try done. apply elem_of_app; right; by left.
  - apply NoDup_app in Hnd as (_ & _ & Hd). apply NoDup_cons in Hd as [Hd _].
    eapply Forall2_impl_in; [exact Htd|]. intros p' e' Hp' H1.
    cbn. rewrite lookup_insert_ne; [done|]. intros ->. done.
Qed.

Lemma walking_length x0 ctx ms ps es qs todo q x :
  walking x0 ctx ms ps es qs todo q x -> zlen q <= zlen es.
Proof.
  intros Hw. pose proof (wk_threads _ _ _ _ _ _ _ _ _ Hw) as Ht.
  apply (f_equal (@length Z)) in Ht. rewrite !length_map in Ht. unfold zlen. rewrite Ht.
  pose proof (length_filter (accepts x0) es). lia.
Qed.

(** Queueing: from the flags on, for a candidate whose APC is accepted or not. *)
Lemma queue_apc_ok {Bl : ApcLaws B} x0 ctx ms ps es p e qs todo q (st : lstate walk_ext) f :
  walk_ready x0 ctx ms -> walking x0 ctx ms ps es (p :: qs) (e :: todo) q (ext st) ->
  NoDup (ps ++ p :: qs) -> p <> 0 -> is_Some (next st !! p) -> candidate e = true ->
  (forall n used, is_Some (apc_block n used)) -> zlen es < 2 ^ 31 - 1 ->
  misc_flags x0 !! (thread e + KTHREAD_MISC_FLAGS_OFFSET) = Some f ->
  misc_flags (ext st) !! (thread e + KTHREAD_MISC_FLAGS_OFFSET)
    = Some (Z.lor f KTHREAD_MISC_FLAGS_APC_QUEUEABLE) ->
  exists q' x',
    (apc_ ← allocate_block;
     if apc_ =? 0 then mret ctx
     else
       on_apcs (modify (set_pool (fun b => {[apc_]} ∪ b))) ≫= fun _ =>
       apc_status ← insert_apc apc_ (thread e) ctx;
       if negb apc_status then on_apcs (free_block apc_) ≫= fun _ => mret ctx
       else
         update_thread_entry p (fun e => ThreadEntry (thread e) (owning_process e) true apc_) ≫= fun _ =>
         on_apcs (IncrementApcCount APC_CONTEXT_ID_STACKWALK) ≫= fun _ =>
         mret ctx) st = Ok (ctx, set_ext x' st) /\
    walking x0 ctx ms (ps ++ [p]) (es ++ [e]) qs todo q' x'.
Proof.
  intros [Hl Har Hc0 Hctx] Hw Hnd Hp0 Hp Hcand Hmem Hn Hf0 Hf.
  pose proof (walking_length _ _ _ _ _ _ _ _ _ Hw) as Hlen.
  destruct (Hmem (block_requests (ext st)) (blocks (apcs (ext st)))) as [a Hblk].
  destruct (apc_block_fresh _ _ _ Hblk) as [Ha0 Hfr].
  assert (accepts x0 e = KeInsertQueueApc (thread e) (Z.lor f KTHREAD_MISC_FLAGS_APC_QUEUEABLE)) as Hacc.
  { unfold accepts, thread_flags. by rewrite Hcand, Hf0. }
  pose proof (Forall2_cons_1 _ _ _ _ _ (wk_todo _ _ _ _ _ _ _ _ _ Hw)) as [Hpe _].
  apply (walking_count _ _ _ _ _ _ _ _ _ (S (block_requests (ext st)))) in Hw.
  unfold allocate_block. munfold. rewrite Hblk. cbn. destruct (Z.eqb_spec a 0); [done|].
  unfold insert_apc, on_apcs. cbn. rewrite Hf. rewrite <- Hacc.
  destruct (accepts x0 e) eqn:Eacc; cbn [negb].
  - unfold update_thread_entry, read_entry, update_walk. munfold. cbn.
    destruct (Z.eqb_spec p 0); [done|]. destruct Hp as [nx Hnx]. rewrite Hnx, Hpe. cbn.
    pose proof (walking_queue _ _ _ _ _ _ _ _ _ _ _ a Hw Hnd Eacc Ha0 Hfr) as Hw'.
    pose proof (wk_apcs _ _ _ _ _ _ _ _ _ Hw) as Hap. cbn in Hap.
    rewrite (IncrementApcCount_ok ctx _ (ApcContext APC_CONTEXT_ID_STACKWALK (zlen q) 1 ms));
      [|rewrite ?Hap; cbn; by rewrite ?lookup_insert_eq..].
    eexists _, _. split; [|exact Hw']. cbn. unfold with_apc, add_count, set_ext. cbn.
    rewrite s32_small by (pose proof (zlen_nonneg q); lia). done.
  - eapply walking_skip in Hw; [|done]. eexists _, _. split; [|exact Hw].
    unfold free_block. cbn. rewrite decide_True by set_solver. cbn.
    unfold set_ext, set_apcs, set_pool. cbn. do 4 f_equal.
    assert (a ∉ pool (apcs (ext st))) by (unfold blocks in Hfr; set_solver).
    destruct (apcs (ext st)); cbn in *. f_equal. set_solver.
Qed.

Lemma apc_callback_ok {Bl : ApcLaws B} x0 ctx ms ps es p e qs todo q (st : lstate walk_ext) :
  walk_ready x0 ctx ms -> walking x0 ctx ms ps es (p :: qs) (e :: todo) q (ext st) ->
  NoDup (ps ++ p :: qs) -> p <> 0 -> is_Some (next st !! p) -> inspectable x0 e ->
  (forall n used, is_Some (apc_block n used)) -> zlen es < 2 ^ 31 - 1 ->
  exists q' x', ValidateThreadViaKernelApcCallback p ctx st = Ok (ctx, set_ext x' st) /\
    walking x0 ctx ms (ps ++ [p]) (es ++ [e]) qs todo q' x'.
Proof.
  intros Hr Hw Hnd Hp0 Hp [Ho Hfl] Hmem Hn.
  pose proof (Forall2_cons_1 _ _ _ _ _ (wk_todo _ _ _ _ _ _ _ _ _ Hw)) as [Hpe _].
  unfold ValidateThreadViaKernelApcCallback.
  erewrite KM_step by (by apply read_entry_ok). rewrite (KM_step _ _ _ _ _ (walk_image_name_ok _ st Ho)).
  assert (accepts x0 e = false -> exists q' x', (mret ctx : M Z) st = Ok (ctx, set_ext x' st) /\
    walking x0 ctx ms (ps ++ [p]) (es ++ [e]) qs todo q' x') as Hskip.
  { intros Ha. exists q, (ext st). split; [by destruct st|]. by eapply walking_skip. }
  unfold candidate in Hfl.
  destruct (owning_process e =? PsInitialSystemProcess) eqn:E1; cbn [negb];
    [|apply Hskip; unfold accepts, candidate; by rewrite E1].
  destruct ((thread e =? calling_thread) || (thread e =? 0)) eqn:E2;
    [apply Hskip; unfold accepts, candidate; by rewrite E1, E2|].
  destruct (Hfl eq_refl) as [f0 Hf0].
  assert (exists f, misc_flags (ext st) !! (thread e + KTHREAD_MISC_FLAGS_OFFSET) = Some f /\
    Z.lor f KTHREAD_MISC_FLAGS_APC_QUEUEABLE = Z.lor f0 KTHREAD_MISC_FLAGS_APC_QUEUEABLE) as (f & Hf & Hff).
  { destruct (wk_flags _ _ _ _ _ _ _ _ _ Hw _ _ Hf0) as [E|E]; eexists; (split; [exact E|]); [done|].
    by rewrite <- Z.lor_assoc, Z.lor_diag. }
  rewrite (set_flags_ok _ f) by done.
  destruct (queue_apc_ok x0 ctx ms ps es p e qs todo q (set_ext (flag_thread (thread e) f (ext st)) st) f0)
    as (q' & x' & H1 & Hw'); try done.
  - by eapply walking_flags.
  - unfold candidate. by rewrite E1, E2.
  - cbn. by rewrite lookup_insert_eq, Hff.
  - by exists q', x'.
Qed.

(** The walk over the whole list. *)
Lemma apc_walk_ok {Bl : ApcLaws B} x0 ctx ms (st : lstate walk_ext) ps es :
  walk_ready x0 ctx ms -> walking x0 ctx ms [] [] ps es [] (ext st) ->
  slist (next st) thread_head ps -> thread_lock ∉ Lists.held st -> Forall (inspectable x0) es ->
  (forall n used, is_Some (apc_block n used)) -> zlen es < 2 ^ 31 ->
  exists q x', EnumerateThreads ValidateThreadViaKernelApcCallback ctx st = Ok (ctx, set_ext x' st) /\
    walking x0 ctx ms ps es [] [] q x'.
Proof.
  intros Hr Hw Hs HL Hins Hmem Hn. pose proof Hs as [_ Hnd _].
  apply NoDup_cons in Hnd as [_ Hnd].
  destruct (enumerate_inv (fun l c x => c = ctx /\ exists done_ps done_es todo q,
      ps = done_ps ++ l /\ es = done_es ++ todo /\ walking x0 ctx ms done_ps done_es l todo q x)
    st thread_head thread_lock ValidateThreadViaKernelApcCallback ps ctx Hs HL) as (c' & x' & H1 & -> & HI).
  - split; [done|]. by exists [], [], es, [].
  - intros p l' c st' Hnx Hp0 Hp (-> & dp & de & todo & q & Hps & Hes & Hwk).
    destruct todo as [|e todo]; [by pose proof (Forall2_cons_nil_inv _ _ _ (wk_todo _ _ _ _ _ _ _ _ _ Hwk))|].
    destruct (apc_callback_ok x0 ctx ms dp de p e l' todo q st') as (q' & x' & Hx & Hw'); try done.
    + by rewrite <- Hps.
    + by rewrite Hnx.
    + rewrite Hes in Hins. apply Forall_app in Hins as [_ Hins]. by apply Forall_cons in Hins as [? _].
    + rewrite Hes in Hn. unfold zlen in *. rewrite length_app in Hn. cbn in Hn. lia.
    + exists ctx, x'. split; [done|]. split; [done|]. exists (dp ++ [p]), (de ++ [e]), todo, q'.
      by rewrite <- !(assoc_L (++)).
  - destruct HI as (dp & de & todo & q & Hps & Hes & Hwk). exists q, x'. split; [done|].
    pose proof (wk_todo _ _ _ _ _ _ _ _ _ Hwk) as Htd. apply Forall2_nil_inv_l in Htd as ->.
    rewrite app_nil_r in Hps, Hes. by subst.
Qed.

(** ** Starting a walk *)

Definition walk_kern (st : lstate walk_ext) : kernel := hkern (sys (cbx (ext st))).

Definition set_walk_kern (k : kernel) (st : lstate walk_ext) : lstate walk_ext :=
  let s := sys (cbx (ext st)) in
  set_ext (set_cbx (set_sys (HState (hsession s) k (tables s) (config_mutex s)) (cbx (ext st))) (ext st)) st.

Lemma walk_kern_ok {X} (m : KM kernel X) (st : lstate walk_ext) r k :
  m (walk_kern st) = Ok (r, k) -> on_kern m st = Ok (r, set_walk_kern k st).
Proof.
  intros Hm. unfold on_kern, on_lists, on_sys, on_kernel. cbn. unfold walk_kern in Hm. by rewrite Hm.
Qed.

Lemma on_apcs_ok {X} (m : KM apc_state X) (st : lstate walk_ext) r a :
  m (apcs (ext st)) = Ok (r, a) -> on_apcs m st = Ok (r, set_ext (set_apcs a (ext st)) st).
Proof. intros Hm. unfold on_apcs. by rewrite Hm. Qed.

(** No operation is in progress, and the thread list holds [es]. *)
Record idle_walk (st : lstate walk_ext) (ps : list Z) (es : list THREAD_LIST_ENTRY) : Prop := {
  iw_list : slist (next st) thread_head ps;
  iw_free : thread_lock ∉ Lists.held st;
  iw_entries : entries_at (thread_entries (cbx (ext st))) ps es;
  iw_inspect : Forall (inspectable (ext st)) es;
  iw_length : zlen es < 2 ^ 31;
  iw_kernel : kernel_wf (walk_kern st);
  iw_lock : config_lock (apcs (ext st)) = false;
  iw_array : apc_contexts (apcs (ext st)) = replicate 10 0;
  iw_running : unload_in_progress (apcs (ext st)) = false;
}.

(** The memory asked for is granted and the module query succeeds. *)
Record resources_granted : Prop := {
  rg_pool n : pool_grants n = true;
  rg_blocks n used : is_Some (apc_block n used);
  rg_size : NT_SUCCESS query_module_size.1 = true;
  rg_query : NT_SUCCESS query_modules.1.1 = true;
}.

Lemma no_context s :
  config_lock s = false -> apc_contexts s = replicate 10 0 ->
  GetApcContext APC_CONTEXT_ID_STACKWALK s = Ok (0, s).
Proof.
  destruct s as [addr arr cs ms pl lk ul]. cbn. intros -> ->. reflexivity.
Qed.

Lemma insert_first s p :
  config_lock s = false -> apc_contexts s = replicate 10 0 -> unload_in_progress s = false ->
  InsertApcContext p s = Ok (tt, set_array (fun _ => p :: replicate 9 0) s).
Proof. destruct s as [addr arr cs ms pl lk ul]. cbn. intros -> -> ->. reflexivity. Qed.

Lemma store_context_ok s p c f :
  contexts s !! p = Some c -> store_context p f s = Ok (tt, set_contexts (<[p := f c]>) s).
Proof. unfold store_context. by intros ->. Qed.

(** The state the walk of the list starts from. *)
Definition started (ctx ms : Z) (m : SYSTEM_MODULES) (a : apc_state) : apc_state :=
  ApcState (array_address a) (ctx :: replicate 9 0)
    (<[ctx := ApcContext APC_CONTEXT_ID_STACKWALK 0 1 ms]> (contexts a))
    (<[ms := address m]> (system_modules a)) ({[address m]} ∪ pool a) false false.

Lemma release_modules h r (st : lstate walk_ext) :
  Kernel.held (walk_kern st) = h ⊎ {[+ r +]} ->
  on_kern (release r) st = Ok (tt, set_walk_kern (Kernel.set_held h (walk_kern st)) st).
Proof. intros Hh. apply walk_kern_ok. by apply release_last. Qed.

Lemma store_modules_ok p m (st : lstate walk_ext) h :
  0 < address m -> Kernel.held (walk_kern st) = h ⊎ {[+ Block (address m) SYSTEM_MODULES_POOL +]} ->
  exists st', store_modules p m st = Ok (tt, st') /\ next st' = next st /\
    Lists.held st' = Lists.held st /\ frees st' = frees st /\
    ext st' = WalkExt
      (set_sys (HState (hsession (sys (cbx (ext st)))) (Kernel.set_held h (walk_kern st))
         (tables (sys (cbx (ext st)))) (config_mutex (sys (cbx (ext st))))) (cbx (ext st)))
      (set_system_modules (<[p := address m]>) (set_pool (fun b => {[address m]} ∪ b) (apcs (ext st))))
      (<[p := m]> (module_lists (ext st))) (misc_flags (ext st)) (apc_queue (ext st))
      (block_requests (ext st)).
Proof.
  intros Ha Hh. unfold store_modules. destruct (Z.eqb_spec (address m) 0); [lia|]. cbn [negb when].
  eexists. split; [|].
  - erewrite KM_step.
    2: { erewrite KM_step by (by apply release_modules). by apply on_apcs_ok. }
    erewrite KM_step by (by apply on_apcs_ok). done.
  - done.
Qed.

Record has_started (st : lstate walk_ext) (ctx ms : Z) (m : SYSTEM_MODULES) (st1 : lstate walk_ext) : Prop := {
  hs_next : next st1 = next st;
  hs_held : Lists.held st1 = Lists.held st;
  hs_frees : frees st1 = frees st;
  hs_apcs : apcs (ext st1) = started ctx ms m (apcs (ext st));
  hs_lists : module_lists (ext st1) = <[ms := m]> (module_lists (ext st));
  hs_flags : misc_flags (ext st1) = misc_flags (ext st);
  hs_queue : apc_queue (ext st1) = apc_queue (ext st);
  hs_kernel : exists s, cbx (ext st1) = set_sys s (cbx (ext st)) /\
    Kernel.held (hkern s) = Kernel.held (walk_kern st) /\ sent (hkern s) = sent (walk_kern st) /\
    kernel_wf (hkern s);
  hs_modules : Modules.modules m = Modules.modules loaded_modules;
  hs_address : 0 < address m;
  hs_ctx : ctx <> 0 /\ ctx ∉ blocks (apcs (ext st));
  hs_ms : ms <> 0 /\ ms ∉ blocks (apcs (ext st)) /\ ms <> ctx;
}.

Lemma allocate_ok (st : lstate walk_ext) a :
  apc_block (block_requests (ext st)) (blocks (apcs (ext st))) = Some a ->
  allocate_block st = Ok (a, set_ext (WalkExt (cbx (ext st)) (apcs (ext st)) (module_lists (ext st))
    (misc_flags (ext st)) (apc_queue (ext st)) (S (block_requests (ext st)))) st).
Proof. intros Ha. unfold allocate_block. by rewrite Ha. Qed.

Lemma start_walk {Bl : ApcLaws B} st ps es :
  idle_walk st ps es -> resources_granted ->
  exists ctx ms m st1, has_started st ctx ms m st1 /\
    ValidateThreadsViaKernelApc st
    = (_ ← EnumerateThreads ValidateThreadViaKernelApcCallback ctx;
       on_apcs (store_context ctx (set_progress 0)) ≫= fun _ =>
       mret query_modules.1.1) st1.
Proof.
  intros [_ _ _ _ _ Hk Hl Har Hrun] [Hpool Hblk Hsz Hqy]. unfold ValidateThreadsViaKernelApc.
  erewrite KM_step by (by apply on_apcs_ok, no_context).
  replace (set_ext (set_apcs (apcs (ext st)) (ext st)) st) with st by (by destruct st as [? ? ? []]).
  change (negb (0 =? 0)) with false. cbn iota.
  destruct (Hblk (block_requests (ext st)) (blocks (apcs (ext st)))) as [ctx Hctx].
  destruct (apc_block_fresh _ _ _ Hctx) as [Hc0 Hcf].
  erewrite KM_step by (by apply allocate_ok). destruct (Z.eqb_spec ctx 0); [done|].
  erewrite KM_step by (by apply on_apcs_ok). set (st2 := set_ext (set_apcs _ _) _).
  destruct (Hblk (block_requests (ext st2)) (blocks (apcs (ext st2)))) as [ms Hms].
  destruct (apc_block_fresh _ _ _ Hms) as [Hm0 Hmf].
  erewrite KM_step by (by apply allocate_ok).
  erewrite KM_step by (apply on_apcs_ok, (store_context_ok _ _ (ApcContext APC_CONTEXT_ID_STACKWALK 0 0 0));
    cbn; apply lookup_insert_eq).
  destruct (Z.eqb_spec ms 0); [done|]. erewrite KM_step by (by apply on_apcs_ok).
  match goal with |- context [((on_kern _) ≫= _) ?s] => set (st4 := s) end.
  destruct (GetSystemModuleInformation_spec (walk_kern st4) Hk) as (status & m & k & Hg & Wk & Sk & Nk & Ho & Hok).
  specialize (Hok Hpool Hsz Hqy).
  destruct Ho as [(_ & -> & _)|[(_ & Hf & _)|(Hst & -> & Ha & Hm & Hh)]]; [done|congruence|].
  rewrite (KM_step _ _ _ _ _ (walk_kern_ok _ _ _ _ Hg)). cbn beta iota. rewrite Hst. cbn [negb default from_option].
  destruct (store_modules_ok ms m (set_walk_kern k st4) (Kernel.held (walk_kern st4)) Ha Hh)
    as (st5 & Hs5 & Hn5 & Hh5 & Hf5 & He5). erewrite KM_step by exact Hs5.
  erewrite KM_step by (apply on_apcs_ok, insert_first; by rewrite He5).
  erewrite KM_step by (apply on_apcs_ok, store_context_ok; cbn; rewrite He5; cbn; apply lookup_insert_eq).
  exists ctx, ms, m. eexists. split; [|reflexivity].
  assert (Kernel.held (walk_kern st4) = Kernel.held (walk_kern st)) as Hheld by done.
  split; cbn; rewrite ?He5; cbn; rewrite ?Hheld; try done.
  - unfold started, set_array, set_contexts, set_system_modules, set_pool. cbn.
    rewrite Hl, Hrun, !insert_insert_eq. done.
  - eexists. by split.
  - cbn in Hmf. unfold blocks in Hmf. cbn in Hmf. rewrite dom_insert in Hmf. unfold blocks. set_solver.
Qed.

Lemma accepts_flags x y : misc_flags x = misc_flags y -> accepts x = accepts y.
Proof. intros E. unfold accepts, thread_flags. by rewrite E. Qed.

Lemma has_started_ready st ctx ms m st1 ps es :
  idle_walk st ps es -> has_started st ctx ms m st1 ->
  walk_ready (ext st1) ctx ms /\ walking (ext st1) ctx ms [] [] ps es [] (ext st1).
Proof.
  intros Hi [Hnx Hhd Hfr Ha Hml Hfl Hq (s & Hcb & _) _ _ [Hc _] _]. split.
  - split; rewrite ?Ha; try done. cbn. by rewrite lookup_insert_eq.
  - split; try done.
    + by rewrite app_nil_r.
    + intros a Hin. by apply elem_of_nil in Hin.
    + rewrite Ha. unfold started, set_contexts, set_pool. cbn.
      by rewrite insert_insert_eq, (left_id_L ∅ (∪)).
    + constructor.
    + intros a Hin. by apply elem_of_nil in Hin.
    + intros a f Hf. by left.
    + exists (thread_entries (cbx (ext st1))). by destruct (cbx (ext st1)).
    + rewrite Hcb. apply Hi.
Qed.

(** After the walk the contexts and APCs are in the state of the protocol of
    Apc.v in which every APC has been counted and none has run. *)
Lemma walk_is_filled st st1 ps es ctx ms m q x :
  idle_walk st ps es -> has_started st ctx ms m st1 ->
  walking (ext st1) ctx ms ps es [] [] q x ->
  sw_alive ctx (Stackwalk
    (set_contexts (<[ctx := ApcContext APC_CONTEXT_ID_STACKWALK (zlen q) 0 ms]>) (apcs x))
    Filled (map apc_object q)).
Proof.
  intros Hi Hs Hw. pose proof (walking_length _ _ _ _ _ _ _ _ _ Hw) as Hlen.
  destruct Hs as [_ _ _ Ha _ _ _ _ _ Hm [Hc0 Hcf] (Hm0 & Hmf & Hmc)].
  rewrite (wk_apcs _ _ _ _ _ _ _ _ _ Hw), Ha. unfold started, set_contexts, set_pool. cbn.
  rewrite !insert_insert_eq.
  assert (forall i p, (ctx :: replicate 9 0) !! i = Some p -> p <> 0 -> i = 0%nat /\ p = ctx) as Hslot.
  { intros [|i] p Hp Hp0; [by injection Hp as ->|]. cbn in Hp.
    change [0; 0; 0; 0; 0; 0; 0; 0; 0] with (replicate 9 0) in Hp.
    by apply lookup_replicate in Hp as [-> _]. }
  assert (forall a, a ∈ q -> apc_object a <> address m) as Hnew.
  { intros a Hin E. destruct (wk_fresh _ _ _ _ _ _ _ _ _ Hw a Hin) as [_ Hf].
    apply Hf. rewrite Ha, E. unfold blocks, started. cbn. set_solver. }
  split; cbn.
  - split; cbn; try done.
    + intros i p Hp Hp0. destruct (Hslot _ _ Hp Hp0) as [_ ->]. rewrite lookup_insert_eq.
      eexists _, _. split; [done|]. cbn. split; [done|]. rewrite lookup_insert_eq. split; [done|].
      intros _. set_solver.
    + intros i j p Hp Hq Hp0. by destruct (Hslot _ _ Hp Hp0) as [-> _], (Hslot _ _ Hq Hp0) as [-> _].
    + intros i j p p' c d Hp Hq Hp0 Hq0 _ _ _.
      by destruct (Hslot _ _ Hp Hp0) as [_ ->], (Hslot _ _ Hq Hq0) as [_ ->].
    + intros i j p p' c d a Hp Hq Hp0 Hq0 _ _ _ _ _.
      by destruct (Hslot _ _ Hp Hp0) as [_ ->], (Hslot _ _ Hq Hq0) as [_ ->].
  - done.
  - done.
  - exists (ApcContext APC_CONTEXT_ID_STACKWALK (zlen q) 0 ms), (address m).
    rewrite lookup_insert_eq. cbn. rewrite lookup_insert_eq. split_and!; try done.
    + unfold counted, zlen. cbn. rewrite length_map. lia.
    + intros (a & Ha' & Hin)%list_elem_of_fmap. by eapply Hnew.
  - apply Hw.
  - intros a Hin. apply elem_of_union. left. by apply elem_of_list_to_set.
  - pose proof (iw_length _ _ _ Hi). unfold zlen in *. rewrite length_map. lia.
Qed.

(** C14: a stack walk of the system threads.  With no operation in progress, memory
    granted and the module query successful, the request inserts a context with the
    module list of the query, marks it, and queues exactly one APC, in the order of
    the list, to every thread of the system process except the calling one that
    accepts it; each APC carries the context, is recorded in its thread's entry, and
    is counted; the mark is then removed.  The contexts, module lists and APCs are
    then in the state of the protocol of Apc.v in which all APCs are outstanding, so
    that no interleaving from there on uses freed memory. *)
Theorem stackwalk_queues_system_threads {Bl : ApcLaws B} st ps es :
  idle_walk st ps es -> resources_granted ->
  exists st' ctx ms m q,
    DispatchApcOperation APC_OPERATION_STACKWALK st = Ok (query_modules.1.1, st') /\
    next st' = next st /\ Lists.held st' = Lists.held st /\
    apc_queue (ext st') = apc_queue (ext st) ++ q /\
    map apc_thread q = map thread (filter (accepts (ext st)) es) /\
    (forall a, a ∈ q -> NormalContext a = ctx) /\
    Forall2 (fun p e => exists e', thread_entries (cbx (ext st')) !! p = Some e' /\
                          visited (ext st) ctx q e e') ps es /\
    contexts (apcs (ext st')) !! ctx = Some (ApcContext APC_CONTEXT_ID_STACKWALK (zlen q) 0 ms) /\
    module_lists (ext st') !! ms = Some m /\ Modules.modules m = Modules.modules loaded_modules /\
    sw_alive ctx (Stackwalk (apcs (ext st')) Filled (map apc_object q)).
Proof.
  intros Hi Hg. destruct (start_walk st ps es Hi Hg) as (ctx & ms & m & st1 & Hs & Hrun).
  destruct (has_started_ready _ _ _ _ _ _ _ Hi Hs) as [Hr Hw].
  pose proof Hs as [Hnx Hhd Hfr Ha Hml Hfl Hq (s & Hcb & _) Hm _ _ _].
  destruct (apc_walk_ok (ext st1) ctx ms st1 ps es Hr Hw) as (q & x & Hx & Hwx).
  { rewrite Hnx. apply Hi. } { rewrite Hhd. apply Hi. }
  { eapply Forall_impl; [exact (iw_inspect _ _ _ Hi)|]. intros e He. unfold inspectable. by rewrite Hfl. }
  { apply Hg. } { apply Hi. }
  pose proof (walk_is_filled _ _ _ _ _ _ _ _ _ Hi Hs Hwx) as Hal.
  unfold DispatchApcOperation. change (APC_OPERATION_STACKWALK =? _) with true. cbn iota. rewrite Hrun.
  erewrite KM_step by exact Hx. erewrite KM_step.
  2: { apply on_apcs_ok, store_context_ok. cbn. rewrite (wk_apcs _ _ _ _ _ _ _ _ _ Hwx). cbn.
       apply lookup_insert_eq. }
  eexists _, ctx, ms, m, q. split; [done|]. cbn. rewrite (accepts_flags (ext st) (ext st1)) by done.
  split_and!; try done.
  - by rewrite (wk_queue _ _ _ _ _ _ _ _ _ Hwx), Hq.
  - apply Hwx.
  - apply Hwx.
  - eapply Forall2_impl; [apply (wk_visited _ _ _ _ _ _ _ _ _ Hwx)|].
    intros p e (e' & H1 & H2). exists e'. split; [done|]. revert H2. unfold visited.
    by rewrite (accepts_flags (ext st) (ext st1)) by done.
  - by rewrite lookup_insert_eq.
  - rewrite (wk_modules _ _ _ _ _ _ _ _ _ Hwx), Hml. apply lookup_insert_eq.
Qed.

(** The flags of a thread the code means to set.  The constants are bit numbers
    (4 for Alertable, 14 for ApcQueueable) and are used as masks: on every path the
    request leaves both bits of every thread as they were, so that a thread that has
    turned ApcQueueable off still gets no APC, and sets bits 1, 2 and 3 instead. *)
Theorem apc_queueable_bit_untouched (st st' : lstate walk_ext) t f :
  misc_flags (ext st) !! (t + KTHREAD_MISC_FLAGS_OFFSET) = Some f ->
  (SetFlag t KTHREAD_MISC_FLAGS_ALERTABLE ≫= fun _ => SetFlag t KTHREAD_MISC_FLAGS_APC_QUEUEABLE) st
    = Ok (tt, st') ->
  exists f', misc_flags (ext st') !! (t + KTHREAD_MISC_FLAGS_OFFSET) = Some f' /\
    (forall b, Z.testbit f' b = Z.testbit f b || ((1 <=? b) && (b <=? 3))) /\
    Z.testbit f' 4 = Z.testbit f 4 /\ Z.testbit f' 14 = Z.testbit f 14.
Proof.
  intros Hf. erewrite KM_step by (by apply SetFlag_ok).
  rewrite (SetFlag_ok _ _ _ (Z.lor f KTHREAD_MISC_FLAGS_ALERTABLE)) by (cbn; apply lookup_insert_eq).
  intros [= <-]. cbn [ext set_ext misc_flags set_misc_flags]. rewrite lookup_insert_eq. eexists. split; [done|]. rewrite both_flags.
  assert (forall b, Z.testbit (Z.lor f KTHREAD_MISC_FLAGS_APC_QUEUEABLE) b
    = Z.testbit f b || ((1 <=? b) && (b <=? 3))) as Hb.
  { intros b. rewrite Z.lor_spec. f_equal.
    destruct (Z.leb_spec 1 b), (Z.leb_spec b 3); cbn [andb].
    - assert (b = 1 \/ b = 2 \/ b = 3) as [->|[->| ->]] by lia; reflexivity.
    - change KTHREAD_MISC_FLAGS_APC_QUEUEABLE with 14. apply Z.bits_above_log2; cbn; lia.
    - destruct (Z.ltb_spec b 0); [by rewrite Z.testbit_neg_r|]. by replace b with 0 by lia.
    - lia. }
  split; [exact Hb|]. split; rewrite Hb; change ((1 <=? _) && _) with false; by rewrite orb_false_r.
Qed.

(** ** An APC runs *)

(** The reports of a captured stack: a frame no module contains, up to the first
    frame that is zero. *)
Fixpoint apc_reports (m : SYSTEM_MODULES) (kthread : Z) (frames : list Z) : list (report * Z) :=
  match frames with
  | [] => []
  | frame :: frames =>
      if frame =? 0 then []
      else (if inside m frame then []
            else [(ApcStackwalk REPORT_APC_STACKWALK kthread frame, sizeof APC_STACKWALK_REPORT)])
           ++ apc_reports m kthread frames
  end.

Definition captured_frames (t : Z) : list Z := take (Z.to_nat (STACK_FRAME_POOL_SIZE / 8)) (stack_frames t).

Lemma apc_backtrace m t frames : forall flag s,
  kernel_wf s -> modules_wf m ->
  exists s', backtrace_loop t frames m flag s = Ok (tt, s') /\ sends s s' (apc_reports m t frames).
Proof.
  induction frames as [|frame frames IH]; intros flag s Hwf Hm.
  { eexists. split; [done|]. by apply sends_refl. }
  cbn [backtrace_loop apc_reports]. rewrite region_check_spec by done.
  destruct (Z.eqb_spec frame 0).
  { eexists. split; [done|]. by apply sends_refl. }
  change (NT_SUCCESS STATUS_SUCCESS) with true. cbn [negb].
  destruct (inside m frame); cbn [negb when app].
  { setoid_rewrite KM_step; [|done]. by apply IH. }
  unfold ReportApcStackwalkViolation. setoid_rewrite KM_step; [|by apply complete_report_spec].
  destruct (IH false (reported s (sizeof APC_STACKWALK_REPORT)
    (ApcStackwalk REPORT_APC_STACKWALK t frame))) as (s' & Hs' & Sd); [by apply reported_wf|done|].
  exists s'. split; [done|]. eapply (sends_trans _ _ _ [_]); [|exact Sd]. by apply sends_reported.
Qed.

Lemma walk_kern_set k (st : lstate walk_ext) : walk_kern (set_walk_kern k st) = k.
Proof. done. Qed.

Lemma set_walk_kern_idem k k' (st : lstate walk_ext) :
  set_walk_kern k (set_walk_kern k' st) = set_walk_kern k st.
Proof. done. Qed.

Lemma context_modules_ok ctx c m (st : lstate walk_ext) :
  contexts (apcs (ext st)) !! ctx = Some c -> module_lists (ext st) !! modules c = Some m ->
  context_modules ctx st = Ok (m, st).
Proof.
  intros Hc Hm. unfold context_modules, on_apcs, load_context. munfold. rewrite Hc. cbn.
  rewrite Hm. by destruct st as [? ? ? []].
Qed.

(** The part between finding the entry and freeing the APC. *)
Lemma apc_body_ok {X} (a : queued_apc) c m (st : lstate walk_ext) (next_ : M X) :
  kernel_wf (walk_kern st) -> modules_wf m ->
  contexts (apcs (ext st)) !! NormalContext a = Some c ->
  module_lists (ext st) !! modules c = Some m ->
  exists k,
    (buffer ← on_kern (ExAllocatePool2 STACK_FRAME_POOL_SIZE POOL_TAG_APC);
     (if buffer =? 0 then mret tt
      else
        (if zlen (captured_frames (apc_thread a)) =? 0 then mret tt
         else
           m ← context_modules (NormalContext a);
           on_kern (backtrace_loop (apc_thread a) (captured_frames (apc_thread a)) m false)) ≫= fun _ =>
        on_kern (ExFreePoolWithTag buffer POOL_TAG_APC)) ≫= fun _ => next_) st = next_ (set_walk_kern k st) /\
    sends (walk_kern st) k (apc_reports m (apc_thread a) (captured_frames (apc_thread a))).
Proof.
  intros Hk Hwf Hc Hm.
  destruct (alloc_spec (walk_kern st) STACK_FRAME_POOL_SIZE POOL_TAG_APC Hk)
    as (p & k1 & Ha & W1 & S1 & N1 & _ & Hp).
  rewrite (KM_step _ _ _ _ _ (walk_kern_ok _ _ _ _ Ha)).
  destruct (pool_grants (pool_requests (walk_kern st))) eqn:Eg; destruct Hp as [Hp Hh].
  2: { subst p. exists k1. split; [done|]. split; [done..|]. intros Hg. congruence. }
  destruct (Z.eqb_spec p 0); [lia|].
  assert (exists k2, (if zlen (captured_frames (apc_thread a)) =? 0 then mret tt
      else m ← context_modules (NormalContext a);
        on_kern (backtrace_loop (apc_thread a) (captured_frames (apc_thread a)) m false)) (set_walk_kern k1 st)
      = Ok (tt, set_walk_kern k2 st) /\
    sends k1 k2 (apc_reports m (apc_thread a) (captured_frames (apc_thread a)))) as (k2 & H2 & [W2 D2 N2 S2]).
  { destruct (Z.eqb_spec (zlen (captured_frames (apc_thread a))) 0) as [Hz|_].
    - exists k1. split; [done|]. destruct (captured_frames (apc_thread a)); [by apply sends_refl|].
      unfold zlen in Hz. cbn in Hz. lia.
    - destruct (apc_backtrace m (apc_thread a) (captured_frames (apc_thread a)) false k1 W1 Hwf)
        as (k2 & H2 & S2). exists k2. split; [|done].
      erewrite KM_step by (by eapply context_modules_ok). by rewrite (walk_kern_ok _ _ tt k2). }
  exists (Kernel.set_held (Kernel.held (walk_kern st)) k2). erewrite KM_step.
  2: { erewrite KM_step by exact H2.
       apply (release_modules (Kernel.held (walk_kern st)) (Block p POOL_TAG_APC)). cbn. by rewrite D2. }
  split; [done|]. split; cbn; [done|done|congruence|]. intros Hg. by rewrite S2, S1.
Qed.

(** The thread whose APC it is has an entry. *)
Record listed_thread (st : lstate walk_ext) (ps : list Z) (es : list THREAD_LIST_ENTRY) : Prop := {
  lt_list : slist (next st) thread_head ps;
  lt_free : thread_lock ∉ Lists.held st;
  lt_entries : entries_at (thread_entries (cbx (ext st))) ps es;
}.

Lemma find_thread_ok st ps es t :
  listed_thread st ps es ->
  on_lists (FindThreadListEntryByThreadAddress t) st
  = Ok (first_address (fun e => thread e =? t) ps es, st).
Proof.
  intros [Hs HL He]. unfold on_lists, FindThreadListEntryByThreadAddress.
  rewrite (find_entry_spec (LState (next st) (Lists.held st) (frees st) (cbx (ext st))) thread_head
    thread_lock thread_entries (fun e => thread e =? t) ps es) by done.
  by destruct st as [? ? ? []].
Qed.

Lemma walk_update_entry_ok p e f (st : lstate walk_ext) :
  p <> 0 -> is_Some (next st !! p) -> thread_entries (cbx (ext st)) !! p = Some e ->
  update_thread_entry p f st = Ok (tt, set_ext (set_cbx (set_thread_entries
    (<[p := f e]> (thread_entries (cbx (ext st)))) (cbx (ext st))) (ext st)) st).
Proof.
  intros Hp Hnx He. unfold update_thread_entry. by erewrite KM_step by (by apply read_entry_ok).
Qed.

(** The last step of an APC is the step of the protocol. *)
Lemma free_apc_step ctx s o apc :
  sw_alive ctx (Stackwalk s Filled o) -> apc ∈ o ->
  exists s', FreeApcAndDecrementApcCount apc APC_CONTEXT_ID_STACKWALK s = Ok (tt, s') /\
    sw_step ctx (Stackwalk s Filled o) (Stackwalk s' Filled (filter (fun x => x <> apc) o)).
Proof.
  intros Hal Hin. pose proof Hal as [Hwf Harr H0 (c & a & Hc & Hid & _) _ Hpool _]. cbn in Hwf, Harr, Hc, Hpool.
  pose proof (run_apc_ok ctx s c apc (wf_unlocked _ Hwf) Harr H0 Hc Hid (Hpool _ Hin)) as Hrun.
  eexists. split; [|by apply (step_apc _ _ _ _ apc)].
  rewrite <- Hrun. unfold run_apc. by erewrite KM_step by (unfold load_context; rewrite Hc; done).
Qed.

(** C37: the routine of a stack-walk APC.  When the thread is on the list, the routine
    always completes: it reports exactly the captured frames outside the modules of
    the context, up to a zero frame, gives its buffer back, makes the step of the
    protocol of Apc.v that frees the APC and takes it off the count, and clears the
    thread's entry.  When the thread is not on the list (its exit was notified first)
    nothing at all happens: the APC stays allocated and counted for ever. *)
Theorem apc_routine_walks_stack ctx m (a : queued_apc) c (st : lstate walk_ext) ps es o :
  listed_thread st ps es -> kernel_wf (walk_kern st) ->
  sw_alive ctx (Stackwalk (apcs (ext st)) Filled o) -> apc_object a ∈ o -> NormalContext a = ctx ->
  contexts (apcs (ext st)) !! ctx = Some c -> module_lists (ext st) !! modules c = Some m -> modules_wf m ->
  let p := first_address (fun e => thread e =? apc_thread a) ps es in
  if p =? 0 then ApcKernelRoutine a st = Ok (tt, st)
  else exists e st', e ∈ es /\ thread e = apc_thread a /\ ApcKernelRoutine a st = Ok (tt, st') /\
    next st' = next st /\ Lists.held st' = Lists.held st /\
    sends (walk_kern st) (walk_kern st') (apc_reports m (apc_thread a) (captured_frames (apc_thread a))) /\
    sw_step ctx (Stackwalk (apcs (ext st)) Filled o)
      (Stackwalk (apcs (ext st')) Filled (filter (fun x => x <> apc_object a) o)) /\
    thread_entries (cbx (ext st'))
      = <[p := ThreadEntry (thread e) (owning_process e) false 0]> (thread_entries (cbx (ext st))).
Proof.
  intros Hlt Hk Hal Hin <- Hc Hm Hwf. cbn zeta. unfold ApcKernelRoutine.
  rewrite (KM_step _ _ _ _ _ (find_thread_ok st ps es (apc_thread a) Hlt)).
  destruct (Z.eqb_spec (first_address (fun e => thread e =? apc_thread a) ps es) 0) as [|Hne]; [done|].
  destruct (first_address_entry _ _ _ _ _ _ (slist_chain _ _ _ (lt_list _ _ _ Hlt)) (lt_entries _ _ _ Hlt) Hne)
    as (e & He & Hine & Hnx & Ht%Z.eqb_eq).
  destruct (free_apc_step _ _ _ _ Hal Hin) as (s' & Hf & Hstep).
  exists e. set (p := first_address _ _ _) in *.
  match goal with |- exists _, _ /\ _ /\ (_ ≫= fun b => _ ≫= fun _ => ?rest) st = _ /\ _ =>
    destruct (apc_body_ok a c m st rest Hk Hwf Hc Hm) as (k & Hb & Hs) end.
  unfold captured_frames in Hb at 1 2. rewrite Hb. erewrite KM_step by (by apply on_apcs_ok).
  erewrite KM_step by (by apply walk_update_entry_ok).
  erewrite walk_update_entry_ok by (done || cbn; apply lookup_insert_eq).
  eexists. split; [done|]. split; [done|]. split; [done|]. cbn. by rewrite insert_insert_eq.
Qed.

End properties.

(** ** Witnesses *)

(** Threads check ApcQueueable, bit 14, on insertion; 0x700 has it and 0x710 does
    not.  Their stacks have a frame inside and a frame outside the module. *)
Definition sample_apc_api : ApcApi := {|
  apc_block := fun _ used => Some (above used);
  KeInsertQueueApc := fun _ f => Z.testbit f 14;
  stack_frames := fun _ => [0x1800; 0x9000; 0; 0x9999];
|}.

Lemma sample_apc_laws : ApcLaws sample_apc_api.
Proof. intros n used a [= <-]. apply above_fresh. Qed.

Definition sample_threads : list THREAD_LIST_ENTRY :=
  [ThreadEntry 0x700 4 false 0; ThreadEntry 0x710 4 false 0; ThreadEntry 0x720 9 false 0].

Definition idle_walk_state : lstate walk_ext :=
  LState {[0x200 := 0x400; 0x400 := 0x410; 0x410 := 0x420; 0x420 := 0]} ∅ []
    (WalkExt (CbExt guarded_state ∅
                {[0x400 := ThreadEntry 0x700 4 false 0; 0x410 := ThreadEntry 0x710 4 false 0;
                  0x420 := ThreadEntry 0x720 9 false 0]} true true false 0 0 [])
       (ApcState 0x5000 (replicate 10 0) ∅ ∅ ∅ false false) ∅
       {[0x774 := 0x4000; 0x784 := 0]} [] 0).

Lemma idle_walk_sample :
  idle_walk (U := sample_cpus) (H := sample_handles) (G := sample_heads)
    idle_walk_state [0x400; 0x410; 0x420] sample_threads.
Proof.
  split; try done.
  - split; [by vm_compute|repeat constructor; set_solver|done].
  - by repeat constructor.
  - repeat constructor; try done; cbn; intros _; by eexists.
Qed.

Lemma sample_resources :
  resources_granted (P := always_grants) (A := sample_api (fun _ => 0)) (B := sample_apc_api).
Proof. split; try done. Qed.

Lemma stackwalk_queues_system_threads_witness :
  exists st' q, DispatchApcOperation (P := always_grants) (A := sample_api (fun _ => 0))
      (U := sample_cpus) (H := sample_handles) (G := sample_heads) (B := sample_apc_api)
      APC_OPERATION_STACKWALK idle_walk_state = Ok (STATUS_SUCCESS, st') /\
    apc_queue (ext st') = q /\ map apc_thread q = [0x700].
Proof.
  destruct (stackwalk_queues_system_threads (P := always_grants) (A := sample_api (fun _ => 0))
    (U := sample_cpus) (H := sample_handles) (G := sample_heads) (B := sample_apc_api)
    (Bl := sample_apc_laws) idle_walk_state _ _ idle_walk_sample sample_resources)
    as (st' & ctx & ms & m & q & Hr & _ & _ & Hq & Ht & _).
  exists st', q. split; [exact Hr|]. split; [exact Hq|]. rewrite Ht. reflexivity.
Defined.

Lemma apc_queueable_bit_untouched_witness :
  exists f', Z.testbit f' 14 = false /\ Z.testbit f' 3 = true.
Proof.
  destruct (apc_queueable_bit_untouched idle_walk_state
    (set_ext (flag_thread 0x710 0 (ext idle_walk_state)) idle_walk_state) 0x710 0)
    as (f' & _ & Hb & _ & H14); [reflexivity..|].
  exists f'. split; [exact H14|]. rewrite Hb. reflexivity.
Defined.

(** The APC 0x777 of the thread 0x700 is about to run. *)
Definition running_walk_state : lstate walk_ext :=
  LState {[0x200 := 0x400; 0x400 := 0]} ∅ []
    (WalkExt (CbExt guarded_state ∅ {[0x400 := ThreadEntry 0x700 4 true 0x777]} true true false 0 0 [])
       (ApcState 0x5000 (0x100 :: replicate 9 0) {[0x100 := ApcContext 1 1 0 0x200]}
          {[0x200 := 0x300]} {[0x300; 0x777]} false false)
       {[0x200 := SystemModules 0x300 [ModuleInfo 0x1000 0x1000 "ntoskrnl.exe"]]}
       {[0x774 := 0x400e]} [] 3).

Lemma running_walk_alive : sw_alive 0x100 (Stackwalk (apcs (ext running_walk_state)) Filled [0x777]).
Proof.
  assert (forall i p, (0x100 :: replicate 9 0) !! i = Some p -> p <> 0 -> i = 0%nat /\ p = 0x100) as Hslot.
  { exact sample_array_lookup. }
  split; cbn -[replicate]; try done.
  - split; cbn -[replicate]; try done.
    + intros i p Hp Hp0. destruct (Hslot _ _ Hp Hp0) as [_ ->]. rewrite lookup_singleton_eq.
      eexists _, _. split; [done|]. cbn. split; [done|]. rewrite lookup_singleton_eq. split; [done|].
      intros _. set_solver.
    + intros i j p Hp Hq Hp0. by destruct (Hslot _ _ Hp Hp0) as [-> _], (Hslot _ _ Hq Hp0) as [-> _].
    + intros i j p p' c d Hp Hq Hp0 Hq0 _ _ _.
      by destruct (Hslot _ _ Hp Hp0) as [_ ->], (Hslot _ _ Hq Hq0) as [_ ->].
    + intros i j p p' c d a Hp Hq Hp0 Hq0 _ _ _ _ _.
      by destruct (Hslot _ _ Hp Hp0) as [_ ->], (Hslot _ _ Hq Hq0) as [_ ->].
  - exists (ApcContext 1 1 0 0x200), 0x300. rewrite lookup_singleton_eq. cbn.
    rewrite lookup_singleton_eq. split_and!; try done. set_solver.
  - apply NoDup_singleton.
  - set_solver.
Qed.

Lemma apc_routine_walks_stack_witness :
  exists st', ApcKernelRoutine (P := always_grants) (K := always_succeeds) (G := sample_heads)
      (B := sample_apc_api) (QueuedApc 0x777 0x700 0x100) running_walk_state = Ok (tt, st') /\
    sent (walk_kern st') = [(ApcStackwalk REPORT_APC_STACKWALK 0x700 0x9000, sizeof APC_STACKWALK_REPORT)].
Proof.
  pose proof (apc_routine_walks_stack (P := always_grants) (K := always_succeeds) (G := sample_heads)
    (B := sample_apc_api) 0x100 (SystemModules 0x300 [ModuleInfo 0x1000 0x1000 "ntoskrnl.exe"])
    (QueuedApc 0x777 0x700 0x100) (ApcContext 1 1 0 0x200) running_walk_state [0x400]
    [ThreadEntry 0x700 4 true 0x777] [0x777]) as Hw.
  destruct Hw as (e & st' & _ & _ & Hr & _ & _ & Hs & _).
  - split; [|set_solver|by repeat constructor].
    split; [by vm_compute|repeat constructor; set_solver|done].
  - unfold kernel_wf. cbn. lia.
  - exact running_walk_alive.
  - by left.
  - done.
  - reflexivity.
  - reflexivity.
  - constructor; [|constructor]. unfold module_wf. cbn. lia.
  - exists st'. split; [exact Hr|]. rewrite (sends_sent _ _ _ Hs) by done. reflexivity.
Defined.
