(* ===== verification/Config.v ===== *)
(** * driver.c: the configuration gathered when the driver is loaded

    The driver reads its image path and its name from the registry, appends ".sys" to
    the name, and gathers what it knows of the machine: whether the hypervisor shows,
    the version of the system, the processor, the vendor and the serial numbers.  The
    strings are pool blocks that the unload path frees. *)

From stdpp Require Import gmultiset.
From S2P Require Import Prelude Layout Irp Structs Kernel Modules Smbios Hypervisor Disk.

(** ** Data *)

Definition POOL_TAG_STRINGS : Z := 0x73747273.
Definition VENDOR_STRING_MAX_LENGTH : Z := 256.
Definition MOTHERBOARD_SERIAL_CODE_LENGTH : Z := 64.
Definition SMBIOS_VENDOR_STRING_SUB_INDEX : Z := 1.
Definition SMBIOS_VMWARE_SERIAL_NUMBER_SUB_INDEX : Z := 3.
Definition SMBIOS_NATIVE_SERIAL_NUMBER_SUB_INDEX : Z := 4.

Definition CPUID_AUTHENTIC_AMD_EBX : Z := 0x68747541.
Definition CPUID_AUTHENTIC_AMD_EDX : Z := 0x69746e65.
Definition CPUID_AUTHENTIC_AMD_ECX : Z := 0x444d4163.
Definition CPUID_GENUINE_INTEL_EBX : Z := 0x756e6547.
Definition CPUID_GENUINE_INTEL_EDX : Z := 0x49656e69.
Definition CPUID_GENUINE_INTEL_ECX : Z := 0x6c65746e.

Inductive ENVIRONMENT_TYPE := NativeWindows | Vmware | VirtualBox.
Inductive PROCESSOR_TYPE := Unknown | GenuineIntel | AuthenticAmd.

#[export] Instance PROCESSOR_TYPE_eq_dec : EqDecision PROCESSOR_TYPE.
Proof. solve_decision. Defined.

(** The build number stands for [os_information]. *)
Record SYSTEM_INFORMATION := SysInfo {
  motherboard_serial : list Z;
  drive_0_serial : list Z;
  vendor : list Z;
  virtualised_environment : bool;
  environment : ENVIRONMENT_TYPE;
  processor_type : PROCESSOR_TYPE;
  os_build : Z;
}.

(** The layout of [SYSTEM_INFORMATION], of which the client gets a copy. *)
Definition RTL_OSVERSIONINFOW : cty := St
  [("dwOSVersionInfoSize", ULONG); ("dwMajorVersion", ULONG); ("dwMinorVersion", ULONG);
   ("dwBuildNumber", ULONG); ("dwPlatformId", ULONG); ("szCSDVersion", Arr 128 (Int 2))].

Definition SYSTEM_INFORMATION_layout : cty := St
  [("motherboard_serial", Arr MOTHERBOARD_SERIAL_CODE_LENGTH UCHAR);
   ("drive_0_serial", Arr DEVICE_DRIVE_0_SERIAL_CODE_LENGTH UCHAR);
   ("vendor", Arr VENDOR_STRING_MAX_LENGTH UCHAR); ("virtualised_environment", UCHAR);
   ("environment", Int 4); ("processor", Int 4); ("os_information", RTL_OSVERSIONINFOW)].

Record UNICODE_STRING := UnicodeString { Buffer : Z; Length : Z; MaximumLength : Z }.
Definition no_string : UNICODE_STRING := UnicodeString 0 0 0.

(** The strings of [DRIVER_CONFIG]; of the ANSI one the buffer and its bytes. *)
Record config_strings := ConfigStrings {
  unicode_driver_name : UNICODE_STRING;
  ansi_driver_name : Z * list Z;
  driver_path : UNICODE_STRING;
}.

(** The resources, the processor, the strings with the contents of their blocks by
    address, and the system information. *)
Record conf_state := ConfState {
  ckern : kernel;
  cpu : processor;
  strings_ : config_strings;
  blocks : gmap Z (list Z);
  info : SYSTEM_INFORMATION;
}.

(** The values [RtlxQueryRegistryValues] passes to the callback for the key at a
    path, and its status when all were accepted; the conversion of the bytes of a
    Unicode string; registers EBX, ECX and EDX of leaf 0 of CPUID. *)
Class ConfigApi := {
  registry_values : string -> list (string * list Z);
  registry_status : string -> NTSTATUS;
  unicode_to_ansi : list Z -> NTSTATUS * Z * list Z;
  cpuid0 : Z * Z * Z;
}.

Abbreviation M := (KM conf_state).

Definition set_strings (f : config_strings -> config_strings) : M unit :=
  modify (fun s => ConfState (ckern s) (cpu s) (f (strings_ s)) (blocks s) (info s)).
Definition set_info (f : SYSTEM_INFORMATION -> SYSTEM_INFORMATION) : M unit :=
  modify (fun s => ConfState (ckern s) (cpu s) (strings_ s) (blocks s) (f (info s))).
Definition store_string (p : Z) (bytes : list Z) : M unit :=
  modify (fun s => ConfState (ckern s) (cpu s) (strings_ s) (<[p := bytes]> (blocks s)) (info s)).

Definition on_kern {X} (m : KM kernel X) : M X := fun s =>
  match m (ckern s) with
  | Ok (x, k) => Ok (x, ConfState k (cpu s) (strings_ s) (blocks s) (info s))
  | Crash f => Crash f
  end.
Definition on_cpu {X} (m : KM processor X) : M X := fun s =>
  match m (cpu s) with
  | Ok (x, c) => Ok (x, ConfState (ckern s) c (strings_ s) (blocks s) (info s))
  | Crash f => Crash f
  end.

Definition set_vendor (b : list Z) (i : SYSTEM_INFORMATION) : SYSTEM_INFORMATION :=
  SysInfo (motherboard_serial i) (drive_0_serial i) b (virtualised_environment i)
    (environment i) (processor_type i) (os_build i).
Definition set_serial (b : list Z) (i : SYSTEM_INFORMATION) : SYSTEM_INFORMATION :=
  SysInfo b (drive_0_serial i) (vendor i) (virtualised_environment i)
    (environment i) (processor_type i) (os_build i).
Definition set_drive (b : list Z) (i : SYSTEM_INFORMATION) : SYSTEM_INFORMATION :=
  SysInfo (motherboard_serial i) b (vendor i) (virtualised_environment i)
    (environment i) (processor_type i) (os_build i).
Definition set_virtualised (b : bool) (i : SYSTEM_INFORMATION) : SYSTEM_INFORMATION :=
  SysInfo (motherboard_serial i) (drive_0_serial i) (vendor i) b
    (environment i) (processor_type i) (os_build i).
Definition set_environment (e : ENVIRONMENT_TYPE) (i : SYSTEM_INFORMATION) : SYSTEM_INFORMATION :=
  SysInfo (motherboard_serial i) (drive_0_serial i) (vendor i) (virtualised_environment i)
    e (processor_type i) (os_build i).
Definition set_processor (p : PROCESSOR_TYPE) (i : SYSTEM_INFORMATION) : SYSTEM_INFORMATION :=
  SysInfo (motherboard_serial i) (drive_0_serial i) (vendor i) (virtualised_environment i)
    (environment i) p (os_build i).
Definition set_build (n : Z) (i : SYSTEM_INFORMATION) : SYSTEM_INFORMATION :=
  SysInfo (motherboard_serial i) (drive_0_serial i) (vendor i) (virtualised_environment i)
    (environment i) (processor_type i) n.

(** A C string of the configuration, as characters; reading past the end of the
    field is a fault. *)
Definition string_of_bytes (l : list Z) : string :=
  Stdlib.Strings.String.string_of_list_ascii (map (fun b => Ascii.ascii_of_N (Z.to_N b)) l).

Definition c_characters (l : list Z) : res (list Z) :=
  if bool_decide (0 ∈ l) then Ok (c_string (length l) l) else Crash OutOfBounds.

Section operations.
Context {P : Pool} {A : SystemApi} {F : Firmware} {C : ProcessorApi} {D : DiskApi} {R : ConfigApi}.

(** ** Strings from the registry *)

(** L".sys" with its terminator. *)
Definition dot_sys : list Z := [46; 0; 115; 0; 121; 0; 115; 0; 0; 0].

(** [wcscpy] to [block + offset]. *)
Definition copy_at (block : list Z) (offset : Z) (src : list Z) : res (list Z) :=
  if (offset <? 0) || (zlen block <? offset + zlen src) then Crash OutOfBounds
  else Ok (take (Z.to_nat offset) block ++ src ++ drop (Z.to_nat offset + length src) block).

Definition store_path (temp_buffer ValueLength : Z) (c : config_strings) : config_strings :=
  ConfigStrings (unicode_driver_name c) (ansi_driver_name c)
    (UnicodeString temp_buffer (u16 ValueLength) (u16 ValueLength)).
Definition store_name (temp_buffer ValueLength : Z) (c : config_strings) : config_strings :=
  ConfigStrings (UnicodeString temp_buffer (u16 (ValueLength + 20)) (u16 (ValueLength + 20)))
    (ansi_driver_name c) (driver_path c).

(** The two branches of the callback. *)
Definition take_path (ValueName : string) (ValueData : list Z) : M NTSTATUS :=
  if negb (String.eqb ValueName "ImagePath") then mret STATUS_SUCCESS
  else
    temp_buffer ← on_kern (ExAllocatePool2 (zlen ValueData) POOL_TAG_STRINGS);
    if temp_buffer =? 0 then mret STATUS_MEMORY_NOT_ALLOCATED
    else
      store_string temp_buffer ValueData ≫= fun _ =>
      set_strings (store_path temp_buffer (zlen ValueData)) ≫= fun _ =>
      mret STATUS_SUCCESS.

Definition take_name (ValueName : string) (ValueData : list Z) : M NTSTATUS :=
  if negb (String.eqb ValueName "DisplayName") then mret STATUS_SUCCESS
  else
    temp_buffer ← on_kern (ExAllocatePool2 (u32 (zlen ValueData + 20)) POOL_TAG_STRINGS);
    if temp_buffer =? 0 then mret STATUS_MEMORY_NOT_ALLOCATED
    else
      bytes ← lift (copy_at (ValueData ++ replicate 20 0) (zlen ValueData - 2) dot_sys);
      store_string temp_buffer bytes ≫= fun _ =>
      set_strings (store_name temp_buffer (zlen ValueData)) ≫= fun _ =>
      mret STATUS_SUCCESS.

Definition RegistryPathQueryCallbackRoutine (ValueName : string) (ValueData : list Z) : M NTSTATUS :=
  status ← take_path ValueName ValueData;
  if negb (NT_SUCCESS status) then mret status
  else take_name ValueName ValueData.

(** [RtlxQueryRegistryValues] stops at the first value the callback refuses. *)
Fixpoint query_values (values : list (string * list Z)) (status : NTSTATUS) : M NTSTATUS :=
  match values with
  | [] => mret status
  | (name, data) :: values =>
      st ← RegistryPathQueryCallbackRoutine name data;
      if negb (NT_SUCCESS st) then mret st else query_values values status
  end.

(** [RtlUnicodeStringToAnsiString] of the driver's name, with allocation. *)
Definition convert_name : M NTSTATUS :=
  name ← gets (fun s => unicode_driver_name (strings_ s));
  bytes ← gets (fun s => take (Z.to_nat (Length name)) (default [] (blocks s !! Buffer name)));
  let '(status, buf, ansi) := unicode_to_ansi bytes in
  if negb (NT_SUCCESS status) then mret status
  else
    on_kern (acquire (StringBuffer buf)) ≫= fun _ =>
    set_strings (fun c => ConfigStrings (unicode_driver_name c) (buf, ansi) (driver_path c)) ≫= fun _ =>
    mret status.

Definition DrvLoadRetrieveDriverNameFromRegistry (RegistryPath : string) : M NTSTATUS :=
  status ← query_values (registry_values RegistryPath) (registry_status RegistryPath);
  if negb (NT_SUCCESS status) then mret status
  else convert_name.

(** The fields keep their values. *)
Definition DrvUnloadFreeConfigStrings : M unit :=
  c ← gets strings_;
  when (negb (Buffer (unicode_driver_name c) =? 0))
    (on_kern (ExFreePoolWithTag (Buffer (unicode_driver_name c)) POOL_TAG_STRINGS)) ≫= fun _ =>
  when (negb (Buffer (driver_path c) =? 0))
    (on_kern (ExFreePoolWithTag (Buffer (driver_path c)) POOL_TAG_STRINGS)) ≫= fun _ =>
  when (negb ((ansi_driver_name c).1 =? 0))
    (on_kern (release (StringBuffer (ansi_driver_name c).1))).

(** ** The machine *)

Definition GetSystemProcessorType : M NTSTATUS :=
  let '(ebx, ecx, edx) := cpuid0 in
  if (ebx =? CPUID_AUTHENTIC_AMD_EBX) && (ecx =? CPUID_AUTHENTIC_AMD_ECX) &&
     (edx =? CPUID_AUTHENTIC_AMD_EDX)
  then set_info (set_processor GenuineIntel) ≫= fun _ => mret STATUS_SUCCESS
  else if (ebx =? CPUID_GENUINE_INTEL_EBX) && (ecx =? CPUID_GENUINE_INTEL_ECX) &&
          (edx =? CPUID_GENUINE_INTEL_EDX)
  then set_info (set_processor AuthenticAmd) ≫= fun _ => mret STATUS_SUCCESS
  else set_info (set_processor Unknown) ≫= fun _ => mret STATUS_UNSUCCESSFUL.

(** [ParseSMBIOSTable] into a field of the system information. *)
Definition parse_into (fuel : nat) (field : SYSTEM_INFORMATION -> list Z)
  (store : list Z -> SYSTEM_INFORMATION -> SYSTEM_INFORMATION) (size : Z) (table : SMBIOS_TABLE_INDEX)
  (index : Z) : M NTSTATUS :=
  buffer ← gets (fun s => field (info s));
  '(status, buffer, _) ← lift (ParseSMBIOSTable fuel buffer size table index);
  set_info (store buffer) ≫= fun _ =>
  mret status.

Definition vendor_environment (name : string) : ENVIRONMENT_TYPE :=
  if strstr name "VMware, Inc" then Vmware
  else if strstr name "innotek GmbH" then VirtualBox
  else NativeWindows.

Definition ParseSmbiosForGivenSystemEnvironment (fuel : nat) : M NTSTATUS :=
  status ← parse_into fuel vendor set_vendor VENDOR_STRING_MAX_LENGTH SmbiosInformation
             SMBIOS_VENDOR_STRING_SUB_INDEX;
  if negb (NT_SUCCESS status) then mret status
  else
    bytes ← gets (fun s => vendor (info s));
    name ← lift (c_characters bytes);
    let environment_ := vendor_environment (string_of_bytes name) in
    set_info (set_environment environment_) ≫= fun _ =>
    match environment_ with
    | NativeWindows =>
        parse_into fuel motherboard_serial set_serial MOTHERBOARD_SERIAL_CODE_LENGTH
          VendorSpecificInformation SMBIOS_NATIVE_SERIAL_NUMBER_SUB_INDEX
    | Vmware =>
        parse_into fuel motherboard_serial set_serial MOTHERBOARD_SERIAL_CODE_LENGTH
          SystemInformation SMBIOS_VMWARE_SERIAL_NUMBER_SUB_INDEX
    | VirtualBox => mret STATUS_NOT_SUPPORTED
    end.

Definition GetOsVersion : M NTSTATUS :=
  let '(status, build) := GetOsVersionInformation in
  when (NT_SUCCESS status) (set_info (set_build build)) ≫= fun _ => mret status.

Definition gather_drive : M NTSTATUS :=
  serial ← gets (fun s => drive_0_serial (info s));
  '(status, serial) ← on_kern (GetHardDiskDriveSerialNumber serial DEVICE_DRIVE_0_SERIAL_CODE_LENGTH);
  set_info (set_drive serial) ≫= fun _ =>
  mret status.

(** Each step only if the one before succeeded. *)
Fixpoint in_sequence (steps : list (M NTSTATUS)) : M NTSTATUS :=
  match steps with
  | [] => mret STATUS_SUCCESS
  | [step] => step
  | step :: steps =>
      status ← step;
      if negb (NT_SUCCESS status) then mret status else in_sequence steps
  end.

Definition DrvLoadGatherSystemEnvironmentSettings (fuel : nat) : M NTSTATUS :=
  virtualised ← on_cpu APERFMsrTimingCheck;
  when virtualised (set_info (set_virtualised true)) ≫= fun _ =>
  in_sequence [GetOsVersion; GetSystemProcessorType; ParseSmbiosForGivenSystemEnvironment fuel; gather_drive].

End operations.

(** ** Specification *)

Section specification.
Context {P : Pool} {A : SystemApi} {F : Firmware} {C : ProcessorApi} {D : DiskApi} {R : ConfigApi}.

(** 7-bit characters as 16-bit units. *)
Definition wide (l : list Z) : list Z := l ≫= fun c => [c; 0].

(** The conversion of 7-bit characters keeps them. *)
Class ConfigLaws : Prop :=
  ansi_ascii l status buf bytes :
    Forall (fun c => 0 <= c < 128) l -> unicode_to_ansi (wide l) = (status, buf, bytes) ->
    NT_SUCCESS status = true -> bytes = l /\ buf <> 0.

(** A table of SMBIOS structures in the memory the firmware call fills. *)
Record smbios_table (xs : list structure) : Prop := {
  st_size : required_size <> 0;
  st_buffer : 0 < firmware_buffer;
  st_call : NT_SUCCESS second_call = true;
  st_ok : Forall structure_ok xs;
  st_bytes : bytes_at firmware_memory (firmware_buffer + 8) (table_bytes xs);
  st_end : firmware_buffer + 8 + zlen (table_bytes xs) < 2 ^ 64;
}.

(** ** Lemmas *)

Lemma wide_app l k : wide (l ++ k) = wide l ++ wide k.
Proof. apply bind_app. Qed.

Lemma length_wide l : length (wide l) = (2 * length l)%nat.
Proof. induction l as [|c l IH]; [done|]. change (wide (c :: l)) with (c :: 0 :: wide l). cbn. rewrite IH. lia. Qed.

Lemma copy_at_end block tail src :
  (length src <= length tail)%nat ->
  copy_at (block ++ tail) (zlen block) src = Ok (block ++ src ++ drop (length src) tail).
Proof.
  intros Hl. unfold copy_at. rewrite zlen_app. pose proof (zlen_nonneg block).
  destruct (Z.ltb_spec (zlen block) 0); [lia|].
  destruct (Z.ltb_spec (zlen block + zlen tail) (zlen block + zlen src)); [unfold zlen in *; lia|].
  cbn [orb]. rewrite to_nat_zlen, take_app_length.
  by rewrite drop_app_ge, Nat.add_comm, Nat.add_sub by lia.
Qed.

(** The name with its extension, as the callback leaves it in the block. *)
Definition sys_name (name : list Z) : list Z := name ++ [46; 115; 121; 115] ++ replicate 7 0.

Lemma name_block name :
  copy_at ((wide name ++ [0; 0]) ++ replicate 20 0) (zlen (wide name ++ [0; 0]) - 2) dot_sys
  = Ok (wide (sys_name name)).
Proof.
  rewrite zlen_app. change (zlen [0; 0]) with 2. replace (zlen (wide name) + 2 - 2) with (zlen (wide name)) by lia.
  rewrite <- app_assoc, copy_at_end by (cbn; lia). unfold sys_name. by rewrite wide_app.
Qed.

Lemma c_string_name name :
  Forall (fun c => c <> 0) name ->
  c_string (length (sys_name name)) (sys_name name) = name ++ [46; 115; 121; 115].
Proof.
  unfold sys_name. induction name as [|c name IH]; intros Hn; [done|].
  apply Forall_cons in Hn as [Hc Hn]. cbn [app length c_string] in *.
  destruct (Z.eqb_spec c 0); [done|]. f_equal. by apply IH.
Qed.

Lemma conf_kern_ok {X} (m : KM kernel X) (s : conf_state) x k :
  m (ckern s) = Ok (x, k) ->
  on_kern m s = Ok (x, ConfState k (cpu s) (strings_ s) (blocks s) (info s)).
Proof. unfold on_kern. by intros ->. Qed.

Lemma alloc_string size (s : conf_state) :
  kernel_wf (ckern s) -> (forall n, pool_grants n = true) ->
  exists p k, on_kern (ExAllocatePool2 size POOL_TAG_STRINGS) s
      = Ok (p, ConfState k (cpu s) (strings_ s) (blocks s) (info s)) /\
    kernel_wf k /\ 0 < p /\ next_block (ckern s) <= p < next_block k /\
    held k = held (ckern s) ⊎ {[+ Block p POOL_TAG_STRINGS +]}.
Proof.
  intros Hk Hg. unfold on_kern, ExAllocatePool2. rewrite Hg. eexists _, _. split; [done|].
  unfold kernel_wf in *. cbn. split_and!; try done; lia.
Qed.


(** *** Strings *)

Lemma take_path_ok (s : conf_state) data :
  kernel_wf (ckern s) -> (forall n, pool_grants n = true) ->
  exists p k, RegistryPathQueryCallbackRoutine "ImagePath" data s
      = Ok (STATUS_SUCCESS, ConfState k (cpu s) (store_path p (zlen data) (strings_ s))
                              (<[p := data]> (blocks s)) (info s)) /\
    kernel_wf k /\ 0 < p < next_block k /\
    held k = held (ckern s) ⊎ {[+ Block p POOL_TAG_STRINGS +]}.
Proof.
  intros Hk Hg. destruct (alloc_string (zlen data) s Hk Hg) as (p & k & Ha & Wk & Hp & Hb & Hh).
  exists p, k. split; [|split_and!; done || lia]. unfold RegistryPathQueryCallbackRoutine, take_path.
  change (negb (String.eqb "ImagePath" "ImagePath")) with false. cbn iota.
  erewrite KM_step; [|erewrite KM_step by exact Ha; by rewrite (proj2 (Z.eqb_neq p 0)) by lia].
  done.
Qed.

Lemma take_name_ok (s : conf_state) name :
  kernel_wf (ckern s) -> (forall n, pool_grants n = true) ->
  exists p k, RegistryPathQueryCallbackRoutine "DisplayName" (wide name ++ [0; 0]) s
      = Ok (STATUS_SUCCESS, ConfState k (cpu s) (store_name p (zlen (wide name ++ [0; 0])) (strings_ s))
                              (<[p := wide (sys_name name)]> (blocks s)) (info s)) /\
    kernel_wf k /\ next_block (ckern s) <= p /\ 0 < p /\
    held k = held (ckern s) ⊎ {[+ Block p POOL_TAG_STRINGS +]}.
Proof.
  intros Hk Hg.
  destruct (alloc_string (u32 (zlen (wide name ++ [0; 0]) + 20)) s Hk Hg) as (p & k & Ha & Wk & Hp & Hb & Hh).
  exists p, k. split; [|split_and!; done || lia]. unfold RegistryPathQueryCallbackRoutine, take_path, take_name.
  change (negb (String.eqb "DisplayName" "ImagePath")) with true.
  change (negb (String.eqb "DisplayName" "DisplayName")) with false. cbn iota.
  erewrite KM_step by done. change (negb (NT_SUCCESS STATUS_SUCCESS)) with false. cbn iota.
  erewrite KM_step by exact Ha. rewrite (proj2 (Z.eqb_neq p 0)) by lia.
  rewrite name_block. by rewrite lift_step.
Qed.

Lemma name_length name : zlen (wide name) + 22 < 2 ^ 16 ->
  take (Z.to_nat (u16 (zlen (wide name ++ [0; 0]) + 20))) (wide (sys_name name)) = wide (sys_name name).
Proof.
  intros Hn. pose proof (zlen_nonneg (wide name)). rewrite zlen_app. change (zlen [0; 0]) with 2.
  rewrite u16_small by lia. apply take_ge. unfold sys_name. rewrite length_wide, !length_app.
  unfold zlen in *. rewrite length_wide in *. cbn. lia.
Qed.

Lemma on_release h r (s : conf_state) :
  held (ckern s) = h ⊎ {[+ r +]} ->
  on_kern (release r) s = Ok (tt, ConfState (set_held h (ckern s)) (cpu s) (strings_ s) (blocks s) (info s)).
Proof. intros Hh. apply conf_kern_ok. by apply release_last. Qed.

Lemma free_strings_ok (s : conf_state) q p buf h :
  Buffer (unicode_driver_name (strings_ s)) = q -> Buffer (driver_path (strings_ s)) = p ->
  (ansi_driver_name (strings_ s)).1 = buf -> q <> 0 -> p <> 0 -> buf <> 0 ->
  held (ckern s) = h ⊎ {[+ Block q POOL_TAG_STRINGS; Block p POOL_TAG_STRINGS; StringBuffer buf +]} ->
  exists s', DrvUnloadFreeConfigStrings s = Ok (tt, s') /\ held (ckern s') = h.
Proof.
  intros Hq Hp Hb Hq0 Hp0 Hb0 Hh. unfold DrvUnloadFreeConfigStrings, ExFreePoolWithTag.
  erewrite KM_step by done. rewrite Hq, Hp, Hb.
  destruct (Z.eqb_spec q 0), (Z.eqb_spec p 0), (Z.eqb_spec buf 0); try done. cbn [negb when].
  erewrite KM_step.
  2: { apply (on_release (h ⊎ {[+ Block p POOL_TAG_STRINGS; StringBuffer buf +]})).
       rewrite Hh. clear. multiset_solver. }
  erewrite KM_step by (apply (on_release (h ⊎ {[+ StringBuffer buf +]})); cbn [ckern held set_held]; clear; multiset_solver).
  erewrite (on_release h) by done. by eexists.
Qed.

(** The strings stored for a path and a name at the blocks [p] and [q]. *)
Definition named_strings (p q buf : Z) (path name : list Z) : config_strings :=
  ConfigStrings (UnicodeString q (u16 (zlen (wide name ++ [0; 0]) + 20)) (u16 (zlen (wide name ++ [0; 0]) + 20)))
    (buf, sys_name name) (UnicodeString p (u16 (zlen path)) (u16 (zlen path))).

Lemma driver_name_spec {L : ConfigLaws} (s : conf_state) key path name buf ansi :
  kernel_wf (ckern s) -> (forall n, pool_grants n = true) -> Forall (fun c => 0 < c < 128) name ->
  zlen (wide name) + 22 < 2 ^ 16 -> zlen path < 2 ^ 16 ->
  registry_values key = [("ImagePath"%string, path); ("DisplayName"%string, wide name ++ [0; 0])] ->
  registry_status key = STATUS_SUCCESS ->
  unicode_to_ansi (wide (sys_name name)) = (STATUS_SUCCESS, buf, ansi) ->
  exists p q k, DrvLoadRetrieveDriverNameFromRegistry key s
      = Ok (STATUS_SUCCESS, ConfState k (cpu s) (named_strings p q buf path name)
              (<[q := wide (sys_name name)]> (<[p := path]> (blocks s))) (info s)) /\
    kernel_wf k /\ 0 < p < q /\ buf <> 0 /\
    held k = held (ckern s) ⊎ {[+ Block p POOL_TAG_STRINGS; Block q POOL_TAG_STRINGS; StringBuffer buf +]}.
Proof.
  intros Hk Hg Hn Hl Hp Hv Hst Hu. unfold DrvLoadRetrieveDriverNameFromRegistry. rewrite Hv, Hst.
  cbn [query_values].
  destruct (take_path_ok s path Hk Hg) as (p & k & H1 & W1 & P1 & D1).
  destruct (take_name_ok (ConfState k (cpu s) (store_path p (zlen path) (strings_ s))
    (<[p := path]> (blocks s)) (info s)) name W1 Hg) as (q & k2 & H2 & W2 & Q1 & Q2 & D2). cbn in Q1, D2.
  erewrite KM_step.
  2: { erewrite KM_step by exact H1. change (negb (NT_SUCCESS STATUS_SUCCESS)) with false. cbn iota.
       erewrite KM_step by exact H2. done. }
  change (negb (NT_SUCCESS STATUS_SUCCESS)) with false. cbn iota.
  unfold convert_name. erewrite KM_step by done. erewrite KM_step by done.
  cbn [strings_ unicode_driver_name store_name Buffer Length blocks].
  rewrite lookup_insert_eq. cbn [default from_option id]. rewrite name_length by done. rewrite Hu.
  change (negb (NT_SUCCESS STATUS_SUCCESS)) with false. cbn iota.
  assert (Forall (fun c => 0 <= c < 128) (sys_name name)) as Hascii.
  { unfold sys_name. apply Forall_app. split; [eapply Forall_impl; [done|cbn; lia]|].
    repeat constructor; lia. }
  destruct (ansi_ascii _ _ _ _ Hascii Hu eq_refl) as [-> Hb0].
  exists p, q. eexists. split; [done|]. split; [done|]. split; [lia|]. split; [done|].
  cbn [held set_held ckern]. rewrite D2, D1. clear. multiset_solver.
Qed.

(** The driver's name.  When the registry holds an image path and a display name
    of 7-bit characters, the stored ANSI name is, as a C string, that name followed by
    ".sys"; the stored path is the one of the registry; the driver holds three blocks
    more, and freeing the strings gives exactly these back. *)
Theorem driver_name_from_registry {L : ConfigLaws} (s : conf_state) key path name buf ansi :
  kernel_wf (ckern s) -> (forall n, pool_grants n = true) -> Forall (fun c => 0 < c < 128) name ->
  zlen (wide name) + 22 < 2 ^ 16 -> zlen path < 2 ^ 16 ->
  registry_values key = [("ImagePath"%string, path); ("DisplayName"%string, wide name ++ [0; 0])] ->
  registry_status key = STATUS_SUCCESS ->
  unicode_to_ansi (wide (sys_name name)) = (STATUS_SUCCESS, buf, ansi) ->
  exists s', DrvLoadRetrieveDriverNameFromRegistry key s = Ok (STATUS_SUCCESS, s') /\
    c_string (length (ansi_driver_name (strings_ s')).2) (ansi_driver_name (strings_ s')).2
      = name ++ [46; 115; 121; 115] /\
    blocks s' !! Buffer (driver_path (strings_ s')) = Some path /\
    Length (driver_path (strings_ s')) = zlen path /\
    held (ckern s') = held (ckern s) ⊎ {[+ Block (Buffer (driver_path (strings_ s'))) POOL_TAG_STRINGS;
        Block (Buffer (unicode_driver_name (strings_ s'))) POOL_TAG_STRINGS; StringBuffer buf +]} /\
    exists s2, DrvUnloadFreeConfigStrings s' = Ok (tt, s2) /\ held (ckern s2) = held (ckern s).
Proof.
  intros Hk Hg Hn Hl Hp Hv Hst Hu.
  destruct (driver_name_spec s key path name buf ansi Hk Hg Hn Hl Hp Hv Hst Hu)
    as (p & q & k & H1 & Wk & Hpq & Hb & Hh).
  eexists. split; [exact H1|].
  cbn [ckern strings_ blocks ansi_driver_name driver_path unicode_driver_name named_strings snd fst Buffer Length].
  split_and!.
  - apply c_string_name. eapply Forall_impl; [done|cbn; lia].
  - rewrite lookup_insert_ne by lia. by rewrite lookup_insert_eq.
  - rewrite u16_small; [done|]. split; [apply zlen_nonneg|done].
  - done.
  - eapply (free_strings_ok _ q p buf (held (ckern s))); [done|done|done|lia|lia|lia|].
    cbn [ckern]. rewrite Hh. clear. multiset_solver.
Qed.

(** A display name without room for its terminator.  The extension is written two
    bytes before the end of the value, so a value of fewer than two bytes makes the
    driver write in front of its block. *)
Theorem short_display_name_underflow (s : conf_state) data :
  kernel_wf (ckern s) -> (forall n, pool_grants n = true) -> zlen data < 2 ->
  RegistryPathQueryCallbackRoutine "DisplayName" data s = Crash OutOfBounds.
Proof.
  intros Hk Hg Hn. destruct (alloc_string (u32 (zlen data + 20)) s Hk Hg) as (p & k & Ha & _ & Hp & _).
  unfold RegistryPathQueryCallbackRoutine, take_path, take_name.
  change (negb (String.eqb "DisplayName" "ImagePath")) with true.
  change (negb (String.eqb "DisplayName" "DisplayName")) with false. cbn iota.
  erewrite KM_step by done. change (negb (NT_SUCCESS STATUS_SUCCESS)) with false. cbn iota.
  erewrite KM_step by exact Ha. rewrite (proj2 (Z.eqb_neq p 0)) by lia.
  unfold copy_at. rewrite (proj2 (Z.ltb_lt (zlen data - 2) 0)) by lia. done.
Qed.

(** *** The machine *)

(** The twelve characters of the vendor in the order CPUID gives them. *)
Definition cpu_vendor : list Z :=
  let '(ebx, ecx, edx) := cpuid0 in le_bytes 4 ebx ++ le_bytes 4 edx ++ le_bytes 4 ecx.

Lemma le_bytes_inj n : forall x y,
  0 <= x < 256 ^ Z.of_nat n -> 0 <= y < 256 ^ Z.of_nat n -> le_bytes n x = le_bytes n y -> x = y.
Proof.
  induction n as [|n IH]; intros x y Hx Hy E; [cbn in *; lia|].
  rewrite Nat2Z.inj_succ, Z.pow_succ_r in Hx, Hy by lia. cbn [le_bytes] in E.
  injection E as E1 E2. apply IH in E2; Z.div_mod_to_equations; lia.
Qed.

(** The processor's vendor is recorded the wrong way round.  A processor that
    identifies itself as "AuthenticAMD" is recorded as an Intel one and one that
    identifies itself as "GenuineIntel" as an AMD one; any other is recorded as
    unknown and the driver's load fails. *)
Theorem processor_vendor_swapped (s : conf_state) :
  (let '(ebx, ecx, edx) := cpuid0 in is_u32 ebx /\ is_u32 ecx /\ is_u32 edx) ->
  exists status p,
    GetSystemProcessorType s
    = Ok (status, ConfState (ckern s) (cpu s) (strings_ s) (blocks s) (set_processor p (info s))) /\
    (cpu_vendor = bytes_of_string "AuthenticAMD" -> p = GenuineIntel /\ status = STATUS_SUCCESS) /\
    (cpu_vendor = bytes_of_string "GenuineIntel" -> p = AuthenticAmd /\ status = STATUS_SUCCESS) /\
    (p = Unknown -> status = STATUS_UNSUCCESSFUL).
Proof.
  unfold GetSystemProcessorType, cpu_vendor. destruct cpuid0 as [[ebx ecx] edx]. intros (Hb & Hc & Hd).
  assert (forall v eb ec ed, is_u32 eb -> is_u32 ec -> is_u32 ed ->
    le_bytes 4 eb ++ le_bytes 4 ed ++ le_bytes 4 ec = v ->
    le_bytes 4 ebx ++ le_bytes 4 edx ++ le_bytes 4 ecx = v -> ebx = eb /\ ecx = ec /\ edx = ed) as Hinj.
  { intros v eb ec ed H1 H2 H3 <- E. apply app_inj_1 in E as [E1 E]; [|done].
    apply app_inj_1 in E as [E2 E3]; [|done].
    unfold is_u32 in *. split_and!; by apply (le_bytes_inj 4). }
  assert (le_bytes 4 ebx ++ le_bytes 4 edx ++ le_bytes 4 ecx = bytes_of_string "AuthenticAMD" ->
    ebx = CPUID_AUTHENTIC_AMD_EBX /\ ecx = CPUID_AUTHENTIC_AMD_ECX /\ edx = CPUID_AUTHENTIC_AMD_EDX) as HA.
  { apply Hinj; [split; reflexivity || discriminate..|reflexivity]. }
  assert (le_bytes 4 ebx ++ le_bytes 4 edx ++ le_bytes 4 ecx = bytes_of_string "GenuineIntel" ->
    ebx = CPUID_GENUINE_INTEL_EBX /\ ecx = CPUID_GENUINE_INTEL_ECX /\ edx = CPUID_GENUINE_INTEL_EDX) as HI.
  { apply Hinj; [split; reflexivity || discriminate..|reflexivity]. }
  destruct (_ && _ && (edx =? CPUID_AUTHENTIC_AMD_EDX)) eqn:E1;
    [|destruct (_ && _ && (edx =? CPUID_GENUINE_INTEL_EDX)) eqn:E2];
    (eexists _, _; split; [reflexivity|]); split_and!; try done.
  - intros (-> & -> & ->)%HI. done.
  - intros (-> & -> & ->)%HA. done.
  - intros (-> & -> & ->)%HA. done.
  - intros (-> & -> & ->)%HI. done.
Qed.

(** What the strings of a structure say of its [Index]-th string, read into a zeroed
    field of the given size. *)
Definition read_string (x : structure) (Index size : Z) : NTSTATUS * list Z :=
  string_result (strings x) Index (replicate (Z.to_nat size) 0).

Lemma parse_into_ok fuel field store size t index x xs (s : conf_state) :
  smbios_table xs -> first_of_type (table_type t) xs = Some x ->
  field (info s) = replicate (Z.to_nat size) 0 -> 0 < size ->
  (length (table_bytes xs) <= fuel)%nat -> (length xs <= fuel)%nat ->
  parse_into fuel field store size t index s
  = Ok ((read_string x index size).1,
        ConfState (ckern s) (cpu s) (strings_ s) (blocks s) (store (read_string x index size).2 (info s))).
Proof.
  intros [] Hx Hf Hn Hl1 Hl2. unfold parse_into. erewrite KM_step by done. rewrite Hf.
  assert (size = zlen (replicate (Z.to_nat size) 0)) as Hs by (unfold zlen; rewrite length_replicate; lia).
  rewrite Hs at 2. rewrite (ParseSMBIOSTable_spec xs x) by (try done; rewrite <- Hs; lia).
  rewrite lift_step. unfold read_string. by destruct (string_result _ _ _).
Qed.

Lemma c_characters_zeros (v : list Z) n :
  Forall (fun b => b <> 0) v -> (length v < n)%nat ->
  c_characters (v ++ replicate (n - length v) 0) = Ok v.
Proof.
  intros Hv Hn. unfold c_characters. destruct (n - length v)%nat as [|k] eqn:E; [lia|].
  rewrite bool_decide_eq_true_2 by (cbn [replicate]; set_solver). f_equal. cbn [replicate].
  clear E Hn. induction Hv as [|b v Hb Hv IH]; [done|].
  cbn [app length c_string]. destruct (Z.eqb_spec b 0); [done|]. by rewrite IH.
Qed.

Lemma environment_spec fuel xs bios v more (s : conf_state) :
  smbios_table xs -> (length (table_bytes xs) <= fuel)%nat -> (length xs <= fuel)%nat ->
  first_of_type (table_type SmbiosInformation) xs = Some bios -> strings bios = v :: more ->
  more <> [] -> smbios_string v -> zlen v < VENDOR_STRING_MAX_LENGTH ->
  vendor (info s) = replicate 256 0 -> motherboard_serial (info s) = replicate 64 0 ->
  let environment_ := vendor_environment (string_of_bytes v) in
  let found := set_environment environment_ (set_vendor (v ++ replicate (256 - length v) 0) (info s)) in
  let after i := ConfState (ckern s) (cpu s) (strings_ s) (blocks s) i in
  match environment_ with
  | VirtualBox => ParseSmbiosForGivenSystemEnvironment fuel s = Ok (STATUS_NOT_SUPPORTED, after found)
  | NativeWindows =>
      forall board, first_of_type (table_type VendorSpecificInformation) xs = Some board ->
      ParseSmbiosForGivenSystemEnvironment fuel s
      = Ok ((read_string board 4 64).1, after (set_serial (read_string board 4 64).2 found))
  | Vmware =>
      forall system, first_of_type (table_type SystemInformation) xs = Some system ->
      ParseSmbiosForGivenSystemEnvironment fuel s
      = Ok ((read_string system 3 64).1, after (set_serial (read_string system 3 64).2 found))
  end.
Proof.
  intros Ht Hf1 Hf2 Hb Hs Hm [_ Hv] Hn Hv0 Hm0. cbn zeta.
  assert (read_string bios SMBIOS_VENDOR_STRING_SUB_INDEX VENDOR_STRING_MAX_LENGTH = (STATUS_SUCCESS, v ++ replicate (256 - length v) 0)) as Hr.
  { unfold read_string, string_result. rewrite Hs. change SMBIOS_VENDOR_STRING_SUB_INDEX with 1.
    change (znth (v :: more) (1 - 1)) with (Some v). cbn iota.
    rewrite zlen_cons. destruct (Z.eqb_spec 1 (zlen more + 1)); [destruct more; [done|unfold zlen in *; cbn in *; lia]|].
    change (Z.to_nat VENDOR_STRING_MAX_LENGTH) with 256%nat. change VENDOR_STRING_MAX_LENGTH with 256 in Hn.
    change (zlen (replicate 256 0)) with 256. rewrite (proj2 (Z.ltb_lt _ _) Hn). f_equal. unfold overwrite.
    rewrite length_replicate, take_ge by (unfold zlen in Hn; lia). by rewrite drop_replicate. }
  unfold ParseSmbiosForGivenSystemEnvironment.
  erewrite KM_step.
  2: { apply (parse_into_ok _ _ _ _ _ _ bios xs); try done. }
  rewrite Hr. cbn [fst snd]. change (negb (NT_SUCCESS STATUS_SUCCESS)) with false. cbn iota.
  erewrite KM_step by done. cbn [info vendor set_vendor].
  rewrite (c_characters_zeros v 256) by (done || unfold zlen in Hn; change VENDOR_STRING_MAX_LENGTH with 256 in Hn; lia).
  rewrite lift_step. erewrite KM_step by done.
  destruct (vendor_environment (string_of_bytes v)).
  - intros board Hx. by rewrite (parse_into_ok _ _ _ _ _ _ board xs).
  - intros system Hx. by rewrite (parse_into_ok _ _ _ _ _ _ system xs).
  - done.
Qed.

(** The environment and the motherboard's serial number.  With a table of
    structures in which the vendor is a string other than the last of the BIOS
    structure, the environment is the one its name stands for; the serial number is
    the fourth string of the baseboard structure on real hardware and the third of the
    system structure under VMware, with the status of that lookup; under VirtualBox
    the routine fails and reads none. *)
Theorem environment_from_vendor fuel xs bios v more (s : conf_state) :
  smbios_table xs -> (length (table_bytes xs) <= fuel)%nat -> (length xs <= fuel)%nat ->
  first_of_type (table_type SmbiosInformation) xs = Some bios -> strings bios = v :: more ->
  more <> [] -> smbios_string v -> zlen v < VENDOR_STRING_MAX_LENGTH ->
  vendor (info s) = replicate 256 0 -> motherboard_serial (info s) = replicate 64 0 ->
  let environment_ := vendor_environment (string_of_bytes v) in
  let found := set_environment environment_ (set_vendor (v ++ replicate (256 - length v) 0) (info s)) in
  let after i := ConfState (ckern s) (cpu s) (strings_ s) (blocks s) i in
  match environment_ with
  | VirtualBox => ParseSmbiosForGivenSystemEnvironment fuel s = Ok (STATUS_NOT_SUPPORTED, after found)
  | NativeWindows =>
      forall board, first_of_type (table_type VendorSpecificInformation) xs = Some board ->
      ParseSmbiosForGivenSystemEnvironment fuel s
      = Ok ((read_string board 4 64).1, after (set_serial (read_string board 4 64).2 found))
  | Vmware =>
      forall system, first_of_type (table_type SystemInformation) xs = Some system ->
      ParseSmbiosForGivenSystemEnvironment fuel s
      = Ok ((read_string system 3 64).1, after (set_serial (read_string system 3 64).2 found))
  end.
Proof. exact (environment_spec fuel xs bios v more s). Qed.

(** *** Gathering *)

(** A native machine: the version can be read, the processor is one of the two known
    ones, the SMBIOS table names a vendor that is no virtual machine and holds the serial
    number [sn] of the board, and the disk gives its serial number [dn]. *)
Record machine (fuel : nat) (xs : list structure) (bios board : structure) (v : list Z) (more : list (list Z))
  (offset : Z) (sn dn : list Z) : Prop := {
  ma_version : NT_SUCCESS GetOsVersionInformation.1 = true;
  ma_processor : cpuid0 = (CPUID_AUTHENTIC_AMD_EBX, CPUID_AUTHENTIC_AMD_ECX, CPUID_AUTHENTIC_AMD_EDX) \/
    cpuid0 = (CPUID_GENUINE_INTEL_EBX, CPUID_GENUINE_INTEL_ECX, CPUID_GENUINE_INTEL_EDX);
  ma_table : smbios_table xs;
  ma_fuel : (length (table_bytes xs) <= fuel)%nat /\ (length xs <= fuel)%nat;
  ma_bios : first_of_type (table_type SmbiosInformation) xs = Some bios /\ strings bios = v :: more /\ more <> [];
  ma_vendor : smbios_string v /\ zlen v < VENDOR_STRING_MAX_LENGTH;
  ma_native : vendor_environment (string_of_bytes v) = NativeWindows;
  ma_board : first_of_type (table_type VendorSpecificInformation) xs = Some board;
  ma_serial : read_string board 4 64 = (STATUS_SUCCESS, sn);
  ma_header : zlen (query_descriptor query_header.2).2 <= query_header.2;
  ma_descriptor : NT_SUCCESS (query_descriptor query_header.2).1 = true ->
    descriptor_wf ((query_descriptor query_header.2).2 ++
      drop (length (query_descriptor query_header.2).2) (replicate (Z.to_nat query_header.2) 0)) offset;
  ma_disk : disk_outcome true offset (replicate 64 0) DEVICE_DRIVE_0_SERIAL_CODE_LENGTH = (STATUS_SUCCESS, dn);
}.

(** The fields of the system information as the device extension holds them at first. *)
Definition blank (i : SYSTEM_INFORMATION) : Prop :=
  vendor i = replicate 256 0 /\ motherboard_serial i = replicate 64 0 /\ drive_0_serial i = replicate 64 0.

Lemma gather_spec {DL : DiskLaws D} fuel xs bios board v more offset sn dn (s : conf_state) :
  machine fuel xs bios board v more offset sn dn -> blank (info s) -> kernel_wf (ckern s) ->
  (forall n, pool_grants n = true) ->
  exists k c i, DrvLoadGatherSystemEnvironmentSettings fuel s
      = Ok (STATUS_SUCCESS, ConfState k c (strings_ s) (blocks s) i) /\
    kernel_wf k /\ held k = held (ckern s) /\
    environment i = NativeWindows /\ motherboard_serial i = sn /\ drive_0_serial i = dn /\
    vendor i = v ++ replicate (256 - length v) 0 /\ processor_type i <> Unknown.
Proof.
  intros [Hv Hp Ht [Hf1 Hf2] (Hb & Hs & Hm) [Hsv Hlv] Hnat Hbd Hsn Hhd Hds Hdk] (Bv & Bm & Bd) Hk Hg.
  unfold DrvLoadGatherSystemEnvironmentSettings.
  destruct (aperf_check_spec (cpu s)) as (c & Hc & _).
  erewrite KM_step by (unfold on_cpu; by rewrite Hc).
  set (virt := _ =? _). set (s1 := ConfState (ckern s) c (strings_ s) (blocks s) (info s)).
  assert (exists i1, when virt (set_info (set_virtualised true)) s1 = Ok (tt, ConfState (ckern s) c (strings_ s) (blocks s) i1)
    /\ blank i1) as (i1 & H1 & B1 & B2 & B3).
  { destruct virt; by eexists. }
  rewrite (KM_step _ _ _ _ _ H1). cbn [in_sequence].
  unfold GetOsVersion. destruct GetOsVersionInformation as [vst build]. cbn [fst] in Hv. rewrite Hv. cbn [when].
  erewrite KM_step by (by erewrite KM_step by done). rewrite Hv. cbn [negb].
  set (i2 := set_build build i1).
  assert (exists p, GetSystemProcessorType (ConfState (ckern s) c (strings_ s) (blocks s) i2)
    = Ok (STATUS_SUCCESS, ConfState (ckern s) c (strings_ s) (blocks s) (set_processor p i2)) /\ p <> Unknown) as (p & H3 & Hpu).
  { unfold GetSystemProcessorType. destruct Hp as [-> | ->]; by eexists. }
  rewrite (KM_step _ _ _ _ _ H3). change (negb (NT_SUCCESS STATUS_SUCCESS)) with false. cbn iota.
  pose proof (environment_spec fuel xs bios v more (ConfState (ckern s) c (strings_ s) (blocks s) (set_processor p i2))
    Ht Hf1 Hf2 Hb Hs Hm Hsv Hlv B1 B2) as H4. cbn zeta in H4. rewrite Hnat in H4. specialize (H4 board Hbd).
  rewrite Hsn in H4. rewrite (KM_step _ _ _ _ _ H4). cbn [fst snd].
  change (negb (NT_SUCCESS STATUS_SUCCESS)) with false. cbn iota.
  unfold gather_drive. erewrite KM_step by done.
  destruct (drive_serial_spec (ckern s) (replicate 64 0) DEVICE_DRIVE_0_SERIAL_CODE_LENGTH offset Hk) as (k & H5 & Hh & _ & Wk);
    [done|done|done|done|].
  rewrite Hg, Hdk in H5.
  erewrite KM_step.
  2: { apply conf_kern_ok. cbn [info ckern drive_0_serial set_serial set_environment set_vendor set_processor i2 set_build].
       change (drive_0_serial i2) with (drive_0_serial i1). rewrite B3. exact H5. }
  cbn beta iota. erewrite KM_step by done. eexists _, _, _. split; [done|]. split_and!; done.
Qed.

End specification.

(** ** Witnesses *)

Fixpoint narrow (l : list Z) : list Z :=
  match l with c :: _ :: l => c :: narrow l | _ => [] end.

Lemma narrow_wide l : narrow (wide l) = l.
Proof. induction l as [|c l IH]; [done|]. change (wide (c :: l)) with (c :: 0 :: wide l). cbn. by rewrite IH. Qed.

(** The key of a driver named "ac" on an AMD processor. *)
Definition sample_registry : ConfigApi := {|
  registry_values := fun _ =>
    [("ImagePath"%string, [92; 0; 0; 0]); ("DisplayName"%string, wide [97; 99] ++ [0; 0])];
  registry_status := fun _ => STATUS_SUCCESS;
  unicode_to_ansi := fun bytes => (STATUS_SUCCESS, 0x9000, narrow bytes);
  cpuid0 := (CPUID_AUTHENTIC_AMD_EBX, CPUID_AUTHENTIC_AMD_ECX, CPUID_AUTHENTIC_AMD_EDX);
|}.

Lemma sample_registry_laws : ConfigLaws (R := sample_registry).
Proof. intros l status buf bytes _ [= <- <- <-] _. split; [apply narrow_wide|done]. Qed.

Definition zero_information : SYSTEM_INFORMATION :=
  SysInfo (replicate 64 0) (replicate 64 0) (replicate 256 0) false NativeWindows Unknown 0.

Definition zero_config : conf_state :=
  ConfState idle_kernel idle_processor (ConfigStrings no_string (0, []) no_string) ∅ zero_information.

Lemma driver_name_from_registry_witness :
  exists s', DrvLoadRetrieveDriverNameFromRegistry (P := always_grants) (R := sample_registry) "key" zero_config
      = Ok (STATUS_SUCCESS, s') /\
    c_string (length (ansi_driver_name (strings_ s')).2) (ansi_driver_name (strings_ s')).2
      = bytes_of_string "ac.sys".
Proof.
  destruct (driver_name_from_registry (P := always_grants) (R := sample_registry) (L := sample_registry_laws)
    zero_config "key" [92; 0; 0; 0] [97; 99] 0x9000 (sys_name [97; 99])) as (s' & H1 & H2 & _).
  - unfold kernel_wf. cbn. lia.
  - done.
  - repeat constructor; lia.
  - reflexivity.
  - reflexivity.
  - reflexivity.
  - reflexivity.
  - reflexivity.
  - exists s'. split; [exact H1|]. rewrite H2. reflexivity.
Defined.

Lemma short_display_name_underflow_witness :
  RegistryPathQueryCallbackRoutine (P := always_grants) "DisplayName" [0] zero_config = Crash OutOfBounds.
Proof.
  apply (short_display_name_underflow (P := always_grants) zero_config [0]);
    [unfold kernel_wf; cbn; lia|done|reflexivity].
Defined.

Lemma processor_vendor_swapped_witness :
  exists s', GetSystemProcessorType (R := sample_registry) zero_config = Ok (STATUS_SUCCESS, s') /\
    processor_type (info s') = GenuineIntel.
Proof.
  destruct (processor_vendor_swapped (R := sample_registry) zero_config) as (status & p & H1 & HA & _).
  - repeat split; discriminate || reflexivity.
  - destruct (HA eq_refl) as [-> ->]. eexists. split; [exact H1|reflexivity].
Defined.

(** A BIOS structure of VMware and a system structure with four strings. *)
Definition vmware_bios : structure := Structure 0 [0; 0] [bytes_of_string "VMware, Inc."; [65]].
Definition vmware_system : structure := Structure 1 [0; 0] [[65]; [66]; [67; 68]; [69]].

Definition vmware_firmware : Firmware := {|
  required_size := 64;
  firmware_buffer := 4096;
  second_call := STATUS_SUCCESS;
  firmware_memory := mem_of 4104 (table_bytes [vmware_bios; vmware_system]);
|}.

Lemma vmware_table : smbios_table (F := vmware_firmware) [vmware_bios; vmware_system].
Proof.
  split; try done.
  - repeat constructor; try done; cbn; lia.
  - exact (bytes_at_mem_of 4104 (table_bytes [vmware_bios; vmware_system])).
Qed.

Lemma environment_from_vendor_witness :
  exists s', ParseSmbiosForGivenSystemEnvironment (F := vmware_firmware) 64 zero_config = Ok (STATUS_SUCCESS, s') /\
    environment (info s') = Vmware /\ take 3 (motherboard_serial (info s')) = [67; 68; 0].
Proof.
  pose proof (environment_from_vendor (F := vmware_firmware) 64 [vmware_bios; vmware_system] vmware_bios
    (bytes_of_string "VMware, Inc.") [[65]] zero_config vmware_table) as Hw.
  eexists. split; [apply (Hw ltac:(vm_compute; lia) ltac:(cbn; lia) eq_refl eq_refl ltac:(discriminate)
    ltac:(split; [discriminate|repeat constructor; discriminate]) eq_refl eq_refl eq_refl vmware_system eq_refl)|].
  split; reflexivity.
Defined.
