(* ===== verification/Driver.v ===== *)
(** * The state of the driver as a whole

    The parts of [DRIVER_CONFIG] (driver.c) that other files model, side by side: the
    lists, session, timer and dispatch table; the APC contexts; the processor; the
    shared mapping; the request queue; the validation of the modules; the strings and
    the system information; and what the kernel has registered for the driver.  An
    operation of a part is lifted to the whole.  The registration of the object
    callbacks (callbacks.c), which needs two parts, is here. *)

From stdpp Require Import gmultiset.
From S2P Require Import Prelude Layout Irp IrpQueue Structs Kernel Modules Session Nmi Handles Lists.
From S2P Require Import Callbacks Hashing ModuleHash DriverList Apc ApcStackwalk SharedMapping Verification.
From S2P Require Import Hypervisor Disk Timer Config.

(** ** Data *)

(** The contexts and APCs of ApcStackwalk.v, beside the lists. *)
Record apc_side := ApcSide {
  side_apcs : apc_state;
  side_module_lists : gmap Z SYSTEM_MODULES;
  side_misc_flags : gmap Z Z;
  side_apc_queue : list queued_apc;
  side_block_requests : nat;
}.

(** The mapping of SharedMapping.v, beside the resources. *)
Record mapping_side := MappingSide {
  side_mapping : SHARED_MAPPING;
  side_queued : nat;
  side_operations : list (option SHARED_STATE_OPERATION_ID);
}.

(** The strings and the system information of Config.v. *)
Record config_side := ConfigSide {
  side_strings : config_strings;
  side_blocks : gmap Z (list Z);
  side_info : SYSTEM_INFORMATION;
}.

(** Threads of the driver that have been created and have not run yet. *)
Inductive system_thread :=
  | HandleValidateDriversThread
  | RetrieveSectionsThread (Irp : Z).

#[export] Instance system_thread_eq_dec : EqDecision system_thread.
Proof. solve_decision. Defined.

(** What the kernel has registered: the device object and its symbolic link, the three
    notify routines, the object callbacks by handle; the registrations asked for so far
    and the threads created. *)
Record registrations := Registrations {
  device : bool;
  symbolic_link : bool;
  load_image : bool;
  create_thread : bool;
  create_process : bool;
  ob_callbacks : list Z;
  ob_requests : nat;
  system_threads : list system_thread;
  thread_requests : nat;
}.

Record driver {LI LR : Type} := Driver {
  core : tsys;
  apc_part : apc_side;
  processor_ : processor;
  mapping_part : mapping_side;
  requests : irp_state LI LR;
  verification : vstate;
  config_part : config_side;
  registered : registrations;
}.
Arguments driver : clear implicits.
Arguments Driver {LI LR}.

(** [ObRegisterCallbacks]: the status and the handle for the [n]-th request. *)
Class ObApi := ObRegisterCallbacks : nat -> NTSTATUS * Z.

Section lifting.
Context {LI LR : Type}.
Abbreviation M := (KM (driver LI LR)).

Definition set_core (c : tsys) (s : driver LI LR) : driver LI LR :=
  Driver c (apc_part s) (processor_ s) (mapping_part s) (requests s) (verification s) (config_part s)
    (registered s).
Definition set_apc_part (a : apc_side) (s : driver LI LR) : driver LI LR :=
  Driver (core s) a (processor_ s) (mapping_part s) (requests s) (verification s) (config_part s)
    (registered s).
Definition set_processor_ (p : processor) (s : driver LI LR) : driver LI LR :=
  Driver (core s) (apc_part s) p (mapping_part s) (requests s) (verification s) (config_part s)
    (registered s).
Definition set_mapping_part (m : mapping_side) (s : driver LI LR) : driver LI LR :=
  Driver (core s) (apc_part s) (processor_ s) m (requests s) (verification s) (config_part s)
    (registered s).
Definition set_requests (r : irp_state LI LR) (s : driver LI LR) : driver LI LR :=
  Driver (core s) (apc_part s) (processor_ s) (mapping_part s) r (verification s) (config_part s)
    (registered s).
Definition set_verification (v : vstate) (s : driver LI LR) : driver LI LR :=
  Driver (core s) (apc_part s) (processor_ s) (mapping_part s) (requests s) v (config_part s)
    (registered s).
Definition set_config_part (c : config_side) (s : driver LI LR) : driver LI LR :=
  Driver (core s) (apc_part s) (processor_ s) (mapping_part s) (requests s) (verification s) c
    (registered s).
Definition set_registered (r : registrations) (s : driver LI LR) : driver LI LR :=
  Driver (core s) (apc_part s) (processor_ s) (mapping_part s) (requests s) (verification s)
    (config_part s) r.

(** ** Lifting the operations of the parts *)

Definition on_core {X} (m : KM tsys X) : M X := fun s =>
  match m (core s) with Ok (x, c) => Ok (x, set_core c s) | Crash f => Crash f end.
Definition on_drivers {X} (m : KM (lstate drv_ext) X) : M X := on_core (in_lists m).
Definition on_callbacks {X} (m : KM (lstate cb_ext) X) : M X := on_drivers (on_cb m).
Definition on_handles {X} (m : KM h_state X) : M X := on_callbacks (Callbacks.on_sys m).
Definition on_session {X} (m : KM session_state X) : M X := on_handles (Handles.on_session m).
Definition on_kernel {X} (m : KM kernel X) : M X := on_handles (Handles.on_kernel m).
Definition on_cpu {X} (m : KM processor X) : M X := fun s =>
  match m (processor_ s) with Ok (x, c) => Ok (x, set_processor_ c s) | Crash f => Crash f end.
Definition on_requests {X} (m : KM (irp_state LI LR) X) : M X := fun s =>
  match m (requests s) with Ok (x, r) => Ok (x, set_requests r s) | Crash f => Crash f end.

(** The resources of the driver. *)
Definition kernel_of (s : driver LI LR) : kernel := ModuleHash.kern (lists (core s)).
Definition session_of (s : driver LI LR) : ACTIVE_SESSION :=
  session (hsession (sys (cb (ext (lists (core s)))))).
Definition apcs_of (s : driver LI LR) : apc_state := side_apcs (apc_part s).

(** The walk state of ApcStackwalk.v on the heap of the lists. *)
Definition walk_of (s : driver LI LR) : lstate walk_ext :=
  let l := lists (core s) in
  let a := apc_part s in
  LState (next l) (Lists.held l) (frees l)
    (WalkExt (cb (ext l)) (side_apcs a) (side_module_lists a) (side_misc_flags a) (side_apc_queue a)
       (side_block_requests a)).

Definition on_walk {X} (m : KM (lstate walk_ext) X) : M X := fun s =>
  match m (walk_of s) with
  | Ok (x, w) =>
      let l := LState (next w) (Lists.held w) (frees w) (set_cb (cbx (ext w)) (ext (lists (core s)))) in
      let a := ApcSide (apcs (ext w)) (module_lists (ext w)) (misc_flags (ext w)) (apc_queue (ext w))
                 (block_requests (ext w)) in
      Ok (x, set_apc_part a (set_core (Timer.set_lists l (core s)) s))
  | Crash f => Crash f
  end.

Definition on_apcs {X} (m : KM apc_state X) : M X := fun s =>
  match m (side_apcs (apc_part s)) with
  | Ok (x, a) =>
      let p := apc_part s in
      Ok (x, set_apc_part (ApcSide a (side_module_lists p) (side_misc_flags p) (side_apc_queue p)
                             (side_block_requests p)) s)
  | Crash f => Crash f
  end.

(** Writing back the resources another part has used. *)
Definition set_kernel (k : kernel) (s : driver LI LR) : driver LI LR :=
  set_core (Timer.set_lists (ModuleHash.set_kern k (lists (core s))) (core s)) s.

Definition on_mapping {X} (m : KM sm_state X) : M X := fun s =>
  let p := mapping_part s in
  match m (SmState (side_mapping p) (kernel_of s) (side_queued p) (side_operations p)) with
  | Ok (x, t) =>
      Ok (x, set_mapping_part (MappingSide (mapping t) (SharedMapping.queued t) (operations t))
             (set_kernel (SharedMapping.kern t) s))
  | Crash f => Crash f
  end.

Definition on_config {X} (m : KM conf_state X) : M X := fun s =>
  let p := config_part s in
  match m (ConfState (kernel_of s) (processor_ s) (side_strings p) (side_blocks p) (side_info p)) with
  | Ok (x, t) =>
      Ok (x, set_config_part (ConfigSide (strings_ t) (blocks t) (info t))
             (set_processor_ (cpu t) (set_kernel (ckern t) s)))
  | Crash f => Crash f
  end.

Definition update_registered (f : registrations -> registrations) : M unit :=
  modify (fun s => set_registered (f (registered s)) s).

(** [GetDriverName()]: the ANSI name as a C string, [None] for a null buffer. *)
Definition driver_name (s : driver LI LR) : option string :=
  let '(buf, bytes) := ansi_driver_name (side_strings (config_part s)) in
  if buf =? 0 then None else Some (string_of_bytes (c_string (length bytes) bytes)).

End lifting.

Definition set_ob (l : list Z) (n : nat) (r : registrations) : registrations :=
  Registrations (device r) (symbolic_link r) (load_image r) (create_thread r) (create_process r)
    l n (system_threads r) (thread_requests r).
Definition set_threads_ (l : list system_thread) (n : nat) (r : registrations) : registrations :=
  Registrations (device r) (symbolic_link r) (load_image r) (create_thread r) (create_process r)
    (ob_callbacks r) (ob_requests r) l n.

(** ** Object callbacks *)

Section ob_callbacks.
Context {LI LR : Type} {O : ObApi}.
Abbreviation M := (KM (driver LI LR)).

Definition set_registration_handle (h : Z) (s : ACTIVE_SESSION) : ACTIVE_SESSION :=
  Session (is_session_active s) (um_handle s) (km_handle s) (Session.process s) h (session_cookie s)
    (session_aes_key s) (irps_processed s) (report_count s) (heartbeat_count s).

(** The registration is a field of the session, under the configuration lock. *)
Definition registration : M Z := gets (fun s => registration_handle (session_of s)).
Definition store_registration (h : Z) : M unit :=
  on_session (update_session (set_registration_handle h)).

Definition ObUnRegisterCallbacks (handle : Z) : M unit := fun s =>
  if decide (handle ∈ ob_callbacks (registered s)) then
    update_registered (fun r => set_ob (remove_one handle (ob_callbacks r)) (ob_requests r) r) s
  else Crash BadFree.

Definition UnregisterProcessObCallbacks : M unit :=
  on_apcs AcquireDriverConfigLock ≫= fun _ =>
  handle ← registration;
  when (negb (handle =? 0)) (ObUnRegisterCallbacks handle ≫= fun _ => store_registration 0) ≫= fun _ =>
  on_apcs ReleaseDriverConfigLock.

(** The handle is written when the registration succeeds. *)
Definition RegisterProcessObCallbacks : M NTSTATUS :=
  on_apcs AcquireDriverConfigLock ≫= fun _ =>
  n ← gets (fun s => ob_requests (registered s));
  update_registered (fun r => set_ob (ob_callbacks r) (S n) r) ≫= fun _ =>
  let '(status, handle) := ObRegisterCallbacks n in
  when (NT_SUCCESS status)
    (update_registered (fun r => set_ob (ob_callbacks r ++ [handle]) (ob_requests r) r) ≫= fun _ =>
     store_registration handle) ≫= fun _ =>
  on_apcs ReleaseDriverConfigLock ≫= fun _ =>
  mret status.

End ob_callbacks.
