(* ===== verification/Dispatch.v ===== *)
(** * io.c: the requests of the client

    [DeviceControl] refuses every request but the launch notification while no session
    is active, passes the others to the routines of the other files, and completes the
    request with their status; a request put into the queue is completed later.
    Opening and closing the device are the other two dispatch routines. *)

From stdpp Require Import gmultiset.
From S2P Require Import Prelude Layout Irp IrpQueue Structs Kernel Modules Session Nmi Handles Lists.
From S2P Require Import Callbacks Hashing ModuleHash DriverList Apc ApcStackwalk SharedMapping Verification.
From S2P Require Import Drivers ProcessModule PageWalk PoolScan Pci Hypervisor Disk Timer Config Driver.

(** ** Request codes *)

Definition FILE_DEVICE_UNKNOWN : Z := 0x22.
Definition METHOD_BUFFERED : Z := 0.
Definition FILE_ANY_ACCESS : Z := 0.

(** The macro of the kernel headers; the result is a [ULONG]. *)
Definition CTL_CODE (DeviceType Function_ Method Access : Z) : Z :=
  u32 (Z.lor (Z.lor (Z.shiftl DeviceType 16) (Z.shiftl Access 14)) (Z.lor (Z.shiftl Function_ 2) Method)).

Definition ioctl (Function_ : Z) : Z :=
  CTL_CODE FILE_DEVICE_UNKNOWN Function_ METHOD_BUFFERED FILE_ANY_ACCESS.

Definition IOCTL_RUN_NMI_CALLBACKS : Z := ioctl 0x20001.
Definition IOCTL_VALIDATE_DRIVER_OBJECTS : Z := ioctl 0x20002.
Definition IOCTL_NOTIFY_DRIVER_ON_PROCESS_LAUNCH : Z := ioctl 0x20004.
Definition IOCTL_HANDLE_REPORTS_IN_CALLBACK_QUEUE : Z := ioctl 0x20005.
Definition IOCTL_PERFORM_VIRTUALIZATION_CHECK : Z := ioctl 0x20006.
Definition IOCTL_ENUMERATE_HANDLE_TABLES : Z := ioctl 0x20007.
Definition IOCTL_RETRIEVE_MODULE_EXECUTABLE_REGIONS : Z := ioctl 0x20008.
Definition IOCTL_REQUEST_TOTAL_MODULE_SIZE : Z := ioctl 0x20009.
Definition IOCTL_NOTIFY_DRIVER_ON_PROCESS_TERMINATION : Z := ioctl 0x20010.
Definition IOCTL_SCAN_FOR_UNLINKED_PROCESS : Z := ioctl 0x20011.
Definition IOCTL_PERFORM_INTEGRITY_CHECK : Z := ioctl 0x20013.
Definition IOCTL_DETECT_ATTACHED_THREADS : Z := ioctl 0x20014.
Definition IOCTL_VALIDATE_PROCESS_LOADED_MODULE : Z := ioctl 0x20015.
Definition IOCTL_REQUEST_HARDWARE_INFORMATION : Z := ioctl 0x20016.
Definition IOCTL_INITIATE_APC_OPERATION : Z := ioctl 0x20017.
Definition IOCTL_CHECK_FOR_EPT_HOOK : Z := ioctl 0x20018.
Definition IOCTL_LAUNCH_DPC_STACKWALK : Z := ioctl 0x20019.
Definition IOCTL_VALIDATE_SYSTEM_MODULES : Z := ioctl 0x20020.
Definition IOCTL_INSERT_IRP_INTO_QUEUE : Z := ioctl 0x20021.
Definition IOCTL_QUERY_DEFERRED_REPORTS : Z := ioctl 0x20022.
Definition IOCTL_INITIATE_SHARED_MAPPING : Z := ioctl 0x20023.
Definition IOCTL_VALIDATE_PCI_DEVICES : Z := ioctl 0x20024.

Definition APC_OPERATION_ID : cty := St [("operation_id", Int 4)].

(** [PsCreateSystemThread] for the [n]-th thread: the status and its handle;
    [ObReferenceObjectByHandle] of a thread handle; the bytes of the version structure
    of a system; what the workers of the module validation do while a request waits for
    them; how long the unload of the mapping and the DPC stack walk wait. *)
Class DispatchApi := {
  PsCreateSystemThread : nat -> NTSTATUS * Z;
  reference_thread : Z -> NTSTATUS * Z;
  os_version_bytes : Z -> list Z;
  worker_schedule : list vaction;
  patience : nat;
}.

(** The bytes of the system information. *)
Definition environment_code (e : ENVIRONMENT_TYPE) : Z :=
  match e with NativeWindows => 0 | Vmware => 1 | VirtualBox => 2 end.
Definition processor_code (p : PROCESSOR_TYPE) : Z :=
  match p with Unknown => 0 | GenuineIntel => 1 | AuthenticAmd => 2 end.
Definition information_bytes {D : DispatchApi} (i : SYSTEM_INFORMATION) : list Z :=
  motherboard_serial i ++ drive_0_serial i ++ vendor i ++ [Z.b2z (virtualised_environment i); 0; 0; 0]
    ++ le_bytes 4 (environment_code (environment i)) ++ le_bytes 4 (processor_code (processor_type i))
    ++ os_version_bytes (os_build i).

Section dispatch.
Context {LI LR : Type} `{!ListEntryApi LI Z} `{!ListEntryApi LR DEFERRED_REPORT}.
Context {CQ : CsqApi (LI := LI) (LR := LR)}.
Context {P : Pool} {K : ReportSink} {A : SystemApi} {Pr : ProcessApi} {U : CpuApi} {H : HandleApi}.
Context {G : ListHeads} {B : ApcApi} {HA : HashApi} {DA : DriverApi} {OA : ObjectApi} {MA : MappingApi}.
Context {VA : VerifyApi} {PA : PagingApi} {R : RangesBlock} {PC : PciApi} {C : ProcessorApi}.
Context {FD : ProcessModule.DiskApi} {O : ObApi} {D : DispatchApi}.
Abbreviation M := (KM (driver LI LR)).

(** A routine that gets the request and returns it with the reply. *)
Definition with_irp (p : Z) (m : IRP -> M (NTSTATUS * option IRP)) : M NTSTATUS :=
  irp ← on_requests (load_irp p);
  '(status, irp') ← m irp;
  on_requests (store_irp p (default irp irp')) ≫= fun _ =>
  mret status.

(** ** Threads *)

Definition create_system_thread (t : system_thread) : M (NTSTATUS * Z) :=
  n ← gets (fun s => thread_requests (registered s));
  update_registered (fun r => set_threads_ (system_threads r) (S n) r) ≫= fun _ =>
  let '(status, handle) := PsCreateSystemThread n in
  when (NT_SUCCESS status)
    (update_registered (fun r => set_threads_ (system_threads r ++ [t]) (thread_requests r) r) ≫= fun _ =>
     on_kernel (acquire (OpenHandle handle))) ≫= fun _ =>
  mret (status, handle).

Definition ZwClose (handle : Z) : M unit := on_kernel (release (OpenHandle handle)).

Definition RetrieveSections (p : Z) : M unit :=
  name ← gets driver_name;
  _ ← with_irp p (fun irp => on_kernel (RetrieveInMemoryModuleExecutableSections name (Some irp)));
  mret tt.

(** The body of a created thread. *)
Definition run_thread (t : system_thread) : M unit :=
  match t with
  | HandleValidateDriversThread => _ ← on_kernel HandleValidateDriversIOCTL; mret tt
  | RetrieveSectionsThread p => RetrieveSections p
  end.

(** A created thread runs to its end. *)
Definition thread_runs (t : system_thread) : M unit :=
  update_registered (fun r => set_threads_ (remove_one t (system_threads r)) (thread_requests r) r) ≫= fun _ =>
  run_thread t.

(** ** The handlers *)

Definition validate_driver_objects : M NTSTATUS :=
  '(status, handle) ← create_system_thread HandleValidateDriversThread;
  if negb (NT_SUCCESS status) then mret status
  else ZwClose handle ≫= fun _ => mret status.

Definition notify_launch (p : Z) : M NTSTATUS :=
  irp ← on_requests (load_irp p);
  status ← on_session (SessionInitialise irp);
  if negb (NT_SUCCESS status) then mret status else RegisterProcessObCallbacks.

(** The thread is waited for through a reference on its object. *)
Definition retrieve_executable_regions (p : Z) : M NTSTATUS :=
  '(status, handle) ← create_system_thread (RetrieveSectionsThread p);
  if negb (NT_SUCCESS status) then mret status
  else
    let '(status, thread_) := reference_thread handle in
    if negb (NT_SUCCESS status) then ZwClose handle ≫= fun _ => mret status
    else
      on_kernel (acquire (Reference thread_)) ≫= fun _ =>
      thread_runs (RetrieveSectionsThread p) ≫= fun _ =>
      ZwClose handle ≫= fun _ =>
      on_kernel (release (Reference thread_)) ≫= fun _ =>
      mret status.

Definition notify_termination : M NTSTATUS :=
  on_session SessionTerminate ≫= fun _ =>
  UnregisterProcessObCallbacks ≫= fun _ =>
  mret STATUS_SUCCESS.

Definition hardware_information (p : Z) : M NTSTATUS :=
  i ← gets (fun s => side_info (config_part s));
  with_irp p (fun irp =>
    '(status, checked) ← lift (ValidateIrpOutputBuffer (Some irp) (sizeof SYSTEM_INFORMATION_layout));
    let irp := default irp checked in
    if negb (NT_SUCCESS status) then mret (status, Some irp)
    else
      let irp := set_information (sizeof SYSTEM_INFORMATION_layout) irp in
      bytes ← lift (copy_to (SystemBuffer irp) (information_bytes i));
      mret (status, Some (set_buffer bytes irp))).

(** The code is read from the buffer without a check of its length. *)
Definition initiate_apc_operation (p : Z) : M NTSTATUS :=
  irp ← on_requests (load_irp p);
  id ← lift (load_field (mem_of 0 (SystemBuffer irp)) APC_OPERATION_ID 0 "operation_id" 4);
  on_walk (DispatchApcOperation id).

(** The status [SystemModuleVerificationDispatcher] returns, and the request up to its
    return, which waits for the workers when the validation is complete. *)
Definition verification_status (v : vstate) : NTSTATUS :=
  if complete (ctx v) then STATUS_SUCCESS
  else if negb (active (ctx v)) then (InitialiseSystemModuleVerificationContext v).1
  else STATUS_SUCCESS.

Definition validate_system_modules : M NTSTATUS := fun s =>
  v ← SystemModuleVerificationDispatcher (verification s);
  v ← (match dispatcher v with
       | DIdle => Ok v
       | DWait _ =>
           match vrun worker_schedule v with
           | Some (Ok v) => match dispatcher v with DIdle => Ok v | DWait _ => Crash OutOfFuel end
           | Some (Crash f) => Crash f
           | None => Crash OutOfFuel
           end
       end);
  Ok (verification_status (verification s), set_verification v s).

(** ** The dispatch routines *)

(** Whether [DeviceControl] goes on to complete the request or returns. *)
Inductive outcome :=
  | Complete (status : NTSTATUS)
  | Return (status : NTSTATUS).

Definition completing (m : M NTSTATUS) : M outcome := status ← m; mret (Complete status).

(** The [switch] over the code. *)
Definition handle_request (code p : Z) : M outcome :=
  if code =? IOCTL_RUN_NMI_CALLBACKS then completing (on_kernel HandleNmiIOCTL)
  else if code =? IOCTL_VALIDATE_DRIVER_OBJECTS then completing validate_driver_objects
  else if code =? IOCTL_NOTIFY_DRIVER_ON_PROCESS_LAUNCH then completing (notify_launch p)
  else if code =? IOCTL_HANDLE_REPORTS_IN_CALLBACK_QUEUE
    then completing (on_apcs QueryActiveApcContextsForCompletion)
  else if code =? IOCTL_PERFORM_VIRTUALIZATION_CHECK
    then completing (with_irp p (fun irp => on_cpu (PerformVirtualizationDetection (Some irp))))
  else if code =? IOCTL_ENUMERATE_HANDLE_TABLES
    then completing (on_callbacks scan_handle_tables ≫= fun _ => mret STATUS_SUCCESS)
  else if code =? IOCTL_RETRIEVE_MODULE_EXECUTABLE_REGIONS then completing (retrieve_executable_regions p)
  else if code =? IOCTL_REQUEST_TOTAL_MODULE_SIZE then
    completing (name ← gets driver_name;
                with_irp p (fun irp => on_kernel (GetDriverImageSize name (Some irp))))
  else if code =? IOCTL_NOTIFY_DRIVER_ON_PROCESS_TERMINATION then completing notify_termination
  else if code =? IOCTL_SCAN_FOR_UNLINKED_PROCESS then completing (on_callbacks FindUnlinkedProcesses)
  else if code =? IOCTL_PERFORM_INTEGRITY_CHECK then
    completing (name ← gets driver_name;
                '(status, _) ← on_drivers (ValidateOurDriverImage name);
                mret status)
  else if code =? IOCTL_DETECT_ATTACHED_THREADS
    then completing (on_callbacks DetectThreadsAttachedToProtectedProcess ≫= fun _ => mret STATUS_SUCCESS)
  else if code =? IOCTL_VALIDATE_PROCESS_LOADED_MODULE then
    completing (irp ← on_requests (load_irp p); on_handles (ValidateProcessLoadedModule (Some irp)))
  else if code =? IOCTL_REQUEST_HARDWARE_INFORMATION then completing (hardware_information p)
  else if code =? IOCTL_INITIATE_APC_OPERATION then completing (initiate_apc_operation p)
  else if code =? IOCTL_CHECK_FOR_EPT_HOOK then
    completing ('(status, _) ← on_cpu DetectEptHooksInKeyFunctions; mret status)
  else if code =? IOCTL_VALIDATE_SYSTEM_MODULES then completing validate_system_modules
  else if code =? IOCTL_LAUNCH_DPC_STACKWALK
    then completing (on_kernel (DispatchStackwalkToEachCpuViaDpc patience))
  else if code =? IOCTL_INSERT_IRP_INTO_QUEUE then
    status ← on_requests (InsertIrpIntoQueue p); mret (Return status)
  else if code =? IOCTL_INITIATE_SHARED_MAPPING then
    completing (with_irp p (fun irp =>
      '(status, irp) ← on_mapping (SharedMappingInitialise irp); mret (status, Some irp)))
  else if code =? IOCTL_VALIDATE_PCI_DEVICES then
    completing ('(status, _) ← on_kernel ValidatePciDevices; mret status)
  else mret (Complete STATUS_INVALID_PARAMETER).

Definition complete_with (p : Z) (status : NTSTATUS) : M NTSTATUS :=
  irp ← on_requests (load_irp p);
  on_requests (store_irp p (Irp.set_status status irp)) ≫= fun _ =>
  on_requests (complete_request p) ≫= fun _ =>
  mret status.

Definition request_code (p : Z) : M Z :=
  irp ← on_requests (load_irp p);
  of_option NullDereference (IoControlCode <$> IoGetCurrentIrpStackLocation irp).

Definition DeviceControl (p : Z) : M NTSTATUS :=
  security_flag ← on_session SessionIsActive;
  code ← request_code p;
  out ← (if negb security_flag && negb (code =? IOCTL_NOTIFY_DRIVER_ON_PROCESS_LAUNCH)
         then mret (Complete STATUS_ACCESS_DENIED)
         else handle_request code p);
  match out with
  | Complete status => complete_with p status
  | Return status => mret status
  end.

(** Both end by reading the status of the request they have completed. *)
Definition complete_and_read (p : Z) : M NTSTATUS :=
  on_requests (complete_request p) ≫= fun _ =>
  irp ← on_requests (load_irp p);
  mret (IoStatus_Status irp).

Definition close_session : M unit :=
  on_session SessionTerminate ≫= fun _ =>
  UnregisterProcessObCallbacks ≫= fun _ =>
  on_mapping (SharedMappingTerminate patience).

Definition DeviceClose (p : Z) : M NTSTATUS :=
  close_session ≫= fun _ => complete_and_read p.

Definition DeviceCreate (p : Z) : M NTSTATUS :=
  _ ← on_kernel ValidatePciDevices;
  complete_and_read p.

End dispatch.

(** ** Specification *)

Section specification.
Context {LI LR : Type} `{!ListEntryApi LI Z} `{!ListEntryApi LR DEFERRED_REPORT}.
Context {CQ : CsqApi (LI := LI) (LR := LR)}.
Context {P : Pool} {K : ReportSink} {A : SystemApi} {Pr : ProcessApi} {U : CpuApi} {H : HandleApi}.
Context {G : ListHeads} {B : ApcApi} {HA : HashApi} {DA : DriverApi} {OA : ObjectApi} {MA : MappingApi}.
Context {VA : VerifyApi} {PA : PagingApi} {R : RangesBlock} {PC : PciApi} {C : ProcessorApi}.
Context {FD : ProcessModule.DiskApi} {O : ObApi} {D : DispatchApi}.
Abbreviation M := (KM (driver LI LR)).
Implicit Types s : driver LI LR.

Definition session_state_of s : session_state := hsession (sys (cb (ext (lists (core s))))).

Definition set_session (x : session_state) s : driver LI LR :=
  let l := lists (core s) in
  let h := sys (cb (ext l)) in
  set_core (Timer.set_lists (LState (next l) (Lists.held l) (frees l)
    (set_cb (set_sys (HState x (hkern h) (tables h) (config_mutex h)) (cb (ext l))) (ext l))) (core s)) s.

(** ** Lemmas *)

Lemma on_session_ok {X} (m : KM session_state X) s x y :
  m (session_state_of s) = Ok (x, y) -> on_session m s = Ok (x, set_session y s).
Proof.
  intros Hm. unfold on_session, on_handles, on_callbacks, on_drivers, on_core, in_lists, on_cb,
    Callbacks.on_sys, Handles.on_session. cbn. unfold session_state_of in Hm. by rewrite Hm.
Qed.

Lemma set_session_same s : set_session (session_state_of s) s = s.
Proof. destruct s as [[[? ? ? [[[] ? ? ? ? ? ? ? ?] ? ? ? ? ?]] ? ? ? ? ? ? ? ? ? ?] ? ? ? ? ? ? ?]. done. Qed.

Lemma on_requests_ok {X} (m : KM (irp_state LI LR) X) s x y :
  m (requests s) = Ok (x, y) -> on_requests m s = Ok (x, set_requests y s).
Proof. unfold on_requests. by intros ->. Qed.

Lemma set_requests_same s : set_requests (requests s) s = s.
Proof. by destruct s. Qed.

Lemma session_is_active s :
  session_lock (session_state_of s) = false ->
  on_session SessionIsActive s = Ok (is_session_active (session_of s), s).
Proof.
  intros Hl. rewrite (on_session_ok _ _ (is_session_active (session_of s)) (session_state_of s)).
  - by rewrite set_session_same.
  - unfold SessionIsActive, locked_read, acquire_session, release_session. munfold. rewrite Hl. cbn.
    unfold session_of, session_state_of in *. destruct (hsession _). cbn in *. by rewrite Hl.
Qed.

Lemma load_irp_ok s p irp :
  irps (requests s) !! p = Some irp -> on_requests (load_irp p) s = Ok (irp, s).
Proof.
  intros Hp. rewrite (on_requests_ok _ _ irp (requests s)); [by rewrite set_requests_same|].
  unfold load_irp. by rewrite Hp.
Qed.

(** The request [p] completed with [irp]. *)
Definition complete_in (p : Z) (irp : IRP) (r : irp_state LI LR) : irp_state LI LR :=
  set_irps (delete p (irps r)) (completed r ++ [(p, irp)]) r.

Lemma complete_with_ok s p irp status :
  irps (requests s) !! p = Some irp ->
  complete_with p status s
  = Ok (status, set_requests (complete_in p (Irp.set_status status irp) (requests s)) s).
Proof.
  intros Hp. unfold complete_with. erewrite KM_step by (by apply load_irp_ok).
  erewrite KM_step by (by apply on_requests_ok).
  erewrite KM_step.
  2: { apply on_requests_ok. unfold complete_request. cbn. by rewrite lookup_insert_eq. }
  unfold complete_in, set_irps, set_requests. cbn. by rewrite delete_insert_eq.
Qed.

(** The code of a request. *)
Definition has_code s (p code : Z) (irp : IRP) : Prop :=
  irps (requests s) !! p = Some irp /\
  exists io, CurrentStackLocation irp = Some io /\ IoControlCode io = code.

Lemma request_code_ok s p code irp :
  has_code s p code irp -> request_code p s = Ok (code, s).
Proof.
  intros (Hp & io & Hio & <-). unfold request_code. erewrite KM_step by (by apply load_irp_ok).
  unfold IoGetCurrentIrpStackLocation. by rewrite Hio.
Qed.


(** *** The gate *)

Lemma session_of_requests r s : session_of (set_requests r s) = session_of s.
Proof. done. Qed.

Lemma refused_one s p code irp :
  session_lock (session_state_of s) = false -> is_session_active (session_of s) = false ->
  has_code s p code irp -> code <> IOCTL_NOTIFY_DRIVER_ON_PROCESS_LAUNCH ->
  DeviceControl p s
  = Ok (STATUS_ACCESS_DENIED,
        set_requests (complete_in p (Irp.set_status STATUS_ACCESS_DENIED irp) (requests s)) s).
Proof.
  intros Hl Ha Hc Hn. unfold DeviceControl. erewrite KM_step by (by apply session_is_active).
  erewrite KM_step by (by eapply request_code_ok). rewrite Ha, (proj2 (Z.eqb_neq _ _) Hn). cbn [negb andb].
  erewrite KM_step by done. apply complete_with_ok, Hc.
Qed.

(** A request other than the launch notification. *)
Definition ordinary s (p : Z) : Prop :=
  exists code irp, has_code s p code irp /\ code <> IOCTL_NOTIFY_DRIVER_ON_PROCESS_LAUNCH.

(** What the clients get back: the requests in their order, each with its buffer as it
    was and refused. *)
Definition refusals s (ps : list Z) (answers : list (Z * IRP)) : Prop :=
  Forall2 (fun p a => exists irp, irps (requests s) !! p = Some irp /\
                        a = (p, Irp.set_status STATUS_ACCESS_DENIED irp)) ps answers.

Lemma refusals_fst s ps answers : refusals s ps answers -> answers.*1 = ps.
Proof. induction 1 as [|p a ps answers (irp & _ & ->) _ IH]; [done|]. cbn. by rewrite IH. Qed.

(** C11: without a session nothing happens.  While no session is active any sequence of
    requests, with any codes and any buffers, is answered one by one with
    STATUS_ACCESS_DENIED, as long as none is the launch notification: every request is
    completed exactly once with its buffer untouched, and no other part of the state of
    the driver changes. *)
Theorem denied_without_session ps s :
  session_lock (session_state_of s) = false -> is_session_active (session_of s) = false ->
  NoDup ps -> (forall p, p ∈ ps -> ordinary s p) ->
  exists r answers, mforeach (fun p => _ ← DeviceControl p; mret tt) ps s = Ok (tt, set_requests r s) /\
    refusals s ps answers /\ completed r = completed (requests s) ++ answers /\
    (forall p, irps r !! p = if decide (p ∈ ps) then None else irps (requests s) !! p) /\
    queue r = queue (requests s) /\ IrpQueue.count r = IrpQueue.count (requests s) /\
    deferred r = deferred (requests s) /\ buffers r = buffers (requests s).
Proof.
  revert s. induction ps as [|p ps IH]; intros s Hl Ha Hn Ho.
  - exists (requests s), []. split; [by rewrite set_requests_same|]. split; [constructor|].
    rewrite app_nil_r. split_and!; try done.
  - apply NoDup_cons in Hn as [Hp Hn].
    destruct (Ho p ltac:(by left)) as (code & irp & Hc & Hne).
    cbn [mforeach]. erewrite KM_step by (erewrite KM_step by (by eapply refused_one); done).
    set (s1 := set_requests _ s).
    destruct (IH s1) as (r & answers & H1 & Hr & Hcm & Hi & Hrest); [done|done|done| |].
    { intros q Hq. destruct (Ho q ltac:(by right)) as (code' & irp' & [Hq' Hio] & Hne').
      exists code', irp'. split; [|done]. split; [|done]. cbn. rewrite lookup_delete_ne; [done|].
      intros ->. done. }
    exists r, ((p, Irp.set_status STATUS_ACCESS_DENIED irp) :: answers). split; [exact H1|].
    split; [|split; [|split]].
    + constructor; [exists irp; split; [apply Hc|done]|].
      eapply Forall2_impl_in; [exact Hr|]. intros q a Hq (irp' & Hq' & ->). exists irp'. split; [|done].
      cbn in Hq'. rewrite lookup_delete_ne in Hq'; [done|]. intros ->. done.
    + rewrite Hcm. cbn. by rewrite <- (assoc_L (++)).
    + intros q. rewrite Hi. cbn. destruct (decide (q ∈ ps)), (decide (q ∈ p :: ps)) as [Hin|Hin]; try done.
      * exfalso. apply Hin. by right.
      * apply elem_of_cons in Hin as [->|]; [|done]. apply lookup_delete_eq.
      * apply lookup_delete_ne. intros ->. apply Hin. by left.
    + done.
Qed.

(** *** One answer per request *)

(** An operation that changes at most the request [p] of the requests. *)
Definition answers_only {X} (p : Z) (m : M X) : Prop :=
  forall s x s', m s = Ok (x, s') ->
    requests s' = requests s \/
    exists irp, is_Some (irps (requests s) !! p) /\
      requests s' = set_irps (<[p := irp]> (irps (requests s))) (completed (requests s)) (requests s).

Lemma answers_ret {X} p (x : X) : answers_only p (mret x).
Proof. intros s y s' [= <- <-]. by left. Qed.

Lemma answers_bind {X Y} p (m : M X) (k : X -> M Y) :
  answers_only p m -> (forall x, answers_only p (k x)) -> answers_only p (m ≫= k).
Proof.
  intros Hm Hk s y s' Hr. unfold mbind, KM_bind in Hr.
  destruct (m s) as [[x s1]|] eqn:E; [|done].
  destruct (Hm _ _ _ E) as [E1|(i & Hi & E1)], (Hk _ _ _ _ Hr) as [E2|(j & Hj & E2)].
  - left. congruence.
  - right. exists j. rewrite <- E1. by split.
  - right. exists i. split; [done|congruence].
  - right. exists j. split; [done|]. rewrite E2, E1. unfold set_irps. cbn. by rewrite insert_insert_eq.
Qed.

(** An operation that leaves the requests alone. *)
Definition quiet {X} (m : M X) : Prop := forall s x s', m s = Ok (x, s') -> requests s' = requests s.

Lemma answers_quiet {X} p (m : M X) : quiet m -> answers_only p m.
Proof. intros Hm s x s' Hr. left. by eapply Hm. Qed.

Lemma quiet_ret {X} (x : X) : quiet (mret x : M X).
Proof. by intros s y s' [= <- <-]. Qed.

Lemma quiet_bind {X Y} (m : M X) (k : X -> M Y) : quiet m -> (forall x, quiet (k x)) -> quiet (m ≫= k).
Proof.
  intros Hm Hk s y s' Hr. unfold mbind, KM_bind in Hr. destruct (m s) as [[x s1]|] eqn:E; [|done].
  rewrite (Hk _ _ _ _ Hr). by eapply Hm.
Qed.

Lemma quiet_core {X} (m : KM tsys X) : quiet (on_core m).
Proof. intros s x s'. unfold on_core. destruct (m _) as [[]|]; [|done]. by intros [= <- <-]. Qed.
Lemma quiet_cpu {X} (m : KM processor X) : quiet (on_cpu m).
Proof. intros s x s'. unfold on_cpu. destruct (m _) as [[]|]; [|done]. by intros [= <- <-]. Qed.
Lemma quiet_apcs {X} (m : KM apc_state X) : quiet (on_apcs m).
Proof. intros s x s'. unfold on_apcs. destruct (m _) as [[]|]; [|done]. by intros [= <- <-]. Qed.
Lemma quiet_walk {X} (m : KM (lstate walk_ext) X) : quiet (on_walk m).
Proof. intros s x s'. unfold on_walk. destruct (m _) as [[]|]; [|done]. by intros [= <- <-]. Qed.
Lemma quiet_mapping {X} (m : KM sm_state X) : quiet (on_mapping m).
Proof. intros s x s'. unfold on_mapping. destruct (m _) as [[]|]; [|done]. by intros [= <- <-]. Qed.
Lemma quiet_registered f : quiet (update_registered f).
Proof. by intros s x s' [= <- <-]. Qed.
Lemma quiet_gets {X} (f : driver LI LR -> X) : quiet (gets f).
Proof. by intros s x s' [= <- <-]. Qed.
Lemma quiet_lift {X} (r : res X) : quiet (lift r).
Proof. intros s x s'. unfold lift. destruct r; [|done]. by intros [= <- <-]. Qed.
Lemma quiet_when b m : quiet m -> quiet (when b m).
Proof. intros Hm. destruct b; [done|apply quiet_ret]. Qed.
Lemma quiet_load p : quiet (on_requests (load_irp p)).
Proof.
  intros s x s'. unfold on_requests, load_irp. destruct (irps (requests s) !! p); [|done].
  by intros [= <- <-].
Qed.
Lemma quiet_unregister h : quiet (ObUnRegisterCallbacks h).
Proof. intros s x s'. unfold ObUnRegisterCallbacks. destruct (decide _); [apply quiet_registered|done]. Qed.
Lemma quiet_validation : quiet validate_system_modules.
Proof.
  intros s x s'. unfold validate_system_modules. intros Hr. unfold mbind, res_bind in Hr.
  destruct (SystemModuleVerificationDispatcher _) as [v|]; [|done].
  destruct (match dispatcher v with DIdle => _ | DWait _ => _ end) as [v'|]; [|done].
  by injection Hr as <- <-.
Qed.

Lemma quiet_register : quiet RegisterProcessObCallbacks.
Proof.
  unfold RegisterProcessObCallbacks, store_registration.
  repeat first [apply quiet_bind; [|intros ?] | apply quiet_ret | apply quiet_apcs | apply quiet_core
    | apply quiet_gets | apply quiet_registered | apply quiet_when
    | match goal with |- quiet (match ?x with (_, _) => _ end) => destruct x end].
Qed.

Lemma quiet_unregister_all : quiet UnregisterProcessObCallbacks.
Proof.
  unfold UnregisterProcessObCallbacks, store_registration, registration.
  repeat first [apply quiet_bind; [|intros ?] | apply quiet_unregister | apply quiet_apcs | apply quiet_core
    | apply quiet_gets | apply quiet_when].
Qed.

Lemma quiet_create (th : system_thread) : quiet (create_system_thread th).
Proof.
  unfold create_system_thread.
  repeat first [apply quiet_bind; [|intros ?] | apply quiet_ret | apply quiet_core
    | apply quiet_gets | apply quiet_registered | apply quiet_when
    | match goal with |- quiet (match ?x with (_, _) => _ end) => destruct x end].
Qed.

End specification.

Ltac quiet_step :=
  lazymatch goal with
  | |- quiet (_ ≫= _) => apply quiet_bind; [|intros ?]
  | |- quiet (mret _) => apply quiet_ret
  | |- quiet (on_core _) => apply quiet_core
  | |- quiet (on_drivers _) => apply quiet_core
  | |- quiet (on_callbacks _) => apply quiet_core
  | |- quiet (on_handles _) => apply quiet_core
  | |- quiet (on_session _) => apply quiet_core
  | |- quiet (on_kernel _) => apply quiet_core
  | |- quiet (on_cpu _) => apply quiet_cpu
  | |- quiet (on_apcs _) => apply quiet_apcs
  | |- quiet (on_walk _) => apply quiet_walk
  | |- quiet (on_mapping _) => apply quiet_mapping
  | |- quiet (update_registered _) => apply quiet_registered
  | |- quiet (gets _) => apply quiet_gets
  | |- quiet (lift _) => apply quiet_lift
  | |- quiet (when _ _) => apply quiet_when
  | |- quiet (on_requests (load_irp _)) => apply quiet_load
  | |- quiet (ObUnRegisterCallbacks _) => apply quiet_unregister
  | |- quiet validate_system_modules => apply quiet_validation
  | |- quiet RegisterProcessObCallbacks => apply quiet_register
  | |- quiet UnregisterProcessObCallbacks => apply quiet_unregister_all
  | |- quiet (create_system_thread _) => apply quiet_create
  | |- quiet (if ?b then _ else _) => destruct b
  | |- quiet (match ?x with (_, _) => _ end) => destruct x
  | |- quiet (let _ := _ in _) => cbn zeta
  end.

(** Solves [quiet] for a composition of lifted operations. *)
Ltac quiet := repeat quiet_step.

Section answers.
Context {LI LR : Type} `{!ListEntryApi LI Z} `{!ListEntryApi LR DEFERRED_REPORT}.
Context {CQ : CsqApi (LI := LI) (LR := LR)}.
Context {P : Pool} {K : ReportSink} {A : SystemApi} {Pr : ProcessApi} {U : CpuApi} {H : HandleApi}.
Context {G : ListHeads} {B : ApcApi} {HA : HashApi} {DA : DriverApi} {OA : ObjectApi} {MA : MappingApi}.
Context {VA : VerifyApi} {PA : PagingApi} {R : RangesBlock} {PC : PciApi} {C : ProcessorApi}.
Context {FD : ProcessModule.DiskApi} {O : ObApi} {D : DispatchApi}.
Abbreviation M := (KM (driver LI LR)).
Implicit Types s : driver LI LR.

Lemma answers_with_irp p (m : IRP -> M (NTSTATUS * option IRP)) :
  (forall irp, quiet (m irp)) -> answers_only p (with_irp p m).
Proof.
  intros Hm s x s' Hr. unfold with_irp in Hr.
  destruct (irps (requests s) !! p) as [irp|] eqn:E.
  2: { unfold on_requests, load_irp, mbind, KM_bind in Hr. by rewrite E in Hr. }
  erewrite KM_step in Hr by (by apply load_irp_ok). unfold mbind at 1, KM_bind in Hr.
  destruct (m irp s) as [[[status o] s1]|] eqn:E1; [|done]. pose proof (Hm irp _ _ _ E1) as Hq.
  injection Hr as <- <-. cbn. right. exists (default irp o). split; [done|]. by rewrite Hq.
Qed.

Lemma answers_retrieve p : answers_only (LI := LI) (LR := LR) p (retrieve_executable_regions p).
Proof.
  unfold retrieve_executable_regions, thread_runs, run_thread, RetrieveSections, ZwClose.
  apply answers_bind; [apply answers_quiet, quiet_create|]. intros [status handle].
  destruct (negb _); [apply answers_ret|]. destruct (reference_thread handle) as [st th].
  destruct (negb _); [apply answers_quiet; quiet|].
  repeat first [apply answers_ret | apply answers_with_irp; intros; quiet
    | apply answers_bind; [|intros ?] | apply answers_quiet; by quiet].
Qed.

Lemma completing_answers p (m : M NTSTATUS) s out s' :
  answers_only p m -> completing m s = Ok (out, s') ->
  exists status, out = Complete status /\
    (requests s' = requests s \/
     exists irp, is_Some (irps (requests s) !! p) /\
       requests s' = set_irps (<[p := irp]> (irps (requests s))) (completed (requests s)) (requests s)).
Proof.
  intros Hm Hr. unfold completing, mbind, KM_bind in Hr. destruct (m s) as [[status s1]|] eqn:E; [|done].
  injection Hr as <- <-. exists status. split; [done|]. by apply (Hm _ _ _ E).
Qed.

Lemma handle_answers code p s out s' :
  handle_request code p s = Ok (out, s') -> code <> IOCTL_INSERT_IRP_INTO_QUEUE ->
  exists status, out = Complete status /\
    (requests s' = requests s \/
     exists irp, is_Some (irps (requests s) !! p) /\
       requests s' = set_irps (<[p := irp]> (irps (requests s))) (completed (requests s)) (requests s)).
Proof.
  intros Hr Hn. unfold handle_request in Hr. rewrite (proj2 (Z.eqb_neq _ _) Hn) in Hr.
  repeat match type of Hr with (if ?b then _ else _) _ = _ => destruct b end;
    try (eapply completing_answers; [|exact Hr]).
  all: lazymatch goal with
       | |- answers_only _ (retrieve_executable_regions _) => apply answers_retrieve
       | |- answers_only _ (with_irp _ _) => apply answers_with_irp; intros; quiet
       | |- answers_only _ (hardware_information _) => apply answers_bind; [apply answers_quiet; quiet|]
       | |- answers_only _ (gets _ ≫= (fun _ => with_irp _ _)) => apply answers_bind; [apply answers_quiet; quiet|]
       | |- answers_only _ _ => apply answers_quiet;
           unfold validate_driver_objects, notify_launch, notify_termination, ZwClose, initiate_apc_operation; quiet
       | _ => idtac
       end.
  1-2: intros ?; apply answers_with_irp; intros; quiet.
  injection Hr as <- <-. exists STATUS_INVALID_PARAMETER. split; [done|]. by left.
Qed.


(** *** Sessions and object callbacks *)

Definition with_session (f : ACTIVE_SESSION -> ACTIVE_SESSION) s : driver LI LR :=
  let x := session_state_of s in
  set_session (SessionState (f (session x)) (session_lock x) (Session.references x) (Session.terminated x)) s.

Definition with_callbacks (l : list Z) (n : nat) s : driver LI LR :=
  set_registered (set_ob l n (registered s)) s.

Lemma locked_config s :
  config_lock (apcs_of s) = false ->
  exists s1, on_apcs AcquireDriverConfigLock s = Ok (tt, s1) /\ registered s1 = registered s /\
    session_of s1 = session_of s /\
    forall l n f,
      on_apcs ReleaseDriverConfigLock (with_callbacks l n s1) = Ok (tt, with_callbacks l n s) /\
      on_apcs ReleaseDriverConfigLock (with_callbacks l n (with_session f s1)) = Ok (tt, with_callbacks l n (with_session f s)) /\
      on_apcs ReleaseDriverConfigLock s1 = Ok (tt, s).
Proof.
  destruct s as [co [[aa ac cs ms pl lk un] ml mf aq br] pr mp rq ve cf re]. unfold apcs_of. cbn. intros ->.
  eexists. split; [done|]. done.
Qed.

Lemma store_registration_ok h s :
  store_registration h s = Ok (tt, with_session (set_registration_handle h) s).
Proof. by apply on_session_ok. Qed.

Lemma register_ok s st h :
  config_lock (apcs_of s) = false -> ObRegisterCallbacks (ob_requests (registered s)) = (st, h) ->
  RegisterProcessObCallbacks s
  = Ok (st, if NT_SUCCESS st
            then with_callbacks (ob_callbacks (registered s) ++ [h]) (S (ob_requests (registered s)))
                   (with_session (set_registration_handle h) s)
            else with_callbacks (ob_callbacks (registered s)) (S (ob_requests (registered s))) s).
Proof.
  intros Hl Ho. destruct (locked_config s Hl) as (s1 & H1 & R1 & S1 & Hrel).
  unfold RegisterProcessObCallbacks. erewrite KM_step by exact H1. erewrite KM_step by done.
  rewrite R1. erewrite KM_step by done. rewrite Ho. destruct (NT_SUCCESS st); cbn [when].
  - erewrite KM_step by (erewrite KM_step by done; by apply store_registration_ok).
    erewrite KM_step; [done|]. rewrite <- (proj1 (proj2 (Hrel _ _ _))). rewrite <- R1. done.
  - erewrite KM_step by done. erewrite KM_step; [done|]. rewrite <- (proj1 (Hrel _ _ id)). by rewrite <- R1.
Qed.

Lemma unregister_ok s :
  config_lock (apcs_of s) = false ->
  (registration_handle (session_of s) <> 0 -> registration_handle (session_of s) ∈ ob_callbacks (registered s)) ->
  UnregisterProcessObCallbacks s
  = Ok (tt, if registration_handle (session_of s) =? 0 then s
            else with_callbacks (remove_one (registration_handle (session_of s)) (ob_callbacks (registered s)))
                   (ob_requests (registered s)) (with_session (set_registration_handle 0) s)).
Proof.
  intros Hl Hin. destruct (locked_config s Hl) as (s1 & H1 & R1 & S1 & Hrel).
  unfold UnregisterProcessObCallbacks, registration. erewrite KM_step by exact H1. erewrite KM_step by done.
  rewrite S1. destruct (Z.eqb_spec (registration_handle (session_of s)) 0) as [|Hne]; cbn [negb when].
  - erewrite KM_step by done. apply (Hrel [] 0%nat id).
  - erewrite KM_step.
    2: { erewrite KM_step.
         2: { unfold ObUnRegisterCallbacks. rewrite R1, decide_True by auto. done. }
         by apply store_registration_ok. }
    rewrite <- (proj1 (proj2 (Hrel _ _ _))). by rewrite <- R1.
Qed.

(** A launch notification for the process [pid], which resolves to [process_]. *)
Record launches s (p : Z) (irp : IRP) (cookie : Z) (key : list Z) (pid st process_ : Z) : Prop := {
  la_code : has_code s p IOCTL_NOTIFY_DRIVER_ON_PROCESS_LAUNCH irp;
  la_wf io : CurrentStackLocation irp = Some io -> irp_wf irp io /\ InputBufferLength io = 32;
  la_packet : exists rest, SystemBuffer irp = packet_bytes cookie key pid ++ rest;
  la_sizes : is_u32 cookie /\ is_u64 pid /\ zlen key = AES_128_KEY_SIZE;
  la_lookup : PsLookupProcessByProcessId pid = (st, process_) /\ NT_SUCCESS st = true;
}.

(** Neither lock is held between requests. *)
Definition unlocked s : Prop :=
  session_lock (session_state_of s) = false /\ config_lock (apcs_of s) = false.

(** A launch notification, whether or not a session was active. *)
Lemma launch_ok s p irp cookie key pid st process_ ost h :
  unlocked s -> launches s p irp cookie key pid st process_ ->
  ObRegisterCallbacks (ob_requests (registered s)) = (ost, h) ->
  exists s', DeviceControl p s = Ok (ost, s') /\ unlocked s' /\
    session_of s' = (if NT_SUCCESS ost then set_registration_handle h else id)
                      (start_session cookie key pid process_ (session_of s)) /\
    ob_callbacks (registered s') = ob_callbacks (registered s) ++ (if NT_SUCCESS ost then [h] else []) /\
    ob_requests (registered s') = S (ob_requests (registered s)) /\
    requests s' = complete_in p (Irp.set_status ost irp) (requests s).
Proof.
  intros [Hl Hc] [Hcode Hwf [rest Hb] (Hu1 & Hu2 & Hk) [Hlk Hst]] Ho. unfold DeviceControl.
  erewrite KM_step by (by apply session_is_active). erewrite KM_step by (by eapply request_code_ok).
  rewrite Z.eqb_refl. cbn [negb]. rewrite andb_false_r.
  change (handle_request (LI := LI) (LR := LR) IOCTL_NOTIFY_DRIVER_ON_PROCESS_LAUNCH p)
    with (completing (LI := LI) (LR := LR) (notify_launch p)).
  destruct Hcode as (Hp & io & Hio & _). destruct (Hwf io Hio) as [Hirp Hlen].
  pose proof (SessionInitialise_packet (session_state_of s) irp io cookie key pid rest Hl Hirp Hb Hu1 Hu2 Hk) as Hs.
  change (sizeof SESSION_INITIATION_PACKET) with 32 in Hs. rewrite Hlen, Hlk, Hst in Hs. cbn [negb Z.eqb] in Hs.
  change (32 =? 32) with true in Hs. cbn [negb] in Hs.
  unfold completing, notify_launch. erewrite KM_step.
  2: { erewrite KM_step.
       2: { erewrite KM_step by (by apply load_irp_ok).
            rewrite (KM_step _ _ _ _ _ (on_session_ok _ _ _ _ Hs)). rewrite Hst. cbn [negb]. by eapply register_ok. }
       done. }
  cbn beta iota. destruct (NT_SUCCESS ost).
  - rewrite (complete_with_ok _ _ irp) by done. eexists. split; [done|]. done.
  - rewrite (complete_with_ok _ _ irp) by done. eexists. split; [done|]. cbn. by rewrite app_nil_r.
Qed.

Lemma session_of_set x s : session_of (set_session x s) = session x.
Proof. done. Qed.

Lemma terminate_session s :
  session_lock (session_state_of s) = false ->
  exists x, SessionTerminate (session_state_of s) = Ok (tt, x) /\ session_lock x = false /\
    is_session_active (session x) = false /\
    registration_handle (session x) = registration_handle (session_of s).
Proof.
  intros Hl. unfold SessionTerminate, locked_update, acquire_session, release_session, update_session. munfold.
  rewrite Hl. by eexists.
Qed.

Lemma KM_assoc {X Y} (m : M unit) (k : M X) (g : X -> M Y) s :
  (m ≫= fun _ => k ≫= g) s = ((m ≫= fun _ => k) ≫= g) s.
Proof. unfold mbind, KM_bind. by destruct (m s) as [[]|]. Qed.

(** What [UnregisterProcessObCallbacks] leaves of the registrations. *)
Definition callbacks_left s : list Z :=
  if registration_handle (session_of s) =? 0 then ob_callbacks (registered s)
  else remove_one (registration_handle (session_of s)) (ob_callbacks (registered s)).

(** The handle of the session is registered. *)
Definition handle_registered s : Prop :=
  registration_handle (session_of s) <> 0 -> registration_handle (session_of s) ∈ ob_callbacks (registered s).

Lemma end_session s :
  unlocked s -> handle_registered s ->
  exists s', (on_session SessionTerminate ≫= fun _ => UnregisterProcessObCallbacks) s = Ok (tt, s') /\
    unlocked s' /\ requests s' = requests s /\ is_session_active (session_of s') = false /\
    registration_handle (session_of s') = 0 /\ ob_callbacks (registered s') = callbacks_left s /\
    mapping_part s' = mapping_part s /\ kernel_of s' = kernel_of s.
Proof.
  intros [Hl Hc] Hin. destruct (terminate_session s Hl) as (x & Hx & Lx & Ax & Rx).
  rewrite (KM_step _ _ _ _ _ (on_session_ok _ _ _ _ Hx)).
  rewrite unregister_ok; [|done|rewrite session_of_set, Rx; exact Hin].
  unfold callbacks_left. rewrite session_of_set, Rx.
  destruct (Z.eqb_spec (registration_handle (session_of s)) 0) as [E|E]; (eexists; split; [done|]); split_and!; try done.
  rewrite session_of_set. congruence.
Qed.

(** A termination notification. *)
Lemma termination_ok s p irp :
  unlocked s -> has_code s p IOCTL_NOTIFY_DRIVER_ON_PROCESS_TERMINATION irp ->
  is_session_active (session_of s) = true -> handle_registered s ->
  exists s', DeviceControl p s = Ok (STATUS_SUCCESS, s') /\ unlocked s' /\
    is_session_active (session_of s') = false /\ registration_handle (session_of s') = 0 /\
    ob_callbacks (registered s') = callbacks_left s /\
    requests s' = complete_in p (Irp.set_status STATUS_SUCCESS irp) (requests s).
Proof.
  intros Hu Hcode Ha Hin. destruct (end_session s Hu Hin) as (s1 & H1 & U1 & R1 & A1 & G1 & C1 & _).
  unfold DeviceControl. erewrite KM_step by (apply session_is_active, Hu).
  erewrite KM_step by (by eapply request_code_ok). rewrite Ha. cbn [negb andb].
  change (handle_request (LI := LI) (LR := LR) IOCTL_NOTIFY_DRIVER_ON_PROCESS_TERMINATION p)
    with (completing (LI := LI) (LR := LR) notify_termination).
  erewrite KM_step.
  2: { unfold completing, notify_termination. erewrite KM_step; [done|].
       rewrite KM_assoc. by rewrite (KM_step _ _ _ _ _ H1). }
  cbn beta iota. rewrite (complete_with_ok _ _ irp) by (rewrite R1; apply Hcode).
  rewrite R1. by eexists.
Qed.

(** C35: a launch notification starts a session.  For a well-formed packet whose process
    exists the session is active with the packet's process, cookie and key and the
    object callbacks are registered, the request is completed with the status of the
    registration, and the locks are free.  The session is active even when that status
    is a failure, and whatever session was active before is replaced. *)
Theorem launch_starts_session s p irp cookie key pid st process_ ost h :
  unlocked s -> launches s p irp cookie key pid st process_ ->
  ObRegisterCallbacks (ob_requests (registered s)) = (ost, h) ->
  exists s', DeviceControl p s = Ok (ost, s') /\ unlocked s' /\
    is_session_active (session_of s') = true /\ Session.process (session_of s') = process_ /\
    session_cookie (session_of s') = cookie /\ session_aes_key (session_of s') = key /\
    (NT_SUCCESS ost = true -> registration_handle (session_of s') = h /\ h ∈ ob_callbacks (registered s')) /\
    requests s' = complete_in p (Irp.set_status ost irp) (requests s).
Proof.
  intros Hu Hla Ho. destruct (launch_ok _ _ _ _ _ _ _ _ _ _ Hu Hla Ho) as (s' & H1 & U1 & S1 & C1 & _ & R1).
  exists s'. split; [done|]. split; [done|]. rewrite S1, C1.
  destruct (NT_SUCCESS ost); cbn; split_and!; try done. intros _. split; [done|]. set_solver.
Qed.

(** A second launch loses the registration of the first.  Two launch notifications
    in one session register the object callbacks twice; the session keeps the second
    handle only, so that when the session is terminated, or the driver unloaded, the
    first registration stays behind with callbacks of a driver that is gone. *)
Theorem relaunch_leaves_registration s p1 p2 p3 irp1 irp2 irp3 c1 k1 pid1 st1 pr1 c2 k2 pid2 st2 pr2 o1 h1 o2 h2 :
  unlocked s -> NoDup [p1; p2; p3] -> ob_callbacks (registered s) = [] ->
  launches s p1 irp1 c1 k1 pid1 st1 pr1 -> launches s p2 irp2 c2 k2 pid2 st2 pr2 ->
  has_code s p3 IOCTL_NOTIFY_DRIVER_ON_PROCESS_TERMINATION irp3 ->
  ObRegisterCallbacks (ob_requests (registered s)) = (o1, h1) ->
  ObRegisterCallbacks (S (ob_requests (registered s))) = (o2, h2) ->
  NT_SUCCESS o1 = true -> NT_SUCCESS o2 = true -> h1 <> h2 -> h2 <> 0 ->
  exists s', (_ ← DeviceControl p1; _ ← DeviceControl p2; DeviceControl p3) s = Ok (STATUS_SUCCESS, s') /\
    is_session_active (session_of s') = false /\ registration_handle (session_of s') = 0 /\
    ob_callbacks (registered s') = [h1].
Proof.
  intros Hu Hnd Hob L1 L2 T3 O1 O2 E1 E2 Hne Hh2.
  apply NoDup_cons in Hnd as [N1 Hnd]. apply NoDup_cons in Hnd as [N2 _].
  assert (p1 <> p2 /\ p1 <> p3 /\ p2 <> p3) as (N12 & N13 & N23) by set_solver.
  destruct (launch_ok _ _ _ _ _ _ _ _ _ _ Hu L1 O1) as (s1 & H1 & U1 & S1 & C1 & Q1 & R1).
  erewrite KM_step by exact H1.
  assert (launches s1 p2 irp2 c2 k2 pid2 st2 pr2) as L2'.
  { destruct L2 as [[Hp Hio] ? ? ? ?]. split; try done. split; [|done]. rewrite R1. cbn.
    by rewrite lookup_delete_ne. }
  rewrite <- Q1 in O2.
  destruct (launch_ok _ _ _ _ _ _ _ _ _ _ U1 L2' O2) as (s2 & H2 & U2 & S2 & C2 & Q2 & R2).
  erewrite KM_step by exact H2. rewrite E1 in C1. rewrite E2 in C2, S2. rewrite C1, Hob in C2. cbn in C2, S2.
  destruct (termination_ok s2 p3 irp3) as (s3 & H3 & _ & A3 & G3 & C3 & _).
  - done.
  - destruct T3 as [Hp Hio]. split; [|done]. rewrite R2, R1. cbn. by rewrite !lookup_delete_ne.
  - by rewrite S2.
  - unfold handle_registered. rewrite S2, C2. set_solver.
  - exists s3. split; [done|]. split; [done|]. split; [done|]. rewrite C3. unfold callbacks_left. rewrite S2, C2. cbn.
    rewrite (proj2 (Z.eqb_neq h2 0)) by done. cbn. rewrite decide_False by done. by rewrite decide_True.
Qed.

(** *** The codes *)

(** The codes with a case in the switch. *)
Definition handled_codes : list Z :=
  [IOCTL_RUN_NMI_CALLBACKS; IOCTL_VALIDATE_DRIVER_OBJECTS; IOCTL_NOTIFY_DRIVER_ON_PROCESS_LAUNCH;
   IOCTL_HANDLE_REPORTS_IN_CALLBACK_QUEUE; IOCTL_PERFORM_VIRTUALIZATION_CHECK; IOCTL_ENUMERATE_HANDLE_TABLES;
   IOCTL_RETRIEVE_MODULE_EXECUTABLE_REGIONS; IOCTL_REQUEST_TOTAL_MODULE_SIZE;
   IOCTL_NOTIFY_DRIVER_ON_PROCESS_TERMINATION; IOCTL_SCAN_FOR_UNLINKED_PROCESS; IOCTL_PERFORM_INTEGRITY_CHECK;
   IOCTL_DETECT_ATTACHED_THREADS; IOCTL_VALIDATE_PROCESS_LOADED_MODULE; IOCTL_REQUEST_HARDWARE_INFORMATION;
   IOCTL_INITIATE_APC_OPERATION; IOCTL_CHECK_FOR_EPT_HOOK; IOCTL_LAUNCH_DPC_STACKWALK;
   IOCTL_VALIDATE_SYSTEM_MODULES; IOCTL_INSERT_IRP_INTO_QUEUE; IOCTL_INITIATE_SHARED_MAPPING;
   IOCTL_VALIDATE_PCI_DEVICES].

Lemma unknown_code code p :
  code ∉ handled_codes -> handle_request (LI := LI) (LR := LR) code p = mret (Complete STATUS_INVALID_PARAMETER).
Proof.
  intros Hc. unfold handled_codes in Hc. rewrite !not_elem_of_cons in Hc. unfold handle_request.
  repeat match goal with Hx : _ /\ _ |- _ => destruct Hx as [?%Z.eqb_neq Hx] end.
  repeat match goal with Hx : (code =? ?x) = false |- context [code =? ?x] => rewrite Hx end. done.
Qed.

(** Codes without a handler.  A request whose code has no case, among them the one
    declared for querying deferred reports, is completed with STATUS_INVALID_PARAMETER
    in a session and changes nothing else.  The 22 declared codes are pairwise different
    and buffered, but their function numbers need 18 bits where the code has twelve: the
    upper bits end up in the device type, which is 0x2A and not FILE_DEVICE_UNKNOWN. *)
Theorem codes_without_handler p code irp s :
  unlocked s -> is_session_active (session_of s) = true -> has_code s p code irp -> code ∉ handled_codes ->
  DeviceControl p s
    = Ok (STATUS_INVALID_PARAMETER,
          set_requests (complete_in p (Irp.set_status STATUS_INVALID_PARAMETER irp) (requests s)) s) /\
  IOCTL_QUERY_DEFERRED_REPORTS ∉ handled_codes /\ NoDup (IOCTL_QUERY_DEFERRED_REPORTS :: handled_codes) /\
  Forall (fun c => Z.land c 3 = METHOD_BUFFERED /\ Z.shiftr c 16 = 0x2a /\
                   Z.land (Z.shiftr c 14) 3 = FILE_ANY_ACCESS)
    (IOCTL_QUERY_DEFERRED_REPORTS :: handled_codes).
Proof.
  intros [Hl _] Ha Hc Hn. split.
  - unfold DeviceControl. erewrite KM_step by (by apply session_is_active).
    erewrite KM_step by (by eapply request_code_ok). rewrite Ha. cbn [negb andb].
    rewrite unknown_code by done. erewrite KM_step by done. apply complete_with_ok, Hc.
  - assert (NoDup (IOCTL_QUERY_DEFERRED_REPORTS :: handled_codes)) as Hnd.
    { apply (bool_decide_eq_true_1 _). by vm_compute. }
    split; [by apply NoDup_cons in Hnd as [? _]|]. split; [done|]. repeat constructor.
Qed.

(** *** Closing the device *)

Lemma on_mapping_ok {X} (m : KM sm_state X) s x t :
  m (SmState (side_mapping (mapping_part s)) (kernel_of s) (side_queued (mapping_part s))
       (side_operations (mapping_part s))) = Ok (x, t) ->
  on_mapping m s = Ok (x, set_mapping_part (MappingSide (mapping t) (SharedMapping.queued t) (operations t))
                            (set_kernel (SharedMapping.kern t) s)).
Proof. unfold on_mapping. by intros ->. Qed.

(** The mapping is not there, or it is idle and its resources are held beside [h]. *)
Definition mapping_idle s (h : gmultiset resource) : Prop :=
  let m := side_mapping (mapping_part s) in
  if SharedMapping.active m then work_item_status m = 0 /\ Kernel.held (kernel_of s) = h ⊎ mapping_resources m
  else Kernel.held (kernel_of s) = h.

Lemma mapping_terminates n s h :
  patience = S n -> mapping_idle s h ->
  exists m k, on_mapping (SharedMappingTerminate patience) s
      = Ok (tt, set_mapping_part m (set_kernel k s)) /\ SharedMapping.active (side_mapping m) = false /\
    Kernel.held k = h ⊎ (if SharedMapping.active (side_mapping (mapping_part s))
                  then {[+ UserMapping (user_buffer (side_mapping (mapping_part s))) +]} else ∅).
Proof.
  intros Hp Hm. unfold mapping_idle in Hm. rewrite Hp.
  set (t := SmState (side_mapping (mapping_part s)) (kernel_of s) (side_queued (mapping_part s))
              (side_operations (mapping_part s))).
  destruct (SharedMapping.active (side_mapping (mapping_part s))) eqn:Ea.
  - destruct Hm as [Hs Hh]. destruct (terminate_run n t h) as (k & Ht & Hk & _); [done|done|done|].
    eexists _, k. split; [exact (on_mapping_ok _ _ _ _ Ht)|]. by split.
  - assert (SharedMappingTerminate (S n) t = Ok (tt, t)) as Ht.
    { unfold SharedMappingTerminate. erewrite KM_step by done. change (mapping t) with (side_mapping (mapping_part s)).
      by rewrite Ea. }
    eexists _, (kernel_of s). split; [exact (on_mapping_ok _ _ _ _ Ht)|]. cbn. split; [done|].
    by rewrite (right_id_L ∅ (⊎)).
Qed.

(** C36: closing the device.  The session becomes inactive, the object callbacks are
    unregistered, and an idle shared mapping gives back its block, its descriptor, its
    timer and its work item, but not the view of the client; then the request is
    completed and its status is read from the memory that has been given back. *)
Theorem device_close_ends_session n s p irp h :
  unlocked s -> patience = S n -> mapping_idle s h -> handle_registered s ->
  irps (requests s) !! p = Some irp ->
  (exists s', close_session s = Ok (tt, s') /\ unlocked s' /\ requests s' = requests s /\
    is_session_active (session_of s') = false /\ registration_handle (session_of s') = 0 /\
    ob_callbacks (registered s') = callbacks_left s /\
    SharedMapping.active (side_mapping (mapping_part s')) = false /\
    Kernel.held (kernel_of s') = h ⊎ (if SharedMapping.active (side_mapping (mapping_part s))
      then {[+ UserMapping (user_buffer (side_mapping (mapping_part s))) +]} else ∅)) /\
  DeviceClose p s = Crash UnmappedRead.
Proof.
  intros Hu Hp Hm Hin Hi. destruct (end_session s Hu Hin) as (s1 & H1 & U1 & R1 & A1 & G1 & C1 & M1 & K1).
  assert (mapping_idle s1 h) as Hm1 by (unfold mapping_idle; by rewrite M1, K1).
  destruct (mapping_terminates n s1 h Hp Hm1) as (m & k & H2 & Hm2 & Hk2). rewrite M1 in Hk2.
  assert (close_session s = Ok (tt, set_mapping_part m (set_kernel k s1))) as Hc.
  { unfold close_session. rewrite KM_assoc. by rewrite (KM_step _ _ _ _ _ H1). }
  split.
  - eexists. split; [exact Hc|]. split_and!; try done.
  - unfold DeviceClose. rewrite (KM_step _ _ _ _ _ Hc). unfold complete_and_read.
    erewrite KM_step.
    2: { apply on_requests_ok. unfold complete_request. cbn. rewrite R1, Hi. done. }
    unfold on_requests, load_irp, mbind, KM_bind. cbn. by rewrite lookup_delete_eq.
Qed.

(** *** The thread for the executable regions *)

Lemma on_kernel_ok {X} (m : KM kernel X) s x k :
  m (kernel_of s) = Ok (x, k) -> on_kernel m s = Ok (x, set_kernel k s).
Proof.
  intros Hm. unfold on_kernel, on_handles, on_callbacks, on_drivers, on_core, in_lists, on_cb,
    Callbacks.on_sys, Handles.on_kernel. cbn. unfold kernel_of, ModuleHash.kern in Hm. by rewrite Hm.
Qed.

(** With the thread [n] created and its handle opened. *)
Definition with_thread (th : system_thread) (handle : Z) s : driver LI LR :=
  set_kernel (set_held (Kernel.held (kernel_of s) ⊎ {[+ OpenHandle handle +]}) (kernel_of s))
    (set_registered (set_threads_ (system_threads (registered s) ++ [th])
                       (S (thread_requests (registered s))) (registered s)) s).

Lemma create_thread_ok th s st handle :
  PsCreateSystemThread (thread_requests (registered s)) = (st, handle) -> NT_SUCCESS st = true ->
  create_system_thread th s = Ok ((st, handle), with_thread th handle s).
Proof.
  intros Hc Hst. unfold create_system_thread. erewrite KM_step by done. erewrite KM_step by done.
  rewrite Hc, Hst. cbn [when]. erewrite KM_step; [done|]. erewrite KM_step by done.
  by apply on_kernel_ok.
Qed.

Lemma close_thread_ok th handle s :
  exists s', ZwClose handle (with_thread th handle s) = Ok (tt, s') /\ requests s' = requests s /\
    registered s' = registered (with_thread th handle s) /\ Kernel.held (kernel_of s') = Kernel.held (kernel_of s).
Proof.
  unfold ZwClose. eexists. split.
  - apply on_kernel_ok, (release_last _ (Kernel.held (kernel_of s))). done.
  - done.
Qed.

(** A request must not be completed while its thread runs.  When the thread for the
    executable regions has been created but cannot be referenced, the handle is closed
    and the request is completed with the failure, without waiting; the thread is still
    to run, and when it does it reads a request that has been given back. *)
Theorem thread_outlives_request s p irp st handle rst thread_ :
  unlocked s -> is_session_active (session_of s) = true ->
  has_code s p IOCTL_RETRIEVE_MODULE_EXECUTABLE_REGIONS irp ->
  PsCreateSystemThread (thread_requests (registered s)) = (st, handle) -> NT_SUCCESS st = true ->
  reference_thread handle = (rst, thread_) -> NT_SUCCESS rst = false ->
  exists s', DeviceControl p s = Ok (rst, s') /\
    requests s' = complete_in p (Irp.set_status rst irp) (requests s) /\
    Kernel.held (kernel_of s') = Kernel.held (kernel_of s) /\
    system_threads (registered s') = system_threads (registered s) ++ [RetrieveSectionsThread p] /\
    thread_runs (RetrieveSectionsThread p) s' = Crash UnmappedRead.
Proof.
  intros Hu Ha Hc Hps Hst Hrt Hrst. unfold DeviceControl. erewrite KM_step by (apply session_is_active, Hu).
  erewrite KM_step by (by eapply request_code_ok). rewrite Ha. cbn [negb andb].
  change (handle_request (LI := LI) (LR := LR) IOCTL_RETRIEVE_MODULE_EXECUTABLE_REGIONS p)
    with (completing (LI := LI) (LR := LR) (retrieve_executable_regions p)).
  destruct (close_thread_ok (RetrieveSectionsThread p) handle s) as (s1 & H1 & R1 & G1 & K1).
  erewrite KM_step.
  2: { unfold completing. erewrite KM_step; [done|]. unfold retrieve_executable_regions.
       erewrite KM_step by (by apply create_thread_ok). cbn beta iota. rewrite Hst. cbn [negb]. rewrite Hrt, Hrst.
       cbn [negb]. by rewrite (KM_step _ _ _ _ _ H1). }
  cbn beta iota. rewrite (complete_with_ok _ _ irp) by (rewrite R1; apply Hc). rewrite R1.
  eexists. split; [done|]. split; [done|]. split; [exact K1|]. split; [cbn; by rewrite G1|].
  unfold thread_runs. erewrite KM_step by done. cbn [run_thread]. unfold RetrieveSections.
  erewrite KM_step by done. unfold with_irp, on_requests, load_irp, mbind, KM_bind. cbn.
  by rewrite lookup_delete_eq.
Qed.
End answers.

(** ** Witnesses *)

Section witnesses.

#[local] Existing Instances always_grants always_succeeds Session.sample_processes sample_cpus sample_handles
  sample_heads sample_apc_api sample_hash sample_driver_api sample_directory sample_mapping_api one
  sample_paging pci_bus slow_allocation ProcessModule.sample_disk.
#[local] Instance sample_modules : SystemApi := sample_api (fun _ => 0).
#[local] Instance sample_ranges : RangesBlock := (0x9000, 0).

(** The object callbacks can be registered; a thread can be created but not referenced. *)
#[local] Instance sample_ob : ObApi := fun n => (STATUS_SUCCESS, 0x800 + Z.of_nat n).
#[local] Instance sample_dispatch : DispatchApi := {
  PsCreateSystemThread n := (STATUS_SUCCESS, 0x40 + Z.of_nat n);
  reference_thread _ := (STATUS_ACCESS_DENIED, 0);
  os_version_bytes _ := replicate 284 0;
  worker_schedule := [];
  patience := 1;
}.

Abbreviation sample_driver := (driver (list Z) (list DEFERRED_REPORT)).

Definition request (code : Z) : IRP := Irp (Some (IoStack 0 0 code)) [] 0 0.
Definition launch (cookie : Z) : IRP :=
  Irp (Some (IoStack 32 0 IOCTL_NOTIFY_DRIVER_ON_PROCESS_LAUNCH)) (packet_bytes cookie (replicate 16 7) 44) 0 0.

(** The driver with the session [x], the requests [irps], the mapping [m] and the
    resources [k]. *)
Definition sample_driver_state (x : session_state) (irps : list (Z * IRP)) (m : SHARED_MAPPING) (k : kernel)
  : sample_driver :=
  Driver
    (TSys (LState ∅ ∅ [] (DrvExt (CbExt (HState x k ∅ false) ∅ ∅ true true true 0 0 []) ∅ true [] 0x77 0))
       (Dispatch 0x7001 0x7002 0x7003) true false 0 false false false false Loaded [])
    (ApcSide (ApcState 0x5000 (replicate 10 0) ∅ ∅ ∅ false false) ∅ ∅ [] 0)
    idle_processor (MappingSide m 0 []) (IrpState [] 0 [] 0 false (list_to_map irps) [] ∅ 0 0) idle
    (ConfigSide (ConfigStrings no_string (0, []) no_string) ∅ zero_information)
    (Registrations true true true true true [] 0 [] 0).

Definition closed_session : session_state :=
  SessionState (Session false 0 0 0 0 0 [] 0 0 0) false [] [].
Definition open_session : session_state :=
  SessionState (Session true 44 44 0xffff800000044000 0 0xabcd (replicate 16 7) 0 0 0) false [] [].

Definition two_requests : sample_driver :=
  sample_driver_state closed_session
    [(1, request IOCTL_RUN_NMI_CALLBACKS); (2, request IOCTL_INSERT_IRP_INTO_QUEUE)] zero_mapping idle_kernel.

Ltac has_request := split; [reflexivity|eexists; split; reflexivity].

Lemma denied_without_session_witness :
  exists r, mforeach (fun p => _ ← DeviceControl p; mret tt) [1; 2] two_requests
    = Ok (tt, set_requests r two_requests) /\ (completed r).*1 = [1; 2].
Proof.
  destruct (denied_without_session [1; 2] two_requests) as (r & answers & H1 & Hr & Hc & _).
  - reflexivity.
  - reflexivity.
  - apply (bool_decide_eq_true_1 _). reflexivity.
  - intros p Hp. assert (p = 1 \/ p = 2) as [->| ->] by set_solver; eexists _, _;
      (split; [has_request|by vm_compute]).
  - exists r. split; [exact H1|]. rewrite Hc. exact (refusals_fst _ _ _ Hr).
Defined.


Definition two_launches : sample_driver :=
  sample_driver_state closed_session
    [(1, launch 0xabcd); (2, launch 0x1234); (3, request IOCTL_NOTIFY_DRIVER_ON_PROCESS_TERMINATION)]
    zero_mapping idle_kernel.

Lemma launches_sample p c :
  irps (requests two_launches) !! p = Some (launch c) -> is_u32 c ->
  launches two_launches p (launch c) c (replicate 16 7) 44 STATUS_SUCCESS 0xffff800000044000.
Proof.
  intros Hp Hc. split.
  - split; [exact Hp|]. eexists. split; reflexivity.
  - intros io [= <-]. split; [|reflexivity]. split; cbn; [reflexivity|lia|reflexivity].
  - exists []. by rewrite app_nil_r.
  - unfold is_u64. split; [exact Hc|]. split; [lia|]. reflexivity.
  - split; reflexivity.
Qed.

Lemma launch_starts_session_witness :
  exists s', DeviceControl 1 two_launches = Ok (STATUS_SUCCESS, s') /\
    is_session_active (session_of s') = true /\ session_cookie (session_of s') = 0xabcd.
Proof.
  destruct (launch_starts_session two_launches 1 (launch 0xabcd) 0xabcd (replicate 16 7) 44 STATUS_SUCCESS
    0xffff800000044000 STATUS_SUCCESS 0x800) as (s' & H1 & _ & H2 & _ & H3 & _).
  - split; reflexivity.
  - apply launches_sample; [reflexivity|unfold is_u32; lia].
  - reflexivity.
  - exists s'. by split_and!.
Defined.

Lemma relaunch_leaves_registration_witness :
  exists s', (_ ← DeviceControl 1; _ ← DeviceControl 2; DeviceControl 3) two_launches = Ok (STATUS_SUCCESS, s') /\
    ob_callbacks (registered s') = [0x800].
Proof.
  destruct (relaunch_leaves_registration two_launches 1 2 3 (launch 0xabcd) (launch 0x1234)
    (request IOCTL_NOTIFY_DRIVER_ON_PROCESS_TERMINATION) 0xabcd (replicate 16 7) 44 STATUS_SUCCESS
    0xffff800000044000 0x1234 (replicate 16 7) 44 STATUS_SUCCESS 0xffff800000044000 STATUS_SUCCESS 0x800
    STATUS_SUCCESS 0x801) as (s' & H1 & _ & _ & H2).
  - split; reflexivity.
  - apply (bool_decide_eq_true_1 _). reflexivity.
  - reflexivity.
  - apply launches_sample; [reflexivity|unfold is_u32; lia].
  - apply launches_sample; [reflexivity|unfold is_u32; lia].
  - has_request.
  - reflexivity.
  - reflexivity.
  - reflexivity.
  - reflexivity.
  - done.
  - done.
  - exists s'. by split.
Defined.

Definition open_driver (code : Z) : sample_driver :=
  sample_driver_state open_session [(1, request code)] zero_mapping idle_kernel.

Lemma codes_without_handler_witness :
  exists s', DeviceControl 1 (open_driver IOCTL_QUERY_DEFERRED_REPORTS) = Ok (STATUS_INVALID_PARAMETER, s').
Proof.
  destruct (codes_without_handler 1 IOCTL_QUERY_DEFERRED_REPORTS (request IOCTL_QUERY_DEFERRED_REPORTS)
    (open_driver IOCTL_QUERY_DEFERRED_REPORTS)) as (H1 & _).
  - split; reflexivity.
  - reflexivity.
  - has_request.
  - by apply (bool_decide_eq_true_1 _).
  - eexists. exact H1.
Defined.

Lemma thread_outlives_request_witness :
  exists s', DeviceControl 1 (open_driver IOCTL_RETRIEVE_MODULE_EXECUTABLE_REGIONS)
      = Ok (STATUS_ACCESS_DENIED, s') /\
    thread_runs (RetrieveSectionsThread 1) s' = Crash UnmappedRead.
Proof.
  destruct (thread_outlives_request (open_driver IOCTL_RETRIEVE_MODULE_EXECUTABLE_REGIONS) 1
    (request IOCTL_RETRIEVE_MODULE_EXECUTABLE_REGIONS) STATUS_SUCCESS 0x40 STATUS_ACCESS_DENIED 0)
    as (s' & H1 & _ & _ & _ & H2).
  - split; reflexivity.
  - reflexivity.
  - has_request.
  - reflexivity.
  - reflexivity.
  - reflexivity.
  - reflexivity.
  - exists s'. by split.
Defined.

Definition sample_mapping : SHARED_MAPPING := SharedMap 0 0x7000 0x10000 0x20 16 true 0x30.

Lemma device_close_ends_session_witness :
  exists s', close_session (sample_driver_state open_session [(1, request 0)] sample_mapping
        (Kernel (mapping_resources sample_mapping) 0x10010 0 [] 0)) = Ok (tt, s') /\
    Kernel.held (kernel_of s') = ∅ ⊎ {[+ UserMapping 0x7000 +]}.
Proof.
  destruct (device_close_ends_session 0 (sample_driver_state open_session [(1, request 0)] sample_mapping
    (Kernel (mapping_resources sample_mapping) 0x10010 0 [] 0)) 1 (request 0) ∅)
    as ((s' & H1 & _ & _ & _ & _ & _ & _ & H2) & _).
  - split; reflexivity.
  - reflexivity.
  - split; [reflexivity|]. symmetry. apply (left_id_L ∅ (⊎)).
  - intros []. reflexivity.
  - reflexivity.
  - exists s'. by split.
Defined.

End witnesses.
