(* ===== verification/DriverEntry.v ===== *)
(** * driver.c: loading and unloading the driver

    [DriverEntry] resolves the imports, creates the device, gathers the configuration,
    starts the timer, makes the symbolic link, registers the notify routines and builds
    the lists; a failure undoes what was done before it.  [DriverUnload] waits for the
    APCs, the timer and the validation of the modules, unregisters everything and frees
    the lists and the strings.  Both are here on the state of Driver.v. *)

From stdpp Require Import gmultiset.
From S2P Require Import Prelude Layout Irp IrpQueue Structs ImportTable Imports Kernel Modules Smbios Session Nmi Handles Lists.
From S2P Require Import Callbacks Hashing ModuleHash DriverList Apc ApcStackwalk SharedMapping Verification.
From S2P Require Import Hypervisor Disk Timer Config Driver Dispatch.

(** ** Data *)

(** The kernel's answers while the driver is loaded: to [IoCreateDevice], to the two
    calls of [IoCsqInitialize], to [IoCreateSymbolicLink] and to the registration of the
    notify routines; the memory of the loader's list with the driver's entry, and the
    fuels of its search and of the search of the SMBIOS table. *)
Class EntryApi := {
  IoCreateDevice : NTSTATUS;
  IoCsqInitialize : nat -> NTSTATUS;
  IoCreateSymbolicLink : NTSTATUS;
  PsSetLoadImageNotifyRoutine : NTSTATUS;
  PsSetCreateThreadNotifyRoutine : NTSTATUS;
  PsSetCreateProcessNotifyRoutine : NTSTATUS;
  loader_memory : memory;
  DriverSection : Z;
  loader_fuel : nat;
  smbios_fuel : nat;
}.

Definition set_device (b : bool) (r : registrations) : registrations :=
  Registrations b (symbolic_link r) (load_image r) (create_thread r) (create_process r)
    (ob_callbacks r) (ob_requests r) (system_threads r) (thread_requests r).
Definition set_link (b : bool) (r : registrations) : registrations :=
  Registrations (device r) b (load_image r) (create_thread r) (create_process r)
    (ob_callbacks r) (ob_requests r) (system_threads r) (thread_requests r).
Definition set_load_image (b : bool) (r : registrations) : registrations :=
  Registrations (device r) (symbolic_link r) b (create_thread r) (create_process r)
    (ob_callbacks r) (ob_requests r) (system_threads r) (thread_requests r).
Definition set_create_thread (b : bool) (r : registrations) : registrations :=
  Registrations (device r) (symbolic_link r) (load_image r) b (create_process r)
    (ob_callbacks r) (ob_requests r) (system_threads r) (thread_requests r).
Definition set_create_process (b : bool) (r : registrations) : registrations :=
  Registrations (device r) (symbolic_link r) (load_image r) (create_thread r) b
    (ob_callbacks r) (ob_requests r) (system_threads r) (thread_requests r).

Definition set_dispatch (d : DISPATCH) (s : tsys) : tsys :=
  TSys (lists s) d (has_driver_loaded s) (timer_state s) (timer_work_item s) (armed s) (dpc_queued s)
    (Timer.queued s) (running s) (unload s) (checks s).
Definition set_loaded (b : bool) (s : tsys) : tsys :=
  TSys (lists s) (dispatch s) b (timer_state s) (timer_work_item s) (armed s) (dpc_queued s)
    (Timer.queued s) (running s) (unload s) (checks s).
Definition set_unloading (b : bool) (a : apc_state) : apc_state :=
  ApcState (array_address a) (apc_contexts a) (contexts a) (system_modules a) (pool a) (config_lock a) b.
Definition set_config_lock (b : bool) (a : apc_state) : apc_state :=
  ApcState (array_address a) (apc_contexts a) (contexts a) (system_modules a) (pool a) b
    (unload_in_progress a).
Definition set_config_mutex (b : bool) (s : h_state) : h_state :=
  HState (hsession s) (hkern s) (tables s) b.
Definition set_validation_active (b : bool) (v : vstate) : vstate :=
  set_ctx (set_flags b (complete (ctx v)) (ctx v)) v.

Section operations.
Context {LI LR : Type} `{!ListEntryApi LI Z} `{!ListEntryApi LR DEFERRED_REPORT}.
Context {P : Pool} {A : SystemApi} {V : HandleApi} {G : ListHeads} {L : Lookaside} {H : HashApi}.
Context {D : DriverApi} {T : TimerApi} {F : Firmware} {C : ProcessorApi} {FD : Disk.DiskApi} {R : ConfigApi}.
Context {VA : VerifyApi} {E : EntryApi}.
Abbreviation M := (KM (driver LI LR)).

(** ** Notify routines

    Each [Unregister...] routine marks its list as inactive and removes the callback. *)

Definition remove_process_routine : M unit :=
  on_callbacks Callbacks.UnregisterProcessCreateNotifyRoutine ≫= fun _ =>
  update_registered (set_create_process false).
Definition remove_thread_routine : M unit :=
  on_callbacks Callbacks.UnregisterThreadCreateNotifyRoutine ≫= fun _ =>
  update_registered (set_create_thread false).
Definition remove_image_routine : M unit :=
  on_drivers DriverList.UnregisterImageLoadNotifyRoutine ≫= fun _ =>
  update_registered (set_load_image false).

(** ** Load *)

Definition DrvLoadEnableNotifyRoutines : M NTSTATUS :=
  if negb (NT_SUCCESS PsSetLoadImageNotifyRoutine) then mret PsSetLoadImageNotifyRoutine
  else
    update_registered (set_load_image true) ≫= fun _ =>
    if negb (NT_SUCCESS PsSetCreateThreadNotifyRoutine) then
      update_registered (set_load_image false) ≫= fun _ => mret PsSetCreateThreadNotifyRoutine
    else
      update_registered (set_create_thread true) ≫= fun _ =>
      if negb (NT_SUCCESS PsSetCreateProcessNotifyRoutine) then
        update_registered (set_create_thread false) ≫= fun _ =>
        update_registered (set_load_image false) ≫= fun _ => mret PsSetCreateProcessNotifyRoutine
      else
        update_registered (set_create_process true) ≫= fun _ => mret PsSetCreateProcessNotifyRoutine.

Definition unregister_notify_routines : M unit :=
  remove_process_routine ≫= fun _ =>
  remove_thread_routine ≫= fun _ =>
  remove_image_routine.

Definition DrvLoadSetupDriverLists : M NTSTATUS :=
  status ← on_drivers InitialiseDriverList;
  if negb (NT_SUCCESS status) then unregister_notify_routines ≫= fun _ => mret status
  else
    status ← on_callbacks InitialiseThreadList;
    if negb (NT_SUCCESS status) then
      unregister_notify_routines ≫= fun _ =>
      on_drivers CleanupDriverListOnDriverUnload ≫= fun _ => mret status
    else
      status ← on_callbacks InitialiseProcessList;
      if negb (NT_SUCCESS status) then
        unregister_notify_routines ≫= fun _ =>
        on_drivers CleanupDriverListOnDriverUnload ≫= fun _ =>
        on_callbacks CleanupThreadListOnDriverUnload ≫= fun _ => mret status
      else mret status.

(** The first status of [IrpQueueInitialise] is not looked at. *)
Definition initialise_fields : M unit :=
  on_apcs (modify (set_config_lock false)) ≫= fun _ =>
  _ ← on_requests (IrpQueueInitialise (IoCsqInitialize 0));
  on_handles (modify (set_config_mutex false)) ≫= fun _ =>
  on_apcs (modify (set_unloading false)) ≫= fun _ =>
  on_config (set_info (set_virtualised false)) ≫= fun _ =>
  modify (fun s => set_verification (set_validation_active false (verification s)) s).

Definition DrvLoadInitialiseDriverConfig (RegistryPath : string) : M NTSTATUS :=
  initialise_fields ≫= fun _ =>
  status ← on_config (DrvLoadRetrieveDriverNameFromRegistry RegistryPath);
  if negb (NT_SUCCESS status) then mret status
  else
    status ← on_config (DrvLoadGatherSystemEnvironmentSettings smbios_fuel);
    if negb (NT_SUCCESS status) then mret status
    else
      status ← on_core InitialiseTimerObject;
      if negb (NT_SUCCESS status) then mret status
      else on_requests (IrpQueueInitialise (IoCsqInitialize 1)).

(** ** Waiting

    [poll] until it says so; between two polls the other threads run, each time the
    next of [others]. *)
Fixpoint wait_for (poll : M bool) (others : list (M unit)) : M unit :=
  done ← poll;
  if done : bool then mret tt
  else match others with
       | [] => crash OutOfFuel
       | other :: others => other ≫= fun _ => wait_for poll others
       end.

(** The timer's cleanup as far as it gets, and a step of the timer. *)
Definition timer_poll : M bool :=
  name ← gets driver_name;
  on_core (fun s => match run name [Timer.Unload; Timer.Unload; Timer.Unload; Timer.Unload] s with
                    | Ok s => Ok (match unload s with Freed => true | _ => false end, s)
                    | Crash f => Crash f
                    end).
Definition timer_runs (l : list action) : M unit :=
  name ← gets driver_name;
  on_core (fun s => match run name l s with Ok s => Ok (tt, s) | Crash f => Crash f end).

Definition DrvUnloadFreeTimerObject (others : list (M unit)) : M unit := wait_for timer_poll others.

(** Whether the workers are done, in which case the rest of the cleanup runs. *)
Definition validation_poll : M bool := fun s =>
  if active_thread_count (ctx (verification s)) =? 0
  then v ← dispatcher_resume false (verification s); Ok (true, set_verification v s)
  else Ok (false, s).

Definition DrvUnloadFreeModuleValidationContext (others : list (M unit)) : M unit :=
  (fun s => v ← CleanupValidationContextOnUnload (verification s); Ok (tt, set_verification v s)) ≫= fun _ =>
  wait_for validation_poll others.

Definition DrvUnloadDeleteSymbolicLink : M unit := update_registered (set_link false).

(** ** Entry and unload *)

(** The failure paths after the configuration. *)
Definition undo_load (link : bool) (others : list (M unit)) : M unit :=
  on_config DrvUnloadFreeConfigStrings ≫= fun _ =>
  DrvUnloadFreeTimerObject others ≫= fun _ =>
  when link DrvUnloadDeleteSymbolicLink ≫= fun _ =>
  update_registered (set_device false).

Definition DriverEntry (RegistryPath : string) (others : list (M unit)) : M NTSTATUS :=
  on_core (modify (set_dispatch (Dispatch Timer.DeviceCreate Timer.DeviceClose Timer.DeviceControl))) ≫= fun _ =>
  '(status, _) ← lift (ImpResolveDynamicImports loader_fuel loader_memory DriverSection);
  if negb (NT_SUCCESS status) then mret STATUS_FAILED_DRIVER_ENTRY
  else if negb (NT_SUCCESS IoCreateDevice) then mret IoCreateDevice
  else
    update_registered (set_device true) ≫= fun _ =>
    status ← DrvLoadInitialiseDriverConfig RegistryPath;
    if negb (NT_SUCCESS status) then
      on_config DrvUnloadFreeConfigStrings ≫= fun _ =>
      update_registered (set_device false) ≫= fun _ => mret status
    else
      on_session SessionInitialiseStructure ≫= fun _ =>
      if negb (NT_SUCCESS IoCreateSymbolicLink) then
        undo_load false others ≫= fun _ => mret IoCreateSymbolicLink
      else
        update_registered (set_link true) ≫= fun _ =>
        status ← DrvLoadEnableNotifyRoutines;
        if negb (NT_SUCCESS status) then undo_load true others ≫= fun _ => mret status
        else
          status ← DrvLoadSetupDriverLists;
          if negb (NT_SUCCESS status) then undo_load true others ≫= fun _ => mret status
          else
            on_core (modify (set_loaded true)) ≫= fun _ => mret STATUS_SUCCESS.

(** What the other threads do while the unload waits for the APCs, for the timer and
    for the validation. *)
Definition DriverUnload (apcs timers workers : list (M unit)) : M unit :=
  on_apcs (modify (set_unloading true)) ≫= fun _ =>
  wait_for (on_apcs DrvUnloadFreeAllApcContextStructures) apcs ≫= fun _ =>
  DrvUnloadFreeTimerObject timers ≫= fun _ =>
  DrvUnloadFreeModuleValidationContext workers ≫= fun _ =>
  UnregisterProcessObCallbacks ≫= fun _ =>
  remove_thread_routine ≫= fun _ =>
  remove_process_routine ≫= fun _ =>
  remove_image_routine ≫= fun _ =>
  on_callbacks CleanupThreadListOnDriverUnload ≫= fun _ =>
  on_callbacks CleanupProcessListOnDriverUnload ≫= fun _ =>
  on_drivers CleanupDriverListOnDriverUnload ≫= fun _ =>
  on_config DrvUnloadFreeConfigStrings ≫= fun _ =>
  DrvUnloadDeleteSymbolicLink ≫= fun _ =>
  update_registered (set_device false).

End operations.

(** ** Specification *)

Section specification.
Context {LI LR : Type} `{!ListEntryApi LI Z} `{!ListEntryApi LR DEFERRED_REPORT}.
Context {P : Pool} {A : SystemApi} {V : HandleApi} {G : ListHeads} {L : Lookaside} {H : HashApi}.
Context {D : DriverApi} {T : TimerApi} {F : Firmware} {C : ProcessorApi} {FD : Disk.DiskApi} {R : ConfigApi}.
Context {VA : VerifyApi} {E : EntryApi}.
Abbreviation M := (KM (driver LI LR)).
Implicit Types s : driver LI LR.

(** The device, its link and the three notify routines. *)
Definition five (r : registrations) : bool * bool * bool * bool * bool :=
  (device r, symbolic_link r, load_image r, create_thread r, create_process r).

Definition all_registered : bool * bool * bool * bool * bool := (true, true, true, true, true).
Definition none_registered : bool * bool * bool * bool * bool := (false, false, false, false, false).

(** An operation takes what is registered from [v] to what [Post] says of its result. *)
Definition registers {X} (v : bool * bool * bool * bool * bool) (m : M X)
  (Post : X -> bool * bool * bool * bool * bool -> Prop) : Prop :=
  forall s x s', five (registered s) = v -> m s = Ok (x, s') -> Post x (five (registered s')).

(** An operation that registers nothing. *)
Definition calm {X} (m : M X) : Prop := forall s x s', m s = Ok (x, s') -> five (registered s') = five (registered s).

(** *** Rules *)

Lemma registers_bind {X Y} v w (m : M X) (k : X -> M Y) Post :
  registers v m (fun x u => w x u) -> (forall x u, w x u -> registers u (k x) Post) -> registers v (m ≫= k) Post.
Proof.
  intros Hm Hk s y s' Hv Hr. unfold mbind, KM_bind in Hr. destruct (m s) as [[x s1]|] eqn:Em; [|done].
  by eapply Hk; [eapply Hm| |].
Qed.

Lemma registers_calm {X Y} v (m : M X) (k : X -> M Y) Post :
  calm m -> (forall x, registers v (k x) Post) -> registers v (m ≫= k) Post.
Proof.
  intros Hm Hk. apply (registers_bind v (fun _ u => u = v)); [|by intros x ? ->].
  intros s x s' <- Hr. exact (Hm _ _ _ Hr).
Qed.

Lemma registers_ret {X} v (x : X) (Post : X -> bool * bool * bool * bool * bool -> Prop) :
  Post x v -> registers v (mret x : M X) Post.
Proof. by intros Hp s y s' <- [= <- <-]. Qed.

Lemma registers_update {Y} v f (k : unit -> M Y) Post :
  (forall r, five r = v -> registers (five (f r)) (k tt) Post) -> registers v (update_registered f ≫= k) Post.
Proof. intros Hk s y s' Hv Hr. erewrite KM_step in Hr by done. by eapply (Hk _ Hv); [|exact Hr]. Qed.

Lemma registers_last v f (Post : unit -> bool * bool * bool * bool * bool -> Prop) :
  (forall r, five r = v -> Post tt (five (f r))) -> registers v (update_registered f : M unit) Post.
Proof. by intros Hk s [] s' Hv [= <-]; apply Hk. Qed.


(** *** What registers nothing *)

Lemma calm_ret {X} (x : X) : calm (mret x : M X).
Proof. by intros s y s' [= <- <-]. Qed.
Lemma calm_bind {X Y} (m : M X) (k : X -> M Y) : calm m -> (forall x, calm (k x)) -> calm (m ≫= k).
Proof.
  intros Hm Hk s y s' Hr. unfold mbind, KM_bind in Hr. destruct (m s) as [[x s1]|] eqn:Em; [|done].
  rewrite (Hk _ _ _ _ Hr). by eapply Hm.
Qed.
Lemma calm_core {X} (m : KM tsys X) : calm (on_core m).
Proof. intros s x s'. unfold on_core. destruct (m _) as [[]|]; [|done]. by intros [= <- <-]. Qed.
Lemma calm_apcs {X} (m : KM apc_state X) : calm (on_apcs m).
Proof. intros s x s'. unfold on_apcs. destruct (m _) as [[]|]; [|done]. by intros [= <- <-]. Qed.
Lemma calm_requests {X} (m : KM (irp_state LI LR) X) : calm (on_requests m).
Proof. intros s x s'. unfold on_requests. destruct (m _) as [[]|]; [|done]. by intros [= <- <-]. Qed.
Lemma calm_config {X} (m : KM conf_state X) : calm (on_config m).
Proof. intros s x s'. unfold on_config. destruct (m _) as [[]|]; [|done]. by intros [= <- <-]. Qed.
Lemma calm_gets {X} (f : driver LI LR -> X) : calm (gets f).
Proof. by intros s x s' [= <- <-]. Qed.
Lemma calm_lift {X} (r : res X) : calm (lift r).
Proof. intros s x s'. unfold lift. destruct r; [|done]. by intros [= <- <-]. Qed.
Lemma calm_wait poll others : calm poll -> Forall calm others -> calm (wait_for poll others).
Proof.
  intros Hp Ho. induction Ho as [|o others Ho _ IH]; cbn [wait_for];
    (apply calm_bind; [done|]; intros []; [apply calm_ret|]); [done|by apply calm_bind].
Qed.
Lemma calm_timer_poll : calm timer_poll.
Proof. apply calm_bind; [apply calm_gets|]. intros name. apply calm_core. Qed.
Lemma calm_fields : calm initialise_fields.
Proof.
  unfold initialise_fields.
  repeat first [apply calm_bind; [|intros ?] | apply calm_apcs | apply calm_requests | apply calm_core
    | apply calm_config]. intros ? ? ?. by intros [= <- <-].
Qed.
Lemma calm_if {X} (b : bool) (m n : M X) : calm m -> calm n -> calm (if b then m else n).
Proof. by destruct b. Qed.
Lemma calm_configuration path : calm (DrvLoadInitialiseDriverConfig path).
Proof.
  unfold DrvLoadInitialiseDriverConfig. apply calm_bind; [apply calm_fields|]. intros _.
  repeat first [apply calm_if | apply calm_ret | apply calm_requests | apply calm_bind; [|intros ?]
    | apply calm_config | apply calm_core].
Qed.

(** *** Loading *)

(** The outcome of a stage: on failure what is left, on success what is there. *)
Definition either (failed done : bool * bool * bool * bool * bool) (st : NTSTATUS)
  (u : bool * bool * bool * bool * bool) : Prop := u = if NT_SUCCESS st then done else failed.

(** Registering or removing one of the five. *)
Ltac registered :=
  lazymatch goal with
  | |- registers _ (update_registered _ ≫= _) _ => apply registers_update
  | |- registers _ (update_registered _) _ => apply registers_last
  end;
  let Ha := fresh in let Hb := fresh in let Hc := fresh in let Hd := fresh in let He := fresh in
  intros ?; unfold five; cbn; intros [= Ha Hb Hc Hd He]; rewrite ?Ha, ?Hb, ?Hc, ?Hd, ?He; clear Ha Hb Hc Hd He.

(** The end of a path whose status is known. *)
Ltac outcome := apply registers_ret; unfold either; repeat match goal with Hs : NT_SUCCESS _ = _ |- _ => rewrite Hs end; reflexivity.

Lemma notify_routines_register :
  registers (true, true, false, false, false) DrvLoadEnableNotifyRoutines
    (either (true, true, false, false, false) all_registered).
Proof.
  unfold DrvLoadEnableNotifyRoutines.
  destruct (NT_SUCCESS PsSetLoadImageNotifyRoutine) eqn:E1; cbn [negb]; [|outcome]. registered.
  destruct (NT_SUCCESS PsSetCreateThreadNotifyRoutine) eqn:E2; cbn [negb]; [|registered; outcome]. registered.
  destruct (NT_SUCCESS PsSetCreateProcessNotifyRoutine) eqn:E3; cbn [negb]; [|do 2 registered; outcome].
  registered. outcome.
Qed.

Lemma removed_routines {Y} (k : unit -> M Y) Post :
  registers (true, true, false, false, false) (k tt) Post ->
  registers all_registered (unregister_notify_routines ≫= k) Post.
Proof.
  intros Hk. apply (registers_bind _ (fun _ u => u = (true, true, false, false, false))).
  2: { by intros [] ? ->. }
  unfold unregister_notify_routines, remove_process_routine, remove_thread_routine, remove_image_routine.
  apply (registers_bind _ (fun _ u => u = (true, true, true, true, false))).
  { apply registers_calm; [apply calm_core|]. intros _. by registered. }
  intros _ ? ->. apply (registers_bind _ (fun _ u => u = (true, true, true, false, false))).
  { apply registers_calm; [apply calm_core|]. intros _. by registered. }
  intros _ ? ->. apply registers_calm; [apply calm_core|]. intros _. by registered.
Qed.

Lemma lists_registered :
  registers all_registered DrvLoadSetupDriverLists (either (true, true, false, false, false) all_registered).
Proof.
  unfold DrvLoadSetupDriverLists. apply registers_calm; [apply calm_core|]. intros st1.
  destruct (NT_SUCCESS st1) eqn:E1; cbn [negb]; [|apply removed_routines; outcome].
  apply registers_calm; [apply calm_core|]. intros st2. destruct (NT_SUCCESS st2) eqn:E2; cbn [negb].
  2: { apply removed_routines, registers_calm; [apply calm_core|]. intros _. outcome. }
  apply registers_calm; [apply calm_core|]. intros st3. destruct (NT_SUCCESS st3) eqn:E3; cbn [negb]; [outcome|].
  apply removed_routines, registers_calm; [apply calm_core|]. intros _.
  apply registers_calm; [apply calm_core|]. intros _. outcome.
Qed.

Lemma undone link others status :
  Forall calm others -> NT_SUCCESS status = false ->
  registers (true, link, false, false, false) (undo_load link others ≫= fun _ => mret status)
    (either none_registered all_registered).
Proof.
  intros Ho Hs. apply (registers_bind _ (fun _ u => u = none_registered)).
  2: { intros _ ? ->. outcome. }
  unfold undo_load. apply registers_calm; [apply calm_config|]. intros _.
  apply registers_calm; [by apply calm_wait; [apply calm_timer_poll|]|]. intros _. destruct link; cbn [when].
  - unfold DrvUnloadDeleteSymbolicLink. registered. by registered.
  - apply registers_calm; [apply calm_ret|]. intros _. by registered.
Qed.


(** *** The parts of the state *)

Definition lists_of s : lstate drv_ext := lists (core s).
Definition put_lists (l : lstate drv_ext) s : driver LI LR := set_core (Timer.set_lists l (core s)) s.

(** The process and thread lists with the resources. *)
Definition tracked_of s : lstate cb_ext :=
  let l := lists_of s in LState (next l) (Lists.held l) (frees l) (cb (ext l)).
Definition put_tracked (c : lstate cb_ext) s : driver LI LR :=
  put_lists (LState (next c) (Lists.held c) (frees c) (set_cb (ext c) (ext (lists_of s)))) s.

Definition put_apcs (a : apc_state) s : driver LI LR :=
  let p := apc_part s in
  set_apc_part (ApcSide a (side_module_lists p) (side_misc_flags p) (side_apc_queue p) (side_block_requests p)) s.

Definition conf_of s : conf_state :=
  let p := config_part s in
  ConfState (kernel_of s) (processor_ s) (side_strings p) (side_blocks p) (side_info p).
Definition put_conf (t : conf_state) s : driver LI LR :=
  set_config_part (ConfigSide (strings_ t) (blocks t) (info t)) (set_processor_ (cpu t) (set_kernel (ckern t) s)).

Lemma on_core_ok {X} (m : KM tsys X) s x c : m (core s) = Ok (x, c) -> on_core m s = Ok (x, set_core c s).
Proof. unfold on_core. by intros ->. Qed.
Lemma on_drivers_ok {X} (m : KM (lstate drv_ext) X) s x l :
  m (lists_of s) = Ok (x, l) -> on_drivers m s = Ok (x, put_lists l s).
Proof. intros Hm. apply on_core_ok. unfold in_lists. unfold lists_of in Hm. by rewrite Hm. Qed.
Lemma on_callbacks_ok {X} (m : KM (lstate cb_ext) X) s x c :
  m (tracked_of s) = Ok (x, c) -> on_callbacks m s = Ok (x, put_tracked c s).
Proof. intros Hm. apply on_drivers_ok. unfold on_cb. unfold tracked_of in Hm. by rewrite Hm. Qed.
Lemma lift_apcs_ok {X} (m : KM apc_state X) s x a :
  m (apcs_of s) = Ok (x, a) -> on_apcs m s = Ok (x, put_apcs a s).
Proof. unfold on_apcs, apcs_of. by intros ->. Qed.
Lemma on_config_ok {X} (m : KM conf_state X) s x t :
  m (conf_of s) = Ok (x, t) -> on_config m s = Ok (x, put_conf t s).
Proof. unfold on_config, conf_of. by intros ->. Qed.

(** *** The waits of the unload, with nothing to wait for *)

Lemma free_apcs_ok (a : apc_state) :
  Forall (fun p => p = 0) (apc_contexts a) -> config_lock a = false ->
  DrvUnloadFreeAllApcContextStructures a = Ok (true, a).
Proof.
  intros Hz Hl. destruct a as [aa ac cs ms pl lk un]. cbn in Hz, Hl. subst lk.
  unfold DrvUnloadFreeAllApcContextStructures. erewrite KM_step by done. erewrite KM_step by done. cbn [apc_contexts].
  assert (forall l (b : apc_state), Forall (fun p => p = 0) l ->
    unload_loop l b = (ReleaseDriverConfigLock ≫= fun _ => mret true) b) as Hloop.
  { intros l b Hl'. by induction Hl' as [|p l -> _ IH]. }
  by rewrite Hloop.
Qed.

(** Nothing of the timer is under way. *)
Record timer_idle (t : tsys) : Prop := {
  id_phase : unload t = Loaded;
  id_dpc : dpc_queued t = false;
  id_state : timer_state t = false;
  id_queued : Timer.queued t = false;
}.

Lemma idle_cleanup name t h :
  timer_idle t -> Kernel.held (ModuleHash.kern (lists t)) = h ⊎ {[+ WorkItem (timer_work_item t) +]} ->
  run name [Timer.Unload; Timer.Unload; Timer.Unload; Timer.Unload] t
  = Ok (Timer.set_lists (ModuleHash.set_kern (set_held h (ModuleHash.kern (lists t))) (lists t)) (set_phase Freed (set_armed false t))).
Proof.
  intros [Hu Hd Hs Hq] Hh. cbn [run tstep]. unfold CleanupDriverTimerObjects at 1. rewrite Hu, Hd.
  cbn [unload set_phase]. unfold CleanupDriverTimerObjects at 1. cbn [unload set_phase timer_state]. rewrite Hs.
  cbn [unload set_phase]. unfold CleanupDriverTimerObjects at 1. cbn [unload set_phase].
  unfold CleanupDriverTimerObjects at 1. cbn [unload set_phase set_armed]. unfold IoFreeWorkItem.
  cbn [Timer.queued set_phase set_armed]. rewrite Hq. unfold in_lists. cbn [lists set_phase set_armed timer_work_item].
  rewrite (in_kernel_ok _ (lists t) tt (set_held h (ModuleHash.kern (lists t)))); [|by apply release_last].
  done.
Qed.

Lemma timer_freed s h :
  timer_idle (core s) -> Kernel.held (kernel_of s) = h ⊎ {[+ WorkItem (timer_work_item (core s)) +]} ->
  DrvUnloadFreeTimerObject [] s
  = Ok (tt, set_core (Timer.set_lists (ModuleHash.set_kern (set_held h (kernel_of s)) (lists_of s))
                        (set_phase Freed (set_armed false (core s)))) s).
Proof.
  intros Hi Hh. unfold DrvUnloadFreeTimerObject. cbn [wait_for]. erewrite KM_step.
  2: { unfold timer_poll. erewrite KM_step by done. apply on_core_ok. by rewrite (idle_cleanup _ _ h). }
  done.
Qed.

Lemma existsb_false {X} (f : X -> bool) l : (forall x, x ∈ l -> f x = false) -> existsb f l = false.
Proof.
  induction l as [|x l IH]; intros Hf; [done|]. cbn. rewrite Hf by (by left). apply IH.
  intros y Hy. apply Hf. by right.
Qed.

(** No worker of the validation is active. *)
Record validation_idle (v : vstate) : Prop := {
  vi_queue : Verification.queued v = [];
  vi_threads : active_thread_count (ctx v) = 0;
}.

Lemma validation_freed s :
  validation_idle (verification s) ->
  exists v, DrvUnloadFreeModuleValidationContext [] s = Ok (tt, set_verification v s).
Proof.
  intros [Hq Ht]. unfold DrvUnloadFreeModuleValidationContext.
  set (v := set_ctx (set_flags false true (ctx (verification s))) (verification s)).
  assert (FreeWorkItems v = Ok (set_ctx (set_items (replicate VERIFICATION_THREAD_COUNT 0) (ctx v)) v)) as Hf.
  { unfold FreeWorkItems. rewrite existsb_false; [done|]. intros i _. change (Verification.queued v) with
      (Verification.queued (verification s)). rewrite Hq. by rewrite bool_decide_eq_false_2, andb_false_r by set_solver. }
  eexists. erewrite KM_step.
  2: { unfold CleanupValidationContextOnUnload. fold v. by rewrite Hf. }
  cbn [wait_for]. erewrite KM_step.
  2: { unfold validation_poll. cbn. by rewrite Ht. }
  done.
Qed.



(** *** The lists *)

(** The three lists: [a] is tracked at [pl] and [tl], the driver entries are at [dl]. *)
Record listed (s0 : h_state) s (a : tracked) (pl tl dl : list Z) : Prop := {
  li_tracked : represents s0 (tracked_of s) a pl tl;
  li_drivers : slist (next (lists_of s)) driver_head dl;
  li_lock : driver_lock ∉ Lists.held (lists_of s);
  li_apart x : x ∈ driver_head :: dl -> x ∉ process_head :: pl /\ x ∉ thread_head :: tl;
}.

(** The lists are empty. *)
Definition emptied s : Prop :=
  let nx := next (lists_of s) in
  slist nx process_head [] /\ slist nx thread_head [] /\ slist nx driver_head [].

Lemma bind_inv {S X Y} (m : KM S X) (k : X -> KM S Y) (st st' : S) y :
  (m ≫= k) st = Ok (y, st') -> exists x st1, m st = Ok (x, st1) /\ k x st1 = Ok (y, st').
Proof. unfold mbind, KM_bind. destruct (m st) as [[x st1]|]; [|done]. eauto. Qed.

(** The lists [process_active] and [thread_active] say of, and what is registered. *)
Definition mark (f : cb_ext -> cb_ext) (g : registrations -> registrations) s : driver LI LR :=
  set_registered (g (registered s)) (put_tracked (set_ext (f (ext (tracked_of s))) (tracked_of s)) s).

Definition inactive_thread (x : cb_ext) : cb_ext := set_active (process_active x) false x.
Definition inactive_process (x : cb_ext) : cb_ext := set_active false (thread_active x) x.

Definition image_removed s : driver LI LR :=
  set_registered (set_load_image false (registered s))
    (put_lists (set_ext (set_driver_active false (ext (lists_of s))) (lists_of s)) s).

Lemma remove_thread_ok s :
  remove_thread_routine s = Ok (tt, mark inactive_thread (set_create_thread false) s).
Proof. done. Qed.
Lemma remove_process_ok s :
  remove_process_routine s = Ok (tt, mark inactive_process (set_create_process false) s).
Proof. done. Qed.
Lemma remove_image_ok s : remove_image_routine s = Ok (tt, image_removed s).
Proof. done. Qed.

Lemma lists_freed (s0 : h_state) s a pl tl dl {X} (k : M X) :
  listed s0 s a pl tl dl ->
  exists s', (remove_thread_routine ≫= fun _ => remove_process_routine ≫= fun _ => remove_image_routine ≫= fun _ =>
      on_callbacks CleanupThreadListOnDriverUnload ≫= fun _ =>
      on_callbacks CleanupProcessListOnDriverUnload ≫= fun _ =>
      on_drivers CleanupDriverListOnDriverUnload ≫= fun _ => k) s = k s' /\
    emptied s' /\ kernel_of s' = hkern (with_refs (leaked a) s0) /\ config_part s' = config_part s /\
    registered s' = set_load_image false (set_create_process false (set_create_thread false (registered s))).
Proof.
  intros [Hr Hd Hl Ha].
  destruct (unload_frame_spec s0 _ a pl tl Hr) as (nx & H1 & Hp & Ht & Hnx). unfold unload_lists in H1.
  erewrite KM_step in H1 by done. erewrite KM_step in H1 by done.
  apply bind_inv in H1 as ([] & [nx3 hl3 fr3 ex3] & E3 & E4). set (c3 := LState nx3 hl3 fr3 ex3) in *.
  rewrite (KM_step _ _ _ _ _ (remove_thread_ok s)), (KM_step _ _ _ _ _ (remove_process_ok _)),
    (KM_step _ _ _ _ _ (remove_image_ok _)).
  set (s1 := image_removed _).
  rewrite (KM_step _ _ _ _ _ (on_callbacks_ok _ s1 _ _ E3)).
  rewrite (KM_step _ _ _ _ _ (on_callbacks_ok _ (put_tracked c3 s1) _ _ E4)).
  match goal with |- context [put_tracked ?c (put_tracked c3 s1)] => set (s2 := put_tracked c (put_tracked c3 s1)) end.
  assert (slist (next (lists_of s2)) driver_head dl) as Hd2.
  { destruct Hd as [Hc Hn Hz]. split; [|done..]. eapply chain_agree; [exact Hc|]. intros x Hx. cbn.
    destruct (Ha x Hx). by apply Hnx. }
  destruct (free_all_spec (ByTag POOL_TAG_THREAD_LIST) driver_head driver_lock None dl
    (base.size (next (lists_of s2))) (lists_of s2)) as (nx4 & H3 & Hs3 & _ & Hnx3).
  { done. }
  { exact Hl. }
  { destruct Hd2. by eapply chain_length. }
  erewrite KM_step.
  2: { apply on_drivers_ok. unfold CleanupDriverListOnDriverUnload. erewrite KM_step by done. exact H3. }
  eexists. split; [done|]. split_and!; try done.
  - split_and!; [| |exact Hs3]; cbn in Hnx3.
    + destruct Hp as [Hc Hn Hz]. split; try done. cbn in *.  rewrite Hnx3; [done|]. intros Hx.
      destruct (Ha _ Hx) as [Hx' _]. apply Hx'. by left.
    + destruct Ht as [Hc Hn Hz]. split; try done. cbn in *. rewrite Hnx3; [done|]. intros Hx.
      destruct (Ha _ Hx) as [_ Hx']. apply Hx'. by left.
Qed.


(** *** Unloading *)

(** The three blocks of the strings. *)
Definition string_blocks (c : config_strings) : gmultiset resource :=
  {[+ Block (Buffer (unicode_driver_name c)) POOL_TAG_STRINGS; Block (Buffer (driver_path c)) POOL_TAG_STRINGS;
      StringBuffer (ansi_driver_name c).1 +]}.

(** A loaded driver with nothing outstanding: no APC context, timer event or worker;
    it holds [h], its strings, the timer's work item and the references of [a]. *)
Record unloadable (s0 : h_state) s (a : tracked) (pl tl dl : list Z) (h : gmultiset resource) : Prop := {
  ud_apcs : Forall (fun p => p = 0) (apc_contexts (apcs_of s));
  ud_lock : config_lock (apcs_of s) = false;
  ud_timer : timer_idle (core s);
  ud_workers : validation_idle (verification s);
  ud_handle : handle_registered s;
  ud_lists : listed s0 s a pl tl dl;
  ud_held : Kernel.held (hkern s0)
    = h ⊎ string_blocks (side_strings (config_part s)) ⊎ {[+ WorkItem (timer_work_item (core s)) +]};
  ud_buffers : let c := side_strings (config_part s) in
    Buffer (unicode_driver_name c) <> 0 /\ Buffer (driver_path c) <> 0 /\ (ansi_driver_name c).1 <> 0;
}.

(** The resources of the system state replaced. *)
Definition with_system (x : session_state) (k : gmultiset resource) (s0 : h_state) : h_state :=
  HState x (set_held k (hkern s0)) (tables s0) (config_mutex s0).

Lemma listed_system (s0 s1 : h_state) s s' a pl tl dl :
  listed s0 s a pl tl dl ->
  lists_of s' = LState (next (lists_of s)) (Lists.held (lists_of s)) (frees (lists_of s))
    (set_cb (set_sys (with_refs (entry_refs a ⊎ leaked a) s1) (cb (ext (lists_of s)))) (ext (lists_of s))) ->
  listed s1 s' a pl tl dl.
Proof.
  intros [[] Hd Hl Ha] E'. split; rewrite ?E'; try done. unfold tracked_of. rewrite E'. by split.
Qed.

Lemma strings_freed s h :
  (let c := side_strings (config_part s) in
    Buffer (unicode_driver_name c) <> 0 /\ Buffer (driver_path c) <> 0 /\ (ansi_driver_name c).1 <> 0) ->
  Kernel.held (kernel_of s) = h ⊎ string_blocks (side_strings (config_part s)) ->
  exists t, on_config DrvUnloadFreeConfigStrings s = Ok (tt, put_conf t s) /\ Kernel.held (ckern t) = h.
Proof.
  intros (Hq & Hp & Hb) Hh. destruct (free_strings_ok (conf_of s) _ _ _ h eq_refl eq_refl eq_refl Hq Hp Hb) as (t & H1 & Ht).
  { exact Hh. }
  exists t. split; [|done]. by apply on_config_ok.
Qed.

Lemma lists_with_session l n f s :
  let h := sys (cb (ext (lists_of s))) in
  lists_of (with_callbacks l n (with_session f s))
  = LState (next (lists_of s)) (Lists.held (lists_of s)) (frees (lists_of s))
      (set_cb (set_sys (HState
         (SessionState (f (session (hsession h))) (session_lock (hsession h)) (Session.references (hsession h))
            (Session.terminated (hsession h))) (hkern h) (tables h) (config_mutex h))
         (cb (ext (lists_of s)))) (ext (lists_of s))).
Proof. done. Qed.



(** *** The configuration *)

(** The fields set at the start of the configuration. *)
Lemma fields_ok s :
  exists s', initialise_fields s = Ok (tt, s') /\ kernel_of s' = kernel_of s /\
    processor_ s' = processor_ s /\ registered s' = registered s /\
    config_part s' = ConfigSide (side_strings (config_part s)) (side_blocks (config_part s))
      (set_virtualised false (side_info (config_part s))).
Proof.
  unfold initialise_fields. erewrite KM_step by (by apply lift_apcs_ok).
  erewrite KM_step by (by apply on_requests_ok). erewrite KM_step.
  2: { unfold on_handles. by apply on_callbacks_ok. }
  erewrite KM_step by (by apply lift_apcs_ok). erewrite KM_step by (by apply on_config_ok).
  eexists. split; [reflexivity|]. split_and!; reflexivity.
Qed.

(** A registry with the path [ipath] and the name [name] for the driver's key, and a
    machine whose settings can be gathered. *)
Record configurable (key : string) (ipath name : list Z) (buf : Z) (ansi : list Z)
  (xs : list structure) (bios board : structure) (v : list Z) (more : list (list Z)) (offset : Z) (sn dn : list Z)
  s : Prop := {
  co_machine : machine smbios_fuel xs bios board v more offset sn dn;
  co_info : blank (side_info (config_part s));
  co_kernel : kernel_wf (kernel_of s);
  co_pool n : pool_grants n = true;
  co_name : Forall (fun c => 0 < c < 128) name /\ zlen (wide name) + 22 < 2 ^ 16 /\ zlen ipath < 2 ^ 16;
  co_values : registry_values key = [("ImagePath"%string, ipath); ("DisplayName"%string, wide name ++ [0; 0])];
  co_status : registry_status key = STATUS_SUCCESS;
  co_ansi : unicode_to_ansi (wide (sys_name name)) = (STATUS_SUCCESS, buf, ansi);
  co_item : IoAllocateWorkItem <> 0;
}.

Lemma configuration_ok {CL : ConfigLaws} {DL : DiskLaws FD} key ipath name buf ansi xs bios board v more offset sn dn s :
  configurable key ipath name buf ansi xs bios board v more offset sn dn s ->
  exists s' p q, DrvLoadInitialiseDriverConfig key s = Ok (IoCsqInitialize 1, s') /\
    armed (core s') = true /\ timer_work_item (core s') = IoAllocateWorkItem /\
    side_strings (config_part s') = named_strings p q buf ipath name /\ p <> 0 /\ q <> 0 /\ buf <> 0 /\
    motherboard_serial (side_info (config_part s')) = sn /\ drive_0_serial (side_info (config_part s')) = dn /\
    Kernel.held (kernel_of s') = Kernel.held (kernel_of s) ⊎ string_blocks (side_strings (config_part s'))
      ⊎ {[+ WorkItem IoAllocateWorkItem +]} /\
    registered s' = registered s.
Proof.
  intros [Hm Hi Hk Hg (Hn & Hl & Hp) Hv Hst Hu Hw]. unfold DrvLoadInitialiseDriverConfig.
  destruct (fields_ok s) as (s1 & H1 & K1 & P1 & R1 & C1). rewrite (KM_step _ _ _ _ _ H1).
  destruct (driver_name_spec (conf_of s1) key ipath name buf ansi) as (p & q & k & H2 & W2 & Hpq & Hb & Hh2); try done.
  { cbn. by rewrite K1. }
  rewrite (KM_step _ _ _ _ _ (on_config_ok _ s1 _ _ H2)). change (negb (NT_SUCCESS STATUS_SUCCESS)) with false. cbn iota.
  set (s2 := put_conf _ s1).
  destruct (gather_spec smbios_fuel xs bios board v more offset sn dn (conf_of s2) Hm) as
    (k3 & c3 & i3 & H3 & W3 & Hh3 & _ & Hsn & Hdn & _); [|exact W2|exact Hg|].
  { cbn. rewrite C1. exact Hi. }
  rewrite (KM_step _ _ _ _ _ (on_config_ok _ s2 _ _ H3)). change (negb (NT_SUCCESS STATUS_SUCCESS)) with false. cbn iota.
  set (s3 := put_conf _ s2).
  assert (exists c, InitialiseTimerObject (core s3) = Ok (STATUS_SUCCESS, c) /\ armed c = true /\
    timer_work_item c = IoAllocateWorkItem /\
    ModuleHash.kern (lists c) = set_held (Kernel.held k3 ⊎ {[+ WorkItem IoAllocateWorkItem +]}) k3)
    as (c & H4 & A4 & T4 & K4).
  { unfold InitialiseTimerObject. erewrite KM_step by done. rewrite (proj2 (Z.eqb_neq _ 0)) by done. by eexists. }
  rewrite (KM_step _ _ _ _ _ (on_core_ok _ s3 _ _ H4)). change (negb (NT_SUCCESS STATUS_SUCCESS)) with false. cbn iota.
  eexists _, p, q. split; [by apply on_requests_ok|].
  split; [exact A4|]. split; [exact T4|]. split; [done|]. split_and!; try done; try lia.
  change (kernel_of _) with (ModuleHash.kern (lists c)) at 1. rewrite K4. cbn [Kernel.held set_held].
  change (Kernel.held k3 = Kernel.held k) in Hh3. rewrite Hh3, Hh2. cbn [ckern conf_of]. rewrite K1.
  match goal with |- context [string_blocks ?c] => change (string_blocks c) with (string_blocks (named_strings p q buf ipath name)) end.
  unfold string_blocks. cbn [unicode_driver_name driver_path ansi_driver_name named_strings Buffer fst].
  clear. multiset_solver.
Qed.

(** C40: the timer of a load that failed.  When the request queue cannot be initialised
    after the timer has been armed, [DriverEntry] gives the strings back and deletes the
    device, but the timer, which lies in the device's extension, stays armed and its
    work item allocated. *)
Theorem failed_load_leaves_timer {CL : ConfigLaws} {DL : DiskLaws FD} key ipath name buf ansi xs bios board v more
  offset sn dn others s imports :
  configurable key ipath name buf ansi xs bios board v more offset sn dn s ->
  ImpResolveDynamicImports loader_fuel loader_memory DriverSection = Ok (STATUS_SUCCESS, imports) ->
  NT_SUCCESS IoCreateDevice = true -> NT_SUCCESS (IoCsqInitialize 1) = false ->
  five (registered s) = none_registered ->
  exists s', DriverEntry key others s = Ok (IoCsqInitialize 1, s') /\ five (registered s') = none_registered /\
    armed (core s') = true /\ timer_work_item (core s') = IoAllocateWorkItem /\
    Kernel.held (kernel_of s') = Kernel.held (kernel_of s) ⊎ {[+ WorkItem IoAllocateWorkItem +]}.
Proof.
  intros Hc Him Hd Hq H0. unfold DriverEntry. erewrite KM_step by done. rewrite Him, lift_step.
  change (negb (NT_SUCCESS STATUS_SUCCESS)) with false. cbn iota beta. rewrite Hd. cbn [negb]. erewrite KM_step by done.
  match goal with |- context [(DrvLoadInitialiseDriverConfig key ≫= _) ?x] => set (s1 := x) end.
  destruct (configuration_ok key ipath name buf ansi xs bios board v more offset sn dn s1) as
    (s2 & p & q & H2 & A2 & T2 & S2 & Hp & Hq' & Hb & _ & _ & Hh & R2).
  { by destruct Hc; split. }
  rewrite (KM_step _ _ _ _ _ H2), Hq. cbn [negb].
  destruct (strings_freed s2 (Kernel.held (kernel_of s) ⊎ {[+ WorkItem IoAllocateWorkItem +]})) as (t & H3 & Hk3).
  { rewrite S2. by split_and!. }
  { rewrite Hh. change (kernel_of s1) with (kernel_of s). clear. multiset_solver. }
  rewrite (KM_step _ _ _ _ _ H3). erewrite KM_step by done. eexists. split; [done|].
  split; [|by split_and!]. unfold five in *. cbn. rewrite R2. cbn. by injection H0 as _ -> -> -> ->.
Qed.

End specification.

(** ** Witnesses *)

Section witnesses.

(** A BIOS structure and a board with four strings. *)
Definition native_bios : structure := Structure 0 [0; 0] [bytes_of_string "Acme"; [65]].
Definition native_board : structure := Structure 2 [0; 0] [[65]; [66]; [67]; [68; 69]; [70]].

#[local] Instance native_firmware : Firmware := {
  required_size := 64;
  firmware_buffer := 4096;
  second_call := STATUS_SUCCESS;
  firmware_memory := mem_of 4104 (table_bytes [native_bios; native_board]);
}.

(** The second initialisation of the request queue fails, or the device cannot be
    created. *)
Definition refusing_kernel (device : bool) : EntryApi := {|
  IoCreateDevice := if device then STATUS_SUCCESS else STATUS_UNSUCCESSFUL;
  IoCsqInitialize := fun n => match n with O => STATUS_SUCCESS | _ => STATUS_UNSUCCESSFUL end;
  IoCreateSymbolicLink := STATUS_SUCCESS;
  PsSetLoadImageNotifyRoutine := STATUS_SUCCESS;
  PsSetCreateThreadNotifyRoutine := STATUS_SUCCESS;
  PsSetCreateProcessNotifyRoutine := STATUS_SUCCESS;
  loader_memory := sample_memory NT_IMPORTS;
  DriverSection := 0x1000;
  loader_fuel := 2;
  smbios_fuel := 64;
|}.

#[local] Existing Instances always_grants sample_heads sample_lookaside sample_hash sample_driver_api timer_api
  slow_allocation Disk.sample_disk sample_registry sample_registry_laws sample_handles one.
#[local] Instance entry_modules : SystemApi := sample_api (fun _ => 0).

Abbreviation sample_driver := (driver (list Z) (list DEFERRED_REPORT)).

(** The zeroed extension before the load. *)
Definition before_load : sample_driver :=
  set_registered (Registrations false false false false false [] 0 [] 0)
    (sample_driver_state closed_session [] zero_mapping idle_kernel).

Lemma sample_imports :
  exists imports, ImpResolveDynamicImports 2 (sample_memory NT_IMPORTS) 0x1000 = Ok (STATUS_SUCCESS, imports).
Proof.
  assert (match ImpResolveDynamicImports 2 (sample_memory NT_IMPORTS) 0x1000 with
          | Ok (st, _) => st =? STATUS_SUCCESS | Crash _ => false end = true) as Hs by (by vm_compute).
  destruct (ImpResolveDynamicImports _ _ _) as [[st imports]|]; [|done]. apply Z.eqb_eq in Hs as ->. by eexists.
Qed.


Lemma native_machine :
  machine 64 [native_bios; native_board] native_bios native_board (bytes_of_string "Acme") [[65]] 40
    ([68; 69; 0] ++ replicate 61 0) ([65; 66; 0] ++ replicate 61 0).
Proof.
  split; try done.
  - by left.
  - split; try done.
    + repeat constructor; try done; cbn; lia.
    + exact (bytes_at_mem_of 4104 (table_bytes [native_bios; native_board])).
  - split; vm_compute; lia.
  - split; [|done]. split; [discriminate|repeat constructor; discriminate].
Qed.

Lemma failed_load_leaves_timer_witness :
  exists s', DriverEntry (E := refusing_kernel true) (FD := Disk.sample_disk) "key" [] before_load = Ok (STATUS_UNSUCCESSFUL, s') /\
    five (registered s') = none_registered /\ armed (core s') = true /\
    Kernel.held (kernel_of s') = ∅ ⊎ {[+ WorkItem 0x99 +]}.
Proof.
  destruct sample_imports as [imports Hi].
  destruct (failed_load_leaves_timer (E := refusing_kernel true) (FD := Disk.sample_disk) (DL := ltac:(done)) "key" [92; 0; 0; 0] [97; 99] 0x9000
    (sys_name [97; 99]) [native_bios; native_board] native_bios native_board (bytes_of_string "Acme") [[65]] 40
    ([68; 69; 0] ++ replicate 61 0) ([65; 66; 0] ++ replicate 61 0) [] before_load imports)
    as (s' & H1 & H2 & H3 & _ & H4).
  - split.
    + exact native_machine.
    + split_and!; reflexivity.
    + unfold kernel_wf. cbn. lia.
    + reflexivity.
    + split; [repeat constructor; lia|split; reflexivity].
    + reflexivity.
    + reflexivity.
    + reflexivity.
    + discriminate.
  - exact Hi.
  - reflexivity.
  - reflexivity.
  - reflexivity.
  - exists s'. split; [exact H1|]. split; [exact H2|]. split; [exact H3|exact H4].
Defined.

Definition loaded_strings : config_strings :=
  ConfigStrings (UnicodeString 0x2000 30 30) (0x9000, sys_name [97; 99]) (UnicodeString 0x1000 4 4).

Definition own_state : h_state :=
  with_system
    (SessionState (Session true 44 44 0xffff800000044000 0x800 0xabcd (replicate 16 7) 0 0 0) false [] [])
    (∅ ⊎ string_blocks loaded_strings ⊎ {[+ WorkItem 0x99 +]}) guarded_state.

(** A loaded driver: one process, one thread and one module are listed, a session has
    registered the object callbacks, and the timer is armed. *)
Definition loaded_driver : sample_driver :=
  Driver
    (TSys (LState {[0x100 := 0x300; 0x300 := 0; 0x200 := 0x400; 0x400 := 0; 0x600 := 0x700; 0x700 := 0]} ∅ []
            (DrvExt (CbExt (with_refs (entry_refs sample_tracked ⊎ leaked sample_tracked) own_state)
                      {[0x300 := ProcessEntry 8 4]} {[0x400 := ThreadEntry 0x700 8 false 0]} true true false 0 2 [])
               {[0x700 := sample_driver_entry 7]} true [] 0x77 0))
       (Dispatch 0x7001 0x7002 0x7003) true false 0x99 true false false false Loaded [])
    (ApcSide (ApcState 0x5000 (replicate 10 0) ∅ ∅ ∅ false false) ∅ ∅ [] 0)
    idle_processor (MappingSide zero_mapping 0 []) (IrpState [] 0 [] 0 false ∅ [] ∅ 0 0) idle
    (ConfigSide loaded_strings ∅ zero_information)
    (Registrations true true true true true [0x800] 1 [] 0).

Lemma loaded_unloadable :
  unloadable own_state loaded_driver sample_tracked [0x300] [0x400] [0x700] ∅.
Proof.
  split; [by repeat constructor|reflexivity|by split|by split|intros _; by left| |reflexivity|by split_and!].
  split.
  - split; [..|reflexivity|reflexivity].
    + split; [by vm_compute|repeat constructor; set_solver|done].
    + split; [by vm_compute|repeat constructor; set_solver|done].
    + intros x. cbn. rewrite !elem_of_cons, !elem_of_nil. intros [->|[->|[]]]; intuition congruence.
    + by repeat constructor.
    + by repeat constructor.
    + set_solver.
    + set_solver.
    + reflexivity.
    + reflexivity.
  - split; [by vm_compute|repeat constructor; set_solver|done].
  - set_solver.
  - intros x. cbn. rewrite !elem_of_cons, !elem_of_nil. intros [->|[->|[]]]; intuition congruence.
Qed.


End witnesses.
