(* ===== verification/Client.v ===== *)
(** * module/kernel_interface, module/helper.cpp: the client's requests and reports

    The client keeps [EVENT_COUNT] requests with the driver, each with a buffer of its
    own.  A completion port hands the completed ones to the threads that run
    [run_completion_port]: a thread prints the report in the buffer, frees the event and
    sends a request again.  This file has the pool of events, the requests the client
    sends and the printing of a report; ClientProtocol.v runs them together with the
    driver's queue.  The client declares the structures and codes a second time; they
    are compared with the driver's here.

    [&it->overlapped] identifies an event, and so does its buffer: both are the index of
    the event, since the vector is filled before the first request is sent. *)

From S2P Require Import Prelude Layout Structs Irp Dispatch.

(** ** Constants and structures *)

Definition EVENT_COUNT : nat := 5.
Definition MAXIMUM_REPORT_BUFFER_SIZE : Z := 1000.
Definition SHARED_STATE_OPERATION_COUNT : Z := 9.

Inductive report_id :=
  | report_nmi_callback_failure
  | report_module_validation_failure
  | report_illegal_handle_operation
  | report_invalid_process_allocation
  | report_hidden_system_thread
  | report_illegal_attach_process
  | report_apc_stackwalk
  | report_dpc_stackwalk
  | report_data_table_routine
  | report_invalid_process_module.

#[export] Instance report_id_eq_dec : EqDecision report_id.
Proof. solve_decision. Defined.

Definition report_code (r : report_id) : Z :=
  match r with
  | report_nmi_callback_failure => 50
  | report_module_validation_failure => 60
  | report_illegal_handle_operation => 70
  | report_invalid_process_allocation => 80
  | report_hidden_system_thread => 90
  | report_illegal_attach_process => 100
  | report_apc_stackwalk => 110
  | report_dpc_stackwalk => 120
  | report_data_table_routine => 130
  | report_invalid_process_module => 140
  end.

Definition report_header : cty := St [("report_id", Int 4)].

Definition apc_stackwalk_report : cty := St
  [("report_code", Int 4); ("kthread_address", UINT64); ("invalid_rip", UINT64); ("driver", Arr 500 UCHAR)].
Definition dpc_stackwalk_report : cty := St
  [("report_code", Int 4); ("kthread_address", UINT64); ("invalid_rip", UINT64); ("driver", Arr 500 UCHAR)].
Definition module_validation_failure : cty := St
  [("report_code", Int 4); ("report_type", Int 4); ("driver_base_address", UINT64); ("driver_size", UINT64);
   ("driver_name", Arr 128 UCHAR)].
Definition data_table_routine_report : cty := St
  [("report_code", Int 4); ("id", Int 4); ("address", UINT64); ("routine", Arr 256 UCHAR)].
Definition nmi_callback_failure : cty := St
  [("report_code", Int 4); ("were_nmis_disabled", Int 4); ("kthread_address", UINT64); ("invalid_rip", UINT64)].
Definition invalid_process_allocation_report : cty := St
  [("report_code", Int 4); ("process", Arr 500 UCHAR)].
Definition hidden_system_thread_report : cty := St
  [("report_code", Int 4); ("found_in_kthreadlist", Int 4); ("found_in_pspcidtable", Int 4);
   ("thread_address", UINT64); ("thread_id", Int 4); ("thread", Arr 500 UCHAR)].
Definition attach_process_report : cty := St
  [("report_code", Int 4); ("thread_id", Int 4); ("thread_address", UINT64)].
Definition open_handle_failure_report : cty := St
  [("report_code", Int 4); ("is_kernel_handle", Int 4); ("process_id", Int 4); ("thread_id", Int 4);
   ("access", Int 4); ("process_name", Arr 64 UCHAR)].
Definition process_module_validation_report : cty := St
  [("report_code", Int 4); ("image_base", UINT64); ("image_size", Int 4); ("module_path", Arr 256 USHORT)].

Definition session_initiation_packet : cty := St
  [("session_cookie", Int 4); ("session_aes_key", Arr 16 UCHAR); ("protected_process_id", PVOID)].
Definition hv_detection_packet : cty := St
  [("aperf_msr_timing_check", Int 4); ("invd_emulation_check", Int 4)].
Definition process_module : cty := St
  [("module_base", PVOID); ("module_size", Int 8); ("module_path", Arr 256 USHORT)].
Definition apc_operation_init : cty := St [("operation_id", Int 4)].
Definition shared_data : cty := St [("status", Int 4); ("operation_id", Int 2)].
Definition shared_mapping : cty := St [("buffer", PVOID); ("size", Int 8)].

(** ** Printing a report *)

(** What one [LOG_INFO] shows besides its text. *)
Inductive shown := Hex (z : Z) | Dec (z : Z) | Chars (l : list Z).
Abbreviation line := (string * option shown)%type.

#[export] Instance shown_eq_dec : EqDecision shown.
Proof. solve_decision. Defined.

(** The conversions: [%lx], [%llx], [%d], [%u], [%s] and [%ls]. *)
Inductive format := Lx | Llx | D | U | S8 | Ls.

(** The characters up to the terminator; [n] bounds the length. *)
Fixpoint read_chars (rd : Z -> res Z) (w p : Z) (n : nat) : res (list Z) :=
  match n with
  | O => Crash OutOfFuel
  | S n =>
      c ← rd p;
      if c =? 0 then Ok [] else
      l ← read_chars rd w (p + w) n; Ok (c :: l)
  end.

Definition fetch (m : memory) (n : nat) (t : cty) (f : string) (fmt : format) : res shown :=
  match fmt with
  | Lx => v ← load_field m t 0 f 4; Ok (Hex v)
  | Llx => v ← load_field m t 0 f 8; Ok (Hex v)
  | D => v ← load_field m t 0 f 4; Ok (Dec (s32 v))
  | U => v ← load_field m t 0 f 4; Ok (Dec v)
  | S8 => l ← read_chars (load8 m) 1 (offsetof t f) n; Ok (Chars l)
  | Ls => l ← read_chars (load16 m) 2 (offsetof t f) n; Ok (Chars l)
  end.

Fixpoint print_fields (m : memory) (n : nat) (t : cty) (l : list (string * format)) : res (list line) :=
  match l with
  | [] => Ok [("********************************", None)]
  | (f, fmt) :: l => v ← fetch m n t f fmt; r ← print_fields m n t l; Ok ((f, Some v) :: r)
  end.

Definition get_report_id_from_buffer (m : memory) : res Z :=
  v ← load_field m report_header 0 "report_id" 4; Ok (s32 v).

(** The cases of the switch; the function ends without a [return] for any other code. *)
Definition recognised : list report_id :=
  [report_nmi_callback_failure; report_module_validation_failure; report_illegal_handle_operation;
   report_invalid_process_allocation; report_hidden_system_thread; report_illegal_attach_process;
   report_apc_stackwalk; report_dpc_stackwalk; report_data_table_routine].

Definition get_kernel_report_type (m : memory) : res report_id :=
  id ← get_report_id_from_buffer m;
  match list_find (fun r => report_code r = id) recognised with
  | Some (_, r) => Ok r
  | None => Crash MissingReturn
  end.

(** The structure of a report, its name and what is printed of it. *)
Definition report_format (r : report_id) : string * cty * list (string * format) :=
  match r with
  | report_nmi_callback_failure => ("nmi_callback_failure", nmi_callback_failure,
      [("report_code", Lx); ("were_nmis_disabled", Lx); ("kthread_address", Llx); ("invalid_rip", Llx)])
  | report_invalid_process_allocation => ("invalid_process_allocation_report", invalid_process_allocation_report,
      [("report_code", D)])
  | report_hidden_system_thread => ("hidden_system_thread_report", hidden_system_thread_report,
      [("report_code", Lx); ("found_in_kthreadlist", Lx); ("found_in_pspcidtable", Lx);
       ("thread_address", Llx); ("thread_id", Lx)])
  | report_illegal_attach_process => ("attach_process_report", attach_process_report,
      [("report_code", Lx); ("thread_id", Lx); ("thread_address", Llx)])
  | report_illegal_handle_operation => ("open_handle_failure_report", open_handle_failure_report,
      [("report_code", Lx); ("is_kernel_handle", Lx); ("process_id", Lx); ("thread_id", Lx); ("access", Lx);
       ("process_name", S8)])
  | report_invalid_process_module => ("process_module_validation_report", process_module_validation_report,
      [("report_code", D); ("image_base", Llx); ("image_size", U); ("module_path", Ls)])
  | report_apc_stackwalk => ("apc_stackwalk_report", apc_stackwalk_report,
      [("report_code", D); ("kthread_address", Llx); ("invalid_rip", Llx)])
  | report_dpc_stackwalk => ("dpc_stackwalk_report", dpc_stackwalk_report,
      [("report_code", D); ("kthread_address", Llx); ("invalid_rip", Llx)])
  | report_data_table_routine => ("data_table_routine_report", data_table_routine_report,
      [("report_code", D); ("id", D); ("address", Llx); ("routine", S8)])
  | report_module_validation_failure => ("module_validation_failure", module_validation_failure,
      [("report_code", Lx); ("report_type", Lx); ("driver_base_address", Llx); ("driver_size", Llx);
       ("driver_name", S8)])
  end.

(** A read past the end of the buffer is a fault of the model. *)
Definition print_kernel_report (buffer : list Z) : res (list line) :=
  let m := mem_of 0 buffer in
  r ← get_kernel_report_type m;
  let '(name, t, fields) := report_format r in
  rest ← print_fields m (S (length buffer)) t fields;
  Ok (("report type: " ++ name, None)%string :: rest).

(** ** The events *)

(** [buffer] is [None] once it has been freed, [hEvent] once the handle is closed. *)
Record event_dispatcher := EventDispatcher {
  in_use : bool;
  hEvent : option bool;
  buffer : option (list Z);
  buffer_size : Z;
}.

(** [port] has the packets of the completion port, each the index of an event, and
    [errors] what was logged with [LOG_ERROR]. *)
Record kernel_interface := KernelInterface {
  events : list event_dispatcher;
  port : list nat;
  printed : list (list line);
  errors : list string;
}.

Definition set_events (l : list event_dispatcher) (k : kernel_interface) : kernel_interface :=
  KernelInterface l (port k) (printed k) (errors k).
Definition set_port (l : list nat) (k : kernel_interface) : kernel_interface :=
  KernelInterface (events k) l (printed k) (errors k).
Definition add_printed (l : list line) (k : kernel_interface) : kernel_interface :=
  KernelInterface (events k) (port k) (printed k ++ [l]) (errors k).
Definition LOG_ERROR (e : string) (k : kernel_interface) : kernel_interface :=
  KernelInterface (events k) (port k) (printed k) (errors k ++ [e]).

(** The constructor of an event, on what [malloc] returned. *)
Definition new_event (memory : list Z) : event_dispatcher :=
  EventDispatcher false (Some false) (Some memory) MAXIMUM_REPORT_BUFFER_SIZE.

(** The first loop of [initiate_completion_port]; [heap] is what the blocks hold. *)
Definition create_events (heap : nat -> list Z) (k : kernel_interface) : kernel_interface :=
  set_events (events k ++ ((fun i => new_event (heap i)) <$> seq 0 EVENT_COUNT)) k.

Definition get_free_event_entry (k : kernel_interface) : option nat * kernel_interface :=
  match list_find (fun e => in_use e = false) (events k) with
  | Some (i, e) =>
      (Some i, set_events (<[i := EventDispatcher true (hEvent e) (buffer e) (buffer_size e)]> (events k)) k)
  | None => (None, k)
  end.

(** [memset(it->buffer, 0, it->buffer_size)]; [ResetEvent] of a closed handle fails. *)
Definition release_event_object (event : nat) : KM kernel_interface unit := fun k =>
  match events k !! event with
  | None => Ok (tt, k)
  | Some e =>
      match buffer e with
      | None => Crash UnmappedRead
      | Some b =>
          b ← copy_to b (replicate (Z.to_nat (buffer_size e)) 0);
          Ok (tt, set_events (<[event := EventDispatcher false ((fun _ => false) <$> hEvent e) (Some b) (buffer_size e)]>
                                (events k)) k)
      end
  end.

Definition get_buffer_from_event_object (event : nat) (k : kernel_interface) : option nat :=
  match events k !! event with Some _ => Some event | None => None end.

(** The bytes of the block a buffer pointer refers to. *)
Definition read_buffer (buffer_ : option nat) (k : kernel_interface) : res (list Z) :=
  match buffer_ with
  | None => Crash NullDereference
  | Some i => match events k !! i with
              | Some e => match buffer e with Some b => Ok b | None => Crash UnmappedRead end
              | None => Crash UnmappedRead
              end
  end.

(** Freeing a buffer twice is a fault. *)
Definition close_event (e : event_dispatcher) : res event_dispatcher :=
  match buffer e with
  | Some _ => Ok (EventDispatcher (in_use e) None None (buffer_size e))
  | None => Crash BadFree
  end.

Fixpoint close_events (l : list event_dispatcher) : res (list event_dispatcher) :=
  match l with
  | [] => Ok []
  | e :: l => e ← close_event e; l ← close_events l; Ok (e :: l)
  end.

Definition terminate_completion_port : KM kernel_interface unit := fun k =>
  l ← close_events (events k); Ok (tt, set_events l k).

(** ** The requests *)

(** What [DeviceIoControl] is called with. *)
Record device_request := DeviceRequest {
  code : Z;
  input : list Z;
  output_size : Z;
}.

Definition zeroed (t : cty) : list Z := replicate (Z.to_nat (sizeof t)) 0.

Definition store_field (t : cty) (f : string) (n : nat) (v : Z) (bytes : list Z) : list Z :=
  let o := Z.to_nat (offsetof t f) in take o bytes ++ le_bytes n v ++ drop (o + n) bytes.

Definition generic_driver_call (ioctl : Z) : device_request := DeviceRequest ioctl [] 0.
Definition generic_driver_call_output (ioctl size : Z) : device_request := DeviceRequest ioctl [] size.
Definition generic_driver_call_input (ioctl : Z) (bytes : list Z) : device_request := DeviceRequest ioctl bytes 0.

Definition operation_stackwalk : Z := 1.
Definition generic_driver_call_apc (operation : Z) : device_request :=
  generic_driver_call_input (ioctl 0x20017)
    (store_field apc_operation_init "operation_id" 4 operation (zeroed apc_operation_init)).

Definition notify_driver_on_process_launch (GetCurrentProcessId : Z) : device_request :=
  generic_driver_call_input (ioctl 0x20004)
    (store_field session_initiation_packet "protected_process_id" 8 GetCurrentProcessId
       (zeroed session_initiation_packet)).
Definition detect_system_virtualization : device_request :=
  generic_driver_call_output (ioctl 0x20006) (sizeof hv_detection_packet).
Definition initiate_shared_mapping : device_request :=
  generic_driver_call_output (ioctl 0x20023) (sizeof shared_mapping).
Definition run_nmi_callbacks : device_request := generic_driver_call (ioctl 0x20001).
Definition validate_pci_devices : device_request := generic_driver_call (ioctl 0x20024).
Definition validate_system_driver_objects : device_request := generic_driver_call (ioctl 0x20002).
Definition enumerate_handle_tables : device_request := generic_driver_call (ioctl 0x20007).
Definition scan_for_unlinked_processes : device_request := generic_driver_call (ioctl 0x20011).
Definition perform_integrity_check : device_request := generic_driver_call (ioctl 0x20013).
Definition notify_driver_on_process_termination : device_request := generic_driver_call (ioctl 0x20010).
Definition scan_for_attached_threads : device_request := generic_driver_call (ioctl 0x20014).
Definition scan_for_ept_hooks : device_request := generic_driver_call (ioctl 0x20018).
Definition perform_dpc_stackwalk : device_request := generic_driver_call (ioctl 0x20019).
Definition validate_system_modules : device_request := generic_driver_call (ioctl 0x20020).
Definition initiate_apc_stackwalk : device_request := generic_driver_call_apc operation_stackwalk.

(** The request [send_pending_irp] makes for an event with a buffer of [size] bytes. *)
Definition pending_irp (size : Z) : device_request := DeviceRequest (ioctl 0x20021) [] size.

(** [issue_kernel_job] of the dispatcher, with a number below
    [KERNEL_DISPATCH_FUNCTION_COUNT]; the body of the case for process modules is
    commented out. *)
Definition KERNEL_DISPATCH_FUNCTION_COUNT : Z := 12.
Definition issue_kernel_job (n : Z) : option device_request :=
  znth [Some enumerate_handle_tables; Some perform_integrity_check; Some scan_for_unlinked_processes; None;
        Some validate_system_driver_objects; Some run_nmi_callbacks; Some scan_for_attached_threads;
        Some initiate_apc_stackwalk; Some scan_for_ept_hooks; Some perform_dpc_stackwalk;
        Some validate_system_modules; Some validate_pci_devices] n ≫= id.

(** [InterlockedExchange16(&mapping.buffer->operation_id, operation)] on the page shared
    with the driver, and the number [write_shared_mapping_operation] of the dispatcher
    draws. *)
Definition write_shared_mapping_operation (operation : Z) (page : list Z) : list Z :=
  store_field shared_data "operation_id" 2 operation page.
Definition generate_rand_int (rand max : Z) : Z := Z.rem rand max.

(** ** Lemmas *)

Lemma mem_of_extends base l t a b : mem_of base l a = Some b -> mem_of base (l ++ t) a = Some b.
Proof.
  unfold mem_of, znth. destruct (a - base <? 0); [done|]. intros H. by apply lookup_app_l_Some.
Qed.

Lemma load_extends n l t : forall a v, load (mem_of 0 l) a n = Ok v -> load (mem_of 0 (l ++ t)) a n = Ok v.
Proof.
  induction n as [|n IH]; intros a v; cbn [load]; [done|].
  destruct (mem_of 0 l a) as [b|] eqn:E; [|done]. rewrite (mem_of_extends _ _ t _ _ E).
  destruct (load (mem_of 0 l) (a + 1) n) as [h|] eqn:Eh; [|done]. by rewrite (IH _ _ Eh).
Qed.

Lemma read_chars_app rd rd' w :
  (forall p v, rd p = Ok v -> rd' p = Ok v) ->
  forall n n' p l, (n <= n')%nat -> read_chars rd w p n = Ok l -> read_chars rd' w p n' = Ok l.
Proof.
  intros Hrd. induction n as [|n IH]; intros [|n'] p l Hn; cbn [read_chars]; try done; [lia|].
  destruct (rd p) as [c|] eqn:E; [|done]. rewrite (Hrd _ _ E). munfold. destruct (c =? 0); [done|].
  destruct (read_chars rd w (p + w) n) as [r|] eqn:Er; [|done]. rewrite (IH n' _ r); [done|lia|done].
Qed.

Lemma fetch_app l t n n' s f fmt v :
  (n <= n')%nat -> fetch (mem_of 0 l) n s f fmt = Ok v -> fetch (mem_of 0 (l ++ t)) n' s f fmt = Ok v.
Proof.
  intros Hn. destruct fmt; unfold fetch, load_field.
  1,2,3,4: destruct (load (mem_of 0 l) _ _) eqn:E; [|done]; by rewrite (load_extends _ _ t _ _ E).
  all: destruct (read_chars _ _ _ n) as [r|] eqn:E; [|done].
  all: eapply read_chars_app in E as ->; [done| |done]; intros p u; apply load_extends.
Qed.

Lemma print_fields_app l t n n' s fs r :
  (n <= n')%nat -> print_fields (mem_of 0 l) n s fs = Ok r -> print_fields (mem_of 0 (l ++ t)) n' s fs = Ok r.
Proof.
  intros Hn. revert r. induction fs as [|[f fmt] fs IH]; intros r; cbn [print_fields]; [done|].
  destruct (fetch (mem_of 0 l) n s f fmt) as [v|] eqn:E; [|done]. rewrite (fetch_app _ t _ n' _ _ _ _ Hn E).
  munfold. destruct (print_fields (mem_of 0 l) n s fs) as [r'|]; [|done]. by rewrite (IH r').
Qed.

(** What is printed depends on the report only, not on the rest of the buffer. *)
Lemma print_kernel_report_app bytes tail l :
  print_kernel_report bytes = Ok l -> print_kernel_report (bytes ++ tail) = Ok l.
Proof.
  unfold print_kernel_report, get_kernel_report_type, get_report_id_from_buffer, load_field.
  destruct (load (mem_of 0 bytes) _ 4) as [v|] eqn:E; [|done]. rewrite (load_extends _ _ tail _ _ E). munfold.
  destruct (list_find _ recognised) as [[i r]|]; [|done]. destruct (report_format r) as [[nm t] fs].
  destruct (print_fields _ _ t fs) as [rest|] eqn:Er; [|done].
  eapply print_fields_app in Er as ->; [done|]. rewrite length_app. lia.
Qed.

(** ** Reports as the driver writes them *)

(** A number, a string that is terminated, or bytes that may not be. *)
Inductive field_value := Num (z : Z) | Str (l : list Z) | Raw (l : list Z).

(** Characters of [w] bytes. *)
Fixpoint characters (w : nat) (l : list Z) : list Z :=
  match l with [] => [] | c :: l => le_bytes w c ++ characters w l end.

Definition value_bytes (t : cty) (v : field_value) : list Z :=
  match t, v with
  | Int n, Num z => le_bytes (Z.to_nat n) z
  | Arr n (Int w), Str l => characters (Z.to_nat w) (l ++ replicate (Z.to_nat n - length l) 0)
  | Arr n _, Raw l => l
  | _, _ => []
  end.

(** A number of the field's width; a string, of characters of one or more bytes, with
    room for its terminator; as many bytes as the field has. *)
Definition value_fits (t : cty) (v : field_value) : Prop :=
  match t, v with
  | Int n, Num z => 0 < n /\ 0 <= z < 256 ^ n
  | Arr n (Int w), Str l => 0 < w /\ zlen l < n /\ Forall (fun c => 0 < c < 256 ^ w) l
  | Arr n (Int w), Raw l => 0 < w /\ zlen l = n * w
  | _, _ => False
  end.

(** The fields in order, each at its alignment, from offset [off]. *)
Fixpoint fields_bytes (ts : list cty) (off : Z) (vs : list field_value) : list Z :=
  match ts, vs with
  | t :: ts, v :: vs =>
      let o := align_up (ty_align t) off in
      replicate (Z.to_nat (o - off)) 0 ++ value_bytes t v ++ fields_bytes ts (o + sizeof t) vs
  | _, _ => []
  end.

Definition fields_of (t : cty) : list (string * cty) := match t with St fs => fs | _ => [] end.

Definition struct_bytes (t : cty) (vs : list field_value) : list Z :=
  let l := fields_bytes (fields_of t).*2 0 vs in l ++ replicate (Z.to_nat (sizeof t) - length l) 0.

Fixpoint field_lookup (fs : list (string * cty)) (vs : list field_value) (f : string)
  : option (cty * field_value) :=
  match fs, vs with
  | (g, t) :: fs, v :: vs => if decide (f = g) then Some (t, v) else field_lookup fs vs f
  | _, _ => None
  end.

Lemma length_characters w l : length (characters w l) = (w * length l)%nat.
Proof. induction l as [|c l IH]; cbn [characters length]; [lia|]. rewrite length_app, length_le_bytes. lia. Qed.

Lemma characters_app w k l : characters w (k ++ l) = characters w k ++ characters w l.
Proof. induction k as [|c k IH]; cbn [characters app]; [done|]. by rewrite IH, <- app_assoc. Qed.

Lemma length_value_bytes t v : value_fits t v -> zlen (value_bytes t v) = sizeof t.
Proof.
  destruct t as [n|n [w| |]|], v as [z|l|l]; try done; cbn [value_fits value_bytes sizeof].
  - intros [Hn _]. unfold zlen. rewrite length_le_bytes. lia.
  - intros (Hw & Hl & _). unfold zlen in *. rewrite length_characters, length_app, length_replicate.
    replace (length l + (Z.to_nat n - length l))%nat with (Z.to_nat n) by lia. rewrite Nat2Z.inj_mul, !Z2Nat.id; lia.
  - intros [_ Hl]. exact Hl.
Qed.

Lemma align_up_ge a x : 0 < a -> x <= align_up a x.
Proof. intros Ha. unfold align_up. pose proof (Z.div_mod (x + a - 1) a). pose proof (Z.mod_pos_bound (x + a - 1) a). lia. Qed.

Lemma value_align t v : value_fits t v -> 0 < ty_align t.
Proof. destruct t as [n|n [w| |]|], v as [z|l|l]; cbn; try done; lia. Qed.

(** Where a field's bytes are. *)
Lemma fields_split fs : forall vs off f t v,
  field_lookup fs vs f = Some (t, v) -> Forall2 value_fits fs.*2 vs ->
  exists pre post, fields_bytes fs.*2 off vs = pre ++ value_bytes t v ++ post /\
    off + zlen pre = offset_in fs off f.
Proof.
  induction fs as [|[g u] fs IH]; intros [|x vs] off f t v; cbn [field_lookup fmap list_fmap snd]; try done.
  intros Hf Hfit. inversion Hfit as [|? ? ? ? Hx Hvs]; subst. cbn [fields_bytes offset_in].
  pose proof (align_up_ge _ off (value_align _ _ Hx)). pose proof (length_value_bytes _ _ Hx).
  destruct (decide (f = g)).
  - injection Hf as -> ->. eexists _, _. split; [done|]. unfold zlen. rewrite length_replicate. lia.
  - destruct (IH vs (align_up (ty_align u) off + sizeof u) f t v Hf Hvs) as (pre & post & E & Hz).
    eexists (replicate (Z.to_nat (align_up (ty_align u) off - off)) 0 ++ value_bytes u x ++ pre), post.
    change (snd <$> fs) with fs.*2. rewrite E, <- Hz. split; [by rewrite <- !app_assoc|].
    rewrite !zlen_app. unfold zlen at 1. rewrite length_replicate. lia.
Qed.

Lemma read_chars_string w pre l post n :
  (0 < w)%nat -> Forall (fun c => 0 < c < 256 ^ Z.of_nat w) l -> (length l < n)%nat ->
  read_chars (fun p => load (mem_of 0 (pre ++ characters w l ++ le_bytes w 0 ++ post)) p w)
    (Z.of_nat w) (zlen pre) n = Ok l.
Proof.
  intros Hw. revert pre n. induction l as [|c l IH]; intros pre n Hl Hn; (destruct n as [|n]; [cbn in Hn; lia|]);
    cbn [read_chars characters app].
  - by rewrite load_middle by lia.
  - apply Forall_cons in Hl as [Hc Hl]. rewrite <- app_assoc, load_middle by lia. munfold.
    destruct (Z.eqb_spec c 0); [lia|]. specialize (IH (pre ++ le_bytes w c) n Hl ltac:(cbn in Hn; lia)).
    rewrite zlen_app, <- app_assoc in IH. unfold zlen at 2 in IH. rewrite length_le_bytes in IH. cbn in IH |- *.
    by rewrite IH.
Qed.

(** The format suits the field, and what it shows of the value. *)
Definition shows (fmt : format) (t : cty) (v : field_value) : option shown :=
  match fmt, t, v with
  | Lx, Int 4, Num z => Some (Hex z)
  | Llx, Int 8, Num z => Some (Hex z)
  | D, Int 4, Num z => Some (Dec (s32 z))
  | U, Int 4, Num z => Some (Dec z)
  | S8, Arr _ (Int 1), Str l | Ls, Arr _ (Int 2), Str l => Some (Chars l)
  | _, _, _ => None
  end.

Lemma fetch_field t vs tail n f fmt u v x :
  field_lookup (fields_of t) vs f = Some (u, v) -> Forall2 value_fits (fields_of t).*2 vs ->
  shows fmt u v = Some x -> (length (fields_bytes (fields_of t).*2 0 vs) <= n)%nat ->
  fetch (mem_of 0 (fields_bytes (fields_of t).*2 0 vs ++ tail)) (S n) t f fmt = Ok x.
Proof.
  intros Hf Hfit Hx Hn. destruct (fields_split _ vs 0 f u v Hf Hfit) as (pre & post & E & Ho).
  assert (offsetof t f = zlen pre) as Ho'.
  { destruct t; cbn in Ho |- *; [done..|]. rewrite <- Ho. lia. }
  assert (value_fits u v) as Hv.
  { clear -Hf Hfit. revert vs Hf Hfit. generalize (fields_of t). intros l. induction l as [|[g w] l IH]; [done|].
    intros [|y vs]; cbn; [done|]. intros Hf Hfit. inversion Hfit; subst. case_decide; [by simplify_eq|]. by eapply IH. }
  rewrite E in Hn |- *. rewrite !length_app in Hn. rewrite <- !app_assoc.
  unfold fetch, load_field. rewrite Ho', ?Z.add_0_l.
  destruct fmt; cbn [shows] in Hx;
    repeat match type of Hx with context [match ?z with _ => _ end] => is_var z; destruct z; cbn in Hx; try done end;
    (discriminate Hx || injection Hx as <-); cbn [value_fits value_bytes] in Hv, Hn |- *.
  1-4: change (Z.to_nat 4) with 4%nat in *; change (Z.to_nat 8) with 8%nat in *;
       rewrite load_middle by (destruct Hv as [_ Hv]; exact Hv); done.
  all: destruct Hv as (_ & Hl & Hc); unfold zlen in Hl; rewrite length_characters in Hn;
    rewrite length_app in Hn; destruct (Z.to_nat n0 - length l)%nat as [|k] eqn:Ek; [lia|];
    cbn [replicate]; rewrite characters_app, <- app_assoc; cbn [characters];
    rewrite <- app_assoc.
  - unfold load8. by rewrite (read_chars_string 1) by (done || lia).
  - unfold load16. by rewrite (read_chars_string 2) by (done || lia).
Qed.

Lemma print_fields_shows t vs tail n fs ls :
  Forall2 value_fits (fields_of t).*2 vs -> (length (fields_bytes (fields_of t).*2 0 vs) <= n)%nat ->
  Forall2 (fun ff l => exists u v x, field_lookup (fields_of t) vs ff.1 = Some (u, v) /\ shows ff.2 u v = Some x /\
                         l = (ff.1, Some x)) fs ls ->
  print_fields (mem_of 0 (fields_bytes (fields_of t).*2 0 vs ++ tail)) (S n) t fs
    = Ok (ls ++ [("********************************", None)]).
Proof.
  intros Hfit Hn Hfs. induction Hfs as [|[f fmt] l fs ls (u & v & x & Hl & Hx & ->) _ IH]; [done|].
  cbn [print_fields fst snd] in *. rewrite (fetch_field _ _ _ _ _ _ _ _ _ Hl Hfit Hx Hn).
  munfold. cbn in IH |- *. by rewrite IH.
Qed.

(** The structure the driver fills in for each report, and its code. *)
Definition driver_structure (r : report_id) : Z * cty :=
  match r with
  | report_nmi_callback_failure => (REPORT_NMI_CALLBACK_FAILURE, NMI_CALLBACK_FAILURE)
  | report_module_validation_failure => (REPORT_MODULE_VALIDATION_FAILURE, MODULE_VALIDATION_FAILURE)
  | report_illegal_handle_operation => (REPORT_ILLEGAL_HANDLE_OPERATION, OPEN_HANDLE_FAILURE_REPORT)
  | report_invalid_process_allocation => (REPORT_INVALID_PROCESS_ALLOCATION, INVALID_PROCESS_ALLOCATION_REPORT)
  | report_hidden_system_thread => (REPORT_HIDDEN_SYSTEM_THREAD, HIDDEN_SYSTEM_THREAD_REPORT)
  | report_illegal_attach_process => (REPORT_ILLEGAL_ATTACH_PROCESS, ATTACH_PROCESS_REPORT)
  | report_apc_stackwalk => (REPORT_APC_STACKWALK, APC_STACKWALK_REPORT)
  | report_dpc_stackwalk => (REPORT_DPC_STACKWALK, DPC_STACKWALK_REPORT)
  | report_data_table_routine => (REPORT_DATA_TABLE_ROUTINE, DATA_TABLE_ROUTINE_REPORT)
  | report_invalid_process_module => (REPORT_INVALID_PROCESS_MODULE, PROCESS_MODULE_VALIDATION_REPORT)
  end.

(** What is shown of a report with the given field values. *)
Definition report_lines (r : report_id) (vs : list field_value) : list line :=
  let '(name, t, fs) := report_format r in
  ("report type: " ++ name, None)%string ::
  ((fun '(f, fmt) => (f, '(u, v) ← field_lookup (fields_of t) vs f; shows fmt u v)) <$> fs)
  ++ [("********************************", None)].

(** The client's declaration of each structure has the driver's fields. *)
Lemma report_layouts r :
  (fields_of (report_format r).1.2).*2 = (fields_of (driver_structure r).2).*2 /\
  sizeof (report_format r).1.2 = sizeof (driver_structure r).2 /\ report_code r = (driver_structure r).1 /\
  0 < sizeof (driver_structure r).2 <= MAXIMUM_REPORT_BUFFER_SIZE.
Proof. destruct r; repeat split; vm_compute; (done || discriminate). Qed.

Lemma report_type_of r tail :
  get_kernel_report_type (mem_of 0 (le_bytes 4 (report_code r) ++ tail))
    = if decide (r = report_invalid_process_module) then Crash MissingReturn else Ok r.
Proof.
  unfold get_kernel_report_type, get_report_id_from_buffer, load_field.
  change (0 + offsetof report_header "report_id") with (zlen (@nil Z)).
  rewrite <- (app_nil_l (le_bytes _ _ ++ _)), load_middle by (destruct r; cbn; lia).
  destruct r; reflexivity.
Qed.

(** Where the fields end. *)
Fixpoint end_of (ts : list cty) (off : Z) : Z :=
  match ts with [] => off | t :: ts => end_of ts (align_up (ty_align t) off + sizeof t) end.

Lemma length_fields_bytes ts vs off :
  Forall2 value_fits ts vs -> off + zlen (fields_bytes ts off vs) = end_of ts off.
Proof.
  intros H. revert off. induction H as [|t v ts vs Hv _ IH]; intros off; cbn [fields_bytes end_of];
    [rewrite zlen_nil; lia|].
  pose proof (align_up_ge _ off (value_align _ _ Hv)). rewrite <- IH, !zlen_app, length_value_bytes by done.
  unfold zlen at 1. rewrite length_replicate. lia.
Qed.

Lemma length_struct_bytes r vs :
  Forall2 value_fits (fields_of (driver_structure r).2).*2 vs ->
  zlen (struct_bytes (driver_structure r).2 vs) = sizeof (driver_structure r).2.
Proof.
  intros H. unfold struct_bytes. pose proof (length_fields_bytes _ _ 0 H) as E.
  assert (end_of (fields_of (driver_structure r).2).*2 0 <= sizeof (driver_structure r).2) as Hle
    by (destruct r; vm_compute; discriminate).
  unfold zlen in *. rewrite length_app, length_replicate. lia.
Qed.

(** The code comes first. *)
Lemma struct_bytes_code r vs :
  Forall2 value_fits (fields_of (driver_structure r).2).*2 vs -> head vs = Some (Num (driver_structure r).1) ->
  exists post, struct_bytes (driver_structure r).2 vs = le_bytes 4 (report_code r) ++ post.
Proof.
  intros H Hh. destruct vs as [|v vs]; [done|]. injection Hh as ->.
  unfold struct_bytes. cbv zeta. destruct r; eexists; cbn [driver_structure fields_of fst snd fmap list_fmap fields_bytes];
    rewrite <- ?app_assoc; reflexivity.
Qed.

(** The strings the client shows are terminated. *)
Definition strings_terminated (r : report_id) (vs : list field_value) : Prop :=
  Forall (fun ff => match field_lookup (fields_of (report_format r).1.2) vs ff.1 with
                    | Some (_, Raw _) => False | _ => True end) (report_format r).2.

(** Every field the client shows is one of the structure, of a suitable type. *)
Lemma report_fields_shown r vs :
  r <> report_invalid_process_module -> Forall2 value_fits (fields_of (report_format r).1.2).*2 vs ->
  strings_terminated r vs ->
  Forall2 (fun ff l => exists u v x, field_lookup (fields_of (report_format r).1.2) vs ff.1 = Some (u, v) /\
             shows ff.2 u v = Some x /\ l = (ff.1, Some x)) (report_format r).2
    ((fun '(f, fmt) => (f, '(u, v) ← field_lookup (fields_of (report_format r).1.2) vs f; shows fmt u v))
       <$> (report_format r).2).
Proof.
  unfold strings_terminated. intros Hr H Hst. destruct r; [..|done]; cbn in H; cbn [report_format fst snd fmap list_fmap];
    repeat match goal with Hx : Forall2 _ (_ :: _) _ |- _ => inversion Hx; clear Hx; subst end;
    repeat match goal with Hx : value_fits _ ?v |- _ => destruct v; try done; clear Hx end;
    cbn in Hst; repeat match goal with Hx : Forall _ (_ :: _) |- _ => apply Forall_cons in Hx as [? Hx]; try done end;
    repeat (apply Forall2_cons; split; [eexists _, _, _; split; [reflexivity|split; reflexivity]|]); apply Forall2_nil_2.
Qed.

(** C31: a report is shown as the driver wrote it.  For each of the ten reports the client
    declares the structure with the driver's fields, of the driver's size, which fits the
    client's buffers.  Whatever the fields hold, shown strings with their terminator, and
    whatever follows in the buffer, the client prints for the nine reports it recognises
    the name and exactly the values of the fields it shows; on the report of an invalid
    process module it runs off the end of [get_kernel_report_type]. *)
Theorem reports_shown_as_written r vs tail :
  Forall2 value_fits (fields_of (driver_structure r).2).*2 vs -> head vs = Some (Num (driver_structure r).1) ->
  strings_terminated r vs ->
  0 < zlen (struct_bytes (driver_structure r).2 vs) <= MAXIMUM_REPORT_BUFFER_SIZE /\
  print_kernel_report (struct_bytes (driver_structure r).2 vs ++ tail)
    = if decide (r = report_invalid_process_module) then Crash MissingReturn else Ok (report_lines r vs).
Proof.
  intros Hfit Hh Hst. destruct (report_layouts r) as (Et & Es & _ & Hsz).
  split; [by rewrite length_struct_bytes|].
  destruct (struct_bytes_code r vs Hfit Hh) as [post Epost]. unfold print_kernel_report.
  rewrite Epost, <- app_assoc, report_type_of, app_assoc, <- Epost. case_decide as Hr; [done|]. munfold.
  unfold report_lines. pose proof (report_fields_shown r vs Hr) as Hshow. rewrite Et in Hshow.
  unfold struct_bytes at 1. rewrite <- Et in Hfit, Hshow |- *. specialize (Hshow Hfit Hst). clear Hst.
  destruct (report_format r) as [[nm t] fs]. cbn [fst snd] in *.
  rewrite <- app_assoc. erewrite print_fields_shows; [done|exact Hfit| |exact Hshow].
  rewrite length_app. unfold struct_bytes. cbv zeta. rewrite Et, length_app. lia.
Qed.

(** An unmapped driver found in a stack, and a module of the process that fails its check. *)
Definition sample_report : list field_value :=
  [Num 60; Num 1; Num 0xfffff80000000000; Num 4096; Str (bytes_of_string "disk.sys")].

Lemma reports_shown_as_written_witness :
  print_kernel_report (struct_bytes MODULE_VALIDATION_FAILURE sample_report ++ [1; 2; 3])
    = Ok [("report type: module_validation_failure", None); ("report_code", Some (Hex 60));
          ("report_type", Some (Hex 1)); ("driver_base_address", Some (Hex 0xfffff80000000000));
          ("driver_size", Some (Hex 4096)); ("driver_name", Some (Chars (bytes_of_string "disk.sys")));
          ("********************************", None)] /\
  print_kernel_report (struct_bytes PROCESS_MODULE_VALIDATION_REPORT
      [Num 140; Num 0x7ff600000000; Num 4096; Str (bytes_of_string "\cheat.dll")] ++ []) = Crash MissingReturn.
Proof.
  split.
  - refine (proj2 (reports_shown_as_written report_module_validation_failure sample_report [1; 2; 3] _ _ _)).
    + repeat constructor; vm_compute; (done || discriminate).
    + reflexivity.
    + by repeat constructor.
  - refine (proj2 (reports_shown_as_written report_invalid_process_module
      [Num 140; Num 0x7ff600000000; Num 4096; Str (bytes_of_string "\cheat.dll")] [] _ _ _)); [|done|].
    + repeat constructor; vm_compute; (done || discriminate).
    + by repeat constructor.
Defined.

(** ** The requests and the driver's handlers *)

Definition client_requests (pid size : Z) : list device_request :=
  [notify_driver_on_process_launch pid; detect_system_virtualization; initiate_shared_mapping; run_nmi_callbacks;
   validate_pci_devices; validate_system_driver_objects; enumerate_handle_tables; scan_for_unlinked_processes;
   perform_integrity_check; notify_driver_on_process_termination; scan_for_attached_threads; scan_for_ept_hooks;
   perform_dpc_stackwalk; validate_system_modules; initiate_apc_stackwalk; pending_irp size].

(** The client's requests suit the driver's handlers.  Every code the client sends has
    a handler.  The packets have the size the driver asks for and hold the process
    identifier and the operation where the driver reads them, the replies have the size
    the driver writes, and a kernel job drawn at random is one of these requests or
    nothing. *)
Theorem client_requests_handled pid size rand :
  0 <= pid < 2 ^ 32 -> 0 <= rand ->
  Forall (fun q => code q ∈ handled_codes) (client_requests pid size) /\
  (let packet := input (notify_driver_on_process_launch pid) in
   zlen packet = sizeof SESSION_INITIATION_PACKET /\
   load_field (mem_of 0 packet) SESSION_INITIATION_PACKET 0 "protected_process_id" 8 = Ok pid) /\
  (let packet := input initiate_apc_stackwalk in
   zlen packet = sizeof APC_OPERATION_ID /\
   load_field (mem_of 0 packet) APC_OPERATION_ID 0 "operation_id" 4 = Ok operation_stackwalk) /\
  output_size detect_system_virtualization = sizeof HYPERVISOR_DETECTION_REPORT /\
  output_size initiate_shared_mapping = sizeof SHARED_MAPPING_INIT /\
  (forall q, issue_kernel_job (generate_rand_int rand KERNEL_DISPATCH_FUNCTION_COUNT) = Some q ->
     q ∈ client_requests pid size) /\
  (issue_kernel_job (generate_rand_int rand KERNEL_DISPATCH_FUNCTION_COUNT) = None ->
     Z.rem rand KERNEL_DISPATCH_FUNCTION_COUNT = 3).
Proof.
  intros Hp Hr. split; [|split; [|split; [|split; [|split]]]].
  - apply Forall_forall. intros q Hq. unfold client_requests in Hq. rewrite !elem_of_cons, elem_of_nil in Hq.
    destruct_or?; subst; done || (cbn [code notify_driver_on_process_launch initiate_apc_stackwalk]; set_solver).
  - cbv zeta. cbn [input notify_driver_on_process_launch generic_driver_call_input]. unfold store_field, load_field.
    change (take _ (zeroed _)) with (zeroed (Arr 24 UCHAR)).
    change (drop _ (zeroed _)) with (@nil Z). split; [done|].
    change (0 + offsetof _ _) with (zlen (zeroed (Arr 24 UCHAR))). apply load_middle. lia.
  - by vm_compute.
  - done.
  - done.
  - unfold generate_rand_int, KERNEL_DISPATCH_FUNCTION_COUNT.
    pose proof (Z.rem_bound_pos rand 12 Hr ltac:(lia)) as Hb. set (n := Z.rem rand 12) in *. clearbody n.
    assert (n ∈ seqZ 0 12) as Hn by (apply elem_of_seqZ; lia). cbv in Hn. set_unfold in Hn.
    clear Hb.
    destruct_or?; subst; (split; [intros q [= <-]; unfold client_requests; set_solver|done]) || (split; done).
Qed.

Lemma client_requests_handled_witness :
  Forall (fun q => code q ∈ handled_codes) (client_requests 4242 1000) /\
  issue_kernel_job (generate_rand_int 19 KERNEL_DISPATCH_FUNCTION_COUNT) = Some initiate_apc_stackwalk.
Proof.
  destruct (client_requests_handled 4242 1000 19) as (H & _); [lia..|]. split; [exact H|reflexivity].
Defined.
