(* ===== verification/ClientProtocol.v ===== *)
(** * The client's requests together with the driver's queue

    The threads of the client that wait for reports, the I/O manager that gives completed
    requests back, and the driver's request queue of IrpQueue.v, as one transition
    system.  The client's threads take the lock for each access to the events only, so
    every access is a step of its own; a report of the driver may come between any two.
    A report is a block the driver has allocated and filled in; it must reach the screen
    once. *)

From S2P Require Import Prelude Layout Structs Irp IrpQueue Dispatch Client.

(** ** State *)

(** What a thread does next: send the [n] requests of [initiate_completion_port]; or, in
    the loop of [run_completion_port], wait for a packet, look up its buffer, print it,
    release the event, and send a request.  [after] is what follows the request. *)
Inductive thread :=
  | Initiating (n : nat)
  | Waiting
  | Dequeued (io : nat)
  | Holding (io : nat) (buffer : option nat)
  | Printed (io : nat)
  | Sending (after : option nat)
  | Requesting (event : nat) (after : option nat).

#[export] Instance thread_eq_dec : EqDecision thread.
Proof. solve_decision. Defined.

Definition resume (after : option nat) : thread :=
  match after with None => Waiting | Some n => Initiating n end.

(** [owner] is the event a request belongs to, [handled] how many of the completed
    requests the I/O manager has given back, [next] a fresh address. *)
Record system (LI LR : Type) := System {
  client : kernel_interface;
  threads : list thread;
  drv : irp_state LI LR;
  session : bool;
  owner : gmap Z nat;
  handled : nat;
  next : Z;
}.
Arguments System {LI LR}.
Arguments client {LI LR}.
Arguments threads {LI LR}.
Arguments drv {LI LR}.
Arguments session {LI LR}.
Arguments owner {LI LR}.
Arguments handled {LI LR}.
Arguments next {LI LR}.

Section operations.
Context {LI LR : Type} `{!ListEntryApi LI Z} `{!ListEntryApi LR DEFERRED_REPORT}.
Context {P : Pool} {C : CsqApi (LI := LI) (LR := LR)}.
Abbreviation S := (system LI LR).
Abbreviation M := (KM (system LI LR)).
Implicit Types s : system LI LR.

(** What the pool block behind a request holds before the driver writes to it. *)
Context (stale : Z -> list Z).

Definition set_client (k : kernel_interface) s : S :=
  System k (threads s) (drv s) (session s) (owner s) (handled s) (next s).
Definition set_thread (t : nat) (th : thread) s : S :=
  System (client s) (<[t := th]> (threads s)) (drv s) (session s) (owner s) (handled s) (next s).
Definition set_drv (d : irp_state LI LR) s : S :=
  System (client s) (threads s) d (session s) (owner s) (handled s) (next s).
Definition set_session (b : bool) s : S :=
  System (client s) (threads s) (drv s) b (owner s) (handled s) (next s).
Definition set_owner (m : gmap Z nat) (n : Z) s : S :=
  System (client s) (threads s) (drv s) (session s) m (handled s) n.
Definition set_handled (n : nat) s : S :=
  System (client s) (threads s) (drv s) (session s) (owner s) n (next s).

Definition in_driver {A} (m : KM (irp_state LI LR) A) : M A := fun s =>
  match m (drv s) with Ok (a, d) => Ok (a, set_drv d s) | Crash f => Crash f end.
Definition in_client {A} (m : KM kernel_interface A) : M A := fun s =>
  match m (client s) with Ok (a, k) => Ok (a, set_client k s) | Crash f => Crash f end.

(** ** Sending a request *)

Definition ERROR_SUCCESS : Z := 0.
Definition ERROR_INVALID_FUNCTION : Z := 1.
Definition ERROR_IO_PENDING : Z := 997.

(** The I/O manager's request for an overlapped call with an output buffer only. *)
Definition new_request (p : Z) (event : nat) (r : device_request) : M unit :=
  modify (fun s => set_owner (<[p := event]> (owner s)) (next s + 1) s) ≫= fun _ =>
  in_driver (store_irp p (Irp (Some (IoStack (zlen (input r)) (output_size r) (code r))) (stale p) 0 0)).

(** [DeviceIoControl] with an [OVERLAPPED]: [TRUE] when the request is completed at once,
    [FALSE] when it is pending and when it fails, as it does without a session. *)
Definition DeviceIoControl (event : nat) (r : device_request) : M Z :=
  active ← gets session;
  if negb active then mret 0
  else
    p ← gets next;
    new_request p event r ≫= fun _ =>
    status ← in_driver (InsertIrpIntoQueue p);
    mret (if status =? STATUS_SUCCESS then 1 else 0).

(** The end of [send_pending_irp]: the result of [DeviceIoControl] is taken for an error
    code. *)
Definition check_status (status : Z) : M unit :=
  if (status =? ERROR_IO_PENDING) || (status =? ERROR_SUCCESS) || (status =? ERROR_INVALID_FUNCTION) then mret tt
  else modify (fun s => set_client (LOG_ERROR "failed to insert irp into irp queue" (client s)) s).

(** ** The threads *)

(** One step of thread [t]; [None] when it is blocked or has returned. *)
Definition thread_step (th : thread) s : option (res (thread * S)) :=
  match th with
  | Initiating O => None
  | Initiating (Datatypes.S n) => Some (Ok (Sending (Some n), s))
  | Waiting =>
      match port (client s) with
      | [] => None
      | io :: rest => Some (Ok (Dequeued io, set_client (set_port rest (client s)) s))
      end
  | Dequeued io => Some (Ok (Holding io (get_buffer_from_event_object io (client s)), s))
  | Holding io buffer =>
      Some (bytes ← read_buffer buffer (client s);
            lines ← print_kernel_report bytes;
            Ok (Printed io, set_client (add_printed lines (client s)) s))
  | Printed io =>
      Some ('(_, s) ← in_client (release_event_object io) s; Ok (Sending None, s))
  | Sending after =>
      let '(event, k) := get_free_event_entry (client s) in
      Some (Ok (match event with
                | Some event => (Requesting event after, set_client k s)
                | None => (resume after, set_client (LOG_ERROR "All event objects in use." k) s)
                end))
  | Requesting event after =>
      Some ('(_, s) ← (match events (client s) !! event with
                       | None => crash UnmappedRead
                       | Some e =>
                           status ← DeviceIoControl event (pending_irp (buffer_size e));
                           check_status status
                       end : M unit) s;
            Ok (resume after, s))
  end.

(** ** The I/O manager and the driver *)

(** A completed request is given back: its bytes go to the client's buffer, its event is
    set and a packet is queued. *)
Definition give_back s : option (res S) :=
  match completed (drv s) !! handled s with
  | None => None
  | Some (p, irp) =>
      Some (match owner s !! p with
            | None => Crash UnmappedRead
            | Some io =>
                match events (client s) !! io with
                | None => Crash UnmappedRead
                | Some e =>
                    match Client.buffer e with
                    | None => Crash UnmappedRead
                    | Some b =>
                        b ← copy_to b (payload (p, irp));
                        Ok (set_handled (Datatypes.S (handled s))
                             (set_client (set_port (port (client s) ++ [io])
                                (set_events (<[io := EventDispatcher (in_use e) ((fun _ => true) <$> hEvent e)
                                                       (Some b) (Client.buffer_size e)]> (events (client s)))
                                   (client s))) s))
                    end
                end
            end)
  end.

(** The driver allocates a report, fills it in and hands it to its queue. *)
Definition send_report (bytes : list Z) : M NTSTATUS :=
  B ← gets next;
  modify (fun s => set_owner (owner s) (next s + 1) s) ≫= fun _ =>
  in_driver (modify (fun d => set_pool (<[B := bytes]> (buffers d)) (live_reports d) (pool_requests d) d)) ≫= fun _ =>
  in_driver (IrpQueueCompleteIrp B (zlen bytes)).

Inductive action := Run (t : nat) | GiveBack | Report (bytes : list Z).

Definition step (a : action) s : option (res S) :=
  match a with
  | Run t =>
      th ← threads s !! t;
      r ← thread_step th s;
      Some ('(th, s) ← r; Ok (set_thread t th s))
  | GiveBack => give_back s
  | Report bytes => Some ('(_, s) ← send_report bytes s; Ok s)
  end.

(** A schedule; actions that are not possible are passed over. *)
Fixpoint run (l : list action) s : res S :=
  match l with
  | [] => Ok s
  | a :: l =>
      match step a s with
      | None => run l s
      | Some (Ok s) => run l s
      | Some (Crash f) => Crash f
      end
  end.

(** ** The client's constructor and destructor *)

(** [initiate_completion_port], up to the requests, which the first thread sends;
    [created] says whether the completion port could be created, and addresses from
    [fresh] on are free. *)
Definition initiate_completion_port (heap : nat -> list Z) (created : bool) (workers : nat)
    (d : irp_state LI LR) (active : bool) (fresh : Z) : S :=
  let k := create_events heap (KernelInterface [] [] [] []) in
  let k := if created then k else LOG_ERROR "CreateIoCompletePort failed" k in
  System k (Initiating (if created then EVENT_COUNT else 0) :: replicate workers Waiting) d active ∅
    (length (completed d)) fresh.

(** The destructor: the buffers are freed before the driver is told; the session ends
    then. *)
Definition destroy : M unit :=
  in_client terminate_completion_port ≫= fun _ => modify (set_session false).

End operations.

(** ** Where the events and the reports are *)

Section specification.
Context {LI LR : Type} `{!ListEntryApi LI Z} `{!ListEntryApi LR DEFERRED_REPORT}.
Context {HLI : ListEntryLaws LI Z} {HLR : ListEntryLaws LR DEFERRED_REPORT}.
Context {P : Pool} {C : CsqApi (LI := LI) (LR := LR)} {HC : CsqLaws C}.
Implicit Types s : system LI LR.
Context (stale : Z -> list Z) (stale_size : forall p, zlen (stale p) = MAXIMUM_REPORT_BUFFER_SIZE).
Context (grants : forall n, pool_grants n = true).

(** The event a thread works on, whether it has still to print its report, and the
    requests a thread is going to send. *)
Definition thread_event (th : thread) : option nat :=
  match th with
  | Dequeued io | Holding io _ | Printed io | Requesting io _ => Some io
  | _ => None
  end.
Definition unprinted (th : thread) : option nat :=
  match th with Dequeued io | Holding io _ => Some io | _ => None end.
Definition requests_left (after : option nat) : nat := default 0%nat after.
Definition sends (th : thread) : nat :=
  match th with
  | Initiating n => n
  | Sending after => Datatypes.S (requests_left after)
  | Requesting _ after => requests_left after
  | Printed _ | Waiting | Dequeued _ | Holding _ _ => 0
  end.
Definition thread_ok (th : thread) : Prop :=
  match th with Holding io buffer => buffer = Some io | _ => True end.

(** The completed requests the I/O manager has not given back. *)
Definition unhandled s : list (Z * IRP) := drop (handled s) (completed (drv s)).
Definition owner_of s (p : Z) : nat := default 0%nat (owner s !! p).

(** The events in use: a request of theirs is with the driver or on its way back, their
    packet is in the port, or a thread works on them. *)
Definition places s : list nat :=
  (owner_of s <$> contents (queue (drv s)) ++ (unhandled s).*1)
    ++ port (client s) ++ omap thread_event (threads s).

Definition event_bytes (k : kernel_interface) (io : nat) : list Z :=
  match events k !! io with Some e => default [] (Client.buffer e) | None => [] end.

(** The reports that have left the driver's producers and are not on the screen: in a
    buffer of the client, in a completed request, or deferred. *)
Definition other_reports s : list (list Z) := (payload <$> unhandled s) ++ pending_reports (drv s).
Definition in_flight s : list (list Z) :=
  (event_bytes (client s) <$> port (client s) ++ omap unprinted (threads s)) ++ other_reports s.

Definition printable (bytes : list Z) : Prop := exists l, print_kernel_report bytes = Ok l.
Definition display (bytes : list Z) : list line :=
  match print_kernel_report bytes with Ok l => l | Crash _ => [] end.

(** An event is in use exactly if it is in one of the places, and every buffer has its
    size. *)
Record pool_ok (l : list event_dispatcher) (pl : list nat) (n : nat) : Prop := {
  po_length : length l = EVENT_COUNT;
  po_nodup : NoDup pl;
  po_range : Forall (fun io => io < EVENT_COUNT)%nat pl;
  po_count : (length pl + n)%nat = EVENT_COUNT;
  po_events i e : l !! i = Some e ->
    (in_use e = true <-> i ∈ pl) /\ Client.buffer_size e = MAXIMUM_REPORT_BUFFER_SIZE /\
    exists b, Client.buffer e = Some b /\ zlen b = MAXIMUM_REPORT_BUFFER_SIZE;
}.

Record protocol_inv (sent : list (list Z)) s : Prop := {
  pi_session : session s = true;
  pi_drv : delivery_inv MAXIMUM_REPORT_BUFFER_SIZE (drv s) [] [];
  pi_next p : p ∈ dom (irps (drv s)) \/ p ∈ dom (buffers (drv s)) -> p < next s;
  pi_owner p : p ∈ contents (queue (drv s)) ++ (unhandled s).*1 -> is_Some (owner s !! p) /\ p < next s;
  pi_handled : (handled s <= length (completed (drv s)))%nat;
  pi_unhandled : Forall (fun c => zlen (payload c) <= MAXIMUM_REPORT_BUFFER_SIZE) (unhandled s);
  pi_pool : pool_ok (events (client s)) (places s) (sum_list_with sends (threads s));
  pi_threads : Forall thread_ok (threads s);
  pi_printable : Forall printable (in_flight s);
  pi_conserved : printed (client s) ++ (display <$> in_flight s) ≡ₚ display <$> sent;
  pi_errors : errors (client s) = [];
}.

(** *** The pool of events *)

Lemma pool_ok_perm l pl pl' n : pl ≡ₚ pl' -> pool_ok l pl n -> pool_ok l pl' n.
Proof.
  intros E [H1 H2 H3 H4 H5]. split; [done|by rewrite <- E..|].
  intros i e Hi. rewrite <- E. by apply H5.
Qed.

(** With a request to send there is an event that is not in use, and the first such
    event is taken. *)
Lemma free_event k pl n :
  pool_ok (events k) pl (Datatypes.S n) ->
  exists io k', get_free_event_entry k = (Some io, k') /\ pool_ok (events k') (io :: pl) n /\
    port k' = port k /\ printed k' = printed k /\ errors k' = errors k /\
    (forall j, Client.buffer <$> events k' !! j = Client.buffer <$> events k !! j).
Proof.
  intros [H1 H2 H3 H4 H5]. unfold get_free_event_entry.
  destruct (list_find (fun e => in_use e = false) (events k)) as [[io e]|] eqn:E.
  - apply list_find_Some in E as (Hio & Hfree & _). exists io. eexists. split; [done|]. cbn [events set_events port printed errors].
    assert (io ∉ pl) as Hn.
    { intros Hin. apply (proj1 (H5 _ _ Hio)) in Hin. congruence. }
    assert (io < length (events k))%nat as Hlt by (by eapply lookup_lt_Some).
    split; [|split; [done|split; [done|split; [done|]]]].
    + split; cbn; [by rewrite length_insert|by constructor|constructor; [lia|done]|lia|].
      intros i e' Hi. apply list_lookup_insert_Some in Hi as [(<- & <- & _)|[Hne Hi]]; cbn.
      * split; [split; [by left|done]|]. apply (H5 _ _ Hio).
      * split; [|apply (H5 _ _ Hi)]. rewrite elem_of_cons, (proj1 (H5 _ _ Hi)). naive_solver.
    + intros j. destruct (decide (j = io)) as [->|Hne].
      * by rewrite list_lookup_insert_eq, Hio by done.
      * by rewrite list_lookup_insert_ne by done.
  - exfalso. apply list_find_None in E. rewrite Forall_forall in E.
    assert (seq 0 EVENT_COUNT ⊆+ pl) as Hsub.
    { apply NoDup_submseteq; [apply NoDup_seq|]. intros i Hi%elem_of_seq.
      destruct (lookup_lt_is_Some_2 (events k) i) as [e He]; [lia|].
      apply (proj1 (H5 _ _ He)). destruct (in_use e) eqn:Eu; [done|]. exfalso. eapply E; [|done].
      by eapply list_elem_of_lookup_2. }
    apply submseteq_length in Hsub. rewrite length_seq in Hsub. lia.
Qed.

(** *** The driver's side of a step *)

Lemma advance_facts max (d d' : irp_state LI LR) news reqs h :
  conserved d d' news reqs -> progress max d d' -> (h <= length (completed d))%nat ->
  exists done, drop h (completed d') = drop h (completed d) ++ done /\
    (h <= length (completed d'))%nat /\
    done.*1 ++ contents (queue d') = contents (queue d) ++ reqs /\
    (payload <$> done) ++ pending_reports d' = pending_reports d ++ news /\
    Forall (fun c => zlen (payload c) <= max) done.
Proof.
  intros [H1 H2] ((dn & E & Hdn) & _) Hh. exists dn. rewrite E in *. split; [by rewrite drop_app_le|].
  split; [rewrite length_app; lia|]. rewrite !fmap_app, <- !app_assoc in *.
  apply app_inv_head in H1, H2. split_and!; [done..|]. eapply Forall_impl; [exact Hdn|].
  intros [p irp] (bytes & irp0 & Ei & Hb). cbn in Ei. subst irp. rewrite (payload_delivered p). lia.
Qed.

(** What the steps that change the driver's queue have in common: [d] is its state once
    the new request or the new report is in place and [d'] the state after the call. *)
Lemma advance sent s d d' news reqs ths ow n :
  protocol_inv sent s ->
  queue d = queue (drv s) -> completed d = completed (drv s) -> pending_reports d = pending_reports (drv s) ->
  delivery_inv MAXIMUM_REPORT_BUFFER_SIZE d' [] [] -> conserved d d' news reqs ->
  progress MAXIMUM_REPORT_BUFFER_SIZE d d' ->
  (forall p, p ∈ dom (irps d) \/ p ∈ dom (buffers d) -> p < n) -> next s <= n ->
  (forall p, p < next s -> ow !! p = owner s !! p) -> Forall (fun p => is_Some (ow !! p) /\ p < n) reqs ->
  ((fun p => default 0%nat (ow !! p)) <$> reqs) ++ omap thread_event ths ≡ₚ omap thread_event (threads s) ->
  omap unprinted ths ≡ₚ omap unprinted (threads s) ->
  sum_list_with sends ths = sum_list_with sends (threads s) -> Forall thread_ok ths ->
  Forall printable news ->
  protocol_inv (sent ++ news) (System (client s) ths d' true ow (handled s) n) /\
  length (other_reports (System (client s) ths d' true ow (handled s) n)) = (length (other_reports s) + length news)%nat.
Proof.
  intros [Hse Hd Hn Ho Hh Hu Hp Ht Hpr Hc He] Eq Ec Ep Hd' Hcons Hprog Hn' Hle How Hreqs Hev Hun Hsum Hok Hnews.
  destruct (advance_facts _ _ _ _ _ (handled s) Hcons Hprog) as (dn & Eu & Hh' & Hq & Hpay & Hdn); [by rewrite Ec|].
  rewrite Eq, Ec, Ep in *. fold (unhandled s) in Eu.
  set (s' := System (client s) ths d' true ow (handled s) n).
  assert (unhandled s' = unhandled s ++ dn) as Eu' by exact Eu.
  assert (contents (queue d') ++ (unhandled s').*1 ≡ₚ (contents (queue (drv s)) ++ (unhandled s).*1) ++ reqs) as Eplaces.
  { rewrite Eu', fmap_app, <- app_assoc, (Permutation_app_comm (unhandled s).*1 reqs), (app_assoc _ reqs), <- Hq.
    solve_Permutation. }
  assert (Forall (fun p => ow !! p = owner s !! p /\ is_Some (ow !! p) /\ p < n)
            (contents (queue (drv s)) ++ (unhandled s).*1)) as Hold.
  { apply Forall_forall. intros p Hin. destruct (Ho p Hin) as [Hs Hlt]. rewrite (How p Hlt). split; [done|]. split; [done|lia]. }
  assert (places s' ≡ₚ places s) as Eall.
  { unfold places, owner_of. cbn [drv port client threads owner s']. rewrite Eplaces, fmap_app.
    rewrite <- Hev. erewrite (Forall_fmap_ext_1 _ (fun p => default 0%nat (owner s !! p)) (contents (queue (drv s)) ++ _)).
    2: { eapply Forall_impl; [exact Hold|]. by intros p [-> _]. }
    solve_Permutation. }
  assert (in_flight s' ≡ₚ in_flight s ++ news) as Efl.
  { unfold in_flight, other_reports. cbn [drv client threads s']. rewrite Eu', Hun, !fmap_app, <- !app_assoc, Hpay.
    done. }
  split.
  2: { fold s'. unfold other_reports. rewrite Eu'. cbn [drv s']. rewrite fmap_app, <- app_assoc, Hpay, !length_app. lia. }
  split; cbn [session drv next owner handled client threads s']; try done.
  - intros p Hin. apply Hn'. destruct Hprog as (_ & H1 & H2). set_solver.
  - intros p. rewrite Eplaces. rewrite Forall_forall in Hold, Hreqs. intros [Hin|Hin]%elem_of_app.
    + apply (Hold p Hin).
    + apply (Hreqs p Hin).
  - rewrite Eu'. by apply Forall_app.
  - rewrite Hsum. by eapply pool_ok_perm; [symmetry|].
  - rewrite Efl. by apply Forall_app.
  - rewrite Efl, !fmap_app, app_assoc, Hc. done.
Qed.

Lemma inv_with_report max (d : irp_state LI LR) B bytes :
  delivery_inv max d [] [] -> B ∉ dom (buffers d) -> 0 < zlen bytes <= max ->
  zlen (contents (deferred d)) <= MAX_DEFERRED_REPORTS_COUNT ->
  delivery_inv max (set_pool (<[B := bytes]> (buffers d)) (live_reports d) (pool_requests d) d)
    [(B, zlen bytes)] [] /\
  pending_reports (set_pool (<[B := bytes]> (buffers d)) (live_reports d) (pool_requests d) d) = pending_reports d.
Proof.
  intros [Hc Hdf Hlv Hl Hx Hr Hro HR HRo Hb Hlim] HB Hsz Hroom.
  assert (B ∉ IrpQueue.buffer <$> contents (deferred d)) as Hfresh.
  { intros (r & -> & Hin)%list_elem_of_fmap. apply HB.
    destruct (HRo (IrpQueue.buffer r) (IrpQueue.buffer_size r)) as (b & Hlk & _).
    { rewrite app_nil_r. apply list_elem_of_fmap. by exists r. }
    by eapply elem_of_dom_2. }
  split.
  - split; cbn; try done.
    + apply NoDup_app. cbn in HR. rewrite app_nil_r in HR. split; [done|]. split; [|apply NoDup_singleton].
      intros B' Hin. rewrite list_elem_of_singleton. by intros ->.
    + intros B' n [Hin|Hin%list_elem_of_singleton]%elem_of_app.
      * destruct (HRo B' n) as (b & Hlk & Hw); [by rewrite app_nil_r|]. exists b. split; [|done].
        rewrite lookup_insert_ne; [done|]. intros <-. apply Hfresh.
        apply list_elem_of_fmap in Hin as (r & [= -> _] & Hin). apply list_elem_of_fmap. by exists r.
      * injection Hin as -> ->. exists bytes. split; [by apply lookup_insert_eq|]. done.
    + unfold zlen in *. cbn. lia.
  - unfold pending_reports. cbn. apply list_fmap_ext. intros i r Hi. unfold report_bytes.
    rewrite lookup_insert_ne; [done|]. intros ->. apply Hfresh, list_elem_of_fmap. exists r.
    split; [done|]. by eapply list_elem_of_lookup_2.
Qed.

Lemma inv_with_request max (d : irp_state LI LR) p irp io :
  delivery_inv max d [] [] -> p ∉ dom (irps d) -> irp_wf irp io -> max <= OutputBufferLength io ->
  zlen (contents (queue d)) + 1 < 2 ^ 32 ->
  delivery_inv max (set_irps (<[p := irp]> (irps d)) (completed d) d) [] [p].
Proof.
  intros [Hc Hdf Hlv Hl Hx Hr Hro HR HRo Hb Hlim] Hp Hwf Hmax Hbound. rewrite app_nil_r in Hr, Hro.
  assert (p ∉ contents (queue d)) as Hfresh.
  { intros Hin. apply Hp. destruct (Hro p Hin) as (i & o & Hlk & _). by eapply elem_of_dom_2. }
  split; cbn; try done.
  - apply NoDup_app. split; [done|]. split; [|apply NoDup_singleton].
    intros q Hin. rewrite list_elem_of_singleton. by intros ->.
  - intros q [Hin|Hin%list_elem_of_singleton]%elem_of_app; [|subst q].
    + destruct (Hro q Hin) as (i & o & Hlk & Hw). exists i, o. split; [|done].
      rewrite lookup_insert_ne; [done|]. by intros ->.
    + exists irp, io. split; [by apply lookup_insert_eq|]. done.
Qed.

(** A report of the driver. *)
Lemma report_step sent s bytes :
  protocol_inv sent s -> printable bytes -> 0 < zlen bytes <= MAXIMUM_REPORT_BUFFER_SIZE ->
  deferred_count (drv s) <= MAX_DEFERRED_REPORTS_COUNT ->
  exists s', send_report bytes s = Ok (STATUS_SUCCESS, s') /\ protocol_inv (sent ++ [bytes]) s'.
Proof.
  intros Hinv Hpr Hsz Hroom. pose proof Hinv as [Hse Hd Hn Ho Hh Hu Hp Ht Hpri Hc He].
  assert (next s ∉ dom (buffers (drv s))) as HB.
  { intros Hin. specialize (Hn (next s) (or_intror Hin)). lia. }
  rewrite (di_deferred _ _ _ _ Hd) in Hroom.
  destruct (inv_with_report _ _ _ _ Hd HB Hsz Hroom) as [Hd1 Hpend].
  set (d := set_pool (<[next s := bytes]> (buffers (drv s))) (live_reports (drv s)) (pool_requests (drv s)) (drv s)) in *.
  assert (exists d', IrpQueueCompleteIrp (next s) (zlen bytes) d = Ok (STATUS_SUCCESS, d') /\
    delivery_inv MAXIMUM_REPORT_BUFFER_SIZE d' [] [] /\ conserved d d' [bytes] [] /\
    progress MAXIMUM_REPORT_BUFFER_SIZE d d') as (d' & Hcall & Hd' & Hcons & Hprog).
  { assert (report_bytes (buffers d) (next s) = bytes) as Eb.
    { unfold report_bytes. cbn. by rewrite lookup_insert_eq. }
    destruct (decide (contents (queue d) = [])) as [Hq|Hq].
    - destruct (report_deferred _ d _ _ _ _ Hd1 Hq (grants _)) as (d' & ? & ? & Hcons & _ & ?).
      rewrite Eb in Hcons. by exists d'.
    - destruct (report_delivered _ d _ _ _ _ Hd1 Hq) as (d' & ? & ? & Hcons & _ & ?).
      rewrite Eb in Hcons. by exists d'. }
  eexists. split.
  { unfold send_report. erewrite KM_step by done. erewrite KM_step by done. erewrite KM_step by done.
    unfold in_driver at 1. cbn [drv set_drv set_owner]. fold d. rewrite Hcall. reflexivity. }
  unfold set_drv, set_owner. cbn [client threads drv session owner handled next]. rewrite Hse.
  eapply (advance sent s d d' [bytes] []); try done.
  - intros p. cbn. rewrite dom_insert_L, elem_of_union, elem_of_singleton. intros [Hin|[->|Hin]];
      [|lia|]; (pose proof (Hn p); naive_solver lia).
  - lia.
  - by constructor.
Qed.

(** *** The client's side of a step *)

Lemma thread_split (l : list thread) t th :
  l !! t = Some th -> exists rest, l ≡ₚ th :: rest /\ forall th', <[t := th']> l ≡ₚ th' :: rest.
Proof.
  intros H. exists (take t l ++ drop (Datatypes.S t) l). split.
  - rewrite <- (take_drop_middle l t th H) at 1. by rewrite Permutation_middle.
  - intros th'. rewrite insert_take_drop by (by eapply lookup_lt_Some). by rewrite Permutation_middle.
Qed.

(** The places and the reports in flight, with one thread apart from the [rest]. *)
Definition other_places s (rest : list thread) : list nat :=
  (owner_of s <$> contents (queue (drv s)) ++ (unhandled s).*1) ++ omap thread_event rest.

Lemma places_split s th rest :
  threads s ≡ₚ th :: rest ->
  places s ≡ₚ option_list (thread_event th) ++ port (client s) ++ other_places s rest /\
  in_flight s ≡ₚ (event_bytes (client s) <$> port (client s) ++ option_list (unprinted th) ++ omap unprinted rest)
                   ++ other_reports s /\
  sum_list_with sends (threads s) = (sends th + sum_list_with sends rest)%nat /\
  (Forall thread_ok (threads s) <-> thread_ok th /\ Forall thread_ok rest).
Proof.
  intros E. unfold places, in_flight, other_places, other_reports. rewrite !E. cbn [sum_list_with]. split_and!.
  - cbn [omap list_omap]. destruct (thread_event th); cbn [option_list option_rect app]; solve_Permutation.
  - cbn [omap list_omap]. by destruct (unprinted th).
  - done.
  - apply Forall_cons.
Qed.

(** A step of thread [t] from [th] to [th'] that leaves the driver alone. *)
Lemma client_step sent s t th th' k' :
  protocol_inv sent s -> threads s !! t = Some th -> thread_ok th' -> errors k' = errors (client s) ->
  (forall pl n, pool_ok (events (client s)) (option_list (thread_event th) ++ port (client s) ++ pl) (sends th + n) ->
     pool_ok (events k') (option_list (thread_event th') ++ port k' ++ pl) (sends th' + n)) ->
  (forall ios rs, NoDup (port (client s) ++ option_list (thread_event th) ++ ios) ->
     Forall printable ((event_bytes (client s) <$> port (client s) ++ option_list (unprinted th)) ++ rs) ->
     (event_bytes k' <$> ios) = (event_bytes (client s) <$> ios) /\
     Forall printable (event_bytes k' <$> port k' ++ option_list (unprinted th')) /\
     printed k' ++ (display <$> (event_bytes k' <$> port k' ++ option_list (unprinted th')))
       ≡ₚ printed (client s)
            ++ (display <$> (event_bytes (client s) <$> port (client s) ++ option_list (unprinted th)))) ->
  protocol_inv sent (set_thread t th' (set_client k' s)).
Proof.
  intros Hinv Ht Hok Herr Hpool Hfl. pose proof Hinv as [Hse Hd Hn Ho Hh Hu Hp Hth Hpr Hc He].
  destruct (thread_split _ _ _ Ht) as (rest & E & E').
  destruct (places_split s th rest E) as (Epl & Efl & Esum & Eth).
  set (s' := set_thread t th' (set_client k' s)).
  destruct (places_split s' th' rest (E' th')) as (Epl' & Efl' & Esum' & Eth').
  change (other_places s' rest) with (other_places s rest) in Epl'.
  change (other_reports s') with (other_reports s) in Efl'. change (client s') with k' in *.
  pose proof (pool_ok_perm _ _ _ _ Epl Hp) as Hp1. rewrite Esum in Hp1.
  rewrite Efl in Hpr, Hc. rewrite app_assoc in Hpr, Hc, Efl, Efl'. rewrite fmap_app in Hpr, Hc, Efl, Efl'.
  assert (exists tl, omap thread_event rest ≡ₚ omap unprinted rest ++ tl) as [tl Etl].
  { clear. induction rest as [|th rest [tl IH]]; [by exists []|].
    destruct th as [n| |io|io b|io|a|io a]; cbn [omap list_omap thread_event unprinted];
      [by exists tl|by exists tl| | | |by exists tl|].
    1,2: exists tl; by apply Permutation_skip.
    all: exists (io :: tl); rewrite <- Permutation_middle; by apply Permutation_skip. }
  destruct (Hfl (omap unprinted rest) ((event_bytes (client s) <$> omap unprinted rest) ++ other_reports s))
    as (Esame & Hpr' & Hc').
  { pose proof (po_nodup _ _ _ Hp1) as Hnd. unfold other_places in Hnd. rewrite Etl in Hnd.
    assert (forall a b c d e : list nat, NoDup (a ++ b ++ c ++ d ++ e) -> NoDup (b ++ a ++ d)) as Hsub.
    { clear. intros a b c d e H.
      assert (a ++ b ++ c ++ d ++ e ≡ₚ (b ++ a ++ d) ++ c ++ e) as E by solve_Permutation.
      rewrite E in H. by apply NoDup_app in H as [? _]. }
    by eapply Hsub. }
  { by rewrite app_assoc. }
  split; cbn [session drv next owner handled]; try done.
  - rewrite Esum'. eapply pool_ok_perm; [symmetry; exact Epl'|]. by apply Hpool.
  - apply Eth'. split; [done|]. by apply Eth.
  - rewrite Efl', Esame. rewrite <- app_assoc in Hpr |- *. apply Forall_app in Hpr as [_ Hpr]. by apply Forall_app.
  - rewrite Efl', Esame, <- app_assoc, fmap_app, app_assoc.
    change (client s') with k'. rewrite Hc', <- Hc, <- !app_assoc, !fmap_app, <- ?app_assoc. done.
  - change (client s') with k'. by rewrite Herr.
Qed.

(** The event of a thread, with its buffer. *)
Lemma thread_event_ok sent s t th io :
  protocol_inv sent s -> threads s !! t = Some th -> thread_event th = Some io ->
  exists e b, events (client s) !! io = Some e /\ Client.buffer e = Some b /\ event_bytes (client s) io = b /\
    zlen b = MAXIMUM_REPORT_BUFFER_SIZE /\ Client.buffer_size e = MAXIMUM_REPORT_BUFFER_SIZE /\
    (unprinted th = Some io -> printable b).
Proof.
  intros Hinv Ht Hio. destruct (thread_split _ _ _ Ht) as (rest & E & _).
  destruct (places_split s th rest E) as (Epl & Efl & _). pose proof (pi_pool _ _ Hinv) as Hp.
  pose proof (po_range _ _ _ Hp) as Hr. rewrite Epl, Hio in Hr. cbn [option_list option_rect app] in Hr. apply Forall_cons in Hr as [Hlt _].
  destruct (lookup_lt_is_Some_2 (events (client s)) io) as [e He]; [by rewrite (po_length _ _ _ Hp)|].
  destruct (po_events _ _ _ Hp _ _ He) as (_ & Hsz & b & Hb & Hz).
  assert (event_bytes (client s) io = b) as Eb by (unfold event_bytes; by rewrite He, Hb).
  exists e, b. split_and!; try done. intros Hun. pose proof (pi_printable _ _ Hinv) as Hpr.
  rewrite Efl, Hun in Hpr. cbn [option_list option_rect] in Hpr. rewrite Forall_app, Forall_fmap in Hpr. destruct Hpr as [Hpr _].
  rewrite !Forall_app in Hpr. destruct Hpr as [_ [Hpr _]]. apply Forall_cons in Hpr as [Hpr _]. cbn in Hpr. by rewrite <- Eb.
Qed.

(** Releasing an event that is in one place only. *)
Lemma release_ok sent s t io :
  protocol_inv sent s -> threads s !! t = Some (Printed io) ->
  exists k', release_event_object io (client s) = Ok (tt, k') /\
    protocol_inv sent (set_thread t (Sending None) (set_client k' s)).
Proof.
  intros Hinv Ht. destruct (thread_event_ok _ _ _ _ io Hinv Ht eq_refl) as (e & b & He & Hb & Eb & Hz & Hsz & _).
  eexists. split.
  { unfold release_event_object. rewrite He, Hb, Hsz, copy_to_ok; [reflexivity|].
    rewrite length_replicate. unfold zlen in Hz. lia. }
  assert (io < length (events (client s)))%nat as Hlt by (by eapply lookup_lt_Some).
  eapply (client_step sent s t (Printed io)); try done.
  - intros pl n [H1 H2 H3 H4 H5]. cbn [thread_event option_list option_rect app sends requests_left default] in *. split; cbn.
    + by rewrite length_insert.
    + by apply NoDup_cons in H2 as [_ ?].
    + by apply Forall_cons in H3 as [_ ?].
    + cbn in H4. lia.
    + apply NoDup_cons in H2 as [H2 _]. intros i e' Hi. apply list_lookup_insert_Some in Hi as [(<- & <- & _)|[Hne Hi]]; cbn.
      * split; [split; [done|intros ?; done]|]. split; [done|]. eexists. split; [done|].
        unfold zlen in *. rewrite length_app, length_replicate, length_drop. lia.
      * split; [|apply (H5 _ _ Hi)]. rewrite (proj1 (H5 _ _ Hi)). cbn. rewrite elem_of_cons. naive_solver.
  - intros ios rs Hnd Hpr. cbn [thread_event unprinted option_list option_rect] in *.
    assert (forall j, j <> io -> event_bytes (set_events (<[io := EventDispatcher false ((fun _ => false) <$> hEvent e)
      (Some (replicate (Z.to_nat MAXIMUM_REPORT_BUFFER_SIZE) 0 ++ drop (length (replicate (Z.to_nat MAXIMUM_REPORT_BUFFER_SIZE) 0)) b))
      MAXIMUM_REPORT_BUFFER_SIZE]> (events (client s))) (client s)) j = event_bytes (client s) j) as Hsame.
    { intros j Hj. unfold event_bytes. cbn [events set_events]. by rewrite list_lookup_insert_ne. }
    cbn [port set_events printed]. rewrite !app_nil_r in *. rewrite NoDup_app in Hnd.
    destruct Hnd as (_ & Hport & Hios). cbn in Hios. apply NoDup_cons in Hios as [Hios _].
    assert (forall l, io ∉ l -> Forall (fun j => j <> io) l) as Hne.
    { intros l Hl. apply Forall_forall. by intros j Hj ->. }
    assert (io ∉ port (client s)) as Hio by (intros Hin; apply (Hport io Hin); by left).
    erewrite (Forall_fmap_ext_1 _ _ ios), (Forall_fmap_ext_1 _ _ (port (client s))).
    2,3: eapply Forall_impl; [by apply Hne|]; intros j Hj; by apply Hsame.
    rewrite Forall_app in Hpr. split; [done|]. by split; [apply Hpr|].
Qed.

(** Every step of a thread but the request itself keeps the invariant. *)
Lemma thread_step_ok sent s t th r :
  protocol_inv sent s -> threads s !! t = Some th -> (forall io after, th <> Requesting io after) ->
  thread_step stale th s = Some r ->
  exists th' k', r = Ok (th', set_client k' s) /\ protocol_inv sent (set_thread t th' (set_client k' s)).
Proof.
  intros Hinv Ht Hnr. assert (s = set_client (client s) s) as Hs by by destruct s.
  destruct th as [[|n]| |io|io b|io|after|io after]; cbn [thread_step]; [done|..|by destruct (Hnr io after)].
  - intros [= <-]. eexists _, (client s). split; [by rewrite <- Hs|]. eapply (client_step sent s t); try done.
    intros ios rs _ Hpr. rewrite Forall_app in Hpr. split; [done|]. by split; [apply Hpr|].
  - destruct (port (client s)) as [|io rest] eqn:Eport; [done|]. intros [= <-]. eexists _, _. split; [done|].
    eapply (client_step sent s t); try done; rewrite ?Eport; cbn [thread_event unprinted option_list option_rect port set_port].
    + intros pl n Hp. eapply pool_ok_perm; [|exact Hp]. cbn [app]. done.
    + intros ios rs _ Hpr. rewrite app_nil_r in *. apply Forall_app in Hpr as [Hpr _].
      change (event_bytes (set_port rest (client s))) with (event_bytes (client s)).
      assert (event_bytes (client s) <$> rest ++ [io] ≡ₚ event_bytes (client s) <$> io :: rest) as El
        by (apply fmap_Permutation; symmetry; apply Permutation_cons_append).
      split; [done|]. split; [exact (proj2 (Forall_Permutation _ _ (fun _ => iff_refl _) _ _ El) Hpr)|].
      apply Permutation_app_head, fmap_Permutation, El.
  - intros [= <-]. eexists _, (client s). split; [by rewrite <- Hs|].
    destruct (thread_event_ok _ _ _ _ io Hinv Ht eq_refl) as (e & b & He & _).
    eapply (client_step sent s t (Dequeued io)); try done.
    + cbn. unfold get_buffer_from_event_object. by rewrite He.
    + intros ios rs _ Hpr. rewrite Forall_app in Hpr. split; [done|]. by split; [apply Hpr|].
  - assert (b = Some io) as -> by exact (proj1 (Forall_lookup _ _) (pi_threads _ _ Hinv) _ _ Ht).
    destruct (thread_event_ok _ _ _ _ io Hinv Ht eq_refl) as (e & b & He & Hb & Eb & _ & _ & Hpr).
    destruct (Hpr eq_refl) as [lines Hl]. cbn [read_buffer]. rewrite He, Hb. munfold. rewrite Hl. intros [= <-].
    eexists _, _. split; [done|]. eapply (client_step sent s t (Holding io (Some io))); try done.
    intros ios rs _ Hpr'. change (event_bytes (add_printed lines (client s))) with (event_bytes (client s)).
    cbn [unprinted option_list option_rect port add_printed printed]. rewrite !app_nil_r, !fmap_app in *. cbn [fmap list_fmap] in *.
    rewrite !Forall_app in Hpr'. split; [done|]. split; [apply Hpr'|].
    unfold display at 3. rewrite Eb, Hl. solve_Permutation.
  - destruct (release_ok _ _ _ _ Hinv Ht) as (k' & Hrel & Hinv'). unfold in_client. rewrite Hrel. munfold. intros [= <-].
    by eexists _, _.
  - destruct (thread_split _ _ _ Ht) as (rest & E & _). destruct (places_split s _ rest E) as (Epl & _ & Esum & _).
    pose proof (pool_ok_perm _ _ _ _ Epl (pi_pool _ _ Hinv)) as Hp. rewrite Esum in Hp.
    cbn [thread_event option_list option_rect app sends Nat.add] in Hp.
    destruct (free_event _ _ _ Hp) as (io & k' & Hfree & _ & Hport & Hprt & Herr & Hbuf).
    rewrite Hfree. intros [= <-]. eexists _, _. split; [done|].
    assert (forall j, event_bytes k' j = event_bytes (client s) j) as Hsame.
    { intros j. unfold event_bytes. specialize (Hbuf j).
      destruct (events k' !! j), (events (client s) !! j); cbn in Hbuf; simplify_eq; [by f_equal|done]. }
    eapply (client_step sent s t (Sending after)); try done.
    + intros pl n Hp'. cbn [thread_event option_list option_rect app sends Nat.add] in *.
      destruct (free_event _ _ _ Hp') as (io2 & k2 & Hfree2 & Hp2 & _). rewrite Hfree in Hfree2. injection Hfree2 as <- <-.
      by rewrite Hport.
    + intros ios rs _ Hpr. cbn [unprinted option_list option_rect] in *. rewrite Hport, Hprt.
      assert (forall l : list nat, event_bytes k' <$> l = event_bytes (client s) <$> l) as Hl.
      { intros l. apply list_fmap_ext. intros; apply Hsame. }
      rewrite !Hl. rewrite Forall_app in Hpr. split; [done|]. by split; [apply Hpr|].
Qed.

(** The state once the driver has taken the request of event [io]. *)
Definition requested_by s (io : nat) (d' : irp_state LI LR) : system LI LR :=
  System (client s) (threads s) d' (session s) (<[next s := io]> (owner s)) (handled s) (next s + 1).

Lemma DeviceIoControl_ok s io r status d' :
  session s = true ->
  InsertIrpIntoQueue (next s)
    (set_irps (<[next s := Irp (Some (IoStack (zlen (input r)) (output_size r) (code r))) (stale (next s)) 0 0]>
                 (irps (drv s))) (completed (drv s)) (drv s)) = Ok (status, d') ->
  DeviceIoControl stale io r s = Ok (if status =? STATUS_SUCCESS then 1 else 0, requested_by s io d').
Proof.
  intros Hs Hcall. unfold DeviceIoControl. erewrite KM_step by done. rewrite Hs. cbn [negb].
  erewrite KM_step by done. erewrite KM_step; [|unfold new_request; by erewrite KM_step].
  erewrite KM_step; [reflexivity|]. unfold in_driver. cbn [drv set_drv set_owner]. by rewrite Hcall.
Qed.

(** Neither [TRUE] nor [FALSE] is taken for an error. *)
Lemma check_status_bool b s : check_status (LI := LI) (LR := LR) (if b : bool then 1 else 0) s = Ok (tt, s).
Proof. by destruct b. Qed.

(** Sending the request of an event: it waits with the driver, or takes a report that was
    deferred. *)
Lemma request_step sent s t io after r :
  protocol_inv sent s -> threads s !! t = Some (Requesting io after) ->
  thread_step stale (Requesting io after) s = Some r ->
  exists s', r = Ok (resume after, s') /\ protocol_inv sent (set_thread t (resume after) s') /\
    threads s' = threads s /\ client s' = client s /\ length (other_reports s') = length (other_reports s).
Proof.
  intros Hinv Ht. pose proof Hinv as [Hse Hd Hn Ho Hh Hu Hp Hth Hpr Hc He].
  destruct (thread_event_ok _ _ _ _ io Hinv Ht eq_refl) as (e & b & Hev & Hb & Eb & Hz & Hsz & _).
  set (irp := Irp (Some (IoStack 0 MAXIMUM_REPORT_BUFFER_SIZE (ioctl 0x20021))) (stale (next s)) 0 0).
  assert (next s ∉ dom (irps (drv s))) as Hfresh.
  { intros Hin. specialize (Hn _ (or_introl Hin)). lia. }
  assert (irp_wf irp (IoStack 0 MAXIMUM_REPORT_BUFFER_SIZE (ioctl 0x20021))) as Hwf.
  { split; cbn; [done|unfold MAXIMUM_REPORT_BUFFER_SIZE; lia|]. by rewrite stale_size. }
  assert (zlen (contents (queue (drv s))) + 1 < 2 ^ 32) as Hq.
  { pose proof (po_count _ _ _ Hp) as Hcount. unfold places in Hcount. rewrite !length_app, length_fmap, length_app in Hcount.
    unfold zlen, EVENT_COUNT in *. lia. }
  pose proof (inv_with_request _ _ _ irp _ Hd Hfresh Hwf ltac:(cbn; lia) Hq) as Hd1.
  set (d := set_irps (<[next s := irp]> (irps (drv s))) (completed (drv s)) (drv s)) in *.
  assert (exists status d', InsertIrpIntoQueue (next s) d = Ok (status, d') /\
    delivery_inv MAXIMUM_REPORT_BUFFER_SIZE d' [] [] /\ conserved d d' [] [next s] /\
    progress MAXIMUM_REPORT_BUFFER_SIZE d d') as (status & d' & Hcall & Hd' & Hcons & Hprog).
  { destruct (decide (contents (deferred d) = [])) as [Hdf|Hdf].
    - destruct (request_queued _ d _ _ _ Hd1 Hdf) as (d' & Hcall & ? & Hcons & _ & Hprog). by exists STATUS_PENDING, d'.
    - destruct (request_delivered _ d _ _ _ Hd1 Hdf) as (d' & ? & ? & Hcons & _ & ?). by exists STATUS_SUCCESS, d'. }
  assert (thread_step stale (Requesting io after) s = Some (Ok (resume after, requested_by s io d'))) as ->.
  { cbn [thread_step]. rewrite Hev, Hsz.
    erewrite KM_step by (eapply DeviceIoControl_ok; [done|exact Hcall]). by rewrite check_status_bool. }
  intros [= <-]. exists (requested_by s io d'). split; [done|].
  destruct (thread_split _ _ _ Ht) as (rest & E & E').
  destruct (advance sent s d d' [] [next s] (<[t := resume after]> (threads s)) (<[next s := io]> (owner s)) (next s + 1))
    as [Hinv' Hlen]; try done.
  - intros p. cbn. rewrite dom_insert_L, elem_of_union, elem_of_singleton. intros [[->|Hin]|Hin];
      [lia|..]; (pose proof (Hn p); naive_solver lia).
  - lia.
  - intros p Hlt. apply lookup_insert_ne. lia.
  - constructor; [|done]. split; [by rewrite lookup_insert_eq|lia].
  - rewrite E', E. cbn [fmap list_fmap omap list_omap thread_event]. rewrite lookup_insert_eq. by destruct after.
  - rewrite E', E. by destruct after.
  - rewrite E', E. by destruct after.
  - rewrite E'. rewrite E in Hth. apply Forall_cons in Hth as [_ Hth]. constructor; [by destruct after|done].
  - rewrite app_nil_r in Hinv'. split_and!; [|done|done|].
    + unfold set_thread, requested_by. cbn [client threads drv session owner handled next]. by rewrite Hse.
    + revert Hlen. cbn [length]. rewrite Nat.add_0_r. done.
Qed.

(** Giving a completed request back: its report moves to the buffer of its event. *)
Lemma give_back_step sent s r :
  protocol_inv sent s -> give_back s = Some r ->
  exists s' io, r = Ok s' /\ protocol_inv sent s' /\ threads s' = threads s /\ port (client s') = port (client s) ++ [io] /\
    length (other_reports s) = Datatypes.S (length (other_reports s')).
Proof.
  intros Hinv. pose proof Hinv as [Hse Hd Hn Ho Hh Hu Hp Hth Hpr Hc He]. unfold give_back.
  destruct (completed (drv s) !! handled s) as [[p irp]|] eqn:Edone; [|done].
  assert (unhandled s = (p, irp) :: drop (Datatypes.S (handled s)) (completed (drv s))) as Eu by by apply drop_S.
  set (more := drop (Datatypes.S (handled s)) (completed (drv s))) in *.
  destruct (Ho p) as [[io Hio] _]; [rewrite Eu; set_solver|].
  assert (owner_of s p = io) as Eown by (unfold owner_of; by rewrite Hio).
  assert (places s ≡ₚ io :: (owner_of s <$> contents (queue (drv s)) ++ more.*1) ++ port (client s) ++ omap thread_event (threads s))
    as Epl.
  { unfold places. rewrite Eu. cbn [fmap list_fmap fst]. rewrite <- Permutation_middle, fmap_cons, Eown. done. }
  pose proof (pool_ok_perm _ _ _ _ Epl Hp) as Hp1.
  pose proof (po_range _ _ _ Hp1) as Hr. apply Forall_cons in Hr as [Hlt _].
  destruct (lookup_lt_is_Some_2 (events (client s)) io) as [e Hev]; [by rewrite (po_length _ _ _ Hp)|].
  destruct (po_events _ _ _ Hp _ _ Hev) as (_ & Hsz & b & Hb & Hz).
  rewrite Eu in Hu. apply Forall_cons in Hu as [Hpay Hu].
  rewrite Hio, Hev, Hb, copy_to_ok by (unfold zlen in *; lia). munfold. intros [= <-].
  set (b' := payload (p, irp) ++ drop (length (payload (p, irp))) b).
  set (k' := set_port (port (client s) ++ [io]) (set_events (<[io := _]> (events (client s))) (client s))).
  set (s' := set_handled _ (set_client k' s)).
  assert (printable (payload (p, irp)) /\ display b' = display (payload (p, irp)) /\ printable b') as (Hprp & Edis & Hprb).
  { unfold in_flight, other_reports in Hpr. rewrite Eu, fmap_cons in Hpr. rewrite !Forall_app in Hpr.
    destruct Hpr as (_ & Hpr & _). apply Forall_cons in Hpr as [[l Hl] _].
    pose proof (print_kernel_report_app _ (drop (length (payload (p, irp))) b) _ Hl) as Hl'. fold b' in Hl'.
    split; [by exists l|]. split; [unfold display; by rewrite Hl, Hl'|by exists l]. }
  pose proof (po_nodup _ _ _ Hp1) as Hnd. apply NoDup_cons in Hnd as [Hnd _].
  assert (event_bytes k' <$> port (client s) ++ omap unprinted (threads s)
    = event_bytes (client s) <$> port (client s) ++ omap unprinted (threads s)) as Esame.
  { apply Forall_fmap_ext_1, Forall_forall. intros j Hj. unfold event_bytes. cbn [events k' set_port set_events].
    rewrite list_lookup_insert_ne; [done|]. intros <-. apply Hnd. rewrite !elem_of_app. right.
    apply elem_of_app in Hj as [?|Hj]; [by left|right]. apply list_elem_of_omap in Hj as (th & Hth' & Eth).
    apply list_elem_of_omap. exists th. split; [done|]. by destruct th. }
  assert (event_bytes k' io = b') as Eb'.
  { unfold event_bytes. cbn [events k' set_port set_events]. by rewrite list_lookup_insert_eq by (by rewrite (po_length _ _ _ Hp)). }
  assert (in_flight s' ≡ₚ b' :: (event_bytes (client s) <$> port (client s) ++ omap unprinted (threads s))
                             ++ (payload <$> more) ++ pending_reports (drv s)) as Efl'.
  { unfold in_flight. change (client s') with k'. change (threads s') with (threads s).
    change (other_reports s') with ((payload <$> more) ++ pending_reports (drv s)). cbn [port k' set_port].
    assert ((port (client s) ++ [io]) ++ omap unprinted (threads s)
      ≡ₚ io :: port (client s) ++ omap unprinted (threads s)) as -> by solve_Permutation.
    by rewrite fmap_cons, Esame, Eb'. }
  assert (in_flight s = (event_bytes (client s) <$> port (client s) ++ omap unprinted (threads s))
                          ++ payload (p, irp) :: (payload <$> more) ++ pending_reports (drv s)) as Efl.
  { unfold in_flight, other_reports. by rewrite Eu, fmap_cons. }
  exists s', io. split; [done|]. split; [|split; [done|split; [done|]]].
  - split; cbn [session drv next owner s' set_handled set_client]; try done.
    + intros q Hq. apply Ho. rewrite Eu. cbn [fmap list_fmap fst]. change (unhandled s') with more in Hq. set_solver.
    + cbn [handled set_handled s']. apply lookup_lt_Some in Edone. lia.
    + change (client s') with k'. change (threads s') with (threads s).
      assert (places s' ≡ₚ places s) as Epl'.
      { rewrite Epl. unfold places. change (unhandled s') with more. change (owner_of s') with (owner_of s). change (drv s') with (drv s).
        change (threads s') with (threads s). cbn [client port k' set_port s' set_handled set_client]. solve_Permutation. }
      eapply pool_ok_perm; [symmetry; exact Epl'|]. destruct Hp as [H1 H2 H3 H4 H5].
      split; try done; cbn [events k' set_port set_events]; [by rewrite length_insert|].
      intros i e' Hi. apply list_lookup_insert_Some in Hi as [(<- & <- & _)|[Hne Hi]]; [|by apply H5]. cbn.
      split; [exact (proj1 (H5 _ _ Hev))|]. split; [done|]. exists b'. split; [done|].
      unfold b', zlen in *. rewrite length_app, length_drop. lia.
    + rewrite Efl'. rewrite Efl in Hpr. rewrite Forall_app, Forall_cons in Hpr. constructor; [done|]. apply Forall_app. split; apply Hpr.
    + change (printed (client s')) with (printed (client s)). rewrite Efl', <- Hc, Efl, fmap_cons, Edis, <- fmap_cons.
      by rewrite Permutation_middle.
  - unfold other_reports. rewrite Eu. cbn [fmap list_fmap]. change (unhandled s') with more. done.
Qed.

(** *** Schedules *)

(** What is left to do, in steps: a report in a completed request or in the driver's list
    needs seven, one in the port six. *)
Definition weight (th : thread) : nat :=
  match th with
  | Initiating n => 3 * n
  | Sending after => 2 + 3 * requests_left after
  | Requesting _ after => 1 + 3 * requests_left after
  | Dequeued _ => 5
  | Holding _ _ => 4
  | Printed _ => 3
  | Waiting => 0
  end.
Definition work s : nat :=
  7 * length (other_reports s) + 6 * length (port (client s)) + sum_list_with weight (threads s).

(** The threads that run [run_completion_port]. *)
Definition worker (th : thread) : Prop :=
  match th with Initiating _ | Sending (Some _) | Requesting _ (Some _) => False | _ => True end.

(** The reports of a schedule, and when they can be sent: a report can be printed and
    fits the client's buffers, and at most 100 others are deferred. *)
Definition sent_by (l : list action) : list (list Z) :=
  omap (fun a => match a with Report bytes => Some bytes | _ => None end) l.
Definition sendable (a : action) s : Prop :=
  match a with
  | Report bytes => printable bytes /\ 0 < zlen bytes <= MAXIMUM_REPORT_BUFFER_SIZE /\
                    deferred_count (drv s) <= MAX_DEFERRED_REPORTS_COUNT
  | _ => True
  end.
Fixpoint admissible (l : list action) s : Prop :=
  match l with
  | [] => True
  | a :: l =>
      sendable a s /\
      match step stale a s with
      | None => admissible l s
      | Some (Ok s) => admissible l s
      | Some (Crash _) => True
      end
  end.

Lemma resume_weight after : weight (resume after) = (3 * requests_left after)%nat.
Proof. by destruct after. Qed.

Lemma thread_step_work th s th' s' :
  (forall io after, th <> Requesting io after) -> thread_step stale th s = Some (Ok (th', s')) ->
  (6 * length (port (client s')) + weight th' < 6 * length (port (client s)) + weight th)%nat /\
  (worker th -> worker th').
Proof.
  intros Hnr. destruct th as [[|n]| |io|io b|io|after|io after]; cbn [thread_step]; [done|..|by destruct (Hnr io after)].
  - intros [= <- <-]. cbn. lia.
  - destruct (port (client s)) as [|io rest]; [done|]. intros [= <- <-]. cbn. lia.
  - intros [= <- <-]. cbn. lia.
  - destruct (read_buffer b (client s)) as [bytes|]; [|done]. munfold.
    destruct (print_kernel_report bytes) as [ls|]; [|done]. intros [= <- <-]. cbn. lia.
  - unfold in_client, release_event_object. munfold. destruct (events (client s) !! io) as [e|].
    + destruct (Client.buffer e); [|done]. destruct (copy_to _ _); [|done]. intros [= <- <-]. cbn. lia.
    + intros [= <- <-]. cbn. lia.
  - unfold get_free_event_entry. destruct (list_find _ _) as [[i e]|]; intros [= <- <-]; cbn [port client set_client set_events LOG_ERROR];
      rewrite ?resume_weight; cbn; (split; [lia|by destruct after]).
Qed.

(** Every step that is possible keeps the invariant, leaves less to do, and the workers
    stay workers. *)
Lemma step_ok sent s a r :
  protocol_inv sent s -> sendable a s -> step stale a s = Some r ->
  exists s', r = Ok s' /\ protocol_inv (sent ++ sent_by [a]) s' /\
    (sent_by [a] = [] -> (work s' < work s)%nat) /\
    (forall t th, threads s !! t = Some th -> worker th -> exists th', threads s' !! t = Some th' /\ worker th').
Proof.
  intros Hinv Hsend. destruct a as [t| |bytes]; cbn [step sent_by omap list_omap].
  - destruct (threads s !! t) as [th|] eqn:Ht; [|done]. cbn [mbind option_bind].
    destruct (thread_step stale th s) as [r1|] eqn:Er; [|done]. intros [= <-]. rewrite app_nil_r.
    destruct (thread_split _ _ _ Ht) as (rest & E & E').
    assert (exists th' s', r1 = Ok (th', s') /\ protocol_inv sent (set_thread t th' s') /\ threads s' = threads s /\
      length (other_reports s') = length (other_reports s) /\
      (6 * length (port (client s')) + weight th' < 6 * length (port (client s)) + weight th)%nat /\ (worker th -> worker th'))
      as (th' & s' & -> & Hinv' & Eth & Eor & Hw & Hwk).
    { assert ((exists io after, th = Requesting io after) \/ (forall io after, th <> Requesting io after))
        as [(io & after & ->)|Hnr'] by (destruct th; (by right) || (left; by eexists _, _)).
      - destruct (request_step _ _ _ _ _ _ Hinv Ht Er) as (s' & -> & Hinv' & Eth & Ecl & Eor).
        exists (resume after), s'. split_and!; try done; [|by destruct after]. rewrite Ecl, resume_weight. cbn. lia.
      - destruct (thread_step_ok _ _ _ _ _ Hinv Ht Hnr' Er) as (th' & k' & -> & Hinv').
        destruct (thread_step_work _ _ _ _ Hnr' Er) as [Hw Hwk]. by exists th', (set_client k' s). }
    eexists. split; [done|]. split; [done|]. split.
    + intros _. unfold work. change (other_reports (set_thread t th' s')) with (other_reports s'). rewrite Eor.
      cbn [client set_thread threads]. rewrite Eth, E', E. cbn [sum_list_with]. lia.
    + intros t2 th2 Ht2 Hw2. cbn [threads set_thread]. rewrite Eth. destruct (decide (t2 = t)) as [->|Hne].
      * exists th'. split; [apply list_lookup_insert_eq; by eapply lookup_lt_Some|]. apply Hwk. congruence.
      * exists th2. by rewrite list_lookup_insert_ne.
  - intros Hr. destruct (give_back_step _ _ _ Hinv Hr) as (s' & io & -> & Hinv' & Eth & Eport & Eor).
    exists s'. rewrite app_nil_r. split_and!; try done.
    + intros _. unfold work. rewrite Eor, Eport, Eth, length_app. cbn. lia.
    + rewrite Eth. eauto.
  - destruct Hsend as (Hpr & Hsz & Hroom). destruct (report_step _ _ _ Hinv Hpr Hsz Hroom) as (s' & Hs' & Hinv').
    unfold mbind, res_bind. rewrite Hs'. intros [= <-]. exists s'. split_and!; try done.
    intros t th. assert (threads s' = threads s) as ->; [|by eauto].
    revert Hs'. unfold send_report. munfold. unfold in_driver. cbn. munfold.
    by destruct (IrpQueueCompleteIrp _ _ _) as [[? ?]|]; intros; simplify_eq.
Qed.

Lemma run_ok l : forall sent s,
  protocol_inv sent s -> admissible l s ->
  exists s', run stale l s = Ok s' /\ protocol_inv (sent ++ sent_by l) s' /\
    (forall t th, threads s !! t = Some th -> worker th -> exists th', threads s' !! t = Some th' /\ worker th').
Proof.
  induction l as [|a l IH]; intros sent s Hinv Hadm.
  - exists s. rewrite app_nil_r. by eauto.
  - destruct Hadm as [Hsend Hadm]. cbn [run]. change (a :: l) with ([a] ++ l). unfold sent_by. rewrite omap_app.
    fold (sent_by [a]) (sent_by l). destruct (step stale a s) as [r|] eqn:Er.
    + destruct (step_ok _ _ _ _ Hinv Hsend Er) as (s1 & -> & Hinv1 & _ & Hw1).
      destruct (IH _ s1 Hinv1 Hadm) as (s' & H' & Hinv' & Hw'). exists s'. rewrite app_assoc. split_and!; try done.
      intros t th Ht Hw. destruct (Hw1 t th Ht Hw) as (th1 & Ht1 & Hwk1). by eapply Hw'.
    + assert (sent_by [a] = []) as -> by by destruct a. cbn [app]. by apply IH.
Qed.

(** *** Progress *)

Lemma idle_thread th : weight th = 0%nat -> sends th = 0%nat /\ thread_event th = None.
Proof. by destruct th as [[]| | | | | |]. Qed.

(** A thread with something left to do can do it. *)
Lemma busy_thread th s : weight th <> 0%nat -> exists r, thread_step stale th s = Some r.
Proof.
  destruct th as [[|n]| |io|io b|io|after|io after]; cbn [thread_step weight]; try done; eauto.
  destruct (get_free_event_entry (client s)) as [[]]; eauto.
Qed.

(** As long as something is left to do there is a step, of the client or the I/O manager,
    that can be taken. *)
Lemma progress_possible sent s t0 th0 :
  protocol_inv sent s -> threads s !! t0 = Some th0 -> worker th0 -> work s <> 0%nat ->
  exists a r, sent_by [a] = [] /\ step stale a s = Some r.
Proof.
  intros Hinv Ht0 Hw0 Hwork.
  assert ((exists t th, threads s !! t = Some th /\ weight th <> 0%nat) \/ Forall (fun th => weight th = 0%nat) (threads s))
    as [(t & th & Ht & Hw)|Hidle].
  { destruct (decide (Forall (fun th => weight th = 0%nat) (threads s))) as [|H%not_Forall_Exists]; [by right|left|tc_solve].
    apply Exists_exists in H as (th & [t Ht]%list_elem_of_lookup_1 & Hw). by exists t, th. }
  { destruct (busy_thread th s Hw) as [r Hr]. eexists (Run t), _. split; [done|]. cbn [step]. rewrite Ht. cbn. by rewrite Hr. }
  destruct (port (client s)) as [|io rest] eqn:Eport.
  2: { eexists (Run t0), _. split; [done|]. cbn [step]. rewrite Ht0. cbn [mbind option_bind].
    rewrite Forall_forall in Hidle. specialize (Hidle th0 (list_elem_of_lookup_2 _ _ _ Ht0)).
    destruct th0 as [[]| | | | | |]; try done. cbn [thread_step]. rewrite Eport. done. }
  destruct (unhandled s) as [|[p irp] us] eqn:Eu.
  2: { exists GiveBack. cbn [step give_back]. unfold give_back.
    assert (completed (drv s) !! handled s = Some (p, irp)) as ->.
    { unfold unhandled in Eu. rewrite <- (Nat.add_0_r (handled s)), <- lookup_drop, Eu. done. }
    by eexists. }
  exfalso. apply Hwork.
  assert (sum_list_with weight (threads s) = 0%nat /\ sum_list_with sends (threads s) = 0%nat /\ omap thread_event (threads s) = [])
    as (Hw & Hs & Hev).
  { clear -Hidle. induction Hidle as [|th l Hth _ IH]; [done|]. destruct (idle_thread th Hth) as [Hs Hev].
    cbn [sum_list_with omap list_omap]. rewrite Hev. destruct IH as (-> & -> & ->). by rewrite Hth, Hs. }
  pose proof (po_count _ _ _ (pi_pool _ _ Hinv)) as Hcount. unfold places in Hcount.
  rewrite Eu, Eport, Hev, Hs in Hcount. cbn [fmap list_fmap app] in Hcount. rewrite !app_nil_r, length_fmap in Hcount.
  destruct (di_excl _ _ _ _ (pi_drv _ _ Hinv)) as [Hq|Hdf]; [by rewrite Hq in Hcount|].
  unfold work, other_reports, pending_reports. by rewrite Eu, Eport, Hdf, Hw.
Qed.

(** Without further reports everything that is in flight reaches the screen. *)
Lemma drain n : forall sent s t th,
  (work s < n)%nat -> protocol_inv sent s -> threads s !! t = Some th -> worker th ->
  exists l s', sent_by l = [] /\ run stale l s = Ok s' /\ protocol_inv sent s' /\ work s' = 0%nat.
Proof.
  induction n as [|n IH]; intros sent s t th Hn Hinv Ht Hw; [lia|].
  destruct (decide (work s = 0%nat)) as [H0|H0]; [by exists [], s|].
  destruct (progress_possible _ _ _ _ Hinv Ht Hw H0) as (a & r & Hsent & Hr).
  assert (sendable a s) as Hsend by by destruct a.
  destruct (step_ok _ _ _ _ Hinv Hsend Hr) as (s1 & -> & Hinv1 & Hless & Hwk). rewrite Hsent, app_nil_r in Hinv1.
  destruct (Hwk _ _ Ht Hw) as (th1 & Ht1 & Hw1).
  destruct (IH sent s1 t th1 ltac:(specialize (Hless Hsent); lia) Hinv1 Ht1 Hw1) as (l & s' & Hl & Hrun & Hinv' & H').
  exists (a :: l), s'. split_and!; try done.
  - change (a :: l) with ([a] ++ l). unfold sent_by. rewrite omap_app. fold (sent_by [a]) (sent_by l). by rewrite Hsent, Hl.
  - cbn [run]. by rewrite Hr.
Qed.

Lemma drained_in_flight s : work s = 0%nat -> in_flight s = [].
Proof.
  intros H. unfold work in H. assert (other_reports s = []) as Ho by (apply length_zero_iff_nil; lia).
  assert (port (client s) = []) as Hp by (apply length_zero_iff_nil; lia).
  unfold in_flight. rewrite Ho, Hp, app_nil_r. cbn [app].
  assert (sum_list_with weight (threads s) = 0%nat) as Hw by lia. clear -Hw.
  induction (threads s) as [|th l IH]; [done|]. cbn [sum_list_with] in Hw.
  destruct (idle_thread th ltac:(lia)) as [_ Hev]. cbn [omap list_omap].
  assert (unprinted th = None) as -> by by destruct th. apply IH. lia.
Qed.

(** *** The initial state *)

(** A session has begun; no request is with the driver, and the reports it has deferred can
    be printed. *)
Record ready (heap : nat -> list Z) (d : irp_state LI LR) (fresh : Z) : Prop := {
  re_heap i : zlen (heap i) = MAXIMUM_REPORT_BUFFER_SIZE;
  re_inv : delivery_inv MAXIMUM_REPORT_BUFFER_SIZE d [] [];
  re_queue : contents (queue d) = [];
  re_fresh p : p ∈ dom (irps d) \/ p ∈ dom (buffers d) -> p < fresh;
  re_deferred : Forall printable (pending_reports d);
}.

Lemma omap_waiting {B} (f : thread -> option B) n : f Waiting = None -> omap f (replicate n Waiting) = [].
Proof. intros Hf. induction n as [|n IH]; [done|]. cbn [replicate omap list_omap]. rewrite Hf. exact IH. Qed.

Lemma sum_waiting n : sum_list_with sends (replicate n Waiting) = 0%nat.
Proof. by induction n. Qed.

Lemma initial_inv heap workers d fresh :
  ready heap d fresh ->
  protocol_inv (pending_reports d) (initiate_completion_port heap true workers d true fresh).
Proof.
  intros [Hh Hi Hq Hf Hp]. set (s := initiate_completion_port _ _ _ _ _ _).
  assert (unhandled s = []) as Eu by apply drop_all.
  assert (places s = []) as Epl.
  { unfold places. rewrite Eu. cbn [drv s initiate_completion_port threads client]. rewrite Hq. cbn. by apply omap_waiting. }
  assert (in_flight s = pending_reports d) as Efl.
  { unfold in_flight, other_reports. rewrite Eu. cbn.
    change (list_omap _ _ unprinted (replicate workers Waiting)) with (omap unprinted (replicate workers Waiting)).
    by rewrite omap_waiting. }
  split; try done.
  - intros p. rewrite Eu. cbn [drv s initiate_completion_port]. rewrite Hq. intros Hin. by apply elem_of_nil in Hin.
  - by rewrite Eu.
  - rewrite Epl. split; [done|apply NoDup_nil_2|done| |].
    + cbn. by rewrite sum_waiting.
    + intros i e Hie. cbn in Hie. change (((fun i => new_event (heap i)) <$> seq 0 EVENT_COUNT) !! i = Some e) in Hie.
      rewrite list_lookup_fmap in Hie. destruct (seq 0 EVENT_COUNT !! i) as [j|]; [|done]. injection Hie as <-. cbn.
      split; [split; [done|]; intros Hin; by apply elem_of_nil in Hin|]. split; [done|]. by exists (heap j).
  - cbn. constructor; [done|]. by apply Forall_replicate.
  - by rewrite Efl.
  - by rewrite Efl.
Qed.

(** *** Properties *)



(** C33: without a session the client waits forever and says nothing.  The driver refuses
    every request, [DeviceIoControl] returns FALSE, which [send_pending_irp] takes for
    success: no error is logged, all five events stay in use, no request is outstanding,
    and neither a thread nor the I/O manager can take another step. *)
Theorem refused_requests_leak_events heap workers d fresh :
  exists s', run stale (replicate 15 (Run 0)) (initiate_completion_port heap true workers d false fresh) = Ok s' /\
    Forall (fun e => in_use e = true) (events (client s')) /\ length (events (client s')) = EVENT_COUNT /\
    errors (client s') = [] /\ printed (client s') = [] /\ drv s' = d /\
    forall a, sent_by [a] = [] -> step stale a s' = None.
Proof.
  exists (System (KernelInterface ((fun i => EventDispatcher true (Some false) (Some (heap i)) MAXIMUM_REPORT_BUFFER_SIZE)
                                     <$> seq 0 EVENT_COUNT) [] [] [])
            (Initiating 0 :: replicate workers Waiting) d false ∅ (length (completed d)) fresh).
  split; [reflexivity|]. split; [by repeat constructor|]. split_and!; try done.
  intros [[|t]| |bytes] Ha; [reflexivity| | |discriminate]; cbn [step threads].
  - change ((Initiating 0 :: replicate workers Waiting) !! Datatypes.S t) with (replicate workers Waiting !! t).
    destruct (replicate workers Waiting !! t) as [th|] eqn:E; [|done].
    by apply lookup_replicate in E as [-> _].
  - unfold give_back. cbn [drv completed handled]. by rewrite lookup_ge_None_2.
Qed.

Lemma close_events_ok l :
  (forall i e, l !! i = Some e -> is_Some (Client.buffer e)) ->
  exists l', close_events l = Ok l' /\
    forall i e, l !! i = Some e -> exists e', l' !! i = Some e' /\ Client.buffer e' = None.
Proof.
  induction l as [|e l IH]; intros Hl; [by exists []|].
  destruct (Hl 0%nat e eq_refl) as [b Hb]. destruct IH as (l' & Hc & Hf); [intros i e' He; by apply (Hl (Datatypes.S i))|].
  eexists. split; [cbn [close_events]; unfold close_event; rewrite Hb; munfold; by rewrite Hc|].
  intros [|i] e'; cbn; [intros [= <-]; by eexists|apply Hf].
Qed.

(** The destructor frees the buffers of requests that are still with the driver.  It
    ends without a fault in every state the system can be in, but the next completed
    request that the I/O manager gives back is written to freed memory, and a thread that
    has looked up its buffer reads freed memory. *)
Theorem destructor_frees_pending_buffers heap workers d fresh l s :
  ready heap d fresh -> admissible l (initiate_completion_port heap true workers d true fresh) ->
  run stale l (initiate_completion_port heap true workers d true fresh) = Ok s ->
  exists s', destroy s = Ok (tt, s') /\ session s' = false /\
    (unhandled s <> [] -> step stale GiveBack s' = Some (Crash UnmappedRead)) /\
    (forall t io buffer, threads s !! t = Some (Holding io buffer) ->
       step stale (Run t) s' = Some (Crash UnmappedRead)).
Proof.
  intros Hr Hadm Hrun. destruct (run_ok l _ _ (initial_inv heap workers d fresh Hr) Hadm) as (s0 & Hrun0 & Hinv & _).
  rewrite Hrun in Hrun0. injection Hrun0 as <-. pose proof (pi_pool _ _ Hinv) as Hp.
  destruct (close_events_ok (events (client s))) as (evs & Hclose & Hfreed).
  { intros i e He. destruct (po_events _ _ _ Hp _ _ He) as (_ & _ & b & -> & _). by eexists. }
  eexists. split.
  { unfold destroy. erewrite KM_step; [reflexivity|]. unfold in_client, terminate_completion_port. by rewrite Hclose. }
  split; [done|].
  assert (forall io, is_Some (events (client s) !! io) -> exists e, evs !! io = Some e /\ Client.buffer e = None) as Hgone.
  { intros io [e He]. destruct (Hfreed _ _ He) as (e' & He' & Hb). by exists e'. }
  split.
  - intros Hu. cbn [step]. unfold give_back. cbn [drv handled owner client set_session set_client events set_events].
    destruct (unhandled s) as [|[p irp] us] eqn:Eu; [done|].
    assert (completed (drv s) !! handled s = Some (p, irp)) as ->.
    { unfold unhandled in Eu. rewrite <- (Nat.add_0_r (handled s)), <- lookup_drop, Eu. done. }
    destruct (pi_owner _ _ Hinv p) as [[io Hio] _]; [rewrite Eu; set_solver|]. rewrite Hio.
    destruct (Hgone io) as (e & -> & ->); [|done].
    apply lookup_lt_is_Some_2. rewrite (po_length _ _ _ Hp). pose proof (po_range _ _ _ Hp) as Hrg.
    rewrite Forall_forall in Hrg. apply Hrg. unfold places. rewrite Eu. apply elem_of_app. left.
    apply list_elem_of_fmap. exists p. unfold owner_of. rewrite Hio. split; [done|]. set_solver.
  - intros t io buffer Ht. cbn [step threads set_session set_client]. rewrite Ht. cbn [mbind option_bind].
    pose proof (proj1 (Forall_lookup _ _) (pi_threads _ _ Hinv) _ _ Ht) as Hok. cbn in Hok. subst buffer.
    destruct (thread_event_ok _ _ _ _ io Hinv Ht eq_refl) as (e & b & He & _).
    cbn [thread_step read_buffer client set_session set_client events set_events].
    by destruct (Hgone io ltac:(by eexists)) as (e' & -> & ->).
Qed.
End specification.

(** ** Witnesses *)

Section decidable.
Context {LI LR : Type} `{!ListEntryApi LI Z} `{!ListEntryApi LR DEFERRED_REPORT}.
Context {P : Pool} {C : CsqApi (LI := LI) (LR := LR)} (stale : Z -> list Z).
Implicit Types s : system LI LR.

Definition printable_b (bytes : list Z) : bool :=
  match print_kernel_report bytes with Ok _ => true | Crash _ => false end.

Definition sendable_b (a : action) s : bool :=
  match a with
  | Report bytes => printable_b bytes && (0 <? zlen bytes) && (zlen bytes <=? MAXIMUM_REPORT_BUFFER_SIZE)
                    && (deferred_count (drv s) <=? MAX_DEFERRED_REPORTS_COUNT)
  | _ => true
  end.

(** Whether a schedule is admissible can be computed. *)
Fixpoint admissible_b (l : list action) s : bool :=
  match l with
  | [] => true
  | a :: l =>
      sendable_b a s &&
      match step stale a s with
      | None => admissible_b l s
      | Some (Ok s) => admissible_b l s
      | Some (Crash _) => true
      end
  end.

Lemma admissible_b_sound l : forall s, admissible_b l s = true -> admissible stale l s.
Proof.
  induction l as [|a l IH]; intros s; cbn [admissible_b admissible]; [done|].
  intros [Ha Hl]%andb_prop. split.
  - destruct a; try done. cbn in Ha. repeat (apply andb_prop in Ha as [Ha ?]). split; [|lia].
    unfold printable_b in Ha. unfold printable. destruct (print_kernel_report bytes); [by eexists|done].
  - destruct (step stale a s) as [[s'|]|]; [by apply IH|done|by apply IH].
Qed.
End decidable.

#[local] Instance generous : Pool := fun _ => true.

Definition sample_heap (_ : nat) : list Z := replicate 1000 205.
Definition sample_stale (_ : Z) : list Z := replicate 1000 90.
Definition sample_driver : irp_state (list Z) (list DEFERRED_REPORT) := IrpState [] 0 [] 0 false ∅ [] ∅ 0 0.

Lemma sample_stale_size p : zlen (sample_stale p) = MAXIMUM_REPORT_BUFFER_SIZE.
Proof. reflexivity. Qed.
Lemma sample_grants n : pool_grants (Pool := generous) n = true.
Proof. reflexivity. Qed.

Lemma sample_ready : ready sample_heap sample_driver 0.
Proof.
  split; try done.
  - split; try done; [by left|apply NoDup_nil_2| |apply NoDup_nil_2|].
    + intros p Hp. by apply elem_of_nil in Hp.
    + intros B n Hp. by apply elem_of_nil in Hp.
  - intros p. cbn. set_solver.
Qed.

Definition attach_report : list Z := struct_bytes ATTACH_PROCESS_REPORT [Num 100; Num 77; Num 0xffffa0].
Definition module_report : list Z :=
  struct_bytes MODULE_VALIDATION_FAILURE [Num 60; Num 1; Num 0xfff000; Num 4096; Str (bytes_of_string "disk.sys")].

(** A report comes before the first request, the next while the last of the five requests
    is being sent, and two threads work on them. *)
Definition sample_schedule : list action :=
  [Report attach_report] ++ replicate 14 (Run 0) ++ [GiveBack; Report module_report; Run 1; Run 0; GiveBack; Run 2; Run 1; Run 2].

Lemma sample_admissible :
  admissible sample_stale sample_schedule (initiate_completion_port sample_heap true 2 sample_driver true 0).
Proof. apply admissible_b_sound. vm_compute. reflexivity. Qed.

Lemma sample_runs :
  exists s', run sample_stale sample_schedule (initiate_completion_port sample_heap true 2 sample_driver true 0) = Ok s' /\
    (length (printed (client s')), length (in_flight s'), threads s' !! 1%nat) = (0%nat, 2%nat, Some (Holding 0 (Some 0%nat))).
Proof.
  destruct (run _ _ _) as [s'|] eqn:E; [exists s'; split; [done|]|by vm_compute in E].
  assert (match run sample_stale sample_schedule (initiate_completion_port sample_heap true 2 sample_driver true 0) with
          | Ok s' => (length (printed (client s')), length (in_flight s'), threads s' !! 1%nat)
                     = (0%nat, 2%nat, Some (Holding 0 (Some 0%nat))) | Crash _ => False end) as Hc
    by (vm_compute; reflexivity).
  by rewrite E in Hc.
Qed.



Lemma destructor_frees_pending_buffers_witness :
  exists s s', run sample_stale sample_schedule (initiate_completion_port sample_heap true 2 sample_driver true 0) = Ok s /\
    destroy s = Ok (tt, s') /\ step sample_stale (Run 1) s' = Some (Crash UnmappedRead).
Proof.
  destruct sample_runs as (s & Hrun & Hs). injection Hs as _ _ Ht1.
  destruct (destructor_frees_pending_buffers sample_stale sample_stale_size sample_grants sample_heap 2 sample_driver 0
    sample_schedule s sample_ready sample_admissible Hrun) as (s' & Hd & _ & _ & Ht).
  exists s, s'. split; [exact Hrun|]. split; [exact Hd|]. exact (Ht 1%nat 0%nat (Some 0%nat) Ht1).
Defined.
