(* ===== verification/ClientDispatch.v ===== *)
(** * module/dispatcher: the client's timers and its thread pool

    [dispatcher::timer] keeps waitable timers in an array that one thread hands to
    [WaitForMultipleObjects]; the thread runs the callback of the timer that is signalled
    and then works through the callbacks to remove.  The system's timers are a parameter:
    a handle per call of [CreateWaitableTimer].  [dispatcher::thread_pool] keeps a queue
    of jobs that its threads take from the front.  Each section under a lock is a step. *)

From stdpp Require Import sorting.
From S2P Require Import Prelude.

#[local] Open Scope Z_scope.

(** ** timer.cpp *)

Module Timers.

Definition MAXIMUM_WAIT_OBJECTS : nat := 64.
Definition INVALID_HANDLE_VALUE : Z := 2 ^ 64 - 1.
Definition WAIT_FAILED : Z := 0xFFFFFFFF.

(** [SECONDS] counts in units of 100 nanoseconds. *)
Definition NANOSECONDS (nanos : Z) : Z := nanos ÷ 100.
Definition MICROSECONDS (micros : Z) : Z := micros * NANOSECONDS 1000.
Definition MILLISECONDS (milli : Z) : Z := milli * MICROSECONDS 1000.
Definition SECONDS (seconds : Z) : Z := seconds * MILLISECONDS 1000.
Definition seconds_to_nanoseconds (seconds : Z) : Z := u64 (SECONDS seconds).
Definition seconds_to_milliseconds (seconds : Z) : Z := u32 (s32 (seconds * 1000)).

(** A routine is a number; [due_time] and [period] as they are stored. *)
Record callback := Callback { callback_routine : nat; due_time : Z; period : Z }.

Definition new_callback (routine : nat) (due_time_seconds period_seconds : Z) : callback :=
  Callback routine (seconds_to_nanoseconds due_time_seconds) (seconds_to_milliseconds period_seconds).

(** What the timer thread does: it has not started, it sleeps in
    [WaitForMultipleObjects] with the handles it passed, or it has returned. *)
Inductive timer_thread := NotStarted | Sleeping (objects : list Z) | Returned.

(** [open] are the handles of the system's timers, [created] how many have been asked
    for, [dispatched] the routines that were called. *)
Record timer := Timer {
  handles : list Z;
  callbacks : gmap Z callback;
  callbacks_to_remove : list Z;
  active_callbacks : Z;
  thread_ : timer_thread;
  open : gset Z;
  created : nat;
  dispatched : list nat;
}.

Abbreviation M := (KM timer).

Definition set_handles (l : list Z) (s : timer) : timer :=
  Timer l (callbacks s) (callbacks_to_remove s) (active_callbacks s) (thread_ s) (open s) (created s) (dispatched s).
Definition set_callbacks (m : gmap Z callback) (s : timer) : timer :=
  Timer (handles s) m (callbacks_to_remove s) (active_callbacks s) (thread_ s) (open s) (created s) (dispatched s).
Definition set_remove (l : list Z) (s : timer) : timer :=
  Timer (handles s) (callbacks s) l (active_callbacks s) (thread_ s) (open s) (created s) (dispatched s).
Definition set_active (n : Z) (s : timer) : timer :=
  Timer (handles s) (callbacks s) (callbacks_to_remove s) n (thread_ s) (open s) (created s) (dispatched s).
Definition set_thread (t : timer_thread) (s : timer) : timer :=
  Timer (handles s) (callbacks s) (callbacks_to_remove s) (active_callbacks s) t (open s) (created s) (dispatched s).
Definition set_open (l : gset Z) (n : nat) (s : timer) : timer :=
  Timer (handles s) (callbacks s) (callbacks_to_remove s) (active_callbacks s) (thread_ s) l n (dispatched s).
Definition add_dispatched (r : nat) (s : timer) : timer :=
  Timer (handles s) (callbacks s) (callbacks_to_remove s) (active_callbacks s) (thread_ s) (open s) (created s)
    (dispatched s ++ [r]).

(** The constructor. *)
Definition new_timer : timer :=
  Timer (replicate MAXIMUM_WAIT_OBJECTS INVALID_HANDLE_VALUE) ∅ [] 0 NotStarted ∅ 0 [].

Section operations.
(** The handle of the [n]-th timer, 0 when it cannot be created. *)
Context (CreateWaitableTimer : nat -> Z).

Definition create_timer_object : M Z := fun s =>
  let h := CreateWaitableTimer (created s) in
  Ok (h, set_open (if h =? 0 then open s else {[h]} ∪ open s) (S (created s)) s).

Definition find_free_handle (s : timer) : option nat :=
  fst <$> list_find (fun h => h = INVALID_HANDLE_VALUE) (handles s).

(** The loop assigns to a copy of the element. *)
Definition insert_handle (handle : Z) : M unit := mret tt.

(** [SetWaitableTimer] may fail, which is logged only. *)
Definition insert_callback (routine : nat) (due_time_seconds period_seconds : Z) : M (option Z) :=
  slot ← gets find_free_handle;
  match slot with
  | None => mret None
  | Some i =>
      h ← create_timer_object;
      modify (fun s => set_handles (<[i := h]> (handles s)) s) ≫= fun _ =>
      if h =? 0 then mret None
      else
        modify (fun s => set_callbacks
          (match callbacks s !! h with
           | Some _ => callbacks s
           | None => <[h := new_callback routine due_time_seconds period_seconds]> (callbacks s)
           end) s) ≫= fun _ =>
        insert_handle h ≫= fun _ =>
        modify (fun s => set_active (active_callbacks s + 1) s) ≫= fun _ =>
        mret (Some h)
  end.

(** Handles are compared as addresses. *)
Definition close_handle_entry (handle : Z) : M unit :=
  modify (fun s => set_callbacks (delete handle (callbacks s)) s) ≫= fun _ =>
  slot ← gets (fun s => fst <$> list_find (fun h => h = handle) (handles s));
  match slot with
  | None => mret tt
  | Some i =>
      modify (fun s => set_open (open s ∖ {[handle]}) (created s) s) ≫= fun _ =>
      modify (fun s => set_handles (merge_sort Z.le (<[i := INVALID_HANDLE_VALUE]> (handles s))) s) ≫= fun _ =>
      modify (fun s => set_active (active_callbacks s - 1) s)
  end.

(** [handles[index]] of the array does not check its index. *)
Definition dispatch_callback_for_index (index : Z) : M unit := fun s =>
  match znth (handles s) index with
  | None => Crash OutOfBounds
  | Some h =>
      match callbacks s !! h with
      | None => Ok (tt, s)
      | Some cb => Ok (tt, add_dispatched (callback_routine cb) s)
      end
  end.

Fixpoint removal_loop (l : list Z) : M unit :=
  match l with
  | [] => modify (set_remove [])
  | entry :: l =>
      close_handle_entry entry ≫= fun _ =>
      modify (fun s => set_active (active_callbacks s - 1) s) ≫= fun _ =>
      removal_loop l
  end.

(** Nothing is added while the lock is held. *)
Definition query_removal_queue : M unit :=
  l ← gets callbacks_to_remove;
  removal_loop l.

Definition remove_callback (handle : Z) : M unit :=
  modify (fun s => set_remove (callbacks_to_remove s ++ [handle]) s).

(** The thread calls [WaitForMultipleObjects] with the first [active_callbacks] entries;
    the call fails when a handle is not that of a timer, or their number is 0 or, here
    with no objects, more than 64. *)
Definition wait (s : timer) : timer :=
  let n := u32 (active_callbacks s) in
  set_thread (Sleeping (if Z.of_nat MAXIMUM_WAIT_OBJECTS <? n then [] else take (Z.to_nat n) (handles s))) s.
Definition wait_succeeds (objects : list Z) (s : timer) : bool :=
  negb (bool_decide (objects = [])) && forallb (fun h => bool_decide (h ∈ open s)) objects.

Definition run_timer_thread : M unit := fun s =>
  if active_callbacks s =? 0 then Ok (tt, set_thread Returned s) else Ok (tt, wait s).

(** One iteration of the loop, after the wait has returned [index]. *)
Definition loop_body (index : Z) : M unit :=
  dispatch_callback_for_index index ≫= fun _ =>
  query_removal_queue ≫= fun _ =>
  modify (fun s => if active_callbacks s =? 0 then set_thread Returned s else wait s).

(** [Signal i]: the [i]-th of the objects waited for is signalled; a wait that fails
    returns at once whatever [i] is. *)
Inductive action :=
  | Insert (routine : nat) (due_time_seconds period_seconds : Z)
  | Remove (handle : Z)
  | Start
  | Signal (i : nat).

Definition to_result {A} (r : res (A * timer)) : res timer :=
  match r with Ok (_, s) => Ok s | Crash f => Crash f end.

Definition step (a : action) (s : timer) : option (res timer) :=
  match a with
  | Insert r due p => Some (to_result (insert_callback r due p s))
  | Remove h => Some (to_result (remove_callback h s))
  | Start => match thread_ s with NotStarted => Some (to_result (run_timer_thread s)) | _ => None end
  | Signal i =>
      match thread_ s with
      | Sleeping objects =>
          if wait_succeeds objects s
          then if (i <? length objects)%nat then Some (to_result (loop_body (Z.of_nat i) s)) else None
          else Some (to_result (loop_body WAIT_FAILED s))
      | _ => None
      end
  end.

(** A schedule; actions that are not possible are passed over. *)
Fixpoint run (l : list action) (s : timer) : res timer :=
  match l with
  | [] => Ok s
  | a :: l =>
      match step a s with
      | None => run l s
      | Some (Ok s) => run l s
      | Some (Crash f) => Crash f
      end
  end.

End operations.

(** *** The array of handles *)

(** The timers [hs] are at the front of the array, each with a callback, and they are the
    ones that are counted. *)
Record timers (hs : list Z) (s : timer) : Prop := {
  tm_handles : handles s = hs ++ replicate (MAXIMUM_WAIT_OBJECTS - length hs) INVALID_HANDLE_VALUE;
  tm_length : (length hs <= MAXIMUM_WAIT_OBJECTS)%nat;
  tm_nodup : NoDup hs;
  tm_valid h : h ∈ hs -> 0 < h < INVALID_HANDLE_VALUE;
  tm_open : open s = list_to_set hs;
  tm_callbacks : dom (callbacks s) = list_to_set hs;
  tm_active : active_callbacks s = zlen hs;
  tm_remove : callbacks_to_remove s = [];
}.

Lemma find_prefix (P : Z -> Prop) `{!forall x, Decision (P x)} l x k :
  Forall (fun y => ~ P y) l -> P x -> list_find P (l ++ x :: k) = Some (length l, x).
Proof.
  intros Hl Hx. apply list_find_Some. split; [by apply list_lookup_middle|]. split; [done|].
  intros j y Hj Hlt. rewrite lookup_app_l in Hj by done. rewrite Forall_forall in Hl.
  by eapply Hl, list_elem_of_lookup_2.
Qed.

Lemma valid_not_invalid hs s : timers hs s -> Forall (fun h => ~ (h = INVALID_HANDLE_VALUE)) hs.
Proof. intros Ht. apply Forall_forall. intros h Hh ->. pose proof (tm_valid _ _ Ht _ Hh). lia. Qed.

(** Room for another timer is at the end of the handles. *)
Lemma free_slot hs s :
  timers hs s -> (length hs < MAXIMUM_WAIT_OBJECTS)%nat ->
  find_free_handle s = Some (length hs) /\
  forall h, <[length hs := h]> (handles s)
    = (hs ++ [h]) ++ replicate (MAXIMUM_WAIT_OBJECTS - length (hs ++ [h])) INVALID_HANDLE_VALUE.
Proof.
  intros Ht Hl. unfold find_free_handle. rewrite (tm_handles _ _ Ht).
  destruct (MAXIMUM_WAIT_OBJECTS - length hs)%nat as [|k] eqn:Ek; [lia|]. cbn [replicate]. split.
  - by rewrite find_prefix by (done || by eapply valid_not_invalid).
  - intros h. rewrite length_app. cbn [length].
    replace (MAXIMUM_WAIT_OBJECTS - (length hs + 1))%nat with k by lia.
    rewrite insert_app_r_alt, Nat.sub_diag by lia. cbn. by rewrite <- app_assoc.
Qed.

Lemma insert_ok CreateWaitableTimer hs s r due p :
  timers hs s -> (length hs < MAXIMUM_WAIT_OBJECTS)%nat ->
  0 < CreateWaitableTimer (created s) < INVALID_HANDLE_VALUE -> CreateWaitableTimer (created s) ∉ hs ->
  exists s', insert_callback CreateWaitableTimer r due p s = Ok (Some (CreateWaitableTimer (created s)), s') /\
    timers (hs ++ [CreateWaitableTimer (created s)]) s' /\ created s' = S (created s) /\
    thread_ s' = thread_ s /\ dispatched s' = dispatched s /\
    callbacks s' = <[CreateWaitableTimer (created s) := new_callback r due p]> (callbacks s).
Proof.
  intros Ht Hl Hh Hnew. set (h := CreateWaitableTimer (created s)) in *.
  destruct (free_slot _ _ Ht Hl) as [Hfree Hins].
  assert (callbacks s !! h = None) as Hnone.
  { apply not_elem_of_dom. rewrite (tm_callbacks _ _ Ht). by rewrite elem_of_list_to_set. }
  eexists. split.
  { unfold insert_callback. erewrite KM_step by done. rewrite Hfree. unfold create_timer_object. fold h.
    munfold. cbv zeta. fold h. rewrite (proj2 (Z.eqb_neq h 0)) by lia.
    cbn [callbacks set_callbacks set_handles set_open handles active_callbacks set_active].
    rewrite Hnone, Hins. reflexivity. }
  destruct Ht as [H1 H2 H3 H4 H5 H6 H7 H8]. split_and!; try done. split; cbn; try done.
  - rewrite length_app. cbn. lia.
  - apply NoDup_app. split; [done|]. split; [|apply NoDup_singleton]. intros x Hx. rewrite list_elem_of_singleton. by intros ->.
  - intros x [Hx|Hx%list_elem_of_singleton]%elem_of_app; [by apply H4|by subst].
  - rewrite H5. rewrite list_to_set_app_L. cbn. set_solver.
  - rewrite dom_insert_L, H6, list_to_set_app_L. cbn. set_solver.
  - rewrite H7, zlen_app. done.
Qed.

(** *** Waiting and dispatching *)

Lemma wait_objects hs s : timers hs s -> wait s = set_thread (Sleeping hs) s.
Proof.
  intros Ht. unfold wait. pose proof (tm_length _ _ Ht) as Hl. rewrite (tm_active _ _ Ht).
  rewrite u32_small by (unfold zlen, MAXIMUM_WAIT_OBJECTS in *; lia).
  rewrite (proj2 (Z.ltb_ge _ _)) by (unfold zlen; lia). rewrite (tm_handles _ _ Ht).
  unfold zlen. rewrite Nat2Z.id. by rewrite take_app_length.
Qed.

Lemma wait_succeeds_prefix hs s objects :
  timers hs s -> objects `prefix_of` hs -> objects <> [] -> wait_succeeds objects s = true.
Proof.
  intros Ht [k ->] Hne. unfold wait_succeeds. rewrite bool_decide_eq_false_2 by done. cbn [negb andb].
  apply forallb_forall. intros h Hh. apply bool_decide_eq_true_2. rewrite (tm_open _ _ Ht).
  apply elem_of_list_to_set, elem_of_app. left. by apply list_elem_of_In.
Qed.

Lemma dispatch_ok hs s i h :
  timers hs s -> hs !! i = Some h ->
  exists cb, callbacks s !! h = Some cb /\
    dispatch_callback_for_index (Z.of_nat i) s = Ok (tt, add_dispatched (callback_routine cb) s) /\
    forall l, dispatch_callback_for_index (Z.of_nat i) (set_remove l s)
                = Ok (tt, set_remove l (add_dispatched (callback_routine cb) s)).
Proof.
  intros Ht Hi. assert (is_Some (callbacks s !! h)) as [cb Hcb].
  { apply elem_of_dom. rewrite (tm_callbacks _ _ Ht). apply elem_of_list_to_set. by eapply list_elem_of_lookup_2. }
  exists cb. split; [done|]. unfold dispatch_callback_for_index. cbn [handles callbacks set_remove].
  rewrite znth_of_nat, (tm_handles _ _ Ht), (lookup_app_l_Some _ _ _ _ Hi), Hcb. done.
Qed.

Lemma timers_dispatched hs s r : timers hs s -> timers hs (add_dispatched r s).
Proof. by intros []. Qed.

Lemma timers_thread hs s t : timers hs s -> timers hs (set_thread t s).
Proof. by intros []. Qed.

(** One turn of the loop with nothing to remove. *)
Lemma loop_body_ok hs s i h :
  timers hs s -> hs !! i = Some h ->
  exists cb, callbacks s !! h = Some cb /\
    loop_body (Z.of_nat i) s = Ok (tt, set_thread (Sleeping hs) (add_dispatched (callback_routine cb) s)).
Proof.
  intros Ht Hi. destruct (dispatch_ok _ _ _ _ Ht Hi) as (cb & Hcb & Hd & _). exists cb. split; [done|].
  unfold loop_body. erewrite KM_step by done. pose proof (timers_dispatched _ _ (callback_routine cb) Ht) as Ht'.
  unfold query_removal_queue. munfold. rewrite (tm_remove _ _ Ht'). cbn [removal_loop]. munfold.
  assert (set_remove [] (add_dispatched (callback_routine cb) s) = add_dispatched (callback_routine cb) s) as ->.
  { pose proof (tm_remove _ _ Ht) as Hr. destruct s. cbn in *. by subst. }
  rewrite (tm_active _ _ Ht'). rewrite (proj2 (Z.eqb_neq _ 0)), (wait_objects _ _ Ht'); [done|].
  destruct hs; [done|]. rewrite zlen_cons. pose proof (zlen_nonneg hs). lia.
Qed.

(** *** Properties *)

Section creation.
Context (CreateWaitableTimer : nat -> Z).
Hypothesis created_valid : forall n, (n < MAXIMUM_WAIT_OBJECTS)%nat -> 0 < CreateWaitableTimer n < INVALID_HANDLE_VALUE.
Hypothesis created_distinct : NoDup (CreateWaitableTimer <$> seq 0 MAXIMUM_WAIT_OBJECTS).

Definition created_handles (s : timer) : list Z := CreateWaitableTimer <$> seq 0 (created s).

Record working (s : timer) : Prop := {
  wk_timers : timers (created_handles s) s;
  wk_waiting objects : thread_ s = Sleeping objects -> objects `prefix_of` created_handles s /\ objects <> [];
}.

Definition no_removal (l : list action) : Prop :=
  Forall (fun a => match a with Remove _ => False | _ => True end) l.

Lemma created_handles_S s s' :
  created s' = S (created s) -> created_handles s' = created_handles s ++ [CreateWaitableTimer (created s)].
Proof. intros E. unfold created_handles. by rewrite E, seq_S, fmap_app. Qed.

Lemma created_fresh n :
  (n < MAXIMUM_WAIT_OBJECTS)%nat -> CreateWaitableTimer n ∉ CreateWaitableTimer <$> seq 0 n.
Proof.
  intros Hn. assert (seq 0 MAXIMUM_WAIT_OBJECTS = seq 0 n ++ n :: seq (S n) (MAXIMUM_WAIT_OBJECTS - S n)) as E.
  { replace MAXIMUM_WAIT_OBJECTS with (n + S (MAXIMUM_WAIT_OBJECTS - S n))%nat at 1 by lia. by rewrite seq_app. }
  pose proof created_distinct as Hd. rewrite E, fmap_app in Hd. apply NoDup_app in Hd as (_ & Hd & _).
  intros Hin. apply (Hd _ Hin). by left.
Qed.

Lemma working_step s a r :
  working s -> match a with Remove _ => False | _ => True end -> step CreateWaitableTimer a s = Some r ->
  exists s', r = Ok s' /\ working s'.
Proof.
  intros [Ht Hw] Ha. destruct a as [rt due p|h| |i]; cbn [step]; [|done| |].
  - intros [= <-]. destruct (decide (length (created_handles s) < MAXIMUM_WAIT_OBJECTS)%nat) as [Hl|Hl].
    + destruct (insert_ok CreateWaitableTimer _ s rt due p Ht Hl) as (s1 & -> & Ht1 & Hc & Hth & _).
      { apply created_valid. unfold created_handles in Hl. by rewrite length_fmap, length_seq in Hl. }
      { apply created_fresh. unfold created_handles in Hl. by rewrite length_fmap, length_seq in Hl. }
      exists s1. split; [done|]. rewrite <- (created_handles_S s s1 Hc) in Ht1. split; [done|].
      intros objects Ho. rewrite Hth in Ho. destruct (Hw _ Ho) as [Hp Hne]. split; [|done].
      rewrite (created_handles_S s s1 Hc). by apply prefix_app_r.
    + assert (find_free_handle s = None) as Hfull.
      { unfold find_free_handle. rewrite (tm_handles _ _ Ht).
        replace (MAXIMUM_WAIT_OBJECTS - length (created_handles s))%nat with 0%nat by lia. cbn [replicate]. rewrite app_nil_r.
        rewrite (proj2 (list_find_None _ _)); [done|]. by eapply valid_not_invalid. }
      exists s. unfold insert_callback. erewrite KM_step by done. by rewrite Hfull.
  - destruct (thread_ s) eqn:Eth; [|done|done]. intros [= <-]. unfold run_timer_thread.
    destruct (Z.eqb_spec (active_callbacks s) 0) as [H0|H0].
    + eexists. split; [done|]. split; [by apply timers_thread|done].
    + rewrite (wait_objects _ _ Ht). eexists. split; [done|]. split; [by apply timers_thread|].
      intros objects [= <-]. split; [done|]. intros E. rewrite (tm_active _ _ Ht) in H0.
      change (created_handles (set_thread _ s)) with (created_handles s) in E. by rewrite E in H0.
  - destruct (thread_ s) as [|objects|] eqn:Eth; [done| |done]. destruct (Hw _ eq_refl) as [Hp Hne].
    rewrite (wait_succeeds_prefix _ _ _ Ht Hp Hne). destruct (Nat.ltb_spec i (length objects)) as [Hi|]; [|done].
    intros [= <-]. apply lookup_lt_is_Some_2 in Hi as [h Hh].
    destruct (loop_body_ok _ _ _ _ Ht (prefix_lookup_Some _ _ _ _ Hh Hp)) as (cb & _ & ->).
    eexists. split; [done|]. split; [by apply timers_thread, timers_dispatched|]. intros o [= <-]. split; [done|].
    intros E. destruct objects; [done|]. apply prefix_nil_inv in Hp || (rewrite E in Hp; by apply prefix_nil_inv in Hp).
Qed.

Lemma working_run l : forall s,
  working s -> no_removal l -> exists s', run CreateWaitableTimer l s = Ok s' /\ working s'.
Proof.
  induction l as [|a l IH]; intros s Hw Hl; [by exists s|]. apply Forall_cons in Hl as [Ha Hl]. cbn [run].
  destruct (step CreateWaitableTimer a s) as [r|] eqn:Er; [|by apply IH].
  destruct (working_step s a r Hw Ha Er) as (s1 & -> & Hw1). by apply IH.
Qed.

Lemma working_new : working new_timer.
Proof.
  split; [|done]. split; try done; [cbn; lia|by apply NoDup_nil_2|].
  intros h Hh. by apply elem_of_nil in Hh.
Qed.

(** C32: a timer that is signalled runs its own callback.  As long as every timer can be
    created and none is removed, no step of any schedule faults; the handles are at the
    front of the array, the number of active callbacks is the number of timers, each has
    its callback, and when one of the objects the timer thread waits for is signalled,
    whatever was inserted while it slept, the routine registered with that handle is
    called and the thread waits for all the timers there are by then. *)
Theorem signalled_timer_runs_its_callback l :
  no_removal l ->
  exists s, run CreateWaitableTimer l new_timer = Ok s /\ timers (created_handles s) s /\
    forall objects i h, thread_ s = Sleeping objects -> objects !! i = Some h ->
      exists cb, callbacks s !! h = Some cb /\
        step CreateWaitableTimer (Signal i) s
          = Some (Ok (set_thread (Sleeping (created_handles s)) (add_dispatched (callback_routine cb) s))).
Proof.
  intros Hl. destruct (working_run l _ working_new Hl) as (s & Hrun & Ht & Hw). exists s. split; [done|]. split; [done|].
  intros objects i h Eth Hi. destruct (Hw _ Eth) as [Hp Hne].
  destruct (loop_body_ok _ _ i h Ht (prefix_lookup_Some _ _ _ _ Hi Hp)) as (cb & Hcb & Hbody).
  exists cb. split; [done|]. cbn [step]. rewrite Eth, (wait_succeeds_prefix _ _ _ Ht Hp Hne).
  rewrite (proj2 (Nat.ltb_lt i _)) by (by eapply lookup_lt_Some). by rewrite Hbody.
Qed.
End creation.

(** Sorting moves a handle that was closed behind the others. *)
Lemma sort_closed k1 k2 m :
  (forall h, h ∈ k1 ++ k2 -> h < INVALID_HANDLE_VALUE) ->
  merge_sort Z.le (k1 ++ INVALID_HANDLE_VALUE :: k2 ++ replicate m INVALID_HANDLE_VALUE)
    = merge_sort Z.le (k1 ++ k2) ++ replicate (S m) INVALID_HANDLE_VALUE.
Proof.
  intros Hv. apply (StronglySorted_unique Z.le).
  - apply StronglySorted_merge_sort; tc_solve.
  - apply StronglySorted_app_2.
    + intros x y Hx Hy. rewrite merge_sort_Permutation in Hx. apply Hv in Hx.
      apply elem_of_replicate in Hy as [-> _]. lia.
    + apply StronglySorted_merge_sort; tc_solve.
    + clear. induction (S m) as [|n IH]; cbn; constructor; [done|]. by apply Forall_replicate.
  - rewrite !merge_sort_Permutation. cbn [replicate]. rewrite <- Permutation_middle, app_assoc.
    by rewrite (Permutation_middle (k1 ++ k2) _ INVALID_HANDLE_VALUE).
Qed.

(** Closing the entry of one of the timers. *)
Lemma close_entry_ok k1 k2 h s l :
  timers (k1 ++ h :: k2) s ->
  exists s', close_handle_entry h (set_remove l s) = Ok (tt, s') /\
    handles s' = merge_sort Z.le (k1 ++ k2)
                   ++ replicate (MAXIMUM_WAIT_OBJECTS - length (k1 ++ k2)) INVALID_HANDLE_VALUE /\
    dom (callbacks s') = list_to_set (k1 ++ k2) /\ active_callbacks s' = zlen (k1 ++ k2) /\
    open s' = list_to_set (k1 ++ k2).
Proof.
  intros [H1 H2 H3 H4 H5 H6 H7 H8]. apply NoDup_app in H3 as (N1 & N2 & N3). apply NoDup_cons in N3 as [N3 N4].
  assert (h ∉ k1) as Hk1 by (intros Hin; apply (N2 h Hin); by left).
  assert (forall l : gset Z, l = list_to_set (k1 ++ h :: k2) -> l ∖ {[h]} = list_to_set (k1 ++ k2)) as Hdel.
  { intros g ->. apply set_eq. intros x. rewrite elem_of_difference, !elem_of_list_to_set, elem_of_singleton. set_solver. }
  assert (list_find (fun x => x = h) (handles s) = Some (length k1, h)) as Hfind.
  { rewrite H1, <- app_assoc. cbn [app]. apply find_prefix; [|done]. apply Forall_forall. by intros x Hx ->. }
  eexists. split.
  { unfold close_handle_entry. munfold. cbn [handles set_callbacks set_remove]. rewrite Hfind. cbn. reflexivity. }
  cbn. split_and!; try done.
  - rewrite H1, <- app_assoc, insert_app_r_alt, Nat.sub_diag by lia. cbn [app insert list_insert].
    rewrite sort_closed.
    + f_equal. f_equal. unfold MAXIMUM_WAIT_OBJECTS in *. rewrite !length_app in *. cbn [length] in *. lia.
    + intros x Hx. apply H4. set_solver.
  - rewrite dom_delete_L, H6. by apply Hdel.
  - rewrite H7, !zlen_app, zlen_cons. lia.
  - rewrite H5. by apply Hdel.
Qed.

(** What the timer thread waits for with [n] timers left in [rest], one fewer counted. *)
Definition after_removal (rest : list Z) : timer_thread :=
  match rest with
  | [] => Sleeping []
  | [_] => Returned
  | _ => Sleeping (take (length rest - 1) rest)
  end.

(** Removing a callback is counted twice.  After the timer thread has closed the one
    handle to remove, the array has the remaining handles at the front, in order, as the
    comment asks, and their callbacks; but [active_callbacks] is one less than their
    number.  With one timer left the thread returns, with more it does not wait for the
    last of them, so one callback is never called again; with none left the count is -1,
    the wait fails and the array is indexed with WAIT_FAILED. *)
Theorem removal_is_counted_twice CreateWaitableTimer hs k1 h k2 s objects i x :
  timers hs s -> hs = k1 ++ h :: k2 -> thread_ s = Sleeping objects -> objects `prefix_of` hs -> objects !! i = Some x ->
  exists s' rest, run CreateWaitableTimer [Remove h; Signal i] s = Ok s' /\
    rest ≡ₚ k1 ++ k2 /\ Sorted Z.le rest /\
    handles s' = rest ++ replicate (MAXIMUM_WAIT_OBJECTS - length rest) INVALID_HANDLE_VALUE /\
    dom (callbacks s') = list_to_set rest /\ active_callbacks s' = zlen rest - 1 /\
    thread_ s' = after_removal rest /\
    (rest = [] -> forall j, step CreateWaitableTimer (Signal j) s' = Some (Crash OutOfBounds)).
Proof.
  intros Ht -> Eth Hp Hi. pose proof (prefix_lookup_Some _ _ _ _ Hi Hp) as Hx.
  destruct (dispatch_ok _ _ _ _ Ht Hx) as (cb & Hcb & _ & Hdisp).
  set (s1 := add_dispatched (callback_routine cb) s).
  destruct (close_entry_ok k1 k2 h s1 [h]) as (s2 & Hclose & Hh & Hd & Ha & Ho); [by apply timers_dispatched|].
  set (rest := merge_sort Z.le (k1 ++ k2)) in *.
  assert (rest ≡ₚ k1 ++ k2) as Erest by apply merge_sort_Permutation.
  assert (zlen rest = zlen (k1 ++ k2)) as Elen by (unfold zlen; by rewrite Erest).
  set (s3 := set_remove [] (set_active (active_callbacks s2 - 1) s2)).
  assert (loop_body (Z.of_nat i) (set_remove [h] s) = Ok (tt, if active_callbacks s3 =? 0 then set_thread Returned s3 else wait s3))
    as Hbody.
  { unfold loop_body. erewrite KM_step by apply Hdisp.
    unfold query_removal_queue. erewrite KM_step; [reflexivity|]. erewrite KM_step by done.
    cbn [callbacks_to_remove set_remove removal_loop]. erewrite KM_step by exact Hclose. done. }
  exists (if active_callbacks s3 =? 0 then set_thread Returned s3 else wait s3), rest.
  split.
  { assert (step CreateWaitableTimer (Remove h) s = Some (Ok (set_remove [h] s))) as H1.
    { cbn [step]. unfold remove_callback. munfold. cbn [to_result]. by rewrite (tm_remove _ _ Ht). }
    cbn [run]. rewrite H1. cbn [step thread_ set_remove].
    rewrite Eth. change (wait_succeeds objects (set_remove [h] s)) with (wait_succeeds objects s).
    rewrite (wait_succeeds_prefix _ _ _ Ht Hp) by (by intros ->).
    rewrite (proj2 (Nat.ltb_lt i _)) by (by eapply lookup_lt_Some). by rewrite Hbody. }
  assert (active_callbacks s3 = zlen rest - 1) as Ha3 by (cbn; by rewrite Ha, Elen).
  assert (handles s3 = rest ++ replicate (MAXIMUM_WAIT_OBJECTS - length rest) INVALID_HANDLE_VALUE) as Hh3.
  { cbn. rewrite Hh. unfold zlen in Elen. f_equal. f_equal. unfold MAXIMUM_WAIT_OBJECTS. lia. }
  assert (zlen rest < Z.of_nat MAXIMUM_WAIT_OBJECTS) as Hlt.
  { pose proof (tm_length _ _ Ht) as Hl. rewrite Elen. unfold zlen. rewrite !length_app in *. cbn [length] in Hl. lia. }
  split; [exact Erest|]. split; [apply Sorted_merge_sort; tc_solve|].
  assert (dom (callbacks s3) = list_to_set rest) as Hd3.
  { cbn. rewrite Hd. apply set_eq. intros y. rewrite !elem_of_list_to_set. by rewrite Erest. }
  clearbody s3 rest. clear Hh Hd Ha Ho Hclose s2 Hbody Erest Elen. rewrite Ha3.
  destruct rest as [|y1 [|y2 rest]].
  - change (zlen [] - 1 =? 0) with false. cbn iota. unfold wait. rewrite Ha3. split_and!; try done.
    intros _ j. cbn [step thread_ set_thread]. change (Z.of_nat MAXIMUM_WAIT_OBJECTS <? u32 (zlen [] - 1)) with true. cbn iota.
    change (wait_succeeds [] _) with false. cbn iota. unfold loop_body, dispatch_callback_for_index.
    munfold. cbn [handles set_thread]. by rewrite Hh3.
  - change (zlen [y1] - 1 =? 0) with true. done.
  - set (n := zlen (y1 :: y2 :: rest)) in *. assert (2 <= n) as Hn by (unfold n, zlen; cbn [length]; lia).
    rewrite (proj2 (Z.eqb_neq _ 0)) by lia. unfold wait. rewrite Ha3, u32_small by (unfold MAXIMUM_WAIT_OBJECTS in *; lia).
    rewrite (proj2 (Z.ltb_ge _ _)) by lia. split_and!; try done.
    cbn [thread_ set_thread after_removal]. f_equal. rewrite Hh3.
    replace (Z.to_nat (n - 1)) with (length (y1 :: y2 :: rest) - 1)%nat by (unfold n, zlen; lia).
    by rewrite take_app_le by lia.
Qed.

(** A timer that cannot be created ends the timer thread.  Its entry of the array
    holds 0, which is not free any more and is not counted; after the next timer that can
    be created the thread passes it to WaitForMultipleObjects, the wait fails and the
    array is indexed with WAIT_FAILED. *)
Theorem failed_timer_ends_thread CreateWaitableTimer hs s objects i x r1 d1 p1 r2 d2 p2 j :
  timers hs s -> (length hs + 2 <= MAXIMUM_WAIT_OBJECTS)%nat ->
  thread_ s = Sleeping objects -> objects `prefix_of` hs -> objects !! i = Some x ->
  CreateWaitableTimer (created s) = 0 ->
  0 < CreateWaitableTimer (S (created s)) < INVALID_HANDLE_VALUE -> CreateWaitableTimer (S (created s)) ∉ hs ->
  run CreateWaitableTimer [Insert r1 d1 p1; Insert r2 d2 p2; Signal i; Signal j] s = Crash OutOfBounds.
Proof.
  intros Ht Hl Eth Hp Hi H0 Hv Hnew. pose proof (prefix_lookup_Some _ _ _ _ Hi Hp) as Hx.
  set (h := CreateWaitableTimer (S (created s))) in *.
  set (INV := INVALID_HANDLE_VALUE) in *.
  pose proof (valid_not_invalid _ _ Ht) as Hni.
  assert (exists m, handles s = hs ++ INV :: INV :: replicate m INV) as [m Hm].
  { rewrite (tm_handles _ _ Ht). destruct (MAXIMUM_WAIT_OBJECTS - length hs)%nat as [|[|m]] eqn:E; [lia|lia|]. by exists m. }
  set (s1 := set_handles (hs ++ 0 :: INV :: replicate m INV) (set_open (open s) (S (created s)) s)).
  assert (step CreateWaitableTimer (Insert r1 d1 p1) s = Some (Ok s1)) as Hs1.
  { cbn [step]. unfold insert_callback, find_free_handle, create_timer_object. munfold. cbv zeta. rewrite Hm.
    rewrite find_prefix by done. cbn [fmap option_fmap option_map fst]. rewrite H0. cbn.
    by rewrite Hm, insert_app_r_alt, Nat.sub_diag by lia. }
  set (s2 := Timer (hs ++ 0 :: h :: replicate m INV) (<[h := new_callback r2 d2 p2]> (callbacks s)) [] (zlen hs + 1)
               (Sleeping objects) ({[h]} ∪ open s) (S (S (created s))) (dispatched s)).
  assert (callbacks s !! h = None) as Hnone.
  { apply not_elem_of_dom. rewrite (tm_callbacks _ _ Ht). by rewrite elem_of_list_to_set. }
  assert (step CreateWaitableTimer (Insert r2 d2 p2) s1 = Some (Ok s2)) as Hs2.
  { cbn [step]. unfold insert_callback, find_free_handle, create_timer_object. munfold. cbv zeta. unfold s1.
    cbn [handles set_handles set_open created].
    change (hs ++ 0 :: INV :: replicate m INV) with (hs ++ [0] ++ INV :: replicate m INV). rewrite app_assoc.
    rewrite find_prefix by (done || (apply Forall_app; by split; [|constructor])). cbn [fmap option_fmap option_map fst].
    cbn [created set_handles set_open]. fold h. rewrite (proj2 (Z.eqb_neq h 0)) by lia. cbn [callbacks set_callbacks set_handles set_open open]. rewrite Hnone.
    cbn [handles set_handles]. rewrite insert_app_r_alt, Nat.sub_diag by lia.
    unfold insert_handle, set_active, set_callbacks, set_handles, set_open, s2.
    cbn [to_result active_callbacks handles callbacks_to_remove thread_ dispatched callbacks mret KM_ret].
    rewrite Eth, (tm_active _ _ Ht), (tm_remove _ _ Ht).
    by rewrite <- app_assoc. }
  assert (wait_succeeds objects s2 = true) as Hsucc.
  { pose proof (wait_succeeds_prefix _ _ _ Ht Hp ltac:(by intros ->)) as Hw. unfold wait_succeeds in *.
    apply andb_prop in Hw as [-> Hw]. cbn [andb]. rewrite forallb_forall in Hw |- *. intros y Hy. apply Hw in Hy.
    apply bool_decide_eq_true in Hy. apply bool_decide_eq_true. cbn [open s2]. set_solver. }
  destruct (dispatch_ok _ _ _ _ Ht Hx) as (cb & Hcb & _).
  assert (x <> h) as Hxh by (intros ->; apply Hnew; by eapply list_elem_of_lookup_2).
  set (s3 := set_thread (Sleeping (hs ++ [0])) (add_dispatched (callback_routine cb) s2)).
  assert (step CreateWaitableTimer (Signal i) s2 = Some (Ok s3)) as Hs3.
  { cbn [step thread_ s2]. rewrite Hsucc, (proj2 (Nat.ltb_lt i _)) by (by eapply lookup_lt_Some).
    unfold loop_body, dispatch_callback_for_index, query_removal_queue. munfold. unfold s2. cbn [handles callbacks].
    rewrite znth_of_nat, (lookup_app_l_Some _ _ _ _ Hx), lookup_insert_ne, Hcb by done.
    cbn [callbacks_to_remove add_dispatched removal_loop]. munfold. cbn [active_callbacks set_remove add_dispatched].
    pose proof (zlen_nonneg hs). rewrite (proj2 (Z.eqb_neq _ 0)) by lia. unfold wait. cbn [active_callbacks set_remove add_dispatched handles].
    rewrite u32_small by (unfold zlen, MAXIMUM_WAIT_OBJECTS in *; lia).
    rewrite (proj2 (Z.ltb_ge _ _)) by (unfold zlen in *; lia).
    replace (Z.to_nat (zlen hs + 1)) with (length (hs ++ [0])) by (unfold zlen; rewrite length_app; cbn; lia).
    assert (take (length (hs ++ [0])) (hs ++ 0 :: h :: replicate m INV) = hs ++ [0]) as ->; [|done].
    change (hs ++ 0 :: h :: replicate m INV) with (hs ++ [0] ++ h :: replicate m INV).
    by rewrite app_assoc, take_app_length. }
  assert (wait_succeeds (hs ++ [0]) s3 = false) as Hfail.
  { unfold wait_succeeds. apply andb_false_iff. right. apply not_true_iff_false. rewrite forallb_forall. intros Hall.
    assert (In 0 (hs ++ [0])) as Hin by (apply in_or_app; right; by left). apply Hall, bool_decide_eq_true in Hin.
    cbn [open s3 s2 set_thread add_dispatched] in Hin. rewrite (tm_open _ _ Ht) in Hin.
    apply elem_of_union in Hin as [Hin%elem_of_singleton|Hin%elem_of_list_to_set]; [lia|].
    apply (tm_valid _ _ Ht) in Hin. lia. }
  assert (step CreateWaitableTimer (Signal j) s3 = Some (Crash OutOfBounds)) as Hs4.
  { cbn [step thread_ s3 set_thread]. rewrite Hfail. unfold loop_body, dispatch_callback_for_index. munfold.
    unfold s3. cbn [handles s2 set_thread add_dispatched]. unfold znth. change (WAIT_FAILED <? 0) with false. cbn iota.
    rewrite lookup_ge_None_2; [done|].
    pose proof (f_equal length (tm_handles _ _ Ht)) as Hlen. rewrite Hm, !length_app in Hlen. cbn [length] in Hlen.
    rewrite !length_replicate in Hlen. rewrite length_app. cbn [length]. rewrite length_replicate.
    unfold WAIT_FAILED, MAXIMUM_WAIT_OBJECTS in *. lia. }
  cbn [run]. by rewrite Hs1, Hs2, Hs3, Hs4.
Qed.

(** *** Due times *)

(** The first due time is in the past.  [seconds_to_nanoseconds] gives the due time in
    units of 100 nanoseconds with a positive sign, which SetWaitableTimer takes for a
    time since 1601, where a delay is negative: for every number of seconds up to 2^31 the
    time is before the year 1970, so the timer is signalled at once.  The period is in
    milliseconds, as long as it is an [int]. *)
Theorem due_time_is_absolute due p :
  0 <= due < 2 ^ 31 -> 0 <= p <= 2147483 ->
  let cb := new_callback 0 due p in
  due_time cb = 10000000 * due /\ 0 <= due_time cb < 116444736000000000 /\ period cb = 1000 * p.
Proof.
  intros Hd Hp. cbn [due_time period new_callback]. unfold seconds_to_nanoseconds, SECONDS, MILLISECONDS, MICROSECONDS.
  change (NANOSECONDS 1000) with 10. rewrite u64_small by lia. split; [lia|]. split; [lia|].
  unfold seconds_to_milliseconds. rewrite s32_small, u32_small by lia. lia.
Qed.

(** *** Witnesses *)

Definition sample_timers (n : nat) : Z := 4 * Z.of_nat (S n).

Lemma sample_valid n : (n < MAXIMUM_WAIT_OBJECTS)%nat -> 0 < sample_timers n < INVALID_HANDLE_VALUE.
Proof. unfold sample_timers, MAXIMUM_WAIT_OBJECTS, INVALID_HANDLE_VALUE. lia. Qed.
Lemma sample_distinct : NoDup (sample_timers <$> seq 0 MAXIMUM_WAIT_OBJECTS).
Proof. apply NoDup_fmap_2; [|apply NoDup_seq]. intros m n. unfold sample_timers. lia. Qed.

(** Two timers, the second inserted while the thread sleeps. *)
Definition sample_timer_schedule : list action := [Insert 7 30 30; Start; Insert 8 60 60; Signal 0].
Definition sample_timer_state : timer :=
  match run sample_timers sample_timer_schedule new_timer with Ok s => s | Crash _ => new_timer end.

Lemma sample_timer_ok : timers [4; 8] sample_timer_state.
Proof.
  destruct (working_run sample_timers sample_valid sample_distinct sample_timer_schedule new_timer (working_new _))
    as (s & Hrun & Ht & _); [by repeat constructor|].
  assert (sample_timer_state = s) as -> by (unfold sample_timer_state; by rewrite Hrun).
  assert (created s = 2%nat) as Hc.
  { assert (match run sample_timers sample_timer_schedule new_timer with Ok s => created s | Crash _ => 0%nat end = 2%nat)
      as H by (vm_compute; reflexivity). by rewrite Hrun in H. }
  unfold created_handles in Ht. by rewrite Hc in Ht.
Qed.

Lemma signalled_timer_runs_its_callback_witness :
  exists s cb, run sample_timers sample_timer_schedule new_timer = Ok s /\ dispatched s = [7%nat] /\
    callbacks s !! 8 = Some cb /\
    step sample_timers (Signal 1) s = Some (Ok (set_thread (Sleeping [4; 8]) (add_dispatched (callback_routine cb) s))).
Proof.
  destruct (signalled_timer_runs_its_callback sample_timers sample_valid sample_distinct sample_timer_schedule)
    as (s & Hrun & _ & Hsig); [by repeat constructor|].
  assert (match run sample_timers sample_timer_schedule new_timer with
          | Ok s => dispatched s = [7%nat] /\ thread_ s = Sleeping [4; 8] /\ created s = 2%nat | Crash _ => False end) as H
    by (vm_compute; done).
  rewrite Hrun in H. destruct H as (Hd & Hth & Hc). destruct (Hsig [4; 8] 1%nat 8 Hth eq_refl) as (cb & Hcb & Hstep).
  unfold created_handles in Hstep. rewrite Hc in Hstep. exists s, cb. split; [exact Hrun|]. split; [exact Hd|].
  split; [exact Hcb|exact Hstep].
Defined.

Lemma removal_is_counted_twice_witness :
  exists s', run sample_timers [Remove 4; Signal 1] sample_timer_state = Ok s' /\ thread_ s' = Returned.
Proof.
  destruct (removal_is_counted_twice sample_timers [4; 8] [] 4 [8] sample_timer_state [4; 8] 1 8 sample_timer_ok)
    as (s' & rest & Hrun & Hperm & _ & _ & _ & _ & Hth & _); [reflexivity|reflexivity|exists []; reflexivity|reflexivity|].
  exists s'. split; [exact Hrun|]. rewrite Hth. apply Permutation_singleton_r in Hperm as ->. reflexivity.
Defined.

(** The third timer cannot be created. *)
Definition failing_timers (n : nat) : Z := if Nat.eqb n 2 then 0 else sample_timers n.

Lemma failed_timer_ends_thread_witness :
  run failing_timers [Insert 9 10 10; Insert 10 10 10; Signal 0; Signal 0] sample_timer_state = Crash OutOfBounds.
Proof.
  apply (failed_timer_ends_thread failing_timers [4; 8] sample_timer_state [4; 8] 0 4); try reflexivity.
  - exact sample_timer_ok.
  - cbn. unfold MAXIMUM_WAIT_OBJECTS. lia.
  - vm_compute. split; reflexivity.
  - apply (bool_decide_eq_true_1 _). vm_compute. reflexivity.
Defined.

Lemma due_time_is_absolute_witness :
  due_time (new_callback 0 30 30) = 300000000 /\ period (new_callback 0 30 30) = 30000.
Proof. destruct (due_time_is_absolute 30 30) as (H1 & _ & H2); [lia|lia|]. split; [exact H1|exact H2]. Defined.

End Timers.

(** ** threadpool.cpp *)

Module ThreadPool.

Section pool.
Context {J : Type}.

(** A thread waits for a job, runs one, or has ended. *)
Inductive pool_thread := Idle | Running (job : J) | Ended.

(** [locked] is the mutex of the queue, outside the steps below, and [started] the jobs
    that were begun, in order. *)
Record thread_pool := Pool {
  jobs : list J;
  should_terminate : bool;
  threads : list pool_thread;
  locked : bool;
  started : list J;
}.

Definition new_pool (thread_count : nat) : thread_pool := Pool [] false (replicate thread_count Idle) false [].

Definition queue_job (job : J) (s : thread_pool) : thread_pool :=
  Pool (jobs s ++ [job]) (should_terminate s) (threads s) (locked s) (started s).

Definition terminate (s : thread_pool) : thread_pool :=
  Pool (jobs s) true (threads s) (locked s) (started s).

(** One turn of [wait_for_task] of thread [t]: [None] while the condition does not hold. *)
Definition wait_for_task (t : nat) (s : thread_pool) : option thread_pool :=
  match threads s !! t with
  | Some Idle =>
      if should_terminate s then Some (Pool (jobs s) true (<[t := Ended]> (threads s)) (locked s) (started s))
      else match jobs s with
           | [] => None
           | job :: rest =>
               Some (Pool rest false (<[t := Running job]> (threads s)) (locked s) (started s ++ [job]))
           end
  | _ => None
  end.

(** The job of thread [t] returns. *)
Definition job_returns (t : nat) (s : thread_pool) : option thread_pool :=
  match threads s !! t with
  | Some (Running _) => Some (Pool (jobs s) (should_terminate s) (<[t := Idle]> (threads s)) (locked s) (started s))
  | _ => None
  end.

Definition acquire : KM thread_pool unit := fun s =>
  if locked s then Crash Deadlock else Ok (tt, Pool (jobs s) (should_terminate s) (threads s) true (started s)).
Definition unlock : KM thread_pool unit := fun s =>
  if locked s then Ok (tt, Pool (jobs s) (should_terminate s) (threads s) false (started s)) else Crash BadFree.

(** The destructor of the [unique_lock] unlocks the mutex again. *)
Definition busy_wait : KM thread_pool bool :=
  acquire ≫= fun _ =>
  pool_busy ← gets (fun s => match jobs s with [] => false | _ => true end);
  unlock ≫= fun _ =>
  unlock ≫= fun _ =>
  mret pool_busy.

Inductive action := Queue (job : J) | Turn (t : nat) | Return (t : nat) | Terminate.

Definition step (a : action) (s : thread_pool) : thread_pool :=
  match a with
  | Queue job => queue_job job s
  | Turn t => default s (wait_for_task t s)
  | Return t => default s (job_returns t s)
  | Terminate => terminate s
  end.

Definition run (l : list action) (s : thread_pool) : thread_pool := foldl (fun s a => step a s) s l.

Definition queued (l : list action) : list J := omap (fun a => match a with Queue j => Some j | _ => None end) l.

Lemma step_conserves a s :
  started (step a s) ++ jobs (step a s) = (started s ++ jobs s) ++ queued [a] /\
  (should_terminate s = true -> started (step a s) = started s /\ should_terminate (step a s) = true).
Proof.
  destruct a as [job|t|t|]; cbn [step queued omap list_omap].
  - unfold queue_job. cbn. by rewrite app_assoc.
  - unfold wait_for_task. destruct (threads s !! t) as [[| |]|]; cbn; rewrite ?app_nil_r; [|done..].
    destruct (should_terminate s) eqn:E; cbn; [done|]. destruct (jobs s) as [|job rest] eqn:Ej; cbn; rewrite ?Ej; [done|].
    by rewrite <- app_assoc.
  - unfold job_returns. destruct (threads s !! t) as [[| |]|]; cbn; by rewrite ?app_nil_r.
  - cbn. by rewrite app_nil_r.
Qed.


(** [busy_wait] unlocks a mutex it does not hold any more. *)
Theorem busy_wait_unlocks_twice s : locked s = false -> busy_wait s = Crash BadFree.
Proof. intros H. unfold busy_wait, acquire, unlock. munfold. by rewrite H. Qed.
End pool.

Lemma busy_wait_unlocks_twice_witness : busy_wait (queue_job 3%nat (new_pool 4)) = Crash BadFree.
Proof. apply (busy_wait_unlocks_twice (queue_job 3%nat (new_pool 4))). reflexivity. Defined.

End ThreadPool.
